(* ===== verification/_CoqProject ===== *)
-Q . S2P
Prelude.v
Digest.v
Json.v
JsonBoundary.v
Decimal.v
Core.v
Decoding.v
Values.v
Builtins.v
DataProtection.v
HashTexts.v
Ir.v
NsoSchema.v
NsoCodec.v
Bounds.v
Security.v
AuditTrail.v
WriteRecords.v
RuntimeModels.v
Tools.v
WriteIntent.v
Idempotency.v
Validation.v
Runtime.v
Steps.v
Costs.v
Safety.v
Checkpoints.v
Restoration.v
SchemaFacts.v
Artifacts.v
Discipline.v
SchemaErrors.v
Approval.v
Approvals.v
Execution.v
Outcomes.v
Scenarios.v
WriteExecution.v
Verification.v
Controlled.v
Source.v
Lexer.v
LexerFacts.v
Parser.v
ParserFacts.v
Symbols.v
Includes.v
Compiler.v
IncludeFacts.v
Typing.v
Trees.v
CompilerFacts.v
Trust.v
ProtectedSnapshots.v
WriteReplay.v
Packages.v
PackageFacts.v
PackageChains.v
AuditPersistence.v
TrustedWrite.v
