(* ===== verification/Prelude.v ===== *)
(** * NeX Skill Language kernel: verification development

    The kernel under [src/nsl/] executes Skills: programs of LET, FOREACH,
    CHECK, EMIT, APPROVE and READ/WRITE tool calls, compiled to a Skill object
    with a semantic hash. A run is authorized, preflighted, interpreted under
    static and dynamic resource limits, and every step is written to a
    hash-chained audit trail. A WRITE is prepared as an intent, bound to an
    idempotency key and to an approval, guarded, and executed against a
    provider with durable evidence before and after the call. This development
    models those parts as executable definitions and proves what they promise.

    ** Parts, files and sources

    - [Prelude]: exceptions ([exn_class] is the class hierarchy), the [result]
      of code that may raise, the state monad [M] of code that also keeps
      state, texts, dicts; the reasoning tools ([inv_result], [wp],
      [raises_only], [steps R]: what a computation does to the state on every
      outcome, [pays]: what it costs at most).
    - [Digest], [Json], [Decimal]: SHA-256, UTF-8, canonical JSON
      ([ir.canonical_json]), decimal arithmetic of the default context.
      [JsonBoundary] ([json_boundary.py]): the strict JSON reader.
    - [Core] ([core.py]): enumerations, classification, Money, type
      references, envelopes, value encoding; [Decoding]: the reading of encoded
      values. [Values]: the Python operators of
      the values a Skill computes with. [Builtins] ([builtins.py]).
    - [DataProtection] ([data_protection.py]): credential patterns, redaction.
    - [Ir] ([ir.py]): expressions, statements, Skill objects, semantic hash.
      [Bounds] ([bounds.py]): the static analyzer. [NsoSchema]
      ([ir_schema.py]) and [NsoCodec] ([ir.py], [integrity.py]): the artifact
      boundary of Skill objects, their schema and codec; [SchemaFacts],
      [Artifacts], [Discipline] and [SchemaErrors] prove what it keeps,
      enforces and refuses.
    - [Security] ([security.py]): principals and the default-deny authorizer.
    - [AuditTrail] ([audit.py]): events, recorder, development snapshot store.
      [AuditPersistence] ([audit_persistence.py]): the store that keeps events
      and retentions in a file of JSON lines, over a disk that may fail; its
      refinement of a log, its tamper evidence and two of its defects.
    - [RuntimeModels] ([runtime_models.py]): requests, results, execution
      context with scopes and meters, resource guard. [Tools] ([tools.py]):
      contracts, catalog, validators, fixture executor.
    - [Runtime] ([runtime.py]): the interpreter of expressions and statements;
      [Steps], [Costs] and [Safety] prove what its steps leave alone, cost and
      add. [Execution] ([runtime.py]): controlled plans, preflight, request
      validation, whole executions and their error handling; [Outcomes] proves
      what executions do, and [Scenarios] runs concrete ones.
    - [Checkpoints] ([checkpoints.py]): sealed documents of an execution's
      context, events, snapshots and progress; [Restoration] proves what
      capturing and restoring them keeps. [Approval] ([approval.py]):
      approval requests, evidence, suspension, validation and resumption;
      [Approvals] proves the workflow's promises.
    - [WriteIntent] ([write_intent.py]), [Idempotency] ([idempotency.py]),
      [Validation] ([validation.py]: rule evaluation, pre-write evaluation,
      WRITE guard), [WriteRecords] and [WriteExecution]
      ([write_execution.py]: requests, records and the commit-aware executor).
      [Verification] ([verification.py]): the check after a WRITE and its
      evidence. [Controlled] ([runtime.py]): the approved continuation of a
      controlled plan, from its resumption to its sealed result.
    - [Trust] ([trust.py], [preflight.py]): package trust evidence, verified
      artifacts, execution trust profiles and the trust preflight.
      [ProtectedSnapshots] ([protected_snapshots.py]): the snapshot store that
      seals what is confidential. [WriteReplay] ([write_replay.py],
      [write_replay_execution.py]): the recorded evidence of a WRITE and the
      executors that replay it. [HashTexts] holds what the credential patterns
      make of texts such as hashes. [TrustedWrite] ([preflight.py],
      [write_execution.py]): the commit-aware executor behind the preflight.
    - [Packages] ([nsp.py], [nsp_signatures.py], [nsp_verification.py]):
      manifests, signature metadata, the builder and the verifier of packages;
      [PackageFacts] proves what a verified package is, and [PackageChains]
      follows one from the builder to the trust preflight.

    - [Source], [Lexer] and [Parser] ([source.py], [diagnostics.py],
      [syntax.py]): source files, tokens and the Pratt parser with
      its syntax tree. [Symbols] ([symbols.py], [type_system.py]): scoped symbol
      table and static type checker. [Includes] ([includes.py]): include paths,
      bundles and their composition. [Compiler] ([compiler.py]): binding of
      approvals, WRITE safety, lowering, limits and the compiler itself.
      [LexerFacts], [ParserFacts], [IncludeFacts] and [CompilerFacts] prove what
      each phase gives, over the type system of [Typing] and the well-formed
      trees of [Trees].

    ** How they interact

    The interpreter works on a [Machine]: the [ExecutionContext], the audit
    recorder and the history of all calls to the outside. A foreign port (audit
    sink, snapshot store, tools, measurement sink, wall clock, debug sink,
    provider, evidence store) is a field of a record of ports and answers from
    the history of calls before it, so its answers are arbitrary and the
    theorems hold for all of them; what a port is assumed to do is a hypothesis
    of the theorem ([dependable_sink]) or a typeclass ([AuditSink],
    [LoggingSink]). The monotonic clock is a function of the number of
    readings. [Execution] runs [Runtime] inside its exception handlers; the
    WRITE executor consumes the intents, reservations and guard decisions of
    [WriteIntent], [Idempotency] and [Validation]; [Verification] judges its
    outcomes and [Controlled] composes all of it into one execution.

    ** What the theorems show

    - Executions: tools are called only after authorization and preflight and
      only as the Skill declares ([execution_effects],
      [block_effects_declared]); the preflight accepts exactly the executable
      Skills; a result is preceded by its accepted audit event; executions
      return; runs only extend the context and restore scopes; the static
      bounds are sound for every outcome.
    - Checkpoints and approvals: documents of different bytes have different
      hashes, a captured context is restored with its scopes and meters; a
      suspension saves its checkpoint before it publishes, an execution
      resumes on exactly what was suspended, a resume settles the claim it
      took on every outcome and approves on current evidence only.
    - Audit: what reaches the sink is one hash chain, the last hash binds the
      history, events round-trip, snapshots do not leave their tenant; the file
      store answers as a log does for identified events ([op_ok]), and bytes
      that open under one last hash hold one history.
    - WRITE: no provider call without an allowed guard decision and a durable
      request record, no invented commit state, exact guard specifications;
      intents and keys are bound by their hashes.
    - Artifacts: a Skill object survives its document but for the two things
      that a document does not keep ([settled_skill]), a decoded Skill obeys
      the WRITE discipline of its schema, and what is refused is refused with
      the documented errors. A verdict after a WRITE is exactly the documented
      function of commit and reference, and a controlled run completes only on
      a verified one.
    - Front end: the tokens of a source tile it; a parse of a plain source ends
      with a tree of the spans of its tokens, with a [CompileError] or at the
      end of the stack; include paths stay under
      their root, bundles are bounded and acyclic for every resolver, and a
      composition declares what its parts declare.
    - Compiler: what it returns loads again as the same Skill, is well typed
      against the catalog, keeps classifications and the WRITE discipline, and
      never exceeds the limits of its source when it runs.
    - Trust and evidence: the trust preflight admits exactly the artifacts it
      documents, a production WRITE only with current trusted evidence; what is
      confidential is kept sealed in every reachable state of the store; the
      recorded evidence of a WRITE is loaded as it was composed, and a replay is
      a queue of recorded exchanges without side effects.
    - Packages: what the builder writes is what the verifier returns; a verified
      package keeps to its limits, has exactly the safe members of its manifest
      and Skills of the stated hashes, and its hash binds all of them; the
      verifier fails with its own error or with one of its ports that it does
      not name ([escapes]); an accepted signature is what
      admits its Skills to production.
    - Data: the JSON reader inverts the canonical writer and rejects the rest
      with the documented errors; Money sums, type references, summaries, bindings, limits,
      redaction, catalogs. Binding theorems name the documents whose SHA-256
      collision is the only exception.
    - Defects: [controlled_plan_partition], [loop_check_escapes],
      [unreserved_commit_unrecorded], [redact_text_not_idempotent],
      [torn_append_unreadable] and [unidentified_append_unreadable] state
      behaviour of the code that its documents do not intend, and the examples
      [tokens_confused], [number_too_long], [nested_too_deep] and [load_nested]
      show what the front end and the JSON reader do with some inputs.

    ** Conventions and bounds

    - Integers are Python's unbounded ones ([Z]); a [string] is a text of code
      points below 256. Datetimes are instants with an optional UTC offset.
    - [except C] is [try_except] with [isinstance_exn]; [isinstance_fuel] needs
      five steps as the hierarchy is five classes deep. A guard such as
      [isinstance(x, T)] that the types discharge is left out. [OutOfModel] is
      raised where a Python value would leave the value universe.
    - Fuel: the regular expressions, [type_from_data], the schema and codec of
      Skill objects ([json_depth]), the lexer (the length of the text), the
      parser (one step per token) and the printing of numbers run on fuel
      computed from the size of their input, and lemmas show it suffices; a
      bundle is built with [max_include_depth] steps, the depth at which the
      code itself stops; everything else is structural.
    - Scopes are lists with the innermost frame first; the source keeps them
      last. Dicts are association lists where order is observable and [gmap]s
      where it is not.
    - An [Interpreter] has a stack and a limit of digits. The JSON reader, the
      decoder, the package verifier and the parser take one ([load_strict_json_within],
      [nso_decode_within], [verify_package_within], [parse_within]: one step of
      the stack for each array, object, type, expression or statement inside
      another), for the theorems on exceptions; the same functions without
      [within] are those of the interpreter whose limits are not reached
      ([unlimited]; [load_limited] relates the two for JSON). The digits of a
      number in source text are limited in [py_int] to the default of 4300.
    - [set_order] and [format_exception] are ports: the iteration order of a
      set and the text of a traceback.

    ** Not modelled

    The recursion depth of the interpreter process outside the JSON scanner and
    the parser, its memory, the digits of integers that are written out, cyclic
    values, and concurrency of one execution with itself (an execution awaits
    one call at a time). The JSON reader leaves out floats and the position of a
    syntax error; [fromisoformat] reads the spellings [isoformat] writes, others
    are [OutOfModel]. The
    format of ZIP archives, the signer and the verifier of signatures are ports
    ([ZipFormat], [NspSigner], [NspSignatureVerifier]). The replay of READ
    executions, the codec of results and the command line are listed as
    components and left out; process isolation and release scripts are I/O. *)

From stdpp Require Export base option list strings gmap fin_maps.
From Stdlib Require Export ZArith Lia Ascii Sorting.Sorted.

#[global] Arguments Ascii.eqb : simpl never.
#[global] Arguments String.eqb : simpl never.

(** ** Exceptions

    [exn_class] lists the Python exception classes that the modelled code
    raises or catches; [exn_parent] is the class hierarchy, so that an
    [except C] clause is the boolean [isinstance_exn c C]. *)

Inductive exn_class : Type :=
  (* Python *)
  | BaseException | CancelledError | KeyboardInterrupt | Exception_
  | OSError | TimeoutError | ConnectionError | PermissionError | FileNotFoundError
  | ValueError | TypeError | LookupError | KeyError | IndexError
  | ArithmeticError | ZeroDivisionError | DecimalOverflow | InvalidOperation
  | RuntimeError | RecursionError | AttributeError
  (* nsl *)
  | JSONDecodeError
  | MoneyError | MoneyValidationError | CurrencyMismatchError
  | CredentialMaterialError
  | IdempotencyError | IdempotencyRetentionError | IdempotencyConflictError
  | IdempotencyStateError
  | WriteExecutionError | ProviderInvocationUncertainError
  | WriteEvidenceError | WriteOutcomeError
  | WriteIntentError | CanonicalWriteValueError | ApprovalRefreshRequiredError
  | LimitExceeded | ImmutableBindingError
  | CheckEvaluationError | WriteEligibilityError
  | AuthorizationError | CheckpointError | ResumeClaimError
  | TrustPreflightError | PackageTrustError | VerificationError
  | UnboundedStructureError
  | BuiltinError | UnknownBuiltinError | BuiltinSignatureError
  | BuiltinEvaluationError
  | ToolExecutionError | UnknownToolContractError | IncompatibleToolVersionError
  | DuplicateToolContractError
  | RuntimeContractError | ExpressionEvaluationError
  | CompileError | NsoIntegrityError | NsoSchemaError | IntegrationContractError
  | SnapshotProtectionError | WriteReplayError | ReplaySideEffectError
  | WriteAuditError | AuditPersistenceError | AuditIntegrityError
  | NspBuildError | NspSignatureError | NspVerificationError | BadZipFile | LargeZipFile
  (* a Python value outside the value universe of the model *)
  | OutOfModel.

#[export] Instance exn_class_eq_dec : EqDecision exn_class.
Proof. solve_decision. Defined.

Definition exn_parent (c : exn_class) : option exn_class :=
  match c with
  | BaseException => None
  | CancelledError | KeyboardInterrupt | Exception_ => Some BaseException
  | OSError | ValueError | TypeError | LookupError | ArithmeticError
  | RuntimeError | AttributeError | OutOfModel => Some Exception_
  | TimeoutError | ConnectionError | PermissionError | FileNotFoundError => Some OSError
  | KeyError | IndexError => Some LookupError
  | ZeroDivisionError | DecimalOverflow | InvalidOperation => Some ArithmeticError
  | RecursionError => Some RuntimeError
  | MoneyError | CredentialMaterialError | IdempotencyError | WriteIntentError
  | PackageTrustError | UnboundedStructureError | BuiltinError
  | DuplicateToolContractError | CompileError | NsoIntegrityError | NsoSchemaError
  | IntegrationContractError | JSONDecodeError | WriteAuditError | NspBuildError
  | NspSignatureError | NspVerificationError => Some ValueError
  | MoneyValidationError | CurrencyMismatchError => Some MoneyError
  | IdempotencyRetentionError | IdempotencyConflictError
  | IdempotencyStateError => Some IdempotencyError
  | ProviderInvocationUncertainError | WriteEvidenceError
  | WriteOutcomeError => Some WriteExecutionError
  | CanonicalWriteValueError | ApprovalRefreshRequiredError =>
      Some WriteIntentError
  | WriteExecutionError | LimitExceeded | ImmutableBindingError
  | CheckEvaluationError | WriteEligibilityError | AuthorizationError
  | CheckpointError | ResumeClaimError | TrustPreflightError
  | VerificationError | ToolExecutionError | RuntimeContractError
  | SnapshotProtectionError | WriteReplayError | ReplaySideEffectError
  | AuditPersistenceError => Some RuntimeError
  | AuditIntegrityError => Some AuditPersistenceError
  | BadZipFile | LargeZipFile => Some Exception_
  | UnknownBuiltinError | BuiltinSignatureError | BuiltinEvaluationError =>
      Some BuiltinError
  | UnknownToolContractError | IncompatibleToolVersionError => Some KeyError
  | ExpressionEvaluationError => Some RuntimeContractError
  end.

(** The hierarchy is at most five classes deep. *)
Fixpoint isinstance_fuel (n : nat) (c d : exn_class) : bool :=
  bool_decide (c = d) ||
  match n, exn_parent c with
  | S n', Some p => isinstance_fuel n' p d
  | _, _ => false
  end.

Definition isinstance_exn (c d : exn_class) : bool := isinstance_fuel 5 c d.

(** An exception: its class, the machine-readable [reason_code] /
    [detail_code] it carries (empty when the class has none), its message. *)
Record exn : Type := Exn {
  ex_class : exn_class;
  ex_code : string;
  ex_msg : string
}.

#[export] Instance exn_eq_dec : EqDecision exn.
Proof. solve_decision. Defined.

(** ** Results: the outcome of pure code that may raise *)

Inductive result (A : Type) : Type :=
  | Ok (a : A)
  | Err (e : exn).
Arguments Ok {A} a.
Arguments Err {A} e.

#[export] Instance result_eq_dec `{EqDecision A} : EqDecision (result A).
Proof. solve_decision. Defined.

#[export] Instance result_ret : MRet result := fun A a => Ok a.
#[export] Instance result_bind : MBind result := fun A B f m =>
  match m with Ok a => f a | Err e => Err e end.
#[export] Instance result_fmap : FMap result := fun A B f m =>
  match m with Ok a => Ok (f a) | Err e => Err e end.

Lemma Ok_inj {A} (a b : A) : Ok a = Ok b -> a = b.
Proof. by intros [= ->]. Qed.

Definition raise {A} (c : exn_class) (msg : string) : result A :=
  Err (Exn c "" msg).

(** [if b: raise c(msg)] *)
Definition raise_if (b : bool) (c : exn_class) (msg : string) : result unit :=
  if b then raise c msg else Ok tt.

Definition is_Ok {A} (r : result A) : bool :=
  match r with Ok _ => true | Err _ => false end.

Definition from_result {A} (default : A) (r : result A) : A :=
  match r with Ok a => a | Err _ => default end.

(** [for x in xs: f(x)], stopping at the first exception. *)
Fixpoint each {A} (f : A -> result unit) (xs : list A) : result unit :=
  match xs with
  | [] => Ok tt
  | x :: xs => _ ← f x; each f xs
  end.

(** [[f(x) for x in xs]] with an [f] that may raise. *)
Fixpoint map_result {A B} (f : A -> result B) (xs : list A) : result (list B) :=
  match xs with
  | [] => Ok []
  | x :: xs => y ← f x; ys ← map_result f xs; Ok (y :: ys)
  end.

(** ** Stateful computations that may raise

    A Python exception does not undo the assignments made before it, so the
    state survives an error. *)

Definition M (S A : Type) : Type := S -> result A * S.

#[export] Instance M_ret {S} : MRet (M S) := fun A a s => (Ok a, s).
#[export] Instance M_bind {S} : MBind (M S) := fun A B f m s =>
  match m s with
  | (Ok a, s') => f a s'
  | (Err e, s') => (Err e, s')
  end.

Definition get {S} : M S S := fun s => (Ok s, s).
Definition modify {S} (f : S -> S) : M S unit := fun s => (Ok tt, f s).
Definition lift {S A} (r : result A) : M S A := fun s => (r, s).
Definition fail {S A} (c : exn_class) (msg : string) : M S A := lift (raise c msg).
Definition fail_if {S} (b : bool) (c : exn_class) (msg : string) : M S unit :=
  lift (raise_if b c msg).

(** [try: m / except C: h(e)] *)
Definition try_except {S A} (m : M S A) (handles : exn_class -> bool)
    (h : exn -> M S A) : M S A := fun s =>
  match m s with
  | (Err e, s') => if handles (ex_class e) then h e s' else (Err e, s')
  | r => r
  end.

(** [try: m finally: cleanup] *)
Definition try_finally {S A} (m : M S A) (cleanup : M S unit) : M S A := fun s =>
  let '(r, s) := m s in
  match cleanup s with
  | (Ok _, s) => (r, s)
  | (Err e, s) => (Err e, s)
  end.

(** [for x in xs: f(x)] and [[f(x) for x in xs]] in a stateful computation. *)
Definition each_M {S A} (f : A -> M S unit) : list A -> M S unit :=
  fix go l := match l with
              | [] => mret tt
              | x :: l => _ ← f x; go l
              end.

Definition map_M {S A B} (f : A -> M S B) : list A -> M S (list B) :=
  fix go l := match l with
              | [] => mret []
              | x :: l => y ← f x; ys ← go l; mret (y :: ys)
              end.

(** What a foreign object returns: a value of the announced type, or any
    other object, which the caller's [isinstance] test rejects. *)
Inductive reply (A : Type) : Type :=
  | Reply (a : A)
  | Malformed.
Arguments Reply {A} a.
Arguments Malformed {A}.

(** ** Text

    A [string] stands for a Python [str] whose code points are below 256, one
    [ascii] character per code point. *)

Definition char_code (c : ascii) : nat := nat_of_ascii c.

Definition code_between (lo hi : nat) (c : ascii) : bool :=
  (lo <=? char_code c) && (char_code c <=? hi).

(** [str.isspace] on code points below 256. *)
Definition is_space (c : ascii) : bool :=
  code_between 9 13 c || code_between 28 32 c ||
  (char_code c =? 133) || (char_code c =? 160).

Definition is_digit (c : ascii) : bool := code_between 48 57 c.
Definition is_upper (c : ascii) : bool := code_between 65 90 c.
Definition is_lower (c : ascii) : bool := code_between 97 122 c.
Definition is_ascii (c : ascii) : bool := char_code c <? 128.
Definition is_lower_hex (c : ascii) : bool := is_digit c || code_between 97 102 c.

Fixpoint string_forallb (p : ascii -> bool) (s : string) : bool :=
  match s with
  | EmptyString => true
  | String c s => p c && string_forallb p s
  end.

(** [bool(s.strip())]: some character of [s] is not white space. *)
Definition non_blank (s : string) : bool := negb (string_forallb is_space s).

(** [s.startswith(p)] and [s.removeprefix(p)]. *)
Fixpoint drop_prefix (p s : string) : option string :=
  match p, s with
  | EmptyString, _ => Some s
  | String a p, String b s => if Ascii.eqb a b then drop_prefix p s else None
  | String _ _, EmptyString => None
  end.

Definition startswith (s p : string) : bool :=
  match drop_prefix p s with Some _ => true | None => false end.

Definition removeprefix (s p : string) : string := default s (drop_prefix p s).

(** Decimal digits of a non-negative number ([str(n)]), most significant
    first. The fuel is the number of bits, which bounds the digit count. *)
Definition digit_char (n : N) : ascii := ascii_of_N (48 + n).

Fixpoint digits_fuel (fuel : nat) (n : N) (acc : string) : string :=
  let acc := String (digit_char (n mod 10)) acc in
  match fuel with
  | O => acc
  | S fuel => if (n <? 10)%N then acc else digits_fuel fuel (n / 10) acc
  end.

Definition str_of_N (n : N) : string :=
  digits_fuel (N.to_nat (N.size n)) n "".

Definition str_of_Z (z : Z) : string :=
  if (z <? 0)%Z then String "-" (str_of_N (Z.to_N (- z))) else str_of_N (Z.to_N z).

Definition str_of_nat (n : nat) : string := str_of_N (N.of_nat n).

(** [s.rjust(width, "0")] for digit strings. *)
Fixpoint zeros (n : nat) : string :=
  match n with O => "" | S n => String "0" (zeros n) end.

Definition zero_pad (width : nat) (s : string) : string :=
  (zeros (width - String.length s) +:+ s)%string.

(** [sep.join(l)] *)
Fixpoint join (sep : string) (l : list string) : string :=
  match l with
  | [] => ""
  | [x] => x
  | x :: l => (x +:+ sep +:+ join sep l)%string
  end.

(** [s.split(sep)] for a one-character separator. *)
Fixpoint split_on (sep : ascii) (s : string) : list string :=
  match s with
  | EmptyString => [EmptyString]
  | String c s =>
      if Ascii.eqb c sep then EmptyString :: split_on sep s
      else match split_on sep s with
           | [] => [String c EmptyString]
           | w :: ws => String c w :: ws
           end
  end.

(** Number of occurrences and uniqueness, as [len(set(xs)) != len(xs)] sees
    it. *)
Definition no_duplicates {A} `{EqDecision A} (xs : list A) : bool :=
  bool_decide (NoDup xs).

(** Equality of two sets given as lists, [set(xs) == set(ys)]. *)
Definition same_elements {A} `{EqDecision A} (xs ys : list A) : bool :=
  bool_decide (xs ⊆ ys) && bool_decide (ys ⊆ xs).

(** A dict with string keys in insertion order: lookup [d.get(k)] and
    assignment [d[k] = v], which keeps the position of an existing key. *)
Fixpoint assoc {A} (k : string) (d : list (string * A)) : option A :=
  match d with
  | [] => None
  | (k', v) :: d => if String.eqb k k' then Some v else assoc k d
  end.

Fixpoint assoc_set {A} (k : string) (v : A) (d : list (string * A))
  : list (string * A) :=
  match d with
  | [] => [(k, v)]
  | (k', v') :: d =>
      if String.eqb k k' then (k, v) :: d else (k', v') :: assoc_set k v d
  end.

(** [tuple(dict.fromkeys(xs))]: the first occurrence of every element. *)
Definition dict_keys {A} `{EqDecision A} (xs : list A) : list A :=
  fold_left (fun seen x => if bool_decide (x ∈ seen) then seen else seen ++ [x]) xs [].

(** ** Limits of the interpreter

    Python bounds how deep calls nest and how many digits [int] reads. [None]
    is a limit that is not reached. *)
Record Interpreter : Type := MkInterpreter {
  in_stack : option nat;
  in_digits : option nat
}.

Definition unlimited : Interpreter := MkInterpreter None None.

(** One call deeper. *)
Definition enter (i : Interpreter) : result Interpreter :=
  match in_stack i with
  | None => Ok i
  | Some O => raise RecursionError "maximum recursion depth exceeded"
  | Some (S n) => Ok (MkInterpreter (Some n) (in_digits i))
  end.

(** [int] of a text of [n] digits. *)
Definition read_digits (i : Interpreter) (n : nat) : result unit :=
  match in_digits i with
  | Some m => raise_if (m <? n) ValueError "Exceeds the limit for integer string conversion"
  | None => Ok tt
  end.

(** [sys.int_info.default_max_str_digits] *)
Definition default_max_str_digits : nat := 4300.

(** The errors of an interpreter that has these limits. *)
Definition limit_error (i : Interpreter) (e : exn) : Prop :=
  (ex_class e = RecursionError /\ in_stack i <> None)
  \/ (ex_class e = ValueError /\ in_digits i <> None).

Lemma unlimited_error e : ~ limit_error unlimited e.
Proof. by intros [[_ []] | [_ []]]. Qed.

Lemma enter_error i e : enter i = Err e -> ex_class e = RecursionError /\ in_stack i <> None.
Proof. unfold enter. destruct (in_stack i) as [[|n]|] eqn:E; intros [= <-]. by split. Qed.

Lemma enter_stack i i' : enter i = Ok i' ->
  (in_stack i' <> None -> in_stack i <> None) /\ in_digits i' = in_digits i.
Proof. unfold enter. destruct i as [[[|n]|] m]; cbn; intros [= <-]; by split. Qed.

Lemma enter_limits i i' e : enter i = Ok i' -> limit_error i' e -> limit_error i e.
Proof.
  intros [Hs Hd]%enter_stack [[? ?] | [? ?]]; [left; auto | right; by rewrite <- Hd].
Qed.

Lemma read_digits_error i n e : read_digits i n = Err e -> limit_error i e.
Proof.
  unfold read_digits. destruct (in_digits i) as [m|] eqn:E; [| done].
  unfold raise_if. destruct (m <? n); intros [= <-]. right. by rewrite E.
Qed.

(** ** Reasoning about results *)

Create HintDb nsl.

Section ResultLemmas.
Context {A B : Type}.

Lemma bind_Ok (m : result A) (f : A -> result B) (b : B) :
  (m ≫= f) = Ok b <-> exists a, m = Ok a /\ f a = Ok b.
Proof.
  destruct m as [a|e]; cbn; split.
  - eauto.
  - intros (a' & [= <-] & H). exact H.
  - discriminate.
  - intros (a' & H & _). discriminate.
Qed.

Lemma bind_intro (a : A) (m : result A) (f : A -> result B) (b : B) :
  m = Ok a -> f a = Ok b -> (m ≫= f) = Ok b.
Proof. intros -> H. exact H. Qed.

Lemma bind_Err (m : result A) (f : A -> result B) (e : exn) :
  (m ≫= f) = Err e <-> m = Err e \/ exists a, m = Ok a /\ f a = Err e.
Proof.
  destruct m as [a|e']; cbn; split; [eauto | intros [H|(a' & [= <-] & H)] | |];
    try discriminate; try exact H; [intros [= ->]; by left |].
  intros [[= ->]|(a' & H & _)]; [done | discriminate].
Qed.

End ResultLemmas.

Section ResultIteration.
Context {A B : Type}.

Lemma each_Ok (f : A -> result unit) (xs : list A) :
  each f xs = Ok tt <-> Forall (fun x => f x = Ok tt) xs.
Proof.
  induction xs as [|x xs IH]; [by split |].
  rewrite Forall_cons, <- IH.
  change (each f (x :: xs)) with (_ ← f x; each f xs).
  rewrite bind_Ok. split.
  - intros ([] & H1 & H2). by split.
  - intros [H1 H2]. eauto.
Qed.

Lemma map_result_Ok (f : A -> result B) (xs : list A) (ys : list B) :
  map_result f xs = Ok ys <-> Forall2 (fun x y => f x = Ok y) xs ys.
Proof.
  revert ys; induction xs as [|x xs IH]; intros ys.
  - split; [intros [= <-]; constructor | by inversion 1].
  - change (map_result f (x :: xs))
      with (y ← f x; ys ← map_result f xs; Ok (y :: ys)).
    rewrite bind_Ok. split.
    + intros (y & H1 & H2). apply bind_Ok in H2 as (zs & H2 & [= <-]).
      constructor; [done |]. by apply IH.
    + inversion 1 as [|? y ? zs ? H2]; subst. exists y. split; [done |].
      apply bind_Ok. exists zs. by rewrite IH.
Qed.

Lemma map_result_total (f : A -> B) (xs : list A) :
  map_result (fun x => Ok (f x)) xs = Ok (map f xs).
Proof. induction xs as [|x xs IH]; cbn; [done | by rewrite IH]. Qed.
End ResultIteration.

Lemma raise_if_Ok (b : bool) c msg u : raise_if b c msg = Ok u <-> b = false.
Proof. destruct b, u; cbn; split; (discriminate || done). Qed.

Lemma raise_if_Err (b : bool) c msg e :
  raise_if b c msg = Err e <-> b = true /\ e = Exn c "" msg.
Proof.
  destruct b; cbn; unfold raise; split; [intros [= <-] | intros [_ ->] | |];
    done || (intros [? _]; discriminate).
Qed.

(** [raises_only c m]: when [m] raises, it raises a [c]. *)
Definition raises_only {A} (c : exn_class) (m : result A) : Prop :=
  forall e, m = Err e -> ex_class e = c.

Lemma raises_only_bind {A B} c (m : result A) (f : A -> result B) :
  raises_only c m -> (forall a, m = Ok a -> raises_only c (f a)) -> raises_only c (m ≫= f).
Proof.
  intros Hm Hf e H. apply bind_Err in H as [H | (a & H1 & H2)]; [by apply Hm | by eapply Hf].
Qed.

Lemma raises_only_raise_if b c msg : raises_only c (raise_if b c msg).
Proof. intros e H. by apply raise_if_Err in H as [_ ->]. Qed.

Lemma raises_only_Ok {A} c (a : A) : raises_only c (Ok a).
Proof. discriminate. Qed.

Lemma raises_only_raise {A} c code msg : raises_only (A := A) c (Err (Exn c code msg)).
Proof. by intros e [= <-]. Qed.

Ltac raises_only_tac :=
  repeat (intros; first
    [ apply raises_only_raise_if | apply raises_only_Ok | apply raises_only_raise
    | apply raises_only_bind
    | match goal with |- raises_only _ (match ?x with _ => _ end) => destruct x eqn:? end ]).

(** [inv_result] takes apart every hypothesis that says a result computation
    returned, into the facts about its steps. *)
Ltac inv_result_step :=
  match goal with
  | H : Ok _ = Ok _ |- _ => injection H as H; try subst
  | H : Err _ = Err _ |- _ => injection H as H; try subst
  | H : Ok _ = Err _ |- _ => discriminate H
  | H : Err _ = Ok _ |- _ => discriminate H
  | H : raise _ _ = Ok _ |- _ => discriminate H
  | H : (_ ≫= _) = Ok _ |- _ => apply bind_Ok in H; destruct H as (? & ? & H)
  | H : raise_if _ _ _ = Ok _ |- _ => apply raise_if_Ok in H
  | H : (if ?b then raise _ _ else _) = Ok _ |- _ =>
      destruct b eqn:?; [discriminate H |]
  end.
Ltac inv_result := repeat (inv_result_step; cbn beta iota in *).

(** [split_bool] turns boolean conjunctions and negations into facts. *)
Ltac split_bool_step :=
  match goal with
  | H : _ && _ = true |- _ => apply andb_true_iff in H; destruct H
  | H : _ || _ = false |- _ => apply orb_false_iff in H; destruct H
  | H : negb _ = true |- _ => apply negb_true_iff in H
  | H : negb _ = false |- _ => apply negb_false_iff in H
  | H : bool_decide _ = true |- _ => apply bool_decide_eq_true in H
  | H : bool_decide _ = false |- _ => apply bool_decide_eq_false in H
  end.
Ltac split_bool := repeat split_bool_step.

(** ** A weakest precondition for [M]

    [wp m s P]: running [m] from [s] ends in an outcome and a state that
    satisfy [P]. The rules below compute it along the program. *)

Definition wp {S A} (m : M S A) (s : S) (P : result A -> S -> Prop) : Prop :=
  P (m s).1 (m s).2.

Section WpRules.
Context {S : Type}.

Lemma wp_ret {A} (a : A) (s : S) P : P (Ok a) s -> wp (mret a) s P.
Proof. exact id. Qed.

Lemma wp_bind {A B} (m : M S A) (f : A -> M S B) (s : S) P :
  wp m s (fun r s' =>
    match r with Ok a => wp (f a) s' P | Err e => P (Err e) s' end) ->
  wp (m ≫= f) s P.
Proof. unfold wp, mbind, M_bind. by destruct (m s) as [[a|e] s']. Qed.

Lemma wp_get (s : S) P : P (Ok s) s -> wp get s P.
Proof. exact id. Qed.

Lemma wp_modify (f : S -> S) (s : S) P : P (Ok tt) (f s) -> wp (modify f) s P.
Proof. exact id. Qed.

Lemma wp_lift {A} (r : result A) (s : S) P : P r s -> wp (lift r) s P.
Proof. exact id. Qed.

Lemma wp_try {A} (m : M S A) (handles : exn_class -> bool)
    (h : exn -> M S A) (s : S) (P : result A -> S -> Prop) :
  wp m s (fun r s' =>
    match r with
    | Err e => if handles (ex_class e) then wp (h e) s' P else P (Err e) s'
    | Ok a => P (Ok a) s'
    end) ->
  wp (try_except m handles h) s P.
Proof.
  unfold wp, try_except. destruct (m s) as [[a|e] s']; [done |]; cbn.
  by destruct (handles (ex_class e)).
Qed.

Lemma M_bind_Ok {A B} (m : M S A) (f : A -> M S B) (s s' : S) (b : B) :
  (m ≫= f) s = (Ok b, s') <-> exists a s1, m s = (Ok a, s1) /\ f a s1 = (Ok b, s').
Proof.
  unfold mbind, M_bind. destruct (m s) as [[a|e] s1]; split.
  - eauto.
  - intros (a' & s2 & [= <- <-] & H). exact H.
  - discriminate.
  - intros (a' & s2 & H & _). discriminate.
Qed.

Lemma M_bind_intro {A B} (a : A) (s1 : S) (m : M S A) (f : A -> M S B) (s : S) r :
  m s = (Ok a, s1) -> f a s1 = r -> (m ≫= f) s = r.
Proof. unfold mbind, M_bind. by intros ->. Qed.

Lemma M_bind_fail {A B} (e : exn) (s1 : S) (m : M S A) (f : A -> M S B) (s : S) :
  m s = (Err e, s1) -> (m ≫= f) s = (Err e, s1).
Proof. unfold mbind, M_bind. by intros ->. Qed.

Lemma wp_mono {A} (m : M S A) (s : S) (P Q : result A -> S -> Prop) :
  (forall r s', P r s' -> Q r s') -> wp m s P -> wp m s Q.
Proof. intros H. apply H. Qed.
End WpRules.

Lemma map_M_Ok {S A B} (f : A -> M S B) (l : list A) (s s' : S) (ys : list B) :
  map_M f l s = (Ok ys, s') ->
  Forall2 (fun x y => exists s1 s2, f x s1 = (Ok y, s2)) l ys.
Proof.
  revert s ys; induction l as [|x l IH]; intros s ys H.
  - injection H as <- <-. constructor.
  - change (map_M f (x :: l)) with (y ← f x; ys ← map_M f l; mret (y :: ys)) in H.
    apply M_bind_Ok in H as (y & s1 & Hy & H). apply M_bind_Ok in H as (zs & s2 & Hz & H).
    injection H as <- <-. constructor; [by exists s, s1 | by eapply IH].
Qed.

(** ** What a computation does to the state on every outcome

    [steps R m]: whether [m] returns or raises, the state after is related by
    the preorder [R] to the state before. *)

Definition steps {S A} (R : S -> S -> Prop) (m : M S A) : Prop := forall s, R s (m s).2.

Section Steps.
Context {S : Type} (R : S -> S -> Prop) `{!PreOrder R}.

Lemma steps_ret {A} (a : A) : steps R (mret a).
Proof. intros s. reflexivity. Qed.

Lemma steps_get : steps R get.
Proof. intros s. reflexivity. Qed.

Lemma steps_lift {A} (r : result A) : steps R (lift r).
Proof. intros s. reflexivity. Qed.

Lemma steps_fail {A} c msg : steps R (fail (A := A) c msg).
Proof. intros s. reflexivity. Qed.

Lemma steps_fail_if b c msg : steps R (fail_if b c msg).
Proof. intros s. reflexivity. Qed.

Lemma steps_bind {A B} (m : M S A) (f : A -> M S B) :
  steps R m -> (forall a, steps R (f a)) -> steps R (m ≫= f).
Proof.
  intros Hm Hf s. unfold mbind, M_bind. specialize (Hm s). destruct (m s) as [[a|e] s1]; [| exact Hm].
  etransitivity; [exact Hm | apply Hf].
Qed.

(** The continuation runs after a successful run of [m]. *)
Lemma steps_bind_after {A B} (m : M S A) (f : A -> M S B) :
  steps R m -> (forall s a s', m s = (Ok a, s') -> R s (f a s').2) -> steps R (m ≫= f).
Proof.
  intros Hm Hf s. unfold mbind, M_bind. specialize (Hm s). specialize (Hf s).
  destruct (m s) as [[a|e] s1]; [by apply Hf | exact Hm].
Qed.

Lemma steps_weaken {A} (Q : S -> S -> Prop) (m : M S A) :
  (forall s s', Q s s' -> R s s') -> steps Q m -> steps R m.
Proof. intros HQ Hm s. apply HQ, Hm. Qed.

Lemma steps_try {A} (m : M S A) (handles : exn_class -> bool) (h : exn -> M S A) :
  steps R m -> (forall e, steps R (h e)) -> steps R (try_except m handles h).
Proof.
  intros Hm Hh s. unfold try_except. specialize (Hm s).
  destruct (m s) as [[a|e] s1]; [exact Hm |]. destruct (handles (ex_class e)); [| exact Hm].
  etransitivity; [exact Hm | apply Hh].
Qed.

Lemma steps_each {A} (f : A -> M S unit) (l : list A) :
  Forall (fun x => steps R (f x)) l -> steps R (each_M f l).
Proof.
  induction 1 as [|x l Hx _ IH]; [apply steps_ret | by apply steps_bind].
Qed.

Lemma steps_map {A B} (f : A -> M S B) (l : list A) :
  Forall (fun x => steps R (f x)) l -> steps R (map_M f l).
Proof.
  induction 1 as [|x l Hx _ IH]; [apply steps_ret |]. apply steps_bind; [done | intros y].
  apply steps_bind; [done | intros ys; apply steps_ret].
Qed.
End Steps.

(** ** What a computation costs

    [pays f n m]: on every outcome [m] raises the measure [f] of the state by
    at most [n]. *)

Definition pays {S A} (f : S -> Z) (n : Z) (m : M S A) : Prop :=
  forall s, (f (m s).2 <= f s + n)%Z.

Definition sum_by {A} (f : A -> Z) (l : list A) : Z :=
  fold_right (fun x n => (f x + n)%Z) 0%Z l.

Lemma sum_by_nonneg {A} (f : A -> Z) l :
  Forall (fun x => (0 <= f x)%Z) l -> (0 <= sum_by f l)%Z.
Proof. unfold sum_by. induction 1; cbn; lia. Qed.

Section Pays.
Context {S : Type} (f : S -> Z).

Lemma pays_mono {A} n n' (m : M S A) : pays f n m -> (n <= n')%Z -> pays f n' m.
Proof. intros H Hn s. specialize (H s). lia. Qed.

Lemma pays_steps {A} (R : S -> S -> Prop) (m : M S A) :
  (forall s s', R s s' -> f s' = f s) -> steps R m -> pays f 0 m.
Proof. intros HR Hm s. specialize (Hm s). rewrite (HR _ _ Hm). lia. Qed.

Lemma pays_bind {A B} n1 n2 (m : M S A) (g : A -> M S B) :
  (0 <= n2)%Z -> pays f n1 m -> (forall a, pays f n2 (g a)) -> pays f (n1 + n2) (m ≫= g).
Proof.
  intros Hn Hm Hg s. unfold mbind, M_bind. specialize (Hm s).
  destruct (m s) as [[a|e] s1]; cbn in *; [| lia]. specialize (Hg a s1). lia.
Qed.

Lemma pays_bind_ok {A B} n1 n2 n (m : M S A) (g : A -> M S B) :
  (forall s, match (m s).1 with
             | Ok _ => f (m s).2 <= f s + n1
             | Err _ => f (m s).2 <= f s + n
             end)%Z ->
  (n1 + n2 <= n)%Z -> (forall a, pays f n2 (g a)) -> pays f n (m ≫= g).
Proof.
  intros Hm Hn Hg s. unfold mbind, M_bind. specialize (Hm s).
  destruct (m s) as [[a|e] s1]; cbn in *; [| lia]. specialize (Hg a s1). lia.
Qed.

Lemma pays_try {A} n1 n2 (m : M S A) handles (h : exn -> M S A) :
  (0 <= n2)%Z -> pays f n1 m -> (forall e, pays f n2 (h e)) ->
  pays f (n1 + n2) (try_except m handles h).
Proof.
  intros Hn Hm Hh s. unfold try_except. specialize (Hm s).
  destruct (m s) as [[a|e] s1]; cbn in *; [lia |].
  destruct (handles (ex_class e)); cbn; [| lia]. specialize (Hh e s1). lia.
Qed.

Lemma pays_finally {A} n1 n2 (m : M S A) (cleanup : M S unit) :
  pays f n1 m -> pays f n2 cleanup -> pays f (n1 + n2) (try_finally m cleanup).
Proof.
  intros Hm Hc s. unfold try_finally. specialize (Hm s). destruct (m s) as [r s1].
  specialize (Hc s1). destruct (cleanup s1) as [[u|e] s2]; cbn in *; lia.
Qed.

Lemma pays_each {A} (cost : A -> Z) (g : A -> M S unit) (l : list A) :
  Forall (fun x => 0 <= cost x /\ pays f (cost x) (g x))%Z l ->
  pays f (sum_by cost l) (each_M g l).
Proof.
  induction 1 as [|x l [Hc Hx] Hl IH].
  - intros s. cbn. lia.
  - change (pays f (cost x + sum_by cost l) (_ ← g x; each_M g l)).
    apply pays_bind; [| done | done]. apply sum_by_nonneg. eapply Forall_impl; [exact Hl | cbn; tauto].
Qed.

Lemma pays_map {A B} (cost : A -> Z) (g : A -> M S B) (l : list A) :
  Forall (fun x => 0 <= cost x /\ pays f (cost x) (g x))%Z l ->
  pays f (sum_by cost l) (map_M g l).
Proof.
  induction 1 as [|x l [Hc Hx] Hl IH].
  - intros s. cbn. lia.
  - change (pays f (cost x + sum_by cost l) (y ← g x; ys ← map_M g l; mret (y :: ys))).
    apply pays_bind; [| done | intros y].
    { apply sum_by_nonneg. eapply Forall_impl; [exact Hl | cbn; tauto]. }
    apply (pays_mono (sum_by cost l + 0)); [| lia].
    apply pays_bind; [lia | done | intros ys s; cbn; lia].
Qed.
End Pays.

(** Membership tests. *)
Lemma no_duplicates_true {A} `{EqDecision A} (xs : list A) :
  no_duplicates xs = true <-> NoDup xs.
Proof. apply bool_decide_eq_true. Qed.

Lemma same_elements_true {A} `{EqDecision A} (xs ys : list A) :
  same_elements xs ys = true <-> (forall x, x ∈ xs <-> x ∈ ys).
Proof.
  unfold same_elements. rewrite andb_true_iff, !bool_decide_eq_true.
  split; [intros [H1 H2] x; split; auto | intros H; split; intros x; by rewrite H].
Qed.

(** Dict lookups after an assignment. *)
Lemma assoc_set_eq {A} k (v : A) d : assoc k (assoc_set k v d) = Some v.
Proof.
  induction d as [|[k' v'] d IH]; cbn; [by rewrite String.eqb_refl |].
  destruct (String.eqb k k') eqn:E; cbn; [by rewrite String.eqb_refl |].
  by rewrite E.
Qed.

Lemma assoc_set_ne {A} k k' (v : A) d :
  k <> k' -> assoc k' (assoc_set k v d) = assoc k' d.
Proof.
  intros Hne. induction d as [|[j w] d IH]; cbn.
  - by rewrite (proj2 (String.eqb_neq k' k)) by congruence.
  - destruct (String.eqb_spec k j) as [->|Hj]; cbn.
    + by rewrite (proj2 (String.eqb_neq k' j)) by congruence.
    + by rewrite IH.
Qed.

Lemma assoc_elem {A} k (v : A) d : assoc k d = Some v -> (k, v) ∈ d.
Proof.
  induction d as [|[j w] d IH]; cbn; [done |].
  destruct (String.eqb_spec k j) as [->|Hj].
  - intros [= ->]. by left.
  - intros H. right. auto.
Qed.

(** ** Prefixes of strings *)

Lemma string_app_assoc (a b c : string) :
  ((a +:+ b) +:+ c = a +:+ (b +:+ c))%string.
Proof. induction a as [|x a IH]; [done |]. exact (f_equal (String x) IH). Qed.

Lemma string_length_app (a b : string) :
  String.length (a +:+ b) = String.length a + String.length b.
Proof. induction a as [|x a IH]; [done |]. exact (f_equal S IH). Qed.

Lemma drop_prefix_app (p s : string) : drop_prefix p (p +:+ s) = Some s.
Proof.
  induction p as [|c p IH]; [done |].
  change ((if Ascii.eqb c c then drop_prefix p (p +:+ s) else None) = Some s).
  by rewrite Ascii.eqb_refl.
Qed.

Lemma drop_prefix_Some (p s r : string) :
  drop_prefix p s = Some r -> s = (p +:+ r)%string.
Proof.
  revert s; induction p as [|c p IH]; intros s.
  - intros [= ->]. done.
  - destruct s as [|d s]; [discriminate |].
    change ((if Ascii.eqb c d then drop_prefix p s else None) = Some r ->
            String d s = String c (p +:+ r)).
    destruct (Ascii.eqb_spec c d) as [->|]; [|done].
    intros H. by rewrite (IH s H).
Qed.

Lemma startswith_app (p s : string) : startswith (p +:+ s) p = true.
Proof. unfold startswith. by rewrite drop_prefix_app. Qed.

Lemma removeprefix_app (p s : string) : removeprefix (p +:+ s) p = s.
Proof. unfold removeprefix. by rewrite drop_prefix_app. Qed.

Lemma string_forallb_app p (a b : string) :
  string_forallb p (a +:+ b) = string_forallb p a && string_forallb p b.
Proof.
  induction a as [|x a IH]; [done |].
  change (p x && string_forallb p (a +:+ b)
          = (p x && string_forallb p a) && string_forallb p b).
  by rewrite IH, andb_assoc.
Qed.
#[export] Hint Rewrite @string_forallb_app @string_length_app : nsl.
