(* ===== verification/Digest.v ===== *)
(** * Digests: SHA-256 and UTF-8, as the code uses them from the Python
    standard library ([hashlib.sha256(...).hexdigest()], [str.encode]).

    Bytes are [list ascii]. The digest is computed, so that the witnesses of
    the development evaluate real hashes. *)

From S2P Require Import Prelude.

Notation bytes := (list ascii).

(** The characters of a text. *)
Definition chars (s : string) : list ascii := String.list_ascii_of_string s.

(** [text.encode("utf-8")] on code points below 256. *)
Definition utf8_char (c : ascii) : bytes :=
  if is_ascii c then [c]
  else [ascii_of_N (192 + N_of_ascii c / 64);
        ascii_of_N (128 + N_of_ascii c mod 64)]%N.

Definition utf8_encode (s : list ascii) : bytes := flat_map utf8_char s.

(** ** SHA-256 *)
Module Sha256.
Local Open Scope N_scope.

Definition wrap (x : N) : N := x mod 2 ^ 32.
Definition add (x y : N) : N := wrap (x + y).
Definition rotr (n x : N) : N :=
  N.lor (N.shiftr x n) (wrap (N.shiftl x (32 - n))).
Definition compl (x : N) : N := N.lxor x (2 ^ 32 - 1).

Definition ch (x y z : N) : N := N.lxor (N.land x y) (N.land (compl x) z).
Definition maj (x y z : N) : N :=
  N.lxor (N.lxor (N.land x y) (N.land x z)) (N.land y z).
Definition bsig0 (x : N) : N :=
  N.lxor (N.lxor (rotr 2 x) (rotr 13 x)) (rotr 22 x).
Definition bsig1 (x : N) : N :=
  N.lxor (N.lxor (rotr 6 x) (rotr 11 x)) (rotr 25 x).
Definition ssig0 (x : N) : N :=
  N.lxor (N.lxor (rotr 7 x) (rotr 18 x)) (N.shiftr x 3).
Definition ssig1 (x : N) : N :=
  N.lxor (N.lxor (rotr 17 x) (rotr 19 x)) (N.shiftr x 10).

(** The constants of the standard are the first thirty-two bits of the
    fractional parts of roots of the first primes. *)
Definition is_prime (n : nat) : bool :=
  forallb (fun d => negb (Nat.eqb (Nat.modulo n d) 0)) (seq 2 (n - 2)).

Definition primes (count : nat) : list N :=
  map N.of_nat (take count (filter (fun n => is_prime n = true) (seq 2 320))).

(** The largest [r] below [2 ^ 40] whose [e]-th power is at most [n], one bit
    at a time. *)
Definition root (e n : N) : N :=
  fold_left (fun r i => let c := r + 2 ^ N.of_nat i in
                        if c ^ e <=? n then c else r) (rev (seq 0 40)) 0.

Definition frac_root (e p : N) : N := wrap (root e (p * 2 ^ (32 * e))).

Definition k : list N := Eval vm_compute in map (frac_root 3) (primes 64).

Record state : Type := State { ha : N; hb : N; hc : N; hd : N;
                               he : N; hf : N; hg : N; hh : N }.

Definition init : state :=
  Eval vm_compute in
    match map (frac_root 2) (primes 8) with
    | [a; b; c; d; e; f; g; h] => State a b c d e f g h
    | _ => State 0 0 0 0 0 0 0 0
    end.

(** Message schedule: the window holds the last sixteen words, oldest
    first; [n] words are produced. *)
Fixpoint schedule (n : nat) (window : list N) : list N :=
  match n with
  | O => []
  | S n =>
      match window with
      | w0 :: w1 :: w2 :: w3 :: w4 :: w5 :: w6 :: w7 :: w8 :: w9 :: w10 ::
        w11 :: w12 :: w13 :: w14 :: w15 :: _ =>
          let w16 := add (add (ssig1 w14) w9) (add (ssig0 w1) w0) in
          w0 :: schedule n [w1; w2; w3; w4; w5; w6; w7; w8; w9; w10; w11;
                            w12; w13; w14; w15; w16]
      | _ => []
      end
  end.

Definition round (s : state) (kw : N * N) : state :=
  let t1 := add (add (hh s) (bsig1 (he s)))
                (add (ch (he s) (hf s) (hg s)) (add kw.1 kw.2)) in
  let t2 := add (bsig0 (ha s)) (maj (ha s) (hb s) (hc s)) in
  State (add t1 t2) (ha s) (hb s) (hc s) (add (hd s) t1) (he s) (hf s) (hg s).

Definition compress (s : state) (block : list N) : state :=
  let r := fold_left round (combine k (schedule 64 block)) s in
  State (add (ha s) (ha r)) (add (hb s) (hb r)) (add (hc s) (hc r))
        (add (hd s) (hd r)) (add (he s) (he r)) (add (hf s) (hf r))
        (add (hg s) (hg r)) (add (hh s) (hh r)).

Definition be64 (n : N) : list N :=
  map (fun i => N.shiftr n i mod 256) [56; 48; 40; 32; 24; 16; 8; 0].

Definition pad (m : list N) : list N :=
  let len := N.of_nat (length m) in
  m ++ [0x80] ++ repeat 0 (N.to_nat ((119 - len mod 64) mod 64))
    ++ be64 (8 * len).

Fixpoint words (m : list N) : list N :=
  match m with
  | a :: b :: c :: d :: m =>
      (N.shiftl a 24 + N.shiftl b 16 + N.shiftl c 8 + d) :: words m
  | _ => []
  end.

Fixpoint blocks (fuel : nat) (ws : list N) : list (list N) :=
  match fuel, ws with
  | S fuel, _ :: _ => take 16 ws :: blocks fuel (drop 16 ws)
  | _, _ => []
  end.

Definition digest (m : bytes) : state :=
  let ws := words (pad (map N_of_ascii m)) in
  fold_left compress (blocks (length ws) ws) init.

Definition hex_digit (n : N) : ascii :=
  match n with
  | 0 => "0" | 1 => "1" | 2 => "2" | 3 => "3" | 4 => "4" | 5 => "5"
  | 6 => "6" | 7 => "7" | 8 => "8" | 9 => "9" | 10 => "a" | 11 => "b"
  | 12 => "c" | 13 => "d" | 14 => "e" | _ => "f"
  end%char.

Definition hex_word (w : N) (rest : string) : string :=
  fold_right (fun i s => String (hex_digit (N.shiftr w i mod 16)) s) rest
             [28; 24; 20; 16; 12; 8; 4; 0].

Definition hexdigest (m : bytes) : string :=
  let s := digest m in
  fold_right hex_word ""%string
    [ha s; hb s; hc s; hd s; he s; hf s; hg s; hh s].
End Sha256.

(** [sha256(data).hexdigest()] *)
Definition sha256_hex (m : bytes) : string := Sha256.hexdigest m.

(** ["sha256:" + sha256(data).hexdigest()] *)
Definition sha256_ref (m : bytes) : string := ("sha256:" +:+ sha256_hex m)%string.

(** Published test vectors (FIPS 180-4). *)
Example sha256_empty :
  sha256_hex [] =
  "e3b0c44298fc1c149afbf4c8996fb92427ae41e4649b934ca495991b7852b855".
Proof. vm_compute. reflexivity. Qed.

Example sha256_abc :
  sha256_hex (chars "abc") =
  "ba7816bf8f01cfea414140de5dae2223b00361a396177a9cb410ff61f20015ad".
Proof. vm_compute. reflexivity. Qed.

Example sha256_two_blocks :
  sha256_hex (chars "abcdbcdecdefdefgefghfghighijhijkijkljklmklmnlmnomnopnopq") =
  "248d6a61d20638b8e5c026930c3e6039a33ce45964ff2167f6ecedd419db06c1".
Proof. vm_compute. reflexivity. Qed.

(** ** Shape of a digest *)

Lemma hex_digit_lower n : is_lower_hex (Sha256.hex_digit n) = true.
Proof.
  destruct n as [|p]; [reflexivity |].
  do 4 (destruct p as [p|p|]; try reflexivity).
Qed.

Lemma hex_word_length w rest :
  String.length (Sha256.hex_word w rest) = 8 + String.length rest.
Proof. reflexivity. Qed.

Lemma hex_word_lower w rest :
  string_forallb is_lower_hex (Sha256.hex_word w rest)
  = string_forallb is_lower_hex rest.
Proof.
  unfold Sha256.hex_word. cbn [fold_right string_forallb].
  by rewrite !hex_digit_lower.
Qed.
#[export] Hint Rewrite hex_word_length hex_word_lower : nsl.

Lemma sha256_hex_length m : String.length (sha256_hex m) = 64.
Proof. reflexivity. Qed.

Lemma sha256_hex_lower m : string_forallb is_lower_hex (sha256_hex m) = true.
Proof.
  unfold sha256_hex, Sha256.hexdigest. cbn [fold_right].
  by rewrite !hex_word_lower.
Qed.

(** ** UTF-8 is injective *)

Definition utf8_decode_char (b : bytes) : option (ascii * bytes) :=
  match b with
  | [] => None
  | c :: b1 =>
      if is_ascii c then Some (c, b1)
      else match b1 with
           | [] => None
           | d :: b2 =>
               Some (ascii_of_N ((N_of_ascii c - 192) * 64
                                 + (N_of_ascii d - 128))%N, b2)
           end
  end.

Lemma utf8_decode_encode_char c rest :
  utf8_decode_char (utf8_char c ++ rest) = Some (c, rest).
Proof. destruct c as [[] [] [] [] [] [] [] []]; reflexivity. Qed.

Lemma utf8_char_nonempty c : utf8_char c <> [].
Proof. unfold utf8_char. by destruct (is_ascii c). Qed.

Lemma utf8_encode_inj s t : utf8_encode s = utf8_encode t -> s = t.
Proof.
  revert t; induction s as [|c s IH]; intros [|d t]; cbn; intros H; [done | | |].
  - destruct (utf8_char d) eqn:E; [by apply utf8_char_nonempty in E | done].
  - destruct (utf8_char c) eqn:E; [by apply utf8_char_nonempty in E | done].
  - pose proof (utf8_decode_encode_char c (flat_map utf8_char s)) as H1.
    rewrite H, utf8_decode_encode_char in H1. injection H1 as Hd Ht.
    rewrite Hd. f_equal. apply IH. unfold utf8_encode. congruence.
Qed.

(** [chars] loses nothing. *)
Lemma chars_inj s t : chars s = chars t -> s = t.
Proof.
  intros H. rewrite <- (String.string_of_list_ascii_of_string s).
  rewrite <- (String.string_of_list_ascii_of_string t). unfold chars in H. by rewrite H.
Qed.

Lemma chars_app s t : chars (s +:+ t) = chars s ++ chars t.
Proof.
  induction s as [|c s IH]; [done |]. exact (f_equal (cons c) IH).
Qed.

(** Two byte strings that SHA-256 cannot tell apart. *)
Definition collision (m n : bytes) : Prop := m <> n /\ sha256_ref m = sha256_ref n.

Lemma sha256_ref_or_collision m n : sha256_ref m = sha256_ref n -> m = n \/ collision m n.
Proof. intros H. destruct (decide (m = n)); [by left | by right]. Qed.
