(* ===== verification/Json.v ===== *)
(** * Canonical JSON

    [canonical_json] of [src/nsl/ir.py] (every hash of the program is taken
    over it), on the JSON values the program builds: no floating-point
    numbers. *)

From S2P Require Import Prelude Digest.

Inductive json : Type :=
  | JNull
  | JBool (b : bool)
  | JInt (z : Z)
  | JStr (s : string)
  | JArr (items : list json)
  | JObj (fields : list (string * json)).

(** ** Key order: Python compares strings by code points. *)
Fixpoint str_leb (s t : string) : bool :=
  match s, t with
  | EmptyString, _ => true
  | String _ _, EmptyString => false
  | String a s, String b t =>
      (char_code a <? char_code b)%nat
      || ((char_code a =? char_code b)%nat && str_leb s t)
  end.

Fixpoint insert_field {A} (k : string) (v : A) (d : list (string * A))
  : list (string * A) :=
  match d with
  | [] => [(k, v)]
  | (k', v') :: d' =>
      if str_leb k k' then (k, v) :: d else (k', v') :: insert_field k v d'
  end.

Definition sort_fields {A} (d : list (string * A)) : list (string * A) :=
  fold_right (fun kv acc => insert_field kv.1 kv.2 acc) [] d.

(** [sorted(xs)] on strings. *)
Fixpoint insert_string (x : string) (l : list string) : list string :=
  match l with
  | [] => [x]
  | y :: l' => if str_leb x y then x :: l else y :: insert_string x l'
  end.

Definition sort_strings (l : list string) : list string := fold_right insert_string [] l.

(** [sort_keys=True], at every level. *)
Fixpoint sorted_keys (v : json) : json :=
  match v with
  | JArr items => JArr (map sorted_keys items)
  | JObj fields =>
      JObj (sort_fields (map (fun kv => (kv.1, sorted_keys kv.2)) fields))
  | v => v
  end.

(** ** Printing, as [json.dumps(..., ensure_ascii=False,
    separators=(",", ":"))] does it *)

Definition quote : ascii := "034"%char.
Definition backslash : ascii := "092"%char.

Definition hex2 (n : N) : list ascii :=
  [Sha256.hex_digit (n / 16); Sha256.hex_digit (n mod 16)]%N.

Definition escape_char (c : ascii) : list ascii :=
  if Ascii.eqb c quote then [backslash; quote]
  else if Ascii.eqb c backslash then [backslash; backslash]
  else match char_code c with
       | 8 => [backslash; "b"%char]
       | 9 => [backslash; "t"%char]
       | 10 => [backslash; "n"%char]
       | 12 => [backslash; "f"%char]
       | 13 => [backslash; "r"%char]
       | _ => if char_code c <? 32
              then backslash :: "u"%char :: "0"%char :: "0"%char
                     :: hex2 (N_of_ascii c)
              else [c]
       end.

Definition dumps_string (s : string) : list ascii :=
  quote :: flat_map escape_char (chars s) ++ [quote].

(** [",".join(parts)] *)
Fixpoint comma_join (parts : list (list ascii)) : list ascii :=
  match parts with
  | [] => []
  | [p] => p
  | p :: ps => p ++ ","%char :: comma_join ps
  end.

Fixpoint dumps (v : json) : list ascii :=
  match v with
  | JNull => chars "null"
  | JBool true => chars "true"
  | JBool false => chars "false"
  | JInt z => chars (str_of_Z z)
  | JStr s => dumps_string s
  | JArr items => "["%char :: comma_join (map dumps items) ++ ["]"%char]
  | JObj fields =>
      "{"%char ::
      comma_join (map (fun kv => dumps_string kv.1 ++ ":"%char :: dumps kv.2)
                      fields)
      ++ ["}"%char]
  end.

Definition canonical_json (v : json) : bytes :=
  utf8_encode (dumps (sorted_keys v)).

Example canonical_json_sorts :
  canonical_json (JObj [("b", JInt (-120)); ("a", JArr [JNull; JBool true; JStr "x"])])
  = chars "{" ++ [quote] ++ chars "a" ++ [quote] ++ chars ":[null,true,"
    ++ [quote] ++ chars "x" ++ [quote] ++ chars "]," ++ [quote] ++ chars "b"
    ++ [quote] ++ chars ":-120}".
Proof. vm_compute. reflexivity. Qed.

(** ** Printing is unambiguous

    Decoders for the lexical parts, used only to show that printing loses
    nothing. *)

Definition json_rect' (P : json -> Prop)
    (Hnull : P JNull) (Hbool : forall b, P (JBool b))
    (Hint : forall z, P (JInt z)) (Hstr : forall s, P (JStr s))
    (Harr : forall items, Forall P items -> P (JArr items))
    (Hobj : forall fields, Forall (fun kv => P kv.2) fields -> P (JObj fields))
  : forall v, P v :=
  fix go v :=
    match v with
    | JNull => Hnull
    | JBool b => Hbool b
    | JInt z => Hint z
    | JStr s => Hstr s
    | JArr items =>
        Harr items ((fix all l : Forall P l :=
          match l with
          | [] => Forall_nil_2 P
          | x :: l => Forall_cons_2 P x l (go x) (all l)
          end) items)
    | JObj fields =>
        Hobj fields ((fix all l : Forall (fun kv => P kv.2) l :=
          match l with
          | [] => Forall_nil_2 _
          | x :: l => Forall_cons_2 _ x l (go x.2) (all l)
          end) fields)
    end.

(** Numbers *)

Definition stops (r : list ascii) : Prop :=
  match r with [] => True | c :: _ => is_digit c = false end.

Fixpoint parse_digits (l : list ascii) (n : N) : N * list ascii :=
  match l with
  | c :: l' =>
      if is_digit c then parse_digits l' (n * 10 + (N_of_ascii c - 48)) else (n, l)
  | [] => (n, [])
  end.

Definition parse_int (l : list ascii) : Z * list ascii :=
  match l with
  | c :: l' =>
      if Ascii.eqb c "-" then let p := parse_digits l' 0 in (- Z.of_N p.1, p.2)%Z
      else let p := parse_digits l 0 in (Z.of_N p.1, p.2)
  | [] => (0%Z, [])
  end.

Lemma digit_char_spec (d : N) : (d < 10)%N ->
  is_digit (digit_char d) = true /\ (N_of_ascii (digit_char d) - 48 = d)%N /\
  Ascii.eqb (digit_char d) "-" = false.
Proof.
  intros H.
  assert (d = 0 \/ d = 1 \/ d = 2 \/ d = 3 \/ d = 4 \/ d = 5 \/ d = 6 \/ d = 7
          \/ d = 8 \/ d = 9)%N as C by lia.
  repeat destruct C as [->|C]; try subst d; repeat split; reflexivity.
Qed.

Lemma parse_digits_stops r n : stops r -> parse_digits r n = (n, r).
Proof. destruct r as [|c r]; cbn; [done | by intros ->]. Qed.

Lemma parse_digits_fuel fuel n acc r : (n < 10 ^ N.of_nat (S fuel))%N ->
  parse_digits (chars (digits_fuel fuel n acc) ++ r) 0
  = parse_digits (chars acc ++ r) n.
Proof.
  assert (forall m a, (m < 10)%N ->
    parse_digits (chars (String (digit_char (m mod 10)) a) ++ r) 0
    = parse_digits (chars a ++ r) m) as Hlast.
  { intros m a Hm. rewrite N.mod_small by done.
    change (chars (String (digit_char m) a) ++ r)
      with (digit_char m :: (chars a ++ r)).
    destruct (digit_char_spec m Hm) as (H1 & H2 & _). cbn [parse_digits].
    rewrite H1, H2. f_equal. }
  revert n acc; induction fuel as [|fuel IH]; intros n acc Hn; cbn [digits_fuel].
  - apply Hlast. exact Hn.
  - destruct (N.ltb_spec n 10) as [Hs|Hs]; [by apply Hlast |].
    rewrite IH.
    2:{ apply N.Div0.div_lt_upper_bound.
        replace (N.of_nat (S (S fuel))) with (N.succ (N.of_nat (S fuel))) in Hn by lia.
        rewrite N.pow_succ_r' in Hn. lia. }
    change (chars (String (digit_char (n mod 10)) acc) ++ r)
      with (digit_char (n mod 10) :: (chars acc ++ r)).
    destruct (digit_char_spec (n mod 10)) as (H1 & H2 & _);
      [apply N.mod_lt; lia |].
    cbn [parse_digits]. rewrite H1, H2. f_equal.
    pose proof (N.div_mod n 10). lia.
Qed.

Lemma size_bound n : (n < 10 ^ N.of_nat (S (N.to_nat (N.size n))))%N.
Proof.
  rewrite Nat2N.inj_succ, N2Nat.id. eapply N.lt_le_trans; [apply N.size_gt |].
  transitivity (10 ^ N.size n)%N; [apply N.pow_le_mono_l; lia |].
  apply N.pow_le_mono_r; lia.
Qed.

Lemma digits_fuel_head fuel n acc :
  exists c s, digits_fuel fuel n acc = String c s /\ is_digit c = true
              /\ Ascii.eqb c "-" = false.
Proof.
  revert n acc; induction fuel as [|fuel IH]; intros n acc; cbn [digits_fuel].
  - destruct (digit_char_spec (n mod 10)) as (? & _ & ?); [apply N.mod_lt; lia |].
    eauto.
  - destruct (N.ltb n 10); [|apply IH].
    destruct (digit_char_spec (n mod 10)) as (? & _ & ?); [apply N.mod_lt; lia |].
    eauto.
Qed.

Lemma parse_int_str_of_Z z r : stops r -> parse_int (chars (str_of_Z z) ++ r) = (z, r).
Proof.
  intros Hr. unfold str_of_Z. destruct (Z.ltb_spec z 0) as [Hz|Hz].
  - change (chars (String "-" (str_of_N (Z.to_N (- z)))) ++ r)
      with ("-"%char :: (chars (str_of_N (Z.to_N (- z))) ++ r)).
    unfold parse_int. cbn [Ascii.eqb]. rewrite Ascii.eqb_refl.
    unfold str_of_N. rewrite parse_digits_fuel by apply size_bound.
    change (chars "" ++ r) with r. rewrite parse_digits_stops by done. cbn [fst snd].
    f_equal. lia.
  - destruct (digits_fuel_head (N.to_nat (N.size (Z.to_N z))) (Z.to_N z) "")
      as (c & s & E & _ & Hc).
    unfold str_of_N at 1. rewrite E.
    change (chars (String c s) ++ r) with (c :: (chars s ++ r)).
    unfold parse_int. rewrite Hc.
    change (c :: (chars s ++ r)) with (chars (String c s) ++ r).
    rewrite <- E, parse_digits_fuel by apply size_bound.
    change (chars "" ++ r) with r. rewrite parse_digits_stops by done. cbn [fst snd].
    f_equal. lia.
Qed.

(** Strings *)

Definition of_hex_digit (c : ascii) : N :=
  if is_digit c then N_of_ascii c - 48 else N_of_ascii c - 87.

Definition decode_char (l : list ascii) : option (ascii * list ascii) :=
  match l with
  | c :: l1 =>
      if Ascii.eqb c quote then None
      else if Ascii.eqb c backslash then
        match l1 with
        | "b"%char :: l2 => Some ("008"%char, l2)
        | "t"%char :: l2 => Some ("009"%char, l2)
        | "n"%char :: l2 => Some ("010"%char, l2)
        | "f"%char :: l2 => Some ("012"%char, l2)
        | "r"%char :: l2 => Some ("013"%char, l2)
        | "u"%char :: _ :: _ :: a :: b :: l2 =>
            Some (ascii_of_N (of_hex_digit a * 16 + of_hex_digit b), l2)
        | d :: l2 => Some (d, l2)
        | [] => None
        end
      else Some (c, l1)
  | [] => None
  end.

Lemma decode_escape_char c r : decode_char (escape_char c ++ r) = Some (c, r).
Proof. destruct c as [[] [] [] [] [] [] [] []]; reflexivity. Qed.

Lemma decode_quote r : decode_char (quote :: r) = None.
Proof. reflexivity. Qed.

Lemma escape_prefix s t r r' :
  flat_map escape_char s ++ quote :: r = flat_map escape_char t ++ quote :: r' ->
  s = t /\ r = r'.
Proof.
  revert t; induction s as [|c s IH]; intros [|d t]; cbn [flat_map];
    rewrite <- ?app_assoc; intros H; apply (f_equal decode_char) in H as H1;
    rewrite ?decode_escape_char, ?decode_quote in H1; try discriminate.
  - cbn in H. split; [done | congruence].
  - injection H1 as <- H2. destruct (IH t H2) as [<- <-]. done.
Qed.

Lemma dumps_string_prefix s t r r' :
  dumps_string s ++ r = dumps_string t ++ r' -> s = t /\ r = r'.
Proof.
  unfold dumps_string. cbn [app]. rewrite <- !app_assoc. intros [= H].
  apply escape_prefix in H as [H1 H2]. split; [by apply chars_inj | done].
Qed.

(** Values *)

(** The first character of a printed value tells its kind. *)
Definition kind_of_char (c : ascii) : nat :=
  if Ascii.eqb c "n" then 0 else if Ascii.eqb c "t" then 1
  else if Ascii.eqb c "f" then 2 else if Ascii.eqb c quote then 3
  else if Ascii.eqb c "[" then 4 else if Ascii.eqb c "{" then 5
  else if is_digit c || Ascii.eqb c "-" then 6 else 7.

Definition kind (v : json) : nat :=
  match v with
  | JNull => 0 | JBool true => 1 | JBool false => 2 | JStr _ => 3
  | JArr _ => 4 | JObj _ => 5 | JInt _ => 6
  end.

Lemma dumps_kind v : exists c l, dumps v = c :: l /\ kind_of_char c = kind v.
Proof.
  destruct v as [|[]|z|s|items|fields]; try (do 2 eexists; split; reflexivity).
  cbn [dumps kind]. unfold str_of_Z. destruct (z <? 0)%Z.
  - do 2 eexists; split; reflexivity.
  - destruct (digits_fuel_head (N.to_nat (N.size (Z.to_N z))) (Z.to_N z) "")
      as (c & l & E & Hc & _).
    exists c, (chars l). unfold str_of_N. rewrite E. split; [done |].
    clear E. destruct c as [[] [] [] [] [] [] [] []]; try discriminate Hc; reflexivity.
Qed.

Lemma dumps_kind_eq v w r s : dumps v ++ r = dumps w ++ s -> kind v = kind w.
Proof.
  destruct (dumps_kind v) as (c & l & -> & Hv), (dumps_kind w) as (d & l' & -> & Hw).
  cbn. intros [= -> _]. congruence.
Qed.

Section CommaJoin.
Context {A : Type} (p : A -> list ascii) (close : ascii).

Definition prefix_free (x : A) : Prop := forall y r s,
  stops r -> stops s -> p x ++ r = p y ++ s -> x = y /\ r = s.

Hypothesis close_stops : is_digit close = false.
Hypothesis close_comma : close <> ","%char.
Hypothesis opens : forall x, exists c l, p x = c :: l /\ c <> close.

Local Lemma join_cons x xs r :
  comma_join (map p (x :: xs)) ++ close :: r
  = p x ++ match xs with
           | [] => close :: r
           | _ => ","%char :: comma_join (map p xs) ++ close :: r
           end.
Proof. destruct xs; cbn; [done |]. by rewrite <- app_assoc. Qed.

Lemma comma_join_prefix xs ys r s :
  Forall prefix_free xs ->
  comma_join (map p xs) ++ close :: r = comma_join (map p ys) ++ close :: s ->
  xs = ys /\ r = s.
Proof.
  revert ys; induction xs as [|x xs IH]; intros ys HF.
  - destruct ys as [|y ys]; [by intros [= ->] |]. rewrite join_cons.
    destruct (opens y) as (c & l & -> & Hc). intros [= E _]. congruence.
  - destruct ys as [|y ys].
    { rewrite join_cons. destruct (opens x) as (c & l & -> & Hc).
      intros [= E _]. congruence. }
    rewrite !join_cons. inversion HF as [|? ? Hx Hxs]; subst. intros H.
    apply Hx in H as [<- H]; [| by destruct xs | by destruct ys].
    destruct xs as [|x1 xs], ys as [|y1 ys]; try (injection H; congruence).
    + injection H as ->. done.
    + injection H as H. destruct (IH (y1 :: ys) Hxs H) as [<- <-]. done.
Qed.
End CommaJoin.

Lemma app_single {A} (l : list A) c r : (l ++ [c]) ++ r = l ++ c :: r.
Proof. by rewrite <- app_assoc. Qed.

Lemma dumps_prefix v : prefix_free dumps v.
Proof.
  induction v as [|b|z|s|items IH|fields IH] using json_rect'; intros w r r' Hr Hr' H;
    pose proof (dumps_kind_eq _ _ _ _ H) as K;
    destruct w as [|b'|z'|s'|items'|fields']; try destruct b; try destruct b';
    try discriminate K; cbn [dumps] in H.
  1,2,3: by injection H as ->.
  - apply (f_equal parse_int) in H. rewrite !parse_int_str_of_Z in H by done.
    by injection H as -> ->.
  - apply dumps_string_prefix in H as [-> ->]. done.
  - injection H as H. rewrite !app_single in H.
    apply comma_join_prefix in H as [-> ->]; [done | done | done | | exact IH].
    intros x. destruct (dumps_kind x) as (c & l & -> & Hc). exists c, l.
    split; [done |]. intros ->. by destruct x as [|[]| | | |].
  - injection H as H. rewrite !app_single in H.
    apply comma_join_prefix in H as [-> ->]; [done | done | done | |].
    + intros x. do 2 eexists; split; [reflexivity | discriminate].
    + eapply Forall_impl; [exact IH |]. intros [k v] Hv [k' v'] l l' Hl Hl' E.
      cbn [fst snd] in *.
      change ((dumps_string k ++ ":"%char :: dumps v) ++ l
              = (dumps_string k' ++ ":"%char :: dumps v') ++ l') in E.
      rewrite <- (app_assoc (dumps_string k)), <- (app_assoc (dumps_string k')) in E.
      apply dumps_string_prefix in E as [-> E]. cbn [app] in E. injection E as E.
      apply Hv in E as [-> ->]; done.
Qed.

(** Two values have the same canonical form exactly when they are equal once
    their keys are sorted. *)
Theorem canonical_json_inj (v w : json) :
  canonical_json v = canonical_json w <-> sorted_keys v = sorted_keys w.
Proof.
  split; [| unfold canonical_json; by intros ->].
  intros H. apply utf8_encode_inj in H.
  destruct (dumps_prefix (sorted_keys v) (sorted_keys w) [] []); [done | done | |done].
  by rewrite !app_nil_r.
Qed.

(** Objects whose fields are listed in key order are their own sorted form. *)
Fixpoint keys_sorted {A} (d : list (string * A)) : bool :=
  match d with
  | [] => true
  | (k, _) :: d' =>
      match d' with [] => true | (k', _) :: _ => str_leb k k' end && keys_sorted d'
  end.

Lemma sort_fields_sorted {A} (d : list (string * A)) :
  keys_sorted d = true -> sort_fields d = d.
Proof.
  induction d as [|[k v] d IH]; cbn [keys_sorted]; [done |]. intros H.
  apply andb_true_iff in H as [H1 H2].
  change (sort_fields ((k, v) :: d)) with (insert_field k v (sort_fields d)).
  rewrite (IH H2). destruct d as [|[k' v'] d]; [done |]. cbn. by rewrite H1.
Qed.

Lemma insert_string_perm x l : insert_string x l ≡ₚ x :: l.
Proof.
  induction l as [|y l IH]; cbn; [done |].
  destruct (str_leb x y); [done |]. rewrite IH. apply perm_swap.
Qed.

Lemma sort_strings_perm l : sort_strings l ≡ₚ l.
Proof.
  induction l as [|x l IH]; [done |].
  change (sort_strings (x :: l)) with (insert_string x (sort_strings l)).
  by rewrite insert_string_perm, IH.
Qed.

Lemma sort_strings_length l : length (sort_strings l) = length l.
Proof. apply Permutation_length, sort_strings_perm. Qed.

Lemma str_leb_cons a s b t :
  str_leb (String a s) (String b t) = true <->
  char_code a < char_code b \/ char_code a = char_code b /\ str_leb s t = true.
Proof.
  cbn [str_leb]. by rewrite orb_true_iff, andb_true_iff, Nat.ltb_lt, Nat.eqb_eq.
Qed.

Lemma str_leb_total s t : str_leb s t = true \/ str_leb t s = true.
Proof.
  revert t; induction s as [|a s IH]; intros [|b t]; [by left | by left | by right |].
  rewrite !str_leb_cons. specialize (IH t).
  assert (char_code a < char_code b \/ char_code a = char_code b
          \/ char_code b < char_code a) as [?|[?|?]] by lia; intuition lia.
Qed.

Lemma str_leb_trans s t u : str_leb s t = true -> str_leb t u = true -> str_leb s u = true.
Proof.
  revert t u; induction s as [|a s IH]; intros [|b t] [|c u]; try done.
  rewrite !str_leb_cons. specialize (IH t u).
  intros [?|[? ?]] [?|[? ?]]; [left; lia | left; lia | left; lia | right].
  split; [lia | auto].
Qed.

(** The sorted list is sorted, so sorting it again changes nothing. *)
Lemma insert_string_sorted x l :
  StronglySorted (fun a b => str_leb a b = true) l ->
  StronglySorted (fun a b => str_leb a b = true) (insert_string x l).
Proof.
  induction 1 as [|y l Hl IH Hy]; cbn; [repeat constructor |].
  destruct (str_leb x y) eqn:E.
  - constructor; [by constructor |]. constructor; [done |].
    eapply Forall_impl; [exact Hy |]. intros z. by apply str_leb_trans.
  - constructor; [done |]. apply Forall_forall. intros z.
    rewrite insert_string_perm, elem_of_cons. intros [->|Hz];
      [| by apply (proj1 (Forall_forall _ _) Hy)].
    destruct (str_leb_total x y) as [H|H]; [congruence | done].
Qed.

Lemma sort_strings_sorted l : StronglySorted (fun a b => str_leb a b = true) (sort_strings l).
Proof.
  induction l as [|x l IH]; [constructor |]. by apply insert_string_sorted.
Qed.

Lemma sort_strings_id l :
  StronglySorted (fun a b => str_leb a b = true) l -> sort_strings l = l.
Proof.
  induction 1 as [|x l Hl IH Hx]; [done |].
  change (sort_strings (x :: l)) with (insert_string x (sort_strings l)). rewrite IH.
  destruct Hx as [|y l Hxy _]; [done |]. cbn. by rewrite Hxy.
Qed.
