(* ===== verification/JsonBoundary.v ===== *)
(** * The JSON boundary ([src/nsl/json_boundary.py])

    [load_strict_json]: strict UTF-8, the grammar of [json.loads], no
    duplicate fields and no non-finite numbers. Every document the kernel reads
    back (checkpoints, objects, results) goes through it. [json_loads] is the
    library's reader of bytes as it is, for the audit store. The scanner runs
    within the limits of the interpreter: nested arrays and objects use up the
    stack, and [int] reads so many digits only. [load_limited] says that a limit
    can only add an error, [load_strict_json] is the reader without. Left out:
    the position in the message of a syntax error. A floating-point number and
    a code point above 255 are outside the value universe. *)

From S2P Require Import Prelude Digest Json.

(** ** UTF-8, decoded strictly *)

Local Open Scope N_scope.

(** The payload of a continuation byte. *)
Definition continuation (c : ascii) : option N :=
  let n := N_of_ascii c in
  if (128 <=? n) && (n <? 192) then Some (n - 128) else None.

Definition scalar (low high : N) (n : N) : option N :=
  if (low <=? n) && (n <=? high) && negb ((55296 <=? n) && (n <=? 57343)) then Some n else None.

Fixpoint utf8_decode (b : bytes) : option (list N) :=
  match b with
  | [] => Some []
  | c :: b =>
      let n := N_of_ascii c in
      if n <? 128 then l ← utf8_decode b; Some (n :: l)
      else match b with
      | [] => None
      | c1 :: b =>
          x1 ← continuation c1;
          if n <? 194 then None
          else if n <? 224 then l ← utf8_decode b; Some ((n - 192) * 64 + x1 :: l)
          else match b with
          | [] => None
          | c2 :: b =>
              x2 ← continuation c2;
              if n <? 240 then
                s ← scalar 2048 65535 (((n - 224) * 64 + x1) * 64 + x2);
                l ← utf8_decode b; Some (s :: l)
              else match b with
              | [] => None
              | c3 :: b =>
                  x3 ← continuation c3;
                  s ← scalar 65536 1114111 ((((n - 240) * 64 + x1) * 64 + x2) * 64 + x3);
                  l ← utf8_decode b; Some (s :: l)
              end
          end
      end
  end.

Definition narrow (codes : list N) : option (list ascii) :=
  if forallb (fun n => n <? 256) codes then Some (map ascii_of_N codes) else None.

Local Close Scope N_scope.

(** ** The scanner of [json.loads]

    The state is the input that is left. *)

Notation text := (list ascii).
Definition P := M text.

Definition syntax_error {A} : P A := fail JSONDecodeError "".

Definition is_json_space (c : ascii) : bool :=
  bool_decide (char_code c ∈ [32; 9; 10; 13]).

Fixpoint drop_space (l : text) : text :=
  match l with
  | c :: l' => if is_json_space c then drop_space l' else l
  | [] => []
  end.

Definition skip_space : P unit := modify drop_space.

(** The next character, if it is [c], is consumed. *)
Definition accept (c : ascii) : P bool := fun l =>
  match l with
  | d :: l' => if Ascii.eqb d c then (Ok true, l') else (Ok false, l)
  | [] => (Ok false, [])
  end.

Definition expect (c : ascii) : P unit := b ← accept c; if b : bool then mret tt else syntax_error.

Fixpoint strip (w l : text) : option text :=
  match w, l with
  | [], _ => Some l
  | c :: w, d :: l => if Ascii.eqb c d then strip w l else None
  | _ :: _, [] => None
  end.

Definition hex_value (c : ascii) : option N :=
  let n := N_of_ascii c in
  if is_digit c then Some (n - 48)%N
  else if code_between 97 102 c then Some (n - 87)%N
  else if code_between 65 70 c then Some (n - 55)%N
  else None.

Definition hex4 (a b c d : ascii) : option N :=
  x ← hex_value a; y ← hex_value b; z ← hex_value c; w ← hex_value d;
  Some (((x * 16 + y) * 16 + z) * 16 + w)%N.

Definition simple_escape (c : ascii) : option ascii :=
  if Ascii.eqb c quote then Some quote
  else if Ascii.eqb c backslash then Some backslash
  else if Ascii.eqb c "/" then Some "/"%char
  else if Ascii.eqb c "b" then Some "008"%char
  else if Ascii.eqb c "f" then Some "012"%char
  else if Ascii.eqb c "n" then Some "010"%char
  else if Ascii.eqb c "r" then Some "013"%char
  else if Ascii.eqb c "t" then Some "009"%char
  else None.

Definition bad_json {A} : result A := raise JSONDecodeError "".

(** A string from its opening quote on: its characters and what follows. *)
Fixpoint scanstring (l : text) : result (text * text) :=
  let cons (c : ascii) (r : result (text * text)) : result (text * text) :=
    p ← r; Ok (c :: p.1, p.2) in
  match l with
  | [] => bad_json
  | c :: l =>
      if Ascii.eqb c quote then Ok ([], l)
      else if Ascii.eqb c backslash then
        match l with
        | [] => bad_json
        | e :: l =>
            if Ascii.eqb e "u" then
              match l with
              | a :: b :: c :: d :: l =>
                  match hex4 a b c d with
                  | None => bad_json
                  | Some n => if (n <? 256)%N then cons (ascii_of_N n) (scanstring l)
                              else raise OutOfModel "code point above 255"
                  end
              | _ => bad_json
              end
            else match simple_escape e with
                 | None => bad_json
                 | Some c => cons c (scanstring l)
                 end
        end
      else if char_code c <? 32 then bad_json
      else cons c (scanstring l)
  end.

Definition scan_string : P string := fun l =>
  match scanstring l with
  | Ok (s, l') => (Ok (String.string_of_list_ascii s), l')
  | Err e => (Err e, l)
  end.

(** Whether the number goes on with a fraction or an exponent. *)
Definition float_tail (l : text) : bool :=
  let digit (l : text) := match l with c :: _ => is_digit c | [] => false end in
  match l with
  | c :: l =>
      if Ascii.eqb c "." then digit l
      else if Ascii.eqb c "e" || Ascii.eqb c "E" then
        match l with
        | s :: l' => if Ascii.eqb s "+" || Ascii.eqb s "-" then digit l' else digit l
        | [] => false
        end
      else false
  | [] => false
  end.

Definition scan_integer (i : Interpreter) (sign : Z) : P json := fun l =>
  let finish (n : N) (l' : text) : result json * text :=
    if float_tail l' then (raise OutOfModel "floating-point number", l)
    else match read_digits i (length l - length l') with
         | Ok _ => (Ok (JInt (sign * Z.of_N n)), l')
         | Err e => (Err e, l)
         end in
  match l with
  | c :: l' => if Ascii.eqb c "0" then finish 0%N l'
               else if is_digit c then let p := parse_digits l 0 in finish p.1 p.2
               else (bad_json, l)
  | [] => (bad_json, [])
  end.

(** The hooks of [json.loads]: what becomes of the pairs of an object, and the
    exception that a constant such as [NaN] is answered with, since no value of
    the universe stands for it. *)
Record JsonHooks : Type := MkJsonHooks {
  object_pairs_hook : list (string * json) -> result json;
  parse_constant : string -> exn
}.

Section Hooks.
Context (hooks : JsonHooks).

(** Literals, numbers and the constants. *)
Definition scan_literal (i : Interpreter) : P json := fun l =>
  let word (w : string) (m : P json) (otherwise : P json) : P json := fun l =>
    match strip (chars w) l with Some l' => m l' | None => otherwise l end in
  let constant (s : string) : P json := lift (Err (parse_constant hooks s)) in
  word "null" (mret JNull)
    (word "true" (mret (JBool true))
      (word "false" (mret (JBool false))
        (word "NaN" (constant "NaN")
          (word "Infinity" (constant "Infinity")
            (word "-Infinity" (constant "-Infinity")
              (word "-" (scan_integer i (-1)) (scan_integer i 1))))))) l.

Definition starved {A} : P A := lift (Err (Exn OutOfModel "FUEL" "")).

(** [scan_once], with the loops over the members of an object and the items of
    an array, after their opening bracket and space. An object or array is one
    call deeper. *)
Fixpoint scan_once (i : Interpreter) (fuel : nat) : P json :=
  match fuel with
  | O => starved
  | S fuel =>
      is_string ← accept quote;
      if is_string : bool then s ← scan_string; mret (JStr s)
      else
      is_object ← accept "{";
      if is_object : bool then
        i ← lift (enter i);
        _ ← skip_space;
        closed ← accept "}";
        pairs ← (if closed : bool then mret [] else scan_members i fuel);
        lift (object_pairs_hook hooks pairs)
      else
      is_array ← accept "[";
      if is_array : bool then
        i ← lift (enter i);
        _ ← skip_space;
        closed ← accept "]";
        if closed : bool then mret (JArr []) else items ← scan_items i fuel; mret (JArr items)
      else scan_literal i
  end
with scan_members (i : Interpreter) (fuel : nat) : P (list (string * json)) :=
  match fuel with
  | O => starved
  | S fuel =>
      _ ← expect quote;
      key ← scan_string;
      _ ← skip_space;
      _ ← expect ":";
      _ ← skip_space;
      item ← scan_once i fuel;
      _ ← skip_space;
      closed ← accept "}";
      if closed : bool then mret [(key, item)]
      else _ ← expect ","; _ ← skip_space;
           pairs ← scan_members i fuel; mret ((key, item) :: pairs)
  end
with scan_items (i : Interpreter) (fuel : nat) : P (list json) :=
  match fuel with
  | O => starved
  | S fuel =>
      item ← scan_once i fuel;
      _ ← skip_space;
      closed ← accept "]";
      if closed : bool then mret [item]
      else _ ← expect ","; _ ← skip_space;
           items ← scan_items i fuel; mret (item :: items)
  end.

(** [json.loads]; two units of fuel per character are enough. *)
Definition loads_within (i : Interpreter) (t : text) : result json :=
  ((_ ← skip_space;
    v ← scan_once i (S (2 * length t));
    _ ← skip_space;
    rest ← get;
    match rest with [] => mret v | _ => syntax_error end) t).1.

Definition loads : text -> result json := loads_within unlimited.
End Hooks.

(** ** The hooks of the strict reader *)

Section Strict.
Context (error_factory : string -> string -> exn).

Definition reject_non_finite (s : string) : exn :=
  error_factory "$" ("non-finite JSON number: " +:+ s).

Fixpoint unique_pairs (seen : list string) (pairs : list (string * json))
  : result (list (string * json)) :=
  match pairs with
  | [] => Ok []
  | (key, item) :: pairs =>
      if bool_decide (key ∈ seen)
      then Err (error_factory "$" ("duplicate object field: " +:+ key))
      else rest ← unique_pairs (key :: seen) pairs; Ok ((key, item) :: rest)
  end.

(** [unique_object] *)
Definition unique_object (pairs : list (string * json)) : result json :=
  fields ← unique_pairs [] pairs; Ok (JObj fields).

Definition strict_hooks : JsonHooks := MkJsonHooks unique_object reject_non_finite.

(** A [ValueError] of [int] passes; a [RecursionError] is none. *)
Definition load_strict_json_within (i : Interpreter) (document_name : string) (data : bytes)
  : result json :=
  match utf8_decode data with
  | None => Err (error_factory "$" "expected UTF-8 JSON")
  | Some codes =>
      match narrow codes with
      | None => raise OutOfModel "code point above 255"
      | Some t =>
          match loads_within strict_hooks i t with
          | Err e => if isinstance_exn (ex_class e) JSONDecodeError
                     then Err (error_factory "$" "invalid JSON") else Err e
          | ok => ok
          end
      end
  end.

(** As far as the limits of the interpreter are not reached. *)
Definition load_strict_json : string -> bytes -> result json := load_strict_json_within unlimited.
End Strict.

(** ** [json.loads] without hooks

    A repeated field keeps its first place and takes the last item. *)

Definition dict_of_pairs (pairs : list (string * json)) : list (string * json) :=
  fold_left (fun d kv => assoc_set kv.1 kv.2 d) pairs [].

Definition plain_hooks : JsonHooks :=
  MkJsonHooks (fun pairs => Ok (JObj (dict_of_pairs pairs)))
    (fun _ => Exn OutOfModel "" "floating-point number").

(** [json.detect_encoding]: no byte order mark and no NUL that would tell of
    UTF-16 or UTF-32. *)
Definition detects_utf8 (b : bytes) : bool :=
  let nul (n : nat) := bool_decide (b !! n = Some "000"%char) in
  negb (bool_decide (prefix [ascii_of_N 239; ascii_of_N 187; ascii_of_N 191] b)
        || bool_decide (prefix [ascii_of_N 254; ascii_of_N 255] b)
        || bool_decide (prefix [ascii_of_N 255; ascii_of_N 254] b)
        || bool_decide (prefix [ascii_of_N 0; ascii_of_N 0; ascii_of_N 254; ascii_of_N 255] b)
        || if bool_decide (4 <= length b) then nul 0 || nul 1
           else bool_decide (length b = 2) && (nul 0 || nul 1)).

(** [json.loads] of bytes. Surrogates, which its decoder lets pass, start with
    the byte ED. *)
Definition json_loads (data : bytes) : result json :=
  if negb (detects_utf8 data) then raise OutOfModel "text that is not in UTF-8"
  else match utf8_decode data with
  | None => if bool_decide (ascii_of_N 237 ∈ data) then raise OutOfModel "surrogate"
            else raise ValueError "UnicodeDecodeError"
  | Some codes =>
      match narrow codes with
      | None => raise OutOfModel "code point above 255"
      | Some t => loads plain_hooks t
      end
  end.

Definition test_error (path message : string) : exn :=
  Exn ValueError "" (path +:+ ": " +:+ message).

(** A document written with single quotes, for the examples. *)
Definition document (s : string) : result json :=
  load_strict_json test_error "document"
    (map (fun c => if Ascii.eqb c "'" then quote else c) (chars s)).

Example load_object :
  document " { 'a' : [1, -20, null, 'x\u0041'], 'b': {} } "
  = Ok (JObj [("a", JArr [JInt 1; JInt (-20); JNull; JStr "xA"]); ("b", JObj [])]).
Proof. vm_compute. reflexivity. Qed.
Example load_duplicate :
  document "[{'a': 1, 'b': 2, 'a': 3}]" = Err (test_error "$" "duplicate object field: a").
Proof. vm_compute. reflexivity. Qed.
Example load_infinity :
  document "{'a': -Infinity}" = Err (test_error "$" "non-finite JSON number: -Infinity").
Proof. vm_compute. reflexivity. Qed.
Example load_malformed : map document ["[1,]"; "{'a'}"; "01"; "'"; ""; "1 2"]
  = replicate 6 (Err (test_error "$" "invalid JSON")).
Proof. vm_compute. reflexivity. Qed.

Example loads_duplicate :
  json_loads (map (fun c => if Ascii.eqb c "'" then quote else c) (chars "{'a': 1, 'b': 2, 'a': 3}"))
  = Ok (JObj [("a", JInt 3); ("b", JInt 2)]).
Proof. vm_compute. reflexivity. Qed.

(** ** The scanner accepts what is printed *)

Definition ends (r : text) : Prop :=
  match r with [] => True | c :: _ => c = ","%char \/ c = "]"%char \/ c = "}"%char end.

Lemma ends_stops r : ends r -> stops r /\ float_tail r = false.
Proof. destruct r as [|c r]; [done |]. by intros [-> | [-> | ->]]. Qed.

Lemma scanstring_escape c l :
  scanstring (escape_char c ++ l) = (p ← scanstring l; Ok (c :: p.1, p.2)).
Proof. destruct c as [[] [] [] [] [] [] [] []]; reflexivity. Qed.

Lemma scanstring_dumps s r : scanstring (flat_map escape_char s ++ quote :: r) = Ok (s, r).
Proof.
  induction s as [|c s IH]; [reflexivity |]. cbn [flat_map].
  by rewrite <- app_assoc, scanstring_escape, IH.
Qed.

Lemma scan_string_dumps s r : scan_string (tail (dumps_string s) ++ r) = (Ok s, r).
Proof.
  unfold scan_string, dumps_string. cbn [tail]. rewrite <- app_assoc. cbn [app].
  by rewrite scanstring_dumps, String.string_of_list_ascii_of_string.
Qed.

Lemma digits_fuel_head_pos fuel n acc : (0 < n < 10 ^ N.of_nat (S fuel))%N ->
  exists c s, digits_fuel fuel n acc = String c s /\ is_digit c = true
              /\ Ascii.eqb c "0" = false.
Proof.
  assert (forall d, (0 < d < 10)%N ->
    is_digit (digit_char d) = true /\ Ascii.eqb (digit_char d) "0" = false) as Hd.
  { intros d Hd. assert (d = 1 \/ d = 2 \/ d = 3 \/ d = 4 \/ d = 5 \/ d = 6 \/ d = 7
      \/ d = 8 \/ d = 9)%N as C by lia.
    repeat destruct C as [->|C]; try subst d; split; reflexivity. }
  revert n acc; induction fuel as [|fuel IH]; intros n acc Hn; cbn [digits_fuel].
  - change (10 ^ N.of_nat 1)%N with 10%N in Hn. rewrite N.mod_small by lia.
    destruct (Hd n Hn). eauto.
  - destruct (N.ltb_spec n 10) as [Hs|Hs].
    + rewrite N.mod_small by lia. destruct (Hd n); [lia |]. eauto.
    + apply IH. split; [apply N.div_str_pos; lia |].
      apply N.Div0.div_lt_upper_bound.
      replace (N.of_nat (S (S fuel))) with (N.succ (N.of_nat (S fuel))) in Hn by lia.
      rewrite N.pow_succ_r' in Hn. lia.
Qed.

Lemma scan_integer_N sign n r : ends r ->
  scan_integer unlimited sign (chars (str_of_N n) ++ r) = (Ok (JInt (sign * Z.of_N n)), r).
Proof.
  intros [Hs Hf]%ends_stops. destruct (decide (n = 0%N)) as [->|Hn].
  - change (chars (str_of_N 0) ++ r) with ("0"%char :: r). unfold scan_integer.
    rewrite Ascii.eqb_refl, Hf. reflexivity.
  - destruct (digits_fuel_head_pos (N.to_nat (N.size n)) n "") as (c & s & E & H1 & H2).
    { split; [lia | apply size_bound]. }
    unfold str_of_N. rewrite E. change (chars (String c s) ++ r) with (c :: (chars s ++ r)).
    unfold scan_integer. rewrite H2, H1.
    change (c :: (chars s ++ r)) with (chars (String c s) ++ r).
    rewrite <- E, parse_digits_fuel by apply size_bound.
    change (chars "" ++ r) with r. rewrite parse_digits_stops by done. cbn [fst snd].
    rewrite Hf. reflexivity.
Qed.

Lemma str_of_N_head n : exists c s, str_of_N n = String c s /\ is_digit c = true.
Proof.
  destruct (digits_fuel_head (N.to_nat (N.size n)) n "") as (c & s & E & H & _). eauto.
Qed.

Lemma digit_neq c d : is_digit c = true -> is_digit d = false -> Ascii.eqb d c = false.
Proof. intros Hc Hd. destruct (Ascii.eqb_spec d c) as [->|]; congruence. Qed.

(** No field is named twice, at any depth. *)
Fixpoint unique_keys (v : json) : bool :=
  match v with
  | JArr items => forallb unique_keys items
  | JObj fields => no_duplicates (map fst fields) && forallb (fun kv => unique_keys kv.2) fields
  | _ => true
  end.

(** Hooks that keep an object of distinct fields and make no other. *)
Record hooks_ok (hooks : JsonHooks) : Prop := {
  hk_keeps fields : no_duplicates (map fst fields) = true ->
    object_pairs_hook hooks fields = Ok (JObj fields);
  hk_unique pairs v : forallb (fun kv => unique_keys kv.2) pairs = true ->
    object_pairs_hook hooks pairs = Ok v -> unique_keys v = true
}.

Section StrictHooks.
Context (error_factory : string -> string -> exn).

Lemma unique_pairs_ok seen pairs : NoDup (map fst pairs) ->
  (forall k, k ∈ map fst pairs -> k ∉ seen) -> unique_pairs error_factory seen pairs = Ok pairs.
Proof.
  revert seen; induction pairs as [|[k v] pairs IH]; intros seen Hn Hs; [reflexivity |].
  cbn in Hn, Hs. inversion Hn as [|? ? Hk Hn']; subst. cbn [unique_pairs].
  rewrite bool_decide_eq_false_2 by (apply Hs; left).
  rewrite IH; [reflexivity | exact Hn' |]. intros x Hx.
  rewrite elem_of_cons. intros [-> | H]; [done |]. by apply (Hs x); [right |].
Qed.

Lemma unique_object_ok fields : no_duplicates (map fst fields) = true ->
  unique_object error_factory fields = Ok (JObj fields).
Proof.
  intros H%no_duplicates_true. unfold unique_object. rewrite unique_pairs_ok; [done | exact H |].
  intros k _. apply not_elem_of_nil.
Qed.

Lemma unique_pairs_inv seen pairs fields : unique_pairs error_factory seen pairs = Ok fields ->
  fields = pairs /\ NoDup (map fst pairs) /\ forall k, k ∈ map fst pairs -> k ∉ seen.
Proof.
  revert seen fields; induction pairs as [|[k v] pairs IH]; intros seen fields H.
  - injection H as <-. split; [done |]. split; [constructor | intros k []%elem_of_nil].
  - cbn [unique_pairs] in H. case_bool_decide as Hk; [discriminate |].
    apply bind_Ok in H as (rest & H & [= <-]). apply IH in H as (-> & Hn & Hs).
    split; [done |]. split.
    + constructor; [| exact Hn]. intros Hin. apply (Hs k Hin). left.
    + intros x [-> | Hx]%elem_of_cons; [done |]. intros Hin. apply (Hs x Hx). by right.
Qed.

Lemma strict_hooks_ok : hooks_ok (strict_hooks error_factory).
Proof.
  split; [apply unique_object_ok |]. cbn [object_pairs_hook strict_hooks]. intros pairs v Hp H.
  unfold unique_object in H. apply bind_Ok in H as (fields & H & [= <-]).
  apply unique_pairs_inv in H as (-> & Hn & _). cbn [unique_keys].
  by rewrite Hp, (proj2 (no_duplicates_true _) Hn).
Qed.
End StrictHooks.

Lemma set_new_field {A} k (v : A) d : k ∉ map fst d -> assoc_set k v d = d ++ [(k, v)].
Proof.
  induction d as [|[k' v'] d IH]; cbn [assoc_set app]; [done |]. intros Hk.
  destruct (String.eqb_spec k k') as [->|_]; [destruct Hk; by left |].
  f_equal. apply IH. intros H. apply Hk. by right.
Qed.

Lemma set_field_keys {A} k (v : A) d x : x ∈ map fst (assoc_set k v d) -> x = k \/ x ∈ map fst d.
Proof.
  induction d as [|[k' v'] d IH]; cbn [assoc_set]; [by intros [-> | []%elem_of_nil]%elem_of_cons; left |].
  destruct (String.eqb_spec k k') as [->|_]; cbn [map fst]; [by right |].
  intros [-> | H%IH]%elem_of_cons; [right; by left |]. destruct H; [by left | right; by right].
Qed.

Definition unique_fields (d : list (string * json)) : Prop :=
  NoDup (map fst d) /\ forallb (fun kv => unique_keys kv.2) d = true.

Lemma assoc_set_unique k v d : unique_keys v = true -> unique_fields d -> unique_fields (assoc_set k v d).
Proof.
  intros Hv [Hn Hd]. induction d as [|[k' v'] d IH]; cbn [assoc_set].
  { split; [apply NoDup_singleton | cbn; by rewrite Hv]. }
  cbn in Hn, Hd. apply NoDup_cons in Hn as [Hk Hn]. apply andb_true_iff in Hd as [Hv' Hd].
  destruct (String.eqb_spec k k') as [->|Hne]; [split; cbn; [by constructor | by rewrite Hv, Hd] |].
  destruct (IH Hn Hd) as [H1 H2]. split; cbn; [| by rewrite Hv', H2]. apply NoDup_cons.
  split; [| exact H1]. by intros [-> | H]%set_field_keys.
Qed.

Lemma plain_hooks_ok : hooks_ok plain_hooks.
Proof.
  split; cbn [object_pairs_hook plain_hooks]; unfold dict_of_pairs.
  - intros fields Hn%no_duplicates_true. f_equal. f_equal.
    assert (forall d : list (string * json), NoDup (map fst (d ++ fields)) ->
      fold_left (fun d kv => assoc_set kv.1 kv.2 d) fields d = d ++ fields) as H; [| exact (H [] Hn)].
    clear. induction fields as [|[k v] fields IH]; intros d Hn; cbn [fold_left]; [by rewrite app_nil_r |].
    cbn [fst snd]. rewrite set_new_field.
    + rewrite IH by by rewrite <- app_assoc. by rewrite <- app_assoc.
    + rewrite map_app, NoDup_app in Hn. destruct Hn as (_ & Hn & _). intros Hk. apply (Hn k Hk). by left.
  - intros pairs v Hp [= <-].
    assert (forall d, unique_fields d ->
      unique_fields (fold_left (fun d kv => assoc_set kv.1 kv.2 d) pairs d)) as H.
    { induction pairs as [|[k v] pairs IH]; intros d Hd; cbn [fold_left]; [exact Hd |].
      cbn in Hp. apply andb_true_iff in Hp as [Hv Hp]. apply IH; [exact Hp |]. by apply assoc_set_unique. }
    destruct (H []) as [H1 H2]; [split; [constructor | done] |]. cbn [unique_keys].
    by rewrite H2, (proj2 (no_duplicates_true _) H1).
Qed.

Section Printed.
Context (hooks : JsonHooks) (Hhooks : hooks_ok hooks).

Lemma scan_literal_digit i c l : is_digit c = true ->
  scan_literal hooks i (c :: l) = scan_integer i 1 (c :: l).
Proof.
  intros Hc. unfold scan_literal. cbn [chars String.list_ascii_of_string strip].
  by rewrite !(digit_neq c) by done.
Qed.

Lemma scan_literal_minus i c l : is_digit c = true ->
  scan_literal hooks i ("-"%char :: c :: l) = scan_integer i (-1) (c :: l).
Proof.
  intros Hc. unfold scan_literal. cbn [chars String.list_ascii_of_string strip].
  rewrite (digit_neq c "I") by done. reflexivity.
Qed.

Lemma scan_literal_int z r : ends r ->
  scan_literal hooks unlimited (chars (str_of_Z z) ++ r) = (Ok (JInt z), r).
Proof.
  intros Hr. unfold str_of_Z. destruct (Z.ltb_spec z 0) as [Hz|Hz].
  - change (chars (String "-" (str_of_N (Z.to_N (- z)))) ++ r)
      with ("-"%char :: (chars (str_of_N (Z.to_N (- z))) ++ r)).
    destruct (str_of_N_head (Z.to_N (- z))) as (c & s & E & Hc).
    pose proof (scan_integer_N (-1) (Z.to_N (- z)) r Hr) as H. rewrite E in *.
    etransitivity; [exact (scan_literal_minus _ c _ Hc) |].
    etransitivity; [exact H |]. do 3 f_equal. lia.
  - destruct (str_of_N_head (Z.to_N z)) as (c & s & E & Hc).
    pose proof (scan_integer_N 1 (Z.to_N z) r Hr) as H. rewrite E in *.
    etransitivity; [exact (scan_literal_digit _ c _ Hc) |].
    etransitivity; [exact H |]. do 3 f_equal. lia.
Qed.

Lemma accept_yes c l : accept c (c :: l) = (Ok true, l).
Proof. unfold accept. by rewrite Ascii.eqb_refl. Qed.

Lemma accept_no c d l : Ascii.eqb d c = false -> accept c (d :: l) = (Ok false, d :: l).
Proof. unfold accept. by intros ->. Qed.

Lemma expect_yes c l : expect c (c :: l) = (Ok tt, l).
Proof. unfold expect. eapply M_bind_intro; [apply accept_yes | reflexivity]. Qed.

Lemma skip_space_eq l l' : drop_space l = l' -> skip_space l = (Ok tt, l').
Proof. by intros <-. Qed.

(** What a printed value starts with: no space and no closing bracket. *)
Lemma dumps_opens v : exists c l, dumps v = c :: l /\ is_json_space c = false
  /\ Ascii.eqb c "]" = false /\ Ascii.eqb c "}" = false /\ Ascii.eqb c "," = false.
Proof.
  destruct v as [|[]|z|s|l|d]; try (do 2 eexists; repeat split; reflexivity).
  cbn [dumps]. unfold str_of_Z.
  destruct (z <? 0)%Z; [do 2 eexists; repeat split; reflexivity |].
  destruct (str_of_N_head (Z.to_N z)) as (c & s & -> & Hc).
  exists c, (chars s). split; [reflexivity |].
  assert (forall d, is_digit d = false -> Ascii.eqb c d = false) as Hd.
  { intros d Hd. destruct (Ascii.eqb_spec c d) as [->|]; congruence. }
  split; [| by repeat split; apply Hd].
  unfold is_json_space. apply bool_decide_eq_false_2. intros H.
  unfold is_digit, code_between in Hc. apply andb_true_iff in Hc as [Hlo%Nat.leb_le _].
  rewrite !elem_of_cons, elem_of_nil in H. lia.
Qed.

Lemma drop_space_dumps v r : drop_space (dumps v ++ r) = dumps v ++ r.
Proof. destruct (dumps_opens v) as (c & l & -> & H & _). cbn. by rewrite H. Qed.

Lemma accept_dumps v c r : c = "]"%char \/ c = "}"%char \/ c = ","%char ->
  accept c (dumps v ++ r) = (Ok false, dumps v ++ r).
Proof.
  destruct (dumps_opens v) as (d & l & -> & _ & H1 & H2 & H3).
  intros [-> | [-> | ->]]; by apply accept_no.
Qed.

Lemma scan_once_int z fuel r : ends r ->
  scan_once hooks unlimited (S fuel) (dumps (JInt z) ++ r) = (Ok (JInt z), r).
Proof.
  intros Hr. assert (exists c l, dumps (JInt z) ++ r = c :: l /\ Ascii.eqb c quote = false
    /\ Ascii.eqb c "{" = false /\ Ascii.eqb c "[" = false) as (c & l & E & H1 & H2 & H3).
  { cbn [dumps]. unfold str_of_Z. destruct (z <? 0)%Z; [do 2 eexists; repeat split; reflexivity |].
    destruct (str_of_N_head (Z.to_N z)) as (c & s & -> & Hc).
    exists c, (chars s ++ r). split; [reflexivity |].
    assert (forall d, is_digit d = false -> Ascii.eqb c d = false) as Hd.
    { intros d Hd. destruct (Ascii.eqb_spec c d) as [->|]; congruence. }
    by repeat split; apply Hd. }
  pose proof (scan_literal_int z r Hr) as Hl.
  change (chars (str_of_Z z) ++ r) with (dumps (JInt z) ++ r) in Hl. rewrite E in *.
  cbn [scan_once]. do 3 (eapply M_bind_intro; [by apply accept_no |]; cbv iota). exact Hl.
Qed.

(** What an item or a member is followed by. *)
Lemma ends_comma l : ends (","%char :: l).
Proof. by left. Qed.
Lemma ends_bracket l : ends ("]"%char :: l).
Proof. by right; left. Qed.
Lemma ends_brace l : ends ("}"%char :: l).
Proof. by right; right. Qed.

Definition scans (v : json) : Prop := forall r fuel, ends r -> 2 * length (dumps v) < fuel ->
  scan_once hooks unlimited fuel (dumps v ++ r) = (Ok v, r).

Lemma items_open x l t : exists r, comma_join (map dumps (x :: l)) ++ t = dumps x ++ r.
Proof.
  destruct l as [|y l]; [by exists t |].
  change (comma_join (map dumps (x :: y :: l)))
    with (dumps x ++ ","%char :: comma_join (map dumps (y :: l))).
  rewrite <- app_assoc. by eexists.
Qed.

Lemma drop_space_items x l t :
  drop_space (comma_join (map dumps (x :: l)) ++ t) = comma_join (map dumps (x :: l)) ++ t.
Proof. destruct (items_open x l t) as [r ->]. apply drop_space_dumps. Qed.

Lemma scan_items_dumps x l r fuel : Forall scans (x :: l) ->
  2 * length (comma_join (map dumps (x :: l))) + 1 < fuel ->
  scan_items hooks unlimited fuel (comma_join (map dumps (x :: l)) ++ "]"%char :: r)
  = (Ok (x :: l), r).
Proof.
  revert x fuel; induction l as [|y l IH]; intros x fuel [Hx Hl]%Forall_cons Hf;
    (destruct fuel as [|fuel]; [lia |]); cbn [scan_items].
  - cbn [map comma_join] in *. eapply M_bind_intro; [apply Hx; [apply ends_bracket | lia] |].
    eapply M_bind_intro; [reflexivity |]. eapply M_bind_intro; [apply accept_yes |]. reflexivity.
  - change (comma_join (map dumps (x :: y :: l)))
      with (dumps x ++ ","%char :: comma_join (map dumps (y :: l))) in *.
    rewrite length_app in Hf. cbn [length] in Hf. rewrite <- app_assoc.
    eapply M_bind_intro; [apply Hx; [apply ends_comma | lia] |].
    eapply M_bind_intro; [reflexivity |].
    eapply M_bind_intro; [apply accept_no; reflexivity |].
    eapply M_bind_intro; [apply expect_yes |].
    eapply M_bind_intro; [apply skip_space_eq, drop_space_items |].
    eapply M_bind_intro; [apply IH; [done | lia] | reflexivity].
Qed.

Definition printed_member (kv : string * json) : text :=
  dumps_string kv.1 ++ ":"%char :: dumps kv.2.

Lemma member_prefix {A} k v rest fuel (K : string -> json -> P A) :
  scans v -> ends rest -> 2 * length (dumps v) < fuel ->
  (_ ← expect quote; key ← scan_string; _ ← skip_space; _ ← expect ":"; _ ← skip_space;
   item ← scan_once hooks unlimited fuel; K key item) (printed_member (k, v) ++ rest) = K k v rest.
Proof.
  intros Hv Hr Hf. unfold printed_member. cbn [fst snd]. rewrite <- app_assoc.
  eapply M_bind_intro; [apply expect_yes |].
  eapply M_bind_intro; [apply scan_string_dumps |].
  eapply M_bind_intro; [reflexivity |]. eapply M_bind_intro; [apply expect_yes |].
  eapply M_bind_intro; [apply skip_space_eq, drop_space_dumps |].
  eapply M_bind_intro; [by apply Hv | reflexivity].
Qed.

Lemma members_open x l t :
  exists r, comma_join (map printed_member (x :: l)) ++ t = quote :: r.
Proof. destruct l; by eexists. Qed.

Lemma drop_space_members x l t :
  drop_space (comma_join (map printed_member (x :: l)) ++ t)
  = comma_join (map printed_member (x :: l)) ++ t.
Proof. by destruct (members_open x l t) as [r ->]. Qed.

Lemma scan_members_dumps x l r fuel : Forall (fun kv => scans kv.2) (x :: l) ->
  2 * length (comma_join (map printed_member (x :: l))) + 1 < fuel ->
  scan_members hooks unlimited fuel (comma_join (map printed_member (x :: l)) ++ "}"%char :: r)
  = (Ok (x :: l), r).
Proof.
  revert x fuel; induction l as [|y l IH]; intros [k v] fuel [Hx Hl]%Forall_cons Hf;
    (destruct fuel as [|fuel]; [lia |]); cbn [scan_members].
  - cbn [map comma_join] in *. unfold printed_member in Hf. rewrite length_app in Hf.
    cbn [length fst snd] in Hf.
    etransitivity; [apply member_prefix; [exact Hx | apply ends_brace | lia] |].
    eapply M_bind_intro; [reflexivity |]. eapply M_bind_intro; [apply accept_yes |]. reflexivity.
  - change (comma_join (map printed_member ((k, v) :: y :: l)))
      with (printed_member (k, v) ++ ","%char :: comma_join (map printed_member (y :: l))) in *.
    unfold printed_member at 1 in Hf. rewrite !length_app in Hf. cbn [length fst snd] in Hf.
    rewrite <- app_assoc.
    etransitivity; [apply member_prefix; [exact Hx | apply ends_comma | lia] |].
    eapply M_bind_intro; [reflexivity |].
    eapply M_bind_intro; [apply accept_no; reflexivity |].
    eapply M_bind_intro; [apply expect_yes |].
    eapply M_bind_intro; [apply skip_space_eq, drop_space_members |].
    eapply M_bind_intro; [apply IH; [done | lia] | reflexivity].
Qed.

Lemma scan_once_dumps v : unique_keys v = true -> scans v.
Proof.
  induction v as [|b|z|s|l IH|d IH] using json_rect'; intros Hu r fuel Hr Hf;
    (destruct fuel as [|fuel]; [lia |]).
  - reflexivity.
  - by destruct b.
  - by apply scan_once_int.
  - change (dumps (JStr s) ++ r) with (quote :: (tail (dumps_string s) ++ r)). cbn [scan_once].
    eapply M_bind_intro; [apply accept_yes |].
    eapply M_bind_intro; [apply scan_string_dumps | reflexivity].
  - assert (Forall scans l) as Hl.
    { cbn [unique_keys] in Hu. rewrite forallb_forall in Hu. rewrite Forall_forall in *.
      intros x Hx. apply IH; [done |]. by apply Hu, list_elem_of_In. }
    cbn [dumps] in *. cbn [length] in Hf. rewrite length_app in Hf. cbn [length] in Hf.
    destruct l as [|x l]; [reflexivity |].
    cbn [app scan_once]. rewrite <- app_assoc.
    do 2 (eapply M_bind_intro; [by apply accept_no |]; cbv iota).
    eapply M_bind_intro; [apply accept_yes |]. cbv iota.
    eapply M_bind_intro; [reflexivity |].
    eapply M_bind_intro; [apply skip_space_eq, drop_space_items |].
    destruct (items_open x l (["]"%char] ++ r)) as [r' E]. rewrite E.
    eapply M_bind_intro; [apply accept_dumps; by left |]. cbv iota. rewrite <- E.
    eapply M_bind_intro; [apply scan_items_dumps; [exact Hl | lia] | reflexivity].
  - cbn [unique_keys] in Hu. apply andb_true_iff in Hu as [Hk Hu].
    assert (Forall (fun kv => scans kv.2) d) as Hl.
    { rewrite forallb_forall in Hu. rewrite Forall_forall in *.
      intros x Hx. apply IH; [done |]. by apply Hu, list_elem_of_In. }
    cbn [dumps] in *. cbn [length] in Hf. rewrite length_app in Hf. cbn [length] in Hf.
    destruct d as [|x l].
    { etransitivity; [| by rewrite <- (hk_keeps _ Hhooks []) by reflexivity]. reflexivity. }
    cbn [app scan_once]. rewrite <- app_assoc.
    eapply M_bind_intro; [by apply accept_no |]; cbv iota.
    eapply M_bind_intro; [apply accept_yes |]. cbv iota.
    eapply M_bind_intro; [reflexivity |].
    change (map (fun kv => dumps_string kv.1 ++ ":"%char :: dumps kv.2) (x :: l))
      with (map printed_member (x :: l)) in *.
    eapply M_bind_intro; [apply skip_space_eq, drop_space_members |].
    destruct (members_open x l (["}"%char] ++ r)) as [r' E]. rewrite E.
    eapply M_bind_intro; [by apply accept_no |]. cbv iota. rewrite <- E.
    eapply M_bind_intro; [apply scan_members_dumps; [exact Hl | lia] |].
    unfold lift. by rewrite (hk_keeps _ Hhooks).
Qed.

(** ** What the scanner accepts *)

(** A successful step consumes input, or none where it may. *)
Definition shrinks {A} (n : nat) (m : P A) : Prop :=
  forall l a r, m l = (Ok a, r) -> length r + n <= length l.

Lemma shrinks_bind {A B} n1 n2 n (m : P A) (f : A -> P B) :
  shrinks n1 m -> (forall a, shrinks n2 (f a)) -> n <= n1 + n2 -> shrinks n (m ≫= f).
Proof.
  intros Hm Hf Hn l b r H. apply M_bind_Ok in H as (a & l1 & H1 & H2).
  apply Hm in H1. apply Hf in H2. lia.
Qed.

Lemma shrinks_ret {A} (a : A) : shrinks 0 (mret a).
Proof. intros l x r [= _ <-]. lia. Qed.

Lemma shrinks_lift {A} (x : result A) : shrinks 0 (lift x).
Proof. intros l a r [= _ <-]. lia. Qed.

Lemma shrinks_none {A} n e : shrinks n (lift (A := A) (Err e)).
Proof. discriminate. Qed.

Lemma drop_space_length l : length (drop_space l) <= length l.
Proof. induction l as [|c l IH]; cbn; [lia |]. destruct (is_json_space c); cbn; lia. Qed.

Lemma shrinks_skip : shrinks 0 skip_space.
Proof. intros l a r [= _ <-]. pose proof (drop_space_length l). lia. Qed.

Lemma shrinks_accept c : shrinks 0 (accept c).
Proof.
  intros [|d l] a r; [intros [= _ <-]; cbn; lia |]. unfold accept.
  destruct (Ascii.eqb d c); intros [= _ <-]; cbn; lia.
Qed.

Lemma shrinks_expect c : shrinks 1 (expect c).
Proof.
  intros l a r H. apply M_bind_Ok in H as (b & l1 & H1 & H2). destruct b; [| discriminate].
  injection H2 as _ <-. destruct l as [|d l]; [discriminate |]. unfold accept in H1.
  destruct (Ascii.eqb d c); [injection H1 as <-; cbn; lia | discriminate].
Qed.

Lemma scanstring_length l s r : scanstring l = Ok (s, r) -> length r < length l.
Proof.
  assert (forall n l s r, length l <= n -> scanstring l = Ok (s, r) -> length r < length l) as H.
  { induction n as [|n IH]; intros [|c k] t q Hn; cbn [length] in *; try (discriminate || lia).
    assert (forall k' (d : ascii) t', length k' <= n -> length k' <= length k ->
      (p ← scanstring k'; Ok (d :: p.1, p.2)) = Ok (t', q) -> length q < S (length k)) as Hcons.
    { intros k' d t' H1 H2 H. apply bind_Ok in H as ([s1 r1] & H & [= _ <-]).
      apply IH in H; [cbn; lia | done]. }
    cbn [scanstring]. destruct (Ascii.eqb c quote); [intros [= _ <-]; lia |].
    destruct (Ascii.eqb c backslash).
    - destruct k as [|e k]; [discriminate |]. cbn [length] in *. destruct (Ascii.eqb e "u").
      + destruct k as [|a [|b [|x [|d k]]]]; try discriminate. cbn [length] in *.
        destruct (hex4 a b x d); [| discriminate]. destruct (_ <? 256)%N; [| discriminate].
        apply Hcons; lia.
      + destruct (simple_escape e); [| discriminate]. apply Hcons; lia.
    - destruct (_ <? 32); [discriminate |]. apply Hcons; lia. }
  by apply (H (length l)).
Qed.

Lemma shrinks_string : shrinks 1 scan_string.
Proof.
  intros l s r. unfold scan_string. destruct (scanstring l) as [[t q]|e] eqn:E; [| discriminate].
  intros [= _ <-]. apply scanstring_length in E. lia.
Qed.

Lemma parse_digits_length l n : length (parse_digits l n).2 <= length l.
Proof.
  revert n; induction l as [|c l IH]; intros n; cbn; [lia |].
  destruct (is_digit c); cbn; [specialize (IH (n * 10 + (N_of_ascii c - 48))%N); lia | lia].
Qed.

Lemma shrinks_integer i sign : shrinks 1 (scan_integer i sign).
Proof.
  intros [|c l] v r; [discriminate |]. unfold scan_integer.
  destruct (Ascii.eqb c "0");
    [destruct (float_tail l); [discriminate |]; destruct (read_digits _ _); [| discriminate];
     intros [= _ <-]; cbn; lia |].
  destruct (is_digit c) eqn:Hc; [| discriminate]. destruct (float_tail _); [discriminate |].
  destruct (read_digits _ _); [| discriminate].
  intros [= _ <-]. cbn [parse_digits]. rewrite Hc.
  pose proof (parse_digits_length l (0 * 10 + (N_of_ascii c - 48))%N). cbn [length]. lia.
Qed.

Lemma scan_integer_unique i sign l v r : scan_integer i sign l = (Ok v, r) -> exists z, v = JInt z.
Proof.
  unfold scan_integer. destruct l as [|c l]; [discriminate |].
  repeat match goal with
         | |- context [if ?b then _ else _] => destruct b
         | |- context [match read_digits ?i ?n with _ => _ end] => destruct (read_digits i n)
         end; intros H; try discriminate H; injection H as <- _; eauto.
Qed.

Lemma strip_length w l r : strip w l = Some r -> length l = length w + length r.
Proof.
  revert l; induction w as [|c w IH]; intros l; [by intros [= ->] |].
  destruct l as [|d l]; [discriminate |]. cbn. destruct (Ascii.eqb c d); [| discriminate].
  intros H%IH. lia.
Qed.

Lemma scan_literal_unique i l v r : scan_literal hooks i l = (Ok v, r) -> unique_keys v = true.
Proof.
  unfold scan_literal.
  repeat match goal with
  | |- context [strip (chars ?w) ?l] => destruct (strip (chars w) l)
  end; try discriminate; try (by intros [= <- _]); intros H;
    apply scan_integer_unique in H as [z ->]; done.
Qed.

Lemma shrinks_literal i : shrinks 1 (scan_literal hooks i).
Proof.
  intros l v r. unfold scan_literal.
  repeat match goal with
  | |- context [strip (chars ?w) ?l] => let E := fresh "E" in
      destruct (strip (chars w) l) eqn:E; [apply strip_length in E; cbn in E |]
  end; try discriminate; try (intros [= _ <-]; lia).
  - intros H%shrinks_integer. lia.
  - apply shrinks_integer.
Qed.

Lemma accept_inv c l b r : accept c l = (Ok b, r) ->
  if b then l = c :: r else r = l.
Proof.
  destruct l as [|d l]; [by intros [= <- <-] |]. unfold accept.
  destruct (Ascii.eqb_spec d c) as [->|]; by intros [= <- <-].
Qed.

(** The scanner consumes input and accepts no duplicate field. *)
Lemma scan_accepts fuel : forall i,
  (forall l v r, scan_once hooks i fuel l = (Ok v, r) ->
     length r < length l /\ unique_keys v = true)
  /\ (forall l ps r, scan_members hooks i fuel l = (Ok ps, r) ->
     length r < length l /\ forallb (fun kv => unique_keys kv.2) ps = true)
  /\ (forall l vs r, scan_items hooks i fuel l = (Ok vs, r) ->
     length r < length l /\ forallb unique_keys vs = true).
Proof.
  induction fuel as [|fuel IH]; intros i; [by repeat split |].
  destruct (IH i) as (IHv & IHm & IHi). split; [| split]; intros l v r H; cbn [scan_once scan_members scan_items] in H.
  - apply M_bind_Ok in H as ([] & l1 & H1%accept_inv & H); subst.
    { apply M_bind_Ok in H as (s & l2 & H2%shrinks_string & [= <- <-]). cbn. split; [lia | done]. }
    apply M_bind_Ok in H as ([] & l2 & H2%accept_inv & H); subst.
    { apply M_bind_Ok in H as (i' & l0 & Hi & H). injection Hi as _ <-.
      destruct (IH i') as (_ & IHm' & _).
      apply M_bind_Ok in H as ([] & l3 & H3%shrinks_skip & H).
      apply M_bind_Ok in H as (b & l4 & H4%shrinks_accept & H).
      apply M_bind_Ok in H as (pairs & l5 & H5 & H). injection H as H <-.
      assert (length l5 <= length l4 /\ forallb (fun kv => unique_keys kv.2) pairs = true)
        as [Hl Hu].
      { destruct b; [injection H5 as <- <-; split; [lia | done] |].
        apply IHm' in H5 as [? ?]. split; [lia | done]. }
      cbn [length]. split; [lia |]. by eapply (hk_unique _ Hhooks). }
    apply M_bind_Ok in H as ([] & l3 & H3%accept_inv & H); subst.
    { apply M_bind_Ok in H as (i' & l0 & Hi & H). injection Hi as _ <-.
      destruct (IH i') as (_ & _ & IHi').
      apply M_bind_Ok in H as ([] & l4 & H4%shrinks_skip & H). cbn [length].
      apply M_bind_Ok in H as ([] & l5 & H5%shrinks_accept & H).
      - injection H as <- <-. split; [lia | done].
      - apply M_bind_Ok in H as (items & l6 & H6 & [= <- <-]). apply IHi' in H6 as [? ?].
        split; [lia | done]. }
    pose proof (shrinks_literal _ _ _ _ H). split; [lia |].
    by apply scan_literal_unique in H.
  - apply M_bind_Ok in H as ([] & l1 & H1%shrinks_expect & H).
    apply M_bind_Ok in H as (key & l2 & H2%shrinks_string & H).
    apply M_bind_Ok in H as ([] & l3 & H3%shrinks_skip & H).
    apply M_bind_Ok in H as ([] & l4 & H4%shrinks_expect & H).
    apply M_bind_Ok in H as ([] & l5 & H5%shrinks_skip & H).
    apply M_bind_Ok in H as (item & l6 & [H6 Hu]%IHv & H).
    apply M_bind_Ok in H as ([] & l7 & H7%shrinks_skip & H).
    apply M_bind_Ok in H as ([] & l8 & H8%shrinks_accept & H).
    + injection H as <- <-. cbn. rewrite Hu. split; [lia | done].
    + apply M_bind_Ok in H as ([] & l9 & H9%shrinks_expect & H).
      apply M_bind_Ok in H as ([] & l10 & H10%shrinks_skip & H).
      apply M_bind_Ok in H as (ps & l11 & [H11 Hps]%IHm & [= <- <-]).
      cbn. rewrite Hu, Hps. split; [lia | done].
  - apply M_bind_Ok in H as (item & l1 & [H1 Hu]%IHv & H).
    apply M_bind_Ok in H as ([] & l2 & H2%shrinks_skip & H).
    apply M_bind_Ok in H as ([] & l3 & H3%shrinks_accept & H).
    + injection H as <- <-. cbn. rewrite Hu. split; [lia | done].
    + apply M_bind_Ok in H as ([] & l4 & H4%shrinks_expect & H).
      apply M_bind_Ok in H as ([] & l5 & H5%shrinks_skip & H).
      apply M_bind_Ok in H as (items & l6 & [H6 Hi]%IHi & [= <- <-]).
      cbn. rewrite Hu, Hi. split; [lia | done].
Qed.

(** ** The fuel is enough *)

Lemma bind_after {A B} (m : P A) (f g : A -> P B) l :
  (forall a l', m l = (Ok a, l') -> f a l' = g a l') -> (m ≫= f) l = (m ≫= g) l.
Proof. intros H. unfold mbind, M_bind. destruct (m l) as [[a|e] l']; [by apply H | done]. Qed.

Lemma bind_first {A B} (m m' : P A) (f : A -> P B) l : m l = m' l -> (m ≫= f) l = (m' ≫= f) l.
Proof. intros H. unfold mbind, M_bind. by rewrite H. Qed.

Lemma fuel_irrelevant n : forall m i,
  (forall l, 2 * length l < n -> 2 * length l < m ->
     scan_once hooks i n l = scan_once hooks i m l)
  /\ (forall l, 2 * length l + 1 < n -> 2 * length l + 1 < m ->
     scan_members hooks i n l = scan_members hooks i m l)
  /\ (forall l, 2 * length l + 1 < n -> 2 * length l + 1 < m ->
     scan_items hooks i n l = scan_items hooks i m l).
Proof.
  induction n as [|n IH]; [split; [| split]; lia |].
  intros [|m] i; [split; [| split]; lia |]. destruct (IH m i) as (IHv & IHm & IHi).
  split; [| split]; intros l Hn Hm; cbn [scan_once scan_members scan_items].
  - apply bind_after. intros [] l1 H1%accept_inv; [reflexivity |].
    apply bind_after. intros [] l2 H2%accept_inv; subst.
    { cbn [length] in *. apply bind_after. intros i' l0 Hi. injection Hi as _ <-.
      apply bind_after. intros [] l3 H3%shrinks_skip.
      apply bind_after. intros [] l4 H4%shrinks_accept; apply bind_first; [reflexivity |].
      apply (IH m i'); lia. }
    apply bind_after. intros [] l3 H3%accept_inv; subst; [| reflexivity].
    cbn [length] in *. apply bind_after. intros i' l0 Hi. injection Hi as _ <-.
    apply bind_after. intros [] l4 H4%shrinks_skip.
    apply bind_after. intros [] l5 H5%shrinks_accept; [reflexivity |].
    apply bind_first, (IH m i'); lia.
  - apply bind_after. intros [] l1 H1%shrinks_expect.
    apply bind_after. intros key l2 H2%shrinks_string.
    apply bind_after. intros [] l3 H3%shrinks_skip.
    apply bind_after. intros [] l4 H4%shrinks_expect.
    apply bind_after. intros [] l5 H5%shrinks_skip.
    etransitivity; [apply bind_first, IHv; lia |].
    apply bind_after. intros item l6 [H6 _]%(proj1 (scan_accepts m i)).
    apply bind_after. intros [] l7 H7%shrinks_skip.
    apply bind_after. intros [] l8 H8%shrinks_accept; [reflexivity |].
    apply bind_after. intros [] l9 H9%shrinks_expect.
    apply bind_after. intros [] l10 H10%shrinks_skip.
    apply bind_first, IHm; lia.
  - etransitivity; [apply bind_first, IHv; lia |].
    apply bind_after. intros item l1 [H1 _]%(proj1 (scan_accepts m i)).
    apply bind_after. intros [] l2 H2%shrinks_skip.
    apply bind_after. intros [] l3 H3%shrinks_accept; [reflexivity |].
    apply bind_after. intros [] l4 H4%shrinks_expect.
    apply bind_after. intros [] l5 H5%shrinks_skip.
    apply bind_first, IHi; lia.
Qed.
End Printed.

(** ** UTF-8 round trip, and the whole boundary *)

Lemma utf8_decode_char_encode c b :
  utf8_decode (utf8_char c ++ b) = (l ← utf8_decode b; Some (N_of_ascii c :: l)).
Proof. destruct c as [[] [] [] [] [] [] [] []]; reflexivity. Qed.

Lemma utf8_decode_encode t : utf8_decode (utf8_encode t) = Some (map N_of_ascii t).
Proof.
  induction t as [|c t IH]; [reflexivity |]. unfold utf8_encode in *. cbn [flat_map].
  by rewrite utf8_decode_char_encode, IH.
Qed.

Lemma narrow_codes t : narrow (map N_of_ascii t) = Some t.
Proof.
  unfold narrow. assert (forallb (fun n => n <? 256)%N (map N_of_ascii t) = true) as ->.
  { apply forallb_forall. intros n (c & <- & _)%in_map_iff. apply N.ltb_lt, N_ascii_bounded. }
  rewrite map_map, (map_ext _ id) by (intros c; apply ascii_N_embedding). by rewrite map_id.
Qed.

Lemma insert_field_perm {A} k (v : A) d : insert_field k v d ≡ₚ (k, v) :: d.
Proof.
  induction d as [|[k' v'] d IH]; cbn; [done |]. destruct (str_leb k k'); [done |].
  rewrite IH. apply perm_swap.
Qed.

Lemma sort_fields_perm {A} (d : list (string * A)) : sort_fields d ≡ₚ d.
Proof.
  induction d as [|[k v] d IH]; [done |].
  change (sort_fields ((k, v) :: d)) with (insert_field k v (sort_fields d)).
  by rewrite insert_field_perm, IH.
Qed.

Lemma forallb_perm {A} (f : A -> bool) l l' : l ≡ₚ l' -> forallb f l = forallb f l'.
Proof. induction 1; cbn; try congruence. by rewrite !andb_assoc, (andb_comm (f x)). Qed.

Lemma unique_keys_sorted v : unique_keys (sorted_keys v) = unique_keys v.
Proof.
  induction v as [| | | |l IH|d IH] using json_rect'; cbn [sorted_keys unique_keys]; try done.
  - induction IH as [|x l Hx _ IHl]; cbn; [done |]. by rewrite Hx, IHl.
  - rewrite (forallb_perm _ _ _ (sort_fields_perm _)). f_equal.
    + pose proof (sort_fields_perm (map (fun kv => (kv.1, sorted_keys kv.2)) d)) as Hp.
      apply (fmap_Permutation fst) in Hp. change (@fmap list _) with @map in Hp.
      rewrite map_map in Hp. cbn in Hp.
      apply eq_true_iff_eq. rewrite !no_duplicates_true. by rewrite Hp.
    + clear -IH. induction IH as [|x l Hx _ IHl]; cbn; [done |]. by rewrite Hx, IHl.
Qed.

Section Loads.
Context (hooks : JsonHooks) (Hhooks : hooks_ok hooks).

Lemma loads_eq i t fuel : 2 * length t < fuel ->
  loads_within hooks i t
  = ((_ ← skip_space; v ← scan_once hooks i fuel; _ ← skip_space; rest ← get;
      match rest with [] => mret v | _ => syntax_error end) t).1.
Proof.
  intros Hf. unfold loads_within. f_equal. apply bind_after. intros [] l H%shrinks_skip.
  apply bind_first, fuel_irrelevant; [exact Hhooks | lia | lia].
Qed.

Lemma loads_unique i t v : loads_within hooks i t = Ok v -> unique_keys v = true.
Proof.
  unfold loads_within. intros H.
  match type of H with (?m t).1 = _ => destruct (m t) as [x r] eqn:Em end.
  cbn in H. subst x. apply M_bind_Ok in Em as ([] & l1 & _ & Em).
  apply M_bind_Ok in Em as (w' & l2 & Hw & Em). apply M_bind_Ok in Em as ([] & l3 & _ & Em).
  apply M_bind_Ok in Em as (rest & l4 & _ & Em). destruct rest; [| discriminate].
  injection Em as <- _. by destruct (proj1 (scan_accepts _ Hhooks _ _) _ _ _ Hw).
Qed.

Lemma loads_dumps v : unique_keys v = true -> loads hooks (dumps v) = Ok v.
Proof.
  intros Hu. unfold loads. rewrite (loads_eq _ _ (S (2 * length (dumps v)))) by lia.
  pose proof (drop_space_dumps v []) as Hd.
  pose proof (scan_once_dumps hooks Hhooks v Hu [] (S (2 * length (dumps v))) I ltac:(lia)) as Hs.
  rewrite app_nil_r in *.
  match goal with |- (?m ?t).1 = _ => enough (m t = (Ok v, [])) as -> by done end.
  eapply M_bind_intro; [by apply skip_space_eq |].
  eapply M_bind_intro; [exact Hs | reflexivity].
Qed.

End Loads.

Lemma load_canonical error_factory name v : unique_keys v = true ->
  load_strict_json error_factory name (canonical_json v) = Ok (sorted_keys v).
Proof.
  intros Hu. unfold load_strict_json, load_strict_json_within, canonical_json.
  rewrite utf8_decode_encode, narrow_codes. fold (loads (strict_hooks error_factory)).
  rewrite loads_dumps; [done | apply strict_hooks_ok |].
  by rewrite unique_keys_sorted.
Qed.

(** Canonical JSON survives the boundary: a document without duplicate
    fields is read back from its canonical bytes, with its keys sorted; and
    whatever bytes are accepted denote a document without duplicate fields, at
    any depth, which its own canonical bytes determine. *)
Theorem strict_json_roundtrip (error_factory : string -> string -> exn) (name : string) :
  (forall v, unique_keys v = true ->
     load_strict_json error_factory name (canonical_json v) = Ok (sorted_keys v))
  /\ forall data v, load_strict_json error_factory name data = Ok v ->
       unique_keys v = true
       /\ load_strict_json error_factory name (canonical_json v) = Ok (sorted_keys v).
Proof.
  split; [apply load_canonical |]. intros data v H.
  assert (unique_keys v = true) as Hu; [| split; [exact Hu | by apply load_canonical]].
  unfold load_strict_json, load_strict_json_within in H.
  destruct (utf8_decode data) as [codes|]; [| discriminate].
  destruct (narrow codes) as [t|]; [| discriminate].
  destruct (loads_within (strict_hooks error_factory) unlimited t) as [w|e] eqn:E;
    [| by destruct (isinstance_exn (ex_class e) JSONDecodeError)].
  injection H as <-. eapply loads_unique; [apply strict_hooks_ok | exact E].
Qed.

(** ** Errors *)

Section Errors.
Context (hooks : JsonHooks) (Hhooks : hooks_ok hooks) (declared : exn -> Prop).
Context (Hpairs : forall pairs e, object_pairs_hook hooks pairs = Err e -> declared e).
Context (Hconstant : forall s, declared (parse_constant hooks s)).
Context (reached : exn -> Prop).

(** The exceptions of the scanner: a syntax error, an error of the hooks, a
    value outside the universe of the model, or a limit of the interpreter;
    running out of fuel is none of them. *)
Definition scan_error (e : exn) : Prop :=
  ex_class e = JSONDecodeError \/ declared e
  \/ (ex_class e = OutOfModel /\ ex_code e = "") \/ reached e.

Definition fails_well {A} (m : P A) (l : text) : Prop :=
  forall e r, m l = (Err e, r) -> scan_error e.

Lemma fails_bind {A B} (m : P A) (f : A -> P B) l :
  fails_well m l -> (forall a l', m l = (Ok a, l') -> fails_well (f a) l') ->
  fails_well (m ≫= f) l.
Proof.
  intros Hm Hf e r H. unfold mbind, M_bind in H. destruct (m l) as [[a|e'] l'] eqn:E.
  - by eapply Hf.
  - injection H as <- <-. by eapply Hm.
Qed.

Lemma fails_ret {A} (a : A) l : fails_well (mret a) l.
Proof. by intros e r [=]. Qed.

Lemma fails_syntax {A} l : fails_well (A := A) syntax_error l.
Proof. intros e r [= <- _]. by left. Qed.

Lemma fails_skip l : fails_well skip_space l.
Proof. by intros e r [=]. Qed.

Lemma fails_accept c l : fails_well (accept c) l.
Proof. intros e r. destruct l as [|d l]; cbn; [done |]. by destruct (Ascii.eqb d c). Qed.

Lemma fails_expect c l : fails_well (expect c) l.
Proof. apply fails_bind; [apply fails_accept | intros [] ? _; [apply fails_ret | apply fails_syntax]]. Qed.

Lemma scanstring_error n l e : length l <= n -> scanstring l = Err e -> scan_error e.
Proof.
  revert l; induction n as [|n IH]; intros [|c l] Hl; cbn [length] in Hl; try lia;
    try (intros [= <-]; by left).
  assert (forall c l', length l' <= n ->
            (p ← scanstring l'; Ok (c :: p.1, p.2)) = Err e -> scan_error e) as Hc.
  { intros c' l' Hl' [H | (p & _ & H)]%bind_Err; [by apply IH in H | discriminate]. }
  cbn [scanstring]. destruct (Ascii.eqb c quote); [done |].
  destruct (Ascii.eqb c backslash).
  - destruct l as [|x l]; [intros [= <-]; by left |]. cbn [length] in Hl.
    destruct (Ascii.eqb x "u").
    + destruct l as [|a [|b [|d [|f l]]]]; try (intros [= <-]; by left).
      destruct (hex4 a b d f) as [m|]; [| intros [= <-]; by left].
      destruct (m <? 256)%N; [apply Hc; cbn in Hl; lia | intros [= <-]; right; right; by left].
    + destruct (simple_escape x); [apply Hc; lia | intros [= <-]; by left].
  - destruct (char_code c <? 32); [intros [= <-]; by left | apply Hc; lia].
Qed.

Lemma fails_string l : fails_well scan_string l.
Proof.
  intros e r. unfold scan_string. destruct (scanstring l) as [[s l']|e'] eqn:E; [done |].
  intros [= <- _]. by eapply scanstring_error.
Qed.

Lemma fails_integer i sign l : (forall e, limit_error i e -> reached e) ->
  fails_well (scan_integer i sign) l.
Proof.
  intros Hi e r. unfold scan_integer. destruct l as [|c l]; [intros [= <- _]; by left |].
  destruct (Ascii.eqb c "0"), (is_digit c); try destruct (float_tail _);
    try (destruct (read_digits _ _) eqn:Hd; [done |]); intros [= <- _];
    first [by left | right; right; by left
          | right; right; right; by eapply Hi, read_digits_error].
Qed.

Lemma fails_literal i l : (forall e, limit_error i e -> reached e) ->
  fails_well (scan_literal hooks i) l.
Proof.
  intros Hi e r. unfold scan_literal.
  repeat match goal with |- context [strip (chars ?w) ?x] => destruct (strip (chars w) x) end;
    try done; try (by apply fails_integer);
    intros [= <- _]; right; left; apply Hconstant.
Qed.

Lemma fails_enter i l : (forall e, limit_error i e -> reached e) -> fails_well (lift (enter i)) l.
Proof. intros Hi e r H. injection H as H _. right; right; right. apply Hi. left. by apply enter_error. Qed.

Lemma scan_fails_well fuel : forall i, (forall e, limit_error i e -> reached e) ->
  (forall l, 2 * length l < fuel -> fails_well (scan_once hooks i fuel) l)
  /\ (forall l, 2 * length l + 1 < fuel -> fails_well (scan_members hooks i fuel) l)
  /\ (forall l, 2 * length l + 1 < fuel -> fails_well (scan_items hooks i fuel) l).
Proof.
  induction fuel as [|fuel IH]; intros i Hi; [split; [| split]; lia |].
  destruct (IH i Hi) as (IHv & IHm & IHi).
  assert (forall i', enter i = Ok i' -> forall e, limit_error i' e -> reached e) as Hdeep
    by (intros i' He e Hl; by eapply Hi, enter_limits).
  split; [| split]; intros l Hl; cbn [scan_once scan_members scan_items].
  - apply fails_bind; [apply fails_accept |]. intros [] l1 H1%accept_inv.
    { apply fails_bind; [apply fails_string | intros; apply fails_ret]. }
    apply fails_bind; [apply fails_accept |]. intros [] l2 H2%accept_inv; subst.
    { cbn [length] in Hl. apply fails_bind; [by apply fails_enter |].
      intros i' l0 He. injection He as He <-.
      apply fails_bind; [apply fails_skip |]. intros [] l3 H3%shrinks_skip.
      apply fails_bind; [apply fails_accept |]. intros b l4 H4%shrinks_accept.
      apply fails_bind; [destruct b; [apply fails_ret | apply (IH i' (Hdeep i' He)); lia] |].
      intros pairs l5 _ e r H. injection H as H _. right; left. by eapply Hpairs. }
    apply fails_bind; [apply fails_accept |]. intros [] l3 H3%accept_inv; subst;
      [| by apply fails_literal]. cbn [length] in Hl.
    apply fails_bind; [by apply fails_enter |]. intros i' l0 He. injection He as He <-.
    apply fails_bind; [apply fails_skip |]. intros [] l4 H4%shrinks_skip.
    apply fails_bind; [apply fails_accept |]. intros [] l5 H5%shrinks_accept; [apply fails_ret |].
    apply fails_bind; [apply (IH i' (Hdeep i' He)); lia | intros; apply fails_ret].
  - apply fails_bind; [apply fails_expect |]. intros [] l1 H1%shrinks_expect.
    apply fails_bind; [apply fails_string |]. intros key l2 H2%shrinks_string.
    apply fails_bind; [apply fails_skip |]. intros [] l3 H3%shrinks_skip.
    apply fails_bind; [apply fails_expect |]. intros [] l4 H4%shrinks_expect.
    apply fails_bind; [apply fails_skip |]. intros [] l5 H5%shrinks_skip.
    apply fails_bind; [apply IHv; lia |]. intros item l6 [H6 _]%(proj1 (scan_accepts _ Hhooks fuel i)).
    apply fails_bind; [apply fails_skip |]. intros [] l7 H7%shrinks_skip.
    apply fails_bind; [apply fails_accept |]. intros [] l8 H8%shrinks_accept; [apply fails_ret |].
    apply fails_bind; [apply fails_expect |]. intros [] l9 H9%shrinks_expect.
    apply fails_bind; [apply fails_skip |]. intros [] l10 H10%shrinks_skip.
    apply fails_bind; [apply IHm; lia | intros; apply fails_ret].
  - apply fails_bind; [apply IHv; lia |]. intros item l1 [H1 _]%(proj1 (scan_accepts _ Hhooks fuel i)).
    apply fails_bind; [apply fails_skip |]. intros [] l2 H2%shrinks_skip.
    apply fails_bind; [apply fails_accept |]. intros [] l3 H3%shrinks_accept; [apply fails_ret |].
    apply fails_bind; [apply fails_expect |]. intros [] l4 H4%shrinks_expect.
    apply fails_bind; [apply fails_skip |]. intros [] l5 H5%shrinks_skip.
    apply fails_bind; [apply IHi; lia | intros; apply fails_ret].
Qed.

Lemma loads_error i t e : (forall e, limit_error i e -> reached e) ->
  loads_within hooks i t = Err e -> scan_error e.
Proof.
  unfold loads_within. intros Hi H.
  match type of H with (?m t).1 = _ =>
    assert (fails_well m t) as Hw; [| destruct (m t) as [x r] eqn:E; cbn in H; subst x; by eapply Hw]
  end.
  apply fails_bind; [apply fails_skip |]. intros [] l1 H1%shrinks_skip.
  apply fails_bind; [apply (proj1 (scan_fails_well _ i Hi)); lia |]. intros v l2 _.
  apply fails_bind; [apply fails_skip |]. intros [] l3 _.
  apply fails_bind; [by intros ? ? [=] |]. intros [|] l4 _; [apply fails_ret | apply fails_syntax].
Qed.

End Errors.

(** ** Limits of the interpreter only add errors *)

Section Limits.
Context (hooks : JsonHooks) (i0 : Interpreter).

(** [m], within the limits, does what [m'] does without, or reaches one. *)
Definition limited {A} (m m' : P A) (l : text) : Prop :=
  m l = m' l \/ exists e r, m l = (Err e, r) /\ limit_error i0 e.

Lemma limited_bind {A B} (m m' : P A) (f f' : A -> P B) l :
  limited m m' l -> (forall a l', m l = (Ok a, l') -> limited (f a) (f' a) l') ->
  limited (m ≫= f) (m' ≫= f') l.
Proof.
  unfold limited, mbind, M_bind. intros [E | (e & r & E & He)] Hf.
  - rewrite <- E. destruct (m l) as [[a|e] l'] eqn:Em; [by apply Hf | by left].
  - right. exists e, r. by rewrite E.
Qed.

Lemma limited_same {A} (m : P A) l : limited m m l.
Proof. by left. Qed.

Lemma limited_enter {A} i (f f' : Interpreter -> P A) l :
  (forall e, limit_error i e -> limit_error i0 e) ->
  (forall i', enter i = Ok i' -> limited (f i') (f' unlimited) l) ->
  limited (lift (enter i) ≫= f) (lift (enter unlimited) ≫= f') l.
Proof.
  intros Hi Hf. unfold limited, mbind, M_bind, lift. destruct (enter i) as [i'|e] eqn:E.
  - exact (Hf i' eq_refl).
  - right. exists e, l. split; [done |]. apply Hi. left. by apply enter_error.
Qed.

Lemma limited_integer i sign l : (forall e, limit_error i e -> limit_error i0 e) ->
  limited (scan_integer i sign) (scan_integer unlimited sign) l.
Proof.
  intros Hi. unfold limited, scan_integer. destruct l as [|c l]; [by left |].
  destruct (Ascii.eqb c "0"), (is_digit c); try destruct (float_tail _); try (by left);
    (destruct (read_digits i _) as [u|e] eqn:E; [by left |];
     right; exists e; eexists; split; [done |]; by eapply Hi, read_digits_error).
Qed.

Lemma limited_literal i l : (forall e, limit_error i e -> limit_error i0 e) ->
  limited (scan_literal hooks i) (scan_literal hooks unlimited) l.
Proof.
  intros Hi. unfold limited, scan_literal.
  repeat match goal with |- context [strip (chars ?w) ?x] => destruct (strip (chars w) x) end;
    try (by left); by apply limited_integer.
Qed.

Lemma scan_limited fuel : forall i, (forall e, limit_error i e -> limit_error i0 e) ->
  (forall l, limited (scan_once hooks i fuel) (scan_once hooks unlimited fuel) l)
  /\ (forall l, limited (scan_members hooks i fuel) (scan_members hooks unlimited fuel) l)
  /\ (forall l, limited (scan_items hooks i fuel) (scan_items hooks unlimited fuel) l).
Proof.
  induction fuel as [|fuel IH]; intros i Hi; [repeat split; intros; apply limited_same |].
  destruct (IH i Hi) as (IHv & IHm & IHi).
  assert (forall i', enter i = Ok i' -> forall e, limit_error i' e -> limit_error i0 e) as Hdeep
    by (intros i' He e Hl; by eapply Hi, enter_limits).
  assert (forall A (m : P A) l, limited m m l) as Hs by (intros; apply limited_same).
  split; [| split]; intros l; cbn [scan_once scan_members scan_items].
  - apply limited_bind; [apply Hs | intros [] l1 _; [apply Hs |]].
    apply limited_bind; [apply Hs | intros [] l2 _].
    { apply limited_enter; [exact Hi |]. intros i' He. destruct (IH i' (Hdeep i' He)) as (_ & IHm' & _).
      repeat (apply limited_bind; [apply Hs || (case_match; [apply Hs | apply IHm']) | intros ? ? _]).
      apply Hs. }
    apply limited_bind; [apply Hs | intros [] l3 _; [| by apply limited_literal]].
    apply limited_enter; [exact Hi |]. intros i' He. destruct (IH i' (Hdeep i' He)) as (_ & _ & IHi').
    do 2 (apply limited_bind; [apply Hs | intros ? ? _]). case_match; [apply Hs |].
    apply limited_bind; [apply IHi' | intros; apply Hs].
  - do 5 (apply limited_bind; [apply Hs | intros ? ? _]).
    apply limited_bind; [apply IHv | intros item ? _].
    do 2 (apply limited_bind; [apply Hs | intros ? ? _]). case_match; [apply Hs |].
    do 2 (apply limited_bind; [apply Hs | intros ? ? _]).
    apply limited_bind; [apply IHm | intros; apply Hs].
  - apply limited_bind; [apply IHv | intros item ? _].
    do 2 (apply limited_bind; [apply Hs | intros ? ? _]). case_match; [apply Hs |].
    do 2 (apply limited_bind; [apply Hs | intros ? ? _]).
    apply limited_bind; [apply IHi | intros; apply Hs].
Qed.
End Limits.

Lemma loads_limited hooks i t : loads_within hooks i t = loads hooks t
  \/ exists e, loads_within hooks i t = Err e /\ limit_error i e.
Proof.
  assert (forall A (m : P A) l, limited i m m l) as Hs by (intros; apply limited_same).
  unfold loads, loads_within. match goal with |- (?m t).1 = (?m' t).1 \/ _ =>
    assert (limited i m m' t) as [E | (e & r & E & He)] end; [| left; by rewrite E |].
  - apply limited_bind; [apply Hs | intros ? l _].
    apply limited_bind; [by apply (scan_limited hooks i _ i) | intros; apply Hs].
  - right. exists e. by rewrite E.
Qed.

Lemma load_limited error_factory i name data :
  load_strict_json_within error_factory i name data = load_strict_json error_factory name data
  \/ exists e, load_strict_json_within error_factory i name data = Err e /\ limit_error i e.
Proof.
  unfold load_strict_json, load_strict_json_within. destruct (utf8_decode data) as [codes|]; [| by left].
  destruct (narrow codes) as [t|]; [| by left].
  destruct (loads_limited (strict_hooks error_factory) i t) as [E | (e & E & He)];
    unfold loads in *; [left; by rewrite E |].
  right. exists e. rewrite E. split; [| exact He].
  by destruct He as [[Hc _] | [Hc _]]; rewrite Hc.
Qed.

Example load_nested :
  load_strict_json_within test_error (MkInterpreter (Some 2) None) "document" (chars "[[[1]]]")
  = raise RecursionError "maximum recursion depth exceeded".
Proof. vm_compute. reflexivity. Qed.
Example load_digits :
  load_strict_json_within test_error (MkInterpreter None (Some 3)) "document" (chars "[123, 1234]")
  = raise ValueError "Exceeds the limit for integer string conversion".
Proof. vm_compute. reflexivity. Qed.

Section StrictErrors.
Context (error_factory : string -> string -> exn).

Lemma unique_object_error pairs e : unique_object error_factory pairs = Err e ->
  exists message, e = error_factory "$" message.
Proof.
  unfold unique_object. intros [H | (? & _ & [=])]%bind_Err. revert H.
  generalize ([] : list string). induction pairs as [|[k v] pairs IH]; intros seen; [done |].
  cbn [unique_pairs]. case_bool_decide.
  - intros [= <-]. by eexists.
  - intros [H' | (? & _ & [=])]%bind_Err. by eapply IH.
Qed.

(** [reject_non_finite] and [unique_object] raise what the factory makes; a
    limit of the interpreter may be reached. *)
Lemma load_within_outcome (i : Interpreter) (name : string) (data : bytes) :
  match load_strict_json_within error_factory i name data with
  | Ok v => unique_keys v = true
  | Err e => (exists message, e = error_factory "$" message)
             \/ (ex_class e = OutOfModel /\ ex_code e = "") \/ limit_error i e
  end.
Proof.
  unfold load_strict_json_within. destruct (utf8_decode data) as [codes|]; [| left; eauto].
  destruct (narrow codes) as [t|]; [| right; by left].
  destruct (loads_within (strict_hooks error_factory) i t) as [v|e] eqn:E.
  { eapply loads_unique; [apply strict_hooks_ok | exact E]. }
  destruct (loads_error _ (strict_hooks_ok error_factory) _ unique_object_error
    (fun s => ex_intro _ _ eq_refl) _ i t e (fun _ H => H) E) as [H | [H | [H | H]]];
    destruct (isinstance_exn _ _) eqn:Hi; eauto.
  by rewrite H in Hi.
Qed.

Lemma load_outcome (name : string) (data : bytes) :
  match load_strict_json error_factory name data with
  | Ok v => unique_keys v = true
  | Err e => (exists message, e = error_factory "$" message)
             \/ (ex_class e = OutOfModel /\ ex_code e = "")
  end.
Proof.
  pose proof (load_within_outcome unlimited name data) as H. unfold load_strict_json.
  destruct (load_strict_json_within _ _ _ _); [done |].
  destruct H as [H | [H | []%unlimited_error]]; [by left | by right].
Qed.

(** Whatever bytes reach the JSON boundary, and whatever the limits of the
    interpreter, it returns a document without duplicate fields, raises an
    exception made by the [error_factory] of its caller for the path [$], or
    lets an error of the interpreter through: a [RecursionError] for a document
    that is nested too deeply, a bare [ValueError] for an integer of too many
    digits. No decoding error, no [JSONDecodeError] of the library and no
    exhausted fuel gets out ([OutOfModel] marks floating-point numbers and code
    points above 255, which the value universe does not have). *)
Theorem strict_json_errors (i : Interpreter) (name : string) (data : bytes) :
  match load_strict_json_within error_factory i name data with
  | Ok v => unique_keys v = true
  | Err e => (exists message, e = error_factory "$" message)
             \/ (ex_class e = OutOfModel /\ ex_code e = "") \/ limit_error i e
  end.
Proof. apply load_within_outcome. Qed.
End StrictErrors.

(** [json.loads] of bytes: it reads what is canonical, and fails with a
    [ValueError] or outside the model. *)
Lemma json_loads_canonical v : unique_keys v = true -> detects_utf8 (canonical_json v) = true ->
  json_loads (canonical_json v) = Ok (sorted_keys v).
Proof.
  intros Hu Hd. unfold json_loads, canonical_json in *. rewrite Hd. cbn [negb].
  rewrite utf8_decode_encode, narrow_codes, loads_dumps; [done | apply plain_hooks_ok |].
  by rewrite unique_keys_sorted.
Qed.

Lemma json_loads_error data e : json_loads data = Err e ->
  ex_class e = JSONDecodeError \/ ex_class e = ValueError \/ ex_class e = OutOfModel.
Proof.
  unfold json_loads. destruct (negb (detects_utf8 data)); [intros [= <-]; by right; right |].
  destruct (utf8_decode data) as [codes|].
  2: { destruct (bool_decide _); intros [= <-]; [by right; right | by right; left]. }
  destruct (narrow codes) as [t|]; [| intros [= <-]; by right; right].
  intros H. destruct (loads_error plain_hooks plain_hooks_ok (fun e => ex_class e = OutOfModel)
    ltac:(done) ltac:(done) _ unlimited t e (fun _ H => H) H) as [H1 | [H1 | [[H1 _] | []%unlimited_error]]];
    [by left | right; by right | right; by right].
Qed.
