(* ===== verification/Decimal.v ===== *)
(** * Decimal arithmetic as [decimal.Decimal] does it in the default context:
    28 significant digits, [ROUND_HALF_EVEN], exponents within
    [-999999, 999999], with [InvalidOperation], [DivisionByZero] and [Overflow]
    raised. Money amounts and [Decimal] values of a Skill are of this type. *)

From S2P Require Import Prelude.
Local Open Scope Z_scope.

(** [Fin neg coef exp] is [(-1)^neg * coef * 10^exp]. *)
Inductive decimal : Type :=
  | Fin (neg : bool) (coef : N) (exp : Z)
  | Inf (neg : bool)
  | NaN (neg signaling : bool) (payload : string).

#[export] Instance decimal_eq_dec : EqDecision decimal.
Proof. solve_decision. Defined.

Definition prec : Z := 28.
Definition Emax : Z := 999999.
Definition Emin : Z := -999999.
Definition Etiny : Z := Emin - prec + 1.
Definition Etop : Z := Emax - prec + 1.

Definition is_finite (d : decimal) : bool :=
  match d with Fin _ _ _ => true | _ => false end.

(** Number of decimal digits of a coefficient ([len(str(coef))]). *)
Fixpoint ndigits_fuel (fuel : nat) (n : N) : Z :=
  match fuel with
  | O => 1
  | S fuel => if (n <? 10)%N then 1 else 1 + ndigits_fuel fuel (n / 10)
  end.

Definition ndigits (n : N) : Z := ndigits_fuel (N.to_nat (N.size n)) n.

Definition pow10 (k : Z) : N := (10 ^ Z.to_N k)%N.

(** [n / d] rounded to the nearest integer, ties to even. *)
Definition div_half_even (n d : N) : N :=
  let q := (n / d)%N in
  let r := (n mod d)%N in
  match (2 * r ?= d)%N with
  | Lt => q
  | Gt => (q + 1)%N
  | Eq => if N.even q then q else (q + 1)%N
  end.

(** Rounding of an exact result to the context ([Decimal._fix]). *)
Definition fix_result (neg : bool) (coef : N) (exp : Z) : result decimal :=
  if (coef =? 0)%N then Ok (Fin neg 0 (Z.min (Z.max exp Etiny) Emax))
  else
    let exp_min := ndigits coef + exp - prec in
    if exp_min >? Etop then raise DecimalOverflow "above Emax"
    else
      let exp_min := Z.max exp_min Etiny in
      if exp <? exp_min then
        let q := div_half_even coef (pow10 (exp_min - exp)) in
        let (q, exp_min) :=
          if ndigits q >? prec then ((q / 10)%N, exp_min + 1) else (q, exp_min) in
        if exp_min >? Etop then raise DecimalOverflow "above Emax"
        else Ok (Fin neg q exp_min)
      else Ok (Fin neg coef exp).

Definition signed (neg : bool) (n : N) : Z :=
  if neg then - Z.of_N n else Z.of_N n.

(** The coefficient at a smaller exponent [e]. *)
Definition scale (neg : bool) (coef : N) (exp e : Z) : Z :=
  signed neg (coef * pow10 (exp - e)).

Definition nan_of (neg : bool) (payload : string) : result decimal :=
  Ok (NaN neg false payload).

(** [_check_nans]: a signaling NaN raises, a quiet one propagates. *)
Definition check_nans (a b : decimal) : option (result decimal) :=
  match a, b with
  | NaN _ true _, _ | _, NaN _ true _ => Some (raise InvalidOperation "sNaN")
  | NaN s false p, _ => Some (nan_of s p)
  | _, NaN s false p => Some (nan_of s p)
  | _, _ => None
  end.

Definition dec_add (a b : decimal) : result decimal :=
  match check_nans a b with
  | Some r => r
  | None =>
      match a, b with
      | Inf s1, Inf s2 =>
          if Bool.eqb s1 s2 then Ok a else raise InvalidOperation "-INF + INF"
      | Inf _, _ => Ok a
      | _, Inf _ => Ok b
      | Fin s1 c1 e1, Fin s2 c2 e2 =>
          let e := Z.min e1 e2 in
          if (c1 =? 0)%N && (c2 =? 0)%N then fix_result (s1 && s2) 0 e
          else
            let v := scale s1 c1 e1 e + scale s2 c2 e2 e in
            fix_result (v <? 0) (Z.abs_N v) e
      | _, _ => raise InvalidOperation "sNaN"
      end
  end.

Definition dec_negate (a : decimal) : decimal :=
  match a with
  | Fin s c e => Fin (negb s) c e
  | Inf s => Inf (negb s)
  | NaN s g p => NaN s g p
  end.

Definition dec_sub (a b : decimal) : result decimal := dec_add a (dec_negate b).

Definition is_zero (a : decimal) : bool :=
  match a with Fin _ c _ => (c =? 0)%N | _ => false end.

Definition sign_of (a : decimal) : bool :=
  match a with Fin s _ _ => s | Inf s => s | NaN s _ _ => s end.

Definition dec_mul (a b : decimal) : result decimal :=
  match check_nans a b with
  | Some r => r
  | None =>
      match a, b with
      | Fin s1 c1 e1, Fin s2 c2 e2 => fix_result (xorb s1 s2) (c1 * c2) (e1 + e2)
      | _, _ =>
          if is_zero a || is_zero b then raise InvalidOperation "0 * INF"
          else Ok (Inf (xorb (sign_of a) (sign_of b)))
      end
  end.

(** Drop trailing zeros of an exact quotient up to the ideal exponent. *)
Fixpoint drop_zeros (fuel : nat) (coef : N) (exp ideal : Z) : N * Z :=
  match fuel with
  | O => (coef, exp)
  | S fuel =>
      if (exp <? ideal) && (coef mod 10 =? 0)%N
      then drop_zeros fuel (coef / 10) (exp + 1) ideal else (coef, exp)
  end.

Definition dec_div (a b : decimal) : result decimal :=
  match check_nans a b with
  | Some r => r
  | None =>
      let neg := xorb (sign_of a) (sign_of b) in
      match a, b with
      | Inf _, Inf _ => raise InvalidOperation "(+-)INF/(+-)INF"
      | Inf _, _ => Ok (Inf neg)
      | _, Inf _ => fix_result neg 0 Etiny
      | Fin s1 c1 e1, Fin s2 c2 e2 =>
          if (c2 =? 0)%N then
            if (c1 =? 0)%N then raise InvalidOperation "0 / 0"
            else raise ZeroDivisionError "x / 0"
          else if (c1 =? 0)%N then fix_result neg 0 (e1 - e2)
          else
            let shift := ndigits c2 - ndigits c1 + prec + 1 in
            let exp := e1 - e2 - shift in
            let n := (c1 * pow10 shift)%N in
            let d := (c2 * pow10 (- shift))%N in
            let q := (n / d)%N in
            if (n mod d =? 0)%N then
              let (q, exp) := drop_zeros (Z.to_nat (ndigits q)) q exp (e1 - e2) in
              fix_result neg q exp
            else fix_result neg (if (q mod 5 =? 0)%N then q + 1 else q)%N exp
      | _, _ => raise InvalidOperation "sNaN"
      end
  end.

(** Numerical comparison; ordering a NaN raises. *)
Definition dec_compare (a b : decimal) : option comparison :=
  match a, b with
  | NaN _ _ _, _ | _, NaN _ _ _ => None
  | Inf s1, Inf s2 => Some (Z.compare (signed s1 1) (signed s2 1))
  | Inf s, _ => Some (if s then Lt else Gt)
  | _, Inf s => Some (if s then Gt else Lt)
  | Fin s1 c1 e1, Fin s2 c2 e2 =>
      let e := Z.min e1 e2 in
      Some (Z.compare (scale s1 c1 e1 e) (scale s2 c2 e2 e))
  end.

Definition ordered (test : comparison -> bool) (a b : decimal) : result bool :=
  match dec_compare a b with
  | Some c => Ok (test c)
  | None => raise InvalidOperation "comparison involving NaN"
  end.

Definition dec_lt : decimal -> decimal -> result bool :=
  ordered (fun c => match c with Lt => true | _ => false end).
Definition dec_le : decimal -> decimal -> result bool :=
  ordered (fun c => match c with Gt => false | _ => true end).

Definition is_snan (a : decimal) : bool :=
  match a with NaN _ true _ => true | _ => false end.

(** [a == b] *)
Definition dec_eq (a b : decimal) : result bool :=
  if is_snan a || is_snan b then raise InvalidOperation "comparison involving sNaN"
  else match dec_compare a b with
       | Some Eq => Ok true
       | _ => Ok false
       end.

Definition dec_of_Z (z : Z) : decimal := Fin (z <? 0) (Z.abs_N z) 0.

(** [format(d, "f")]: plain notation, no exponent. *)
Definition dec_format_f (d : decimal) : string :=
  let sign (s : bool) (t : string) := if s then String "-" t else t in
  match d with
  | Fin s c e =>
      if 0 <=? e then
        sign s (if (c =? 0)%N then "0" else (str_of_N c +:+ zeros (Z.to_nat e))%string)
      else
        let t := str_of_N c in
        let k := Z.to_nat (- e) in
        let t := (zeros (S k - String.length t) +:+ t)%string in
        let n := (String.length t - k)%nat in
        sign s (String.substring 0 n t +:+ "." +:+ String.substring n k t)%string
  | Inf s => sign s "Infinity"
  | NaN s g p => sign s ((if g then "sNaN" else "NaN") +:+ p)%string
  end.

Example format_small : dec_format_f (Fin true 5 (-3)) = "-0.005".
Proof. reflexivity. Qed.
Example format_large : dec_format_f (Fin false 12 2) = "1200".
Proof. reflexivity. Qed.
Example format_mid : dec_format_f (Fin false 12345 (-2)) = "123.45".
Proof. reflexivity. Qed.
Example div_third :
  dec_div (dec_of_Z 1) (dec_of_Z 3) = Ok (Fin false 3333333333333333333333333333 (-28)).
Proof. vm_compute. reflexivity. Qed.
Example div_eighth : dec_div (dec_of_Z 1) (dec_of_Z 8) = Ok (Fin false 125 (-3)).
Proof. vm_compute. reflexivity. Qed.
Example add_rounds :
  dec_add (Fin false 9999999999999999999999999999 0) (Fin false 5 (-1))
  = Ok (Fin false 1000000000000000000000000000 1).
Proof. vm_compute. reflexivity. Qed.

(** ** Digits *)

Lemma ndigits_fuel_pos fuel n : 1 <= ndigits_fuel fuel n.
Proof.
  revert n; induction fuel as [|fuel IH]; intros n; cbn; [lia |].
  destruct (n <? 10)%N; [lia | specialize (IH (n / 10)%N); lia].
Qed.

Lemma ndigits_fuel_spec fuel n : (0 < n)%N -> (n < 10 ^ N.of_nat (S fuel))%N ->
  10 ^ (ndigits_fuel fuel n - 1) <= Z.of_N n < 10 ^ ndigits_fuel fuel n.
Proof.
  revert n; induction fuel as [|fuel IH]; intros n Hpos Hn; cbn [ndigits_fuel].
  - change (10 ^ N.of_nat 1)%N with 10%N in Hn. cbn. lia.
  - destruct (N.ltb_spec n 10) as [Hs|Hs]; [cbn; lia |].
    assert (0 < n / 10)%N as Hq by (apply N.div_str_pos; lia).
    assert (n / 10 < 10 ^ N.of_nat (S fuel))%N as Hq'.
    { apply N.Div0.div_lt_upper_bound.
      replace (N.of_nat (S (S fuel))) with (N.succ (N.of_nat (S fuel))) in Hn by lia.
      rewrite N.pow_succ_r' in Hn. lia. }
    specialize (IH _ Hq Hq'). rewrite N2Z.inj_div in IH.
    set (k := ndigits_fuel fuel (n / 10)) in *.
    assert (1 <= k) as Hk by apply ndigits_fuel_pos.
    replace (1 + k - 1) with (Z.succ (k - 1)) by lia.
    replace (1 + k) with (Z.succ k) by lia.
    rewrite !Z.pow_succ_r by lia.
    pose proof (Z.div_mod (Z.of_N n) 10). pose proof (Z.mod_pos_bound (Z.of_N n) 10).
    change (Z.of_N 10) with 10 in *. lia.
Qed.

Lemma size_fuel n : (n < 10 ^ N.of_nat (S (N.to_nat (N.size n))))%N.
Proof.
  rewrite Nat2N.inj_succ, N2Nat.id. eapply N.lt_le_trans; [apply N.size_gt |].
  transitivity (10 ^ N.size n)%N; [apply N.pow_le_mono_l; lia |].
  apply N.pow_le_mono_r; lia.
Qed.

Lemma ndigits_spec n : (0 < n)%N ->
  10 ^ (ndigits n - 1) <= Z.of_N n < 10 ^ ndigits n.
Proof. intros H. apply ndigits_fuel_spec; [done | apply size_fuel]. Qed.

Lemma ndigits_pos n : 1 <= ndigits n.
Proof. apply ndigits_fuel_pos. Qed.

(** ** Rounding *)

Lemma div_half_even_error n d : (0 < d)%N ->
  2 * Z.abs (Z.of_N (div_half_even n d) * Z.of_N d - Z.of_N n) <= Z.of_N d.
Proof.
  intros Hd. unfold div_half_even. rewrite N.compare_antisym.
  pose proof (N.div_mod n d ltac:(lia)) as E. pose proof (N.mod_lt n d ltac:(lia)).
  set (q := (n / d)%N) in *. set (r := (n mod d)%N) in *.
  destruct (N.compare_spec d (2 * r)); cbn [CompOpp]; try destruct (N.even q); nia.
Qed.

(** An exact result with at most [prec] digits and an exponent in range is
    returned as it is. *)
Lemma fix_result_exact neg coef exp :
  coef <> 0%N -> ndigits coef <= prec -> Etiny <= exp <= Etop ->
  fix_result neg coef exp = Ok (Fin neg coef exp).
Proof.
  intros Hc Hn He. unfold fix_result.
  rewrite (proj2 (N.eqb_neq _ _)) by done.
  destruct (Z.gtb_spec (ndigits coef + exp - prec) Etop); [unfold Etop, prec in *; lia |].
  destruct (Z.ltb_spec exp (Z.max (ndigits coef + exp - prec) Etiny)); [lia | done].
Qed.

(** The value of a finite decimal in units of [10^e]. *)
Definition value_at (e : Z) (d : decimal) : Z :=
  match d with Fin s c x => scale s c x e | _ => 0 end.

Lemma scale_shift s c x e k : 0 <= k -> e <= x ->
  scale s c x (e - k) = scale s c x e * 10 ^ k.
Proof.
  intros Hk He. unfold scale, pow10.
  replace (x - (e - k)) with ((x - e) + k) by lia.
  rewrite Z2N.inj_add, N.pow_add_r by lia.
  assert (Z.of_N (10 ^ Z.to_N k) = 10 ^ k) as E
    by (rewrite N2Z.inj_pow, Z2N.id by lia; done).
  unfold signed. destruct s; rewrite !N2Z.inj_mul, E; lia.
Qed.

Lemma value_at_compare a b e : is_finite a = true -> is_finite b = true ->
  (forall s c x, a = Fin s c x -> e <= x) -> (forall s c x, b = Fin s c x -> e <= x) ->
  dec_compare a b = Some (Z.compare (value_at e a) (value_at e b)).
Proof.
  destruct a as [s1 c1 e1| |], b as [s2 c2 e2| |]; try discriminate.
  intros _ _ Ha Hb. specialize (Ha _ _ _ eq_refl). specialize (Hb _ _ _ eq_refl).
  cbn. f_equal. set (m := Z.min e1 e2).
  replace e with (m - (m - e)) by lia.
  rewrite !scale_shift by (unfold m; lia).
  assert (0 < 10 ^ (m - e)) as Hp by (apply Z.pow_pos_nonneg; unfold m; lia).
  rewrite <- !(Z.mul_comm (10 ^ (m - e))). by apply Zmult_compare_compat_l, Z.lt_gt.
Qed.

Definition exp_of (d : decimal) : Z := match d with Fin _ _ x => x | _ => 0 end.

Lemma dec_le_value a b e : is_finite a = true -> is_finite b = true ->
  e <= exp_of a -> e <= exp_of b ->
  dec_le a b = Ok (value_at e a <=? value_at e b).
Proof.
  intros Ha Hb Hea Heb. unfold dec_le, ordered.
  rewrite (value_at_compare a b e) by (done || intros ??? ->; done).
  unfold Z.leb. by destruct (_ ?= _).
Qed.

Lemma dec_lt_value a b e : is_finite a = true -> is_finite b = true ->
  e <= exp_of a -> e <= exp_of b ->
  dec_lt a b = Ok (value_at e a <? value_at e b).
Proof.
  intros Ha Hb Hea Heb. unfold dec_lt, ordered.
  rewrite (value_at_compare a b e) by (done || intros ??? ->; done).
  unfold Z.ltb. by destruct (_ ?= _).
Qed.

(** Rounding changes nothing when the coefficient has at most [prec] digits. *)
Lemma fix_result_value v e : ndigits (Z.abs_N v) <= prec -> Etiny <= e <= Etop ->
  exists d, fix_result (v <? 0) (Z.abs_N v) e = Ok d /\ is_finite d = true
            /\ exp_of d = e /\ value_at e d = v.
Proof.
  intros Hn He. destruct (decide (v = 0)) as [->|Hv].
  - exists (Fin false 0 e). unfold fix_result. cbn. repeat split.
    rewrite Z.max_l by lia. rewrite Z.min_l by (unfold Etop, prec in He; lia). done.
  - exists (Fin (v <? 0) (Z.abs_N v) e). rewrite fix_result_exact by (done || lia).
    repeat split. cbn. unfold scale, pow10. rewrite Z.sub_diag. cbn. rewrite N.mul_1_r.
    unfold signed. destruct (Z.ltb_spec v 0); lia.
Qed.

(** Addition is exact when the sum fits the precision. *)
Lemma dec_add_exact a b e :
  is_finite a = true -> is_finite b = true -> e = Z.min (exp_of a) (exp_of b) ->
  ndigits (Z.abs_N (value_at e a + value_at e b)) <= prec -> Etiny <= e <= Etop ->
  exists d, dec_add a b = Ok d /\ is_finite d = true /\ exp_of d = e
            /\ value_at e d = value_at e a + value_at e b.
Proof.
  destruct a as [s1 c1 e1| |], b as [s2 c2 e2| |]; try discriminate.
  cbn [exp_of value_at]. intros _ _ -> Hn He. unfold dec_add. cbn [check_nans].
  destruct ((c1 =? 0)%N && (c2 =? 0)%N) eqn:Z0; [| by apply fix_result_value].
  apply andb_true_iff in Z0 as [->%N.eqb_eq ->%N.eqb_eq].
  exists (Fin (s1 && s2) 0 (Z.min e1 e2)). unfold fix_result. cbn [N.eqb].
  rewrite Z.max_l by lia. rewrite Z.min_l by (unfold Etop, prec in He; lia).
  repeat split. cbn. unfold scale, signed. by destruct s1, s2.
Qed.

Lemma ndigits_le n k : 0 < k -> Z.of_N n < 10 ^ k -> ndigits n <= k.
Proof.
  intros Hk Hn. destruct (decide (n = 0)%N) as [->|Hz]; [change (ndigits 0) with 1; lia |].
  destruct (ndigits_spec n ltac:(lia)) as [Hlo _].
  destruct (Z.le_gt_cases (ndigits n) k) as [H|H]; [done |].
  pose proof (Z.pow_le_mono_r 10 k (ndigits n - 1) ltac:(lia) ltac:(lia)). lia.
Qed.

Lemma dec_add_comm_finite a b :
  is_finite a = true -> is_finite b = true -> dec_add a b = dec_add b a.
Proof.
  destruct a as [s1 c1 e1| |], b as [s2 c2 e2| |]; try discriminate.
  intros _ _. unfold dec_add. cbn [check_nans].
  rewrite (Z.min_comm e2 e1), (andb_comm (c2 =? 0)%N), (andb_comm s2 s1).
  by rewrite (Z.add_comm (scale s2 _ _ _)).
Qed.

Lemma fix_result_finite neg coef exp d :
  fix_result neg coef exp = Ok d -> is_finite d = true.
Proof.
  unfold fix_result, raise. repeat case_match; intros; simplify_eq; done.
Qed.

Lemma dec_add_finite a b d :
  is_finite a = true -> is_finite b = true -> dec_add a b = Ok d -> is_finite d = true.
Proof.
  destruct a, b; try discriminate. intros _ _. unfold dec_add. cbn [check_nans].
  case_match; apply fix_result_finite.
Qed.

Lemma dec_sub_finite a b d :
  is_finite a = true -> is_finite b = true -> dec_sub a b = Ok d -> is_finite d = true.
Proof. intros Ha Hb. apply dec_add_finite; [done | by destruct b]. Qed.
