(* ===== verification/Core.v ===== *)
(** * Core data of the kernel ([src/nsl/core.py])

    Enumerations, data classification, Money, type references, runtime values
    and value envelopes. *)

From S2P Require Import Prelude Digest Json Decimal.

(** ** Enumerations *)

Inductive Presence : Type := PRESENT | EMPTY.
Inductive Completeness : Type := COMPLETE | PARTIAL | C_UNKNOWN.
Inductive CheckStatus : Type := PASS | FAIL | CHECK_UNKNOWN.
Inductive ExecutionStatus : Type :=
  | CREATED | RUNNING | COMPLETED | FAILED | TOOL_ERROR | VALIDATION_ERROR
  | LIMIT_EXCEEDED | CANCELLED | WAITING_FOR_APPROVAL | RECONCILIATION_REQUIRED.
Inductive ToolCapability : Type := READ | WRITE | TRANSACTION.
Inductive RiskLevel : Type := R0 | R1 | R2 | R3 | R4 | R5.
Inductive ApprovalStatus : Type :=
  | NOT_REQUESTED | PENDING | APPROVED | REJECTED | EXPIRED.
Inductive ApprovalDecision : Type := DECISION_APPROVED | DECISION_REJECTED.
Inductive ApprovalEvidenceValidation : Type :=
  | VALID | INVALID | EV_EXPIRED | INTENT_MISMATCH | PAYLOAD_MISMATCH
  | BUSINESS_OPERATION_MISMATCH | APPROVAL_REQUEST_MISMATCH.
Inductive PreWriteEligibility : Type := ALLOWED | BLOCKED | REQUIRES_APPROVAL.
Inductive CommitState : Type := COMMITTED | NOT_COMMITTED | UNKNOWN_COMMIT_STATE.
Inductive VerificationStatus : Type :=
  | V_NOT_REQUESTED | VERIFIED | V_FAILED | V_UNKNOWN.
Inductive DataClassification : Type :=
  | PUBLIC | INTERNAL | CONFIDENTIAL | RESTRICTED.

#[export] Instance Presence_eq_dec : EqDecision Presence.
Proof. solve_decision. Defined.
#[export] Instance Completeness_eq_dec : EqDecision Completeness.
Proof. solve_decision. Defined.
#[export] Instance CheckStatus_eq_dec : EqDecision CheckStatus.
Proof. solve_decision. Defined.
#[export] Instance ExecutionStatus_eq_dec : EqDecision ExecutionStatus.
Proof. solve_decision. Defined.
#[export] Instance ToolCapability_eq_dec : EqDecision ToolCapability.
Proof. solve_decision. Defined.
#[export] Instance RiskLevel_eq_dec : EqDecision RiskLevel.
Proof. solve_decision. Defined.
#[export] Instance ApprovalStatus_eq_dec : EqDecision ApprovalStatus.
Proof. solve_decision. Defined.
#[export] Instance ApprovalDecision_eq_dec : EqDecision ApprovalDecision.
Proof. solve_decision. Defined.
#[export] Instance ApprovalEvidenceValidation_eq_dec :
  EqDecision ApprovalEvidenceValidation.
Proof. solve_decision. Defined.
#[export] Instance PreWriteEligibility_eq_dec : EqDecision PreWriteEligibility.
Proof. solve_decision. Defined.
#[export] Instance CommitState_eq_dec : EqDecision CommitState.
Proof. solve_decision. Defined.
#[export] Instance VerificationStatus_eq_dec : EqDecision VerificationStatus.
Proof. solve_decision. Defined.
#[export] Instance DataClassification_eq_dec : EqDecision DataClassification.
Proof. solve_decision. Defined.

(** [.value] of the members that reach a canonical document. *)
Definition commit_state_value (s : CommitState) : string :=
  match s with
  | COMMITTED => "COMMITTED"
  | NOT_COMMITTED => "NOT_COMMITTED"
  | UNKNOWN_COMMIT_STATE => "UNKNOWN_COMMIT_STATE"
  end.

(** ** Data classification *)

Definition _CLASSIFICATION_RANK (c : DataClassification) : nat :=
  match c with PUBLIC => 0 | INTERNAL => 1 | CONFIDENTIAL => 2 | RESTRICTED => 3 end.

(** [max(values, key=rank)] over the non-empty argument list: the first of
    the maximal ones. *)
Definition highest_classification (c : DataClassification)
    (cs : list DataClassification) : DataClassification :=
  fold_left (fun best x =>
    if _CLASSIFICATION_RANK best <? _CLASSIFICATION_RANK x then x else best) cs c.

Definition classification_allows (actual maximum : DataClassification) : bool :=
  _CLASSIFICATION_RANK actual <=? _CLASSIFICATION_RANK maximum.

Lemma rank_inj c d : _CLASSIFICATION_RANK c = _CLASSIFICATION_RANK d -> c = d.
Proof. by destruct c, d. Qed.

Lemma highest_classification_spec c cs :
  let h := highest_classification c cs in
  h ∈ c :: cs /\ Forall (fun x => classification_allows x h = true) (c :: cs).
Proof.
  cbv zeta. revert c; induction cs as [|d cs IH]; intros c.
  - split; [by left |]. constructor; [apply Nat.leb_refl | constructor].
  - change (highest_classification c (d :: cs)) with (highest_classification
      (if _CLASSIFICATION_RANK c <? _CLASSIFICATION_RANK d then d else c) cs).
    set (b := if _ <? _ then d else c).
    destruct (IH b) as [Hin Hall]. inversion Hall as [|? ? Hb Hcs]; subst.
    assert (_CLASSIFICATION_RANK c <= _CLASSIFICATION_RANK b
            /\ _CLASSIFICATION_RANK d <= _CLASSIFICATION_RANK b) as [Hc Hd].
    { unfold b.
      destruct (Nat.ltb_spec (_CLASSIFICATION_RANK c) (_CLASSIFICATION_RANK d)); lia. }
    unfold classification_allows in *. rewrite Nat.leb_le in Hb. split.
    + apply elem_of_cons in Hin as [->|Hin]; [| by right; right].
      unfold b. destruct (_ <? _); [right; left | left].
    + repeat constructor; [| |done]; apply Nat.leb_le; lia.
Qed.

(** ** Money *)

(** [_require_currency_code]: three characters, ASCII, alphabetic and upper
    case, that is, three letters [A]-[Z]. *)
Definition is_currency_code (currency : string) : bool :=
  (String.length currency =? 3) && string_forallb is_ascii currency
  && string_forallb is_upper currency.

Definition _require_currency_code (currency : string) : result unit :=
  raise_if (negb (is_currency_code currency)) MoneyValidationError
    "currency must be a 3-letter uppercase ISO 4217 code".

Record Money : Type := MkMoney { amount : decimal; currency : string }.

#[export] Instance Money_eq_dec : EqDecision Money.
Proof. solve_decision. Defined.

(** The constructor with its [__post_init__] checks. *)
Definition new_Money (amount : decimal) (currency : string) : result Money :=
  _ ← raise_if (negb (is_finite amount)) MoneyValidationError
        "Money amount must be a finite Decimal";
  _ ← raise_if (bool_decide (currency = "")) MoneyValidationError
        "currency is required";
  _ ← _require_currency_code currency;
  Ok (MkMoney amount currency).

Definition _require_currency (self other : Money) : result unit :=
  raise_if (negb (String.eqb (currency self) (currency other)))
    CurrencyMismatchError
    ("currency mismatch: " +:+ currency self +:+ " != " +:+ currency other).

Definition money_add (self other : Money) : result Money :=
  _ ← _require_currency self other;
  a ← dec_add (amount self) (amount other);
  new_Money a (currency self).

Definition money_sub (self other : Money) : result Money :=
  _ ← _require_currency self other;
  a ← dec_sub (amount self) (amount other);
  new_Money a (currency self).

Definition money_le (self other : Money) : result bool :=
  _ ← _require_currency self other; dec_le (amount self) (amount other).

Definition money_lt (self other : Money) : result bool :=
  _ ← _require_currency self other; dec_lt (amount self) (amount other).

(** ** Type references *)

Inductive TypeRef : Type :=
  | MkTypeRef (kind : string) (name : option string) (currency : option string)
      (item : option TypeRef) (fields : list (string * TypeRef))
      (enum_values : list string).

Definition ty_kind (t : TypeRef) : string := let 'MkTypeRef k _ _ _ _ _ := t in k.
Definition ty_name (t : TypeRef) : option string := let 'MkTypeRef _ n _ _ _ _ := t in n.
Definition ty_currency (t : TypeRef) : option string :=
  let 'MkTypeRef _ _ c _ _ _ := t in c.
Definition ty_item (t : TypeRef) : option TypeRef := let 'MkTypeRef _ _ _ i _ _ := t in i.
Definition ty_fields (t : TypeRef) : list (string * TypeRef) :=
  let 'MkTypeRef _ _ _ _ f _ := t in f.
Definition ty_enum_values (t : TypeRef) : list string :=
  let 'MkTypeRef _ _ _ _ _ e := t in e.

(** [__post_init__]: a money type carries a currency code. *)
Definition TypeRef_post_init (t : TypeRef) : result unit :=
  if String.eqb (ty_kind t) "money" then
    match ty_currency t with
    | Some c => _require_currency_code c
    | None => raise MoneyValidationError
                "currency must be a 3-letter uppercase ISO 4217 code"
    end
  else Ok tt.

Definition new_TypeRef kind name currency item fields enum_values : result TypeRef :=
  let t := MkTypeRef kind name currency item fields enum_values in
  _ ← TypeRef_post_init t; Ok t.

(** Induction over the nested type references. *)
Definition TypeRef_rect' (P : TypeRef -> Prop)
    (H : forall k n c i fs e,
      (forall t, i = Some t -> P t) -> Forall (fun f => P f.2) fs ->
      P (MkTypeRef k n c i fs e)) : forall t, P t :=
  fix go t :=
    match t with
    | MkTypeRef k n c i fs e =>
        H k n c i fs e
          (match i as i0 return (forall t, i0 = Some t -> P t) with
           | Some t0 => fun t E =>
               eq_ind t0 P (go t0) t (f_equal (default t0) E)
           | None => fun t E => False_ind _ (eq_ind None (fun o => match o with None => True | Some _ => False end) I (Some t) E)
           end)
          ((fix all l : Forall (fun f => P f.2) l :=
             match l with
             | [] => Forall_nil_2 _
             | f :: l => Forall_cons_2 _ f l (go f.2) (all l)
             end) fs)
    end.

Fixpoint type_eqb (t u : TypeRef) {struct t} : bool :=
  match t, u with
  | MkTypeRef k n c i fs e, MkTypeRef k' n' c' i' fs' e' =>
      String.eqb k k' && bool_decide (n = n') && bool_decide (c = c')
      && match i, i' with
         | Some x, Some y => type_eqb x y
         | None, None => true
         | _, _ => false
         end
      && (fix fields_eqb (a b : list (string * TypeRef)) : bool :=
            match a, b with
            | [], [] => true
            | (f, x) :: a, (g, y) :: b =>
                String.eqb f g && type_eqb x y && fields_eqb a b
            | _, _ => false
            end) fs fs'
      && bool_decide (e = e')
  end.

Lemma type_eqb_spec t u : type_eqb t u = true <-> t = u.
Proof.
  revert u; induction t as [k n c i fs e IHi IHfs] using TypeRef_rect'; intros [k' n' c' i' fs' e'].
  cbn [type_eqb]. rewrite !andb_true_iff, String.eqb_eq, !bool_decide_eq_true.
  assert (match i, i' with Some x, Some y => type_eqb x y | None, None => true
          | _, _ => false end = true <-> i = i') as ->.
  { destruct i as [x|], i' as [y|]; try (split; (done || discriminate)).
    rewrite (IHi x eq_refl). split; congruence. }
  match goal with |- context [?f fs fs' = true] =>
    assert (f fs fs' = true <-> fs = fs') as -> end.
  { clear -IHfs. revert fs'; induction IHfs as [|[f x] a Hx _ IH]; intros [|[g y] b];
      try (split; (done || discriminate)).
    cbn in Hx. rewrite !andb_true_iff, String.eqb_eq, Hx, IH.
    split; [intros [[-> ->] ->]; done | intros [= -> -> ->]; done]. }
  split; [intros (((((-> & ->) & ->) & ->) & ->) & ->); done | intros [= -> -> -> -> -> ->]; done].
Qed.

#[export] Instance TypeRef_eq_dec : EqDecision TypeRef.
Proof.
  intros t u. destruct (type_eqb t u) eqn:E.
  - left. by apply type_eqb_spec.
  - right. intros H%type_eqb_spec. congruence.
Defined.

(** [TypeRef.field]: the first field of that name, else [KeyError]. *)
Definition ty_field (t : TypeRef) (name : string) : result TypeRef :=
  match assoc name (ty_fields t) with
  | Some u => Ok u
  | None => raise KeyError name
  end.

Definition primitive (name : string) : TypeRef :=
  MkTypeRef "primitive" (Some name) None None [] [].
Definition domain (name : string) : TypeRef :=
  MkTypeRef "domain" (Some name) None None [] [].
Definition money_type (currency : string) : result TypeRef :=
  _ ← _require_currency_code currency;
  new_TypeRef "money" None (Some currency) None [] [].
Definition list_type (item : TypeRef) : TypeRef :=
  MkTypeRef "list" None None (Some item) [] [].
Definition record_type (name : string) (fields : list (string * TypeRef)) : TypeRef :=
  MkTypeRef "record" (Some name) None None fields [].
Definition enum_type (name : string) (values : list string) : TypeRef :=
  MkTypeRef "enum" (Some name) None None [] values.

Definition BOOL : TypeRef := primitive "Bool".
Definition INT : TypeRef := primitive "Int".
Definition STRING : TypeRef := primitive "String".
Definition DECIMAL : TypeRef := primitive "Decimal".
Definition DATE : TypeRef := primitive "Date".
Definition DATETIME : TypeRef := primitive "DateTime".
Definition YEAR : TypeRef := primitive "Year".
Definition CHECK_STATUS : TypeRef := enum_type "CheckStatus" ["PASS"; "FAIL"; "UNKNOWN"].
Definition CHECK_RESULT : TypeRef := record_type "CheckResult" [("status", CHECK_STATUS)].

(** [TypeRef.to_data] *)
Fixpoint type_to_data (t : TypeRef) : json :=
  match t with
  | MkTypeRef k n c i fs e =>
      JObj ([("kind", JStr k)]
            ++ match n with Some n => [("name", JStr n)] | None => [] end
            ++ match c with Some c => [("currency", JStr c)] | None => [] end
            ++ match i with Some i => [("item", type_to_data i)] | None => [] end
            ++ match fs with
               | [] => []
               | _ => [("fields", JArr (map (fun f =>
                          JObj [("name", JStr f.1); ("type", type_to_data f.2)]) fs))]
               end
            ++ match e with [] => [] | _ => [("values", JArr (map JStr e))] end)
  end.

(** [TypeRef.from_data]. The fuel bounds the nesting depth of the document;
    [json_depth] is always enough ([type_from_data] below). A JSON value of
    another kind than the field holds is outside the typed model. *)
Definition as_object (v : json) : result (list (string * json)) :=
  match v with JObj d => Ok d | _ => raise TypeError "expected an object" end.

Definition required_field (k : string) (d : list (string * json)) : result json :=
  match assoc k d with Some v => Ok v | None => raise KeyError k end.

Definition as_str (v : json) : result string :=
  match v with JStr s => Ok s | _ => raise OutOfModel "expected a string" end.

Definition optional_str (k : string) (d : list (string * json))
  : result (option string) :=
  match assoc k d with
  | None | Some JNull => Ok None
  | Some v => s ← as_str v; Ok (Some s)
  end.

Definition optional_list (k : string) (d : list (string * json))
  : result (list json) :=
  match assoc k d with
  | None => Ok []
  | Some (JArr l) => Ok l
  | Some _ => raise OutOfModel "expected an array"
  end.

Fixpoint type_from_data_fuel (fuel : nat) (v : json) : result TypeRef :=
  match fuel with
  | O => raise RecursionError "maximum recursion depth exceeded"
  | S fuel =>
      d ← as_object v;
      k ← (v ← required_field "kind" d; as_str v);
      n ← optional_str "name" d;
      c ← optional_str "currency" d;
      i ← match assoc "item" d with
          | Some i => t ← type_from_data_fuel fuel i; Ok (Some t)
          | None => Ok None
          end;
      l ← optional_list "fields" d;
      fs ← map_result (fun f =>
             o ← as_object f;
             name ← (v ← required_field "name" o; as_str v);
             t ← (v ← required_field "type" o; type_from_data_fuel fuel v);
             Ok (name, t)) l;
      e ← (l ← optional_list "values" d; map_result as_str l);
      new_TypeRef k n c i fs e
  end.

Fixpoint json_depth (v : json) : nat :=
  match v with
  | JArr items => S (fold_right Nat.max 0 (map json_depth items))
  | JObj fields => S (fold_right Nat.max 0 (map (fun kv => json_depth kv.2) fields))
  | _ => 1
  end.

Definition type_from_data (v : json) : result TypeRef :=
  type_from_data_fuel (json_depth v) v.

(** ** Dates and times

    A [date] is its proleptic ordinal (1 is 0001-01-01); a [datetime] is its
    wall clock in microseconds since 0001-01-01T00:00:00 with the UTC offset
    in microseconds, [None] when it is naive. *)

Record datetime : Type := MkDatetime { dt_wall : Z; dt_utcoffset : option Z }.

#[export] Instance datetime_eq_dec : EqDecision datetime.
Proof. solve_decision. Defined.

Section Calendar.
Local Open Scope Z_scope.

Definition us_per_day : Z := 86400000000.

Definition days_before_month (m : Z) : Z :=
  nth (Z.to_nat m) [0; 0; 31; 59; 90; 120; 151; 181; 212; 243; 273; 304; 334] 0.
Definition days_in_month (m : Z) : Z :=
  nth (Z.to_nat m) [0; 31; 28; 31; 30; 31; 30; 31; 31; 30; 31; 30; 31] 0.

(** [_ord2ymd] of the Python library. *)
Definition ord2ymd (ordinal : Z) : Z * Z * Z :=
  let n := ordinal - 1 in
  let n400 := n / 146097 in let n := n mod 146097 in
  let n100 := n / 36524 in let n := n mod 36524 in
  let n4 := n / 1461 in let n := n mod 1461 in
  let n1 := n / 365 in let n := n mod 365 in
  let year := n400 * 400 + 1 + n100 * 100 + n4 * 4 + n1 in
  if (n1 =? 4) || (n100 =? 4) then (year - 1, 12, 31)
  else
    let leap := (n1 =? 3) && (negb (n4 =? 24) || (n100 =? 3)) in
    let month := (n + 50) / 32 in
    let preceding := days_before_month month
                     + (if (2 <? month) && leap then 1 else 0) in
    if n <? preceding then
      let month := month - 1 in
      let preceding := preceding
        - (days_in_month month + (if (month =? 2) && leap then 1 else 0)) in
      (year, month, n - preceding + 1)
    else (year, month, n - preceding + 1).

Definition pad_Z (width : nat) (z : Z) : string := zero_pad width (str_of_Z z).

Definition date_isoformat (ordinal : Z) : string :=
  let '(y, m, d) := ord2ymd ordinal in
  (pad_Z 4 y +:+ "-" +:+ pad_Z 2 m +:+ "-" +:+ pad_Z 2 d)%string.

(** [hh:mm:ss[.ffffff]] of a time of day in microseconds. *)
Definition clock_isoformat (us : Z) : string :=
  let s := us / 1000000 in
  (pad_Z 2 (s / 3600) +:+ ":" +:+ pad_Z 2 (s / 60 mod 60) +:+ ":"
   +:+ pad_Z 2 (s mod 60)
   +:+ (if (us mod 1000000 =? 0)%Z then "" else "." +:+ pad_Z 6 (us mod 1000000)))%string.

Definition offset_isoformat (us : Z) : string :=
  let a := Z.abs us in
  let s := a / 1000000 in
  ((if (us <? 0)%Z then "-" else "+")
   +:+ pad_Z 2 (s / 3600) +:+ ":" +:+ pad_Z 2 (s / 60 mod 60)
   +:+ (if ((s mod 60 =? 0) && (a mod 1000000 =? 0))%Z then ""
        else ":" +:+ pad_Z 2 (s mod 60)
             +:+ (if (a mod 1000000 =? 0)%Z then "" else "." +:+ pad_Z 6 (a mod 1000000))))%string.

Definition datetime_isoformat (d : datetime) : string :=
  (date_isoformat (dt_wall d / us_per_day + 1) +:+ "T"
   +:+ clock_isoformat (dt_wall d mod us_per_day)
   +:+ match dt_utcoffset d with Some o => offset_isoformat o | None => "" end)%string.

(** The instant of an aware datetime, and the order of two UTC instants. *)
Definition instant (d : datetime) : Z :=
  dt_wall d - default 0 (dt_utcoffset d).
End Calendar.

Definition utc (us : Z) : datetime := MkDatetime us (Some 0%Z).

Example isoformat_epoch :
  datetime_isoformat (utc 62135596800000000) = "1970-01-01T00:00:00+00:00".
Proof. reflexivity. Qed.
Example isoformat_leap :
  datetime_isoformat (MkDatetime 63844805045000250 (Some 32400000000%Z))
  = "2024-02-29T12:04:05.000250+09:00".
Proof. reflexivity. Qed.

(** ** Runtime values

    The Python objects a Skill computes with. [StrEnum] members are the [str]
    they are a subclass of; mappings have string keys, in insertion order. *)
Inductive value : Type :=
  | VNone
  | VBool (b : bool)
  | VInt (z : Z)
  | VStr (s : string)
  | VDecimal (d : decimal)
  | VMoney (m : Money)
  | VDate (ordinal : Z)
  | VDateTime (d : datetime)
  | VList (items : list value)
  | VTuple (items : list value)
  | VDict (fields : list (string * value)).

Definition value_rect' (P : value -> Prop)
    (Hnone : P VNone) (Hbool : forall b, P (VBool b)) (Hint : forall z, P (VInt z))
    (Hstr : forall s, P (VStr s)) (Hdec : forall d, P (VDecimal d))
    (Hmoney : forall m, P (VMoney m)) (Hdate : forall d, P (VDate d))
    (Hdt : forall d, P (VDateTime d))
    (Hlist : forall l, Forall P l -> P (VList l))
    (Htuple : forall l, Forall P l -> P (VTuple l))
    (Hdict : forall d, Forall (fun kv => P kv.2) d -> P (VDict d)) : forall v, P v :=
  fix go v :=
    let all := fix all (l : list value) : Forall P l :=
      match l with
      | [] => Forall_nil_2 P
      | x :: l => Forall_cons_2 P x l (go x) (all l)
      end in
    match v with
    | VNone => Hnone | VBool b => Hbool b | VInt z => Hint z | VStr s => Hstr s
    | VDecimal d => Hdec d | VMoney m => Hmoney m | VDate d => Hdate d
    | VDateTime d => Hdt d
    | VList l => Hlist l (all l)
    | VTuple l => Htuple l (all l)
    | VDict d =>
        Hdict d ((fix all (l : list (string * value)) : Forall (fun kv => P kv.2) l :=
          match l with
          | [] => Forall_nil_2 _
          | x :: l => Forall_cons_2 _ x l (go x.2) (all l)
          end) d)
    end.

(** [encode_value] *)
Definition encode_money (m : Money) : json :=
  JObj [("$type", JStr "Money"); ("amount", JStr (dec_format_f (amount m)));
        ("currency", JStr (currency m))].
Definition encode_tagged (tag text : string) : json :=
  JObj [("$type", JStr tag); ("value", JStr text)].

Fixpoint encode_value (v : value) : json :=
  match v with
  | VMoney m => encode_money m
  | VDecimal d => encode_tagged "Decimal" (dec_format_f d)
  | VDateTime d => encode_tagged "DateTime" (datetime_isoformat d)
  | VDate d => encode_tagged "Date" (date_isoformat d)
  | VDict fields => JObj (map (fun kv => (kv.1, encode_value kv.2)) fields)
  | VList items | VTuple items => JArr (map encode_value items)
  | VNone => JNull
  | VBool b => JBool b
  | VInt z => JInt z
  | VStr s => JStr s
  end.

Record ValueEnvelope : Type := MkValueEnvelope {
  ve_value : value;
  ve_type_info : TypeRef;
  ve_presence : Presence;
  ve_completeness : Completeness;
  ve_classification : DataClassification;
  ve_provenance_refs : list string
}.

(** [value is None or value == [] or value == {}] *)
Definition is_empty_value (v : value) : bool :=
  match v with VNone | VList [] | VDict [] => true | _ => false end.

(** [ValueEnvelope.complete] *)
Definition envelope_complete (v : value) (type_info : TypeRef)
    (classification : DataClassification) (provenance_refs : list string)
  : ValueEnvelope :=
  MkValueEnvelope v type_info
    (if is_empty_value v then EMPTY else PRESENT) COMPLETE classification
    provenance_refs.

(** [sum_money]: every element must be Money of the given currency. *)
Fixpoint sum_money_from (total : Money) (values : list value) : result Money :=
  match values with
  | [] => Ok total
  | VMoney m :: values => total ← money_add total m; sum_money_from total values
  | _ :: _ => raise MoneyValidationError "Money sum requires Money values"
  end.

Definition sum_money (values : list value) (currency : string) : result Money :=
  total ← new_Money (Fin false 0 0) currency; sum_money_from total values.

(** ** Money: currencies never mix, amounts stay finite *)

Lemma new_Money_Ok a c m :
  new_Money a c = Ok m <->
  m = MkMoney a c /\ is_finite a = true /\ is_currency_code c = true.
Proof.
  unfold new_Money, _require_currency_code. split.
  - intros H. inv_result. split_bool. done.
  - intros (-> & Ha & Hc). rewrite Ha, Hc.
    destruct (bool_decide_reflect (c = "")) as [->|]; [discriminate Hc | done].
Qed.

Lemma _require_currency_Ok m1 m2 u :
  _require_currency m1 m2 = Ok u <-> currency m1 = currency m2.
Proof.
  unfold _require_currency. rewrite raise_if_Ok, negb_false_iff. apply String.eqb_eq.
Qed.

Lemma _require_currency_neq m1 m2 : currency m1 <> currency m2 ->
  exists msg, _require_currency m1 m2 = Err (Exn CurrencyMismatchError "" msg).
Proof.
  intros H. unfold _require_currency. rewrite (proj2 (String.eqb_neq _ _) H).
  eexists. reflexivity.
Qed.

Lemma money_add_Ok m1 m2 m : money_add m1 m2 = Ok m ->
  currency m1 = currency m2 /\ currency m = currency m1
  /\ dec_add (amount m1) (amount m2) = Ok (amount m) /\ is_finite (amount m) = true.
Proof.
  unfold money_add. intros H. inv_result.
  apply _require_currency_Ok in H0. apply new_Money_Ok in H as (-> & Hf & _).
  done.
Qed.

Lemma money_add_intro m1 m2 d : currency m1 = currency m2 ->
  is_currency_code (currency m1) = true -> is_finite d = true ->
  dec_add (amount m1) (amount m2) = Ok d ->
  money_add m1 m2 = Ok (MkMoney d (currency m1)).
Proof.
  intros Hc Hcode Hd Ha. unfold money_add.
  rewrite (proj2 (_require_currency_Ok m1 m2 tt) Hc). cbn. rewrite Ha. cbn.
  by apply new_Money_Ok.
Qed.

(** The Money elements of a list, with their values in units of [10^e]. *)
Definition money_of (v : value) : option Money :=
  match v with VMoney m => Some m | _ => None end.

Definition is_money_in (c : string) (v : value) : Prop :=
  exists m, v = VMoney m /\ currency m = c.

Definition amount_at (e : Z) (v : value) : Z :=
  match v with VMoney m => value_at e (amount m) | _ => 0%Z end.

Definition sum_Z (l : list Z) : Z := fold_right Z.add 0%Z l.

Lemma sum_Z_permutation (f : value -> Z) l l' :
  l ≡ₚ l' -> sum_Z (map f l) = sum_Z (map f l').
Proof.
  unfold sum_Z. induction 1 as [| |x y l|? ? ? ? IH1 ? IH2]; cbn; [done | congruence | lia |].
  by rewrite IH1.
Qed.

Lemma sum_money_from_currency total values m :
  sum_money_from total values = Ok m ->
  currency m = currency total /\ Forall (is_money_in (currency total)) values.
Proof.
  revert total; induction values as [|v values IH]; intros total H.
  - cbn in H. inv_result. done.
  - destruct v; try discriminate H. cbn [sum_money_from] in H. inv_result.
    apply money_add_Ok in H0 as (E1 & E2 & _). apply IH in H as [H1 H2].
    rewrite E2 in *. split; [done |]. constructor; [| done]. eexists; eauto.
Qed.

Lemma sum_money_from_exact e values total :
  (Etiny <= e <= 0)%Z ->
  is_finite (amount total) = true -> (e <= exp_of (amount total))%Z ->
  is_currency_code (currency total) = true ->
  Forall (fun v => exists m, v = VMoney m /\ currency m = currency total
                   /\ is_finite (amount m) = true /\ exp_of (amount m) = e) values ->
  (Z.abs (value_at e (amount total)) + sum_Z (map (fun v => Z.abs (amount_at e v)) values)
   < 10 ^ prec)%Z ->
  exists m, sum_money_from total values = Ok m /\ currency m = currency total
    /\ (e <= exp_of (amount m))%Z
    /\ value_at e (amount m) = (value_at e (amount total) + sum_Z (map (amount_at e) values))%Z.
Proof.
  intros He. revert total; induction values as [|v values IH];
    intros total Hf Hx Hcode Hall Hb.
  - exists total. cbn. repeat split; [done | lia].
  - inversion Hall as [|? ? (m & -> & Hc & Hmf & Hmx) Hrest]; subst.
    change (sum_Z (map (fun v => Z.abs (amount_at (exp_of (amount m)) v))
                      (VMoney m :: values)))
      with (Z.abs (value_at (exp_of (amount m)) (amount m))
            + sum_Z (map (fun v => Z.abs (amount_at (exp_of (amount m)) v)) values))%Z in Hb.
    set (e := exp_of (amount m)) in *.
    assert (0 <= sum_Z (map (fun v => Z.abs (amount_at e v)) values))%Z as Hpos.
    { clear. induction values as [|w values IHw]; cbn; [lia |]. unfold sum_Z in IHw. lia. }
    destruct (dec_add_exact (amount total) (amount m) e) as (d & Hadd & Hd & Hdx & Hdv);
      [done | done | lia | apply ndigits_le; unfold prec in *; lia
       | unfold Etop, Emax, prec; lia |].
    assert (Z.abs (value_at e d) + sum_Z (map (fun v => Z.abs (amount_at e v)) values)
            < 10 ^ prec)%Z as Hb' by (rewrite Hdv; lia).
    destruct (IH (MkMoney d (currency total))) as (r & Hr & Hrc & Hrx & Hrv);
      try done; [cbn [amount]; lia |].
    exists r. cbn [sum_money_from]. rewrite (money_add_intro _ _ d) by done.
    change (sum_money_from (MkMoney d (currency total)) values = Ok r /\
            currency r = currency total /\ (e <= exp_of (amount r))%Z /\
            value_at e (amount r) = (value_at e (amount total) +
              (value_at e (amount m) + sum_Z (map (amount_at e) values)))%Z).
    cbn [amount] in Hrv. rewrite Hdv in Hrv. repeat split; try done. lia.
Qed.

(** ** Type references survive their document form *)

Fixpoint type_wf (t : TypeRef) : bool :=
  match t with
  | MkTypeRef k n c i fs e =>
      is_Ok (TypeRef_post_init t)
      && match i with Some i => type_wf i | None => true end
      && forallb (fun f => type_wf f.2) fs
  end.

Lemma as_str_JStr l : map_result as_str (map JStr l) = Ok l.
Proof.
  apply map_result_Ok. induction l; constructor; [done | assumption].
Qed.

Lemma depth_max (l : list nat) x : x ∈ l -> x <= fold_right Nat.max 0 l.
Proof. induction 1; cbn; lia. Qed.

Lemma depth_field k v d : (k, v) ∈ d -> json_depth v < json_depth (JObj d).
Proof.
  intros H. apply Nat.lt_succ_r, depth_max.
  apply (list_elem_of_fmap_2 (fun kv : string * json => json_depth kv.2) d (k, v) H).
Qed.

Lemma depth_item v l : v ∈ l -> json_depth v < json_depth (JArr l).
Proof.
  intros H. apply Nat.lt_succ_r, depth_max.
  exact (list_elem_of_fmap_2 json_depth l v H).
Qed.

Section TypeDocument.
Context (k : string) (n c : option string) (i : option TypeRef)
        (fs : list (string * TypeRef)) (e : list string).

Definition field_doc (f : string * TypeRef) : json :=
  JObj [("name", JStr f.1); ("type", type_to_data f.2)].

Definition type_doc : list (string * json) :=
  [("kind", JStr k)]
  ++ match n with Some n => [("name", JStr n)] | None => [] end
  ++ match c with Some c => [("currency", JStr c)] | None => [] end
  ++ match i with Some i => [("item", type_to_data i)] | None => [] end
  ++ match fs with [] => [] | _ => [("fields", JArr (map field_doc fs))] end
  ++ match e with [] => [] | _ => [("values", JArr (map JStr e))] end.

Lemma type_doc_name : optional_str "name" type_doc = Ok n.
Proof. unfold type_doc. destruct n, c, i, fs, e; reflexivity. Qed.
Lemma type_doc_currency : optional_str "currency" type_doc = Ok c.
Proof. unfold type_doc. destruct n, c, i, fs, e; reflexivity. Qed.
Lemma type_doc_item :
  assoc "item" type_doc = match i with Some t => Some (type_to_data t) | None => None end.
Proof. unfold type_doc. destruct n, c, i, fs, e; reflexivity. Qed.
Lemma type_doc_fields : optional_list "fields" type_doc = Ok (map field_doc fs).
Proof. unfold type_doc. destruct n, c, i, fs, e; reflexivity. Qed.
Lemma type_doc_values : optional_list "values" type_doc = Ok (map JStr e).
Proof. unfold type_doc. destruct n, c, i, fs, e; reflexivity. Qed.

Lemma type_doc_item_depth t :
  i = Some t -> json_depth (type_to_data t) < json_depth (JObj type_doc).
Proof.
  intros Hi. apply (depth_field "item"), assoc_elem.
  rewrite type_doc_item, Hi. done.
Qed.

Lemma type_doc_field_depth f :
  f ∈ fs -> json_depth (type_to_data f.2) < json_depth (JObj type_doc).
Proof.
  intros H. transitivity (json_depth (field_doc f)).
  { apply (depth_field "type"). right; left. }
  transitivity (json_depth (JArr (map field_doc fs))).
  { apply depth_item. exact (list_elem_of_fmap_2 field_doc fs f H). }
  apply (depth_field "fields"), assoc_elem.
  unfold type_doc. destruct fs as [|g fs']; [by apply not_elem_of_nil in H |].
  destruct n, c, i; reflexivity.
Qed.
End TypeDocument.

Lemma type_to_data_doc k n c i fs e :
  type_to_data (MkTypeRef k n c i fs e) = JObj (type_doc k n c i fs e).
Proof. reflexivity. Qed.

Lemma type_from_data_to_data fuel t :
  json_depth (type_to_data t) <= fuel -> type_wf t = true ->
  type_from_data_fuel fuel (type_to_data t) = Ok t.
Proof.
  revert fuel; induction t as [k n c i fs e IHi IHfs] using TypeRef_rect'.
  intros fuel Hfuel Hwf. rewrite type_to_data_doc in *.
  change (is_Ok (TypeRef_post_init (MkTypeRef k n c i fs e))
          && match i with Some i => type_wf i | None => true end
          && forallb (fun f => type_wf f.2) fs = true) in Hwf.
  split_bool. destruct fuel as [|fuel]; [cbn in Hfuel; lia |].
  cbn [type_from_data_fuel].
  apply (bind_intro (type_doc k n c i fs e)); [done |].
  apply (bind_intro k); [done |].
  apply (bind_intro n); [apply type_doc_name |].
  apply (bind_intro c); [apply type_doc_currency |].
  apply (bind_intro i).
  { rewrite type_doc_item. destruct i as [i|]; [| done].
    apply (bind_intro i); [| done]. apply IHi; [done | | done].
    pose proof (type_doc_item_depth k n c (Some i) fs e i eq_refl). lia. }
  apply (bind_intro (map field_doc fs)); [apply type_doc_fields |].
  apply (bind_intro fs).
  { apply map_result_Ok, Forall2_fmap_l, Forall_Forall2_diag, Forall_forall.
    intros [f t] Hf. cbn [field_doc].
    apply (bind_intro [("name", JStr f); ("type", type_to_data t)]); [done |].
    apply (bind_intro f); [done |].
    apply (bind_intro t); [| done].
    apply (bind_intro (type_to_data t)); [done |].
    rewrite Forall_forall in IHfs. apply (IHfs (f, t) Hf).
    - pose proof (type_doc_field_depth k n c i fs e (f, t) Hf). cbn in *. lia.
    - apply (proj1 (forallb_forall _ fs) H0). by apply list_elem_of_In. }
  apply (bind_intro e).
  { apply (bind_intro (map JStr e)); [apply type_doc_values | apply as_str_JStr]. }
  unfold new_TypeRef. destruct (TypeRef_post_init _) as [[]|]; done.
Qed.

(** ** Properties *)

(** A type reference that passes its constructor checks at every level is
    read back unchanged from the document [to_data] writes: [from_data]
    returns (the nesting depth of the document is enough fuel) and no field,
    item, enum value or currency is lost. *)
Theorem type_ref_roundtrip (t : TypeRef) :
  type_wf t = true -> type_from_data (type_to_data t) = Ok t.
Proof. by apply type_from_data_to_data. Qed.

Lemma type_ref_roundtrip_witness :
  type_from_data (type_to_data (list_type (record_type "Expense"
    [("amount", MkTypeRef "money" None (Some "KRW") None [] []); ("s", CHECK_STATUS)])))
  = Ok (list_type (record_type "Expense"
    [("amount", MkTypeRef "money" None (Some "KRW") None [] []); ("s", CHECK_STATUS)])).
Proof. apply type_ref_roundtrip. reflexivity. Defined.

(** [sum_money] returns only when every element is Money of the requested
    currency, and its result has that currency: no sum ever mixes
    currencies or skips a value that is not Money. *)
Theorem sum_money_single_currency (values : list value) (c : string) (m : Money) :
  sum_money values c = Ok m ->
  currency m = c /\ Forall (is_money_in c) values /\ is_currency_code c = true.
Proof.
  unfold sum_money. intros H. inv_result. apply new_Money_Ok in H0 as (-> & _ & Hc).
  by apply sum_money_from_currency in H as [-> H].
Qed.

Lemma sum_money_single_currency_witness :
  Forall (is_money_in "KRW") [VMoney (MkMoney (Fin false 5 0) "KRW")].
Proof.
  apply (sum_money_single_currency _ "KRW" (MkMoney (Fin false 5 0) "KRW")).
  vm_compute. reflexivity.
Defined.

(** Within the 28-digit precision, [sum_money] returns the exact sum, in
    any order: amounts with a common exponent [e] whose absolute values add
    up to less than 10^28 units give the mathematical sum, and every
    permutation of the list gives the same value. *)
Theorem sum_money_exact (e : Z) (c : string) (values values' : list value) :
  (Etiny <= e <= 0)%Z -> is_currency_code c = true -> values ≡ₚ values' ->
  Forall (fun v => exists m, v = VMoney m /\ currency m = c
                   /\ is_finite (amount m) = true /\ exp_of (amount m) = e) values ->
  (sum_Z (map (fun v => Z.abs (amount_at e v)) values) < 10 ^ prec)%Z ->
  exists m m', sum_money values c = Ok m /\ sum_money values' c = Ok m'
    /\ value_at e (amount m) = sum_Z (map (amount_at e) values)
    /\ value_at e (amount m') = sum_Z (map (amount_at e) values).
Proof.
  intros He Hc Hp Hall Hb.
  assert (new_Money (Fin false 0 0) c = Ok (MkMoney (Fin false 0 0) c)) as H0
    by by apply new_Money_Ok.
  assert (forall l, l ≡ₚ values -> exists m, sum_money l c = Ok m
            /\ value_at e (amount m) = sum_Z (map (amount_at e) values)) as Hsum.
  { intros l Hl.
    assert (forall f : value -> Z, sum_Z (map f l) = sum_Z (map f values)) as Hf.
    { intros f. by apply sum_Z_permutation. }
    destruct (sum_money_from_exact e l (MkMoney (Fin false 0 0) c))
      as (m & Hm & _ & _ & Hv); cbn [amount currency is_finite exp_of]; try (done || lia).
    - by rewrite Hl.
    - rewrite Hf. unfold value_at, scale, signed. cbn. lia.
    - exists m. unfold sum_money. rewrite H0. split; [exact Hm |].
      rewrite Hv, Hf. unfold value_at, scale, signed. cbn. lia. }
  destruct (Hsum values) as (m & ? & ?); [done |].
  destruct (Hsum values') as (m' & ? & ?); [done |]. eauto 6.
Qed.

Lemma sum_money_exact_witness :
  exists m m',
    sum_money [VMoney (MkMoney (Fin false 1050 (-2)) "USD");
               VMoney (MkMoney (Fin true 50 (-2)) "USD")] "USD" = Ok m
    /\ sum_money [VMoney (MkMoney (Fin true 50 (-2)) "USD");
                  VMoney (MkMoney (Fin false 1050 (-2)) "USD")] "USD" = Ok m'
    /\ value_at (-2) (amount m) = 1000%Z /\ value_at (-2) (amount m') = 1000%Z.
Proof.
  apply (sum_money_exact (-2) "USD"
           [VMoney (MkMoney (Fin false 1050 (-2)) "USD");
            VMoney (MkMoney (Fin true 50 (-2)) "USD")]).
  - vm_compute. split; discriminate.
  - reflexivity.
  - apply perm_swap.
  - repeat constructor; eexists; repeat split; reflexivity.
  - vm_compute. reflexivity.
Defined.

(** [highest_classification] is the least upper bound the code relies on:
    the result is one of the arguments and every argument is allowed under
    it. *)
Theorem highest_classification_upper (c : DataClassification) (cs : list DataClassification) :
  highest_classification c cs ∈ c :: cs
  /\ forall x, x ∈ c :: cs -> classification_allows x (highest_classification c cs) = true.
Proof.
  destruct (highest_classification_spec c cs) as [H1 H2]. split; [done |].
  by apply Forall_forall.
Qed.
