(* ===== verification/Decoding.v ===== *)
(** * Decoding of encoded values ([src/nsl/core.py])

    [decode_value], the inverse of [encode_value], with what it uses of the
    Python library: the [Decimal] constructor on a text, and [fromisoformat] of
    dates and times on the texts [isoformat] writes; other spellings of ISO
    8601 that the library accepts are outside the model. *)

From S2P Require Import Prelude Digest Json JsonBoundary Decimal Core.


(** ** [Decimal(text)] *)

Definition lower (c : ascii) : ascii :=
  if is_upper c then ascii_of_nat (char_code c + 32) else c.

Fixpoint drop_blank (l : text) : text :=
  match l with
  | c :: l' => if is_space c then drop_blank l' else l
  | [] => []
  end.

(** [text.strip().replace("_", "")] *)
Definition numeric_text (s : string) : text :=
  List.filter (fun c => negb (Ascii.eqb c "_")) (rev (drop_blank (rev (drop_blank (chars s))))).

Fixpoint span_digits (l : text) : text * text :=
  match l with
  | c :: l' => if is_digit c then let p := span_digits l' in (c :: p.1, p.2) else ([], l)
  | [] => ([], [])
  end.

Definition take_sign (l : text) : bool * text :=
  match l with
  | c :: l' => if Ascii.eqb c "-" then (true, l') else if Ascii.eqb c "+" then (false, l')
               else (false, l)
  | [] => (false, [])
  end.

Definition digits_value (l : text) : N := (parse_digits l 0).1.

Definition exponent_of (l : text) : option Z :=
  match l with
  | [] => Some 0%Z
  | c :: l =>
      if Ascii.eqb (lower c) "e" then
        let '(negative, l) := take_sign l in
        match span_digits l with
        | ((_ :: _) as digits, []) =>
            Some (if negative : bool then (- Z.of_N (digits_value digits))%Z
                  else Z.of_N (digits_value digits))
        | _ => None
        end
      else None
  end.

Definition finite_of (negative : bool) (l : text) : option decimal :=
  let '(whole, l) := span_digits l in
  let '(fraction, l) := match l with
                        | c :: l' => if Ascii.eqb c "." then span_digits l' else ([], l)
                        | [] => ([], [])
                        end in
  match whole ++ fraction, exponent_of l with
  | (_ :: _) as digits, Some e =>
      Some (Fin negative (digits_value digits) (e - Z.of_nat (length fraction)))
  | _, _ => None
  end.

(** The digits after [NaN], without leading zeros. *)
Definition nan_of (negative signaling : bool) (l : text) : option decimal :=
  match span_digits l with
  | (digits, []) =>
      Some (NaN negative signaling
              (if (digits_value digits =? 0)%N then "" else str_of_N (digits_value digits)))
  | _ => None
  end.

Definition special_of (negative : bool) (l : text) : option decimal :=
  let word := map lower l in
  if bool_decide (word ∈ [chars "inf"; chars "infinity"]) then Some (Inf negative)
  else if bool_decide (take 3 word = chars "nan") then nan_of negative false (drop 3 l)
  else if bool_decide (take 4 word = chars "snan") then nan_of negative true (drop 4 l)
  else None.

(** The bounds of the exact conversion, [MAX_EMAX] and [MIN_ETINY]. *)
Definition exact_range (d : decimal) : bool :=
  match d with
  | Fin _ c e =>
      (-1999999999999999997 <=? e)%Z
      && ((if (c =? 0)%N then e else ndigits c + e - 1) <=? 999999999999999999)%Z
  | _ => true
  end.

Definition dec_of_string (s : string) : result decimal :=
  let '(negative, l) := take_sign (numeric_text s) in
  match (match finite_of negative l with
         | Some d => if exact_range d then Some d else None
         | None => special_of negative l
         end) with
  | Some d => Ok d
  | None => raise InvalidOperation "[<class 'decimal.ConversionSyntax'>]"
  end.

Example decimal_texts :
  map dec_of_string [" -12.50_0 "; "1e3"; ".5E-2"; "Infinity"; "-NaN012"; "1."; "snan"]
  = [Ok (Fin true 12500 (-3)); Ok (Fin false 1 3); Ok (Fin false 5 (-3)); Ok (Inf false);
     Ok (NaN true false "12"); Ok (Fin false 1 0); Ok (NaN false true "")].
Proof. vm_compute. reflexivity. Qed.
Example not_decimals :
  forallb (fun s => negb (is_Ok (dec_of_string s)))
    [""; "."; "1.2.3"; "e5"; "1e"; "0x1"; "--1"; "infinit"; "1e1000000000000000000"]
  = true.
Proof. vm_compute. reflexivity. Qed.

(** ** [fromisoformat] *)

Section Calendar.
Local Open Scope Z_scope.

Definition is_leap (year : Z) : bool :=
  (year mod 4 =? 0) && (negb (year mod 100 =? 0) || (year mod 400 =? 0)).

Definition month_length (year month : Z) : Z :=
  if (month =? 2) && is_leap year then 29 else days_in_month month.

(** [_ymd2ord] of the Python library, with the checks of the constructor. *)
Definition ymd2ord (year month day : Z) : option Z :=
  if (1 <=? year) && (year <=? 9999) && (1 <=? month) && (month <=? 12)
     && (1 <=? day) && (day <=? month_length year month)
  then let y := year - 1 in
       Some (y * 365 + y / 4 - y / 100 + y / 400 + days_before_month month
             + (if (2 <? month) && is_leap year then 1 else 0) + day)
  else None.
End Calendar.

(** [n] digits and what follows them. *)
Fixpoint fixed_digits (n : nat) (l : text) (acc : N) : option (Z * text) :=
  match n, l with
  | O, _ => Some (Z.of_N acc, l)
  | S n, c :: l => if is_digit c then fixed_digits n l (acc * 10 + (N_of_ascii c - 48))%N
                   else None
  | S _, [] => None
  end.

Definition digits_of (n : nat) (l : text) : option (Z * text) := fixed_digits n l 0.

Definition separator (c : ascii) (l : text) : option text :=
  match l with d :: l => if Ascii.eqb c d then Some l else None | [] => None end.

(** [YYYY-MM-DD] *)
Definition date_fields (l : text) : option ((Z * Z * Z) * text) :=
  '(year, l) ← digits_of 4 l; l ← separator "-" l;
  '(month, l) ← digits_of 2 l; l ← separator "-" l;
  '(day, l) ← digits_of 2 l;
  Some ((year, month, day), l).

(** [.ffffff], if it is there. *)
Definition fraction_field (l : text) : option (Z * text) :=
  match separator "." l with
  | Some l => digits_of 6 l
  | None => Some (0%Z, l)
  end.

(** [hh:mm:ss[.ffffff]] *)
Definition clock_fields (l : text) : option ((Z * Z * Z * Z) * text) :=
  '(h, l) ← digits_of 2 l; l ← separator ":" l;
  '(m, l) ← digits_of 2 l; l ← separator ":" l;
  '(s, l) ← digits_of 2 l;
  '(us, l) ← fraction_field l;
  Some ((h, m, s, us), l).

(** [hh:mm[:ss[.ffffff]]] *)
Definition offset_clock_fields (l : text) : option ((Z * Z * Z * Z) * text) :=
  '(h, l) ← digits_of 2 l; l ← separator ":" l;
  '(m, l) ← digits_of 2 l;
  match separator ":" l with
  | None => Some ((h, m, 0%Z, 0%Z), l)
  | Some l => '(s, l) ← digits_of 2 l; '(us, l) ← fraction_field l; Some ((h, m, s, us), l)
  end.

Definition microseconds (fields : Z * Z * Z * Z) : Z :=
  let '(h, m, s, us) := fields in (((h * 60 + m) * 60 + s) * 1000000 + us)%Z.

(** Nothing, or the sign and the fields of a UTC offset to the end. *)
Definition offset_fields (l : text) : option (option (bool * (Z * Z * Z * Z))) :=
  match l with
  | [] => Some None
  | c :: l =>
      '(fields, rest) ← offset_clock_fields l;
      match rest with
      | [] => if Ascii.eqb c "+" then Some (Some (false, fields))
              else if Ascii.eqb c "-" then Some (Some (true, fields)) else None
      | _ => None
      end
  end.

Definition invalid_iso {A} : result A := raise ValueError "Invalid isoformat string".
Definition unmodelled_iso {A} : result A := raise OutOfModel "another spelling of ISO 8601".

Definition begins_with_year (l : text) : bool :=
  match digits_of 4 l with Some _ => true | None => false end.

(** [date.fromisoformat] *)
Definition date_fromisoformat (s : string) : result value :=
  let l := chars s in
  match date_fields l with
  | Some ((year, month, day), []) =>
      match ymd2ord year month day with
      | Some ordinal => Ok (VDate ordinal)
      | None => invalid_iso
      end
  | _ => if bool_decide (length l ∈ [7; 8; 10]) && begins_with_year l
         then unmodelled_iso else invalid_iso
  end.

Definition clock_in_range (fields : Z * Z * Z * Z) : bool :=
  let '(h, m, s, us) := fields in ((h <? 24) && (m <? 60) && (s <? 60))%Z.

(** The offset in microseconds; out-of-range parts are treated differently
    by the versions of the library. *)
Definition offset_of (fields : option (bool * (Z * Z * Z * Z))) : result (option Z) :=
  match fields with
  | None => Ok None
  | Some (negative, fields) =>
      if clock_in_range fields
      then Ok (Some (if negative : bool then (- microseconds fields)%Z else microseconds fields))
      else unmodelled_iso
  end.

(** [datetime.fromisoformat] *)
Definition datetime_fields (l : text)
  : option ((Z * Z * Z) * (Z * Z * Z * Z) * option (bool * (Z * Z * Z * Z))) :=
  '(date, l) ← date_fields l; l ← separator "T" l;
  '(clock, l) ← clock_fields l;
  offset ← offset_fields l;
  Some (date, clock, offset).

Definition datetime_fromisoformat (s : string) : result value :=
  let l := chars s in
  match datetime_fields l with
  | Some ((year, month, day), clock, offset) =>
      offset ← offset_of offset;
      match ymd2ord year month day with
      | Some ordinal =>
          if clock_in_range clock
          then Ok (VDateTime (MkDatetime ((ordinal - 1) * us_per_day + microseconds clock) offset))
          else unmodelled_iso
      | None => invalid_iso
      end
  | None => if (7 <=? length l) && begins_with_year l then unmodelled_iso else invalid_iso
  end.

Example datetime_texts :
  map datetime_fromisoformat
    ["1970-01-01T00:00:00+00:00"; "2024-02-29T12:04:05.000250+09:00"; "2023-02-29T00:00:00";
     "tomorrow"; "20240101"]
  = [Ok (VDateTime (utc 62135596800000000));
     Ok (VDateTime (MkDatetime 63844805045000250 (Some 32400000000%Z)));
     invalid_iso; invalid_iso; unmodelled_iso].
Proof. vm_compute. reflexivity. Qed.

(** ** [decode_value] *)

Definition field_of (name : string) (d : list (string * json)) : json :=
  default JNull (assoc name d).

Definition _decode_decimal_string (v : json) (label : string) : result decimal :=
  let refused : result decimal :=
    raise ValueError ("encoded " +:+ label +:+ " must be a decimal string") in
  match v with
  | JStr s => match dec_of_string s with
              | Err e => if isinstance_exn (ex_class e) InvalidOperation then refused else Err e
              | ok => ok
              end
  | _ => refused
  end.

Definition _decode_iso_value (v : json) (label : string) (parser : string -> result value)
  : result value :=
  let refused : result value :=
    raise ValueError ("encoded " +:+ label +:+ " must be an ISO string") in
  match v with
  | JStr s => match parser s with
              | Err e => if isinstance_exn (ex_class e) ValueError then refused else Err e
              | ok => ok
              end
  | _ => refused
  end.

(** [not self.currency] *)
Definition falsy (v : json) : bool :=
  match v with
  | JNull | JBool false | JInt 0 | JStr "" | JArr [] | JObj [] => true
  | _ => false
  end.

(** The constructor of [Money] on a decoded [currency] of any kind. *)
Definition money_of_json (amount : decimal) (currency : json) : result Money :=
  match currency with
  | JStr c => new_Money amount c
  | _ => _ ← raise_if (negb (is_finite amount)) MoneyValidationError
               "Money amount must be a finite Decimal";
         _ ← raise_if (falsy currency) MoneyValidationError "currency is required";
         raise MoneyValidationError "currency must be a 3-letter uppercase ISO 4217 code"
  end.

Definition tag_of (d : list (string * json)) : option string :=
  match assoc "$type" d with Some (JStr tag) => Some tag | _ => None end.

Definition decode_tagged (tag : string) (d : list (string * json)) : option (result value) :=
  if String.eqb tag "Money" then
    Some (a ← _decode_decimal_string (field_of "amount" d) "Money amount";
          m ← money_of_json a (field_of "currency" d); Ok (VMoney m))
  else if String.eqb tag "Decimal" then
    Some (a ← _decode_decimal_string (field_of "value" d) "Decimal value"; Ok (VDecimal a))
  else if String.eqb tag "DateTime" then
    Some (_decode_iso_value (field_of "value" d) "DateTime" datetime_fromisoformat)
  else if String.eqb tag "Date" then
    Some (_decode_iso_value (field_of "value" d) "Date" date_fromisoformat)
  else None.

Fixpoint decode_value (v : json) : result value :=
  match v with
  | JObj d =>
      match tag_of d ≫= fun tag => decode_tagged tag d with
      | Some r => r
      | None =>
          fields ← (fix members (d : list (string * json)) : result (list (string * value)) :=
             match d with
             | [] => Ok []
             | (k, x) :: d => y ← decode_value x; rest ← members d; Ok ((k, y) :: rest)
             end) d;
          Ok (VDict fields)
      end
  | JArr l => items ← (fix go (l : list json) : result (list value) :=
                match l with
                | [] => Ok []
                | x :: l => y ← decode_value x; ys ← go l; Ok (y :: ys)
                end) l;
              Ok (VList items)
  | JNull => Ok VNone
  | JBool b => Ok (VBool b)
  | JInt z => Ok (VInt z)
  | JStr s => Ok (VStr s)
  end.

(** ** Decoding reads what encoding writes: numbers *)

Lemma chars_zeros n : chars (zeros n) = repeat "0"%char n.
Proof. induction n as [|n IH]; [done |]. cbn. by f_equal. Qed.

Lemma chars_zero_pad w s :
  chars (zero_pad w s) = repeat "0"%char (w - String.length s) ++ chars s.
Proof. unfold zero_pad. by rewrite chars_app, chars_zeros. Qed.

Lemma chars_length s : length (chars s) = String.length s.
Proof. induction s as [|c s IH]; [done |]. cbn. by f_equal. Qed.

Lemma digits_fuel_digits fuel n acc :
  forallb is_digit (chars acc) = true -> forallb is_digit (chars (digits_fuel fuel n acc)) = true.
Proof.
  assert (forall m a, forallb is_digit (chars a) = true ->
            forallb is_digit (chars (String (digit_char (m mod 10)) a)) = true) as Hc.
  { intros m a Ha. cbn. destruct (digit_char_spec (m mod 10)) as (-> & _); [apply N.mod_lt; lia |].
    exact Ha. }
  revert n acc; induction fuel as [|fuel IH]; intros n acc Ha; cbn [digits_fuel]; [by apply Hc |].
  destruct (n <? 10)%N; [by apply Hc | by apply IH, Hc].
Qed.

Lemma str_of_N_digits n : forallb is_digit (chars (str_of_N n)) = true.
Proof. by apply digits_fuel_digits. Qed.

Lemma digits_fuel_length fuel w n acc : (n < 10 ^ N.of_nat (S w))%N ->
  String.length (digits_fuel fuel n acc) <= S w + String.length acc.
Proof.
  revert w n acc; induction fuel as [|fuel IH]; intros w n acc Hn; cbn [digits_fuel];
    [cbn; lia |].
  destruct (N.ltb_spec n 10) as [|Hge]; [cbn; lia |].
  destruct w as [|w]; [cbn in Hn; lia |].
  etransitivity; [apply (IH w) | cbn; lia].
  apply N.Div0.div_lt_upper_bound.
  replace (N.of_nat (S (S w))) with (N.succ (N.of_nat (S w))) in Hn by lia.
  rewrite N.pow_succ_r' in Hn. lia.
Qed.

Lemma parse_digits_zeros n l : parse_digits (repeat "0"%char n ++ l) 0 = parse_digits l 0.
Proof. induction n as [|n IH]; [done | exact IH]. Qed.

Lemma parse_digits_app l r acc : forallb is_digit l = true ->
  parse_digits (l ++ r) acc = parse_digits r (parse_digits l acc).1.
Proof.
  revert acc; induction l as [|c l IH]; intros acc H; [done |].
  cbn in H. split_bool. cbn [parse_digits app]. rewrite H. by apply IH.
Qed.

Lemma digits_value_str_of_N n : digits_value (chars (str_of_N n)) = n.
Proof.
  unfold digits_value, str_of_N. rewrite <- (app_nil_r (chars _)).
  rewrite parse_digits_fuel by apply size_bound. done.
Qed.

Lemma fixed_digits_parse l r acc : forallb is_digit l = true ->
  fixed_digits (length l) (l ++ r) acc = Some (Z.of_N (parse_digits l acc).1, r).
Proof.
  revert acc; induction l as [|c l IH]; intros acc H; [done |].
  cbn in H. split_bool. cbn [parse_digits app length fixed_digits]. rewrite H. by apply IH.
Qed.

Lemma forallb_repeat {A} (f : A -> bool) x n : f x = true -> forallb f (repeat x n) = true.
Proof. intros H. induction n; cbn; by rewrite ?H. Qed.

(** A padded number is read back by its width. *)
Lemma digits_of_pad (w : nat) (z : Z) (r : text) :
  (0 <= z < 10 ^ Z.of_nat (S w))%Z -> digits_of (S w) (chars (pad_Z (S w) z) ++ r) = Some (z, r).
Proof.
  intros Hz. unfold pad_Z, str_of_Z. destruct (Z.ltb_spec z 0); [lia |].
  set (s := str_of_N (Z.to_N z)).
  assert (String.length s <= S w) as Hlen.
  { unfold s, str_of_N. etransitivity; [apply (digits_fuel_length _ w) | cbn; lia].
    apply N2Z.inj_lt. rewrite N2Z.inj_pow, Z2N.id, nat_N_Z by lia. apply Hz. }
  assert (length (chars (zero_pad (S w) s)) = S w) as Hw.
  { rewrite chars_zero_pad, length_app, repeat_length, chars_length. lia. }
  unfold digits_of. rewrite <- Hw at 1. rewrite fixed_digits_parse.
  - rewrite chars_zero_pad, parse_digits_zeros. unfold s.
    change (parse_digits _ 0).1 with (digits_value (chars (str_of_N (Z.to_N z)))).
    rewrite digits_value_str_of_N, Z2N.id by lia. done.
  - rewrite chars_zero_pad, forallb_app, forallb_repeat by done. apply str_of_N_digits.
Qed.

Definition plain_char (c : ascii) : bool := negb (is_space c) && negb (Ascii.eqb c "_").

Lemma drop_blank_id l : forallb plain_char l = true -> drop_blank l = l.
Proof.
  destruct l as [|c l]; [done |]. cbn. unfold plain_char. intros H. split_bool.
  by rewrite H.
Qed.

Lemma forallb_rev {A} (f : A -> bool) l : forallb f (rev l) = forallb f l.
Proof. apply forallb_perm. symmetry. apply Permutation_rev. Qed.

Lemma numeric_text_id s : forallb plain_char (chars s) = true -> numeric_text s = chars s.
Proof.
  intros H. unfold numeric_text. rewrite (drop_blank_id (chars s)) by done.
  rewrite drop_blank_id by by rewrite forallb_rev. rewrite rev_involutive.
  clear -H. induction (chars s) as [|c l IH]; [done |]. cbn in *. apply andb_prop in H as [Hc H].
  apply andb_prop in Hc as [_ Hc]. rewrite Hc. f_equal. by apply IH.
Qed.

Lemma digit_plain c : is_digit c = true -> plain_char c = true.
Proof. destruct c as [[] [] [] [] [] [] [] []]; (done || discriminate). Qed.

Lemma digits_plain l : forallb is_digit l = true -> forallb plain_char l = true.
Proof.
  intros H. apply forallb_forall. intros c Hc. by apply digit_plain, (proj1 (forallb_forall _ _) H).
Qed.

Lemma span_digits_app l r : forallb is_digit l = true -> stops r -> span_digits (l ++ r) = (l, r).
Proof.
  intros Hl Hr. induction l as [|c l IH].
  - destruct r as [|c r]; [done |]. cbn in *. by rewrite Hr.
  - cbn in *. split_bool. rewrite H. by rewrite IH.
Qed.

Definition signed_text (negative : bool) (l : text) : text :=
  if negative then "-"%char :: l else l.

Lemma take_sign_text negative c l : is_digit c = true ->
  take_sign (signed_text negative (c :: l)) = (negative, c :: l).
Proof.
  intros H. destruct negative; [done |]. unfold signed_text, take_sign.
  by rewrite (Ascii.eqb_sym c "-"), (Ascii.eqb_sym c "+"), !(digit_neq c).
Qed.

Lemma finite_of_digits negative l : forallb is_digit l = true -> l <> [] ->
  finite_of negative l = Some (Fin negative (digits_value l) 0).
Proof.
  intros Hl Hn. unfold finite_of. rewrite <- (app_nil_r l) at 1.
  rewrite span_digits_app by done. rewrite app_nil_r. by destruct l.
Qed.

Lemma finite_of_point negative l l' : forallb is_digit (l ++ l') = true -> l <> [] ->
  finite_of negative (l ++ "."%char :: l')
  = Some (Fin negative (digits_value (l ++ l')) (- Z.of_nat (length l'))).
Proof.
  intros Hl Hn. rewrite forallb_app in Hl. split_bool. unfold finite_of.
  rewrite span_digits_app by done. rewrite Ascii.eqb_refl.
  rewrite <- (app_nil_r l') at 1. rewrite span_digits_app by done. by destruct l.
Qed.

(** What the [f] format keeps of a decimal: a positive exponent is written
    out. *)
Definition plain_decimal (d : decimal) : decimal :=
  match d with
  | Fin s c e => if (0 <? e)%Z then Fin s (c * 10 ^ Z.to_N e) 0 else d
  | _ => d
  end.

Definition payload_ok (p : string) : bool :=
  bool_decide (p = "") || (bool_decide (p = str_of_N (digits_value (chars p)))
                           && negb (digits_value (chars p) =? 0)%N).

Definition decimal_stable (d : decimal) : bool :=
  exact_range (plain_decimal d)
  && match d with NaN _ _ p => payload_ok p | _ => true end.

(** A digit string read by the number grammar. *)
Lemma dec_of_signed negative s d l : chars s = signed_text negative l ->
  forallb plain_char l = true -> (exists c l', l = c :: l' /\ is_digit c = true) ->
  finite_of negative l = Some d -> exact_range d = true -> dec_of_string s = Ok d.
Proof.
  intros Hs Hp (c & l' & -> & Hc) Hf Hr. unfold dec_of_string.
  rewrite numeric_text_id, Hs, take_sign_text, Hf, Hr; [done | done |].
  rewrite Hs. by destruct negative.
Qed.

Lemma digits_head l : forallb is_digit l = true -> l <> [] ->
  exists c l', l = c :: l' /\ is_digit c = true.
Proof. intros H Hn. destruct l as [|c l]; [done |]. cbn in H. split_bool. eauto. Qed.

Lemma parse_digits_pow n acc :
  (parse_digits (repeat "0"%char n) acc).1 = (acc * 10 ^ N.of_nat n)%N.
Proof.
  revert acc; induction n as [|n IH]; intros acc; [cbn; lia |].
  cbn [repeat parse_digits]. change (is_digit "0") with true. cbn match.
  rewrite IH. change (N_of_ascii "0" - 48)%N with 0%N.
  rewrite Nat2N.inj_succ, N.pow_succ_r'. lia.
Qed.

Lemma chars_substring n m s :
  chars (String.substring n m s) = take m (drop n (chars s)).
Proof.
  revert n m; induction s as [|c s IH]; intros n m; [by destruct n, m |].
  destruct n as [|n]; [destruct m as [|m]; [done |] |].
  - cbn. f_equal. apply (IH 0).
  - cbn. apply IH.
Qed.

Lemma chars_signed (s : bool) (t : string) :
  chars (if s then String "-" t else t) = signed_text s (chars t).
Proof. by destruct s. Qed.

(** A decimal and its plain form are written alike. *)
Lemma string_app_nil (s : string) : (s +:+ "")%string = s.
Proof. induction s as [|c s IH]; [done |]. exact (f_equal (String c) IH). Qed.

Lemma digits_fuel_acc fuel : forall n acc, digits_fuel fuel n acc = (digits_fuel fuel n "" +:+ acc)%string.
Proof.
  induction fuel as [|fuel IH]; intros n acc; cbn [digits_fuel]; [done |].
  destruct (n <? 10)%N; [done |].
  rewrite (IH _ (String _ acc)), (IH _ (String _ "")), string_app_assoc. done.
Qed.

Lemma digits_fuel_enough fuel : forall fuel' n acc, (n < 10 ^ N.of_nat (S fuel))%N ->
  (n < 10 ^ N.of_nat (S fuel'))%N -> digits_fuel fuel n acc = digits_fuel fuel' n acc.
Proof.
  assert (forall k n, (n < 10 ^ N.of_nat (S (S k)))%N -> (n / 10 < 10 ^ N.of_nat (S k))%N) as Hd.
  { intros k n H. apply N.Div0.div_lt_upper_bound. by rewrite <- N.pow_succ_r', <- Nat2N.inj_succ. }
  induction fuel as [|fuel IH]; intros [|fuel'] n acc H H'; cbn [digits_fuel]; [done | | |].
  - by rewrite (proj2 (N.ltb_lt n 10)).
  - by rewrite (proj2 (N.ltb_lt n 10)).
  - destruct (n <? 10)%N; [done |]. apply IH; by apply Hd.
Qed.

Lemma str_of_N_ten c : c <> 0%N -> str_of_N (c * 10) = (str_of_N c +:+ "0")%string.
Proof.
  intros Hc. unfold str_of_N.
  rewrite (digits_fuel_enough _ (S (N.to_nat (N.size c)))); [| apply size_bound |].
  2: { rewrite Nat2N.inj_succ, N.pow_succ_r', N.mul_comm. apply N.mul_lt_mono_pos_l; [lia | apply size_bound]. }
  cbn [digits_fuel]. rewrite (proj2 (N.ltb_ge (c * 10) 10)) by lia.
  rewrite N.Div0.mod_mul, N.div_mul by done. apply digits_fuel_acc.
Qed.

Lemma str_of_N_shift c n : c <> 0%N -> str_of_N (c * 10 ^ N.of_nat n) = (str_of_N c +:+ zeros n)%string.
Proof.
  intros Hc. induction n as [|n IH]; [by rewrite N.mul_1_r, string_app_nil |].
  rewrite Nat2N.inj_succ, N.pow_succ_r', (N.mul_comm 10), N.mul_assoc, str_of_N_ten.
  - rewrite IH, string_app_assoc. f_equal. clear. induction n as [|n IH]; [done |].
    exact (f_equal (String "0") IH).
  - apply N.neq_mul_0. split; [done |]. by apply N.pow_nonzero.
Qed.

Lemma format_plain d : dec_format_f (plain_decimal d) = dec_format_f d.
Proof.
  destruct d as [s c e| |]; try done. unfold plain_decimal. destruct (Z.ltb_spec 0 e) as [He|]; [| done].
  unfold dec_format_f. rewrite (proj2 (Z.leb_le 0 e)) by lia. cbn [Z.leb Z.compare].
  f_equal. destruct (N.eqb_spec c 0) as [->|Hc]; [done |].
  rewrite (proj2 (N.eqb_neq _ 0)) by (apply N.neq_mul_0; split; [done | by apply N.pow_nonzero]).
  rewrite <- (N2Nat.id (Z.to_N e)), str_of_N_shift, Z_N_nat by done. by rewrite string_app_nil.
Qed.

Lemma plain_decimal_twice d : plain_decimal (plain_decimal d) = plain_decimal d.
Proof.
  destruct d as [s c e| |]; try done. unfold plain_decimal.
  destruct (0 <? e)%Z eqn:He; [done | by rewrite He].
Qed.

Lemma dec_of_whole s c (e : Z) : (0 <= e)%Z ->
  exact_range (plain_decimal (Fin s c e)) = true ->
  dec_of_string (dec_format_f (Fin s c e)) = Ok (plain_decimal (Fin s c e)).
Proof.
  intros He Hr. set (l := if (c =? 0)%N then ["0"%char]
                          else chars (str_of_N c) ++ repeat "0"%char (Z.to_nat e)).
  assert (forallb is_digit l = true /\ l <> []) as [Hd Hn].
  { unfold l. destruct (c =? 0)%N; [done |].
    rewrite forallb_app, str_of_N_digits, forallb_repeat by done. split; [done |].
    destruct (digits_fuel_head (N.to_nat (N.size c)) c "") as (x & y & E & _).
    unfold str_of_N. by rewrite E. }
  apply (dec_of_signed s _ _ l).
  - unfold dec_format_f. destruct (Z.leb_spec 0 e); [| lia]. rewrite chars_signed. f_equal.
    unfold l. destruct (c =? 0)%N; [done |]. by rewrite chars_app, chars_zeros.
  - by apply digits_plain.
  - by apply digits_head.
  - rewrite finite_of_digits by done. do 2 f_equal. unfold plain_decimal.
    assert (digits_value l = (c * 10 ^ Z.to_N e)%N) as ->.
    { unfold l. destruct (N.eqb_spec c 0) as [-> |]; [done |]. unfold digits_value.
      rewrite parse_digits_app by apply str_of_N_digits. rewrite parse_digits_pow.
      change (parse_digits _ 0).1 with (digits_value (chars (str_of_N c))).
      rewrite digits_value_str_of_N. do 2 f_equal. lia. }
    destruct (Z.ltb_spec 0 e); [done |]. assert (e = 0%Z) as -> by lia.
    f_equal. cbn. lia.
  - exact Hr.
Qed.

Lemma dec_of_fraction s c (e : Z) : (e < 0)%Z -> exact_range (Fin s c e) = true ->
  dec_of_string (dec_format_f (Fin s c e)) = Ok (Fin s c e).
Proof.
  intros He Hr. set (k := Z.to_nat (- e)). set (t := zero_pad (S k) (str_of_N c)).
  assert (S k <= length (chars t)) as Hlen.
  { unfold t. rewrite chars_zero_pad, length_app, repeat_length, chars_length. lia. }
  set (n := String.length t - k). rewrite chars_length in Hlen.
  assert (forallb is_digit (chars t) = true) as Hd.
  { unfold t. rewrite chars_zero_pad, forallb_app, forallb_repeat by done. apply str_of_N_digits. }
  assert (take n (chars t) <> []) as Hn.
  { intros E%(f_equal length). rewrite length_take, chars_length in E. cbn in E. lia. }
  apply (dec_of_signed s _ _ (take n (chars t) ++ "."%char :: drop n (chars t))).
  - unfold dec_format_f. destruct (Z.leb_spec 0 e); [lia |].
    change (zeros _ +:+ str_of_N c)%string with t. rewrite chars_signed. f_equal.
    fold k n. rewrite !chars_app, !chars_substring, skipn_O. do 2 f_equal.
    apply take_ge. rewrite length_drop, chars_length. lia.
  - rewrite <- (take_drop n (chars t)), forallb_app in Hd. apply andb_prop in Hd as [H1 H2].
    rewrite forallb_app. cbn [forallb]. rewrite !digits_plain by done. done.
  - rewrite <- (take_drop n (chars t)), forallb_app in Hd. apply andb_prop in Hd as [H1 _].
    destruct (digits_head _ H1 Hn) as (x & y & -> & Hx). eexists _, _. split; [reflexivity | done].
  - rewrite finite_of_point by (rewrite ?take_drop; done). rewrite take_drop, length_drop, chars_length.
    do 2 f_equal; [| lia].
    unfold t, digits_value. rewrite chars_zero_pad, parse_digits_zeros.
    apply digits_value_str_of_N.
  - exact Hr.
Qed.

Lemma dec_of_nan s g p : payload_ok p = true ->
  dec_of_string (dec_format_f (NaN s g p)) = Ok (NaN s g p).
Proof.
  intros Hp.
  assert (forallb is_digit (chars p) = true
          /\ (if (digits_value (chars p) =? 0)%N then "" else str_of_N (digits_value (chars p))) = p)
    as [Hd Hv].
  { unfold payload_ok in Hp. apply orb_prop in Hp as [H%bool_decide_eq_true | H].
    - by subst.
    - apply andb_prop in H as [H%bool_decide_eq_true H0]. apply negb_true_iff in H0.
      split; [rewrite H; apply str_of_N_digits | by rewrite H0]. }
  set (l := chars (if g then "sNaN" else "NaN") ++ chars p).
  assert (chars (dec_format_f (NaN s g p)) = signed_text s l) as Hs.
  { unfold dec_format_f. by rewrite chars_signed, chars_app. }
  assert (forallb plain_char l = true) as Hl.
  { unfold l. rewrite forallb_app, (digits_plain (chars p)) by done. by destruct g. }
  assert (nan_of s g (chars p) = Some (NaN s g p)) as Hnan.
  { unfold nan_of. rewrite <- (app_nil_r (chars p)) at 1. rewrite span_digits_app by done.
    by rewrite Hv. }
  unfold dec_of_string.
  rewrite numeric_text_id, Hs by (rewrite Hs; by destruct s).
  assert (take_sign (signed_text s l) = (s, l)) as ->.
  { destruct s; [done |]. unfold l. by destruct g. }
  assert (finite_of s l = None) as -> by (unfold l; by destruct g).
  assert (special_of s l = Some (NaN s g p)) as ->; [| done].
  unfold special_of. rewrite bool_decide_eq_false_2.
  - unfold l. destruct g; [rewrite bool_decide_eq_false_2 by discriminate |];
      rewrite bool_decide_eq_true_2 by reflexivity; exact Hnan.
  - unfold l. destruct g; intros [H | [H | []%elem_of_nil]%elem_of_cons]%elem_of_cons; discriminate H.
Qed.

(** [Decimal(format(d, "f"))] is [d] with a positive exponent written out. *)
Lemma dec_of_format d : decimal_stable d = true ->
  dec_of_string (dec_format_f d) = Ok (plain_decimal d).
Proof.
  unfold decimal_stable. intros [Hr Hp]%andb_prop. destruct d as [s c e | s | s g p].
  - destruct (Z.le_gt_cases 0 e); [by apply dec_of_whole |].
    assert (plain_decimal (Fin s c e) = Fin s c e) as E.
    { unfold plain_decimal. by destruct (Z.ltb_spec 0 e); [lia |]. }
    rewrite E in *. by apply dec_of_fraction; [lia |].
  - by destruct s.
  - by apply dec_of_nan.
Qed.

(** ** Dates and times *)

Section CalendarFacts.
Local Open Scope Z_scope.

(** Month and day of the [n]-th day of a year, as [ord2ymd] finds them. *)
Definition month_day (leap : bool) (n : Z) : Z * Z :=
  let month := (n + 50) / 32 in
  let preceding := days_before_month month + (if (2 <? month) && leap then 1 else 0) in
  if n <? preceding then
    let month := month - 1 in
    let preceding := preceding
      - (days_in_month month + (if (month =? 2) && leap then 1 else 0)) in
    (month, n - preceding + 1)
  else (month, n - preceding + 1).

Definition month_day_ok (leap : bool) (n : Z) : bool :=
  let '(m, d) := month_day leap n in
  (1 <=? m) && (m <=? 12) && (1 <=? d)
  && (d <=? (if (m =? 2) && leap then 29 else days_in_month m))
  && (days_before_month m + (if (2 <? m) && leap then 1 else 0) + d =? n + 1).

Lemma month_day_spec leap n : 0 <= n < 365 + Z.b2z leap -> month_day_ok leap n = true.
Proof.
  assert (forall b, forallb (fun k => month_day_ok b (Z.of_nat k))
                      (seq 0 (365 + Nat.b2n b)) = true) as H by (intros []; vm_compute; done).
  intros Hn. specialize (H leap). rewrite forallb_forall in H.
  specialize (H (Z.to_nat n)). rewrite Z2Nat.id in H by lia. apply H, in_seq.
  destruct leap; cbn in *; lia.
Qed.

(** Days before the first day of a year. *)
Definition days_before_year (year : Z) : Z :=
  let y := year - 1 in y * 365 + y / 4 - y / 100 + y / 400.

Lemma ymd2ord_intro y leap n m d : 1 <= y <= 9999 -> is_leap y = leap ->
  month_day leap n = (m, d) -> 0 <= n < 365 + Z.b2z leap ->
  1 <= m <= 12 /\ 1 <= d <= 31 /\ ymd2ord y m d = Some (days_before_year y + n + 1).
Proof.
  intros Hy Hl Hmd Hn. pose proof (month_day_spec leap n Hn) as H.
  unfold month_day_ok in H. rewrite Hmd, !andb_true_iff, !Z.leb_le, Z.eqb_eq in H.
  destruct H as ((((H1 & H2) & H3) & H4) & H5).
  assert (d <= 31).
  { eapply Z.le_trans; [exact H4 |]. destruct ((m =? 2) && leap); [lia |].
    assert (m = 1 \/ m = 2 \/ m = 3 \/ m = 4 \/ m = 5 \/ m = 6 \/ m = 7 \/ m = 8 \/ m = 9
            \/ m = 10 \/ m = 11 \/ m = 12) as C by lia.
    repeat destruct C as [-> | C]; try subst m; vm_compute; discriminate. }
  split; [lia |]. split; [lia |].
  unfold ymd2ord, month_length. rewrite Hl.
  assert ((1 <=? y) && (y <=? 9999) && (1 <=? m) && (m <=? 12) && (1 <=? d)
          && (d <=? (if (m =? 2) && leap then 29 else days_in_month m)) = true) as ->.
  { rewrite !andb_true_iff, !Z.leb_le. lia. }
  unfold days_before_year. f_equal. lia.
Qed.

Lemma year_parts (q4 q100 q n1 : Z) :
  0 <= q4 -> 0 <= q100 <= 3 -> 0 <= q <= 24 -> 0 <= n1 <= 3 ->
  days_before_year (q4 * 400 + 1 + q100 * 100 + q * 4 + n1)
  = q4 * 146097 + q100 * 36524 + q * 1461 + n1 * 365.
Proof.
  intros. unfold days_before_year.
  set (y := _ - 1). assert (y = q4 * 400 + q100 * 100 + q * 4 + n1) as Hy by lia. clearbody y.
  rewrite <- (Z.div_unique y 4 (q4*100+q100*25+q) n1) by lia.
  rewrite <- (Z.div_unique y 100 (q4*4+q100) (q*4+n1)) by lia.
  rewrite <- (Z.div_unique y 400 q4 (q100*100+q*4+n1)) by lia.
  lia.
Qed.
Lemma is_leap_parts (q4 q100 q n1 : Z) :
  0 <= q4 -> 0 <= q100 <= 3 -> 0 <= q <= 24 -> 0 <= n1 <= 3 ->
  is_leap (q4 * 400 + 1 + q100 * 100 + q * 4 + n1) = (n1 =? 3) && (negb (q =? 24) || (q100 =? 3)).
Proof.
  intros. set (y := _ + n1). assert (y = q4 * 400 + q100 * 100 + q * 4 + n1 + 1) as Hy by lia. clearbody y.
  unfold is_leap.
  assert ((y mod 4 =? 0) = (n1 =? 3)) as ->.
  { apply eq_true_iff_eq. rewrite !Z.eqb_eq. Z.div_mod_to_equations. lia. }
  destruct (Z.eqb_spec n1 3) as [->|]; [cbn [andb] | done].
  assert ((y mod 100 =? 0) = (q =? 24)) as ->.
  { apply eq_true_iff_eq. rewrite !Z.eqb_eq. Z.div_mod_to_equations. lia. }
  destruct (Z.eqb_spec q 24) as [->|]; [cbn [negb orb] | done].
  apply eq_true_iff_eq. rewrite !Z.eqb_eq. Z.div_mod_to_equations. lia.
Qed.

Lemma ord2ymd_spec ordinal : 1 <= ordinal <= 3652059 ->
  let '(y, m, d) := ord2ymd ordinal in
  1 <= y <= 9999 /\ 1 <= m <= 12 /\ 1 <= d <= 31 /\ ymd2ord y m d = Some ordinal.
Proof.
  intros Ho. unfold ord2ymd.
  set (n0 := ordinal - 1). set (q4 := n0 / 146097). set (a := n0 mod 146097).
  set (q100 := a / 36524). set (b := a mod 36524). set (q := b / 1461). set (c := b mod 1461).
  set (n1 := c / 365). set (n := c mod 365).
  assert (n0 = 146097 * q4 + a /\ 0 <= a < 146097) as [E1 B1]
    by (split; [apply Z.div_mod | apply Z.mod_pos_bound]; lia).
  assert (a = 36524 * q100 + b /\ 0 <= b < 36524) as [E2 B2]
    by (split; [apply Z.div_mod | apply Z.mod_pos_bound]; lia).
  assert (b = 1461 * q + c /\ 0 <= c < 1461) as [E3 B3]
    by (split; [apply Z.div_mod | apply Z.mod_pos_bound]; lia).
  assert (c = 365 * n1 + n /\ 0 <= n < 365) as [E4 B4]
    by (split; [apply Z.div_mod | apply Z.mod_pos_bound]; lia).
  assert (n0 = ordinal - 1) as E0 by done. clearbody n0 q4 a q100 b q c n1 n.
  destruct ((n1 =? 4) || (q100 =? 4)) eqn:Hlast.
  - (* the last day of a leap year *)
    assert (exists p100 p, 0 <= p100 <= 3 /\ 0 <= p <= 24 /\ (p = 24 -> p100 = 3)
              /\ q4 * 400 + 1 + q100 * 100 + q * 4 + n1 - 1
                 = q4 * 400 + 1 + p100 * 100 + p * 4 + 3
              /\ n0 = q4 * 146097 + p100 * 36524 + p * 1461 + 3 * 365 + 365)
      as (p100 & p & Hp1 & Hp & H24 & Ey & En).
    { apply orb_prop in Hlast as [H%Z.eqb_eq | H%Z.eqb_eq].
      - exists q100, q. lia.
      - exists 3, 24. lia. }
    rewrite Ey. destruct (ymd2ord_intro (q4 * 400 + 1 + p100 * 100 + p * 4 + 3) true 365 12 31)
      as (_ & _ & ->); [lia | | reflexivity | cbn; lia |].
    + rewrite is_leap_parts by lia. destruct (Z.eqb_spec p 24); [| done].
      by rewrite (proj2 (Z.eqb_eq p100 3)) by auto.
    + rewrite year_parts by lia. split; [lia |]. do 2 (split; [lia |]). f_equal. lia.
  - apply orb_false_elim in Hlast as [H1%Z.eqb_neq H2%Z.eqb_neq].
    set (y := _ + n1). set (leap := (n1 =? 3) && _).
    assert (is_leap y = leap) as Hl by (apply is_leap_parts; lia).
    assert (0 <= n < 365 + Z.b2z leap) as Hn by (destruct leap; cbn; lia).
    assert (1 <= y <= 9999) as Hy by lia.
    assert (days_before_year y + n + 1 = ordinal) as Hd
      by (unfold y; rewrite year_parts by lia; lia).
    destruct (month_day leap n) as [m d] eqn:Hmd.
    destruct (ymd2ord_intro y leap n m d Hy Hl Hmd Hn) as (Hm & Hd1 & Hord).
    rewrite Hd in Hord. unfold month_day in Hmd.
    destruct (n <? _); injection Hmd as <- <-; done.
Qed.

End CalendarFacts.

Lemma separator_yes c l : separator c (c :: l) = Some l.
Proof. unfold separator. by rewrite Ascii.eqb_refl. Qed.

Lemma date_fields_isoformat o r : (1 <= o <= 3652059)%Z ->
  date_fields (chars (date_isoformat o) ++ r) = Some (ord2ymd o, r)
  /\ (let '(y, m, d) := ord2ymd o in ymd2ord y m d) = Some o.
Proof.
  intros Ho. pose proof (ord2ymd_spec o Ho) as H. unfold date_isoformat.
  destruct (ord2ymd o) as [[y m] d]. destruct H as (Hy & Hm & Hd & H). split; [| done].
  rewrite !chars_app, <- !app_assoc. unfold date_fields.
  rewrite digits_of_pad by (cbn; lia). cbn [mbind option_bind app chars String.list_ascii_of_string].
  rewrite separator_yes. cbn [mbind option_bind].
  rewrite digits_of_pad by (cbn; lia). cbn [mbind option_bind]. rewrite separator_yes.
  cbn [mbind option_bind]. by rewrite digits_of_pad by (cbn; lia).
Qed.

(** No fraction follows. *)
Definition no_point (r : text) : Prop := separator "." r = None.

Definition fraction_text (us : Z) : string :=
  if (us =? 0)%Z then "" else "." +:+ pad_Z 6 us.

Lemma fraction_field_text us r : (0 <= us < 1000000)%Z -> no_point r ->
  fraction_field (chars (fraction_text us) ++ r) = Some (us, r).
Proof.
  intros Hus Hr. unfold fraction_text, fraction_field.
  destruct (Z.eqb_spec us 0) as [-> |].
  - cbn [chars String.list_ascii_of_string app]. by rewrite Hr.
  - rewrite chars_app, <- app_assoc. cbn [chars String.list_ascii_of_string app].
    rewrite separator_yes. by apply digits_of_pad.
Qed.

(** Hours, minutes, seconds and microseconds. *)
Definition clock_of (us : Z) : Z * Z * Z * Z :=
  let s := (us / 1000000)%Z in
  ((s / 3600)%Z, (s / 60 mod 60)%Z, (s mod 60)%Z, (us mod 1000000)%Z).

Lemma clock_of_spec us : (0 <= us < us_per_day)%Z ->
  let '(h, m, s, f) := clock_of us in
  (0 <= h < 24 /\ 0 <= m < 60 /\ 0 <= s < 60 /\ 0 <= f < 1000000
   /\ ((h * 60 + m) * 60 + s) * 1000000 + f = us)%Z.
Proof.
  unfold us_per_day, clock_of. intros H. Z.div_mod_to_equations. lia.
Qed.

Lemma clock_of_good us : (0 <= us < us_per_day)%Z ->
  clock_in_range (clock_of us) = true /\ microseconds (clock_of us) = us.
Proof.
  intros H. pose proof (clock_of_spec us H) as Hs. unfold clock_in_range, microseconds.
  destruct (clock_of us) as [[[h m] s] f]. destruct Hs as (Hh & Hm & Hs & Hf & E).
  rewrite !andb_true_iff, !Z.ltb_lt. lia.
Qed.

Lemma clock_fields_isoformat us r : (0 <= us < us_per_day)%Z -> no_point r ->
  clock_fields (chars (clock_isoformat us) ++ r) = Some (clock_of us, r).
Proof.
  intros Hus Hr. pose proof (clock_of_spec us Hus) as H. unfold clock_of in *.
  destruct H as (Hh & Hm & Hs & Hf & _).
  change (clock_isoformat us) with
    (pad_Z 2 (us / 1000000 / 3600) +:+ ":" +:+ pad_Z 2 (us / 1000000 / 60 mod 60) +:+ ":"
     +:+ pad_Z 2 (us / 1000000 mod 60) +:+ fraction_text (us mod 1000000))%string.
  rewrite !chars_app, <- !app_assoc. unfold clock_fields.
  rewrite digits_of_pad by (cbn; lia). cbn [mbind option_bind app chars String.list_ascii_of_string].
  rewrite separator_yes. cbn [mbind option_bind].
  rewrite digits_of_pad by (cbn; lia). cbn [mbind option_bind]. rewrite separator_yes.
  cbn [mbind option_bind]. rewrite digits_of_pad by (cbn; lia). cbn [mbind option_bind].
  by rewrite fraction_field_text.
Qed.

Lemma offset_clock_text a : (0 <= a < us_per_day)%Z ->
  offset_clock_fields
    (chars (pad_Z 2 (a / 1000000 / 3600) +:+ ":" +:+ pad_Z 2 (a / 1000000 / 60 mod 60)
            +:+ (if ((a / 1000000 mod 60 =? 0) && (a mod 1000000 =? 0))%Z then ""
                 else ":" +:+ pad_Z 2 (a / 1000000 mod 60)
                      +:+ fraction_text (a mod 1000000)))) = Some (clock_of a, []).
Proof.
  intros Ha. pose proof (clock_of_spec a Ha) as H. unfold clock_of in *.
  destruct H as (Hh & Hm & Hs & Hf & _).
  rewrite !chars_app. unfold offset_clock_fields.
  rewrite digits_of_pad by (cbn; lia). cbn [mbind option_bind app chars String.list_ascii_of_string].
  rewrite separator_yes. cbn [mbind option_bind].
  rewrite digits_of_pad by (cbn; lia). cbn [mbind option_bind].
  destruct (_ && _) eqn:E.
  - apply andb_prop in E as [-> %Z.eqb_eq ->%Z.eqb_eq]. done.
  - rewrite !chars_app. cbn [app chars String.list_ascii_of_string]. rewrite separator_yes.
    rewrite digits_of_pad by (cbn; lia). cbn [mbind option_bind].
    by rewrite <- (app_nil_r (chars (fraction_text _))), fraction_field_text.
Qed.

Lemma offset_text o : (Z.abs o < us_per_day)%Z ->
  exists fields, offset_fields (chars (offset_isoformat o)) = Some fields
                 /\ offset_of fields = Ok (Some o) /\ no_point (chars (offset_isoformat o)).
Proof.
  intros Ho. destruct (clock_of_good (Z.abs o)) as [Hr Hm]; [lia |].
  exists (Some ((o <? 0)%Z, clock_of (Z.abs o))). unfold offset_isoformat.
  rewrite chars_app. destruct (Z.ltb_spec o 0);
    cbn [chars String.list_ascii_of_string app]; unfold offset_fields;
    fold (fraction_text (Z.abs o mod 1000000)); fold chars;
    (split; [by rewrite offset_clock_text by lia | split; [| done]]);
    unfold offset_of; rewrite Hr, Hm; do 2 f_equal; lia.
Qed.

Definition datetime_stable (d : datetime) : bool :=
  (0 <=? dt_wall d)%Z && (dt_wall d <? 3652059 * us_per_day)%Z
  && match dt_utcoffset d with Some o => (Z.abs o <? us_per_day)%Z | None => true end.

Lemma date_of_isoformat o : (1 <= o <= 3652059)%Z ->
  date_fromisoformat (date_isoformat o) = Ok (VDate o).
Proof.
  intros Ho. destruct (date_fields_isoformat o [] Ho) as [H1 H2].
  unfold date_fromisoformat. rewrite app_nil_r in H1. rewrite H1.
  destruct (ord2ymd o) as [[y m] d]. by rewrite H2.
Qed.

Lemma datetime_of_isoformat d : datetime_stable d = true ->
  datetime_fromisoformat (datetime_isoformat d) = Ok (VDateTime d).
Proof.
  destruct d as [wall offset]. unfold datetime_stable. cbn [dt_wall dt_utcoffset].
  rewrite !andb_true_iff, Z.leb_le, Z.ltb_lt. intros [[Hw1 Hw2] Ho].
  set (o := (wall / us_per_day + 1)%Z). set (us := (wall mod us_per_day)%Z).
  assert (1 <= o <= 3652059 /\ 0 <= us < us_per_day /\ (o - 1) * us_per_day + us = wall)%Z
    as (Hod & Hus & Hwall).
  { unfold o, us, us_per_day in *. Z.div_mod_to_equations. lia. }
  set (t := match offset with Some o => offset_isoformat o | None => "" end).
  assert (exists fields, offset_fields (chars t) = Some fields /\ offset_of fields = Ok offset
            /\ no_point (chars t)) as (fields & Ht1 & Ht2 & Ht3).
  { unfold t. destruct offset as [x|]; [| by exists None].
    apply Z.ltb_lt in Ho. destruct (offset_text x Ho) as (f & ? & ? & ?). eauto. }
  unfold datetime_fromisoformat, datetime_isoformat. cbn [dt_wall dt_utcoffset].
  fold o us t. unfold datetime_fields. rewrite chars_app.
  destruct (date_fields_isoformat o (chars ("T" +:+ clock_isoformat us +:+ t)) Hod) as [-> H2].
  cbn [mbind option_bind]. rewrite !chars_app. cbn [app chars String.list_ascii_of_string].
  rewrite separator_yes. cbn [mbind option_bind]. fold (chars (clock_isoformat us)).
  rewrite clock_fields_isoformat by done. cbn [mbind option_bind]. fold (chars t). rewrite Ht1.
  cbn [mbind option_bind]. destruct (ord2ymd o) as [[y m] d]. rewrite Ht2.
  destruct (clock_of_good us Hus) as [Hr Hm]. cbn [mbind result_bind]. rewrite H2, Hr, Hm.
  by rewrite Hwall.
Qed.

(** ** Decoding inverts encoding

    [thaw v] is what comes back for [v]: a tuple becomes a list, and a decimal
    with a positive exponent is written out. *)

Fixpoint thaw (v : value) : value :=
  match v with
  | VDecimal d => VDecimal (plain_decimal d)
  | VMoney m => VMoney (MkMoney (plain_decimal (amount m)) (currency m))
  | VList l | VTuple l => VList (map thaw l)
  | VDict d => VDict (map (fun kv => (kv.1, thaw kv.2)) d)
  | _ => v
  end.

(** A dict whose [$type] field is the tag of an encoded value is not told
    from that value. *)
Definition tag_text (v : value) : bool :=
  match v with
  | VStr s => bool_decide (s ∈ ["Money"; "Decimal"; "DateTime"; "Date"])
  | _ => false
  end.

Definition untagged (d : list (string * value)) : bool :=
  match assoc "$type" d with Some v => negb (tag_text v) | None => true end.

Fixpoint value_stable (v : value) : bool :=
  match v with
  | VDecimal d => decimal_stable d
  | VMoney m => decimal_stable (amount m) && is_finite (amount m) && is_currency_code (currency m)
  | VDate o => (1 <=? o)%Z && (o <=? 3652059)%Z
  | VDateTime d => datetime_stable d
  | VList l | VTuple l => forallb value_stable l
  | VDict d => untagged d && forallb (fun kv => value_stable kv.2) d
  | _ => true
  end.

Lemma decode_arr l : decode_value (JArr l) = (items ← map_result decode_value l; Ok (VList items)).
Proof.
  cbn [decode_value].
  match goal with |- (?f l ≫= _) = _ => assert (f l = map_result decode_value l) as -> end; [| done].
  induction l as [|x l IH]; [done |]. cbn [map_result]. by rewrite <- IH.
Qed.

Lemma decode_obj d : tag_of d ≫= (fun tag => decode_tagged tag d) = None ->
  decode_value (JObj d)
  = (fields ← map_result (fun kv => y ← decode_value kv.2; Ok (kv.1, y)) d; Ok (VDict fields)).
Proof.
  intros H. cbn [decode_value]. rewrite H.
  match goal with |- (?f d ≫= _) = _ =>
    assert (f d = map_result (fun kv => y ← decode_value kv.2; Ok (kv.1, y)) d) as -> end; [| done].
  clear H. induction d as [|[k x] d IH]; [done |]. cbn [map_result fst snd].
  rewrite <- IH. by destruct (decode_value x).
Qed.

Lemma decode_items l : Forall (fun v => decode_value (encode_value v) = Ok (thaw v)) l ->
  decode_value (JArr (map encode_value l)) = Ok (VList (map thaw l)).
Proof.
  intros H. rewrite decode_arr.
  assert (map_result decode_value (map encode_value l) = Ok (map thaw l)) as ->; [| done].
  apply map_result_Ok, Forall2_fmap. by apply Forall_Forall2_diag.
Qed.

Lemma assoc_map {A B} (f : A -> B) k (d : list (string * A)) :
  assoc k (map (fun kv => (kv.1, f kv.2)) d) = f <$> assoc k d.
Proof. induction d as [|[k' v] d IH]; cbn; [done |]. by destruct (String.eqb k k'). Qed.

Lemma untagged_decode d : untagged d = true ->
  tag_of (map (fun kv => (kv.1, encode_value kv.2)) d)
  ≫= (fun tag => decode_tagged tag (map (fun kv => (kv.1, encode_value kv.2)) d)) = None.
Proof.
  unfold untagged, tag_of. rewrite assoc_map. destruct (assoc "$type" d) as [v|]; [| done].
  destruct v; try done. cbn. rewrite negb_true_iff, bool_decide_eq_false. intros H.
  unfold decode_tagged.
  repeat match goal with |- context [String.eqb s ?t] =>
    rewrite (proj2 (String.eqb_neq s t)) by (intros ->; apply H; set_solver) end.
  done.
Qed.

Lemma plain_finite d : is_finite (plain_decimal d) = is_finite d.
Proof. destruct d as [s c e | |]; cbn; [by destruct (0 <? e)%Z | done..]. Qed.

Lemma decode_decimal d label : decimal_stable d = true ->
  _decode_decimal_string (JStr (dec_format_f d)) label = Ok (plain_decimal d).
Proof. intros H. unfold _decode_decimal_string. by rewrite dec_of_format. Qed.

Lemma decode_encoded (v : value) :
  value_stable v = true -> decode_value (encode_value v) = Ok (thaw v).
Proof.
  induction v as [| | | |d|m|o|d|l IH|l IH|d IH] using value_rect';
    cbn [value_stable]; intros Hs; try done.
  - apply (bind_intro (plain_decimal d)); [by apply decode_decimal | done].
  - apply andb_prop in Hs as [[Hd Hf]%andb_prop Hc]. destruct m as [a c].
    apply (bind_intro (plain_decimal a)); [by apply decode_decimal |].
    apply (bind_intro (MkMoney (plain_decimal a) c)); [| done].
    apply new_Money_Ok. by rewrite plain_finite.
  - apply andb_prop in Hs as [H1%Z.leb_le H2%Z.leb_le].
    change (_decode_iso_value (JStr (date_isoformat o)) "Date" date_fromisoformat = Ok (VDate o)).
    unfold _decode_iso_value. by rewrite date_of_isoformat.
  - change (_decode_iso_value (JStr (datetime_isoformat d)) "DateTime" datetime_fromisoformat
            = Ok (VDateTime d)).
    unfold _decode_iso_value. by rewrite datetime_of_isoformat.
  - apply decode_items. rewrite Forall_forall in *. intros v Hv. apply IH; [done |].
    apply (proj1 (forallb_forall _ _) Hs). by apply list_elem_of_In.
  - apply decode_items. rewrite Forall_forall in *. intros v Hv. apply IH; [done |].
    apply (proj1 (forallb_forall _ _) Hs). by apply list_elem_of_In.
  - apply andb_prop in Hs as [Hu Hs].
    change (encode_value (VDict d)) with (JObj (map (fun kv => (kv.1, encode_value kv.2)) d)).
    rewrite decode_obj by by apply untagged_decode.
    apply (bind_intro (map (fun kv => (kv.1, thaw kv.2)) d)); [| done].
    apply map_result_Ok, Forall2_fmap, Forall_Forall2_diag. rewrite Forall_forall in *.
    intros [k v] Hkv. cbn [fst snd]. apply (bind_intro (thaw v)); [| done].
    apply (IH (k, v) Hkv). apply (proj1 (forallb_forall _ _) Hs (k, v)). by apply list_elem_of_In.
Qed.

(** Decoding inverts encoding: every value within the ranges of the
    library (dates of the years 1 to 9999, offsets below a day, exponents the
    decimal type has, valid Money) is read back from its encoded document as
    itself, up to tuples, which come back as lists, and decimals with a
    positive exponent, which come back written out; the one exception is a
    dict that carries the tag of an encoded value in its [$type] field. *)
Theorem decode_encode (v : value) :
  value_stable v = true -> decode_value (encode_value v) = Ok (thaw v).
Proof. apply decode_encoded. Qed.

Definition sample_value : value :=
  VDict [("total", VMoney (MkMoney (Fin true 1250 (-2)) "USD"));
         ("when", VTuple [VDate 738945; VDateTime (MkDatetime 63844805045000250 (Some 32400000000%Z))]);
         ("rate", VDecimal (Fin false 12 3))].

Lemma decode_encode_witness :
  decode_value (encode_value sample_value)
  = Ok (VDict [("total", VMoney (MkMoney (Fin true 1250 (-2)) "USD"));
         ("when", VList [VDate 738945; VDateTime (MkDatetime 63844805045000250 (Some 32400000000%Z))]);
         ("rate", VDecimal (Fin false 12000 0))]).
Proof. apply (decode_encode sample_value). vm_compute. reflexivity. Defined.
