(* ===== verification/Values.v ===== *)
(** * Python operators on runtime values

    The interpreter and the builtins apply Python's operators to whatever
    values a Skill computes. This file gives those operators on the value
    universe of [Core.v]: numbers mix [bool], [int] and [Decimal]; Money only
    meets Money; the other types follow the Python data model. A result that
    leaves the universe (a [float], a [timedelta]) raises [OutOfModel]. *)

From S2P Require Import Prelude Digest Json Decimal Core.

Definition type_error {A} : result A := raise TypeError "unsupported operand type(s)".
Definition out_of_model {A} : result A := raise OutOfModel "outside the value universe".

(** A number: [bool] is a subclass of [int]. *)
Inductive number : Type := NInt (z : Z) | NDec (d : decimal).

Definition as_number (v : value) : option number :=
  match v with
  | VBool b => Some (NInt (if b then 1 else 0)%Z)
  | VInt z => Some (NInt z)
  | VDecimal d => Some (NDec d)
  | _ => None
  end.

Definition number_decimal (n : number) : decimal :=
  match n with NInt z => dec_of_Z z | NDec d => d end.

(** ** Length, iteration, indexing and truth *)

Definition py_len (v : value) : result Z :=
  match v with
  | VStr s => Ok (Z.of_nat (String.length s))
  | VList l | VTuple l => Ok (Z.of_nat (length l))
  | VDict d => Ok (Z.of_nat (length d))
  | _ => type_error
  end.

Definition py_iter (v : value) : result (list value) :=
  match v with
  | VStr s => Ok (map (fun c => VStr (String c "")) (chars s))
  | VList l | VTuple l => Ok l
  | VDict d => Ok (map (fun kv => VStr kv.1) d)
  | _ => type_error
  end.

(** [value[field]] with a text key. *)
Definition py_getitem (v : value) (field : string) : result value :=
  match v with
  | VDict d => match assoc field d with
               | Some x => Ok x
               | None => raise KeyError field
               end
  | _ => type_error
  end.

Definition py_truth (v : value) : bool :=
  match v with
  | VNone => false
  | VBool b => b
  | VInt z => negb (z =? 0)%Z
  | VDecimal d => negb (is_zero d)
  | VStr s => negb (String.eqb s "")
  | VList l | VTuple l => negb (length l =? 0)
  | VDict d => negb (length d =? 0)
  | VMoney _ | VDate _ | VDateTime _ => true
  end.

(** ** Equality

    A container compares its items by identity first; only a NaN is equal to
    itself by identity and not by value, so a comparison of two NaN items is
    left out. *)
Definition is_nan (d : decimal) : bool := match d with NaN _ _ _ => true | _ => false end.

Definition item_nan (a b : value) : bool :=
  match a, b with VDecimal x, VDecimal y => is_nan x && is_nan y | _, _ => false end.

Definition datetime_eq (a b : datetime) : bool :=
  match dt_utcoffset a, dt_utcoffset b with
  | None, None => (dt_wall a =? dt_wall b)%Z
  | Some _, Some _ => (instant a =? instant b)%Z
  | _, _ => false
  end.

Definition number_eq (a b : number) : result bool :=
  match a, b with
  | NInt x, NInt y => Ok (x =? y)%Z
  | _, _ => dec_eq (number_decimal a) (number_decimal b)
  end.

Fixpoint py_eq (a b : value) {struct a} : result bool :=
  let items_eq := fix items_eq (l m : list value) {struct l} : result bool :=
    match l, m with
    | [], [] => Ok true
    | x :: l, y :: m =>
        if item_nan x y then out_of_model
        else e ← py_eq x y; if (e : bool) then items_eq l m else Ok false
    | _, _ => Ok false
    end in
  match a, b with
  | VNone, VNone => Ok true
  | VStr s, VStr t => Ok (String.eqb s t)
  | VMoney m, VMoney n =>
      e ← dec_eq (amount m) (amount n); Ok (e && String.eqb (currency m) (currency n))
  | VDate x, VDate y => Ok (x =? y)%Z
  | VDateTime x, VDateTime y => Ok (datetime_eq x y)
  | VList l, VList m | VTuple l, VTuple m =>
      if length l =? length m then items_eq l m else Ok false
  | VDict d, VDict d' =>
      if length d =? length d' then
        (fix fields_eq (l : list (string * value)) : result bool :=
           match l with
           | [] => Ok true
           | (k, x) :: l =>
               match assoc k d' with
               | None => Ok false
               | Some y =>
                   if item_nan x y then out_of_model
                   else e ← py_eq x y; if (e : bool) then fields_eq l else Ok false
               end
           end) d
      else Ok false
  | _, _ =>
      match as_number a, as_number b with
      | Some x, Some y => number_eq x y
      | _, _ => Ok false
      end
  end.

(** ** Order *)

Inductive order_op : Type := OpLt | OpLe | OpGt | OpGe.

Definition flip (op : order_op) : order_op :=
  match op with OpLt => OpGt | OpLe => OpGe | OpGt => OpLt | OpGe => OpLe end.

Definition order_Z (op : order_op) (x y : Z) : bool :=
  match op with
  | OpLt => x <? y | OpLe => x <=? y | OpGt => y <? x | OpGe => y <=? x
  end%Z.

Definition order_decimal (op : order_op) (x y : decimal) : result bool :=
  match op with
  | OpLt => dec_lt x y | OpLe => dec_le x y | OpGt => dec_lt y x | OpGe => dec_le y x
  end.

Definition number_order (op : order_op) (a b : number) : result bool :=
  match a, b with
  | NInt x, NInt y => Ok (order_Z op x y)
  | _, _ => order_decimal op (number_decimal a) (number_decimal b)
  end.

Definition order_string (op : order_op) (s t : string) : bool :=
  match op with
  | OpLt => negb (str_leb t s) | OpLe => str_leb s t
  | OpGt => negb (str_leb s t) | OpGe => str_leb t s
  end.

Definition order_datetime (op : order_op) (a b : datetime) : result bool :=
  match dt_utcoffset a, dt_utcoffset b with
  | None, None => Ok (order_Z op (dt_wall a) (dt_wall b))
  | Some _, Some _ => Ok (order_Z op (instant a) (instant b))
  | _, _ => type_error
  end.

(** Money defines [__lt__] and [__le__] only: [a > b] is [b.__lt__(a)]. The
    method reads the currency of its argument, whatever that is. *)
Definition no_currency {A} : result A :=
  raise AttributeError "object has no attribute 'currency'".

Definition order_money (op : order_op) (a b : value) : result bool :=
  match op, a, b with
  | OpLt, VMoney m, VMoney n => money_lt m n
  | OpLe, VMoney m, VMoney n => money_le m n
  | OpGt, VMoney m, VMoney n => money_lt n m
  | OpGe, VMoney m, VMoney n => money_le n m
  | (OpLt | OpLe), VMoney _, _ => no_currency
  | (OpGt | OpGe), _, VMoney _ => no_currency
  | _, _, _ => type_error
  end.

Fixpoint py_order (op : order_op) (a b : value) {struct a} : result bool :=
  let items_order := fix items_order (l m : list value) {struct l} : result bool :=
    match l, m with
    | x :: l, y :: m =>
        if item_nan x y then out_of_model
        else e ← py_eq x y; if (e : bool) then items_order l m else py_order op x y
    | _, _ => Ok (order_Z op (Z.of_nat (length l)) (Z.of_nat (length m)))
    end in
  match a, b with
  | VMoney _, _ | _, VMoney _ => order_money op a b
  | VStr s, VStr t => Ok (order_string op s t)
  | VDate x, VDate y => Ok (order_Z op x y)
  | VDateTime x, VDateTime y => order_datetime op x y
  | VList l, VList m | VTuple l, VTuple m => items_order l m
  | _, _ =>
      match as_number a, as_number b with
      | Some x, Some y => number_order op x y
      | _, _ => type_error
      end
  end.

(** ** Arithmetic *)

Definition number_value (n : number) : value :=
  match n with NInt z => VInt z | NDec d => VDecimal d end.

Definition arith (on_Z : Z -> Z -> Z) (on_decimal : decimal -> decimal -> result decimal)
    (a b : number) : result value :=
  match a, b with
  | NInt x, NInt y => Ok (VInt (on_Z x y))
  | _, _ => d ← on_decimal (number_decimal a) (number_decimal b); Ok (VDecimal d)
  end.

Definition numeric (on_Z : Z -> Z -> Z) (on_decimal : decimal -> decimal -> result decimal)
    (a b : value) : result value :=
  match as_number a, as_number b with
  | Some x, Some y => arith on_Z on_decimal x y
  | _, _ => type_error
  end.

Definition py_add (a b : value) : result value :=
  match a, b with
  | VMoney m, VMoney n => t ← money_add m n; Ok (VMoney t)
  | VMoney _, _ => no_currency
  | VStr s, VStr t => Ok (VStr (s +:+ t))
  | VList l, VList m => Ok (VList (l ++ m))
  | VTuple l, VTuple m => Ok (VTuple (l ++ m))
  | _, _ => numeric Z.add dec_add a b
  end.

Definition py_sub (a b : value) : result value :=
  match a, b with
  | VMoney m, VMoney n => t ← money_sub m n; Ok (VMoney t)
  | VMoney _, _ => no_currency
  | VDate _, VDate _ => out_of_model
  | VDateTime x, VDateTime y =>
      match dt_utcoffset x, dt_utcoffset y with
      | None, None | Some _, Some _ => out_of_model
      | _, _ => type_error
      end
  | _, _ => numeric Z.sub dec_sub a b
  end.

(** [n] copies of a sequence, none when [n] is negative. *)
Definition repeated {A} (n : Z) (l : list A) : list A := concat (repeat l (Z.to_nat n)).

Definition repeat_sequence (v : value) (n : Z) : result value :=
  match v with
  | VStr s => Ok (VStr (String.string_of_list_ascii (repeated n (chars s))))
  | VList l => Ok (VList (repeated n l))
  | VTuple l => Ok (VTuple (repeated n l))
  | _ => type_error
  end.

Definition py_mul (a b : value) : result value :=
  match as_number a, as_number b with
  | Some x, Some y => arith Z.mul dec_mul x y
  | Some (NInt n), None => repeat_sequence b n
  | None, Some (NInt n) => repeat_sequence a n
  | _, _ => type_error
  end.

(** [a / b]: two integers divide to a [float]. *)
Definition py_truediv (a b : value) : result value :=
  match as_number a, as_number b with
  | Some (NInt _), Some (NInt y) =>
      if (y =? 0)%Z then raise ZeroDivisionError "division by zero" else out_of_model
  | Some x, Some y => d ← dec_div (number_decimal x) (number_decimal y); Ok (VDecimal d)
  | _, _ => type_error
  end.

(** [Decimal(value)]; texts and digit tuples are parsed by the library. *)
Definition to_decimal (v : value) : result decimal :=
  match as_number v with
  | Some n => Ok (number_decimal n)
  | None => match v with
            | VStr _ | VList _ | VTuple _ => out_of_model
            | _ => type_error
            end
  end.

(** ** [str(error)]

    A [KeyError] prints its argument with [repr]. *)
Definition single_quote : ascii := "039"%char.

Definition repr_char (q c : ascii) : list ascii :=
  if Ascii.eqb c q || Ascii.eqb c backslash then [backslash; c]
  else match char_code c with
       | 9 => [backslash; "t"%char]
       | 10 => [backslash; "n"%char]
       | 13 => [backslash; "r"%char]
       | n => if (n <? 32) || code_between 127 160 c || (n =? 173)
              then backslash :: "x"%char :: hex2 (N_of_ascii c)
              else [c]
       end.

Definition py_repr (s : string) : string :=
  let l := chars s in
  let q := if existsb (Ascii.eqb single_quote) l && negb (existsb (Ascii.eqb quote) l)
           then quote else single_quote in
  String.string_of_list_ascii (q :: flat_map (repr_char q) l ++ [q]).

Definition exn_str (e : exn) : string :=
  if isinstance_exn (ex_class e) KeyError then py_repr (ex_msg e) else ex_msg e.

(** ** JSON data as a value *)
Fixpoint value_of_json (j : json) : value :=
  match j with
  | JNull => VNone
  | JBool b => VBool b
  | JInt z => VInt z
  | JStr s => VStr s
  | JArr items => VList (map value_of_json items)
  | JObj fields => VDict (map (fun kv => (kv.1, value_of_json kv.2)) fields)
  end.

Lemma encode_value_of_json j : encode_value (value_of_json j) = j.
Proof.
  revert j. fix IH 1. intros [| | | |items|fields]; try reflexivity; cbn; f_equal.
  - induction items as [|x l IHl]; cbn; [done | by rewrite IH, IHl].
  - induction fields as [|[k x] l IHl]; cbn; [done | by rewrite IH, IHl].
Qed.

Example repr_plain : py_repr "unknown tool: a@1" = "'unknown tool: a@1'".
Proof. reflexivity. Qed.
Example eq_mixed : py_eq (VList [VInt 1; VBool true]) (VList [VBool true; VDecimal (Fin false 10 (-1))])
  = Ok true.
Proof. vm_compute. reflexivity. Qed.
Example order_lists : py_order OpLt (VList [VInt 1; VInt 5]) (VList [VInt 1; VInt 6; VInt 0]) = Ok true.
Proof. reflexivity. Qed.
