(* ===== verification/Builtins.v ===== *)
(** * Builtin functions ([src/nsl/builtins.py])

    The closed registry of the four aggregate functions of the language: their
    signatures, as the type checker and the interpreter resolve them, and
    their evaluation on runtime values. *)

From S2P Require Import Prelude Digest Json Decimal Core Values.

Record BuiltinSignature : Type := MkBuiltinSignature {
  bs_name : string;
  bs_argument_types : list TypeRef;
  bs_result_type : TypeRef
}.

Definition builtin_names : list string := ["count"; "max"; "min"; "sum"].

(** [BuiltinRegistry.resolve] *)
Definition builtin_resolve (name : string) (argument_types : list TypeRef)
  : result BuiltinSignature :=
  _ ← raise_if (negb (bool_decide (name ∈ builtin_names))) UnknownBuiltinError
        ("unsupported built-in call: " +:+ name);
  match argument_types with
  | [argument_type] =>
      match (if String.eqb (ty_kind argument_type) "list" then ty_item argument_type
             else None) with
      | None => raise BuiltinSignatureError (name +:+ " requires a List argument")
      | Some item_type =>
          _ ← raise_if (String.eqb name "sum"
                        && negb (bool_decide (item_type ∈ [INT; DECIMAL]))
                        && negb (String.eqb (ty_kind item_type) "money"))
                BuiltinSignatureError "sum requires List<Int|Decimal|Money>";
          Ok (MkBuiltinSignature name argument_types
                (if String.eqb name "count" then INT else item_type))
      end
  | _ => raise BuiltinSignatureError (name +:+ " requires exactly one argument")
  end.

(** [min(values)] and [max(values)]: the first extreme element. *)
Fixpoint extreme_from (op : order_op) (best : value) (l : list value) : result value :=
  match l with
  | [] => Ok best
  | x :: l => better ← py_order op x best;
              extreme_from op (if (better : bool) then x else best) l
  end.

Definition extreme (op : order_op) (l : list value) : result value :=
  match l with
  | [] => raise ValueError "iterable argument is empty"
  | x :: l => extreme_from op x l
  end.

(** [sum(values, start)] *)
Fixpoint py_sum (start : value) (l : list value) : result value :=
  match l with
  | [] => Ok start
  | x :: l => total ← py_add start x; py_sum total l
  end.

(** [sum_money(values, currency)] with the optional currency of a type. *)
Definition sum_money_value (values : value) (currency : option string) : result value :=
  match currency with
  | None => raise MoneyValidationError "currency is required"
  | Some currency =>
      _ ← new_Money (Fin false 0 0) currency;
      l ← py_iter values;
      total ← sum_money l currency;
      Ok (VMoney total)
  end.

(** [except TypeError] around the aggregate. *)
Definition aggregate_error (name : string) (r : result value) : result value :=
  match r with
  | Err e => if isinstance_exn (ex_class e) TypeError
             then raise BuiltinEvaluationError
                    (name +:+ " cannot evaluate the supplied collection")
             else Err e
  | ok => ok
  end.

(** [BuiltinRegistry.evaluate] *)
Definition builtin_evaluate (name : string) (arguments : list value)
    (argument_types : list TypeRef) (expected_type : TypeRef) : result value :=
  signature ← builtin_resolve name argument_types;
  _ ← raise_if (negb (length arguments =? length argument_types)) BuiltinSignatureError
        ("runtime argument count mismatch for built-in: " +:+ name);
  _ ← raise_if (negb (bool_decide (bs_result_type signature = expected_type)))
        BuiltinSignatureError ("invalid result type for built-in: " +:+ name);
  match arguments with
  | [] => raise IndexError "tuple index out of range"
  | values :: _ =>
      _ ← raise_if (bool_decide (name ∈ ["min"; "max"]) && negb (py_truth values))
            BuiltinEvaluationError (name +:+ " requires a non-empty collection");
      if String.eqb name "sum" && String.eqb (ty_kind expected_type) "money"
      then sum_money_value values (ty_currency expected_type)
      else aggregate_error name
        (if String.eqb name "count" then n ← py_len values; Ok (VInt n)
         else l ← py_iter values;
              if String.eqb name "min" then extreme OpLt l
              else if String.eqb name "max" then extreme OpGt l
              else py_sum (if bool_decide (expected_type = DECIMAL)
                           then VDecimal (Fin false 0 0) else VInt 0) l)
  end.

(** ** Aggregates of integers *)

Lemma py_sum_ints (z : Z) (l : list Z) :
  py_sum (VInt z) (map VInt l) = Ok (VInt (fold_left Z.add l z)).
Proof. revert z; induction l as [|x l IH]; intros z; [done | apply IH]. Qed.

Lemma extreme_ints (op : order_op) (z : Z) (l : list Z) :
  op = OpLt \/ op = OpGt ->
  exists m, extreme_from op (VInt z) (map VInt l) = Ok (VInt m) /\ m ∈ z :: l
    /\ Forall (fun x => order_Z (flip op) m x = false) (z :: l).
Proof.
  intros Hop. revert z; induction l as [|x l IH]; intros z.
  - exists z. split; [done |]. split; [left |]. constructor; [| constructor].
    destruct Hop as [-> | ->]; cbn; lia.
  - cbn [map extreme_from py_order as_number number_order mbind result_bind].
    set (b := order_Z op x z).
    replace (if b then VInt x else VInt z) with (VInt (if b then x else z)) by by destruct b.
    destruct (IH (if b then x else z)) as (m & Hm & Hin & Hall). exists m.
    split; [exact Hm |]. inversion Hall as [|? ? Hbest Hl]; subst. split.
    + apply elem_of_cons in Hin as [->|Hin]; [| by right; right].
      destruct b; [right; left | left].
    + repeat constructor; [| |exact Hl]; subst b; revert Hbest;
        destruct Hop as [-> | ->]; cbn; destruct (Z.ltb_spec x z), (Z.ltb_spec z x); lia.
Qed.

(** On a list of integers the four builtins are exactly the aggregates
    they are named after: [count] the length, [sum] the sum, [min] and [max]
    an element that no element is below, or above; the empty collection has a
    count and a sum and no extremes. *)
Lemma builtin_int_exact (l : list Z) :
  let evaluate name := builtin_evaluate name [VList (map VInt l)] [list_type INT] INT in
  evaluate "count" = Ok (VInt (Z.of_nat (length l)))
  /\ evaluate "sum" = Ok (VInt (fold_right Z.add 0%Z l))
  /\ match l with
     | [] => evaluate "min" = raise BuiltinEvaluationError "min requires a non-empty collection"
             /\ evaluate "max" = raise BuiltinEvaluationError "max requires a non-empty collection"
     | _ => exists lo hi, evaluate "min" = Ok (VInt lo) /\ evaluate "max" = Ok (VInt hi)
              /\ lo ∈ l /\ hi ∈ l /\ Forall (fun x => lo <= x <= hi)%Z l
     end.
Proof.
  cbv zeta. split; [| split].
  - change (Ok (VInt (Z.of_nat (length (map VInt l)))) = Ok (VInt (Z.of_nat (length l)))).
    by rewrite length_map.
  - change (aggregate_error "sum" (py_sum (VInt 0) (map VInt l)) = Ok (VInt (fold_right Z.add 0%Z l))).
    rewrite py_sum_ints. cbn. do 2 f_equal. apply fold_symmetric; intros; lia.
  - destruct l as [|z l]; [done |].
    destruct (extreme_ints OpLt z l) as (lo & Hlo & Hlo_in & Hlo_all); [by left |].
    destruct (extreme_ints OpGt z l) as (hi & Hhi & Hhi_in & Hhi_all); [by right |].
    exists lo, hi. split; [| split; [| do 2 (split; [done |])]].
    + change (aggregate_error "min" (extreme_from OpLt (VInt z) (map VInt l)) = Ok (VInt lo)).
      by rewrite Hlo.
    + change (aggregate_error "max" (extreme_from OpGt (VInt z) (map VInt l)) = Ok (VInt hi)).
      by rewrite Hhi.
    + rewrite Forall_forall in *. intros x Hx.
      specialize (Hlo_all x Hx). specialize (Hhi_all x Hx). cbn in *. lia.
Qed.
