(* ===== verification/HashTexts.v ===== *)
(** * Texts that no redaction touches

    A regular expression whose every match consumes a character of a set leaves
    a text without such characters alone. The credential patterns of
    [DataProtection] are of this kind, and hashes and the identities built
    from them have none of the characters they need. *)

From S2P Require Import Prelude Digest Json Decimal Core DataProtection.
Import Regex.

(** [Needs X r]: every match of [r] consumes a character of [X]. *)
Inductive Needs (X : ascii -> bool) : regex -> Prop :=
  | needs_chr p : (forall c, p c = true -> X c = true) -> Needs X (Chr p)
  | needs_left r1 r2 : Needs X r1 -> Needs X (Seq r1 r2)
  | needs_right r1 r2 : Needs X r2 -> Needs X (Seq r1 r2)
  | needs_alt r1 r2 : Needs X r1 -> Needs X r2 -> Needs X (Alt r1 r2)
  | needs_group n r : Needs X r -> Needs X (Group n r).

Section Untouched.
Variable X : ascii -> bool.

Definition without (l : list ascii) : Prop := Forall (fun c => X c = false) l.

(** A match fails when what follows it fails on every text without [X]. *)
Definition hopeless (k : option ascii -> list ascii -> groups ->
    option (list ascii * option ascii * groups)) : Prop :=
  forall prev rest gs, without rest -> k prev rest gs = None.

Lemma m_hopeless r : forall k, hopeless k -> hopeless (fun prev rest gs => m r prev rest gs k).
Proof.
  induction r as [|p|r1 IH1 r2 IH2|r1 IH1 r2 IH2|r IH|r IH| |p|p|n r IH]; intros k Hk prev rest gs Hr.
  - by apply Hk.
  - cbn. destruct rest as [|c rest]; [done |]. apply Forall_cons in Hr as [_ Hr].
    destruct (p c); [by apply Hk | done].
  - apply (IH1 (fun prev rest gs => m r2 prev rest gs k)); [| done]. by apply IH2.
  - cbn. rewrite IH1 by done. cbn. by apply IH2.
  - cbn. generalize (length rest) as n. intros n. revert prev rest gs Hr.
    induction n as [|n IHn]; intros prev rest gs Hr; [by apply Hk |].
    unfold or_else. rewrite (IH (fun prev' rest' gs' => if length rest' <? length rest
      then _ prev' rest' gs' else None)); [by apply Hk | | done].
    intros prev' rest' gs' Hr'. destruct (length rest' <? length rest); [by apply IHn | done].
  - cbn. generalize (length rest) as n. intros n. revert prev rest gs Hr.
    induction n as [|n IHn]; intros prev rest gs Hr; [by apply Hk |].
    unfold or_else. rewrite Hk by done. apply (IH (fun prev' rest' gs' => if length rest' <? length rest
      then _ prev' rest' gs' else None)); [| done].
    intros prev' rest' gs' Hr'. destruct (length rest' <? length rest); [by apply IHn | done].
  - cbn. destruct (xorb _ _); [by apply Hk | done].
  - cbn. destruct prev as [c|]; [destruct (p c); [done |] |]; by apply Hk.
  - cbn. destruct rest as [|c rest]; [by apply Hk |]. destruct (p c); [done | by apply Hk].
  - cbn. apply (IH (fun prev' rest' gs' => k prev' rest' _)); [| done].
    intros prev' rest' gs' Hr'. by apply Hk.
Qed.

Lemma needs_hopeless r : Needs X r -> forall k, hopeless (fun prev rest gs => m r prev rest gs k).
Proof.
  induction 1 as [p Hp|r1 r2 _ IH|r1 r2 _ IH|r1 r2 _ IH1 _ IH2|n r _ IH]; intros k prev rest gs Hr.
  - cbn. destruct rest as [|c rest]; [done |]. apply Forall_cons in Hr as [Hc _].
    destruct (p c) eqn:E; [| done]. rewrite (Hp c E) in Hc. discriminate.
  - by apply (IH (fun prev rest gs => m r2 prev rest gs k)).
  - apply (m_hopeless r1 (fun prev rest gs => m r2 prev rest gs k)); [apply IH | done].
  - cbn. rewrite IH1 by done. by apply IH2.
  - cbn. by apply IH.
Qed.

Lemma sub_untouched r repl text : Needs X r -> without text -> sub r repl text = text.
Proof.
  intros Hr Ht. unfold sub. generalize (length text) as n, (@None ascii) as prev. intros n.
  revert text Ht. induction n as [|n IH]; intros text Ht prev; [done |].
  destruct text as [|c text]; [done |]. cbn [sub_fuel]. unfold match_at.
  rewrite (needs_hopeless r Hr) by done. f_equal. apply IH. by apply Forall_cons in Ht as [_ Ht].
Qed.
End Untouched.

(** ** Hash texts *)

(** The characters of hashes and of the identities made of them. *)
Definition hash_char (c : ascii) : bool := is_lower_hex c || one_of ":nsphidem" c.

Definition other_char (c : ascii) : bool := negb (hash_char c).

Lemma needs_word s : existsb (fun c => forallb (fun d => implb (Ascii.eqb (lower d) c) (other_char d))
    (map ascii_of_nat (seq 0 256))) (chars s) = true -> Needs other_char (word s).
Proof.
  unfold word. induction (chars s) as [|c l IH]; cbn [existsb LitI]; [done |].
  intros [H|H]%orb_true_iff; [apply needs_left | by apply needs_right, IH]. constructor.
  intros d Hd. rewrite forallb_forall in H. specialize (H d). rewrite Hd in H. apply H.
  rewrite <- (ascii_nat_embedding d). apply in_map, in_seq. pose proof (nat_ascii_bounded d). lia.
Qed.

Lemma needs_two_words a b : Needs other_char (word a) \/ Needs other_char (word b) ->
  Needs other_char (two_words a b).
Proof.
  intros [H|H]; [by apply needs_left | by apply needs_right, needs_right].
Qed.

(** Each label has a letter that no hash has. *)
Lemma needs_label : Needs other_char _CREDENTIAL_LABEL.
Proof.
  repeat first
    [ apply needs_alt
    | apply needs_word; vm_compute; reflexivity
    | apply needs_two_words; left; apply needs_word; vm_compute; reflexivity
    | apply needs_two_words; right; apply needs_word; vm_compute; reflexivity
    | apply needs_left; apply needs_word; vm_compute; reflexivity ].
Qed.

Lemma needs_space : Needs other_char (Chr is_space).
Proof.
  constructor. intros c. rewrite <- (ascii_nat_embedding c).
  assert (forallb (fun n => implb (is_space (ascii_of_nat n)) (other_char (ascii_of_nat n))) (seq 0 256) = true)
    as H by (vm_compute; reflexivity).
  rewrite forallb_forall in H. specialize (H (nat_of_ascii c)). intros Hs. rewrite Hs in H. apply H.
  apply in_seq. pose proof (nat_ascii_bounded c). lia.
Qed.

Lemma needs_char c : other_char c = true -> Needs other_char (Chr (Ascii.eqb c)).
Proof. intros H. constructor. by intros d <-%Ascii.eqb_eq. Qed.

Lemma redact_hash_text s : string_forallb hash_char s = true -> redact_text s [] = s.
Proof.
  intros H. assert (without other_char (chars s)) as Hs.
  { unfold without, chars. clear -H. induction s as [|c s IH]; [constructor |]. cbn in *.
    apply andb_prop in H as [Hc Hs]. constructor; [unfold other_char; by rewrite Hc | by apply IH]. }
  unfold redact_text. change (redact_values (chars s) []) with (chars s). cbv zeta.
  rewrite (sub_untouched other_char _PRIVATE_KEY_PATTERN); [| | done].
  2: { apply needs_left, needs_left, needs_left, needs_char. reflexivity. }
  rewrite (sub_untouched other_char _KEY_VALUE_PATTERN); [| | done].
  2: { apply needs_right, needs_left, needs_group, needs_label. }
  rewrite (sub_untouched other_char _AUTH_SCHEME_PATTERN); [| | done].
  2: { apply needs_right, needs_right, needs_left, needs_left, needs_space. }
  rewrite (sub_untouched other_char _JWT_PATTERN); [| | done].
  2: { apply needs_right, needs_left, needs_right, needs_left, needs_char. reflexivity. }
  apply String.string_of_list_ascii_of_string.
Qed.

Lemma hash_text_ok s : non_blank s = true -> string_forallb hash_char s = true -> text_ok s.
Proof. intros Hn Hs. split; [done |]. constructor. by apply redact_hash_text. Qed.

Lemma forallb_weaken (p q : ascii -> bool) s : (forall c, p c = true -> q c = true) ->
  string_forallb p s = true -> string_forallb q s = true.
Proof.
  intros H. induction s as [|c s IH]; cbn; [done |]. intros [Hc Hs]%andb_prop. by rewrite (H c Hc), IH.
Qed.

Lemma sha256_chars h : is_sha256_ref h = true -> string_forallb hash_char h = true.
Proof.
  unfold is_sha256_ref. intros H. apply andb_prop in H as [H Hx]. apply andb_prop in H as [Hp _].
  unfold startswith, removeprefix in *. destruct (drop_prefix "sha256:" h) as [d|] eqn:E; [| done].
  apply drop_prefix_Some in E as ->. rewrite string_forallb_app.
  apply andb_true_intro. split; [reflexivity |]. cbn in Hx. eapply forallb_weaken; [| exact Hx].
  intros c Hc. unfold hash_char. by rewrite Hc.
Qed.

(** A hash text, also behind a tag such as [nsp:], passes the credential check. *)
Lemma sha256_text_ok tag h : string_forallb hash_char tag = true -> is_sha256_ref h = true ->
  text_ok (tag +:+ h)%string.
Proof.
  intros Ht Hh. apply hash_text_ok; [| rewrite string_forallb_app; by rewrite Ht, sha256_chars].
  unfold non_blank. rewrite string_forallb_app. unfold is_sha256_ref in Hh.
  apply andb_prop in Hh as [Hh _]. apply andb_prop in Hh as [Hp _].
  unfold startswith in Hp. destruct (drop_prefix "sha256:" h) as [d|] eqn:E; [| done].
  apply drop_prefix_Some in E as ->. rewrite string_forallb_app. cbn. by rewrite andb_false_r.
Qed.

Lemma sha256_ref_is_ref m : is_sha256_ref (sha256_ref m) = true.
Proof.
  unfold is_sha256_ref, sha256_ref. rewrite startswith_app, removeprefix_app.
  by rewrite sha256_hex_length, sha256_hex_lower.
Qed.
