(* ===== verification/Ir.v ===== *)
(** * The intermediate representation ([src/nsl/ir.py])

    Expressions, statements and Skill objects, the checks their constructors
    make, their data form and the semantic hash taken over it. *)

From S2P Require Import Prelude Digest Json Decimal Core DataProtection.

(** ** Expressions *)

Record ResultPolicy : Type := MkResultPolicy {
  required : bool;
  accept_partial : bool;
  empty_is_valid : bool
}.

Definition default_ResultPolicy : ResultPolicy := MkResultPolicy true false true.

Inductive Expression : Type :=
  | LiteralExpr (node_id : string) (v : value) (type_info : TypeRef)
  | SymbolRefExpr (node_id : string) (symbol_id : string) (type_info : TypeRef)
  | FieldExpr (node_id : string) (source : Expression) (field : string)
      (type_info : TypeRef)
  | ProjectionExpr (node_id : string) (source : Expression) (field : string)
      (type_info : TypeRef)
  | CallExpr (node_id : string) (function : string) (arguments : list Expression)
      (type_info : TypeRef)
  | BinaryExpr (node_id : string) (operator : string) (left right : Expression)
      (type_info : TypeRef)
  | ReadExpr (node_id : string) (tool_ref : string)
      (arguments : list (string * Expression)) (type_info : TypeRef)
      (result_policy : ResultPolicy)
  | WriteExpr (node_id : string) (tool_ref : string)
      (arguments : list (string * Expression)) (approval_ref : string)
      (type_info : TypeRef).

(** Induction over the nested expressions. *)
Definition Expression_rect' (P : Expression -> Prop)
    (Hlit : forall n v t, P (LiteralExpr n v t))
    (Hsym : forall n s t, P (SymbolRefExpr n s t))
    (Hfield : forall n src f t, P src -> P (FieldExpr n src f t))
    (Hproj : forall n src f t, P src -> P (ProjectionExpr n src f t))
    (Hcall : forall n f args t, Forall P args -> P (CallExpr n f args t))
    (Hbin : forall n op l r t, P l -> P r -> P (BinaryExpr n op l r t))
    (Hread : forall n tool args t p, Forall (fun a => P a.2) args ->
       P (ReadExpr n tool args t p))
    (Hwrite : forall n tool args a t, Forall (fun a => P a.2) args ->
       P (WriteExpr n tool args a t)) : forall e, P e :=
  fix go e :=
    let named := fix named (l : list (string * Expression)) : Forall (fun a => P a.2) l :=
      match l with
      | [] => Forall_nil_2 _
      | a :: l => Forall_cons_2 _ a l (go a.2) (named l)
      end in
    match e with
    | LiteralExpr n v t => Hlit n v t
    | SymbolRefExpr n s t => Hsym n s t
    | FieldExpr n src f t => Hfield n src f t (go src)
    | ProjectionExpr n src f t => Hproj n src f t (go src)
    | CallExpr n f args t =>
        Hcall n f args t ((fix all (l : list Expression) : Forall P l :=
          match l with
          | [] => Forall_nil_2 _
          | x :: l => Forall_cons_2 _ x l (go x) (all l)
          end) args)
    | BinaryExpr n op l r t => Hbin n op l r t (go l) (go r)
    | ReadExpr n tool args t p => Hread n tool args t p (named args)
    | WriteExpr n tool args a t => Hwrite n tool args a t (named args)
    end.

Definition expr_node_id (e : Expression) : string :=
  match e with
  | LiteralExpr n _ _ | SymbolRefExpr n _ _ | FieldExpr n _ _ _
  | ProjectionExpr n _ _ _ | CallExpr n _ _ _ | BinaryExpr n _ _ _ _
  | ReadExpr n _ _ _ _ | WriteExpr n _ _ _ _ => n
  end.

Definition expr_type_info (e : Expression) : TypeRef :=
  match e with
  | LiteralExpr _ _ t | SymbolRefExpr _ _ t | FieldExpr _ _ _ t
  | ProjectionExpr _ _ _ t | CallExpr _ _ _ t | BinaryExpr _ _ _ _ t
  | ReadExpr _ _ _ t _ | WriteExpr _ _ _ _ t => t
  end.

(** The payload of a WRITE expression, as its own record. *)
Record WriteExpression : Type := MkWriteExpression {
  we_node_id : string;
  we_tool_ref : string;
  we_arguments : list (string * Expression);
  we_approval_ref : string;
  we_type_info : TypeRef
}.

Definition write_expr (w : WriteExpression) : Expression :=
  WriteExpr (we_node_id w) (we_tool_ref w) (we_arguments w) (we_approval_ref w)
    (we_type_info w).

Definition nonempty_texts (suffix : string) (l : list (string * string)) : result unit :=
  each (fun p => raise_if (negb (non_blank p.2)) ValueError (p.1 +:+ suffix)) l.

Definition WriteExpression_post_init (w : WriteExpression) : result unit :=
  _ ← nonempty_texts " must be a non-empty string"
        [("WRITE node_id", we_node_id w); ("WRITE tool_ref", we_tool_ref w);
         ("WRITE approval_ref", we_approval_ref w)];
  _ ← each (fun a => raise_if (negb (non_blank a.1)) ValueError
                       "WRITE argument names must be non-empty strings") (we_arguments w);
  raise_if (negb (no_duplicates (map fst (we_arguments w)))) ValueError
    "WRITE argument names must be unique".

Definition new_WriteExpression node_id tool_ref arguments approval_ref type_info
  : result WriteExpression :=
  let w := MkWriteExpression node_id tool_ref arguments approval_ref type_info in
  _ ← WriteExpression_post_init w; Ok w.

(** ** Statements *)

Record ApprovalPolicy : Type := MkApprovalPolicy {
  policy_required : bool;
  ttl_seconds : option Z
}.

Definition ApprovalPolicy_post_init (p : ApprovalPolicy) : result unit :=
  _ ← raise_if (negb (policy_required p)) ValueError "approval policy must be required";
  match ttl_seconds p with
  | Some t => raise_if (t <? 1)%Z ValueError
                "approval ttl_seconds must be a positive integer"
  | None => Ok tt
  end.

Definition new_ApprovalPolicy (req : bool) (ttl : option Z) : result ApprovalPolicy :=
  let p := MkApprovalPolicy req ttl in
  _ ← ApprovalPolicy_post_init p; Ok p.

Record ApprovalStatement : Type := MkApprovalStatement {
  as_node_id : string;
  as_approval_id : string;
  as_message : string;
  as_policy : ApprovalPolicy
}.

Definition ApprovalStatement_post_init (s : ApprovalStatement) : result unit :=
  nonempty_texts " must be a non-empty string"
    [("approval node_id", as_node_id s); ("approval_id", as_approval_id s)].

Record CheckStatement : Type := MkCheckStatement {
  cs_node_id : string;
  cs_check_id : string;
  cs_condition : Expression;
  cs_severity : string;
  cs_on_fail : string;
  cs_message : string;
  cs_result_symbol_id : string
}.

Inductive Statement : Type :=
  | LetStatement (node_id target_symbol_id : string) (v : Expression)
  | ForeachStatement (node_id iterator_symbol_id : string) (collection : Expression)
      (max_iterations : Z) (body : list Statement)
  | CheckStmt (c : CheckStatement)
  | EmitStatement (node_id : string) (fields : list (string * Expression))
  | ApprovalStmt (a : ApprovalStatement).

(** Induction over the nested statements. *)
Definition Statement_rect' (P : Statement -> Prop)
    (Hlet : forall n target v, P (LetStatement n target v))
    (Hforeach : forall n it coll m body, Forall P body ->
       P (ForeachStatement n it coll m body))
    (Hcheck : forall c, P (CheckStmt c))
    (Hemit : forall n fields, P (EmitStatement n fields))
    (Happroval : forall a, P (ApprovalStmt a)) : forall s, P s :=
  fix go s :=
    match s with
    | LetStatement n target v => Hlet n target v
    | ForeachStatement n it coll m body =>
        Hforeach n it coll m body ((fix all (l : list Statement) : Forall P l :=
          match l with
          | [] => Forall_nil_2 _
          | x :: l => Forall_cons_2 _ x l (go x) (all l)
          end) body)
    | CheckStmt c => Hcheck c
    | EmitStatement n fields => Hemit n fields
    | ApprovalStmt a => Happroval a
    end.

Definition stmt_node_id (s : Statement) : string :=
  match s with
  | LetStatement n _ _ | ForeachStatement n _ _ _ _ | EmitStatement n _ => n
  | CheckStmt c => cs_node_id c
  | ApprovalStmt a => as_node_id a
  end.

(** ** Skill objects *)

Record SymbolSpec : Type := MkSymbolSpec {
  sym_symbol_id : string;
  sym_name : string;
  sym_category : string;
  sym_type_info : TypeRef;
  sym_classification : DataClassification
}.

Record InputSpec : Type := MkInputSpec {
  in_symbol_id : string;
  in_name : string;
  in_type_info : TypeRef;
  in_required : bool;
  in_classification : DataClassification
}.

Record ContextSpec : Type := MkContextSpec {
  cx_symbol_id : string;
  cx_name : string;
  cx_type_info : TypeRef;
  cx_path : list string;
  cx_classification : DataClassification
}.

Record OutputField : Type := MkOutputField {
  out_name : string;
  out_type_info : TypeRef;
  out_classification : DataClassification
}.

(** A required tool's capability is the enum member its text names, or the
    text itself when it names none. *)
Inductive capability_text : Type :=
  | Capability (c : ToolCapability)
  | OtherCapability (s : string).

#[export] Instance capability_text_eq_dec : EqDecision capability_text.
Proof. solve_decision. Defined.

Definition capability_value (c : ToolCapability) : string :=
  match c with READ => "READ" | WRITE => "WRITE" | TRANSACTION => "TRANSACTION" end.

Definition ToolCapability_of (s : string) : option ToolCapability :=
  find (fun c => String.eqb (capability_value c) s) [READ; WRITE; TRANSACTION].

Definition risk_value (r : RiskLevel) : string :=
  match r with
  | R0 => "R0" | R1 => "R1" | R2 => "R2" | R3 => "R3" | R4 => "R4" | R5 => "R5"
  end.

Definition classification_value (c : DataClassification) : string :=
  match c with
  | PUBLIC => "PUBLIC" | INTERNAL => "INTERNAL" | CONFIDENTIAL => "CONFIDENTIAL"
  | RESTRICTED => "RESTRICTED"
  end.

Record RequiredTool : Type := MkRequiredTool {
  rt_tool_ref : string;
  rt_tool_id : string;
  rt_version : string;
  rt_capability : capability_text;
  rt_contract_hash : string;
  rt_required_scope : string;
  rt_output_classification : DataClassification;
  rt_risk_level : option RiskLevel
}.

(** [__post_init__] replaces the capability text by the member it names and
    requires a risk level of a WRITE tool. *)
Definition new_RequiredTool tool_ref tool_id version (capability : string)
    contract_hash required_scope output_classification risk_level
  : result RequiredTool :=
  let c := match ToolCapability_of capability with
           | Some c => Capability c
           | None => OtherCapability capability
           end in
  _ ← raise_if (bool_decide (c = Capability WRITE) && bool_decide (risk_level = None))
        ValueError "WRITE required tool must declare risk_level";
  Ok (MkRequiredTool tool_ref tool_id version c contract_hash required_scope
        output_classification risk_level).

Record ResourceLimits : Type := MkResourceLimits {
  lim_tool_calls : Z;
  lim_loop_iterations : Z;
  lim_emitted_rows : Z;
  lim_collection_size : Z;
  lim_duration_ms : Z
}.

Record StaticAnalysis : Type := MkStaticAnalysis {
  max_tool_calls : Z;
  max_loop_iterations : Z;
  max_emit_records : Z;
  bounded : bool
}.

Record BuildSource : Type := MkBuildSource {
  bs_logical_path : string;
  bs_content_hash : string;
  bs_size_bytes : Z;
  bs_is_root : bool
}.

Record BuildMetadata : Type := MkBuildMetadata {
  bm_source_bundle_sha256 : string;
  bm_root_source : string;
  bm_sources : list BuildSource
}.

Record SkillObject : Type := MkSkillObject {
  sk_ir_version : string;
  sk_language_version : string;
  sk_skill_id : string;
  sk_skill_version : string;
  sk_risk : string;
  sk_semantics_profile : string;
  sk_semantic_hash : string;
  sk_features : gset string;
  sk_symbols : list SymbolSpec;
  sk_required_tools : list RequiredTool;
  sk_limits : ResourceLimits;
  sk_inputs : list InputSpec;
  sk_contexts : list ContextSpec;
  sk_outputs : list OutputField;
  sk_body : list Statement;
  sk_analysis : StaticAnalysis;
  sk_build : BuildMetadata
}.

(** ** Data form *)

Definition base (node_id : string) (t : TypeRef) : list (string * json) :=
  [("node_id", JStr node_id); ("type", type_to_data t)].

Fixpoint _expr_to_data (expr : Expression) : json :=
  match expr with
  | LiteralExpr n v t =>
      JObj (base n t ++ [("kind", JStr "literal"); ("value", encode_value v)])
  | SymbolRefExpr n s t =>
      JObj (base n t ++ [("kind", JStr "symbol_ref"); ("symbol_id", JStr s)])
  | FieldExpr n src f t =>
      JObj (base n t ++ [("kind", JStr "field"); ("source", _expr_to_data src);
                         ("field", JStr f)])
  | ProjectionExpr n src f t =>
      JObj (base n t ++ [("kind", JStr "project"); ("source", _expr_to_data src);
                         ("field", JStr f)])
  | CallExpr n f args t =>
      JObj (base n t ++ [("kind", JStr "call"); ("function", JStr f);
                         ("arguments", JArr (map _expr_to_data args))])
  | BinaryExpr n op l r t =>
      JObj (base n t ++ [("kind", JStr "binary"); ("operator", JStr op);
                         ("left", _expr_to_data l); ("right", _expr_to_data r)])
  | ReadExpr n tool args t p =>
      JObj (base n t ++ [("kind", JStr "read"); ("tool_ref", JStr tool);
        ("arguments", JArr (map (fun a =>
           JObj [("name", JStr a.1); ("value", _expr_to_data a.2)]) args));
        ("result_policy", JObj [("required", JBool (required p));
           ("accept_partial", JBool (accept_partial p));
           ("empty_is_valid", JBool (empty_is_valid p))])])
  | WriteExpr n tool args approval t =>
      JObj (base n t ++ [("kind", JStr "write"); ("tool_ref", JStr tool);
        ("approval_ref", JStr approval);
        ("arguments", JArr (map (fun a =>
           JObj [("name", JStr a.1); ("value", _expr_to_data a.2)]) args))])
  end.

Definition approval_policy_to_data (p : ApprovalPolicy) : json :=
  JObj (("required", JBool (policy_required p))
        :: match ttl_seconds p with Some t => [("ttl_seconds", JInt t)] | None => [] end).

Fixpoint _statement_to_data (statement : Statement) : json :=
  match statement with
  | LetStatement n target v =>
      JObj [("node_id", JStr n); ("kind", JStr "let");
            ("target_symbol_id", JStr target); ("value", _expr_to_data v)]
  | ForeachStatement n it coll m body =>
      JObj [("node_id", JStr n); ("kind", JStr "foreach");
            ("iterator_symbol_id", JStr it); ("collection", _expr_to_data coll);
            ("max_iterations", JInt m); ("body", JArr (map _statement_to_data body))]
  | CheckStmt c =>
      JObj [("node_id", JStr (cs_node_id c)); ("kind", JStr "check");
            ("check_id", JStr (cs_check_id c));
            ("condition", _expr_to_data (cs_condition c));
            ("severity", JStr (cs_severity c)); ("on_fail", JStr (cs_on_fail c));
            ("message", JStr (cs_message c));
            ("result_symbol_id", JStr (cs_result_symbol_id c));
            ("data_policy", JObj [("require_complete", JBool true);
               ("on_partial", JStr "UNKNOWN"); ("on_unknown", JStr "UNKNOWN")])]
  | EmitStatement n fields =>
      JObj [("node_id", JStr n); ("kind", JStr "emit");
            ("fields", JArr (map (fun a =>
               JObj [("name", JStr a.1); ("value", _expr_to_data a.2)]) fields))]
  | ApprovalStmt a =>
      JObj [("node_id", JStr (as_node_id a)); ("kind", JStr "approval");
            ("approval_id", JStr (as_approval_id a)); ("message", JStr (as_message a));
            ("policy", approval_policy_to_data (as_policy a))]
  end.

Definition symbol_to_data (i : SymbolSpec) : json :=
  JObj [("symbol_id", JStr (sym_symbol_id i)); ("name", JStr (sym_name i));
        ("category", JStr (sym_category i)); ("type", type_to_data (sym_type_info i));
        ("classification", JStr (classification_value (sym_classification i)))].

Definition capability_to_data (c : capability_text) : json :=
  match c with Capability c => JStr (capability_value c) | OtherCapability s => JStr s end.

Definition required_tool_to_data (ir_version : string) (i : RequiredTool) : json :=
  JObj ([("tool_ref", JStr (rt_tool_ref i)); ("tool_id", JStr (rt_tool_id i));
         ("version", JStr (rt_version i)); ("capability", capability_to_data (rt_capability i));
         ("contract_hash", JStr (rt_contract_hash i));
         ("required_scope", JStr (rt_required_scope i));
         ("output_classification",
            JStr (classification_value (rt_output_classification i)))]
        ++ match rt_risk_level i with
           | Some r => if String.eqb ir_version "1.1"
                       then [("risk_level", JStr (risk_value r))] else []
           | None => []
           end).

Definition limits_to_data (l : ResourceLimits) : json :=
  JObj [("tool_calls", JInt (lim_tool_calls l));
        ("loop_iterations", JInt (lim_loop_iterations l));
        ("emitted_rows", JInt (lim_emitted_rows l));
        ("collection_size", JInt (lim_collection_size l));
        ("duration_ms", JInt (lim_duration_ms l))].

Definition input_to_data (i : InputSpec) : json :=
  JObj [("symbol_id", JStr (in_symbol_id i)); ("name", JStr (in_name i));
        ("type", type_to_data (in_type_info i)); ("required", JBool (in_required i));
        ("classification", JStr (classification_value (in_classification i)))].

Definition context_to_data (i : ContextSpec) : json :=
  JObj [("symbol_id", JStr (cx_symbol_id i)); ("name", JStr (cx_name i));
        ("type", type_to_data (cx_type_info i)); ("path", JArr (map JStr (cx_path i)));
        ("classification", JStr (classification_value (cx_classification i)))].

Definition output_to_data (i : OutputField) : json :=
  JObj [("name", JStr (out_name i)); ("type", type_to_data (out_type_info i));
        ("classification", JStr (classification_value (out_classification i)))].

Definition analysis_to_data (a : StaticAnalysis) : json :=
  JObj [("max_tool_calls", JInt (max_tool_calls a));
        ("max_loop_iterations", JInt (max_loop_iterations a));
        ("max_emit_records", JInt (max_emit_records a));
        ("bounded", JBool (bounded a))].

Definition build_to_data (b : BuildMetadata) : json :=
  JObj [("source_bundle_sha256", JStr (bm_source_bundle_sha256 b));
        ("root_source", JStr (bm_root_source b));
        ("sources", JArr (map (fun i =>
           JObj [("logical_path", JStr (bs_logical_path i));
                 ("sha256", JStr (bs_content_hash i));
                 ("size_bytes", JInt (bs_size_bytes i));
                 ("is_root", JBool (bs_is_root i))]) (bm_sources b)))].

Definition skill_to_data (skill : SkillObject) (include_hash include_build : bool) : json :=
  JObj ([("format", JStr "NSO"); ("ir_version", JStr (sk_ir_version skill));
         ("language", JObj [("name", JStr "NSL");
                            ("version", JStr (sk_language_version skill))]);
         ("skill", JObj [("id", JStr (sk_skill_id skill));
                         ("version", JStr (sk_skill_version skill));
                         ("risk", JStr (sk_risk skill))]);
         ("semantics_profile", JStr (sk_semantics_profile skill));
         ("features", JArr (map JStr (sort_strings (elements (sk_features skill)))));
         ("symbols", JArr (map symbol_to_data (sk_symbols skill)));
         ("requires", JArr (map (required_tool_to_data (sk_ir_version skill))
                              (sk_required_tools skill)));
         ("limits", limits_to_data (sk_limits skill));
         ("inputs", JArr (map input_to_data (sk_inputs skill)));
         ("contexts", JArr (map context_to_data (sk_contexts skill)));
         ("output", JArr (map output_to_data (sk_outputs skill)));
         ("body", JArr (map _statement_to_data (sk_body skill)));
         ("analysis", analysis_to_data (sk_analysis skill))]
        ++ (if include_build then [("build", build_to_data (sk_build skill))] else [])
        ++ (if include_hash then
              [("hashes", JObj
                 [("source_bundle_sha256",
                     JStr (bm_source_bundle_sha256 (sk_build skill)));
                  ("semantic_sha256", JStr (sk_semantic_hash skill))])] else [])).

Definition set_semantic_hash (skill : SkillObject) (h : string) : SkillObject :=
  MkSkillObject (sk_ir_version skill) (sk_language_version skill) (sk_skill_id skill)
    (sk_skill_version skill) (sk_risk skill) (sk_semantics_profile skill) h
    (sk_features skill) (sk_symbols skill) (sk_required_tools skill) (sk_limits skill)
    (sk_inputs skill) (sk_contexts skill) (sk_outputs skill) (sk_body skill)
    (sk_analysis skill) (sk_build skill).

Definition with_computed_hash (skill : SkillObject) : SkillObject :=
  set_semantic_hash skill
    (sha256_ref (canonical_json (skill_to_data skill false false))).

(** ** The semantic hash *)

Definition set_build (skill : SkillObject) (b : BuildMetadata) : SkillObject :=
  MkSkillObject (sk_ir_version skill) (sk_language_version skill) (sk_skill_id skill)
    (sk_skill_version skill) (sk_risk skill) (sk_semantics_profile skill)
    (sk_semantic_hash skill) (sk_features skill) (sk_symbols skill)
    (sk_required_tools skill) (sk_limits skill) (sk_inputs skill) (sk_contexts skill)
    (sk_outputs skill) (sk_body skill) (sk_analysis skill) b.

(** The hashed document, its keys in order. *)
Lemma skill_data_sorted skill :
  sorted_keys (skill_to_data skill false false) =
  JObj [("analysis", sorted_keys (analysis_to_data (sk_analysis skill)));
        ("body", JArr (map sorted_keys (map _statement_to_data (sk_body skill))));
        ("contexts", JArr (map sorted_keys (map context_to_data (sk_contexts skill))));
        ("features", JArr (map sorted_keys
           (map JStr (sort_strings (elements (sk_features skill))))));
        ("format", JStr "NSO");
        ("inputs", JArr (map sorted_keys (map input_to_data (sk_inputs skill))));
        ("ir_version", JStr (sk_ir_version skill));
        ("language", JObj [("name", JStr "NSL"); ("version", JStr (sk_language_version skill))]);
        ("limits", sorted_keys (limits_to_data (sk_limits skill)));
        ("output", JArr (map sorted_keys (map output_to_data (sk_outputs skill))));
        ("requires", JArr (map sorted_keys
           (map (required_tool_to_data (sk_ir_version skill)) (sk_required_tools skill))));
        ("semantics_profile", JStr (sk_semantics_profile skill));
        ("skill", JObj [("id", JStr (sk_skill_id skill)); ("risk", JStr (sk_risk skill));
                        ("version", JStr (sk_skill_version skill))]);
        ("symbols", JArr (map sorted_keys (map symbol_to_data (sk_symbols skill))))].
Proof. reflexivity. Qed.

Lemma map_JStr_sorted l : map sorted_keys (map JStr l) = map JStr l.
Proof. rewrite map_map. by apply map_ext. Qed.

Lemma map_JStr_inj l l' : map JStr l = map JStr l' -> l = l'.
Proof.
  revert l'; induction l as [|x l IH]; intros [|y l']; cbn; try discriminate; [done |].
  intros [= -> H]. by rewrite (IH l' H).
Qed.

Lemma sorted_elements_inj (X Y : gset string) :
  sort_strings (elements X) = sort_strings (elements Y) -> X = Y.
Proof.
  intros H. apply set_eq. intros x. rewrite <- !elem_of_elements.
  by rewrite <- (sort_strings_perm (elements X)), <- (sort_strings_perm (elements Y)), H.
Qed.

(** What two Skills with one semantic hash have in common, collisions of
    SHA-256 apart. *)
Definition same_semantics (s t : SkillObject) : Prop :=
  sk_skill_id s = sk_skill_id t /\ sk_skill_version s = sk_skill_version t
  /\ sk_ir_version s = sk_ir_version t /\ sk_risk s = sk_risk t
  /\ sk_semantics_profile s = sk_semantics_profile t
  /\ sk_features s = sk_features t /\ sk_limits s = sk_limits t
  /\ sk_analysis s = sk_analysis t
  /\ map (fun x => sorted_keys (_statement_to_data x)) (sk_body s)
     = map (fun x => sorted_keys (_statement_to_data x)) (sk_body t).

Lemma skill_data_same s t :
  sorted_keys (skill_to_data s false false) = sorted_keys (skill_to_data t false false) ->
  same_semantics s t.
Proof.
  rewrite !skill_data_sorted, !map_JStr_sorted. intros [=]. unfold same_semantics.
  rewrite <- !(map_map _statement_to_data sorted_keys).
  repeat split; try congruence.
  - apply sorted_elements_inj, map_JStr_inj. assumption.
  - destruct (sk_limits s), (sk_limits t); cbn in *; congruence.
  - destruct (sk_analysis s), (sk_analysis t); cbn in *; congruence.
Qed.

(** The semantic hash is stable and binding: computing it again changes
    nothing, it does not depend on the build metadata nor on the hash stored
    before, and two Skills with the same semantic hash have the same identity,
    risk, features, limits, analysis and body, unless their canonical
    documents are an explicit SHA-256 collision. *)
Theorem semantic_hash_binding (s t : SkillObject) (b : BuildMetadata) (h : string) :
  with_computed_hash (with_computed_hash s) = with_computed_hash s
  /\ sk_semantic_hash (with_computed_hash (set_build (set_semantic_hash s h) b))
     = sk_semantic_hash (with_computed_hash s)
  /\ (sk_semantic_hash (with_computed_hash s) = sk_semantic_hash (with_computed_hash t) ->
      same_semantics s t
      \/ (canonical_json (skill_to_data s false false)
            <> canonical_json (skill_to_data t false false)
          /\ sha256_ref (canonical_json (skill_to_data s false false))
             = sha256_ref (canonical_json (skill_to_data t false false)))).
Proof.
  split; [reflexivity |]. split; [reflexivity |]. intros H.
  destruct (decide (canonical_json (skill_to_data s false false)
                    = canonical_json (skill_to_data t false false))) as [E|E].
  - left. by apply skill_data_same, canonical_json_inj.
  - right. by split.
Qed.
