(* ===== verification/NsoSchema.v ===== *)
(** * The schema of NSO documents ([src/nsl/ir_schema.py])

    The validator of Skill documents: exact object shapes, kinds, texts,
    integers and hashes with the path of the first offence, and the rules that
    link the WRITEs of an IR 1.1 document to their approvals and tools. *)

From S2P Require Import Prelude Digest Json JsonBoundary Decimal Core Decoding Values.
From S2P Require Import DataProtection.

(** The [repr] of a list of texts. *)
Definition repr_list (l : list string) : string := "[" +:+ join ", " (map py_repr l) +:+ "]".

(** ** Elementary checks *)

(** [NsoSchemaError(path, reason)] *)
Definition schema_exn (path reason : string) : exn :=
  Exn NsoSchemaError "" ("invalid NSO schema at " +:+ path +:+ ": " +:+ reason).
Definition schema_error {A} (path reason : string) : result A := Err (schema_exn path reason).
Definition schema_if (b : bool) (path reason : string) : result unit :=
  if b then schema_error path reason else Ok tt.

Definition CLASSIFICATIONS : list string := ["PUBLIC"; "INTERNAL"; "CONFIDENTIAL"; "RESTRICTED"].
Definition IR_VERSIONS : list string := ["1.0"; "1.1"].
Definition TOOL_CAPABILITIES : list string := ["READ"; "WRITE"; "TRANSACTION"].
Definition RISK_LEVELS : list string := ["R0"; "R1"; "R2"; "R3"; "R4"; "R5"].

(** [load_nso_json] *)
Definition load_nso_json (i : Interpreter) (data : list ascii) : result json :=
  load_strict_json_within schema_exn i "NSO" data.

(** [a - b] on sets of texts, in the order of [sorted]. *)
Definition sorted_difference (a b : list string) : list string :=
  sort_strings (List.filter (fun k => negb (bool_decide (k ∈ b))) a).

Notation members := (list (string * json)).

(** [_object_with_optional] *)
Definition _object_with_optional (v : json) (path : string) (fields optional : list string)
  : result members :=
  match v with
  | JObj d =>
      let actual := map fst d in
      let missing := sorted_difference fields actual in
      _ ← schema_if (negb (bool_decide (missing = []))) path
            ("missing fields: " +:+ repr_list missing);
      let unexpected := sorted_difference actual (fields ++ optional) in
      _ ← schema_if (negb (bool_decide (unexpected = []))) path
            ("unexpected fields: " +:+ repr_list unexpected);
      Ok d
  | _ => schema_error path "expected object"
  end.

(** [_object] *)
Definition _object (v : json) (path : string) (fields : list string) : result members :=
  _object_with_optional v path fields [].

Definition _array (v : json) (path : string) : result (list json) :=
  match v with JArr l => Ok l | _ => schema_error path "expected array" end.

(** [_string(value, path, allow_empty=...)] *)
Definition string_at (v : json) (path : string) (allow_empty : bool) : result string :=
  match v with
  | JStr s => _ ← schema_if (String.eqb s "" && negb allow_empty) path "must not be empty"; Ok s
  | _ => schema_error path "expected string"
  end.

Definition _string (v : json) (path : string) : result string := string_at v path false.

Definition plain_string (v : json) (path : string) : result unit := _ ← _string v path; Ok tt.

Definition _integer (v : json) (path : string) (minimum : Z) : result Z :=
  match v with
  | JInt z => _ ← schema_if (z <? minimum)%Z path ("must be at least " +:+ str_of_Z minimum); Ok z
  | _ => schema_error path "expected integer"
  end.

Definition at_least (minimum : Z) (v : json) (path : string) : result Z := _integer v path minimum.

Definition _boolean (v : json) (path : string) : result bool :=
  match v with JBool b => Ok b | _ => schema_error path "expected boolean" end.

Definition _sha256 (v : json) (path : string) : result string :=
  digest ← _string v path;
  _ ← schema_if (negb (is_sha256_ref digest)) path "expected lowercase sha256 digest";
  Ok digest.

Definition _choice (v : json) (path : string) (choices : list string) : result string :=
  item ← _string v path;
  _ ← schema_if (negb (bool_decide (item ∈ choices))) path
        ("expected one of: " +:+ repr_list (sort_strings choices));
  Ok item.

Definition _currency (v : json) (path : string) : result string :=
  currency ← _string v path;
  _ ← schema_if (negb ((String.length currency =? 3) && string_forallb is_upper currency)) path
        "expected 3-letter uppercase currency code";
  Ok currency.

Definition _finite_decimal (v : json) (path : string) : result string :=
  encoded ← _string v path;
  match dec_of_string encoded with
  | Err e => if isinstance_exn (ex_class e) InvalidOperation
             then schema_error path "expected decimal string" else Err e
  | Ok d => _ ← schema_if (negb (is_finite d)) path "expected finite decimal string"; Ok encoded
  end.

(** [_constant] with a text, and with [True]. *)
Definition _constant (v : json) (expected path : string) : result unit :=
  schema_if (match v with JStr s => negb (String.eqb s expected) | _ => true end) path
    ("expected " +:+ py_repr expected).

Definition constant_true (v : json) (path : string) : result unit :=
  schema_if (match v with JBool true | JInt 1 => false | _ => true end) path "expected True".

(** [for index, item in enumerate(l): f(item, f"{path}[{index}]")] *)
Definition at_index (path : string) (index : nat) : string :=
  path +:+ "[" +:+ str_of_nat index +:+ "]".

Fixpoint each_at (f : json -> string -> result unit) (path : string) (index : nat)
    (l : list json) : result unit :=
  match l with
  | [] => Ok tt
  | item :: l => _ ← f item (at_index path index); each_at f path (S index) l
  end.

(** [for name in names: check(item[name], f"{path}.{name}")] *)
Definition each_field {A} (check : json -> string -> result A) (item : members) (path : string)
    (names : list string) : result unit :=
  each (fun name => _ ← check (field_of name item) (path +:+ "." +:+ name); Ok tt) names.

(** [_array(item[name], f"{path}.{name}")] and the loop over it. *)
Definition each_item (f : json -> string -> result unit) (item : members) (path name : string)
  : result unit :=
  let path := path +:+ "." +:+ name in
  l ← _array (field_of name item) path; each_at f path 0 l.

Definition too_deep {A} : result A := raise RecursionError "maximum recursion depth exceeded".

(** ** Types *)

Definition type_fields (kind : string) : option (list string) :=
  assoc kind [("primitive", ["kind"; "name"]); ("domain", ["kind"; "name"]);
              ("money", ["kind"; "currency"]); ("list", ["kind"; "item"]);
              ("record", ["kind"; "name"; "fields"]); ("enum", ["kind"; "name"; "values"])].

(** One of the [fields] of a record type. *)
Definition validate_type_field (validate : json -> string -> result unit) (v : json)
    (path : string) : result unit :=
  field ← _object v path ["name"; "type"];
  _ ← each_field _string field path ["name"];
  validate (field_of "type" field) (path +:+ ".type").

Fixpoint _validate_type_fuel (fuel : nat) (v : json) (path : string) : result unit :=
  match fuel with
  | O => too_deep
  | S fuel =>
      match v with
      | JObj d =>
          let kind_path := path +:+ ".kind" in
          kind ← _string (field_of "kind" d) kind_path;
          match type_fields kind with
          | None => schema_error kind_path ("unknown type kind: " +:+ kind)
          | Some fields =>
              item ← _object v path fields;
              if bool_decide (kind ∈ ["primitive"; "domain"]) then
                each_field _string item path ["name"]
              else if String.eqb kind "money" then each_field _currency item path ["currency"]
              else if String.eqb kind "list" then
                _validate_type_fuel fuel (field_of "item" item) (path +:+ ".item")
              else if String.eqb kind "record" then
                _ ← each_field _string item path ["name"];
                each_item (validate_type_field (_validate_type_fuel fuel)) item path "fields"
              else
                _ ← each_field _string item path ["name"];
                each_item plain_string item path "values"
          end
      | _ => schema_error path "expected type object"
      end
  end.

Definition _validate_type (v : json) (path : string) : result unit :=
  _validate_type_fuel (json_depth v) v path.

(** [validate_type_document] *)
Definition validate_type_document (v : json) (path : string) : result unit := _validate_type v path.

(** ** Literals and expressions *)

Definition _validate_literal_value (v : json) (path : string) : result unit :=
  match v with
  | JBool _ | JInt _ | JStr _ => Ok tt
  | JObj d =>
      let tag := default "" (tag_of d) in
      if String.eqb tag "Decimal" then
        item ← _object v path ["$type"; "value"];
        each_field _finite_decimal item path ["value"]
      else if String.eqb tag "Money" then
        item ← _object v path ["$type"; "amount"; "currency"];
        _ ← each_field _finite_decimal item path ["amount"];
        each_field _currency item path ["currency"]
      else schema_error path "unknown encoded literal value"
  | _ => schema_error path "expected immutable literal value"
  end.

Definition expression_fields (ir_version kind : string) : option (list string) :=
  let common := ["node_id"; "kind"; "type"] in
  (fun fields => common ++ fields) <$>
    assoc kind ([("literal", ["value"]); ("symbol_ref", ["symbol_id"]);
                 ("field", ["source"; "field"]); ("project", ["source"; "field"]);
                 ("call", ["function"; "arguments"]); ("binary", ["operator"; "left"; "right"]);
                 ("read", ["tool_ref"; "arguments"; "result_policy"])]
                ++ if String.eqb ir_version "1.1"
                   then [("write", ["tool_ref"; "approval_ref"; "arguments"])] else []).

Section Expressions.
Context (ir_version : string).

(** [{"name": ..., "value": ...}] *)
Definition validate_named (validate : json -> string -> result unit) (v : json) (path : string)
  : result unit :=
  item ← _object v path ["name"; "value"];
  _ ← each_field _string item path ["name"];
  validate (field_of "value" item) (path +:+ ".value").

Fixpoint _validate_expression_fuel (fuel : nat) (v : json) (path : string) : result unit :=
  match fuel with
  | O => too_deep
  | S fuel =>
      match v with
      | JObj d =>
          let kind_path := path +:+ ".kind" in
          kind ← _string (field_of "kind" d) kind_path;
          match expression_fields ir_version kind with
          | None => schema_error kind_path ("unknown expression kind: " +:+ kind)
          | Some fields =>
              item ← _object v path fields;
              _ ← each_field _string item path ["node_id"];
              _ ← each_field _validate_type item path ["type"];
              if String.eqb kind "literal" then each_field _validate_literal_value item path ["value"]
              else if String.eqb kind "symbol_ref" then each_field _string item path ["symbol_id"]
              else if bool_decide (kind ∈ ["field"; "project"]) then
                _ ← each_field (_validate_expression_fuel fuel) item path ["source"];
                each_field _string item path ["field"]
              else if String.eqb kind "call" then
                _ ← each_field _string item path ["function"];
                each_item (_validate_expression_fuel fuel) item path "arguments"
              else if String.eqb kind "binary" then
                _ ← each_field _string item path ["operator"];
                each_field (_validate_expression_fuel fuel) item path ["left"; "right"]
              else
                _ ← each_field _string item path ["tool_ref"];
                _ ← (if String.eqb kind "write" then each_field _string item path ["approval_ref"]
                     else Ok tt);
                _ ← each_item (validate_named (_validate_expression_fuel fuel)) item path "arguments";
                if String.eqb kind "write" then Ok tt
                else
                  let policy_path := path +:+ ".result_policy" in
                  let flags := ["required"; "accept_partial"; "empty_is_valid"] in
                  policy ← _object (field_of "result_policy" item) policy_path flags;
                  each_field _boolean policy policy_path flags
          end
      | _ => schema_error path "expected expression object"
      end
  end.

Definition _validate_expression (v : json) (path : string) : result unit :=
  _validate_expression_fuel (json_depth v) v path.

(** ** Statements *)

Definition statement_fields (kind : string) : option (list string) :=
  assoc kind ([("let", ["node_id"; "kind"; "target_symbol_id"; "value"]);
               ("foreach", ["node_id"; "kind"; "iterator_symbol_id"; "collection";
                            "max_iterations"; "body"]);
               ("check", ["node_id"; "kind"; "check_id"; "condition"; "severity"; "on_fail";
                          "message"; "result_symbol_id"; "data_policy"]);
               ("emit", ["node_id"; "kind"; "fields"])]
              ++ if String.eqb ir_version "1.1"
                 then [("approval", ["node_id"; "kind"; "approval_id"; "message"; "policy"])]
                 else []).

Definition validate_data_policy (v : json) (path : string) : result unit :=
  policy ← _object v path ["require_complete"; "on_partial"; "on_unknown"];
  _ ← each_field _boolean policy path ["require_complete"];
  _ ← _constant (field_of "on_partial" policy) "UNKNOWN" (path +:+ ".on_partial");
  _constant (field_of "on_unknown" policy) "UNKNOWN" (path +:+ ".on_unknown").

Definition validate_approval_policy (v : json) (path : string) : result unit :=
  policy ← _object_with_optional v path ["required"] ["ttl_seconds"];
  _ ← each_field _boolean policy path ["required"];
  _ ← constant_true (field_of "required" policy) (path +:+ ".required");
  match assoc "ttl_seconds" policy with
  | Some ttl => _ ← _integer ttl (path +:+ ".ttl_seconds") 1; Ok tt
  | None => Ok tt
  end.

Definition message_at (v : json) (path : string) : result string := string_at v path true.

Fixpoint _validate_statement_fuel (fuel : nat) (v : json) (path : string) : result unit :=
  match fuel with
  | O => too_deep
  | S fuel =>
      match v with
      | JObj d =>
          let kind_path := path +:+ ".kind" in
          kind ← _string (field_of "kind" d) kind_path;
          match statement_fields kind with
          | None => schema_error kind_path ("unknown statement kind: " +:+ kind)
          | Some fields =>
              item ← _object v path fields;
              _ ← each_field _string item path ["node_id"];
              if String.eqb kind "let" then
                _ ← each_field _string item path ["target_symbol_id"];
                each_field _validate_expression item path ["value"]
              else if String.eqb kind "foreach" then
                _ ← each_field _string item path ["iterator_symbol_id"];
                _ ← each_field _validate_expression item path ["collection"];
                _ ← each_field (at_least 1) item path ["max_iterations"];
                each_item (_validate_statement_fuel fuel) item path "body"
              else if String.eqb kind "check" then
                _ ← each_field _string item path
                      ["check_id"; "severity"; "on_fail"; "result_symbol_id"];
                _ ← each_field message_at item path ["message"];
                _ ← each_field _validate_expression item path ["condition"];
                each_field validate_data_policy item path ["data_policy"]
              else if String.eqb kind "emit" then
                each_item (validate_named _validate_expression) item path "fields"
              else
                _ ← each_field _string item path ["approval_id"];
                _ ← each_field message_at item path ["message"];
                each_field validate_approval_policy item path ["policy"]
          end
      | _ => schema_error path "expected statement object"
      end
  end.

Definition _validate_statement (v : json) (path : string) : result unit :=
  _validate_statement_fuel (json_depth v) v path.
End Expressions.

(** ** Links between WRITEs, approvals and tools

    These functions run on documents whose shape was validated, so the fields
    they read are there. *)

Definition text_at (name : string) (d : members) : string :=
  match assoc name d with Some (JStr s) => s | _ => "" end.

Definition list_at (name : string) (d : members) : list json :=
  match assoc name d with Some (JArr l) => l | _ => [] end.

Definition object_of (v : json) : members := match v with JObj d => d | _ => [] end.

(** The tuples of [writes]: path, approval, tool, order, inside a FOREACH. *)
Record write_link : Type := MkWriteLink {
  wl_path : string;
  wl_approval_ref : string;
  wl_tool_ref : string;
  wl_order : Z;
  wl_inside_foreach : bool
}.

(** [enumerate(l)] with its paths. *)
Definition enumerated {A} (path : string) (l : list A) : list (string * A) :=
  map (fun ix => (at_index path ix.1, ix.2)) (combine (seq 0 (length l)) l).

(** [_collect_write_links]: the links it appends to [writes]. *)
Fixpoint _collect_write_links (fuel : nat) (v : json) (path : string) (order : Z)
    (inside_foreach : bool) : list write_link :=
  match fuel with
  | O => []
  | S fuel =>
      let expression := object_of v in
      let kind := text_at "kind" expression in
      let descend path v := _collect_write_links fuel v path order inside_foreach in
      (if String.eqb kind "write"
       then [MkWriteLink path (text_at "approval_ref" expression) (text_at "tool_ref" expression)
               order inside_foreach] else [])
      ++ if bool_decide (kind ∈ ["field"; "project"]) then
           descend (path +:+ ".source") (field_of "source" expression)
         else if String.eqb kind "call" then
           flat_map (fun pv => descend pv.1 pv.2)
             (enumerated (path +:+ ".arguments") (list_at "arguments" expression))
         else if String.eqb kind "binary" then
           descend (path +:+ ".left") (field_of "left" expression)
           ++ descend (path +:+ ".right") (field_of "right" expression)
         else if bool_decide (kind ∈ ["read"; "write"]) then
           flat_map (fun pv => descend (pv.1 +:+ ".value") (field_of "value" (object_of pv.2)))
             (enumerated (path +:+ ".arguments") (list_at "arguments" expression))
         else []
  end.

Definition write_links (v : json) (path : string) (order : Z) (inside_foreach : bool)
  : list write_link := _collect_write_links (json_depth v) v path order inside_foreach.

(** [counter], [approvals] and [writes]. *)
Record links : Type := MkLinks {
  lk_counter : Z;
  lk_approvals : list (string * (string * Z));
  lk_writes : list write_link
}.

Definition add_writes (new : list write_link) (k : links) : links :=
  MkLinks (lk_counter k) (lk_approvals k) (lk_writes k ++ new).

(** One statement of [_collect_ir_1_1_links]; [collect_body] is the call for a
    FOREACH body. *)
Definition collect_statement (collect_body : list json -> string -> links -> result links)
    (inside_foreach : bool) (v : json) (path : string) (k : links) : result links :=
  let statement := object_of v in
  let kind := text_at "kind" statement in
  let order := (lk_counter k + 1)%Z in
  let k := MkLinks order (lk_approvals k) (lk_writes k) in
  let writes name := write_links (field_of name statement) (path +:+ "." +:+ name) order
                       inside_foreach in
  if String.eqb kind "approval" then
    let approval_id := text_at "approval_id" statement in
    _ ← schema_if (bool_decide (is_Some (assoc approval_id (lk_approvals k))))
          (path +:+ ".approval_id") "duplicate approval_id";
    Ok (MkLinks order (lk_approvals k ++ [(approval_id, (path, order))]) (lk_writes k))
  else if String.eqb kind "let" then Ok (add_writes (writes "value") k)
  else if String.eqb kind "foreach" then
    collect_body (list_at "body" statement) (path +:+ ".body") (add_writes (writes "collection") k)
  else if String.eqb kind "check" then Ok (add_writes (writes "condition") k)
  else if String.eqb kind "emit" then
    Ok (add_writes (flat_map (fun pv =>
          write_links (field_of "value" (object_of pv.2)) (pv.1 +:+ ".value") order inside_foreach)
        (enumerated (path +:+ ".fields") (list_at "fields" statement))) k)
  else Ok k.

(** [_collect_ir_1_1_links] *)
Fixpoint _collect_ir_1_1_links (fuel : nat) (inside_foreach : bool)
    (statements : list json) (path : string) (k : links) : result links :=
  match fuel with
  | O => too_deep
  | S fuel =>
      fold_left (fun acc pv =>
          k ← acc;
          collect_statement (_collect_ir_1_1_links fuel true) inside_foreach pv.2 pv.1 k)
        (enumerated path statements) (Ok k)
  end.

(** The loop over [requires]: [tools] by reference, with their capability. *)
Definition collect_tool (acc : result (list (string * string))) (pv : string * json)
  : result (list (string * string)) :=
  tools ← acc;
  let tool_ref := text_at "tool_ref" (object_of pv.2) in
  _ ← schema_if (bool_decide (is_Some (assoc tool_ref tools))) (pv.1 +:+ ".tool_ref")
        "duplicate tool_ref";
  Ok (tools ++ [(tool_ref, text_at "capability" (object_of pv.2))]).

Definition collect_tools (requires : list json) : result (list (string * string)) :=
  fold_left collect_tool (enumerated "$.requires" requires) (Ok []).

(** The checks on one WRITE. *)
Definition check_write (tools : list (string * string)) (approvals : list (string * (string * Z)))
    (w : write_link) : result unit :=
  let approval_path := wl_path w +:+ ".approval_ref" in
  let tool_path := wl_path w +:+ ".tool_ref" in
  _ ← schema_if (wl_inside_foreach w) (wl_path w) "WRITE must not be nested inside foreach";
  match assoc (wl_approval_ref w) approvals with
  | None => schema_error approval_path "must reference a declared approval_id"
  | Some (_, approved_at) =>
      _ ← schema_if (wl_order w <=? approved_at)%Z approval_path "approval must occur before WRITE";
      match assoc (wl_tool_ref w) tools with
      | None => schema_error tool_path "must reference a required tool"
      | Some capability =>
          schema_if (negb (String.eqb capability "WRITE")) tool_path
            "must reference a WRITE capability tool"
      end
  end.

(** [approval_use.get(approval_id, 0)] *)
Definition approval_uses (writes : list write_link) (approval_id : string) : nat :=
  length (List.filter (fun w => String.eqb (wl_approval_ref w) approval_id) writes).

(** [_validate_ir_1_1_links] *)
Definition _validate_ir_1_1_links (root : members) : result unit :=
  tools ← collect_tools (list_at "requires" root);
  k ← _collect_ir_1_1_links (json_depth (field_of "body" root)) false (list_at "body" root)
        "$.body" (MkLinks 0 [] []);
  let writes := lk_writes k in
  _ ← match writes with
      | _ :: second :: _ =>
          schema_if (String.eqb (text_at "semantics_profile" root) "NSL-0.2-STRICT")
            (wl_path second) "strict profile allows at most one WRITE"
      | _ => Ok tt
      end;
  _ ← each (check_write tools (lk_approvals k)) writes;
  each (fun a : string * (string * Z) =>
      schema_if (negb (approval_uses writes a.1 =? 1)) (a.2.1 +:+ ".approval_id")
        "approval must be linked to exactly one WRITE") (lk_approvals k).

(** ** Documents *)

Definition root_fields : list string :=
  ["format"; "ir_version"; "language"; "skill"; "semantics_profile"; "features"; "symbols";
   "requires"; "limits"; "inputs"; "contexts"; "output"; "body"; "analysis"; "hashes"; "build"].

Definition risk_level_at (v : json) (path : string) : result string := _choice v path RISK_LEVELS.

Definition classification_at (v : json) (path : string) : result string :=
  _choice v path CLASSIFICATIONS.

Definition validate_symbol (v : json) (path : string) : result unit :=
  symbol ← _object v path ["symbol_id"; "name"; "category"; "type"; "classification"];
  _ ← each_field _string symbol path ["symbol_id"; "name"; "category"];
  _ ← each_field classification_at symbol path ["classification"];
  each_field _validate_type symbol path ["type"].

Definition required_tool_fields (ir_version : string) : list string :=
  ["tool_ref"; "tool_id"; "version"; "capability"; "contract_hash"; "required_scope";
   "output_classification"] ++ if String.eqb ir_version "1.1" then ["risk_level"] else [].

Definition validate_required (ir_version : string) (v : json) (path : string) : result unit :=
  required ← _object v path (required_tool_fields ir_version);
  _ ← each_field _string required path ["tool_ref"; "tool_id"; "version"; "required_scope"];
  capability ← _choice (field_of "capability" required) (path +:+ ".capability") TOOL_CAPABILITIES;
  _ ← schema_if (String.eqb ir_version "1.0" && negb (String.eqb capability "READ"))
        (path +:+ ".capability") "IR 1.0 supports READ capability only";
  _ ← (if String.eqb ir_version "1.1" then
         each_field risk_level_at required path ["risk_level"]
       else Ok tt);
  _ ← each_field classification_at required path ["output_classification"];
  each_field _sha256 required path ["contract_hash"].

Definition limit_fields : list string :=
  ["tool_calls"; "loop_iterations"; "emitted_rows"; "collection_size"; "duration_ms"].

Definition validate_input (v : json) (path : string) : result unit :=
  input ← _object v path ["symbol_id"; "name"; "type"; "required"; "classification"];
  _ ← each_field _string input path ["symbol_id"; "name"];
  _ ← each_field classification_at input path ["classification"];
  _ ← each_field _validate_type input path ["type"];
  each_field _boolean input path ["required"].

Definition validate_context (v : json) (path : string) : result unit :=
  context ← _object v path ["symbol_id"; "name"; "type"; "path"; "classification"];
  _ ← each_field _string context path ["symbol_id"; "name"];
  _ ← each_field classification_at context path ["classification"];
  _ ← each_field _validate_type context path ["type"];
  each_item plain_string context path "path".

Definition validate_output (v : json) (path : string) : result unit :=
  output ← _object v path ["name"; "type"; "classification"];
  _ ← each_field _string output path ["name"];
  _ ← each_field _validate_type output path ["type"];
  each_field classification_at output path ["classification"].

Definition validate_limits (v : json) : result unit :=
  limits ← _object v "$.limits" limit_fields;
  each_field (at_least 1) limits "$.limits" limit_fields.

Definition validate_analysis (v : json) : result unit :=
  analysis ← _object v "$.analysis"
               ["max_tool_calls"; "max_loop_iterations"; "max_emit_records"; "bounded"];
  _ ← each_field (at_least 0) analysis "$.analysis"
        ["max_tool_calls"; "max_loop_iterations"; "max_emit_records"];
  each_field _boolean analysis "$.analysis" ["bounded"].

Definition validate_hashes (v : json) : result unit :=
  let fields := ["source_bundle_sha256"; "semantic_sha256"] in
  hashes ← _object v "$.hashes" fields;
  each_field _sha256 hashes "$.hashes" fields.

(** The loop over the sources, with the paths seen and the roots counted. *)
Fixpoint validate_sources (index : nat) (seen : list string) (roots : nat) (l : list json)
  : result nat :=
  match l with
  | [] => Ok roots
  | source :: l =>
      let path := at_index "$.build.sources" index in
      source ← _object source path ["logical_path"; "sha256"; "size_bytes"; "is_root"];
      logical_path ← _string (field_of "logical_path" source) (path +:+ ".logical_path");
      _ ← schema_if (bool_decide (logical_path ∈ seen)) (path +:+ ".logical_path")
            "duplicate source logical path";
      _ ← each_field _sha256 source path ["sha256"];
      _ ← each_field (at_least 0) source path ["size_bytes"];
      is_root ← _boolean (field_of "is_root" source) (path +:+ ".is_root");
      validate_sources (S index) (seen ++ [logical_path])
        (if is_root : bool then S roots else roots) l
  end.

(** [source["is_root"]] of a validated source. *)
Definition is_root_source (v : json) : bool :=
  match field_of "is_root" (object_of v) with JBool b => b | _ => false end.

Definition validate_build (v : json) : result unit :=
  build ← _object v "$.build" ["source_bundle_sha256"; "root_source"; "sources"];
  _ ← each_field _sha256 build "$.build" ["source_bundle_sha256"];
  root_source ← _string (field_of "root_source" build) "$.build.root_source";
  sources ← _array (field_of "sources" build) "$.build.sources";
  _ ← schema_if (bool_decide (sources = [])) "$.build.sources" "must not be empty";
  roots ← validate_sources 0 [] 0 sources;
  _ ← schema_if (negb (roots =? 1)) "$.build.sources" "must contain exactly one root";
  match find is_root_source sources with
  | Some root => schema_if (negb (String.eqb (text_at "logical_path" (object_of root)) root_source))
                   "$.build.root_source" "must identify the root manifest entry"
  | None => schema_error "$.build.sources" "must contain exactly one root"
  end.

(** [validate_nso_document] *)
Definition validate_nso_document (v : json) : result unit :=
  root ← _object v "$" root_fields;
  _ ← _constant (field_of "format" root) "NSO" "$.format";
  ir_version ← _choice (field_of "ir_version" root) "$.ir_version" IR_VERSIONS;
  language ← _object (field_of "language" root) "$.language" ["name"; "version"];
  _ ← _constant (field_of "name" language) "NSL" "$.language.name";
  _ ← each_field _string language "$.language" ["version"];
  skill ← _object (field_of "skill" root) "$.skill" ["id"; "version"; "risk"];
  _ ← each_field _string skill "$.skill" ["id"; "version"; "risk"];
  _ ← each_field _string root "$" ["semantics_profile"];
  _ ← each_item plain_string root "$" "features";
  _ ← each_item validate_symbol root "$" "symbols";
  _ ← each_item (validate_required ir_version) root "$" "requires";
  _ ← validate_limits (field_of "limits" root);
  _ ← each_item validate_input root "$" "inputs";
  _ ← each_item validate_context root "$" "contexts";
  _ ← each_item validate_output root "$" "output";
  _ ← each_item (_validate_statement ir_version) root "$" "body";
  _ ← (if String.eqb ir_version "1.1" then _validate_ir_1_1_links root else Ok tt);
  _ ← validate_analysis (field_of "analysis" root);
  _ ← validate_hashes (field_of "hashes" root);
  validate_build (field_of "build" root).
