(* ===== verification/NsoCodec.v ===== *)
(** * The NSO codec ([src/nsl/ir.py], [src/nsl/integrity.py])

    A Skill object is written as canonical JSON after a credential check and
    the schema validation, and read back after both, with the hash of the
    source bundle and the semantic hash recomputed. *)

From S2P Require Import Prelude Digest Json JsonBoundary Decimal Core Decoding Values.
From S2P Require Import DataProtection Ir NsoSchema.

(** ** [source_manifest_sha256] *)

Definition manifest_item (i : BuildSource) : json :=
  JObj [("logical_path", JStr (bs_logical_path i)); ("sha256", JStr (bs_content_hash i));
        ("size_bytes", JInt (bs_size_bytes i)); ("is_root", JBool (bs_is_root i))].

Definition source_manifest (entries : list BuildSource) : json :=
  JArr (map manifest_item entries).

Definition source_manifest_sha256 (entries : list BuildSource) : string :=
  sha256_ref (canonical_json (source_manifest entries)).

(** ** Encoding *)

(** [NsoCodec.encode] *)
Definition nso_encode (skill : SkillObject) : result (list ascii) :=
  let payload := skill_to_data skill true true in
  _ ← ensure_no_credential_material (value_of_json payload) ".nso";
  _ ← validate_nso_document payload;
  Ok (canonical_json payload).

(** ** Decoding

    The document was validated: the fields are there and have their kinds. *)

Definition flag_at (name : string) (d : members) : bool :=
  match assoc name d with Some (JBool b) => b | _ => false end.

Definition int_at (name : string) (d : members) : Z :=
  match assoc name d with Some (JInt z) => z | _ => 0%Z end.

Definition object_at (name : string) (d : members) : members := object_of (field_of name d).

Definition type_at (d : members) : result TypeRef := type_from_data (field_of "type" d).

(** [Enum(text)] *)
Definition enum_at {A} (cls : string) (value_of : A -> string) (choices : list A) (name : string)
    (d : members) : result A :=
  let text := text_at name d in
  match find (fun c => String.eqb (value_of c) text) choices with
  | Some c => Ok c
  | None => raise ValueError (py_repr text +:+ " is not a valid " +:+ cls)
  end.

Definition classification_of (name : string) (d : members) : result DataClassification :=
  enum_at "DataClassification" classification_value [PUBLIC; INTERNAL; CONFIDENTIAL; RESTRICTED] name d.

Definition risk_of (d : members) : result RiskLevel :=
  enum_at "RiskLevel" risk_value [R0; R1; R2; R3; R4; R5] "risk_level" d.

Definition policy_of (d : members) : ResultPolicy :=
  MkResultPolicy (flag_at "required" d) (flag_at "accept_partial" d) (flag_at "empty_is_valid" d).

(** [_expr_from_data] *)
Fixpoint expr_from_data_fuel (fuel : nat) (v : json) : result Expression :=
  match fuel with
  | O => too_deep
  | S fuel =>
      let data := object_of v in
      let kind := text_at "kind" data in
      let node_id := text_at "node_id" data in
      let sub name := expr_from_data_fuel fuel (field_of name data) in
      let named := map_result (fun item =>
        let item := object_of item in
        e ← expr_from_data_fuel fuel (field_of "value" item); Ok (text_at "name" item, e))
        (list_at "arguments" data) in
      t ← type_at data;
      if String.eqb kind "literal" then
        x ← decode_value (field_of "value" data); Ok (LiteralExpr node_id x t)
      else if String.eqb kind "symbol_ref" then
        Ok (SymbolRefExpr node_id (text_at "symbol_id" data) t)
      else if String.eqb kind "field" then
        source ← sub "source"; Ok (FieldExpr node_id source (text_at "field" data) t)
      else if String.eqb kind "project" then
        source ← sub "source"; Ok (ProjectionExpr node_id source (text_at "field" data) t)
      else if String.eqb kind "call" then
        arguments ← map_result (expr_from_data_fuel fuel) (list_at "arguments" data);
        Ok (CallExpr node_id (text_at "function" data) arguments t)
      else if String.eqb kind "binary" then
        left ← sub "left"; right ← sub "right";
        Ok (BinaryExpr node_id (text_at "operator" data) left right t)
      else if String.eqb kind "read" then
        arguments ← named;
        Ok (ReadExpr node_id (text_at "tool_ref" data) arguments t
              (policy_of (object_at "result_policy" data)))
      else if String.eqb kind "write" then
        arguments ← named;
        w ← new_WriteExpression node_id (text_at "tool_ref" data) arguments
              (text_at "approval_ref" data) t;
        Ok (write_expr w)
      else raise ValueError ("unknown expression kind: " +:+ kind)
  end.

Definition _expr_from_data (v : json) : result Expression := expr_from_data_fuel (json_depth v) v.

(** [ApprovalPolicy] called with the members of the policy. *)
Definition approval_policy_of (d : members) : result ApprovalPolicy :=
  new_ApprovalPolicy (flag_at "required" d)
    match assoc "ttl_seconds" d with Some (JInt z) => Some z | _ => None end.

Definition new_ApprovalStatement (s : ApprovalStatement) : result ApprovalStatement :=
  _ ← ApprovalStatement_post_init s; Ok s.

(** [_statement_from_data] *)
Fixpoint statement_from_data_fuel (fuel : nat) (v : json) : result Statement :=
  match fuel with
  | O => too_deep
  | S fuel =>
      let data := object_of v in
      let kind := text_at "kind" data in
      let node_id := text_at "node_id" data in
      let expr name := _expr_from_data (field_of name data) in
      if String.eqb kind "let" then
        e ← expr "value"; Ok (LetStatement node_id (text_at "target_symbol_id" data) e)
      else if String.eqb kind "foreach" then
        collection ← expr "collection";
        body ← map_result (statement_from_data_fuel fuel) (list_at "body" data);
        Ok (ForeachStatement node_id (text_at "iterator_symbol_id" data) collection
              (int_at "max_iterations" data) body)
      else if String.eqb kind "check" then
        condition ← expr "condition";
        Ok (CheckStmt (MkCheckStatement node_id (text_at "check_id" data) condition
              (text_at "severity" data) (text_at "on_fail" data) (text_at "message" data)
              (text_at "result_symbol_id" data)))
      else if String.eqb kind "emit" then
        fields ← map_result (fun item =>
          let item := object_of item in
          e ← _expr_from_data (field_of "value" item); Ok (text_at "name" item, e))
          (list_at "fields" data);
        Ok (EmitStatement node_id fields)
      else if String.eqb kind "approval" then
        policy ← approval_policy_of (object_at "policy" data);
        a ← new_ApprovalStatement (MkApprovalStatement node_id (text_at "approval_id" data)
              (text_at "message" data) policy);
        Ok (ApprovalStmt a)
      else raise ValueError ("unknown statement kind: " +:+ kind)
  end.

Definition _statement_from_data (v : json) : result Statement :=
  statement_from_data_fuel (json_depth v) v.

(** The parts of [NsoCodec.decode]. *)
Definition symbol_from_data (v : json) : result SymbolSpec :=
  let d := object_of v in
  t ← type_at d; c ← classification_of "classification" d;
  Ok (MkSymbolSpec (text_at "symbol_id" d) (text_at "name" d) (text_at "category" d) t c).

Definition required_from_data (v : json) : result RequiredTool :=
  let d := object_of v in
  c ← classification_of "output_classification" d;
  risk ← (match assoc "risk_level" d with
          | Some _ => r ← risk_of d; Ok (Some r)
          | None => Ok None
          end);
  new_RequiredTool (text_at "tool_ref" d) (text_at "tool_id" d) (text_at "version" d)
    (text_at "capability" d) (text_at "contract_hash" d) (text_at "required_scope" d) c risk.

Definition limits_from_data (d : members) : ResourceLimits :=
  MkResourceLimits (int_at "tool_calls" d) (int_at "loop_iterations" d) (int_at "emitted_rows" d)
    (int_at "collection_size" d) (int_at "duration_ms" d).

Definition input_from_data (v : json) : result InputSpec :=
  let d := object_of v in
  t ← type_at d; c ← classification_of "classification" d;
  Ok (MkInputSpec (text_at "symbol_id" d) (text_at "name" d) t (flag_at "required" d) c).

Definition text_of (v : json) : string := match v with JStr s => s | _ => "" end.

Definition context_from_data (v : json) : result ContextSpec :=
  let d := object_of v in
  t ← type_at d; c ← classification_of "classification" d;
  Ok (MkContextSpec (text_at "symbol_id" d) (text_at "name" d) t (map text_of (list_at "path" d)) c).

Definition output_from_data (v : json) : result OutputField :=
  let d := object_of v in
  t ← type_at d; c ← classification_of "classification" d;
  Ok (MkOutputField (text_at "name" d) t c).

Definition analysis_from_data (d : members) : StaticAnalysis :=
  MkStaticAnalysis (int_at "max_tool_calls" d) (int_at "max_loop_iterations" d)
    (int_at "max_emit_records" d) (flag_at "bounded" d).

Definition source_from_data (v : json) : BuildSource :=
  let d := object_of v in
  MkBuildSource (text_at "logical_path" d) (text_at "sha256" d) (int_at "size_bytes" d)
    (flag_at "is_root" d).

Definition build_from_data (d : members) : BuildMetadata :=
  MkBuildMetadata (text_at "source_bundle_sha256" d) (text_at "root_source" d)
    (map source_from_data (list_at "sources" d)).

Definition integrity_if (b : bool) (message : string) : result unit :=
  raise_if b NsoIntegrityError message.

(** The document, read after its validation. *)
Definition skill_from_data (raw : members) : result SkillObject :=
  symbols ← map_result symbol_from_data (list_at "symbols" raw);
  requires ← map_result required_from_data (list_at "requires" raw);
  inputs ← map_result input_from_data (list_at "inputs" raw);
  contexts ← map_result context_from_data (list_at "contexts" raw);
  outputs ← map_result output_from_data (list_at "output" raw);
  let build := build_from_data (object_at "build" raw) in
  let hashes := object_at "hashes" raw in
  let source_bundle_hash := text_at "source_bundle_sha256" hashes in
  _ ← integrity_if (negb (String.eqb source_bundle_hash (bm_source_bundle_sha256 build)))
        "source bundle hash differs between hashes and build";
  _ ← integrity_if (negb (String.eqb source_bundle_hash
                            (source_manifest_sha256 (bm_sources build))))
        "source bundle manifest hash mismatch";
  body ← map_result _statement_from_data (list_at "body" raw);
  let skill := object_at "skill" raw in
  let skill := MkSkillObject (text_at "ir_version" raw) (text_at "version" (object_at "language" raw))
    (text_at "id" skill) (text_at "version" skill) (text_at "risk" skill)
    (text_at "semantics_profile" raw) (text_at "semantic_sha256" hashes)
    (list_to_set (map text_of (list_at "features" raw))) symbols requires
    (limits_from_data (object_at "limits" raw)) inputs contexts outputs body
    (analysis_from_data (object_at "analysis" raw)) build in
  _ ← integrity_if (negb (String.eqb (sk_semantic_hash skill)
                                     (sk_semantic_hash (with_computed_hash skill))))
        "semantic hash mismatch";
  Ok skill.

(** [NsoCodec.decode] *)
Definition nso_decode_within (i : Interpreter) (data : list ascii) : result SkillObject :=
  raw ← load_nso_json i data;
  _ ← ensure_no_credential_material (value_of_json raw) ".nso";
  _ ← validate_nso_document raw;
  skill_from_data (object_of raw).

(** As far as the limits of the interpreter are not reached. *)
Definition nso_decode : list ascii -> result SkillObject := nso_decode_within unlimited.
