(* ===== verification/Bounds.v ===== *)
(** * Static resource bounds ([src/nsl/bounds.py])

    The bounds the compiler computes for a Skill: how many tool calls, loop
    iterations and emitted records a run of its statements can make at most.
    [Costs.v] proves that the interpreter stays within them. *)

From S2P Require Import Prelude Digest Json Core DataProtection Ir.
Local Open Scope Z_scope.

(** [_expression_tool_calls] *)
Fixpoint _expression_tool_calls (expression : Expression) : Z :=
  match expression with
  | ReadExpr _ _ arguments _ _ | WriteExpr _ _ arguments _ _ =>
      1 + sum_by (fun a => _expression_tool_calls a.2) arguments
  | FieldExpr _ source _ _ | ProjectionExpr _ source _ _ => _expression_tool_calls source
  | CallExpr _ _ arguments _ => sum_by _expression_tool_calls arguments
  | BinaryExpr _ _ l r _ => _expression_tool_calls l + _expression_tool_calls r
  | LiteralExpr _ _ _ | SymbolRefExpr _ _ _ => 0
  end.

(** Tool calls, loop iterations and emitted records of a block. *)
Record bounds : Type := MkBounds { b_tool_calls : Z; b_loop_iterations : Z; b_emit_records : Z }.

Definition no_bounds : bounds := MkBounds 0 0 0.
Definition add_bounds (a b : bounds) : bounds :=
  MkBounds (b_tool_calls a + b_tool_calls b) (b_loop_iterations a + b_loop_iterations b)
    (b_emit_records a + b_emit_records b).

(** [_analyze_block]: the contribution of one statement, then their sum. *)
Fixpoint analyze_statement (statement : Statement) : result bounds :=
  match statement with
  | LetStatement _ _ v => Ok (MkBounds (_expression_tool_calls v) 0 0)
  | ForeachStatement node_id _ collection max_iterations body =>
      _ ← raise_if (max_iterations <=? 0) UnboundedStructureError
            ("foreach " +:+ node_id +:+ " requires a positive static max");
      b ← (fix block (l : list Statement) : result bounds :=
             match l with
             | [] => Ok no_bounds
             | s :: l => b ← analyze_statement s; rest ← block l; Ok (add_bounds b rest)
             end) body;
      Ok (MkBounds (_expression_tool_calls collection + max_iterations * b_tool_calls b)
            (max_iterations * (1 + b_loop_iterations b)) (max_iterations * b_emit_records b))
  | CheckStmt c => Ok (MkBounds (_expression_tool_calls (cs_condition c)) 0 0)
  | EmitStatement _ fields =>
      Ok (MkBounds (sum_by (fun f => _expression_tool_calls f.2) fields) 0 1)
  | ApprovalStmt _ => Ok no_bounds
  end.

Fixpoint _analyze_block (statements : list Statement) : result bounds :=
  match statements with
  | [] => Ok no_bounds
  | s :: l => b ← analyze_statement s; rest ← _analyze_block l; Ok (add_bounds b rest)
  end.

(** [StaticBoundAnalyzer.analyze] *)
Definition analyze (statements : list Statement) : result StaticAnalysis :=
  b ← _analyze_block statements;
  Ok (MkStaticAnalysis (b_tool_calls b) (b_loop_iterations b) (b_emit_records b) true).

Lemma analyze_foreach node_id it collection m body :
  analyze_statement (ForeachStatement node_id it collection m body)
  = (_ ← raise_if (m <=? 0) UnboundedStructureError
           ("foreach " +:+ node_id +:+ " requires a positive static max")%string;
     b ← _analyze_block body;
     Ok (MkBounds (_expression_tool_calls collection + m * b_tool_calls b)
           (m * (1 + b_loop_iterations b)) (m * b_emit_records b))).
Proof. reflexivity. Qed.

(** The bounds of every block are non-negative. *)
Definition nonneg (b : bounds) : Prop :=
  0 <= b_tool_calls b /\ 0 <= b_loop_iterations b /\ 0 <= b_emit_records b.

Lemma expression_tool_calls_nonneg e : 0 <= _expression_tool_calls e.
Proof.
  induction e as [| | |  |n f args t IH|n o l r t IHl IHr|n tool args t p IH|n tool args a t IH]
    using Expression_rect'; cbn [_expression_tool_calls]; try lia.
  - by apply sum_by_nonneg.
  - assert (0 <= sum_by (fun a => _expression_tool_calls a.2) args); [| lia].
    by apply sum_by_nonneg.
  - assert (0 <= sum_by (fun a => _expression_tool_calls a.2) args); [| lia].
    by apply sum_by_nonneg.
Qed.

Lemma analyze_block_nonneg l :
  Forall (fun s => forall b, analyze_statement s = Ok b -> nonneg b) l ->
  forall b, _analyze_block l = Ok b -> nonneg b.
Proof.
  induction 1 as [|s l Hs _ IH]; intros b H; cbn in H; inv_result; [done |].
  specialize (Hs _ H0). specialize (IH _ H1). unfold nonneg, add_bounds in *. cbn. lia.
Qed.

Lemma analyze_statement_nonneg s b : analyze_statement s = Ok b -> nonneg b.
Proof.
  revert b. induction s as [n target v|n it coll m body IH|c|n fields|a] using Statement_rect';
    intros b H; cbn [analyze_statement] in H.
  - inv_result. split; cbn; [apply expression_tool_calls_nonneg | lia].
  - change (analyze_statement (ForeachStatement n it coll m body) = Ok b) in H.
    rewrite analyze_foreach in H. inv_result.
    destruct (analyze_block_nonneg body IH _ H1) as (H2 & H3 & H4).
    apply Z.leb_gt in H0. pose proof (expression_tool_calls_nonneg coll).
    split; cbn; [nia |]. split; nia.
  - inv_result. split; cbn; [apply expression_tool_calls_nonneg | lia].
  - inv_result. split; cbn; [| lia]. apply sum_by_nonneg.
    apply Forall_forall. intros. apply expression_tool_calls_nonneg.
  - inv_result. done.
Qed.

Lemma block_nonneg l b : _analyze_block l = Ok b -> nonneg b.
Proof.
  apply analyze_block_nonneg, Forall_forall. intros s _ b'. apply analyze_statement_nonneg.
Qed.
