(* ===== verification/Security.v ===== *)
(** * Principals and authorization ([src/nsl/security.py]) *)

From S2P Require Import Prelude Digest Json Core DataProtection Ir.

Inductive PrincipalVerification : Type := UNVERIFIED | P_VERIFIED.

#[export] Instance PrincipalVerification_eq_dec : EqDecision PrincipalVerification.
Proof. solve_decision. Defined.

Record ExecutionPrincipal : Type := MkExecutionPrincipal {
  pr_tenant_id : string;
  pr_subject_id : string;
  pr_actor_type : string;
  pr_roles : gset string;
  pr_scopes : gset string;
  pr_auth_context_ref : string;
  pr_verification : PrincipalVerification;
  pr_on_behalf_of : option string
}.

(** The document checked for credential material. A frozenset has no order of
    its own; the verdict does not depend on the one chosen here. *)
Definition principal_surface (p : ExecutionPrincipal) : value :=
  VDict [("tenant_id", VStr (pr_tenant_id p)); ("subject_id", VStr (pr_subject_id p));
         ("actor_type", VStr (pr_actor_type p));
         ("roles", VTuple (map VStr (elements (pr_roles p))));
         ("scopes", VTuple (map VStr (elements (pr_scopes p))));
         ("auth_context_ref", VStr (pr_auth_context_ref p));
         ("on_behalf_of", match pr_on_behalf_of p with
                          | Some s => VStr s | None => VNone end)].

(** [ExecutionPrincipal.validate] *)
Definition principal_validate (p : ExecutionPrincipal) (require_verified : bool)
  : result unit :=
  _ ← raise_if (negb (non_blank (pr_tenant_id p)) || negb (non_blank (pr_subject_id p)))
        AuthorizationError "tenant_id and subject_id are required";
  _ ← raise_if (negb (bool_decide (pr_actor_type p ∈ ["USER"; "SERVICE"])))
        AuthorizationError "actor_type must be USER or SERVICE";
  _ ← raise_if (negb (non_blank (pr_auth_context_ref p)))
        AuthorizationError "auth_context_ref is required";
  _ ← raise_if (negb (forallb non_blank (elements (pr_roles p))))
        AuthorizationError "roles must be a set of non-empty strings";
  _ ← raise_if (negb (forallb non_blank (elements (pr_scopes p))))
        AuthorizationError "scopes must be a set of non-empty strings";
  _ ← match pr_on_behalf_of p with
      | Some s => raise_if (negb (non_blank s)) AuthorizationError
                    "on_behalf_of must be a non-empty string"
      | None => Ok tt
      end;
  _ ← raise_if (require_verified && negb (bool_decide (pr_verification p = P_VERIFIED)))
        AuthorizationError "verified execution principal is required";
  match ensure_no_credential_material (principal_surface p) "ExecutionPrincipal" with
  | Ok _ => Ok tt
  | Err e => if isinstance_exn (ex_class e) CredentialMaterialError
             then raise AuthorizationError
                    "credential material is forbidden in ExecutionPrincipal"
             else Err e
  end.

Record DataHandlingPolicy : Type := MkDataHandlingPolicy {
  max_trace_classification : DataClassification;
  snapshot_retention_days : Z;
  audit_retention_days : Z
}.

Definition DataHandlingPolicy_post_init (p : DataHandlingPolicy) : result unit :=
  _ ← raise_if (snapshot_retention_days p <=? 0)%Z ValueError
        "snapshot_retention_days must be positive";
  raise_if (audit_retention_days p <=? 0)%Z ValueError
    "audit_retention_days must be positive".

Definition new_DataHandlingPolicy max_trace snapshot audit : result DataHandlingPolicy :=
  let p := MkDataHandlingPolicy max_trace snapshot audit in
  _ ← DataHandlingPolicy_post_init p; Ok p.

Definition default_DataHandlingPolicy : DataHandlingPolicy :=
  MkDataHandlingPolicy INTERNAL 30 90.

Record AuthorizationDecision : Type := MkAuthorizationDecision {
  az_decision_id : string;
  az_policy_id : string;
  az_policy_version : string;
  az_effect : string;
  az_granted_scopes : gset string;
  az_decided_at : string
}.

(** [decision_id]: a digest of what was decided. *)
Definition decision_id (policy_id policy_version : string) (p : ExecutionPrincipal)
    (action : string) (required_scopes : gset string) (effect : string) : string :=
  let material := join "|"
    [policy_id; policy_version; pr_tenant_id p; pr_subject_id p; action;
     join "," (sort_strings (elements required_scopes)); effect] in
  "authz-" +:+ String.substring 0 16 (sha256_hex (utf8_encode (chars material))).

(** [StaticAuthorizer.authorize]; [now] is the reading of [datetime.now(UTC)].
    The [decision_ref] of the error is its [ex_code]. *)
Definition authorize (policy_id policy_version : string) (now : datetime)
    (principal : ExecutionPrincipal) (action : string) (required_scopes : gset string)
  : result AuthorizationDecision :=
  _ ← principal_validate principal false;
  _ ← raise_if (negb (non_blank action)) AuthorizationError
        "authorization action is required";
  _ ← raise_if (bool_decide (required_scopes = ∅)) AuthorizationError
        "explicit required scopes are required";
  _ ← raise_if (negb (forallb non_blank (elements required_scopes))) AuthorizationError
        "required scopes must be non-empty strings";
  let missing := required_scopes ∖ pr_scopes principal in
  let denied := negb (bool_decide (missing = ∅)) in
  let effect := if denied then "DENY" else "ALLOW" in
  let ref := decision_id policy_id policy_version principal action required_scopes effect in
  if denied then
    Err (Exn AuthorizationError ref
           ("missing required scope(s) for " +:+ action +:+ ": "
            +:+ join ", " (sort_strings (elements missing))))
  else
    Ok (MkAuthorizationDecision ref policy_id policy_version effect
          (pr_scopes principal ∩ required_scopes) (datetime_isoformat now)).

(** ** Default deny *)

Lemma principal_validate_Ok p rv u : principal_validate p rv = Ok u ->
  non_blank (pr_tenant_id p) = true /\ non_blank (pr_subject_id p) = true
  /\ (rv = true -> pr_verification p = P_VERIFIED)
  /\ Clean (principal_surface p).
Proof.
  unfold principal_validate. intros H. inv_result. split_bool. repeat split; try done.
  - destruct rv; [intros _ | done]. cbn in *. split_bool. done.
  - apply (find_credential_path_none _ "$"), (ensure_Ok _ "ExecutionPrincipal").
    destruct (ensure_no_credential_material _ _) as [[]|e]; [done |].
    by destruct (isinstance_exn _ _).
Qed.

(** What an authorization decision says. *)
Lemma principal_validate_raises p rv : raises_only AuthorizationError (principal_validate p rv).
Proof.
  unfold principal_validate. raises_only_tac.
  match goal with E : ensure_no_credential_material _ _ = Err ?e |- _ =>
    unfold ensure_no_credential_material in E; destruct (find_credential_path _ _);
    [| discriminate E]; injection E as <-; discriminate end.
Qed.

Lemma authorize_raises pid pv now p action scopes :
  raises_only AuthorizationError (authorize pid pv now p action scopes).
Proof.
  unfold authorize. cbv zeta. apply raises_only_bind; [apply principal_validate_raises |].
  raises_only_tac.
Qed.

Lemma authorize_Ok pid pv now p action scopes d :
  authorize pid pv now p action scopes = Ok d ->
  principal_validate p false = Ok tt
  /\ non_blank action = true /\ scopes <> ∅ /\ scopes ⊆ pr_scopes p
  /\ az_effect d = "ALLOW" /\ az_granted_scopes d = scopes.
Proof.
  unfold authorize. intros H.
  apply bind_Ok in H as ([] & Hp & H).
  apply bind_Ok in H as ([] & Ha%raise_if_Ok & H).
  apply bind_Ok in H as ([] & He%raise_if_Ok & H).
  apply bind_Ok in H as ([] & _ & H).
  cbv zeta in H.
  destruct (bool_decide (scopes ∖ pr_scopes p = ∅)) eqn:E; [| discriminate H].
  injection H as <-. split_bool. cbn [az_effect az_granted_scopes negb].
  assert (scopes ⊆ pr_scopes p) as Hs by set_solver.
  repeat split; try done. apply leibniz_equiv. set_solver.
Qed.

(** Authorization is default-deny: a decision is returned only for a
    valid principal, an action and a non-empty set of required scopes, all of
    which the principal holds; the decision then says [ALLOW] and grants
    exactly the required scopes. *)
Theorem authorize_default_deny pid pv now p action scopes d :
  authorize pid pv now p action scopes = Ok d ->
  principal_validate p false = Ok tt
  /\ non_blank action = true /\ scopes <> ∅ /\ scopes ⊆ pr_scopes p
  /\ az_effect d = "ALLOW" /\ az_granted_scopes d = scopes.
Proof. apply authorize_Ok. Qed.

Definition example_principal : ExecutionPrincipal :=
  MkExecutionPrincipal "tenant-1" "user-7" "USER" {["buyer"]} {["po:read"; "po:write"]}
    "auth-ctx-1" P_VERIFIED None.

Definition example_decision : AuthorizationDecision := Eval vm_compute in
  from_result (MkAuthorizationDecision "" "" "" "" ∅ "")
    (authorize "P" "1" (utc 0) example_principal "WRITE" {["po:write"]}).

Lemma authorize_default_deny_witness :
  az_effect example_decision = "ALLOW" /\ az_granted_scopes example_decision = {["po:write"]}.
Proof.
  destruct (authorize_default_deny "P" "1" (utc 0) example_principal "WRITE" {["po:write"]}
    example_decision) as (_ & _ & _ & _ & He & Hg).
  - vm_compute. reflexivity.
  - split; [exact He | exact Hg].
Defined.
