(* ===== verification/AuditTrail.v ===== *)
(** * The audit trail ([src/nsl/audit.py])

    Audit events with their hash chain, the recorder that redacts and chains
    them, and the development snapshot store. The sink the recorder appends
    to is foreign: a typeclass states what a sink does, and the in-memory sink
    of the source is its instance. *)

From S2P Require Import Prelude Digest Json Decimal Core Values DataProtection Ir Security.

Definition AUDIT_SCHEMA_VERSION : string := "1.1".
Definition RUNTIME_VERSION : string := "0.1.0".

(** [value_hash]: a dataclass is hashed as the dict of its fields; Money is
    the only dataclass among the values. *)
Definition hashable (v : value) : value :=
  match v with
  | VMoney m => VDict [("amount", VDecimal (amount m)); ("currency", VStr (currency m))]
  | v => v
  end.

Definition value_hash (v : value) : string :=
  sha256_ref (canonical_json (encode_value (hashable v))).

(** ** Audit events *)

Record AuditEvent : Type := MkAuditEvent {
  ae_schema_version : string;
  ae_execution_id : string;
  ae_sequence : Z;
  ae_event_type : string;
  ae_skill_id : string;
  ae_skill_version : string;
  ae_semantic_hash : string;
  ae_runtime_version : string;
  ae_tenant_id : option string;
  ae_subject_id : option string;
  ae_auth_context_ref : option string;
  ae_retention_days : Z;
  ae_classification : DataClassification;
  ae_payload : list (string * json);
  ae_previous_event_hash : option string;
  ae_event_hash : string
}.

Definition nullable (o : option string) : json :=
  match o with Some s => JStr s | None => JNull end.

(** [_hash_data] *)
Definition _hash_data (e : AuditEvent) : list (string * json) :=
  [("schema_version", JStr (ae_schema_version e));
   ("execution_id", JStr (ae_execution_id e));
   ("sequence", JInt (ae_sequence e));
   ("event_type", JStr (ae_event_type e));
   ("skill_id", JStr (ae_skill_id e));
   ("skill_version", JStr (ae_skill_version e));
   ("semantic_hash", JStr (ae_semantic_hash e));
   ("runtime_version", JStr (ae_runtime_version e));
   ("tenant_id", nullable (ae_tenant_id e));
   ("subject_id", nullable (ae_subject_id e));
   ("auth_context_ref", nullable (ae_auth_context_ref e));
   ("retention_days", JInt (ae_retention_days e));
   ("classification", JStr (classification_value (ae_classification e)));
   ("payload", JObj (ae_payload e));
   ("previous_event_hash", nullable (ae_previous_event_hash e))].

Definition event_hash_of (e : AuditEvent) : string :=
  value_hash (value_of_json (JObj (_hash_data e))).

Definition set_event_hash (h : string) (e : AuditEvent) : AuditEvent :=
  MkAuditEvent (ae_schema_version e) (ae_execution_id e) (ae_sequence e) (ae_event_type e)
    (ae_skill_id e) (ae_skill_version e) (ae_semantic_hash e) (ae_runtime_version e)
    (ae_tenant_id e) (ae_subject_id e) (ae_auth_context_ref e) (ae_retention_days e)
    (ae_classification e) (ae_payload e) (ae_previous_event_hash e) h.

(** [AuditEvent.create]: the event without its hash is completed with it. *)
Definition create_event (draft : AuditEvent) : result AuditEvent :=
  _ ← raise_if (ae_retention_days draft <=? 0)%Z ValueError
        "audit event retention_days must be positive";
  Ok (set_event_hash (event_hash_of draft) draft).

Definition event_to_data (e : AuditEvent) : json :=
  JObj (_hash_data e ++ [("event_hash", JStr (ae_event_hash e))]).

(** [AuditEvent.verify] *)
Definition event_verify (e : AuditEvent) : result unit :=
  _ ← raise_if (negb (String.eqb (ae_schema_version e) AUDIT_SCHEMA_VERSION)) ValueError
        "unsupported audit event schema version";
  _ ← raise_if (ae_retention_days e <=? 0)%Z ValueError
        "audit event retention_days must be positive";
  raise_if (negb (String.eqb (ae_event_hash e) (event_hash_of e))) ValueError
    "audit event hash mismatch".

(** *** [AuditEvent.from_data] *)

Definition event_fields : list string :=
  ["schema_version"; "execution_id"; "sequence"; "event_type"; "skill_id";
   "skill_version"; "semantic_hash"; "runtime_version"; "tenant_id"; "subject_id";
   "auth_context_ref"; "retention_days"; "classification"; "payload";
   "previous_event_hash"; "event_hash"].

Definition event_text (d : list (string * json)) (name : string) : result string :=
  match assoc name d with
  | Some (JStr (String c s)) => Ok (String c s)
  | _ => raise ValueError ("audit event " +:+ name +:+ " must be non-empty")
  end.

Definition event_optional_text (d : list (string * json)) (name : string)
  : result (option string) :=
  match assoc name d with
  | Some JNull => Ok None
  | Some (JStr (String c s)) => Ok (Some (String c s))
  | _ => raise ValueError ("audit event " +:+ name +:+ " must be null or non-empty")
  end.

Definition classification_of (s : string) : option DataClassification :=
  find (fun c => String.eqb (classification_value c) s)
    [PUBLIC; INTERNAL; CONFIDENTIAL; RESTRICTED].

Definition event_from_data (v : json) : result AuditEvent :=
  d ← match v with
      | JObj d => if same_elements (map fst d) event_fields then Ok d
                  else raise ValueError "invalid audit event schema"
      | _ => raise ValueError "invalid audit event schema"
      end;
  _ ← match assoc "schema_version" d with
      | Some (JStr s) => raise_if (negb (String.eqb s AUDIT_SCHEMA_VERSION)) ValueError
                           "unsupported audit event schema version"
      | _ => raise ValueError "unsupported audit event schema version"
      end;
  execution_id ← event_text d "execution_id";
  event_type ← event_text d "event_type";
  skill_id ← event_text d "skill_id";
  skill_version ← event_text d "skill_version";
  semantic_hash ← event_text d "semantic_hash";
  runtime_version ← event_text d "runtime_version";
  event_hash ← event_text d "event_hash";
  tenant_id ← event_optional_text d "tenant_id";
  subject_id ← event_optional_text d "subject_id";
  auth_context_ref ← event_optional_text d "auth_context_ref";
  previous_event_hash ← event_optional_text d "previous_event_hash";
  sequence ← match assoc "sequence" d with
             | Some (JInt z) => if (z <=? 0)%Z
                 then raise ValueError "audit event sequence must be a positive integer"
                 else Ok z
             | _ => raise ValueError "audit event sequence must be a positive integer"
             end;
  payload ← match assoc "payload" d with
            | Some (JObj p) => Ok p
            | _ => raise ValueError "audit event payload must be an object"
            end;
  classification ← match assoc "classification" d with
                   | Some (JStr s) =>
                       match classification_of s with
                       | Some c => Ok c
                       | None => raise ValueError "invalid audit event classification"
                       end
                   | _ => raise ValueError "invalid audit event classification"
                   end;
  retention_days ← match assoc "retention_days" d with
                   | Some (JInt z) => Ok z
                   | _ => raise ValueError "audit event retention_days must be positive"
                   end;
  let event := MkAuditEvent AUDIT_SCHEMA_VERSION execution_id sequence event_type skill_id
    skill_version semantic_hash runtime_version tenant_id subject_id auth_context_ref
    retention_days classification payload previous_event_hash event_hash in
  _ ← event_verify event;
  Ok event.

(** ** Sinks and snapshot references *)

Class AuditSink (S : Type) : Type := sink_append : AuditEvent -> M S unit.

(** [InMemoryAuditSink] *)
#[export] Instance InMemoryAuditSink : AuditSink (list AuditEvent) :=
  fun event => modify (fun events => events ++ [event]).

Record SnapshotRef : Type := MkSnapshotRef {
  sr_snapshot_id : string;
  sr_tenant_id : string;
  sr_classification : DataClassification;
  sr_value_hash : string;
  sr_expires_at : option string
}.

(** ** The recorder *)

Record AuditRecorder : Type := MkAuditRecorder {
  rec_policy : DataHandlingPolicy;
  rec_execution_id : string;
  rec_skill_id : string;
  rec_skill_version : string;
  rec_semantic_hash : string;
  rec_runtime_version : string;
  rec_tenant_id : option string;
  rec_subject_id : option string;
  rec_auth_context_ref : option string;
  rec_sequence : Z;
  rec_previous_event_hash : option string
}.

Definition new_AuditRecorder (policy : DataHandlingPolicy)
    (execution_id skill_id skill_version semantic_hash runtime_version : string)
    (principal : option ExecutionPrincipal) : AuditRecorder :=
  let redacted (f : ExecutionPrincipal -> string) :=
    match principal with Some p => Some (redact_text (f p) []) | None => None end in
  MkAuditRecorder policy execution_id skill_id skill_version semantic_hash runtime_version
    (redacted pr_tenant_id) (redacted pr_subject_id) (redacted pr_auth_context_ref) 0 None.

(** The object a redacted and encoded dict is. *)
Definition encoded_dict (d : list (string * value)) : list (string * json) :=
  match encode_value (redact_data (VDict d)) with JObj fields => fields | _ => [] end.

(** [dict.update] *)
Definition update_dict {A} (d entries : list (string * A)) : list (string * A) :=
  fold_left (fun d kv => assoc_set kv.1 kv.2 d) entries d.

(** The payload [emit] lets into the event. *)
Definition safe_payload (policy : DataHandlingPolicy) (payload : list (string * value))
    (classification : DataClassification) (secure_snapshot_ref : option SnapshotRef)
    (redacted_metadata : option (list (string * value))) : list (string * json) :=
  let safe :=
    if classification_allows classification (max_trace_classification policy)
    then encoded_dict payload
    else update_dict (encoded_dict (default [] redacted_metadata))
           [("redacted", JBool true); ("value_hash", JStr (value_hash (VDict payload)))] in
  match secure_snapshot_ref with
  | None => safe
  | Some ref =>
      update_dict safe
        [("snapshot_ref", JStr (sr_snapshot_id ref));
         ("snapshot_hash", JStr (sr_value_hash ref));
         ("snapshot_classification", JStr (classification_value (sr_classification ref)))]
  end.

(** What is asked of [emit]. *)
Record emission : Type := MkEmission {
  em_event_type : string;
  em_payload : list (string * value);
  em_classification : DataClassification;
  em_snapshot_ref : option SnapshotRef;
  em_metadata : option (list (string * value))
}.

Definition draft_event (r : AuditRecorder) (em : emission) : AuditEvent :=
  MkAuditEvent AUDIT_SCHEMA_VERSION (rec_execution_id r) (rec_sequence r + 1)
    (em_event_type em) (rec_skill_id r) (rec_skill_version r) (rec_semantic_hash r)
    (rec_runtime_version r) (rec_tenant_id r) (rec_subject_id r) (rec_auth_context_ref r)
    (audit_retention_days (rec_policy r)) (em_classification em)
    (safe_payload (rec_policy r) (em_payload em) (em_classification em)
       (em_snapshot_ref em) (em_metadata em))
    (rec_previous_event_hash r) "".

(** [self.sequence = next_sequence; self.previous_event_hash = event.event_hash] *)
Definition advance (e : AuditEvent) (r : AuditRecorder) : AuditRecorder :=
  MkAuditRecorder (rec_policy r) (rec_execution_id r) (rec_skill_id r) (rec_skill_version r)
    (rec_semantic_hash r) (rec_runtime_version r) (rec_tenant_id r) (rec_subject_id r)
    (rec_auth_context_ref r) (ae_sequence e) (Some (ae_event_hash e)).

(** [AuditRecorder.emit] *)
Definition emit {S : Type} {sink : AuditSink S} (em : emission) : M (AuditRecorder * S) unit :=
  fun '(r, s) =>
    match create_event (draft_event r em) with
    | Err error => (Err error, (r, s))
    | Ok event =>
        match sink_append event s with
        | (Ok _, s) => (Ok tt, (advance event r, s))
        | (Err error, s) => (Err error, (r, s))
        end
    end.

(** ** The development snapshot store

    [st_now] gives the n-th reading of the store's clock, which may be naive;
    [st_reads] counts the readings. *)

Record StoredSnapshot : Type := MkStoredSnapshot {
  ss_tenant_id : string;
  ss_classification : DataClassification;
  ss_value : value;
  ss_reference_hash : string;
  ss_integrity_hash : string;
  ss_retention_days : Z;
  ss_expires_at : datetime
}.

Record InMemorySnapshotStore : Type := MkInMemorySnapshotStore {
  st_items : gmap string StoredSnapshot;
  st_counter : Z;
  st_now : nat -> datetime;
  st_reads : nat
}.

Definition new_InMemorySnapshotStore (now : nat -> datetime) : InMemorySnapshotStore :=
  MkInMemorySnapshotStore ∅ 0 now 0.

Definition set_items (items : gmap string StoredSnapshot) (s : InMemorySnapshotStore)
  : InMemorySnapshotStore :=
  MkInMemorySnapshotStore items (st_counter s) (st_now s) (st_reads s).

Definition Store := M InMemorySnapshotStore.

(** [_now] *)
Definition store_now : Store datetime :=
  s ← get;
  _ ← modify (fun s => MkInMemorySnapshotStore (st_items s) (st_counter s) (st_now s)
                         (S (st_reads s)));
  let now := st_now s (st_reads s) in
  match dt_utcoffset now with
  | Some _ => mret now
  | None => fail ValueError "snapshot clock must return a timezone-aware datetime"
  end.

(** [now + timedelta(days=days)]; the last representable day is 9999-12-31. *)
Definition add_days (now : datetime) (days : Z) : result datetime :=
  let wall := (dt_wall now + days * us_per_day)%Z in
  if (wall <? 3652059 * us_per_day)%Z then Ok (MkDatetime wall (dt_utcoffset now))
  else raise ArithmeticError "date value out of range".

(** [InMemorySnapshotStore.put] *)
Definition snapshot_put (tenant_id : string) (v : value) (classification : DataClassification)
    (retention_days : Z) (hash_material : option value) : Store SnapshotRef :=
  _ ← fail_if (negb (non_blank tenant_id)) ValueError "snapshot tenant_id must be non-empty";
  _ ← fail_if (retention_days <=? 0)%Z ValueError "snapshot retention_days must be positive";
  _ ← modify (fun s => MkInMemorySnapshotStore (st_items s) (st_counter s + 1) (st_now s)
                         (st_reads s));
  s ← get;
  let snapshot_id := ("snapshot-" +:+ pad_Z 6 (st_counter s))%string in
  let digest := value_hash (default v hash_material) in
  now ← store_now;
  expires_at ← lift (add_days now retention_days);
  _ ← modify (fun s => set_items (<[snapshot_id := MkStoredSnapshot tenant_id classification
                 v digest (value_hash v) retention_days expires_at]> (st_items s)) s);
  mret (MkSnapshotRef snapshot_id tenant_id classification digest
          (Some (datetime_isoformat expires_at))).

(** [_validate_reference] *)
Definition validate_reference (reference : SnapshotRef) (item : StoredSnapshot) : result unit :=
  raise_if (negb (bool_decide (sr_classification reference = ss_classification item))
            || negb (String.eqb (sr_value_hash reference) (ss_reference_hash item))
            || negb (bool_decide (sr_expires_at reference
                                  = Some (datetime_isoformat (ss_expires_at item)))))
    ValueError "snapshot reference metadata mismatch".

(** The checks [get] and [delete] share: the item the principal may use. *)
Definition accessible (scope : string) (reference : SnapshotRef)
    (principal : ExecutionPrincipal) (s : InMemorySnapshotStore) : result StoredSnapshot :=
  _ ← principal_validate principal true;
  _ ← raise_if (negb (bool_decide (scope ∈ pr_scopes principal))) PermissionError
        (scope +:+ " scope is required");
  match st_items s !! sr_snapshot_id reference with
  | None => raise KeyError ("snapshot not found: " +:+ sr_snapshot_id reference)
  | Some item =>
      _ ← raise_if (negb (String.eqb (ss_tenant_id item) (pr_tenant_id principal))
                    || negb (String.eqb (sr_tenant_id reference) (pr_tenant_id principal)))
            PermissionError "cross-tenant snapshot access is forbidden";
      _ ← validate_reference reference item;
      Ok item
  end.

Definition drop_item (reference : SnapshotRef) : Store unit :=
  modify (fun s => set_items (base.delete (sr_snapshot_id reference) (st_items s)) s).

(** [InMemorySnapshotStore.get] *)
Definition snapshot_get (reference : SnapshotRef) (principal : ExecutionPrincipal)
  : Store value :=
  s ← get;
  item ← lift (accessible "nsl:replay:read" reference principal s);
  now ← store_now;
  if (instant (ss_expires_at item) <=? instant now)%Z then
    _ ← drop_item reference;
    fail KeyError ("snapshot expired: " +:+ sr_snapshot_id reference)
  else
    _ ← fail_if (negb (String.eqb (value_hash (ss_value item)) (ss_integrity_hash item)))
          ValueError "snapshot plaintext integrity mismatch";
    mret (ss_value item).

(** [InMemorySnapshotStore.delete] *)
Definition snapshot_delete (reference : SnapshotRef) (principal : ExecutionPrincipal)
  : Store unit :=
  s ← get;
  _ ← lift (accessible "nsl:snapshot:delete" reference principal s);
  drop_item reference.

Definition expired (now : datetime) (kv : string * StoredSnapshot) : Prop :=
  (instant (ss_expires_at kv.2) <= instant now)%Z.

#[export] Instance expired_dec now kv : Decision (expired now kv).
Proof. unfold expired. apply _. Defined.

(** [InMemorySnapshotStore.purge_expired] *)
Definition purge_expired : Store Z :=
  now ← store_now;
  s ← get;
  let gone := filter (expired now) (st_items s) in
  _ ← modify (set_items (filter (fun kv => ~ expired now kv) (st_items s)));
  mret (Z.of_nat (size gone)).

(** ** The recorder chains what it appends *)

(** [events] continues a chain that ended at [sequence] with [previous]. *)
Fixpoint chained (sequence : Z) (previous : option string) (events : list AuditEvent)
  : Prop :=
  match events with
  | [] => True
  | e :: events =>
      ae_sequence e = (sequence + 1)%Z /\ ae_previous_event_hash e = previous
      /\ event_verify e = Ok tt /\ chained (ae_sequence e) (Some (ae_event_hash e)) events
  end.

(** The state of a chain after [events]. *)
Definition chain_end (previous : option string) (events : list AuditEvent) : option string :=
  match last events with Some e => Some (ae_event_hash e) | None => previous end.

(** A sink that logs: it keeps what it accepted, and only that. *)
Class LoggingSink (S : Type) {sink : AuditSink S} : Type := {
  logged : S -> list AuditEvent;
  append_logged : forall e s,
    logged (sink_append e s).2
    = match (sink_append e s).1 with Ok _ => logged s ++ [e] | Err _ => logged s end
}.

#[export] Instance InMemoryAuditSink_logging : LoggingSink (list AuditEvent) := {|
  logged := id;
  append_logged e s := eq_refl
|}.

(** An event carries the identity of its recorder. *)
Definition recorded_by (r : AuditRecorder) (e : AuditEvent) : Prop :=
  ae_execution_id e = rec_execution_id r /\ ae_skill_id e = rec_skill_id r
  /\ ae_skill_version e = rec_skill_version r /\ ae_semantic_hash e = rec_semantic_hash r
  /\ ae_runtime_version e = rec_runtime_version r /\ ae_tenant_id e = rec_tenant_id r
  /\ ae_subject_id e = rec_subject_id r /\ ae_auth_context_ref e = rec_auth_context_ref r.

Definition emit_all {S : Type} {sink : AuditSink S} (l : list emission)
    (s : AuditRecorder * S) : AuditRecorder * S :=
  fold_left (fun s em => (emit em s).2) l s.

Lemma event_hash_set h e : event_hash_of (set_event_hash h e) = event_hash_of e.
Proof. reflexivity. Qed.

Lemma create_event_verify draft e : ae_schema_version draft = AUDIT_SCHEMA_VERSION ->
  create_event draft = Ok e ->
  e = set_event_hash (event_hash_of draft) draft /\ event_verify e = Ok tt.
Proof.
  unfold create_event. intros Hs H. inv_result. split; [done |].
  unfold event_verify. cbn [ae_schema_version ae_retention_days ae_event_hash].
  change (ae_schema_version (set_event_hash (event_hash_of draft) draft))
    with (ae_schema_version draft).
  change (ae_retention_days (set_event_hash (event_hash_of draft) draft))
    with (ae_retention_days draft).
  change (ae_event_hash (set_event_hash (event_hash_of draft) draft))
    with (event_hash_of draft).
  rewrite event_hash_set, Hs, H0, !String.eqb_refl. reflexivity.
Qed.

Section Chain.
Context {S : Type} {sink : AuditSink S} {log : LoggingSink S}.

(** One call of [emit]: nothing changes, or one chained event is appended. *)
Lemma emit_step em (r : AuditRecorder) (s : S) :
  let '(res, (r', s')) := emit em (r, s) in
  (is_Ok res = false /\ r' = r /\ logged s' = logged s)
  \/ exists e, res = Ok tt /\ logged s' = logged s ++ [e] /\ r' = advance e r
       /\ ae_sequence e = (rec_sequence r + 1)%Z
       /\ ae_previous_event_hash e = rec_previous_event_hash r
       /\ event_verify e = Ok tt /\ recorded_by r e.
Proof.
  unfold emit. destruct (create_event (draft_event r em)) as [e|error] eqn:Hc; [| by left].
  pose proof (append_logged e s) as Hl.
  destruct (sink_append e s) as [[[]|error] s']; cbn in Hl; [right | by left].
  destruct (create_event_verify (draft_event r em) e eq_refl Hc) as [-> Hv].
  eexists. split; [reflexivity |]. split; [exact Hl |]. split; [reflexivity |].
  split; [reflexivity |]. split; [reflexivity |]. split; [exact Hv |]. repeat split.
Qed.

Lemma advance_recorded_by e r e' : recorded_by (advance e r) e' <-> recorded_by r e'.
Proof. done. Qed.

Lemma emit_all_chained l (r : AuditRecorder) (s : S) :
  exists events,
    logged (emit_all l (r, s)).2 = logged s ++ events
    /\ chained (rec_sequence r) (rec_previous_event_hash r) events
    /\ Forall (recorded_by r) events
    /\ rec_sequence (emit_all l (r, s)).1 = (rec_sequence r + Z.of_nat (length events))%Z
    /\ rec_previous_event_hash (emit_all l (r, s)).1
       = chain_end (rec_previous_event_hash r) events.
Proof.
  revert r s; induction l as [|em l IH]; intros r s.
  - exists []. rewrite app_nil_r. cbn. repeat split; [constructor | lia].
  - pose proof (emit_step em r s) as H. unfold emit_all in *. cbn [fold_left].
    destruct (emit em (r, s)) as [res [r' s']]. cbn [snd].
    destruct H as [(_ & -> & Hs) | (e & -> & Hs & -> & Hseq & Hprev & Hv & Hby)].
    + destruct (IH r s') as (events & IHs). exists events. rewrite Hs in IHs. exact IHs.
    + destruct (IH (advance e r) s') as (events & H1 & H2 & H3 & H4 & H5).
      exists (e :: events). rewrite H1, H4, H5, Hs, <- app_assoc.
      cbn [app chained length advance rec_sequence rec_previous_event_hash].
      split; [done |]. split; [done |]. split; [by constructor |]. split; [lia |].
      unfold chain_end. rewrite last_cons. by destruct (last events).
Qed.
End Chain.

(** Whatever a recorder is asked to emit and whichever appends the sink
    refuses, the events that reach the sink continue the recorder's chain:
    consecutive sequence numbers, each event bound to the hash of the one
    before it, each with a valid hash and the recorder's identity; the
    recorder itself stays at the end of that chain. *)
Theorem audit_recorder_chains {S : Type} {sink : AuditSink S} {log : LoggingSink S}
    (l : list emission) (r : AuditRecorder) (s : S) :
  exists events,
    logged (emit_all l (r, s)).2 = logged s ++ events
    /\ chained (rec_sequence r) (rec_previous_event_hash r) events
    /\ Forall (recorded_by r) events
    /\ rec_sequence (emit_all l (r, s)).1 = (rec_sequence r + Z.of_nat (length events))%Z
    /\ rec_previous_event_hash (emit_all l (r, s)).1
       = chain_end (rec_previous_event_hash r) events.
Proof. apply emit_all_chained. Qed.

(** ** The last hash binds the history *)

Definition event_document (e : AuditEvent) : bytes :=
  canonical_json (JObj (_hash_data e)).

Lemma event_hash_document e : event_hash_of e = sha256_ref (event_document e).
Proof.
  unfold event_hash_of, value_hash, event_document. cbn [hashable value_of_json].
  change (VDict (map (fun kv => (kv.1, value_of_json kv.2)) (_hash_data e)))
    with (value_of_json (JObj (_hash_data e))).
  by rewrite encode_value_of_json.
Qed.

(** The same audit event, up to the order of the keys of its payload. *)
Definition same_event (e f : AuditEvent) : Prop :=
  sorted_keys (event_to_data e) = sorted_keys (event_to_data f).

Lemma hash_data_sorted e : sorted_keys (JObj (_hash_data e)) =
  JObj [("auth_context_ref", nullable (ae_auth_context_ref e));
        ("classification", JStr (classification_value (ae_classification e)));
        ("event_type", JStr (ae_event_type e));
        ("execution_id", JStr (ae_execution_id e));
        ("payload", sorted_keys (JObj (ae_payload e)));
        ("previous_event_hash", nullable (ae_previous_event_hash e));
        ("retention_days", JInt (ae_retention_days e));
        ("runtime_version", JStr (ae_runtime_version e));
        ("schema_version", JStr (ae_schema_version e));
        ("semantic_hash", JStr (ae_semantic_hash e));
        ("sequence", JInt (ae_sequence e));
        ("skill_id", JStr (ae_skill_id e));
        ("skill_version", JStr (ae_skill_version e));
        ("subject_id", nullable (ae_subject_id e));
        ("tenant_id", nullable (ae_tenant_id e))].
Proof.
  destruct e as [a1 a2 a3 a4 a5 a6 a7 a8 [|] [|] [|] a12 a13 a14 [|] a16]; reflexivity.
Qed.

Lemma event_data_sorted e : sorted_keys (event_to_data e) =
  JObj [("auth_context_ref", nullable (ae_auth_context_ref e));
        ("classification", JStr (classification_value (ae_classification e)));
        ("event_hash", JStr (ae_event_hash e));
        ("event_type", JStr (ae_event_type e));
        ("execution_id", JStr (ae_execution_id e));
        ("payload", sorted_keys (JObj (ae_payload e)));
        ("previous_event_hash", nullable (ae_previous_event_hash e));
        ("retention_days", JInt (ae_retention_days e));
        ("runtime_version", JStr (ae_runtime_version e));
        ("schema_version", JStr (ae_schema_version e));
        ("semantic_hash", JStr (ae_semantic_hash e));
        ("sequence", JInt (ae_sequence e));
        ("skill_id", JStr (ae_skill_id e));
        ("skill_version", JStr (ae_skill_version e));
        ("subject_id", nullable (ae_subject_id e));
        ("tenant_id", nullable (ae_tenant_id e))].
Proof.
  destruct e as [a1 a2 a3 a4 a5 a6 a7 a8 [|] [|] [|] a12 a13 a14 [|] a16]; reflexivity.
Qed.

Lemma nullable_inj o p : nullable o = nullable p -> o = p.
Proof. by destruct o, p; intros [=]; subst. Qed.

(** Two events with one hash are the same event, collisions apart. *)
Lemma same_hash_same_event e f :
  event_verify e = Ok tt -> event_verify f = Ok tt -> ae_event_hash e = ae_event_hash f ->
  (same_event e f /\ ae_sequence e = ae_sequence f
   /\ ae_previous_event_hash e = ae_previous_event_hash f)
  \/ collision (event_document e) (event_document f).
Proof.
  intros He Hf Hh. unfold event_verify in He, Hf. inv_result. split_bool.
  repeat match goal with H : String.eqb _ _ = true |- _ => apply String.eqb_eq in H end.
  assert (sha256_ref (event_document e) = sha256_ref (event_document f)) as E.
  { rewrite <- !event_hash_document. congruence. }
  destruct (sha256_ref_or_collision _ _ E) as [Ed|C]; [left | by right].
  apply canonical_json_inj in Ed. rewrite !hash_data_sorted in Ed.
  injection Ed as E1 E2 E3 E4 E5 E6 E7 E8 E9 E10 E11 E12 E13 E14 E15.
  split; [| split; [done | by apply nullable_inj]].
  unfold same_event. rewrite !event_data_sorted. cbn [sorted_keys]. congruence.
Qed.

Lemma chained_app sequence previous l l' :
  chained sequence previous (l ++ l') <->
  chained sequence previous l
  /\ chained (sequence + Z.of_nat (length l)) (chain_end previous l) l'.
Proof.
  revert sequence previous; induction l as [|e l IH]; intros sequence previous.
  - cbn. unfold chain_end. cbn. rewrite Z.add_0_r. tauto.
  - cbn [app chained length]. rewrite IH.
    assert (chain_end previous (e :: l) = chain_end (Some (ae_event_hash e)) l) as ->.
    { unfold chain_end. rewrite last_cons. by destruct (last l). }
    split.
    + intros (H1 & H2 & H3 & H4 & H5). rewrite H1 in *.
      replace (sequence + Z.of_nat (S (length l)))%Z
        with (sequence + 1 + Z.of_nat (length l))%Z by lia. done.
    + intros ((H1 & H2 & H3 & H4) & H5). rewrite H1 in *.
      replace (sequence + Z.of_nat (S (length l)))%Z
        with (sequence + 1 + Z.of_nat (length l))%Z in H5 by lia. done.
Qed.

Lemma chained_snoc sequence previous l e :
  chained sequence previous (l ++ [e]) <->
  chained sequence previous l /\ ae_sequence e = (sequence + Z.of_nat (length l) + 1)%Z
  /\ ae_previous_event_hash e = chain_end previous l /\ event_verify e = Ok tt.
Proof. rewrite chained_app. cbn. tauto. Qed.

Lemma chain_end_snoc previous l e : chain_end previous (l ++ [e]) = Some (ae_event_hash e).
Proof. unfold chain_end. by rewrite last_snoc. Qed.

(** The hash of the last event binds the whole history: two chains that
    start afresh, are valid and end in the same hash consist of the same
    events in the same order, unless the documents of two of their events are
    an explicit SHA-256 collision. *)
Theorem audit_history_binding (l l' : list AuditEvent) :
  chained 0 None l -> chained 0 None l' -> chain_end None l = chain_end None l' ->
  Forall2 same_event l l'
  \/ exists e f, e ∈ l /\ f ∈ l' /\ collision (event_document e) (event_document f).
Proof.
  revert l'; induction l as [|e l IH] using rev_ind; intros l'; destruct l' as [|f l' _] using rev_ind.
  - intros. left. constructor.
  - rewrite chain_end_snoc. discriminate.
  - rewrite chain_end_snoc. discriminate.
  - rewrite !chain_end_snoc, !chained_snoc.
    intros (Hl & _ & Hp & Hv) (Hl' & _ & Hp' & Hv') [= Hh].
    destruct (same_hash_same_event e f Hv Hv' Hh) as [(Hs & _ & Hpe) | C].
    + destruct (IH l' Hl Hl') as [IHl | (x & y & Hx & Hy & C)]; [congruence | left | right].
      * by apply Forall2_app; [| constructor].
      * exists x, y. rewrite !elem_of_app. auto.
    + right. exists e, f. rewrite !elem_of_app, !list_elem_of_singleton. auto.
Qed.

(** ** Events survive their document form *)

Definition non_empty (s : string) : Prop := s <> "".

Definition well_formed_event (e : AuditEvent) : Prop :=
  Forall non_empty [ae_execution_id e; ae_event_type e; ae_skill_id e; ae_skill_version e;
                    ae_semantic_hash e; ae_runtime_version e; ae_event_hash e]
  /\ Forall (fun o => o <> Some "") [ae_tenant_id e; ae_subject_id e; ae_auth_context_ref e;
                                     ae_previous_event_hash e]
  /\ (0 < ae_sequence e)%Z /\ event_verify e = Ok tt.

Lemma event_text_Ok d name s :
  event_text d name = Ok s <-> assoc name d = Some (JStr s) /\ non_empty s.
Proof.
  unfold event_text, non_empty. destruct (assoc name d) as [[| | |[|c t]| |]|];
    try (split; [discriminate | intros [[=] _]]; fail).
  - split; [discriminate |]. intros [[= <-] []]. done.
  - split; [intros [= <-]; done | by intros [[= <-] _]].
Qed.

Lemma event_optional_text_Ok d name o :
  event_optional_text d name = Ok o <-> assoc name d = Some (nullable o) /\ o <> Some "".
Proof.
  unfold event_optional_text. destruct (assoc name d) as [[| | |[|c t]| |]|];
    try (split; [discriminate | destruct o; intros [[=] _]]; fail).
  - split; [intros [= <-]; done | by destruct o; intros [[=] _]].
  - split; [discriminate |]. destruct o; intros [[= <-] []]; done.
  - split; [intros [= <-]; done | by destruct o; intros [[= <-] _]].
Qed.

Lemma classification_of_value c s :
  classification_of s = Some c <-> s = classification_value c.
Proof.
  split.
  - unfold classification_of. intros H. apply find_some in H as [_ H].
    by apply String.eqb_eq in H.
  - intros ->. by destruct c.
Qed.

Lemma classification_of_Ok c s (r : result DataClassification) :
  match classification_of s with Some c => Ok c | None => r end = Ok c ->
  is_Ok r = false -> s = classification_value c.
Proof.
  destruct (classification_of s) as [d|] eqn:E; [intros [= <-] _ | by intros ->].
  by apply classification_of_value.
Qed.

Lemma event_verify_retention e : event_verify e = Ok tt ->
  ae_schema_version e = AUDIT_SCHEMA_VERSION.
Proof. unfold event_verify. intros H. inv_result. split_bool. by apply String.eqb_eq. Qed.

Lemma event_to_from_data e : well_formed_event e -> event_from_data (event_to_data e) = Ok e.
Proof.
  intros (Ht & Ho & Hs & Hv). pose proof (event_verify_retention e Hv) as Hschema.
  destruct e as [schema ex seq ty sk sv sh rv te su au rd cl pl pr eh].
  cbn [ae_schema_version] in Hschema. subst schema.
  repeat match goal with
         | H : Forall _ (_ :: _) |- _ => apply Forall_cons in H as [? H] end.
  cbn in *.
  assert (forall d k s, assoc k d = Some (JStr s) -> non_empty s -> event_text d k = Ok s)
    as Htext by (intros; by apply event_text_Ok).
  assert (forall d k o, assoc k d = Some (nullable o) -> o <> Some "" ->
          event_optional_text d k = Ok o) as Hopt by (intros; by apply event_optional_text_Ok).
  unfold event_from_data, event_to_data. apply (bind_intro
    (_hash_data (MkAuditEvent AUDIT_SCHEMA_VERSION ex seq ty sk sv sh rv te su au rd cl pl pr eh)
     ++ [("event_hash", JStr eh)])); [reflexivity |].
  apply (bind_intro tt); [reflexivity |].
  do 7 (eapply bind_intro; [apply Htext; [reflexivity | eassumption] |]).
  do 4 (eapply bind_intro; [apply Hopt; [reflexivity | eassumption] |]).
  apply (bind_intro seq).
  { change (assoc "sequence" _) with (Some (JInt seq)).
    cbv beta iota. rewrite (proj2 (Z.leb_gt seq 0)) by lia. reflexivity. }
  apply (bind_intro pl); [reflexivity |].
  apply (bind_intro cl); [by destruct cl |].
  apply (bind_intro rd); [reflexivity |].
  apply (bind_intro tt); [exact Hv | reflexivity].
Qed.

Lemma event_from_data_wf d e : event_from_data d = Ok e -> well_formed_event e.
Proof.
  unfold event_from_data. intros H.
  apply bind_Ok in H as (fs & _ & H). apply bind_Ok in H as ([] & _ & H).
  do 7 (apply bind_Ok in H as (? & Hx & H); apply event_text_Ok in Hx as [_ ?]).
  do 4 (apply bind_Ok in H as (? & Hx & H); apply event_optional_text_Ok in Hx as [_ ?]).
  apply bind_Ok in H as (seq & Hseq & H). apply bind_Ok in H as (pl & _ & H).
  apply bind_Ok in H as (cl & _ & H). apply bind_Ok in H as (rd & _ & H).
  cbv zeta in H. apply bind_Ok in H as ([] & Hv & H). apply Ok_inj in H as <-.
  split; [by repeat constructor |]. split; [by repeat constructor |]. split; [| exact Hv].
  cbn [ae_sequence]. destruct (assoc "sequence" fs) as [[| |z| | |]|]; try discriminate Hseq.
  destruct (Z.leb_spec z 0); [discriminate Hseq |]. by apply Ok_inj in Hseq as <-.
Qed.

(** Audit events survive their document form: every well-formed event is
    read back from its document as it was, and whatever document is accepted
    denotes a well-formed event (valid hash, positive sequence number,
    non-empty identities) whose own document is read back to it. *)
Theorem audit_event_roundtrip (e : AuditEvent) :
  (well_formed_event e <-> event_from_data (event_to_data e) = Ok e)
  /\ forall d, event_from_data d = Ok e ->
       event_verify e = Ok tt /\ event_from_data (event_to_data e) = Ok e.
Proof.
  split; [split; [apply event_to_from_data | apply event_from_data_wf] |].
  intros d Hd%event_from_data_wf. split; [apply Hd | by apply event_to_from_data].
Qed.

(** ** The snapshot store *)

Lemma parse_zeros (k : nat) (l : list ascii) :
  parse_digits (chars (zeros k) ++ l) 0 = parse_digits l 0.
Proof. induction k as [|k IH]; [done | exact IH]. Qed.

Lemma parse_pad (width : nat) (z : Z) : (0 <= z)%Z ->
  parse_digits (chars (pad_Z width z)) 0 = (Z.to_N z, []).
Proof.
  intros Hz. unfold pad_Z, zero_pad. rewrite chars_app, parse_zeros.
  unfold str_of_Z. rewrite (proj2 (Z.ltb_ge z 0)) by done.
  unfold str_of_N. rewrite <- (app_nil_r (chars _)), parse_digits_fuel by apply size_bound.
  done.
Qed.

Lemma pad_inj (width : nat) (y z : Z) : (0 <= y)%Z -> (0 <= z)%Z ->
  pad_Z width y = pad_Z width z -> y = z.
Proof.
  intros Hy Hz E. pose proof (parse_pad width y Hy) as P. rewrite E, parse_pad in P by done.
  injection P as P. lia.
Qed.

Definition snapshot_name (n : Z) : string := ("snapshot-" +:+ pad_Z 6 n)%string.

Lemma snapshot_name_inj y z : (0 <= y)%Z -> (0 <= z)%Z ->
  snapshot_name y = snapshot_name z -> y = z.
Proof.
  intros Hy Hz E. apply (pad_inj 6 y z Hy Hz).
  apply (f_equal (drop_prefix "snapshot-")) in E. unfold snapshot_name in E.
  rewrite !drop_prefix_app in E. by injection E.
Qed.

(** Every item was stored under an earlier value of the counter. *)
Definition store_ok (s : InMemorySnapshotStore) : Prop :=
  (0 <= st_counter s)%Z
  /\ forall id item, st_items s !! id = Some item ->
       ss_integrity_hash item = value_hash (ss_value item)
       /\ exists n, (1 <= n <= st_counter s)%Z /\ id = snapshot_name n.

Lemma new_store_ok now : store_ok (new_InMemorySnapshotStore now).
Proof. split; [cbn; lia |]. intros id item H. exact (False_ind _ (lookup_empty_Some _ _ H)). Qed.

(** A successful [put]: the reading of the clock, and the new item. *)
Lemma snapshot_put_inv tenant v cl days material s s' ref :
  snapshot_put tenant v cl days material s = (Ok ref, s') ->
  let now := st_now s (st_reads s) in
  let expires := MkDatetime (dt_wall now + days * us_per_day) (dt_utcoffset now) in
  let item := MkStoredSnapshot tenant cl v (value_hash (default v material)) (value_hash v)
                days expires in
  let id := snapshot_name (st_counter s + 1) in
  non_blank tenant = true /\ (0 < days)%Z /\ is_Some (dt_utcoffset now)
  /\ ref = MkSnapshotRef id tenant cl (value_hash (default v material))
             (Some (datetime_isoformat expires))
  /\ s' = MkInMemorySnapshotStore (<[id := item]> (st_items s)) (st_counter s + 1)
            (st_now s) (S (st_reads s)).
Proof.
  unfold snapshot_put, store_now, fail_if, lift, add_days. intros H.
  apply M_bind_Ok in H as ([] & s1 & [= Hb <-] & H). apply raise_if_Ok, negb_false_iff in Hb.
  apply M_bind_Ok in H as ([] & s2 & [= Hd <-] & H). apply raise_if_Ok, Z.leb_gt in Hd.
  apply M_bind_Ok in H as ([] & s3 & [= <-] & H). apply M_bind_Ok in H as (s4 & s5 & [= <- <-] & H).
  cbv zeta in H. apply M_bind_Ok in H as (now & s6 & Hnow & H).
  apply M_bind_Ok in Hnow as (s7 & s8 & [= <- <-] & Hnow).
  apply M_bind_Ok in Hnow as ([] & s9 & [= <-] & Hnow).
  cbn [st_now st_reads st_items st_counter] in *.
  destruct (dt_utcoffset (st_now s (st_reads s))) as [o|] eqn:Ho; [| discriminate Hnow].
  injection Hnow as <- <-. apply M_bind_Ok in H as (e & s10 & He & H).
  destruct (_ <? _)%Z; [| discriminate He]. injection He as <- <-.
  apply M_bind_Ok in H as ([] & s11 & [= <-] & H). injection H as <- <-.
  cbv zeta. rewrite Ho. repeat split; done.
Qed.

(** What is put into the snapshot store is found again: a [put] takes a
    fresh identifier and leaves every other snapshot alone, and until the
    retention period is over every verified principal of the tenant that may
    read snapshots gets exactly the stored value back. *)
Theorem snapshot_put_get (tenant : string) (v : value) (cl : DataClassification) (days : Z)
    (material : option value) (s s' : InMemorySnapshotStore) (ref : SnapshotRef)
    (p : ExecutionPrincipal) :
  store_ok s -> snapshot_put tenant v cl days material s = (Ok ref, s') ->
  store_ok s' /\ st_items s !! sr_snapshot_id ref = None
  /\ (forall id, id <> sr_snapshot_id ref -> st_items s' !! id = st_items s !! id)
  /\ (principal_validate p true = Ok tt -> "nsl:replay:read" ∈ pr_scopes p ->
      pr_tenant_id p = tenant ->
      let now := st_now s' (st_reads s') in
      is_Some (dt_utcoffset now) ->
      (instant now < instant (st_now s (st_reads s)) + days * us_per_day)%Z ->
      exists s'', snapshot_get ref p s' = (Ok v, s'') /\ st_items s'' = st_items s').
Proof.
  intros [Hc Hok] H. apply snapshot_put_inv in H as (Hb & Hd & Ho & -> & ->).
  set (item := MkStoredSnapshot _ _ _ _ _ _ _). cbn [sr_snapshot_id st_items st_now st_reads].
  split; [split; [cbn; lia |] |].
  { intros id it. cbn [st_items st_counter]. rewrite lookup_insert_Some.
    intros [[<- <-]|[_ Hit]].
    - split; [reflexivity |]. eexists. split; [| reflexivity]. lia.
    - destruct (Hok id it Hit) as (Hh & n & Hn & ->). split; [exact Hh |].
      exists n. split; [lia | done]. }
  split.
  { destruct (st_items s !! snapshot_name (st_counter s + 1)) as [it|] eqn:E; [exfalso | done].
    destruct (Hok _ it E) as (_ & n & Hn & En). apply snapshot_name_inj in En; lia. }
  split; [intros id Hid; by rewrite lookup_insert_ne |].
  intros Hp Hs Ht Hnow Hlt.
  exists (MkInMemorySnapshotStore (<[snapshot_name (st_counter s + 1) := item]> (st_items s))
            (st_counter s + 1) (st_now s) (S (S (st_reads s)))).
  split; [| reflexivity].
  unfold snapshot_get. eapply M_bind_intro; [reflexivity |].
  eapply M_bind_intro.
  { unfold lift, accessible. rewrite Hp. cbn [mbind result_bind raise_if].
    rewrite bool_decide_eq_true_2 by exact Hs. cbn [negb raise_if st_items sr_snapshot_id mbind result_bind].
    rewrite lookup_insert_eq. cbn [ss_tenant_id sr_tenant_id item].
    rewrite Ht, String.eqb_refl. cbn [negb orb raise_if].
    unfold validate_reference. cbn [sr_classification ss_classification sr_value_hash
      ss_reference_hash sr_expires_at ss_expires_at item].
    rewrite String.eqb_refl, !bool_decide_eq_true_2 by done. reflexivity. }
  eapply M_bind_intro.
  { unfold store_now. eapply M_bind_intro; [reflexivity |]. eapply M_bind_intro; [reflexivity |].
    cbv zeta. cbn [st_now st_reads]. destruct Hnow as [o ->]. reflexivity. }
  cbn [ss_expires_at item]. unfold instant in *. cbn [dt_wall dt_utcoffset].
  rewrite (proj2 (Z.leb_gt _ _)) by lia.
  cbn [ss_value ss_integrity_hash item]. rewrite String.eqb_refl. reflexivity.
Qed.

(** Snapshots do not leave their tenant: a value is returned only to a
    verified principal with the read scope whose tenant is both the one the
    snapshot was stored for and the one of the reference, with matching
    reference metadata, before the snapshot expires and with an intact hash;
    and a read changes nothing but dropping the one expired snapshot. *)
Theorem snapshot_get_isolated (ref : SnapshotRef) (p : ExecutionPrincipal)
    (s s' : InMemorySnapshotStore) (r : result value) :
  snapshot_get ref p s = (r, s') ->
  (forall v, r = Ok v -> exists item, st_items s !! sr_snapshot_id ref = Some item
     /\ principal_validate p true = Ok tt /\ "nsl:replay:read" ∈ pr_scopes p
     /\ ss_tenant_id item = pr_tenant_id p /\ sr_tenant_id ref = pr_tenant_id p
     /\ sr_classification ref = ss_classification item
     /\ sr_value_hash ref = ss_reference_hash item
     /\ (instant (st_now s (st_reads s)) < instant (ss_expires_at item))%Z
     /\ ss_value item = v /\ ss_integrity_hash item = value_hash v
     /\ st_items s' = st_items s)
  /\ (st_items s' = st_items s
      \/ exists item, st_items s !! sr_snapshot_id ref = Some item
         /\ (instant (ss_expires_at item) <= instant (st_now s (st_reads s)))%Z
         /\ st_items s' = base.delete (sr_snapshot_id ref) (st_items s)
         /\ is_Ok r = false).
Proof.
  cbv [snapshot_get mbind M_bind get lift store_now modify mret M_ret fail fail_if drop_item].
  destruct (accessible "nsl:replay:read" ref p s) as [item|e] eqn:Ha;
    [| intros [= <- <-]; split; [done | by left]].
  unfold accessible in Ha. inv_result.
  destruct (st_items s !! sr_snapshot_id ref) as [it|] eqn:Hit; [| discriminate Ha].
  inv_result. split_bool. unfold validate_reference in *. inv_result. split_bool.
  repeat match goal with H : String.eqb _ _ = true |- _ => apply String.eqb_eq in H end.
  destruct (dt_utcoffset (st_now s (st_reads s))) as [o|];
    [| intros [= <- <-]; split; [done | by left]].
  destruct (Z.leb_spec (instant (ss_expires_at item)) (instant (st_now s (st_reads s)))).
  { intros [= <- <-]. split; [done |]. right. exists item. done. }
  destruct (String.eqb_spec (value_hash (ss_value item)) (ss_integrity_hash item)) as [E|];
    [| intros [= <- <-]; split; [done | by left]].
  intros [= <- <-]. split; [| by left]. intros v [= <-]. exists item.
  destruct x. repeat split; done.
Qed.

(** ** Witnesses *)

Definition reading_principal : ExecutionPrincipal :=
  MkExecutionPrincipal "tenant-1" "auditor-1" "USER" ∅ {["nsl:replay:read"]} "auth-ctx-2"
    P_VERIFIED None.

Definition example_recorder : AuditRecorder :=
  new_AuditRecorder default_DataHandlingPolicy "exec-1" "skill.a" "1.0.0" "sha256:0" "0.1.0"
    (Some reading_principal).

Definition example_emissions : list emission :=
  [MkEmission "EXECUTION_STARTED" [("input", VStr "password: hunter2")] INTERNAL None None;
   MkEmission "EMIT_COMPLETED" [("values", VDict [("total", VInt 7)])] CONFIDENTIAL None
     (Some [("node_id", VStr "n1")])].

Definition example_events : list AuditEvent := Eval vm_compute in
  (emit_all (S := list AuditEvent) example_emissions (example_recorder, [])).2.

Lemma example_events_chained : chained 0 None example_events.
Proof. vm_compute. repeat split. Qed.

Example example_payloads :
  map ae_payload (take 1 example_events) = [[("input", JStr "password: [REDACTED]")]]
  /\ map (fun e => map fst (ae_payload e)) (drop 1 example_events)
     = [["node_id"; "redacted"; "value_hash"]].
Proof. split; reflexivity. Qed.

Lemma audit_recorder_chains_witness :
  exists events, example_events = events /\ chained 0 None events /\ length events = 2.
Proof.
  destruct (audit_recorder_chains (S := list AuditEvent) example_emissions example_recorder [])
    as (events & H1 & H2 & _).
  exists events. split; [| split; [exact H2 |]].
  - rewrite <- (app_nil_l events). etransitivity; [| exact H1]. vm_compute. reflexivity.
  - assert (example_events = events) as <-; [| reflexivity].
    rewrite <- (app_nil_l events). etransitivity; [| exact H1]. vm_compute. reflexivity.
Defined.

Lemma audit_history_binding_witness :
  Forall2 same_event example_events example_events
  \/ exists e f, e ∈ example_events /\ f ∈ example_events
     /\ collision (event_document e) (event_document f).
Proof.
  exact (audit_history_binding example_events example_events example_events_chained
           example_events_chained eq_refl).
Defined.

Definition example_event : AuditEvent := Eval vm_compute in
  default (draft_event example_recorder (MkEmission "" [] INTERNAL None None))
    (head example_events).

Lemma audit_event_roundtrip_witness :
  event_from_data (event_to_data example_event) = Ok example_event.
Proof.
  apply (proj1 (audit_event_roundtrip example_event)).
  split; [repeat constructor; discriminate |]. split; [repeat constructor; discriminate |].
  split; [reflexivity | vm_compute; reflexivity].
Defined.

Definition noon : datetime := utc 63844805045000000.

Definition example_put := snapshot_put "tenant-1" (VInt 42) CONFIDENTIAL 30 None
  (new_InMemorySnapshotStore (fun _ => noon)).
Definition example_ref : SnapshotRef := Eval vm_compute in
  from_result (MkSnapshotRef "" "" PUBLIC "" None) example_put.1.
Definition example_store_item : StoredSnapshot := Eval vm_compute in
  MkStoredSnapshot "tenant-1" CONFIDENTIAL (VInt 42) (value_hash (VInt 42))
    (value_hash (VInt 42)) 30 (utc (63844805045000000 + 30 * us_per_day)).
Definition example_store : InMemorySnapshotStore :=
  MkInMemorySnapshotStore {["snapshot-000001" := example_store_item]} 1 (fun _ => noon) 1.

Lemma example_put_eq : example_put = (Ok example_ref, example_store).
Proof. vm_compute. reflexivity. Qed.

Lemma reading_principal_valid : principal_validate reading_principal true = Ok tt.
Proof. vm_compute. reflexivity. Qed.

Lemma snapshot_put_get_witness :
  exists s'', snapshot_get example_ref reading_principal example_store = (Ok (VInt 42), s'')
    /\ st_items s'' = st_items example_store.
Proof.
  apply (snapshot_put_get "tenant-1" (VInt 42) CONFIDENTIAL 30 None
           (new_InMemorySnapshotStore (fun _ => noon)) example_store example_ref
           reading_principal (new_store_ok _) example_put_eq).
  - exact reading_principal_valid.
  - apply (bool_decide_eq_true _). vm_compute. reflexivity.
  - reflexivity.
  - by exists 0%Z.
  - reflexivity.
Defined.

Lemma snapshot_get_isolated_witness :
  exists item, st_items example_store !! "snapshot-000001" = Some item
    /\ ss_tenant_id item = "tenant-1".
Proof.
  destruct (snapshot_get_isolated example_ref reading_principal example_store
    (MkInMemorySnapshotStore (st_items example_store) 1 (fun _ => noon) 2) (Ok (VInt 42)))
    as [H _].
  - vm_compute. reflexivity.
  - destruct (H (VInt 42) eq_refl) as (item & Hit & _ & _ & Ht & _).
    exists item. split; [exact Hit | exact Ht].
Defined.
