(* ===== verification/WriteRecords.v ===== *)
(** * Records of WRITE outcomes ([src/nsl/write_execution.py], lines 541-788)

    Outcome identities, the three outcomes a provider may report, the durable
    outcome record with its hash, its receipt and the journal entry. *)

From S2P Require Import Prelude Digest Json Core DataProtection Ir.

(** The private validation helpers of the module, with its exception class. *)
Notation write_text := (required_text WriteExecutionError).
Notation write_optional_text := (optional_text WriteExecutionError).
Notation write_sha256 := (sha256_text WriteExecutionError).
Notation write_utc := (utc_instant WriteExecutionError).

(** [key.startswith("idem:sha256:") and len(key) == 76] *)
Definition is_idempotency_key (key : string) : bool :=
  startswith key "idem:sha256:" && (String.length key =? 76).

Record WriteOutcomeIdentity : Type := MkWriteOutcomeIdentity {
  wo_tenant_id : string;
  wo_business_operation_id : string;
  wo_invocation_id : string;
  wo_node_id : string;
  wo_tool_id : string;
  wo_idempotency_key : string;
  wo_payload_hash : string;
  wo_approval_request_id : string;
  wo_write_intent_hash : string
}.

#[export] Instance WriteOutcomeIdentity_eq_dec : EqDecision WriteOutcomeIdentity.
Proof. solve_decision. Defined.

Definition WriteOutcomeIdentity_post_init (i : WriteOutcomeIdentity) : result unit :=
  _ ← required_texts WriteExecutionError
        [("WriteOutcomeIdentity.tenant_id", wo_tenant_id i);
         ("WriteOutcomeIdentity.business_operation_id", wo_business_operation_id i);
         ("WriteOutcomeIdentity.invocation_id", wo_invocation_id i);
         ("WriteOutcomeIdentity.node_id", wo_node_id i);
         ("WriteOutcomeIdentity.tool_id", wo_tool_id i);
         ("WriteOutcomeIdentity.approval_request_id", wo_approval_request_id i)];
  key ← write_text (wo_idempotency_key i) "WriteOutcomeIdentity.idempotency_key";
  _ ← raise_if (negb (is_idempotency_key key)) WriteOutcomeError
        "WriteOutcomeIdentity.idempotency_key must be an idem SHA-256 value";
  _ ← write_sha256 (wo_payload_hash i) "WriteOutcomeIdentity.payload_hash";
  _ ← write_sha256 (wo_write_intent_hash i) "WriteOutcomeIdentity.write_intent_hash";
  Ok tt.

(** [_validate_evidence_refs] *)
Definition _validate_evidence_refs (refs : list string) (owner : string) : result unit :=
  _ ← raise_if (negb (forallb non_blank refs)) TypeError
        (owner +:+ ".evidence_refs must be a tuple of non-empty strings");
  ensure_no_credential_material (VTuple (map VStr refs)) (owner +:+ ".evidence_refs").

Record WriteResultEnvelope : Type := MkWriteResultEnvelope {
  wr_identity : WriteOutcomeIdentity;
  wr_value : ValueEnvelope;
  wr_business_reference : string;
  wr_provider_transaction_id : option string;
  wr_committed_at : datetime;
  wr_evidence_refs : list string
}.

Definition WriteResultEnvelope_post_init (r : WriteResultEnvelope) : result unit :=
  _ ← write_text (wr_business_reference r) "WriteResultEnvelope.business_reference";
  _ ← write_optional_text (wr_provider_transaction_id r)
        "WriteResultEnvelope.provider_transaction_id";
  _ ← write_utc (wr_committed_at r) "WriteResultEnvelope.committed_at";
  _validate_evidence_refs (wr_evidence_refs r) "WriteResultEnvelope".

(** The fields [WriteNotCommitted] and [WriteCommitUnknown] share. *)
Record WriteFailure : Type := MkWriteFailure {
  wf_identity : WriteOutcomeIdentity;
  wf_reason_code : string;
  wf_message : string;
  wf_provider_transaction_id : option string;
  wf_evidence_refs : list string
}.

Definition WriteFailure_post_init (owner : string) (f : WriteFailure) : result unit :=
  _ ← write_text (wf_reason_code f) (owner +:+ ".reason_code");
  _ ← write_text (wf_message f) (owner +:+ ".message");
  _ ← write_optional_text (wf_provider_transaction_id f)
        (owner +:+ ".provider_transaction_id");
  _validate_evidence_refs (wf_evidence_refs f) owner.

Inductive WriteExecutionOutcome : Type :=
  | WriteCommitted (result : WriteResultEnvelope)
  | WriteNotCommitted (failure : WriteFailure)
  | WriteCommitUnknown (failure : WriteFailure).

Definition WriteExecutionOutcome_post_init (o : WriteExecutionOutcome) : result unit :=
  match o with
  | WriteCommitted r => WriteResultEnvelope_post_init r
  | WriteNotCommitted f => WriteFailure_post_init "WriteNotCommitted" f
  | WriteCommitUnknown f => WriteFailure_post_init "WriteCommitUnknown" f
  end.

Definition outcome_identity (o : WriteExecutionOutcome) : WriteOutcomeIdentity :=
  match o with
  | WriteCommitted r => wr_identity r
  | WriteNotCommitted f | WriteCommitUnknown f => wf_identity f
  end.

Definition outcome_commit_state (o : WriteExecutionOutcome) : CommitState :=
  match o with
  | WriteCommitted _ => COMMITTED
  | WriteNotCommitted _ => NOT_COMMITTED
  | WriteCommitUnknown _ => UNKNOWN_COMMIT_STATE
  end.

Record WriteOutcomeRecord : Type := MkWriteOutcomeRecord {
  or_requested_record_hash : string;
  or_identity : WriteOutcomeIdentity;
  or_commit_state : CommitState;
  or_reason_code : option string;
  or_provider_transaction_id : option string;
  or_business_reference : option string;
  or_evidence_refs : list string;
  or_recorded_at : datetime
}.

#[export] Instance WriteOutcomeRecord_eq_dec : EqDecision WriteOutcomeRecord.
Proof. solve_decision. Defined.

Definition WriteOutcomeRecord_post_init (r : WriteOutcomeRecord) : result unit :=
  _ ← write_sha256 (or_requested_record_hash r) "WriteOutcomeRecord.requested_record_hash";
  _ ← write_optional_text (or_reason_code r) "WriteOutcomeRecord.reason_code";
  _ ← write_optional_text (or_provider_transaction_id r)
        "WriteOutcomeRecord.provider_transaction_id";
  _ ← write_optional_text (or_business_reference r)
        "WriteOutcomeRecord.business_reference";
  _ ← _validate_evidence_refs (or_evidence_refs r) "WriteOutcomeRecord";
  _ ← write_utc (or_recorded_at r) "WriteOutcomeRecord.recorded_at";
  Ok tt.

Definition json_opt (o : option string) : json :=
  match o with Some s => JStr s | None => JNull end.

Definition outcome_record_payload (r : WriteOutcomeRecord) : json :=
  let i := or_identity r in
  JObj [("requested_record_hash", JStr (or_requested_record_hash r));
        ("tenant_id", JStr (wo_tenant_id i));
        ("business_operation_id", JStr (wo_business_operation_id i));
        ("invocation_id", JStr (wo_invocation_id i));
        ("node_id", JStr (wo_node_id i));
        ("tool_id", JStr (wo_tool_id i));
        ("idempotency_key", JStr (wo_idempotency_key i));
        ("payload_hash", JStr (wo_payload_hash i));
        ("approval_request_id", JStr (wo_approval_request_id i));
        ("write_intent_hash", JStr (wo_write_intent_hash i));
        ("commit_state", JStr (commit_state_value (or_commit_state r)));
        ("reason_code", json_opt (or_reason_code r));
        ("provider_transaction_id", json_opt (or_provider_transaction_id r));
        ("business_reference", json_opt (or_business_reference r));
        ("evidence_refs", JArr (map JStr (or_evidence_refs r)));
        ("recorded_at", JStr (datetime_isoformat (or_recorded_at r)))].

(** A hash domain: its ASCII label and the separating zero byte. *)
Definition hash_domain (label : string) : list ascii := chars label ++ ["000"%char].

Definition _WRITE_OUTCOME_DOMAIN : list ascii := hash_domain "NSL-WRITE-OUTCOME-V1".

Definition outcome_record_hash (r : WriteOutcomeRecord) : string :=
  sha256_ref (_WRITE_OUTCOME_DOMAIN ++ canonical_json (outcome_record_payload r)).

Record WriteOutcomeReceipt : Type := MkWriteOutcomeReceipt {
  oc_record_hash : string;
  oc_durable_ref : string;
  oc_persisted_at : datetime
}.

Definition WriteOutcomeReceipt_post_init (r : WriteOutcomeReceipt) : result unit :=
  _ ← write_sha256 (oc_record_hash r) "WriteOutcomeReceipt.record_hash";
  _ ← write_text (oc_durable_ref r) "WriteOutcomeReceipt.durable_ref";
  _ ← write_utc (oc_persisted_at r) "WriteOutcomeReceipt.persisted_at";
  Ok tt.

Record WriteJournalEntry : Type := MkWriteJournalEntry {
  je_record : WriteOutcomeRecord;
  je_durable_ref : string
}.

Definition WriteJournalEntry_post_init (e : WriteJournalEntry) : result unit :=
  _ ← write_text (je_durable_ref e) "WriteJournalEntry.durable_ref"; Ok tt.

Definition new_WriteJournalEntry (record : WriteOutcomeRecord) (durable_ref : string)
  : result WriteJournalEntry :=
  let e := MkWriteJournalEntry record durable_ref in
  _ ← WriteJournalEntry_post_init e; Ok e.
