(* ===== verification/RuntimeModels.v ===== *)
(** * Runtime models ([src/nsl/runtime_models.py])

    Execution requests and results, validation summaries, the resource guard
    and the execution context with its immutable bindings. *)

From S2P Require Import Prelude Digest Json Decimal Core DataProtection Ir Security.
From S2P Require Import WriteRecords.

Definition _NANOSECONDS_PER_MILLISECOND : Z := 1000000.
Definition MAX_FOREACH_NESTING_DEPTH : Z := 16.

(** ** Identities and requests *)

Notation _required_identity := (required_text ValueError).
Notation _optional_identity := (optional_text ValueError).

Record ExecutionIdentity : Type := MkExecutionIdentity {
  id_execution_id : string;
  id_business_operation_id : option string
}.

Definition ExecutionIdentity_post_init (i : ExecutionIdentity) : result unit :=
  _ ← _required_identity (id_execution_id i) "ExecutionIdentity.execution_id";
  _ ← _optional_identity (id_business_operation_id i)
        "ExecutionIdentity.business_operation_id";
  Ok tt.

Record ExecutionSecurityContext : Type := MkExecutionSecurityContext {
  sc_principal : ExecutionPrincipal;
  sc_data_policy : DataHandlingPolicy
}.

Record ExecutionRequest : Type := MkExecutionRequest {
  rq_execution_id : string;
  rq_inputs : list (string * value);
  rq_runtime_context : list (string * value);
  rq_principal : ExecutionPrincipal;
  rq_data_policy : DataHandlingPolicy;
  rq_business_operation_id : option string
}.

Definition ExecutionRequest_post_init (r : ExecutionRequest) : result unit :=
  _ ← _required_identity (rq_execution_id r) "ExecutionRequest.execution_id";
  _ ← _optional_identity (rq_business_operation_id r)
        "ExecutionRequest.business_operation_id";
  _ ← ensure_no_credential_material (VDict (rq_inputs r)) "ExecutionRequest.inputs";
  ensure_no_credential_material (VDict (rq_runtime_context r))
    "ExecutionRequest.runtime_context".

Definition request_identity (r : ExecutionRequest) : result ExecutionIdentity :=
  let i := MkExecutionIdentity (rq_execution_id r) (rq_business_operation_id r) in
  _ ← ExecutionIdentity_post_init i; Ok i.

Definition request_security_context (r : ExecutionRequest) : ExecutionSecurityContext :=
  MkExecutionSecurityContext (rq_principal r) (rq_data_policy r).

(** [highest_declared_classification], over the declarations' classifications. *)
Definition highest_declared_classification (specs : list DataClassification)
  : DataClassification :=
  fold_left (fun c x => highest_classification c [x]) specs PUBLIC.

(** ** Projection onto the declared inputs and contexts *)

Definition project_declared_inputs (skill : SkillObject) (inputs : list (string * value))
  : list (string * value) :=
  build_dict (omap (fun spec =>
    match assoc (in_name spec) inputs with
    | Some v => Some (in_name spec, v)
    | None => None
    end) (sk_inputs skill)).

(** [for part in path: value = value[part]]; [None] is the [KeyError] or
    [TypeError] that skips the declaration. *)
Fixpoint lookup_path (path : list string) (v : value) : option value :=
  match path with
  | [] => Some v
  | part :: path =>
      match v with
      | VDict d => match assoc part d with Some w => lookup_path path w | None => None end
      | _ => None
      end
  end.

(** [target.setdefault(part, {})] along the path, then the assignment. *)
Fixpoint assign_path (path : list string) (v : value) (d : list (string * value))
  : result (list (string * value)) :=
  match path with
  | [] => raise IndexError "tuple index out of range"
  | [part] => Ok (assoc_set part v d)
  | part :: path =>
      match assoc part d with
      | None => sub ← assign_path path v []; Ok (assoc_set part (VDict sub) d)
      | Some (VDict sub) => sub ← assign_path path v sub; Ok (assoc_set part (VDict sub) d)
      | Some _ => raise AttributeError "object has no attribute 'setdefault'"
      end
  end.

Definition project_declared_context (skill : SkillObject)
    (runtime_context : list (string * value)) : result (list (string * value)) :=
  fold_left (fun acc spec =>
    projected ← acc;
    match lookup_path (cx_path spec) (VDict runtime_context) with
    | None => Ok projected
    | Some v => assign_path (cx_path spec) v projected
    end) (sk_contexts skill) (Ok []).

(** ** Check results and their summary *)

Record CheckResult : Type := MkCheckResult {
  cr_check_id : string;
  cr_status : CheckStatus;
  cr_severity : string;
  cr_message : string;
  cr_condition_node_id : string;
  cr_presence : Presence;
  cr_completeness : Completeness;
  cr_provenance_refs : list string;
  cr_reason_code : option string
}.

Inductive ValidationSummaryStatus : Type :=
  | ALL_PASS | HAS_FAIL | HAS_UNKNOWN | HAS_FAIL_AND_UNKNOWN | NO_CHECK.

#[export] Instance ValidationSummaryStatus_eq_dec : EqDecision ValidationSummaryStatus.
Proof. solve_decision. Defined.

Definition _summary_status (total_count fail_count unknown_count : Z)
  : ValidationSummaryStatus :=
  if (total_count =? 0)%Z then NO_CHECK
  else if negb (fail_count =? 0)%Z && negb (unknown_count =? 0)%Z
       then HAS_FAIL_AND_UNKNOWN
  else if negb (fail_count =? 0)%Z then HAS_FAIL
  else if negb (unknown_count =? 0)%Z then HAS_UNKNOWN
  else ALL_PASS.

Record ValidationSummary : Type := MkValidationSummary {
  vs_status : ValidationSummaryStatus;
  vs_total_count : Z;
  vs_pass_count : Z;
  vs_fail_count : Z;
  vs_unknown_count : Z;
  vs_failed_check_ids : list string;
  vs_unknown_check_ids : list string
}.

Definition summary_ids_valid (ids : list string) (expected_count : Z) : bool :=
  (Z.of_nat (length ids) =? expected_count)%Z && bool_decide (sort_strings ids = ids)
  && no_duplicates ids && forallb non_blank ids.

Definition ValidationSummary_post_init (s : ValidationSummary) : result unit :=
  _ ← raise_if (negb (forallb (fun n => 0 <=? n)%Z
        [vs_total_count s; vs_pass_count s; vs_fail_count s; vs_unknown_count s]))
        ValueError "ValidationSummary counts must be non-negative integers";
  _ ← raise_if (negb (vs_total_count s
                      =? vs_pass_count s + vs_fail_count s + vs_unknown_count s)%Z)
        ValueError "ValidationSummary counts do not add up";
  _ ← raise_if (negb (bool_decide (vs_status s
        = _summary_status (vs_total_count s) (vs_fail_count s) (vs_unknown_count s))))
        ValueError "ValidationSummary status does not match counts";
  _ ← raise_if (negb (summary_ids_valid (vs_failed_check_ids s) (vs_fail_count s)))
        ValueError "ValidationSummary.failed_check_ids is invalid";
  _ ← raise_if (negb (summary_ids_valid (vs_unknown_check_ids s) (vs_unknown_count s)))
        ValueError "ValidationSummary.unknown_check_ids is invalid";
  raise_if (existsb (fun x => bool_decide (x ∈ vs_unknown_check_ids s))
              (vs_failed_check_ids s))
    ValueError "ValidationSummary check outcomes overlap".

Definition check_has (s : CheckStatus) (c : CheckResult) : bool :=
  bool_decide (cr_status c = s).

Definition ids_with (s : CheckStatus) (checks : list CheckResult) : list string :=
  sort_strings (map cr_check_id (List.filter (check_has s) checks)).

(** [ValidationSummary.from_checks] *)
Definition from_checks (checks : list CheckResult) : result ValidationSummary :=
  let check_ids := map cr_check_id checks in
  _ ← raise_if (negb (forallb non_blank check_ids) || negb (no_duplicates check_ids))
        ValueError "check IDs must be unique non-empty strings";
  let failed := ids_with FAIL checks in
  let unknown := ids_with CHECK_UNKNOWN checks in
  let count (l : list string) := Z.of_nat (length l) in
  let s := MkValidationSummary
    (_summary_status (Z.of_nat (length checks)) (count failed) (count unknown))
    (Z.of_nat (length checks))
    (Z.of_nat (length (List.filter (check_has PASS) checks)))
    (count failed) (count unknown) failed unknown in
  _ ← ValidationSummary_post_init s; Ok s.

Definition summary_status_value (s : ValidationSummaryStatus) : string :=
  match s with
  | ALL_PASS => "ALL_PASS" | HAS_FAIL => "HAS_FAIL" | HAS_UNKNOWN => "HAS_UNKNOWN"
  | HAS_FAIL_AND_UNKNOWN => "HAS_FAIL_AND_UNKNOWN" | NO_CHECK => "NO_CHECK"
  end.

Definition validation_summary_to_data (s : ValidationSummary) : json :=
  JObj [("status", JStr (summary_status_value (vs_status s)));
        ("total_count", JInt (vs_total_count s)); ("pass_count", JInt (vs_pass_count s));
        ("fail_count", JInt (vs_fail_count s));
        ("unknown_count", JInt (vs_unknown_count s));
        ("failed_check_ids", JArr (map JStr (vs_failed_check_ids s)));
        ("unknown_check_ids", JArr (map JStr (vs_unknown_check_ids s)))].

(** ** Emitted records, usage and summaries of a result *)

Record EmitRecord : Type := MkEmitRecord { er_fields : list (string * ValueEnvelope) }.

(** [bool(name)]: the empty name is refused, a blank one is not. *)
Definition new_EmitRecord (fields : list (string * ValueEnvelope)) : result EmitRecord :=
  _ ← raise_if (negb (forallb (fun f => negb (String.eqb f.1 "")) fields)) ValueError
        "emit fields must map names to ValueEnvelope values";
  Ok (MkEmitRecord fields).

Definition emit_values (r : EmitRecord) : list (string * value) :=
  map (fun f => (f.1, ve_value f.2)) (er_fields r).

Definition emit_classifications (r : EmitRecord) : list (string * DataClassification) :=
  map (fun f => (f.1, ve_classification f.2)) (er_fields r).

Record _ResourceMeter : Type := Mk_ResourceMeter {
  tool_calls : Z;
  loop_iterations : Z;
  emitted_rows : Z;
  max_collection_size_seen : Z
}.

Definition zero_meter : _ResourceMeter := Mk_ResourceMeter 0 0 0 0.

Record RuntimeErrorInfo : Type := MkRuntimeErrorInfo {
  ei_code : string;
  ei_category : string;
  ei_message : string;
  ei_node_id : option string;
  ei_detail_code : option string
}.

Record ApprovalSummary : Type := MkApprovalSummary {
  aps_status : ApprovalStatus;
  aps_approval_id : string;
  aps_approval_request_id : option string
}.

Definition ApprovalSummary_post_init (s : ApprovalSummary) : result unit :=
  _ ← _required_identity (aps_approval_id s) "ApprovalSummary.approval_id";
  _ ← _optional_identity (aps_approval_request_id s) "ApprovalSummary.approval_request_id";
  Ok tt.

Record WriteSummary : Type := MkWriteSummary {
  ws_commit_state : CommitState;
  ws_tool_id : string;
  ws_node_id : string;
  ws_idempotency_key : string;
  ws_payload_hash : string;
  ws_provider_transaction_id : option string;
  ws_business_reference : option string
}.

Definition WriteSummary_post_init (s : WriteSummary) : result unit :=
  _ ← required_texts ValueError
        [("WriteSummary.tool_id", ws_tool_id s); ("WriteSummary.node_id", ws_node_id s);
         ("WriteSummary.idempotency_key", ws_idempotency_key s);
         ("WriteSummary.payload_hash", ws_payload_hash s)];
  _ ← _optional_identity (ws_provider_transaction_id s)
        "WriteSummary.provider_transaction_id";
  _ ← _optional_identity (ws_business_reference s) "WriteSummary.business_reference";
  Ok tt.

Definition new_WriteSummary commit_state tool_id node_id key payload_hash tx reference
  : result WriteSummary :=
  let s := MkWriteSummary commit_state tool_id node_id key payload_hash tx reference in
  _ ← WriteSummary_post_init s; Ok s.

Record VerificationSummary : Type := MkVerificationSummary {
  vfs_status : VerificationStatus;
  vfs_reason_code : option string;
  vfs_evidence_ref : option string
}.

Definition VerificationSummary_post_init (s : VerificationSummary) : result unit :=
  _ ← _optional_identity (vfs_reason_code s) "VerificationSummary.reason_code";
  _ ← _optional_identity (vfs_evidence_ref s) "VerificationSummary.evidence_ref";
  Ok tt.

Record SuspensionInfo : Type := MkSuspensionInfo {
  su_reason : string;
  su_checkpoint_version : Z;
  su_approval_id : string;
  su_approval_request_id : string
}.

Definition SuspensionInfo_post_init (s : SuspensionInfo) : result unit :=
  _ ← _required_identity (su_reason s) "SuspensionInfo.reason";
  _ ← raise_if (su_checkpoint_version s <=? 0)%Z ValueError
        "SuspensionInfo.checkpoint_version must be positive";
  _ ← _required_identity (su_approval_id s) "SuspensionInfo.approval_id";
  _ ← _required_identity (su_approval_request_id s) "SuspensionInfo.approval_request_id";
  Ok tt.

Record ExecutionResult : Type := MkExecutionResult {
  xr_execution_id : string;
  xr_skill_id : string;
  xr_skill_version : string;
  xr_semantic_hash : string;
  xr_status : ExecutionStatus;
  xr_completeness : Completeness;
  xr_checks : list CheckResult;
  xr_outputs : list EmitRecord;
  xr_resources : _ResourceMeter;
  xr_error : option RuntimeErrorInfo;
  xr_validation : option ValidationSummary;
  xr_pre_write_eligibility : option PreWriteEligibility;
  xr_approval : option ApprovalSummary;
  xr_write : option WriteSummary;
  xr_verification : option VerificationSummary;
  xr_suspension : option SuspensionInfo
}.

(** ** The execution context *)

Record IdempotencyState : Type := MkIdempotencyState {
  keys_by_write_node : gmap string string;
  payload_hashes_by_write_node : gmap string string
}.

Record CheckpointState : Type := MkCheckpointState {
  ck_checkpoint_version : Z;
  ck_last_completed_node_id : option string;
  ck_suspended_at_node_id : option string;
  ck_trace_sequence : Z;
  ck_approval_request_published : bool;
  ck_write_request_durable : bool;
  ck_approval_request_ids_by_write_node : gmap string string;
  ck_write_intent_hashes_by_write_node : gmap string string;
  ck_payload_hashes_by_write_node : gmap string string
}.

Definition default_CheckpointState : CheckpointState :=
  MkCheckpointState 0 None None 0 false false ∅ ∅ ∅.

Notation frame := (gmap string ValueEnvelope).

(** [runtime_clock] gives the n-th reading of the monotonic clock;
    [clock_reads] counts the readings made. The innermost frame, the last
    element of the Python list, is the head here. *)
Record ExecutionContext : Type := MkExecutionContext {
  ctx_skill : SkillObject;
  ctx_request : ExecutionRequest;
  ctx_runtime_clock : nat -> Z;
  ctx_clock_reads : nat;
  ctx_started_ns : Z;
  ctx_identity : ExecutionIdentity;
  ctx_security_context : ExecutionSecurityContext;
  ctx_input_values : frame;
  ctx_context_values : frame;
  ctx_frames : list frame;
  ctx_check_frames : list frame;
  ctx_checks : list CheckResult;
  ctx_outputs : list EmitRecord;
  ctx_resources : _ResourceMeter;
  ctx_data_completeness : Completeness;
  ctx_invocation_counter : Z;
  ctx_foreach_depth : Z;
  ctx_current_node_id : option string;
  ctx_approvals : gmap string ApprovalStatus;
  ctx_writes : list WriteJournalEntry;
  ctx_idempotency : IdempotencyState;
  ctx_checkpoint : CheckpointState
}.

Definition set_clock_reads (x : nat) (c : ExecutionContext) : ExecutionContext :=
  MkExecutionContext (ctx_skill c) (ctx_request c) (ctx_runtime_clock c) x
    (ctx_started_ns c) (ctx_identity c) (ctx_security_context c) (ctx_input_values
    c) (ctx_context_values c) (ctx_frames c) (ctx_check_frames c) (ctx_checks c)
    (ctx_outputs c) (ctx_resources c) (ctx_data_completeness c)
    (ctx_invocation_counter c) (ctx_foreach_depth c) (ctx_current_node_id c)
    (ctx_approvals c) (ctx_writes c) (ctx_idempotency c) (ctx_checkpoint c).
Definition set_input_values (x : frame) (c : ExecutionContext) : ExecutionContext :=
  MkExecutionContext (ctx_skill c) (ctx_request c) (ctx_runtime_clock c)
    (ctx_clock_reads c) (ctx_started_ns c) (ctx_identity c) (ctx_security_context c)
    x (ctx_context_values c) (ctx_frames c) (ctx_check_frames c) (ctx_checks c)
    (ctx_outputs c) (ctx_resources c) (ctx_data_completeness c)
    (ctx_invocation_counter c) (ctx_foreach_depth c) (ctx_current_node_id c)
    (ctx_approvals c) (ctx_writes c) (ctx_idempotency c) (ctx_checkpoint c).
Definition set_context_values (x : frame) (c : ExecutionContext) : ExecutionContext :=
  MkExecutionContext (ctx_skill c) (ctx_request c) (ctx_runtime_clock c)
    (ctx_clock_reads c) (ctx_started_ns c) (ctx_identity c) (ctx_security_context c)
    (ctx_input_values c) x (ctx_frames c) (ctx_check_frames c) (ctx_checks c)
    (ctx_outputs c) (ctx_resources c) (ctx_data_completeness c)
    (ctx_invocation_counter c) (ctx_foreach_depth c) (ctx_current_node_id c)
    (ctx_approvals c) (ctx_writes c) (ctx_idempotency c) (ctx_checkpoint c).
Definition set_frames (x : list frame) (c : ExecutionContext) : ExecutionContext :=
  MkExecutionContext (ctx_skill c) (ctx_request c) (ctx_runtime_clock c)
    (ctx_clock_reads c) (ctx_started_ns c) (ctx_identity c) (ctx_security_context c)
    (ctx_input_values c) (ctx_context_values c) x (ctx_check_frames c) (ctx_checks
    c) (ctx_outputs c) (ctx_resources c) (ctx_data_completeness c)
    (ctx_invocation_counter c) (ctx_foreach_depth c) (ctx_current_node_id c)
    (ctx_approvals c) (ctx_writes c) (ctx_idempotency c) (ctx_checkpoint c).
Definition set_check_frames (x : list frame) (c : ExecutionContext) : ExecutionContext :=
  MkExecutionContext (ctx_skill c) (ctx_request c) (ctx_runtime_clock c)
    (ctx_clock_reads c) (ctx_started_ns c) (ctx_identity c) (ctx_security_context c)
    (ctx_input_values c) (ctx_context_values c) (ctx_frames c) x (ctx_checks c)
    (ctx_outputs c) (ctx_resources c) (ctx_data_completeness c)
    (ctx_invocation_counter c) (ctx_foreach_depth c) (ctx_current_node_id c)
    (ctx_approvals c) (ctx_writes c) (ctx_idempotency c) (ctx_checkpoint c).
Definition set_checks (x : list CheckResult) (c : ExecutionContext) : ExecutionContext :=
  MkExecutionContext (ctx_skill c) (ctx_request c) (ctx_runtime_clock c)
    (ctx_clock_reads c) (ctx_started_ns c) (ctx_identity c) (ctx_security_context c)
    (ctx_input_values c) (ctx_context_values c) (ctx_frames c) (ctx_check_frames c)
    x (ctx_outputs c) (ctx_resources c) (ctx_data_completeness c)
    (ctx_invocation_counter c) (ctx_foreach_depth c) (ctx_current_node_id c)
    (ctx_approvals c) (ctx_writes c) (ctx_idempotency c) (ctx_checkpoint c).
Definition set_outputs (x : list EmitRecord) (c : ExecutionContext) : ExecutionContext :=
  MkExecutionContext (ctx_skill c) (ctx_request c) (ctx_runtime_clock c)
    (ctx_clock_reads c) (ctx_started_ns c) (ctx_identity c) (ctx_security_context c)
    (ctx_input_values c) (ctx_context_values c) (ctx_frames c) (ctx_check_frames c)
    (ctx_checks c) x (ctx_resources c) (ctx_data_completeness c)
    (ctx_invocation_counter c) (ctx_foreach_depth c) (ctx_current_node_id c)
    (ctx_approvals c) (ctx_writes c) (ctx_idempotency c) (ctx_checkpoint c).
Definition set_resources (x : _ResourceMeter) (c : ExecutionContext) : ExecutionContext :=
  MkExecutionContext (ctx_skill c) (ctx_request c) (ctx_runtime_clock c)
    (ctx_clock_reads c) (ctx_started_ns c) (ctx_identity c) (ctx_security_context c)
    (ctx_input_values c) (ctx_context_values c) (ctx_frames c) (ctx_check_frames c)
    (ctx_checks c) (ctx_outputs c) x (ctx_data_completeness c)
    (ctx_invocation_counter c) (ctx_foreach_depth c) (ctx_current_node_id c)
    (ctx_approvals c) (ctx_writes c) (ctx_idempotency c) (ctx_checkpoint c).
Definition set_data_completeness (x : Completeness) (c : ExecutionContext) : ExecutionContext :=
  MkExecutionContext (ctx_skill c) (ctx_request c) (ctx_runtime_clock c)
    (ctx_clock_reads c) (ctx_started_ns c) (ctx_identity c) (ctx_security_context c)
    (ctx_input_values c) (ctx_context_values c) (ctx_frames c) (ctx_check_frames c)
    (ctx_checks c) (ctx_outputs c) (ctx_resources c) x (ctx_invocation_counter c)
    (ctx_foreach_depth c) (ctx_current_node_id c) (ctx_approvals c) (ctx_writes c)
    (ctx_idempotency c) (ctx_checkpoint c).
Definition set_invocation_counter (x : Z) (c : ExecutionContext) : ExecutionContext :=
  MkExecutionContext (ctx_skill c) (ctx_request c) (ctx_runtime_clock c)
    (ctx_clock_reads c) (ctx_started_ns c) (ctx_identity c) (ctx_security_context c)
    (ctx_input_values c) (ctx_context_values c) (ctx_frames c) (ctx_check_frames c)
    (ctx_checks c) (ctx_outputs c) (ctx_resources c) (ctx_data_completeness c) x
    (ctx_foreach_depth c) (ctx_current_node_id c) (ctx_approvals c) (ctx_writes c)
    (ctx_idempotency c) (ctx_checkpoint c).
Definition set_foreach_depth (x : Z) (c : ExecutionContext) : ExecutionContext :=
  MkExecutionContext (ctx_skill c) (ctx_request c) (ctx_runtime_clock c)
    (ctx_clock_reads c) (ctx_started_ns c) (ctx_identity c) (ctx_security_context c)
    (ctx_input_values c) (ctx_context_values c) (ctx_frames c) (ctx_check_frames c)
    (ctx_checks c) (ctx_outputs c) (ctx_resources c) (ctx_data_completeness c)
    (ctx_invocation_counter c) x (ctx_current_node_id c) (ctx_approvals c)
    (ctx_writes c) (ctx_idempotency c) (ctx_checkpoint c).
Definition set_current_node_id (x : option string) (c : ExecutionContext) : ExecutionContext :=
  MkExecutionContext (ctx_skill c) (ctx_request c) (ctx_runtime_clock c)
    (ctx_clock_reads c) (ctx_started_ns c) (ctx_identity c) (ctx_security_context c)
    (ctx_input_values c) (ctx_context_values c) (ctx_frames c) (ctx_check_frames c)
    (ctx_checks c) (ctx_outputs c) (ctx_resources c) (ctx_data_completeness c)
    (ctx_invocation_counter c) (ctx_foreach_depth c) x (ctx_approvals c) (ctx_writes
    c) (ctx_idempotency c) (ctx_checkpoint c).
Definition set_approvals (x : gmap string ApprovalStatus) (c : ExecutionContext) : ExecutionContext :=
  MkExecutionContext (ctx_skill c) (ctx_request c) (ctx_runtime_clock c)
    (ctx_clock_reads c) (ctx_started_ns c) (ctx_identity c) (ctx_security_context c)
    (ctx_input_values c) (ctx_context_values c) (ctx_frames c) (ctx_check_frames c)
    (ctx_checks c) (ctx_outputs c) (ctx_resources c) (ctx_data_completeness c)
    (ctx_invocation_counter c) (ctx_foreach_depth c) (ctx_current_node_id c) x
    (ctx_writes c) (ctx_idempotency c) (ctx_checkpoint c).
Definition set_writes (x : list WriteJournalEntry) (c : ExecutionContext) : ExecutionContext :=
  MkExecutionContext (ctx_skill c) (ctx_request c) (ctx_runtime_clock c)
    (ctx_clock_reads c) (ctx_started_ns c) (ctx_identity c) (ctx_security_context c)
    (ctx_input_values c) (ctx_context_values c) (ctx_frames c) (ctx_check_frames c)
    (ctx_checks c) (ctx_outputs c) (ctx_resources c) (ctx_data_completeness c)
    (ctx_invocation_counter c) (ctx_foreach_depth c) (ctx_current_node_id c)
    (ctx_approvals c) x (ctx_idempotency c) (ctx_checkpoint c).
Definition set_idempotency (x : IdempotencyState) (c : ExecutionContext) : ExecutionContext :=
  MkExecutionContext (ctx_skill c) (ctx_request c) (ctx_runtime_clock c)
    (ctx_clock_reads c) (ctx_started_ns c) (ctx_identity c) (ctx_security_context c)
    (ctx_input_values c) (ctx_context_values c) (ctx_frames c) (ctx_check_frames c)
    (ctx_checks c) (ctx_outputs c) (ctx_resources c) (ctx_data_completeness c)
    (ctx_invocation_counter c) (ctx_foreach_depth c) (ctx_current_node_id c)
    (ctx_approvals c) (ctx_writes c) x (ctx_checkpoint c).
Definition set_checkpoint (x : CheckpointState) (c : ExecutionContext) : ExecutionContext :=
  MkExecutionContext (ctx_skill c) (ctx_request c) (ctx_runtime_clock c)
    (ctx_clock_reads c) (ctx_started_ns c) (ctx_identity c) (ctx_security_context c)
    (ctx_input_values c) (ctx_context_values c) (ctx_frames c) (ctx_check_frames c)
    (ctx_checks c) (ctx_outputs c) (ctx_resources c) (ctx_data_completeness c)
    (ctx_invocation_counter c) (ctx_foreach_depth c) (ctx_current_node_id c)
    (ctx_approvals c) (ctx_writes c) (ctx_idempotency c) x.

Definition update_checkpoint (f : CheckpointState -> CheckpointState)
    (c : ExecutionContext) : ExecutionContext := set_checkpoint (f (ctx_checkpoint c)) c.

(** [ExecutionContext(skill, request, runtime_clock)] with its
    [__post_init__]: the guard's start is the first reading of the clock. *)
Definition new_ExecutionContext (skill : SkillObject) (request : ExecutionRequest)
    (clock : nat -> Z) : result ExecutionContext :=
  identity ← request_identity request;
  Ok (MkExecutionContext skill request clock 1 (clock 0) identity
        (request_security_context request) ∅ ∅ [∅] [∅] [] [] zero_meter COMPLETE 0 0 None
        ∅ [] (MkIdempotencyState ∅ ∅) default_CheckpointState).

Definition ctx_tenant_id (c : ExecutionContext) : string :=
  pr_tenant_id (sc_principal (ctx_security_context c)).
Definition ctx_business_operation_id (c : ExecutionContext) : option string :=
  id_business_operation_id (ctx_identity c).
Definition ctx_execution_id (c : ExecutionContext) : string :=
  id_execution_id (ctx_identity c).

Definition X := M ExecutionContext.

(** ** The resource guard

    It holds the limits of the Skill and shares the context's meter. *)

Definition monotonic_ns : X Z := fun c =>
  (Ok (ctx_runtime_clock c (ctx_clock_reads c)), set_clock_reads (S (ctx_clock_reads c)) c).

Definition _remaining_duration_ns : X Z :=
  now ← monotonic_ns;
  c ← get;
  mret (lim_duration_ms (sk_limits (ctx_skill c)) * _NANOSECONDS_PER_MILLISECOND
        - (now - ctx_started_ns c))%Z.

Definition check_deadline : X unit :=
  remaining ← _remaining_duration_ns;
  fail_if (remaining <=? 0)%Z LimitExceeded "execution duration limit exceeded".

Definition remaining_duration_ms : X Z :=
  remaining_ns ← _remaining_duration_ns;
  _ ← fail_if (remaining_ns <=? 0)%Z LimitExceeded "execution duration limit exceeded";
  mret ((remaining_ns + _NANOSECONDS_PER_MILLISECOND - 1)
        / _NANOSECONDS_PER_MILLISECOND)%Z.

Definition _consume (current limit : Z) (message : string) : result Z :=
  _ ← raise_if (limit <=? current)%Z LimitExceeded message; Ok (current + 1)%Z.

Definition before_tool_call : X unit :=
  _ ← check_deadline;
  c ← get;
  let m := ctx_resources c in
  n ← lift (_consume (tool_calls m) (lim_tool_calls (sk_limits (ctx_skill c)))
              "tool call limit exceeded");
  modify (set_resources (Mk_ResourceMeter n (loop_iterations m) (emitted_rows m)
                           (max_collection_size_seen m))).

Definition before_loop_iteration : X unit :=
  _ ← check_deadline;
  c ← get;
  let m := ctx_resources c in
  n ← lift (_consume (loop_iterations m) (lim_loop_iterations (sk_limits (ctx_skill c)))
              "loop iteration limit exceeded");
  modify (set_resources (Mk_ResourceMeter (tool_calls m) n (emitted_rows m)
                           (max_collection_size_seen m))).

Definition before_emit : X unit :=
  _ ← check_deadline;
  c ← get;
  fail_if (lim_emitted_rows (sk_limits (ctx_skill c)) <=? emitted_rows (ctx_resources c))%Z
    LimitExceeded "emitted row limit exceeded".

Definition record_emit : X unit :=
  modify (fun c =>
    let m := ctx_resources c in
    set_resources (Mk_ResourceMeter (tool_calls m) (loop_iterations m)
                     (emitted_rows m + 1) (max_collection_size_seen m)) c).

Definition check_collection (size : Z) : X unit :=
  _ ← check_deadline;
  c ← get;
  fail_if (lim_collection_size (sk_limits (ctx_skill c)) <? size)%Z
    LimitExceeded "collection size limit exceeded".

Definition observe_collection (size : Z) : X unit :=
  _ ← modify (fun c =>
        let m := ctx_resources c in
        set_resources (Mk_ResourceMeter (tool_calls m) (loop_iterations m)
                         (emitted_rows m) (Z.max (max_collection_size_seen m) size)) c);
  check_collection size.

(** ** Bindings *)

Definition _is_bound (c : ExecutionContext) (symbol_id : string) : bool :=
  let has (f : frame) := bool_decide (is_Some (f !! symbol_id)) in
  has (ctx_input_values c) || has (ctx_context_values c)
  || existsb has (ctx_frames c) || existsb has (ctx_check_frames c).

Definition _bind_once (assign : ExecutionContext -> ExecutionContext)
    (symbol_id : string) : X unit :=
  c ← get;
  _ ← fail_if (_is_bound c symbol_id) ImmutableBindingError
        ("immutable symbol already bound: " +:+ symbol_id);
  modify assign.

(** [frames[-1][symbol_id] = value] *)
Definition insert_top (symbol_id : string) (v : ValueEnvelope) (fs : list frame)
  : list frame :=
  match fs with [] => [] | f :: fs => <[symbol_id := v]> f :: fs end.

Definition bind_input (symbol_id : string) (v : ValueEnvelope) : X unit :=
  _bind_once (fun c => set_input_values (<[symbol_id := v]> (ctx_input_values c)) c)
    symbol_id.
Definition bind_context (symbol_id : string) (v : ValueEnvelope) : X unit :=
  _bind_once (fun c => set_context_values (<[symbol_id := v]> (ctx_context_values c)) c)
    symbol_id.
Definition bind (symbol_id : string) (v : ValueEnvelope) : X unit :=
  _bind_once (fun c => set_frames (insert_top symbol_id v (ctx_frames c)) c) symbol_id.
Definition bind_check (symbol_id : string) (v : ValueEnvelope) : X unit :=
  _bind_once (fun c => set_check_frames (insert_top symbol_id v (ctx_check_frames c)) c)
    symbol_id.

Definition push_frame : X unit :=
  modify (fun c => set_check_frames (∅ :: ctx_check_frames c)
                     (set_frames (∅ :: ctx_frames c) c)).

Definition pop_frame : X unit :=
  c ← get;
  _ ← fail_if ((length (ctx_frames c) =? 1) || (length (ctx_check_frames c) =? 1))
        RuntimeError "cannot pop the root execution frame";
  modify (fun c => set_check_frames (tail (ctx_check_frames c))
                     (set_frames (tail (ctx_frames c)) c)).

(** The first frame, from the innermost one, that holds the symbol. *)
Fixpoint find_frame (symbol_id : string) (fs : list frame) : option ValueEnvelope :=
  match fs with
  | [] => None
  | f :: fs => match f !! symbol_id with Some v => Some v | None => find_frame symbol_id fs end
  end.

Definition resolve (c : ExecutionContext) (symbol_id : string) : result ValueEnvelope :=
  match find_frame symbol_id (ctx_frames c ++ ctx_check_frames c
                              ++ [ctx_context_values c; ctx_input_values c]) with
  | Some v => Ok v
  | None => raise RuntimeError ("unknown symbol: " +:+ symbol_id)
  end.

Definition worst_completeness (current observed : Completeness) : Completeness :=
  match observed, current with
  | C_UNKNOWN, _ => C_UNKNOWN
  | PARTIAL, COMPLETE => PARTIAL
  | _, current => current
  end.

Definition observe_completeness (observed : Completeness) : X unit :=
  modify (fun c => set_data_completeness
    (worst_completeness (ctx_data_completeness c) observed) c).

Definition result_completeness (c : ExecutionContext) (status : ExecutionStatus)
  : Completeness :=
  if bool_decide (status = COMPLETED) then ctx_data_completeness c
  else match ctx_checks c, ctx_outputs c with
       | [], [] => C_UNKNOWN
       | _, _ => PARTIAL
       end.

Definition usage (c : ExecutionContext) : _ResourceMeter := ctx_resources c.

(** ** Validation summaries *)

Definition id_of_valid (checks : list CheckResult) : Prop :=
  Forall (fun c => non_blank (cr_check_id c) = true) checks
  /\ NoDup (map cr_check_id checks).

Lemma ids_with_elem s checks x :
  x ∈ ids_with s checks <-> exists c, c ∈ checks /\ cr_status c = s /\ cr_check_id c = x.
Proof.
  unfold ids_with. rewrite sort_strings_perm, list_elem_of_In, in_map_iff.
  setoid_rewrite filter_In. setoid_rewrite bool_decide_eq_true.
  setoid_rewrite list_elem_of_In. firstorder.
Qed.

Lemma ids_with_length s checks :
  length (ids_with s checks) = length (List.filter (check_has s) checks).
Proof. unfold ids_with. by rewrite sort_strings_length, length_map. Qed.

Lemma filter_ids_NoDup p checks :
  NoDup (map cr_check_id checks) -> NoDup (map cr_check_id (List.filter p checks)).
Proof.
  induction checks as [|c checks IH]; cbn; [done |].
  intros [Hc H]%NoDup_cons. destruct (p c); cbn; [| auto].
  apply NoDup_cons. split; [| auto]. contradict Hc.
  apply list_elem_of_In, in_map_iff in Hc as (d & <- & Hd).
  apply filter_In in Hd as [Hd _]. by apply list_elem_of_In, in_map.
Qed.

Lemma ids_with_valid s checks : id_of_valid checks ->
  summary_ids_valid (ids_with s checks) (Z.of_nat (length (ids_with s checks))) = true.
Proof.
  intros [Hb Hn]. unfold summary_ids_valid.
  rewrite Z.eqb_refl, bool_decide_eq_true_2
    by apply sort_strings_id, sort_strings_sorted.
  cbn [andb].
  apply andb_true_iff. split.
  - apply no_duplicates_true. unfold ids_with. rewrite sort_strings_perm.
    by apply filter_ids_NoDup.
  - apply forallb_forall. intros x Hx%list_elem_of_In.
    apply ids_with_elem in Hx as (c & Hc & _ & <-).
    by apply (proj1 (Forall_forall _ _) Hb).
Qed.

Lemma status_counts checks :
  length checks = length (List.filter (check_has PASS) checks)
    + length (List.filter (check_has FAIL) checks)
    + length (List.filter (check_has CHECK_UNKNOWN) checks).
Proof.
  induction checks as [|c checks IH]; [done |]. cbn [List.filter length]. rewrite IH.
  assert (forall s, check_has s c = bool_decide (cr_status c = s)) as E by done.
  rewrite !E. destruct (cr_status c); repeat case_bool_decide; try done; cbn [length]; lia.
Qed.

Lemma outcomes_disjoint checks : NoDup (map cr_check_id checks) ->
  existsb (fun x => bool_decide (x ∈ ids_with CHECK_UNKNOWN checks))
    (ids_with FAIL checks) = false.
Proof.
  intros Hn. apply not_true_iff_false. rewrite existsb_exists.
  intros (x & Hx%list_elem_of_In & Hu%bool_decide_eq_true).
  apply ids_with_elem in Hx as (c & Hc & Hcs & Hcx).
  apply ids_with_elem in Hu as (d & Hd & Hds & Hdx).
  assert (c = d) as ->; [| congruence].
  apply list_elem_of_lookup in Hc as (i & Hi). apply list_elem_of_lookup in Hd as (j & Hj).
  assert (i = j) as ->; [| congruence].
  apply (NoDup_lookup _ i j x Hn); rewrite list_lookup_fmap;
    [rewrite Hi | rewrite Hj]; cbn; congruence.
Qed.

Lemma ids_with_nil s checks :
  (Z.of_nat (length (ids_with s checks)) =? 0)%Z = true
  <-> Forall (fun c => cr_status c <> s) checks.
Proof.
  rewrite Z.eqb_eq. rewrite Forall_forall. split.
  - intros H c Hc Hs. assert (cr_check_id c ∈ ids_with s checks) as Hin
      by (apply ids_with_elem; eauto).
    destruct (ids_with s checks); [by apply not_elem_of_nil in Hin | cbn in H; lia].
  - intros H. destruct (ids_with s checks) as [|x l] eqn:E; [done |]. exfalso.
    assert (x ∈ ids_with s checks) as Hx by (rewrite E; left).
    apply ids_with_elem in Hx as (c & Hc & Hs & _). by apply (H c).
Qed.

Lemma ids_with_some s checks :
  (Z.of_nat (length (ids_with s checks)) =? 0)%Z = false
  <-> exists c, c ∈ checks /\ cr_status c = s.
Proof.
  rewrite <- not_true_iff_false, ids_with_nil. split.
  - intros H. destruct (ids_with s checks) as [|x l] eqn:E.
    + exfalso. apply H. apply ids_with_nil. by rewrite E.
    + assert (x ∈ ids_with s checks) as Hx by (rewrite E; left).
      apply ids_with_elem in Hx as (c & ? & ? & _). eauto.
  - intros (c & Hc & Hs) H. by apply (proj1 (Forall_forall _ _) H c Hc).
Qed.

Lemma from_checks_valid checks : id_of_valid checks ->
  exists s, from_checks checks = Ok s
    /\ vs_status s = _summary_status (Z.of_nat (length checks))
         (Z.of_nat (length (ids_with FAIL checks)))
         (Z.of_nat (length (ids_with CHECK_UNKNOWN checks)))
    /\ vs_failed_check_ids s = ids_with FAIL checks
    /\ vs_unknown_check_ids s = ids_with CHECK_UNKNOWN checks.
Proof.
  intros Hv. assert (Hv' := Hv). destruct Hv' as [Hb Hn]. unfold from_checks. cbv zeta.
  set (s := MkValidationSummary _ _ _ _ _ _ _). exists s.
  assert (forallb non_blank (map cr_check_id checks) = true) as ->.
  { apply forallb_forall. intros x (c & <- & Hc)%in_map_iff.
    by apply (proj1 (Forall_forall _ _) Hb), list_elem_of_In. }
  assert (no_duplicates (map cr_check_id checks) = true) as -> by by apply no_duplicates_true.
  split; [| done]. apply (bind_intro tt); [done |]. apply (bind_intro tt); [| done].
  unfold ValidationSummary_post_init, s. cbn [vs_status vs_total_count vs_pass_count
    vs_fail_count vs_unknown_count vs_failed_check_ids vs_unknown_check_ids].
  rewrite !ids_with_valid by done. rewrite outcomes_disjoint by done.
  rewrite bool_decide_eq_true_2 by done.
  rewrite !ids_with_length, (status_counts checks).
  rewrite (proj2 (Z.eqb_eq _ _)) by lia. cbn [forallb].
  by rewrite !(proj2 (Z.leb_le 0 (Z.of_nat _))) by lia.
Qed.

Lemma from_checks_raises checks : raises_only ValueError (from_checks checks).
Proof.
  intros e H. destruct (raise_if (negb (forallb non_blank (map cr_check_id checks))
    || negb (no_duplicates (map cr_check_id checks))) ValueError
    "check IDs must be unique non-empty strings") as [[]|e'] eqn:Hids.
  - apply raise_if_Ok in Hids. split_bool.
    destruct (from_checks_valid checks) as (s & Hs & _); [| congruence]. split.
    + apply Forall_forall. intros c Hc. eapply (proj1 (forallb_forall _ _)); [eassumption |].
      by apply in_map, list_elem_of_In.
    + by apply no_duplicates_true.
  - unfold from_checks in H. cbv zeta in H. rewrite Hids in H. cbn in H.
    injection H as <-. by apply raise_if_Err in Hids as [_ ->].
Qed.

(** The validation summary cannot report a false pass: from checks with
    unique non-empty ids it always returns a summary, which lists exactly the
    ids of the failed and of the unknown checks, and whose status is
    [ALL_PASS] exactly when there is a check and every check passed; otherwise
    the status names the failures and the unknowns there are. *)
Theorem from_checks_no_false_pass (checks : list CheckResult) :
  Forall (fun c => non_blank (cr_check_id c) = true) checks ->
  NoDup (map cr_check_id checks) ->
  exists s, from_checks checks = Ok s
    /\ (vs_status s = ALL_PASS <->
        checks <> [] /\ Forall (fun c => cr_status c = PASS) checks)
    /\ (vs_status s = NO_CHECK <-> checks = [])
    /\ (vs_status s ∈ [HAS_FAIL; HAS_FAIL_AND_UNKNOWN] <->
        exists c, c ∈ checks /\ cr_status c = FAIL)
    /\ (forall x, x ∈ vs_failed_check_ids s <->
          exists c, c ∈ checks /\ cr_status c = FAIL /\ cr_check_id c = x)
    /\ (forall x, x ∈ vs_unknown_check_ids s <->
          exists c, c ∈ checks /\ cr_status c = CHECK_UNKNOWN /\ cr_check_id c = x).
Proof.
  intros Hb Hn. destruct (from_checks_valid checks) as (s & Hs & Hst & Hf & Hu); [by split |].
  exists s. split; [done |]. rewrite Hf, Hu, Hst.
  assert (checks = [] <-> (Z.of_nat (length checks) =? 0)%Z = true) as E0.
  { rewrite Z.eqb_eq. destruct checks; cbn; [done | split; [done | lia]]. }
  pose proof (ids_with_nil FAIL checks) as EF.
  pose proof (ids_with_nil CHECK_UNKNOWN checks) as EU.
  assert (Forall (fun c => cr_status c = PASS) checks <->
          Forall (fun c => cr_status c <> FAIL) checks
          /\ Forall (fun c => cr_status c <> CHECK_UNKNOWN) checks) as ->.
  { rewrite !Forall_forall. split; [intros H; split; intros c Hc; by rewrite (H c Hc) |].
    intros [H1 H2] c Hc. specialize (H1 c Hc). specialize (H2 c Hc).
    by destruct (cr_status c). }
  rewrite <- (ids_with_some FAIL checks), <- EF, <- EU.
  assert (checks = [] -> (Z.of_nat (length (ids_with FAIL checks)) =? 0)%Z = true
          /\ (Z.of_nat (length (ids_with CHECK_UNKNOWN checks)) =? 0)%Z = true) as HnF
    by by intros ->.
  unfold _summary_status. clear EF EU.
  destruct (Z.of_nat (length checks) =? 0)%Z, (Z.of_nat (length (ids_with FAIL checks)) =? 0)%Z,
    (Z.of_nat (length (ids_with CHECK_UNKNOWN checks)) =? 0)%Z; cbn [negb andb];
    (split; [naive_solver |]); (split; [naive_solver |]);
    (split; [rewrite !elem_of_cons, elem_of_nil; naive_solver |]);
    split; intros x; apply ids_with_elem.
Qed.

Definition example_check (id : string) (s : CheckStatus) : CheckResult :=
  MkCheckResult id s "ERROR" "message" "node-1" PRESENT COMPLETE [] None.

Lemma from_checks_no_false_pass_witness :
  exists s, from_checks [example_check "b" FAIL; example_check "a" PASS] = Ok s
    /\ vs_status s <> ALL_PASS.
Proof.
  destruct (from_checks_no_false_pass [example_check "b" FAIL; example_check "a" PASS])
    as (s & Hs & Hp & _).
  - repeat constructor.
  - apply (bool_decide_eq_true_1 (NoDup ["b"; "a"])). reflexivity.
  - exists s. split; [exact Hs |]. intros H. apply Hp in H as [_ H].
    inversion H as [|? ? H1 _]. discriminate H1.
Defined.

(** ** Bindings are immutable *)

Definition scopes (c : ExecutionContext) : list frame :=
  ctx_frames c ++ ctx_check_frames c ++ [ctx_context_values c; ctx_input_values c].

Lemma resolve_Ok c s v : resolve c s = Ok v <-> find_frame s (scopes c) = Some v.
Proof.
  unfold resolve. fold (scopes c).
  destruct (find_frame s (scopes c)); split; intros H; inversion H; done.
Qed.

Lemma find_frame_app s fs gs :
  find_frame s (fs ++ gs) = match find_frame s fs with
                            | Some v => Some v | None => find_frame s gs end.
Proof.
  induction fs as [|f fs IH]; cbn; [done |]. by destruct (f !! s).
Qed.

Lemma is_bound_spec c s : _is_bound c s = false <-> find_frame s (scopes c) = None.
Proof.
  assert (forall f : frame, bool_decide (is_Some (f !! s)) = false <-> f !! s = None) as Hf.
  { intros f. rewrite bool_decide_eq_false. symmetry. apply eq_None_not_Some. }
  assert (forall fs : list frame, existsb (fun f => bool_decide (is_Some (f !! s))) fs = false
            <-> find_frame s fs = None) as Hfs.
  { induction fs as [|f fs IH]; [done |]. cbn [existsb find_frame].
    rewrite orb_false_iff, Hf, IH. destruct (f !! s); naive_solver. }
  unfold _is_bound, scopes. rewrite !orb_false_iff, !Hf, !Hfs, !find_frame_app.
  cbn [find_frame].
  destruct (find_frame s (ctx_frames c)), (find_frame s (ctx_check_frames c)),
    (ctx_context_values c !! s), (ctx_input_values c !! s); naive_solver.
Qed.

Lemma find_frame_insert k v f fs gs s :
  find_frame k (fs ++ f :: gs) = None ->
  find_frame s (fs ++ <[k := v]> f :: gs)
  = if decide (s = k) then Some v else find_frame s (fs ++ f :: gs).
Proof.
  rewrite !find_frame_app. cbn [find_frame]. intros H. case_decide as E.
  - subst. destruct (find_frame k fs); [done |]. by rewrite lookup_insert_eq.
  - rewrite lookup_insert_ne by congruence. done.
Qed.

(** The four ways to bind a symbol. *)
Inductive binder : Type := BindInput | BindContext | BindLocal | BindCheck.

Definition run_bind (b : binder) : string -> ValueEnvelope -> X unit :=
  match b with
  | BindInput => bind_input | BindContext => bind_context
  | BindLocal => bind | BindCheck => bind_check
  end.

(** The context has its root frames. *)
Definition rooted (c : ExecutionContext) : Prop :=
  ctx_frames c <> [] /\ ctx_check_frames c <> [].

Lemma run_bind_scopes b k v c : rooted c -> find_frame k (scopes c) = None ->
  exists c', run_bind b k v c = (Ok tt, c')
    /\ rooted c'
    /\ forall s, find_frame s (scopes c')
                 = if decide (s = k) then Some v else find_frame s (scopes c).
Proof.
  intros [Hf Hcf] Hk. pose proof Hk as Hb. apply is_bound_spec in Hb.
  destruct b; cbn [run_bind]; unfold bind_input, bind_context, bind, bind_check, _bind_once;
    cbv beta iota delta [mbind M_bind get fail_if lift modify raise_if]; rewrite Hb;
    (eexists; split; [reflexivity |]).
  - split; [done |]. intros s.
    pose proof (find_frame_insert k v (ctx_input_values c)
      (ctx_frames c ++ ctx_check_frames c ++ [ctx_context_values c]) [] s) as P.
    rewrite <- !app_assoc in P. exact (P Hk).
  - split; [done |]. intros s.
    pose proof (find_frame_insert k v (ctx_context_values c)
      (ctx_frames c ++ ctx_check_frames c) [ctx_input_values c] s) as P.
    rewrite <- !app_assoc in P. exact (P Hk).
  - unfold rooted, scopes in *. cbn in *. destruct (ctx_frames c) as [|f fs]; [done |].
    split; [done |]. intros s. by apply (find_frame_insert k v f []).
  - unfold rooted, scopes in *. cbn in *. destruct (ctx_check_frames c) as [|f fs]; [done |].
    split; [done |]. intros s. by apply find_frame_insert.
Qed.

(** Symbols are bound once: in a rooted context, binding a symbol that
    any name space already holds raises [ImmutableBindingError] and changes
    nothing; otherwise the symbol resolves to its value afterwards and every
    other symbol resolves as before. *)
Theorem bind_once_immutable (b : binder) (k : string) (v : ValueEnvelope)
    (c : ExecutionContext) :
  rooted c ->
  (exists e, run_bind b k v c = (Err e, c) /\ ex_class e = ImmutableBindingError
     /\ exists w, resolve c k = Ok w)
  \/ (exists c', run_bind b k v c = (Ok tt, c') /\ rooted c'
      /\ resolve c' k = Ok v
      /\ (forall s w, s <> k -> resolve c' s = Ok w <-> resolve c s = Ok w)
      /\ forall w, resolve c k <> Ok w).
Proof.
  intros Hr. destruct (find_frame k (scopes c)) as [w|] eqn:Hk.
  - left. assert (_is_bound c k = true) as Hb.
    { apply not_false_iff_true. intros H%is_bound_spec. congruence. }
    eexists. split; [| split; [| by exists w; apply resolve_Ok]].
    + destruct b; cbn [run_bind]; unfold bind_input, bind_context, bind, bind_check,
        _bind_once; cbv beta iota delta [mbind M_bind get fail_if lift raise_if];
        by rewrite Hb.
    + done.
  - right. destruct (run_bind_scopes b k v c Hr Hk) as (c' & Hc & Hr' & Hs).
    exists c'. split; [done |]. split; [done |]. split.
    { apply resolve_Ok. rewrite Hs. by rewrite decide_True. }
    split; [| intros w; rewrite resolve_Ok; congruence].
    intros s w Hne. by rewrite !resolve_Ok, Hs, decide_False.
Qed.

(** Binding in an inner scope: a list of local and check bindings. *)
Fixpoint bind_all (l : list (bool * string * ValueEnvelope)) : X unit :=
  match l with
  | [] => mret tt
  | (check, k, v) :: l =>
      _ ← (if (check : bool) then bind_check k v else bind k v); bind_all l
  end.

Lemma bind_tail (check : bool) k v c c' :
  (if check then bind_check k v else bind k v) c = (Ok tt, c') ->
  tail (ctx_frames c') = tail (ctx_frames c)
  /\ tail (ctx_check_frames c') = tail (ctx_check_frames c)
  /\ length (ctx_frames c') = length (ctx_frames c)
  /\ length (ctx_check_frames c') = length (ctx_check_frames c)
  /\ ctx_context_values c' = ctx_context_values c
  /\ ctx_input_values c' = ctx_input_values c.
Proof.
  destruct check; unfold bind, bind_check, _bind_once;
    cbv beta iota delta [mbind M_bind get fail_if lift raise_if modify];
    destruct (_is_bound c k); intros [= <-]; cbn;
    [destruct (ctx_check_frames c) | destruct (ctx_frames c)]; done.
Qed.

Lemma bind_all_tail l c c' : bind_all l c = (Ok tt, c') ->
  tail (ctx_frames c') = tail (ctx_frames c)
  /\ tail (ctx_check_frames c') = tail (ctx_check_frames c)
  /\ length (ctx_frames c') = length (ctx_frames c)
  /\ length (ctx_check_frames c') = length (ctx_check_frames c)
  /\ ctx_context_values c' = ctx_context_values c
  /\ ctx_input_values c' = ctx_input_values c.
Proof.
  revert c. induction l as [|[[check k] v] l IH]; intros c.
  - by intros [= <-].
  - cbn [bind_all]. rewrite M_bind_Ok. intros ([] & c1 & E%bind_tail & H%IH).
    naive_solver congruence.
Qed.

(** Scopes are restored: whatever is bound after [push_frame],
    [pop_frame] succeeds and brings back exactly the symbols that were
    visible before, with their values. *)
Theorem pop_restores_scope (l : list (bool * string * ValueEnvelope))
    (c c1 : ExecutionContext) :
  rooted c -> (_ ← push_frame; bind_all l) c = (Ok tt, c1) ->
  exists c2, pop_frame c1 = (Ok tt, c2) /\ scopes c2 = scopes c
    /\ forall s, resolve c2 s = resolve c s.
Proof.
  intros [Hf Hcf]. cbv beta iota delta [mbind M_bind push_frame modify].
  intros H%bind_all_tail. cbn in H.
  destruct H as (H1 & H2 & H3 & H4 & H5 & H6).
  unfold pop_frame. cbv beta iota delta [mbind M_bind get fail_if lift modify].
  destruct (ctx_frames c) as [|f fs] eqn:Ef; [done |].
  destruct (ctx_check_frames c) as [|g gs] eqn:Eg; [done |].
  rewrite H3, H4. cbn [length Nat.eqb orb raise_if].
  eexists. split; [reflexivity |].
  assert (scopes (set_check_frames (tail (ctx_check_frames c1)) (set_frames (tail (ctx_frames c1)) c1))
          = scopes c) as E.
  { unfold scopes. cbn. by rewrite H1, H2, H5, H6, Ef, Eg. }
  split; [exact E |]. intros s. unfold resolve. unfold scopes in E. by rewrite E.
Qed.

Definition example_limits : ResourceLimits := MkResourceLimits 2 10 5 100 30000.
Definition example_skill : SkillObject :=
  MkSkillObject "1.1" "0.2" "purchase" "1.0.0" "R3" "NSL-0.2-STRICT" "sha256:none" ∅ [] []
    example_limits [] [] [] [] (MkStaticAnalysis 1 0 0 true)
    (MkBuildMetadata "sha256:none" "main.nsl" []).
Definition example_request : ExecutionRequest :=
  MkExecutionRequest "exec-1" [] [] example_principal default_DataHandlingPolicy (Some "op-1").
Definition example_context : ExecutionContext :=
  MkExecutionContext example_skill example_request (fun n => Z.of_nat n) 1 0
    (MkExecutionIdentity "exec-1" (Some "op-1"))
    (request_security_context example_request) ∅ ∅ [∅] [∅] [] [] zero_meter COMPLETE 0 0 None
    ∅ [] (MkIdempotencyState ∅ ∅) default_CheckpointState.
Definition example_envelope : ValueEnvelope :=
  MkValueEnvelope (VInt 7) INT PRESENT COMPLETE INTERNAL [].

Lemma bind_once_immutable_witness :
  rooted example_context
  /\ exists c, bind "x" example_envelope example_context = (Ok tt, c)
     /\ resolve c "x" = Ok example_envelope.
Proof.
  split; [split; discriminate |].
  destruct (bind_once_immutable BindLocal "x" example_envelope example_context)
    as [(e & _ & _ & w & H)|(c & Hc & _ & Hr & _)].
  - split; discriminate.
  - discriminate H.
  - exists c. by split.
Defined.

Lemma pop_restores_scope_witness :
  exists c2, pop_frame (snd ((_ ← push_frame;
      bind_all [(false, "x", example_envelope)]) example_context)) = (Ok tt, c2)
    /\ scopes c2 = scopes example_context.
Proof.
  destruct (pop_restores_scope [(false, "x", example_envelope)] example_context
    (snd ((_ ← push_frame; bind_all [(false, "x", example_envelope)]) example_context)))
    as (c2 & H & Hs & _).
  - split; discriminate.
  - reflexivity.
  - exists c2. by split.
Defined.

(** ** Limits hold *)

(** The counters are within the limits of the Skill. *)
Definition meter_within (c : ExecutionContext) : Prop :=
  let m := ctx_resources c in let l := sk_limits (ctx_skill c) in
  (0 <= tool_calls m <= lim_tool_calls l)%Z
  /\ (0 <= loop_iterations m <= lim_loop_iterations l)%Z
  /\ (0 <= emitted_rows m <= lim_emitted_rows l)%Z.

(** The remaining time the next clock reading will show. *)
Definition remaining_ns (c : ExecutionContext) : Z :=
  (lim_duration_ms (sk_limits (ctx_skill c)) * _NANOSECONDS_PER_MILLISECOND
   - (ctx_runtime_clock c (ctx_clock_reads c) - ctx_started_ns c))%Z.

Definition tick (c : ExecutionContext) : ExecutionContext :=
  set_clock_reads (S (ctx_clock_reads c)) c.

Lemma check_deadline_eq c :
  check_deadline c
  = (raise_if (remaining_ns c <=? 0)%Z LimitExceeded "execution duration limit exceeded",
     tick c).
Proof. reflexivity. Qed.

Definition limit_error {A} (r : result A) : Prop :=
  match r with Ok _ => True | Err e => ex_class e = LimitExceeded end.

(** The guarded operations, with the counter each one advances. *)
Inductive guarded : Type := GuardToolCall | GuardLoopIteration | GuardEmit.

Definition run_guarded (g : guarded) : X unit :=
  match g with
  | GuardToolCall => before_tool_call
  | GuardLoopIteration => before_loop_iteration
  | GuardEmit => _ ← before_emit; record_emit
  end.

Definition counter (g : guarded) (c : ExecutionContext) : Z :=
  let m := ctx_resources c in
  match g with
  | GuardToolCall => tool_calls m | GuardLoopIteration => loop_iterations m
  | GuardEmit => emitted_rows m
  end.

Definition limit (g : guarded) (c : ExecutionContext) : Z :=
  let l := sk_limits (ctx_skill c) in
  match g with
  | GuardToolCall => lim_tool_calls l | GuardLoopIteration => lim_loop_iterations l
  | GuardEmit => lim_emitted_rows l
  end.

Lemma run_guarded_eq g c :
  run_guarded g c =
  if (remaining_ns c <=? 0)%Z
  then (raise LimitExceeded "execution duration limit exceeded", tick c)
  else if (limit g c <=? counter g c)%Z
  then (raise LimitExceeded (match g with
                             | GuardToolCall => "tool call limit exceeded"
                             | GuardLoopIteration => "loop iteration limit exceeded"
                             | GuardEmit => "emitted row limit exceeded"
                             end), tick c)
  else (Ok tt, set_resources
          (let m := ctx_resources c in
           match g with
           | GuardToolCall => Mk_ResourceMeter (tool_calls m + 1) (loop_iterations m)
               (emitted_rows m) (max_collection_size_seen m)
           | GuardLoopIteration => Mk_ResourceMeter (tool_calls m) (loop_iterations m + 1)
               (emitted_rows m) (max_collection_size_seen m)
           | GuardEmit => Mk_ResourceMeter (tool_calls m) (loop_iterations m)
               (emitted_rows m + 1) (max_collection_size_seen m)
           end) (tick c)).
Proof.
  destruct g; unfold run_guarded, before_tool_call, before_loop_iteration, before_emit,
    counter, limit; unfold mbind, M_bind; rewrite check_deadline_eq;
    (destruct (remaining_ns c <=? 0)%Z; [reflexivity |]);
    cbn -[Z.leb Z.add]; unfold _consume, raise_if; destruct (_ <=? _)%Z; reflexivity.
Qed.

(** Resource limits hold: a guarded operation (a tool call, a loop
    iteration, the emission of a row) succeeds exactly when the deadline has
    not passed and its counter is below the limit; it then advances that
    counter by one and the counters stay within the limits; otherwise it
    raises [LimitExceeded] and counts nothing. *)
Theorem resource_guard_limits (g : guarded) (c : ExecutionContext) :
  meter_within c ->
  let '(r, c') := run_guarded g c in
  meter_within c' /\ limit_error r /\ ctx_skill c' = ctx_skill c
  /\ (is_Ok r = true <-> (0 < remaining_ns c)%Z /\ (counter g c < limit g c)%Z)
  /\ (is_Ok r = true -> counter g c' = (counter g c + 1)%Z)
  /\ (is_Ok r = false -> ctx_resources c' = ctx_resources c).
Proof.
  intros Hm. rewrite run_guarded_eq.
  destruct (Z.leb_spec (remaining_ns c) 0); [cbn; repeat split; (done || lia || apply Hm) |].
  destruct (Z.leb_spec (limit g c) (counter g c));
    [cbn; repeat split; (done || lia || apply Hm) |].
  unfold meter_within, counter, limit in *. destruct Hm as (H1 & H2 & H3).
  destruct g; cbn in *; repeat split; (done || lia).
Qed.

Lemma resource_guard_limits_witness :
  fst (run_guarded GuardToolCall example_context) = Ok tt
  /\ meter_within (snd (run_guarded GuardToolCall example_context)).
Proof.
  split; [reflexivity |].
  assert (meter_within example_context) as Hm by (vm_compute; repeat split; discriminate).
  pose proof (resource_guard_limits GuardToolCall example_context Hm) as H.
  destruct (run_guarded GuardToolCall example_context) as [r c']. apply H.
Defined.

(** The millisecond timeout handed to a tool is the remaining time
    rounded up: it is at least 1, covers the remaining nanoseconds and exceeds
    them by less than a millisecond; when no time remains [LimitExceeded] is
    raised instead. *)
Theorem remaining_duration_ms_ceiling (c : ExecutionContext) :
  (0 < remaining_ns c ->
   exists ms, fst (remaining_duration_ms c) = Ok ms /\ 1 <= ms
     /\ remaining_ns c <= ms * 1000000 < remaining_ns c + 1000000)%Z
  /\ (remaining_ns c <= 0 -> exists e,
        fst (remaining_duration_ms c) = Err e /\ ex_class e = LimitExceeded)%Z.
Proof.
  assert (fst (remaining_duration_ms c) =
    (_ ← raise_if (remaining_ns c <=? 0)%Z LimitExceeded "execution duration limit exceeded";
     Ok ((remaining_ns c + 1000000 - 1) / 1000000)%Z)) as ->.
  { unfold remaining_duration_ms, mbind, M_bind.
    change (_remaining_duration_ns c) with (Ok (remaining_ns c), tick c).
    cbv beta iota delta [fail_if lift raise_if]. by destruct (_ <=? 0)%Z. }
  split; intros H.
  - rewrite (proj2 (Z.leb_gt _ _)) by lia. eexists. split; [reflexivity |].
    pose proof (Z.div_mod (remaining_ns c + 1000000 - 1) 1000000 ltac:(lia)).
    pose proof (Z.mod_pos_bound (remaining_ns c + 1000000 - 1) 1000000 ltac:(lia)). lia.
  - rewrite (proj2 (Z.leb_le _ _)) by lia. eexists. split; reflexivity.
Qed.

Lemma remaining_duration_ms_ceiling_witness :
  exists ms, fst (remaining_duration_ms example_context) = Ok ms /\ (1 <= ms)%Z.
Proof.
  destruct (proj1 (remaining_duration_ms_ceiling example_context)) as (ms & H & Hm & _);
    [reflexivity | by exists ms].
Defined.

(** ** The projection of the runtime context *)

(** [below p r]: [p] is a part of [r]: some of the keys of its dicts, at any
    depth, with values of which it holds a part. *)
Inductive below : value -> value -> Prop :=
  | below_refl v : below v v
  | below_dict d r :
      (forall k x, assoc k d = Some x -> exists y, assoc k r = Some y /\ below x y) ->
      below (VDict d) (VDict r).

Lemma below_keys d r k x : below (VDict d) (VDict r) -> assoc k d = Some x ->
  exists y, assoc k r = Some y /\ below x y.
Proof. inversion 1; subst; eauto using below_refl. Qed.

Lemma below_dict_inv x r : below x (VDict r) -> exists d, x = VDict d.
Proof. inversion 1; eauto. Qed.

Lemma assoc_set_same {A} k (v : A) d : assoc k d = Some v -> assoc_set k v d = d.
Proof.
  induction d as [|[j w] d IH]; cbn; [done |].
  destruct (String.eqb_spec k j) as [->|]; [by intros [= ->] |]. intros H. by rewrite IH.
Qed.

Lemma below_assign k x y d r : below (VDict d) (VDict r) -> assoc k r = Some y ->
  below x y -> below (VDict (assoc_set k x d)) (VDict r).
Proof.
  intros Hd Hk Hx. constructor. intros j z Hj. destruct (decide (j = k)) as [->|Hne].
  - rewrite assoc_set_eq in Hj. injection Hj as <-. eauto.
  - rewrite assoc_set_ne in Hj by congruence. by eapply below_keys.
Qed.

(** What one assignment of a projection does. *)
Definition assigned (path : list string) (v : value) (d r d' : list (string * value)) : Prop :=
  below (VDict d') (VDict r) /\ lookup_path path (VDict d') = Some v
  /\ forall q w, lookup_path q (VDict r) = Some w -> lookup_path q (VDict d) = Some w ->
       lookup_path q (VDict d') = Some w.

Lemma assigned_inner k path v d r ry sub sub' :
  below (VDict d) (VDict r) -> assoc k r = Some (VDict ry) ->
  (assoc k d = None /\ sub = [] \/ assoc k d = Some (VDict sub)) ->
  assigned path v sub ry sub' ->
  assigned (k :: path) v d r (assoc_set k (VDict sub') d).
Proof.
  intros Hd Hr Hk (Hb & Hl & Hq). split; [by eapply below_assign |].
  split; [cbn [lookup_path]; by rewrite assoc_set_eq |].
  intros [|j q] w; cbn [lookup_path].
  - intros [= <-] [= ->]. destruct Hk as [[Hk _]|Hk]; [congruence |].
    rewrite Hr in Hk. injection Hk as ->.
    specialize (Hq [] _ eq_refl eq_refl). injection Hq as ->. by rewrite assoc_set_same.
  - destruct (decide (j = k)) as [->|Hne].
    + rewrite Hr, assoc_set_eq. destruct Hk as [[-> _]|Hk]; [done |]. rewrite Hk. apply Hq.
    + by rewrite assoc_set_ne by congruence.
Qed.

Lemma assign_path_below path v d r :
  path <> [] -> lookup_path path (VDict r) = Some v -> below (VDict d) (VDict r) ->
  exists d', assign_path path v d = Ok d' /\ assigned path v d r d'.
Proof.
  revert d r; induction path as [|k path IH]; intros d r Hne Hr Hd; [done |].
  cbn [lookup_path] in Hr. destruct (assoc k r) as [y|] eqn:Hy; [| done].
  destruct path as [|k2 path].
  - injection Hr as <-. eexists. split; [reflexivity |].
    split; [by eapply below_assign; [| | apply below_refl] |].
    split; [cbn [lookup_path]; by rewrite assoc_set_eq |].
    intros [|j q] w; cbn [lookup_path].
    + intros [= <-] [= ->]. by rewrite assoc_set_same.
    + destruct (decide (j = k)) as [->|]; [by rewrite Hy, assoc_set_eq |].
      by rewrite assoc_set_ne by congruence.
  - destruct y as [| | | | | | | | | |ry]; try done.
    assert (exists sub, (assoc k d = None /\ sub = [] \/ assoc k d = Some (VDict sub))
              /\ below (VDict sub) (VDict ry)) as (sub & Hk & Hsub).
    { destruct (assoc k d) as [x|] eqn:Hx.
      - destruct (below_keys _ _ _ _ Hd Hx) as (y & Hy' & Hxy).
        rewrite Hy in Hy'. injection Hy' as <-.
        destruct (below_dict_inv _ _ Hxy) as [sub ->]. eauto.
      - exists []. split; [eauto |]. by constructor. }
    destruct (IH sub ry) as (sub' & Hs & Ha); [done | done | done |].
    exists (assoc_set k (VDict sub') d). split; [| by eapply assigned_inner].
    change (match assoc k d with
            | None => sub ← assign_path (k2 :: path) v []; Ok (assoc_set k (VDict sub) d)
            | Some (VDict sub) =>
                sub ← assign_path (k2 :: path) v sub; Ok (assoc_set k (VDict sub) d)
            | Some _ => raise AttributeError "object has no attribute 'setdefault'"
            end = Ok (assoc_set k (VDict sub') d)).
    destruct Hk as [[-> ->]|Hk]; [| rewrite Hk]; by rewrite Hs.
Qed.

Lemma project_declared_context_step specs acc r :
  Forall (fun s => cx_path s <> []) specs -> below (VDict acc) (VDict r) ->
  exists p, fold_left (fun acc spec =>
      projected ← acc;
      match lookup_path (cx_path spec) (VDict r) with
      | None => Ok projected
      | Some v => assign_path (cx_path spec) v projected
      end) specs (Ok acc) = Ok p
    /\ below (VDict p) (VDict r)
    /\ (forall q w, lookup_path q (VDict r) = Some w -> lookup_path q (VDict acc) = Some w ->
          lookup_path q (VDict p) = Some w)
    /\ (forall s v, s ∈ specs -> lookup_path (cx_path s) (VDict r) = Some v ->
          lookup_path (cx_path s) (VDict p) = Some v).
Proof.
  revert acc. induction specs as [|s specs IH]; intros acc Hs Hacc.
  - exists acc. split; [done |]. split; [done |]. split; [done |].
    intros s v H. by apply not_elem_of_nil in H.
  - apply Forall_cons in Hs as [Hne Hs]. cbn [fold_left].
    change (mbind _ (Ok acc)) with
      (match lookup_path (cx_path s) (VDict r) with
       | None => Ok acc | Some v => assign_path (cx_path s) v acc end).
    destruct (lookup_path (cx_path s) (VDict r)) as [v|] eqn:Hv.
    + destruct (assign_path_below _ _ _ _ Hne Hv Hacc) as (d & -> & Hb & Hl & Hq).
      destruct (IH d Hs Hb) as (p & Hp & Hpb & Hpq & Hps).
      exists p. split; [exact Hp |]. split; [done |]. split; [by eauto |].
      intros s' w [->|Hin]%elem_of_cons Hw; [| by eauto].
      rewrite Hv in Hw. injection Hw as <-. by apply Hpq.
    + destruct (IH acc Hs Hacc) as (p & Hp & Hpb & Hpq & Hps).
      exists p. split; [exact Hp |]. split; [done |]. split; [by eauto |].
      intros s' w [->|Hin]%elem_of_cons Hw; [congruence | by eauto].
Qed.

(** Projection of the runtime context: for declarations with non-empty
    paths it never fails; on every declared path that the runtime context
    has, the projection holds the same value, even when declared paths overlap;
    everything in the projection is part of the runtime context; and runtime
    contexts that agree on the declared paths have the same projection, so
    undeclared context data cannot reach an execution. *)
Theorem project_declared_context_exact (skill : SkillObject) (ctx : list (string * value)) :
  Forall (fun s => cx_path s <> []) (sk_contexts skill) ->
  exists p, project_declared_context skill ctx = Ok p
    /\ (forall s v, s ∈ sk_contexts skill ->
          lookup_path (cx_path s) (VDict ctx) = Some v ->
          lookup_path (cx_path s) (VDict p) = Some v)
    /\ below (VDict p) (VDict ctx)
    /\ (forall ctx', (forall s, s ∈ sk_contexts skill ->
          lookup_path (cx_path s) (VDict ctx') = lookup_path (cx_path s) (VDict ctx)) ->
        project_declared_context skill ctx' = Ok p).
Proof.
  intros Hs. destruct (project_declared_context_step (sk_contexts skill) [] ctx)
    as (p & Hp & Hb & _ & Hl); [done | by constructor |].
  exists p. split; [exact Hp |]. split; [done |]. split; [done |].
  intros ctx' H. rewrite <- Hp. unfold project_declared_context. clear Hp Hl Hs Hb.
  generalize (Ok (A := list (string * value)) []).
  induction (sk_contexts skill) as [|s specs IH]; intros acc; [done |].
  cbn [fold_left]. rewrite (H s) by left. apply IH. intros s' Hin. apply H. by right.
Qed.

Definition example_contexts : SkillObject :=
  MkSkillObject "1.1" "0.2" "purchase" "1.0.0" "R3" "NSL-0.2-STRICT" "sha256:none" ∅ [] []
    example_limits []
    [MkContextSpec "c1" "region" STRING ["org"; "region"] INTERNAL;
     MkContextSpec "c2" "org" STRING ["org"] INTERNAL]
    [] [] (MkStaticAnalysis 1 0 0 true) (MkBuildMetadata "sha256:none" "main.nsl" []).

Lemma project_declared_context_exact_witness :
  exists p, project_declared_context example_contexts
      [("secret", VStr "s"); ("org", VDict [("id", VInt 4); ("region", VStr "EU")])] = Ok p
    /\ lookup_path ["org"; "region"] (VDict p) = Some (VStr "EU").
Proof.
  destruct (project_declared_context_exact example_contexts
    [("secret", VStr "s"); ("org", VDict [("id", VInt 4); ("region", VStr "EU")])])
    as (p & Hp & Hl & _).
  - repeat constructor; discriminate.
  - exists p. split; [exact Hp |].
    apply (Hl (MkContextSpec "c1" "region" STRING ["org"; "region"] INTERNAL)); [left | reflexivity].
Defined.

(** The semantic hash theorem at two builds of one Skill. *)
Definition example_rebuild : SkillObject :=
  set_build example_skill (MkBuildMetadata "sha256:other" "other.nsl" []).

Lemma semantic_hash_binding_witness :
  same_semantics example_skill example_rebuild
  \/ (canonical_json (skill_to_data example_skill false false)
        <> canonical_json (skill_to_data example_rebuild false false)
      /\ sha256_ref (canonical_json (skill_to_data example_skill false false))
         = sha256_ref (canonical_json (skill_to_data example_rebuild false false))).
Proof.
  destruct (semantic_hash_binding example_skill example_rebuild
    (MkBuildMetadata "sha256:other" "other.nsl" []) "sha256:none") as (_ & _ & H).
  apply H. reflexivity.
Defined.
