(* ===== verification/Tools.v ===== *)
(** * Tool contracts and tool execution ([src/nsl/tools.py])

    Contracts with their WRITE semantics and hash, the contract catalog, the
    validation of requests and results, and the fixture executor. *)

From S2P Require Import Prelude Digest Json Decimal Core DataProtection Ir Security.

Definition MAX_TOOL_TIMEOUT_MS : Z := 2147483647.

(** [ToolExecutionError(code, message)] *)
Definition tool_error {A} (code message : string) : result A :=
  Err (Exn ToolExecutionError code message).

Inductive OperationKind : Type := CREATE | CREATE_DRAFT | UPDATE.
Inductive Atomicity : Type := ATOMIC.
Inductive CommitConfirmation : Type := EXPLICIT.

#[export] Instance OperationKind_eq_dec : EqDecision OperationKind.
Proof. solve_decision. Defined.

Definition operation_kind_value (k : OperationKind) : string :=
  match k with CREATE => "CREATE" | CREATE_DRAFT => "CREATE_DRAFT" | UPDATE => "UPDATE" end.

(** ** WRITE semantics *)

Record IdempotencySemantics : Type := MkIdempotencySemantics {
  is_required : bool;
  is_scope : string;
  is_retention : string;
  is_duplicate_behavior : string;
  is_payload_conflict_behavior : string
}.

Definition IdempotencySemantics_post_init (s : IdempotencySemantics) : result unit :=
  _ ← raise_if (negb (is_required s)) ValueError "WRITE idempotency.required must be true";
  nonempty_texts " must be a non-empty string"
    [("idempotency.scope", is_scope s); ("idempotency.retention", is_retention s);
     ("idempotency.duplicate_behavior", is_duplicate_behavior s);
     ("idempotency.payload_conflict_behavior", is_payload_conflict_behavior s)].

Definition idempotency_semantics_to_data (s : IdempotencySemantics) : json :=
  JObj [("required", JBool (is_required s)); ("scope", JStr (is_scope s));
        ("retention", JStr (is_retention s));
        ("duplicate_behavior", JStr (is_duplicate_behavior s));
        ("payload_conflict_behavior", JStr (is_payload_conflict_behavior s))].

Record PostWriteVerification : Type := MkPostWriteVerification {
  pv_tool_id : option string;
  pv_reference_schema : option TypeRef;
  pv_consistency_hint : option string
}.

Definition nonempty_if_some (label : string) (o : option string) : result unit :=
  match o with
  | Some s => nonempty_texts " must be a non-empty string" [(label, s)]
  | None => Ok tt
  end.

Definition PostWriteVerification_post_init (p : PostWriteVerification) : result unit :=
  _ ← nonempty_if_some "verification.tool_id" (pv_tool_id p);
  _ ← nonempty_if_some "verification.consistency_hint" (pv_consistency_hint p);
  raise_if (bool_decide (pv_tool_id p = None) && bool_decide (pv_reference_schema p = None)
            && bool_decide (pv_consistency_hint p = None))
    ValueError "verification must declare at least one hint".

Definition opt_field {A} (k : string) (f : A -> json) (o : option A) : list (string * json) :=
  match o with Some a => [(k, f a)] | None => [] end.

Definition post_write_verification_to_data (p : PostWriteVerification) : json :=
  JObj (opt_field "tool_id" JStr (pv_tool_id p)
        ++ opt_field "reference_schema" type_to_data (pv_reference_schema p)
        ++ opt_field "consistency_hint" JStr (pv_consistency_hint p)).

(** [commit] holds its only field, the confirmation. *)
Record WriteSemantics : Type := MkWriteSemantics {
  wsm_side_effect : bool;
  wsm_atomicity : Atomicity;
  wsm_idempotency : IdempotencySemantics;
  wsm_commit : CommitConfirmation;
  wsm_approval_required : bool;
  wsm_preconditions_supported : bool;
  wsm_verification : option PostWriteVerification
}.

Definition WriteSemantics_post_init (s : WriteSemantics) : result unit :=
  _ ← raise_if (negb (wsm_side_effect s)) ValueError "WRITE side_effect must be true";
  _ ← raise_if (negb (wsm_approval_required s)) ValueError
        "WRITE approval.required must be true";
  raise_if (negb (wsm_preconditions_supported s)) ValueError
    "WRITE preconditions.supported must be true".

Definition write_semantics_to_data (s : WriteSemantics) : json :=
  JObj ([("side_effect", JBool (wsm_side_effect s)); ("atomicity", JStr "ATOMIC");
         ("idempotency", idempotency_semantics_to_data (wsm_idempotency s));
         ("commit", JObj [("confirmation", JStr "EXPLICIT")]);
         ("approval", JObj [("required", JBool (wsm_approval_required s))]);
         ("preconditions", JObj [("supported", JBool (wsm_preconditions_supported s))])]
        ++ opt_field "verification" post_write_verification_to_data (wsm_verification s)).

(** ** Tool contracts *)

Record ToolContract : Type := MkToolContract {
  tc_tool_id : string;
  tc_version : string;
  tc_capability : capability_text;
  tc_input_types : list (string * TypeRef);
  tc_output_type : TypeRef;
  tc_required_scope : string;
  tc_output_classification : DataClassification;
  tc_timeout_ms : Z;
  tc_risk : string;
  tc_empty_is_valid : bool;
  tc_operation_kind : option OperationKind;
  tc_risk_level : option RiskLevel;
  tc_write_semantics : option WriteSemantics
}.

(** A version number without a leading zero. *)
Definition is_version_part (part : string) : bool :=
  negb (String.eqb part "") && string_forallb is_digit part
  && (String.eqb part "0" || negb (startswith part "0")).

Definition is_canonical_version (version : string) : bool :=
  let parts := split_on "."%char version in
  (length parts =? 3) && forallb is_version_part parts.

(** [__post_init__]; [capability] is the text the contract was built with. *)
Definition ToolContract_post_init (capability : string) (c : ToolContract) : result unit :=
  _ ← raise_if (negb (is_canonical_version (tc_version c))) ValueError
        "tool version must use canonical major.minor.patch form";
  _ ← raise_if (negb (non_blank capability)) ValueError
        "tool capability must be a non-empty string";
  _ ← nonempty_texts " must be a non-empty string" [("tool risk", tc_risk c)];
  let names := map fst (tc_input_types c) in
  _ ← raise_if (negb (forallb non_blank names)) ValueError
        "tool input names must be non-empty strings";
  _ ← raise_if (negb (no_duplicates names)) ValueError "tool input names must be unique";
  _ ← raise_if ((tc_timeout_ms c <? 1)%Z || (MAX_TOOL_TIMEOUT_MS <? tc_timeout_ms c)%Z)
        ValueError ("tool timeout_ms must be between 1 and " +:+ str_of_Z MAX_TOOL_TIMEOUT_MS);
  if bool_decide (tc_capability c = Capability WRITE) then
    _ ← raise_if (bool_decide (tc_operation_kind c = None)) ValueError
          "WRITE tool must declare operation_kind";
    _ ← raise_if (bool_decide (tc_risk_level c = None)) ValueError
          "WRITE tool must declare risk_level";
    raise_if (match tc_write_semantics c with None => true | Some _ => false end) ValueError
      "WRITE tool must declare write_semantics"
  else
    raise_if (negb (bool_decide (tc_operation_kind c = None))
              || match tc_write_semantics c with None => false | Some _ => true end)
      ValueError "operation_kind and write_semantics require capability=WRITE".

Definition new_ToolContract tool_id version (capability : string) input_types output_type
    required_scope output_classification timeout_ms risk empty_is_valid operation_kind
    risk_level write_semantics : result ToolContract :=
  let c := MkToolContract tool_id version
    match ToolCapability_of capability with
    | Some c => Capability c | None => OtherCapability capability end
    input_types output_type required_scope output_classification timeout_ms risk
    empty_is_valid operation_kind risk_level write_semantics in
  _ ← ToolContract_post_init capability c; Ok c.

Definition to_canonical_data (c : ToolContract) : json :=
  JObj ([("tool_id", JStr (tc_tool_id c)); ("version", JStr (tc_version c));
         ("capability", capability_to_data (tc_capability c)); ("risk", JStr (tc_risk c));
         ("inputs", JArr (map (fun i =>
            JObj [("name", JStr i.1); ("type", type_to_data i.2)]) (tc_input_types c)));
         ("output", type_to_data (tc_output_type c));
         ("required_scope", JStr (tc_required_scope c));
         ("output_classification",
            JStr (classification_value (tc_output_classification c)));
         ("timeout_ms", JInt (tc_timeout_ms c));
         ("empty_is_valid", JBool (tc_empty_is_valid c))]
        ++ opt_field "operation_kind" (fun k => JStr (operation_kind_value k))
             (tc_operation_kind c)
        ++ opt_field "risk_level" (fun r => JStr (risk_value r)) (tc_risk_level c)
        ++ opt_field "write_semantics" write_semantics_to_data (tc_write_semantics c)).

Definition contract_hash (c : ToolContract) : string :=
  sha256_ref (canonical_json (to_canonical_data c)).

(** [ToolContract.input_type] *)
Definition input_type (c : ToolContract) (name : string) : result TypeRef :=
  match assoc name (tc_input_types c) with
  | Some t => Ok t | None => raise KeyError name end.

(** ** The contract catalog *)

Notation ToolContractCatalog := (gmap (string * string) ToolContract).

Definition new_ToolContractCatalog (contracts : list ToolContract)
  : result ToolContractCatalog :=
  fold_left (fun acc c =>
    catalog ← acc;
    let key := (tc_tool_id c, tc_version c) in
    match catalog !! key with
    | Some _ => raise DuplicateToolContractError
                  ("duplicate tool contract: " +:+ tc_tool_id c +:+ "@" +:+ tc_version c)
    | None => Ok (<[key := c]> catalog)
    end) contracts (Ok ∅).

Definition catalog_get (catalog : ToolContractCatalog) (tool_id version : string)
  : result ToolContract :=
  match catalog !! (tool_id, version) with
  | Some c => Ok c
  | None => raise KeyError ("unknown tool contract: " +:+ tool_id +:+ "@" +:+ version)
  end.

Definition catalog_resolve (catalog : ToolContractCatalog)
    (tool_id requested_version : string) : result ToolContract :=
  let available := List.filter (fun kc => String.eqb kc.1.1 tool_id) (map_to_list catalog) in
  match available with
  | [] => raise UnknownToolContractError
            ("unknown tool contract: " +:+ tool_id +:+ "@" +:+ requested_version)
  | _ =>
      match catalog !! (tool_id, requested_version) with
      | Some c => Ok c
      | None => raise IncompatibleToolVersionError
                  ("incompatible tool version: " +:+ tool_id +:+ "@" +:+ requested_version)
      end
  end.

(** ** Requests and results *)

Record ToolCallRequest : Type := MkToolCallRequest {
  tq_execution_id : string;
  tq_invocation_id : string;
  tq_node_id : string;
  tq_tool_id : string;
  tq_tool_version : string;
  tq_contract_hash : string;
  tq_arguments : list (string * ValueEnvelope);
  tq_principal : ExecutionPrincipal;
  tq_authorization_decision_ref : string
}.

Record ToolResultEnvelope : Type := MkToolResultEnvelope {
  tr_invocation_id : string;
  tr_tool_id : string;
  tr_tool_version : string;
  tr_value : value;
  tr_type_info : TypeRef;
  tr_presence : Presence;
  tr_completeness : Completeness;
  tr_classification : DataClassification;
  tr_result_hash : string;
  tr_snapshot_ref : option string
}.

Definition tool_result_to_value (r : ToolResultEnvelope) (provenance_ref : string)
  : ValueEnvelope :=
  MkValueEnvelope (tr_value r) (tr_type_info r) (tr_presence r) (tr_completeness r)
    (tr_classification r) [provenance_ref].

Definition tool_result_hash (v : value) : string :=
  sha256_ref (canonical_json (encode_value v)).

Definition conforms_to_primitive (v : value) (name : option string) : bool :=
  match name with
  | Some n =>
      if String.eqb n "Bool" then match v with VBool _ => true | _ => false end
      else if String.eqb n "Date" then match v with VDate _ => true | _ => false end
      else if String.eqb n "DateTime" then match v with VDateTime _ => true | _ => false end
      else if String.eqb n "Decimal" then match v with VDecimal _ => true | _ => false end
      else if String.eqb n "Int" || String.eqb n "Year"
           then match v with VInt _ => true | _ => false end
      else if String.eqb n "String" then match v with VStr _ => true | _ => false end
      else false
  | None => false
  end.

(** [dict(type_info.fields)] keeps the last type given to a name. *)
Fixpoint value_conforms_to_type (v : value) (t : TypeRef) {struct t} : bool :=
  match t with
  | MkTypeRef kind name currency item fields enum_values =>
      if String.eqb kind "primitive" then conforms_to_primitive v name
      else if String.eqb kind "domain" then match v with VStr _ => true | _ => false end
      else if String.eqb kind "money" then
        match v with
        | VMoney m => bool_decide (Some (Core.currency m) = currency)
        | _ => false
        end
      else if String.eqb kind "list" then
        match v, item with
        | VList items, Some item => forallb (fun x => value_conforms_to_type x item) items
        | _, _ => false
        end
      else if String.eqb kind "record" then
        match v with
        | VDict d =>
            same_elements (map fst d) (map fst fields)
            && (fix all (fs : list (string * TypeRef)) : bool :=
                  match fs with
                  | [] => true
                  | (n, ft) :: fs =>
                      (bool_decide (n ∈ map fst fs)
                       || match assoc n d with
                          | Some x => value_conforms_to_type x ft
                          | None => false
                          end) && all fs
                  end) fields
        | _ => false
        end
      else if String.eqb kind "enum" then
        match v with VStr s => bool_decide (s ∈ enum_values) | _ => false end
      else false
  end.

(** ** Validation *)

Definition validate_request (request : ToolCallRequest) (contract : ToolContract)
  : result unit :=
  _ ← (if negb (String.eqb (tq_contract_hash request) (contract_hash contract))
       then tool_error "TOOL_CONTRACT_MISMATCH" ("contract changed: " +:+ tq_tool_id request)
       else Ok tt);
  _ ← (if negb (same_elements (map fst (tq_arguments request))
                              (map fst (tc_input_types contract)))
       then tool_error "TOOL_ARGUMENT_MISMATCH"
              ("argument names do not match contract: " +:+ tq_tool_id request)
       else Ok tt);
  each (fun input =>
    match assoc input.1 (tq_arguments request) with
    | None => raise KeyError input.1
    | Some argument =>
        if bool_decide (ve_type_info argument = input.2)
           && value_conforms_to_type (ve_value argument) input.2
        then Ok tt
        else tool_error "TOOL_ARGUMENT_TYPE_MISMATCH"
               ("argument type does not match contract: " +:+ tq_tool_id request +:+ "."
                +:+ input.1)
    end) (tc_input_types contract).

Definition validate_result_structure (r : reply ToolResultEnvelope)
    (request : ToolCallRequest) : result ToolResultEnvelope :=
  match r with
  | Malformed => tool_error "MALFORMED_TOOL_RESULT"
      ("tool result is not a structured envelope: " +:+ tq_tool_id request)
  | Reply r =>
      if negb (String.eqb (tr_invocation_id r) (tq_invocation_id request))
         || negb (String.eqb (tr_tool_id r) (tq_tool_id request))
         || negb (String.eqb (tr_tool_version r) (tq_tool_version request))
      then tool_error "TOOL_RESULT_IDENTITY_MISMATCH"
             ("tool result identity does not match request: " +:+ tq_tool_id request)
      else if bool_decide (tr_snapshot_ref r = Some "")
      then tool_error "MALFORMED_TOOL_RESULT"
             ("tool result metadata is malformed: " +:+ tq_tool_id request)
      else Ok r
  end.

Definition validate_result_value (v : value) (contract : ToolContract) : result unit :=
  if value_conforms_to_type v (tc_output_type contract) then Ok tt
  else tool_error "OUTPUT_CONTRACT_VIOLATION"
         ("result does not match contract: " +:+ tc_tool_id contract).

Definition validate_result (r : ToolResultEnvelope) (contract : ToolContract) : result unit :=
  if bool_decide (tr_type_info r = tc_output_type contract)
     && bool_decide (tr_classification r = tc_output_classification contract)
  then validate_result_value (tr_value r) contract
  else tool_error "OUTPUT_CONTRACT_VIOLATION"
         ("result metadata does not match contract: " +:+ tc_tool_id contract).

Definition validate_result_hash (r : ToolResultEnvelope) : result unit :=
  if String.eqb (tr_result_hash r) (tool_result_hash (tr_value r)) then Ok tt
  else tool_error "TOOL_RESULT_HASH_MISMATCH"
         ("tool result hash does not match value: " +:+ tr_tool_id r).

(** ** Measurements *)

Inductive ToolExecutionOutcome : Type := RETURNED | ERROR | TOOL_CANCELLED.

Record ToolExecutionMeasurement : Type := MkToolExecutionMeasurement {
  tm_execution_id : string;
  tm_invocation_id : string;
  tm_node_id : string;
  tm_tool_id : string;
  tm_tool_version : string;
  tm_tenant_id : string;
  tm_outcome : ToolExecutionOutcome;
  tm_duration_ns : Z
}.

Definition ToolExecutionMeasurement_post_init (m : ToolExecutionMeasurement) : result unit :=
  _ ← raise_if (negb (forallb non_blank [tm_execution_id m; tm_invocation_id m; tm_node_id m;
                        tm_tool_id m; tm_tool_version m; tm_tenant_id m])) ValueError
        "tool measurement identifiers must be non-empty";
  raise_if (tm_duration_ns m <? 0)%Z ValueError
    "tool measurement duration_ns must be non-negative".

(** ** The fixture executor *)

Inductive fixture_result : Type :=
  | MockToolResult (v : value) (completeness : Completeness)
  | PlainResult (v : value).

Definition FixtureHandler : Type := list (string * value) -> result fixture_result.

Record MockToolExecutor : Type := MkMockToolExecutor {
  mk_catalog : ToolContractCatalog;
  mk_handlers : gmap string FixtureHandler;
  mk_call_count : Z
}.

Definition count_call (m : MockToolExecutor) : MockToolExecutor :=
  MkMockToolExecutor (mk_catalog m) (mk_handlers m) (mk_call_count m + 1).

Definition resolve_for_call (m : MockToolExecutor) (request : ToolCallRequest)
  : result ToolContract :=
  match catalog_resolve (mk_catalog m) (tq_tool_id request) (tq_tool_version request) with
  | Ok c => Ok c
  | Err e =>
      if isinstance_exn (ex_class e) UnknownToolContractError
         || isinstance_exn (ex_class e) IncompatibleToolVersionError
      then tool_error "TOOL_CONTRACT_MISMATCH"
             ("contract unavailable: " +:+ tq_tool_id request)
      else Err e
  end.

(** [value == [] or value is None] *)
Definition fixture_presence (v : value) : Presence :=
  match v with VList [] | VNone => EMPTY | _ => PRESENT end.

Definition mock_execute (request : ToolCallRequest)
  : M MockToolExecutor ToolResultEnvelope :=
  m ← get;
  contract ← lift (resolve_for_call m request);
  _ ← lift (validate_request request contract);
  handler ← lift (match mk_handlers m !! tq_tool_id request with
                  | Some h => Ok h
                  | None => tool_error "MOCK_FIXTURE_NOT_FOUND"
                              ("no fixture for " +:+ tq_tool_id request)
                  end);
  let raw_arguments := map (fun a => (a.1, ve_value a.2)) (tq_arguments request) in
  _ ← modify count_call;
  fixture ← lift (handler raw_arguments);
  let '(v, completeness) := match fixture with
                            | MockToolResult v c => (v, c)
                            | PlainResult v => (v, COMPLETE)
                            end in
  _ ← lift (validate_result_value v contract);
  mret (MkToolResultEnvelope (tq_invocation_id request) (tq_tool_id request)
          (tq_tool_version request) v (tc_output_type contract) (fixture_presence v)
          completeness (tc_output_classification contract) (tool_result_hash v) None).

(** ** What a valid result is *)

(** The promise of a [ToolExecutor] to its caller: the result belongs to the
    request, has the type and classification of the contract and the hash of
    its own value. *)
Definition valid_result (contract : ToolContract) (request : ToolCallRequest)
    (r : ToolResultEnvelope) : Prop :=
  validate_result_structure (Reply r) request = Ok r
  /\ validate_result r contract = Ok tt /\ validate_result_hash r = Ok tt.

Lemma valid_result_spec contract request r : valid_result contract request r ->
  tr_invocation_id r = tq_invocation_id request /\ tr_tool_id r = tq_tool_id request
  /\ tr_tool_version r = tq_tool_version request
  /\ tr_type_info r = tc_output_type contract
  /\ tr_classification r = tc_output_classification contract
  /\ value_conforms_to_type (tr_value r) (tc_output_type contract) = true
  /\ tr_result_hash r = tool_result_hash (tr_value r).
Proof.
  unfold valid_result, validate_result_structure, validate_result, validate_result_value,
    validate_result_hash. intros (H1 & H2 & H3).
  destruct (negb _ || negb _ || negb _) eqn:E; [discriminate |].
  destruct (bool_decide _ && _) eqn:E2; [| discriminate].
  destruct (value_conforms_to_type _ _); [| discriminate].
  destruct (String.eqb (tr_result_hash r) _) eqn:E3; [| discriminate].
  split_bool. rewrite !String.eqb_eq in *. done.
Qed.

Lemma resolve_for_call_Ok m request c :
  resolve_for_call m request = Ok c ->
  catalog_resolve (mk_catalog m) (tq_tool_id request) (tq_tool_version request) = Ok c.
Proof.
  unfold resolve_for_call. destruct (catalog_resolve _ _ _) as [c'|e]; [done |].
  by destruct (_ || _).
Qed.

(** The fixture executor keeps the promise every executor makes to the
    runtime: a result it returns was produced for a request that satisfies the
    resolved contract, passes the structure, contract and hash checks, and
    cost exactly one counted call; a refused request is not counted. *)
Theorem mock_execute_valid (request : ToolCallRequest) (m m' : MockToolExecutor)
    (r : ToolResultEnvelope) :
  mock_execute request m = (Ok r, m') ->
  exists contract,
    catalog_resolve (mk_catalog m) (tq_tool_id request) (tq_tool_version request) = Ok contract
    /\ validate_request request contract = Ok tt
    /\ valid_result contract request r
    /\ m' = count_call m.
Proof.
  unfold mock_execute. rewrite M_bind_Ok. intros (? & ? & [= <- <-] & H).
  apply M_bind_Ok in H as (c & ? & [= Hc <-] & H).
  apply M_bind_Ok in H as ([] & ? & [= Hv <-] & H).
  apply M_bind_Ok in H as (h & ? & [= _ <-] & H).
  apply M_bind_Ok in H as ([] & ? & [= <-] & H).
  apply M_bind_Ok in H as (f & ? & [= _ <-] & H).
  destruct (match f with MockToolResult v c => (v, c) | PlainResult v => (v, COMPLETE) end)
    as [v completeness].
  apply M_bind_Ok in H as ([] & ? & [= Hr <-] & H).
  unfold mret, M_ret in H. apply pair_equal_spec in H as [H <-]. apply Ok_inj in H. subst r.
  exists c. split; [by apply resolve_for_call_Ok |]. split; [done |]. split; [| done].
  unfold valid_result, validate_result_structure, validate_result, validate_result_hash.
  cbn [tr_invocation_id tr_tool_id tr_tool_version tr_snapshot_ref tr_type_info
       tr_classification tr_value tr_result_hash].
  rewrite !String.eqb_refl, (bool_decide_eq_false_2 (None = Some "")) by done.
  by rewrite !bool_decide_eq_true_2.
Qed.

(** ** The catalog *)

Definition contract_key (c : ToolContract) : string * string := (tc_tool_id c, tc_version c).

Definition catalog_of (contracts : list ToolContract) (catalog : ToolContractCatalog) : Prop :=
  forall k c, catalog !! k = Some c <-> c ∈ contracts /\ contract_key c = k.

Lemma catalog_fold contracts done_ catalog :
  catalog_of done_ catalog -> NoDup (map contract_key (done_ ++ contracts)) ->
  exists catalog', fold_left (fun acc c =>
      catalog ← acc;
      let key := (tc_tool_id c, tc_version c) in
      match catalog !! key with
      | Some _ => raise DuplicateToolContractError
                    ("duplicate tool contract: " +:+ tc_tool_id c +:+ "@" +:+ tc_version c)
      | None => Ok (<[key := c]> catalog)
      end) contracts (Ok catalog) = Ok catalog'
    /\ catalog_of (done_ ++ contracts) catalog'.
Proof.
  revert done_ catalog; induction contracts as [|c cs IH]; intros done_ catalog Hc Hn.
  - exists catalog. split; [done |]. by rewrite app_nil_r.
  - cbn [fold_left]. change (mbind _ (Ok catalog)) with
      (match catalog !! contract_key c with
       | Some _ => raise DuplicateToolContractError
                    ("duplicate tool contract: " +:+ tc_tool_id c +:+ "@" +:+ tc_version c)
       | None => Ok (<[contract_key c := c]> catalog) end).
    assert (catalog !! contract_key c = None) as E.
    { apply eq_None_not_Some. intros [d Hd]. apply Hc in Hd as [Hd Hk].
      rewrite map_app in Hn. apply NoDup_app in Hn as (_ & Hn & _).
      apply (Hn (contract_key c)); [| left]. rewrite <- Hk.
      by apply list_elem_of_In, in_map, list_elem_of_In. }
    rewrite E. change (done_ ++ c :: cs) with (done_ ++ [c] ++ cs) in *.
    rewrite app_assoc in *. apply IH; [| done].
    intros k d. rewrite elem_of_app, list_elem_of_singleton.
    destruct (decide (contract_key c = k)) as [<-|Hne].
    + rewrite lookup_insert_eq. split; [by intros [= <-]; auto |].
      intros [[Hd| ->] Hk]; [| done]. assert (catalog !! contract_key c = Some d) as Hx
        by by apply Hc. congruence.
    + rewrite lookup_insert_ne by done. rewrite (Hc k d). naive_solver.
Qed.

(** The contract catalog resolves exactly: built from contracts with
    pairwise distinct tool id and version, it resolves an id and version to
    that very contract; another version of a known tool is an incompatible
    version, and a tool id nobody registered is unknown. *)
Theorem catalog_resolves_exactly (contracts : list ToolContract) :
  NoDup (map contract_key contracts) ->
  exists catalog, new_ToolContractCatalog contracts = Ok catalog
    /\ forall tool_id version,
       match catalog_resolve catalog tool_id version with
       | Ok c => c ∈ contracts /\ tc_tool_id c = tool_id /\ tc_version c = version
       | Err e =>
           (forall c, c ∈ contracts -> contract_key c <> (tool_id, version))
           /\ ex_class e = if existsb (fun c => String.eqb (tc_tool_id c) tool_id) contracts
                           then IncompatibleToolVersionError else UnknownToolContractError
       end.
Proof.
  intros Hn. destruct (catalog_fold contracts [] ∅) as (catalog & Hcat & Hspec); [| done |].
  { intros k c. rewrite lookup_empty, elem_of_nil. naive_solver. }
  cbn [app] in Hspec. exists catalog. split; [done |]. intros tool_id version.
  unfold catalog_resolve.
  assert (existsb (fun c => String.eqb (tc_tool_id c) tool_id) contracts = true <->
          List.filter (fun kc => String.eqb kc.1.1 tool_id) (map_to_list catalog) <> []) as E.
  { rewrite existsb_exists. split.
    - intros (c & Hc & Ht) Hnil.
      assert ((contract_key c, c) ∈ map_to_list catalog) as Hin
        by (apply elem_of_map_to_list, Hspec; split; [by apply list_elem_of_In | done]).
      assert (In (contract_key c, c) (List.filter (fun kc => String.eqb kc.1.1 tool_id)
        (map_to_list catalog))) as Hf
        by (apply filter_In; split; [by apply list_elem_of_In | exact Ht]).
      by rewrite Hnil in Hf.
    - intros Hne. destruct (List.filter _ _) as [|[k c] l] eqn:El; [done |].
      assert (In (k, c) ((k, c) :: l)) as Hin by by left. rewrite <- El in Hin.
      apply filter_In in Hin as [Hin%list_elem_of_In Ht].
      apply elem_of_map_to_list, Hspec in Hin as [Hc <-].
      exists c. split; [by apply list_elem_of_In | done]. }
  assert (forall c, catalog !! (tool_id, version) = None ->
            c ∈ contracts -> contract_key c <> (tool_id, version)) as Hnone.
  { intros c H Hc Hk. assert (catalog !! (tool_id, version) = Some c) by by apply Hspec.
    congruence. }
  destruct (List.filter _ _) as [|kc l] eqn:El.
  - assert (existsb (fun c => String.eqb (tc_tool_id c) tool_id) contracts = false) as ->.
    { apply not_true_iff_false. rewrite E. by intros H. }
    split; [| done]. intros c Hc. apply Hnone; [| done].
    apply eq_None_not_Some. intros [d [Hd Hk]%Hspec].
    assert (existsb (fun c => String.eqb (tc_tool_id c) tool_id) contracts = true) as Ht.
    { apply existsb_exists. exists d. split; [by apply list_elem_of_In |].
      injection Hk as -> _. apply String.eqb_refl. }
    by apply E in Ht.
  - rewrite (proj2 E) by done. destruct (catalog !! (tool_id, version)) as [c|] eqn:Hl.
    + apply Hspec in Hl as [Hc Hk]. by injection Hk as -> ->.
    + split; [| done]. intros c. by apply Hnone.
Qed.

(** ** Concrete contracts *)

Definition example_write_contract : ToolContract :=
  MkToolContract "erp.create_po" "1.0.0" (Capability WRITE)
    [("vendor", STRING); ("lines", list_type INT)] STRING "po:write" INTERNAL 30000 "WRITE"
    true (Some CREATE) (Some R3)
    (Some (MkWriteSemantics true ATOMIC
       (MkIdempotencySemantics true "TOOL_AND_TENANT" "P30D" "RETURN_ORIGINAL_RESULT"
          "IDEMPOTENCY_CONFLICT") EXPLICIT true true None)).

Definition example_read_contract : ToolContract :=
  MkToolContract "erp.get_stock" "1.0.0" (Capability READ) [("item", STRING)]
    INT "stock:read" INTERNAL 1000 "READ_ONLY" true None None None.

Lemma catalog_resolves_exactly_witness :
  exists catalog,
    new_ToolContractCatalog [example_write_contract; example_read_contract] = Ok catalog.
Proof.
  destruct (catalog_resolves_exactly [example_write_contract; example_read_contract])
    as (catalog & H & _).
  - apply (bool_decide_eq_true_1 (NoDup [("erp.create_po", "1.0.0"); ("erp.get_stock", "1.0.0")])).
    reflexivity.
  - by exists catalog.
Defined.

Definition example_executor : MockToolExecutor :=
  MkMockToolExecutor {[contract_key example_read_contract := example_read_contract]}
    {["erp.get_stock" := fun _ => Ok (PlainResult (VInt 12))]} 0.

Definition example_tool_request : ToolCallRequest :=
  MkToolCallRequest "exec-1" "inv-1" "n-read" "erp.get_stock" "1.0.0"
    (contract_hash example_read_contract)
    [("item", MkValueEnvelope (VStr "bolt") STRING PRESENT COMPLETE INTERNAL [])]
    example_principal "authz-1".

Definition example_tool_result : ToolResultEnvelope := Eval vm_compute in
  MkToolResultEnvelope "inv-1" "erp.get_stock" "1.0.0" (VInt 12) INT PRESENT COMPLETE INTERNAL
    (tool_result_hash (VInt 12)) None.

Lemma mock_execute_valid_witness :
  valid_result example_read_contract example_tool_request example_tool_result.
Proof.
  destruct (mock_execute_valid example_tool_request example_executor
    (count_call example_executor) example_tool_result) as (c & Hc & _ & Hv & _).
  - vm_compute. reflexivity.
  - assert (c = example_read_contract) as Ec; [| rewrite <- Ec; exact Hv].
    apply Ok_inj. rewrite <- Hc. vm_compute. reflexivity.
Defined.
