(* ===== verification/WriteIntent.v ===== *)
(** * WRITE intents ([src/nsl/write_intent.py])

    The strict canonical form of WRITE arguments, the payload and intent
    hashes taken over it, and the frozen intent they identify. *)

From S2P Require Import Prelude Digest Json Decimal Core DataProtection Ir Security.
From S2P Require Import WriteRecords RuntimeModels.

Definition _PAYLOAD_HASH_DOMAIN : list ascii := hash_domain "NSL-WRITE-PAYLOAD-V1".
Definition _WRITE_INTENT_HASH_DOMAIN : list ascii := hash_domain "NSL-WRITE-INTENT-V1".

Notation intent_text := (required_text WriteIntentError).
Notation intent_sha256 := (sha256_text WriteIntentError).

(** A dict of evaluated arguments, in insertion order. *)
Notation arguments := (list (string * ValueEnvelope)).

(** ** Canonical encoding

    Values of the model are trees, so the search for cycles finds none. *)
Fixpoint _encode_write_value (v : value) (path : string) : result json :=
  match v with
  | VNone => Ok JNull
  | VBool b => Ok (JBool b)
  | VInt z => Ok (JInt z)
  | VStr s => Ok (JStr s)
  | VMoney m => Ok (encode_money m)
  | VDecimal d =>
      if is_finite d then Ok (encode_tagged "Decimal" (dec_format_f d))
      else raise CanonicalWriteValueError ("WRITE Decimal must be finite at " +:+ path)
  | VDateTime d =>
      match dt_utcoffset d with
      | None => raise CanonicalWriteValueError
                  ("WRITE DateTime must be timezone-aware at " +:+ path)
      | Some _ => Ok (encode_tagged "DateTime" (datetime_isoformat d))
      end
  | VDate d => Ok (encode_tagged "Date" (date_isoformat d))
  | VDict fields =>
      encoded ← map_result (fun kv =>
        x ← _encode_write_value kv.2 (path +:+ "." +:+ kv.1); Ok (kv.1, x)) fields;
      Ok (JObj encoded)
  | VList items | VTuple items =>
      encoded ← (fix go (index : nat) (l : list value) : result (list json) :=
        match l with
        | [] => Ok []
        | item :: l =>
            x ← _encode_write_value item (path +:+ "[" +:+ str_of_nat index +:+ "]");
            xs ← go (S index) l; Ok (x :: xs)
        end) 0 items;
      Ok (JArr encoded)
  end.

Definition _encode_argument_mapping (args : arguments) : result json :=
  encoded ← map_result (fun kv =>
    x ← _encode_write_value (ve_value kv.2) ("$." +:+ kv.1); Ok (kv.1, x)) args;
  Ok (JObj encoded).

Definition canonical_write_arguments (args : arguments) : result bytes :=
  encoded ← _encode_argument_mapping args; Ok (canonical_json encoded).

Definition compute_payload_hash (args : arguments) : result string :=
  canonical ← canonical_write_arguments args;
  Ok (sha256_ref (_PAYLOAD_HASH_DOMAIN ++ canonical)).

Definition intent_hash_payload (skill_semantic_hash write_node_id tool_id payload_hash : string)
  : json :=
  JObj [("skill_semantic_hash", JStr skill_semantic_hash);
        ("write_node_id", JStr write_node_id); ("tool_id", JStr tool_id);
        ("payload_hash", JStr payload_hash)].

Definition compute_write_intent_hash
    (skill_semantic_hash write_node_id tool_id payload_hash : string) : result string :=
  skill_semantic_hash ← intent_sha256 skill_semantic_hash "skill_semantic_hash";
  write_node_id ← intent_text write_node_id "write_node_id";
  tool_id ← intent_text tool_id "tool_id";
  payload_hash ← intent_sha256 payload_hash "payload_hash";
  Ok (sha256_ref (_WRITE_INTENT_HASH_DOMAIN ++ canonical_json
        (intent_hash_payload skill_semantic_hash write_node_id tool_id payload_hash))).

(** ** Freezing *)

Fixpoint _freeze_value (v : value) : value :=
  match v with
  | VDict fields => VDict (map (fun kv => (kv.1, _freeze_value kv.2)) fields)
  | VList items | VTuple items => VTuple (map _freeze_value items)
  | v => v
  end.

Definition freeze_envelope (e : ValueEnvelope) : ValueEnvelope :=
  MkValueEnvelope (_freeze_value (ve_value e)) (ve_type_info e) (ve_presence e)
    (ve_completeness e) (ve_classification e) (ve_provenance_refs e).

Definition _freeze_arguments (args : arguments) : arguments :=
  map (fun kv => (kv.1, freeze_envelope kv.2)) args.

(** ** Intents *)

Record WriteIntent : Type := MkWriteIntent {
  wi_tenant_id : string;
  wi_business_operation_id : string;
  wi_node_id : string;
  wi_tool_ref : string;
  wi_tool_id : string;
  wi_approval_id : string;
  wi_skill_semantic_hash : string;
  wi_canonical_arguments : arguments;
  wi_payload_hash : string;
  wi_write_intent_hash : string
}.

(** The constructor: its checks, then the frozen arguments are stored. *)
Definition new_WriteIntent (i : WriteIntent) : result WriteIntent :=
  _ ← required_texts WriteIntentError
        [("WriteIntent.tenant_id", wi_tenant_id i);
         ("WriteIntent.business_operation_id", wi_business_operation_id i);
         ("WriteIntent.node_id", wi_node_id i); ("WriteIntent.tool_ref", wi_tool_ref i);
         ("WriteIntent.tool_id", wi_tool_id i); ("WriteIntent.approval_id", wi_approval_id i)];
  _ ← intent_sha256 (wi_skill_semantic_hash i) "WriteIntent.skill_semantic_hash";
  _ ← intent_sha256 (wi_payload_hash i) "WriteIntent.payload_hash";
  _ ← intent_sha256 (wi_write_intent_hash i) "WriteIntent.write_intent_hash";
  expected_payload_hash ← compute_payload_hash (wi_canonical_arguments i);
  _ ← raise_if (negb (String.eqb (wi_payload_hash i) expected_payload_hash)) WriteIntentError
        "WriteIntent.payload_hash does not match canonical arguments";
  expected_intent_hash ← compute_write_intent_hash (wi_skill_semantic_hash i) (wi_node_id i)
                           (wi_tool_id i) (wi_payload_hash i);
  _ ← raise_if (negb (String.eqb (wi_write_intent_hash i) expected_intent_hash))
        WriteIntentError "WriteIntent.write_intent_hash does not match intent semantics";
  Ok (MkWriteIntent (wi_tenant_id i) (wi_business_operation_id i) (wi_node_id i)
        (wi_tool_ref i) (wi_tool_id i) (wi_approval_id i) (wi_skill_semantic_hash i)
        (_freeze_arguments (wi_canonical_arguments i)) (wi_payload_hash i)
        (wi_write_intent_hash i)).

(** [require_approval_identity], given the two hashes of the evidence. *)
Definition require_approval_identity (i : WriteIntent)
    (evidence_payload_hash evidence_write_intent_hash : string) : result unit :=
  approved_payload_hash ← intent_sha256 evidence_payload_hash "Approval payload_hash";
  approved_intent_hash ← intent_sha256 evidence_write_intent_hash
                           "Approval write_intent_hash";
  if negb (String.eqb approved_payload_hash (wi_payload_hash i))
     || negb (String.eqb approved_intent_hash (wi_write_intent_hash i))
  then Err (Exn ApprovalRefreshRequiredError "NEW_APPROVAL_REQUIRED"
        "WRITE intent changed after approval; a new Approval Request is required")
  else Ok tt.

(** [WriteIntentBuilder.build] *)
Definition build_write_intent (expression : WriteExpression) (args : arguments)
    (ctx : ExecutionContext) : result WriteIntent :=
  business_operation_id ←
    match ctx_business_operation_id ctx with
    | Some b => Ok b
    | None => raise WriteIntentError "BusinessOperationId is required to build a WriteIntent"
    end;
  required_tool ←
    match List.filter (fun r => String.eqb (rt_tool_ref r) (we_tool_ref expression))
            (sk_required_tools (ctx_skill ctx)) with
    | [r] => Ok r
    | _ => raise WriteIntentError "WRITE must resolve exactly one declared tool contract"
    end;
  _ ← raise_if (negb (bool_decide (rt_capability required_tool = Capability WRITE)))
        WriteIntentError "WRITE requires a WRITE-capable tool contract";
  let expected_names := map fst (we_arguments expression) in
  let actual_names := map fst args in
  _ ← raise_if (negb (same_elements actual_names expected_names)
                || negb (length actual_names =? length expected_names))
        WriteIntentError "evaluated WRITE arguments do not match the IR expression";
  payload_hash ← compute_payload_hash args;
  write_intent_hash ← compute_write_intent_hash (sk_semantic_hash (ctx_skill ctx))
                        (we_node_id expression) (rt_tool_id required_tool) payload_hash;
  new_WriteIntent (MkWriteIntent (ctx_tenant_id ctx) business_operation_id
    (we_node_id expression) (we_tool_ref expression) (rt_tool_id required_tool)
    (we_approval_ref expression) (sk_semantic_hash (ctx_skill ctx)) args payload_hash
    write_intent_hash).

(** ** Encoding does not see the freezing *)

Lemma map_result_map {A B C} (f : B -> result C) (g : A -> B) l :
  map_result f (map g l) = map_result (fun x => f (g x)) l.
Proof. induction l as [|x l IH]; cbn; [done |]. by rewrite IH. Qed.

Lemma map_result_ext {A B} (f g : A -> result B) l :
  Forall (fun x => f x = g x) l -> map_result f l = map_result g l.
Proof. induction 1 as [|x l H _ IH]; cbn; [done |]. by rewrite H, IH. Qed.

Lemma encode_freeze v path : _encode_write_value (_freeze_value v) path
                             = _encode_write_value v path.
Proof.
  assert (forall l, Forall (fun v => forall path,
            _encode_write_value (_freeze_value v) path = _encode_write_value v path) l ->
          forall path, _encode_write_value (VTuple (map _freeze_value l)) path
                       = _encode_write_value (VTuple l) path) as Hl.
  { intros l H p. cbn [_encode_write_value]. f_equal. generalize 0.
    induction H as [|x l Hx _ IH]; intros i; [done |]. cbn [map].
    by rewrite Hx, IH. }
  revert path. induction v as [| | |s| | | | |l IH|l IH|d IH] using value_rect';
    intros path; try done.
  - by apply Hl.
  - by apply Hl.
  - cbn [_freeze_value _encode_write_value]. rewrite map_result_map. f_equal.
    apply map_result_ext. eapply Forall_impl; [exact IH |].
    intros [k x] H. cbn [fst snd] in *. by rewrite H.
Qed.

Lemma encode_frozen_arguments args :
  _encode_argument_mapping (_freeze_arguments args) = _encode_argument_mapping args.
Proof.
  unfold _encode_argument_mapping, _freeze_arguments. rewrite map_result_map. f_equal.
  apply map_result_ext, Forall_forall. intros [k e] _. cbn [fst snd freeze_envelope ve_value].
  by rewrite encode_freeze.
Qed.

Lemma payload_hash_frozen args :
  compute_payload_hash (_freeze_arguments args) = compute_payload_hash args.
Proof.
  unfold compute_payload_hash, canonical_write_arguments. by rewrite encode_frozen_arguments.
Qed.

Lemma intent_hash_Ok s n t p h : compute_write_intent_hash s n t p = Ok h ->
  h = sha256_ref (_WRITE_INTENT_HASH_DOMAIN ++ canonical_json (intent_hash_payload s n t p)).
Proof.
  unfold compute_write_intent_hash. intros H.
  apply bind_Ok in H as (s' & [-> _]%sha256_text_iff & H).
  apply bind_Ok in H as (n' & [-> _]%required_text_iff & H).
  apply bind_Ok in H as (t' & [-> _]%required_text_iff & H).
  apply bind_Ok in H as (p' & [-> _]%sha256_text_iff & H).
  injection H as <-. done.
Qed.

(** The intents the constructor returns: their hashes are those of their own
    (frozen) contents. *)
Definition intent_wf (i : WriteIntent) : Prop :=
  compute_payload_hash (wi_canonical_arguments i) = Ok (wi_payload_hash i)
  /\ compute_write_intent_hash (wi_skill_semantic_hash i) (wi_node_id i) (wi_tool_id i)
       (wi_payload_hash i) = Ok (wi_write_intent_hash i)
  /\ Forall text_ok
       [wi_tenant_id i; wi_business_operation_id i; wi_node_id i; wi_tool_ref i;
        wi_tool_id i; wi_approval_id i].

Lemma new_WriteIntent_Ok i j : new_WriteIntent i = Ok j ->
  intent_wf j
  /\ j = MkWriteIntent (wi_tenant_id i) (wi_business_operation_id i) (wi_node_id i)
        (wi_tool_ref i) (wi_tool_id i) (wi_approval_id i) (wi_skill_semantic_hash i)
        (_freeze_arguments (wi_canonical_arguments i)) (wi_payload_hash i)
        (wi_write_intent_hash i).
Proof.
  unfold new_WriteIntent. intros H.
  apply bind_Ok in H as ([] & Ht%required_texts_iff & H).
  do 3 apply bind_Ok in H as (? & _ & H).
  apply bind_Ok in H as (p & Hp & H). apply bind_Ok in H as ([] & Ep%raise_if_Ok & H).
  apply bind_Ok in H as (w & Hw & H). apply bind_Ok in H as ([] & Ew%raise_if_Ok & H).
  injection H as <-. split; [| done].
  apply negb_false_iff, String.eqb_eq in Ep. apply negb_false_iff, String.eqb_eq in Ew.
  rewrite <- Ep in Hp. rewrite <- Ew in Hw.
  split; [exact (eq_trans (payload_hash_frozen _) Hp) |]. split; [exact Hw |].
  exact Ht.
Qed.

(** ** Binding *)

Lemma payload_hash_binding a b h ja jb :
  compute_payload_hash a = Ok h -> compute_payload_hash b = Ok h ->
  _encode_argument_mapping a = Ok ja -> _encode_argument_mapping b = Ok jb ->
  sorted_keys ja = sorted_keys jb
  \/ collision (_PAYLOAD_HASH_DOMAIN ++ canonical_json ja)
               (_PAYLOAD_HASH_DOMAIN ++ canonical_json jb).
Proof.
  unfold compute_payload_hash, canonical_write_arguments. intros Ha Hb Ea Eb.
  rewrite Ea in Ha. rewrite Eb in Hb.
  change (Ok (sha256_ref (_PAYLOAD_HASH_DOMAIN ++ canonical_json ja)) = Ok h) in Ha.
  change (Ok (sha256_ref (_PAYLOAD_HASH_DOMAIN ++ canonical_json jb)) = Ok h) in Hb.
  apply Ok_inj in Ha, Hb.
  destruct (sha256_ref_or_collision _ _ (eq_trans Ha (eq_sym Hb))) as [E|C]; [left | by right].
  apply app_inv_head in E. by apply canonical_json_inj.
Qed.

Lemma encode_of_payload_hash a h : compute_payload_hash a = Ok h ->
  exists j, _encode_argument_mapping a = Ok j.
Proof.
  unfold compute_payload_hash, canonical_write_arguments. intros H.
  apply bind_Ok in H as (c & H & _). apply bind_Ok in H as (j & H & _). eauto.
Qed.

Lemma intent_hash_binding s n t p s' n' t' p' h :
  compute_write_intent_hash s n t p = Ok h -> compute_write_intent_hash s' n' t' p' = Ok h ->
  (s = s' /\ n = n' /\ t = t' /\ p = p')
  \/ collision (_WRITE_INTENT_HASH_DOMAIN ++ canonical_json (intent_hash_payload s n t p))
               (_WRITE_INTENT_HASH_DOMAIN ++ canonical_json (intent_hash_payload s' n' t' p')).
Proof.
  intros H%intent_hash_Ok H'%intent_hash_Ok. rewrite H in H'.
  destruct (sha256_ref_or_collision _ _ H') as [E|C]; [left | by right].
  apply app_inv_head, canonical_json_inj in E. unfold intent_hash_payload in E.
  clear H H'. cbn in E. injection E as -> -> -> ->. repeat split.
Qed.

(** The arguments of two intents are the same payload: they encode to the same
    document up to the order of keys. *)
Definition same_payload (a b : arguments) : Prop :=
  exists ja jb, _encode_argument_mapping a = Ok ja /\ _encode_argument_mapping b = Ok jb
    /\ sorted_keys ja = sorted_keys jb.

(** The documents hashed for an intent and for its payload. *)
Definition intent_document (i : WriteIntent) : bytes :=
  _WRITE_INTENT_HASH_DOMAIN
  ++ canonical_json (intent_hash_payload (wi_skill_semantic_hash i) (wi_node_id i)
       (wi_tool_id i) (wi_payload_hash i)).

Definition payload_document (i : WriteIntent) : option bytes :=
  match _encode_argument_mapping (wi_canonical_arguments i) with
  | Ok document => Some (_PAYLOAD_HASH_DOMAIN ++ canonical_json document)
  | Err _ => None
  end.

Definition intents_collide (i j : WriteIntent) : Prop :=
  collision (intent_document i) (intent_document j)
  \/ exists m n, payload_document i = Some m /\ payload_document j = Some n /\ collision m n.

(** An approval of an intent hash covers one WRITE only: of two intents
    built by the kernel with the same intent hash, the Skill, the node, the
    tool and the encoded arguments agree, or the documents hashed for the two
    intents, or those hashed for their payloads, are a SHA-256 collision. *)
Theorem write_intent_hash_binding (i j : WriteIntent) :
  intent_wf i -> intent_wf j -> wi_write_intent_hash i = wi_write_intent_hash j ->
  (wi_skill_semantic_hash i = wi_skill_semantic_hash j /\ wi_node_id i = wi_node_id j
   /\ wi_tool_id i = wi_tool_id j /\ wi_payload_hash i = wi_payload_hash j
   /\ same_payload (wi_canonical_arguments i) (wi_canonical_arguments j))
  \/ intents_collide i j.
Proof.
  intros (Pi & Hi & _) (Pj & Hj & _) E. rewrite E in Hi.
  destruct (intent_hash_binding _ _ _ _ _ _ _ _ _ Hi Hj) as [(? & ? & ? & Ep)|C];
    [| by right; left].
  destruct (encode_of_payload_hash _ _ Pi) as [ji Ei].
  destruct (encode_of_payload_hash _ _ Pj) as [jj Ej].
  rewrite Ep in Pi.
  destruct (payload_hash_binding _ _ _ _ _ Pi Pj Ei Ej) as [Hs|C].
  - left. unfold same_payload. eauto 10.
  - right; right. unfold payload_document. rewrite Ei, Ej. eauto 10.
Qed.

Lemma build_write_intent_wf e args ctx i : build_write_intent e args ctx = Ok i -> intent_wf i.
Proof.
  unfold build_write_intent. intros H. do 6 apply bind_Ok in H as (? & _ & H).
  by apply new_WriteIntent_Ok in H as [? _].
Qed.

(** The intent builder checks what it binds: it returns an intent only
    when the execution has a business operation, the WRITE resolves to exactly
    one declared WRITE tool and the evaluated arguments carry exactly the names
    of the IR expression; the intent then names the execution's tenant,
    operation and Skill, that tool and that node, its payload hash is the hash
    of the evaluated arguments although it stores them frozen, and it carries
    no credential material in its identities. *)
Theorem build_write_intent_binds (e : WriteExpression) (args : arguments)
    (ctx : ExecutionContext) (i : WriteIntent) :
  build_write_intent e args ctx = Ok i ->
  intent_wf i
  /\ ctx_business_operation_id ctx = Some (wi_business_operation_id i)
  /\ wi_tenant_id i = ctx_tenant_id ctx
  /\ wi_skill_semantic_hash i = sk_semantic_hash (ctx_skill ctx)
  /\ wi_node_id i = we_node_id e /\ wi_approval_id i = we_approval_ref e
  /\ (exists r, List.filter (fun r => String.eqb (rt_tool_ref r) (we_tool_ref e))
                  (sk_required_tools (ctx_skill ctx)) = [r]
        /\ rt_capability r = Capability WRITE /\ wi_tool_id i = rt_tool_id r)
  /\ (forall name, name ∈ map fst args <-> name ∈ map fst (we_arguments e))
  /\ compute_payload_hash args = Ok (wi_payload_hash i)
  /\ wi_canonical_arguments i = _freeze_arguments args.
Proof.
  unfold build_write_intent. intros H.
  apply bind_Ok in H as (b & Hb & H). apply bind_Ok in H as (r & Hr & H).
  apply bind_Ok in H as ([] & Hc%raise_if_Ok & H).
  apply bind_Ok in H as ([] & Hn%raise_if_Ok & H).
  apply bind_Ok in H as (p & Hp & H). apply bind_Ok in H as (w & _ & H).
  apply new_WriteIntent_Ok in H as [Hwf ->]. split; [exact Hwf |]. clear Hwf.
  cbn [wi_business_operation_id wi_tenant_id wi_skill_semantic_hash wi_node_id wi_approval_id
       wi_tool_id wi_payload_hash wi_canonical_arguments].
  split_bool. split.
  { destruct (ctx_business_operation_id ctx); [by injection Hb as -> | discriminate Hb]. }
  do 4 (split; [reflexivity |]). split.
  { destruct (List.filter _ _) as [|r' [|]]; try discriminate Hr. injection Hr as ->. eauto. }
  split; [by apply same_elements_true |]. by split.
Qed.


(** ** A concrete WRITE *)

Definition example_hash : string := "sha256:" +:+ zeros 64.

Definition example_write_skill : SkillObject :=
  MkSkillObject "1.1" "0.2" "purchase" "1.0.0" "R3" "NSL-0.2-STRICT" example_hash ∅ []
    [MkRequiredTool "po" "erp.create_po" "1.0.0" (Capability WRITE) example_hash "po:write"
       INTERNAL (Some R3)]
    example_limits [] [] [] [] (MkStaticAnalysis 1 0 0 true)
    (MkBuildMetadata "sha256:none" "main.nsl" []).

Definition example_write_context : ExecutionContext :=
  MkExecutionContext example_write_skill example_request (fun n => Z.of_nat n) 1 0
    (MkExecutionIdentity "exec-1" (Some "op-1"))
    (request_security_context example_request) ∅ ∅ [∅] [∅] [] [] zero_meter COMPLETE 0 0 None
    ∅ [] (MkIdempotencyState ∅ ∅) default_CheckpointState.

Definition example_write : WriteExpression :=
  MkWriteExpression "n-write" "po" [("vendor", LiteralExpr "n1" (VStr "ACME") STRING);
    ("lines", LiteralExpr "n2" (VList [VInt 3]) (list_type INT))] "approve-po" STRING.

Definition example_arguments : arguments :=
  [("lines", MkValueEnvelope (VList [VInt 3]) (list_type INT) PRESENT COMPLETE INTERNAL []);
   ("vendor", MkValueEnvelope (VStr "ACME") STRING PRESENT COMPLETE INTERNAL [])].

Definition example_intent : WriteIntent := Eval vm_compute in
  from_result (MkWriteIntent "" "" "" "" "" "" "" [] "" "")
    (build_write_intent example_write example_arguments example_write_context).

Lemma example_intent_built :
  build_write_intent example_write example_arguments example_write_context = Ok example_intent.
Proof. vm_compute. reflexivity. Qed.

Lemma build_write_intent_binds_witness :
  wi_node_id example_intent = "n-write" /\ wi_tenant_id example_intent = "tenant-1"
  /\ intent_wf example_intent.
Proof.
  destruct (build_write_intent_binds _ _ _ _ example_intent_built)
    as (Hw & _ & Ht & _ & Hn & _).
  split; [exact Hn |]. split; [exact Ht | exact Hw].
Defined.

Lemma example_intent_wf : intent_wf example_intent.
Proof. exact (build_write_intent_wf _ _ _ _ example_intent_built). Qed.

Lemma write_intent_hash_binding_witness :
  (wi_payload_hash example_intent = wi_payload_hash example_intent
   /\ same_payload (wi_canonical_arguments example_intent)
        (wi_canonical_arguments example_intent))
  \/ intents_collide example_intent example_intent.
Proof.
  destruct (write_intent_hash_binding example_intent example_intent)
    as [(_ & _ & _ & Hp & Hs)|C].
  - exact example_intent_wf.
  - exact example_intent_wf.
  - reflexivity.
  - left. split; [exact Hp | exact Hs].
  - right. exact C.
Defined.
