(* ===== verification/Idempotency.v ===== *)
(** * Idempotency ([src/nsl/idempotency.py])

    Idempotency keys, the provider's retention guarantee and the reservation
    of durable idempotency evidence. *)

From S2P Require Import Prelude Digest Json Core DataProtection Ir Security Tools.
From S2P Require Import WriteRecords RuntimeModels WriteIntent.

Definition _IDEMPOTENCY_KEY_DOMAIN : list ascii := hash_domain "NSL-IDEMPOTENCY-KEY-V1".
Definition _REQUIRED_SCOPE : string := "TOOL_AND_TENANT".
Definition _REQUIRED_DUPLICATE_BEHAVIOR : string := "RETURN_ORIGINAL_RESULT".
Definition _REQUIRED_CONFLICT_BEHAVIOR : string := "IDEMPOTENCY_CONFLICT".

Notation idem_text := (required_text IdempotencyError).
Notation idem_sha256 := (sha256_text IdempotencyError).
Notation idem_utc := (utc_instant IdempotencyError).

(** ** Keys *)

Definition key_identity (tenant_id business_operation_id node_id : string) : json :=
  JObj [("tenant_id", JStr tenant_id);
        ("business_operation_id", JStr business_operation_id);
        ("write_node_id", JStr node_id)].

(** [IdempotencyKeyFactory.create] *)
Definition create_key (tenant_id business_operation_id node_id : string) : result string :=
  tenant_id ← idem_text tenant_id "tenant_id";
  business_operation_id ← idem_text business_operation_id "business_operation_id";
  node_id ← idem_text node_id "write_node_id";
  Ok ("idem:" +:+ sha256_ref (_IDEMPOTENCY_KEY_DOMAIN
        ++ canonical_json (key_identity tenant_id business_operation_id node_id))).

Record IdempotencyIdentity : Type := MkIdempotencyIdentity {
  ii_tenant_id : string;
  ii_business_operation_id : string;
  ii_write_node_id : string;
  ii_idempotency_key : string;
  ii_payload_hash : string
}.

Definition IdempotencyIdentity_post_init (i : IdempotencyIdentity) : result unit :=
  _ ← required_texts IdempotencyError
        [("IdempotencyIdentity.tenant_id", ii_tenant_id i);
         ("IdempotencyIdentity.business_operation_id", ii_business_operation_id i);
         ("IdempotencyIdentity.write_node_id", ii_write_node_id i)];
  key ← idem_text (ii_idempotency_key i) "IdempotencyIdentity.idempotency_key";
  _ ← raise_if (negb (is_idempotency_key key)) IdempotencyError
        "IdempotencyIdentity.idempotency_key must be an idem SHA-256 value";
  _ ← idem_sha256 (ii_payload_hash i) "IdempotencyIdentity.payload_hash";
  Ok tt.

Definition idempotency_identity (intent : WriteIntent) : result IdempotencyIdentity :=
  key ← create_key (wi_tenant_id intent) (wi_business_operation_id intent) (wi_node_id intent);
  let i := MkIdempotencyIdentity (wi_tenant_id intent) (wi_business_operation_id intent)
             (wi_node_id intent) key (wi_payload_hash intent) in
  _ ← IdempotencyIdentity_post_init i; Ok i.

(** ** The provider's guarantee *)

Record ProviderIdempotencyEvidence : Type := MkProviderIdempotencyEvidence {
  pe_tool_id : string;
  pe_contract_hash : string;
  pe_retention_policy : string;
  pe_provider_guarantee_ref : string;
  pe_verified_at : datetime;
  pe_guaranteed_until : datetime;
  pe_durable_duplicate_guarantee : bool
}.

Definition ProviderIdempotencyEvidence_post_init (e : ProviderIdempotencyEvidence)
  : result unit :=
  _ ← required_texts IdempotencyError
        [("ProviderIdempotencyEvidence.tool_id", pe_tool_id e);
         ("ProviderIdempotencyEvidence.retention_policy", pe_retention_policy e);
         ("ProviderIdempotencyEvidence.provider_guarantee_ref", pe_provider_guarantee_ref e)];
  _ ← idem_sha256 (pe_contract_hash e) "ProviderIdempotencyEvidence.contract_hash";
  _ ← idem_utc (pe_verified_at e) "ProviderIdempotencyEvidence.verified_at";
  _ ← idem_utc (pe_guaranteed_until e) "ProviderIdempotencyEvidence.guaranteed_until";
  raise_if (instant (pe_guaranteed_until e) <=? instant (pe_verified_at e))%Z
    IdempotencyError "provider idempotency guarantee must end after verification".

Definition retention_error (b : bool) (message : string) : result unit :=
  raise_if b IdempotencyRetentionError message.

(** [IdempotencyRetentionValidator.validate] *)
Definition validate_retention (intent : WriteIntent) (contract : ToolContract)
    (evidence : ProviderIdempotencyEvidence) (now required_until : datetime)
  : result ProviderIdempotencyEvidence :=
  current ← idem_utc now "now";
  horizon ← idem_utc required_until "required_until";
  _ ← retention_error (instant horizon <=? instant current)%Z
        "required idempotency horizon must end after now";
  _ ← retention_error (negb (String.eqb (tc_tool_id contract) (wi_tool_id intent))
                       || negb (String.eqb (pe_tool_id evidence) (wi_tool_id intent)))
        "idempotency evidence tool binding mismatch";
  _ ← retention_error (negb (String.eqb (pe_contract_hash evidence) (contract_hash contract)))
        "idempotency evidence contract binding mismatch";
  semantics ← match tc_write_semantics contract with
              | Some s => if bool_decide (tc_capability contract = Capability WRITE)
                          then Ok s
                          else raise IdempotencyRetentionError
                                 "idempotency requires a WRITE Tool Contract"
              | None => raise IdempotencyRetentionError
                          "idempotency requires a WRITE Tool Contract"
              end;
  let idempotency := wsm_idempotency semantics in
  _ ← retention_error
        (negb (is_required idempotency)
         || negb (String.eqb (is_scope idempotency) _REQUIRED_SCOPE)
         || negb (String.eqb (is_duplicate_behavior idempotency) _REQUIRED_DUPLICATE_BEHAVIOR)
         || negb (String.eqb (is_payload_conflict_behavior idempotency)
                             _REQUIRED_CONFLICT_BEHAVIOR))
        "Tool Contract lacks the required durable duplicate semantics";
  _ ← retention_error (negb (String.eqb (pe_retention_policy evidence)
                                        (is_retention idempotency)))
        "idempotency retention policy binding mismatch";
  _ ← retention_error (negb (pe_durable_duplicate_guarantee evidence))
        "provider durable duplicate guarantee is absent";
  _ ← retention_error (instant current <? instant (pe_verified_at evidence))%Z
        "provider idempotency evidence is from the future";
  _ ← retention_error (instant (pe_guaranteed_until evidence) <=? instant current)%Z
        "provider idempotency guarantee has expired";
  _ ← retention_error (instant (pe_guaranteed_until evidence) <? instant horizon)%Z
        "provider idempotency guarantee does not cover recovery horizon";
  Ok evidence.

(** ** Durable evidence *)

Inductive IdempotencyDisposition : Type := ID_CREATED | REUSED | CONFLICT.

#[export] Instance IdempotencyDisposition_eq_dec : EqDecision IdempotencyDisposition.
Proof. solve_decision. Defined.

Record IdempotencyEvidenceRecord : Type := MkIdempotencyEvidenceRecord {
  ie_tenant_id : string;
  ie_business_operation_id : string;
  ie_write_node_id : string;
  ie_tool_id : string;
  ie_contract_hash : string;
  ie_idempotency_key : string;
  ie_payload_hash : string;
  ie_provider_guarantee_ref : string;
  ie_retained_until : datetime
}.

#[export] Instance IdempotencyEvidenceRecord_eq_dec : EqDecision IdempotencyEvidenceRecord.
Proof. solve_decision. Defined.

Definition IdempotencyEvidenceRecord_post_init (r : IdempotencyEvidenceRecord)
  : result unit :=
  _ ← required_texts IdempotencyError
        [("IdempotencyEvidenceRecord.tenant_id", ie_tenant_id r);
         ("IdempotencyEvidenceRecord.business_operation_id", ie_business_operation_id r);
         ("IdempotencyEvidenceRecord.write_node_id", ie_write_node_id r);
         ("IdempotencyEvidenceRecord.tool_id", ie_tool_id r);
         ("IdempotencyEvidenceRecord.provider_guarantee_ref", ie_provider_guarantee_ref r)];
  _ ← idem_sha256 (ie_contract_hash r) "IdempotencyEvidenceRecord.contract_hash";
  key ← idem_text (ie_idempotency_key r) "IdempotencyEvidenceRecord.idempotency_key";
  _ ← raise_if (negb (is_idempotency_key key)) IdempotencyError
        "IdempotencyEvidenceRecord.idempotency_key must be an idem SHA-256 value";
  _ ← idem_sha256 (ie_payload_hash r) "IdempotencyEvidenceRecord.payload_hash";
  _ ← idem_utc (ie_retained_until r) "IdempotencyEvidenceRecord.retained_until";
  Ok tt.

Record IdempotencyReservation : Type := MkIdempotencyReservation {
  ir_disposition : IdempotencyDisposition;
  ir_evidence : IdempotencyEvidenceRecord;
  ir_business_result_ref : option string
}.

Definition IdempotencyReservation_post_init (r : IdempotencyReservation) : result unit :=
  _ ← optional_text IdempotencyError (ir_business_result_ref r)
        "IdempotencyReservation.business_result_ref";
  raise_if (bool_decide (ir_disposition r = CONFLICT)
            && negb (bool_decide (ir_business_result_ref r = None)))
    IdempotencyError "a conflicting reservation cannot expose a business result".

(** ** The coordinator

    The evidence port answers each record from the history of the records it
    was asked to reserve. *)
Definition IdempotencyEvidencePort : Type :=
  list IdempotencyEvidenceRecord -> IdempotencyEvidenceRecord
  -> result (reply IdempotencyReservation).

Definition Reserving := M (ExecutionContext * list IdempotencyEvidenceRecord).

Definition call_port (port : IdempotencyEvidencePort) (r : IdempotencyEvidenceRecord)
  : Reserving (reply IdempotencyReservation) :=
  fun '(c, history) => (port history r, (c, history ++ [r])).

Definition record_reservation (node_id : string) (r : IdempotencyEvidenceRecord)
    (c : ExecutionContext) : ExecutionContext :=
  let i := ctx_idempotency c in
  set_idempotency (MkIdempotencyState
    (<[node_id := ie_idempotency_key r]> (keys_by_write_node i))
    (<[node_id := ie_payload_hash r]> (payload_hashes_by_write_node i))) c.

(** The checks and the evidence record made before the port is called. *)
Definition evidence_record (intent : WriteIntent) (context : ExecutionContext)
    (contract : ToolContract) (provider_evidence : ProviderIdempotencyEvidence)
    (now required_until : datetime) : result IdempotencyEvidenceRecord :=
  _ ← raise_if (negb (String.eqb (ctx_tenant_id context) (wi_tenant_id intent)))
        IdempotencyStateError "idempotency tenant binding mismatch";
  context_business_id ←
    match ctx_business_operation_id context with
    | Some b => Ok b
    | None => raise IdempotencyStateError "execution context lacks a business operation id"
    end;
  _ ← raise_if (negb (String.eqb context_business_id (wi_business_operation_id intent)))
        IdempotencyStateError "idempotency business operation binding mismatch";
  evidence ← validate_retention intent contract provider_evidence now required_until;
  identity ← idempotency_identity intent;
  let previous_key := keys_by_write_node (ctx_idempotency context) !! wi_node_id intent in
  _ ← raise_if (match previous_key with
                | Some k => negb (String.eqb k (ii_idempotency_key identity))
                | None => false end)
        IdempotencyStateError "checkpoint idempotency key does not match semantic identity";
  let previous_payload :=
    payload_hashes_by_write_node (ctx_idempotency context) !! wi_node_id intent in
  _ ← raise_if (match previous_payload with
                | Some p => negb (String.eqb p (wi_payload_hash intent))
                | None => false end)
        IdempotencyConflictError "idempotency key is already bound to a different payload";
  let record := MkIdempotencyEvidenceRecord (wi_tenant_id intent)
    (wi_business_operation_id intent) (wi_node_id intent) (wi_tool_id intent)
    (contract_hash contract)
    match previous_key with Some k => k | None => ii_idempotency_key identity end
    (wi_payload_hash intent) (pe_provider_guarantee_ref evidence)
    (pe_guaranteed_until evidence) in
  _ ← IdempotencyEvidenceRecord_post_init record;
  Ok record.

(** [IdempotencyCoordinator.reserve] *)
Definition reserve (port : IdempotencyEvidencePort) (intent : WriteIntent)
    (contract : ToolContract) (provider_evidence : ProviderIdempotencyEvidence)
    (now required_until : datetime) : Reserving IdempotencyReservation :=
  s ← get;
  record ← lift (evidence_record intent s.1 contract provider_evidence now required_until);
  answer ← call_port port record;
  reservation ← match answer with
                | Reply r => mret r
                | Malformed => fail IdempotencyStateError
                    "idempotency evidence port returned an invalid reservation"
                end;
  _ ← fail_if (negb (bool_decide (ir_evidence reservation = record)))
        IdempotencyStateError "idempotency evidence port returned mismatched evidence";
  _ ← fail_if (bool_decide (ir_disposition reservation = CONFLICT))
        IdempotencyConflictError "idempotency key is already bound to a different payload";
  _ ← modify (fun '(c, history) => (record_reservation (wi_node_id intent) record c, history));
  mret reservation.

(** ** Properties *)

Lemma create_key_Ok t b n k : create_key t b n = Ok k ->
  k = "idem:" +:+ sha256_ref (_IDEMPOTENCY_KEY_DOMAIN ++ canonical_json (key_identity t b n)).
Proof.
  unfold create_key. intros H.
  apply bind_Ok in H as (t' & [-> _]%required_text_iff & H).
  apply bind_Ok in H as (b' & [-> _]%required_text_iff & H).
  apply bind_Ok in H as (n' & [-> _]%required_text_iff & H).
  by apply Ok_inj in H.
Qed.

(** Idempotency keys separate WRITEs: the key of a tenant, business
    operation and node is always the same, and two different triples have
    different keys unless their hashed documents are an explicit SHA-256
    collision. *)
Theorem create_key_separates t b n t' b' n' k k' :
  create_key t b n = Ok k -> create_key t' b' n' = Ok k' ->
  (k = k' -> (t = t' /\ b = b' /\ n = n')
     \/ collision (_IDEMPOTENCY_KEY_DOMAIN ++ canonical_json (key_identity t b n))
          (_IDEMPOTENCY_KEY_DOMAIN ++ canonical_json (key_identity t' b' n')))
  /\ ((t, b, n) = (t', b', n') -> k = k').
Proof.
  intros H%create_key_Ok H'%create_key_Ok. split.
  - intros E. rewrite H, H' in E. cbn [String.app] in E.
    assert (removeprefix k "idem:" = removeprefix k' "idem:") as E' by congruence.
    rewrite H, H', !removeprefix_app in E'. clear E H H'.
    destruct (sha256_ref_or_collision _ _ E') as [E|C]; [left | by right].
    apply app_inv_head, canonical_json_inj in E. cbn in E. clear E'.
    injection E as -> -> ->. repeat split.
  - intros [= <- <- <-]. congruence.
Qed.

Lemma validate_retention_Ok intent contract e now until e' :
  validate_retention intent contract e now until = Ok e' ->
  e' = e /\ pe_contract_hash e = contract_hash contract
  /\ tc_tool_id contract = wi_tool_id intent /\ pe_tool_id e = wi_tool_id intent
  /\ pe_durable_duplicate_guarantee e = true
  /\ (instant (pe_verified_at e) <= instant now /\ instant now < instant until
      /\ instant until <= instant (pe_guaranteed_until e))%Z
  /\ exists s, tc_write_semantics contract = Some s
     /\ is_duplicate_behavior (wsm_idempotency s) = "RETURN_ORIGINAL_RESULT"
     /\ is_payload_conflict_behavior (wsm_idempotency s) = "IDEMPOTENCY_CONFLICT".
Proof.
  unfold validate_retention, retention_error, utc_instant. intros H.
  apply bind_Ok in H as (c & Hc & H). apply bind_Ok in H as (u & Hu & H).
  assert (c = now) as ->.
  { destruct (dt_utcoffset now); [| discriminate]. by inv_result. }
  assert (u = until) as ->.
  { destruct (dt_utcoffset until); [| discriminate]. by inv_result. }
  apply bind_Ok in H as ([] & H1%raise_if_Ok & H).
  apply bind_Ok in H as ([] & H2%raise_if_Ok & H).
  apply bind_Ok in H as ([] & H3%raise_if_Ok & H).
  apply bind_Ok in H as (s & Hs & H).
  do 6 (let Hx := fresh "Hx" in apply bind_Ok in H as ([] & Hx%raise_if_Ok & H)).
  apply Ok_inj in H as <-. split_bool. rewrite !String.eqb_eq in *.
  rewrite ?Z.leb_gt, ?Z.ltb_ge in *.
  do 5 (split; [done |]). split; [lia |].
  exists s. split; [| done]. destruct (tc_write_semantics contract); [| discriminate].
  case_bool_decide; [by apply Ok_inj in Hs as -> | discriminate].
Qed.

Lemma evidence_record_Ok intent c contract pe now until r :
  evidence_record intent c contract pe now until = Ok r ->
  ctx_tenant_id c = wi_tenant_id intent
  /\ ctx_business_operation_id c = Some (wi_business_operation_id intent)
  /\ validate_retention intent contract pe now until = Ok pe
  /\ create_key (wi_tenant_id intent) (wi_business_operation_id intent) (wi_node_id intent)
     = Ok (ie_idempotency_key r)
  /\ (forall p, payload_hashes_by_write_node (ctx_idempotency c) !! wi_node_id intent = Some p ->
        p = wi_payload_hash intent)
  /\ ie_payload_hash r = wi_payload_hash intent /\ ie_tool_id r = wi_tool_id intent
  /\ ie_contract_hash r = contract_hash contract
  /\ ie_retained_until r = pe_guaranteed_until pe.
Proof.
  unfold evidence_record. intros H.
  apply bind_Ok in H as ([] & Ht%raise_if_Ok & H). apply bind_Ok in H as (b & Hb & H).
  apply bind_Ok in H as ([] & Hb'%raise_if_Ok & H). apply bind_Ok in H as (e & He & H).
  apply bind_Ok in H as (i & Hi & H). apply bind_Ok in H as ([] & Hk%raise_if_Ok & H).
  apply bind_Ok in H as ([] & Hp%raise_if_Ok & H).
  apply bind_Ok in H as ([] & _ & H). apply Ok_inj in H as <-.
  apply negb_false_iff, String.eqb_eq in Ht, Hb'. subst b.
  pose proof (validate_retention_Ok _ _ _ _ _ _ He) as (-> & _).
  unfold idempotency_identity in Hi. apply bind_Ok in Hi as (key & Hkey & Hi).
  apply bind_Ok in Hi as ([] & _ & Hi). apply Ok_inj in Hi as <-. cbn [ii_idempotency_key] in *.
  split; [done |]. split.
  { destruct (ctx_business_operation_id c); [by apply Ok_inj in Hb as -> | discriminate]. }
  split; [done |]. split.
  { rewrite Hkey. cbn [ie_idempotency_key]. f_equal.
    destruct (keys_by_write_node _ !! _); [| done].
    by apply negb_false_iff, String.eqb_eq in Hk. }
  split; [| done]. intros p E. rewrite E in Hp. by apply negb_false_iff, String.eqb_eq in Hp.
Qed.

(** A successful reservation is bound to its WRITE: the port was asked
    exactly once, for a record that carries the intent's tool and payload, the
    key of the intent's tenant, operation and node, and a retention that covers
    the recovery horizon; the answer holds that very record and is no conflict;
    and the context now maps the node to that key and that payload. *)
Theorem reserve_binds port intent contract pe now until c h r c' h' :
  reserve port intent contract pe now until (c, h) = (Ok r, (c', h')) ->
  exists record,
    h' = h ++ [record] /\ port h record = Ok (Reply r) /\ ir_evidence r = record
    /\ ir_disposition r <> CONFLICT
    /\ create_key (wi_tenant_id intent) (wi_business_operation_id intent) (wi_node_id intent)
       = Ok (ie_idempotency_key record)
    /\ ie_payload_hash record = wi_payload_hash intent
    /\ ie_tool_id record = wi_tool_id intent
    /\ (instant now < instant until /\ instant until <= instant (ie_retained_until record))%Z
    /\ keys_by_write_node (ctx_idempotency c') !! wi_node_id intent
       = Some (ie_idempotency_key record)
    /\ payload_hashes_by_write_node (ctx_idempotency c') !! wi_node_id intent
       = Some (wi_payload_hash intent).
Proof.
  unfold reserve. rewrite M_bind_Ok. intros (? & ? & [= <- <-] & H).
  apply M_bind_Ok in H as (rec & ? & [= Hrec <-] & H).
  apply M_bind_Ok in H as (a & ? & [= Hport <-] & H).
  apply M_bind_Ok in H as (r1 & ? & Ha & H).
  apply M_bind_Ok in H as ([] & ? & [= He%raise_if_Ok <-] & H).
  apply M_bind_Ok in H as ([] & ? & [= Hd%raise_if_Ok <-] & H).
  apply M_bind_Ok in H as ([] & ? & [= <-] & H).
  apply evidence_record_Ok in Hrec as (_ & _ & Hv & Hk & _ & Hp & Ht & _ & Hu).
  apply validate_retention_Ok in Hv as (_ & _ & _ & _ & _ & (_ & Hnow & Huntil) & _).
  destruct a as [r2|]; [| discriminate Ha]. injection Ha as <- <-. injection H as <- <- <-.
  split_bool. exists rec. rewrite Hu. cbn [ctx_idempotency record_reservation set_idempotency
    keys_by_write_node payload_hashes_by_write_node].
  rewrite !lookup_insert_eq, Hp. done.
Qed.

(** A reservation never rebinds: whatever the port does, a failed
    reservation leaves the context as it was, and when the node is already
    bound to another payload the reservation fails without asking the port. *)
Theorem reserve_never_rebinds port intent contract pe now until c h :
  let '(r, (c', h')) := reserve port intent contract pe now until (c, h) in
  (is_Ok r = false -> c' = c)
  /\ (forall p, payload_hashes_by_write_node (ctx_idempotency c) !! wi_node_id intent = Some p ->
        p <> wi_payload_hash intent -> is_Ok r = false /\ c' = c /\ h' = h).
Proof.
  unfold reserve. cbv beta iota delta [mbind M_bind get lift call_port fst snd].
  destruct (evidence_record intent c contract pe now until) as [rec|e] eqn:Hrec; [| done].
  apply evidence_record_Ok in Hrec as (_ & _ & _ & _ & Hp & _).
  assert (forall p (P : Prop), payload_hashes_by_write_node (ctx_idempotency c)
            !! wi_node_id intent = Some p -> p <> wi_payload_hash intent -> P) as Hno
    by (intros p P E Hne; by apply Hp in E).
  destruct (port h rec) as [[r|]|e]; cbv beta iota delta [mret M_ret fail fail_if lift raise];
    [| split; [done | intros p E Hne; by apply (Hno p)] ..].
  destruct (bool_decide (ir_evidence r = rec)); cbn [negb raise_if];
    [| split; [done | intros p E Hne; by apply (Hno p)]].
  destruct (bool_decide (ir_disposition r = CONFLICT)); cbn [raise_if];
    (split; [done | intros p E Hne; by apply (Hno p)]).
Qed.

(** ** A concrete reservation *)

Definition example_provider_evidence : ProviderIdempotencyEvidence := Eval vm_compute in
  MkProviderIdempotencyEvidence "erp.create_po" (contract_hash example_write_contract) "P30D"
    "guarantee-1" (utc 1000) (utc 9000) true.

(** A port that creates whatever it is asked to reserve. *)
Definition creating_port : IdempotencyEvidencePort :=
  fun _ r => Ok (Reply (MkIdempotencyReservation ID_CREATED r None)).

Definition example_record : IdempotencyEvidenceRecord := Eval vm_compute in
  from_result (MkIdempotencyEvidenceRecord "" "" "" "" "" "" "" "" (utc 0))
    (evidence_record example_intent example_write_context example_write_contract
       example_provider_evidence (utc 2000) (utc 8000)).

Lemma example_record_built :
  evidence_record example_intent example_write_context example_write_contract
    example_provider_evidence (utc 2000) (utc 8000) = Ok example_record.
Proof. vm_compute. reflexivity. Qed.

Lemma example_reserved :
  reserve creating_port example_intent example_write_contract example_provider_evidence
    (utc 2000) (utc 8000) (example_write_context, [])
  = (Ok (MkIdempotencyReservation ID_CREATED example_record None),
     (record_reservation "n-write" example_record example_write_context, [example_record])).
Proof.
  unfold reserve. apply (M_bind_intro (example_write_context, []) (example_write_context, []));
    [reflexivity |].
  eapply M_bind_intro; [unfold lift; cbn [fst]; rewrite example_record_built; reflexivity |].
  reflexivity.
Qed.

Lemma reserve_binds_witness :
  payload_hashes_by_write_node (ctx_idempotency
    (record_reservation "n-write" example_record example_write_context)) !! "n-write"
  = Some (wi_payload_hash example_intent).
Proof.
  destruct (reserve_binds _ _ _ _ _ _ _ _ _ _ _ example_reserved)
    as (rec & _ & _ & _ & _ & _ & _ & _ & _ & _ & H).
  exact H.
Defined.

Lemma create_key_separates_witness :
  exists k, create_key "tenant-1" "op-1" "n-write" = Ok k /\ k = k.
Proof.
  assert (create_key "tenant-1" "op-1" "n-write" = Ok (ie_idempotency_key example_record)) as H
    by (vm_compute; reflexivity).
  exists (ie_idempotency_key example_record). split; [exact H |].
  by apply (create_key_separates _ _ _ _ _ _ _ _ H H).
Defined.

Lemma reserve_never_rebinds_witness :
  exists e, reserve creating_port example_intent example_write_contract
      example_provider_evidence (utc 2000) (utc 8000)
      (set_idempotency (MkIdempotencyState ∅ {["n-write" := "sha256:other"]})
         example_write_context, []) = (Err e,
      (set_idempotency (MkIdempotencyState ∅ {["n-write" := "sha256:other"]})
         example_write_context, [])).
Proof.
  pose proof (reserve_never_rebinds creating_port example_intent example_write_contract
    example_provider_evidence (utc 2000) (utc 8000)
    (set_idempotency (MkIdempotencyState ∅ {["n-write" := "sha256:other"]})
       example_write_context) []) as H.
  destruct (reserve _ _ _ _ _ _ _) as [r [c' h']].
  destruct H as [_ H]. destruct (H "sha256:other") as (Hr & -> & ->).
  - reflexivity.
  - discriminate.
  - destruct r as [r|e]; [discriminate Hr | by exists e].
Defined.
