(* ===== verification/Validation.v ===== *)
(** * Check evaluation and the WRITE guard ([src/nsl/validation.py]) *)

From S2P Require Import Prelude Digest Json Core DataProtection Ir Security.
From S2P Require Import WriteRecords RuntimeModels WriteIntent.

(** ** Pre-write evidence *)

Record PreWriteEvidence : Type := MkPreWriteEvidence {
  pw_validation : ValidationSummary;
  pw_approval_status : ApprovalStatus;
  pw_approval_evidence_valid : bool;
  pw_runtime_preflight_passed : bool;
  pw_current_policy_allowed : bool;
  pw_tool_preconditions_passed : bool;
  pw_business_preconditions_passed : bool;
  pw_intent_binding_valid : bool;
  pw_idempotency_ready : bool;
  pw_durability_ready : bool;
  pw_trust_valid : bool;
  pw_replay_live_write_allowed : bool
}.

Record WriteGuardDecision : Type := MkWriteGuardDecision {
  gd_eligibility : PreWriteEligibility;
  gd_reason_code : option string
}.

Definition WriteGuardDecision_post_init (d : WriteGuardDecision) : result unit :=
  match gd_reason_code d with
  | Some r => raise_if (negb (non_blank r)) ValueError "reason_code must be a non-empty string"
  | None => Ok tt
  end.

Definition _blocked (reason_code : string) : WriteGuardDecision :=
  MkWriteGuardDecision BLOCKED (Some reason_code).

Definition _BLOCKING_REASONS : list string :=
  ["RUNTIME_PREFLIGHT_FAILED"; "PACKAGE_TRUST_INVALID"; "POLICY_DENIED";
   "TOOL_PRECONDITION_FAILED"; "BUSINESS_PRECONDITION_FAILED"; "WRITE_BINDING_INVALID";
   "IDEMPOTENCY_NOT_READY"; "DURABILITY_NOT_READY"; "REPLAY_LIVE_WRITE_FORBIDDEN"].

Definition control_values (e : PreWriteEvidence) : list bool :=
  [pw_runtime_preflight_passed e; pw_trust_valid e; pw_current_policy_allowed e;
   pw_tool_preconditions_passed e; pw_business_preconditions_passed e;
   pw_intent_binding_valid e; pw_idempotency_ready e; pw_durability_ready e;
   pw_replay_live_write_allowed e].

(** [PreWriteEvaluator.evaluate] *)
Definition evaluate_pre_write (e : PreWriteEvidence) : WriteGuardDecision :=
  match vs_status (pw_validation e) with
  | HAS_FAIL_AND_UNKNOWN => _blocked "REQUIRED_CHECK_FAILED_AND_UNKNOWN"
  | HAS_FAIL => _blocked "REQUIRED_CHECK_FAILED"
  | HAS_UNKNOWN => _blocked "REQUIRED_CHECK_UNKNOWN"
  | ALL_PASS | NO_CHECK =>
      if bool_decide (pw_approval_status e = REJECTED) then _blocked "APPROVAL_REJECTED"
      else if bool_decide (pw_approval_status e = APPROVED)
              && negb (pw_approval_evidence_valid e)
      then _blocked "APPROVAL_EVIDENCE_INVALID"
      else match find (fun c => negb c.2) (zip _BLOCKING_REASONS (control_values e)) with
           | Some (reason_code, _) => _blocked reason_code
           | None =>
               if bool_decide (pw_approval_status e ∈ [NOT_REQUESTED; PENDING; EXPIRED])
               then MkWriteGuardDecision REQUIRES_APPROVAL (Some "APPROVAL_REQUIRED")
               else MkWriteGuardDecision ALLOWED None
           end
  end.

(** [WriteEligibilityGate.require_allowed] *)
Definition require_allowed (d : WriteGuardDecision) : result unit :=
  if bool_decide (gd_eligibility d = ALLOWED) then Ok tt
  else
    let reason := match gd_reason_code d with
                  | Some EmptyString | None => "PRE_WRITE_NOT_ALLOWED"
                  | Some r => r
                  end in
    raise WriteEligibilityError ("WRITE blocked: " +:+ reason).

(** ** Evidence the guard binds *)

Inductive PolicyEffect : Type := ALLOW | DENY.
Inductive BusinessPreconditionMechanism : Type :=
  | VERSION | REVISION | ETAG | PRECONDITION_TOKEN | TRANSACTIONAL_REVALIDATION
  | EQUIVALENT_PROVIDER_MECHANISM.

#[export] Instance PolicyEffect_eq_dec : EqDecision PolicyEffect.
Proof. solve_decision. Defined.
#[export] Instance BusinessPreconditionMechanism_eq_dec :
  EqDecision BusinessPreconditionMechanism.
Proof. solve_decision. Defined.

Notation _required_evidence_texts := (required_texts ValueError).
Notation _sha256_evidence := (sha256_text ValueError).
Notation _write_guard_utc := (utc_instant ValueError).

Record WriteContractEvidence : Type := MkWriteContractEvidence {
  ce_tool_id : string;
  ce_contract_hash : string;
  ce_capability : ToolCapability;
  ce_risk_level : RiskLevel;
  ce_preconditions_supported : bool
}.

Definition WriteContractEvidence_post_init (e : WriteContractEvidence) : result unit :=
  _ ← _required_evidence_texts [("WriteContractEvidence.tool_id", ce_tool_id e)];
  _ ← _sha256_evidence (ce_contract_hash e) "WriteContractEvidence.contract_hash";
  Ok tt.

Record WritePolicyRequest : Type := MkWritePolicyRequest {
  wp_tenant_id : string;
  wp_subject_id : string;
  wp_action : string;
  wp_tool_id : string;
  wp_risk_level : RiskLevel;
  wp_business_operation_id : string;
  wp_write_node_id : string;
  wp_write_intent_hash : string
}.

Definition WritePolicyRequest_post_init (r : WritePolicyRequest) : result unit :=
  _ ← _required_evidence_texts
        [("WritePolicyRequest.tenant_id", wp_tenant_id r);
         ("WritePolicyRequest.subject_id", wp_subject_id r);
         ("WritePolicyRequest.action", wp_action r);
         ("WritePolicyRequest.tool_id", wp_tool_id r);
         ("WritePolicyRequest.business_operation_id", wp_business_operation_id r);
         ("WritePolicyRequest.write_node_id", wp_write_node_id r)];
  _ ← raise_if (negb (String.eqb (wp_action r) "WRITE")) ValueError
        "WritePolicyRequest.action must be WRITE";
  _ ← _sha256_evidence (wp_write_intent_hash r) "WritePolicyRequest.write_intent_hash";
  Ok tt.

Record PolicyDecision : Type := MkPolicyDecision {
  pd_decision_id : string;
  pd_policy_id : string;
  pd_policy_version : string;
  pd_effect : PolicyEffect;
  pd_tenant_id : string;
  pd_subject_id : string;
  pd_action : string;
  pd_tool_id : string;
  pd_risk_level : RiskLevel;
  pd_business_operation_id : string;
  pd_write_node_id : string;
  pd_write_intent_hash : string;
  pd_evidence_ref : string;
  pd_evaluated_at : datetime;
  pd_expires_at : datetime
}.

Definition PolicyDecision_post_init (d : PolicyDecision) : result unit :=
  _ ← _required_evidence_texts
        [("PolicyDecision.decision_id", pd_decision_id d);
         ("PolicyDecision.policy_id", pd_policy_id d);
         ("PolicyDecision.policy_version", pd_policy_version d);
         ("PolicyDecision.tenant_id", pd_tenant_id d);
         ("PolicyDecision.subject_id", pd_subject_id d);
         ("PolicyDecision.action", pd_action d); ("PolicyDecision.tool_id", pd_tool_id d);
         ("PolicyDecision.business_operation_id", pd_business_operation_id d);
         ("PolicyDecision.write_node_id", pd_write_node_id d);
         ("PolicyDecision.evidence_ref", pd_evidence_ref d)];
  _ ← raise_if (negb (String.eqb (pd_action d) "WRITE")) ValueError
        "PolicyDecision.action must be WRITE";
  _ ← _sha256_evidence (pd_write_intent_hash d) "PolicyDecision.write_intent_hash";
  evaluated ← _write_guard_utc (pd_evaluated_at d) "PolicyDecision.evaluated_at";
  expires ← _write_guard_utc (pd_expires_at d) "PolicyDecision.expires_at";
  raise_if (instant expires <=? instant evaluated)%Z ValueError
    "PolicyDecision must expire after evaluation".

(** [PolicyDecision.matches] *)
Definition policy_matches (d : PolicyDecision) (r : WritePolicyRequest) : bool :=
  String.eqb (pd_tenant_id d) (wp_tenant_id r)
  && String.eqb (pd_subject_id d) (wp_subject_id r)
  && String.eqb (pd_action d) (wp_action r)
  && String.eqb (pd_tool_id d) (wp_tool_id r)
  && bool_decide (pd_risk_level d = wp_risk_level r)
  && String.eqb (pd_business_operation_id d) (wp_business_operation_id r)
  && String.eqb (pd_write_node_id d) (wp_write_node_id r)
  && String.eqb (pd_write_intent_hash d) (wp_write_intent_hash r).

Record BusinessPreconditionEvidence : Type := MkBusinessPreconditionEvidence {
  bp_evidence_id : string;
  bp_tenant_id : string;
  bp_business_operation_id : string;
  bp_write_node_id : string;
  bp_tool_id : string;
  bp_contract_hash : string;
  bp_payload_hash : string;
  bp_write_intent_hash : string;
  bp_mechanism : BusinessPreconditionMechanism;
  bp_evidence_ref : string;
  bp_observed_at : datetime;
  bp_expires_at : datetime;
  bp_provider_atomic_enforcement : bool
}.

Definition BusinessPreconditionEvidence_post_init (e : BusinessPreconditionEvidence)
  : result unit :=
  _ ← _required_evidence_texts
        [("BusinessPreconditionEvidence.evidence_id", bp_evidence_id e);
         ("BusinessPreconditionEvidence.tenant_id", bp_tenant_id e);
         ("BusinessPreconditionEvidence.business_operation_id", bp_business_operation_id e);
         ("BusinessPreconditionEvidence.write_node_id", bp_write_node_id e);
         ("BusinessPreconditionEvidence.tool_id", bp_tool_id e);
         ("BusinessPreconditionEvidence.evidence_ref", bp_evidence_ref e)];
  _ ← _sha256_evidence (bp_contract_hash e) "BusinessPreconditionEvidence.contract_hash";
  _ ← _sha256_evidence (bp_payload_hash e) "BusinessPreconditionEvidence.payload_hash";
  _ ← _sha256_evidence (bp_write_intent_hash e)
        "BusinessPreconditionEvidence.write_intent_hash";
  observed ← _write_guard_utc (bp_observed_at e) "BusinessPreconditionEvidence.observed_at";
  expires ← _write_guard_utc (bp_expires_at e) "BusinessPreconditionEvidence.expires_at";
  raise_if (instant expires <=? instant observed)%Z ValueError
    "BusinessPreconditionEvidence must expire after observation".

(** [RiskAcceptancePolicy]: the non-empty set of accepted levels. *)
Definition RiskAcceptancePolicy : Type := list RiskLevel.

Definition new_RiskAcceptancePolicy (levels : list RiskLevel) : result RiskAcceptancePolicy :=
  match levels with
  | [] => raise TypeError "accepted_levels must be a non-empty frozenset of RiskLevel"
  | _ => Ok levels
  end.

Definition initial_v0_2 : RiskAcceptancePolicy := [R3].

(** ** The guard *)

Record WriteGuardRequest : Type := MkWriteGuardRequest {
  gr_intent : WriteIntent;
  gr_context : ExecutionContext;
  gr_contract_evidence : WriteContractEvidence;
  gr_execution_evidence : PreWriteEvidence;
  gr_policy_decision : option PolicyDecision;
  gr_business_preconditions : option BusinessPreconditionEvidence
}.

Definition write_policy_request (intent : WriteIntent) (context : ExecutionContext)
    (contract : WriteContractEvidence) : result WritePolicyRequest :=
  let r := MkWritePolicyRequest (ctx_tenant_id context)
    (pr_subject_id (sc_principal (ctx_security_context context))) "WRITE" (wi_tool_id intent)
    (ce_risk_level contract) (wi_business_operation_id intent) (wi_node_id intent)
    (wi_write_intent_hash intent) in
  _ ← WritePolicyRequest_post_init r; Ok r.

(** [WriteGuard._precondition_matches] *)
Definition guard_precondition_matches (e : BusinessPreconditionEvidence)
    (intent : WriteIntent) (context : ExecutionContext) (contract : WriteContractEvidence)
  : bool :=
  String.eqb (bp_tenant_id e) (ctx_tenant_id context)
  && String.eqb (ctx_tenant_id context) (wi_tenant_id intent)
  && String.eqb (bp_business_operation_id e) (wi_business_operation_id intent)
  && String.eqb (bp_write_node_id e) (wi_node_id intent)
  && String.eqb (bp_tool_id e) (wi_tool_id intent)
  && String.eqb (wi_tool_id intent) (ce_tool_id contract)
  && String.eqb (bp_contract_hash e) (ce_contract_hash contract)
  && String.eqb (bp_payload_hash e) (wi_payload_hash intent)
  && String.eqb (bp_write_intent_hash e) (wi_write_intent_hash intent).

(** [replace(execution_evidence, current_policy_allowed=True, ...)] *)
Definition with_current_evidence (e : PreWriteEvidence) : PreWriteEvidence :=
  MkPreWriteEvidence (pw_validation e) (pw_approval_status e) (pw_approval_evidence_valid e)
    (pw_runtime_preflight_passed e) true true true (pw_intent_binding_valid e)
    (pw_idempotency_ready e) (pw_durability_ready e) (pw_trust_valid e)
    (pw_replay_live_write_allowed e).

(** [WriteGuard.evaluate] *)
Definition guard_evaluate (accepted_levels : RiskAcceptancePolicy)
    (request : WriteGuardRequest) (now : datetime) : result WriteGuardDecision :=
  current ← _write_guard_utc now "now";
  let intent := gr_intent request in
  let context := gr_context request in
  let contract := gr_contract_evidence request in
  if negb (String.eqb (ctx_tenant_id context) (wi_tenant_id intent))
  then Ok (_blocked "WRITE_TENANT_BINDING_MISMATCH")
  else if negb (bool_decide (ctx_business_operation_id context
                             = Some (wi_business_operation_id intent)))
  then Ok (_blocked "WRITE_BUSINESS_OPERATION_MISMATCH")
  else if negb (String.eqb (ce_tool_id contract) (wi_tool_id intent))
          || negb (bool_decide (ce_capability contract = WRITE))
          || negb (ce_preconditions_supported contract)
  then Ok (_blocked "WRITE_CONTRACT_INVALID")
  else if negb (bool_decide (ce_risk_level contract ∈ accepted_levels))
  then Ok (_blocked "RISK_NOT_ACCEPTED")
  else
    expected_policy ← write_policy_request intent context contract;
    match gr_policy_decision request with
    | None => Ok (_blocked "POLICY_EVIDENCE_MISSING")
    | Some policy =>
        if negb (policy_matches policy expected_policy)
        then Ok (_blocked "POLICY_BINDING_MISMATCH")
        else if (instant current <? instant (pd_evaluated_at policy))%Z
                || (instant (pd_expires_at policy) <=? instant current)%Z
        then Ok (_blocked "POLICY_NOT_CURRENT")
        else if negb (bool_decide (pd_effect policy = ALLOW))
        then Ok (_blocked "POLICY_DENIED")
        else
          match gr_business_preconditions request with
          | None => Ok (_blocked "BUSINESS_PRECONDITION_MISSING")
          | Some precondition =>
              if negb (guard_precondition_matches precondition intent context contract)
              then Ok (_blocked "BUSINESS_PRECONDITION_BINDING_MISMATCH")
              else if (instant current <? instant (bp_observed_at precondition))%Z
                      || (instant (bp_expires_at precondition) <=? instant current)%Z
              then Ok (_blocked "BUSINESS_PRECONDITION_NOT_CURRENT")
              else if negb (bp_provider_atomic_enforcement precondition)
              then Ok (_blocked "PROVIDER_PRECONDITION_UNAVAILABLE")
              else Ok (evaluate_pre_write
                         (with_current_evidence (gr_execution_evidence request)))
          end
    end.

(** ** Evaluation of checks *)

Record PredicateEvaluation : Type := MkPredicateEvaluation {
  px_truth : bool;
  px_presence : Presence;
  px_completeness : Completeness;
  px_provenance_refs : list string
}.

(** [PredicateEvaluation.from_value] *)
Definition predicate_from_value (predicate : ValueEnvelope) : result PredicateEvaluation :=
  match ve_value predicate with
  | VBool truth =>
      if bool_decide (ve_type_info predicate = BOOL)
      then Ok (MkPredicateEvaluation truth (ve_presence predicate)
                 (ve_completeness predicate) (ve_provenance_refs predicate))
      else raise CheckEvaluationError "CHECK predicate is not Bool"
  | _ => raise CheckEvaluationError "CHECK predicate is not Bool"
  end.

(** [StrictRuleEvaluator.evaluate] *)
Definition strict_evaluate (statement : CheckStatement) (predicate : ValueEnvelope)
  : result CheckResult :=
  evaluation ← predicate_from_value predicate;
  let status := match px_completeness evaluation with
                | COMPLETE => if px_truth evaluation then PASS else FAIL
                | _ => CHECK_UNKNOWN
                end in
  let reason_code := match px_completeness evaluation with
                     | COMPLETE => None
                     | PARTIAL => Some "PARTIAL_INPUT"
                     | C_UNKNOWN => Some "UNKNOWN_COMPLETENESS"
                     end in
  Ok (MkCheckResult (cs_check_id statement) status (cs_severity statement)
        (cs_message statement) (expr_node_id (cs_condition statement))
        (px_presence evaluation) (px_completeness evaluation)
        (px_provenance_refs evaluation) reason_code).

(** ** Properties *)

(** A check never passes by accident: the strict evaluator returns a
    result exactly for Bool predicates, and the check passes exactly when the
    predicate is true on complete data, fails exactly when it is false on
    complete data, and is otherwise unknown with the reason why. *)
Theorem strict_evaluate_exact (statement : CheckStatement) (p : ValueEnvelope) :
  match strict_evaluate statement p with
  | Ok r =>
      ve_type_info p = BOOL /\ cr_check_id r = cs_check_id statement
      /\ (cr_status r = PASS <-> ve_value p = VBool true /\ ve_completeness p = COMPLETE)
      /\ (cr_status r = FAIL <-> ve_value p = VBool false /\ ve_completeness p = COMPLETE)
      /\ (cr_status r = CHECK_UNKNOWN <-> ve_completeness p <> COMPLETE)
      /\ (cr_reason_code r = None <-> ve_completeness p = COMPLETE)
  | Err e => ex_class e = CheckEvaluationError
             /\ (ve_type_info p <> BOOL \/ forall b, ve_value p <> VBool b)
  end.
Proof.
  unfold strict_evaluate, predicate_from_value.
  destruct (ve_value p) as [|b| | | | | | | | |] eqn:Ev; cbn [mbind result_bind raise ex_class];
    try (split; [done | by right]).
  destruct (bool_decide_reflect (ve_type_info p = BOOL)) as [Et|Et];
    cbn [mbind result_bind raise ex_class]; [| split; [done | by left]].
  destruct (ve_completeness p), b; cbn; repeat split; naive_solver.
Qed.

(** Whether a summary status lets a WRITE through. *)
Definition no_check_against (s : ValidationSummaryStatus) : bool :=
  match s with ALL_PASS | NO_CHECK => true | _ => false end.

Lemma find_blocking (rs : list string) (cs : list bool) : length cs <= length rs ->
  match find (fun c => negb c.2) (zip rs cs) with
  | Some (r, _) => forallb id cs = false /\ r ∈ rs
  | None => forallb id cs = true
  end.
Proof.
  revert cs. induction rs as [|r rs IH]; intros [|[] cs] Hl; cbn in *; try (done || lia).
  - specialize (IH cs ltac:(lia)). destruct (find _ _) as [[r' c]|]; [| done].
    destruct IH as [? ?]. split; [done | by right].
  - split; [done | left].
Qed.

(** The outcome of the evaluation, by the state of the evidence. *)
Lemma evaluate_pre_write_cases e :
  evaluate_pre_write e =
  if negb (no_check_against (vs_status (pw_validation e))) then evaluate_pre_write e
  else if bool_decide (pw_approval_status e = REJECTED) then _blocked "APPROVAL_REJECTED"
  else if bool_decide (pw_approval_status e = APPROVED) && negb (pw_approval_evidence_valid e)
  then _blocked "APPROVAL_EVIDENCE_INVALID"
  else match find (fun c => negb c.2) (zip _BLOCKING_REASONS (control_values e)) with
       | Some (reason_code, _) => _blocked reason_code
       | None =>
           if bool_decide (pw_approval_status e ∈ [NOT_REQUESTED; PENDING; EXPIRED])
           then MkWriteGuardDecision REQUIRES_APPROVAL (Some "APPROVAL_REQUIRED")
           else MkWriteGuardDecision ALLOWED None
       end.
Proof. unfold evaluate_pre_write. by destruct (vs_status (pw_validation e)). Qed.

Lemma check_against_blocked e : no_check_against (vs_status (pw_validation e)) = false ->
  exists r, evaluate_pre_write e = _blocked r /\ non_blank r = true.
Proof.
  unfold evaluate_pre_write. destruct (vs_status (pw_validation e)); try discriminate;
    intros _; by eexists.
Qed.

Lemma blocking_reason_nonblank r : r ∈ _BLOCKING_REASONS -> non_blank r = true.
Proof.
  apply (proj1 (Forall_forall (fun r => non_blank r = true) _BLOCKING_REASONS)).
  repeat constructor.
Qed.

(** The pre-write evaluation is fail-closed: it says [ALLOWED] exactly
    when no check failed or is unknown, the approval is [APPROVED] with valid
    evidence and all nine controls hold, and [REQUIRES_APPROVAL] exactly when
    everything but the approval is in order; every other evidence is blocked
    with a reason. *)
Theorem evaluate_pre_write_fail_closed (e : PreWriteEvidence) :
  let d := evaluate_pre_write e in
  (gd_eligibility d = ALLOWED <->
     no_check_against (vs_status (pw_validation e)) = true
     /\ pw_approval_status e = APPROVED /\ pw_approval_evidence_valid e = true
     /\ forallb id (control_values e) = true)
  /\ (gd_eligibility d = REQUIRES_APPROVAL <->
     no_check_against (vs_status (pw_validation e)) = true
     /\ pw_approval_status e ∈ [NOT_REQUESTED; PENDING; EXPIRED]
     /\ forallb id (control_values e) = true)
  /\ (gd_eligibility d = BLOCKED -> exists r, gd_reason_code d = Some r /\ non_blank r = true)
  /\ (require_allowed d = Ok tt <-> gd_eligibility d = ALLOWED).
Proof.
  cbv zeta. rewrite !elem_of_cons, elem_of_nil.
  assert (forall d, require_allowed d = Ok tt <-> gd_eligibility d = ALLOWED) as Hg
    by (intros d; unfold require_allowed; by case_bool_decide).
  rewrite Hg. clear Hg.
  destruct (no_check_against (vs_status (pw_validation e))) eqn:Hn.
  - rewrite evaluate_pre_write_cases, Hn. cbn [negb].
    pose proof (find_blocking _BLOCKING_REASONS (control_values e) ltac:(cbn; lia)) as Hf.
    destruct (find _ _) as [[r c]|];
      [destruct Hf as [-> Hr%blocking_reason_nonblank] | rewrite Hf];
      destruct (pw_approval_status e), (pw_approval_evidence_valid e); cbn; naive_solver.
  - destruct (check_against_blocked e Hn) as (r & -> & Hr). cbn. naive_solver.
Qed.

(** *** The specification of the guard

    What must hold for a WRITE, stated on the fields of the evidence alone:
    none of the code's own matching functions occurs in it. *)

(** The contract and the execution context are those of the intent. *)
Record describes_intent (accepted : RiskAcceptancePolicy) (intent : WriteIntent)
    (context : ExecutionContext) (contract : WriteContractEvidence) : Prop := {
  di_tenant : wi_tenant_id intent = ctx_tenant_id context;
  di_operation : ctx_business_operation_id context = Some (wi_business_operation_id intent);
  di_tool : wi_tool_id intent = ce_tool_id contract;
  di_write : ce_capability contract = WRITE;
  di_preconditions : ce_preconditions_supported contract = true;
  di_risk : ce_risk_level contract ∈ accepted
}.

(** The texts a policy can be asked about. *)
Record nameable (intent : WriteIntent) (context : ExecutionContext) : Prop := {
  na_tenant : text_ok (ctx_tenant_id context);
  na_subject : text_ok (pr_subject_id (sc_principal (ctx_security_context context)));
  na_tool : text_ok (wi_tool_id intent);
  na_operation : text_ok (wi_business_operation_id intent);
  na_node : text_ok (wi_node_id intent);
  na_hash : text_ok (wi_write_intent_hash intent)
            /\ is_sha256_ref (wi_write_intent_hash intent) = true
}.

(** The policy decision allows this intent, for this subject, now. *)
Record policy_authorizes (policy : PolicyDecision) (intent : WriteIntent)
    (context : ExecutionContext) (contract : WriteContractEvidence) (now : datetime) : Prop := {
  pa_tenant : pd_tenant_id policy = ctx_tenant_id context;
  pa_subject : pd_subject_id policy = pr_subject_id (sc_principal (ctx_security_context context));
  pa_action : pd_action policy = "WRITE";
  pa_tool : pd_tool_id policy = wi_tool_id intent;
  pa_risk : pd_risk_level policy = ce_risk_level contract;
  pa_operation : pd_business_operation_id policy = wi_business_operation_id intent;
  pa_node : pd_write_node_id policy = wi_node_id intent;
  pa_hash : pd_write_intent_hash policy = wi_write_intent_hash intent;
  pa_current : (instant (pd_evaluated_at policy) <= instant now
                < instant (pd_expires_at policy))%Z;
  pa_allows : pd_effect policy = ALLOW
}.

(** The business precondition was observed for this intent and contract, is
    current, and the provider enforces it atomically. *)
Record precondition_holds (pre : BusinessPreconditionEvidence) (intent : WriteIntent)
    (contract : WriteContractEvidence) (now : datetime) : Prop := {
  ph_tenant : bp_tenant_id pre = wi_tenant_id intent;
  ph_operation : bp_business_operation_id pre = wi_business_operation_id intent;
  ph_node : bp_write_node_id pre = wi_node_id intent;
  ph_tool : bp_tool_id pre = wi_tool_id intent;
  ph_contract : bp_contract_hash pre = ce_contract_hash contract;
  ph_payload : bp_payload_hash pre = wi_payload_hash intent;
  ph_hash : bp_write_intent_hash pre = wi_write_intent_hash intent;
  ph_current : (instant (bp_observed_at pre) <= instant now
                < instant (bp_expires_at pre))%Z;
  ph_atomic : bp_provider_atomic_enforcement pre = true
}.

(** No check failed or is unknown, and every control the guard does not
    itself establish is in order. *)
Record controls_hold (e : PreWriteEvidence) : Prop := {
  co_checks : vs_status (pw_validation e) = ALL_PASS \/ vs_status (pw_validation e) = NO_CHECK;
  co_preflight : pw_runtime_preflight_passed e = true;
  co_trust : pw_trust_valid e = true;
  co_binding : pw_intent_binding_valid e = true;
  co_idempotency : pw_idempotency_ready e = true;
  co_durability : pw_durability_ready e = true;
  co_live : pw_replay_live_write_allowed e = true
}.

(** Everything but the approval. *)
Record cleared (accepted : RiskAcceptancePolicy) (request : WriteGuardRequest)
    (now : datetime) : Prop := {
  cl_now : dt_utcoffset now = Some 0%Z;
  cl_intent : describes_intent accepted (gr_intent request) (gr_context request)
                (gr_contract_evidence request);
  cl_names : nameable (gr_intent request) (gr_context request);
  cl_policy : exists policy, gr_policy_decision request = Some policy
                /\ policy_authorizes policy (gr_intent request) (gr_context request)
                     (gr_contract_evidence request) now;
  cl_precondition : exists pre, gr_business_preconditions request = Some pre
                /\ precondition_holds pre (gr_intent request)
                     (gr_contract_evidence request) now;
  cl_controls : controls_hold (gr_execution_evidence request)
}.

Lemma time_window_out now start stop :
  ((now <? start)%Z || (stop <=? now)%Z) = false <-> (start <= now < stop)%Z.
Proof. rewrite orb_false_iff, Z.ltb_ge, Z.leb_gt. done. Qed.

(** What the request for a policy decision needs. *)
Lemma write_policy_request_exact intent context contract :
  match write_policy_request intent context contract with
  | Ok r => nameable intent context
      /\ r = MkWritePolicyRequest (ctx_tenant_id context)
           (pr_subject_id (sc_principal (ctx_security_context context))) "WRITE"
           (wi_tool_id intent) (ce_risk_level contract) (wi_business_operation_id intent)
           (wi_node_id intent) (wi_write_intent_hash intent)
  | Err e => ~ nameable intent context
  end.
Proof.
  destruct (write_policy_request intent context contract) as [r|e] eqn:H;
    unfold write_policy_request, WritePolicyRequest_post_init in H; cbn zeta in H.
  - inv_result. match goal with Hx : required_texts _ _ = _ |- _ =>
      apply required_texts_iff in Hx; cbn [map snd] in Hx; rewrite !Forall_cons in Hx end.
    match goal with Hx : sha256_text _ _ _ = _ |- _ =>
      apply sha256_text_iff in Hx as (_ & ? & ?) end.
    cbn in *. split; [split; [tauto.. | by split] | done].
  - intros [? ? ? ? ? [Hh1 Hh2]]. enough (Hk : exists r : WritePolicyRequest, Err e = Ok r) by (by destruct Hk).
    eexists. rewrite <- H. apply (bind_intro tt); [| done].
    apply (bind_intro tt); [| apply (bind_intro tt); [done |]].
    + apply required_texts_iff. cbn [map snd]. rewrite !Forall_cons. cbn.
      repeat (split; [first [assumption | split; [done | by constructor]] |]). done.
    + apply (bind_intro (wi_write_intent_hash intent)); [by apply sha256_text_iff | done].
Qed.

Lemma policy_step policy intent context contract now :
  policy_authorizes policy intent context contract now <->
  policy_matches policy (MkWritePolicyRequest (ctx_tenant_id context)
     (pr_subject_id (sc_principal (ctx_security_context context))) "WRITE"
     (wi_tool_id intent) (ce_risk_level contract) (wi_business_operation_id intent)
     (wi_node_id intent) (wi_write_intent_hash intent)) = true
  /\ ((instant now <? instant (pd_evaluated_at policy))%Z
      || (instant (pd_expires_at policy) <=? instant now)%Z) = false
  /\ pd_effect policy = ALLOW.
Proof.
  rewrite time_window_out. unfold policy_matches.
  rewrite !andb_true_iff, !String.eqb_eq, bool_decide_eq_true. cbn.
  split; [intros []; tauto | intros; split; tauto].
Qed.

Lemma precondition_step accepted pre intent context contract now :
  describes_intent accepted intent context contract ->
  precondition_holds pre intent contract now <->
  guard_precondition_matches pre intent context contract = true
  /\ ((instant now <? instant (bp_observed_at pre))%Z
      || (instant (bp_expires_at pre) <=? instant now)%Z) = false
  /\ bp_provider_atomic_enforcement pre = true.
Proof.
  intros []. rewrite time_window_out. unfold guard_precondition_matches.
  rewrite !andb_true_iff, !String.eqb_eq.
  split; [intros []; split_and!; congruence || lia | intros].
  destruct_and!. split; congruence || lia.
Qed.

(** What the evaluation makes of the evidence the guard has completed. *)
Lemma evaluate_current e :
  let d := evaluate_pre_write (with_current_evidence e) in
  (gd_eligibility d = ALLOWED <-> controls_hold e
     /\ pw_approval_status e = APPROVED /\ pw_approval_evidence_valid e = true)
  /\ (gd_eligibility d = REQUIRES_APPROVAL <-> controls_hold e
     /\ pw_approval_status e ∈ [NOT_REQUESTED; PENDING; EXPIRED])
  /\ (gd_eligibility d = BLOCKED -> exists r, gd_reason_code d = Some r /\ non_blank r = true).
Proof.
  assert (Hc : controls_hold e <->
            no_check_against (vs_status (pw_validation (with_current_evidence e))) = true
            /\ forallb id (control_values (with_current_evidence e)) = true).
  { destruct e as [v ? ? [] ? ? ? [] [] [] [] []]; cbn; destruct (vs_status v) eqn:Hv;
      (split; [intros []; cbn in *; intuition congruence
              | intros [? ?]; first [discriminate | split; cbn; auto]]). }
  destruct (evaluate_pre_write_fail_closed (with_current_evidence e)) as (Ha & Hr & Hb & _).
  cbv zeta. rewrite Hc. split; [rewrite Ha; cbn; tauto |]. split; [rewrite Hr; cbn; tauto |].
  exact Hb.
Qed.

(** What each decision says of the evidence. *)
Definition decision_means (accepted : RiskAcceptancePolicy) (request : WriteGuardRequest)
    (now : datetime) (d : WriteGuardDecision) : Prop :=
  let evidence := gr_execution_evidence request in
  match gd_eligibility d with
  | ALLOWED => cleared accepted request now
      /\ pw_approval_status evidence = APPROVED /\ pw_approval_evidence_valid evidence = true
  | REQUIRES_APPROVAL => cleared accepted request now
      /\ pw_approval_status evidence ∈ [NOT_REQUESTED; PENDING; EXPIRED]
  | BLOCKED => (exists r, gd_reason_code d = Some r /\ non_blank r = true)
      /\ (cleared accepted request now ->
          pw_approval_status evidence = REJECTED
          \/ pw_approval_status evidence = APPROVED
             /\ pw_approval_evidence_valid evidence = false)
  end.

Lemma blocked_means accepted request now r : non_blank r = true ->
  ~ cleared accepted request now -> decision_means accepted request now (_blocked r).
Proof. intros Hr Hn. split; [by exists r |]. intros Hc. destruct (Hn Hc). Qed.

Lemma evaluated_means accepted request now :
  (controls_hold (gr_execution_evidence request) -> cleared accepted request now) ->
  decision_means accepted request now
    (evaluate_pre_write (with_current_evidence (gr_execution_evidence request))).
Proof.
  intros Hc. destruct (evaluate_current (gr_execution_evidence request)) as (Ha & Hr & Hb).
  unfold decision_means. destruct (gd_eligibility _).
  - destruct (proj1 Ha eq_refl) as (? & ? & ?). auto.
  - split; [by apply Hb |]. intros [_ _ _ _ _ Hco]. rewrite !elem_of_cons, elem_of_nil in Hr.
    destruct (pw_approval_status _), (pw_approval_evidence_valid _);
      first [by left | by right | exfalso; naive_solver].
  - destruct (proj1 Hr eq_refl) as (? & ?). auto.
Qed.

(** Closes the branch of a guard that blocks: what it tests follows from
    [cleared]. *)
Ltac blocked_by tac :=
  split; [done |]; apply blocked_means; [done |];
  let H := fresh in intros H; destruct H as [? [] ? (? & ? & ?) (? & ? & ?) ?]; tac.

(** C38. The WRITE guard decides exactly as its specification says: it
    returns [ALLOWED] when the contract and context describe the intent, a
    current ALLOW policy decision names this very intent, subject and risk, a
    current business precondition that the provider enforces atomically was
    observed for it, no check speaks against it, the other controls hold and the
    approval is valid; [REQUIRES_APPROVAL] when only the approval is missing;
    and [BLOCKED], with a reason, when something else is missing or the
    approval is rejected or unproved. It raises only when the instant is not
    in UTC or the intent cannot be named in a policy request. *)
Theorem guard_decides_exactly (accepted : RiskAcceptancePolicy)
    (request : WriteGuardRequest) (now : datetime) :
  match guard_evaluate accepted request now with
  | Ok d => dt_utcoffset now = Some 0%Z /\ decision_means accepted request now d
  | Err _ => dt_utcoffset now <> Some 0%Z \/ ~ nameable (gr_intent request) (gr_context request)
  end.
Proof.
  unfold guard_evaluate. destruct (utc_instant _ now _) as [w|] eqn:Hu; cbn [mbind result_bind].
  2: { left. intros Hn. rewrite (proj2 (utc_instant_iff _ now _ now) (conj eq_refl Hn)) in Hu.
       discriminate. }
  apply utc_instant_iff in Hu as [-> Hn]. cbv zeta.
  match goal with |- context [if ?b then _ else _] => destruct b eqn:H1 end.
  { blocked_by ltac:(by rewrite di_tenant0, String.eqb_refl in H1). }
  match goal with |- context [if ?b then _ else _] => destruct b eqn:H2 end.
  { blocked_by ltac:(by split_bool). }
  match goal with |- context [if ?b then _ else _] => destruct b eqn:H3 end.
  { blocked_by ltac:(by rewrite di_tool0, String.eqb_refl, di_write0, di_preconditions0 in H3). }
  match goal with |- context [if ?b then _ else _] => destruct b eqn:H4 end.
  { blocked_by ltac:(by split_bool). }
  assert (Hd : describes_intent accepted (gr_intent request) (gr_context request)
                 (gr_contract_evidence request)).
  { split_bool. rewrite !String.eqb_eq in *. by split. }
  clear H1 H2 H3 H4.
  pose proof (write_policy_request_exact (gr_intent request) (gr_context request)
                (gr_contract_evidence request)) as Hw.
  destruct (write_policy_request _ _ _) as [r|]; cbn [mbind result_bind]; [| by right].
  destruct Hw as [Hna ->].
  destruct (gr_policy_decision request) as [policy|] eqn:Hp.
  2: { blocked_by ltac:(congruence). }
  pose proof (policy_step policy (gr_intent request) (gr_context request)
                (gr_contract_evidence request) now) as Hps.
  match goal with |- context [if negb ?b then _ else _] => destruct b eqn:H1 end;
    cbn [negb].
  2: { blocked_by ltac:(naive_solver). }
  match goal with |- context [if ?b then _ else _] => destruct b eqn:H2 end.
  { blocked_by ltac:(naive_solver). }
  destruct (bool_decide_reflect (pd_effect policy = ALLOW)) as [H3|H3]; cbn [negb].
  2: { blocked_by ltac:(naive_solver). }
  assert (Hpa : policy_authorizes policy (gr_intent request) (gr_context request)
                  (gr_contract_evidence request) now) by (by apply Hps).
  clear Hps H1 H2 H3.
  destruct (gr_business_preconditions request) as [pre|] eqn:Hb.
  2: { blocked_by ltac:(congruence). }
  pose proof (precondition_step accepted pre (gr_intent request) (gr_context request)
                (gr_contract_evidence request) now Hd) as Hps.
  match goal with |- context [if negb ?b then _ else _] => destruct b eqn:H1 end;
    cbn [negb].
  2: { blocked_by ltac:(naive_solver). }
  match goal with |- context [if ?b then _ else _] => destruct b eqn:H2 end.
  { blocked_by ltac:(naive_solver). }
  destruct (bp_provider_atomic_enforcement pre) eqn:H3; cbn [negb].
  2: { blocked_by ltac:(naive_solver). }
  split; [done |]. apply evaluated_means. intros Hco. split; eauto.
  exists pre. split; [done |]. by apply Hps.
Qed.
