(* ===== verification/Runtime.v ===== *)
(** * The interpreter ([src/nsl/runtime.py])

    Evaluation of expressions and execution of statements against an
    execution context, with every call to the outside: the audit sink, the
    snapshot store, the tools, the measurement sink and the wall clock are
    foreign, and each answers from the history of all calls. *)

From S2P Require Import Prelude Digest Json Decimal Core Values Builtins DataProtection Ir.
From S2P Require Import Security AuditTrail WriteRecords RuntimeModels Tools Validation.

(** ** The machine: context, audit recorder and history of calls *)

Inductive port_call : Type :=
  | AppendEvent (e : AuditEvent) (accepted : bool)
  | PutSnapshot (tenant_id : string) (v : value) (classification : DataClassification)
      (retention_days : Z)
  | CallTool (request : ToolCallRequest) (timeout_ms : Z)
  | RecordMeasurement (m : ToolExecutionMeasurement)
  | ReadWallClock
  | WriteDebugTrace (text : string).

Notation history := (list port_call).

(** What awaiting a tool comes to: an answer, an exception, or no answer
    within the timeout. *)
Inductive tool_answer : Type :=
  | Returned (r : reply ToolResultEnvelope)
  | Raised (e : exn)
  | Overran.

(** [format_exception] is the traceback text of the library, [set_order] the
    order in which a set of texts is iterated. *)
Record EnginePorts : Type := MkEnginePorts {
  audit_append : history -> AuditEvent -> result unit;
  snapshot_store : option (history -> string -> value -> DataClassification -> Z ->
                           result SnapshotRef);
  tool_execute : history -> ToolCallRequest -> Z -> tool_answer;
  measurement_record : history -> ToolExecutionMeasurement -> result unit;
  wall_clock : history -> datetime;
  debug_trace_sink : option (history -> string -> result unit);
  format_exception : exn -> string;
  set_order : list string -> list string
}.

Inductive RuntimeEnvironment : Type := PRODUCTION | DEVELOPMENT.

#[export] Instance RuntimeEnvironment_eq_dec : EqDecision RuntimeEnvironment.
Proof. solve_decision. Defined.

Record RuntimeEngine : Type := MkRuntimeEngine {
  tool_catalog : ToolContractCatalog;
  policy_id : string;
  policy_version : string;
  debug_mode : bool;
  environment : RuntimeEnvironment
}.

(** [mc_recorder] is [None] where the source runs without audit services. *)
Record Machine : Type := MkMachine {
  mc_ctx : ExecutionContext;
  mc_recorder : option AuditRecorder;
  mc_calls : history
}.

Definition R := M Machine.

Definition on_ctx {A} (m : X A) : R A := fun mc =>
  let '(r, c) := m (mc_ctx mc) in (r, MkMachine c (mc_recorder mc) (mc_calls mc)).

Definition ctx : R ExecutionContext := fun mc => (Ok (mc_ctx mc), mc).
Definition update (f : ExecutionContext -> ExecutionContext) : R unit := on_ctx (modify f).

Section Interpreter.
Context (ports : EnginePorts) (engine : RuntimeEngine).

(** A call of a port: it is answered from the history before it and logged. *)
Definition on_calls {A} (m : M history A) : R A := fun mc =>
  let '(r, h) := m (mc_calls mc) in (r, MkMachine (mc_ctx mc) (mc_recorder mc) h).

Definition call_port {A} (answer : history -> result A) (c : port_call) : R A :=
  on_calls (fun h => (answer h, h ++ [c])).

#[local] Instance engine_sink : AuditSink history := fun e h =>
  let r := audit_append ports h e in (r, h ++ [AppendEvent e (is_Ok r)]).

(** [_ExecutionServices.emit] *)
Definition services_emit (em : emission) : R unit := fun mc =>
  match mc_recorder mc with
  | None => (Ok tt, mc)
  | Some recorder =>
      let '(r, (recorder, calls)) := emit em (recorder, mc_calls mc) in
      (r, MkMachine (mc_ctx mc) (Some recorder) calls)
  end.

(** [services.emit(event_type, payload)] at the default classification. *)
Definition emit_event (event_type : string) (payload : list (string * value)) : R unit :=
  services_emit (MkEmission event_type payload INTERNAL None None).

(** [services.snapshots.put(...)] when there is a snapshot store. *)
Definition put_snapshot (v : value) (classification : DataClassification)
  : R (option SnapshotRef) :=
  match snapshot_store ports with
  | None => mret None
  | Some put =>
      c ← ctx;
      let tenant := pr_tenant_id (rq_principal (ctx_request c)) in
      let days := snapshot_retention_days (rq_data_policy (ctx_request c)) in
      ref ← call_port (fun h => put h tenant v classification days)
              (PutSnapshot tenant v classification days);
      mret (Some ref)
  end.

(** [self.authorizer.authorize(...)]; the decision time is only read when a
    decision is built, and then the reading is logged. *)
Definition authorize_at (principal : ExecutionPrincipal) (action : string)
    (required_scopes : gset string) : M history AuthorizationDecision := fun h =>
  match authorize (policy_id engine) (policy_version engine) (wall_clock ports h)
          principal action required_scopes with
  | Ok decision => (Ok decision, h ++ [ReadWallClock])
  | Err e => (Err e, h)
  end.

(** ** Tools *)

(** [executor.execute(request)] awaited under the timeout: the outcome of the
    await as a value, whatever it is. *)
Definition ToolRunner : Type := ToolCallRequest -> Z -> R tool_answer.

Definition delegate_execute : ToolRunner := fun request timeout_ms =>
  call_port (fun h => Ok (tool_execute ports h request timeout_ms))
    (CallTool request timeout_ms).

(** [MeasuringToolExecutor.execute]: an overrun cancels the delegate, and the
    measurement is recorded in every case. *)
Definition measured_outcome (a : tool_answer) : ToolExecutionOutcome :=
  match a with
  | Returned _ => RETURNED
  | Raised e => if isinstance_exn (ex_class e) CancelledError then TOOL_CANCELLED else ERROR
  | Overran => TOOL_CANCELLED
  end.

Definition measuring_execute : ToolRunner := fun request timeout_ms =>
  started_ns ← on_ctx monotonic_ns;
  answer ← delegate_execute request timeout_ms;
  ended_ns ← on_ctx monotonic_ns;
  let measurement := MkToolExecutionMeasurement (tq_execution_id request)
    (tq_invocation_id request) (tq_node_id request) (tq_tool_id request)
    (tq_tool_version request) (pr_tenant_id (tq_principal request))
    (measured_outcome answer) (Z.max 0 (ended_ns - started_ns)) in
  _ ← lift (ToolExecutionMeasurement_post_init measurement);
  _ ← call_port (fun h => measurement_record ports h measurement)
        (RecordMeasurement measurement);
  mret answer.

(** [execute_with_timeout]: an overrun is the [TimeoutError] of the library. *)
Definition execute_with_timeout (tools : ToolRunner) (request : ToolCallRequest)
    (timeout_ms : Z) : R (reply ToolResultEnvelope) :=
  try_except
    (answer ← tools request timeout_ms;
     match answer with
     | Returned r => mret r
     | Raised e => lift (Err e)
     | Overran => fail TimeoutError ""
     end)
    (fun c => isinstance_exn c TimeoutError)
    (fun _ => lift (tool_error "TOOL_TIMEOUT"
       ("tool timed out after " +:+ str_of_Z timeout_ms +:+ " ms: " +:+ tq_tool_id request))).

(** ** Expressions *)

Definition vstr_opt (o : option string) : value :=
  match o with Some s => VStr s | None => VNone end.

Definition completeness_value (c : Completeness) : string :=
  match c with COMPLETE => "COMPLETE" | PARTIAL => "PARTIAL" | C_UNKNOWN => "UNKNOWN" end.
Definition presence_value (p : Presence) : string :=
  match p with PRESENT => "PRESENT" | EMPTY => "EMPTY" end.

(** [_combine_completeness] *)
Definition _combine_completeness (a b : Completeness) : Completeness :=
  match a, b with
  | C_UNKNOWN, _ | _, C_UNKNOWN => C_UNKNOWN
  | PARTIAL, _ | _, PARTIAL => PARTIAL
  | COMPLETE, COMPLETE => COMPLETE
  end.

Definition expression_error {A} (node_id detail_code message : string) : result A :=
  Err (Exn ExpressionEvaluationError detail_code (message +:+ " at " +:+ node_id)).

(** The exceptions [_evaluate] passes through, and the ones it turns into an
    [ExpressionEvaluationError] unless the expression is a READ. *)
Definition passes_through (c : exn_class) : bool :=
  isinstance_exn c AuthorizationError || isinstance_exn c ToolExecutionError
  || isinstance_exn c LimitExceeded || isinstance_exn c RuntimeContractError
  || isinstance_exn c MoneyError.

Definition python_error (c : exn_class) : bool :=
  isinstance_exn c ArithmeticError || isinstance_exn c LookupError
  || isinstance_exn c TypeError || isinstance_exn c ValueError.

Definition is_read (e : Expression) : bool :=
  match e with ReadExpr _ _ _ _ _ => true | _ => false end.

(** [_evaluate], around the evaluation [m] of the expression by
    [_evaluate_ir]. *)
Definition evaluated (expression : Expression) (m : R ValueEnvelope) : R ValueEnvelope :=
  match expression with
  | WriteExpr _ _ _ _ _ => fail TypeError "unsupported expression"
  | _ =>
      result ← try_except
        (_ ← on_ctx check_deadline; m)
        (fun c => negb (passes_through c) && python_error c && negb (is_read expression))
        (fun _ => lift (expression_error (expr_node_id expression)
                          "EXPRESSION_EVALUATION_ERROR" "expression evaluation failed"));
      _ ← (if bool_decide (ve_type_info result = expr_type_info expression) then mret tt
           else lift (expression_error (expr_node_id expression)
                        "EXPRESSION_TYPE_MISMATCH" "expression type mismatch"));
      _ ← on_ctx (observe_completeness (ve_completeness result));
      _ ← on_ctx check_deadline;
      _ ← match ve_value result with
          | VList l => on_ctx (check_collection (Z.of_nat (length l)))
          | _ => mret tt
          end;
      mret result
  end.

(** The operations of a binary expression, by operator. *)
Definition binary_operation (operator : string) (a b : value) : result value :=
  let order op := o ← py_order op a b; Ok (VBool o) in
  if String.eqb operator "ADD" then py_add a b
  else if String.eqb operator "SUB" then py_sub a b
  else if String.eqb operator "MUL" then py_mul a b
  else if String.eqb operator "DIV" then py_truediv a b
  else if String.eqb operator "LT" then order OpLt
  else if String.eqb operator "LE" then order OpLe
  else if String.eqb operator "GT" then order OpGt
  else if String.eqb operator "GE" then order OpGe
  else if String.eqb operator "EQ" then e ← py_eq a b; Ok (VBool e)
  else if String.eqb operator "NE" then e ← py_eq a b; Ok (VBool (negb e))
  else raise KeyError operator.

Definition binary_value (operator : string) (type_info : TypeRef) (a b : value)
  : result value :=
  if String.eqb operator "DIV" && bool_decide (type_info = DECIMAL) then
    x ← to_decimal a; y ← to_decimal b; d ← dec_div x y; Ok (VDecimal d)
  else binary_operation operator a b.

(** The envelope of a value computed from one source. *)
Definition derived (v : value) (type_info : TypeRef) (presence : Presence)
    (source : ValueEnvelope) : ValueEnvelope :=
  MkValueEnvelope v type_info presence (ve_completeness source) (ve_classification source)
    (ve_provenance_refs source).

Definition builtin_call (function : string) (arguments : list ValueEnvelope)
    (type_info : TypeRef) : result value :=
  match builtin_evaluate function (map ve_value arguments) (map ve_type_info arguments)
          type_info with
  | Err e => if isinstance_exn (ex_class e) BuiltinError
             then raise RuntimeContractError (exn_str e) else Err e
  | ok => ok
  end.

(** *** READ expressions *)

(** The tool of a READ and its contract: [_execute_read] up to the evaluation
    of the arguments. *)
Definition read_target (node_ref : string) (argument_names : list string)
  : R (RequiredTool * ToolContract * AuthorizationDecision) :=
  c ← ctx;
  required ← match find (fun t => String.eqb (rt_tool_ref t) node_ref)
                     (sk_required_tools (ctx_skill c)) with
             | Some t => mret t
             | None => fail RuntimeContractError
                         ("read references unregistered tool: " +:+ node_ref)
             end;
  contract ← lift (catalog_resolve (tool_catalog engine) (rt_tool_id required)
                     (rt_version required));
  _ ← (if negb (same_elements argument_names (map fst (tc_input_types contract)))
          || negb (no_duplicates argument_names)
       then lift (tool_error "TOOL_ARGUMENT_MISMATCH"
              ("argument names do not match contract: " +:+ rt_tool_id required))
       else mret tt);
  decision ← on_calls (authorize_at (rq_principal (ctx_request c))
               ("tool:" +:+ rt_tool_id required +:+ ":execute")
               {[rt_required_scope required]});
  mret (required, contract, decision).

Definition envelopes_classification (arguments : list (string * ValueEnvelope))
  : DataClassification :=
  fold_left (fun c a => highest_classification c [ve_classification a.2]) arguments PUBLIC.

(** The [TOOL_FAILED] event. *)
Definition tool_failed (node_id invocation_id tool_id decision_ref error_code : string)
    (detail_code : option string) (status : string) : R unit :=
  emit_event "TOOL_FAILED"
    [("node_id", VStr node_id); ("invocation_id", VStr invocation_id);
     ("tool_id", VStr tool_id); ("error_code", VStr error_code);
     ("authorization_decision_ref", VStr decision_ref);
     ("cause", VDict [("error_code", VStr error_code);
                      ("detail_code", vstr_opt detail_code)]);
     ("output", VDict [("status", VStr status); ("error_code", VStr error_code)])].

(** The three [except] clauses around a tool call, then the re-raise. *)
Definition tool_call_failed (node_id invocation_id tool_id decision_ref : string)
    (duration_limited : bool) (e : exn) : R ToolResultEnvelope :=
  let failed := tool_failed node_id invocation_id tool_id decision_ref in
  if isinstance_exn (ex_class e) LimitExceeded then
    _ ← failed "RESOURCE_LIMIT_EXCEEDED" None "LIMIT_EXCEEDED"; lift (Err e)
  else if isinstance_exn (ex_class e) ToolExecutionError then
    if String.eqb (ex_code e) "TOOL_TIMEOUT" && duration_limited then
      _ ← failed "RESOURCE_LIMIT_EXCEEDED" (Some "TOOL_TIMEOUT") "LIMIT_EXCEEDED";
      fail LimitExceeded "execution duration limit exceeded"
    else
      _ ← failed (ex_code e) (Some (ex_code e)) "TOOL_ERROR"; lift (Err e)
  else
    _ ← failed "UNEXPECTED_TOOL_ERROR" None "FAILED"; lift (Err e).

(** The [try] block: validation, the call, and the checks of its result. *)
Definition call_tool (tools : ToolRunner) (request : ToolCallRequest)
    (contract : ToolContract) (policy : ResultPolicy) (timeout_ms : Z)
  : R ToolResultEnvelope :=
  _ ← lift (validate_request request contract);
  raw_result ← execute_with_timeout tools request timeout_ms;
  result ← lift (validate_result_structure raw_result request);
  _ ← lift (validate_result result contract);
  _ ← lift (validate_result_hash result);
  _ ← (if required policy && bool_decide (tr_presence result = EMPTY)
          && negb (empty_is_valid policy)
       then lift (tool_error "REQUIRED_TOOL_RESULT_MISSING"
              ("required tool result is missing: " +:+ tq_tool_id request))
       else mret tt);
  _ ← on_ctx check_deadline;
  mret result.

Definition next_invocation : R string :=
  _ ← update (fun c => set_invocation_counter (ctx_invocation_counter c + 1) c);
  c ← ctx;
  mret ("inv" +:+ pad_Z 4 (ctx_invocation_counter c))%string.

(** [_execute_read] from the evaluated arguments on. *)
Definition perform_read (tools : ToolRunner) (node_id : string) (policy : ResultPolicy)
    (required : RequiredTool) (contract : ToolContract) (decision : AuthorizationDecision)
    (arguments : list (string * ValueEnvelope)) : R ValueEnvelope :=
  _ ← on_ctx before_tool_call;
  invocation_id ← next_invocation;
  let argument_values := VDict (map (fun a => (a.1, ve_value a.2)) arguments) in
  let argument_hash := value_hash argument_values in
  let argument_classification := envelopes_classification arguments in
  argument_ref ← put_snapshot argument_values argument_classification;
  let decision_ref := az_decision_id decision in
  let tool_id := rt_tool_id required in
  _ ← emit_event "TOOL_STARTED"
        [("node_id", VStr node_id); ("invocation_id", VStr invocation_id);
         ("tool_id", VStr tool_id); ("argument_hash", VStr argument_hash);
         ("input", VDict [("argument_names", VList (map (fun a => VStr a.1) arguments));
            ("argument_hash", VStr argument_hash);
            ("snapshot_ref", vstr_opt (sr_snapshot_id <$> argument_ref));
            ("classification", VStr (classification_value argument_classification))]);
         ("authorization_decision_ref", VStr decision_ref)];
  c ← ctx;
  let request := MkToolCallRequest (rq_execution_id (ctx_request c)) invocation_id node_id
    tool_id (rt_version required) (rt_contract_hash required) arguments
    (rq_principal (ctx_request c)) decision_ref in
  remaining ← on_ctx remaining_duration_ms;
  let timeout_ms := Z.min (tc_timeout_ms contract) remaining in
  let duration_limited := (remaining <=? tc_timeout_ms contract)%Z in
  result ← try_except (call_tool tools request contract policy timeout_ms)
             (fun c => isinstance_exn c Exception_)
             (tool_call_failed node_id invocation_id tool_id decision_ref duration_limited);
  stored ← match tr_snapshot_ref result with
           | Some ref => mret (Some ref)
           | None => ref ← put_snapshot (tr_value result) (tr_classification result);
                     mret (sr_snapshot_id <$> ref)
           end;
  _ ← emit_event "TOOL_COMPLETED"
        [("node_id", VStr node_id); ("invocation_id", VStr invocation_id);
         ("tool_id", VStr tool_id); ("authorization_decision_ref", VStr decision_ref);
         ("result_hash", VStr (tr_result_hash result)); ("snapshot_ref", vstr_opt stored);
         ("presence", VStr (presence_value (tr_presence result)));
         ("completeness", VStr (completeness_value (tr_completeness result)));
         ("output", VDict [("result_hash", VStr (tr_result_hash result));
            ("snapshot_ref", vstr_opt stored);
            ("type", value_of_json (type_to_data (tr_type_info result)));
            ("presence", VStr (presence_value (tr_presence result)));
            ("completeness", VStr (completeness_value (tr_completeness result)));
            ("classification", VStr (classification_value (tr_classification result)))])];
  _ ← match tr_value result with
      | VList l => on_ctx (observe_collection (Z.of_nat (length l)))
      | _ => mret tt
      end;
  mret (tool_result_to_value result ("prov:" +:+ invocation_id +:+ ":"
          +:+ String.substring 7 12 (tr_result_hash result))).

(** *** All expressions: [_evaluate_ir] *)

Fixpoint _evaluate_ir (tools : ToolRunner) (expression : Expression) {struct expression}
  : R ValueEnvelope :=
  let _evaluate e := evaluated e (_evaluate_ir tools e) in
  match expression with
  | LiteralExpr _ v type_info => mret (envelope_complete v type_info PUBLIC [])
  | SymbolRefExpr _ symbol_id _ => c ← ctx; lift (resolve c symbol_id)
  | FieldExpr _ source field type_info =>
      source ← _evaluate source;
      v ← lift (py_getitem (ve_value source) field);
      mret (derived v type_info PRESENT source)
  | ProjectionExpr _ source field type_info =>
      source ← _evaluate source;
      items ← lift (l ← py_iter (ve_value source); map_result (fun x => py_getitem x field) l);
      mret (derived (VList items) type_info
              match items with [] => EMPTY | _ => PRESENT end source)
  | CallExpr _ function arguments type_info =>
      arguments ← map_M (fun e => evaluated e (_evaluate_ir tools e)) arguments;
      v ← lift (builtin_call function arguments type_info);
      match arguments with
      | argument :: _ => mret (derived v type_info PRESENT argument)
      | [] => fail IndexError "tuple index out of range"
      end
  | BinaryExpr _ operator l r type_info =>
      l ← _evaluate l;
      r ← _evaluate r;
      v ← lift (binary_value operator type_info (ve_value l) (ve_value r));
      mret (MkValueEnvelope v type_info PRESENT
              (_combine_completeness (ve_completeness l) (ve_completeness r))
              (highest_classification (ve_classification l) [ve_classification r])
              (dict_keys (ve_provenance_refs l ++ ve_provenance_refs r)))
  | ReadExpr node_id tool_ref arguments _ policy =>
      target ← read_target tool_ref (map fst arguments);
      arguments ← map_M (fun a => v ← evaluated a.2 (_evaluate_ir tools a.2); mret (a.1, v))
                    arguments;
      perform_read tools node_id policy target.1.1 target.1.2 target.2 arguments
  | WriteExpr _ _ _ _ _ => fail TypeError "unsupported expression"
  end.

Definition _evaluate (tools : ToolRunner) (expression : Expression) : R ValueEnvelope :=
  evaluated expression (_evaluate_ir tools expression).

(** ** Statements *)

(** [_validate_runtime_type] *)
Definition runtime_type_valid (v : value) (t : TypeRef) : bool :=
  let named (n : string) := bool_decide (ty_name t = Some n) in
  if named "Year" || named "Int" then match v with VInt _ => true | _ => false end
  else if String.eqb (ty_kind t) "domain" || named "String"
       then match v with VStr _ => true | _ => false end
  else if named "Bool" then match v with VBool _ => true | _ => false end
  else if bool_decide (t = DECIMAL) then match v with VDecimal _ => true | _ => false end
  else if bool_decide (t = DATE) then match v with VDate _ => true | _ => false end
  else if bool_decide (t = DATETIME) then match v with VDateTime _ => true | _ => false end
  else if String.eqb (ty_kind t) "money" then
    match v with VMoney m => bool_decide (Some (Core.currency m) = ty_currency t) | _ => false end
  else if String.eqb (ty_kind t) "enum" then
    match v with VStr s => bool_decide (s ∈ ty_enum_values t) | _ => false end
  else true.

Definition _validate_runtime_type (v : value) (t : TypeRef) (name : string) : result unit :=
  raise_if (negb (runtime_type_valid v t)) RuntimeContractError
    ("runtime type mismatch for " +:+ name).

(** [_execute_let] *)
Definition _execute_let (tools : ToolRunner) (target_symbol_id : string)
    (expression : Expression) : R unit :=
  v ← _evaluate tools expression;
  on_ctx (bind target_symbol_id v).

Definition check_status_value (s : CheckStatus) : string :=
  match s with PASS => "PASS" | FAIL => "FAIL" | CHECK_UNKNOWN => "UNKNOWN" end.

(** [_execute_check] *)
Definition _execute_check (tools : ToolRunner) (statement : CheckStatement) : R unit :=
  predicate ← _evaluate tools (cs_condition statement);
  check ← lift match strict_evaluate statement predicate with
               | Err e => if isinstance_exn (ex_class e) CheckEvaluationError
                          then raise RuntimeContractError (exn_str e) else Err e
               | ok => ok
               end;
  _ ← update (fun c => set_checks (ctx_checks c ++ [check]) c);
  _ ← on_ctx (bind_check (cs_result_symbol_id statement)
        (envelope_complete (VDict [("status", VStr (check_status_value (cr_status check)))])
           CHECK_RESULT INTERNAL (ve_provenance_refs predicate)));
  emit_event "CHECK_COMPLETED"
    [("node_id", VStr (cs_node_id statement)); ("check_id", VStr (cs_check_id statement));
     ("status", VStr (check_status_value (cr_status check)));
     ("condition_node_id", VStr (cr_condition_node_id check));
     ("presence", VStr (presence_value (cr_presence check)));
     ("completeness", VStr (completeness_value (cr_completeness check)));
     ("reason", vstr_opt (cr_reason_code check));
     ("provenance_refs", VList (map VStr (cr_provenance_refs check)))].

(** One field of [_execute_emit]: the value must fit its output declaration. *)
Definition emit_field (tools : ToolRunner) (outputs : list OutputField)
    (field : string * Expression) : R (string * ValueEnvelope) :=
  let '(name, expression) := field in
  output ← match find (fun o => String.eqb (out_name o) name) outputs with
           | Some o => mret o
           | None => fail KeyError name
           end;
  _ ← fail_if (negb (bool_decide (expr_type_info expression = out_type_info output)))
        RuntimeContractError ("EMIT type does not match output schema: " +:+ name);
  result ← _evaluate tools expression;
  _ ← lift (_validate_runtime_type (ve_value result) (out_type_info output)
              ("output " +:+ name));
  _ ← fail_if (negb (classification_allows (ve_classification result)
                       (out_classification output)))
        RuntimeContractError ("EMIT classification exceeds output schema: " +:+ name);
  mret (name, result).

(** The record, its fields in the order of the output declarations. *)
Definition output_fields (outputs : list OutputField)
    (evaluated : list (string * ValueEnvelope)) : result (list (string * ValueEnvelope)) :=
  map_result (fun o => match assoc (out_name o) evaluated with
                       | Some v => Ok (out_name o, v)
                       | None => raise KeyError (out_name o)
                       end) outputs.

(** [_execute_emit] *)
Definition _execute_emit (tools : ToolRunner) (node_id : string)
    (fields : list (string * Expression)) : R unit :=
  _ ← on_ctx before_emit;
  c ← ctx;
  let outputs := sk_outputs (ctx_skill c) in
  let declared := map out_name outputs in
  let field_names := map fst fields in
  _ ← fail_if (negb (no_duplicates declared)
               || negb (length field_names =? length declared)
               || negb (no_duplicates field_names)
               || negb (same_elements field_names declared))
        RuntimeContractError "EMIT fields do not match output schema";
  evaluated ← map_M (emit_field tools outputs) fields;
  record_fields ← lift (output_fields outputs evaluated);
  record ← lift (new_EmitRecord record_fields);
  _ ← update (fun c => set_outputs (ctx_outputs c ++ [record]) c);
  _ ← on_ctx record_emit;
  let values := map (fun f => (f.1, ve_value f.2)) evaluated in
  let maximum := envelopes_classification evaluated in
  emit_ref ← put_snapshot (VDict values) maximum;
  services_emit (MkEmission "EMIT_COMPLETED"
    [("node_id", VStr node_id); ("values", VDict values)] maximum emit_ref
    (Some [("node_id", VStr node_id);
           ("field_names", VList (map (fun f => VStr f.1) values))])).

Definition statement_kind (s : Statement) : string :=
  match s with
  | LetStatement _ _ _ => "LetStatement"
  | ForeachStatement _ _ _ _ _ => "ForeachStatement"
  | CheckStmt _ => "CheckStatement"
  | EmitStatement _ _ => "EmitStatement"
  | ApprovalStmt _ => "ApprovalStatement"
  end.

Definition statement_event (event_type : string) (s : Statement) : R unit :=
  emit_event event_type [("node_id", VStr (stmt_node_id s)); ("kind", VStr (statement_kind s))].

(** One turn of [_execute_block], around the execution [m] of the statement. *)
Definition executed (statement : Statement) (m : R unit) : R unit :=
  _ ← on_ctx check_deadline;
  c ← ctx;
  let previous_node_id := ctx_current_node_id c in
  _ ← update (set_current_node_id (Some (stmt_node_id statement)));
  _ ← statement_event "STATEMENT_STARTED" statement;
  _ ← m;
  _ ← statement_event "STATEMENT_COMPLETED" statement;
  update (set_current_node_id previous_node_id).

(** The envelope of a loop variable; an envelope without a type, as the items
    of a collection of another type than a list would have, is left out. *)
Definition iterator_envelope (v : value) (collection : ValueEnvelope) : result ValueEnvelope :=
  match ty_item (ve_type_info collection) with
  | Some item =>
      Ok (MkValueEnvelope v item PRESENT (ve_completeness collection)
            (ve_classification collection) (ve_provenance_refs collection))
  | None => out_of_model
  end.

(** One iteration of [_execute_foreach_body], around the loop body. *)
Definition iteration (iterator_symbol_id : string) (collection : ValueEnvelope)
    (body : R unit) (v : value) : R unit :=
  _ ← on_ctx before_loop_iteration;
  _ ← on_ctx push_frame;
  try_finally
    (item ← lift (iterator_envelope v collection);
     _ ← on_ctx (bind iterator_symbol_id item);
     body)
    (on_ctx pop_frame).

(** [_execute_foreach_body], around the loop body. *)
Definition foreach_body (tools : ToolRunner) (node_id iterator_symbol_id : string)
    (collection : Expression) (max_iterations : Z) (body : R unit) : R unit :=
  collection ← _evaluate tools collection;
  size ← lift (py_len (ve_value collection));
  _ ← fail_if (max_iterations <? size)%Z LimitExceeded
        ("foreach " +:+ node_id +:+ " exceeds max " +:+ str_of_Z max_iterations);
  values ← lift (py_iter (ve_value collection));
  each_M (iteration iterator_symbol_id collection body) values.

(** [_execute_foreach], around [_execute_foreach_body]. *)
Definition nested_loop (m : R unit) : R unit :=
  c ← ctx;
  _ ← fail_if (MAX_FOREACH_NESTING_DEPTH <=? ctx_foreach_depth c)%Z LimitExceeded
        ("foreach nesting depth exceeds " +:+ str_of_Z MAX_FOREACH_NESTING_DEPTH);
  _ ← update (fun c => set_foreach_depth (ctx_foreach_depth c + 1) c);
  try_finally m (update (fun c => set_foreach_depth (ctx_foreach_depth c - 1) c)).

Fixpoint _execute_statement (tools : ToolRunner) (statement : Statement) {struct statement}
  : R unit :=
  executed statement
    match statement with
    | LetStatement _ target v => _execute_let tools target v
    | ForeachStatement node_id iterator collection max_iterations body =>
        nested_loop (foreach_body tools node_id iterator collection max_iterations
          (each_M (fun s => _execute_statement tools s) body))
    | CheckStmt c => _execute_check tools c
    | EmitStatement node_id fields => _execute_emit tools node_id fields
    | ApprovalStmt _ => fail TypeError "unsupported statement"
    end.

(** [_execute_block] *)
Definition _execute_block (tools : ToolRunner) (statements : list Statement) : R unit :=
  each_M (_execute_statement tools) statements.
End Interpreter.
