(* ===== verification/Steps.v ===== *)
(** * What the steps of the interpreter change

    The operations of [Runtime.v] that only read the clock, note the current
    node or talk to the ports without calling a tool are quiet: they leave
    bindings, results and counters alone. The files that follow prove what the
    other operations do. *)

From S2P Require Import Prelude Digest Json Decimal Core Values Builtins DataProtection Ir.
From S2P Require Import Security AuditTrail WriteRecords RuntimeModels Tools Validation Runtime.

(** A context without what quiet operations may change. *)
Definition masked (c : ExecutionContext) : ExecutionContext :=
  let m := ctx_resources c in
  set_clock_reads 0 (set_current_node_id None (set_data_completeness COMPLETE
    (set_invocation_counter 0
      (set_resources (Mk_ResourceMeter (tool_calls m) (loop_iterations m) (emitted_rows m) 0)
         c)))).

Definition is_tool_call (c : port_call) : bool :=
  match c with CallTool _ _ => true | _ => false end.

Definition accepted_event (c : port_call) : option AuditEvent :=
  match c with AppendEvent e true => Some e | _ => None end.

(** The audit events that reached the sink. *)
Definition accepted (h : history) : list AuditEvent := omap accepted_event h.

(** [new] continues the chain of the recorder, which then stands at its end. *)
Definition trail (r r' : option AuditRecorder) (new : history) : Prop :=
  match r, r' with
  | None, None => accepted new = []
  | Some r, Some r' =>
      chained (rec_sequence r) (rec_previous_event_hash r) (accepted new)
      /\ Forall (recorded_by r) (accepted new)
      /\ r' = fold_left (fun r e => advance e r) (accepted new) r
  | _, _ => False
  end.

Lemma accepted_app h h' : accepted (h ++ h') = accepted h ++ accepted h'.
Proof. apply omap_app. Qed.

Lemma trail_silent r new : accepted new = [] -> trail r r new.
Proof. intros H. destruct r; cbn; by rewrite H. Qed.

Lemma advance_all_end l r : chained (rec_sequence r) (rec_previous_event_hash r) l ->
  let r' := fold_left (fun r e => advance e r) l r in
  rec_sequence r' = (rec_sequence r + Z.of_nat (length l))%Z
  /\ rec_previous_event_hash r' = chain_end (rec_previous_event_hash r) l
  /\ (forall e, recorded_by r' e <-> recorded_by r e) /\ rec_policy r' = rec_policy r.
Proof.
  cbv zeta. revert r; induction l as [|e l IH]; intros r Hl.
  - cbn. split; [lia |]. split; [reflexivity |]. by split.
  - destruct Hl as (Hs & _ & _ & Hl). cbn [fold_left].
    destruct (IH (advance e r) Hl) as (H1 & H2 & H3 & H4). rewrite H1, H2, H4.
    cbn [advance rec_sequence rec_previous_event_hash rec_policy length]. rewrite Hs.
    split; [lia |]. split; [| split; [exact H3 | done]].
    unfold chain_end. rewrite last_cons. by destruct (last l).
Qed.

Lemma trail_trans r1 r2 r3 n1 n2 :
  trail r1 r2 n1 -> trail r2 r3 n2 -> trail r1 r3 (n1 ++ n2).
Proof.
  unfold trail. rewrite accepted_app. destruct r1 as [r1|], r2 as [r2|], r3 as [r3|]; try done.
  - intros (C1 & F1 & ->) (C2 & F2 & ->).
    destruct (advance_all_end _ _ C1) as (E1 & E2 & E3 & _). rewrite E1, E2 in C2.
    split; [by apply chained_app |]. split; [| by rewrite fold_left_app].
    apply Forall_app. split; [exact F1 |]. eapply Forall_impl; [exact F2 | intros e; apply E3].
  - by intros -> ->.
Qed.

Definition quiet_ctx (c c' : ExecutionContext) : Prop := masked c' = masked c.

Definition quiet (mc mc' : Machine) : Prop :=
  quiet_ctx (mc_ctx mc) (mc_ctx mc')
  /\ exists new, mc_calls mc' = mc_calls mc ++ new
       /\ Forall (fun c => is_tool_call c = false) new
       /\ trail (mc_recorder mc) (mc_recorder mc') new.

#[export] Instance quiet_ctx_preorder : PreOrder quiet_ctx.
Proof. split; [intros c; reflexivity | intros c d e H1 H2; unfold quiet_ctx in *; congruence]. Qed.

#[export] Instance quiet_preorder : PreOrder quiet.
Proof.
  split.
  - intros mc. split; [reflexivity |]. exists []. rewrite app_nil_r.
    split; [done |]. split; [constructor | by apply trail_silent].
  - intros a b c [H1 (n1 & E1 & F1 & T1)] [H2 (n2 & E2 & F2 & T2)].
    split; [by transitivity (mc_ctx b) |]. exists (n1 ++ n2). rewrite E2, E1, app_assoc.
    split; [done |]. split; [by apply Forall_app | by eapply trail_trans].
Qed.

(** Lifting a relation on contexts, or on histories, to the machine. *)
Lemma steps_on_ctx {A} (P : ExecutionContext -> ExecutionContext -> Prop)
    (Q : Machine -> Machine -> Prop) (m : X A) :
  (forall mc c', P (mc_ctx mc) c' -> Q mc (MkMachine c' (mc_recorder mc) (mc_calls mc))) ->
  steps P m -> steps Q (on_ctx m).
Proof.
  intros HQ Hm mc. unfold on_ctx. specialize (Hm (mc_ctx mc)).
  destruct (m (mc_ctx mc)) as [r c']. by apply HQ.
Qed.

Lemma quiet_on_ctx {A} (m : X A) : steps quiet_ctx m -> steps quiet (on_ctx m).
Proof.
  apply steps_on_ctx. intros mc c' H. split; [exact H |].
  exists []. rewrite app_nil_r. split; [done |]. split; [constructor | by apply trail_silent].
Qed.

Create HintDb quiet.

(** [quiet_tac] follows the structure of a computation. *)
Ltac quiet_tac :=
  repeat (intros; first
    [ solve [auto with quiet]
    | apply steps_ret; apply _ | apply steps_get; apply _ | apply steps_lift; apply _
    | apply steps_fail; apply _ | apply steps_fail_if; apply _
    | apply steps_bind; [apply _ | |]
    | apply steps_try; [apply _ | |]
    | match goal with
      | |- steps _ (match ?x with _ => _ end) => destruct x
      end ]).

Lemma quiet_monotonic_ns : steps quiet_ctx monotonic_ns.
Proof. intros c. reflexivity. Qed.
#[export] Hint Resolve quiet_monotonic_ns : quiet.

Lemma quiet_modify f : (forall c, quiet_ctx c (f c)) -> steps quiet_ctx (modify f).
Proof. intros H c. apply H. Qed.

Lemma quiet_remaining : steps quiet_ctx _remaining_duration_ns.
Proof. unfold _remaining_duration_ns. quiet_tac. Qed.
#[export] Hint Resolve quiet_remaining : quiet.

Lemma quiet_check_deadline : steps quiet_ctx check_deadline.
Proof. unfold check_deadline. quiet_tac. Qed.

Lemma quiet_remaining_ms : steps quiet_ctx remaining_duration_ms.
Proof. unfold remaining_duration_ms. quiet_tac. Qed.

Lemma quiet_observe_completeness o : steps quiet_ctx (observe_completeness o).
Proof. intros c. reflexivity. Qed.
#[export] Hint Resolve quiet_check_deadline quiet_remaining_ms quiet_observe_completeness : quiet.

Lemma quiet_check_collection n : steps quiet_ctx (check_collection n).
Proof. unfold check_collection. quiet_tac. Qed.
#[export] Hint Resolve quiet_check_collection : quiet.

Lemma quiet_observe_collection n : steps quiet_ctx (observe_collection n).
Proof.
  unfold observe_collection. apply steps_bind; [apply _ | | quiet_tac].
  apply quiet_modify. reflexivity.
Qed.

Lemma quiet_before_emit : steps quiet_ctx before_emit.
Proof. unfold before_emit. quiet_tac. Qed.
#[export] Hint Resolve quiet_observe_collection quiet_before_emit : quiet.
#[export] Hint Resolve quiet_on_ctx : quiet.

Lemma quiet_ctx_read : steps quiet ctx.
Proof. intros mc. reflexivity. Qed.
#[export] Hint Resolve quiet_ctx_read : quiet.

Lemma quiet_update f : (forall c, quiet_ctx c (f c)) -> steps quiet (update f).
Proof. intros H. apply quiet_on_ctx, quiet_modify, H. Qed.

Lemma quiet_set_node n : steps quiet (update (set_current_node_id n)).
Proof. apply quiet_update. reflexivity. Qed.
#[export] Hint Resolve quiet_set_node : quiet.

Section Quiet.
Context (ports : EnginePorts) (engine : RuntimeEngine).

Definition is_silent (c : port_call) : bool :=
  match c with CallTool _ _ | AppendEvent _ _ => false | _ => true end.

Lemma silent_calls new : Forall (fun c => is_silent c = true) new ->
  Forall (fun c => is_tool_call c = false) new /\ accepted new = [].
Proof.
  induction 1 as [|c l Hc _ [IH1 IH2]]; [by split |].
  split; [constructor; [by destruct c | done] |].
  destruct c; try discriminate Hc; exact IH2.
Qed.

Lemma quiet_on_calls {A} (m : M history A) :
  (forall h, exists new, (m h).2 = h ++ new /\ Forall (fun c => is_silent c = true) new) ->
  steps quiet (on_calls m).
Proof.
  intros H mc. unfold on_calls. destruct (H (mc_calls mc)) as (new & Hn & Hf).
  destruct (silent_calls new Hf) as [Ht Ha].
  destruct (m (mc_calls mc)) as [r h]. split; [reflexivity |].
  exists new. split; [exact Hn |]. split; [exact Ht | by apply trail_silent].
Qed.

Lemma quiet_call_port {A} (answer : history -> result A) c :
  is_silent c = true -> steps quiet (call_port answer c).
Proof.
  intros Hc. apply quiet_on_calls. intros h. exists [c]. split; [done | by constructor].
Qed.

Lemma quiet_authorize p a s : steps quiet (on_calls (authorize_at ports engine p a s)).
Proof.
  apply quiet_on_calls. intros h. unfold authorize_at.
  destruct (authorize _ _ _ _ _ _).
  - exists [ReadWallClock]. split; [done | by constructor].
  - exists []. by rewrite app_nil_r.
Qed.

#[local] Existing Instance engine_sink.

(** [emit] on the sink of the engine. *)
Lemma engine_emit em r h :
  let '(_, (r', h')) := emit (sink := engine_sink ports) em (r, h) in
  exists new, h' = h ++ new /\ Forall (fun c => is_tool_call c = false) new
    /\ trail (Some r) (Some r') new.
Proof.
  unfold emit. destruct (create_event (draft_event r em)) as [e|error] eqn:Hc.
  2:{ exists []. rewrite app_nil_r. split; [done |]. split; [constructor | by apply trail_silent]. }
  destruct (create_event_verify (draft_event r em) e eq_refl Hc) as [-> Hv].
  unfold sink_append, engine_sink.
  destruct (audit_append ports h _) as [[]|error]; cbn [is_Ok]; eexists;
    (split; [reflexivity |]); (split; [by repeat constructor |]).
  - cbn [trail accepted omap list_omap accepted_event fold_left chained].
    split; [repeat (split; [done |]); done |]. split; [by repeat constructor | done].
  - by apply trail_silent.
Qed.

Lemma quiet_services_emit em : steps quiet (services_emit ports em).
Proof.
  intros mc. unfold services_emit. destruct (mc_recorder mc) as [r|] eqn:Hr; [| reflexivity].
  pose proof (engine_emit em r (mc_calls mc)) as H.
  destruct (emit em (r, mc_calls mc)) as [res [r' h']]. destruct H as (new & Hn & Hf & Ht).
  split; [reflexivity |]. exists new. rewrite Hr. done.
Qed.

Lemma quiet_emit_event t p : steps quiet (emit_event ports t p).
Proof. apply quiet_services_emit. Qed.

Lemma quiet_put_snapshot v c : steps quiet (put_snapshot ports v c).
Proof.
  unfold put_snapshot. destruct (snapshot_store ports); [| apply steps_ret; apply _].
  apply steps_bind; [apply _ | apply quiet_ctx_read | intros].
  apply steps_bind; [apply _ | by apply quiet_call_port | intros; apply steps_ret; apply _].
Qed.
End Quiet.
#[export] Hint Resolve quiet_authorize quiet_services_emit quiet_emit_event
  quiet_put_snapshot : quiet.

Section QuietOperations.
Context (ports : EnginePorts) (engine : RuntimeEngine).

Lemma quiet_read_target ref names : steps quiet (read_target ports engine ref names).
Proof. unfold read_target. quiet_tac. Qed.

Lemma quiet_next_invocation : steps quiet next_invocation.
Proof.
  unfold next_invocation. apply steps_bind; [apply _ | | quiet_tac].
  apply quiet_update. reflexivity.
Qed.

Lemma quiet_tool_failed n i t d code detail st :
  steps quiet (tool_failed ports n i t d code detail st).
Proof. unfold tool_failed. auto with quiet. Qed.

Lemma quiet_tool_call_failed n i t d lim e :
  steps quiet (tool_call_failed ports n i t d lim e).
Proof.
  unfold tool_call_failed. pose proof quiet_tool_failed. quiet_tac.
Qed.

Lemma quiet_statement_event t s : steps quiet (statement_event ports t s).
Proof. unfold statement_event. auto with quiet. Qed.
End QuietOperations.
#[export] Hint Resolve quiet_read_target quiet_next_invocation quiet_tool_call_failed
  quiet_statement_event : quiet.
