(* ===== verification/Costs.v ===== *)
(** * The interpreter stays within the static bounds

    One induction over the interpreter measures what a run costs: tool calls,
    loop iterations and emitted records, by the guard's counters and by the
    history of calls. The instances say that the bounds of [Bounds.v] hold on
    every outcome, and that no tool is called without being counted. *)

From S2P Require Import Prelude Digest Json Decimal Core Values Builtins DataProtection Ir Bounds.
From S2P Require Import Security AuditTrail WriteRecords RuntimeModels Tools Validation Runtime Steps.
Local Open Scope Z_scope.

Definition tool_call_count (h : history) : Z := Z.of_nat (length (List.filter is_tool_call h)).

(** A weighted sum of the counters and of the tool calls in the history. *)
Record weights : Type := MkWeights {
  per_counted_call : Z; per_iteration : Z; per_record : Z; per_call : Z }.

Definition weigh (w : weights) (m : _ResourceMeter) (h : history) : Z :=
  per_counted_call w * tool_calls m + per_iteration w * loop_iterations m
  + per_record w * emitted_rows m + per_call w * tool_call_count h.

Definition measure (w : weights) (mc : Machine) : Z :=
  weigh w (ctx_resources (mc_ctx mc)) (mc_calls mc).

(** What one READ costs. *)
Definition per_read (w : weights) : Z := per_counted_call w + per_call w.

Definition bounds_cost (w : weights) (b : bounds) : Z :=
  per_read w * b_tool_calls b + per_iteration w * b_loop_iterations b
  + per_record w * b_emit_records b.

Lemma tool_call_count_app h h' : tool_call_count (h ++ h') = tool_call_count h + tool_call_count h'.
Proof. unfold tool_call_count. rewrite List.filter_app, length_app. lia. Qed.

Lemma no_tool_calls new : Forall (fun c => is_tool_call c = false) new -> tool_call_count new = 0.
Proof. unfold tool_call_count. induction 1 as [|c l Hc _ IH]; [done |]. cbn. by rewrite Hc. Qed.

Lemma quiet_measure w mc mc' : quiet mc mc' -> measure w mc' = measure w mc.
Proof.
  intros [Hc (new & Hn & Hq & _)]. unfold measure, weigh.
  rewrite Hn, tool_call_count_app, (no_tool_calls new Hq).
  unfold quiet_ctx in Hc. apply (f_equal ctx_resources) in Hc. cbn in Hc. injection Hc. lia.
Qed.

Section Costs.
Context (w : weights) (ports : EnginePorts) (engine : RuntimeEngine) (tools : ToolRunner).
Context (Hcall : 0 <= per_call w) (Hread : 0 <= per_read w)
        (Hiter : 0 <= per_iteration w) (Hemit : 0 <= per_record w).
Context (Htools : forall request timeout, pays (measure w) (per_call w) (tools request timeout)).

Notation pays := (pays (measure w)).

Lemma pays_quiet {A} n (m : R A) : 0 <= n -> steps quiet m -> pays n m.
Proof.
  intros Hn Hm. apply (pays_mono _ 0); [| lia].
  exact (pays_steps _ quiet m (quiet_measure w) Hm).
Qed.

Lemma pays_after {A B} n (m : R A) (f : A -> R B) :
  0 <= n -> steps quiet m -> (forall a, pays n (f a)) -> pays n (m ≫= f).
Proof.
  intros Hn Hm Hf. apply (pays_mono _ (0 + n)); [| lia].
  apply pays_bind; [done | by apply pays_quiet | done].
Qed.

Lemma pays_before {A B} n (m : R A) (f : A -> R B) :
  pays n m -> (forall a, steps quiet (f a)) -> pays n (m ≫= f).
Proof.
  intros Hm Hf. apply (pays_mono _ (n + 0)); [| lia].
  apply pays_bind; [lia | done | intros a; by apply pays_quiet].
Qed.

Lemma pays_handled {A} n (m : R A) handles (h : exn -> R A) :
  pays n m -> (forall e, steps quiet (h e)) -> pays n (try_except m handles h).
Proof.
  intros Hm Hh. apply (pays_mono _ (n + 0)); [| lia].
  apply pays_try; [lia | done | intros e; by apply pays_quiet].
Qed.

(** [after] passes the quiet operations before the one that costs. *)
Ltac quiet_goal := solve [quiet_tac].
Ltac after := repeat (intros; cbv zeta; first
  [ match goal with |- Prelude.pays _ _ (match ?x with _ => _ end) => destruct x end
  | apply pays_after; [lia | quiet_goal |] ]); intros; cbv zeta.

(** A guarded operation: on success it counts, on failure nothing changes. *)
Lemma cost_before_tool_call mc :
  match (on_ctx before_tool_call mc).1 with
  | Ok _ => measure w (on_ctx before_tool_call mc).2 <= measure w mc + per_counted_call w
  | Err _ => measure w (on_ctx before_tool_call mc).2 <= measure w mc + per_read w
  end.
Proof.
  unfold on_ctx. rewrite (run_guarded_eq GuardToolCall (mc_ctx mc) : before_tool_call _ = _).
  destruct (_ <=? 0); cbn -[Z.add Z.mul]; [unfold measure; cbn; lia |].
  destruct (_ <=? _); cbn -[Z.add Z.mul]; unfold measure, weigh; cbn -[Z.add Z.mul]; lia.
Qed.

Lemma cost_before_loop_iteration : pays (per_iteration w) (on_ctx before_loop_iteration).
Proof.
  intros mc. unfold on_ctx.
  rewrite (run_guarded_eq GuardLoopIteration (mc_ctx mc) : before_loop_iteration _ = _).
  destruct (_ <=? 0); cbn -[Z.add Z.mul]; [unfold measure; cbn; lia |].
  destruct (_ <=? _); cbn -[Z.add Z.mul]; unfold measure, weigh; cbn -[Z.add Z.mul]; lia.
Qed.

Lemma cost_record_emit : pays (per_record w) (on_ctx record_emit).
Proof. intros mc. unfold measure, weigh. cbn -[Z.add Z.mul]. lia. Qed.

(** An operation on bindings or results leaves the counters alone. *)
Lemma pays_ctx {A} (m : X A) :
  (forall c, ctx_resources (m c).2 = ctx_resources c) -> pays 0 (on_ctx m).
Proof.
  intros H mc. unfold on_ctx, measure. specialize (H (mc_ctx mc)).
  destruct (m (mc_ctx mc)) as [r c]. cbn in *. rewrite H. lia.
Qed.

Lemma cost_bind k v : pays 0 (on_ctx (bind k v)).
Proof.
  apply pays_ctx. intros c. unfold bind, _bind_once.
  cbv beta iota delta [mbind M_bind get fail_if lift raise_if modify].
  by destruct (_is_bound c k).
Qed.

Lemma cost_bind_check k v : pays 0 (on_ctx (bind_check k v)).
Proof.
  apply pays_ctx. intros c. unfold bind_check, _bind_once.
  cbv beta iota delta [mbind M_bind get fail_if lift raise_if modify].
  by destruct (_is_bound c k).
Qed.

Lemma cost_pop_frame : pays 0 (on_ctx pop_frame).
Proof.
  apply pays_ctx. intros c. unfold pop_frame.
  cbv beta iota delta [mbind M_bind get fail_if lift raise_if modify].
  by destruct (_ || _).
Qed.

Lemma cost_push_frame : pays 0 (on_ctx push_frame).
Proof. by apply pays_ctx. Qed.

Lemma cost_update f : (forall c, ctx_resources (f c) = ctx_resources c) -> pays 0 (update f).
Proof. intros H. by apply pays_ctx. Qed.

Lemma pays_zero_bind {A B} n (m : R A) (f : A -> R B) :
  0 <= n -> pays 0 m -> (forall a, pays n (f a)) -> pays n (m ≫= f).
Proof. intros Hn Hm Hf. apply (pays_mono _ (0 + n)); [by apply pays_bind | lia]. Qed.

(** ** Expressions *)

Lemma cost_execute_with_timeout request timeout :
  pays (per_call w) (execute_with_timeout tools request timeout).
Proof.
  unfold execute_with_timeout. apply pays_handled; [| intros; quiet_tac].
  apply pays_before; [apply Htools | intros; quiet_tac].
Qed.

Lemma cost_call_tool request contract policy timeout :
  pays (per_call w) (call_tool tools request contract policy timeout).
Proof.
  unfold call_tool. after. apply pays_before; [apply cost_execute_with_timeout |].
  intros. quiet_tac.
Qed.

Lemma cost_perform_read node policy required contract decision arguments :
  pays (per_read w) (perform_read ports tools node policy required contract decision arguments).
Proof.
  unfold perform_read.
  apply (pays_bind_ok _ (per_counted_call w) (per_call w)); [| unfold per_read; lia |].
  { exact cost_before_tool_call. }
  after. apply pays_before; [| intros; quiet_tac].
  apply pays_handled; [apply cost_call_tool | intros; auto with quiet].
Qed.

Lemma cost_evaluated e n m : 0 <= n -> pays n m -> pays n (evaluated e m).
Proof.
  intros Hn Hm. unfold evaluated. destruct e; try (apply pays_quiet; [done | quiet_goal]);
    (apply pays_before; [| intros; quiet_tac]);
    (apply pays_handled; [| intros; quiet_tac]); by after.
Qed.

Definition expression_cost (e : Expression) : Z := per_read w * _expression_tool_calls e.

Lemma expression_cost_nonneg e : 0 <= expression_cost e.
Proof. unfold expression_cost. pose proof (expression_tool_calls_nonneg e). nia. Qed.

Lemma sum_by_scale {A} (f : A -> Z) k l : sum_by (fun x => k * f x) l = k * sum_by f l.
Proof. unfold sum_by. induction l as [|x l IH]; cbn; [lia |]. rewrite IH. lia. Qed.

Lemma cost_arguments {A B} (expr : A -> Expression) (g : A -> R B) (l : list A) :
  Forall (fun a => pays (expression_cost (expr a)) (g a)) l ->
  pays (per_read w * sum_by (fun a => _expression_tool_calls (expr a)) l) (map_M g l).
Proof.
  intros H. rewrite <- sum_by_scale. apply pays_map.
  eapply Forall_impl; [exact H |]. intros a Ha. split; [apply expression_cost_nonneg | exact Ha].
Qed.

Lemma cost_evaluate_ir e : pays (expression_cost e) (_evaluate_ir ports engine tools e).
Proof.
  assert (forall e, pays (expression_cost e) (_evaluate_ir ports engine tools e) ->
          pays (expression_cost e) (evaluated e (_evaluate_ir ports engine tools e))) as Hev.
  { intros e'. apply cost_evaluated, expression_cost_nonneg. }
  induction e as [n v t|n s t|n src f t IH|n src f t IH|n f args t IH|n op l r t IHl IHr
                 |n tool args t p IH|n tool args a t IH] using Expression_rect';
    cbn [_evaluate_ir].
  - apply pays_quiet; [apply expression_cost_nonneg | quiet_goal].
  - apply pays_quiet; [apply expression_cost_nonneg | quiet_goal].
  - apply pays_before; [exact (Hev src IH) | intros; quiet_goal].
  - apply pays_before; [exact (Hev src IH) | intros; quiet_goal].
  - apply pays_before; [| intros; quiet_goal].
    apply (cost_arguments id). eapply Forall_impl; [exact IH | exact Hev].
  - apply (pays_mono _ (expression_cost l + expression_cost r));
      [| unfold expression_cost; cbn; lia].
    apply pays_bind; [apply expression_cost_nonneg | exact (Hev l IHl) |]. intros lv.
    apply pays_before; [exact (Hev r IHr) | intros; quiet_goal].
  - pose proof (expression_cost_nonneg (ReadExpr n tool args t p)) as Hn.
    apply pays_after; [exact Hn | quiet_goal |]. intros target.
    apply (pays_mono _ (per_read w * sum_by (fun a => _expression_tool_calls a.2) args
                        + per_read w)); [| unfold expression_cost; cbn -[Z.mul]; lia].
    apply pays_bind; [exact Hread | | intros; apply cost_perform_read].
    apply (cost_arguments snd). eapply Forall_impl; [exact IH |]. intros a Ha.
    apply pays_before; [exact (Hev a.2 Ha) | intros; quiet_goal].
  - apply pays_quiet; [apply expression_cost_nonneg | quiet_goal].
Qed.

Lemma cost_evaluate e : pays (expression_cost e) (_evaluate ports engine tools e).
Proof. apply cost_evaluated; [apply expression_cost_nonneg | apply cost_evaluate_ir]. Qed.

(** ** Statements *)

Lemma cost_emit_field outputs field :
  pays (expression_cost field.2) (emit_field ports engine tools outputs field).
Proof.
  destruct field as [name e]. unfold emit_field. pose proof (expression_cost_nonneg e).
  cbn [snd]. apply pays_after; [lia | quiet_goal |]. intros o.
  apply pays_after; [lia | quiet_goal |]. intros _.
  apply pays_before; [apply cost_evaluate | intros; quiet_goal].
Qed.

Lemma cost_execute_emit n fields :
  pays (per_read w * sum_by (fun f => _expression_tool_calls f.2) fields + per_record w)
    (_execute_emit ports engine tools n fields).
Proof.
  assert (0 <= sum_by (fun f => _expression_tool_calls f.2) fields) as Hs.
  { apply sum_by_nonneg, Forall_forall. intros. apply expression_tool_calls_nonneg. }
  unfold _execute_emit. do 3 (apply pays_after; [nia | quiet_goal | intros; cbv zeta]).
  apply pays_bind; [done | |].
  { apply (cost_arguments snd), Forall_forall. intros f _. apply cost_emit_field. }
  intros evaluated. do 2 (apply pays_after; [done | quiet_goal | intros]).
  apply pays_zero_bind; [done | by apply cost_update | intros _].
  apply pays_before; [apply cost_record_emit | intros; cbv zeta; quiet_goal].
Qed.

Lemma cost_execute_check c :
  pays (expression_cost (cs_condition c)) (_execute_check ports engine tools c).
Proof.
  unfold _execute_check. pose proof (expression_cost_nonneg (cs_condition c)).
  apply (pays_mono _ (expression_cost (cs_condition c) + 0)); [| lia].
  apply pays_bind; [lia | apply cost_evaluate | intros p].
  apply pays_after; [lia | quiet_goal | intros check].
  apply pays_zero_bind; [lia | by apply cost_update | intros _].
  apply pays_zero_bind; [lia | apply cost_bind_check | intros _].
  apply pays_quiet; [lia | quiet_goal].
Qed.

Lemma cost_executed s n m : 0 <= n -> pays n m -> pays n (executed ports s m).
Proof.
  intros Hn Hm. unfold executed.
  do 4 (apply pays_after; [done | quiet_goal | intros; cbv zeta]).
  apply pays_before; [done | intros; quiet_goal].
Qed.

Lemma cost_iteration k coll body n v : 0 <= n -> pays n body ->
  pays (per_iteration w + n) (iteration k coll body v).
Proof.
  intros Hn Hb. unfold iteration.
  apply pays_bind; [done | apply cost_before_loop_iteration | intros _].
  apply pays_zero_bind; [done | apply cost_push_frame | intros _].
  apply (pays_mono _ (n + 0)); [| lia]. apply pays_finally; [| apply cost_pop_frame].
  apply pays_after; [done | quiet_goal | intros item].
  apply pays_zero_bind; [done | apply cost_bind | intros _; exact Hb].
Qed.

Lemma py_len_iter v n l : py_len v = Ok n -> py_iter v = Ok l -> n = Z.of_nat (length l).
Proof.
  destruct v; try discriminate; cbn; intros [= <-] [= <-]; rewrite ?length_map; try done.
  f_equal. induction s as [|c s IH]; [done |]. exact (f_equal Datatypes.S IH).
Qed.

Lemma sum_by_const {A} (k : Z) (l : list A) :
  sum_by (fun _ => k) l = k * Z.of_nat (length l).
Proof. unfold sum_by. induction l as [|x l IH]; cbn [fold_right length]; [lia |]. rewrite IH. lia. Qed.

Lemma cost_foreach_body node k coll m body n : 0 <= n -> 0 <= m -> pays n body ->
  pays (expression_cost coll + m * (per_iteration w + n))
    (foreach_body ports engine tools node k coll m body).
Proof.
  intros Hn Hm Hb. unfold foreach_body.
  apply pays_bind; [nia | apply cost_evaluate | intros collection].
  intros mc. unfold lift, fail_if, mbind, M_bind.
  destruct (py_len (ve_value collection)) as [size|e] eqn:Hsize; [| cbn; nia].
  destruct (Z.ltb_spec m size); cbn [raise_if raise lift]; [cbn; nia |].
  destruct (py_iter (ve_value collection)) as [values|e] eqn:Hval; [| cbn; nia].
  assert (pays ((per_iteration w + n) * Z.of_nat (length values))
            (each_M (iteration k collection body) values)) as Hall.
  { rewrite <- sum_by_const. apply pays_each, Forall_forall. intros v _. split; [lia |].
    by apply cost_iteration. }
  specialize (Hall mc). pose proof (py_len_iter _ _ _ Hsize Hval). nia.
Qed.

Lemma cost_nested_loop n m : 0 <= n -> pays n m -> pays n (nested_loop m).
Proof.
  intros Hn Hm. unfold nested_loop.
  do 2 (apply pays_after; [done | quiet_goal | intros]).
  apply pays_zero_bind; [done | by apply cost_update | intros _].
  apply (pays_mono _ (n + 0)); [| lia]. apply pays_finally; [done | by apply cost_update].
Qed.

Lemma bounds_cost_add a b : bounds_cost w (add_bounds a b) = bounds_cost w a + bounds_cost w b.
Proof. unfold bounds_cost, add_bounds. cbn. lia. Qed.

Lemma bounds_cost_nonneg b : nonneg b -> 0 <= bounds_cost w b.
Proof. intros (H1 & H2 & H3). unfold bounds_cost. nia. Qed.

Lemma cost_block_of l :
  Forall (fun s => forall b, analyze_statement s = Ok b ->
            pays (bounds_cost w b) (_execute_statement ports engine tools s)) l ->
  forall b, _analyze_block l = Ok b ->
    pays (bounds_cost w b) (each_M (_execute_statement ports engine tools) l).
Proof.
  induction 1 as [|s l Hs _ IH]; intros b Hb; cbn [_analyze_block] in Hb.
  - inv_result. intros mc. unfold bounds_cost. cbn. lia.
  - apply bind_Ok in Hb as (b1 & H1 & Hb). apply bind_Ok in Hb as (b2 & H2 & Hb).
    apply Ok_inj in Hb as <-. rewrite bounds_cost_add.
    change (pays (bounds_cost w b1 + bounds_cost w b2)
      (_ ← _execute_statement ports engine tools s;
       each_M (_execute_statement ports engine tools) l)).
    apply pays_bind; [by apply bounds_cost_nonneg, (block_nonneg l) | by apply Hs |].
    intros _. by apply IH.
Qed.

Lemma cost_execute_statement s b : analyze_statement s = Ok b ->
  pays (bounds_cost w b) (_execute_statement ports engine tools s).
Proof.
  revert b. induction s as [n target v|n it coll m body IH|c|n fields|a] using Statement_rect';
    intros b Hb; pose proof (bounds_cost_nonneg b (analyze_statement_nonneg _ b Hb)) as Hn;
    cbn [_execute_statement]; apply cost_executed; try exact Hn.
  - apply Ok_inj in Hb as <-. apply (pays_mono _ (expression_cost v + 0));
      [| unfold bounds_cost, expression_cost; cbn; lia].
    apply pays_bind; [lia | apply cost_evaluate | intros; apply cost_bind].
  - rewrite analyze_foreach in Hb. inv_result. apply Z.leb_gt in H.
    pose proof (bounds_cost_nonneg _ (block_nonneg body _ H0)) as Hbody.
    apply cost_nested_loop; [exact Hn |].
    eapply pays_mono; [apply cost_foreach_body; [exact Hbody | lia | by apply cost_block_of] |].
    unfold bounds_cost, expression_cost. cbn -[Z.mul]. lia.
  - apply Ok_inj in Hb as <-. apply (pays_mono _ (expression_cost (cs_condition c)));
      [apply cost_execute_check | unfold bounds_cost, expression_cost; cbn; lia].
  - apply Ok_inj in Hb as <-. eapply pays_mono; [apply cost_execute_emit |].
    unfold bounds_cost. cbn -[Z.mul]. lia.
  - apply pays_quiet; [exact Hn | quiet_goal].
Qed.

Lemma cost_execute_block l b : _analyze_block l = Ok b ->
  pays (bounds_cost w b) (_execute_block ports engine tools l).
Proof.
  apply cost_block_of, Forall_forall. intros s _ b'. apply cost_execute_statement.
Qed.
End Costs.

(** ** The two ways tools are run *)

Inductive runner (ports : EnginePorts) : ToolRunner -> Prop :=
  | DirectRunner : runner ports (delegate_execute ports)
  | MeasuringRunner : runner ports (measuring_execute ports).

Lemma cost_delegate w ports request timeout : 0 <= per_call w ->
  pays (measure w) (per_call w) (delegate_execute ports request timeout).
Proof.
  intros Hw mc. unfold measure, weigh. cbn -[Z.mul Z.add].
  rewrite tool_call_count_app. change (tool_call_count [CallTool request timeout]) with 1. nia.
Qed.

Lemma cost_runner w ports tools request timeout : runner ports tools -> 0 <= per_call w ->
  pays (measure w) (per_call w) (tools request timeout).
Proof.
  intros [] Hw; [by apply cost_delegate |]. unfold measuring_execute.
  apply pays_after; [done | quiet_tac | intros started].
  apply pays_before; [by apply cost_delegate | intros; cbv zeta].
  pose proof @quiet_call_port. quiet_tac.
Qed.

Lemma analyzed_costs (ports : EnginePorts) (engine : RuntimeEngine)
    (tools : ToolRunner) (body : list Statement) (analysis : StaticAnalysis) (mc : Machine) :
  runner ports tools -> analyze body = Ok analysis ->
  let mc' := (_execute_block ports engine tools body mc).2 in
  let before := ctx_resources (mc_ctx mc) in
  let after := ctx_resources (mc_ctx mc') in
  let calls := tool_call_count (mc_calls mc) in
  let calls' := tool_call_count (mc_calls mc') in
  tool_calls after <= tool_calls before + max_tool_calls analysis
  /\ loop_iterations after <= loop_iterations before + max_loop_iterations analysis
  /\ emitted_rows after <= emitted_rows before + max_emit_records analysis
  /\ calls' <= calls + max_tool_calls analysis
  /\ calls' - calls <= tool_calls after - tool_calls before.
Proof.
  intros Ht Ha. unfold analyze in Ha. inv_result. rename x into b, H into Hb. cbv zeta.
  assert (forall w, 0 <= per_call w -> 0 <= per_read w -> 0 <= per_iteration w ->
    0 <= per_record w ->
    measure w (_execute_block ports engine tools body mc).2 <= measure w mc + bounds_cost w b)
    as Hcost.
  { intros w H1 H2 H3 H4. apply (cost_execute_block w ports engine tools); try done.
    intros request timeout. by apply cost_runner with (ports := ports). }
  unfold measure, weigh, bounds_cost, per_read in Hcost.
  pose proof (Hcost (MkWeights 1 0 0 0)) as H1. pose proof (Hcost (MkWeights 0 1 0 0)) as H2.
  pose proof (Hcost (MkWeights 0 0 1 0)) as H3. pose proof (Hcost (MkWeights 0 0 0 1)) as H4.
  pose proof (Hcost (MkWeights (-1) 0 0 1)) as H5.
  cbn [per_counted_call per_iteration per_record per_call max_tool_calls max_loop_iterations
       max_emit_records] in *.
  repeat split; lia.
Qed.

(** C6. The static analysis is sound: whatever the tools and ports do, and
    whether the block completes or raises, running a block that the analyzer
    accepts makes at most the tool calls, loop iterations and emitted records
    the analysis gives, by the guard's counters as well as by the calls that
    reach a tool; and no tool is ever called without being counted. *)
Theorem static_bounds_sound (ports : EnginePorts) (engine : RuntimeEngine)
    (tools : ToolRunner) (body : list Statement) (analysis : StaticAnalysis) (mc : Machine) :
  runner ports tools -> analyze body = Ok analysis ->
  let mc' := (_execute_block ports engine tools body mc).2 in
  let before := ctx_resources (mc_ctx mc) in
  let after := ctx_resources (mc_ctx mc') in
  let calls := tool_call_count (mc_calls mc) in
  let calls' := tool_call_count (mc_calls mc') in
  tool_calls after <= tool_calls before + max_tool_calls analysis
  /\ loop_iterations after <= loop_iterations before + max_loop_iterations analysis
  /\ emitted_rows after <= emitted_rows before + max_emit_records analysis
  /\ calls' <= calls + max_tool_calls analysis
  /\ calls' - calls <= tool_calls after - tool_calls before.
Proof. apply analyzed_costs. Qed.
