(* ===== verification/Safety.v ===== *)
(** * What a run of the interpreter can and cannot do

    [progress] relates the context before and after a run, on every outcome:
    bindings only grow and scopes are restored, results are only appended and
    fit the output declarations, the counters only grow and stop at their
    limits, and the state of approvals, WRITEs and checkpoints is untouched.
    [call_allowed] says which tool calls can happen. One induction proves both. *)

From S2P Require Import Prelude Digest Json Decimal Core Values Builtins DataProtection Ir Bounds.
From S2P Require Import Security AuditTrail WriteRecords RuntimeModels Tools Validation Runtime Steps.
From S2P Require Import Costs.

(** The fields the interpreter never changes, the others masked. *)
Definition frozen (c : ExecutionContext) : ExecutionContext :=
  set_clock_reads 0 (set_frames [] (set_check_frames [] (set_checks [] (set_outputs []
    (set_resources zero_meter (set_data_completeness COMPLETE (set_invocation_counter 0
      (set_current_node_id None c)))))))).

(** The innermost frame may gain symbols, the others stay. *)
Definition grown (fs fs' : list frame) : Prop :=
  length fs' = length fs /\ tail fs' = tail fs
  /\ forall f f', head fs = Some f -> head fs' = Some f' -> f ⊆ f'.

(** A record fits the output declarations. *)
Definition fits (o : OutputField) (f : string * ValueEnvelope) : Prop :=
  f.1 = out_name o /\ ve_type_info f.2 = out_type_info o
  /\ runtime_type_valid (ve_value f.2) (out_type_info o) = true
  /\ classification_allows (ve_classification f.2) (out_classification o) = true.

Definition record_fits (skill : SkillObject) (r : EmitRecord) : Prop :=
  Forall2 fits (sk_outputs skill) (er_fields r).

(** A counter grows, and not beyond its limit. *)
Definition bounded_growth (limit n n' : Z) : Prop := (n <= n' <= Z.max n limit)%Z.

Record progress (skill : SkillObject) (c c' : ExecutionContext) : Prop := {
  pg_frozen : frozen c' = frozen c;
  pg_frames : grown (ctx_frames c) (ctx_frames c');
  pg_check_frames : grown (ctx_check_frames c) (ctx_check_frames c');
  pg_visible : forall s v, find_frame s (scopes c) = Some v ->
                           find_frame s (scopes c') = Some v;
  pg_checks : ctx_checks c `prefix_of` ctx_checks c';
  pg_outputs : exists new, ctx_outputs c' = ctx_outputs c ++ new
                           /\ Forall (record_fits skill) new;
  pg_tool_calls : bounded_growth (lim_tool_calls (sk_limits skill))
    (tool_calls (ctx_resources c)) (tool_calls (ctx_resources c'));
  pg_loop_iterations : bounded_growth (lim_loop_iterations (sk_limits skill))
    (loop_iterations (ctx_resources c)) (loop_iterations (ctx_resources c'));
  pg_emitted_rows : bounded_growth (lim_emitted_rows (sk_limits skill))
    (emitted_rows (ctx_resources c)) (emitted_rows (ctx_resources c'))
}.

(** A tool call of the Skill: a required tool, its registered contract, valid
    arguments, the requesting principal with the tool's scope, and a timeout
    within the contract's. *)
Definition call_allowed (engine : RuntimeEngine) (skill : SkillObject)
    (request : ExecutionRequest) (c : port_call) : Prop :=
  match c with
  | CallTool call timeout_ms =>
      exists required contract,
        required ∈ sk_required_tools skill
        /\ catalog_resolve (tool_catalog engine) (rt_tool_id required) (rt_version required)
           = Ok contract
        /\ tq_tool_id call = rt_tool_id required /\ tq_tool_version call = rt_version required
        /\ validate_request call contract = Ok tt
        /\ tq_execution_id call = rq_execution_id request
        /\ tq_principal call = rq_principal request
        /\ rt_required_scope required ∈ pr_scopes (rq_principal request)
        /\ (timeout_ms <= tc_timeout_ms contract)%Z
  | _ => True
  end.

Lemma grown_refl fs : grown fs fs.
Proof. split; [done |]. split; [done |]. intros f f' -> [= ->]. done. Qed.

Lemma grown_trans a b c : grown a b -> grown b c -> grown a c.
Proof.
  intros (L1 & T1 & H1) (L2 & T2 & H2). split; [congruence |]. split; [congruence |].
  intros f f' Hf Hf'. destruct b as [|g b].
  - destruct a; [discriminate Hf | discriminate L1].
  - transitivity g; [by apply H1 | by apply H2].
Qed.

Lemma bounded_growth_refl l n : bounded_growth l n n.
Proof. unfold bounded_growth. lia. Qed.

Lemma bounded_growth_trans l a b c :
  bounded_growth l a b -> bounded_growth l b c -> bounded_growth l a c.
Proof. unfold bounded_growth. lia. Qed.

#[export] Instance progress_preorder skill : PreOrder (progress skill).
Proof.
  split.
  - intros c. split; auto using grown_refl, bounded_growth_refl.
    exists []. by rewrite app_nil_r.
  - intros a b c [] []. split; eauto using grown_trans, bounded_growth_trans; try congruence.
    + by transitivity (ctx_checks b).
    + destruct pg_outputs0 as (n1 & E1 & F1), pg_outputs1 as (n2 & E2 & F2).
      exists (n1 ++ n2). rewrite E2, E1, app_assoc. split; [done | by apply Forall_app].
Qed.

Lemma frozen_fields c c' : frozen c' = frozen c ->
  ctx_skill c' = ctx_skill c /\ ctx_request c' = ctx_request c
  /\ ctx_foreach_depth c' = ctx_foreach_depth c /\ ctx_approvals c' = ctx_approvals c
  /\ ctx_writes c' = ctx_writes c /\ ctx_idempotency c' = ctx_idempotency c
  /\ ctx_checkpoint c' = ctx_checkpoint c /\ ctx_input_values c' = ctx_input_values c
  /\ ctx_context_values c' = ctx_context_values c.
Proof.
  intros H. repeat split;
    match goal with |- ?f _ = _ => exact (f_equal f H) end.
Qed.

(** A change of the context that [progress] does not see. *)
Lemma progress_quiet skill c c' : quiet_ctx c c' -> progress skill c c'.
Proof.
  intros H. unfold quiet_ctx in H.
  assert (ctx_frames c' = ctx_frames c) as Ef by exact (f_equal ctx_frames H).
  assert (ctx_check_frames c' = ctx_check_frames c) as Ecf by exact (f_equal ctx_check_frames H).
  assert (ctx_resources (masked c') = ctx_resources (masked c)) as Er
    by exact (f_equal ctx_resources H).
  assert (frozen c' = frozen c) as Hz by exact (f_equal frozen H).
  destruct (frozen_fields c c' Hz) as (_ & _ & _ & _ & _ & _ & _ & Ei & Ec).
  cbn in Er. injection Er as E1 E2 E3.
  split; try (unfold bounded_growth; rewrite ?E1, ?E2, ?E3; lia).
  - exact Hz.
  - rewrite Ef. apply grown_refl.
  - rewrite Ecf. apply grown_refl.
  - intros s v. unfold scopes. by rewrite Ef, Ecf, Ei, Ec.
  - exact (eq_ind_r (prefix (ctx_checks c)) (reflexivity _) (f_equal ctx_checks H)).
  - exists []. rewrite app_nil_r. split; [exact (f_equal ctx_outputs H) | constructor].
Qed.

Section Scene.
Context (ports : EnginePorts) (engine : RuntimeEngine) (tools : ToolRunner).
Context (skill : SkillObject) (request : ExecutionRequest).

(** An execution of the Skill for the request, in a context with its root
    frames. *)
Definition scene (c : ExecutionContext) : Prop :=
  rooted c /\ ctx_skill c = skill /\ ctx_request c = request.

Definition keeps_ctx (c c' : ExecutionContext) : Prop := scene c -> progress skill c c'.

Definition keeps (mc mc' : Machine) : Prop :=
  scene (mc_ctx mc) ->
  progress skill (mc_ctx mc) (mc_ctx mc')
  /\ exists new, mc_calls mc' = mc_calls mc ++ new
       /\ Forall (call_allowed engine skill request) new
       /\ trail (mc_recorder mc) (mc_recorder mc') new.

Lemma grown_nonempty fs fs' : grown fs fs' -> fs <> [] -> fs' <> [].
Proof. intros (L & _ & _) H ->. by destruct fs. Qed.

Lemma scene_progress c c' : progress skill c c' -> scene c -> scene c'.
Proof.
  intros P ([H1 H2] & H3 & H4). destruct (frozen_fields c c' (pg_frozen _ _ _ P)) as (E1 & E2 & _).
  split; [split | split; congruence].
  - exact (grown_nonempty _ _ (pg_frames _ _ _ P) H1).
  - exact (grown_nonempty _ _ (pg_check_frames _ _ _ P) H2).
Qed.

#[local] Instance keeps_ctx_preorder : PreOrder keeps_ctx.
Proof.
  split; [intros c _; reflexivity |]. intros a b c H1 H2 Ha.
  transitivity b; [by apply H1 | apply H2; by eapply scene_progress; [apply H1 |]].
Qed.

#[local] Instance keeps_preorder : PreOrder keeps.
Proof.
  split.
  - intros mc _. split; [reflexivity |]. exists []. rewrite app_nil_r.
    split; [done |]. split; [constructor | by apply trail_silent].
  - intros a b c H1 H2 Ha. destruct (H1 Ha) as [P1 (n1 & E1 & F1 & T1)].
    destruct (H2 (scene_progress _ _ P1 Ha)) as [P2 (n2 & E2 & F2 & T2)].
    split; [by transitivity (mc_ctx b) |]. exists (n1 ++ n2).
    rewrite E2, E1, app_assoc. split; [done |].
    split; [by apply Forall_app | by eapply trail_trans].
Qed.

Lemma keeps_quiet {A} (m : R A) : steps quiet m -> steps keeps m.
Proof.
  apply steps_weaken. intros mc mc' [Hq (new & E & F & T)] _.
  split; [by apply progress_quiet |]. exists new. split; [exact E |]. split; [| exact T].
  eapply Forall_impl; [exact F |]. intros []; cbn; done.
Qed.

Lemma keeps_on_ctx {A} (m : X A) : steps keeps_ctx m -> steps keeps (on_ctx m).
Proof.
  apply steps_on_ctx. intros mc c' H Hs. split; [exact (H Hs) |].
  exists []. rewrite app_nil_r. split; [done |]. split; [constructor | by apply trail_silent].
Qed.

(** [keep] follows the structure of a computation, quiet parts included. *)
Ltac keep_step :=
  first
    [ apply keeps_quiet; solve [quiet_tac]
    | apply steps_bind; [apply _ | |]
    | apply steps_try; [apply _ | |]
    | match goal with |- steps _ (match ?x with _ => _ end) => destruct x end ].
Ltac keep := repeat (intros; cbv zeta; keep_step); intros; cbv zeta.

(** ** Bindings *)

Lemma insert_grown k v fs f t : fs = f :: t -> f !! k = None -> grown fs (insert_top k v fs).
Proof.
  intros -> Hk. split; [done |]. split; [done |].
  intros g g' [= <-] [= <-]. by apply insert_subseteq.
Qed.

Lemma find_frame_none_head k f t gs : find_frame k ((f :: t) ++ gs) = None -> f !! k = None.
Proof. cbn. by destruct (f !! k). Qed.

Lemma keeps_binder (b : binder) k v : b = BindLocal \/ b = BindCheck ->
  steps keeps_ctx (run_bind b k v).
Proof.
  intros Hb c (Hr & _ & _). destruct (find_frame k (scopes c)) as [w|] eqn:Hk.
  - assert (_is_bound c k = true) as Hbound.
    { apply not_false_iff_true. intros H%is_bound_spec. congruence. }
    assert ((run_bind b k v c).2 = c) as ->; [| reflexivity].
    destruct Hb as [-> | ->]; cbn [run_bind]; unfold bind, bind_check, _bind_once;
      cbv beta iota delta [mbind M_bind get fail_if lift raise_if]; by rewrite Hbound.
  - destruct (run_bind_scopes b k v c Hr Hk) as (c' & Hc & _ & Hs). rewrite Hc. cbn [snd].
    assert (forall s w, find_frame s (scopes c) = Some w -> find_frame s (scopes c') = Some w) as Hv.
    { intros s w Hw. rewrite Hs. case_decide; [congruence | done]. }
    pose proof Hk as Hk'. apply is_bound_spec in Hk'. unfold scopes in Hk.
    destruct Hr as [Hf Hcf].
    destruct Hb as [-> | ->]; cbn [run_bind] in Hc; unfold bind, bind_check, _bind_once in Hc;
      cbv beta iota delta [mbind M_bind get fail_if lift raise_if modify] in Hc;
      rewrite Hk' in Hc; injection Hc as <-; (split; [reflexivity | | | exact Hv | reflexivity
        | exists []; by rewrite app_nil_r | apply bounded_growth_refl ..]); try apply grown_refl.
    + cbn. destruct (ctx_frames c) as [|f fs] eqn:E; [done |].
      apply (insert_grown k v _ f fs eq_refl). by apply find_frame_none_head in Hk.
    + cbn. destruct (ctx_check_frames c) as [|f fs] eqn:E; [done |].
      apply (insert_grown k v _ f fs eq_refl).
      rewrite find_frame_app in Hk. destruct (find_frame k (ctx_frames c)); [done |].
      by apply find_frame_none_head in Hk.
Qed.

Lemma keeps_bind k v : steps keeps (on_ctx (bind k v)).
Proof. apply keeps_on_ctx, (keeps_binder BindLocal). by left. Qed.

Lemma keeps_bind_check k v : steps keeps (on_ctx (bind_check k v)).
Proof. apply keeps_on_ctx, (keeps_binder BindCheck). by right. Qed.

(** ** Counters *)

(** A change of the counters alone. *)
Lemma progress_meter c m n :
  bounded_growth (lim_tool_calls (sk_limits skill)) (tool_calls (ctx_resources c)) (tool_calls m) ->
  bounded_growth (lim_loop_iterations (sk_limits skill)) (loop_iterations (ctx_resources c))
    (loop_iterations m) ->
  bounded_growth (lim_emitted_rows (sk_limits skill)) (emitted_rows (ctx_resources c))
    (emitted_rows m) ->
  progress skill c (set_resources m (set_clock_reads n c)).
Proof.
  intros H1 H2 H3. split; try done; try apply grown_refl.
  exists []. by rewrite app_nil_r.
Qed.

Lemma keeps_guarded g : g <> GuardEmit -> steps keeps_ctx (run_guarded g).
Proof.
  intros Hg c (Hr & Hs & _). rewrite run_guarded_eq.
  assert (progress skill c (tick c)) as Ht by by apply progress_quiet.
  destruct (_ <=? 0)%Z; [exact Ht |].
  destruct (Z.leb_spec (limit g c) (counter g c)) as [H|H]; [exact Ht |].
  unfold limit, counter in H. rewrite Hs in H. cbn [snd].
  apply progress_meter; destruct g; try done; cbn -[Z.add];
    first [apply bounded_growth_refl | unfold bounded_growth; lia].
Qed.

Lemma keeps_before_tool_call : steps keeps (on_ctx before_tool_call).
Proof. apply keeps_on_ctx, (keeps_guarded GuardToolCall). done. Qed.

Lemma keeps_before_loop_iteration : steps keeps (on_ctx before_loop_iteration).
Proof. apply keeps_on_ctx, (keeps_guarded GuardLoopIteration). done. Qed.
(** ** READ expressions *)

(** Binding at one state, with what the first computation returned there. *)
Lemma keeps_at_bind {A B} (m : R A) (f : A -> R B) s :
  keeps s (m s).2 ->
  (forall a s', scene (mc_ctx s) -> m s = (Ok a, s') -> keeps s' (f a s').2) ->
  keeps s ((m ≫= f) s).2.
Proof.
  intros Hm Hf Hs. unfold mbind, M_bind in *. destruct (m s) as [[a|e] s1] eqn:E; [| exact (Hm Hs)].
  revert Hs. change (keeps s (f a s1).2). intros Hs.
  assert (keeps s1 (f a s1).2) as H by by apply Hf.
  revert Hs. change (keeps s (f a s1).2). transitivity s1; [exact Hm | exact H].
Qed.

Lemma keeps_bind_after {A B} (m : R A) (f : A -> R B) :
  steps keeps m ->
  (forall s a s', scene (mc_ctx s) -> m s = (Ok a, s') -> steps keeps (f a)) ->
  steps keeps (m ≫= f).
Proof.
  intros Hm Hf s. apply keeps_at_bind; [apply Hm |]. intros a s' Hs E. by apply (Hf s a s').
Qed.

(** What [read_target] finds. *)
Definition target_ok (t : RequiredTool * ToolContract * AuthorizationDecision) : Prop :=
  t.1.1 ∈ sk_required_tools skill
  /\ catalog_resolve (tool_catalog engine) (rt_tool_id t.1.1) (rt_version t.1.1) = Ok t.1.2
  /\ rt_required_scope t.1.1 ∈ pr_scopes (rq_principal request).

Lemma read_target_ok ref names s t s' : scene (mc_ctx s) ->
  read_target ports engine ref names s = (Ok t, s') -> target_ok t.
Proof.
  intros (_ & Hsk & Hrq) H. unfold read_target in H.
  apply M_bind_Ok in H as (c & s1 & [= <- <-] & H). rewrite Hsk, Hrq in H.
  apply M_bind_Ok in H as (required & s2 & Hreq & H).
  destruct (find _ (sk_required_tools skill)) as [rt|] eqn:Hfind; [| discriminate Hreq].
  injection Hreq as <- <-. apply find_some in Hfind as [Hin _].
  apply M_bind_Ok in H as (contract & s3 & Hc & H). injection Hc as Hc <-.
  apply M_bind_Ok in H as ([] & s4 & _ & H).
  apply M_bind_Ok in H as (d & s5 & Hd & H). injection H as <- <-.
  split; [by apply list_elem_of_In |]. split; [exact Hc |]. cbn [fst].
  unfold on_calls, authorize_at in Hd.
  destruct (authorize _ _ _ _ _ _) as [d'|e] eqn:Ha; [| discriminate Hd].
  apply authorize_Ok in Ha as (_ & _ & _ & Hsub & _). set_solver.
Qed.

Context (Hrunner : runner ports tools).

Lemma keeps_call c {A} (answer : history -> result A) :
  call_allowed engine skill request c -> accepted_event c = None ->
  steps keeps (call_port answer c).
Proof.
  intros Hc Ha mc _. split; [reflexivity |]. exists [c]. split; [done |].
  split; [by constructor |]. apply trail_silent. cbn. by rewrite Ha.
Qed.

Lemma keeps_runner call timeout :
  call_allowed engine skill request (CallTool call timeout) -> steps keeps (tools call timeout).
Proof.
  intros Hc. destruct Hrunner; [by apply keeps_call |]. unfold measuring_execute.
  pose proof @quiet_call_port. keep. by apply keeps_call.
Qed.

Lemma keeps_call_tool call contract policy timeout :
  (validate_request call contract = Ok tt ->
   call_allowed engine skill request (CallTool call timeout)) ->
  steps keeps (call_tool tools call contract policy timeout).
Proof.
  intros Hc. unfold call_tool. apply keeps_bind_after; [apply keeps_quiet; quiet_tac |].
  intros s [] s' _ [= Hv _]. specialize (Hc Hv). unfold execute_with_timeout. keep.
  by apply keeps_runner.
Qed.

Lemma keeps_perform_read node policy target arguments : target_ok target ->
  steps keeps (perform_read ports tools node policy target.1.1 target.1.2 target.2 arguments).
Proof.
  intros (Hin & Hcat & Hscope). unfold perform_read.
  apply steps_bind; [apply _ | apply keeps_before_tool_call | intros _].
  do 3 (apply steps_bind; [apply _ | apply keeps_quiet; quiet_tac | intros; cbv zeta]).
  apply keeps_bind_after; [apply keeps_quiet; quiet_tac |].
  intros s c s' (_ & _ & Hrq) [= <- <-]. cbv zeta. rewrite Hrq.
  apply steps_bind; [apply _ | apply keeps_quiet; quiet_tac | intros remaining].
  apply steps_bind; [apply _ | | intros; apply keeps_quiet; quiet_tac].
  apply steps_try; [apply _ | | intros; apply keeps_quiet; auto with quiet].
  apply keeps_call_tool. intros Hv. exists target.1.1, target.1.2.
  repeat (split; [done |]). lia.
Qed.

(** ** Expressions *)

Lemma keeps_evaluated e m : steps keeps m -> steps keeps (evaluated e m).
Proof. intros Hm. unfold evaluated. destruct e; keep; exact Hm. Qed.

Lemma evaluated_type e m s v s' :
  evaluated e m s = (Ok v, s') -> ve_type_info v = expr_type_info e.
Proof.
  intros H. unfold evaluated in H. destruct e; try discriminate H;
    (apply M_bind_Ok in H as (r & s1 & _ & H); apply M_bind_Ok in H as ([] & s2 & Ht & H);
     match type of Ht with (if ?b then _ else _) _ = _ => destruct b eqn:E end;
     [apply bool_decide_eq_true in E | discriminate Ht];
     do 3 (apply M_bind_Ok in H as (? & ? & _ & H)); injection H as <- _; exact E).
Qed.

Lemma keeps_evaluate_ir e : steps keeps (_evaluate_ir ports engine tools e).
Proof.
  induction e as [n v t|n s t|n src f t IH|n src f t IH|n f args t IH|n op l r t IHl IHr
                 |n tool args t p IH|n tool args a t IH] using Expression_rect';
    cbn [_evaluate_ir].
  - apply keeps_quiet. quiet_tac.
  - apply keeps_quiet. quiet_tac.
  - apply steps_bind; [apply _ | by apply keeps_evaluated |].
    intros. apply keeps_quiet. quiet_tac.
  - apply steps_bind; [apply _ | by apply keeps_evaluated |].
    intros. apply keeps_quiet. quiet_tac.
  - apply steps_bind; [apply _ | | intros; apply keeps_quiet; quiet_tac].
    apply steps_map; [apply _ |]. eapply Forall_impl; [exact IH |].
    intros e He. by apply keeps_evaluated.
  - apply steps_bind; [apply _ | by apply keeps_evaluated | intros lv].
    apply steps_bind; [apply _ | by apply keeps_evaluated |].
    intros. apply keeps_quiet. quiet_tac.
  - apply keeps_bind_after; [apply keeps_quiet; quiet_tac |].
    intros s target s' Hs Ht. apply (read_target_ok _ _ _ _ _ Hs) in Ht.
    apply steps_bind; [apply _ | | intros; by apply keeps_perform_read].
    apply steps_map; [apply _ |]. eapply Forall_impl; [exact IH |]. intros a Ha.
    apply steps_bind; [apply _ | by apply keeps_evaluated |].
    intros. apply keeps_quiet. quiet_tac.
  - apply keeps_quiet. quiet_tac.
Qed.

Lemma keeps_evaluate e : steps keeps (_evaluate ports engine tools e).
Proof. apply keeps_evaluated, keeps_evaluate_ir. Qed.
(** ** Statements *)

Lemma keeps_execute_check c : steps keeps (_execute_check ports engine tools c).
Proof.
  unfold _execute_check. apply steps_bind; [apply _ | apply keeps_evaluate | intros p].
  apply steps_bind; [apply _ | apply keeps_quiet; quiet_tac | intros check].
  apply steps_bind; [apply _ | | intros _].
  - apply keeps_on_ctx. intros c0 _. split; try done; try apply grown_refl;
      try apply bounded_growth_refl; [by eexists | exists []; by rewrite app_nil_r].
  - apply steps_bind; [apply _ | apply keeps_bind_check | intros; apply keeps_quiet; quiet_tac].
Qed.

(** A field that was evaluated fits its declaration. *)
Lemma emit_field_fits outputs f s y s' :
  emit_field ports engine tools outputs f s = (Ok y, s') ->
  exists o, find (fun o => String.eqb (out_name o) f.1) outputs = Some o /\ fits o y.
Proof.
  destruct f as [name e]. unfold emit_field. intros H.
  apply M_bind_Ok in H as (o & s1 & Ho & H). cbn [fst].
  destruct (find _ outputs) as [o'|] eqn:Hf; [| discriminate Ho]. injection Ho as <- <-.
  exists o'. split; [done |].
  apply M_bind_Ok in H as ([] & s2 & Ht & H). injection Ht as Ht _.
  apply raise_if_Ok, negb_false_iff, bool_decide_eq_true in Ht.
  apply M_bind_Ok in H as (v & s3 & Hv & H). apply evaluated_type in Hv.
  apply M_bind_Ok in H as ([] & s4 & Hr & H). injection Hr as Hr _.
  apply raise_if_Ok, negb_false_iff in Hr.
  apply M_bind_Ok in H as ([] & s5 & Hc & H). injection Hc as Hc _.
  apply raise_if_Ok, negb_false_iff in Hc. injection H as <- _.
  apply find_some in Hf as [_ Hn%String.eqb_eq]. repeat split; cbn; congruence.
Qed.

Lemma find_declared outputs o o' : NoDup (map out_name outputs) -> o ∈ outputs ->
  find (fun x => String.eqb (out_name x) (out_name o)) outputs = Some o' -> o' = o.
Proof.
  intros Hn Hin Hf. apply find_some in Hf as [Hin' Heq%String.eqb_eq].
  apply list_elem_of_In in Hin'.
  apply list_elem_of_lookup in Hin as (i & Hi). apply list_elem_of_lookup in Hin' as (j & Hj).
  assert (j = i) as ->; [| congruence].
  apply (NoDup_lookup _ j i (out_name o) Hn); rewrite list_lookup_fmap;
    [rewrite Hj | rewrite Hi]; cbn; congruence.
Qed.

Lemma output_fields_fit outputs evaluated fields :
  NoDup (map out_name outputs) ->
  Forall (fun y => exists o, find (fun o => String.eqb (out_name o) y.1) outputs = Some o
                             /\ fits o y) evaluated ->
  output_fields outputs evaluated = Ok fields -> Forall2 fits outputs fields.
Proof.
  intros Hn Hev H. unfold output_fields in H. apply map_result_Ok in H.
  assert (forall o, o ∈ outputs -> forall y,
    match assoc (out_name o) evaluated with
    | Some v => Ok (out_name o, v) | None => raise KeyError (out_name o) end = Ok y ->
    fits o y) as Hfit.
  { intros o Ho y Hy. destruct (assoc (out_name o) evaluated) as [v|] eqn:Ha; [| discriminate Hy].
    apply Ok_inj in Hy as <-. apply assoc_elem in Ha.
    destruct (proj1 (Forall_forall _ _) Hev _ Ha) as (o' & Hf & Hfits).
    cbn [fst] in Hf. by rewrite (find_declared outputs o o' Hn Ho Hf) in Hfits. }
  clear Hn Hev. revert Hfit. induction H as [|o y os ys Hy _ IH]; intros Hfit; constructor.
  - apply (Hfit o); [left | exact Hy].
  - apply IH. intros o' Ho'. apply Hfit. by right.
Qed.

(** Evaluating expressions emits nothing. *)
Lemma fields_emit_nothing outputs fields mc :
  (emitted_rows (ctx_resources (mc_ctx
     (map_M (emit_field ports engine tools outputs) fields mc).2))
   <= emitted_rows (ctx_resources (mc_ctx mc)))%Z.
Proof.
  pose (w := MkWeights 0 0 1 0).
  assert (pays (measure w) (per_read w * sum_by (fun f => _expression_tool_calls f.2) fields)
            (map_M (emit_field ports engine tools outputs) fields)) as H.
  { apply cost_arguments with (expr := snd); [done |]. apply Forall_forall. intros f _.
    apply cost_emit_field; try done.
    intros r t. by apply cost_runner with (ports := ports). }
  specialize (H mc). unfold measure, weigh, per_read, w in H. cbn -[map_M Z.mul] in H. lia.
Qed.

Lemma before_emit_limit mc mc' : scene (mc_ctx mc) -> on_ctx before_emit mc = (Ok tt, mc') ->
  (emitted_rows (ctx_resources (mc_ctx mc')) < lim_emitted_rows (sk_limits skill))%Z.
Proof.
  intros (_ & Hs & _). unfold on_ctx, before_emit, mbind, M_bind. rewrite check_deadline_eq.
  destruct (_ <=? 0)%Z; [discriminate |]. cbn -[Z.leb Z.add]. rewrite Hs.
  destruct (Z.leb_spec (lim_emitted_rows (sk_limits skill))
              (emitted_rows (ctx_resources (mc_ctx mc)))); [discriminate |].
  intros [= <-]. exact H.
Qed.

(** The record is stored and counted. *)
Definition stored (record : EmitRecord) (mc : Machine) : Machine :=
  (on_ctx record_emit (MkMachine (set_outputs (ctx_outputs (mc_ctx mc) ++ [record]) (mc_ctx mc))
     (mc_recorder mc) (mc_calls mc))).2.

Lemma keeps_stored record mc : record_fits skill record ->
  (emitted_rows (ctx_resources (mc_ctx mc)) < lim_emitted_rows (sk_limits skill))%Z ->
  keeps mc (stored record mc).
Proof.
  intros Hr Hlt _. split; [| exists []; rewrite app_nil_r; split; [done |];
    split; [constructor | by apply trail_silent]].
  split; try done; try apply grown_refl; try apply bounded_growth_refl.
  - exists [record]. split; [done | by repeat constructor].
  - unfold bounded_growth. cbn -[Z.add]. lia.
Qed.

Lemma keeps_execute_emit n fields : steps keeps (_execute_emit ports engine tools n fields).
Proof.
  intros mc. unfold _execute_emit.
  apply keeps_at_bind; [apply keeps_quiet; quiet_tac |]. intros [] s1 Hs0 Hbefore Hs1.
  pose proof (before_emit_limit _ _ Hs0 Hbefore) as Hlt. revert Hs1.
  apply (keeps_at_bind ctx _ s1); [apply keeps_quiet; quiet_tac |].
  intros c s2 (_ & Hsk & _) [= <- <-]. cbv zeta. rewrite Hsk.
  apply keeps_at_bind; [apply keeps_quiet; quiet_tac |]. intros [] s3 _ Hchk.
  injection Hchk as Hchk <-. apply raise_if_Ok in Hchk.
  do 3 apply orb_false_iff in Hchk as [Hchk _].
  apply negb_false_iff, no_duplicates_true in Hchk.
  apply keeps_at_bind.
  { apply steps_map; [apply _ |]. apply Forall_forall. intros [name e] _. unfold emit_field.
    keep. apply keeps_evaluate. }
  intros evaluated s4 _ Hev. pose proof (fields_emit_nothing (sk_outputs skill) fields s1) as Hle.
  rewrite Hev in Hle. cbn [snd] in Hle. apply map_M_Ok in Hev.
  assert (Forall (fun y => exists o,
      find (fun o => String.eqb (out_name o) y.1) (sk_outputs skill) = Some o /\ fits o y)
    evaluated) as Hfits.
  { induction Hev as [|f y fs ys (s & s' & Hy) _ IH]; constructor; [| apply IH; assumption].
    destruct (emit_field_fits _ _ _ _ _ Hy) as (o & Hf & Ho). exists o. split; [| exact Ho].
    destruct Ho as (-> & _). pose proof Hf as Hf'. apply find_some in Hf' as [_ ->%String.eqb_eq].
    exact Hf. }
  apply keeps_at_bind; [apply keeps_quiet; quiet_tac |]. intros rf s5 _ [= Hrf <-].
  apply keeps_at_bind; [apply keeps_quiet; quiet_tac |]. intros record s6 _ [= Hrec <-].
  unfold new_EmitRecord in Hrec. inv_result.
  match goal with |- keeps s4 ((_ ≫= ?k) s4).2 => idtac end.
  transitivity (stored (MkEmitRecord rf) s4).
  { apply keeps_stored; [| lia]. by apply (output_fields_fit _ evaluated). }
  match goal with |- keeps _ ((update ?f ≫= fun _ => on_ctx record_emit ≫= ?k) s4).2 =>
    change (keeps (stored (MkEmitRecord rf) s4) (k tt (stored (MkEmitRecord rf) s4)).2) end.
  apply keeps_quiet. cbv zeta. quiet_tac.
Qed.
(** A scope: what runs between [push_frame] and [pop_frame] leaves the frames
    as they were. *)
Lemma progress_scope c c2 :
  scene c ->
  let c1 := set_check_frames (∅ :: ctx_check_frames c) (set_frames (∅ :: ctx_frames c) c) in
  progress skill c1 c2 ->
  exists c3, pop_frame c2 = (Ok tt, c3) /\ progress skill c c3.
Proof.
  intros ([Hf Hcf] & _) c1 P.
  destruct (pg_frames _ _ _ P) as (Lf & Tf & _). destruct (pg_check_frames _ _ _ P) as (Lc & Tc & _).
  cbn in Lf, Tf, Lc, Tc.
  destruct (frozen_fields _ _ (pg_frozen _ _ _ P)) as (_ & _ & _ & _ & _ & _ & _ & Ei & Ec).
  unfold pop_frame. cbv beta iota delta [mbind M_bind get fail_if lift modify].
  rewrite Lf, Lc. destruct (ctx_frames c) as [|f fs] eqn:Ef; [done |].
  destruct (ctx_check_frames c) as [|g gs] eqn:Eg; [done |]. cbn [length Nat.eqb orb raise_if].
  eexists. split; [reflexivity |].
  assert (forall s, find_frame s (scopes (set_check_frames (tail (ctx_check_frames c2))
            (set_frames (tail (ctx_frames c2)) c2))) = find_frame s (scopes c)) as Hv.
  { intros s. unfold scopes. cbn. rewrite Tf, Tc, Ef, Eg, Ei, Ec. reflexivity. }
  split.
  - exact (pg_frozen _ _ _ P).
  - cbn. rewrite Tf, Ef. apply grown_refl.
  - cbn. rewrite Tc, Eg. apply grown_refl.
  - intros s v. by rewrite Hv.
  - exact (pg_checks _ _ _ P).
  - exact (pg_outputs _ _ _ P).
  - exact (pg_tool_calls _ _ _ P).
  - exact (pg_loop_iterations _ _ _ P).
  - exact (pg_emitted_rows _ _ _ P).
Qed.

Lemma keeps_scope (m : R unit) : steps keeps m ->
  steps keeps (_ ← on_ctx push_frame; try_finally m (on_ctx pop_frame)).
Proof.
  intros Hm mc Hs.
  pose (mc1 := (on_ctx push_frame mc).2).
  change (progress skill (mc_ctx mc) (mc_ctx (try_finally m (on_ctx pop_frame) mc1).2)
    /\ exists new, mc_calls (try_finally m (on_ctx pop_frame) mc1).2 = mc_calls mc ++ new
         /\ Forall (call_allowed engine skill request) new
         /\ trail (mc_recorder mc) (mc_recorder (try_finally m (on_ctx pop_frame) mc1).2) new).
  assert (scene (mc_ctx mc1)) as Hs1 by by destruct Hs as (_ & H2 & H3).
  destruct (Hm mc1 Hs1) as [P (new & Hc & Hf & Ht)].
  unfold try_finally. destruct (m mc1) as [r mc2] eqn:E. cbn [snd] in *.
  destruct (progress_scope (mc_ctx mc) (mc_ctx mc2) Hs P) as (c3 & Hpop & P3).
  assert (on_ctx pop_frame mc2 = (Ok tt, MkMachine c3 (mc_recorder mc2) (mc_calls mc2))) as ->.
  { unfold on_ctx. by rewrite Hpop. }
  split; [exact P3 |]. by exists new.
Qed.

Lemma keeps_iteration k coll body v : steps keeps body -> steps keeps (iteration k coll body v).
Proof.
  intros Hb. unfold iteration.
  apply steps_bind; [apply _ | apply keeps_before_loop_iteration | intros _].
  apply keeps_scope. apply steps_bind; [apply _ | apply keeps_quiet; quiet_tac | intros item].
  apply steps_bind; [apply _ | apply keeps_bind | intros _; exact Hb].
Qed.

Lemma keeps_foreach_body node k coll m body : steps keeps body ->
  steps keeps (foreach_body ports engine tools node k coll m body).
Proof.
  intros Hb. unfold foreach_body. apply steps_bind; [apply _ | apply keeps_evaluate | intros cv].
  do 3 (apply steps_bind; [apply _ | apply keeps_quiet; quiet_tac | intros]).
  apply steps_each; [apply _ |]. apply Forall_forall. intros v _. by apply keeps_iteration.
Qed.

(** The nesting depth is back to what it was, whatever happened inside. *)
Lemma keeps_nested_loop (m : R unit) : steps keeps m -> steps keeps (nested_loop m).
Proof.
  intros Hm. unfold nested_loop.
  do 2 (apply steps_bind; [apply _ | apply keeps_quiet; quiet_tac | intros]).
  intros mc Hs.
  pose (mc1 := (update (fun c => set_foreach_depth (ctx_foreach_depth c + 1) c) mc).2).
  pose (restore := update (fun c => set_foreach_depth (ctx_foreach_depth c - 1) c)).
  change (progress skill (mc_ctx mc) (mc_ctx (try_finally m restore mc1).2)
    /\ exists new, mc_calls (try_finally m restore mc1).2 = mc_calls mc ++ new
         /\ Forall (call_allowed engine skill request) new
         /\ trail (mc_recorder mc) (mc_recorder (try_finally m restore mc1).2) new).
  destruct (Hm mc1 Hs) as [P (new & Hc & Hf & Ht)].
  unfold try_finally. destruct (m mc1) as [r mc2] eqn:E. cbn -[Z.add Z.sub] in *.
  split; [| by exists new]. destruct P. split; try assumption.
  assert (ctx_foreach_depth (mc_ctx mc2) = ctx_foreach_depth (mc_ctx mc) + 1)%Z as Hd
    by exact (f_equal ctx_foreach_depth pg_frozen0).
  apply (f_equal (set_foreach_depth (ctx_foreach_depth (mc_ctx mc)))) in pg_frozen0.
  rewrite Hd. replace (ctx_foreach_depth (mc_ctx mc) + 1 - 1)%Z
    with (ctx_foreach_depth (mc_ctx mc)) by lia.
  etransitivity; [exact pg_frozen0 |]. by destruct (mc_ctx mc).
Qed.

Lemma keeps_executed s m : steps keeps m -> steps keeps (executed ports s m).
Proof.
  intros Hm. unfold executed.
  do 4 (apply steps_bind; [apply _ | apply keeps_quiet; quiet_tac | intros; cbv zeta]).
  apply steps_bind; [apply _ | exact Hm | intros; apply keeps_quiet; quiet_tac].
Qed.

Lemma keeps_execute_statement s : steps keeps (_execute_statement ports engine tools s).
Proof.
  induction s as [n target v|n it coll m body IH|c|n fields|a] using Statement_rect';
    cbn [_execute_statement]; apply keeps_executed.
  - apply steps_bind; [apply _ | apply keeps_evaluate | intros; apply keeps_bind].
  - apply keeps_nested_loop, keeps_foreach_body. by apply steps_each; [apply _ |].
  - apply keeps_execute_check.
  - apply keeps_execute_emit.
  - apply keeps_quiet. quiet_tac.
Qed.

Lemma keeps_execute_block l : steps keeps (_execute_block ports engine tools l).
Proof.
  apply steps_each; [apply _ |]. apply Forall_forall. intros s _. apply keeps_execute_statement.
Qed.
End Scene.

(** A run only adds. Whatever block is run, whatever the tools and ports
    do, and whether the block completes or raises: every symbol that was
    bound still has its value, the scopes and the loop depth are as before,
    checks and records are only appended, the counters only grow and never
    pass their limits, and nothing of the request, the approvals, the WRITE
    journal, the idempotency keys or the checkpoint state is touched. *)
Theorem block_only_extends (ports : EnginePorts) (engine : RuntimeEngine) (tools : ToolRunner)
    (body : list Statement) (mc : Machine) :
  runner ports tools -> rooted (mc_ctx mc) ->
  let c := mc_ctx mc in
  let c' := mc_ctx (_execute_block ports engine tools body mc).2 in
  let l := sk_limits (ctx_skill c) in
  (forall s v, resolve c s = Ok v -> resolve c' s = Ok v)
  /\ tail (ctx_frames c') = tail (ctx_frames c)
  /\ tail (ctx_check_frames c') = tail (ctx_check_frames c)
  /\ ctx_foreach_depth c' = ctx_foreach_depth c
  /\ ctx_checks c `prefix_of` ctx_checks c' /\ ctx_outputs c `prefix_of` ctx_outputs c'
  /\ bounded_growth (lim_tool_calls l) (tool_calls (ctx_resources c))
       (tool_calls (ctx_resources c'))
  /\ bounded_growth (lim_loop_iterations l) (loop_iterations (ctx_resources c))
       (loop_iterations (ctx_resources c'))
  /\ bounded_growth (lim_emitted_rows l) (emitted_rows (ctx_resources c))
       (emitted_rows (ctx_resources c'))
  /\ ctx_skill c' = ctx_skill c /\ ctx_request c' = ctx_request c
  /\ ctx_approvals c' = ctx_approvals c /\ ctx_writes c' = ctx_writes c
  /\ ctx_idempotency c' = ctx_idempotency c /\ ctx_checkpoint c' = ctx_checkpoint c.
Proof.
  intros Ht Hr. cbv zeta.
  destruct (keeps_execute_block ports engine tools (ctx_skill (mc_ctx mc))
    (ctx_request (mc_ctx mc)) Ht body mc) as [P _]; [done |].
  destruct (frozen_fields _ _ (pg_frozen _ _ _ P)) as (E1 & E2 & E3 & E4 & E5 & E6 & E7 & _).
  split; [intros s v; rewrite !resolve_Ok; apply (pg_visible _ _ _ P) |].
  split; [apply (pg_frames _ _ _ P) |]. split; [apply (pg_check_frames _ _ _ P) |].
  split; [exact E3 |]. split; [apply (pg_checks _ _ _ P) |].
  split; [destruct (pg_outputs _ _ _ P) as (new & -> & _); by eexists |].
  split; [apply (pg_tool_calls _ _ _ P) |]. split; [apply (pg_loop_iterations _ _ _ P) |].
  split; [apply (pg_emitted_rows _ _ _ P) |]. done.
Qed.

(** What a run emits and whom it calls is what the Skill declares: every
    record it adds has exactly the declared fields, each of the declared type
    and within the declared classification; and every tool call it makes is to
    a required tool, under its registered contract, with arguments that
    contract accepts, for the requesting principal who holds the tool's
    scope, and with a timeout within the contract's. *)
Theorem block_effects_declared (ports : EnginePorts) (engine : RuntimeEngine)
    (tools : ToolRunner) (body : list Statement) (mc : Machine) :
  runner ports tools -> rooted (mc_ctx mc) ->
  let c := mc_ctx mc in
  let mc' := (_execute_block ports engine tools body mc).2 in
  exists records calls,
    ctx_outputs (mc_ctx mc') = ctx_outputs c ++ records
    /\ Forall (record_fits (ctx_skill c)) records
    /\ mc_calls mc' = mc_calls mc ++ calls
    /\ Forall (call_allowed engine (ctx_skill c) (ctx_request c)) calls.
Proof.
  intros Ht Hr. cbv zeta.
  destruct (keeps_execute_block ports engine tools (ctx_skill (mc_ctx mc))
    (ctx_request (mc_ctx mc)) Ht body mc) as [P (calls & Hc & Hf & _)]; [done |].
  destruct (pg_outputs _ _ _ P) as (records & Ho & Hr'). by exists records, calls.
Qed.
