(* ===== verification/Checkpoints.v ===== *)
(** * Checkpoints ([src/nsl/checkpoints.py])

    An [ExecutionCheckpoint] carries the serialized state of an execution with
    the identities it is bound to and an integrity hash; the coordinator
    captures the state of a context and restores it into a new one for the
    same execution, Skill object and principal. *)

From S2P Require Import Prelude Digest Json JsonBoundary Decimal Core Decoding DataProtection.
From S2P Require Import Ir Security AuditTrail WriteRecords RuntimeModels Runtime.

Definition CHECKPOINT_SCHEMA_VERSION : Z := 1.
Definition STATE_SCHEMA_VERSION : Z := 1.

(** ** Base64 *)

Definition alphabet : text :=
  chars "ABCDEFGHIJKLMNOPQRSTUVWXYZabcdefghijklmnopqrstuvwxyz0123456789+/".

Definition b64_char (n : N) : ascii := nth (N.to_nat n) alphabet "="%char.

Definition b64_index (c : ascii) : option N :=
  (fun p => N.of_nat p.1) <$> list_find (fun d => c = d) alphabet.

Fixpoint b64encode (b : bytes) : text :=
  match b with
  | x :: y :: z :: b =>
      let '(x, y, z) := (N_of_ascii x, N_of_ascii y, N_of_ascii z) in
      b64_char (x / 4) :: b64_char (x mod 4 * 16 + y / 16)
      :: b64_char (y mod 16 * 4 + z / 64) :: b64_char (z mod 64) :: b64encode b
  | [x; y] =>
      let '(x, y) := (N_of_ascii x, N_of_ascii y) in
      [b64_char (x / 4); b64_char (x mod 4 * 16 + y / 16); b64_char (y mod 16 * 4); "="%char]
  | [x] =>
      let x := N_of_ascii x in
      [b64_char (x / 4); b64_char (x mod 4 * 16); "="%char; "="%char]
  | [] => []
  end.

(** [b64decode(s, validate=True)]: groups of four characters of the alphabet,
    the last one padded; the unused bits of the last group are ignored. *)
Fixpoint b64decode (s : text) : option bytes :=
  match s with
  | [] => Some []
  | a :: b :: c :: d :: s =>
      p ← b64_index a;
      q ← b64_index b;
      let x := ascii_of_N (p * 4 + q / 16) in
      match s with
      | [] =>
          if Ascii.eqb d "=" then
            if Ascii.eqb c "=" then Some [x]
            else r ← b64_index c; Some [x; ascii_of_N (q mod 16 * 16 + r / 4)]
          else r ← b64_index c; t ← b64_index d;
               Some [x; ascii_of_N (q mod 16 * 16 + r / 4); ascii_of_N (r mod 4 * 64 + t)]
      | _ :: _ =>
          r ← b64_index c; t ← b64_index d;
          rest ← b64decode s;
          Some (x :: ascii_of_N (q mod 16 * 16 + r / 4) :: ascii_of_N (r mod 4 * 64 + t) :: rest)
      end
  | _ => None
  end.

Example b64_texts : map (fun s => String.string_of_list_ascii (b64encode (chars s))) ["Man"; "Ma"; "M"; ""]
  = ["TWFu"; "TWE="; "TQ=="; ""].
Proof. vm_compute. reflexivity. Qed.
Example b64_refused : map (fun s => b64decode (chars s)) ["TWF"; "TQ=a"; "TQ==TWFu"; "T!Fu"; "===="]
  = replicate 5 None.
Proof. vm_compute. reflexivity. Qed.

(** ** Reading documents *)

Definition _error (path message : string) : exn := Exn CheckpointError "" (path +:+ ": " +:+ message).

Definition error {A} (path message : string) : result A := Err (_error path message).

Definition error_if (b : bool) (path message : string) : result unit :=
  if b then error path message else Ok tt.

(** [except classes: raise _error(path, message)] *)
Definition or_error {A} (r : result A) (classes : list exn_class) (path message : string)
  : result A :=
  match r with
  | Err e => if existsb (isinstance_exn (ex_class e)) classes then error path message else Err e
  | ok => ok
  end.

Definition _required_string (v : json) (path : string) : result string :=
  match v with
  | JStr s => if non_blank s then Ok s else error path "expected a non-empty string"
  | _ => error path "expected a non-empty string"
  end.

Definition _non_negative_int (v : json) (path : string) : result Z :=
  match v with
  | JInt z => if (z <? 0)%Z then error path "expected a non-negative integer" else Ok z
  | _ => error path "expected a non-negative integer"
  end.

Definition _positive_int (v : json) (path : string) : result Z :=
  z ← _non_negative_int v path;
  if (z =? 0)%Z then error path "expected a positive integer" else Ok z.

Notation fields_of := (list (string * json)).

Definition _exact_object (v : json) (fields : list string) (path : string)
  : result fields_of :=
  match v with
  | JObj d => if same_elements (map fst d) fields then Ok d else error path "invalid object schema"
  | _ => error path "invalid object schema"
  end.

(** [item[name]] for a field that is there. *)
Definition at_field (name : string) (d : fields_of) : json := default JNull (assoc name d).

Fixpoint string_map_items (path : string) (d : fields_of) : result (list (string * string)) :=
  match d with
  | [] => Ok []
  | (key, item) :: d =>
      value ← _required_string item (path +:+ "." +:+ key);
      key ← _required_string (JStr key) (path +:+ ".key");
      rest ← string_map_items path d; Ok ((key, value) :: rest)
  end.

Definition _string_map (v : json) (path : string) : result (gmap string string) :=
  match v with
  | JObj d => items ← string_map_items path d; Ok (list_to_map items)
  | _ => error path "expected an object"
  end.

Definition _optional_string (v : json) (path : string) : result (option string) :=
  match v with
  | JNull => Ok None
  | _ => s ← _required_string v path; Ok (Some s)
  end.

(** [value == z] for a decoded document and an integer: [True] is 1. *)
Definition equals_int (v : json) (z : Z) : bool :=
  match v with
  | JInt x => (x =? z)%Z
  | JBool b => (Z.b2z b =? z)%Z
  | _ => false
  end.

(** [==] of two decoded documents. *)
Fixpoint json_equal (v w : json) : bool :=
  match v, w with
  | JNull, JNull => true
  | (JBool _ | JInt _), JInt z => equals_int v z
  | (JBool _ | JInt _), JBool b => equals_int v (Z.b2z b)
  | JStr s, JStr t => String.eqb s t
  | JArr l, JArr l' =>
      (fix items (l l' : list json) : bool :=
         match l, l' with
         | [], [] => true
         | x :: l, y :: l' => json_equal x y && items l l'
         | _, _ => false
         end) l l'
  | JObj d, JObj d' =>
      (length d =? length d')
      && (fix members (d : list (string * json)) : bool :=
            match d with
            | [] => true
            | (k, x) :: d =>
                match assoc k d' with Some y => json_equal x y | None => false end && members d
            end) d
  | _, _ => false
  end.

(** The member of an enumeration with a given value. *)
Definition enum_of {A} (value_of : A -> string) (members : list A) (v : json) : result A :=
  match v with
  | JStr s => match find (fun m => String.eqb (value_of m) s) members with
              | Some m => Ok m
              | None => raise ValueError (s +:+ " is not a valid member")
              end
  | _ => raise ValueError "not a valid member"
  end.

Definition approval_status_value (s : ApprovalStatus) : string :=
  match s with
  | NOT_REQUESTED => "NOT_REQUESTED" | PENDING => "PENDING" | APPROVED => "APPROVED"
  | REJECTED => "REJECTED" | EXPIRED => "EXPIRED"
  end.

Definition verification_value (v : PrincipalVerification) : string :=
  match v with UNVERIFIED => "UNVERIFIED" | P_VERIFIED => "VERIFIED" end.

Definition read_presence : json -> result Presence := enum_of presence_value [PRESENT; EMPTY].
Definition read_completeness : json -> result Completeness :=
  enum_of completeness_value [COMPLETE; PARTIAL; C_UNKNOWN].
Definition read_check_status : json -> result CheckStatus :=
  enum_of check_status_value [PASS; FAIL; CHECK_UNKNOWN].
Definition read_classification : json -> result DataClassification :=
  enum_of classification_value [PUBLIC; INTERNAL; CONFIDENTIAL; RESTRICTED].
Definition read_approval_status : json -> result ApprovalStatus :=
  enum_of approval_status_value [NOT_REQUESTED; PENDING; APPROVED; REJECTED; EXPIRED].

(** ** The checkpoint document *)

Record ExecutionCheckpoint : Type := MkExecutionCheckpoint {
  cp_execution_id : string;
  cp_business_operation_id : string;
  cp_checkpoint_version : Z;
  cp_skill_id : string;
  cp_skill_version : string;
  cp_semantic_hash : string;
  cp_ir_version : string;
  cp_runtime_version : string;
  cp_state_payload : bytes;
  cp_integrity_hash : string
}.

Definition _integrity_material (c : ExecutionCheckpoint) : fields_of :=
  [("schema_version", JInt CHECKPOINT_SCHEMA_VERSION);
   ("execution_id", JStr (cp_execution_id c));
   ("business_operation_id", JStr (cp_business_operation_id c));
   ("checkpoint_version", JInt (cp_checkpoint_version c));
   ("skill_id", JStr (cp_skill_id c));
   ("skill_version", JStr (cp_skill_version c));
   ("semantic_hash", JStr (cp_semantic_hash c));
   ("ir_version", JStr (cp_ir_version c));
   ("runtime_version", JStr (cp_runtime_version c));
   ("state_payload", JStr (String.string_of_list_ascii (b64encode (cp_state_payload c))))].

(** The constructor on decoded fields, with the checks of [__post_init__]. *)
Definition checkpoint_from_fields (d : fields_of) (payload : bytes) : result ExecutionCheckpoint :=
  let text name := _required_string (at_field name d) ("$." +:+ name) in
  execution_id ← text "execution_id";
  business_operation_id ← text "business_operation_id";
  skill_id ← text "skill_id";
  skill_version ← text "skill_version";
  semantic_hash ← text "semantic_hash";
  ir_version ← text "ir_version";
  runtime_version ← text "runtime_version";
  version ← _positive_int (at_field "checkpoint_version" d) "$.checkpoint_version";
  integrity ← match at_field "integrity_hash" d with
              | JStr h => if (String.length h =? 71) && startswith h "sha256:" then Ok h
                          else error "$.integrity_hash" "expected a SHA-256 value"
              | _ => error "$.integrity_hash" "expected a SHA-256 value"
              end;
  Ok (MkExecutionCheckpoint execution_id business_operation_id version skill_id skill_version
        semantic_hash ir_version runtime_version payload integrity).

(** [to_data] *)
Definition checkpoint_to_data (c : ExecutionCheckpoint) : fields_of :=
  _integrity_material c ++ [("integrity_hash", JStr (cp_integrity_hash c))].

(** The constructor on values of the declared types. *)
Definition new_ExecutionCheckpoint (c : ExecutionCheckpoint) : result ExecutionCheckpoint :=
  checkpoint_from_fields (checkpoint_to_data c) (cp_state_payload c).

Definition integrity_of (c : ExecutionCheckpoint) : string :=
  sha256_ref (canonical_json (JObj (_integrity_material c))).

Definition set_integrity (h : string) (c : ExecutionCheckpoint) : ExecutionCheckpoint :=
  MkExecutionCheckpoint (cp_execution_id c) (cp_business_operation_id c) (cp_checkpoint_version c)
    (cp_skill_id c) (cp_skill_version c) (cp_semantic_hash c) (cp_ir_version c)
    (cp_runtime_version c) (cp_state_payload c) h.

(** [create]: the integrity hash of the draft is replaced. *)
Definition create_checkpoint (draft : ExecutionCheckpoint) : result ExecutionCheckpoint :=
  new_ExecutionCheckpoint (set_integrity (integrity_of draft) draft).

(** [verify] *)
Definition checkpoint_verify (c : ExecutionCheckpoint) : result unit :=
  expected ← create_checkpoint c;
  error_if (negb (String.eqb (cp_integrity_hash c) (cp_integrity_hash expected)))
    "$.integrity_hash" "checkpoint integrity mismatch".

Definition to_bytes (c : ExecutionCheckpoint) : result bytes :=
  _ ← checkpoint_verify c; Ok (canonical_json (JObj (checkpoint_to_data c))).

Definition checkpoint_fields : list string :=
  ["schema_version"; "execution_id"; "business_operation_id"; "checkpoint_version"; "skill_id";
   "skill_version"; "semantic_hash"; "ir_version"; "runtime_version"; "state_payload";
   "integrity_hash"].

Definition from_bytes (data : bytes) : result ExecutionCheckpoint :=
  document ← load_strict_json _error "checkpoint" data;
  item ← _exact_object document checkpoint_fields "$";
  _ ← error_if (negb (equals_int (at_field "schema_version" item) CHECKPOINT_SCHEMA_VERSION))
        "$.schema_version" "unsupported checkpoint schema";
  payload ← match at_field "state_payload" item with
            | JStr s => match b64decode (chars s) with
                        | Some payload => Ok payload
                        | None => error "$.state_payload" "invalid base64 payload"
                        end
            | _ => error "$.state_payload" "invalid base64 payload"
            end;
  checkpoint ← checkpoint_from_fields item payload;
  _ ← checkpoint_verify checkpoint;
  Ok checkpoint.

(** ** Envelopes, namespaces and checks *)

Definition _envelope_to_data (e : ValueEnvelope) : json :=
  JObj [("value", encode_value (ve_value e));
        ("type", type_to_data (ve_type_info e));
        ("presence", JStr (presence_value (ve_presence e)));
        ("completeness", JStr (completeness_value (ve_completeness e)));
        ("classification", JStr (classification_value (ve_classification e)));
        ("provenance_refs", JArr (map JStr (ve_provenance_refs e)))].

Definition envelope_fields : list string :=
  ["value"; "type"; "presence"; "completeness"; "classification"; "provenance_refs"].

(** A non-empty string. *)
Definition ref_of (v : json) : option string :=
  match v with JStr (String c s) => Some (String c s) | _ => None end.

Definition refs_of (l : list json) : option (list string) :=
  foldr (fun v rest => r ← ref_of v; l ← rest; Some (r :: l)) (Some []) l.

Definition _envelope_from_data (v : json) (path : string) : result ValueEnvelope :=
  item ← _exact_object v envelope_fields path;
  refs ← match at_field "provenance_refs" item with
         | JArr l => match refs_of l with
                     | Some refs => Ok refs
                     | None => error (path +:+ ".provenance_refs") "expected non-empty strings"
                     end
         | _ => error (path +:+ ".provenance_refs") "expected non-empty strings"
         end;
  or_error (value ← decode_value (at_field "value" item);
            type_info ← type_from_data (at_field "type" item);
            presence ← read_presence (at_field "presence" item);
            completeness ← read_completeness (at_field "completeness" item);
            classification ← read_classification (at_field "classification" item);
            Ok (MkValueEnvelope value type_info presence completeness classification refs))
    [KeyError; TypeError; ValueError] path "invalid ValueEnvelope".

Definition namespace_items (l : list (string * ValueEnvelope)) : fields_of :=
  map (fun e => (e.1, _envelope_to_data e.2)) l.

Definition _namespace_to_data (f : frame) : json := JObj (namespace_items (map_to_list f)).

Definition _namespace_from_data (v : json) (path : string)
  : result (list (string * ValueEnvelope)) :=
  match v with
  | JObj d => map_result (fun kv => name ← _required_string (JStr kv.1) (path +:+ ".key");
                                    e ← _envelope_from_data kv.2 (path +:+ "." +:+ kv.1);
                                    Ok (name, e)) d
  | _ => error path "expected an object"
  end.

(** A dict is read where its order does not matter. *)
Definition read_frame (v : json) (path : string) : result frame :=
  items ← _namespace_from_data v path; Ok (list_to_map items).

Definition _check_to_data (c : CheckResult) : json :=
  JObj [("check_id", JStr (cr_check_id c));
        ("status", JStr (check_status_value (cr_status c)));
        ("severity", JStr (cr_severity c));
        ("message", JStr (cr_message c));
        ("condition_node_id", JStr (cr_condition_node_id c));
        ("presence", JStr (presence_value (cr_presence c)));
        ("completeness", JStr (completeness_value (cr_completeness c)));
        ("provenance_refs", JArr (map JStr (cr_provenance_refs c)));
        ("reason_code", nullable (cr_reason_code c))].

Definition check_fields : list string :=
  ["check_id"; "status"; "severity"; "message"; "condition_node_id"; "presence"; "completeness";
   "provenance_refs"; "reason_code"].

(** [tuple(value)]: the items of a list, the keys of a dict, the characters of
    a text. *)
Definition tuple_of (v : json) : result (list json) :=
  match v with
  | JArr l => Ok l
  | JObj d => Ok (map (fun kv => JStr kv.1) d)
  | JStr s => Ok (map (fun c => JStr (String c "")) (chars s))
  | _ => raise TypeError "object is not iterable"
  end.

(** [str(value)] *)
Definition str_of (v : json) : result string :=
  match v with
  | JStr s => Ok s
  | JNull => Ok "None"
  | JBool b => Ok (if b then "True" else "False")
  | JInt z => Ok (str_of_Z z)
  | _ => raise OutOfModel "text of a container"
  end.

Definition _check_from_data (v : json) (path : string) : result CheckResult :=
  item ← _exact_object v check_fields path;
  or_error (refs ← tuple_of (at_field "provenance_refs" item);
            refs ← match refs_of refs with Some refs => Ok refs | None => raise ValueError "" end;
            check_id ← _required_string (at_field "check_id" item) (path +:+ ".check_id");
            status ← read_check_status (at_field "status" item);
            severity ← _required_string (at_field "severity" item) (path +:+ ".severity");
            message ← str_of (at_field "message" item);
            node ← _required_string (at_field "condition_node_id" item)
                     (path +:+ ".condition_node_id");
            presence ← read_presence (at_field "presence" item);
            completeness ← read_completeness (at_field "completeness" item);
            reason ← _optional_string (at_field "reason_code" item) (path +:+ ".reason_code");
            Ok (MkCheckResult check_id status severity message node presence completeness refs
                  reason))
    [TypeError; ValueError] path "invalid CheckResult".

(** ** The state *)

Definition principal_to_data (p : ExecutionPrincipal) : json :=
  JObj [("tenant_id", JStr (pr_tenant_id p));
        ("subject_id", JStr (pr_subject_id p));
        ("actor_type", JStr (pr_actor_type p));
        ("roles", JArr (map JStr (sort_strings (elements (pr_roles p)))));
        ("scopes", JArr (map JStr (sort_strings (elements (pr_scopes p)))));
        ("auth_context_ref", JStr (pr_auth_context_ref p));
        ("verification", JStr (verification_value (pr_verification p)));
        ("on_behalf_of", nullable (pr_on_behalf_of p))].

Definition policy_to_data (p : DataHandlingPolicy) : json :=
  JObj [("max_trace_classification", JStr (classification_value (max_trace_classification p)));
        ("snapshot_retention_days", JInt (snapshot_retention_days p));
        ("audit_retention_days", JInt (audit_retention_days p))].

Definition security_to_data (s : ExecutionSecurityContext) : json :=
  JObj [("principal", principal_to_data (sc_principal s));
        ("data_policy", policy_to_data (sc_data_policy s))].

Definition text_map (m : gmap string string) : json :=
  JObj (map (fun kv => (kv.1, JStr kv.2)) (map_to_list m)).

(** The frames of the source, the outermost one first. *)
Definition frames_to_data (fs : list frame) : json := JArr (map _namespace_to_data (rev fs)).

Definition symbols_to_data (c : ExecutionContext) : json :=
  JObj [("inputs", _namespace_to_data (ctx_input_values c));
        ("contexts", _namespace_to_data (ctx_context_values c));
        ("frames", frames_to_data (ctx_frames c));
        ("check_frames", frames_to_data (ctx_check_frames c))].

Definition resources_to_data (m : _ResourceMeter) : json :=
  JObj [("tool_calls", JInt (tool_calls m));
        ("loop_iterations", JInt (loop_iterations m));
        ("emitted_rows", JInt (emitted_rows m));
        ("max_collection_size_seen", JInt (max_collection_size_seen m))].

Definition execution_to_data (c : ExecutionContext) : json :=
  JObj [("data_completeness", JStr (completeness_value (ctx_data_completeness c)));
        ("invocation_counter", JInt (ctx_invocation_counter c));
        ("foreach_depth", JInt (ctx_foreach_depth c));
        ("current_node_id", nullable (ctx_current_node_id c))].

Definition approvals_to_data (m : gmap string ApprovalStatus) : json :=
  JObj (map (fun kv => (kv.1, JStr (approval_status_value kv.2))) (map_to_list m)).

Definition idempotency_to_data (s : IdempotencyState) : json :=
  JObj [("keys_by_write_node", text_map (keys_by_write_node s));
        ("payload_hashes_by_write_node", text_map (payload_hashes_by_write_node s))].

Definition checkpoint_state_to_data (version : Z) (s : CheckpointState) : json :=
  JObj [("checkpoint_version", JInt version);
        ("last_completed_node_id", nullable (ck_last_completed_node_id s));
        ("suspended_at_node_id", nullable (ck_suspended_at_node_id s));
        ("trace_sequence", JInt (ck_trace_sequence s));
        ("approval_request_published", JBool (ck_approval_request_published s));
        ("write_request_durable", JBool (ck_write_request_durable s));
        ("approval_request_ids_by_write_node", text_map (ck_approval_request_ids_by_write_node s));
        ("write_intent_hashes_by_write_node", text_map (ck_write_intent_hashes_by_write_node s));
        ("payload_hashes_by_write_node", text_map (ck_payload_hashes_by_write_node s))].

(** The document of a state whose WRITE journal is empty. *)
Definition state_document (c : ExecutionContext) (version : Z) : json :=
  JObj [("schema_version", JInt STATE_SCHEMA_VERSION);
        ("checkpoint_version", JInt version);
        ("security", security_to_data (ctx_security_context c));
        ("symbols", symbols_to_data c);
        ("checks", JArr (map _check_to_data (ctx_checks c)));
        ("outputs", JArr (map (fun r => JObj (namespace_items (er_fields r))) (ctx_outputs c)));
        ("resources", resources_to_data (ctx_resources c));
        ("execution", execution_to_data c);
        ("approvals", approvals_to_data (ctx_approvals c));
        ("writes", JArr []);
        ("idempotency", idempotency_to_data (ctx_idempotency c));
        ("checkpoint", checkpoint_state_to_data version (ctx_checkpoint c))].

(** The entries of the WRITE journal are records, which [encode_value] leaves
    as they are and [canonical_json] refuses with a [TypeError]. *)
Definition _state_payload (c : ExecutionContext) (version : Z) : result bytes :=
  match ctx_writes c with
  | [] => Ok (canonical_json (state_document c version))
  | _ :: _ => error "$.state_payload" "state is not serializable"
  end.

(** ** The coordinator *)

Section CheckpointCoordinator.
Context (runtime_version : string).

Definition set_checkpoint_version (v : Z) (s : CheckpointState) : CheckpointState :=
  MkCheckpointState v (ck_last_completed_node_id s) (ck_suspended_at_node_id s)
    (ck_trace_sequence s) (ck_approval_request_published s) (ck_write_request_durable s)
    (ck_approval_request_ids_by_write_node s) (ck_write_intent_hashes_by_write_node s)
    (ck_payload_hashes_by_write_node s).

(** [capture] *)
Definition capture : X ExecutionCheckpoint :=
  c ← get;
  match ctx_business_operation_id c with
  | None => lift (error "$.business_operation_id"
                    "checkpoint requires a business operation identity")
  | Some business_operation_id =>
      let next_version := (ck_checkpoint_version (ctx_checkpoint c) + 1)%Z in
      state_payload ← lift (_state_payload c next_version);
      checkpoint ← lift (create_checkpoint
        (MkExecutionCheckpoint (ctx_execution_id c) business_operation_id next_version
           (sk_skill_id (ctx_skill c)) (sk_skill_version (ctx_skill c))
           (sk_semantic_hash (ctx_skill c)) (sk_ir_version (ctx_skill c)) runtime_version
           state_payload ""));
      _ ← modify (update_checkpoint (set_checkpoint_version next_version));
      mret checkpoint
  end.

(** [_validate_bindings] *)
Definition _validate_bindings (c : ExecutionCheckpoint) (skill : SkillObject)
    (request : ExecutionRequest) : result unit :=
  each (fun b : string * bool => error_if (negb b.2) ("$." +:+ b.1) "checkpoint binding mismatch")
    [("execution_id", String.eqb (cp_execution_id c) (rq_execution_id request));
     ("business_operation_id",
      bool_decide (Some (cp_business_operation_id c) = rq_business_operation_id request));
     ("skill_id", String.eqb (cp_skill_id c) (sk_skill_id skill));
     ("skill_version", String.eqb (cp_skill_version c) (sk_skill_version skill));
     ("semantic_hash", String.eqb (cp_semantic_hash c) (sk_semantic_hash skill));
     ("ir_version", String.eqb (cp_ir_version c) (sk_ir_version skill));
     ("runtime_version", String.eqb (cp_runtime_version c) runtime_version)].

Definition _validate_security (v : json) (request : ExecutionRequest) : result unit :=
  security ← _exact_object v ["principal"; "data_policy"] "$.security";
  error_if (negb (json_equal (JObj security) (security_to_data (request_security_context request))))
    "$.security" "security context binding mismatch".

Definition state_fields : list string :=
  ["schema_version"; "checkpoint_version"; "security"; "symbols"; "checks"; "outputs"; "resources";
   "execution"; "approvals"; "writes"; "idempotency"; "checkpoint"].

Definition _decode_state (v : json) (c : ExecutionCheckpoint) (request : ExecutionRequest)
  : result fields_of :=
  state ← _exact_object v state_fields "$";
  _ ← error_if (negb (equals_int (at_field "schema_version" state) STATE_SCHEMA_VERSION))
        "$.schema_version" "unsupported state schema";
  _ ← error_if (negb (equals_int (at_field "checkpoint_version" state) (cp_checkpoint_version c)))
        "$.checkpoint_version" "checkpoint binding mismatch";
  _ ← _validate_security (at_field "security" state) request;
  Ok state.

(** [[f(item, path[index]) for index, item in enumerate(items)]] *)
Fixpoint read_items {A} (f : json -> string -> result A) (path : string) (index : nat)
    (items : list json) : result (list A) :=
  match items with
  | [] => Ok []
  | item :: items =>
      x ← f item (path +:+ "[" +:+ str_of_nat index +:+ "]");
      xs ← read_items f path (S index) items; Ok (x :: xs)
  end.

Definition restore_symbols (v : json) (ctx : ExecutionContext) : result ExecutionContext :=
  symbols ← _exact_object v ["inputs"; "contexts"; "frames"; "check_frames"] "$.symbols";
  frames ← match at_field "frames" symbols with
           | JArr (x :: l) => Ok (x :: l)
           | _ => error "$.symbols.frames" "expected a non-empty array"
           end;
  check_frames ← match at_field "check_frames" symbols with
                 | JArr l => if length l =? length frames then Ok l
                             else error "$.symbols.check_frames" "frame depth mismatch"
                 | _ => error "$.symbols.check_frames" "frame depth mismatch"
                 end;
  inputs ← read_frame (at_field "inputs" symbols) "$.symbols.inputs";
  contexts ← read_frame (at_field "contexts" symbols) "$.symbols.contexts";
  frames ← read_items read_frame "$.symbols.frames" 0 frames;
  check_frames ← read_items read_frame "$.symbols.check_frames" 0 check_frames;
  Ok (set_check_frames (rev check_frames) (set_frames (rev frames)
        (set_context_values contexts (set_input_values inputs ctx)))).

Definition read_record (v : json) (path : string) : result EmitRecord :=
  fields ← _namespace_from_data v path; new_EmitRecord fields.

Definition restore_records (checks outputs : json) (ctx : ExecutionContext)
  : result ExecutionContext :=
  match checks, outputs with
  | JArr checks, JArr outputs =>
      checks ← read_items _check_from_data "$.checks" 0 checks;
      outputs ← read_items read_record "$.outputs" 0 outputs;
      Ok (set_outputs outputs (set_checks checks ctx))
  | _, _ => error "$" "checks and outputs must be arrays"
  end.

(** The fields are set in the order of the document. *)
Definition restore_resources (v : json) (ctx : ExecutionContext) : result ExecutionContext :=
  resources ← _exact_object v
    ["tool_calls"; "loop_iterations"; "emitted_rows"; "max_collection_size_seen"] "$.resources";
  values ← map_result (fun kv => z ← _non_negative_int kv.2 ("$.resources." +:+ kv.1);
                                 Ok (kv.1, z)) resources;
  let at_name name := default 0%Z (assoc name values) in
  Ok (set_resources (Mk_ResourceMeter (at_name "tool_calls") (at_name "loop_iterations")
                       (at_name "emitted_rows") (at_name "max_collection_size_seen")) ctx).

Definition restore_execution (v : json) (ctx : ExecutionContext) : result ExecutionContext :=
  execution ← _exact_object v
    ["data_completeness"; "invocation_counter"; "foreach_depth"; "current_node_id"] "$.execution";
  completeness ← or_error (read_completeness (at_field "data_completeness" execution))
                   [TypeError; ValueError] "$.execution.data_completeness" "invalid value";
  invocations ← _non_negative_int (at_field "invocation_counter" execution)
                  "$.execution.invocation_counter";
  depth ← _non_negative_int (at_field "foreach_depth" execution) "$.execution.foreach_depth";
  node ← _optional_string (at_field "current_node_id" execution) "$.execution.current_node_id";
  Ok (set_current_node_id node (set_foreach_depth depth (set_invocation_counter invocations
        (set_data_completeness completeness ctx)))).

Definition restore_approvals (v : json) (ctx : ExecutionContext) : result ExecutionContext :=
  match v with
  | JObj d =>
      records ← or_error (map_result (fun kv =>
                    name ← _required_string (JStr kv.1) "$.approvals.key";
                    status ← read_approval_status kv.2; Ok (name, status)) d)
                  [TypeError; ValueError] "$.approvals" "invalid approval status";
      Ok (set_approvals (list_to_map records) ctx)
  | _ => error "$.approvals" "expected an object"
  end.

(** Decoded entries of a journal are plain values, which the typed journal of
    a context cannot hold. *)
Definition restore_writes (v : json) (ctx : ExecutionContext) : result ExecutionContext :=
  writes ← or_error (decode_value v) [TypeError; ValueError] "$.writes" "invalid encoded value";
  match writes with
  | VList [] => Ok (set_writes [] ctx)
  | VList _ => raise OutOfModel "restored journal entries"
  | _ => error "$.writes" "expected an array"
  end.

Definition restore_idempotency (v : json) (ctx : ExecutionContext) : result ExecutionContext :=
  idempotency ← _exact_object v ["keys_by_write_node"; "payload_hashes_by_write_node"]
                  "$.idempotency";
  keys ← _string_map (at_field "keys_by_write_node" idempotency)
           "$.idempotency.keys_by_write_node";
  hashes ← _string_map (at_field "payload_hashes_by_write_node" idempotency)
             "$.idempotency.payload_hashes_by_write_node";
  Ok (set_idempotency (MkIdempotencyState keys hashes) ctx).

Definition checkpoint_state_fields : list string :=
  ["checkpoint_version"; "last_completed_node_id"; "suspended_at_node_id"; "trace_sequence";
   "approval_request_published"; "write_request_durable"; "approval_request_ids_by_write_node";
   "write_intent_hashes_by_write_node"; "payload_hashes_by_write_node"].

Definition read_flag (name : string) (d : fields_of) : result bool :=
  match at_field name d with
  | JBool b => Ok b
  | _ => error ("$.checkpoint." +:+ name) "expected a boolean"
  end.

Definition restore_checkpoint (v version : json) (ctx : ExecutionContext)
  : result ExecutionContext :=
  d ← _exact_object v checkpoint_state_fields "$.checkpoint";
  restored_version ← _positive_int (at_field "checkpoint_version" d)
                       "$.checkpoint.checkpoint_version";
  _ ← error_if (negb (equals_int version restored_version)) "$.checkpoint.checkpoint_version"
        "checkpoint binding mismatch";
  last ← _optional_string (at_field "last_completed_node_id" d)
           "$.checkpoint.last_completed_node_id";
  suspended ← _optional_string (at_field "suspended_at_node_id" d)
                "$.checkpoint.suspended_at_node_id";
  sequence ← _non_negative_int (at_field "trace_sequence" d) "$.checkpoint.trace_sequence";
  published ← read_flag "approval_request_published" d;
  durable ← read_flag "write_request_durable" d;
  ids ← _string_map (at_field "approval_request_ids_by_write_node" d)
          "$.checkpoint.approval_request_ids_by_write_node";
  intents ← _string_map (at_field "write_intent_hashes_by_write_node" d)
              "$.checkpoint.write_intent_hashes_by_write_node";
  hashes ← _string_map (at_field "payload_hashes_by_write_node" d)
             "$.checkpoint.payload_hashes_by_write_node";
  Ok (set_checkpoint (MkCheckpointState restored_version last suspended sequence published durable
                        ids intents hashes) ctx).

Definition _restore_state (ctx : ExecutionContext) (state : fields_of) : result ExecutionContext :=
  let section name := at_field name state in
  ctx ← restore_symbols (section "symbols") ctx;
  ctx ← restore_records (section "checks") (section "outputs") ctx;
  ctx ← restore_resources (section "resources") ctx;
  ctx ← restore_execution (section "execution") ctx;
  ctx ← restore_approvals (section "approvals") ctx;
  ctx ← restore_writes (section "writes") ctx;
  ctx ← restore_idempotency (section "idempotency") ctx;
  restore_checkpoint (section "checkpoint") (section "checkpoint_version") ctx.

(** [restore] *)
Definition restore (c : ExecutionCheckpoint) (skill : SkillObject) (request : ExecutionRequest)
    (runtime_clock : nat -> Z) : result ExecutionContext :=
  _ ← checkpoint_verify c;
  _ ← _validate_bindings c skill request;
  document ← load_strict_json _error "checkpoint state" (cp_state_payload c);
  state ← _decode_state document c request;
  ctx ← new_ExecutionContext skill request runtime_clock;
  _restore_state ctx state.
End CheckpointCoordinator.

(** ** [CheckpointedExecution] *)

Record CheckpointedExecution : Type := MkCheckpointedExecution {
  ce_result : ExecutionResult;
  ce_checkpoint : option ExecutionCheckpoint
}.

Definition CheckpointedExecution_post_init (e : CheckpointedExecution) : result unit :=
  let r := ce_result e in
  match xr_status r, ce_checkpoint e with
  | COMPLETED, None => raise ValueError "completed execution requires a checkpoint"
  | COMPLETED, Some c =>
      each (fun b : string * bool => raise_if (negb b.2) ValueError
                                       ("checkpoint " +:+ b.1 +:+ " does not match result"))
        [("execution_id", String.eqb (cp_execution_id c) (xr_execution_id r));
         ("skill_id", String.eqb (cp_skill_id c) (xr_skill_id r));
         ("skill_version", String.eqb (cp_skill_version c) (xr_skill_version r));
         ("semantic_hash", String.eqb (cp_semantic_hash c) (xr_semantic_hash r))]
  | _, None => Ok tt
  | _, Some _ => raise ValueError "only completed execution may carry a checkpoint"
  end.
