(* ===== verification/Restoration.v ===== *)
(** * Capture and restore of checkpoints: proofs

    A checkpoint is bound by its hash, survives its byte form, and restores
    the state it was captured from. *)

From S2P Require Import Prelude Digest Json JsonBoundary Decimal Core Decoding DataProtection.
From S2P Require Import Ir Security AuditTrail WriteRecords RuntimeModels Runtime Checkpoints.

(** ** Base64 *)

Lemma b64_index_char n : (n < 64)%N -> b64_index (b64_char n) = Some n.
Proof.
  intros H.
  assert (forallb (fun k => bool_decide (b64_index (b64_char (N.of_nat k)) = Some (N.of_nat k)))
            (seq 0 64) = true) as Hall by (vm_compute; reflexivity).
  rewrite forallb_forall in Hall. specialize (Hall (N.to_nat n)). rewrite N2Nat.id in Hall.
  apply (proj1 (bool_decide_eq_true _)), Hall, in_seq. lia.
Qed.

Lemma b64_char_pad n : (n < 64)%N -> Ascii.eqb (b64_char n) "=" = false.
Proof.
  intros H. destruct (Ascii.eqb_spec (b64_char n) "="); [| done].
  pose proof (b64_index_char n H) as Hi. rewrite e in Hi. discriminate Hi.
Qed.

Section Groups.
Local Open Scope N_scope.
Context (x y z : N) (Hx : x < 256) (Hy : y < 256) (Hz : z < 256).

Ltac in_Z :=
  rewrite ?N2Z.inj_lt; try apply N2Z.inj;
  rewrite ?N2Z.inj_add, ?N2Z.inj_mul, ?N2Z.inj_div, ?N2Z.inj_mod, ?N2Z.inj_add, ?N2Z.inj_mul,
    ?N2Z.inj_div, ?N2Z.inj_mod;
  assert (0 <= Z.of_N x < 256)%Z by lia; assert (0 <= Z.of_N y < 256)%Z by lia;
  assert (0 <= Z.of_N z < 256)%Z by lia; clear Hx Hy Hz;
  generalize dependent (Z.of_N x); generalize dependent (Z.of_N y);
  generalize dependent (Z.of_N z); cbn [Z.of_N]; intros; Z.div_mod_to_equations; lia.

Lemma b64_first : x / 4 * 4 + (x mod 4 * 16 + y / 16) / 16 = x.
Proof. in_Z. Qed.
Lemma b64_second : (x mod 4 * 16 + y / 16) mod 16 * 16 + (y mod 16 * 4 + z / 64) / 4 = y.
Proof. in_Z. Qed.
Lemma b64_third : (y mod 16 * 4 + z / 64) mod 4 * 64 + z mod 64 = z.
Proof. in_Z. Qed.
Lemma b64_small : x / 4 < 64 /\ x mod 4 * 16 + y / 16 < 64 /\ y mod 16 * 4 + z / 64 < 64 /\ z mod 64 < 64.
Proof. split; [| split; [| split]]; in_Z. Qed.
End Groups.

Lemma ascii_code_bound c : (N_of_ascii c < 256)%N.
Proof. apply N_ascii_bounded. Qed.

(** Encoded text of whole groups ends in no padding. *)
Lemma b64decode_encode b : b64decode (b64encode b) = Some b.
Proof.
  induction b as [[|x [|y [|z b]]] IH] using (induction_ltof1 _ (@length ascii)).
  - done.
  - cbn [b64encode b64decode].
    destruct (b64_small (N_of_ascii x) 0 0) as (H1 & H2 & _); [apply ascii_code_bound | lia..|].
    rewrite N.add_0_r in H2. rewrite !b64_index_char by done. cbn [mbind option_bind].
    rewrite !Ascii.eqb_refl. do 2 f_equal.
    pose proof (b64_first (N_of_ascii x) 0 0) as E. rewrite N.add_0_r in E.
    rewrite E by (try apply ascii_code_bound; lia). apply ascii_N_embedding.
  - cbn [b64encode b64decode].
    destruct (b64_small (N_of_ascii x) (N_of_ascii y) 0) as (H1 & H2 & H3 & _);
      [apply ascii_code_bound.. | lia |].
    rewrite N.add_0_r in H3. rewrite !b64_index_char by done. cbn [mbind option_bind].
    rewrite b64_char_pad by done. rewrite Ascii.eqb_refl.
    cbn [mbind option_bind].
    rewrite (b64_first _ _ 0) by (try apply ascii_code_bound; lia).
    pose proof (b64_second (N_of_ascii x) (N_of_ascii y) 0) as E. rewrite N.add_0_r in E.
    rewrite E by (try apply ascii_code_bound; lia). by rewrite !ascii_N_embedding.
  - destruct (b64_small (N_of_ascii x) (N_of_ascii y) (N_of_ascii z)) as (H1 & H2 & H3 & H4);
      [apply ascii_code_bound.. |].
    assert (b64decode (b64encode b) = Some b) as Hb by (apply IH; unfold ltof; cbn; lia).
    cbn [b64encode b64decode]. rewrite !b64_index_char by done. cbn [mbind option_bind].
    rewrite b64_char_pad by done.
    rewrite (b64_first _ _ (N_of_ascii z)), b64_second, (b64_third (N_of_ascii x))
      by (try apply ascii_code_bound; lia).
    rewrite !ascii_N_embedding. rewrite Hb. destruct (b64encode b) eqn:E; [| done].
    by destruct b as [|? [|? [|? ?]]].
Qed.

(** ** Reading a document whose keys were sorted *)

Lemma assoc_in {A} k (v : A) d : NoDup (map fst d) -> (k, v) ∈ d -> assoc k d = Some v.
Proof.
  induction d as [|[k' v'] d IH]; cbn [map fst assoc]; intros Hn Hi.
  - by apply elem_of_nil in Hi.
  - apply NoDup_cons in Hn as [Hk Hn]. apply elem_of_cons in Hi as [[= -> ->] | Hi].
    + by rewrite String.eqb_refl.
    + destruct (String.eqb_spec k k') as [-> |]; [| by apply IH].
      exfalso. apply Hk. apply (list_elem_of_fmap_2 fst _ _ Hi).
Qed.

Lemma assoc_none {A} k (d : list (string * A)) : k ∉ map fst d -> assoc k d = None.
Proof.
  induction d as [|[k' v'] d IH]; cbn [map fst assoc]; intros H; [done |].
  destruct (String.eqb_spec k k') as [-> |]; [exfalso; apply H; left |].
  apply IH. intros Hk. apply H. by right.
Qed.

Lemma assoc_perm {A} k (d d' : list (string * A)) :
  d ≡ₚ d' -> NoDup (map fst d) -> assoc k d = assoc k d'.
Proof.
  intros Hp Hn.
  assert (NoDup (map fst d')) as Hn' by (change (@map) with (@fmap list _); by rewrite <- Hp).
  destruct (assoc k d') as [v|] eqn:E.
  - apply assoc_in; [done |]. rewrite Hp. by apply assoc_elem.
  - apply assoc_none. change (@map) with (@fmap list _). rewrite Hp. intros Hk.
    apply list_elem_of_fmap in Hk as ([k' v] & Ek & Hk).
    cbn in Ek. subst k'. by rewrite (assoc_in _ _ _ Hn' Hk) in E.
Qed.

Definition sorted_members (d : fields_of) : fields_of :=
  sort_fields (map (fun kv => (kv.1, sorted_keys kv.2)) d).

Lemma sorted_obj d : sorted_keys (JObj d) = JObj (sorted_members d).
Proof. reflexivity. Qed.

Lemma sorted_members_perm d :
  sorted_members d ≡ₚ map (fun kv => (kv.1, sorted_keys kv.2)) d.
Proof. apply sort_fields_perm. Qed.

Lemma map_keys {A B} (f : A -> B) (d : list (string * A)) :
  map fst (map (fun kv => (kv.1, f kv.2)) d) = map fst d.
Proof. rewrite map_map. by apply map_ext. Qed.

Lemma sorted_members_keys d : map fst (sorted_members d) ≡ₚ map fst d.
Proof.
  rewrite <- (map_keys sorted_keys d). change (@map) with (@fmap list _).
  apply fmap_Permutation, sorted_members_perm.
Qed.

Lemma assoc_sorted k d : NoDup (map fst d) ->
  assoc k (sorted_members d) = sorted_keys <$> assoc k d.
Proof.
  intros Hn. rewrite <- assoc_map. apply assoc_perm; [apply sorted_members_perm |].
  by rewrite sorted_members_keys.
Qed.

Lemma exact_object_sorted d fields path : same_elements (map fst d) fields = true ->
  _exact_object (sorted_keys (JObj d)) fields path = Ok (sorted_members d).
Proof.
  intros H. rewrite sorted_obj. unfold _exact_object.
  assert (same_elements (map fst (sorted_members d)) fields = true) as ->; [| done].
  unfold same_elements in *. apply andb_prop in H as [H1 H2].
  apply bool_decide_eq_true in H1, H2. apply andb_true_intro.
  split; apply bool_decide_eq_true; by rewrite sorted_members_keys.
Qed.

Lemma at_field_sorted k d : no_duplicates (map fst d) = true ->
  at_field k (sorted_members d) = sorted_keys (at_field k d).
Proof.
  intros Hn%no_duplicates_true. unfold at_field. rewrite assoc_sorted by done.
  by destruct (assoc k d).
Qed.

Lemma json_depth_sorted v : json_depth (sorted_keys v) = json_depth v.
Proof.
  assert (forall l l' : list nat, l ≡ₚ l' -> fold_right Nat.max 0 l = fold_right Nat.max 0 l') as Hm.
  { intros l l' H. induction H; cbn; lia. }
  induction v as [| | | |l IH|d IH] using json_rect'; try done.
  - cbn [sorted_keys json_depth]. f_equal. apply Hm. rewrite map_map.
    by rewrite (map_ext_Forall _ _ IH).
  - rewrite sorted_obj. cbn [json_depth]. f_equal. apply Hm.
    change (@map) with (@fmap list _). rewrite sorted_members_perm.
    change (@fmap list _) with (@map). rewrite map_map. cbn [snd].
    by rewrite (map_ext_Forall _ _ IH).
Qed.

Lemma unique_members d : unique_keys (JObj d) = true ->
  NoDup (map fst d) /\ Forall (fun kv => unique_keys kv.2 = true) d.
Proof.
  cbn [unique_keys]. intros H. apply andb_prop in H as [H1%no_duplicates_true H2].
  split; [done |]. apply Forall_forall. intros kv Hkv.
  apply (proj1 (forallb_forall _ _) H2 kv). by apply list_elem_of_In.
Qed.

Lemma bind_ext {A B} (m : result A) (f g : A -> result B) :
  (forall a, m = Ok a -> f a = g a) -> (m ≫= f) = (m ≫= g).
Proof. intros H. destruct m; [by apply H | done]. Qed.

Lemma bind_cong {A B} (m m' : result A) (f g : A -> result B) :
  m = m' -> (forall a, m = Ok a -> f a = g a) -> (m ≫= f) = (m' ≫= g).
Proof. intros <-. apply bind_ext. Qed.

Lemma map_result_cong {A B C} (f : A -> result C) (g : B -> result C) (h : A -> B) l :
  Forall (fun x => g (h x) = f x) l -> map_result g (map h l) = map_result f l.
Proof. induction 1 as [|x l Hx _ IH]; cbn [map_result map]; [done |]. by rewrite Hx, IH. Qed.

Lemma as_str_sorted v : as_str (sorted_keys v) = as_str v.
Proof. by destruct v. Qed.

(** Type references are read by field. *)
Lemma type_from_data_sorted fuel v : unique_keys v = true ->
  type_from_data_fuel fuel (sorted_keys v) = type_from_data_fuel fuel v.
Proof.
  revert v; induction fuel as [|fuel IH]; intros v Hu; [done |]. cbn [type_from_data_fuel].
  destruct v as [| | | |l|d]; try done. rewrite sorted_obj. cbn [as_object mbind result_bind].
  apply unique_members in Hu as [Hn Hall].
  assert (forall k v, assoc k d = Some v -> unique_keys v = true) as Hin.
  { intros k v Hk%assoc_elem. by apply (proj1 (Forall_forall _ _) Hall (k, v)). }
  assert (forall k, (v ← required_field k (sorted_members d); as_str v)
                    = (v ← required_field k d; as_str v)) as Hrs.
  { intros k. unfold required_field. rewrite assoc_sorted by done.
    destruct (assoc k d); [apply as_str_sorted | done]. }
  assert (forall k, optional_str k (sorted_members d) = optional_str k d) as Hos.
  { intros k. unfold optional_str. rewrite assoc_sorted by done. by destruct (assoc k d) as [[]|]. }
  assert (forall k, optional_list k (sorted_members d)
                    = (l ← optional_list k d; Ok (map sorted_keys l))) as Hol.
  { intros k. unfold optional_list. rewrite assoc_sorted by done. by destruct (assoc k d) as [[]|]. }
  apply bind_cong; [apply Hrs | intros k _].
  apply bind_cong; [apply Hos | intros n _].
  apply bind_cong; [apply Hos | intros c _].
  apply bind_cong.
  { rewrite assoc_sorted by done. destruct (assoc "item" d) as [i|] eqn:Ei; [| done].
    cbn [fmap option_fmap option_map]. by rewrite IH by (eapply Hin; exact Ei). }
  intros i _. rewrite !Hol.
  destruct (optional_list "fields" d) as [l|e] eqn:El; [| done]. cbn [mbind result_bind].
  apply bind_cong.
  { apply map_result_cong. apply Forall_forall. intros f Hf.
    assert (unique_keys f = true) as Hfu.
    { unfold optional_list in El. destruct (assoc "fields" d) as [[| | | |l'|]|] eqn:E;
        try discriminate; injection El as <-; [| by apply elem_of_nil in Hf].
      apply Hin in E. cbn [unique_keys] in E. apply (proj1 (forallb_forall _ _) E).
      by apply list_elem_of_In. }
    destruct f as [| | | |?|o]; try done. rewrite sorted_obj. cbn [as_object mbind result_bind].
    apply unique_members in Hfu as [Hno Hao].
    unfold required_field. rewrite !assoc_sorted by done.
    apply bind_cong; [destruct (assoc "name" o); [apply as_str_sorted | done] | intros name _].
    destruct (assoc "type" o) as [t|] eqn:Et; [| done]. cbn [fmap option_fmap option_map mbind result_bind].
    by rewrite IH by (apply assoc_elem in Et; by apply (proj1 (Forall_forall _ _) Hao ("type", t))). }
  intros fs _. apply bind_cong; [| done].
  destruct (optional_list "values" d) as [vs|]; [| done]. cbn [mbind result_bind].
  apply map_result_cong, Forall_forall. intros. apply as_str_sorted.
Qed.

(** ** Values, envelopes and checks come back

    The canonical form sorts the fields of a dict; what comes back is equal as
    a dict. *)

Fixpoint sort_value (v : value) : value :=
  match v with
  | VList l => VList (map sort_value l)
  | VTuple l => VTuple (map sort_value l)
  | VDict d => VDict (sort_fields (map (fun kv => (kv.1, sort_value kv.2)) d))
  | _ => v
  end.

(** The value that is restored for a captured one. *)
Definition settle_value (v : value) : value := thaw (sort_value v).

Lemma sort_fields_map {A B} (f : A -> B) (d : list (string * A)) :
  sort_fields (map (fun kv => (kv.1, f kv.2)) d) = map (fun kv => (kv.1, f kv.2)) (sort_fields d).
Proof.
  assert (forall k v (l : list (string * A)),
            insert_field k (f v) (map (fun kv => (kv.1, f kv.2)) l)
            = map (fun kv => (kv.1, f kv.2)) (insert_field k v l)) as Hi.
  { intros k v l. induction l as [|[k' v'] l IH]; cbn; [done |].
    destruct (str_leb k k'); [done |]. cbn. by rewrite IH. }
  induction d as [|[k v] d IH]; [done |]. cbn [map fst snd].
  change (sort_fields ((k, f v) :: ?l)) with (insert_field k (f v) (sort_fields l)).
  rewrite IH, Hi. reflexivity.
Qed.

Lemma sorted_encode v : sorted_keys (encode_value v) = encode_value (sort_value v).
Proof.
  induction v as [| | | |d|m|o|d|l IH|l IH|d IH] using value_rect'; try reflexivity.
  - cbn. f_equal. rewrite !map_map. by apply map_ext_Forall.
  - cbn. f_equal. rewrite !map_map. by apply map_ext_Forall.
  - cbn [encode_value sorted_keys sort_value]. f_equal. rewrite <- sort_fields_map, !map_map.
    cbn [fst snd]. f_equal. apply map_ext_Forall. eapply Forall_impl; [exact IH |].
    intros [k v] H. by rewrite H.
Qed.

Lemma sort_value_stable v :
  unique_keys (encode_value v) = true -> value_stable v = true -> value_stable (sort_value v) = true.
Proof.
  induction v as [| | | |d|m|o|d|l IH|l IH|d IH] using value_rect'; intros Hu Hs; try done.
  1, 2: cbn in *; rewrite forallb_forall in *; intros x (v & <- & Hv)%in_map_iff;
    rewrite Forall_forall in IH; apply IH; [by apply list_elem_of_In | | by apply Hs];
    apply Hu, in_map_iff; eauto.
  apply unique_members in Hu as [Hn Hall].
  change (map fst (map _ d)) with (map fst (map (fun kv => (kv.1, encode_value kv.2)) d)) in Hn.
  rewrite map_keys in Hn. cbn [sort_value value_stable] in *. apply andb_prop in Hs as [Ht Hs].
  apply andb_true_intro. split.
  - unfold untagged in *.
    rewrite <- (assoc_perm _ _ _ (Permutation_sym (sort_fields_perm _)))
      by (rewrite map_keys; exact Hn).
    rewrite assoc_map. destruct (assoc "$type" d) as [v|]; [| done]. cbn. by destruct v.
  - rewrite (forallb_perm _ _ _ (sort_fields_perm _)). apply forallb_forall.
    intros x ([k v] & <- & Hx)%in_map_iff. cbn [snd].
    apply (proj1 (Forall_forall _ _) IH (k, v)); [by apply list_elem_of_In | |].
    + apply (proj1 (Forall_forall _ _) Hall (k, encode_value v)). apply list_elem_of_In, in_map_iff. by exists (k, v).
    + by apply (proj1 (forallb_forall _ _) Hs (k, v)).
Qed.

Lemma decode_sorted v : unique_keys (encode_value v) = true -> value_stable v = true ->
  decode_value (sorted_keys (encode_value v)) = Ok (settle_value v).
Proof. intros Hu Hs. rewrite sorted_encode. by apply decode_encoded, sort_value_stable. Qed.

Definition nonempty (s : string) : bool := negb (String.eqb s "").

Lemma forallb_map_eq {A B} (f : B -> bool) (g : A -> B) l :
  forallb f (map g l) = forallb (fun x => f (g x)) l.
Proof. induction l as [|x l IH]; [done |]. cbn. by rewrite IH. Qed.

(** Every object of the document of a type has its own fields. *)
Lemma unique_type t : unique_keys (type_to_data t) = true.
Proof.
  induction t as [k n c i fs e IHi IHfs] using TypeRef_rect'. rewrite type_to_data_doc.
  assert (forall i' , i = Some i' -> unique_keys (type_to_data i') = true) as Hi by exact IHi.
  assert (forallb (fun f => unique_keys (field_doc f)) fs = true) as Hf.
  { apply forallb_forall. intros [f t] Hf. cbn. rewrite andb_true_r.
    rewrite Forall_forall in IHfs. apply (IHfs (f, t)). by apply list_elem_of_In. }
  assert (forall l : list string, forallb unique_keys (map JStr l) = true) as Hs.
  { intros l. by induction l. }
  cbn [unique_keys]. apply andb_true_intro. split.
  { unfold type_doc. destruct fs, e, n, c, i; reflexivity. }
  unfold type_doc. rewrite !forallb_app. rewrite !andb_true_iff. repeat split.
  - by destruct n.
  - by destruct c.
  - destruct i as [i|]; [| done]. cbn. by rewrite Hi.
  - destruct fs as [|f fs]; [done |]. cbn [forallb fst snd unique_keys].
    rewrite forallb_map_eq, Hf. done.
  - destruct e as [|x e]; [done |]. cbn [forallb fst snd unique_keys]. by rewrite Hs.
Qed.

Definition envelope_ok (e : ValueEnvelope) : bool :=
  value_stable (ve_value e) && unique_keys (encode_value (ve_value e))
  && type_wf (ve_type_info e) && forallb nonempty (ve_provenance_refs e).

Definition settle_envelope (e : ValueEnvelope) : ValueEnvelope :=
  MkValueEnvelope (settle_value (ve_value e)) (ve_type_info e) (ve_presence e)
    (ve_completeness e) (ve_classification e) (ve_provenance_refs e).

Lemma refs_of_texts l : forallb nonempty l = true -> refs_of (map JStr l) = Some l.
Proof.
  induction l as [|[|c s] l IH]; cbn; [done | done |]. intros H.
  change (refs_of (map JStr l)) with (refs_of (map JStr l)) in *.
  unfold refs_of in IH. by rewrite IH.
Qed.

Lemma read_presence_value p : read_presence (JStr (presence_value p)) = Ok p.
Proof. by destruct p. Qed.
Lemma read_completeness_value c : read_completeness (JStr (completeness_value c)) = Ok c.
Proof. by destruct c. Qed.
Lemma read_check_status_value s : read_check_status (JStr (check_status_value s)) = Ok s.
Proof. by destruct s. Qed.
Lemma read_classification_value c : read_classification (JStr (classification_value c)) = Ok c.
Proof. by destruct c. Qed.
Lemma read_approval_status_value s : read_approval_status (JStr (approval_status_value s)) = Ok s.
Proof. by destruct s. Qed.

Lemma or_error_Ok {A} (r : result A) a classes path message :
  r = Ok a -> or_error r classes path message = Ok a.
Proof. by intros ->. Qed.

(** The field of an object that is written out. *)
Ltac field_value :=
  match goal with |- context [at_field ?k ?d] =>
    let v := eval lazy [at_field assoc String.eqb Ascii.eqb Bool.eqb default id from_option] in (at_field k d) in
    change (at_field k d) with v
  end.

Lemma sorted_texts l : sorted_keys (JArr (map JStr l)) = JArr (map JStr l).
Proof. cbn. by rewrite map_JStr_sorted. Qed.

(** The fields of a sorted document, as they were written. *)
Ltac read_fields :=
  rewrite ?at_field_sorted by reflexivity; repeat field_value; rewrite ?sorted_texts;
  repeat match goal with
  | |- context [sorted_keys (JStr ?s)] => change (sorted_keys (JStr s)) with (JStr s)
  | |- context [sorted_keys (JInt ?z)] => change (sorted_keys (JInt z)) with (JInt z)
  | |- context [sorted_keys (JBool ?b)] => change (sorted_keys (JBool b)) with (JBool b)
  end.

Lemma read_type t : type_wf t = true -> type_from_data (sorted_keys (type_to_data t)) = Ok t.
Proof.
  intros H. unfold type_from_data. rewrite json_depth_sorted, type_from_data_sorted by apply unique_type.
  by apply type_from_data_to_data.
Qed.

Lemma read_envelope e path : envelope_ok e = true ->
  _envelope_from_data (sorted_keys (_envelope_to_data e)) path = Ok (settle_envelope e).
Proof.
  unfold envelope_ok. intros [[[Hv Hu]%andb_prop Ht]%andb_prop Hr]%andb_prop.
  unfold _envelope_from_data, _envelope_to_data.
  eapply bind_intro; [by apply exact_object_sorted |]. read_fields.
  apply (bind_intro (ve_provenance_refs e)).
  { by rewrite refs_of_texts. }
  apply or_error_Ok.
  apply (bind_intro (settle_value (ve_value e))); [by apply decode_sorted |].
  apply (bind_intro (ve_type_info e)); [by apply read_type |].
  rewrite read_presence_value, read_completeness_value, read_classification_value. done.
Qed.

Lemma required_string_ok s path : non_blank s = true -> _required_string (JStr s) path = Ok s.
Proof. intros H. unfold _required_string. by rewrite H. Qed.

Lemma optional_string_ok o path : match o with Some s => non_blank s | None => true end = true ->
  _optional_string (sorted_keys (nullable o)) path = Ok o.
Proof. destruct o as [s|]; [| done]. intros H. cbn. by rewrite H. Qed.

Definition names_ok (l : list (string * ValueEnvelope)) : bool :=
  forallb (fun e => non_blank e.1 && envelope_ok e.2) l.

Definition settle_items (l : list (string * ValueEnvelope)) : list (string * ValueEnvelope) :=
  map (fun e => (e.1, settle_envelope e.2)) (sort_fields l).

Lemma sorted_namespace l : sorted_members (namespace_items l)
  = map (fun e => (e.1, sorted_keys (_envelope_to_data e.2))) (sort_fields l).
Proof.
  unfold sorted_members, namespace_items. rewrite map_map. cbn [fst snd].
  apply (sort_fields_map (fun e => sorted_keys (_envelope_to_data e))).
Qed.

Lemma read_namespace l path : names_ok l = true ->
  _namespace_from_data (sorted_keys (JObj (namespace_items l))) path = Ok (settle_items l).
Proof.
  intros H. rewrite sorted_obj, sorted_namespace. unfold _namespace_from_data, settle_items.
  unfold names_ok in H. rewrite <- (forallb_perm _ _ _ (sort_fields_perm l)) in H.
  apply map_result_Ok, Forall2_fmap, Forall_Forall2_diag, Forall_forall.
  intros [k e] He%list_elem_of_In. apply (proj1 (forallb_forall _ _) H) in He.
  apply andb_prop in He as [Hk He]. cbn [fst snd] in *.
  apply (bind_intro k); [by apply required_string_ok |].
  apply (bind_intro (settle_envelope e)); [by apply read_envelope | done].
Qed.

Definition frame_ok (f : frame) : bool := names_ok (map_to_list f).

Lemma settle_items_frame (f : frame) :
  list_to_map (settle_items (map_to_list f)) = settle_envelope <$> f.
Proof.
  assert (settle_items (map_to_list f) ≡ₚ map_to_list (settle_envelope <$> f)) as Hp.
  { rewrite map_to_list_fmap. unfold settle_items. change (@map) with (@fmap list _).
    rewrite sort_fields_perm. apply Permutation_refl'. apply list_fmap_ext. by intros ? [k e] _. }
  rewrite <- (list_to_map_to_list (settle_envelope <$> f)).
  apply list_to_map_proper; [| exact Hp]. rewrite Hp. apply NoDup_fst_map_to_list.
Qed.

Lemma read_frame_ok (f : frame) path : frame_ok f = true ->
  read_frame (sorted_keys (_namespace_to_data f)) path = Ok (settle_envelope <$> f).
Proof.
  intros H. eapply bind_intro; [by apply read_namespace |]. by rewrite settle_items_frame.
Qed.

Definition check_ok (c : CheckResult) : bool :=
  non_blank (cr_check_id c) && non_blank (cr_severity c) && non_blank (cr_condition_node_id c)
  && forallb nonempty (cr_provenance_refs c)
  && match cr_reason_code c with Some s => non_blank s | None => true end.

Lemma read_check c path : check_ok c = true ->
  _check_from_data (sorted_keys (_check_to_data c)) path = Ok c.
Proof.
  unfold check_ok. intros [[[[H1 H2]%andb_prop H3]%andb_prop H4]%andb_prop H5]%andb_prop.
  unfold _check_from_data, _check_to_data.
  eapply bind_intro; [by apply exact_object_sorted |]. apply or_error_Ok. read_fields.
  apply (bind_intro (map JStr (cr_provenance_refs c))); [done |].
  apply (bind_intro (cr_provenance_refs c)); [by rewrite refs_of_texts |].
  rewrite !required_string_ok, read_check_status_value, read_presence_value,
    read_completeness_value, optional_string_ok by done. by destruct c.
Qed.

Lemma read_items_ok {A B} (f : json -> string -> result B) (doc : A -> json) (g : A -> B) path l :
  (forall x path, x ∈ l -> f (doc x) path = Ok (g x)) ->
  forall i, read_items f path i (map doc l) = Ok (map g l).
Proof.
  induction l as [|x l IH]; intros H i; [done |]. cbn [map read_items].
  apply (bind_intro (g x)); [apply H; by left |].
  apply (bind_intro (map g l)); [| done]. apply IH. intros y p Hy. apply H. by right.
Qed.

Definition texts_ok (m : gmap string string) : bool :=
  forallb (fun kv => non_blank kv.1 && non_blank kv.2) (map_to_list m).

Lemma string_map_items_ok path (l : list (string * string)) :
  forallb (fun kv => non_blank kv.1 && non_blank kv.2) l = true ->
  string_map_items path (map (fun kv => (kv.1, JStr kv.2)) l) = Ok l.
Proof.
  induction l as [|[k v] l IH]; [done |]. cbn [forallb map fst snd].
  intros [[Hk Hv]%andb_prop H]%andb_prop. cbn [string_map_items].
  rewrite !required_string_ok, IH by done. done.
Qed.

Lemma read_text_map m path : texts_ok m = true -> _string_map (sorted_keys (text_map m)) path = Ok m.
Proof.
  intros H. unfold text_map. rewrite sorted_obj. unfold sorted_members. rewrite map_map. cbn [fst snd].
  change (map _ (map_to_list m))
    with (map (fun kv => (kv.1, sorted_keys (JStr kv.2))) (map_to_list m)).
  rewrite (sort_fields_map (fun s => sorted_keys (JStr s))). cbn [sorted_keys].
  unfold _string_map. rewrite string_map_items_ok.
  - cbn. f_equal. rewrite <- (list_to_map_to_list m) at 2.
    apply list_to_map_proper; [| apply sort_fields_perm].
    rewrite sort_fields_perm. apply NoDup_fst_map_to_list.
  - unfold texts_ok in H. by rewrite (forallb_perm _ _ _ (sort_fields_perm _)).
Qed.

(** ** The documents have no duplicate fields *)

Lemma unique_texts l : unique_keys (JArr (map JStr l)) = true.
Proof. by induction l. Qed.

Lemma unique_envelope e : envelope_ok e = true -> unique_keys (_envelope_to_data e) = true.
Proof.
  unfold envelope_ok. intros [[[_ Hu]%andb_prop _]%andb_prop _]%andb_prop.
  unfold _envelope_to_data. cbn [unique_keys]. cbn [forallb fst snd].
  rewrite Hu, unique_type. rewrite (unique_texts (ve_provenance_refs e)). reflexivity.
Qed.

Lemma unique_members_intro d : no_duplicates (map fst d) = true ->
  forallb (fun kv => unique_keys kv.2) d = true -> unique_keys (JObj d) = true.
Proof. intros H1 H2. cbn [unique_keys]. by rewrite H1, H2. Qed.

Lemma unique_items l : no_duplicates (map fst l) = true -> names_ok l = true ->
  unique_keys (JObj (namespace_items l)) = true.
Proof.
  intros Hn H. apply unique_members_intro.
  - unfold namespace_items. by rewrite map_keys.
  - unfold namespace_items. rewrite forallb_map_eq. apply forallb_forall. intros [k e] He.
    apply (proj1 (forallb_forall _ _) H) in He. apply andb_prop in He as [_ He].
    by apply unique_envelope.
Qed.

Lemma unique_map {A} (f : A -> json) (m : gmap string A) : (forall x, unique_keys (f x) = true) ->
  unique_keys (JObj (map (fun kv => (kv.1, f kv.2)) (map_to_list m))) = true.
Proof.
  intros Hf. apply unique_members_intro.
  - rewrite map_keys. apply no_duplicates_true, NoDup_fst_map_to_list.
  - rewrite forallb_map_eq. apply forallb_forall. intros. apply Hf.
Qed.

Lemma unique_text_map m : unique_keys (text_map m) = true.
Proof. by apply unique_map. Qed.

Lemma unique_frame (f : frame) : frame_ok f = true -> unique_keys (_namespace_to_data f) = true.
Proof. apply unique_items, no_duplicates_true, NoDup_fst_map_to_list. Qed.

Lemma unique_array {A} (doc : A -> json) l : forallb (fun x => unique_keys (doc x)) l = true ->
  unique_keys (JArr (map doc l)) = true.
Proof. intros H. cbn. by rewrite forallb_map_eq. Qed.

Lemma forallb_impl {A} (f g : A -> bool) l :
  (forall x, f x = true -> g x = true) -> forallb f l = true -> forallb g l = true.
Proof. intros H Hf. apply forallb_forall. intros x Hx. by apply H, (proj1 (forallb_forall _ _) Hf). Qed.

Lemma unique_frames fs : forallb frame_ok fs = true -> unique_keys (frames_to_data fs) = true.
Proof.
  intros H. apply unique_array. rewrite forallb_rev. revert H. apply forallb_impl, unique_frame.
Qed.

Lemma unique_nullable o : unique_keys (nullable o) = true.
Proof. by destruct o. Qed.

Lemma unique_check c : unique_keys (_check_to_data c) = true.
Proof.
  apply unique_members_intro; [reflexivity |]. cbn [forallb fst snd].
  rewrite (unique_texts (cr_provenance_refs c)), unique_nullable. reflexivity.
Qed.

Lemma unique_principal p : unique_keys (principal_to_data p) = true.
Proof.
  apply unique_members_intro; [reflexivity |]. cbn [forallb fst snd].
  rewrite !unique_texts, unique_nullable. reflexivity.
Qed.

Lemma unique_security s : unique_keys (security_to_data s) = true.
Proof.
  apply unique_members_intro; [reflexivity |]. cbn [forallb fst snd].
  by rewrite unique_principal.
Qed.

(** ** The states that come back *)

Definition record_ok (r : EmitRecord) : bool :=
  no_duplicates (map fst (er_fields r)) && names_ok (er_fields r).

Definition settle_record (r : EmitRecord) : EmitRecord := MkEmitRecord (settle_items (er_fields r)).

Definition optional_ok (o : option string) : bool :=
  match o with Some s => non_blank s | None => true end.

Definition state_ok (c : ExecutionContext) : bool :=
  frame_ok (ctx_input_values c) && frame_ok (ctx_context_values c)
  && forallb frame_ok (ctx_frames c) && forallb frame_ok (ctx_check_frames c)
  && (0 <? length (ctx_frames c)) && (length (ctx_check_frames c) =? length (ctx_frames c))
  && forallb check_ok (ctx_checks c) && forallb record_ok (ctx_outputs c)
  && forallb (fun z => 0 <=? z)%Z
       [tool_calls (ctx_resources c); loop_iterations (ctx_resources c);
        emitted_rows (ctx_resources c); max_collection_size_seen (ctx_resources c);
        ctx_invocation_counter c; ctx_foreach_depth c;
        ck_checkpoint_version (ctx_checkpoint c); ck_trace_sequence (ctx_checkpoint c)]
  && forallb optional_ok [ctx_current_node_id c; ck_last_completed_node_id (ctx_checkpoint c);
                          ck_suspended_at_node_id (ctx_checkpoint c)]
  && forallb (fun kv => non_blank kv.1) (map_to_list (ctx_approvals c))
  && forallb texts_ok
       [keys_by_write_node (ctx_idempotency c); payload_hashes_by_write_node (ctx_idempotency c);
        ck_approval_request_ids_by_write_node (ctx_checkpoint c);
        ck_write_intent_hashes_by_write_node (ctx_checkpoint c);
        ck_payload_hashes_by_write_node (ctx_checkpoint c)]
  && match ctx_writes c with [] => true | _ => false end.

(** The context a capture of [c] is restored to, with a new clock. *)
Definition restored (clock : nat -> Z) (c : ExecutionContext) : ExecutionContext :=
  MkExecutionContext (ctx_skill c) (ctx_request c) clock 1 (clock 0) (ctx_identity c)
    (ctx_security_context c) (settle_envelope <$> ctx_input_values c)
    (settle_envelope <$> ctx_context_values c)
    (map (fun f : frame => settle_envelope <$> f) (ctx_frames c))
    (map (fun f : frame => settle_envelope <$> f) (ctx_check_frames c))
    (ctx_checks c) (map settle_record (ctx_outputs c)) (ctx_resources c) (ctx_data_completeness c)
    (ctx_invocation_counter c) (ctx_foreach_depth c) (ctx_current_node_id c) (ctx_approvals c) []
    (ctx_idempotency c)
    (set_checkpoint_version (ck_checkpoint_version (ctx_checkpoint c) + 1) (ctx_checkpoint c)).

(** The state part of two contexts agrees; used section by section. *)
Section Sections.
Context (c ctx : ExecutionContext) (Hok : state_ok c = true).

Ltac parts :=
  let H := fresh in pose proof Hok as H; unfold state_ok in H; rewrite !andb_true_iff in H;
  destruct H as ((((((((((((Hin & Hcx) & Hfr) & Hcf) & Hne) & Hdep) & Hch) & Hou) & Hnn) & Hop)
                    & Hap) & Htx) & Hwr).

Lemma frames_read fs path : forallb frame_ok fs = true ->
  read_items read_frame path 0 (map sorted_keys (map _namespace_to_data (rev fs)))
  = Ok (map (fun f : frame => settle_envelope <$> f) (rev fs)).
Proof.
  intros H. rewrite map_map.
  apply (read_items_ok read_frame (fun f => sorted_keys (_namespace_to_data f))).
  intros f p Hf. apply read_frame_ok. apply (proj1 (forallb_forall _ _) H).
  apply list_elem_of_In in Hf. by apply in_rev.
Qed.

Lemma restore_symbols_ok : restore_symbols (sorted_keys (symbols_to_data c)) ctx
  = Ok (set_check_frames (map (fun f : frame => settle_envelope <$> f) (ctx_check_frames c))
          (set_frames (map (fun f : frame => settle_envelope <$> f) (ctx_frames c))
             (set_context_values (settle_envelope <$> ctx_context_values c)
                (set_input_values (settle_envelope <$> ctx_input_values c) ctx)))).
Proof.
  parts. apply Nat.ltb_lt in Hne. apply Nat.eqb_eq in Hdep.
  unfold restore_symbols, symbols_to_data.
  eapply bind_intro; [by apply exact_object_sorted |]. read_fields. unfold frames_to_data.
  cbn [sorted_keys].
  apply (bind_intro (map sorted_keys (map _namespace_to_data (rev (ctx_frames c))))).
  { destruct (map sorted_keys _) eqn:E; [| done]. apply (f_equal length) in E.
    rewrite !length_map, length_rev in E. cbn in E. lia. }
  apply (bind_intro (map sorted_keys (map _namespace_to_data (rev (ctx_check_frames c))))).
  { rewrite !length_map, !length_rev, Hdep. by rewrite Nat.eqb_refl. }
  eapply bind_intro; [by apply read_frame_ok |]. eapply bind_intro; [by apply read_frame_ok |].
  eapply bind_intro; [by apply frames_read |]. eapply bind_intro; [by apply frames_read |].
  by rewrite <- !map_rev, !rev_involutive.
Qed.

Lemma restore_records_ok :
  restore_records (sorted_keys (JArr (map _check_to_data (ctx_checks c))))
    (sorted_keys (JArr (map (fun r => JObj (namespace_items (er_fields r))) (ctx_outputs c)))) ctx
  = Ok (set_outputs (map settle_record (ctx_outputs c)) (set_checks (ctx_checks c) ctx)).
Proof.
  parts. cbn [sorted_keys restore_records]. rewrite !map_map.
  apply (bind_intro (ctx_checks c)).
  { rewrite <- (map_id (ctx_checks c)) at 2.
    apply (read_items_ok _ (fun x => sorted_keys (_check_to_data x)) (fun x => x)). intros x p Hx.
    apply read_check, (proj1 (forallb_forall _ _) Hch). by apply list_elem_of_In. }
  apply (bind_intro (map settle_record (ctx_outputs c))); [| done].
  apply (read_items_ok _ (fun r => sorted_keys (JObj (namespace_items (er_fields r))))).
  intros r p Hr%list_elem_of_In. apply (proj1 (forallb_forall _ _) Hou) in Hr.
  apply andb_prop in Hr as [_ Hn].
  apply (bind_intro (settle_items (er_fields r))); [by apply read_namespace |].
  unfold new_EmitRecord, settle_items.
  assert (forallb (fun f : string * ValueEnvelope => negb (String.eqb f.1 ""))
            (map (fun e => (e.1, settle_envelope e.2)) (sort_fields (er_fields r))) = true) as ->;
    [| done].
  rewrite forallb_map_eq. unfold names_ok in Hn.
  rewrite <- (forallb_perm _ _ _ (sort_fields_perm _)) in Hn. revert Hn. apply forallb_impl.
  intros [k e] [Hk _]%andb_prop. cbn in *. by destruct k.
Qed.
Lemma restore_resources_ok : restore_resources (sorted_keys (resources_to_data (ctx_resources c))) ctx
  = Ok (set_resources (ctx_resources c) ctx).
Proof.
  parts. destruct (ctx_resources c) as [a b d e]. cbn in Hnn. rewrite !andb_true_iff in Hnn.
  destruct Hnn as (H1 & H2 & H3 & H4 & _). apply Z.leb_le in H1, H2, H3, H4.
  assert (forall z p, (0 <= z)%Z -> _non_negative_int (JInt z) p = Ok z) as Hz.
  { intros z p Hz. cbn. by destruct (Z.ltb_spec z 0); [lia |]. }
  unfold restore_resources. eapply bind_intro; [by apply exact_object_sorted |].
  unfold sorted_members. cbn [map fst snd tool_calls loop_iterations emitted_rows
    max_collection_size_seen sorted_keys sort_fields fold_right insert_field str_leb].
  apply (bind_intro [("emitted_rows", d); ("loop_iterations", b);
                     ("max_collection_size_seen", e); ("tool_calls", a)]); [| done].
  change (sort_fields _) with
    [("emitted_rows", JInt d); ("loop_iterations", JInt b);
     ("max_collection_size_seen", JInt e); ("tool_calls", JInt a)].
  apply map_result_Ok. repeat constructor; cbn [fst snd]; by rewrite Hz.
Qed.

Lemma non_negative_ok z path : (0 <=? z)%Z = true -> _non_negative_int (JInt z) path = Ok z.
Proof. intros H%Z.leb_le. cbn. by destruct (Z.ltb_spec z 0); [lia |]. Qed.

Lemma restore_execution_ok : restore_execution (sorted_keys (execution_to_data c)) ctx
  = Ok (set_current_node_id (ctx_current_node_id c) (set_foreach_depth (ctx_foreach_depth c)
          (set_invocation_counter (ctx_invocation_counter c)
             (set_data_completeness (ctx_data_completeness c) ctx)))).
Proof.
  parts. cbn [forallb] in Hnn, Hop. repeat rewrite andb_true_iff in Hnn. repeat rewrite andb_true_iff in Hop.
  destruct Hnn as (_ & _ & _ & _ & H1 & H2 & _). destruct Hop as (H3 & _).
  unfold restore_execution, execution_to_data.
  eapply bind_intro; [by apply exact_object_sorted |]. read_fields.
  apply (bind_intro (ctx_data_completeness c)); [apply or_error_Ok, read_completeness_value |].
  rewrite !non_negative_ok, optional_string_ok by done. done.
Qed.

Lemma restore_approvals_ok : restore_approvals (sorted_keys (approvals_to_data (ctx_approvals c))) ctx
  = Ok (set_approvals (ctx_approvals c) ctx).
Proof.
  parts. unfold approvals_to_data. rewrite sorted_obj. unfold sorted_members.
  rewrite map_map. cbn [fst snd].
  rewrite (sort_fields_map (fun s => sorted_keys (JStr (approval_status_value s)))).
  cbn [restore_approvals sorted_keys].
  apply (bind_intro (sort_fields (map_to_list (ctx_approvals c)))).
  - apply or_error_Ok, map_result_Ok, Forall2_fmap_l, Forall_Forall2_diag, Forall_forall.
    intros [k s] Hk%list_elem_of_In. cbn [fst snd].
    rewrite <- (forallb_perm _ _ _ (sort_fields_perm _)) in Hap.
    apply (proj1 (forallb_forall _ _) Hap) in Hk. cbn in Hk.
    apply (bind_intro k); [by apply required_string_ok |].
    apply (bind_intro s); [apply read_approval_status_value | done].
  - do 2 f_equal. rewrite <- (list_to_map_to_list (ctx_approvals c)) at 2.
    apply list_to_map_proper; [| apply sort_fields_perm].
    rewrite sort_fields_perm. apply NoDup_fst_map_to_list.
Qed.

Lemma restore_idempotency_ok :
  restore_idempotency (sorted_keys (idempotency_to_data (ctx_idempotency c))) ctx
  = Ok (set_idempotency (ctx_idempotency c) ctx).
Proof.
  parts. cbn [forallb] in Htx. repeat rewrite andb_true_iff in Htx. destruct Htx as (H1 & H2 & _).
  unfold restore_idempotency, idempotency_to_data.
  eapply bind_intro; [by apply exact_object_sorted |]. read_fields.
  rewrite !read_text_map by done. by destruct (ctx_idempotency c).
Qed.

Lemma restore_checkpoint_ok :
  let version := (ck_checkpoint_version (ctx_checkpoint c) + 1)%Z in
  restore_checkpoint (sorted_keys (checkpoint_state_to_data version (ctx_checkpoint c)))
    (JInt version) ctx
  = Ok (set_checkpoint (set_checkpoint_version version (ctx_checkpoint c)) ctx).
Proof.
  parts. cbn [forallb] in Htx, Hnn, Hop. repeat rewrite andb_true_iff in Htx. repeat rewrite andb_true_iff in Hnn. repeat rewrite andb_true_iff in Hop.
  destruct Htx as (_ & _ & H1 & H2 & H3 & _), Hnn as (_ & _ & _ & _ & _ & _ & H4 & H5 & _),
    Hop as (_ & H6 & H7 & _). apply Z.leb_le in H4.
  intros version. unfold restore_checkpoint, checkpoint_state_to_data.
  eapply bind_intro; [by apply exact_object_sorted |]. read_fields.
  apply (bind_intro version).
  { unfold _positive_int. rewrite non_negative_ok by (apply Z.leb_le; lia). cbn.
    destruct (Z.eqb_spec version 0); [lia | done]. }
  cbn [equals_int]. rewrite Z.eqb_refl.
  rewrite !optional_string_ok, non_negative_ok, !read_text_map by done.
  unfold read_flag. read_fields. done.
Qed.

Lemma state_ok_version : (0 <= ck_checkpoint_version (ctx_checkpoint c))%Z /\ ctx_writes c = [].
Proof.
  parts. cbn [forallb] in Hnn. repeat rewrite andb_true_iff in Hnn.
  destruct Hnn as (_ & _ & _ & _ & _ & _ & H1 & _). apply Z.leb_le in H1. split; [done |].
  by destruct (ctx_writes c).
Qed.
End Sections.

Lemma unique_state c version : state_ok c = true -> unique_keys (state_document c version) = true.
Proof.
  intros H. unfold state_ok in H. rewrite !andb_true_iff in H.
  destruct H as ((((((((((((Hin & Hcx) & Hfr) & Hcf) & _) & _) & _) & Hou) & _) & _) & _) & _) & _).
  apply unique_members_intro; [reflexivity |]. cbn [forallb fst snd].
  rewrite unique_security.
  assert (unique_keys (symbols_to_data c) = true) as ->.
  { apply unique_members_intro; [reflexivity |]. cbn [forallb fst snd].
    by rewrite !unique_frame, !unique_frames. }
  rewrite (unique_array _check_to_data)
    by (apply forallb_forall; intros; apply unique_check).
  rewrite (unique_array (fun r => JObj (namespace_items (er_fields r)))).
  2:{ revert Hou. apply forallb_impl. intros r [H1 H2]%andb_prop. by apply unique_items. }
  assert (unique_keys (execution_to_data c) = true) as ->.
  { apply unique_members_intro; [reflexivity |]. cbn [forallb fst snd].
    by rewrite unique_nullable. }
  assert (unique_keys (approvals_to_data (ctx_approvals c)) = true) as ->.
  { by apply (unique_map (fun s => JStr (approval_status_value s))). }
  assert (unique_keys (idempotency_to_data (ctx_idempotency c)) = true) as ->.
  { apply unique_members_intro; [reflexivity |]. cbn [forallb fst snd].
    by rewrite !unique_text_map. }
  assert (unique_keys (checkpoint_state_to_data version (ctx_checkpoint c)) = true) as ->.
  { apply unique_members_intro; [reflexivity |]. cbn [forallb fst snd].
    by rewrite !unique_text_map, !unique_nullable. }
  reflexivity.
Qed.

(** ** Integrity *)

Lemma checkpoint_data_sorted c : sorted_keys (JObj (_integrity_material c)) =
  JObj [("business_operation_id", JStr (cp_business_operation_id c));
        ("checkpoint_version", JInt (cp_checkpoint_version c));
        ("execution_id", JStr (cp_execution_id c));
        ("ir_version", JStr (cp_ir_version c));
        ("runtime_version", JStr (cp_runtime_version c));
        ("schema_version", JInt CHECKPOINT_SCHEMA_VERSION);
        ("semantic_hash", JStr (cp_semantic_hash c));
        ("skill_id", JStr (cp_skill_id c));
        ("skill_version", JStr (cp_skill_version c));
        ("state_payload", JStr (String.string_of_list_ascii (b64encode (cp_state_payload c))))].
Proof. reflexivity. Qed.

Lemma b64_text_inj a b :
  String.string_of_list_ascii (b64encode a) = String.string_of_list_ascii (b64encode b) -> a = b.
Proof.
  intros H. apply (f_equal chars) in H. unfold chars in H.
  rewrite !String.list_ascii_of_string_of_list_ascii in H. apply (f_equal b64decode) in H.
  rewrite !b64decode_encode in H. by injection H.
Qed.

Definition integrity_document (c : ExecutionCheckpoint) : bytes :=
  canonical_json (JObj (_integrity_material c)).

Lemma set_integrity_material h c : _integrity_material (set_integrity h c) = _integrity_material c.
Proof. reflexivity. Qed.

(** What the constructor accepts. *)
Definition checkpoint_ok (c : ExecutionCheckpoint) : bool :=
  forallb non_blank [cp_execution_id c; cp_business_operation_id c; cp_skill_id c;
                     cp_skill_version c; cp_semantic_hash c; cp_ir_version c; cp_runtime_version c]
  && (1 <=? cp_checkpoint_version c)%Z
  && ((String.length (cp_integrity_hash c) =? 71) && startswith (cp_integrity_hash c) "sha256:").

Lemma required_string_inv v path s : _required_string v path = Ok s -> v = JStr s /\ non_blank s = true.
Proof. unfold _required_string. destruct v; try discriminate. destruct (non_blank _) eqn:E; by intros [= <-]. Qed.

Lemma positive_int_inv v path z : _positive_int v path = Ok z -> v = JInt z /\ (1 <= z)%Z.
Proof.
  unfold _positive_int, _non_negative_int. destruct v; try discriminate.
  destruct (Z.ltb_spec z0 0); [discriminate |]. cbn. destruct (Z.eqb_spec z0 0); [discriminate |].
  intros [= <-]. split; [done | lia].
Qed.

Lemma positive_int_ok z path : (1 <= z)%Z -> _positive_int (JInt z) path = Ok z.
Proof.
  intros H. unfold _positive_int, _non_negative_int. destruct (Z.ltb_spec z 0); [lia |]. cbn.
  by destruct (Z.eqb_spec z 0); [lia |].
Qed.

(** The constructor reads any document that holds the fields of [c]. *)
Lemma from_fields_ok d c : checkpoint_ok c = true ->
  (forall k, k ∈ checkpoint_fields -> at_field k d = at_field k (checkpoint_to_data c)) ->
  checkpoint_from_fields d (cp_state_payload c) = Ok c.
Proof.
  unfold checkpoint_ok. intros [[Ht Hv]%andb_prop Hh]%andb_prop Hd. cbn [forallb] in Ht.
  repeat rewrite andb_true_iff in Ht. destruct Ht as (H1 & H2 & H3 & H4 & H5 & H6 & H7 & _).
  apply Z.leb_le in Hv. unfold checkpoint_from_fields.
  rewrite !Hd by (apply list_elem_of_In; cbn; tauto). unfold checkpoint_to_data, _integrity_material.
  cbn [app]. repeat field_value.
  rewrite !required_string_ok, positive_int_ok, Hh by done. by destruct c.
Qed.

Lemma new_checkpoint_ok c : checkpoint_ok c = true -> new_ExecutionCheckpoint c = Ok c.
Proof. intros H. by apply from_fields_ok. Qed.

Lemma new_checkpoint_inv c c' : new_ExecutionCheckpoint c = Ok c' -> c' = c /\ checkpoint_ok c = true.
Proof.
  unfold new_ExecutionCheckpoint, checkpoint_from_fields, checkpoint_to_data, _integrity_material.
  cbn [app]. repeat field_value. intros H. inv_result.
  repeat match goal with H : _required_string _ _ = Ok _ |- _ =>
    apply required_string_inv in H as [[= <-] ?] end.
  match goal with H : _positive_int _ _ = Ok _ |- _ => apply positive_int_inv in H as [[= <-] ?] end.
  destruct (_ && _) eqn:E in *; [| discriminate].
  repeat match goal with H : Ok _ = Ok _ |- _ => injection H as <- end.
  split; [by destruct c |]. unfold checkpoint_ok. cbn [forallb].
  rewrite E, !andb_true_iff, Z.leb_le. done.
Qed.

Lemma sha256_ref_length m : String.length (sha256_ref m) = 71.
Proof.
  unfold sha256_ref. change ("sha256:" +:+ sha256_hex m)%string with ("sha256:" ++ sha256_hex m)%string.
  rewrite string_length_app, sha256_hex_length. reflexivity.
Qed.

Lemma sha256_ref_ok m :
  (String.length (sha256_ref m) =? 71) && startswith (sha256_ref m) "sha256:" = true.
Proof. rewrite sha256_ref_length. apply startswith_app. Qed.

(** A checkpoint verifies exactly when its fields are well formed and its hash
    is the hash of its document. *)
Lemma checkpoint_verify_Ok c u : checkpoint_verify c = Ok u <->
  checkpoint_ok c = true /\ cp_integrity_hash c = sha256_ref (integrity_document c).
Proof.
  destruct u. unfold checkpoint_verify, create_checkpoint. split.
  - intros (e & He & H)%bind_Ok. apply new_checkpoint_inv in He as [-> Hok].
    cbn [set_integrity cp_integrity_hash] in H. unfold error_if in H.
    destruct (String.eqb_spec (cp_integrity_hash c) (integrity_of c)) as [E|]; [| discriminate].
    split; [| exact E]. rewrite <- E in Hok. by destruct c.
  - intros [Hok Hh]. change (sha256_ref (integrity_document c)) with (integrity_of c) in Hh.
    rewrite <- Hh. assert (set_integrity (cp_integrity_hash c) c = c) as -> by by destruct c.
    apply (bind_intro c); [by apply new_checkpoint_ok |]. unfold error_if.
    by rewrite String.eqb_refl.
Qed.

Lemma create_checkpoint_ok draft : checkpoint_ok (set_integrity (integrity_of draft) draft) = true ->
  create_checkpoint draft = Ok (set_integrity (integrity_of draft) draft)
  /\ checkpoint_verify (set_integrity (integrity_of draft) draft) = Ok tt.
Proof.
  intros H. split; [by apply new_checkpoint_ok |]. by apply checkpoint_verify_Ok.
Qed.

Lemma same_document c c' : integrity_document c = integrity_document c' ->
  cp_integrity_hash c = cp_integrity_hash c' -> c = c'.
Proof.
  intros H Hh. apply canonical_json_inj in H. rewrite !checkpoint_data_sorted in H.
  injection H as H1 H2 H3 H4 H5 H6 H7 H8 H9. apply b64_text_inj in H9.
  destruct c, c'. cbn in *. congruence.
Qed.

Lemma sorted_scalar k c : k ∈ checkpoint_fields ->
  sorted_keys (at_field k (checkpoint_to_data c)) = at_field k (checkpoint_to_data c).
Proof.
  unfold checkpoint_fields. rewrite !elem_of_cons, elem_of_nil.
  intros H. repeat destruct H as [-> | H]; try reflexivity. destruct H.
Qed.

Lemma from_bytes_to_bytes c b : to_bytes c = Ok b -> from_bytes b = Ok c.
Proof.
  intros ([] & Hv & [= <-])%bind_Ok. pose proof (proj1 (checkpoint_verify_Ok _ _) Hv) as [Hok Hh].
  unfold from_bytes. apply (bind_intro (sorted_keys (JObj (checkpoint_to_data c)))).
  { by apply load_canonical. }
  eapply bind_intro; [by apply exact_object_sorted |].
  assert (forall k, k ∈ checkpoint_fields -> at_field k (sorted_members (checkpoint_to_data c))
            = at_field k (checkpoint_to_data c)) as Hf.
  { intros k Hk. rewrite at_field_sorted by reflexivity. by apply sorted_scalar. }
  rewrite !Hf by (apply list_elem_of_In; cbn; tauto).
  unfold checkpoint_to_data at 1 2, _integrity_material at 1 2. cbn [app]. do 2 field_value.
  cbn [equals_int error_if negb mbind result_bind Z.eqb CHECKPOINT_SCHEMA_VERSION Pos.eqb].
  apply (bind_intro (cp_state_payload c)).
  { unfold chars. by rewrite String.list_ascii_of_string_of_list_ascii, b64decode_encode. }
  apply (bind_intro c); [by apply from_fields_ok |]. by rewrite Hv.
Qed.

Lemma from_bytes_verified b c : from_bytes b = Ok c -> checkpoint_verify c = Ok tt.
Proof.
  unfold from_bytes. intros (? & _ & (? & _ & (? & _ & (? & _ & (x & _ & ([] & Hv & [= <-])
    %bind_Ok)%bind_Ok)%bind_Ok)%bind_Ok)%bind_Ok)%bind_Ok. exact Hv.
Qed.

(** ** Properties *)

(** Checkpoints survive their byte form: what [to_bytes] writes is read
    back as the same checkpoint, and whatever bytes [from_bytes] accepts give
    a checkpoint that verifies, is written again, and is read back unchanged. *)
Theorem checkpoint_bytes_roundtrip :
  (forall c b, to_bytes c = Ok b -> from_bytes b = Ok c)
  /\ forall b c, from_bytes b = Ok c ->
       checkpoint_verify c = Ok tt /\ exists b', to_bytes c = Ok b' /\ from_bytes b' = Ok c.
Proof.
  split; [apply from_bytes_to_bytes |]. intros b c Hv%from_bytes_verified. split; [exact Hv |].
  assert (to_bytes c = Ok (canonical_json (JObj (checkpoint_to_data c)))) as E
    by (unfold to_bytes; by rewrite Hv).
  eauto using from_bytes_to_bytes.
Qed.

(** The integrity hash binds a checkpoint: two checkpoints that verify and
    carry the same hash are equal in every field, the serialized state
    included, or their two documents are an explicit SHA-256 collision. *)
Theorem checkpoint_tamper_evident (c c' : ExecutionCheckpoint) :
  checkpoint_verify c = Ok tt -> checkpoint_verify c' = Ok tt ->
  cp_integrity_hash c = cp_integrity_hash c' ->
  c = c' \/ collision (integrity_document c) (integrity_document c').
Proof.
  intros [_ H]%checkpoint_verify_Ok [_ H']%checkpoint_verify_Ok E.
  destruct (sha256_ref_or_collision (integrity_document c) (integrity_document c')) as [Ed | C];
    [congruence | left; by apply same_document | by right].
Qed.

Section Coordinator.
Context (runtime_version : string).

(** The checkpoint of a context without journal entries. *)
Definition captured (c : ExecutionContext) (business_operation_id : string) : ExecutionCheckpoint :=
  let version := (ck_checkpoint_version (ctx_checkpoint c) + 1)%Z in
  let draft := MkExecutionCheckpoint (ctx_execution_id c) business_operation_id version
                 (sk_skill_id (ctx_skill c)) (sk_skill_version (ctx_skill c))
                 (sk_semantic_hash (ctx_skill c)) (sk_ir_version (ctx_skill c)) runtime_version
                 (canonical_json (state_document c version)) "" in
  set_integrity (integrity_of draft) draft.

Definition after_capture (c : ExecutionContext) : ExecutionContext :=
  update_checkpoint (set_checkpoint_version (ck_checkpoint_version (ctx_checkpoint c) + 1)) c.

Lemma capture_Ok c b : ctx_business_operation_id c = Some b -> ctx_writes c = [] ->
  checkpoint_ok (captured c b) = true ->
  capture runtime_version c = (Ok (captured c b), after_capture c).
Proof.
  intros Hb Hw Hok. unfold capture. eapply M_bind_intro; [reflexivity |]. rewrite Hb.
  unfold _state_payload. rewrite Hw. eapply M_bind_intro; [reflexivity |].
  eapply M_bind_intro.
  { unfold lift. apply f_equal2; [| reflexivity]. apply create_checkpoint_ok. exact Hok. }
  reflexivity.
Qed.

Lemma from_fields_error d p : raises_only CheckpointError (checkpoint_from_fields d p).
Proof.
  assert (forall v path, raises_only CheckpointError (_required_string v path)) as Hs.
  { intros v path e. unfold _required_string. destruct v; try by intros [= <-].
    destruct (non_blank s); [done | by intros [= <-]]. }
  unfold checkpoint_from_fields.
  repeat (apply raises_only_bind; [apply Hs | intros ? _]).
  apply raises_only_bind.
  { intros e. unfold _positive_int, _non_negative_int. destruct (at_field _ d); try by intros [= <-].
    destruct (z <? 0)%Z; [by intros [= <-] |]. cbn. destruct (z =? 0)%Z; [by intros [= <-] | done]. }
  intros ? _. apply raises_only_bind.
  { intros e. destruct (at_field _ d); try by intros [= <-].
    destruct (_ && _); [done | by intros [= <-]]. }
  intros ? _. apply raises_only_Ok.
Qed.

Lemma capture_cases (c : ExecutionContext) :
  match capture runtime_version c with
  | (Ok cp, c') => exists b, ctx_business_operation_id c = Some b /\ ctx_writes c = []
                   /\ cp = captured c b /\ checkpoint_ok cp = true /\ c' = after_capture c
  | (Err e, c') => ex_class e = CheckpointError /\ c' = c
                   /\ forall b, ctx_business_operation_id c = Some b -> ctx_writes c = [] ->
                        checkpoint_ok (captured c b) = false
  end.
Proof.
  destruct (ctx_business_operation_id c) as [b|] eqn:Hb; [destruct (ctx_writes c) eqn:Hw;
    [destruct (checkpoint_ok (captured c b)) eqn:Hok |] |].
  - rewrite (capture_Ok c b) by done. eauto 7.
  - assert (exists e, capture runtime_version c = (Err e, c) /\ ex_class e = CheckpointError)
      as (e & -> & He).
    { unfold capture, mbind, M_bind, get, lift. rewrite Hb. unfold _state_payload. rewrite Hw.
      destruct (create_checkpoint _) as [cp|e] eqn:E.
      - apply new_checkpoint_inv in E as [-> E]. unfold captured in Hok. by rewrite E in Hok.
      - exists e. split; [done |]. by apply from_fields_error in E. }
    split; [done |]. split; [done |]. intros b' [= <-] _. done.
  - unfold capture, mbind, M_bind, get, lift. rewrite Hb. unfold _state_payload. rewrite Hw.
    by split.
  - unfold capture, mbind, M_bind, get, lift. rewrite Hb. by split.
Qed.

(** When a capture succeeds: exactly when the context has a business
    operation identity, the identities and the runtime version are not blank,
    the checkpoint counter is not negative, and no WRITE outcome is in the
    journal, the entries of which the state document cannot hold. It then
    gives the checkpoint of the next version and counts it in the context. In
    every other case a [CheckpointError] is raised and the context is
    unchanged. *)
Theorem capture_exact (c : ExecutionContext) :
  match capture runtime_version c with
  | (Ok cp, c') => exists b, ctx_business_operation_id c = Some b /\ ctx_writes c = []
                   /\ cp = captured c b /\ checkpoint_ok cp = true /\ c' = after_capture c
  | (Err e, c') => ex_class e = CheckpointError /\ c' = c
                   /\ forall b, ctx_business_operation_id c = Some b -> ctx_writes c = [] ->
                        checkpoint_ok (captured c b) = false
  end.
Proof. apply capture_cases. Qed.
End Coordinator.

Lemma json_equal_obj d d' : json_equal (JObj d) (JObj d')
  = (length d =? length d')
    && forallb (fun kv => match assoc kv.1 d' with Some y => json_equal kv.2 y | None => false end) d.
Proof.
  cbn [json_equal]. f_equal. induction d as [|[k x] d IH]; [done |].
  cbn [forallb fst snd]. by rewrite <- IH.
Qed.

Lemma json_equal_sorted v : unique_keys v = true -> json_equal (sorted_keys v) v = true.
Proof.
  induction v as [|b|z|s|l IH|d IH] using json_rect'; intros Hu.
  - done.
  - cbn. apply Z.eqb_refl.
  - cbn. apply Z.eqb_refl.
  - cbn. apply String.eqb_refl.
  - cbn in *. induction IH as [|x l Hx _ IHl]; [done |]. cbn in *.
    apply andb_prop in Hu as [Hu1 Hu2]. rewrite Hx, IHl by done. done.
  - apply unique_members in Hu as [Hn Hall]. rewrite sorted_obj, json_equal_obj.
    apply andb_true_intro. split.
    + rewrite sorted_members_perm, length_map. apply Nat.eqb_refl.
    + rewrite (forallb_perm _ _ _ (sorted_members_perm d)), forallb_map_eq.
      apply forallb_forall. intros [k x] Hx%list_elem_of_In. cbn [fst snd].
      rewrite (assoc_in k x d Hn Hx). rewrite Forall_forall in IH, Hall.
      apply (IH (k, x) Hx), (Hall (k, x) Hx).
Qed.

Section Restoring.
Context (runtime_version : string) (clock : nat -> Z).

(** The context belongs to its request. *)
Definition coherent (c : ExecutionContext) : Prop :=
  request_identity (ctx_request c) = Ok (ctx_identity c)
  /\ ctx_security_context c = request_security_context (ctx_request c).

Lemma request_identity_Ok r i : request_identity r = Ok i ->
  i = MkExecutionIdentity (rq_execution_id r) (rq_business_operation_id r).
Proof. unfold request_identity. by intros (? & _ & [= <-])%bind_Ok. Qed.

Lemma bindings_ok c b : coherent c -> ctx_business_operation_id c = Some b ->
  _validate_bindings runtime_version (captured runtime_version c b) (ctx_skill c) (ctx_request c)
  = Ok tt.
Proof.
  intros [Hi _] Hb. apply request_identity_Ok in Hi. unfold ctx_business_operation_id in Hb.
  rewrite Hi in Hb. cbn in Hb. unfold _validate_bindings, captured, set_integrity, ctx_execution_id.
  rewrite Hi. cbn [cp_execution_id cp_business_operation_id cp_skill_id cp_skill_version
    cp_semantic_hash cp_ir_version cp_runtime_version id_execution_id each fst snd].
  rewrite !String.eqb_refl, Hb, bool_decide_eq_true_2 by done. done.
Qed.

Lemma decode_state_ok c b : coherent c -> state_ok c = true ->
  let version := (ck_checkpoint_version (ctx_checkpoint c) + 1)%Z in
  exists state, _decode_state (sorted_keys (state_document c version))
                  (captured runtime_version c b) (ctx_request c) = Ok state
    /\ forall ctx, _restore_state ctx state
       = (ctx ← restore_symbols (sorted_keys (symbols_to_data c)) ctx;
          ctx ← restore_records (sorted_keys (JArr (map _check_to_data (ctx_checks c))))
                  (sorted_keys (JArr (map (fun r => JObj (namespace_items (er_fields r)))
                                       (ctx_outputs c)))) ctx;
          ctx ← restore_resources (sorted_keys (resources_to_data (ctx_resources c))) ctx;
          ctx ← restore_execution (sorted_keys (execution_to_data c)) ctx;
          ctx ← restore_approvals (sorted_keys (approvals_to_data (ctx_approvals c))) ctx;
          ctx ← restore_writes (JArr []) ctx;
          ctx ← restore_idempotency (sorted_keys (idempotency_to_data (ctx_idempotency c))) ctx;
          restore_checkpoint
            (sorted_keys (checkpoint_state_to_data version (ctx_checkpoint c))) (JInt version) ctx).
Proof.
  intros [_ Hs] Hok version. eexists. unfold state_document. split.
  - unfold _decode_state. eapply bind_intro; [by apply exact_object_sorted |]. read_fields.
    cbn [equals_int error_if negb mbind result_bind Z.eqb STATE_SCHEMA_VERSION Pos.eqb].
    change (cp_checkpoint_version (captured runtime_version c b)) with version.
    rewrite Z.eqb_refl. cbn [negb].
    assert (_validate_security (sorted_keys (security_to_data (ctx_security_context c)))
              (ctx_request c) = Ok tt) as ->; [| reflexivity].
    set (sc := ctx_security_context c) in *.
    apply (bind_intro (sorted_members [("principal", principal_to_data (sc_principal sc));
                                       ("data_policy", policy_to_data (sc_data_policy sc))])).
    { by apply exact_object_sorted. }
    rewrite <- sorted_obj. fold (security_to_data sc). rewrite <- Hs. unfold error_if.
    by rewrite json_equal_sorted by apply unique_security.
  - intros ctx. unfold _restore_state. by read_fields.
Qed.

Lemma restore_captured c b : coherent c -> state_ok c = true ->
  ctx_business_operation_id c = Some b -> checkpoint_ok (captured runtime_version c b) = true ->
  restore runtime_version (captured runtime_version c b) (ctx_skill c) (ctx_request c) clock
  = Ok (restored clock c).
Proof.
  intros Hc Hok Hb Hcp. unfold restore.
  apply (bind_intro tt); [by apply create_checkpoint_ok |].
  apply (bind_intro tt); [by apply bindings_ok |].
  set (version := (ck_checkpoint_version (ctx_checkpoint c) + 1)%Z).
  apply (bind_intro (sorted_keys (state_document c version))).
  { by apply load_canonical, unique_state. }
  destruct (decode_state_ok c b Hc Hok) as (state & Hst & Hrest).
  apply (bind_intro state); [exact Hst |].
  unfold new_ExecutionContext. destruct Hc as [Hi Hs]. rewrite Hi. cbn [mbind result_bind].
  rewrite Hrest. fold version.
  eapply bind_intro; [by apply restore_symbols_ok |].
  eapply bind_intro; [by apply restore_records_ok |].
  eapply bind_intro; [by apply restore_resources_ok |].
  eapply bind_intro; [by apply restore_execution_ok |].
  eapply bind_intro; [by apply restore_approvals_ok |].
  eapply bind_intro; [reflexivity |].
  eapply bind_intro; [by apply restore_idempotency_ok |].
  etransitivity; [by apply restore_checkpoint_ok |]. unfold restored. by rewrite <- Hs.
Qed.
End Restoring.

(** C37. A capture is restored: for a context that belongs to its request and
    whose state the documents can hold ([state_ok]: non-blank names, values
    within the ranges of the library, counters that are not negative, equally
    many frames and check frames, no journal entry), [capture] gives a
    checkpoint, and restoring it for the same Skill and request gives the
    context back with a new clock: every binding, frame, check, output,
    counter, approval and hash, with the next checkpoint version (dict values
    come back with sorted fields, tuples as lists). *)
Theorem capture_restore (runtime_version : string) (clock : nat -> Z) (c : ExecutionContext)
    (b : string) :
  coherent c -> state_ok c = true -> ctx_business_operation_id c = Some b ->
  forallb non_blank [ctx_execution_id c; b; sk_skill_id (ctx_skill c);
    sk_skill_version (ctx_skill c); sk_semantic_hash (ctx_skill c); sk_ir_version (ctx_skill c);
    runtime_version] = true ->
  exists cp, capture runtime_version c = (Ok cp, after_capture c)
    /\ restore runtime_version cp (ctx_skill c) (ctx_request c) clock = Ok (restored clock c).
Proof.
  intros Hc Hok Hb Ht. exists (captured runtime_version c b).
  destruct (state_ok_version c Hok) as [Hv Hw].
  assert (checkpoint_ok (captured runtime_version c b) = true) as Hcp.
  { unfold checkpoint_ok. rewrite andb_true_iff. split; [| apply sha256_ref_ok].
    rewrite andb_true_iff. split; [exact Ht |]. apply Z.leb_le. cbn. lia. }
  split; [by apply capture_Ok | by apply restore_captured].
Qed.

(** ** What a restored context is bound to *)

Lemma each_error_if {A} (l : list (A * bool)) (path : A -> string) message u :
  each (fun b => error_if (negb b.2) (path b.1) message) l = Ok u ->
  Forall (fun b => b.2 = true) l.
Proof.
  induction l as [|[x b] l IH]; [constructor |]. cbn [each]. intros (? & H & Hl)%bind_Ok.
  constructor; [by destruct b | by apply IH].
Qed.


Lemma read_items_length {A} (f : json -> string -> result A) path l : forall i xs,
  read_items f path i l = Ok xs -> length xs = length l.
Proof.
  induction l as [|v l IH]; intros i xs; cbn [read_items]; [by intros [= <-] |].
  intros (x & _ & (ys & Hys & [= <-])%bind_Ok)%bind_Ok. cbn. f_equal. by eapply IH.
Qed.

Lemma non_negative_inv v path z : _non_negative_int v path = Ok z -> (0 <= z)%Z.
Proof.
  unfold _non_negative_int. destruct v; try discriminate.
  destruct (Z.ltb_spec z0 0); [discriminate |]. by intros [= <-].
Qed.

(** Inverts a chain of steps that all succeeded. *)
Ltac steps_Ok :=
  repeat match goal with
  | H : (_ ≫= _) = Ok _ |- _ => apply bind_Ok in H as (? & ? & H)
  end.

Lemma restore_symbols_inv v ctx ctx' : restore_symbols v ctx = Ok ctx' ->
  exists i x f g, ctx' = set_check_frames g (set_frames f (set_context_values x (set_input_values i ctx)))
    /\ length g = length f /\ 0 < length f.
Proof.
  unfold restore_symbols. intros (symbols & _ & H)%bind_Ok.
  destruct (at_field "frames" symbols) as [| | | |[|x l]|]; try discriminate.
  destruct (at_field "check_frames" symbols) as [| | | |l'|]; try discriminate.
  cbn [mbind result_bind] in H. destruct (length l' =? length (x :: l)) eqn:E; [| discriminate].
  apply Nat.eqb_eq in E. cbn [mbind result_bind] in H. steps_Ok. injection H as <-.
  match goal with
  | H1 : read_items _ _ 0 (x :: l) = Ok ?f, H2 : read_items _ _ 0 l' = Ok ?g |- _ =>
      apply read_items_length in H1, H2
  end.
  do 4 eexists. split; [reflexivity |]. rewrite !length_rev. cbn [length] in *. lia.
Qed.

Lemma restore_records_inv v w ctx ctx' : restore_records v w ctx = Ok ctx' ->
  exists k o, ctx' = set_outputs o (set_checks k ctx).
Proof.
  unfold restore_records. intros H. destruct v; try discriminate. destruct w; try discriminate.
  steps_Ok. injection H as <-. eauto.
Qed.

Definition meter_nonneg (m : _ResourceMeter) : Prop :=
  (0 <= tool_calls m /\ 0 <= loop_iterations m /\ 0 <= emitted_rows m
   /\ 0 <= max_collection_size_seen m)%Z.

Lemma restore_resources_inv v ctx ctx' : restore_resources v ctx = Ok ctx' ->
  exists m, ctx' = set_resources m ctx /\ meter_nonneg m.
Proof.
  unfold restore_resources. intros H. steps_Ok. injection H as <-. eexists. split; [reflexivity |].
  match goal with H : map_result _ _ = Ok ?l |- _ => apply map_result_Ok in H;
    assert (forall k, (0 <= default 0 (assoc k l))%Z) as Hk end.
  { intros k. destruct (assoc k _) as [z|] eqn:E; [| done]. apply assoc_elem in E. cbn.
    match goal with H : Forall2 _ _ _ |- _ => 
      apply (Forall2_Forall_r _ (fun kv : string * Z => 0 <= kv.2)%Z) in H end.
    - match goal with H : Forall _ _ |- _ => apply (proj1 (Forall_forall _ _) H (k, z) E) end.
    - apply Forall_forall. intros [k' w] _ [k'' z'] Hz. cbn [fst snd] in *.
      apply bind_Ok in Hz as (z'' & Hz & [= -> ->]). by eapply non_negative_inv. }
  unfold meter_nonneg. cbn [tool_calls loop_iterations emitted_rows max_collection_size_seen].
  by repeat split.
Qed.

Lemma restore_execution_inv v ctx ctx' : restore_execution v ctx = Ok ctx' ->
  exists n d i k, ctx' = set_current_node_id n (set_foreach_depth d (set_invocation_counter i
                           (set_data_completeness k ctx))) /\ (0 <= d)%Z /\ (0 <= i)%Z.
Proof.
  unfold restore_execution. intros H. steps_Ok. injection H as <-.
  do 4 eexists. split; [reflexivity |]. split; by eapply non_negative_inv.
Qed.

Lemma restore_approvals_inv v ctx ctx' : restore_approvals v ctx = Ok ctx' ->
  exists m, ctx' = set_approvals m ctx.
Proof.
  unfold restore_approvals. intros H. destruct v; try discriminate. steps_Ok.
  injection H as <-. eauto.
Qed.

Lemma restore_writes_inv v ctx ctx' : restore_writes v ctx = Ok ctx' -> ctx' = set_writes [] ctx.
Proof.
  unfold restore_writes. intros (w & _ & H)%bind_Ok. destruct w; try discriminate.
  destruct items; [by injection H as <- | discriminate].
Qed.

Lemma restore_idempotency_inv v ctx ctx' : restore_idempotency v ctx = Ok ctx' ->
  exists m, ctx' = set_idempotency m ctx.
Proof. unfold restore_idempotency. intros H. steps_Ok. injection H as <-. eauto. Qed.

Lemma restore_checkpoint_inv v w ctx ctx' : restore_checkpoint v w ctx = Ok ctx' ->
  exists s, ctx' = set_checkpoint s ctx /\ equals_int w (ck_checkpoint_version s) = true
    /\ (1 <= ck_checkpoint_version s)%Z /\ (0 <= ck_trace_sequence s)%Z.
Proof.
  unfold restore_checkpoint. intros H. steps_Ok. injection H as <-.
  eexists. split; [reflexivity |]. cbn [ck_checkpoint_version ck_trace_sequence].
  match goal with H : _positive_int _ _ = Ok _ |- _ => apply positive_int_inv in H as [_ ?] end.
  match goal with H : error_if (negb ?b) _ _ = Ok _ |- _ => destruct b eqn:E; [| discriminate] end.
  split; [done |]. split; [done |]. by eapply non_negative_inv.
Qed.

Lemma equals_int_inj v a b : equals_int v a = true -> equals_int v b = true -> a = b.
Proof. destruct v; cbn; try discriminate; intros ->%Z.eqb_eq H%Z.eqb_eq; done. Qed.

(** The context of a request before anything is bound, up to what a checkpoint
    holds. *)
Definition for_request (skill : SkillObject) (request : ExecutionRequest) (clock : nat -> Z)
    (ctx : ExecutionContext) : Prop :=
  ctx_skill ctx = skill /\ ctx_request ctx = request /\ coherent ctx
  /\ ctx_runtime_clock ctx = clock /\ ctx_started_ns ctx = clock 0 /\ ctx_writes ctx = []
  /\ length (ctx_check_frames ctx) = length (ctx_frames ctx) /\ 0 < length (ctx_frames ctx)
  /\ meter_nonneg (ctx_resources ctx) /\ (0 <= ctx_foreach_depth ctx)%Z
  /\ (0 <= ctx_invocation_counter ctx)%Z /\ (0 <= ck_trace_sequence (ctx_checkpoint ctx))%Z.

Lemma restore_state_inv skill request clock ctx state ctx' :
  new_ExecutionContext skill request clock = Ok ctx -> _restore_state ctx state = Ok ctx' ->
  for_request skill request clock ctx'
  /\ equals_int (at_field "checkpoint_version" state) (ck_checkpoint_version (ctx_checkpoint ctx')) = true.
Proof.
  unfold new_ExecutionContext. intros (i & Hi & [= <-])%bind_Ok. unfold _restore_state. intros H.
  steps_Ok.
  match goal with H : restore_symbols _ _ = Ok _ |- _ =>
    apply restore_symbols_inv in H as (? & ? & ? & ? & -> & ? & ?) end.
  match goal with H : restore_records _ _ _ = Ok _ |- _ =>
    apply restore_records_inv in H as (? & ? & ->) end.
  match goal with H : restore_resources _ _ = Ok _ |- _ =>
    apply restore_resources_inv in H as (? & -> & ?) end.
  match goal with H : restore_execution _ _ = Ok _ |- _ =>
    apply restore_execution_inv in H as (? & ? & ? & ? & -> & ? & ?) end.
  match goal with H : restore_approvals _ _ = Ok _ |- _ =>
    apply restore_approvals_inv in H as (? & ->) end.
  match goal with H : restore_writes _ _ = Ok _ |- _ => apply restore_writes_inv in H as -> end.
  match goal with H : restore_idempotency _ _ = Ok _ |- _ =>
    apply restore_idempotency_inv in H as (? & ->) end.
  apply restore_checkpoint_inv in H as (? & -> & ? & ? & ?).
  unfold for_request, coherent. cbn. done.
Qed.

(** What a restored context is bound to: [restore] gives a context only for
    a checkpoint that verifies, of the same execution, business operation,
    Skill object (id, version, semantic hash, IR version) and runtime version,
    and only to the principal and data policy recorded in the state. The
    context belongs to the Skill and request that were given, has the version
    of the checkpoint, equally many frames and check frames, no counter below
    zero, and an empty WRITE journal. *)
Theorem restore_bound (runtime_version : string) (clock : nat -> Z) (cp : ExecutionCheckpoint)
    (skill : SkillObject) (request : ExecutionRequest) (ctx : ExecutionContext) :
  restore runtime_version cp skill request clock = Ok ctx ->
  checkpoint_verify cp = Ok tt
  /\ cp_execution_id cp = rq_execution_id request
  /\ Some (cp_business_operation_id cp) = rq_business_operation_id request
  /\ cp_skill_id cp = sk_skill_id skill /\ cp_skill_version cp = sk_skill_version skill
  /\ cp_semantic_hash cp = sk_semantic_hash skill /\ cp_ir_version cp = sk_ir_version skill
  /\ cp_runtime_version cp = runtime_version
  /\ (exists state security, load_strict_json _error "checkpoint state" (cp_state_payload cp)
                             = Ok (JObj state)
        /\ at_field "security" state = JObj security
        /\ json_equal (JObj security) (security_to_data (request_security_context request)) = true)
  /\ for_request skill request clock ctx
  /\ ck_checkpoint_version (ctx_checkpoint ctx) = cp_checkpoint_version cp.
Proof.
  unfold restore. intros ([] & Hv & ([] & Hb & (doc & Hd & (state & Hs & (ctx0 & Hn & H)
    %bind_Ok)%bind_Ok)%bind_Ok)%bind_Ok)%bind_Ok.
  apply each_error_if in Hb. repeat (apply Forall_cons in Hb as [? Hb]; cbn [snd] in *).
  repeat match goal with H : String.eqb _ _ = true |- _ => apply String.eqb_eq in H end.
  match goal with H : bool_decide _ = true |- _ => apply bool_decide_eq_true in H end.
  unfold _decode_state in Hs. apply bind_Ok in Hs as (st & Hx & Hs).
  apply bind_Ok in Hs as (? & _ & Hs). apply bind_Ok in Hs as (? & Hver & Hs).
  apply bind_Ok in Hs as (? & Hsec & Hs). injection Hs as ->.
  destruct (restore_state_inv _ _ _ _ _ _ Hn H) as [Hfor Heq].
  do 8 (split; [done |]). split; [| split; [done |]].
  - unfold _exact_object in Hx. destruct doc; try discriminate.
    destruct (same_elements _ _); [| discriminate]. injection Hx as ->.
    unfold _validate_security in Hsec. apply bind_Ok in Hsec as (sec & Hx & Hsec).
    unfold _exact_object in Hx. exists state, sec. split; [exact Hd |].
    destruct (at_field "security" state); try discriminate.
    destruct (same_elements _ _); [| discriminate]. injection Hx as ->. split; [done |].
    unfold error_if in Hsec. by destruct (json_equal _ _).
  - unfold error_if in Hver. destruct (equals_int _ (cp_checkpoint_version cp)) eqn:E; [| discriminate].
    by eapply equals_int_inj.
Qed.

(** ** An example *)

Definition sample_envelope : ValueEnvelope :=
  MkValueEnvelope sample_value (domain "Order") PRESENT COMPLETE CONFIDENTIAL ["tool:orders"].

Definition sample_context : ExecutionContext :=
  set_approvals {[ "approval-1" := PENDING ]}
    (set_outputs [MkEmitRecord [("order", sample_envelope); ("count", example_envelope)]]
      (set_checks [example_check "check-1" PASS]
        (set_input_values {[ "order" := sample_envelope ]}
          (set_frames [{[ "y" := example_envelope ]}; {[ "x" := sample_envelope ]}]
            (set_check_frames [∅; ∅] example_context))))).

Lemma sample_context_ok : coherent sample_context /\ state_ok sample_context = true.
Proof. unfold coherent. repeat split; vm_compute; reflexivity. Qed.

Lemma sample_captured : checkpoint_ok (captured "0.1.0" sample_context "op-1") = true.
Proof.
  unfold checkpoint_ok. rewrite andb_true_iff. split; [reflexivity | apply sha256_ref_ok].
Qed.

Lemma capture_restore_witness :
  exists cp, capture "0.1.0" sample_context = (Ok cp, after_capture sample_context)
    /\ restore "0.1.0" cp example_skill example_request (fun n => Z.of_nat n)
       = Ok (restored (fun n => Z.of_nat n) sample_context).
Proof.
  apply (capture_restore "0.1.0" (fun n => Z.of_nat n) sample_context "op-1").
  - apply sample_context_ok.
  - apply sample_context_ok.
  - reflexivity.
  - vm_compute. reflexivity.
Defined.

Lemma checkpoint_tamper_evident_witness :
  captured "0.1.0" sample_context "op-1" = captured "0.1.0" sample_context "op-1"
  \/ collision (integrity_document (captured "0.1.0" sample_context "op-1"))
       (integrity_document (captured "0.1.0" sample_context "op-1")).
Proof.
  apply checkpoint_tamper_evident; [apply create_checkpoint_ok, sample_captured.. | reflexivity].
Defined.

Lemma restore_bound_witness :
  cp_business_operation_id (captured "0.1.0" sample_context "op-1") = "op-1"
  /\ for_request example_skill example_request (fun n => Z.of_nat n)
       (restored (fun n => Z.of_nat n) sample_context)
  /\ ck_checkpoint_version (ctx_checkpoint (restored (fun n => Z.of_nat n) sample_context)) = 1%Z.
Proof.
  destruct (restore_bound "0.1.0" (fun n => Z.of_nat n) (captured "0.1.0" sample_context "op-1")
    example_skill example_request (restored (fun n => Z.of_nat n) sample_context))
    as (_ & _ & Hb & _ & _ & _ & _ & _ & _ & Hf & Hv).
  - apply (restore_captured "0.1.0" (fun n => Z.of_nat n) sample_context "op-1");
      [apply sample_context_ok.. | reflexivity | apply sample_captured].
  - split; [exact (f_equal (fun o : option string => default EmptyString o) Hb) |]. split; [exact Hf | exact Hv].
Defined.
