(* ===== verification/SchemaFacts.v ===== *)
(** * The schema validator: proofs

    What its checks accept, that they do not look at the order of members, and
    how they fail. *)

From S2P Require Import Prelude Digest Json JsonBoundary Decimal Core Decoding Values.
From S2P Require Import DataProtection NsoSchema Restoration.

(** ** What the elementary checks accept *)

Lemma schema_if_Ok b path reason u : schema_if b path reason = Ok u <-> b = false.
Proof. destruct b, u; cbn; split; done. Qed.

Lemma sorted_difference_nil a b : sorted_difference a b = [] <-> forall k, k ∈ a -> k ∈ b.
Proof.
  unfold sorted_difference. split.
  - intros H k Hk. apply dec_stable. intros Hb.
    assert (k ∈ List.filter (fun k => negb (bool_decide (k ∈ b))) a) as Hin.
    { apply list_elem_of_In, filter_In. split; [by apply list_elem_of_In |].
      by rewrite bool_decide_false. }
    rewrite <- sort_strings_perm, H in Hin. by apply elem_of_nil in Hin.
  - intros H. assert (List.filter (fun k => negb (bool_decide (k ∈ b))) a = []) as ->; [| done].
    induction a as [|k a IH]; [done |]. cbn [List.filter].
    rewrite bool_decide_true by (apply H; left). apply IH. intros x Hx. apply H. by right.
Qed.

Lemma object_Ok v path fields optional d :
  _object_with_optional v path fields optional = Ok d <->
  v = JObj d /\ (forall k, k ∈ fields -> k ∈ map fst d)
  /\ (forall k, k ∈ map fst d -> k ∈ fields ++ optional).
Proof.
  split.
  - destruct v as [| | | | |d']; try discriminate. intros H.
    apply bind_Ok in H as ([] & H1%schema_if_Ok & H).
    apply bind_Ok in H as ([] & H2%schema_if_Ok & H%Ok_inj). subst d'. split_bool.
    by rewrite <- !sorted_difference_nil.
  - intros (-> & H1 & H2). rewrite <- !sorted_difference_nil in H1, H2. cbn. by rewrite H1, H2.
Qed.

Lemma exact_Ok v path fields d : _object v path fields = Ok d ->
  v = JObj d /\ (forall k, k ∈ fields <-> k ∈ map fst d).
Proof.
  intros (Hv & H1 & H2)%object_Ok. split; [done |]. intros k. split; [apply H1 |].
  intros Hk. specialize (H2 k Hk). by rewrite app_nil_r in H2.
Qed.

Lemma object_is v path fields d : _object v path fields = Ok d -> v = JObj d.
Proof. by intros (-> & _)%object_Ok. Qed.

Lemma each_field_Ok {A} (check : json -> string -> result A) d path names u :
  each_field check d path names = Ok u <->
  forall name, name ∈ names -> exists a, check (field_of name d) (path +:+ "." +:+ name) = Ok a.
Proof.
  destruct u. unfold each_field. induction names as [|n names IH]; cbn [each].
  - split; [| done]. intros _ n Hn. by apply elem_of_nil in Hn.
  - split.
    + intros H. apply bind_Ok in H as (u & H & Hr). apply bind_Ok in H as (a & Ha & _).
      rewrite IH in Hr. intros m [-> | Hm]%elem_of_cons; [by exists a | by apply Hr].
    + intros H. destruct (H n) as [a Ha]; [left |]. rewrite Ha. cbn [mbind result_bind].
      apply IH. intros m Hm. apply H. by right.
Qed.

Lemma each_at_Ok f path l u : forall i,
  each_at f path i l = Ok u <-> forall j x, l !! j = Some x -> f x (at_index path (i + j)) = Ok tt.
Proof.
  destruct u. induction l as [|x l IH]; intros i; cbn [each_at]; [done |]. split.
  - intros H. apply bind_Ok in H as ([] & Hx & H). rewrite IH in H.
    intros [|j] y Hy; [injection Hy as <-; by rewrite Nat.add_0_r |].
    rewrite Nat.add_succ_r. by apply (H j).
  - intros H. pose proof (H 0 x eq_refl) as Hx. rewrite Nat.add_0_r in Hx.
    apply (bind_intro tt); [done |]. apply IH. intros j y Hy.
    specialize (H (S j) y Hy). by rewrite Nat.add_succ_r in H.
Qed.

Lemma each_item_Ok f d path name u : each_item f d path name = Ok u <->
  exists l, field_of name d = JArr l
    /\ forall j x, l !! j = Some x -> f x (at_index (path +:+ "." +:+ name) j) = Ok tt.
Proof.
  unfold each_item. split.
  - intros H. apply bind_Ok in H as (l & Hl & H). rewrite each_at_Ok in H. exists l.
    split; [| done]. by destruct (field_of name d); try discriminate; injection Hl as ->.
  - intros (l & -> & H). cbn. by apply each_at_Ok.
Qed.

(** ** Checks do not look at the order of members *)

Definition unique_object (d : members) : Prop :=
  NoDup (map fst d) /\ Forall (fun kv => unique_keys kv.2 = true) d.

Lemma field_of_sorted k d : unique_object d ->
  field_of k (sorted_members d) = sorted_keys (field_of k d).
Proof. intros [Hn _]. unfold field_of. rewrite assoc_sorted by done. by destruct (assoc k d). Qed.

Lemma field_of_unique k d : unique_object d -> unique_keys (field_of k d) = true.
Proof.
  intros [_ H]. unfold field_of. destruct (assoc k d) as [v|] eqn:E; [| done].
  apply assoc_elem in E. rewrite Forall_forall in H. by apply (H (k, v)).
Qed.

Lemma unique_item l x : unique_keys (JArr l) = true -> x ∈ l -> unique_keys x = true.
Proof. intros H Hx. apply (proj1 (forallb_forall _ _) H). by apply list_elem_of_In. Qed.

Class OrderFree {A} (f : json -> string -> result A) : Prop :=
  order_free v path a : unique_keys v = true -> f v path = Ok a ->
    exists b, f (sorted_keys v) path = Ok b.

(** Checks of scalars. *)
Ltac scalar_check := intros [] path a Hu Ha; try discriminate Ha; by exists a.

#[export] Instance string_at_free allow_empty : OrderFree (fun v p => string_at v p allow_empty).
Proof. scalar_check. Qed.
#[export] Instance string_free : OrderFree _string.
Proof. scalar_check. Qed.
#[export] Instance message_free : OrderFree message_at.
Proof. scalar_check. Qed.
#[export] Instance plain_string_free : OrderFree plain_string.
Proof. scalar_check. Qed.
#[export] Instance integer_free minimum : OrderFree (at_least minimum).
Proof. scalar_check. Qed.
#[export] Instance boolean_free : OrderFree _boolean.
Proof. scalar_check. Qed.
#[export] Instance sha256_free : OrderFree _sha256.
Proof. scalar_check. Qed.
#[export] Instance risk_level_free : OrderFree risk_level_at.
Proof. scalar_check. Qed.
#[export] Instance classification_free : OrderFree classification_at.
Proof. scalar_check. Qed.
#[export] Instance currency_free : OrderFree _currency.
Proof. scalar_check. Qed.
#[export] Instance finite_decimal_free : OrderFree _finite_decimal.
Proof. scalar_check. Qed.

(** Checks of members. *)
Lemma object_free v path fields optional d : unique_keys v = true ->
  _object_with_optional v path fields optional = Ok d ->
  unique_object d
  /\ _object_with_optional (sorted_keys v) path fields optional = Ok (sorted_members d).
Proof.
  intros Hu (-> & H1 & H2)%object_Ok. split; [by apply unique_members |].
  rewrite sorted_obj. apply object_Ok. split; [done |].
  split; intros k; rewrite sorted_members_keys; [apply H1 | apply H2].
Qed.

Lemma each_field_free {A} (check : json -> string -> result A) `{!OrderFree check} d path names u :
  unique_object d -> each_field check d path names = Ok u ->
  each_field check (sorted_members d) path names = Ok u.
Proof.
  rewrite !each_field_Ok. intros Hd H name Hn. destruct (H name Hn) as [a Ha].
  rewrite field_of_sorted by done. eapply order_free; [by apply field_of_unique | exact Ha].
Qed.

Lemma each_item_free f `{!OrderFree f} d path name u :
  unique_object d -> each_item f d path name = Ok u -> each_item f (sorted_members d) path name = Ok u.
Proof.
  rewrite !each_item_Ok. intros Hd (l & El & H). rewrite field_of_sorted, El by done.
  exists (map sorted_keys l). split; [done |]. intros j x Hx.
  pose proof (field_of_unique name d Hd) as Hl. rewrite El in Hl.
  change (@map) with (@fmap list _) in Hx. apply list_lookup_fmap_Some in Hx as (y & -> & Hy).
  destruct (order_free y _ _ (unique_item _ _ Hl (list_elem_of_lookup_2 _ _ _ Hy)) (H j y Hy)) as [[] ?].
  done.
Qed.

(** Checks that read a scalar. *)
Lemma string_sorted v path : _string (sorted_keys v) path = _string v path.
Proof. by destruct v. Qed.
Lemma choice_sorted v path l : _choice (sorted_keys v) path l = _choice v path l.
Proof. by destruct v. Qed.
Lemma boolean_sorted v path : _boolean (sorted_keys v) path = _boolean v path.
Proof. by destruct v. Qed.
Lemma constant_sorted v expected path : _constant (sorted_keys v) expected path = _constant v expected path.
Proof. by destruct v. Qed.
Lemma constant_true_sorted v path : constant_true (sorted_keys v) path = constant_true v path.
Proof. by destruct v. Qed.
Ltac scalar_sorted :=
  rewrite ?field_of_sorted by done;
  rewrite ?string_sorted, ?choice_sorted, ?boolean_sorted, ?constant_sorted, ?constant_true_sorted.

(** [follow H]: the steps of the accepted check [H] are accepted in order on
    the sorted document. *)
Ltac follow_step H :=
  match type of H with
  | Ok _ = Ok _ => by eexists
  | None = Some _ => discriminate H
  | schema_error _ _ = Ok _ => discriminate H
  | match ?x with Some _ => _ | None => _ end = _ => destruct x eqn:?
  | (if ?b then _ else _) = _ => destruct b eqn:?
  | (if ?b then _ else _) ≫= _ = Ok _ => destruct b eqn:?
  | Ok _ ≫= _ = Ok _ => cbn [mbind result_bind] in H |- *
  | _ ≫= _ = Ok _ =>
      let x := fresh "x" in let Hx := fresh "Hx" in
      apply bind_Ok in H as (x & Hx & H);
      first
      [ apply object_free in Hx as [? Hx]; [| solve [auto using field_of_unique]];
        rewrite ?field_of_sorted by done; rewrite Hx; clear Hx
      | apply each_field_free in Hx; [| typeclasses eauto | done]; rewrite Hx; clear Hx
      | apply each_item_free in Hx; [| typeclasses eauto | done]; rewrite Hx; clear Hx
      | scalar_sorted; rewrite Hx; clear Hx ];
      cbn [mbind result_bind]
  | _ => first
      [ apply each_field_free in H; [| typeclasses eauto | done]
      | apply each_item_free in H; [| typeclasses eauto | done]
      | eapply order_free in H as [? H]; [| by apply field_of_unique];
        rewrite ?field_of_sorted by done
      | scalar_sorted ]; by eexists
  end.
Ltac follow H := repeat follow_step H.

#[export] Instance type_field_free f : OrderFree f -> OrderFree (validate_type_field f).
Proof. intros Hf v path a Hu H. unfold validate_type_field, _object in *. follow H. Qed.

#[export] Instance type_fuel_free fuel : OrderFree (_validate_type_fuel fuel).
Proof.
  induction fuel as [|fuel IH]; intros v path a Hu H; [discriminate H |].
  cbn [_validate_type_fuel] in H |- *. destruct v as [| | | | |d]; try discriminate H.
  pose proof (unique_members d Hu) as Hd.
  rewrite sorted_obj, field_of_sorted, string_sorted by done. rewrite <- sorted_obj.
  cbv zeta in *. apply bind_Ok in H as (kind & -> & H). cbn [mbind result_bind].
  destruct (type_fields kind) as [fields|]; [| discriminate H]. unfold _object in *.
  follow H.
Qed.

#[export] Instance type_free : OrderFree _validate_type.
Proof. intros v path a. unfold _validate_type. rewrite json_depth_sorted. apply type_fuel_free. Qed.

Lemma tag_of_sorted d : unique_object d -> tag_of (sorted_members d) = tag_of d.
Proof.
  intros [Hn _]. unfold tag_of. rewrite assoc_sorted by done.
  by destruct (assoc "$type" d) as [[]|].
Qed.

#[export] Instance literal_free : OrderFree _validate_literal_value.
Proof.
  intros v path a Hu H. destruct v as [|b|z|s|l|d]; try discriminate H; [by eexists..|].
  rewrite sorted_obj. unfold _validate_literal_value in *.
  rewrite tag_of_sorted by by apply unique_members. rewrite <- sorted_obj.
  cbv zeta in *. unfold _object in *. follow H.
Qed.

#[export] Instance named_free f : OrderFree f -> OrderFree (validate_named f).
Proof. intros Hf v path a Hu H. unfold validate_named, _object in *. follow H. Qed.

#[export] Instance expression_fuel_free ir fuel : OrderFree (_validate_expression_fuel ir fuel).
Proof.
  induction fuel as [|fuel IH]; intros v path a Hu H; [discriminate H |].
  cbn [_validate_expression_fuel] in H |- *. destruct v as [| | | | |d]; try discriminate H.
  pose proof (unique_members d Hu) as Hd.
  rewrite sorted_obj, field_of_sorted, string_sorted by done. rewrite <- sorted_obj.
  cbv zeta in *. apply bind_Ok in H as (kind & -> & H). cbn [mbind result_bind].
  destruct (expression_fields ir kind) as [fields|]; [| discriminate H]. unfold _object in *.
  follow H.
Qed.

#[export] Instance expression_free ir : OrderFree (_validate_expression ir).
Proof.
  intros v path a. unfold _validate_expression. rewrite json_depth_sorted. apply expression_fuel_free.
Qed.

(** ** Statements *)

#[export] Instance data_policy_free : OrderFree validate_data_policy.
Proof. intros v path a Hu H. unfold validate_data_policy, _object in *. follow H. Qed.

#[export] Instance approval_policy_free : OrderFree validate_approval_policy.
Proof.
  intros v path a Hu H. unfold validate_approval_policy in *. follow H.
  - rewrite assoc_sorted, Heqo by apply H0. exists a. by destruct j.
  - rewrite assoc_sorted, Heqo by apply H0. by exists a.
Qed.

#[export] Instance statement_fuel_free ir fuel : OrderFree (_validate_statement_fuel ir fuel).
Proof.
  induction fuel as [|fuel IH]; intros v path a Hu H; [discriminate H |].
  cbn [_validate_statement_fuel] in H |- *. destruct v as [| | | | |d]; try discriminate H.
  pose proof (unique_members d Hu) as Hd.
  rewrite sorted_obj, field_of_sorted, string_sorted by done. rewrite <- sorted_obj.
  cbv zeta in *. apply bind_Ok in H as (kind & -> & H). cbn [mbind result_bind].
  destruct (statement_fields ir kind) as [fields|]; [| discriminate H]. unfold _object in *.
  follow H.
Qed.

#[export] Instance statement_free ir : OrderFree (_validate_statement ir).
Proof.
  intros v path a. unfold _validate_statement. rewrite json_depth_sorted. apply statement_fuel_free.
Qed.

(** ** Declarations *)

#[export] Instance symbol_free : OrderFree validate_symbol.
Proof. intros v path a Hu H. unfold validate_symbol, _object in *. follow H. Qed.
#[export] Instance input_free : OrderFree validate_input.
Proof. intros v path a Hu H. unfold validate_input, _object in *. follow H. Qed.
#[export] Instance context_free : OrderFree validate_context.
Proof. intros v path a Hu H. unfold validate_context, _object in *. follow H. Qed.
#[export] Instance output_free : OrderFree validate_output.
Proof. intros v path a Hu H. unfold validate_output, _object in *. follow H. Qed.
#[export] Instance limits_free : OrderFree (fun v _ => validate_limits v).
Proof. intros v path a Hu H. unfold validate_limits, _object in *. follow H. Qed.
#[export] Instance analysis_free : OrderFree (fun v _ => validate_analysis v).
Proof. intros v path a Hu H. unfold validate_analysis, _object in *. follow H. Qed.
#[export] Instance hashes_free : OrderFree (fun v _ => validate_hashes v).
Proof. intros v path a Hu H. unfold validate_hashes, _object in *. follow H. Qed.
#[export] Instance required_free ir : OrderFree (validate_required ir).
Proof. intros v path a Hu H. unfold validate_required, _object in *. follow H. Qed.

(** ** Reading members of a sorted document *)

Lemma object_of_sorted v : object_of (sorted_keys v) = sorted_members (object_of v).
Proof. by destruct v. Qed.

Lemma unique_object_of v : unique_keys v = true -> unique_object (object_of v).
Proof. destruct v; intros H; try (split; constructor). by apply unique_members. Qed.

Lemma text_at_sorted k d : unique_object d -> text_at k (sorted_members d) = text_at k d.
Proof. intros [Hn _]. unfold text_at. rewrite assoc_sorted by done. by destruct (assoc k d) as [[]|]. Qed.

Lemma list_at_sorted k d : unique_object d ->
  list_at k (sorted_members d) = map sorted_keys (list_at k d).
Proof. intros [Hn _]. unfold list_at. rewrite assoc_sorted by done. by destruct (assoc k d) as [[]|]. Qed.

Lemma list_at_unique k d x : unique_object d -> x ∈ list_at k d -> unique_keys x = true.
Proof.
  intros [_ H]. unfold list_at. destruct (assoc k d) as [[| | | |l|]|] eqn:E;
    try by intros ?%elem_of_nil.
  apply assoc_elem in E. rewrite Forall_forall in H. intros Hx.
  apply (unique_item l); [by apply (H (k, JArr l)) | done].
Qed.

Lemma enumerated_map {A B} (f : A -> B) path l :
  enumerated path (map f l) = map (fun pv => (pv.1, f pv.2)) (enumerated path l).
Proof.
  unfold enumerated. rewrite map_map, length_map. generalize 0.
  induction l as [|x l IH]; intros n; [done |]. cbn. by rewrite IH.
Qed.

Lemma enumerated_elem {A} path (l : list A) pv : pv ∈ enumerated path l -> pv.2 ∈ l.
Proof.
  unfold enumerated. intros ([i x] & -> & H)%list_elem_of_fmap. cbn.
  apply list_elem_of_In in H. apply in_combine_r in H. by apply list_elem_of_In.
Qed.

(** ** The build *)

Lemma sources_free l n : forall index seen roots, forallb unique_keys l = true ->
  validate_sources index seen roots l = Ok n ->
  validate_sources index seen roots (map sorted_keys l) = Ok n.
Proof.
  induction l as [|v l IH]; intros index seen roots Hu H; [done |].
  cbn [forallb] in Hu. apply andb_prop in Hu as [Hv Hl].
  cbn [validate_sources map] in *. unfold _object in *. cbv zeta in *.
  do 6 follow_step H. by apply IH.
Qed.

Lemma is_root_sorted v : unique_keys v = true -> is_root_source (sorted_keys v) = is_root_source v.
Proof.
  intros Hu%unique_object_of. unfold is_root_source.
  rewrite object_of_sorted, field_of_sorted by done. by destruct (field_of "is_root" (object_of v)).
Qed.

Lemma find_root_sorted l : forallb unique_keys l = true ->
  find is_root_source (map sorted_keys l) = sorted_keys <$> find is_root_source l.
Proof.
  induction l as [|v l IH]; cbn [forallb map find]; [done |].
  intros [Hv Hl]%andb_prop. rewrite is_root_sorted by done.
  destruct (is_root_source v); [done | by apply IH].
Qed.

#[export] Instance build_free : OrderFree (fun v _ => validate_build v).
Proof.
  intros v path a Hu H. unfold validate_build, _object in *.
  do 3 follow_step H. apply bind_Ok in H as (sources & Hs & H).
  pose proof (field_of_unique "sources" x H0) as Hl. rewrite ?field_of_sorted by done.
  destruct (field_of "sources" x) as [| | | |l|]; try discriminate Hs. injection Hs as <-.
  cbn [sorted_keys _array mbind result_bind unique_keys] in *.
  apply bind_Ok in H as ([] & He%schema_if_Ok & H). apply bind_Ok in H as (n & Hn & H).
  apply bind_Ok in H as ([] & Hr & H).
  assert (bool_decide (map sorted_keys l = []) = false) as -> by by destruct l.
  cbn [schema_if mbind result_bind]. rewrite (sources_free _ _ _ _ _ Hl Hn). cbn [mbind result_bind].
  rewrite Hr, (find_root_sorted _ Hl). cbn [mbind result_bind].
  destruct (find is_root_source l) as [root|] eqn:E; [| by eexists]. cbn.
  apply find_some in E as [Hroot%list_elem_of_In _].
  rewrite object_of_sorted, text_at_sorted
    by (apply unique_object_of; by apply (unique_item l)). by eexists.
Qed.

(** ** The links of a sorted document *)

Lemma flat_map_enumerated {A} (f : string * json -> list A) path l :
  (forall pv, pv ∈ enumerated path l -> f (pv.1, sorted_keys pv.2) = f pv) ->
  flat_map f (enumerated path (map sorted_keys l)) = flat_map f (enumerated path l).
Proof.
  intros H. rewrite enumerated_map. induction (enumerated path l) as [|pv m IH]; [done |].
  cbn [map flat_map]. rewrite H by left. f_equal. apply IH. intros x Hx. apply H. by right.
Qed.

Lemma list_at_enumerated_unique path k d pv : unique_object d ->
  pv ∈ enumerated path (list_at k d) -> unique_keys pv.2 = true.
Proof. intros Hd H%enumerated_elem. by eapply list_at_unique. Qed.

Ltac sorted_reads :=
  rewrite ?object_of_sorted, ?text_at_sorted, ?list_at_sorted, ?field_of_sorted
    by eauto using unique_object_of, field_of_unique, list_at_enumerated_unique.

Lemma write_links_fuel_sorted fuel : forall v path order inside, unique_keys v = true ->
  _collect_write_links fuel (sorted_keys v) path order inside
  = _collect_write_links fuel v path order inside.
Proof.
  induction fuel as [|fuel IH]; intros v path order inside Hu; [done |].
  cbn [_collect_write_links]. cbv zeta. pose proof (unique_object_of v Hu) as Hd.
  sorted_reads. f_equal. repeat case_match; try done.
  - by rewrite IH by by apply field_of_unique.
  - apply flat_map_enumerated. intros pv Hpv. apply IH. by eapply list_at_enumerated_unique.
  - by rewrite !IH by by apply field_of_unique.
  - apply flat_map_enumerated. intros pv Hpv. cbn [fst snd].
    assert (unique_object (object_of pv.2)) as Ho
      by (eapply unique_object_of, list_at_enumerated_unique; done).
    rewrite object_of_sorted, field_of_sorted by done. apply IH. by apply field_of_unique.
Qed.

Lemma write_links_sorted v path order inside : unique_keys v = true ->
  write_links (sorted_keys v) path order inside = write_links v path order inside.
Proof. intros H. unfold write_links. rewrite json_depth_sorted. by apply write_links_fuel_sorted. Qed.

Lemma collect_statement_sorted body inside v path k : unique_keys v = true ->
  (forall l path k, (forall x, x ∈ l -> unique_keys x = true) ->
     body (map sorted_keys l) path k = body l path k) ->
  collect_statement body inside (sorted_keys v) path k = collect_statement body inside v path k.
Proof.
  intros Hu Hb. unfold collect_statement. cbv zeta. pose proof (unique_object_of v Hu) as Hd.
  sorted_reads. rewrite !write_links_sorted by by apply field_of_unique.
  repeat case_match; try done.
  - apply Hb. intros x Hx. by eapply list_at_unique.
  - do 2 f_equal. apply flat_map_enumerated. intros pv Hpv. cbn [fst snd].
    assert (unique_object (object_of pv.2)) as Ho
      by (eapply unique_object_of, list_at_enumerated_unique; done).
    rewrite object_of_sorted, field_of_sorted by done.
    apply write_links_sorted. by apply field_of_unique.
Qed.

Lemma fold_enumerated_sorted {A} (f : A -> string * json -> A) path l a :
  (forall a pv, pv ∈ enumerated path l -> f a (pv.1, sorted_keys pv.2) = f a pv) ->
  fold_left f (enumerated path (map sorted_keys l)) a = fold_left f (enumerated path l) a.
Proof.
  intros H. rewrite enumerated_map. revert a.
  induction (enumerated path l) as [|pv m IH]; intros a; [done |].
  cbn [map fold_left]. rewrite H by left. apply IH. intros b x Hx. apply H. by right.
Qed.

Lemma collect_links_sorted fuel : forall inside l path k,
  (forall x, x ∈ l -> unique_keys x = true) ->
  _collect_ir_1_1_links fuel inside (map sorted_keys l) path k
  = _collect_ir_1_1_links fuel inside l path k.
Proof.
  induction fuel as [|fuel IH]; intros inside l path k Hu; [done |].
  apply fold_enumerated_sorted. intros acc pv Hpv. apply bind_ext. intros k' _.
  apply collect_statement_sorted; [by apply Hu, (enumerated_elem path) | by apply IH].
Qed.

Lemma collect_tools_sorted l : (forall x, x ∈ l -> unique_keys x = true) ->
  collect_tools (map sorted_keys l) = collect_tools l.
Proof.
  intros Hu. apply fold_enumerated_sorted. intros acc pv Hpv. apply bind_ext. intros tools _.
  cbv zeta. cbn [fst snd]. rewrite object_of_sorted, !text_at_sorted; [done |..];
    apply unique_object_of, Hu; by apply (enumerated_elem "$.requires").
Qed.

Lemma links_sorted d : unique_object d ->
  _validate_ir_1_1_links (sorted_members d) = _validate_ir_1_1_links d.
Proof.
  intros Hd. unfold _validate_ir_1_1_links. cbv zeta.
  rewrite !list_at_sorted, !field_of_sorted, !text_at_sorted, json_depth_sorted by done.
  rewrite collect_tools_sorted by (intros x Hx; by eapply list_at_unique).
  apply bind_ext. intros tools _.
  by rewrite collect_links_sorted by (intros x Hx; by eapply list_at_unique).
Qed.

(** ** Documents *)

Lemma whole_free (f : json -> result unit) `{!OrderFree (fun v _ => f v)} k d :
  unique_object d -> f (field_of k d) = Ok tt -> f (sorted_keys (field_of k d)) = Ok tt.
Proof.
  intros Hd H.
  destruct (order_free (f := fun v _ => f v) _ "" tt (field_of_unique k d Hd) H) as [[] ?]. done.
Qed.

(** A document is accepted whatever the order of its members. *)
Lemma nso_document_sorted v : unique_keys v = true -> validate_nso_document v = Ok tt ->
  validate_nso_document (sorted_keys v) = Ok tt.
Proof.
  intros Hu H. unfold validate_nso_document, _object in *.
  do 12 follow_step H. apply bind_Ok in H as ([] & Hl & H).
  apply (whole_free validate_limits) in Hl; [| done].
  rewrite ?field_of_sorted by done. rewrite Hl. cbn [mbind result_bind].
  do 4 follow_step H. rewrite links_sorted by done.
  apply bind_Ok in H as ([] & Hk & H). rewrite Hk. cbn [mbind result_bind].
  apply bind_Ok in H as ([] & Ha & H). apply bind_Ok in H as ([] & Hh & Hb).
  apply (whole_free validate_analysis) in Ha; [| done].
  apply (whole_free validate_hashes) in Hh; [| done].
  apply (whole_free validate_build) in Hb; [| done].
  by rewrite Ha, Hh, Hb.
Qed.
