(* ===== verification/Artifacts.v ===== *)
(** * Skill artifacts: proofs

    What an encoded Skill decodes to, what a decoded Skill guarantees, and how
    the codec fails. *)

From S2P Require Import Prelude Digest Json JsonBoundary Decimal Core Decoding Values.
From S2P Require Import DataProtection Ir NsoSchema NsoCodec Restoration SchemaFacts.

(** ** Reading a written expression *)

(** The literals a document can hold; decimals in plain notation. *)
Definition literal_ok (v : value) : bool :=
  match v with
  | VBool _ | VInt _ | VStr _ => true
  | VDecimal d => value_stable v && bool_decide (plain_decimal d = d)
  | VMoney m => value_stable v && bool_decide (plain_decimal (amount m) = amount m)
  | _ => false
  end.

Fixpoint expr_ok (e : Expression) : bool :=
  type_wf (expr_type_info e) &&
  match e with
  | LiteralExpr _ v _ => literal_ok v
  | SymbolRefExpr _ _ _ => true
  | FieldExpr _ source _ _ | ProjectionExpr _ source _ _ => expr_ok source
  | CallExpr _ _ args _ => forallb expr_ok args
  | BinaryExpr _ _ l r _ => expr_ok l && expr_ok r
  | ReadExpr _ _ args _ _ => forallb (fun a => expr_ok a.2) args
  | WriteExpr n tool args approval t =>
      is_Ok (WriteExpression_post_init (MkWriteExpression n tool args approval t))
      && forallb (fun a => expr_ok a.2) args
  end.

Lemma sorted_literal v : literal_ok v = true -> sorted_keys (encode_value v) = encode_value v.
Proof. by destruct v. Qed.

Lemma read_literal v : literal_ok v = true -> decode_value (encode_value v) = Ok v.
Proof.
  intros H. rewrite decode_encoded by (destruct v; try done; by apply andb_prop in H as [H _]).
  f_equal. destruct v as [| | | |d|m| | | | |]; cbn in *; try done; split_bool; [congruence |].
  destruct m; cbn in *; congruence.
Qed.

Lemma forallb_elem {A} (f : A -> bool) l x : forallb f l = true -> x ∈ l -> f x = true.
Proof. intros H Hx. apply (proj1 (forallb_forall _ _) H). by apply list_elem_of_In. Qed.

(** A list of documents, read one by one. *)
Lemma read_list {A B} (read : json -> result B) (write : A -> json) (g : A -> B) l :
  Forall (fun x => read (sorted_keys (write x)) = Ok (g x)) l ->
  map_result read (map sorted_keys (map write l)) = Ok (map g l).
Proof.
  intros H. apply map_result_Ok. rewrite map_map. apply Forall2_fmap. by apply Forall_Forall2_diag.
Qed.

Lemma read_back {A} (read : json -> result A) (write : A -> json) l :
  Forall (fun x => read (sorted_keys (write x)) = Ok x) l ->
  map_result read (map sorted_keys (map write l)) = Ok l.
Proof. intros H. rewrite <- (map_id l) at 2. by apply (read_list _ _ (fun x => x)). Qed.


Lemma depth_named {A} (f : A -> json) (args : list (string * A)) a : a ∈ args ->
  json_depth (f a.2)
  < json_depth (JArr (map (fun a => JObj [("name", JStr a.1); ("value", f a.2)]) args)).
Proof.
  intros Ha. transitivity (json_depth (JObj [("name", JStr a.1); ("value", f a.2)])).
  - apply (depth_field "value"). apply list_elem_of_further, list_elem_of_here.
  - apply depth_item. by apply (list_elem_of_fmap_2 (fun a => JObj _) args a).
Qed.

Lemma depth_listed {A} (f : A -> json) (l : list A) x : x ∈ l ->
  json_depth (f x) < json_depth (JArr (map f l)).
Proof. intros Hx. apply depth_item. by apply (list_elem_of_fmap_2 f l x). Qed.

Ltac member := repeat first [apply list_elem_of_here | apply list_elem_of_further].

Lemma depth_under k v d fuel : json_depth (JObj d) <= S fuel -> (k, v) ∈ d ->
  json_depth v <= fuel.
Proof. intros Hf H%depth_field. lia. Qed.

Section ReadExpression.
Context (fuel : nat) (read := expr_from_data_fuel fuel).

Lemma read_named args :
  Forall (fun a => read (sorted_keys (_expr_to_data a.2)) = Ok a.2) args ->
  map_result (fun item =>
      e ← read (field_of "value" (object_of item)); Ok (text_at "name" (object_of item), e))
    (map sorted_keys (map (fun a => JObj [("name", JStr a.1); ("value", _expr_to_data a.2)]) args))
  = Ok args.
Proof.
  intros H. apply (read_back _ (fun a : string * Expression =>
    JObj [("name", JStr a.1); ("value", _expr_to_data a.2)])).
  eapply Forall_impl; [exact H |]. intros [k e] He. cbn [fst snd] in *.
  apply (bind_intro e); [exact He | done].
Qed.
End ReadExpression.

Lemma read_expression e : forall fuel, json_depth (_expr_to_data e) <= fuel -> expr_ok e = true ->
  expr_from_data_fuel fuel (sorted_keys (_expr_to_data e)) = Ok e.
Proof.
  induction e as [n v t|n s t|n src f t IH|n src f t IH|n f args t IH|n op l r t IHl IHr
    |n tool args t p IH|n tool args a t IH] using Expression_rect'; intros [|fuel] Hf Hok;
    try (cbn in Hf; lia); cbn [expr_ok expr_type_info] in Hok; apply andb_prop in Hok as [Ht Hok];
    apply (bind_intro t); try (apply read_type; exact Ht); cbn [_expr_to_data base app] in Hf.
  - apply (bind_intro v); [| done]. change (decode_value (sorted_keys (encode_value v)) = Ok v).
    rewrite sorted_literal by done. by apply read_literal.
  - reflexivity.
  - apply (bind_intro src); [| done]. apply IH; [| exact Hok].
    exact (depth_under "source" (_expr_to_data src) _ _ Hf ltac:(member)).
  - apply (bind_intro src); [| done]. apply IH; [| exact Hok].
    exact (depth_under "source" (_expr_to_data src) _ _ Hf ltac:(member)).
  - pose proof (depth_under "arguments" (JArr (map _expr_to_data args)) _ _ Hf ltac:(member)) as Ha.
    apply (bind_intro args); [| done]. apply read_back.
    rewrite Forall_forall in *. intros x Hx. apply IH; [done | | by eapply forallb_elem].
    pose proof (depth_listed _expr_to_data args x Hx). lia.
  - apply andb_prop in Hok as [Hl Hr].
    pose proof (depth_under "left" (_expr_to_data l) _ _ Hf ltac:(member)).
    pose proof (depth_under "right" (_expr_to_data r) _ _ Hf ltac:(member)).
    apply (bind_intro l); [by apply IHl |].
    apply (bind_intro r); [by apply IHr | done].
  - pose proof (depth_under "arguments" _ _ _ Hf ltac:(member)) as Ha.
    apply (bind_intro args); [| by destruct p].
    apply read_named. rewrite Forall_forall in *. intros x Hx.
    apply IH; [done | | by apply (forallb_elem (fun a => expr_ok a.2) args)].
    pose proof (depth_named _expr_to_data args x Hx). lia.
  - pose proof (depth_under "arguments" _ _ _ Hf ltac:(member)) as Ha.
    apply andb_prop in Hok as [Hw Hok].
    apply (bind_intro args).
    + apply read_named. rewrite Forall_forall in *. intros x Hx.
      apply IH; [done | | by apply (forallb_elem (fun a => expr_ok a.2) args)].
      pose proof (depth_named _expr_to_data args x Hx). lia.
    + apply (bind_intro (MkWriteExpression n tool args a t));
        [| done].
      apply (bind_intro tt); [| done]. by destruct (WriteExpression_post_init _) as [[]|].
Qed.

Lemma read_expr e : expr_ok e = true ->
  _expr_from_data (sorted_keys (_expr_to_data e)) = Ok e.
Proof.
  intros H. unfold _expr_from_data. rewrite json_depth_sorted. by apply read_expression.
Qed.

(** ** Statements *)

Fixpoint statement_ok (s : Statement) : bool :=
  match s with
  | LetStatement _ _ v => expr_ok v
  | ForeachStatement _ _ coll _ body => expr_ok coll && forallb statement_ok body
  | CheckStmt c => expr_ok (cs_condition c)
  | EmitStatement _ fields => forallb (fun f => expr_ok f.2) fields
  | ApprovalStmt a => is_Ok (ApprovalStatement_post_init a)
                      && is_Ok (ApprovalPolicy_post_init (as_policy a))
  end.

Lemma read_approval_policy p : is_Ok (ApprovalPolicy_post_init p) = true ->
  approval_policy_of (object_of (sorted_keys (approval_policy_to_data p))) = Ok p.
Proof.
  destruct p as [req ttl]. intros H. unfold approval_policy_of, new_ApprovalPolicy.
  destruct ttl as [t|]; cbn -[ApprovalPolicy_post_init] in *;
    by destruct (ApprovalPolicy_post_init _) as [[]|].
Qed.

Lemma read_statement_fuel s : forall fuel, json_depth (_statement_to_data s) <= fuel ->
  statement_ok s = true ->
  statement_from_data_fuel fuel (sorted_keys (_statement_to_data s)) = Ok s.
Proof.
  induction s as [n target v|n it coll m body IH|c|n fields|a] using Statement_rect';
    intros [|fuel] Hf Hok; try (cbn in Hf; lia); cbn [statement_ok] in Hok.
  - apply (bind_intro v); [by apply read_expr | done].
  - cbn [_statement_to_data] in Hf. apply andb_prop in Hok as [Hc Hb].
    pose proof (depth_under "body" (JArr (map _statement_to_data body)) _ _ Hf ltac:(member)).
    apply (bind_intro coll); [by apply read_expr |].
    apply (bind_intro body); [| done]. apply read_back.
    rewrite Forall_forall in *. intros x Hx. apply IH; [done | | by eapply forallb_elem].
    pose proof (depth_listed _statement_to_data body x Hx). lia.
  - apply (bind_intro (cs_condition c)); [by apply read_expr | by destruct c].
  - apply (bind_intro fields); [| done].
    apply (read_back _ (fun a : string * Expression =>
      JObj [("name", JStr a.1); ("value", _expr_to_data a.2)])).
    apply Forall_forall. intros [k e] Hx. cbn [fst snd].
    apply (bind_intro e); [| done]. apply read_expr.
    exact (forallb_elem (fun f : string * Expression => expr_ok f.2) _ _ Hok Hx).
  - apply andb_prop in Hok as [Ha Hp].
    apply (bind_intro (as_policy a)); [by apply read_approval_policy |].
    apply (bind_intro a); [| done]. destruct a as [n id message policy].
    apply (bind_intro tt); [| done].
    change (ApprovalStatement_post_init (MkApprovalStatement n id message policy) = Ok tt).
    by destruct (ApprovalStatement_post_init _) as [[]|].
Qed.

Lemma read_statement s : statement_ok s = true ->
  _statement_from_data (sorted_keys (_statement_to_data s)) = Ok s.
Proof.
  intros H. unfold _statement_from_data. rewrite json_depth_sorted. by apply read_statement_fuel.
Qed.

(** ** The declarations of a Skill *)

Lemma read_classification_of name c d :
  text_at name d = classification_value c -> classification_of name d = Ok c.
Proof. unfold classification_of, enum_at. intros ->. by destruct c. Qed.

Lemma read_symbol s : type_wf (sym_type_info s) = true ->
  symbol_from_data (sorted_keys (symbol_to_data s)) = Ok s.
Proof.
  intros H. apply (bind_intro (sym_type_info s)); [by apply read_type |].
  apply (bind_intro (sym_classification s)); [by apply read_classification_of | by destruct s].
Qed.

Lemma read_input s : type_wf (in_type_info s) = true ->
  input_from_data (sorted_keys (input_to_data s)) = Ok s.
Proof.
  intros H. apply (bind_intro (in_type_info s)); [by apply read_type |].
  apply (bind_intro (in_classification s)); [by apply read_classification_of | by destruct s].
Qed.

Lemma read_texts l : map text_of (map sorted_keys (map JStr l)) = l.
Proof. rewrite !map_map. apply map_id. Qed.

Lemma read_context s : type_wf (cx_type_info s) = true ->
  context_from_data (sorted_keys (context_to_data s)) = Ok s.
Proof.
  intros H. apply (bind_intro (cx_type_info s)); [by apply read_type |].
  apply (bind_intro (cx_classification s)); [by apply read_classification_of |].
  destruct s as [id name t path c].
  change (Ok (MkContextSpec id name t (map text_of (map sorted_keys (map JStr path))) c)
          = Ok (MkContextSpec id name t path c)).
  by rewrite read_texts.
Qed.

Lemma read_output s : type_wf (out_type_info s) = true ->
  output_from_data (sorted_keys (output_to_data s)) = Ok s.
Proof.
  intros H. apply (bind_intro (out_type_info s)); [by apply read_type |].
  apply (bind_intro (out_classification s)); [by apply read_classification_of | by destruct s].
Qed.

(** A required tool as its constructor builds it; an IR 1.0 document has no
    place for its risk level. *)
Definition tool_ok (ir_version : string) (t : RequiredTool) : bool :=
  match rt_capability t with
  | Capability WRITE => String.eqb ir_version "1.1" && bool_decide (is_Some (rt_risk_level t))
  | Capability _ => String.eqb ir_version "1.1" || bool_decide (rt_risk_level t = None)
  | OtherCapability _ => false
  end.

Lemma read_required ir t : tool_ok ir t = true ->
  required_from_data (sorted_keys (required_tool_to_data ir t)) = Ok t.
Proof.
  destruct t as [tool_ref id version cap hash scope c risk].
  unfold tool_ok, required_tool_to_data, required_from_data. cbn [rt_capability rt_risk_level].
  intros H. destruct cap as [cap|]; [| discriminate H].
  destruct risk as [r|].
  - assert (String.eqb ir "1.1" = true) as -> by
      (destruct cap, (String.eqb ir "1.1"); (reflexivity || discriminate H)).
    eapply bind_intro; [apply (read_classification_of _ c); reflexivity |].
    by destruct r, cap.
  - eapply bind_intro; [apply (read_classification_of _ c); reflexivity |].
    destruct cap; try reflexivity. by rewrite andb_false_r in H.
Qed.

Lemma read_limits l : limits_from_data (object_of (sorted_keys (limits_to_data l))) = l.
Proof. by destruct l. Qed.

Lemma read_analysis a : analysis_from_data (object_of (sorted_keys (analysis_to_data a))) = a.
Proof. by destruct a. Qed.

Lemma read_sources l :
  map source_from_data (map sorted_keys (map manifest_item l)) = l.
Proof. rewrite !map_map. rewrite <- (map_id l) at 2. apply map_ext. by intros []. Qed.

Lemma read_build b : build_from_data (object_of (sorted_keys (build_to_data b))) = b.
Proof.
  destruct b as [h root sources].
  change (MkBuildMetadata h root (map source_from_data (map sorted_keys (map manifest_item sources)))
          = MkBuildMetadata h root sources).
  by rewrite read_sources.
Qed.

(** ** Skills *)

(** A Skill as its constructors build it, with its literals in plain notation
    and, in IR 1.0, without risk levels. *)
Definition skill_ok (s : SkillObject) : bool :=
  forallb (fun i => type_wf (sym_type_info i)) (sk_symbols s)
  && forallb (tool_ok (sk_ir_version s)) (sk_required_tools s)
  && forallb (fun i => type_wf (in_type_info i)) (sk_inputs s)
  && forallb (fun i => type_wf (cx_type_info i)) (sk_contexts s)
  && forallb (fun i => type_wf (out_type_info i)) (sk_outputs s)
  && forallb statement_ok (sk_body s).

(** The hashes of the Skill are those of its content. *)
Definition hashes_ok (s : SkillObject) : Prop :=
  with_computed_hash s = s
  /\ bm_source_bundle_sha256 (sk_build s) = source_manifest_sha256 (bm_sources (sk_build s)).

Lemma read_all {A} (read : json -> result A) (write : A -> json) (ok : A -> bool) l :
  (forall x, ok x = true -> read (sorted_keys (write x)) = Ok x) -> forallb ok l = true ->
  map_result read (map sorted_keys (map write l)) = Ok l.
Proof.
  intros H Hok. apply read_back, Forall_forall. intros x Hx. apply H. by eapply forallb_elem.
Qed.

Lemma features_back (x : gset string) : list_to_set (sort_strings (elements x)) = x.
Proof. apply set_eq. intros a. rewrite elem_of_list_to_set, sort_strings_perm. apply elem_of_elements. Qed.

Lemma skill_document_sorted s :
  object_of (sorted_keys (skill_to_data s true true)) =
  [("analysis", sorted_keys (analysis_to_data (sk_analysis s)));
   ("body", JArr (map sorted_keys (map _statement_to_data (sk_body s))));
   ("build", sorted_keys (build_to_data (sk_build s)));
   ("contexts", JArr (map sorted_keys (map context_to_data (sk_contexts s))));
   ("features", JArr (map sorted_keys (map JStr (sort_strings (elements (sk_features s))))));
   ("format", JStr "NSO");
   ("hashes", JObj [("semantic_sha256", JStr (sk_semantic_hash s));
                    ("source_bundle_sha256", JStr (bm_source_bundle_sha256 (sk_build s)))]);
   ("inputs", JArr (map sorted_keys (map input_to_data (sk_inputs s))));
   ("ir_version", JStr (sk_ir_version s));
   ("language", JObj [("name", JStr "NSL"); ("version", JStr (sk_language_version s))]);
   ("limits", sorted_keys (limits_to_data (sk_limits s)));
   ("output", JArr (map sorted_keys (map output_to_data (sk_outputs s))));
   ("requires", JArr (map sorted_keys
      (map (required_tool_to_data (sk_ir_version s)) (sk_required_tools s))));
   ("semantics_profile", JStr (sk_semantics_profile s));
   ("skill", JObj [("id", JStr (sk_skill_id s)); ("risk", JStr (sk_risk s));
                   ("version", JStr (sk_skill_version s))]);
   ("symbols", JArr (map sorted_keys (map symbol_to_data (sk_symbols s))))].
Proof. reflexivity. Qed.

Lemma read_skill s : skill_ok s = true -> hashes_ok s ->
  skill_from_data (object_of (sorted_keys (skill_to_data s true true))) = Ok s.
Proof.
  unfold skill_ok. intros H [Hh Hb]. split_bool. rewrite skill_document_sorted.
  eapply bind_intro; [by eapply (read_all _ _ _ _ read_symbol) |].
  eapply bind_intro; [by eapply (read_all _ _ _ _ (read_required _)) |].
  eapply bind_intro; [by eapply (read_all _ _ _ _ read_input) |].
  eapply bind_intro; [by eapply (read_all _ _ _ _ read_context) |].
  eapply bind_intro; [by eapply (read_all _ _ _ _ read_output) |].
  cbv zeta.
  change (object_at "build" _) with (object_of (sorted_keys (build_to_data (sk_build s)))).
  change (object_at "limits" _) with (object_of (sorted_keys (limits_to_data (sk_limits s)))).
  change (object_at "analysis" _) with (object_of (sorted_keys (analysis_to_data (sk_analysis s)))).
  rewrite read_build, read_limits, read_analysis.
  change (text_at "source_bundle_sha256" _) with (bm_source_bundle_sha256 (sk_build s)).
  apply (bind_intro tt); [by rewrite String.eqb_refl |].
  apply (bind_intro tt); [by rewrite Hb, String.eqb_refl |].
  eapply bind_intro; [by eapply (read_all _ _ _ _ read_statement) |].
  change (list_at "features" _)
    with (map sorted_keys (map JStr (sort_strings (elements (sk_features s))))).
  rewrite read_texts, features_back.
  match goal with |- context [with_computed_hash ?t] => assert (t = s) as -> by by destruct s end.
  by rewrite Hh, String.eqb_refl.
Qed.

(** ** The document of a Skill *)

Lemma unique_expression e : expr_ok e = true -> unique_keys (_expr_to_data e) = true.
Proof.
  assert (forall args : list (string * Expression),
    Forall (fun a => expr_ok a.2 = true -> unique_keys (_expr_to_data a.2) = true) args ->
    forallb (fun a => expr_ok a.2) args = true ->
    unique_keys (JArr (map (fun a => JObj [("name", JStr a.1); ("value", _expr_to_data a.2)]) args))
    = true) as Hargs.
  { intros args IH H. apply unique_array, forallb_forall. intros [k e'] Hx. cbn. rewrite andb_true_r.
    rewrite Forall_forall in IH. apply (IH (k, e')); [by apply list_elem_of_In |].
    by apply (proj1 (forallb_forall _ _) H (k, e')). }
  induction e as [n v t|n s t|n src f t IH|n src f t IH|n f args t IH|n op l r t IHl IHr
    |n tool args t p IH|n tool args a t IH] using Expression_rect';
    cbn [expr_ok expr_type_info _expr_to_data base app]; intros [_ H]%andb_prop;
    apply unique_members_intro; try reflexivity; cbn [forallb fst snd]; rewrite unique_type; cbn [andb].
  - by destruct v.
  - reflexivity.
  - by rewrite IH.
  - by rewrite IH.
  - rewrite andb_true_r. apply unique_array, forallb_forall. intros x Hx.
    rewrite Forall_forall in IH. apply IH; [by apply list_elem_of_In |].
    by apply (proj1 (forallb_forall _ _) H).
  - apply andb_prop in H as [Hl Hr]. by rewrite IHl, IHr.
  - rewrite (Hargs args IH H). by destruct p.
  - apply andb_prop in H as [_ H]. by rewrite (Hargs args IH H).
Qed.

Lemma unique_named args : forallb (fun a : string * Expression => expr_ok a.2) args = true ->
  unique_keys (JArr (map (fun a => JObj [("name", JStr a.1); ("value", _expr_to_data a.2)]) args))
  = true.
Proof.
  intros H. apply unique_array, forallb_forall. intros [k e] Hx. cbn. rewrite andb_true_r.
  apply unique_expression. by apply (proj1 (forallb_forall _ _) H (k, e)).
Qed.

Lemma unique_statement s : statement_ok s = true -> unique_keys (_statement_to_data s) = true.
Proof.
  induction s as [n target v|n it coll m body IH|c|n fields|a] using Statement_rect';
    cbn [statement_ok _statement_to_data]; intros H; apply unique_members_intro; try reflexivity;
    cbn [forallb fst snd].
  - by rewrite unique_expression.
  - apply andb_prop in H as [Hc Hb]. rewrite unique_expression by done.
    cbn [andb]. rewrite andb_true_r. apply (unique_array _statement_to_data), forallb_forall.
    intros x Hx. rewrite Forall_forall in IH. apply IH; [by apply list_elem_of_In |].
    by apply (proj1 (forallb_forall _ _) Hb).
  - by rewrite unique_expression.
  - by rewrite unique_named.
  - destruct a as [? ? ? [? []]]; reflexivity.
Qed.

Lemma unique_all {A} (doc : A -> json) (ok : A -> bool) l :
  (forall x, ok x = true -> unique_keys (doc x) = true) -> forallb ok l = true ->
  unique_keys (JArr (map doc l)) = true.
Proof. intros H Hl. apply unique_array. by eapply forallb_impl. Qed.

Lemma unique_tool ir t : unique_keys (required_tool_to_data ir t) = true.
Proof.
  destruct t as [? ? ? [] ? ? ? [r|]]; unfold required_tool_to_data; cbn [rt_risk_level];
    try destruct (String.eqb ir "1.1"); reflexivity.
Qed.

Lemma unique_context c : unique_keys (context_to_data c) = true.
Proof.
  apply unique_members_intro; [done |]. cbn [forallb fst snd].
  rewrite unique_type, unique_texts. reflexivity.
Qed.

Lemma unique_typed d t d' : no_duplicates (map fst (d ++ ("type", type_to_data t) :: d')) = true ->
  forallb (fun kv => unique_keys kv.2) (d ++ d') = true ->
  unique_keys (JObj (d ++ ("type", type_to_data t) :: d')) = true.
Proof.
  intros Hn H. apply unique_members_intro; [done |]. rewrite forallb_app in *.
  cbn [forallb snd]. by rewrite unique_type.
Qed.

Lemma unique_build b : unique_keys (build_to_data b) = true.
Proof.
  apply unique_members_intro; [done |]. cbn [forallb fst snd].
  assert (unique_keys (JArr (map manifest_item (bm_sources b))) = true) as H
    by (apply unique_array, forallb_forall; done).
  change (unique_keys (JArr (map manifest_item (bm_sources b))) && true = true). by rewrite H.
Qed.

Lemma unique_skill s : skill_ok s = true -> unique_keys (skill_to_data s true true) = true.
Proof.
  unfold skill_ok. intros H. split_bool. apply unique_members_intro; [done |].
  cbn [app forallb fst snd]. rewrite unique_texts, unique_build.
  rewrite (unique_all symbol_to_data (fun _ => true)), (unique_all input_to_data (fun _ => true)),
    (unique_all output_to_data (fun _ => true)), (unique_all context_to_data (fun _ => true)),
    (unique_all _ (fun _ => true) _ (fun t _ => unique_tool _ t)),
    (unique_all _statement_to_data statement_ok) by
    (done || (apply forallb_forall; done) || (by intros; apply unique_statement)
     || (by intros; apply unique_context)
     || (by intros; apply unique_members_intro; [| cbn [forallb fst snd]; rewrite unique_type])).
  reflexivity.
Qed.

(** ** The credential check does not look at the order of members *)

Lemma clean_sorted v : Clean (value_of_json v) -> Clean (value_of_json (sorted_keys v)).
Proof.
  induction v as [| | | |l IH|d IH] using json_rect'; try done.
  - cbn [sorted_keys value_of_json]. intros H. inversion_clear H as [| | | | | | | |l' Hl| |].
    constructor. rewrite Forall_forall in IH. rewrite Forall_forall in Hl. apply Forall_forall. intros x.
    change (@map) with (@fmap list _). rewrite !list_elem_of_fmap.
    intros (y & -> & (z & -> & Hz)%list_elem_of_fmap). apply IH; [done |]. apply Hl.
    exact (list_elem_of_fmap_2 value_of_json l z Hz).
  - rewrite sorted_obj. cbn [value_of_json]. intros H. inversion_clear H as [| | | | | | | | | |d' Hd].
    constructor. change (@map) with (@fmap list _). rewrite sorted_members_perm.
    rewrite Forall_forall in IH. rewrite Forall_forall in Hd. apply Forall_forall. intros x. change (@map) with (@fmap list _).
    rewrite !list_elem_of_fmap. intros (y & -> & ([k z] & -> & Hz)%list_elem_of_fmap). cbn [fst snd].
    destruct (Hd (k, value_of_json z)) as (H1 & H2 & H3).
    { by apply (list_elem_of_fmap_2 (fun kv => (kv.1, value_of_json kv.2)) d (k, z)). }
    split; [exact H1 |]. split; [| by apply (IH (k, z))]. intros Hk. specialize (H2 Hk).
    by destruct z.
Qed.

Lemma decode_encoded_skill (skill : SkillObject) (data : list ascii) :
  skill_ok skill = true -> hashes_ok skill -> nso_encode skill = Ok data ->
  nso_decode data = Ok skill.
Proof.
  intros Hok Hh H. unfold nso_encode in H. cbv zeta in H.
  apply bind_Ok in H as ([] & Hc & H). apply bind_Ok in H as ([] & Hv & <-%Ok_inj).
  pose proof (unique_skill skill Hok) as Hu.
  apply (bind_intro (sorted_keys (skill_to_data skill true true))).
  { exact (load_canonical _ _ _ Hu). }
  apply (bind_intro tt).
  { apply ensure_Ok, find_credential_path_none, clean_sorted.
    by apply ensure_Ok, find_credential_path_none in Hc. }
  apply (bind_intro tt); [by apply nso_document_sorted |]. by apply read_skill.
Qed.

(** ** What a document keeps of a Skill

    A document has no place for the risk level of a tool of IR 1.0, and
    decimals are written out, so a positive exponent becomes zeros. A Skill is
    [settled] when it is as its document says. *)

Definition settled_literal (v : value) : value :=
  match v with
  | VDecimal d => VDecimal (plain_decimal d)
  | VMoney m => VMoney (MkMoney (plain_decimal (amount m)) (currency m))
  | _ => v
  end.

Fixpoint settled_expr (e : Expression) : Expression :=
  match e with
  | LiteralExpr n v t => LiteralExpr n (settled_literal v) t
  | SymbolRefExpr n s t => SymbolRefExpr n s t
  | FieldExpr n source f t => FieldExpr n (settled_expr source) f t
  | ProjectionExpr n source f t => ProjectionExpr n (settled_expr source) f t
  | CallExpr n f args t => CallExpr n f (map settled_expr args) t
  | BinaryExpr n op l r t => BinaryExpr n op (settled_expr l) (settled_expr r) t
  | ReadExpr n tool args t p =>
      ReadExpr n tool (map (fun a => (a.1, settled_expr a.2)) args) t p
  | WriteExpr n tool args approval t =>
      WriteExpr n tool (map (fun a => (a.1, settled_expr a.2)) args) approval t
  end.

Fixpoint settled_statement (s : Statement) : Statement :=
  match s with
  | LetStatement n target v => LetStatement n target (settled_expr v)
  | ForeachStatement n it coll m body =>
      ForeachStatement n it (settled_expr coll) m (map settled_statement body)
  | CheckStmt c =>
      CheckStmt (MkCheckStatement (cs_node_id c) (cs_check_id c) (settled_expr (cs_condition c))
                   (cs_severity c) (cs_on_fail c) (cs_message c) (cs_result_symbol_id c))
  | EmitStatement n fields => EmitStatement n (map (fun f => (f.1, settled_expr f.2)) fields)
  | ApprovalStmt a => ApprovalStmt a
  end.

Definition settled_tool (ir_version : string) (t : RequiredTool) : RequiredTool :=
  if String.eqb ir_version "1.1" then t
  else MkRequiredTool (rt_tool_ref t) (rt_tool_id t) (rt_version t) (rt_capability t)
         (rt_contract_hash t) (rt_required_scope t) (rt_output_classification t) None.

Definition settled_skill (s : SkillObject) : SkillObject :=
  MkSkillObject (sk_ir_version s) (sk_language_version s) (sk_skill_id s) (sk_skill_version s)
    (sk_risk s) (sk_semantics_profile s) (sk_semantic_hash s) (sk_features s) (sk_symbols s)
    (map (settled_tool (sk_ir_version s)) (sk_required_tools s)) (sk_limits s) (sk_inputs s)
    (sk_contexts s) (sk_outputs s) (map settled_statement (sk_body s)) (sk_analysis s)
    (sk_build s).

(** *** What the constructors give

    Types are well formed, WRITE expressions, approvals and required tools
    passed their [__post_init__], and literals are those of the language:
    booleans, integers, texts, and decimals and amounts within the range of
    the decimal context. *)

Definition literal_built (v : value) : bool :=
  match v with
  | VBool _ | VInt _ | VStr _ => true
  | VDecimal _ | VMoney _ => value_stable v
  | _ => false
  end.

Fixpoint expr_built (e : Expression) : bool :=
  type_wf (expr_type_info e) &&
  match e with
  | LiteralExpr _ v _ => literal_built v
  | SymbolRefExpr _ _ _ => true
  | FieldExpr _ source _ _ | ProjectionExpr _ source _ _ => expr_built source
  | CallExpr _ _ args _ => forallb expr_built args
  | BinaryExpr _ _ l r _ => expr_built l && expr_built r
  | ReadExpr _ _ args _ _ => forallb (fun a => expr_built a.2) args
  | WriteExpr n tool args approval t =>
      is_Ok (WriteExpression_post_init (MkWriteExpression n tool args approval t))
      && forallb (fun a => expr_built a.2) args
  end.

Fixpoint statement_built (s : Statement) : bool :=
  match s with
  | LetStatement _ _ v => expr_built v
  | ForeachStatement _ _ coll _ body => expr_built coll && forallb statement_built body
  | CheckStmt c => expr_built (cs_condition c)
  | EmitStatement _ fields => forallb (fun f => expr_built f.2) fields
  | ApprovalStmt a => is_Ok (ApprovalStatement_post_init a)
                      && is_Ok (ApprovalPolicy_post_init (as_policy a))
  end.

Definition tool_built (t : RequiredTool) : bool :=
  match rt_capability t with
  | Capability WRITE => bool_decide (is_Some (rt_risk_level t))
  | Capability _ => true
  | OtherCapability s => bool_decide (ToolCapability_of s = None)
  end.

Definition skill_built (s : SkillObject) : bool :=
  forallb (fun i => type_wf (sym_type_info i)) (sk_symbols s)
  && forallb tool_built (sk_required_tools s)
  && forallb (fun i => type_wf (in_type_info i)) (sk_inputs s)
  && forallb (fun i => type_wf (cx_type_info i)) (sk_contexts s)
  && forallb (fun i => type_wf (out_type_info i)) (sk_outputs s)
  && forallb statement_built (sk_body s).

(** *** The document of a settled Skill is that of the Skill *)

Lemma map_ext_Forall {A B} (f g : A -> B) l : Forall (fun x => f x = g x) l -> map f l = map g l.
Proof. induction 1 as [|x l Hx _ IH]; [done |]. cbn. by rewrite Hx, IH. Qed.

Lemma settled_literal_data v : encode_value (settled_literal v) = encode_value v.
Proof.
  destruct v as [| | | |d|m| | | | |]; try done; cbn [settled_literal encode_value encode_money].
  - by rewrite format_plain.
  - unfold encode_money. cbn [amount currency]. by rewrite format_plain.
Qed.

Lemma settled_named_data args :
  Forall (fun a : string * Expression => _expr_to_data (settled_expr a.2) = _expr_to_data a.2) args ->
  map (fun a => JObj [("name", JStr a.1); ("value", _expr_to_data a.2)])
    (map (fun a => (a.1, settled_expr a.2)) args)
  = map (fun a => JObj [("name", JStr a.1); ("value", _expr_to_data a.2)]) args.
Proof.
  intros H. rewrite map_map. apply map_ext_Forall. eapply Forall_impl; [exact H |].
  intros [k e] He. cbn [fst snd] in *. by rewrite He.
Qed.

Lemma settled_type e : expr_type_info (settled_expr e) = expr_type_info e.
Proof. by destruct e. Qed.

Lemma settled_expr_data e : _expr_to_data (settled_expr e) = _expr_to_data e.
Proof.
  induction e as [n v t|n s t|n src f t IH|n src f t IH|n f args t IH|n op l r t IHl IHr
    |n tool args t p IH|n tool args a t IH] using Expression_rect'; cbn [settled_expr _expr_to_data].
  - by rewrite settled_literal_data.
  - done.
  - by rewrite IH.
  - by rewrite IH.
  - by rewrite map_map, (map_ext_Forall _ _ _ IH).
  - by rewrite IHl, IHr.
  - by rewrite settled_named_data.
  - by rewrite settled_named_data.
Qed.

Lemma settled_statement_data s : _statement_to_data (settled_statement s) = _statement_to_data s.
Proof.
  induction s as [n target v|n it coll m body IH|c|n fields|a] using Statement_rect';
    cbn [settled_statement _statement_to_data cs_node_id cs_check_id cs_condition cs_severity
      cs_on_fail cs_message cs_result_symbol_id]; rewrite ?settled_expr_data; try done.
  - by rewrite map_map, (map_ext_Forall _ _ _ IH).
  - rewrite settled_named_data; [done |]. apply Forall_forall. intros f _. apply settled_expr_data.
Qed.

Lemma settled_tool_data ir t :
  required_tool_to_data ir (settled_tool ir t) = required_tool_to_data ir t.
Proof.
  unfold settled_tool, required_tool_to_data. destruct (String.eqb ir "1.1"); [done |].
  by destruct t as [? ? ? ? ? ? ? []].
Qed.

Lemma settled_data s h b : skill_to_data (settled_skill s) h b = skill_to_data s h b.
Proof.
  unfold skill_to_data, settled_skill. cbn [sk_ir_version sk_language_version sk_skill_id
    sk_skill_version sk_risk sk_semantics_profile sk_semantic_hash sk_features sk_symbols
    sk_required_tools sk_limits sk_inputs sk_contexts sk_outputs sk_body sk_analysis sk_build].
  rewrite !map_map, (map_ext _ _ (settled_tool_data (sk_ir_version s))).
  by rewrite (map_ext _ _ settled_statement_data).
Qed.

Lemma settled_hashes s : hashes_ok s -> hashes_ok (settled_skill s).
Proof.
  intros [Hh Hb]. split; [| exact Hb]. unfold with_computed_hash. rewrite settled_data.
  apply (f_equal settled_skill) in Hh. exact Hh.
Qed.

(** *** A settled Skill can be read back *)

Lemma stable_plain d : decimal_stable d = true -> decimal_stable (plain_decimal d) = true.
Proof.
  unfold decimal_stable. rewrite plain_decimal_twice. intros [H1 H2]%andb_prop. rewrite H1.
  destruct d as [? ? e| |]; cbn [plain_decimal]; [by destruct (0 <? e)%Z | done | exact H2].
Qed.

Lemma settled_literal_ok v : literal_built v = true -> literal_ok (settled_literal v) = true.
Proof.
  destruct v as [| | | |d|m| | | | |]; try done;
    cbn [literal_built settled_literal literal_ok value_stable amount currency];
    rewrite plain_decimal_twice, bool_decide_eq_true_2, andb_true_r by done.
  - apply stable_plain.
  - rewrite plain_finite. intros H. split_bool. by rewrite stable_plain, H1, H0.
Qed.

Lemma settled_names (args : list (string * Expression)) :
  map fst (map (fun a => (a.1, settled_expr a.2)) args) = map fst args.
Proof. by rewrite map_map. Qed.

Lemma settled_write n tool args a t :
  WriteExpression_post_init (MkWriteExpression n tool (map (fun a => (a.1, settled_expr a.2)) args) a t)
  = WriteExpression_post_init (MkWriteExpression n tool args a t).
Proof.
  unfold WriteExpression_post_init. cbn [we_node_id we_tool_ref we_approval_ref we_arguments].
  rewrite settled_names.
  assert (forall check : string * Expression -> result unit,
    (forall b, check (b.1, settled_expr b.2) = check b) ->
    each check (map (fun b => (b.1, settled_expr b.2)) args) = each check args) as Heach.
  { intros check Hc. induction args as [|b args IH]; [done |]. cbn [map each]. by rewrite Hc, IH. }
  by rewrite Heach.
Qed.

Lemma forallb_map_impl {A B} (f : A -> B) (p : A -> bool) (q : B -> bool) l :
  Forall (fun x => p x = true -> q (f x) = true) l -> forallb p l = true -> forallb q (map f l) = true.
Proof. induction 1 as [|x l Hx _ IH]; [done |]. cbn. intros H. split_bool. by rewrite Hx, IH. Qed.

Lemma settled_expr_ok e : expr_built e = true -> expr_ok (settled_expr e) = true.
Proof.
  induction e as [n v t|n s t|n src f t IH|n src f t IH|n f args t IH|n op l r t IHl IHr
    |n tool args t p IH|n tool args a t IH] using Expression_rect'; cbn [expr_built settled_expr expr_ok
    expr_type_info]; intros [Ht H]%andb_prop; rewrite Ht; cbn [andb].
  - by apply settled_literal_ok.
  - done.
  - by apply IH.
  - by apply IH.
  - by apply (forallb_map_impl _ expr_built).
  - apply andb_prop in H as [Hl Hr]. by rewrite IHl, IHr.
  - by apply (forallb_map_impl _ (fun a => expr_built a.2)).
  - apply andb_prop in H as [Hw H]. rewrite settled_write, Hw.
    by apply (forallb_map_impl _ (fun a => expr_built a.2)).
Qed.

Lemma settled_statement_ok s : statement_built s = true -> statement_ok (settled_statement s) = true.
Proof.
  induction s as [n target v|n it coll m body IH|c|n fields|a] using Statement_rect';
    cbn [statement_built settled_statement statement_ok cs_condition]; try (by apply settled_expr_ok).
  - intros [Hc Hb]%andb_prop. rewrite settled_expr_ok by done.
    by apply (forallb_map_impl _ statement_built).
  - apply (forallb_map_impl _ (fun f => expr_built f.2)), Forall_forall.
    intros f _. apply settled_expr_ok.
  - done.
Qed.

(** What [encode] accepted: the version is known, a capability is one of the
    known ones, and IR 1.0 knows [READ] only. *)
Lemma encoded_tool s data r : nso_encode s = Ok data -> r ∈ sk_required_tools s ->
  exists c, sk_ir_version s ∈ IR_VERSIONS /\ c ∈ TOOL_CAPABILITIES
    /\ capability_to_data (rt_capability r) = JStr c
    /\ (sk_ir_version s = "1.0" -> c = "READ").
Proof.
  intros H Hr. unfold nso_encode in H. apply bind_Ok in H as (u & _ & H).
  apply bind_Ok in H as ([] & Hv & _). unfold validate_nso_document in Hv.
  apply bind_Ok in Hv as (d & Ed%object_is & Hv).
  apply bind_Ok in Hv as (u1 & _ & Hv). apply bind_Ok in Hv as (ir & Hir & Hv).
  rewrite <- (f_equal object_of Ed : object_of (skill_to_data s true true) = d) in Hir.
  apply bind_Ok in Hir as (ir' & Hir' & Hir).
  apply bind_Ok in Hir as (u0 & Hin0%schema_if_Ok & Hir). apply Ok_inj in Hir as <-.
  change (_string (JStr (sk_ir_version s)) "$.ir_version" = Ok ir') in Hir'.
  apply bind_Ok in Hir' as (u00 & _ & [= <-]).
  do 8 apply bind_Ok in Hv as (? & _ & Hv). apply bind_Ok in Hv as (u2 & Ht & _).
  apply each_item_Ok in Ht as (l & El & Ht).
  assert (l = map (required_tool_to_data (sk_ir_version s)) (sk_required_tools s)) as ->.
  { cut (JArr (map (required_tool_to_data (sk_ir_version s)) (sk_required_tools s)) = JArr l); [congruence |].
    rewrite <- El, <- (f_equal object_of Ed : object_of (skill_to_data s true true) = d). reflexivity. }
  apply list_elem_of_lookup in Hr as [j Hj].
  specialize (Ht j (required_tool_to_data (sk_ir_version s) r)). rewrite list_lookup_fmap, Hj in Ht.
  specialize (Ht eq_refl). apply bind_Ok in Ht as (d' & Ed'%object_is & Ht).
  apply bind_Ok in Ht as (u3 & _ & Ht). apply bind_Ok in Ht as (cap & Hc & Ht).
  apply bind_Ok in Ht as (u5 & Hread%schema_if_Ok & _).
  apply bind_Ok in Hc as (i & Hi & Hc).
  apply bind_Ok in Hc as (u4 & Hin%schema_if_Ok & Hc). apply Ok_inj in Hc as <-.
  rewrite <- (f_equal object_of Ed' : object_of (required_tool_to_data (sk_ir_version s) r) = d') in Hi.
  change (_string (capability_to_data (rt_capability r)) (at_index ("$" +:+ "." +:+ "requires") j +:+ ".capability") = Ok i) in Hi.
  split_bool. exists i. split; [done |]. split; [done |]. split.
  - destruct (rt_capability r); cbn [capability_to_data] in *; by apply bind_Ok in Hi as (? & _ & [= <-]).
  - intros E. rewrite E in Hread. cbn [String.eqb Ascii.eqb] in Hread.
    by apply andb_false_iff in Hread as [?|Hread%negb_false_iff%String.eqb_eq].
Qed.

Lemma settled_tool_ok s data r : nso_encode s = Ok data -> r ∈ sk_required_tools s ->
  tool_built r = true -> tool_ok (sk_ir_version s) (settled_tool (sk_ir_version s) r) = true.
Proof.
  intros He Hr Hb. destruct (encoded_tool s data r He Hr) as (c & Hv & Hc & Hcap & Hread).
  unfold tool_built in Hb. destruct (rt_capability r) as [k|o] eqn:Ek.
  - unfold settled_tool, tool_ok. destruct (String.eqb_spec (sk_ir_version s) "1.1") as [E|E].
    + rewrite Ek. by destruct k.
    + cbn [rt_capability rt_risk_level]. rewrite Ek.
      unfold IR_VERSIONS in Hv. rewrite !elem_of_cons, elem_of_nil in Hv.
      destruct Hv as [Hv | [Hv | []]]; [| done]. rewrite (Hread Hv) in Hcap. by destruct k.
  - exfalso. injection Hcap as ->. apply bool_decide_eq_true in Hb.
    unfold TOOL_CAPABILITIES in Hc. rewrite !elem_of_cons, elem_of_nil in Hc.
    by destruct Hc as [-> | [-> | [-> | []]]].
Qed.

Lemma settled_skill_ok s data : nso_encode s = Ok data -> skill_built s = true ->
  skill_ok (settled_skill s) = true.
Proof.
  intros He H. unfold skill_built in H. split_bool. unfold skill_ok, settled_skill.
  cbn [sk_symbols sk_required_tools sk_inputs sk_contexts sk_outputs sk_body sk_ir_version].
  rewrite !andb_true_iff. split_and!; try assumption.
  - apply (forallb_map_impl _ tool_built); [| assumption].
    apply Forall_forall. intros r Hr. by apply (settled_tool_ok s data).
  - apply (forallb_map_impl _ statement_built); [| assumption].
    apply Forall_forall. intros x _. apply settled_statement_ok.
Qed.

Lemma settled_encode s : nso_encode (settled_skill s) = nso_encode s.
Proof. unfold nso_encode. cbv zeta. by rewrite settled_data. Qed.

(** A Skill that can be read back is settled already. *)
Lemma settled_literal_same v : literal_ok v = true -> settled_literal v = v.
Proof.
  destruct v as [| | | |d|m| | | | |]; try done; cbn [literal_ok settled_literal];
    intros [_ H%bool_decide_eq_true]%andb_prop; [by rewrite H |]. destruct m. cbn in *. by rewrite H.
Qed.

Lemma map_same {A} (f : A -> A) (p : A -> bool) l :
  Forall (fun x => p x = true -> f x = x) l -> forallb p l = true -> map f l = l.
Proof. induction 1 as [|x l Hx _ IH]; [done |]. cbn. intros H. split_bool. by rewrite Hx, IH. Qed.

Lemma settled_expr_same e : expr_ok e = true -> settled_expr e = e.
Proof.
  assert (forall args : list (string * Expression),
    Forall (fun a => expr_ok a.2 = true -> settled_expr a.2 = a.2) args ->
    forallb (fun a => expr_ok a.2) args = true ->
    map (fun a => (a.1, settled_expr a.2)) args = args) as Hargs.
  { intros args H. apply (map_same _ (fun a => expr_ok a.2)). eapply Forall_impl; [exact H |].
    intros [k e'] He Hk. cbn in *. by rewrite He. }
  induction e as [n v t|n s t|n src f t IH|n src f t IH|n f args t IH|n op l r t IHl IHr
    |n tool args t p IH|n tool args a t IH] using Expression_rect'; cbn [expr_ok settled_expr
    expr_type_info]; intros [Ht H]%andb_prop.
  - by rewrite settled_literal_same.
  - done.
  - by rewrite IH.
  - by rewrite IH.
  - by rewrite (map_same _ expr_ok).
  - apply andb_prop in H as [Hl Hr]. by rewrite IHl, IHr.
  - by rewrite Hargs.
  - apply andb_prop in H as [_ H]. by rewrite Hargs.
Qed.

Lemma settled_statement_same s : statement_ok s = true -> settled_statement s = s.
Proof.
  induction s as [n target v|n it coll m body IH|c|n fields|a] using Statement_rect';
    cbn [statement_ok settled_statement]; intros H.
  - by rewrite settled_expr_same.
  - apply andb_prop in H as [Hc Hb]. by rewrite settled_expr_same, (map_same _ statement_ok).
  - rewrite settled_expr_same by done. by destruct c.
  - rewrite (map_same _ (fun f => expr_ok f.2)); [done | | done]. apply Forall_forall.
    intros [k e] _ He. cbn in *. by rewrite settled_expr_same.
  - done.
Qed.

Lemma settled_skill_same s : skill_ok s = true -> settled_skill s = s.
Proof.
  unfold skill_ok. intros H. split_bool. unfold settled_skill.
  rewrite (map_same _ (tool_ok (sk_ir_version s))), (map_same _ statement_ok); try assumption.
  - by destruct s.
  - apply Forall_forall. intros x _. apply settled_statement_same.
  - apply Forall_forall. intros t _ Ht. unfold settled_tool, tool_ok in *.
    destruct (String.eqb _ _) eqn:E; [done |]. destruct t as [? ? ? k ? ? ? risk]. cbn in *.
    destruct k as [[]|]; try done; by apply bool_decide_eq_true in Ht as ->.
Qed.

(** C14. Round trip of artifacts: a Skill object as its constructors build it,
    whose hashes are those of its content and which [NsoCodec.encode] accepts,
    is what [NsoCodec.decode] returns for its bytes, down to the types,
    literals, approvals, limits and sources, but for the two things that a
    document does not keep: the risk level of a tool in IR 1.0, which becomes
    [None], and the positive exponent of a decimal, which is written out. The
    Skill that is returned has the same document, the same semantic hash and
    the same bytes, and is the very Skill when it has neither of the two. The
    limits of the interpreter are taken not to be reached. *)
Theorem nso_roundtrip (skill : SkillObject) (data : list ascii) :
  skill_built skill = true -> hashes_ok skill -> nso_encode skill = Ok data ->
  nso_decode data = Ok (settled_skill skill)
  /\ nso_encode (settled_skill skill) = Ok data
  /\ (skill_ok skill = true -> settled_skill skill = skill).
Proof.
  intros Hb Hh He. split_and!.
  - apply decode_encoded_skill; [by eapply settled_skill_ok | by apply settled_hashes |].
    by rewrite settled_encode.
  - by rewrite settled_encode.
  - apply settled_skill_same.
Qed.

(** ** A controlled Skill *)

Definition po_sources : list BuildSource :=
  [MkBuildSource "po.nsl"
     "sha256:2c26b46b68ffc68ff99b453c1d30413413422d706483bfa0f98a5e886266e7ae" 412 true].

Definition po_manifest_hash : string := Eval vm_compute in source_manifest_sha256 po_sources.

Definition po_skill_with (h : string) : SkillObject :=
  MkSkillObject "1.1" "0.2" "erp.create_po" "1.0.0" "R3" "NSL-0.2-STRICT" h {["approval"; "write"]}
    [MkSymbolSpec "s1" "po" "VALUE" STRING INTERNAL]
    [MkRequiredTool "t1" "erp.create_po" "1.0.0" (Capability WRITE)
       "sha256:fcde2b2edba56bf408601fb721fe9b5c338d10ee429ea04fae5511b68fbf8fb9" "po:write" INTERNAL
       (Some R3)]
    (MkResourceLimits 5 10 10 100 30000) []
    [MkContextSpec "c1" "tenant" STRING ["tenant"; "id"] INTERNAL]
    [MkOutputField "po" STRING INTERNAL]
    [ApprovalStmt (MkApprovalStatement "n1" "manager" "create the order" (MkApprovalPolicy true (Some 3600%Z)));
     LetStatement "n2" "s1"
       (WriteExpr "n3" "t1"
          [("amount", LiteralExpr "n4" (VMoney (MkMoney (Fin false 1250 (-2)) "USD")) (MkTypeRef "money" None (Some "USD") None [] []))]
          "manager" STRING);
     EmitStatement "n5" [("po", SymbolRefExpr "n6" "s1" STRING)]]
    (MkStaticAnalysis 1 0 1 true) (MkBuildMetadata po_manifest_hash "po.nsl" po_sources).

Definition po_semantic_hash : string := Eval vm_compute in
  sk_semantic_hash (with_computed_hash (po_skill_with "")).

Definition po_skill : SkillObject := po_skill_with po_semantic_hash.

Lemma po_skill_ok : skill_ok po_skill = true.
Proof. vm_compute. reflexivity. Qed.

Lemma po_hashes : hashes_ok po_skill.
Proof.
  split; [| vm_compute; reflexivity].
  change (po_skill_with (sk_semantic_hash (with_computed_hash (po_skill_with ""))) = po_skill).
  apply (f_equal po_skill_with). vm_compute. reflexivity.
Qed.

Lemma po_encodes : is_Ok (nso_encode po_skill) = true.
Proof. vm_compute. reflexivity. Qed.

Lemma po_skill_built : skill_built po_skill = true.
Proof. vm_compute. reflexivity. Qed.

Lemma nso_roundtrip_witness :
  exists data, nso_encode po_skill = Ok data /\ nso_decode data = Ok po_skill.
Proof.
  pose proof po_encodes as H. destruct (nso_encode po_skill) as [data|] eqn:E; [| discriminate H].
  exists data. split; [reflexivity |].
  destruct (nso_roundtrip po_skill data po_skill_built po_hashes E) as (Hd & _ & Hs).
  rewrite <- (Hs po_skill_ok). exact Hd.
Defined.
