(* ===== verification/Discipline.v ===== *)
(** * The WRITE discipline of decoded Skills: proofs

    The link checks of the schema run on documents. What they enforce is stated
    here on the Skill that [NsoCodec.decode] returns. *)

From stdpp Require Import sorting.
From S2P Require Import Prelude Digest Json JsonBoundary Decimal Core Decoding Values.
From S2P Require Import DataProtection Ir NsoSchema NsoCodec Restoration SchemaFacts Artifacts.

(** ** Approvals and WRITEs of a body, in the order of the text *)

Inductive site : Type :=
  | ApprovalSite (approval_id : string)
  | WriteSite (approval_ref tool_ref : string) (inside_foreach : bool).

#[export] Instance site_eq_dec : EqDecision site.
Proof. solve_decision. Defined.

(** The WRITEs of an expression: approval and tool. *)
Fixpoint expr_writes (e : Expression) : list (string * string) :=
  match e with
  | LiteralExpr _ _ _ | SymbolRefExpr _ _ _ => []
  | FieldExpr _ source _ _ | ProjectionExpr _ source _ _ => expr_writes source
  | CallExpr _ _ args _ => flat_map expr_writes args
  | BinaryExpr _ _ l r _ => expr_writes l ++ expr_writes r
  | ReadExpr _ _ args _ _ => flat_map (fun a => expr_writes a.2) args
  | WriteExpr _ tool args approval _ => (approval, tool) :: flat_map (fun a => expr_writes a.2) args
  end.

Definition expr_sites (inside : bool) (e : Expression) : list site :=
  map (fun w => WriteSite w.1 w.2 inside) (expr_writes e).

Fixpoint statement_sites (inside : bool) (s : Statement) : list site :=
  match s with
  | LetStatement _ _ v => expr_sites inside v
  | ForeachStatement _ _ coll _ body =>
      expr_sites inside coll ++ flat_map (statement_sites true) body
  | CheckStmt c => expr_sites inside (cs_condition c)
  | EmitStatement _ fields => flat_map (fun f => expr_sites inside f.2) fields
  | ApprovalStmt a => [ApprovalSite (as_approval_id a)]
  end.

Definition skill_sites (s : SkillObject) : list site :=
  flat_map (statement_sites false) (sk_body s).

Definition is_write (s : site) : bool := match s with WriteSite _ _ _ => true | _ => false end.
Definition uses (approval_id : string) (s : site) : bool :=
  match s with WriteSite a _ _ => String.eqb a approval_id | _ => false end.

Record write_discipline (s : SkillObject) : Prop := {
  (** approvals are told apart by their ids *)
  dc_approvals : forall pre a post, skill_sites s = pre ++ ApprovalSite a :: post ->
    ApprovalSite a ∉ pre;
  (** a WRITE is in no loop, after its approval, and calls a WRITE tool *)
  dc_writes : forall pre a t inside post, skill_sites s = pre ++ WriteSite a t inside :: post ->
    inside = false /\ ApprovalSite a ∈ pre
    /\ exists tool, tool ∈ sk_required_tools s /\ rt_tool_ref tool = t
                    /\ rt_capability tool = Capability WRITE;
  (** an approval is for one WRITE *)
  dc_uses : forall a, ApprovalSite a ∈ skill_sites s ->
    length (List.filter (uses a) (skill_sites s)) = 1;
  (** the strict profile has at most one WRITE *)
  dc_strict : sk_semantics_profile s = "NSL-0.2-STRICT" ->
    length (List.filter is_write (skill_sites s)) <= 1
}.

(** ** The links of a document are the sites of what it decodes to *)

Definition link_event (w : write_link) : Z * site :=
  (wl_order w, WriteSite (wl_approval_ref w) (wl_tool_ref w) (wl_inside_foreach w)).

Definition approval_event (a : string * (string * Z)) : Z * site := (a.2.2, ApprovalSite a.1).

Definition expr_events (order : Z) (inside : bool) (e : Expression) : list (Z * site) :=
  map (pair order) (expr_sites inside e).

Lemma flat_map_events {A} order inside (f : A -> Expression) l :
  flat_map (fun x => expr_events order inside (f x)) l
  = map (fun w : string * string => (order, WriteSite w.1 w.2 inside))
      (flat_map (fun x => expr_writes (f x)) l).
Proof.
  induction l as [|x l IH]; [done |]. cbn [flat_map]. rewrite map_app, IH. f_equal.
  unfold expr_events, expr_sites. by rewrite map_map.
Qed.

Lemma map_flat_map {A B C} (g : B -> C) (f : A -> list B) l :
  map g (flat_map f l) = flat_map (fun x => map g (f x)) l.
Proof. induction l as [|x l IH]; [done |]. cbn. by rewrite map_app, IH. Qed.

(** A list read item by item, with the links of each item. *)
Lemma enumerated_events {A} (read : json -> result A) (collect : string * json -> list write_link)
    (events : A -> list (Z * site)) path l : forall xs, map_result read l = Ok xs ->
  (forall pv x, pv.2 ∈ l -> read pv.2 = Ok x -> map link_event (collect pv) = events x) ->
  map link_event (flat_map collect (enumerated path l)) = flat_map events xs.
Proof.
  unfold enumerated. generalize 0. induction l as [|v l IH]; intros n xs H Hread.
  - by injection H as <-.
  - cbn [map_result] in H. apply bind_Ok in H as (x & Hx & H).
    apply bind_Ok in H as (ys & Hys & <-%Ok_inj). cbn [length seq combine map flat_map].
    rewrite map_app. f_equal; [by apply Hread; [left |] |].
    apply IH; [done |]. intros pv y Hpv. apply Hread. by right.
Qed.

Lemma expr_events_flat order inside l :
  flat_map (expr_events order inside) l
  = map (pair order) (map (fun w => WriteSite w.1 w.2 inside) (flat_map expr_writes l)).
Proof.
  rewrite map_map, (flat_map_events order inside (fun e => e)). done.
Qed.

Lemma links_of_expr fuel : forall v e path order inside, expr_from_data_fuel fuel v = Ok e ->
  map link_event (_collect_write_links fuel v path order inside) = expr_events order inside e.
Proof.
  induction fuel as [|fuel IH]; intros v e path order inside H; [discriminate H |].
  cbn [expr_from_data_fuel _collect_write_links] in *. cbv zeta in *.
  apply bind_Ok in H as (t & _ & H).
  assert (forall base args,
    map_result (fun item => e ← expr_from_data_fuel fuel (field_of "value" (object_of item));
                  Ok (text_at "name" (object_of item), e)) (list_at "arguments" (object_of v)) = Ok args ->
    map link_event (flat_map (fun pv => _collect_write_links fuel
        (field_of "value" (object_of pv.2)) (pv.1 +:+ ".value") order inside)
        (enumerated base (list_at "arguments" (object_of v))))
    = map (fun w : string * string => (order, WriteSite w.1 w.2 inside))
        (flat_map (fun a => expr_writes a.2) args)) as Hargs.
  { intros base args Ha. rewrite <- (flat_map_events order inside snd).
    eapply enumerated_events; [exact Ha |]. intros pv x _ Hx.
    apply bind_Ok in Hx as (e' & He & <-%Ok_inj). by apply IH. }
  destruct (String.eqb_spec (text_at "kind" (object_of v)) "literal") as [-> | H1].
  { by apply bind_Ok in H as (x & _ & <-%Ok_inj). }
  destruct (String.eqb_spec (text_at "kind" (object_of v)) "symbol_ref") as [-> | H2].
  { by apply Ok_inj in H as <-. }
  destruct (String.eqb_spec (text_at "kind" (object_of v)) "field") as [-> | H3].
  { apply bind_Ok in H as (src & Hs & <-%Ok_inj). exact (IH _ _ (path +:+ ".source") order inside Hs). }
  destruct (String.eqb_spec (text_at "kind" (object_of v)) "project") as [-> | H4].
  { apply bind_Ok in H as (src & Hs & <-%Ok_inj). exact (IH _ _ (path +:+ ".source") order inside Hs). }
  destruct (String.eqb_spec (text_at "kind" (object_of v)) "call") as [-> | H5].
  { apply bind_Ok in H as (args & Ha & <-%Ok_inj). unfold expr_events, expr_sites.
    cbn [expr_writes]. rewrite <- expr_events_flat.
    change (map link_event (flat_map (fun pv => _collect_write_links fuel pv.2 pv.1 order inside)
      (enumerated (path +:+ ".arguments") (list_at "arguments" (object_of v))))
      = flat_map (expr_events order inside) args).
    eapply enumerated_events; [exact Ha |]. intros pv x _ Hx. by apply IH. }
  destruct (String.eqb_spec (text_at "kind" (object_of v)) "binary") as [-> | H6].
  { apply bind_Ok in H as (l & Hl & H). apply bind_Ok in H as (r & Hr & <-%Ok_inj).
    change (map link_event (_collect_write_links fuel (field_of "left" (object_of v))
        (path +:+ ".left") order inside
      ++ _collect_write_links fuel (field_of "right" (object_of v)) (path +:+ ".right") order inside)
      = map (pair order) (map (fun w => WriteSite w.1 w.2 inside) (expr_writes l ++ expr_writes r))).
    rewrite !map_app. f_equal; by apply IH. }
  destruct (String.eqb_spec (text_at "kind" (object_of v)) "read") as [-> | H7].
  { apply bind_Ok in H as (args & Ha & <-%Ok_inj). unfold expr_events, expr_sites.
    cbn [expr_writes]. rewrite map_map. by apply (Hargs (path +:+ ".arguments")). }
  destruct (String.eqb_spec (text_at "kind" (object_of v)) "write") as [-> | H8];
    [| discriminate H].
  apply bind_Ok in H as (args & Ha & H). apply bind_Ok in H as (w & Hw & <-%Ok_inj).
  unfold new_WriteExpression in Hw. cbv zeta in Hw. apply bind_Ok in Hw as (u & _ & <-%Ok_inj).
  unfold expr_events, expr_sites. cbn [write_expr expr_writes we_arguments we_approval_ref
    we_tool_ref map]. cbn -[_collect_write_links]. f_equal. rewrite map_map.
  by apply (Hargs (path +:+ ".arguments")).
Qed.

Lemma write_links_of v e path order inside : _expr_from_data v = Ok e ->
  map link_event (write_links v path order inside) = expr_events order inside e.
Proof. apply links_of_expr. Qed.

(** ** The state of the collector *)

Definition write_events (ev : list (Z * site)) : list (Z * site) :=
  List.filter (fun x => is_write x.2) ev.
Definition approval_events (ev : list (Z * site)) : list (Z * site) :=
  List.filter (fun x => negb (is_write x.2)) ev.

(** [ev] is what the collector has seen: its orders never fall, and two events
    of one order are WRITEs of one statement. *)
Record tracks (k : links) (ev : list (Z * site)) : Prop := {
  tr_sorted : StronglySorted (fun a b => (a.1 <= b.1)%Z) ev;
  tr_counter : Forall (fun x => (x.1 <= lk_counter k)%Z) ev;
  tr_approvals : map approval_event (lk_approvals k) = approval_events ev;
  tr_writes : map link_event (lk_writes k) = write_events ev;
  tr_distinct : NoDup (map fst (lk_approvals k))
}.

Lemma tracks_step k k' ev new : tracks k ev ->
  (lk_counter k < lk_counter k')%Z ->
  Forall (fun x => x.1 = lk_counter k') new ->
  map approval_event (lk_approvals k') = map approval_event (lk_approvals k) ++ approval_events new ->
  map link_event (lk_writes k') = map link_event (lk_writes k) ++ write_events new ->
  NoDup (map fst (lk_approvals k')) -> tracks k' (ev ++ new).
Proof.
  intros [H1 H2 H3 H4 H5] Hc Hn Ha Hw Hd. rewrite Forall_forall in *. split; [| | | | done].
  - apply StronglySorted_app_2; [| done |].
    + intros x y Hx Hy. rewrite (Hn y Hy). specialize (H2 x Hx). cbn in H2. lia.
    + clear - Hn. induction new as [|x new IH]; constructor.
      * apply IH. intros y Hy. apply Hn. by right.
      * apply Forall_forall. intros y Hy. rewrite (Hn x), (Hn y); [done | by right | left].
  - apply Forall_app. split; apply Forall_forall; intros x Hx; [specialize (H2 x Hx); cbn in *; lia |].
    rewrite (Hn x Hx). lia.
  - rewrite Ha, H3. unfold approval_events. by rewrite List.filter_app.
  - rewrite Hw, H4. unfold write_events. by rewrite List.filter_app.
Qed.

Lemma filter_all {A} (f : A -> bool) l : (forall x, x ∈ l -> f x = true) -> List.filter f l = l.
Proof.
  induction l as [|x l IH]; intros H; [done |]. cbn. rewrite (H x) by left.
  f_equal. apply IH. intros y Hy. apply H. by right.
Qed.

Lemma filter_none {A} (f : A -> bool) l : (forall x, x ∈ l -> f x = false) -> List.filter f l = [].
Proof.
  induction l as [|x l IH]; intros H; [done |]. cbn. rewrite (H x) by left.
  apply IH. intros y Hy. apply H. by right.
Qed.

(** Adding the WRITEs of one statement. *)
Lemma tracks_writes k ev new sites : tracks k ev ->
  map link_event new = map (pair (lk_counter k + 1)%Z) sites ->
  (forall s, s ∈ sites -> is_write s = true) ->
  tracks (add_writes new (MkLinks (lk_counter k + 1) (lk_approvals k) (lk_writes k)))
    (ev ++ map (pair (lk_counter k + 1)%Z) sites).
Proof.
  intros Hk Hnew Hs.
  assert (forall x, x ∈ map (pair (lk_counter k + 1)%Z) sites ->
    x.1 = (lk_counter k + 1)%Z /\ is_write x.2 = true) as Hx.
  { intros x (s & -> & Hin)%list_elem_of_fmap. split; [done | by apply Hs]. }
  eapply tracks_step; [exact Hk | cbn; lia | | | | apply Hk]; cbn.
  - apply Forall_forall. intros x H. by apply Hx.
  - unfold approval_events. rewrite filter_none, app_nil_r; [done |].
    intros x H. destruct (Hx x H) as [_ ->]. done.
  - rewrite map_app, Hnew. f_equal. unfold write_events. symmetry. apply filter_all.
    intros x H. by apply Hx.
Qed.

Lemma expr_sites_write inside e s : s ∈ expr_sites inside e -> is_write s = true.
Proof. by intros (w & -> & _)%list_elem_of_fmap. Qed.

Lemma map_result_cons {A B} (f : A -> result B) x l ys : map_result f (x :: l) = Ok ys ->
  exists y zs, f x = Ok y /\ map_result f l = Ok zs /\ ys = y :: zs.
Proof.
  cbn [map_result]. intros H. apply bind_Ok in H as (y & Hy & H).
  apply bind_Ok in H as (zs & Hzs & <-%Ok_inj). eauto.
Qed.

(** What a body adds: the events of the statements it decodes to. *)
Definition adds (k k' : links) (sites : list site) : Prop :=
  forall ev, tracks k ev -> exists new, tracks k' (ev ++ new) /\ map snd new = sites.

Lemma adds_refl k : adds k k [].
Proof. intros ev H. exists []. by rewrite app_nil_r. Qed.

Lemma adds_trans k1 k2 k3 s t : adds k1 k2 s -> adds k2 k3 t -> adds k1 k3 (s ++ t).
Proof.
  intros H1 H2 ev Hev. destruct (H1 ev Hev) as (n1 & T1 & <-).
  destruct (H2 _ T1) as (n2 & T2 & <-). exists (n1 ++ n2).
  by rewrite app_assoc, map_app.
Qed.

Lemma adds_writes k new sites :
  map link_event new = map (pair (lk_counter k + 1)%Z) sites ->
  (forall s, s ∈ sites -> is_write s = true) ->
  adds k (add_writes new (MkLinks (lk_counter k + 1) (lk_approvals k) (lk_writes k))) sites.
Proof.
  intros Hn Hs ev Hev. exists (map (pair (lk_counter k + 1)%Z) sites).
  split; [by apply tracks_writes | by rewrite map_map, map_id].
Qed.

Lemma adds_approval k path a : assoc a (lk_approvals k) = None ->
  adds k (MkLinks (lk_counter k + 1) (lk_approvals k ++ [(a, (path, (lk_counter k + 1)%Z))])
            (lk_writes k)) [ApprovalSite a].
Proof.
  intros Ha ev Hev. exists [((lk_counter k + 1)%Z, ApprovalSite a)]. split; [| done].
  eapply tracks_step; [exact Hev | cbn; lia | by constructor | cbn; by rewrite map_app | cbn; by rewrite app_nil_r |].
  cbn. rewrite map_app. apply NoDup_app. split; [apply Hev |]. split; [| apply NoDup_singleton].
  intros x (y & -> & Hy)%list_elem_of_fmap. cbn. intros E%list_elem_of_singleton.
  destruct y as [a' [p o]]. cbn in E. subst a'.
  rewrite (assoc_in _ _ _ (tr_distinct _ _ Hev) Hy) in Ha. discriminate Ha.
Qed.

(** [s] is what the decoder makes of [v], with whatever fuel. *)
Definition decodes (v : json) (s : Statement) : Prop :=
  exists fuel, statement_from_data_fuel fuel v = Ok s.

Lemma decodes_all (read : json -> result Statement) vs ss :
  (forall v s, read v = Ok s -> decodes v s) ->
  map_result read vs = Ok ss -> Forall2 decodes vs ss.
Proof. intros H Hr%map_result_Ok. eapply Forall2_impl; [exact Hr | exact H]. Qed.

Section Collect.
Context (collect_body : list json -> string -> links -> result links).
Context (Hbody : forall vs ss path k k', Forall2 decodes vs ss -> collect_body vs path k = Ok k' ->
  adds k k' (flat_map (statement_sites true) ss)).

Lemma collect_statement_adds inside v s path k k' : decodes v s ->
  collect_statement collect_body inside v path k = Ok k' -> adds k k' (statement_sites inside s).
Proof.
  intros [[|fuel] H]; [discriminate H |]. cbn [statement_from_data_fuel] in H.
  unfold collect_statement. cbv zeta in *. intros Hc.
  destruct (String.eqb_spec (text_at "kind" (object_of v)) "let") as [E | H1].
  { rewrite E in Hc. apply bind_Ok in H as (e & He & <-%Ok_inj). apply Ok_inj in Hc as <-.
    apply adds_writes; [by apply write_links_of | apply expr_sites_write]. }
  destruct (String.eqb_spec (text_at "kind" (object_of v)) "foreach") as [E | H2].
  { rewrite E in Hc. apply bind_Ok in H as (e & He & H). apply bind_Ok in H as (b & Hb & <-%Ok_inj).
    cbn [statement_sites]. eapply adds_trans;
      [| eapply Hbody; [by eapply decodes_all; [| exact Hb]; eexists | exact Hc]].
    cbn [lk_counter lk_approvals lk_writes add_writes].
    apply adds_writes; [by apply write_links_of | apply expr_sites_write]. }
  destruct (String.eqb_spec (text_at "kind" (object_of v)) "check") as [E | H3].
  { rewrite E in Hc. apply bind_Ok in H as (e & He & <-%Ok_inj). apply Ok_inj in Hc as <-.
    apply adds_writes; [by apply write_links_of | apply expr_sites_write]. }
  destruct (String.eqb_spec (text_at "kind" (object_of v)) "emit") as [E | H4].
  { rewrite E in Hc. apply bind_Ok in H as (fs & Hf & <-%Ok_inj). apply Ok_inj in Hc as <-.
    cbn [statement_sites]. apply adds_writes.
    - rewrite (map_flat_map (pair _)). eapply enumerated_events; [exact Hf |]. intros pv x _ Hx.
      apply bind_Ok in Hx as (e & He & <-%Ok_inj). by apply write_links_of.
    - intros s' Hs'. apply list_elem_of_In, in_flat_map in Hs' as (f & _ & Hs').
      by apply list_elem_of_In, expr_sites_write in Hs'. }
  destruct (String.eqb_spec (text_at "kind" (object_of v)) "approval") as [E | H5];
    [| discriminate H].
  apply bind_Ok in H as (p & _ & H). apply bind_Ok in H as (a & Ha & <-%Ok_inj).
  unfold new_ApprovalStatement in Ha. apply bind_Ok in Ha as (u & _ & <-%Ok_inj).
  cbn [statement_sites as_approval_id].
  apply bind_Ok in Hc as (u' & Hd%schema_if_Ok & <-%Ok_inj).
  cbn [lk_counter lk_approvals lk_writes] in *. apply (adds_approval k path).
  apply bool_decide_eq_false in Hd. by apply eq_None_not_Some.
Qed.
End Collect.

Lemma fold_Err {A B} (f : result A -> B -> result A) (l : list B) e :
  (forall x, f (Err e) x = Err e) -> fold_left f l (Err e) = Err e.
Proof. intros H. induction l as [|x l IH]; [done |]. cbn. by rewrite H. Qed.

Lemma collect_links_adds n : forall inside vs ss path k k', Forall2 decodes vs ss ->
  _collect_ir_1_1_links n inside vs path k = Ok k' ->
  adds k k' (flat_map (statement_sites inside) ss).
Proof.
  induction n as [|n IH]; intros inside vs ss path k k' Hd H; [discriminate H |].
  cbn [_collect_ir_1_1_links] in H. unfold enumerated in H. revert k H. generalize 0.
  induction Hd as [|v s vs ss Hs Hss IHvs]; intros i k H.
  - apply Ok_inj in H as <-. apply adds_refl.
  - cbn [length seq combine map fold_left] in H.
    cbn [mbind result_bind fst snd] in H.
    destruct (collect_statement _ inside v _ k) as [k1|e] eqn:Ek.
    + cbn [flat_map]. eapply adds_trans; [| by eapply IHvs].
      eapply collect_statement_adds; [| exact Hs | exact Ek]. apply IH.
    + by rewrite fold_Err in H.
Qed.

(** ** Documents of IR 1.0 *)

Lemma list_at_field name d l : field_of name d = JArr l -> list_at name d = l.
Proof. unfold field_of, list_at. destruct (assoc name d) as [[]|]; cbn; congruence. Qed.

Lemma text_at_field name d path s : _string (field_of name d) path = Ok s -> text_at name d = s.
Proof.
  unfold field_of, text_at. destruct (assoc name d) as [[]|]; try discriminate. cbn.
  intros H. by apply bind_Ok in H as (u & _ & <-%Ok_inj).
Qed.

Lemma flat_map_nil {A B} (f : A -> list B) l : (forall x, x ∈ l -> f x = []) -> flat_map f l = [].
Proof.
  induction l as [|x l IH]; intros H; [done |]. cbn. rewrite (H x) by left.
  apply IH. intros y Hy. apply H. by right.
Qed.

(** Items that are validated and read one by one. *)
Lemma validated_items {A B} (validate : json -> string -> result unit) (read : json -> result A)
    (f : A -> list B) d path name xs u :
  each_item validate d path name = Ok u -> map_result read (list_at name d) = Ok xs ->
  (forall v path x u, validate v path = Ok u -> read v = Ok x -> f x = []) ->
  flat_map f xs = [].
Proof.
  rewrite each_item_Ok. intros (l & El & Hv). rewrite (list_at_field _ _ _ El).
  intros Hr Hf. apply flat_map_nil. intros x Hx.
  apply list_elem_of_lookup in Hx as [j Hx].
  apply map_result_Ok in Hr. destruct (Forall2_lookup_r _ _ _ _ _ Hr Hx) as (v & Hl & Hxv).
  by eapply Hf; [apply (Hv j v Hl) |].
Qed.

Lemma validated_named {B} (validate : json -> string -> result unit)
    (read : json -> result Expression) (f : Expression -> list B) v path x u :
  (forall v path e u, validate v path = Ok u -> read v = Ok e -> f e = []) ->
  validate_named validate v path = Ok u ->
  (e ← read (field_of "value" (object_of v)); Ok (text_at "name" (object_of v), e)) = Ok x ->
  f x.2 = [].
Proof.
  unfold validate_named. intros Hf H Hr. apply bind_Ok in H as (d & ->%object_is & H). apply bind_Ok in H as (u1 & _ & H).
  apply bind_Ok in Hr as (e & He & <-%Ok_inj). by eapply Hf.
Qed.

Lemma each_field_In {A} (check : json -> string -> result A) d path names u name :
  each_field check d path names = Ok u -> name ∈ names ->
  exists a, check (field_of name d) (path +:+ "." +:+ name) = Ok a.
Proof. rewrite each_field_Ok. auto. Qed.

Lemma no_writes_fuel fuel : forall v path e u, _validate_expression_fuel "1.0" fuel v path = Ok u ->
  expr_from_data_fuel fuel v = Ok e -> expr_writes e = [].
Proof.
  induction fuel as [|fuel IH]; intros v path e u Hv H; [discriminate H |].
  cbn [_validate_expression_fuel expr_from_data_fuel] in *.
  destruct v as [| | | | |d]; try discriminate Hv. cbv zeta in *. cbn [object_of] in H.
  apply bind_Ok in Hv as (kind & Hkind & Hv). rewrite (text_at_field _ _ _ _ Hkind) in H.
  destruct (expression_fields "1.0" kind) as [fields|] eqn:Ef; [| discriminate Hv].
  apply bind_Ok in Hv as (d' & [= <-]%object_is & Hv).
  apply bind_Ok in Hv as (u1 & _ & Hv). apply bind_Ok in Hv as (u2 & _ & Hv).
  apply bind_Ok in H as (t & _ & H).
  assert (forall name path a e, _validate_expression_fuel "1.0" fuel (field_of name d) path = Ok a ->
    expr_from_data_fuel fuel (field_of name d) = Ok e -> expr_writes e = []) as Hsub
    by (intros; by eapply IH).
  destruct (String.eqb_spec kind "literal") as [-> | H1].
  { by apply bind_Ok in H as (x & _ & <-%Ok_inj). }
  destruct (String.eqb_spec kind "symbol_ref") as [-> | H2]; [by apply Ok_inj in H as <- |].
  destruct (String.eqb_spec kind "field") as [-> | H3].
  { apply bind_Ok in H as (src & Hs & <-%Ok_inj). apply bind_Ok in Hv as (u3 & Hf & _).
    apply (each_field_In _ _ _ _ _ "source") in Hf as [a Ha]; [exact (Hsub _ _ _ _ Ha Hs) | left]. }
  destruct (String.eqb_spec kind "project") as [-> | H4].
  { apply bind_Ok in H as (src & Hs & <-%Ok_inj). apply bind_Ok in Hv as (u3 & Hf & _).
    apply (each_field_In _ _ _ _ _ "source") in Hf as [a Ha]; [exact (Hsub _ _ _ _ Ha Hs) | left]. }
  destruct (String.eqb_spec kind "call") as [-> | H5].
  { apply bind_Ok in H as (args & Ha & <-%Ok_inj). apply bind_Ok in Hv as (u3 & _ & Hv).
    by eapply validated_items. }
  destruct (String.eqb_spec kind "binary") as [-> | H6].
  { apply bind_Ok in H as (l & Hl & H). apply bind_Ok in H as (r & Hr & <-%Ok_inj).
    apply bind_Ok in Hv as (u3 & _ & Hv). cbn [expr_writes].
    destruct (each_field_In _ _ _ _ _ "left" Hv) as [a Ha]; [left |].
    destruct (each_field_In _ _ _ _ _ "right" Hv) as [b Hb]; [right; left |].
    by rewrite (Hsub _ _ _ _ Ha Hl), (Hsub _ _ _ _ Hb Hr). }
  destruct (String.eqb_spec kind "read") as [-> | H7].
  { apply bind_Ok in H as (args & Ha & <-%Ok_inj). apply bind_Ok in Hv as (u3 & _ & Hv).
    apply bind_Ok in Hv as (u4 & _ & Hv). apply bind_Ok in Hv as (u5 & Hv & _).
    cbn [expr_writes]. eapply validated_items; [exact Hv | exact Ha |].
    intros v' p' x u' Hnamed Hx.
    by eapply (validated_named _ _ expr_writes); [exact IH | exact Hnamed | exact Hx]. }
  exfalso. unfold expression_fields in Ef. cbn in Ef.
  repeat match goal with H : kind <> ?s |- _ =>
    rewrite (proj2 (String.eqb_neq kind s) H) in Ef; clear H end. discriminate Ef.
Qed.

Lemma no_writes v path e u : _validate_expression "1.0" v path = Ok u ->
  _expr_from_data v = Ok e -> expr_writes e = [].
Proof. apply no_writes_fuel. Qed.

Lemma no_sites_expr inside e : expr_writes e = [] -> expr_sites inside e = [].
Proof. unfold expr_sites. by intros ->. Qed.

Lemma no_sites_fuel fuel : forall v path s u inside,
  _validate_statement_fuel "1.0" fuel v path = Ok u ->
  statement_from_data_fuel fuel v = Ok s -> statement_sites inside s = [].
Proof.
  induction fuel as [|fuel IH]; intros v path s u inside Hv H; [discriminate H |].
  cbn [_validate_statement_fuel statement_from_data_fuel] in *.
  destruct v as [| | | | |d]; try discriminate Hv. cbv zeta in *. cbn [object_of] in H.
  apply bind_Ok in Hv as (kind & Hkind & Hv). rewrite (text_at_field _ _ _ _ Hkind) in H.
  destruct (statement_fields "1.0" kind) as [fields|] eqn:Ef; [| discriminate Hv].
  apply bind_Ok in Hv as (d' & [= <-]%object_is & Hv).
  apply bind_Ok in Hv as (u1 & _ & Hv).
  assert (forall name p u e, each_field (_validate_expression "1.0") d p [name] = Ok u ->
    _expr_from_data (field_of name d) = Ok e -> forall i, expr_sites i e = []) as Hsub.
  { intros name p u' e Hf He i. apply no_sites_expr.
    destruct (each_field_In _ _ _ _ _ name Hf) as [a Ha]; [left |]. by eapply no_writes. }
  destruct (String.eqb_spec kind "let") as [-> | H1].
  { apply bind_Ok in H as (e & He & <-%Ok_inj). apply bind_Ok in Hv as (u2 & _ & Hv).
    by eapply Hsub. }
  destruct (String.eqb_spec kind "foreach") as [-> | H2].
  { apply bind_Ok in H as (e & He & H). apply bind_Ok in H as (b & Hb & <-%Ok_inj).
    apply bind_Ok in Hv as (u2 & _ & Hv). apply bind_Ok in Hv as (u3 & Hc & Hv).
    apply bind_Ok in Hv as (u4 & _ & Hv). cbn [statement_sites].
    rewrite (Hsub _ _ _ _ Hc He). cbn [app]. eapply validated_items; [exact Hv | exact Hb |].
    intros. by eapply IH. }
  destruct (String.eqb_spec kind "check") as [-> | H3].
  { apply bind_Ok in H as (e & He & <-%Ok_inj). apply bind_Ok in Hv as (u2 & _ & Hv).
    apply bind_Ok in Hv as (u3 & _ & Hv). apply bind_Ok in Hv as (u4 & Hc & _).
    by eapply Hsub. }
  destruct (String.eqb_spec kind "emit") as [-> | H4].
  { apply bind_Ok in H as (fs & Hf & <-%Ok_inj). cbn [statement_sites].
    eapply validated_items; [exact Hv | exact Hf |]. intros v' p' x u' Hnamed Hx.
    apply no_sites_expr.
    by eapply (validated_named _ _ expr_writes); [exact no_writes | exact Hnamed | exact Hx]. }
  exfalso. unfold statement_fields in Ef. cbn in Ef.
  repeat match goal with H : kind <> ?s |- _ =>
    rewrite (proj2 (String.eqb_neq kind s) H) in Ef; clear H end. discriminate Ef.
Qed.

(** ** From the checks on links to the discipline *)

(** The capability of a tool as its document writes it. *)
Definition tool_entry (t : RequiredTool) : string * string :=
  (rt_tool_ref t, match rt_capability t with
                  | Capability c => capability_value c | OtherCapability s => s end).

Lemma required_entry v t : required_from_data v = Ok t ->
  (text_at "tool_ref" (object_of v), text_at "capability" (object_of v)) = tool_entry t.
Proof.
  unfold required_from_data. cbv zeta. intros H.
  apply bind_Ok in H as (c & _ & H). apply bind_Ok in H as (r & _ & H).
  unfold new_RequiredTool in H. cbv zeta in H. apply bind_Ok in H as (u & _ & <-%Ok_inj).
  unfold tool_entry. cbn [rt_tool_ref rt_capability]. f_equal. unfold ToolCapability_of.
  destruct (find _ _) as [k|] eqn:Ek; [| done]. by apply find_some in Ek as [_ ->%String.eqb_eq].
Qed.

Lemma collect_tools_from l : forall i acc tools reqs,
  fold_left collect_tool
    (map (fun ix => (at_index "$.requires" ix.1, ix.2)) (combine (seq i (length l)) l)) (Ok acc)
  = Ok tools ->
  map_result required_from_data l = Ok reqs -> tools = acc ++ map tool_entry reqs.
Proof.
  induction l as [|v l IH]; intros i acc tools reqs H Hr.
  - apply Ok_inj in H as <-. apply Ok_inj in Hr as <-. by rewrite app_nil_r.
  - apply map_result_cons in Hr as (t & ts & Ht & Hts & ->).
    cbn [length seq combine map fold_left] in H. unfold collect_tool at 2 in H.
    cbn [mbind result_bind fst snd] in H. cbv zeta in H.
    destruct (schema_if _ _ _) as [u|e]; cbn [mbind result_bind] in H;
      [| by rewrite fold_Err in H].
    rewrite (IH _ _ _ _ H Hts), <- app_assoc. cbn [app map]. by rewrite (required_entry _ _ Ht).
Qed.

Lemma collect_tools_read l tools reqs : collect_tools l = Ok tools ->
  map_result required_from_data l = Ok reqs -> tools = map tool_entry reqs.
Proof. apply (collect_tools_from l 0 []). Qed.

Section Accepted.
Context (tools : list (string * string)) (profile : string) (k : links) (ev : list (Z * site)).
Context (Hk : tracks k ev).
Context (Hwrites : forall w, w ∈ lk_writes k -> check_write tools (lk_approvals k) w = Ok tt).
Context (Hused : forall a, a ∈ lk_approvals k -> approval_uses (lk_writes k) a.1 = 1).

Lemma check_write_Ok w : check_write tools (lk_approvals k) w = Ok tt ->
  wl_inside_foreach w = false
  /\ (exists path order, assoc (wl_approval_ref w) (lk_approvals k) = Some (path, order)
        /\ (order < wl_order w)%Z)
  /\ assoc (wl_tool_ref w) tools = Some "WRITE".
Proof.
  unfold check_write. cbv zeta. intros H. apply bind_Ok in H as ([] & Hi%schema_if_Ok & H).
  destruct (assoc (wl_approval_ref w) (lk_approvals k)) as [[path order]|]; [| discriminate H].
  apply bind_Ok in H as ([] & Ho%schema_if_Ok & H).
  destruct (assoc (wl_tool_ref w) tools) as [c|]; [| discriminate H].
  apply schema_if_Ok, negb_false_iff, String.eqb_eq in H as ->. apply Z.leb_gt in Ho.
  split; [done |]. split; [by exists path, order | done].
Qed.

Lemma event_split pre s post : map snd ev = pre ++ s :: post ->
  exists ev1 o ev2, ev = ev1 ++ (o, s) :: ev2 /\ map snd ev1 = pre.
Proof.
  intros H. apply map_eq_app in H as (ev1 & ev' & -> & <- & H).
  apply map_eq_cons in H as ([o s'] & ev2 & -> & Hs & _). cbn in Hs. subst s'. eauto.
Qed.

Lemma accepted_write pre a t inside post : map snd ev = pre ++ WriteSite a t inside :: post ->
  inside = false /\ ApprovalSite a ∈ pre /\ assoc t tools = Some "WRITE".
Proof.
  intros (ev1 & o & ev2 & E & <-)%event_split.
  assert ((o, WriteSite a t inside) ∈ write_events ev) as Hin.
  { unfold write_events. rewrite E, List.filter_app. apply elem_of_app. right. cbn. left. }
  rewrite <- (tr_writes _ _ Hk) in Hin. apply list_elem_of_fmap in Hin as (w & Ew & Hw).
  injection Ew as -> -> -> ->.
  destruct (check_write_Ok w (Hwrites w Hw)) as (Hi & (path & order & Ha & Ho) & Ht).
  split; [done |]. split; [| done].
  apply assoc_elem in Ha. apply (list_elem_of_fmap_2 approval_event) in Ha.
  change (@fmap list _) with (@map) in Ha. rewrite (tr_approvals _ _ Hk) in Ha.
  unfold approval_events, approval_event in Ha. cbn [fst snd] in Ha.
  apply list_elem_of_In, filter_In in Ha as [Ha%list_elem_of_In _].
  rewrite E in Ha. apply elem_of_app in Ha as [Ha | Ha].
  - exact (list_elem_of_fmap_2 snd _ _ Ha).
  - exfalso. apply elem_of_cons in Ha as [[=] | Ha].
    pose proof (tr_sorted _ _ Hk) as Hs. rewrite E in Hs.
    apply StronglySorted_app_1_r in Hs. apply StronglySorted_inv in Hs as [_ Hs].
    rewrite Forall_forall in Hs. specialize (Hs _ Ha). cbn in Hs. lia.
Qed.

Lemma filter_map_snd (f : site -> bool) (l : list (Z * site)) :
  List.filter f (map snd l) = map snd (List.filter (fun x => f x.2) l).
Proof. induction l as [|x l IH]; [done |]. cbn. rewrite IH. by destruct (f x.2). Qed.

Lemma writes_counted : length (List.filter is_write (map snd ev)) = length (lk_writes k).
Proof.
  rewrite filter_map_snd. fold (write_events ev). by rewrite <- (tr_writes _ _ Hk), !length_map.
Qed.

Lemma approval_ids : List.filter (fun s => negb (is_write s)) (map snd ev)
  = map ApprovalSite (map fst (lk_approvals k)).
Proof.
  rewrite (filter_map_snd (fun s => negb (is_write s))). fold (approval_events ev).
  by rewrite <- (tr_approvals _ _ Hk), !map_map.
Qed.

Lemma accepted_approval pre a post : map snd ev = pre ++ ApprovalSite a :: post ->
  ApprovalSite a ∉ pre.
Proof.
  intros E Hin. pose proof approval_ids as H. rewrite E, List.filter_app in H. cbn in H.
  assert (NoDup (map ApprovalSite (map fst (lk_approvals k)))) as Hn.
  { change (@map) with (@fmap list _). apply NoDup_fmap_2; [by intros ? ? [= ->] | apply Hk]. }
  rewrite <- H in Hn. apply NoDup_app in Hn as (_ & Hn & _). apply (Hn (ApprovalSite a)); [| left].
  apply list_elem_of_In, filter_In. split; [by apply list_elem_of_In | done].
Qed.

Lemma accepted_use a : ApprovalSite a ∈ map snd ev ->
  length (List.filter (uses a) (map snd ev)) = 1.
Proof.
  intros Ha.
  assert (ApprovalSite a ∈ map ApprovalSite (map fst (lk_approvals k))) as Hin.
  { rewrite <- approval_ids. apply list_elem_of_In, filter_In. split; [by apply list_elem_of_In | done]. }
  apply list_elem_of_fmap in Hin as (a' & [= <-] & Hin). apply list_elem_of_fmap in Hin as (x & -> & Hx).
  rewrite <- (Hused x Hx). unfold approval_uses. rewrite filter_map_snd, length_map.
  assert (List.filter (fun y => uses x.1 y.2) ev = List.filter (fun y => uses x.1 y.2) (write_events ev)) as ->.
  { unfold write_events. clear. induction ev as [|[o s] l IH]; [done |]. cbn. rewrite IH.
    destruct s; cbn; [done |]. by destruct (String.eqb approval_ref x.1). }
  rewrite <- (tr_writes _ _ Hk). clear. induction (lk_writes k) as [|w l IH]; [done |].
  cbn [map List.filter link_event snd uses]. destruct (String.eqb (wl_approval_ref w) x.1); cbn; congruence.
Qed.
End Accepted.

(** ** Decoded Skills *)

Lemma no_sites_discipline s : skill_sites s = [] -> write_discipline s.
Proof.
  intros E. split; rewrite E.
  - by intros [|? ?] a post [=].
  - by intros [|? ?] a t i post [=].
  - by intros a H%elem_of_nil.
  - cbn. lia.
Qed.

Lemma links_discipline d s tools reqs body k : sk_body s = body -> sk_required_tools s = reqs ->
  sk_semantics_profile s = text_at "semantics_profile" d ->
  map_result required_from_data (list_at "requires" d) = Ok reqs ->
  map_result _statement_from_data (list_at "body" d) = Ok body ->
  collect_tools (list_at "requires" d) = Ok tools -> adds (MkLinks 0 [] []) k (skill_sites s) ->
  (forall second first rest, lk_writes k = first :: second :: rest ->
     sk_semantics_profile s <> "NSL-0.2-STRICT") ->
  each (check_write tools (lk_approvals k)) (lk_writes k) = Ok tt ->
  each (fun a : string * (string * Z) =>
      schema_if (negb (approval_uses (lk_writes k) a.1 =? 1)) (a.2.1 +:+ ".approval_id")
        "approval must be linked to exactly one WRITE") (lk_approvals k) = Ok tt ->
  write_discipline s.
Proof.
  intros Hb Hr Hp Hreq Hbody Ht Hk Hs Hw Hu.
  destruct (Hk []) as (ev & Hev & E); [by split; constructor |]. cbn [app] in Hev.
  apply each_Ok in Hw. apply each_Ok in Hu. rewrite Forall_forall in Hw. rewrite Forall_forall in Hu.
  assert (forall a, a ∈ lk_approvals k -> approval_uses (lk_writes k) a.1 = 1) as Hu'.
  { intros a Ha. by apply Hu, schema_if_Ok, negb_false_iff, Nat.eqb_eq in Ha. }
  split; rewrite <- E.
  - intros pre a post Eq. by eapply accepted_approval.
  - intros pre a t inside post Eq.
    destruct (accepted_write tools k ev Hev Hw _ _ _ _ _ Eq) as (H1 & H2 & H3).
    split; [done |]. split; [done |].
    rewrite (collect_tools_read _ _ _ Ht Hreq) in H3. apply assoc_elem in H3.
    apply list_elem_of_fmap in H3 as (tool & [= -> Ec] & Hin). exists tool. rewrite Hr.
    split; [done |]. split; [done |]. destruct tool as [? ? ? [c|c] ? ? ? ?]; cbn in Ec |- *.
    + by destruct c.
    + exfalso. subst c. apply list_elem_of_lookup in Hin as [j Hj]. apply map_result_Ok in Hreq.
      destruct (Forall2_lookup_r _ _ _ _ _ Hreq Hj) as (v & _ & Hv).
      unfold required_from_data in Hv. cbv zeta in Hv. apply bind_Ok in Hv as (c & _ & Hv).
      apply bind_Ok in Hv as (r & _ & Hv). unfold new_RequiredTool in Hv. cbv zeta in Hv.
      apply bind_Ok in Hv as (u & _ & Hv%Ok_inj).
      destruct (ToolCapability_of (text_at "capability" (object_of v))) eqn:Et; [discriminate Hv |].
      injection Hv as _ _ _ Ec _ _ _ _. by rewrite Ec in Et.
  - intros a Ha. by eapply accepted_use.
  - intros Hprofile. rewrite (writes_counted k ev Hev).
    destruct (lk_writes k) as [|first [|second rest]] eqn:Ew; cbn; try lia.
    exfalso. by apply (Hs second first rest).
Qed.

Lemma skill_from_data_Ok d s : skill_from_data d = Ok s ->
  sk_ir_version s = text_at "ir_version" d
  /\ sk_semantics_profile s = text_at "semantics_profile" d
  /\ map_result required_from_data (list_at "requires" d) = Ok (sk_required_tools s)
  /\ map_result _statement_from_data (list_at "body" d) = Ok (sk_body s)
  /\ hashes_ok s.
Proof.
  unfold skill_from_data, integrity_if. intros H.
  apply bind_Ok in H as (symbols & _ & H). apply bind_Ok in H as (requires & Hr & H).
  apply bind_Ok in H as (inputs & _ & H). apply bind_Ok in H as (contexts & _ & H).
  apply bind_Ok in H as (outputs & _ & H). cbv zeta in H.
  apply bind_Ok in H as ([] & H1%raise_if_Ok & H). apply bind_Ok in H as ([] & H2%raise_if_Ok & H).
  apply bind_Ok in H as (body & Hb & H). apply bind_Ok in H as ([] & H3%raise_if_Ok & <-%Ok_inj).
  split_bool. apply String.eqb_eq in H1, H2, H3. do 4 (split; [done |]). split.
  - unfold with_computed_hash at 1. by rewrite <- H3 at 1.
  - cbn [sk_build]. congruence.
Qed.

Lemma decoded_disciplined (data : list ascii) (s : SkillObject) :
  nso_decode data = Ok s ->
  write_discipline s /\ hashes_ok s /\ (sk_ir_version s = "1.0" -> skill_sites s = []).
Proof.
  unfold nso_decode, nso_decode_within. intros H. apply bind_Ok in H as (raw & _ & H).
  apply bind_Ok in H as (u0 & _ & H). apply bind_Ok in H as ([] & Hv & H).
  apply skill_from_data_Ok in H as (Hir & Hprofile & Hreq & Hbody & Hh).
  unfold validate_nso_document in Hv. apply bind_Ok in Hv as (d & ->%object_is & Hv).
  cbn [object_of] in *. apply bind_Ok in Hv as (u1 & _ & Hv).
  apply bind_Ok in Hv as (ir & Hchoice & Hv).
  do 10 apply bind_Ok in Hv as (? & _ & Hv). do 3 apply bind_Ok in Hv as (? & _ & Hv).
  apply bind_Ok in Hv as (u2 & Hstatements & Hv). apply bind_Ok in Hv as ([] & Hlinks & _).
  unfold _choice in Hchoice. apply bind_Ok in Hchoice as (ir' & Hs & Hchoice).
  apply bind_Ok in Hchoice as (u4 & Hin%schema_if_Ok & <-%Ok_inj).
  rewrite (text_at_field _ _ _ _ Hs) in Hir. split_bool.
  assert (ir' = "1.0" -> skill_sites s = []) as H10.
  { intros ->. eapply validated_items; [exact Hstatements | exact Hbody |].
    intros v path y u Hv1 Hy. by eapply no_sites_fuel. }
  split; [| split; [done | by rewrite Hir]].
  apply elem_of_cons in Hin as [E | Hin]; [by apply no_sites_discipline, H10 |].
  apply list_elem_of_singleton in Hin as ->. cbn in Hlinks.
  unfold _validate_ir_1_1_links in Hlinks. apply bind_Ok in Hlinks as (tools & Ht & Hl).
  apply bind_Ok in Hl as (k & Hk & Hl). cbv zeta in Hl. apply bind_Ok in Hl as ([] & Hstrict & Hl).
  apply bind_Ok in Hl as ([] & Hw & Hu).
  apply (links_discipline d s tools (sk_required_tools s) (sk_body s) k); try done.
  - unfold skill_sites. eapply collect_links_adds; [| exact Hk].
    by eapply decodes_all; [| exact Hbody]; eexists.
  - intros second first rest Ew Hp. rewrite Ew in Hstrict. apply schema_if_Ok in Hstrict.
    rewrite <- Hprofile, Hp in Hstrict. discriminate Hstrict.
Qed.

(** C9. Decoding accepts no Skill outside the WRITE discipline. In whatever
    bytes [NsoCodec.decode] turns into a Skill object, the semantic hash is
    that of the content and the bundle hash that of the sources; approvals are
    told apart by their ids; every WRITE, at any depth of any expression, is
    outside all loops, comes after the approval it names and calls a required
    tool with the WRITE capability; every approval is named by exactly one
    WRITE, and a strict Skill has at most one. Skills of IR 1.0 have no WRITE
    and no approval at all. *)
Theorem decoded_discipline (data : list ascii) (s : SkillObject) :
  nso_decode data = Ok s ->
  write_discipline s /\ hashes_ok s /\ (sk_ir_version s = "1.0" -> skill_sites s = []).
Proof. apply decoded_disciplined. Qed.

(** A Skill that writes once, after its approval. *)
Lemma decoded_discipline_witness : exists data,
  nso_decode data = Ok po_skill /\ write_discipline po_skill
  /\ skill_sites po_skill = [ApprovalSite "manager"; WriteSite "manager" "t1" false].
Proof.
  pose proof po_encodes as H. destruct (nso_encode po_skill) as [data|] eqn:E; [| discriminate H].
  exists data.
  assert (nso_decode data = Ok po_skill) as Hd
    by exact (decode_encoded_skill po_skill data po_skill_ok po_hashes E).
  split; [exact Hd |]. split; [| reflexivity].
  exact (proj1 (decoded_discipline data po_skill Hd)).
Defined.
