(* ===== verification/SchemaErrors.v ===== *)
(** * How artifacts are refused: proofs

    The validator fails with [NsoSchemaError] only, and what it accepts is
    decoded or refused with a [ValueError]; a [RecursionError] comes from an
    interpreter whose stack is bounded. *)

From S2P Require Import Prelude Digest Json JsonBoundary Decimal Core Decoding Values.
From S2P Require Import DataProtection Ir NsoSchema NsoCodec Restoration SchemaFacts Artifacts Discipline.

(** ** The validator *)

Notation schema_only := (raises_only NsoSchemaError).

Lemma schema_error_only {A} path reason : schema_only (schema_error (A := A) path reason).
Proof. by intros e [= <-]. Qed.

Lemma schema_if_only b path reason : schema_only (schema_if b path reason).
Proof. destruct b; [apply schema_error_only | apply raises_only_Ok]. Qed.

Ltac schema_step :=
  first [ apply schema_error_only | apply schema_if_only | apply raises_only_Ok
        | match goal with |- schema_only (_ ≫= _) => apply raises_only_bind; [| intros] end ].

Lemma object_only v path fields optional : schema_only (_object_with_optional v path fields optional).
Proof. destruct v; cbn; repeat schema_step. Qed.

Lemma string_at_only v path allow_empty : schema_only (string_at v path allow_empty).
Proof. destruct v; cbn; repeat schema_step. Qed.

Class SchemaOnly {A} (f : json -> string -> result A) : Prop :=
  fails_only v path : schema_only (f v path).

#[export] Instance array_only : SchemaOnly _array.
Proof. intros [] path; schema_step. Qed.
#[export] Instance string_only : SchemaOnly _string.
Proof. intros v path. apply string_at_only. Qed.
#[export] Instance message_only : SchemaOnly message_at.
Proof. intros v path. apply string_at_only. Qed.
#[export] Instance plain_string_only : SchemaOnly plain_string.
Proof. intros v path. unfold plain_string. repeat schema_step. apply string_only. Qed.
#[export] Instance integer_only minimum : SchemaOnly (at_least minimum).
Proof. intros [] path; cbn; repeat schema_step. Qed.
#[export] Instance boolean_only : SchemaOnly _boolean.
Proof. intros [] path; cbn; repeat schema_step. Qed.
#[export] Instance sha256_only : SchemaOnly _sha256.
Proof. intros v path. unfold _sha256. repeat schema_step. apply string_only. Qed.
#[export] Instance choice_only choices : SchemaOnly (fun v path => _choice v path choices).
Proof. intros v path. unfold _choice. repeat schema_step. apply string_only. Qed.
#[export] Instance risk_level_only : SchemaOnly risk_level_at.
Proof. intros v path. apply (choice_only RISK_LEVELS). Qed.
#[export] Instance classification_only : SchemaOnly classification_at.
Proof. intros v path. apply (choice_only CLASSIFICATIONS). Qed.
#[export] Instance currency_only : SchemaOnly _currency.
Proof. intros v path. unfold _currency. repeat schema_step. apply string_only. Qed.

Lemma dec_of_string_error s e : dec_of_string s = Err e -> ex_class e = InvalidOperation.
Proof.
  unfold dec_of_string. destruct (take_sign (numeric_text s)) as [n l].
  destruct (match finite_of n l with Some _ => _ | None => _ end); [done | by intros [= <-]].
Qed.

#[export] Instance finite_decimal_only : SchemaOnly _finite_decimal.
Proof.
  intros v path. apply raises_only_bind; [apply string_only | intros s _].
  destruct (dec_of_string s) as [d|e] eqn:E; [repeat schema_step |].
  rewrite (dec_of_string_error _ _ E). apply schema_error_only.
Qed.

Lemma constant_only v expected path : schema_only (_constant v expected path).
Proof. apply schema_if_only. Qed.

Lemma each_field_only {A} (check : json -> string -> result A) d path names :
  (forall name, name ∈ names -> schema_only (check (field_of name d) (path +:+ "." +:+ name))) ->
  schema_only (each_field check d path names).
Proof.
  unfold each_field. induction names as [|n names IH]; intros H; cbn [each]; [apply raises_only_Ok |].
  apply raises_only_bind; [apply raises_only_bind; [apply H; left | intros; apply raises_only_Ok] |].
  intros _ _. apply IH. intros m Hm. apply H. by right.
Qed.

Lemma each_at_only f path l : (forall x p, x ∈ l -> schema_only (f x p)) ->
  forall i, schema_only (each_at f path i l).
Proof.
  induction l as [|x l IH]; intros H i; cbn [each_at]; [apply raises_only_Ok |].
  apply raises_only_bind; [apply H; left | intros _ _; apply IH].
  intros y p Hy. apply H. by right.
Qed.

Lemma each_field_fails {A} (check : json -> string -> result A) `{!SchemaOnly check} d path names :
  schema_only (each_field check d path names).
Proof. apply each_field_only. intros. apply fails_only. Qed.

Lemma each_item_only f d path name :
  (forall l x p, field_of name d = JArr l -> x ∈ l -> schema_only (f x p)) ->
  schema_only (each_item f d path name).
Proof.
  intros Hf. unfold each_item. cbv zeta. apply raises_only_bind; [apply array_only |].
  intros l Hl. apply each_at_only. intros x p Hx.
  destruct (field_of name d) as [| | | |l'|] eqn:E; try discriminate Hl.
  apply Ok_inj in Hl as <-. by eapply Hf.
Qed.

Lemma each_item_fails f `{!SchemaOnly f} d path name : schema_only (each_item f d path name).
Proof. apply each_item_only. intros. apply fails_only. Qed.

(** One step of the proof that a check fails with a schema error. *)
Ltac fails_step :=
  first [ schema_step | apply object_only | apply constant_only
        | apply fails_only
        | apply each_field_fails; typeclasses eauto | apply each_item_fails; typeclasses eauto
        | match goal with
          | |- schema_only (if ?b then _ else _) => destruct b
          | |- schema_only (match ?x with Some _ => _ | None => _ end) => destruct x
          end ].
Ltac fails := repeat (intros; cbv zeta; fails_step).

Lemma depth_positive v : 1 <= json_depth v.
Proof. destruct v; cbn; lia. Qed.

Lemma field_depth name d : json_depth (field_of name d) <= json_depth (JObj d).
Proof.
  unfold field_of. destruct (assoc name d) as [v|] eqn:E; cbn [default from_option id].
  - apply assoc_elem, depth_field in E. lia.
  - apply (depth_positive (JObj d)).
Qed.

(** A check of the documents up to some depth. *)
Definition below (fuel : nat) (f : json -> string -> result unit) : Prop :=
  forall v path, json_depth v <= fuel -> schema_only (f v path).

Section Below.
Context (fuel : nat) (d : members) (kind : string) (path0 : string).
Context (Hd : json_depth (JObj d) <= S fuel) (Hkind : _string (field_of "kind" d) path0 = Ok kind).

Lemma field_below name : json_depth (field_of name d) <= fuel.
Proof.
  unfold field_of in *. destruct (assoc name d) as [v|] eqn:E; cbn [default from_option id].
  - apply assoc_elem, depth_field in E. lia.
  - destruct (assoc "kind" d) as [v|] eqn:Ek; [| discriminate Hkind].
    apply assoc_elem, depth_field in Ek. pose proof (depth_positive v). cbn [json_depth]. lia.
Qed.

Lemma each_item_below f path name : below fuel f -> schema_only (each_item f d path name).
Proof.
  intros Hf. apply each_item_only. intros l x p E Hx. apply Hf.
  pose proof (field_below name) as H. rewrite E in H. apply depth_item in Hx. lia.
Qed.

Lemma each_field_below f path names : below fuel f -> schema_only (each_field f d path names).
Proof. intros Hf. apply each_field_only. intros name _. apply Hf, field_below. Qed.
End Below.

Lemma named_below fuel f : below fuel f -> below fuel (validate_named f).
Proof.
  intros Hf v path Hv. unfold validate_named. apply raises_only_bind; [apply object_only |].
  intros d ->%object_is. apply raises_only_bind; [apply each_field_fails; typeclasses eauto |].
  intros _ _. apply Hf. pose proof (field_depth "value" d). lia.
Qed.

Lemma type_field_below fuel f : below fuel f -> below fuel (validate_type_field f).
Proof.
  intros Hf v path Hv. unfold validate_type_field. apply raises_only_bind; [apply object_only |].
  intros d ->%object_is. apply raises_only_bind; [apply each_field_fails; typeclasses eauto |].
  intros _ _. apply Hf. pose proof (field_depth "type" d). lia.
Qed.

Lemma type_below fuel : below fuel (_validate_type_fuel fuel).
Proof.
  induction fuel as [|fuel IH]; intros v path Hv; [pose proof (depth_positive v); lia |].
  cbn [_validate_type_fuel]. destruct v as [| | | | |d]; try apply schema_error_only. cbv zeta.
  apply raises_only_bind; [apply string_only | intros kind Hkind].
  destruct (type_fields kind) as [fields|]; [| apply schema_error_only].
  apply raises_only_bind; [apply object_only | intros d' [= <-]%object_is].
  fails.
  - apply IH. eapply field_below; [exact Hv | exact Hkind].
  - eapply each_item_below; [exact Hv | exact Hkind |]. by apply type_field_below.
Qed.

#[export] Instance type_only : SchemaOnly _validate_type.
Proof. intros v path. by apply type_below. Qed.

#[export] Instance literal_only : SchemaOnly _validate_literal_value.
Proof. intros [] path; unfold _validate_literal_value; fails. Qed.

Lemma expression_below ir fuel : below fuel (_validate_expression_fuel ir fuel).
Proof.
  induction fuel as [|fuel IH]; intros v path Hv; [pose proof (depth_positive v); lia |].
  cbn [_validate_expression_fuel]. destruct v as [| | | | |d]; try apply schema_error_only.
  apply raises_only_bind; [apply string_only | intros kind Hkind].
  destruct (expression_fields ir kind) as [fields|]; [| apply schema_error_only].
  apply raises_only_bind; [apply object_only | intros d' [= <-]%object_is].
  fails;
    (eapply each_field_below || eapply each_item_below); try exact Hv; try exact Hkind;
    solve [exact IH | by apply named_below].
Qed.

#[export] Instance expression_only ir : SchemaOnly (_validate_expression ir).
Proof. intros v path. by apply expression_below. Qed.

#[export] Instance named_only f : SchemaOnly f -> SchemaOnly (validate_named f).
Proof. intros Hf v path. apply (named_below (json_depth v)); [intros ? ? _; apply Hf | done]. Qed.

#[export] Instance data_policy_only : SchemaOnly validate_data_policy.
Proof. intros v path. unfold validate_data_policy. fails. Qed.

#[export] Instance approval_policy_only : SchemaOnly validate_approval_policy.
Proof.
  intros v path. unfold validate_approval_policy, constant_true. fails. apply (integer_only 1).
Qed.

Lemma statement_below ir fuel : below fuel (_validate_statement_fuel ir fuel).
Proof.
  induction fuel as [|fuel IH]; intros v path Hv; [pose proof (depth_positive v); lia |].
  cbn [_validate_statement_fuel]. destruct v as [| | | | |d]; try apply schema_error_only.
  apply raises_only_bind; [apply string_only | intros kind Hkind].
  destruct (statement_fields ir kind) as [fields|]; [| apply schema_error_only].
  apply raises_only_bind; [apply object_only | intros d' [= <-]%object_is].
  fails. eapply each_item_below; [exact Hv | exact Hkind | exact IH].
Qed.

#[export] Instance statement_only ir : SchemaOnly (_validate_statement ir).
Proof. intros v path. by apply statement_below. Qed.

#[export] Instance symbol_only : SchemaOnly validate_symbol.
Proof. intros v path. unfold validate_symbol. fails. Qed.
#[export] Instance input_only : SchemaOnly validate_input.
Proof. intros v path. unfold validate_input. fails. Qed.
#[export] Instance context_only : SchemaOnly validate_context.
Proof. intros v path. unfold validate_context. fails. Qed.
#[export] Instance output_only : SchemaOnly validate_output.
Proof. intros v path. unfold validate_output. fails. Qed.
#[export] Instance required_only ir : SchemaOnly (validate_required ir).
Proof. intros v path. unfold validate_required. fails. apply (choice_only TOOL_CAPABILITIES). Qed.

Lemma sources_only l : forall index seen roots, schema_only (validate_sources index seen roots l).
Proof. induction l as [|v l IH]; intros index seen roots; cbn [validate_sources]; fails; apply IH. Qed.

Lemma build_only v : schema_only (validate_build v).
Proof. unfold validate_build. fails. apply sources_only. Qed.

Lemma fold_only {A B} (f : result A -> B -> result A) l :
  (forall acc x, x ∈ l -> schema_only acc -> schema_only (f acc x)) ->
  forall acc, schema_only acc -> schema_only (fold_left f l acc).
Proof.
  induction l as [|x l IH]; intros H acc Ha; [done |]. cbn [fold_left].
  apply IH; [| apply H; [left | done]]. intros b y Hy. apply H. by right.
Qed.

Lemma list_at_depth k d : json_depth (JArr (list_at k d)) <= json_depth (field_of k d).
Proof.
  unfold list_at, field_of.
  destruct (assoc k d) as [[]|]; cbn [default from_option id]; try apply depth_positive; done.
Qed.

Lemma list_at_below k v : json_depth (JArr (list_at k (object_of v))) <= json_depth v - 1
  \/ list_at k (object_of v) = [].
Proof.
  unfold list_at. destruct (assoc k (object_of v)) as [[| | | |l|]|] eqn:E; try by right.
  left. destruct v as [| | | | |d]; try discriminate E. cbn [object_of] in *. apply assoc_elem, depth_field in E. lia.
Qed.

Lemma collect_links_below fuel : forall inside l path k, json_depth (JArr l) <= fuel ->
  schema_only (_collect_ir_1_1_links fuel inside l path k).
Proof.
  induction fuel as [|fuel IH]; intros inside l path k Hl; [pose proof (depth_positive (JArr l)); lia |].
  cbn [_collect_ir_1_1_links]. apply fold_only; [| apply raises_only_Ok].
  intros acc [p v] Hv%enumerated_elem Ha. cbn [fst snd] in *. apply depth_item in Hv.
  apply raises_only_bind; [done | intros k' _]. unfold collect_statement. fails.
  apply IH. pose proof (depth_positive v).
  destruct (list_at_below "body" v) as [H' | ->]; [lia | cbn; lia].
Qed.

Lemma links_only d : schema_only (_validate_ir_1_1_links d).
Proof.
  unfold _validate_ir_1_1_links. apply raises_only_bind.
  { apply fold_only; [| apply raises_only_Ok]. intros acc pv _ Ha. unfold collect_tool.
    apply raises_only_bind; [done | fails]. }
  intros tools _. apply raises_only_bind.
  { apply collect_links_below, list_at_depth. }
  intros k _. cbv zeta. apply raises_only_bind.
  { destruct (lk_writes k) as [|? [|? ?]]; fails. }
  intros _ _.
  assert (forall {A} (f : A -> result unit) l, (forall x, schema_only (f x)) -> schema_only (each f l))
    as Heach.
  { clear. intros A f l H. induction l as [|x l IH]; cbn [each]; [apply raises_only_Ok |].
    apply raises_only_bind; [apply H | intros; apply IH]. }
  apply raises_only_bind; [| intros; apply Heach; intros; apply schema_if_only].
  apply Heach. intros w. unfold check_write. cbv zeta.
  apply raises_only_bind; [apply schema_if_only | intros _ _].
  destruct (assoc (wl_approval_ref w) (lk_approvals k)) as [[p o]|]; fails.
Qed.

(** A document is accepted or refused with [NsoSchemaError], however malformed
    and however deep it is. *)
Lemma document_only v : schema_only (validate_nso_document v).
Proof.
  unfold validate_nso_document, validate_limits, validate_analysis, validate_hashes. fails.
  - apply (choice_only IR_VERSIONS).
  - apply links_only.
  - apply build_only.
Qed.

(** ** Reading what was validated *)

(** [refuses r]: if [r] fails, it fails with a [ValueError]. *)
Definition refuses {A} (r : result A) : Prop :=
  forall e, r = Err e -> isinstance_exn (ex_class e) ValueError = true.

Lemma refuses_Ok {A} (a : A) : refuses (Ok a).
Proof. discriminate. Qed.

Lemma refuses_bind {A B} (m : result A) (f : A -> result B) :
  refuses m -> (forall a, m = Ok a -> refuses (f a)) -> refuses (m ≫= f).
Proof. intros Hm Hf e [H | (a & H1 & H2)]%bind_Err; [by apply Hm | by eapply Hf]. Qed.

Lemma refuses_raise {A} c code message : isinstance_exn c ValueError = true ->
  refuses (A := A) (Err (Exn c code message)).
Proof. by intros H e [= <-]. Qed.

Lemma refuses_raise_if b c message : isinstance_exn c ValueError = true ->
  refuses (raise_if b c message).
Proof. intros H. destruct b; [by apply refuses_raise | apply refuses_Ok]. Qed.

Lemma refuses_map {A B} (f : A -> result B) l : (forall x, x ∈ l -> refuses (f x)) ->
  refuses (map_result f l).
Proof.
  induction l as [|x l IH]; intros H; cbn [map_result]; [apply refuses_Ok |].
  apply refuses_bind; [apply H; left | intros y _].
  apply refuses_bind; [apply IH; intros z Hz; apply H; by right | intros; apply refuses_Ok].
Qed.

Lemma schema_refuses {A} (r : result A) : schema_only r -> refuses r.
Proof. by intros H e He%H; rewrite He. Qed.

Ltac refuse_step :=
  first [ apply refuses_Ok | apply refuses_raise; reflexivity | apply refuses_raise_if; reflexivity
        | match goal with
          | |- refuses (_ ≫= _) => apply refuses_bind; [| intros]
          | |- refuses (if ?b then _ else _) => destruct b
          end ].
Ltac refuse := repeat (cbv zeta; refuse_step).

Lemma each_refuses {A} (f : A -> result unit) l : (forall x, refuses (f x)) -> refuses (each f l).
Proof.
  intros H. induction l as [|x l IH]; cbn [each]; [apply refuses_Ok |].
  apply refuses_bind; [apply H | by intros].
Qed.

Lemma new_TypeRef_refuses k n c i fs e : refuses (new_TypeRef k n c i fs e).
Proof.
  unfold new_TypeRef, TypeRef_post_init, _require_currency_code. cbn [ty_kind ty_currency].
  refuse. destruct c; refuse.
Qed.

(** The members of a validated object. *)
Lemma string_field k d p s : _string (field_of k d) p = Ok s -> assoc k d = Some (JStr s).
Proof.
  unfold field_of. destruct (assoc k d) as [[]|]; try discriminate. cbn.
  intros H. by apply bind_Ok in H as (u & _ & <-%Ok_inj).
Qed.

Lemma array_field k d l : field_of k d = JArr l -> assoc k d = Some (JArr l).
Proof. unfold field_of. destruct (assoc k d) as [v|]; [by intros <- | discriminate]. Qed.

Lemma absent_field k (d : members) fields path : _object (JObj d) path fields = Ok d -> k ∉ fields ->
  assoc k d = None.
Proof.
  intros (_ & H)%exact_Ok Hk. apply assoc_none. by rewrite <- H.
Qed.

Lemma present_field k (d : members) fields path : _object (JObj d) path fields = Ok d -> k ∈ fields ->
  exists v, assoc k d = Some v /\ field_of k d = v.
Proof.
  intros (_ & H)%exact_Ok Hk. apply H in Hk as H'. unfold field_of. clear H. rename H' into H.
  destruct (assoc k d) as [v|] eqn:E; [by exists v |].
  apply list_elem_of_fmap in H as ([k' v] & -> & Hin).
  exfalso. clear - E Hin. induction d as [|[k v'] d IH]; [by apply elem_of_nil in Hin |].
  cbn in E. destruct (String.eqb_spec k' k) as [-> | Hne]; [done |].
  apply elem_of_cons in Hin as [[= -> ->] | Hin]; [done | by apply IH].
Qed.

Section ReadType.
Context (fuel : nat) (read := type_from_data_fuel fuel).

(** The fields of a record type. *)
Lemma type_fields_refuse l :
  (forall j v, l !! j = Some v -> exists path, validate_type_field (_validate_type_fuel fuel) v path = Ok tt) ->
  (forall v path u, _validate_type_fuel fuel v path = Ok u -> refuses (read v)) ->
  refuses (map_result (fun f =>
             o ← as_object f;
             name ← (v ← required_field "name" o; as_str v);
             t ← (v ← required_field "type" o; read v);
             Ok (name, t)) l).
Proof.
  intros Hl IH. apply refuses_map. intros v Hv. apply list_elem_of_lookup in Hv as [j Hj].
  destruct (Hl j v Hj) as [path Hp]. unfold validate_type_field in Hp.
  apply bind_Ok in Hp as (d & Ho & Hp). pose proof (object_is _ _ _ _ Ho) as ->.
  apply bind_Ok in Hp as (u & Hn & Ht). apply (each_field_In _ _ _ _ _ "name") in Hn as [s Hs]; [| left].
  apply string_field in Hs. unfold required_field. cbn [as_object mbind result_bind]. rewrite Hs.
  cbn [as_str mbind result_bind].
  destruct (present_field "type" _ _ _ Ho) as (t & Et & Ef); [right; left |]. rewrite Et.
  cbn [mbind result_bind]. rewrite Ef in Ht. apply refuses_bind; [by eapply IH | intros; apply refuses_Ok].
Qed.
End ReadType.

(** Tests of a known kind. *)
Ltac known H :=
  repeat match type of H with
  | context [bool_decide (?k ∈ ?l)] =>
      let b := eval vm_compute in (bool_decide (k ∈ l)) in
      change (bool_decide (k ∈ l)) with b in H
  | context [String.eqb ?s ?t] =>
      let b := eval vm_compute in (String.eqb s t) in change (String.eqb s t) with b in H
  end; cbv iota in H.

Ltac not_listed := intros Hin; repeat apply elem_of_cons in Hin as [Hin | Hin]; try discriminate Hin;
  by apply elem_of_nil in Hin.

Lemma strings_refuse l path : (forall j v, l !! j = Some v -> plain_string v (path j) = Ok tt) ->
  refuses (map_result as_str l).
Proof.
  intros H. apply refuses_map. intros v Hv. apply list_elem_of_lookup in Hv as [j Hj].
  specialize (H j v Hj). destruct v; try discriminate H. apply refuses_Ok.
Qed.

Lemma type_refuses fuel : forall v path u, _validate_type_fuel fuel v path = Ok u ->
  refuses (type_from_data_fuel fuel v).
Proof.
  induction fuel as [|fuel IH]; intros v path u H; [discriminate H |].
  cbn [_validate_type_fuel type_from_data_fuel] in *. destruct v as [| | | | |d]; try discriminate H.
  cbv zeta in H. apply bind_Ok in H as (kind & Hkind%string_field & H).
  destruct (type_fields kind) as [fields|] eqn:Ef; [| discriminate H].
  apply bind_Ok in H as (d' & Ho & H). pose proof (object_is _ _ _ _ Ho) as [= <-].
  assert (forall k, k ∉ fields -> assoc k d = None) as Habs by (intros; by eapply absent_field).
  cbn [as_object mbind result_bind]. unfold required_field, optional_str, optional_list.
  rewrite Hkind. cbn [as_str mbind result_bind].
  assert (forall k p u', each_field _string d p [k] = Ok u' ->
    exists s, assoc k d = Some (JStr s)) as Hstr.
  { intros k p u' Hk. apply (each_field_In _ _ _ _ _ k) in Hk as [s Hs%string_field]; [by exists s | left]. }
  apply assoc_elem in Ef. repeat apply elem_of_cons in Ef as [[= -> ->] | Ef];
    [.. | by apply elem_of_nil in Ef]; known H;
    rewrite ?(Habs "name"), ?(Habs "currency"), ?(Habs "item"), ?(Habs "fields"), ?(Habs "values")
      by not_listed.
  - apply Hstr in H as [s ->]. apply new_TypeRef_refuses.
  - apply Hstr in H as [s ->]. apply new_TypeRef_refuses.
  - destruct (each_field_In _ _ _ _ _ "currency" H) as [s Hs]; [left |].
    unfold _currency in Hs. apply bind_Ok in Hs as (s' & ->%string_field & _).
    apply new_TypeRef_refuses.
  - destruct (present_field "item" _ _ _ Ho) as (t & -> & Et); [member |]. rewrite Et in H.
    cbn [as_str mbind result_bind map_result].
    apply refuses_bind; [| intros; apply new_TypeRef_refuses].
    apply refuses_bind; [by eapply IH | intros; apply refuses_Ok].
  - apply bind_Ok in H as (u1 & [s ->]%Hstr & H). apply each_item_Ok in H as (l & El & H).
    rewrite (array_field _ _ _ El). cbn [as_str mbind result_bind map_result].
    apply refuses_bind; [| intros; apply new_TypeRef_refuses].
    apply type_fields_refuse; [intros j v Hj; eexists; by apply H | exact IH].
  - apply bind_Ok in H as (u1 & [s ->]%Hstr & H). apply each_item_Ok in H as (l & El & H).
    rewrite (array_field _ _ _ El). cbn [as_str mbind result_bind map_result].
    apply refuses_bind; [by eapply strings_refuse | intros; apply new_TypeRef_refuses].
Qed.

Lemma type_at_refuses d path u : each_field _validate_type d path ["type"] = Ok u ->
  refuses (type_at d).
Proof.
  intros H. apply (each_field_In _ _ _ _ _ "type") in H as [a Ha]; [by eapply type_refuses | left].
Qed.

Lemma decimal_refuses v label : refuses (_decode_decimal_string v label).
Proof.
  unfold _decode_decimal_string. cbv zeta. destruct v as [| | |s| |]; try by apply refuses_raise.
  destruct (dec_of_string s) as [d|e] eqn:E; [apply refuses_Ok |].
  rewrite (dec_of_string_error _ _ E). by apply refuses_raise.
Qed.

Lemma money_refuses a c : refuses (money_of_json a c).
Proof.
  destruct c; cbn [money_of_json]; try by refuse.
  unfold new_Money, _require_currency_code. by refuse.
Qed.

Lemma literal_refuses v path u : _validate_literal_value v path = Ok u -> refuses (decode_value v).
Proof.
  intros H. destruct v as [|b|z|s|l|d]; try discriminate H; try apply refuses_Ok.
  unfold _validate_literal_value in H. cbv zeta in H. cbn [decode_value].
  destruct (tag_of d) as [tag|] eqn:Et; cbn [default from_option id mbind option_bind] in *;
    [| discriminate H].
  unfold decode_tagged.
  destruct (String.eqb_spec tag "Decimal") as [-> |].
  { apply refuses_bind; [apply decimal_refuses | intros; apply refuses_Ok]. }
  destruct (String.eqb_spec tag "Money") as [-> |]; [| discriminate H].
  apply refuses_bind; [apply decimal_refuses | intros].
  apply refuses_bind; [apply money_refuses | intros; apply refuses_Ok].
Qed.

Lemma enum_refuses {A} cls value_of (choices : list A) name d :
  refuses (enum_at cls value_of choices name d).
Proof. unfold enum_at. cbv zeta. destruct (find _ _); [apply refuses_Ok | by apply refuses_raise]. Qed.

Lemma nonempty_texts_refuses suffix l : refuses (nonempty_texts suffix l).
Proof. apply each_refuses. intros x. by apply refuses_raise_if. Qed.

Lemma write_refuses n tool args approval t : refuses (new_WriteExpression n tool args approval t).
Proof.
  unfold new_WriteExpression, WriteExpression_post_init. cbv zeta.
  apply refuses_bind; [| intros; apply refuses_Ok].
  apply refuses_bind; [apply nonempty_texts_refuses | intros].
  apply refuses_bind; [apply each_refuses; intros; by apply refuses_raise_if | intros].
  by apply refuses_raise_if.
Qed.

(** Validated items are read or refused. *)
Lemma items_refuse {A} (validate : json -> string -> result unit) (read : json -> result A) d path
    name u :
  each_item validate d path name = Ok u ->
  (forall v path u, validate v path = Ok u -> refuses (read v)) ->
  refuses (map_result read (list_at name d)).
Proof.
  rewrite each_item_Ok. intros (l & El & Hv) Hr. rewrite (list_at_field _ _ _ El).
  apply refuses_map. intros v Hin. apply list_elem_of_lookup in Hin as [j Hj].
  by eapply Hr, Hv.
Qed.

Lemma named_refuses (validate : json -> string -> result unit) (read : json -> result Expression)
    v path u :
  (forall v path u, validate v path = Ok u -> refuses (read v)) ->
  validate_named validate v path = Ok u ->
  refuses (e ← read (field_of "value" (object_of v)); Ok (text_at "name" (object_of v), e)).
Proof.
  unfold validate_named. intros Hr H. apply bind_Ok in H as (d & ->%object_is & H).
  apply bind_Ok in H as (u1 & _ & H).
  apply refuses_bind; [by eapply Hr | intros; apply refuses_Ok].
Qed.

Lemma expression_refuses ir fuel : forall v path u,
  _validate_expression_fuel ir fuel v path = Ok u -> refuses (expr_from_data_fuel fuel v).
Proof.
  induction fuel as [|fuel IH]; intros v path u H; [discriminate H |].
  cbn [_validate_expression_fuel expr_from_data_fuel] in *.
  destruct v as [| | | | |d]; try discriminate H. cbv zeta in *. cbn [object_of].
  apply bind_Ok in H as (kind & Hkind & H). rewrite (text_at_field _ _ _ _ Hkind).
  destruct (expression_fields ir kind) as [fields|] eqn:Ef; [| discriminate H].
  apply bind_Ok in H as (d' & [= <-]%object_is & H).
  apply bind_Ok in H as (u1 & _ & H). apply bind_Ok in H as (u2 & Ht & H).
  apply refuses_bind; [by eapply type_at_refuses | intros t _].
  assert (forall name p names u, each_field (_validate_expression_fuel ir fuel) d p names = Ok u ->
    name ∈ names -> refuses (expr_from_data_fuel fuel (field_of name d))) as Hsub.
  { intros name p names u' Hf Hin.
    destruct (each_field_In _ _ _ _ _ name Hf Hin) as [a Ha]. by eapply IH. }
  assert (forall p u, each_item (validate_named (_validate_expression_fuel ir fuel)) d p "arguments" = Ok u ->
    refuses (map_result (fun item => e ← expr_from_data_fuel fuel (field_of "value" (object_of item));
               Ok (text_at "name" (object_of item), e)) (list_at "arguments" d))) as Hargs.
  { intros p u' Hi. eapply items_refuse; [exact Hi |]. intros v p' u'' Hv.
    by eapply named_refuses. }
  destruct (String.eqb_spec kind "literal") as [-> | H1].
  { apply (each_field_In _ _ _ _ _ "value") in H as [a Ha]; [| left].
    apply refuses_bind; [by eapply literal_refuses | intros; apply refuses_Ok]. }
  destruct (String.eqb_spec kind "symbol_ref") as [-> | H2]; [apply refuses_Ok |].
  destruct (String.eqb_spec kind "field") as [-> | H3].
  { apply bind_Ok in H as (u3 & Hf & _).
    apply refuses_bind; [by eapply Hsub; [exact Hf | left] | intros; apply refuses_Ok]. }
  destruct (String.eqb_spec kind "project") as [-> | H4].
  { apply bind_Ok in H as (u3 & Hf & _).
    apply refuses_bind; [by eapply Hsub; [exact Hf | left] | intros; apply refuses_Ok]. }
  destruct (String.eqb_spec kind "call") as [-> | H5].
  { apply bind_Ok in H as (u3 & _ & H).
    apply refuses_bind; [by eapply items_refuse | intros; apply refuses_Ok]. }
  destruct (String.eqb_spec kind "binary") as [-> | H6].
  { apply bind_Ok in H as (u3 & _ & H).
    apply refuses_bind; [by eapply Hsub; [exact H | left] | intros].
    apply refuses_bind; [by eapply Hsub; [exact H | right; left] | intros; apply refuses_Ok]. }
  destruct (String.eqb_spec kind "read") as [-> | H7].
  { apply bind_Ok in H as (u3 & _ & H). apply bind_Ok in H as (u4 & _ & H).
    apply bind_Ok in H as (u5 & H & _).
    apply refuses_bind; [by eapply Hargs | intros; apply refuses_Ok]. }
  destruct (String.eqb_spec kind "write") as [-> | H8]; [| by apply refuses_raise].
  apply bind_Ok in H as (u3 & _ & H). apply bind_Ok in H as (u4 & _ & H).
  apply bind_Ok in H as (u5 & H & _).
  apply refuses_bind; [by eapply Hargs | intros].
  apply refuses_bind; [apply write_refuses | intros; apply refuses_Ok].
Qed.

Lemma expr_refuses ir v path u : _validate_expression ir v path = Ok u -> refuses (_expr_from_data v).
Proof. apply expression_refuses. Qed.

Lemma approval_policy_refuses d : refuses (approval_policy_of d).
Proof.
  unfold approval_policy_of, new_ApprovalPolicy, ApprovalPolicy_post_init. cbv zeta.
  destruct (assoc "ttl_seconds" d) as [[]|]; cbn [ttl_seconds]; refuse.
Qed.

Lemma statement_refuses ir fuel : forall v path u,
  _validate_statement_fuel ir fuel v path = Ok u -> refuses (statement_from_data_fuel fuel v).
Proof.
  induction fuel as [|fuel IH]; intros v path u H; [discriminate H |].
  cbn [_validate_statement_fuel statement_from_data_fuel] in *.
  destruct v as [| | | | |d]; try discriminate H. cbv zeta in *. cbn [object_of].
  apply bind_Ok in H as (kind & Hkind & H). rewrite (text_at_field _ _ _ _ Hkind).
  destruct (statement_fields ir kind) as [fields|] eqn:Ef; [| discriminate H].
  apply bind_Ok in H as (d' & [= <-]%object_is & H). apply bind_Ok in H as (u1 & _ & H).
  assert (forall name p u, each_field (_validate_expression ir) d p [name] = Ok u ->
    refuses (_expr_from_data (field_of name d))) as Hsub.
  { intros name p u' Hf. destruct (each_field_In _ _ _ _ _ name Hf) as [a Ha]; [left |].
    by eapply expr_refuses. }
  destruct (String.eqb_spec kind "let") as [-> | H1].
  { apply bind_Ok in H as (u2 & _ & H). apply refuses_bind; [by eapply Hsub | intros; apply refuses_Ok]. }
  destruct (String.eqb_spec kind "foreach") as [-> | H2].
  { apply bind_Ok in H as (u2 & _ & H). apply bind_Ok in H as (u3 & Hc & H).
    apply bind_Ok in H as (u4 & _ & H). apply refuses_bind; [by eapply Hsub | intros].
    apply refuses_bind; [by eapply items_refuse | intros; apply refuses_Ok]. }
  destruct (String.eqb_spec kind "check") as [-> | H3].
  { apply bind_Ok in H as (u2 & _ & H). apply bind_Ok in H as (u3 & _ & H).
    apply bind_Ok in H as (u4 & Hc & _).
    apply refuses_bind; [by eapply Hsub | intros; apply refuses_Ok]. }
  destruct (String.eqb_spec kind "emit") as [-> | H4].
  { apply refuses_bind; [| intros; apply refuses_Ok]. eapply items_refuse; [exact H |].
    intros v p' u'' Hv. eapply named_refuses; [exact (expr_refuses ir) | exact Hv]. }
  destruct (String.eqb_spec kind "approval") as [-> | H5]; [| by apply refuses_raise].
  apply refuses_bind; [apply approval_policy_refuses | intros].
  apply refuses_bind; [| intros; apply refuses_Ok]. unfold new_ApprovalStatement.
  apply refuses_bind; [apply nonempty_texts_refuses | intros; apply refuses_Ok].
Qed.

Lemma required_refuses v : refuses (required_from_data v).
Proof.
  unfold required_from_data. cbv zeta. apply refuses_bind; [apply enum_refuses | intros].
  apply refuses_bind; [destruct (assoc _ _); [| apply refuses_Ok];
    apply refuses_bind; [apply enum_refuses | intros; apply refuses_Ok] | intros].
  unfold new_RequiredTool. by refuse.
Qed.

(** A declaration with a type and a classification. *)
Lemma declared_refuses {A} (f : TypeRef -> DataClassification -> A) d path u :
  each_field _validate_type d path ["type"] = Ok u ->
  refuses (t ← type_at d; c ← classification_of "classification" d; Ok (f t c)).
Proof.
  intros H. apply refuses_bind; [by eapply type_at_refuses | intros].
  apply refuses_bind; [apply enum_refuses | intros; apply refuses_Ok].
Qed.

Lemma skill_refuses v u : validate_nso_document v = Ok u -> refuses (skill_from_data (object_of v)).
Proof.
  unfold validate_nso_document. intros H. apply bind_Ok in H as (d & ->%object_is & H).
  cbn [object_of]. apply bind_Ok in H as (u1 & _ & H). apply bind_Ok in H as (ir & _ & H).
  do 6 apply bind_Ok in H as (? & _ & H). apply bind_Ok in H as (u2 & _ & H).
  apply bind_Ok in H as (u3 & Hsymbols & H). apply bind_Ok in H as (u4 & _ & H).
  apply bind_Ok in H as (u5 & _ & H). apply bind_Ok in H as (u6 & Hinputs & H).
  apply bind_Ok in H as (u7 & Hcontexts & H). apply bind_Ok in H as (u8 & Houtputs & H).
  apply bind_Ok in H as (u9 & Hbody & _).
  unfold skill_from_data, integrity_if.
  apply refuses_bind; [| intros symbols _].
  { eapply items_refuse; [exact Hsymbols |]. clear. intros v path u H. unfold validate_symbol in H.
    apply bind_Ok in H as (d & ->%object_is & H). apply bind_Ok in H as (u1 & _ & H).
    apply bind_Ok in H as (u2 & _ & H). by eapply (declared_refuses (MkSymbolSpec _ _ _)). }
  apply refuses_bind; [apply refuses_map; intros; apply required_refuses | intros requires _].
  apply refuses_bind; [| intros inputs _].
  { eapply items_refuse; [exact Hinputs |]. clear. intros v path u H. unfold validate_input in H.
    apply bind_Ok in H as (d & ->%object_is & H). apply bind_Ok in H as (u1 & _ & H).
    apply bind_Ok in H as (u2 & _ & H). apply bind_Ok in H as (u3 & H & _).
    by eapply (declared_refuses (fun t c => MkInputSpec _ _ t _ c)). }
  apply refuses_bind; [| intros contexts _].
  { eapply items_refuse; [exact Hcontexts |]. clear. intros v path u H. unfold validate_context in H.
    apply bind_Ok in H as (d & ->%object_is & H). apply bind_Ok in H as (u1 & _ & H).
    apply bind_Ok in H as (u2 & _ & H). apply bind_Ok in H as (u3 & H & _).
    by eapply (declared_refuses (fun t c => MkContextSpec _ _ t _ c)). }
  apply refuses_bind; [| intros outputs _].
  { eapply items_refuse; [exact Houtputs |]. clear. intros v path u H. unfold validate_output in H.
    apply bind_Ok in H as (d & ->%object_is & H). apply bind_Ok in H as (u1 & _ & H).
    apply bind_Ok in H as (u2 & H & _). by eapply (declared_refuses (MkOutputField _)). }
  cbv zeta. apply refuses_bind; [by apply refuses_raise_if | intros].
  apply refuses_bind; [by apply refuses_raise_if | intros].
  apply refuses_bind; [| intros; apply refuses_bind; [by apply refuses_raise_if | intros; apply refuses_Ok]].
  eapply items_refuse; [exact Hbody |]. intros v path u' Hv. by eapply statement_refuses.
Qed.

(** What [NsoCodec.decode] raises. *)
Lemma decode_within_refused (i : Interpreter) (data : list ascii) e :
  nso_decode_within i data = Err e ->
  isinstance_exn (ex_class e) ValueError = true \/ ex_class e = OutOfModel
  \/ (ex_class e = RecursionError /\ in_stack i <> None).
Proof.
  intros H. unfold nso_decode_within in H. apply bind_Err in H as [H | (raw & _ & H)].
  { pose proof (load_within_outcome schema_exn i "NSO" data) as Hl. unfold load_nso_json in H.
    rewrite H in Hl. destruct Hl as [[m ->] | [[Hl _] | [Hl | [Hl _]]]]; [by left | auto | auto |].
    left. by rewrite Hl. }
  left. revert e H. change (refuses (_ ← ensure_no_credential_material (value_of_json raw) ".nso";
    _ ← validate_nso_document raw; skill_from_data (object_of raw))).
  apply refuses_bind.
  { unfold ensure_no_credential_material.
    destruct (find_credential_path _ _); [by apply refuses_raise | apply refuses_Ok]. }
  intros [] _. apply refuses_bind; [apply schema_refuses, document_only | intros u Hv].
  by eapply skill_refuses.
Qed.

Lemma decode_refused (data : list ascii) e : nso_decode data = Err e ->
  isinstance_exn (ex_class e) ValueError = true \/ ex_class e = OutOfModel.
Proof. intros [H | [H | [_ []]]]%decode_within_refused; auto. Qed.


