(* ===== verification/Approval.v ===== *)
(** * The approval workflow ([src/nsl/approval.py])

    An execution that needs an approval is suspended: its state is captured,
    the checkpoint is saved, and only then the request is published. It is
    resumed with evidence of a decision: the checkpoint is claimed, restored,
    the evidence is validated against it, and the claim is released or
    consumed. The stores, the publisher, the verifier and the clock are
    foreign: each answers from the history of the calls before it. *)

From S2P Require Import Prelude Digest Json JsonBoundary Decimal Core Decoding DataProtection.
From S2P Require Import Ir Security AuditTrail WriteRecords RuntimeModels Validation Runtime.
From S2P Require Import Checkpoints.

Notation approval_text := (required_text ValueError).
Notation approval_sha256 := (sha256_text ValueError).
Notation approval_utc := (utc_instant ValueError).

(** ** Summaries shown to the approver *)

(** [_freeze_summary] *)
Fixpoint _freeze_summary (v : value) (path : string) : result value :=
  match v with
  | VNone | VStr _ | VInt _ | VBool _ => Ok v
  | VDict d =>
      fields ← (fix members (d : list (string * value)) : result (list (string * value)) :=
         match d with
         | [] => Ok []
         | (key, item) :: d =>
             _ ← raise_if (negb (non_blank key)) ValueError
                   (path +:+ " keys must be non-empty strings");
             frozen ← _freeze_summary item (path +:+ "." +:+ key);
             rest ← members d; Ok ((key, frozen) :: rest)
         end) d;
      Ok (VDict fields)
  | VList l | VTuple l =>
      items ← (fix go (l : list value) (index : nat) : result (list value) :=
         match l with
         | [] => Ok []
         | item :: l =>
             frozen ← _freeze_summary item (path +:+ "[" +:+ str_of_nat index +:+ "]");
             rest ← go l (S index); Ok (frozen :: rest)
         end) l 0;
      Ok (VTuple items)
  | _ => raise TypeError (path +:+ " contains a non-JSON-safe value")
  end.

(** [_summary_to_data] *)
Fixpoint _summary_to_data (v : value) : value :=
  match v with
  | VDict d => VDict (map (fun kv => (kv.1, _summary_to_data kv.2)) d)
  | VTuple l => VList (map _summary_to_data l)
  | _ => v
  end.

(** ** Requests and evidence *)

Record ApprovalRequest : Type := MkApprovalRequest {
  aq_tenant_id : string;
  aq_execution_id : string;
  aq_business_operation_id : string;
  aq_approval_id : string;
  aq_approval_request_id : string;
  aq_skill_id : string;
  aq_skill_version : string;
  aq_skill_semantic_hash : string;
  aq_write_node_id : string;
  aq_tool_id : string;
  aq_payload_hash : string;
  aq_write_intent_hash : string;
  aq_risk_level : RiskLevel;
  aq_message : string;
  aq_expires_at : option datetime;
  aq_display_safe_summary : list (string * value);
  aq_protected_payload_ref : option string;
  aq_data_classification : DataClassification
}.

Definition request_texts (r : ApprovalRequest) : list (string * string) :=
  [("ApprovalRequest.tenant_id", aq_tenant_id r);
   ("ApprovalRequest.execution_id", aq_execution_id r);
   ("ApprovalRequest.business_operation_id", aq_business_operation_id r);
   ("ApprovalRequest.approval_id", aq_approval_id r);
   ("ApprovalRequest.approval_request_id", aq_approval_request_id r);
   ("ApprovalRequest.skill_id", aq_skill_id r);
   ("ApprovalRequest.skill_version", aq_skill_version r);
   ("ApprovalRequest.write_node_id", aq_write_node_id r);
   ("ApprovalRequest.tool_id", aq_tool_id r);
   ("ApprovalRequest.write_intent_hash", aq_write_intent_hash r);
   ("ApprovalRequest.message", aq_message r)].

Definition optional_utc (o : option datetime) (name : string) : result unit :=
  match o with None => Ok tt | Some d => _ ← approval_utc d name; Ok tt end.

Definition set_summary (summary : list (string * value)) (r : ApprovalRequest) : ApprovalRequest :=
  MkApprovalRequest (aq_tenant_id r) (aq_execution_id r) (aq_business_operation_id r)
    (aq_approval_id r) (aq_approval_request_id r) (aq_skill_id r) (aq_skill_version r)
    (aq_skill_semantic_hash r) (aq_write_node_id r) (aq_tool_id r) (aq_payload_hash r)
    (aq_write_intent_hash r) (aq_risk_level r) (aq_message r) (aq_expires_at r) summary
    (aq_protected_payload_ref r) (aq_data_classification r).

(** The constructor with its [__post_init__], which freezes the summary. *)
Definition new_ApprovalRequest (r : ApprovalRequest) : result ApprovalRequest :=
  _ ← required_texts ValueError (request_texts r);
  _ ← approval_sha256 (aq_skill_semantic_hash r) "ApprovalRequest.skill_semantic_hash";
  _ ← approval_sha256 (aq_payload_hash r) "ApprovalRequest.payload_hash";
  _ ← optional_utc (aq_expires_at r) "ApprovalRequest.expires_at";
  _ ← optional_text ValueError (aq_protected_payload_ref r) "ApprovalRequest.protected_payload_ref";
  _ ← ensure_no_credential_material (VDict (aq_display_safe_summary r))
        "ApprovalRequest.display_safe_summary";
  frozen ← _freeze_summary (VDict (aq_display_safe_summary r)) "display_safe_summary";
  match frozen with
  | VDict d => Ok (set_summary d r)
  | _ => raise OutOfModel "a frozen mapping is a mapping"
  end.

Definition optional_isoformat (o : option datetime) : value :=
  match o with Some d => VStr (datetime_isoformat d) | None => VNone end.

(** [ApprovalRequest.to_data] *)
Definition approval_request_to_data (r : ApprovalRequest) : list (string * value) :=
  [("tenant_id", VStr (aq_tenant_id r));
   ("execution_id", VStr (aq_execution_id r));
   ("business_operation_id", VStr (aq_business_operation_id r));
   ("approval_id", VStr (aq_approval_id r));
   ("approval_request_id", VStr (aq_approval_request_id r));
   ("skill_id", VStr (aq_skill_id r));
   ("skill_version", VStr (aq_skill_version r));
   ("skill_semantic_hash", VStr (aq_skill_semantic_hash r));
   ("write_node_id", VStr (aq_write_node_id r));
   ("tool_id", VStr (aq_tool_id r));
   ("payload_hash", VStr (aq_payload_hash r));
   ("write_intent_hash", VStr (aq_write_intent_hash r));
   ("risk_level", VStr (risk_value (aq_risk_level r)));
   ("message", VStr (aq_message r));
   ("expires_at", optional_isoformat (aq_expires_at r));
   ("display_safe_summary", _summary_to_data (VDict (aq_display_safe_summary r)));
   ("protected_payload_ref", vstr_opt (aq_protected_payload_ref r));
   ("data_classification", VStr (classification_value (aq_data_classification r)))].

Record ApprovalEvidence : Type := MkApprovalEvidence {
  av_tenant_id : string;
  av_execution_id : string;
  av_business_operation_id : string;
  av_approval_id : string;
  av_approval_request_id : string;
  av_skill_semantic_hash : string;
  av_decision : ApprovalDecision;
  av_approver_id : string;
  av_decided_at : datetime;
  av_expires_at : option datetime;
  av_payload_hash : string;
  av_write_intent_hash : string;
  av_evidence_integrity : string
}.

Definition ApprovalEvidence_post_init (e : ApprovalEvidence) : result unit :=
  _ ← required_texts ValueError
        [("ApprovalEvidence.tenant_id", av_tenant_id e);
         ("ApprovalEvidence.execution_id", av_execution_id e);
         ("ApprovalEvidence.business_operation_id", av_business_operation_id e);
         ("ApprovalEvidence.approval_id", av_approval_id e);
         ("ApprovalEvidence.approval_request_id", av_approval_request_id e);
         ("ApprovalEvidence.approver_id", av_approver_id e);
         ("ApprovalEvidence.write_intent_hash", av_write_intent_hash e);
         ("ApprovalEvidence.evidence_integrity", av_evidence_integrity e)];
  _ ← approval_sha256 (av_skill_semantic_hash e) "ApprovalEvidence.skill_semantic_hash";
  _ ← approval_sha256 (av_payload_hash e) "ApprovalEvidence.payload_hash";
  _ ← approval_utc (av_decided_at e) "ApprovalEvidence.decided_at";
  _ ← optional_utc (av_expires_at e) "ApprovalEvidence.expires_at";
  match av_expires_at e with
  | Some expires => raise_if (instant expires <? instant (av_decided_at e))%Z ValueError
                      "ApprovalEvidence.expires_at precedes decided_at"
  | None => Ok tt
  end.

Definition decision_value (d : ApprovalDecision) : string :=
  match d with DECISION_APPROVED => "APPROVED" | DECISION_REJECTED => "REJECTED" end.

(** [ApprovalEvidence.to_data] *)
Definition approval_evidence_to_data (e : ApprovalEvidence) : list (string * value) :=
  [("tenant_id", VStr (av_tenant_id e));
   ("execution_id", VStr (av_execution_id e));
   ("business_operation_id", VStr (av_business_operation_id e));
   ("approval_id", VStr (av_approval_id e));
   ("approval_request_id", VStr (av_approval_request_id e));
   ("skill_semantic_hash", VStr (av_skill_semantic_hash e));
   ("decision", VStr (decision_value (av_decision e)));
   ("approver_id", VStr (av_approver_id e));
   ("decided_at", VStr (datetime_isoformat (av_decided_at e)));
   ("expires_at", optional_isoformat (av_expires_at e));
   ("payload_hash", VStr (av_payload_hash e));
   ("write_intent_hash", VStr (av_write_intent_hash e));
   ("evidence_integrity", VStr (av_evidence_integrity e))].

(** ** Ports and the history of their calls *)

Inductive approval_call : Type :=
  | SaveCheckpoint (checkpoint : ExecutionCheckpoint)
  | PublishRequest (request : ApprovalRequest)
  | ClaimCheckpoint (execution_id : string) (version : Z) (claim_id : string)
  | VerifyEvidence (evidence : ApprovalEvidence)
  | ReadApprovalClock
  | ReleaseClaim (execution_id : string) (version : Z) (claim_id : string)
  | ConsumeClaim (execution_id : string) (version : Z) (claim_id : string).

Notation calls := (list approval_call).

Record ApprovalPorts : Type := MkApprovalPorts {
  checkpoint_save : calls -> ExecutionCheckpoint -> result unit;
  approval_publish : calls -> ApprovalRequest -> result unit;
  checkpoint_claim : calls -> string -> Z -> string -> result ExecutionCheckpoint;
  evidence_verify : calls -> ApprovalEvidence -> result (reply bool);
  approval_now : calls -> result (reply datetime);
  claim_release : calls -> string -> Z -> string -> result unit;
  claim_consume : calls -> string -> Z -> string -> result unit
}.

Definition Calling := M calls.

(** A port call: it is logged, and answered from the history before it. *)
Definition ask {A} (answer : calls -> result A) (c : approval_call) : Calling A :=
  fun h => (answer h, h ++ [c]).

(** ** Suspension *)

#[export] Instance ValidationSummary_eq_dec : EqDecision ValidationSummary.
Proof. solve_decision. Defined.

Record ApprovalSuspension : Type := MkApprovalSuspension {
  as_checkpoint : ExecutionCheckpoint;
  as_result : ExecutionResult
}.

Definition ApprovalSuspension_post_init (s : ApprovalSuspension) : result unit :=
  raise_if (negb (bool_decide (xr_status (as_result s) = WAITING_FOR_APPROVAL))) ValueError
    "approval suspension must be WAITING_FOR_APPROVAL".

Section ApprovalSuspensionCoordinator.
Context (runtime_version : string) (ports : ApprovalPorts).

Definition request_bindings (ctx : ExecutionContext) (r : ApprovalRequest) : list (string * bool) :=
  [("tenant_id", String.eqb (aq_tenant_id r) (ctx_tenant_id ctx));
   ("execution_id", String.eqb (aq_execution_id r) (ctx_execution_id ctx));
   ("business_operation_id",
    bool_decide (Some (aq_business_operation_id r) = ctx_business_operation_id ctx));
   ("skill_id", String.eqb (aq_skill_id r) (sk_skill_id (ctx_skill ctx)));
   ("skill_version", String.eqb (aq_skill_version r) (sk_skill_version (ctx_skill ctx)));
   ("skill_semantic_hash",
    String.eqb (aq_skill_semantic_hash r) (sk_semantic_hash (ctx_skill ctx)))].

(** [_validate_bindings] *)
Definition validate_request_bindings (ctx : ExecutionContext) (r : ApprovalRequest) : result unit :=
  each (fun b : string * bool => raise_if (negb b.2) ValueError
                                   ("ApprovalRequest." +:+ b.1 +:+ " binding mismatch"))
    (request_bindings ctx r).

(** [_validated_pre_write] *)
Definition _validated_pre_write (ctx : ExecutionContext) (evidence : option PreWriteEvidence)
  : result (option ValidationSummary * option PreWriteEligibility) :=
  if negb (String.eqb (sk_language_version (ctx_skill ctx)) "0.2") then Ok (None, None)
  else
    match evidence with
    | None => raise TypeError "v0.2 approval requires PreWriteEvidence"
    | Some evidence =>
        validation ← from_checks (ctx_checks ctx);
        _ ← raise_if (negb (bool_decide (pw_validation evidence = validation))) ValueError
              "PreWriteEvidence validation binding mismatch";
        _ ← raise_if (negb (bool_decide (vs_status validation = ALL_PASS))
                      || negb (bool_decide (ctx_data_completeness ctx = COMPLETE))) ValueError
              "v0.2 approval requires complete passing validation";
        let decision := evaluate_pre_write evidence in
        _ ← raise_if (negb (bool_decide (gd_eligibility decision = REQUIRES_APPROVAL))) ValueError
              "v0.2 approval requires REQUIRES_APPROVAL eligibility";
        Ok (Some validation, Some (gd_eligibility decision))
    end.

Definition stage_checkpoint (r : ApprovalRequest) (k : CheckpointState) : CheckpointState :=
  MkCheckpointState (ck_checkpoint_version k) (ck_last_completed_node_id k)
    (Some (aq_write_node_id r)) (ck_trace_sequence k) false (ck_write_request_durable k)
    (<[aq_write_node_id r := aq_approval_request_id r]> (ck_approval_request_ids_by_write_node k))
    (<[aq_write_node_id r := aq_write_intent_hash r]> (ck_write_intent_hashes_by_write_node k))
    (<[aq_write_node_id r := aq_payload_hash r]> (ck_payload_hashes_by_write_node k)).

(** The context with the request staged. *)
Definition staged (r : ApprovalRequest) (ctx : ExecutionContext) : ExecutionContext :=
  update_checkpoint (stage_checkpoint r)
    (set_approvals (<[aq_approval_id r := PENDING]> (ctx_approvals ctx)) ctx).

(** [_stage_suspend] *)
Definition _stage_suspend (r : ApprovalRequest) : X unit :=
  ctx ← get;
  let prior := ck_approval_request_ids_by_write_node (ctx_checkpoint ctx) !! aq_write_node_id r in
  _ ← fail_if (match prior with
               | Some id => negb (String.eqb id (aq_approval_request_id r))
               | None => false
               end) ValueError "write node is already bound to another ApprovalRequestId";
  modify (staged r).

Definition mark_published (k : CheckpointState) : CheckpointState :=
  MkCheckpointState (ck_checkpoint_version k) (ck_last_completed_node_id k)
    (ck_suspended_at_node_id k) (ck_trace_sequence k) true (ck_write_request_durable k)
    (ck_approval_request_ids_by_write_node k) (ck_write_intent_hashes_by_write_node k)
    (ck_payload_hashes_by_write_node k).

Definition Suspending := M (ExecutionContext * calls).

Definition in_context {A} (m : X A) : Suspending A := fun '(c, h) =>
  let '(r, c) := m c in (r, (c, h)).
Definition in_calls {A} (m : Calling A) : Suspending A := fun '(c, h) =>
  let '(r, h) := m h in (r, (c, h)).

Definition suspension_result (ctx : ExecutionContext) (r : ApprovalRequest) (version : Z)
    (validation : option ValidationSummary) (eligibility : option PreWriteEligibility)
  : result ExecutionResult :=
  let approval := MkApprovalSummary PENDING (aq_approval_id r) (Some (aq_approval_request_id r)) in
  _ ← ApprovalSummary_post_init approval;
  let suspension := MkSuspensionInfo "APPROVAL_REQUIRED" version (aq_approval_id r)
                      (aq_approval_request_id r) in
  _ ← SuspensionInfo_post_init suspension;
  Ok (MkExecutionResult (ctx_execution_id ctx) (sk_skill_id (ctx_skill ctx))
        (sk_skill_version (ctx_skill ctx)) (sk_semantic_hash (ctx_skill ctx)) WAITING_FOR_APPROVAL
        (result_completeness ctx WAITING_FOR_APPROVAL) (ctx_checks ctx) (ctx_outputs ctx)
        (usage ctx) None validation eligibility (Some approval) None None (Some suspension)).

(** [suspend] *)
Definition suspend (request : ApprovalRequest) (pre_write_evidence : option PreWriteEvidence)
  : Suspending ApprovalSuspension :=
  ctx ← in_context get;
  _ ← lift (validate_request_bindings ctx request);
  validated ← lift (_validated_pre_write ctx pre_write_evidence);
  _ ← in_context (_stage_suspend request);
  checkpoint ← in_context (capture runtime_version);
  _ ← in_calls (ask (fun h => checkpoint_save ports h checkpoint) (SaveCheckpoint checkpoint));
  _ ← in_calls (ask (fun h => approval_publish ports h request) (PublishRequest request));
  _ ← in_context (modify (update_checkpoint mark_published));
  ctx ← in_context get;
  result ← lift (suspension_result ctx request (cp_checkpoint_version checkpoint)
                   validated.1 validated.2);
  let suspension := MkApprovalSuspension checkpoint result in
  _ ← lift (ApprovalSuspension_post_init suspension);
  mret suspension.
End ApprovalSuspensionCoordinator.

(** ** Evidence *)

Record ApprovalResumeBindings : Type := MkApprovalResumeBindings {
  ab_tenant_id : string;
  ab_execution_id : string;
  ab_business_operation_id : string;
  ab_approval_id : string;
  ab_approval_request_id : string;
  ab_skill_semantic_hash : string;
  ab_payload_hash : string;
  ab_write_intent_hash : string
}.

Definition ApprovalResumeBindings_post_init (b : ApprovalResumeBindings) : result unit :=
  _ ← required_texts ValueError
        [("ApprovalResumeBindings.tenant_id", ab_tenant_id b);
         ("ApprovalResumeBindings.execution_id", ab_execution_id b);
         ("ApprovalResumeBindings.business_operation_id", ab_business_operation_id b);
         ("ApprovalResumeBindings.approval_id", ab_approval_id b);
         ("ApprovalResumeBindings.approval_request_id", ab_approval_request_id b);
         ("ApprovalResumeBindings.write_intent_hash", ab_write_intent_hash b)];
  _ ← approval_sha256 (ab_skill_semantic_hash b) "ApprovalResumeBindings.skill_semantic_hash";
  _ ← approval_sha256 (ab_payload_hash b) "ApprovalResumeBindings.payload_hash";
  Ok tt.

Record ApprovalValidationResult : Type := MkApprovalValidationResult {
  ar_validation : ApprovalEvidenceValidation;
  ar_approval_status : ApprovalStatus;
  ar_reason_code : option string
}.

Definition ApprovalValidationResult_post_init (r : ApprovalValidationResult) : result unit :=
  _ ← optional_text ValueError (ar_reason_code r) "ApprovalValidationResult.reason_code"; Ok tt.

Definition approval_gate_passed (r : ApprovalValidationResult) : bool :=
  bool_decide (ar_validation r = VALID) && bool_decide (ar_approval_status r = APPROVED).

Definition requires_reapproval (r : ApprovalValidationResult) : bool :=
  bool_decide (ar_approval_status r = EXPIRED).

(** [ApprovalEvidenceValidator._blocked] *)
Definition approval_blocked (v : ApprovalEvidenceValidation) (reason : string)
  : ApprovalValidationResult := MkApprovalValidationResult v PENDING (Some reason).

(** [mismatch_checks] *)
Definition mismatch_checks (e : ApprovalEvidence) (b : ApprovalResumeBindings)
  : list (bool * ApprovalValidationResult) :=
  [(negb (String.eqb (av_business_operation_id e) (ab_business_operation_id b)),
    approval_blocked BUSINESS_OPERATION_MISMATCH "APPROVAL_BUSINESS_OPERATION_MISMATCH");
   (negb (String.eqb (av_approval_request_id e) (ab_approval_request_id b)),
    approval_blocked APPROVAL_REQUEST_MISMATCH "APPROVAL_REQUEST_MISMATCH");
   (negb (String.eqb (av_write_intent_hash e) (ab_write_intent_hash b)),
    approval_blocked INTENT_MISMATCH "APPROVAL_INTENT_MISMATCH");
   (negb (String.eqb (av_payload_hash e) (ab_payload_hash b)),
    approval_blocked PAYLOAD_MISMATCH "APPROVAL_PAYLOAD_MISMATCH");
   (negb (String.eqb (av_tenant_id e) (ab_tenant_id b))
    || negb (String.eqb (av_execution_id e) (ab_execution_id b))
    || negb (String.eqb (av_approval_id e) (ab_approval_id b))
    || negb (String.eqb (av_skill_semantic_hash e) (ab_skill_semantic_hash b)),
    approval_blocked INVALID "APPROVAL_EVIDENCE_BINDING_MISMATCH")].

(** What matching evidence says at an instant. *)
Definition decided (e : ApprovalEvidence) (now : datetime) : ApprovalValidationResult :=
  if match av_expires_at e with
     | Some expires => (instant expires <=? instant now)%Z
     | None => false
     end
  then MkApprovalValidationResult EV_EXPIRED EXPIRED (Some "APPROVAL_EXPIRED")
  else match av_decision e with
       | DECISION_REJECTED => MkApprovalValidationResult VALID REJECTED (Some "APPROVAL_REJECTED")
       | DECISION_APPROVED => MkApprovalValidationResult VALID APPROVED None
       end.

Section ApprovalResumeCoordinator.
Context (runtime_version : string) (ports : ApprovalPorts).

(** [ApprovalEvidenceValidator.validate] *)
Definition validate_evidence (evidence : ApprovalEvidence) (bindings : ApprovalResumeBindings)
  : Calling ApprovalValidationResult :=
  verified ← ask (fun h => evidence_verify ports h evidence) (VerifyEvidence evidence);
  match verified with
  | Malformed => fail TypeError "ApprovalEvidenceVerifier.verify must return bool"
  | Reply false => mret (approval_blocked INVALID "APPROVAL_EVIDENCE_INVALID")
  | Reply true =>
      match find (fun c : bool * ApprovalValidationResult => c.1)
              (mismatch_checks evidence bindings) with
      | Some (_, blocked) => mret blocked
      | None =>
          now ← ask (approval_now ports) ReadApprovalClock;
          match now with
          | Malformed => fail TypeError "ApprovalClock.now must be a datetime"
          | Reply now => now ← lift (approval_utc now "ApprovalClock.now"); mret (decided evidence now)
          end
      end
  end.

Record ResumeToken : Type := MkResumeToken {
  tk_execution_id : string;
  tk_business_operation_id : string;
  tk_checkpoint_version : Z;
  tk_approval_evidence : ApprovalEvidence
}.

Definition ResumeToken_post_init (t : ResumeToken) : result unit :=
  _ ← approval_text (tk_execution_id t) "ResumeToken.execution_id";
  _ ← approval_text (tk_business_operation_id t) "ResumeToken.business_operation_id";
  raise_if (tk_checkpoint_version t <=? 0)%Z ValueError
    "ResumeToken.checkpoint_version must be positive".

Record ApprovalResumeOutcome : Type := MkApprovalResumeOutcome {
  ro_context : ExecutionContext;
  ro_checkpoint : ExecutionCheckpoint;
  ro_claim_id : string;
  ro_validation : ApprovalValidationResult;
  ro_claim_consumed : bool
}.

Definition ApprovalResumeOutcome_post_init (o : ApprovalResumeOutcome) : result unit :=
  _ ← approval_text (ro_claim_id o) "ApprovalResumeOutcome.claim_id"; Ok tt.

(** [_validate_token_request] *)
Definition _validate_token_request (token : ResumeToken) (request : ExecutionRequest)
  : result unit :=
  _ ← raise_if (negb (String.eqb (tk_execution_id token) (rq_execution_id request))) ValueError
        "ResumeToken.execution_id binding mismatch";
  raise_if (negb (bool_decide (Some (tk_business_operation_id token)
                               = rq_business_operation_id request))) ValueError
    "ResumeToken.business_operation_id binding mismatch".

(** [_bindings]; a context without a business operation identity has no valid
    bindings. *)
Definition resume_bindings (ctx : ExecutionContext) (approval_id write_node_id : string)
  : result ApprovalResumeBindings :=
  _ ← raise_if (negb (bool_decide (ctx_approvals ctx !! approval_id = Some PENDING))) ValueError
        "checkpoint approval is not pending";
  request_id ← match ck_approval_request_ids_by_write_node (ctx_checkpoint ctx) !! write_node_id with
               | Some id => Ok id
               | None => raise ValueError "checkpoint approval request binding is missing"
               end;
  intent ← match ck_write_intent_hashes_by_write_node (ctx_checkpoint ctx) !! write_node_id with
           | Some h => Ok h
           | None => raise ValueError "checkpoint write intent binding is missing"
           end;
  payload ← match ck_payload_hashes_by_write_node (ctx_checkpoint ctx) !! write_node_id with
            | Some h => Ok h
            | None => raise ValueError "checkpoint payload binding is missing"
            end;
  operation ← match ctx_business_operation_id ctx with
              | Some b => Ok b
              | None => raise ValueError
                  "ApprovalResumeBindings.business_operation_id must be a non-empty string"
              end;
  let b := MkApprovalResumeBindings (ctx_tenant_id ctx) (ctx_execution_id ctx) operation approval_id
             request_id (sk_semantic_hash (ctx_skill ctx)) payload intent in
  _ ← ApprovalResumeBindings_post_init b;
  Ok b.

(** [_validate_current_identity] *)
Definition _validate_current_identity (b : ApprovalResumeBindings)
    (current_write_intent_hash current_payload_hash : string) : ApprovalValidationResult :=
  if negb (String.eqb current_write_intent_hash (ab_write_intent_hash b))
  then approval_blocked INTENT_MISMATCH "APPROVAL_INTENT_MISMATCH"
  else if negb (String.eqb current_payload_hash (ab_payload_hash b))
  then approval_blocked PAYLOAD_MISMATCH "APPROVAL_PAYLOAD_MISMATCH"
  else MkApprovalValidationResult VALID APPROVED None.

(** The validations after which the claim is given back. *)
Definition releases (v : ApprovalEvidenceValidation) : bool :=
  bool_decide (v ∈ [INVALID; INTENT_MISMATCH; PAYLOAD_MISMATCH; BUSINESS_OPERATION_MISMATCH;
                    APPROVAL_REQUEST_MISMATCH]).

Section Resume.
Context (token : ResumeToken) (skill : SkillObject) (request : ExecutionRequest)
        (approval_id write_node_id current_write_intent_hash current_payload_hash claim_id : string)
        (runtime_clock : nat -> Z).

Definition release : Calling unit :=
  ask (fun h => claim_release ports h (tk_execution_id token) (tk_checkpoint_version token) claim_id)
    (ReleaseClaim (tk_execution_id token) (tk_checkpoint_version token) claim_id).

Definition consume : Calling unit :=
  ask (fun h => claim_consume ports h (tk_execution_id token) (tk_checkpoint_version token) claim_id)
    (ConsumeClaim (tk_execution_id token) (tk_checkpoint_version token) claim_id).

Definition claim : Calling ExecutionCheckpoint :=
  ask (fun h => checkpoint_claim ports h (tk_execution_id token) (tk_checkpoint_version token) claim_id)
    (ClaimCheckpoint (tk_execution_id token) (tk_checkpoint_version token) claim_id).

(** The [try] block: the checkpoint is restored and the evidence judged. *)
Definition judge (checkpoint : ExecutionCheckpoint)
  : Calling (ExecutionContext * ApprovalValidationResult) :=
  context ← lift (restore runtime_version checkpoint skill request runtime_clock);
  bindings ← lift (resume_bindings context approval_id write_node_id);
  validation ← validate_evidence (tk_approval_evidence token) bindings;
  mret (context, if approval_gate_passed validation
                 then _validate_current_identity bindings current_write_intent_hash
                        current_payload_hash
                 else validation).

Definition validate_resume_arguments : result unit :=
  _ ← approval_text approval_id "approval_id";
  _ ← approval_text write_node_id "write_node_id";
  _ ← approval_text current_write_intent_hash "current_write_intent_hash";
  _ ← approval_sha256 current_payload_hash "current_payload_hash";
  _ ← approval_text claim_id "claim_id";
  _validate_token_request token request.

(** [resume] *)
Definition resume : Calling ApprovalResumeOutcome :=
  _ ← lift validate_resume_arguments;
  checkpoint ← claim;
  judged ← try_except (judge checkpoint) (fun c => isinstance_exn c Exception_)
             (fun e => _ ← release; lift (Err e));
  let '(context, validation) := judged in
  settled ← (if releases (ar_validation validation)
             then _ ← release; mret (context, false)
             else _ ← consume;
                  mret (set_approvals (<[approval_id := ar_approval_status validation]>
                                         (ctx_approvals context)) context, true));
  let outcome := MkApprovalResumeOutcome settled.1 checkpoint claim_id validation settled.2 in
  _ ← lift (ApprovalResumeOutcome_post_init outcome);
  mret outcome.
End Resume.
End ApprovalResumeCoordinator.
