(* ===== verification/Approvals.v ===== *)
(** * The approval workflow: proofs

    A suspension saves before it publishes and can be resumed; a resumption
    approves only what the checkpoint and the evidence agree on, and settles
    the claim it holds. *)

From S2P Require Import Prelude Digest Json JsonBoundary Decimal Core Decoding DataProtection.
From S2P Require Import Ir Security AuditTrail WriteRecords RuntimeModels Validation Runtime.
From S2P Require Import Checkpoints Restoration Approval.

(** A request made by the constructor. *)
Definition made (r : ApprovalRequest) : Prop := exists r0, new_ApprovalRequest r0 = Ok r.

Lemma made_texts r : made r ->
  Forall text_ok (map snd (request_texts r)) /\ text_ok (aq_payload_hash r)
  /\ is_sha256_ref (aq_payload_hash r) = true /\ text_ok (aq_skill_semantic_hash r)
  /\ is_sha256_ref (aq_skill_semantic_hash r) = true.
Proof.
  intros [r0 H]. unfold new_ApprovalRequest in H.
  apply bind_Ok in H as ([] & Ht%required_texts_iff & H).
  apply bind_Ok in H as (? & [_ [Hs1 Hs2]]%sha256_text_iff & H).
  apply bind_Ok in H as (? & [_ [Hp1 Hp2]]%sha256_text_iff & H).
  apply bind_Ok in H as (? & _ & H). apply bind_Ok in H as (? & _ & H).
  apply bind_Ok in H as (? & _ & H). apply bind_Ok in H as (frozen & _ & H).
  destruct frozen; try discriminate. injection H as <-. done.
Qed.

Lemma made_text r name v : made r -> (name, v) ∈ request_texts r -> text_ok v.
Proof.
  intros [Ht _]%made_texts Hin. apply (proj1 (Forall_forall _ _) Ht).
  apply (list_elem_of_fmap_2 snd _ _ Hin).
Qed.

Ltac request_field := eapply made_text; [eassumption |];
  repeat first [apply list_elem_of_here | apply list_elem_of_further].

Section Suspending.
Context (runtime_version : string) (ports : ApprovalPorts).

(** The checkpoint of a suspension. *)
Definition suspended (r : ApprovalRequest) (c : ExecutionContext) : ExecutionCheckpoint :=
  captured runtime_version (staged r c) (aq_business_operation_id r).

Lemma suspension_result_ok ctx r version v e : made r -> (0 < version)%Z ->
  is_Ok (suspension_result ctx r version v e) = true
  /\ forall x, suspension_result ctx r version v e = Ok x -> xr_status x = WAITING_FOR_APPROVAL
       /\ xr_approval x = Some (MkApprovalSummary PENDING (aq_approval_id r)
                                  (Some (aq_approval_request_id r))).
Proof.
  intros Hr Hv. unfold suspension_result.
  assert (text_ok (aq_approval_id r)) as H1 by request_field.
  assert (text_ok (aq_approval_request_id r)) as H2 by request_field.
  assert (ApprovalSummary_post_init (MkApprovalSummary PENDING (aq_approval_id r)
            (Some (aq_approval_request_id r))) = Ok tt) as ->.
  { unfold ApprovalSummary_post_init. cbn [aps_approval_id aps_approval_request_id].
    rewrite (proj2 (required_text_iff _ _ _ _) (conj eq_refl H1)). cbn [mbind result_bind optional_text].
    by rewrite (proj2 (required_text_iff _ _ _ _) (conj eq_refl H2)). }
  assert (SuspensionInfo_post_init (MkSuspensionInfo "APPROVAL_REQUIRED" version (aq_approval_id r)
            (aq_approval_request_id r)) = Ok tt) as ->.
  { unfold SuspensionInfo_post_init.
    cbn [su_reason su_checkpoint_version su_approval_id su_approval_request_id].
    apply (bind_intro "APPROVAL_REQUIRED"); [vm_compute; reflexivity |].
    destruct (Z.leb_spec version 0); [lia |]. cbn [raise_if mbind result_bind].
    rewrite (proj2 (required_text_iff _ _ _ _) (conj eq_refl H1)). cbn [mbind result_bind].
    by rewrite (proj2 (required_text_iff _ _ _ _) (conj eq_refl H2)). }
  split; [done |]. by intros x [= <-].
Qed.

(** When a suspension gets as far as saving the checkpoint. *)
Record admissible_request (r : ApprovalRequest) (evidence : option PreWriteEvidence)
    (c : ExecutionContext) : Prop := {
  request_bound : Forall (fun b => b.2 = true) (request_bindings c r);
  pre_write_ok : is_Ok (_validated_pre_write c evidence) = true;
  node_unbound : ck_approval_request_ids_by_write_node (ctx_checkpoint c) !! aq_write_node_id r = None
    \/ ck_approval_request_ids_by_write_node (ctx_checkpoint c) !! aq_write_node_id r
       = Some (aq_approval_request_id r);
  capture_ok : ctx_writes c = [] /\ checkpoint_ok (suspended r c) = true
}.

(** The runs of a suspension: the state after them and the calls they make. *)
Inductive SuspensionRun (r : ApprovalRequest) (evidence : option PreWriteEvidence)
    (c : ExecutionContext) (h : calls)
    : result ApprovalSuspension -> ExecutionContext -> calls -> Prop :=
  | refused e : ~ admissible_request r evidence c -> SuspensionRun r evidence c h (Err e) c h
  | not_captured e : ~ admissible_request r evidence c ->
      SuspensionRun r evidence c h (Err e) (staged r c) h
  | not_saved e : admissible_request r evidence c ->
      checkpoint_save ports h (suspended r c) = Err e ->
      SuspensionRun r evidence c h (Err e) (after_capture (staged r c))
        (h ++ [SaveCheckpoint (suspended r c)])
  | not_published e : admissible_request r evidence c ->
      checkpoint_save ports h (suspended r c) = Ok tt ->
      approval_publish ports (h ++ [SaveCheckpoint (suspended r c)]) r = Err e ->
      SuspensionRun r evidence c h (Err e) (after_capture (staged r c))
        (h ++ [SaveCheckpoint (suspended r c); PublishRequest r])
  | published s : admissible_request r evidence c ->
      checkpoint_save ports h (suspended r c) = Ok tt ->
      approval_publish ports (h ++ [SaveCheckpoint (suspended r c)]) r = Ok tt ->
      as_checkpoint s = suspended r c -> xr_status (as_result s) = WAITING_FOR_APPROVAL ->
      SuspensionRun r evidence c h (Ok s)
        (update_checkpoint mark_published (after_capture (staged r c)))
        (h ++ [SaveCheckpoint (suspended r c); PublishRequest r]).

Lemma bindings_Ok c r u : validate_request_bindings c r = Ok u <->
  Forall (fun b => b.2 = true) (request_bindings c r).
Proof.
  destruct u. unfold validate_request_bindings. rewrite each_Ok. apply Forall_iff.
  intros [name b]. cbn. rewrite raise_if_Ok. apply negb_false_iff.
Qed.

Lemma bound_operation c r : Forall (fun b => b.2 = true) (request_bindings c r) ->
  ctx_business_operation_id c = Some (aq_business_operation_id r).
Proof.
  intros H. unfold request_bindings in H. repeat (apply Forall_cons in H as [? H]; cbn [snd] in *).
  symmetry. by apply (bool_decide_eq_true_1 _).
Qed.

Lemma suspend_run r evidence c h : made r ->
  let '(res, (c', h')) := suspend runtime_version ports r evidence (c, h) in
  SuspensionRun r evidence c h res c' h'.
Proof.
  intros Hmade. unfold suspend, in_context, in_calls, ask, lift, get, modify, mret, M_ret, mbind, M_bind.
  destruct (validate_request_bindings c r) as [u|e] eqn:Hb.
  2:{ apply refused. intros [H _ _ _]. by rewrite (proj2 (bindings_Ok c r tt) H) in Hb. }
  apply bindings_Ok in Hb. destruct (_validated_pre_write c evidence) as [[v el]|e] eqn:Hp.
  2:{ apply refused. intros [_ H _ _]. by rewrite Hp in H. }
  unfold _stage_suspend, fail_if, lift, get, modify, mbind, M_bind.
  destruct (raise_if _ _ _) as [u'|e] eqn:Hn.
  2:{ apply refused. intros [_ _ H _]. revert Hn.
      destruct H as [-> | ->]; [done |]. by rewrite String.eqb_refl. }
  assert (ck_approval_request_ids_by_write_node (ctx_checkpoint c) !! aq_write_node_id r = None
    \/ ck_approval_request_ids_by_write_node (ctx_checkpoint c) !! aq_write_node_id r
       = Some (aq_approval_request_id r)) as Hnode.
  { apply raise_if_Ok in Hn. destruct (_ !! _) as [id|]; [right | by left].
    apply negb_false_iff, String.eqb_eq in Hn. by subst. }
  pose proof (capture_cases runtime_version (staged r c)) as Hc.
  assert (ctx_business_operation_id (staged r c) = Some (aq_business_operation_id r)) as Hop
    by by apply (bound_operation c).
  destruct (capture runtime_version (staged r c)) as [[cp|e] c1].
  2:{ destruct Hc as (_ & -> & Hc). apply not_captured. intros [_ _ _ [Hw Hok]].
      specialize (Hc _ Hop Hw). unfold suspended in Hok. by rewrite Hc in Hok. }
  destruct Hc as (b & Hb' & Hw & -> & Hok & ->). rewrite Hop in Hb'. injection Hb' as <-.
  assert (admissible_request r evidence c) as Hadm.
  { split; [exact Hb | by rewrite Hp | exact Hnode | by split]. }
  change (captured runtime_version (staged r c) (aq_business_operation_id r)) with (suspended r c) in *.
  destruct (checkpoint_save ports h (suspended r c)) as [[]|e] eqn:Hs; [| by apply not_saved].
  destruct (approval_publish ports _ r) as [[]|e] eqn:Hpub; rewrite <- app_assoc; cbn [app];
    [| by apply not_published].
  set (ctx := update_checkpoint mark_published _).
  assert (0 < cp_checkpoint_version (suspended r c))%Z as Hv.
  { unfold checkpoint_ok in Hok. apply andb_prop in Hok as [[_ Hv%Z.leb_le]%andb_prop _]. lia. }
  destruct (suspension_result_ok ctx r (cp_checkpoint_version (suspended r c)) v el Hmade Hv)
    as [Hr1 Hr2].
  destruct (suspension_result _ _ _ _ _) as [x|e]; [| discriminate].
  destruct (Hr2 x eq_refl) as [Hst _]. unfold ApprovalSuspension_post_init. cbn [as_result].
  rewrite Hst, bool_decide_eq_true_2 by done. by apply published.
Qed.

(** ** A suspension can be resumed *)


Lemma texts_ok_insert k v m : non_blank k = true -> non_blank v = true -> texts_ok m = true ->
  texts_ok (<[k := v]> m) = true.
Proof.
  unfold texts_ok. intros Hk Hv H. apply forallb_forall. intros [k' v'] Hin.
  apply list_elem_of_In, elem_of_map_to_list in Hin. apply lookup_insert_Some in Hin as [[<- <-] | [_ Hin]].
  - cbn. by rewrite Hk, Hv.
  - apply (proj1 (forallb_forall _ _) H). by apply list_elem_of_In, elem_of_map_to_list.
Qed.

Lemma staged_ok r c : made r -> state_ok c = true -> state_ok (staged r c) = true.
Proof.
  intros Hr H.
  assert (non_blank (aq_write_node_id r) = true) as H1
    by (assert (text_ok (aq_write_node_id r)) as [? _] by request_field; done).
  assert (non_blank (aq_approval_request_id r) = true) as H2
    by (assert (text_ok (aq_approval_request_id r)) as [? _] by request_field; done).
  assert (non_blank (aq_write_intent_hash r) = true) as H3
    by (assert (text_ok (aq_write_intent_hash r)) as [? _] by request_field; done).
  assert (non_blank (aq_approval_id r) = true) as H4
    by (assert (text_ok (aq_approval_id r)) as [? _] by request_field; done).
  assert (non_blank (aq_payload_hash r) = true) as H5 by by destruct (made_texts r Hr) as (_ & [? _] & _).
  unfold state_ok in *. rewrite !andb_true_iff in H.
  destruct H as ((((((((((((Hin & Hcx) & Hfr) & Hcf) & Hne) & Hdep) & Hch) & Hou) & Hnn) & Hop)
                    & Hap) & Htx) & Hwr).
  rewrite !andb_true_iff. repeat apply conj; try assumption.
  - cbn [forallb] in *. repeat rewrite andb_true_iff in Hop. destruct Hop as (Ho1 & Ho2 & _).
    cbn. by rewrite Ho1, Ho2, H1.
  - apply forallb_forall. intros [k s] Hk%list_elem_of_In%elem_of_map_to_list.
    cbn in Hk. apply lookup_insert_Some in Hk as [[<- _] | [_ Hk]]; [done |].
    apply (proj1 (forallb_forall _ _) Hap (k, s)). by apply list_elem_of_In, elem_of_map_to_list.
  - cbn [forallb] in *. repeat rewrite andb_true_iff in Htx.
    destruct Htx as (Ht1 & Ht2 & Ht3 & Ht4 & Ht5 & _). cbn.
    by rewrite Ht1, Ht2, !texts_ok_insert.
Qed.

Lemma staged_coherent r c : coherent c -> coherent (staged r c).
Proof. done. Qed.

(** What a resumption is asked to match. *)
Definition bindings_of (r : ApprovalRequest) : ApprovalResumeBindings :=
  MkApprovalResumeBindings (aq_tenant_id r) (aq_execution_id r) (aq_business_operation_id r)
    (aq_approval_id r) (aq_approval_request_id r) (aq_skill_semantic_hash r) (aq_payload_hash r)
    (aq_write_intent_hash r).

Lemma bindings_of_ok r : made r -> ApprovalResumeBindings_post_init (bindings_of r) = Ok tt.
Proof.
  intros Hr. destruct (made_texts r Hr) as (_ & Hp & Hp' & Hs & Hs').
  unfold ApprovalResumeBindings_post_init.
  apply (bind_intro tt).
  { apply required_texts_iff. cbn [map snd].
    repeat (apply Forall_cons_2; [request_field |]). apply Forall_nil_2. }
  apply (bind_intro (aq_skill_semantic_hash r)); [by apply sha256_text_iff |].
  apply (bind_intro (aq_payload_hash r)); [by apply sha256_text_iff | done].
Qed.

Lemma suspended_bindings r evidence c clock : made r -> coherent c ->
  admissible_request r evidence c ->
  resume_bindings (restored clock (staged r c)) (aq_approval_id r) (aq_write_node_id r)
  = Ok (bindings_of r).
Proof.
  intros Hr Hc [Hb _ _ _]. pose proof (bound_operation _ _ Hb) as Hop.
  unfold request_bindings in Hb. repeat (apply Forall_cons in Hb as [? Hb]; cbn [snd] in * ).
  repeat match goal with H : String.eqb _ _ = true |- _ => apply String.eqb_eq in H end.
  set (c' := restored clock (staged r c)).
  assert (ctx_approvals c' !! aq_approval_id r = Some PENDING) as E1 by apply lookup_insert_eq.
  assert (ck_approval_request_ids_by_write_node (ctx_checkpoint c') !! aq_write_node_id r
          = Some (aq_approval_request_id r)) as E2 by apply lookup_insert_eq.
  assert (ck_write_intent_hashes_by_write_node (ctx_checkpoint c') !! aq_write_node_id r
          = Some (aq_write_intent_hash r)) as E3 by apply lookup_insert_eq.
  assert (ck_payload_hashes_by_write_node (ctx_checkpoint c') !! aq_write_node_id r
          = Some (aq_payload_hash r)) as E4 by apply lookup_insert_eq.
  assert (ctx_business_operation_id c' = Some (aq_business_operation_id r)) as E5 by exact Hop.
  unfold resume_bindings. rewrite E1, E2, E3, E4, E5, bool_decide_eq_true_2 by done.
  cbn [negb raise_if mbind result_bind].
  match goal with |- context [ApprovalResumeBindings_post_init ?b] =>
    assert (b = bindings_of r) as -> end.
  { unfold bindings_of. change (ctx_tenant_id c') with (ctx_tenant_id c).
    change (ctx_execution_id c') with (ctx_execution_id c).
    change (ctx_skill c') with (ctx_skill c). congruence. }
  by rewrite bindings_of_ok.
Qed.
End Suspending.

(** ** What evidence is accepted *)

Definition matches (e : ApprovalEvidence) (b : ApprovalResumeBindings) : Prop :=
  av_business_operation_id e = ab_business_operation_id b
  /\ av_approval_request_id e = ab_approval_request_id b
  /\ av_write_intent_hash e = ab_write_intent_hash b /\ av_payload_hash e = ab_payload_hash b
  /\ av_tenant_id e = ab_tenant_id b /\ av_execution_id e = ab_execution_id b
  /\ av_approval_id e = ab_approval_id b /\ av_skill_semantic_hash e = ab_skill_semantic_hash b.

Lemma mismatch_none e b :
  find (fun c : bool * ApprovalValidationResult => c.1) (mismatch_checks e b) = None <-> matches e b.
Proof.
  unfold mismatch_checks, matches. cbn [find fst].
  do 8 (match goal with |- context [String.eqb ?x ?y] =>
    destruct (String.eqb_spec x y); cbn [negb orb]; [| split; [discriminate | intros; exfalso; tauto]]
  end). tauto.
Qed.

Lemma mismatch_blocked e b k v :
  find (fun c : bool * ApprovalValidationResult => c.1) (mismatch_checks e b) = Some (k, v) ->
  releases (ar_validation v) = true /\ ar_approval_status v = PENDING.
Proof.
  intros H%find_some. destruct H as [H _]. unfold mismatch_checks in H.
  repeat destruct H as [[= _ <-] | H]; try (split; reflexivity). destruct H.
Qed.

(** The evidence is valid and unexpired when it is judged. *)
Record in_force (ports : ApprovalPorts) (h : calls) (e : ApprovalEvidence)
    (b : ApprovalResumeBindings) : Prop := {
  verified : evidence_verify ports h e = Ok (Reply true);
  bound : matches e b;
  unexpired : exists now, approval_now ports (h ++ [VerifyEvidence e]) = Ok (Reply now)
    /\ dt_utcoffset now = Some 0%Z
    /\ forall expires, av_expires_at e = Some expires -> (instant now < instant expires)%Z
}.

(** The calls of a judgement: the clock is read for matching evidence only. *)
Definition judging (e : ApprovalEvidence) (mid : calls) : Prop :=
  mid = [] \/ mid = [VerifyEvidence e] \/ mid = [VerifyEvidence e; ReadApprovalClock].

Lemma decided_spec e now :
  (match av_expires_at e with
   | Some expires => (instant expires <=? instant now)%Z
   | None => false
   end) = false <->
  forall expires, av_expires_at e = Some expires -> (instant now < instant expires)%Z.
Proof.
  destruct (av_expires_at e) as [x|]; [| naive_solver]. rewrite Z.leb_gt. naive_solver.
Qed.

Lemma validate_run ports e b h :
  let '(r, h') := validate_evidence ports e b h in
  exists mid, judging e mid /\ h' = h ++ mid
  /\ forall v, r = Ok v ->
       (releases (ar_validation v) = true /\ ar_approval_status v = PENDING)
       \/ v = MkApprovalValidationResult EV_EXPIRED EXPIRED (Some "APPROVAL_EXPIRED")
       \/ in_force ports h e b
          /\ v = match av_decision e with
                 | DECISION_REJECTED =>
                     MkApprovalValidationResult VALID REJECTED (Some "APPROVAL_REJECTED")
                 | DECISION_APPROVED => MkApprovalValidationResult VALID APPROVED None
                 end.
Proof.
  unfold validate_evidence, ask, mbind, M_bind, mret, M_ret, fail, lift.
  destruct (evidence_verify ports h e) as [[[]|]|x] eqn:Hv;
    try (exists [VerifyEvidence e]; split; [right; by left |]; split; [done |]; intros v [=]; subst;
         by left).
  destruct (find _ _) as [[k v]|] eqn:Hf.
  { exists [VerifyEvidence e]. split; [right; by left |]. split; [done |]. intros w [= <-]. left.
    by eapply mismatch_blocked. }
  apply mismatch_none in Hf.
  destruct (approval_now ports (h ++ [VerifyEvidence e])) as [[now|]|x] eqn:Hn;
    try (exists [VerifyEvidence e; ReadApprovalClock]; split; [right; by right |];
         split; [by rewrite <- app_assoc |]; by intros v [=]).
  destruct (approval_utc now _) as [now'|x] eqn:Hu;
    exists [VerifyEvidence e; ReadApprovalClock]; (split; [right; by right |]);
    (split; [by rewrite <- app_assoc |]); [| by intros v [=]].
  apply utc_instant_iff in Hu as [-> Hz]. intros v [= <-]. right. unfold decided.
  destruct (match av_expires_at e with Some expires => _ | None => false end) eqn:Hx; [by left |].
  right. split; [| by destruct (av_decision e)].
  split; [done | done |]. exists now. split; [done |]. split; [done |]. by apply decided_spec.
Qed.

Lemma in_force_decided ports e b h : in_force ports h e b ->
  exists h', validate_evidence ports e b h
  = (Ok (match av_decision e with
         | DECISION_REJECTED => MkApprovalValidationResult VALID REJECTED (Some "APPROVAL_REJECTED")
         | DECISION_APPROVED => MkApprovalValidationResult VALID APPROVED None
         end), h').
Proof.
  intros [Hv Hm (now & Hn & Hz & Hx)]. eexists.
  unfold validate_evidence, ask, mbind, M_bind, mret, M_ret, lift. rewrite Hv.
  rewrite (proj2 (mismatch_none e b) Hm), Hn.
  rewrite (proj2 (utc_instant_iff ValueError now "ApprovalClock.now" now) (conj eq_refl Hz)).
  unfold decided. rewrite (proj2 (decided_spec e now) Hx). by destruct (av_decision e).
Qed.

Section Resuming.
Context (runtime_version : string) (ports : ApprovalPorts) (token : ResumeToken)
        (skill : SkillObject) (request : ExecutionRequest)
        (approval_id write_node_id intent_hash payload_hash claim_id : string)
        (clock : nat -> Z).

Notation evidence := (tk_approval_evidence token).
Notation Claim := (ClaimCheckpoint (tk_execution_id token) (tk_checkpoint_version token) claim_id).
Notation Release := (ReleaseClaim (tk_execution_id token) (tk_checkpoint_version token) claim_id).
Notation Consume := (ConsumeClaim (tk_execution_id token) (tk_checkpoint_version token) claim_id).
Notation judge_claim := (judge runtime_version ports token skill request approval_id write_node_id
                           intent_hash payload_hash clock).
Notation arguments_ok := (validate_resume_arguments token request approval_id write_node_id
                            intent_hash payload_hash claim_id).
Notation run_resume := (resume runtime_version ports token skill request approval_id write_node_id
                          intent_hash payload_hash claim_id clock).

(** What an approval rests on: the checkpoint is restored, the approval was
    pending in it, the evidence is in force for its bindings, and the current
    hashes are those of the checkpoint. *)
Record grounds (h : calls) (cp : ExecutionCheckpoint) (context : ExecutionContext)
    (b : ApprovalResumeBindings) : Prop := {
  restored_from : restore runtime_version cp skill request clock = Ok context;
  pending : ctx_approvals context !! approval_id = Some PENDING;
  bound_by : resume_bindings context approval_id write_node_id = Ok b;
  evidence_in_force : in_force ports (h ++ [Claim]) evidence b
}.

Lemma resume_bindings_pending c a n b : resume_bindings c a n = Ok b ->
  ctx_approvals c !! a = Some PENDING.
Proof.
  unfold resume_bindings. intros (? & H & _)%bind_Ok. apply raise_if_Ok, negb_false_iff in H.
  by apply (bool_decide_eq_true_1 _) in H.
Qed.

(** The judgements the [try] block can end in. *)
Inductive Judgement (h : calls) (cp : ExecutionCheckpoint) :
    ExecutionContext -> ApprovalValidationResult -> Prop :=
  | mismatched c v : restore runtime_version cp skill request clock = Ok c ->
      releases (ar_validation v) = true -> ar_approval_status v = PENDING -> Judgement h cp c v
  | expired c : restore runtime_version cp skill request clock = Ok c ->
      Judgement h cp c (MkApprovalValidationResult EV_EXPIRED EXPIRED (Some "APPROVAL_EXPIRED"))
  | rejected c b : grounds h cp c b -> av_decision evidence = DECISION_REJECTED ->
      Judgement h cp c (MkApprovalValidationResult VALID REJECTED (Some "APPROVAL_REJECTED"))
  | approved c b : grounds h cp c b -> av_decision evidence = DECISION_APPROVED ->
      intent_hash = ab_write_intent_hash b -> payload_hash = ab_payload_hash b ->
      Judgement h cp c (MkApprovalValidationResult VALID APPROVED None).

Lemma judge_run h cp : let '(j, h1) := judge_claim cp (h ++ [Claim]) in
  exists mid, judging evidence mid /\ h1 = h ++ Claim :: mid
  /\ forall c v, j = Ok (c, v) -> Judgement h cp c v.
Proof.
  unfold judge, mbind, M_bind, mret, M_ret, lift.
  destruct (restore _ cp skill request clock) as [c|e] eqn:Hr.
  2:{ exists []. split; [by left |]. split; [done |]. by intros ? ? [=]. }
  destruct (resume_bindings c approval_id write_node_id) as [b|e] eqn:Hb.
  2:{ exists []. split; [by left |]. split; [done |]. by intros ? ? [=]. }
  pose proof (validate_run ports evidence b (h ++ [Claim])) as Hv.
  destruct (validate_evidence ports evidence b (h ++ [Claim])) as [[v|e] h1];
    destruct Hv as (mid & Hmid & -> & Hv); exists mid; (split; [done |]);
    (split; [by rewrite <- app_assoc |]); [| by intros ? ? [=]].
  intros c' v' [= <- <-]. destruct (Hv v eq_refl) as [[H1 H2] | [-> | [Hf ->]]].
  - assert (approval_gate_passed v = false) as ->.
    { unfold approval_gate_passed. rewrite H2. by rewrite andb_false_r. }
    by apply mismatched.
  - by apply expired.
  - assert (grounds h cp c b) as Hg by (split; [done | by eapply resume_bindings_pending | done..]).
    destruct (av_decision evidence) eqn:Hd; [| by eapply rejected].
    cbn [approval_gate_passed]. unfold approval_gate_passed. cbn [ar_validation ar_approval_status].
    rewrite !bool_decide_eq_true_2 by done. cbn [andb]. unfold _validate_current_identity.
    destruct (String.eqb_spec intent_hash (ab_write_intent_hash b)); [| by apply mismatched].
    destruct (String.eqb_spec payload_hash (ab_payload_hash b)); [| by apply mismatched].
    by eapply approved.
Qed.

(** The outcome of a judgement, and whether its claim is consumed. *)
Definition settlement (cp : ExecutionCheckpoint) (c : ExecutionContext)
    (v : ApprovalValidationResult) : ApprovalResumeOutcome :=
  if releases (ar_validation v) then MkApprovalResumeOutcome c cp claim_id v false
  else MkApprovalResumeOutcome
         (set_approvals (<[approval_id := ar_approval_status v]> (ctx_approvals c)) c)
         cp claim_id v true.

(** What the claim store answers. *)
Notation claimed h := (checkpoint_claim ports h (tk_execution_id token) (tk_checkpoint_version token) claim_id).
Notation released h := (claim_release ports h (tk_execution_id token) (tk_checkpoint_version token) claim_id).
Notation consumed h := (claim_consume ports h (tk_execution_id token) (tk_checkpoint_version token) claim_id).

(** The runs of a resumption, with the result and the calls of each: it fails
    before it asks for the claim, or with the claim store's refusal; from a
    claimed checkpoint on, the judgement is left by an exception that is no
    [Exception], or fails and the claim is given back, or ends and the claim is
    given back or used up. The result is an error exactly when one of these
    steps failed. *)
Inductive ResumeRun (h : calls) : result ApprovalResumeOutcome -> calls -> Prop :=
  | not_started e : arguments_ok = Err e -> ResumeRun h (Err e) h
  | not_claimed e : arguments_ok = Ok tt -> claimed h = Err e -> ResumeRun h (Err e) (h ++ [Claim])
  | abandoned mid cp e : arguments_ok = Ok tt -> claimed h = Ok cp -> judging evidence mid ->
      judge_claim cp (h ++ [Claim]) = (Err e, h ++ Claim :: mid) ->
      isinstance_exn (ex_class e) Exception_ = false ->
      ResumeRun h (Err e) (h ++ Claim :: mid)
  | failed mid cp e : arguments_ok = Ok tt -> claimed h = Ok cp -> judging evidence mid ->
      judge_claim cp (h ++ [Claim]) = (Err e, h ++ Claim :: mid) ->
      isinstance_exn (ex_class e) Exception_ = true ->
      ResumeRun h (_ ← released (h ++ Claim :: mid); Err e) (h ++ Claim :: mid ++ [Release])
  | given_back mid cp c v : arguments_ok = Ok tt -> claimed h = Ok cp -> judging evidence mid ->
      releases (ar_validation v) = true -> Judgement h cp c v ->
      ResumeRun h (_ ← released (h ++ Claim :: mid); Ok (settlement cp c v))
        (h ++ Claim :: mid ++ [Release])
  | used_up mid cp c v : arguments_ok = Ok tt -> claimed h = Ok cp -> judging evidence mid ->
      releases (ar_validation v) = false -> Judgement h cp c v ->
      ResumeRun h (_ ← consumed (h ++ Claim :: mid); Ok (settlement cp c v))
        (h ++ Claim :: mid ++ [Consume]).

Lemma outcome_ok o : arguments_ok = Ok tt -> ro_claim_id o = claim_id ->
  ApprovalResumeOutcome_post_init o = Ok tt.
Proof.
  intros H Ho. unfold validate_resume_arguments in H.
  do 4 apply bind_Ok in H as (? & _ & H). apply bind_Ok in H as (? & Hc & _).
  apply required_text_iff in Hc as [_ Hc]. unfold ApprovalResumeOutcome_post_init. rewrite Ho.
  apply (bind_intro claim_id); [by apply required_text_iff | done].
Qed.

Lemma resume_run h : let '(r, h') := run_resume h in ResumeRun h r h'.
Proof.
  unfold resume, try_except, claim, release, consume, ask, mbind, M_bind, mret, M_ret, lift.
  destruct arguments_ok as [[]|e] eqn:Ha; [| by apply not_started].
  destruct (claimed h) as [cp|e] eqn:Hc; [| by apply not_claimed].
  pose proof (judge_run h cp) as Hj.
  destruct (judge_claim cp (h ++ [Claim])) as [[[c v]|e] h1] eqn:Ej; destruct Hj as (mid & Hmid & -> & Hj).
  - specialize (Hj c v eq_refl). destruct (releases (ar_validation v)) eqn:Hrel.
    + pose proof (given_back h mid cp c v Ha Hc Hmid Hrel Hj) as Hrun. revert Hrun.
      unfold settlement. rewrite Hrel.
      destruct (released (h ++ Claim :: mid)) as [[]|e]; rewrite <- app_assoc, <- app_comm_cons; [| done].
      by rewrite outcome_ok.
    + pose proof (used_up h mid cp c v Ha Hc Hmid Hrel Hj) as Hrun. revert Hrun.
      unfold settlement. rewrite Hrel.
      destruct (consumed (h ++ Claim :: mid)) as [[]|e]; rewrite <- app_assoc, <- app_comm_cons; [| done].
      by rewrite outcome_ok.
  - destruct (isinstance_exn (ex_class e) Exception_) eqn:He; [| by eapply abandoned].
    pose proof (failed h mid cp e Ha Hc Hmid Ej He) as Hrun. revert Hrun.
    destruct (released (h ++ Claim :: mid)) as [[]|e']; rewrite <- app_assoc, <- app_comm_cons; done.
Qed.

(** C23. A resumption settles the claim it holds, whatever the ports answer:
    nothing is asked before the arguments and the token are accepted; when the
    claim is refused the refusal is raised and nothing else is asked; once the
    checkpoint is claimed, the evidence is verified at most once, the clock is
    read only for verified and matching evidence, and the last call gives the
    claim back or uses it up, never both. It is used up exactly after a decision
    or an expiry, and given back after a mismatch and after every failure of the
    judgement, the restoring of the checkpoint included; then the failure is
    raised. Only an exception that is no [Exception] (a cancellation) leaves
    the claim open. The result is an outcome exactly when the judgement ended
    and the claim store accepted the settlement, and then the outcome that the
    judgement says. *)
Theorem resume_settles_claim (h : calls) : let '(r, h') := run_resume h in ResumeRun h r h'.
Proof. apply resume_run. Qed.

(** C21. An approval has grounds: when a resumption returns an approved
    outcome, the claimed checkpoint was restored for this Skill and request,
    the approval was pending in it, the verifier accepted the evidence, the
    evidence matches the bindings of the checkpoint in all eight identities
    and hashes, says approved and had not expired at a UTC instant, the current
    intent and payload hashes are those of the checkpoint, and the claim was
    consumed; the context differs from the restored one in that approval
    alone. *)
Theorem resume_approves_on_grounds (h h' : calls) (o : ApprovalResumeOutcome) :
  run_resume h = (Ok o, h') -> ar_approval_status (ro_validation o) = APPROVED ->
  exists context b, grounds h (ro_checkpoint o) context b
    /\ av_decision evidence = DECISION_APPROVED
    /\ intent_hash = ab_write_intent_hash b /\ payload_hash = ab_payload_hash b
    /\ ro_claim_consumed o = true
    /\ ro_context o = set_approvals (<[approval_id := APPROVED]> (ctx_approvals context)) context
    /\ exists mid, judging evidence mid /\ h' = h ++ Claim :: mid ++ [Consume].
Proof.
  intros Hrun Hap. pose proof (resume_run h) as H. rewrite Hrun in H.
  assert (forall A (m : result A) (r : result ApprovalResumeOutcome), (_ ← m; r) = Ok o -> r = Ok o) as Hok
    by (intros A [a|e] r; [done | discriminate]).
  inversion H as [| | |mid cp e Ha Hc Hmid He Hx Hr|mid cp c v Ha Hc Hmid Hrel Hj Hr
                  |mid cp c v Ha Hc Hmid Hrel Hj Hr]; subst; apply Hok in Hr; [discriminate Hr | |];
    injection Hr as <-; unfold settlement in *; rewrite Hrel in *; cbn in Hap.
  - destruct Hj; first [discriminate Hrel | cbn in *; congruence].
  - destruct Hj as [? ? _ Hr| | |c b Hg Hd Hi Hp]; [rewrite Hr in Hrel; discriminate | discriminate Hap..|].
    exists c, b. repeat split; try done; try apply Hg. eauto.
Qed.
End Resuming.

(** C20. Suspension is ordered and leaves no half-published request: a run
    either makes no call (the request is not bound to the context, the
    pre-write evidence does not ask for an approval, the node is bound to
    another request, or the state cannot be captured), or saves the checkpoint
    of the staged context and stops there if the save fails, or publishes
    exactly that request after the checkpoint is saved. It succeeds exactly
    when both calls do, with the saved checkpoint and a result that waits for
    the approval; only then the context is marked as published. *)
Theorem suspend_saves_before_publishing (runtime_version : string) (ports : ApprovalPorts)
    (r : ApprovalRequest) (evidence : option PreWriteEvidence) (c : ExecutionContext) (h : calls) :
  made r ->
  let '(res, (c', h')) := suspend runtime_version ports r evidence (c, h) in
  SuspensionRun runtime_version ports r evidence c h res c' h'.
Proof. apply suspend_run. Qed.

(** The ports of a resumption that serve a suspended request: the claim returns
    its checkpoint, the evidence is in force for it and says approved, and the
    claim can be consumed. *)
Record serves (ports : ApprovalPorts) (r : ApprovalRequest) (cp : ExecutionCheckpoint)
    (token : ResumeToken) (claim_id : string) (h : calls) : Prop := {
  claim_returns : checkpoint_claim ports h (tk_execution_id token) (tk_checkpoint_version token)
                    claim_id = Ok cp;
  evidence_holds : in_force ports
    (h ++ [ClaimCheckpoint (tk_execution_id token) (tk_checkpoint_version token) claim_id])
    (tk_approval_evidence token) (bindings_of r);
  says_approved : av_decision (tk_approval_evidence token) = DECISION_APPROVED;
  consumable : forall h, claim_consume ports h (tk_execution_id token)
                 (tk_checkpoint_version token) claim_id = Ok tt
}.

Lemma suspended_resumes (runtime_version : string) (ports ports' : ApprovalPorts)
    (r : ApprovalRequest) (pre_write : option PreWriteEvidence) (c c1 : ExecutionContext)
    (h h1 h' : calls) (s : ApprovalSuspension) (token : ResumeToken) (claim_id : string)
    (clock : nat -> Z) :
  made r -> coherent c -> state_ok c = true ->
  suspend runtime_version ports r pre_write (c, h) = (Ok s, (c1, h1)) ->
  validate_resume_arguments token (ctx_request c) (aq_approval_id r) (aq_write_node_id r)
    (aq_write_intent_hash r) (aq_payload_hash r) claim_id = Ok tt ->
  serves ports' r (as_checkpoint s) token claim_id h' ->
  exists o h2, resume runtime_version ports' token (ctx_skill c) (ctx_request c) (aq_approval_id r)
                 (aq_write_node_id r) (aq_write_intent_hash r) (aq_payload_hash r) claim_id clock h'
               = (Ok o, h2)
    /\ ro_validation o = MkApprovalValidationResult VALID APPROVED None
    /\ ro_claim_consumed o = true
    /\ ro_context o = let c' := restored clock (staged r c) in
         set_approvals (<[aq_approval_id r := APPROVED]> (ctx_approvals c')) c'.
Proof.
  intros Hmade Hc Hok Hs Hargs [Hclaim Hforce Hdec Hcons].
  pose proof (suspend_run runtime_version ports r pre_write c h Hmade) as Hrun. rewrite Hs in Hrun.
  inversion Hrun as [| | | |s' Hadm _ _ Hcp _]; subst. rewrite Hcp in Hclaim.
  pose proof Hadm as [Hb _ _ [_ Hcok]].
  assert (restore runtime_version (suspended runtime_version r c) (ctx_skill c) (ctx_request c) clock
          = Ok (restored clock (staged r c))) as Hr.
  { apply (restore_captured runtime_version clock (staged r c)); [by apply staged_coherent
      | by apply staged_ok | exact (bound_operation c r Hb) | exact Hcok]. }
  destruct (in_force_decided _ _ _ _ Hforce) as [h2 Hv]. rewrite Hdec in Hv.
  unfold resume, try_except, claim, release, consume, judge, ask, mbind, M_bind, mret, M_ret, lift.
  rewrite Hargs, Hclaim, Hr, (suspended_bindings _ r pre_write c clock Hmade Hc Hadm), Hv.
  cbn [approval_gate_passed]. unfold approval_gate_passed. cbn [ar_validation ar_approval_status].
  rewrite !bool_decide_eq_true_2 by done. cbn [andb].
  unfold _validate_current_identity, bindings_of.
  cbn [ab_write_intent_hash ab_payload_hash]. rewrite !String.eqb_refl. cbn [negb ar_validation].
  change (releases VALID) with false. cbv beta iota. rewrite Hcons.
  match goal with |- context [ApprovalResumeOutcome_post_init ?o] =>
    rewrite (outcome_ok _ _ _ _ _ _ _ o Hargs eq_refl) end.
  eexists _, _. split; [reflexivity |]. done.
Qed.

(** C22. The workflow goes through: a suspended execution whose state can be
    captured is resumed by any process that is given the same Skill and
    request. If the claim returns the saved checkpoint, the evidence is in
    force for the published request, says approved, and the current hashes are
    those of the request, then [resume] returns an approved outcome with the
    claim consumed, and its context is the suspended one with the approval
    granted. *)
Theorem suspended_execution_resumes (runtime_version : string) (ports ports' : ApprovalPorts)
    (r : ApprovalRequest) (pre_write : option PreWriteEvidence) (c c1 : ExecutionContext)
    (h h1 h' : calls) (s : ApprovalSuspension) (token : ResumeToken) (claim_id : string)
    (clock : nat -> Z) :
  made r -> coherent c -> state_ok c = true ->
  suspend runtime_version ports r pre_write (c, h) = (Ok s, (c1, h1)) ->
  validate_resume_arguments token (ctx_request c) (aq_approval_id r) (aq_write_node_id r)
    (aq_write_intent_hash r) (aq_payload_hash r) claim_id = Ok tt ->
  serves ports' r (as_checkpoint s) token claim_id h' ->
  exists o h2, resume runtime_version ports' token (ctx_skill c) (ctx_request c) (aq_approval_id r)
                 (aq_write_node_id r) (aq_write_intent_hash r) (aq_payload_hash r) claim_id clock h'
               = (Ok o, h2)
    /\ ro_validation o = MkApprovalValidationResult VALID APPROVED None
    /\ ro_claim_consumed o = true
    /\ ro_context o = let c' := restored clock (staged r c) in
         set_approvals (<[aq_approval_id r := APPROVED]> (ctx_approvals c')) c'.
Proof. apply suspended_resumes. Qed.

(** ** An example *)

Definition example_digest : string :=
  "sha256:0123456789abcdef0123456789abcdef0123456789abcdef0123456789abcdef".

Definition approval_skill : SkillObject :=
  MkSkillObject "1.1" "0.1" "purchase" "1.0.0" "R3" "NSL-0.1-STRICT" example_digest ∅ [] []
    example_limits [] [] [] [] (MkStaticAnalysis 1 0 0 true)
    (MkBuildMetadata "sha256:none" "main.nsl" []).

Definition approval_context : ExecutionContext :=
  MkExecutionContext approval_skill example_request (fun n => Z.of_nat n) 1 0
    (MkExecutionIdentity "exec-1" (Some "op-1"))
    (request_security_context example_request) {[ "order" := sample_envelope ]} ∅ [∅] [∅] [] []
    zero_meter COMPLETE 0 0 None ∅ [] (MkIdempotencyState ∅ ∅) default_CheckpointState.

Definition example_approval_request : ApprovalRequest :=
  MkApprovalRequest (pr_tenant_id example_principal) "exec-1" "op-1" "approval-1" "request-1"
    "purchase" "1.0.0" example_digest "write-1" "orders.create" example_digest "intent-1" R3
    "Approve the order?" None [("amount", VStr "10 USD")] None INTERNAL.

Definition example_evidence : ApprovalEvidence :=
  MkApprovalEvidence (pr_tenant_id example_principal) "exec-1" "op-1" "approval-1" "request-1"
    example_digest DECISION_APPROVED "approver-1" (utc 1000) (Some (utc 5000)) example_digest
    "intent-1" "signed".

Definition example_token : ResumeToken := MkResumeToken "exec-1" "op-1" 1 example_evidence.

(** Ports that accept everything; the claim returns [cp]. *)
Definition willing (cp : result ExecutionCheckpoint) : ApprovalPorts :=
  MkApprovalPorts (fun _ _ => Ok tt) (fun _ _ => Ok tt) (fun _ _ _ _ => cp)
    (fun _ _ => Ok (Reply true)) (fun _ => Ok (Reply (utc 2000))) (fun _ _ _ _ => Ok tt)
    (fun _ _ _ _ => Ok tt).

Lemma example_made : made example_approval_request.
Proof. exists example_approval_request. vm_compute. reflexivity. Qed.

Lemma approval_context_ok : coherent approval_context /\ state_ok approval_context = true.
Proof. unfold coherent. repeat split; vm_compute; reflexivity. Qed.

Definition example_ports : ApprovalPorts := willing (raise CheckpointError "nothing saved").

Lemma example_admissible : admissible_request "0.1.0" example_approval_request None approval_context.
Proof.
  split.
  - repeat constructor.
  - reflexivity.
  - left. reflexivity.
  - split; [reflexivity |]. unfold checkpoint_ok. rewrite andb_true_iff.
    split; [reflexivity | apply sha256_ref_ok].
Qed.

(** The suspension of the example succeeds. *)
Lemma example_suspends : exists s c1 h1,
  suspend "0.1.0" example_ports example_approval_request None (approval_context, [])
  = (Ok s, (c1, h1))
  /\ as_checkpoint s = suspended "0.1.0" example_approval_request approval_context.
Proof.
  pose proof (suspend_run "0.1.0" example_ports example_approval_request None approval_context []
                example_made) as H.
  destruct (suspend _ _ _ _ _) as [res [c1 h1]].
  inversion H as [? Hn|? Hn|? _ Hn|? _ _ Hn|s _ _ _ Hcp _]; subst; try discriminate;
    try (by destruct Hn; apply example_admissible).
  eauto.
Qed.

Lemma suspend_saves_before_publishing_witness :
  exists s c1, suspend "0.1.0" example_ports example_approval_request None (approval_context, [])
  = (Ok s, (c1, [SaveCheckpoint (suspended "0.1.0" example_approval_request approval_context);
                 PublishRequest example_approval_request])).
Proof.
  pose proof (suspend_saves_before_publishing "0.1.0" example_ports example_approval_request None
                approval_context [] example_made) as H.
  destruct (suspend _ _ _ _ _) as [res [c1 h1]].
  inversion H as [? Hn|? Hn|? _ Hn|? _ _ Hn|s _ _ _ Hcp _]; subst; try discriminate;
    try (by destruct Hn; apply example_admissible).
  eauto.
Defined.

Definition example_willing : ApprovalPorts :=
  willing (Ok (suspended "0.1.0" example_approval_request approval_context)).

Lemma example_serves :
  serves example_willing example_approval_request
    (suspended "0.1.0" example_approval_request approval_context) example_token "claim-1" [].
Proof.
  split; [done | | done | done].
  split; [done | repeat split; reflexivity |]. exists (utc 2000). split; [done |].
  split; [done |]. intros expires [= <-]. vm_compute. reflexivity.
Qed.

Lemma example_arguments :
  validate_resume_arguments example_token example_request "approval-1" "write-1" "intent-1"
    example_digest "claim-1" = Ok tt.
Proof. vm_compute. reflexivity. Qed.

Lemma suspended_execution_resumes_witness :
  exists o h2, resume "0.1.0" example_willing example_token approval_skill example_request
      "approval-1" "write-1" "intent-1" example_digest "claim-1" (fun n => Z.of_nat n) [] = (Ok o, h2)
    /\ ro_validation o = MkApprovalValidationResult VALID APPROVED None
    /\ ro_claim_consumed o = true.
Proof.
  destruct example_suspends as (s & c1 & h1 & Hs & Hcp).
  destruct (suspended_execution_resumes "0.1.0" example_ports example_willing
    example_approval_request None approval_context c1 [] h1 [] s example_token "claim-1"
    (fun n => Z.of_nat n) example_made (proj1 approval_context_ok) (proj2 approval_context_ok) Hs
    example_arguments) as (o & h2 & Ho & Hv & Hcs & _).
  - rewrite Hcp. apply example_serves.
  - eauto.
Defined.

Lemma resume_approves_on_grounds_witness :
  exists context b, resume_bindings context "approval-1" "write-1" = Ok b
    /\ ctx_approvals context !! "approval-1" = Some PENDING /\ ab_write_intent_hash b = "intent-1".
Proof.
  destruct example_suspends as (s & c1 & h1 & Hs & Hcp).
  destruct (suspended_resumes "0.1.0" example_ports example_willing
    example_approval_request None approval_context c1 [] h1 [] s example_token "claim-1"
    (fun n => Z.of_nat n) example_made (proj1 approval_context_ok) (proj2 approval_context_ok) Hs
    example_arguments) as (o & h2 & Ho & Hv & _ & _).
  - rewrite Hcp. apply example_serves.
  - destruct (resume_approves_on_grounds _ _ _ _ _ _ _ _ _ _ _ _ _ _ Ho)
      as (context & b & Hg & _ & Hi & _).
    + by rewrite Hv.
    + exists context, b. destruct Hg as [_ Hp Hb _]. split; [exact Hb |]. split; [exact Hp |].
      by symmetry.
Defined.
