(* ===== verification/Execution.v ===== *)
(** * Executions ([src/nsl/runtime.py])

    The runtime preflight, the validation of requests, and the whole execution
    of a Skill: every exception of the interpreter becomes a failed result.
    Also the partition of a controlled Skill around its approved WRITE. *)

From S2P Require Import Prelude Digest Json Decimal Core Values Builtins DataProtection Ir.
From S2P Require Import Security AuditTrail WriteRecords RuntimeModels Tools WriteIntent.
From S2P Require Import Validation Runtime.

(** ** Controlled execution plans *)

Record ControlledExecutionPlan : Type := MkControlledExecutionPlan {
  cp_approval : ApprovalStatement;
  cp_write_node_id : string;
  cp_write_target : string;
  cp_write_expression : WriteExpression;
  cp_prefix : list Statement;
  cp_suffix : list Statement
}.

Definition indexed {A} (l : list A) : list (nat * A) := combine (seq 0 (length l)) l.

Definition as_approval (s : Statement) : option ApprovalStatement :=
  match s with ApprovalStmt a => Some a | _ => None end.

(** A LET statement of a WRITE: its node, its target and the WRITE. *)
Definition as_write (s : Statement) : option (string * string * WriteExpression) :=
  match s with
  | LetStatement node_id target (WriteExpr n tool args approval t) =>
      Some (node_id, target, MkWriteExpression n tool args approval t)
  | _ => None
  end.

Definition select {A B} (f : A -> option B) (l : list A) : list (nat * B) :=
  omap (fun ix => match f ix.2 with Some b => Some (ix.1, b) | None => None end) (indexed l).

(** [ControlledExecutionPlan.from_skill] *)
Definition plan_from_skill (skill : SkillObject) : result ControlledExecutionPlan :=
  _ ← raise_if (negb (String.eqb (sk_ir_version skill) "1.1"
                      && String.eqb (sk_language_version skill) "0.2"))
        RuntimeContractError "controlled execution requires NSL 0.2 and IR 1.1";
  match select as_approval (sk_body skill), select as_write (sk_body skill) with
  | [(approval_index, approval)], [(write_index, (node_id, target, write))] =>
      _ ← raise_if ((write_index <=? approval_index)
                    || negb (String.eqb (we_approval_ref write) (as_approval_id approval)))
            RuntimeContractError "controlled execution Approval/WRITE binding is invalid";
      Ok (MkControlledExecutionPlan approval node_id target write
            (take approval_index (sk_body skill)) (drop (S write_index) (sk_body skill)))
  | _, _ =>
      raise RuntimeContractError
        "controlled execution requires exactly one top-level Approval and WRITE"
  end.

(** ** The runtime preflight *)

Definition _SUPPORTED_RUNTIME_PROFILES (ir_version language_version : string)
  : option string :=
  if String.eqb ir_version "1.0" && String.eqb language_version "0.1"
  then Some "NSL-0.1-STRICT"
  else if String.eqb ir_version "1.1" && String.eqb language_version "0.2"
  then Some "NSL-0.2-STRICT"
  else None.

Fixpoint _contains_write_expression (expression : Expression) : bool :=
  match expression with
  | WriteExpr _ _ _ _ _ => true
  | FieldExpr _ source _ _ | ProjectionExpr _ source _ _ => _contains_write_expression source
  | CallExpr _ _ arguments _ => existsb _contains_write_expression arguments
  | BinaryExpr _ _ l r _ => _contains_write_expression l || _contains_write_expression r
  | ReadExpr _ _ arguments _ _ => existsb (fun a => _contains_write_expression a.2) arguments
  | LiteralExpr _ _ _ | SymbolRefExpr _ _ _ => false
  end.

Fixpoint contains_controlled (statement : Statement) : bool :=
  match statement with
  | ApprovalStmt _ => true
  | LetStatement _ _ v => _contains_write_expression v
  | ForeachStatement _ _ collection _ body =>
      _contains_write_expression collection || existsb contains_controlled body
  | CheckStmt c => _contains_write_expression (cs_condition c)
  | EmitStatement _ fields => existsb (fun f => _contains_write_expression f.2) fields
  end.

Definition _contains_controlled_operation (statements : list Statement) : bool :=
  existsb contains_controlled statements.

Definition preflight_tool (engine : RuntimeEngine) (allow_controlled : bool)
    (required : RequiredTool) : result unit :=
  contract ← match catalog_resolve (tool_catalog engine) (rt_tool_id required)
                     (rt_version required) with
             | Err e => if isinstance_exn (ex_class e) UnknownToolContractError
                           || isinstance_exn (ex_class e) IncompatibleToolVersionError
                        then raise RuntimeContractError (exn_str e) else Err e
             | ok => ok
             end;
  _ ← raise_if (negb (String.eqb (contract_hash contract) (rt_contract_hash required)))
        RuntimeContractError ("tool contract mismatch: " +:+ rt_tool_id required);
  raise_if (negb (bool_decide (rt_capability required = Capability READ))
            && negb (allow_controlled
                     && bool_decide (rt_capability required = Capability WRITE)))
    RuntimeContractError "WRITE capability is forbidden".

(** [_preflight] *)
Definition _preflight (engine : RuntimeEngine) (skill : SkillObject) (allow_controlled : bool)
  : result unit :=
  _ ← match _SUPPORTED_RUNTIME_PROFILES (sk_ir_version skill) (sk_language_version skill) with
      | None => raise RuntimeContractError "unsupported IR or language version"
      | Some profile => raise_if (negb (String.eqb (sk_semantics_profile skill) profile))
                          RuntimeContractError "unsupported semantics profile"
      end;
  _ ← raise_if (negb (String.eqb (sk_semantic_hash (with_computed_hash skill))
                                 (sk_semantic_hash skill)))
        RuntimeContractError "semantic hash mismatch";
  _ ← raise_if (negb (bounded (sk_analysis skill))) RuntimeContractError "unbounded skill";
  _ ← raise_if (_contains_controlled_operation (sk_body skill) && negb allow_controlled)
        RuntimeContractError
        "Approval and WRITE require the controlled v0.2 execution pipeline";
  _ ← (if allow_controlled then _ ← plan_from_skill skill; Ok tt else Ok tt);
  each (preflight_tool engine allow_controlled) (sk_required_tools skill).

(** ** Inputs and contexts *)

Section Bindings.
Context {S : Type} (observe_collection : Z -> M S unit).

Definition observe_list (v : value) : M S unit :=
  match v with
  | VList l => observe_collection (Z.of_nat (length l))
  | _ => mret tt
  end.

Definition validated_input (request : ExecutionRequest) (spec : InputSpec)
  : M S (InputSpec * value) :=
  v ← match assoc (in_name spec) (rq_inputs request) with
      | Some v => mret v
      | None => if in_required spec
                then fail RuntimeContractError ("missing required input: " +:+ in_name spec)
                else fail KeyError (in_name spec)
      end;
  _ ← lift (_validate_runtime_type v (in_type_info spec) (in_name spec));
  _ ← observe_list v;
  mret (spec, v).

Definition validated_context (request : ExecutionRequest) (spec : ContextSpec)
  : M S (ContextSpec * value) :=
  v ← match lookup_path (cx_path spec) (VDict (rq_runtime_context request)) with
      | Some v => mret v
      | None => fail RuntimeContractError
                  ("missing runtime context path: " +:+ join "." (cx_path spec))
      end;
  _ ← lift (_validate_runtime_type v (cx_type_info spec) (cx_name spec));
  _ ← observe_list v;
  mret (spec, v).

(** [_validated_input_context_bindings] *)
Definition _validated_input_context_bindings (skill : SkillObject)
    (request : ExecutionRequest)
  : M S (list (InputSpec * value) * list (ContextSpec * value)) :=
  inputs ← map_M (validated_input request) (sk_inputs skill);
  contexts ← map_M (validated_context request) (sk_contexts skill);
  mret (inputs, contexts).
End Bindings.

(** [_bind_inputs_and_contexts] *)
Definition _bind_inputs_and_contexts : X unit :=
  c ← get;
  bindings ← _validated_input_context_bindings observe_collection (ctx_skill c) (ctx_request c);
  _ ← each_M (fun b => bind_input (in_symbol_id b.1)
        (envelope_complete b.2 (in_type_info b.1) (in_classification b.1) [])) bindings.1;
  each_M (fun b => bind_context (cx_symbol_id b.1)
    (envelope_complete b.2 (cx_type_info b.1) (cx_classification b.1) [])) bindings.2.

(** [_validate_collection_size] *)
Definition _validate_collection_size (skill : SkillObject) (size : Z) : M history unit :=
  fail_if (lim_collection_size (sk_limits skill) <? size)%Z LimitExceeded
    "collection size limit exceeded".

(** Python's [==] between a projection and the mapping it was taken from: the
    values at the leaves are the same objects, the key order is irrelevant. *)
Fixpoint same_mapping (v w : value) {struct v} : bool :=
  match v, w with
  | VDict d, VDict e =>
      same_elements (map fst d) (map fst e)
      && (fix all (l : list (string * value)) : bool :=
            match l with
            | [] => true
            | (k, x) :: l => match assoc k e with
                             | Some y => same_mapping x y
                             | None => false
                             end && all l
            end) d
  | VDict _, _ | _, VDict _ => false
  | _, _ => true
  end.

(** ** Results *)

Section Engine.
Context (ports : EnginePorts) (engine : RuntimeEngine).

(** [_result] *)
Definition _result (c : ExecutionContext) (status : ExecutionStatus)
    (error : option RuntimeErrorInfo) : result ExecutionResult :=
  let skill := ctx_skill c in
  validation ← (if String.eqb (sk_ir_version skill) "1.1"
                   && String.eqb (sk_language_version skill) "0.2"
                then s ← from_checks (ctx_checks c); Ok (Some s) else Ok None);
  Ok (MkExecutionResult (rq_execution_id (ctx_request c)) (sk_skill_id skill)
        (sk_skill_version skill) (sk_semantic_hash skill) status
        (result_completeness c status) (ctx_checks c) (ctx_outputs c) (usage c) error
        validation None None None None None).

Definition is_sensitive (v : ValueEnvelope) : bool :=
  bool_decide (ve_classification v ∈ [CONFIDENTIAL; RESTRICTED]).

Definition sensitive_of (envelopes : list ValueEnvelope) : list string :=
  flat_map (fun v => collect_sensitive_text (encode_value (ve_value v)))
    (List.filter is_sensitive envelopes).

(** [_sensitive_values]; the texts are only used as a set. *)
Definition _sensitive_values (c : ExecutionContext) : list string :=
  let namespaces := [ctx_input_values c; ctx_context_values c]
                    ++ rev (ctx_frames c) ++ rev (ctx_check_frames c) in
  dict_keys (flat_map (fun f : frame => sensitive_of (map snd (map_to_list f))) namespaces
             ++ flat_map (fun r => sensitive_of (map snd (er_fields r))) (ctx_outputs c)).

(** [redact_text(text, sensitive_values)] *)
Definition redact_sensitive (c : ExecutionContext) (text : string) : string :=
  redact_text text (set_order ports (_sensitive_values c)).

Definition AUTHORIZATION_DENIED : string := "NSL-E5201".
Definition REPLAY_ACCESS_DENIED : string := "NSL-E5202".
Definition SEM_UNKNOWN_TOOL_CONTRACT : string := "NSL-E4001".
Definition TOOL_EXECUTION_FAILURE : string := "NSL-E4101".
Definition RESOURCE_LIMIT_EXCEEDED : string := "NSL-E6001".
Definition RUNTIME_EVALUATION : string := "NSL-E8001".
Definition RUNTIME_UNEXPECTED : string := "NSL-E8002".
Definition _UNEXPECTED_RUNTIME_MESSAGE : string := "An unexpected runtime error occurred.".

Definition status_value (s : ExecutionStatus) : string :=
  match s with
  | CREATED => "CREATED" | RUNNING => "RUNNING" | COMPLETED => "COMPLETED"
  | FAILED => "FAILED" | TOOL_ERROR => "TOOL_ERROR"
  | VALIDATION_ERROR => "VALIDATION_ERROR" | LIMIT_EXCEEDED => "LIMIT_EXCEEDED"
  | CANCELLED => "CANCELLED" | WAITING_FOR_APPROVAL => "WAITING_FOR_APPROVAL"
  | RECONCILIATION_REQUIRED => "RECONCILIATION_REQUIRED"
  end.

(** The arguments of [_failed], as each [except] clause gives them. *)
Record failure : Type := MkFailure {
  fl_code : string;
  fl_category : string;
  fl_message : string;
  fl_status : ExecutionStatus;
  fl_detail_code : option string;
  fl_node_id : option string;
  fl_decision_ref : option string
}.

(** The node of an [ExpressionEvaluationError], which ends its message. *)
Definition expression_error_node (e : exn) : string :=
  removeprefix (ex_msg e)
    (if String.eqb (ex_code e) "EXPRESSION_TYPE_MISMATCH"
     then "expression type mismatch at " else "expression evaluation failed at ").

(** The [decision_ref] of an [AuthorizationError], [None] when it has none. *)
Definition decision_ref_of (e : exn) : option string :=
  if String.eqb (ex_code e) "" then None else Some (ex_code e).

(** The [except] clauses of [_execute_with_context], in order; [None] is the
    last one, [except Exception]. *)
Definition expected_failure (e : exn) : option failure :=
  let isa := isinstance_exn (ex_class e) in
  if isa AuthorizationError then
    Some (MkFailure AUTHORIZATION_DENIED "AUTHORIZATION" (exn_str e) FAILED None None
            (decision_ref_of e))
  else if isa PermissionError then
    Some (MkFailure REPLAY_ACCESS_DENIED "AUTHORIZATION" (exn_str e) FAILED None None None)
  else if isa ToolExecutionError then
    Some (MkFailure (if String.eqb (ex_code e) "TOOL_CONTRACT_MISMATCH"
                     then SEM_UNKNOWN_TOOL_CONTRACT else TOOL_EXECUTION_FAILURE)
            "TOOL" (exn_str e) TOOL_ERROR (Some (ex_code e)) None None)
  else if isa LimitExceeded then
    Some (MkFailure RESOURCE_LIMIT_EXCEEDED "RESOURCE" (exn_str e) LIMIT_EXCEEDED None None None)
  else if isa ImmutableBindingError then
    Some (MkFailure RUNTIME_EVALUATION "RUNTIME" (exn_str e) FAILED
            (Some "IMMUTABLE_BINDING_ERROR") None None)
  else if isa ExpressionEvaluationError then
    Some (MkFailure RUNTIME_EVALUATION "RUNTIME" (exn_str e) FAILED (Some (ex_code e))
            (Some (expression_error_node e)) None)
  else if isa RuntimeContractError || isa MoneyError then
    Some (MkFailure RUNTIME_EVALUATION "RUNTIME" (exn_str e) FAILED None None None)
  else None.

Definition unexpected_failure : failure :=
  MkFailure RUNTIME_UNEXPECTED "RUNTIME" _UNEXPECTED_RUNTIME_MESSAGE FAILED None None None.

(** [_failed] *)
Definition _failed (f : failure) : R ExecutionResult :=
  c ← ctx;
  let message := redact_sensitive c (fl_message f) in
  let detail_code := redact_sensitive c <$> fl_detail_code f in
  let resolved_node_id := match fl_node_id f with
                          | Some n => Some n | None => ctx_current_node_id c end in
  _ ← emit_event ports "EXECUTION_FAILED"
        [("execution_id", VStr (rq_execution_id (ctx_request c)));
         ("status", VStr (status_value (fl_status f)));
         ("completeness", VStr (completeness_value (result_completeness c (fl_status f))));
         ("error_code", VStr (fl_code f)); ("category", VStr (fl_category f));
         ("message", VStr message); ("detail_code", vstr_opt detail_code);
         ("node_id", vstr_opt resolved_node_id);
         ("location", VDict [("phase", VStr (fl_category f));
                             ("node_id", vstr_opt resolved_node_id)]);
         ("cause", VDict [("error_code", VStr (fl_code f));
                          ("detail_code", vstr_opt detail_code)]);
         ("authorization_decision_ref", vstr_opt (fl_decision_ref f))];
  lift (_result c (fl_status f)
          (Some (MkRuntimeErrorInfo (fl_code f) (fl_category f) message (fl_node_id f)
                   detail_code))).

(** [_write_debug_trace] *)
Definition _write_debug_trace (e : exn) : R unit :=
  match debug_trace_sink ports with
  | Some sink =>
      if debug_mode engine then
        c ← ctx;
        let trace := redact_sensitive c (format_exception ports e) in
        try_except (call_port (fun h => sink h trace) (WriteDebugTrace trace))
          (fun c => isinstance_exn c Exception_) (fun _ => mret tt)
      else mret tt
  | None => mret tt
  end.

(** The handlers of [_execute_with_context] for an [Exception]. *)
Definition failed_execution (e : exn) : R ExecutionResult :=
  match expected_failure e with
  | Some f => _failed f
  | None => _ ← _write_debug_trace e; _failed unexpected_failure
  end.

(** ** Requests *)

(** [_validate_execution_principal] *)
Definition _validate_execution_principal (principal : ExecutionPrincipal) : result unit :=
  principal_validate principal (bool_decide (environment engine = PRODUCTION)).

Definition authorize_skill (skill : SkillObject) (request : ExecutionRequest)
  : M history AuthorizationDecision :=
  _ ← lift (_validate_execution_principal (rq_principal request));
  authorize_at ports engine (rq_principal request)
    ("skill:" +:+ sk_skill_id skill +:+ ":execute") {["nsl:skill:execute"]}.

(** [validate_execution_request] and, with [allow_controlled],
    [validate_controlled_execution_request]. *)
Definition validate_request_for (allow_controlled : bool) (skill : SkillObject)
    (request : ExecutionRequest) : M history unit :=
  _ ← authorize_skill skill request;
  _ ← lift (_preflight engine skill allow_controlled);
  _ ← _validated_input_context_bindings (_validate_collection_size skill) skill request;
  each_M (fun required =>
    _ ← authorize_at ports engine (rq_principal request)
          ("tool:" +:+ rt_tool_id required +:+ ":execute") {[rt_required_scope required]};
    mret tt) (sk_required_tools skill).

Definition validate_execution_request := validate_request_for false.
Definition validate_controlled_execution_request := validate_request_for true.

(** ** Executions *)

Definition surface_classification (declared : list DataClassification) (same : bool)
  : DataClassification :=
  if same then highest_declared_classification declared else RESTRICTED.

(** The payload of [EXECUTION_STARTED]. *)
Definition started_payload (skill : SkillObject) (request : ExecutionRequest)
    (decision : AuthorizationDecision) (input_ref context_ref : option SnapshotRef)
    (input_class context_class : DataClassification) : list (string * value) :=
  let principal := rq_principal request in
  let ref (r : option SnapshotRef) := vstr_opt (sr_snapshot_id <$> r) in
  let input_hash := VStr (value_hash (VDict (rq_inputs request))) in
  let context_hash := VStr (value_hash (VDict (rq_runtime_context request))) in
  [("execution_id", VStr (rq_execution_id request)); ("skill_id", VStr (sk_skill_id skill));
   ("skill_version", VStr (sk_skill_version skill));
   ("semantic_hash", VStr (sk_semantic_hash skill));
   ("runtime_version", VStr RUNTIME_VERSION);
   ("tenant_id", VStr (pr_tenant_id principal));
   ("subject_id", VStr (pr_subject_id principal));
   ("auth_context_ref", VStr (pr_auth_context_ref principal));
   ("authorization_decision_ref", VStr (az_decision_id decision));
   ("input_snapshot_ref", ref input_ref); ("input_hash", input_hash);
   ("input", VDict [("snapshot_ref", ref input_ref); ("value_hash", input_hash);
      ("classification", VStr (classification_value input_class))]);
   ("context_snapshot_ref", ref context_ref); ("context_hash", context_hash);
   ("context", VDict [("snapshot_ref", ref context_ref); ("value_hash", context_hash);
      ("classification", VStr (classification_value context_class))])].

(** The end of the [try] block of [_execute_with_context]: the result, and its
    event before it is returned. *)
Definition complete_execution (request : ExecutionRequest) (decision : AuthorizationDecision)
  : R ExecutionResult :=
  c ← ctx;
  result ← lift (_result c COMPLETED None);
  _ ← emit_event ports "EXECUTION_COMPLETED"
        [("execution_id", VStr (rq_execution_id request));
         ("status", VStr (status_value (xr_status result)));
         ("completeness", VStr (completeness_value (xr_completeness result)));
         ("output_count", VInt (Z.of_nat (length (xr_outputs result))));
         ("check_count", VInt (Z.of_nat (length (xr_checks result))));
         ("authorization_decision_ref", VStr (az_decision_id decision))];
  mret result.

(** The [try] block of [_execute_with_context]. *)
Definition execute_body (skill : SkillObject) (request : ExecutionRequest)
    (decision : AuthorizationDecision) (statements : list Statement)
    (allow_controlled : bool) : R ExecutionResult :=
  _ ← on_ctx check_deadline;
  _ ← lift (_preflight engine skill allow_controlled);
  let declared_inputs := project_declared_inputs skill (rq_inputs request) in
  let input_class := surface_classification (map in_classification (sk_inputs skill))
    (same_mapping (VDict declared_inputs) (VDict (rq_inputs request))) in
  declared_context ← lift (project_declared_context skill (rq_runtime_context request));
  let context_class := surface_classification (map cx_classification (sk_contexts skill))
    (same_mapping (VDict declared_context) (VDict (rq_runtime_context request))) in
  input_ref ← put_snapshot ports (VDict (rq_inputs request)) input_class;
  context_ref ← put_snapshot ports (VDict (rq_runtime_context request)) context_class;
  _ ← emit_event ports "EXECUTION_STARTED"
        (started_payload skill request decision input_ref context_ref input_class
           context_class);
  _ ← on_ctx _bind_inputs_and_contexts;
  _ ← _execute_block ports engine (measuring_execute ports) statements;
  _ ← on_ctx check_deadline;
  complete_execution request decision.

Definition execution_recorder (skill : SkillObject) (request : ExecutionRequest)
  : AuditRecorder :=
  new_AuditRecorder (rq_data_policy request) (rq_execution_id request) (sk_skill_id skill)
    (sk_skill_version skill) (sk_semantic_hash skill) RUNTIME_VERSION
    (Some (rq_principal request)).

#[local] Existing Instance engine_sink.

(** [_reject_execution] *)
Definition _reject_execution (skill : SkillObject) (request : ExecutionRequest)
    (message : string) (decision_ref : option string)
  : M (AuditRecorder * history) ExecutionResult :=
  let message := redact_text message [] in
  _ ← emit (sink := engine_sink ports) (MkEmission "EXECUTION_REJECTED"
        [("execution_id", VStr (rq_execution_id request));
         ("skill_id", VStr (sk_skill_id skill));
         ("skill_version", VStr (sk_skill_version skill));
         ("semantic_hash", VStr (sk_semantic_hash skill));
         ("runtime_version", VStr RUNTIME_VERSION);
         ("error_code", VStr AUTHORIZATION_DENIED); ("category", VStr "AUTHORIZATION");
         ("message", VStr message);
         ("location", VDict [("phase", VStr "AUTHORIZATION"); ("node_id", VNone)]);
         ("cause", VDict [("error_code", VStr AUTHORIZATION_DENIED);
                          ("detail_code", VNone)]);
         ("authorization_decision_ref", vstr_opt decision_ref);
         ("authorization_decision_status",
            VStr match decision_ref with None => "NOT_EVALUATED" | Some _ => "DENY" end)]
        INTERNAL None None);
  mret (MkExecutionResult (rq_execution_id request) (sk_skill_id skill)
          (sk_skill_version skill) (sk_semantic_hash skill) FAILED C_UNKNOWN [] [] zero_meter
          (Some (MkRuntimeErrorInfo AUTHORIZATION_DENIED "AUTHORIZATION" message None None))
          None None None None None None).

(** [_execute_with_context] from the authorized start on: the context is
    created, and every [Exception] of the body becomes a failed result. *)
Definition run_execution (skill : SkillObject) (request : ExecutionRequest)
    (decision : AuthorizationDecision) (statements : list Statement)
    (allow_controlled : bool) : R ExecutionResult :=
  try_except (execute_body skill request decision statements allow_controlled)
    (fun c => isinstance_exn c Exception_) failed_execution.

(** [_execute_with_context]: the result with the context, when there is one,
    and the recorder and history after. *)
Definition _execute_with_context (skill : SkillObject) (request : ExecutionRequest)
    (clock : nat -> Z) (statements : list Statement) (allow_controlled : bool)
    (h : history)
  : result (ExecutionResult * option ExecutionContext) * (AuditRecorder * history) :=
  let recorder := execution_recorder skill request in
  match authorize_skill skill request h with
  | (Err e, h) =>
      if isinstance_exn (ex_class e) AuthorizationError then
        (r ← _reject_execution skill request (exn_str e) (decision_ref_of e);
         mret (r, None)) (recorder, h)
      else (Err e, (recorder, h))
  | (Ok decision, h) =>
      match new_ExecutionContext skill request clock with
      | Err e => (Err e, (recorder, h))
      | Ok c =>
          let '(r, mc) := run_execution skill request decision statements allow_controlled
                            (MkMachine c (Some recorder) h) in
          (r ← r; Ok (r, Some (mc_ctx mc)),
           (default recorder (mc_recorder mc), mc_calls mc))
      end
  end.

(** [execute] *)
Definition runtime_execute (skill : SkillObject) (request : ExecutionRequest)
    (clock : nat -> Z) (h : history) : result ExecutionResult * (AuditRecorder * history) :=
  let '(r, s) := _execute_with_context skill request clock (sk_body skill) false h in
  (r ← r; Ok r.1, s).
End Engine.

(** [prepare_controlled_write_intent]: evaluated without audit services, on
    the tools as they are given. *)
Definition without_snapshots (ports : EnginePorts) : EnginePorts :=
  MkEnginePorts (audit_append ports) None (tool_execute ports) (measurement_record ports)
    (wall_clock ports) (debug_trace_sink ports) (format_exception ports) (set_order ports).

Definition prepare_controlled_write_intent (ports : EnginePorts) (engine : RuntimeEngine)
    (c : ExecutionContext) (h : history) : result WriteIntent * (ExecutionContext * history) :=
  let ports := without_snapshots ports in
  let '(r, mc) := (plan ← lift (plan_from_skill (ctx_skill c));
    let write := cp_write_expression plan in
    arguments ← map_M (fun a =>
        v ← _evaluate ports engine (delegate_execute ports) a.2; mret (a.1, v))
      (we_arguments write);
    c ← ctx;
    lift (build_write_intent write (build_dict arguments) c)) (MkMachine c None h) in
  (r, (mc_ctx mc, mc_calls mc)).

(** ** The partition of a controlled Skill *)

Section Select.
Context {A B : Type} (f : A -> option B).

Definition select_from (k : nat) (l : list A) : list (nat * B) :=
  omap (fun ix => match f ix.2 with Some b => Some (ix.1, b) | None => None end)
    (combine (seq k (length l)) l).

Lemma select_from_cons k x l :
  select_from k (x :: l)
  = match f x with Some b => (k, b) :: select_from (S k) l | None => select_from (S k) l end.
Proof. unfold select_from. cbn. by destruct (f x). Qed.

Lemma select_from_nil k l : select_from k l = [] <-> Forall (fun x => f x = None) l.
Proof.
  revert k; induction l as [|x l IH]; intros k; [done |].
  rewrite select_from_cons, Forall_cons. destruct (f x) as [b|]; [| rewrite IH; tauto].
  split; [discriminate | intros [[=] _]].
Qed.

Lemma select_from_single k l i b :
  select_from k l = [(i, b)] <->
  exists l1 x l2, l = l1 ++ x :: l2 /\ i = k + length l1 /\ f x = Some b
    /\ Forall (fun x => f x = None) l1 /\ Forall (fun x => f x = None) l2.
Proof.
  revert k; induction l as [|x l IH]; intros k.
  - split; [discriminate | intros (l1 & x & l2 & E & _); by destruct l1].
  - rewrite select_from_cons. destruct (f x) as [c|] eqn:Hx.
    + split.
      * intros [= <- <- H%select_from_nil]. exists [], x, l. cbn. auto.
      * intros (l1 & y & l2 & E & -> & Hy & H1 & H2). destruct l1 as [|z l1].
        -- injection E as <- <-. rewrite Hx in Hy. injection Hy as ->.
           rewrite (proj2 (select_from_nil (S k) l) H2). cbn. by rewrite Nat.add_0_r.
        -- injection E as <- _. inversion H1. congruence.
    + rewrite IH. split.
      * intros (l1 & y & l2 & -> & -> & Hy & H1 & H2). exists (x :: l1), y, l2.
        cbn. repeat (split; [auto; lia |]). done.
      * intros (l1 & y & l2 & E & -> & Hy & H1 & H2). destruct l1 as [|z l1].
        -- injection E as <- _. congruence.
        -- injection E as <- ->. inversion H1; subst. exists l1, y, l2.
           cbn. repeat (split; [auto; lia |]). done.
Qed.
End Select.

(** No approval and no WRITE at the top of the block. *)
Definition uncontrolled (l : list Statement) : Prop :=
  Forall (fun s => as_approval s = None) l /\ Forall (fun s => as_write s = None) l.

Lemma as_approval_Some s a : as_approval s = Some a -> s = ApprovalStmt a.
Proof. destruct s; try discriminate. by intros [= ->]. Qed.

Lemma as_write_Some s n t w : as_write s = Some (n, t, w) -> s = LetStatement n t (write_expr w).
Proof. destruct s as [? ? []| | | |]; try discriminate. by intros [= <- <- <-]. Qed.

Definition the_write (p : ControlledExecutionPlan) : Statement :=
  LetStatement (cp_write_node_id p) (cp_write_target p) (write_expr (cp_write_expression p)).

Lemma drop_after {A} (l1 k l2 : list A) x y :
  drop (S (length (l1 ++ x :: k))) (l1 ++ x :: k ++ y :: l2) = l2.
Proof.
  rewrite (app_comm_cons k), app_assoc, (cons_middle y _ l2), (app_assoc (l1 ++ _)).
  replace (S (length (l1 ++ x :: k))) with (length ((l1 ++ x :: k) ++ [y]))
    by (rewrite length_app; cbn; lia).
  by rewrite drop_app_length.
Qed.

(** The body of a controlled Skill, cut at its approval and its WRITE. *)
Definition partition_of (skill : SkillObject) (p : ControlledExecutionPlan) : Prop :=
  exists between,
    sk_body skill = cp_prefix p ++ ApprovalStmt (cp_approval p) :: between
                    ++ the_write p :: cp_suffix p
    /\ uncontrolled (cp_prefix p) /\ uncontrolled between /\ uncontrolled (cp_suffix p).

Lemma partition_selected skill p : partition_of skill p ->
  exists i j, select as_approval (sk_body skill) = [(i, cp_approval p)]
    /\ select as_write (sk_body skill)
       = [(j, (cp_write_node_id p, cp_write_target p, cp_write_expression p))]
    /\ i < j /\ take i (sk_body skill) = cp_prefix p
    /\ drop (S j) (sk_body skill) = cp_suffix p.
Proof.
  intros (k & Hb & [P1 P2] & [K1 K2] & [S1 S2]).
  exists (length (cp_prefix p)), (length (cp_prefix p ++ ApprovalStmt (cp_approval p) :: k)).
  split; [| split; [| split; [| split]]].
  - apply select_from_single. exists (cp_prefix p), (ApprovalStmt (cp_approval p)).
    eexists. split; [exact Hb |]. repeat (split; [done |]).
    by apply Forall_app; split; [| constructor].
  - apply select_from_single.
    exists (cp_prefix p ++ ApprovalStmt (cp_approval p) :: k), (the_write p), (cp_suffix p).
    split; [by rewrite Hb, <- app_assoc |]. split; [done |].
    split; [by destruct p as [? ? ? [] ? ?] |]. split; [| done].
    by apply Forall_app; split; [| constructor].
  - rewrite length_app. cbn. lia.
  - by rewrite Hb, take_app_length.
  - by rewrite Hb, drop_after.
Qed.

Lemma selected_partition skill i a j n t w :
  select as_approval (sk_body skill) = [(i, a)] ->
  select as_write (sk_body skill) = [(j, (n, t, w))] -> i < j ->
  partition_of skill (MkControlledExecutionPlan a n t w (take i (sk_body skill))
                        (drop (S j) (sk_body skill))).
Proof.
  unfold partition_of, the_write.
  cbn [cp_write_expression cp_approval cp_prefix cp_suffix cp_write_node_id cp_write_target].
  intros (l1 & x & l2 & Hb & -> & Hx & Ha1 & Ha2)%select_from_single
    (m1 & y & m2 & Hb' & -> & Hy & Hw1 & Hw2)%select_from_single Hlt.
  apply as_approval_Some in Hx as ->. apply as_write_Some in Hy as ->.
  rewrite Hb in Hb'. symmetry in Hb'. cbn [Nat.add] in Hlt.
  apply app_eq_inv in Hb' as [(k & -> & Hk) | (k & -> & Hk)];
    [| rewrite length_app in Hlt; lia].
  destruct k as [|z k]; [rewrite app_nil_r in Hlt; lia |]. injection Hk as <- Hl2. subst l2.
  exists k. rewrite Hb. cbn [Nat.add]. rewrite take_app_length, drop_after.
  rewrite Forall_app, Forall_cons in Ha2, Hw1. unfold uncontrolled.
  repeat split; tauto.
Qed.

(** The plan of a controlled Skill is its body cut at the only approval
    and the only WRITE: a plan exists exactly when the Skill is an NSL 0.2
    Skill whose body is [prefix], the approval, some statements, the WRITE
    bound to that approval, and [suffix], with no other approval or WRITE at
    the top level. The statements between approval and WRITE are in neither
    part: whatever they are, the plan is the same. *)
Theorem controlled_plan_partition (skill : SkillObject) (p : ControlledExecutionPlan) :
  plan_from_skill skill = Ok p <->
  sk_ir_version skill = "1.1" /\ sk_language_version skill = "0.2"
  /\ we_approval_ref (cp_write_expression p) = as_approval_id (cp_approval p)
  /\ partition_of skill p.
Proof.
  unfold plan_from_skill. split.
  - intros H. apply bind_Ok in H as ([] & Hv%raise_if_Ok & H). split_bool.
    repeat match goal with E : String.eqb _ _ = true |- _ => apply String.eqb_eq in E end.
    destruct (select as_approval (sk_body skill)) as [|[i a] [|? ?]] eqn:Ha; try discriminate H.
    destruct (select as_write (sk_body skill)) as [|[j [[n t] w]] [|? ?]] eqn:Hw;
      try discriminate H.
    apply bind_Ok in H as ([] & Hc%raise_if_Ok & H). apply Ok_inj in H as <-.
    apply orb_false_iff in Hc as [Hij%Nat.leb_gt Hid%negb_false_iff%String.eqb_eq].
    repeat (split; [done |]). by apply selected_partition.
  - intros (-> & -> & Hid & Hp). apply partition_selected in Hp as (i & j & -> & -> & Hij & Ht & Hd).
    rewrite !String.eqb_refl. cbn [andb negb raise_if mbind result_bind].
    rewrite (proj2 (Nat.leb_gt j i)) by done.
    rewrite Hid, String.eqb_refl, Ht, Hd. by destruct p.
Qed.
