(* ===== verification/Outcomes.v ===== *)
(** * What whole executions do

    Theorems on [_execute_with_context] and [execute]: which calls an
    execution makes and when, that every result is preceded by its audit
    event, that an execution returns, and what the preflight accepts. *)

From S2P Require Import Prelude Digest Json Decimal Core Values Builtins DataProtection Ir Bounds.
From S2P Require Import Security AuditTrail WriteRecords RuntimeModels Tools WriteIntent Validation.
From S2P Require Import Runtime Steps Costs Safety Execution.

(** ** The preflight *)

Definition tool_registered (engine : RuntimeEngine) (allow_controlled : bool)
    (required : RequiredTool) : Prop :=
  exists contract,
    catalog_resolve (tool_catalog engine) (rt_tool_id required) (rt_version required)
      = Ok contract
    /\ contract_hash contract = rt_contract_hash required
    /\ (rt_capability required = Capability READ
        \/ (allow_controlled = true /\ rt_capability required = Capability WRITE)).

Lemma preflight_tool_Ok engine allow required :
  preflight_tool engine allow required = Ok tt <-> tool_registered engine allow required.
Proof.
  unfold preflight_tool, tool_registered. split.
  - intros H. apply bind_Ok in H as (contract & Hc & H).
    apply bind_Ok in H as ([] & Hh%raise_if_Ok & H%raise_if_Ok).
    exists contract. split; [| split].
    + destruct (catalog_resolve _ _ _) as [c|e]; [exact Hc |].
      by destruct (isinstance_exn _ _ || _).
    + by apply String.eqb_eq, negb_false_iff.
    + destruct (decide (rt_capability required = Capability READ)); [by left | right].
      rewrite bool_decide_eq_false_2 in H by done. cbn in H.
      apply negb_false_iff, andb_true_iff in H as [-> H%bool_decide_eq_true]. done.
  - intros (contract & -> & Hh & Hcap). apply (bind_intro contract); [done |].
    apply (bind_intro tt); [by rewrite Hh, String.eqb_refl |].
    by destruct Hcap as [-> | [-> ->]].
Qed.

(** What the runtime requires of a Skill before anything of it is run. *)
Definition executable_skill (engine : RuntimeEngine) (allow_controlled : bool)
    (skill : SkillObject) : Prop :=
  (sk_ir_version skill, sk_language_version skill, sk_semantics_profile skill)
    ∈ [("1.0", "0.1", "NSL-0.1-STRICT"); ("1.1", "0.2", "NSL-0.2-STRICT")]
  /\ sk_semantic_hash (with_computed_hash skill) = sk_semantic_hash skill
  /\ bounded (sk_analysis skill) = true
  /\ (if allow_controlled then exists p, plan_from_skill skill = Ok p
      else Forall (fun s => contains_controlled s = false) (sk_body skill))
  /\ Forall (tool_registered engine allow_controlled) (sk_required_tools skill).

Lemma profile_Some ir language profile :
  _SUPPORTED_RUNTIME_PROFILES ir language = Some profile <->
  (ir, language, profile) ∈ [("1.0", "0.1", "NSL-0.1-STRICT"); ("1.1", "0.2", "NSL-0.2-STRICT")].
Proof.
  unfold _SUPPORTED_RUNTIME_PROFILES. split.
  - destruct (String.eqb_spec ir "1.0"), (String.eqb_spec language "0.1"),
      (String.eqb_spec ir "1.1"), (String.eqb_spec language "0.2"); cbn; try discriminate;
      intros [= <-]; subst; set_solver.
  - rewrite !elem_of_cons. intros [[= -> -> ->] | [[= -> -> ->] | []%elem_of_nil]]; reflexivity.
Qed.

Lemma existsb_false_Forall {A} (f : A -> bool) l :
  existsb f l = false <-> Forall (fun x => f x = false) l.
Proof.
  induction l as [|x l IH]; cbn; [by split |]. by rewrite orb_false_iff, IH, Forall_cons.
Qed.

Lemma preflight_Ok (engine : RuntimeEngine) (skill : SkillObject) (allow : bool) :
  _preflight engine skill allow = Ok tt <-> executable_skill engine allow skill.
Proof.
  unfold _preflight, executable_skill. split.
  - intros H. apply bind_Ok in H as ([] & Hp & H).
    apply bind_Ok in H as ([] & Hh%raise_if_Ok & H).
    apply bind_Ok in H as ([] & Hb%raise_if_Ok & H).
    apply bind_Ok in H as ([] & Hc%raise_if_Ok & H).
    apply bind_Ok in H as ([] & Hplan & H).
    split; [| split; [| split; [| split]]].
    + apply profile_Some. destruct (_SUPPORTED_RUNTIME_PROFILES _ _); [| discriminate].
      apply raise_if_Ok, negb_false_iff, String.eqb_eq in Hp as ->. done.
    + by apply negb_false_iff, String.eqb_eq in Hh.
    + by apply negb_false_iff in Hb.
    + destruct allow.
      * apply bind_Ok in Hplan as (p & Hp' & _). by exists p.
      * rewrite andb_true_r in Hc. by apply existsb_false_Forall.
    + apply each_Ok in H. eapply Forall_impl; [exact H |]. intros t. apply preflight_tool_Ok.
  - intros (Hp%profile_Some & Hh & Hb & Hplan & Ht). rewrite Hp, Hh, Hb, !String.eqb_refl.
    do 3 (apply (bind_intro tt); [done |]). apply (bind_intro tt).
    { destruct allow; [by rewrite andb_false_r |].
      apply existsb_false_Forall in Hplan. unfold _contains_controlled_operation. by rewrite Hplan. }
    apply (bind_intro tt).
    { destruct allow; [| done]. destruct Hplan as [p ->]. done. }
    apply each_Ok. eapply Forall_impl; [exact Ht |]. intros t. apply preflight_tool_Ok.
Qed.

(** The runtime preflight accepts exactly the executable Skills: a
    supported version with its semantics profile, the semantic hash of the
    content, a bounded analysis, no approval or WRITE anywhere in the body
    (in the controlled pipeline: a controlled plan), and every required tool
    registered with the contract hash the Skill was compiled for and no
    capability beyond READ (beyond WRITE in the controlled pipeline). *)
Theorem preflight_exact (engine : RuntimeEngine) (skill : SkillObject) (allow : bool) :
  _preflight engine skill allow = Ok tt <-> executable_skill engine allow skill.
Proof. apply preflight_Ok. Qed.

(** ** The calls of an execution *)

Section Effects.
Context (ports : EnginePorts) (engine : RuntimeEngine).
Context (skill : SkillObject) (request : ExecutionRequest).

(** A context stays one of this execution, and every call is allowed and
    continues the audit chain. *)
Definition accounted (mc mc' : Machine) : Prop :=
  scene skill request (mc_ctx mc) ->
  scene skill request (mc_ctx mc')
  /\ exists new, mc_calls mc' = mc_calls mc ++ new
       /\ Forall (call_allowed engine skill request) new
       /\ trail (mc_recorder mc) (mc_recorder mc') new.

#[local] Instance accounted_preorder : PreOrder accounted.
Proof.
  split.
  - intros mc Hs. split; [done |]. exists []. rewrite app_nil_r.
    split; [done |]. split; [constructor | by apply trail_silent].
  - intros a b c H1 H2 Hs. destruct (H1 Hs) as [Hb (n1 & E1 & F1 & T1)].
    destruct (H2 Hb) as [Hc (n2 & E2 & F2 & T2)]. split; [done |].
    exists (n1 ++ n2). rewrite E2, E1, app_assoc. split; [done |].
    split; [by apply Forall_app | by eapply trail_trans].
Qed.

Lemma accounted_keeps {A} (m : R A) : steps (keeps engine skill request) m -> steps accounted m.
Proof.
  apply steps_weaken. intros mc mc' H Hs. destruct (H Hs) as [P Hn].
  split; [by eapply scene_progress | exact Hn].
Qed.

Lemma accounted_quiet {A} (m : R A) : steps quiet m -> steps accounted m.
Proof. intros H. by apply accounted_keeps, keeps_quiet. Qed.

Definition stays (c c' : ExecutionContext) : Prop :=
  scene skill request c -> scene skill request c'.

#[local] Instance stays_preorder : PreOrder stays.
Proof. split; [intros c H; exact H | intros a b c H1 H2 H; exact (H2 (H1 H))]. Qed.

Lemma accounted_on_ctx {A} (m : X A) : steps stays m -> steps accounted (on_ctx m).
Proof.
  apply steps_on_ctx. intros mc c' H Hs. split; [by apply H |].
  exists []. rewrite app_nil_r. split; [done |]. split; [constructor | by apply trail_silent].
Qed.

Lemma stays_bind_once assign k : (forall c, stays c (assign c)) -> steps stays (_bind_once assign k).
Proof.
  intros H. unfold _bind_once. apply steps_bind; [apply _ | apply steps_get; apply _ | intros c].
  apply steps_bind; [apply _ | apply steps_fail_if; apply _ | intros _]. exact H.
Qed.

Lemma stays_quiet {A} (m : X A) : steps quiet_ctx m -> steps stays m.
Proof.
  apply steps_weaken. intros c c' H Hs. by eapply scene_progress; [apply progress_quiet |].
Qed.

Lemma accounted_bind_inputs : steps accounted (on_ctx _bind_inputs_and_contexts).
Proof.
  apply accounted_on_ctx. unfold _bind_inputs_and_contexts.
  apply steps_bind; [apply _ | apply steps_get; apply _ | intros c].
  apply steps_bind; [apply _ | | intros bindings].
  - apply stays_quiet. unfold _validated_input_context_bindings.
    apply steps_bind; [apply _ | | intros inputs; apply steps_bind; [apply _ | | quiet_tac]];
      (apply steps_map; [apply _ |]; apply Forall_forall; intros spec _);
      unfold validated_input, validated_context, observe_list; quiet_tac.
  - apply steps_bind; [apply _ | | intros _]; (apply steps_each; [apply _ |]);
      apply Forall_forall; intros b _; apply stays_bind_once; by intros c' (? & ? & ?).
Qed.
#[local] Hint Resolve accounted_bind_inputs : quiet.

Lemma quiet_write_debug_trace e : steps quiet (_write_debug_trace ports engine e).
Proof.
  unfold _write_debug_trace. pose proof @quiet_call_port. quiet_tac.
Qed.

Lemma quiet_failed f : steps quiet (_failed ports f).
Proof. unfold _failed. quiet_tac. Qed.

Lemma quiet_failed_execution e : steps quiet (failed_execution ports engine e).
Proof.
  unfold failed_execution. destruct (expected_failure e); [apply quiet_failed |].
  apply steps_bind; [apply _ | apply quiet_write_debug_trace | intros; apply quiet_failed].
Qed.

(** The part of the body before anything of the Skill is looked at. *)
Lemma accounted_execute_body decision statements allow :
  steps accounted (execute_body ports engine skill request decision statements allow).
Proof.
  unfold execute_body. cbv zeta.
  repeat (intros; first
    [ apply accounted_quiet; solve [quiet_tac]
    | apply accounted_bind_inputs
    | apply accounted_keeps, keeps_execute_block; constructor
    | apply steps_bind; [apply _ | |] ]).
Qed.

Lemma accounted_run_execution decision statements allow :
  steps accounted (run_execution ports engine skill request decision statements allow).
Proof.
  unfold run_execution. apply steps_try; [apply _ | apply accounted_execute_body |].
  intros e. apply accounted_quiet, quiet_failed_execution.
Qed.
End Effects.

Section Execution.
Context (ports : EnginePorts) (engine : RuntimeEngine).
Context (skill : SkillObject) (request : ExecutionRequest).

(** Without its preflight an execution calls no tool. *)
Lemma quiet_unless_preflight decision statements allow e :
  _preflight engine skill allow = Err e ->
  steps quiet (run_execution ports engine skill request decision statements allow).
Proof.
  intros He. unfold run_execution.
  apply steps_try; [apply _ | | intros; apply quiet_failed_execution].
  unfold execute_body. apply steps_bind; [apply _ | quiet_tac | intros _].
  apply steps_bind_after; [quiet_tac |]. rewrite He. discriminate.
Qed.

Lemma authorize_at_calls p action scopes h :
  (exists d, authorize_at ports engine p action scopes h = (Ok d, h ++ [ReadWallClock])
     /\ principal_validate p false = Ok tt /\ scopes ⊆ pr_scopes p)
  \/ exists e, authorize_at ports engine p action scopes h = (Err e, h).
Proof.
  unfold authorize_at. destruct (authorize _ _ _ _ _ _) as [d|e] eqn:Ha; [left | right].
  - apply authorize_Ok in Ha as (Hp & _ & _ & Hs & _). by exists d.
  - by exists e.
Qed.

(** The outcomes of the authorization that precedes everything. *)
Lemma authorize_skill_cases h :
  (exists d, authorize_skill ports engine skill request h = (Ok d, h ++ [ReadWallClock])
     /\ _validate_execution_principal engine (rq_principal request) = Ok tt
     /\ "nsl:skill:execute" ∈ pr_scopes (rq_principal request))
  \/ exists e, authorize_skill ports engine skill request h = (Err e, h).
Proof.
  unfold authorize_skill, mbind, M_bind, lift.
  destruct (_validate_execution_principal _ _) as [[]|e]; [| right; by exists e].
  destruct (authorize_at_calls (rq_principal request)
    ("skill:" +:+ sk_skill_id skill +:+ ":execute") {["nsl:skill:execute"]} h)
    as [(d & -> & _ & Hs) | (e & ->)]; [left; exists d | right; by exists e].
  split; [done |]. split; [done |]. set_solver.
Qed.

Lemma new_context_scene clock c : new_ExecutionContext skill request clock = Ok c ->
  scene skill request c.
Proof. unfold new_ExecutionContext. intros H. inv_result. by split; [split |]. Qed.

Lemma reject_execution_calls message ref r h :
  let '(_, (r', h')) := _reject_execution ports skill request message ref (r, h) in
  exists new, h' = h ++ new /\ Forall (fun c => is_tool_call c = false) new
    /\ trail (Some r) (Some r') new.
Proof.
  unfold _reject_execution, mbind, M_bind. cbv zeta.
  match goal with |- context [emit ?em _] => pose proof (engine_emit ports em r h) as H end.
  destruct (emit _ _) as [[[]|e] [r' h']]; exact H.
Qed.

Definition tool_called (h : history) : Prop := exists call timeout, CallTool call timeout ∈ h.

Lemma not_called new : Forall (fun c => is_tool_call c = false) new -> ~ tool_called new.
Proof. intros H (call & t & Hc). rewrite Forall_forall in H. by specialize (H _ Hc). Qed.

(** A principal the runtime lets execute Skills. *)
Definition may_execute (p : ExecutionPrincipal) : Prop :=
  _validate_execution_principal engine p = Ok tt /\ "nsl:skill:execute" ∈ pr_scopes p.

(** What an execution may add to the history of calls. *)
Definition admissible (allow : bool) (new : history) : Prop :=
  Forall (call_allowed engine skill request) new
  /\ chained 0 None (accepted new)
  /\ Forall (recorded_by (execution_recorder skill request)) (accepted new)
  /\ (tool_called new ->
      may_execute (rq_principal request) /\ executable_skill engine allow skill).

Lemma admissible_quiet allow new r' : Forall (fun c => is_tool_call c = false) new ->
  trail (Some (execution_recorder skill request)) (Some r') new -> admissible allow new.
Proof.
  intros Hf (Hc & Hr & _). split; [| split; [exact Hc | split; [exact Hr |]]].
  - eapply Forall_impl; [exact Hf |]. by intros [].
  - intros H. by apply not_called in Hf.
Qed.

Lemma admissible_run decision statements allow c h :
  scene skill request c -> may_execute (rq_principal request) ->
  let mc := (run_execution ports engine skill request decision statements allow
    (MkMachine c (Some (execution_recorder skill request)) (h ++ [ReadWallClock]))).2 in
  exists new, mc_calls mc = h ++ new /\ admissible allow new.
Proof.
  intros Hs Hp. cbv zeta. destruct (_preflight engine skill allow) as [[]|e] eqn:Hpre.
  - destruct (accounted_run_execution ports engine skill request decision statements allow
      (MkMachine c (Some (execution_recorder skill request)) (h ++ [ReadWallClock])) Hs)
      as (_ & new & Hn & Hf & Ht).
    destruct (run_execution _ _ _ _ _ _ _ _) as [r [c' [r'|] h']]; [| destruct Ht].
    cbn [snd mc_calls mc_recorder] in *. destruct Ht as (Hc & Hr & _).
    exists (ReadWallClock :: new). rewrite Hn, <- app_assoc. split; [done |].
    split; [by constructor |]. split; [exact Hc |]. split; [exact Hr |].
    intros _. split; [done |]. by apply preflight_Ok.
  - destruct (quiet_unless_preflight decision statements allow e Hpre
      (MkMachine c (Some (execution_recorder skill request)) (h ++ [ReadWallClock])))
      as (_ & new & Hn & Hf & Ht).
    destruct (run_execution _ _ _ _ _ _ _ _) as [r [c' [r'|] h']]; [| destruct Ht].
    cbn [snd mc_calls mc_recorder] in *.
    exists (ReadWallClock :: new). rewrite Hn, <- app_assoc. split; [done |].
    eapply admissible_quiet; [by constructor | exact Ht].
Qed.
End Execution.

(** C3. Whatever the ports answer and however an execution ends, the calls it
    makes are admissible: no tool is called unless the principal is valid,
    holds the execute scope and the Skill passes the preflight; every tool
    call is to a required tool, under its registered contract, by the
    requesting principal with the tool's scope; and the audit events the sink
    accepted form one hash chain from sequence 1, of this execution. *)
Theorem execution_effects (ports : EnginePorts) (engine : RuntimeEngine)
    (skill : SkillObject) (request : ExecutionRequest) (clock : nat -> Z)
    (statements : list Statement) (allow : bool) (h : history) :
  exists new,
    (_execute_with_context ports engine skill request clock statements allow h).2.2 = h ++ new
    /\ admissible engine skill request allow new.
Proof.
  unfold _execute_with_context. cbv zeta.
  destruct (authorize_skill_cases ports engine skill request h)
    as [(d & -> & Hp & Hs) | (e & ->)].
  - destruct (new_ExecutionContext _ _ _) as [c|e] eqn:Hc.
    + pose proof (admissible_run ports engine skill request d statements allow c h
        (new_context_scene _ _ _ _ Hc) (conj Hp Hs)) as H.
      destruct (run_execution _ _ _ _ _ _ _ _) as [r mc]. exact H.
    + exists [ReadWallClock]. split; [done |].
      eapply admissible_quiet; [by constructor | by apply trail_silent].
  - destruct (isinstance_exn _ _).
    + pose proof (reject_execution_calls ports skill request (exn_str e) (decision_ref_of e)
        (execution_recorder skill request) h) as H.
      unfold mbind, M_bind. destruct (_reject_execution _ _ _ _ _ _) as [[r|e'] [r' h']];
        destruct H as (new & -> & Hf & Ht); exists new; (split; [done |]);
        by eapply admissible_quiet.
    + exists []. rewrite app_nil_r. split; [done |].
      eapply admissible_quiet; [constructor | by apply trail_silent].
Qed.

(** ** Results and their audit events *)

(** The last call is the append of an event of this type, and was accepted. *)
Definition audited (event_type : string) (h : history) : Prop :=
  exists before e, h = before ++ [AppendEvent e true] /\ ae_event_type e = event_type.

Lemma engine_emit_audited ports em r h r' h' :
  emit (sink := engine_sink ports) em (r, h) = (Ok tt, (r', h')) ->
  audited (em_event_type em) h'.
Proof.
  unfold emit, sink_append, engine_sink, create_event.
  destruct (raise_if _ _ _) as [[]|error]; [| discriminate]. cbn [mbind result_bind].
  set (e := set_event_hash _ _). destruct (audit_append ports h e) as [[]|error]; [| discriminate].
  intros [= _ <-]. by exists h, e.
Qed.

Lemma services_emit_audited ports em mc mc' : mc_recorder mc <> None ->
  services_emit ports em mc = (Ok tt, mc') -> audited (em_event_type em) (mc_calls mc').
Proof.
  unfold services_emit. intros Hr. destruct (mc_recorder mc) as [r|]; [| done].
  destruct (emit _ _) as [res [r' h']] eqn:He. intros [= -> <-].
  by eapply engine_emit_audited.
Qed.

(** What a result says of the execution it ends. *)
Definition result_of (skill : SkillObject) (request : ExecutionRequest) (r : ExecutionResult)
  : Prop :=
  xr_execution_id r = rq_execution_id request /\ xr_skill_id r = sk_skill_id skill
  /\ xr_skill_version r = sk_skill_version skill /\ xr_semantic_hash r = sk_semantic_hash skill.

Definition completed (skill : SkillObject) (request : ExecutionRequest) (r : ExecutionResult)
    (c : ExecutionContext) (h : history) : Prop :=
  result_of skill request r /\ xr_status r = COMPLETED /\ xr_error r = None
  /\ xr_checks r = ctx_checks c /\ xr_outputs r = ctx_outputs c
  /\ audited "EXECUTION_COMPLETED" h.

Definition failed (skill : SkillObject) (request : ExecutionRequest) (r : ExecutionResult)
    (event_type : string) (h : history) : Prop :=
  result_of skill request r /\ xr_status r ∈ [FAILED; TOOL_ERROR; LIMIT_EXCEEDED]
  /\ is_Some (xr_error r) /\ audited event_type h.

Section Results.
Context (ports : EnginePorts) (engine : RuntimeEngine).
Context (skill : SkillObject) (request : ExecutionRequest).

Lemma result_Ok c status error r : scene skill request c -> _result c status error = Ok r ->
  result_of skill request r /\ xr_status r = status /\ xr_error r = error
  /\ xr_checks r = ctx_checks c /\ xr_outputs r = ctx_outputs c.
Proof.
  unfold _result. intros (_ & <- & <-) H. apply bind_Ok in H as (v & _ & H).
  by apply Ok_inj in H as <-.
Qed.

Lemma failure_statuses e f : expected_failure e = Some f ->
  fl_status f ∈ [FAILED; TOOL_ERROR; LIMIT_EXCEEDED].
Proof.
  unfold expected_failure. cbv zeta.
  repeat match goal with |- context [if ?b then _ else _] => destruct b end;
    intros H; try discriminate H; injection H as <-; cbn; set_solver.
Qed.

Lemma failed_audited f mc r mc' : scene skill request (mc_ctx mc) -> mc_recorder mc <> None ->
  fl_status f ∈ [FAILED; TOOL_ERROR; LIMIT_EXCEEDED] ->
  _failed ports f mc = (Ok r, mc') -> failed skill request r "EXECUTION_FAILED" (mc_calls mc').
Proof.
  unfold _failed. intros Hs Hr Hst H.
  apply M_bind_Ok in H as (c & mc1 & [= <- <-] & H). cbv zeta in H.
  apply M_bind_Ok in H as ([] & mc2 & He & H). injection H as H <-.
  destruct (result_Ok (mc_ctx mc) _ _ r Hs H) as (H1 & E1 & E2 & _).
  unfold failed. rewrite E1, E2. split; [done |]. split; [done |]. split; [by eexists |].
  by apply (services_emit_audited _ _ _ _ Hr He).
Qed.

(** The context and the recorder after a part of the execution. *)
Lemma accounted_after {A} (m : R A) mc : steps (accounted engine skill request) m ->
  scene skill request (mc_ctx mc) -> mc_recorder mc <> None ->
  scene skill request (mc_ctx (m mc).2) /\ mc_recorder (m mc).2 <> None.
Proof.
  intros Hm Hs Hr. destruct (Hm mc Hs) as (Hs' & new & _ & _ & Ht). split; [done |].
  intros Hn. rewrite Hn in Ht. by destruct (mc_recorder mc).
Qed.

Lemma failed_execution_audited e mc r mc' :
  scene skill request (mc_ctx mc) -> mc_recorder mc <> None ->
  failed_execution ports engine e mc = (Ok r, mc') ->
  failed skill request r "EXECUTION_FAILED" (mc_calls mc').
Proof.
  unfold failed_execution. intros Hs Hr. destruct (expected_failure e) as [f|] eqn:Hf.
  - apply failed_audited; [done | done | by eapply failure_statuses].
  - intros H. apply M_bind_Ok in H as ([] & mc1 & Ht & H).
    destruct (accounted_after _ mc (accounted_quiet engine skill request _
      (quiet_write_debug_trace ports engine e)) Hs Hr) as [Hs1 Hr1].
    rewrite Ht in Hs1, Hr1. apply (failed_audited _ _ _ _ Hs1 Hr1) in H; [done |].
    cbn. set_solver.
Qed.

Lemma complete_execution_completed decision mc r mc' :
  scene skill request (mc_ctx mc) -> mc_recorder mc <> None ->
  complete_execution ports request decision mc = (Ok r, mc') ->
  completed skill request r (mc_ctx mc') (mc_calls mc').
Proof.
  unfold complete_execution. intros Hs Hr H.
  apply M_bind_Ok in H as (c & mc1 & [= <- <-] & H).
  apply M_bind_Ok in H as (result & mc1 & [= Hres <-] & H).
  apply M_bind_Ok in H as ([] & mc2 & He & [= <- <-]).
  destruct (result_Ok (mc_ctx mc) _ _ _ Hs Hres) as (H1 & H2 & H3 & H4 & H5).
  assert (mc_ctx mc2 = mc_ctx mc) as Ec.
  { unfold emit_event, services_emit in He. destruct (mc_recorder mc) as [rec|]; [| done].
    destruct (emit _ _) as [? [? ?]]. by injection He as _ <-. }
  unfold completed. rewrite Ec. repeat (split; [done |]).
  by apply (services_emit_audited _ _ _ _ Hr He).
Qed.

Lemma execute_body_completed decision statements allow mc r mc' :
  scene skill request (mc_ctx mc) -> mc_recorder mc <> None ->
  execute_body ports engine skill request decision statements allow mc = (Ok r, mc') ->
  completed skill request r (mc_ctx mc') (mc_calls mc').
Proof.
  intros Hs Hr H. unfold execute_body in H. cbv zeta in H.
  pose proof (accounted_bind_inputs engine skill request) as Hbind.
  pose proof (fun s => accounted_keeps engine skill request _
    (keeps_execute_block ports engine (measuring_execute ports) skill request
       (MeasuringRunner ports) s)) as Hblock.
  repeat match type of H with
  | (?m ≫= ?f) mc = _ =>
      let mc1 := fresh "mc" in let Hm := fresh "Hm" in
      apply M_bind_Ok in H as (? & mc1 & Hm & H); cbv beta in H;
      destruct (accounted_after m mc
        ltac:(first [apply Hbind | apply Hblock | apply accounted_quiet; solve [quiet_tac]])
        Hs Hr) as [Hs1 Hr1];
      rewrite Hm in Hs1, Hr1; cbn [snd] in Hs1, Hr1; clear Hs Hr Hm;
      rename Hs1 into Hs, Hr1 into Hr; clear mc; rename mc1 into mc
  end.
  by apply (complete_execution_completed decision mc).
Qed.

Lemma run_execution_audited decision statements allow mc r mc' :
  scene skill request (mc_ctx mc) -> mc_recorder mc <> None ->
  run_execution ports engine skill request decision statements allow mc = (Ok r, mc') ->
  completed skill request r (mc_ctx mc') (mc_calls mc')
  \/ failed skill request r "EXECUTION_FAILED" (mc_calls mc').
Proof.
  intros Hs Hr. unfold run_execution, try_except.
  destruct (execute_body _ _ _ _ _ _ _ mc) as [[r1|e] mc1] eqn:Hb.
  - intros [= -> ->]. left. by apply (execute_body_completed decision statements allow mc).
  - destruct (isinstance_exn _ _); [| discriminate]. intros H. right.
    destruct (accounted_after _ mc (accounted_execute_body ports engine skill request decision
      statements allow) Hs Hr) as [Hs1 Hr1]. rewrite Hb in Hs1, Hr1.
    by apply (failed_execution_audited e mc1).
Qed.

Lemma reject_execution_audited message ref s r s' :
  _reject_execution ports skill request message ref s = (Ok r, s') ->
  failed skill request r "EXECUTION_REJECTED" s'.2.
Proof.
  unfold _reject_execution. cbv zeta. intros H. destruct s as [rec h].
  apply M_bind_Ok in H as ([] & [r' h'] & He & [= <- <-]).
  apply engine_emit_audited in He. unfold failed.
  cbn [xr_status xr_error]. repeat split; [set_solver | by eexists | exact He].
Qed.
End Results.

Lemma execution_audited (ports : EnginePorts) (engine : RuntimeEngine)
    (skill : SkillObject) (request : ExecutionRequest) (clock : nat -> Z)
    (statements : list Statement) (allow : bool) (h : history)
    (r : ExecutionResult) (c : option ExecutionContext) (s : AuditRecorder * history) :
  _execute_with_context ports engine skill request clock statements allow h = (Ok (r, c), s) ->
  match c with
  | Some c => completed skill request r c s.2 \/ failed skill request r "EXECUTION_FAILED" s.2
  | None => failed skill request r "EXECUTION_REJECTED" s.2
  end.
Proof.
  unfold _execute_with_context. cbv zeta. intros H.
  destruct (authorize_skill ports engine skill request h) as [[d|e] h1].
  - destruct (new_ExecutionContext _ _ _) as [c1|e] eqn:Hc; [| discriminate H].
    destruct (run_execution _ _ _ _ _ _ _ _) as [r1 mc] eqn:Hrun.
    injection H as H <-. apply bind_Ok in H as (r2 & -> & [= <- <-]%Ok_inj). cbn [snd].
    eapply run_execution_audited; [| | exact Hrun]; [by eapply new_context_scene | done].
  - destruct (isinstance_exn _ _); [| discriminate H].
    apply M_bind_Ok in H as (r1 & s1 & Hr & [= <- <- <-]).
    by eapply reject_execution_audited.
Qed.

(** C4. No result without its audit event: when an execution returns a
    result, the last call it made is the append of the event that ends it, and
    the sink accepted it. The result is the request's and the Skill's; it is
    either COMPLETED, without an error, with the checks and the outputs of the
    context, after [EXECUTION_COMPLETED], or it is failed, with an error, after
    [EXECUTION_FAILED] (after [EXECUTION_REJECTED], and without a context,
    where the principal was not authorized). *)
Theorem execution_result_audited (ports : EnginePorts) (engine : RuntimeEngine)
    (skill : SkillObject) (request : ExecutionRequest) (clock : nat -> Z)
    (statements : list Statement) (allow : bool) (h : history)
    (r : ExecutionResult) (c : option ExecutionContext) (s : AuditRecorder * history) :
  _execute_with_context ports engine skill request clock statements allow h = (Ok (r, c), s) ->
  match c with
  | Some c => completed skill request r c s.2 \/ failed skill request r "EXECUTION_FAILED" s.2
  | None => failed skill request r "EXECUTION_REJECTED" s.2
  end.
Proof. apply execution_audited. Qed.

(** ** Executions return *)

Section Total.
Context (ports : EnginePorts) (engine : RuntimeEngine).
Context (skill : SkillObject) (request : ExecutionRequest).

(** A sink that accepts every event. *)
Definition dependable_sink : Prop := forall h e, audit_append ports h e = Ok tt.

Definition controlled_profile : Prop :=
  sk_ir_version skill = "1.1" /\ sk_language_version skill = "0.2".

(** What may still leave an execution as an exception: what no [except
    Exception] catches, and the refusal of duplicate check ids when a result
    with a validation summary is built. *)
Definition escapes (e : exn) : Prop :=
  isinstance_exn (ex_class e) Exception_ = false
  \/ (controlled_profile /\ ex_class e = ValueError).

Definition returns {A} (r : result A) : Prop :=
  match r with Ok _ => True | Err e => escapes e end.

Lemma engine_emit_ok em r h : dependable_sink -> (0 < audit_retention_days (rec_policy r))%Z ->
  exists s, emit (sink := engine_sink ports) em (r, h) = (Ok tt, s).
Proof.
  intros Hsink Hr. unfold emit, create_event, sink_append, engine_sink.
  change (ae_retention_days (draft_event r em)) with (audit_retention_days (rec_policy r)).
  rewrite (proj2 (Z.leb_gt _ 0)) by done. cbn [raise_if mbind result_bind].
  rewrite Hsink. eauto.
Qed.

Lemma result_escapes c status error e : scene skill request c ->
  _result c status error = Err e -> escapes e.
Proof.
  unfold _result. intros (_ & Hk & _) H. rewrite Hk in H. right.
  apply bind_Err in H as [H | (? & _ & [=])].
  destruct (String.eqb (sk_ir_version skill) "1.1") eqn:Ei; [| discriminate H].
  destruct (String.eqb (sk_language_version skill) "0.2") eqn:El; [| discriminate H].
  apply String.eqb_eq in Ei, El.
  apply bind_Err in H as [H | (? & _ & [=])].
  split; [by split | by eapply from_checks_raises].
Qed.

(** The policy of the recorder of an execution stays the request's. *)
Definition recording (mc : Machine) : Prop :=
  scene skill request (mc_ctx mc)
  /\ exists r, mc_recorder mc = Some r /\ rec_policy r = rq_data_policy request.

Lemma recording_after {A} (m : R A) mc : steps (accounted engine skill request) m ->
  recording mc -> recording (m mc).2.
Proof.
  intros Hm [Hs (r & Hr & Hp)]. destruct (Hm mc Hs) as (Hs' & new & _ & _ & Ht).
  split; [done |]. rewrite Hr in Ht. destruct (mc_recorder (m mc).2) as [r'|]; [| done].
  exists r'. split; [done |]. destruct Ht as (Hc & _ & ->).
  by destruct (advance_all_end _ _ Hc) as (_ & _ & _ & ->).
Qed.

Context (Hsink : dependable_sink) (Hret : (0 < audit_retention_days (rq_data_policy request))%Z).

Lemma failed_escapes f mc e mc' : recording mc -> _failed ports f mc = (Err e, mc') -> escapes e.
Proof.
  intros [Hs (r & Hr & Hp)]. unfold _failed. intros H. cbv [mbind M_bind ctx] in H. cbv zeta in H.
  unfold emit_event, services_emit in H. rewrite Hr in H.
  match type of H with context [emit ?em (r, ?h)] =>
    destruct (engine_emit_ok em r h Hsink ltac:(by rewrite Hp)) as [[r' h'] He] end.
  rewrite He in H. injection H as H _. by eapply result_escapes.
Qed.

Lemma trace_escapes x mc e mc' :
  _write_debug_trace ports engine x mc = (Err e, mc') -> escapes e.
Proof.
  unfold _write_debug_trace. destruct (debug_trace_sink ports) as [sink|]; [| discriminate].
  destruct (debug_mode engine); [| discriminate]. intros H. left.
  cbv [mbind M_bind ctx try_except] in H. cbv zeta in H.
  destruct (call_port _ _ mc) as [[[]|e'] mc1]; [discriminate H |].
  destruct (isinstance_exn (ex_class e') Exception_) eqn:Hi; [discriminate H |].
  by injection H as <- _.
Qed.

Lemma failed_execution_escapes x mc e mc' : recording mc ->
  failed_execution ports engine x mc = (Err e, mc') -> escapes e.
Proof.
  intros Hm. unfold failed_execution. destruct (expected_failure x) as [f|].
  - by apply failed_escapes.
  - pose proof (recording_after _ mc (accounted_quiet engine skill request _
      (quiet_write_debug_trace ports engine x)) Hm) as Hm1.
    unfold mbind, M_bind. destruct (_write_debug_trace _ _ _ _) as [[[]|e1] mc1] eqn:Ht.
    + by apply failed_escapes.
    + intros [= <- _]. by eapply trace_escapes.
Qed.

Lemma run_execution_escapes decision statements allow mc e mc' : recording mc ->
  run_execution ports engine skill request decision statements allow mc = (Err e, mc') ->
  escapes e.
Proof.
  intros Hm. unfold run_execution, try_except.
  pose proof (recording_after _ mc (accounted_execute_body ports engine skill request decision
    statements allow) Hm) as Hm1.
  destruct (execute_body _ _ _ _ _ _ _ mc) as [[r|x] mc1]; [discriminate |].
  destruct (isinstance_exn (ex_class x) Exception_) eqn:Hi; [by apply failed_execution_escapes |].
  intros [= <- _]. by left.
Qed.

Lemma authorize_skill_raises h e h' :
  authorize_skill ports engine skill request h = (Err e, h') -> ex_class e = AuthorizationError.
Proof.
  unfold authorize_skill, mbind, M_bind, lift, authorize_at, _validate_execution_principal.
  destruct (principal_validate _ _) as [[]|x] eqn:Hp.
  - destruct (authorize _ _ _ _ _ _) eqn:Ha; [discriminate |]. intros [= <- _].
    by eapply authorize_raises.
  - intros [= <- _]. by eapply principal_validate_raises.
Qed.

Lemma request_identity_ok : ExecutionRequest_post_init request = Ok tt ->
  exists i, request_identity request = Ok i.
Proof.
  unfold ExecutionRequest_post_init, request_identity, ExecutionIdentity_post_init.
  cbn [id_execution_id id_business_operation_id].
  intros H. apply bind_Ok in H as (v & H1%required_text_iff & H).
  apply bind_Ok in H as (o & H2%optional_text_iff & _).
  eexists. apply (bind_intro tt); [| done].
  apply (bind_intro v); [by apply required_text_iff |].
  apply (bind_intro o); [by apply optional_text_iff | done].
Qed.
End Total.

(** C5. An execution returns a result: for a well-formed request, with an
    audit sink that accepts events, whatever the Skill, the tools and the
    other ports do, [execute] ends with a result — a failed one for every
    [Exception] of the run, of a tool, of the snapshot store or of the debug
    sink, and for a principal who is not authorized. What can still escape is
    what [except Exception] does not catch, and, for an NSL 0.2 Skill only,
    the [ValueError] of its validation summary. *)
Theorem execution_total (ports : EnginePorts) (engine : RuntimeEngine) (skill : SkillObject)
    (request : ExecutionRequest) (clock : nat -> Z) (statements : list Statement)
    (allow : bool) (h : history) :
  dependable_sink ports -> ExecutionRequest_post_init request = Ok tt ->
  (0 < audit_retention_days (rq_data_policy request))%Z ->
  returns skill (_execute_with_context ports engine skill request clock statements allow h).1.
Proof.
  intros Hsink Hreq Hret. unfold returns, _execute_with_context. cbv zeta.
  destruct (authorize_skill ports engine skill request h) as [[d|e] h1] eqn:Ha.
  - destruct (request_identity_ok _ Hreq) as [i Hi].
    destruct (new_ExecutionContext skill request clock) as [c|e] eqn:Hc;
      [| unfold new_ExecutionContext in Hc; by rewrite Hi in Hc].
    destruct (run_execution _ _ _ _ _ _ _ _) as [[r|e] mc] eqn:Hrun; [done |]. cbn.
    eapply run_execution_escapes; [done | done | | exact Hrun].
    split; [by eapply new_context_scene | by eexists].
  - rewrite (authorize_skill_raises _ _ _ _ _ _ _ Ha).
    change (isinstance_exn AuthorizationError AuthorizationError) with true. cbv iota.
    unfold _reject_execution, mbind, M_bind. cbv zeta.
    match goal with |- context [emit ?em (?r, ?h)] =>
      destruct (engine_emit_ok ports em r h Hsink Hret) as [s' ->] end. done.
Qed.
