(* ===== verification/Scenarios.v ===== *)
(** * Concrete executions

    A small READ Skill with a loop, a check and an EMIT, run with a tool and
    an audit sink that answer: the theorems on runs hold here with all their
    hypotheses. And a Skill whose loop runs one check twice. *)

From S2P Require Import Prelude Digest Json Decimal Core Values Builtins DataProtection Ir Bounds.
From S2P Require Import Security AuditTrail WriteRecords RuntimeModels Tools Validation Runtime Steps.
From S2P Require Import Costs Safety Execution Outcomes.

(** ** The Skill, the engine and its ports *)

Definition stock_tool : RequiredTool := Eval vm_compute in
  MkRequiredTool "stock" "erp.get_stock" "1.0.0" (Capability READ)
    (contract_hash example_read_contract) "stock:read" INTERNAL None.

Definition stock_literal (id : string) (n : Z) : Expression := LiteralExpr id (VInt n) INT.

Definition stock_body : list Statement :=
  [LetStatement "n1" "s-stock"
     (ReadExpr "n2" "stock" [("item", LiteralExpr "n3" (VStr "bolt") STRING)] INT
        default_ResultPolicy);
   ForeachStatement "n4" "s-item" (LiteralExpr "n5" (VList [VInt 3]) (list_type INT)) 2
     [CheckStmt (MkCheckStatement "n6" "enough"
        (BinaryExpr "n7" "GE" (SymbolRefExpr "n8" "s-stock" INT) (SymbolRefExpr "n9" "s-item" INT)
           BOOL) "ERROR" "CONTINUE" "not enough stock" "s-check")];
   EmitStatement "n10" [("stock", SymbolRefExpr "n11" "s-stock" INT)]].

Definition stock_analysis : StaticAnalysis := MkStaticAnalysis 1 2 1 true.

Definition build_skill (profile : string) (tools : list RequiredTool)
    (outputs : list OutputField) (body : list Statement) (analysis : StaticAnalysis)
  : SkillObject :=
  let '(ir, language) := if String.eqb profile "NSL-0.2-STRICT" then ("1.1", "0.2")
                         else ("1.0", "0.1") in
  with_computed_hash (MkSkillObject ir language "stock.check" "1.0.0" "R1" profile "" ∅ [] tools
    example_limits [] [] outputs body analysis (MkBuildMetadata "sha256:none" "main.nsl" [])).

Definition stock_skill : SkillObject := Eval vm_compute in
  build_skill "NSL-0.1-STRICT" [stock_tool] [MkOutputField "stock" INT INTERNAL] stock_body
    stock_analysis.

Definition stock_principal : ExecutionPrincipal :=
  MkExecutionPrincipal "tenant-1" "user-7" "USER" {["buyer"]}
    {["nsl:skill:execute"; "stock:read"]} "auth-ctx-1" P_VERIFIED None.

Definition stock_request : ExecutionRequest :=
  MkExecutionRequest "exec-1" [] [] stock_principal default_DataHandlingPolicy (Some "op-1").

Definition stock_engine : RuntimeEngine :=
  MkRuntimeEngine {[contract_key example_read_contract := example_read_contract]}
    "policy" "1" false PRODUCTION.

Definition stock_answer_hash : string := Eval vm_compute in tool_result_hash (VInt 12).

Definition stock_ports : EnginePorts :=
  MkEnginePorts (fun _ _ => Ok tt) None
    (fun _ request _ => Returned (Reply (MkToolResultEnvelope (tq_invocation_id request)
       (tq_tool_id request) (tq_tool_version request) (VInt 12) INT PRESENT COMPLETE INTERNAL
       stock_answer_hash None)))
    (fun _ _ => Ok tt) (fun _ => noon) None (fun _ => "") (fun l => l).

Definition stock_machine (skill : SkillObject) : Machine :=
  MkMachine (MkExecutionContext skill stock_request (fun n => Z.of_nat n) 1 0
      (MkExecutionIdentity "exec-1" (Some "op-1")) (request_security_context stock_request) ∅ ∅ [∅] [∅]
      [] [] zero_meter COMPLETE 0 0 None ∅ [] (MkIdempotencyState ∅ ∅) default_CheckpointState)
    None [].

Definition stock_run : result unit * Machine := Eval vm_compute in
  _execute_block stock_ports stock_engine (measuring_execute stock_ports) stock_body
    (stock_machine stock_skill).

Lemma stock_run_eq :
  _execute_block stock_ports stock_engine (measuring_execute stock_ports) stock_body
    (stock_machine stock_skill) = stock_run.
Proof. vm_compute. reflexivity. Qed.

(** ** The theorems on runs, at this run *)

Lemma stock_run_ends : stock_run.1 = Ok tt /\ tool_call_count (mc_calls stock_run.2) = 1%Z.
Proof. split; reflexivity. Qed.

Lemma stock_machine_rooted : rooted (mc_ctx (stock_machine stock_skill)).
Proof. split; discriminate. Qed.

Lemma static_bounds_sound_witness :
  analyze stock_body = Ok stock_analysis
  /\ (tool_calls (ctx_resources (mc_ctx stock_run.2)) <= 1)%Z
  /\ (loop_iterations (ctx_resources (mc_ctx stock_run.2)) <= 2)%Z.
Proof.
  split; [reflexivity |].
  pose proof (static_bounds_sound stock_ports stock_engine (measuring_execute stock_ports)
    stock_body stock_analysis (stock_machine stock_skill) (MeasuringRunner stock_ports) eq_refl)
    as H.
  cbv zeta in H. rewrite stock_run_eq in H. destruct H as (H1 & H2 & _).
  split; [exact H1 | exact H2].
Defined.

Lemma block_only_extends_witness :
  rooted (mc_ctx (stock_machine stock_skill))
  /\ ctx_checks (mc_ctx (stock_machine stock_skill)) `prefix_of` ctx_checks (mc_ctx stock_run.2)
  /\ ctx_foreach_depth (mc_ctx stock_run.2) = 0%Z.
Proof.
  split; [exact stock_machine_rooted |].
  pose proof (block_only_extends stock_ports stock_engine (measuring_execute stock_ports)
    stock_body (stock_machine stock_skill) (MeasuringRunner stock_ports) stock_machine_rooted)
    as H.
  cbv zeta in H. rewrite stock_run_eq in H. destruct H as (_ & _ & _ & H4 & H5 & _).
  split; [exact H5 | exact H4].
Defined.

Lemma block_effects_declared_witness :
  exists records calls,
    ctx_outputs (mc_ctx stock_run.2) = records /\ Forall (record_fits stock_skill) records
    /\ mc_calls stock_run.2 = calls
    /\ Forall (call_allowed stock_engine stock_skill stock_request) calls.
Proof.
  pose proof (block_effects_declared stock_ports stock_engine (measuring_execute stock_ports)
    stock_body (stock_machine stock_skill) (MeasuringRunner stock_ports) stock_machine_rooted)
    as H.
  cbv zeta in H. rewrite stock_run_eq in H. exact H.
Defined.

(** ** Whole executions *)

Definition clock_ns (n : nat) : Z := Z.of_nat n.

(** A Skill with an empty body. *)
Definition idle_skill : SkillObject := Eval vm_compute in
  build_skill "NSL-0.1-STRICT" [] [] [] (MkStaticAnalysis 0 0 0 true).

Definition idle_run :=
  _execute_with_context stock_ports stock_engine idle_skill stock_request clock_ns [] false [].

Definition idle_outcome : result (ExecutionResult * option ExecutionContext)
                          * (AuditRecorder * history) := Eval vm_compute in idle_run.

Definition idle_result : ExecutionResult := Eval vm_compute in
  match idle_outcome.1 with
  | Ok (r, _) => r
  | Err _ => MkExecutionResult "" "" "" "" CREATED C_UNKNOWN [] [] zero_meter None None None None
               None None None
  end.

Definition idle_context : ExecutionContext := Eval vm_compute in
  match idle_outcome.1 with Ok (_, Some c) => c | _ => example_context end.

Lemma idle_run_eq : idle_run = idle_outcome.
Proof. vm_compute. reflexivity. Qed.

Lemma execution_result_audited_witness :
  completed idle_skill stock_request idle_result idle_context idle_outcome.2.2.
Proof.
  destruct (execution_result_audited stock_ports stock_engine idle_skill stock_request clock_ns
    [] false [] idle_result (Some idle_context) idle_outcome.2) as [H | (_ & H & _)].
  - etransitivity; [exact idle_run_eq |]. vm_compute. reflexivity.
  - exact H.
  - exfalso. revert H. apply (bool_decide_eq_false_1 (xr_status idle_result ∈ _)). reflexivity.
Defined.

Lemma execution_total_witness :
  ExecutionRequest_post_init stock_request = Ok tt
  /\ returns stock_skill (_execute_with_context stock_ports stock_engine stock_skill
       stock_request clock_ns stock_body false []).1.
Proof.
  assert (ExecutionRequest_post_init stock_request = Ok tt) as H by (vm_compute; reflexivity).
  split; [exact H |].
  exact (execution_total stock_ports stock_engine stock_skill stock_request clock_ns stock_body
    false [] (fun _ _ => eq_refl) H eq_refl).
Defined.

(** ** A check inside a loop

    An NSL 0.2 Skill whose loop runs one CHECK for each of two items. *)

Definition looping_body : list Statement :=
  [ForeachStatement "n1" "s-item" (LiteralExpr "n2" (VList [VInt 1; VInt 2]) (list_type INT)) 2
     [CheckStmt (MkCheckStatement "n3" "positive" (LiteralExpr "n4" (VBool true) BOOL) "ERROR"
        "CONTINUE" "" "s-check")]].

Definition looping_skill : SkillObject := Eval vm_compute in
  build_skill "NSL-0.2-STRICT" [] [] looping_body (MkStaticAnalysis 0 2 0 true).

(** A CHECK in a loop of an NSL 0.2 Skill breaks the execution: the Skill
    passes the preflight, its analysis is the analyzer's, the request is
    well-formed and the sink accepts every event, and still [execute] raises
    the [ValueError] of the validation summary as soon as the loop runs the
    check a second time: the summary refuses the repeated check id, and so does
    the one [_failed] builds for the failed result. *)
Theorem loop_check_escapes :
  executable_skill stock_engine false looping_skill
  /\ analyze (sk_body looping_skill) = Ok (sk_analysis looping_skill)
  /\ ExecutionRequest_post_init stock_request = Ok tt
  /\ (runtime_execute stock_ports stock_engine looping_skill stock_request clock_ns []).1
     = raise ValueError "check IDs must be unique non-empty strings".
Proof.
  split; [apply preflight_Ok; vm_compute; reflexivity |].
  split; [reflexivity |]. split; vm_compute; reflexivity.
Qed.
