(* ===== verification/WriteExecution.v ===== *)
(** * The durable WRITE boundary ([src/nsl/write_execution.py])

    Call requests, the durable request record, the invocation coordinator and
    the commit-aware executor. The three ports (evidence, provider, outcome
    evidence) are foreign: each answers from the history of all port calls. *)

From S2P Require Import Prelude Digest Json Core DataProtection HashTexts Ir Security Tools.
From S2P Require Import WriteRecords RuntimeModels WriteIntent Idempotency Validation.

Definition _WRITE_REQUESTED_DOMAIN : list ascii := hash_domain "NSL-WRITE-REQUESTED-V1".

(** [ProviderInvocationUncertainError(cause)]: its [reason_code]. *)
Definition uncertain_reason (cause : exn_class) : string :=
  if isinstance_exn cause CancelledError then "PROVIDER_CANCELLED"
  else if isinstance_exn cause TimeoutError then "PROVIDER_TIMEOUT"
  else if isinstance_exn cause ConnectionError then "PROVIDER_CONNECTION_LOST"
  else "PROVIDER_EXCEPTION".

Definition uncertain_error (cause : exn_class) : exn :=
  Exn ProviderInvocationUncertainError (uncertain_reason cause)
    "provider invocation did not return a trustworthy commit outcome".

(** ** Call requests *)

Record WriteCallRequest : Type := MkWriteCallRequest {
  wc_tenant_id : string;
  wc_execution_id : string;
  wc_business_operation_id : string;
  wc_invocation_id : string;
  wc_node_id : string;
  wc_tool_ref : string;
  wc_tool_id : string;
  wc_contract_hash : string;
  wc_arguments : arguments;
  wc_idempotency_key : string;
  wc_payload_hash : string;
  wc_approval_id : string;
  wc_approval_request_id : string;
  wc_write_intent_hash : string;
  wc_business_preconditions : BusinessPreconditionEvidence;
  wc_trace_refs : list string
}.

(** [_freeze_arguments] of this module, which also checks the names. *)
Definition freeze_named_arguments (args : arguments) : result arguments :=
  _ ← raise_if (negb (forallb (fun a => non_blank a.1) args)) TypeError
        "arguments must map non-empty names to ValueEnvelope";
  Ok (_freeze_arguments args).

(** The constructor: its checks, then the frozen arguments are stored. *)
Definition new_WriteCallRequest (r : WriteCallRequest) : result WriteCallRequest :=
  _ ← required_texts WriteExecutionError
        [("WriteCallRequest.tenant_id", wc_tenant_id r);
         ("WriteCallRequest.execution_id", wc_execution_id r);
         ("WriteCallRequest.business_operation_id", wc_business_operation_id r);
         ("WriteCallRequest.invocation_id", wc_invocation_id r);
         ("WriteCallRequest.node_id", wc_node_id r);
         ("WriteCallRequest.tool_ref", wc_tool_ref r);
         ("WriteCallRequest.tool_id", wc_tool_id r);
         ("WriteCallRequest.approval_id", wc_approval_id r);
         ("WriteCallRequest.approval_request_id", wc_approval_request_id r)];
  _ ← write_sha256 (wc_contract_hash r) "WriteCallRequest.contract_hash";
  _ ← write_sha256 (wc_payload_hash r) "WriteCallRequest.payload_hash";
  _ ← write_sha256 (wc_write_intent_hash r) "WriteCallRequest.write_intent_hash";
  key ← write_text (wc_idempotency_key r) "WriteCallRequest.idempotency_key";
  _ ← raise_if (negb (is_idempotency_key key)) WriteExecutionError
        "WriteCallRequest.idempotency_key must be an idem SHA-256 value";
  frozen_arguments ← freeze_named_arguments (wc_arguments r);
  hash ← compute_payload_hash frozen_arguments;
  _ ← raise_if (negb (String.eqb hash (wc_payload_hash r))) WriteExecutionError
        "WriteCallRequest.payload_hash does not match arguments";
  _ ← raise_if (negb (forallb non_blank (wc_trace_refs r))) TypeError
        "trace_refs must be a tuple of non-empty strings";
  _ ← ensure_no_credential_material (VTuple (map VStr (wc_trace_refs r)))
        "WriteCallRequest.trace_refs";
  Ok (MkWriteCallRequest (wc_tenant_id r) (wc_execution_id r) (wc_business_operation_id r)
        (wc_invocation_id r) (wc_node_id r) (wc_tool_ref r) (wc_tool_id r)
        (wc_contract_hash r) frozen_arguments (wc_idempotency_key r) (wc_payload_hash r)
        (wc_approval_id r) (wc_approval_request_id r) (wc_write_intent_hash r)
        (wc_business_preconditions r) (wc_trace_refs r)).

(** [WriteCallRequestBuilder._precondition_matches] *)
Definition builder_precondition_matches (e : BusinessPreconditionEvidence)
    (intent : WriteIntent) (contract : WriteContractEvidence) : bool :=
  String.eqb (bp_tenant_id e) (wi_tenant_id intent)
  && String.eqb (bp_business_operation_id e) (wi_business_operation_id intent)
  && String.eqb (bp_write_node_id e) (wi_node_id intent)
  && String.eqb (bp_tool_id e) (wi_tool_id intent)
  && String.eqb (wi_tool_id intent) (ce_tool_id contract)
  && String.eqb (bp_contract_hash e) (ce_contract_hash contract)
  && String.eqb (bp_payload_hash e) (wi_payload_hash intent)
  && String.eqb (bp_write_intent_hash e) (wi_write_intent_hash intent)
  && bp_provider_atomic_enforcement e.

(** [WriteCallRequestBuilder.build] *)
Definition build_call_request (intent : WriteIntent) (context : ExecutionContext)
    (contract : WriteContractEvidence) (reservation : IdempotencyReservation)
    (approval_request_id invocation_id : string) (pre : BusinessPreconditionEvidence)
    (trace_refs : list string) : result WriteCallRequest :=
  _ ← raise_if (negb (String.eqb (ctx_tenant_id context) (wi_tenant_id intent)))
        WriteExecutionError "WRITE tenant binding mismatch";
  _ ← raise_if (negb (bool_decide (ctx_business_operation_id context
                                   = Some (wi_business_operation_id intent))))
        WriteExecutionError "WRITE business operation binding mismatch";
  _ ← raise_if (negb (bool_decide (ce_capability contract = WRITE))
                || negb (String.eqb (ce_tool_id contract) (wi_tool_id intent)))
        WriteExecutionError "canonical WRITE Tool binding mismatch";
  let durable := ir_evidence reservation in
  _ ← raise_if (negb (String.eqb (ie_tenant_id durable) (wi_tenant_id intent))
                || negb (String.eqb (ie_business_operation_id durable)
                                    (wi_business_operation_id intent))
                || negb (String.eqb (ie_write_node_id durable) (wi_node_id intent))
                || negb (String.eqb (ie_tool_id durable) (wi_tool_id intent))
                || negb (String.eqb (ie_contract_hash durable) (ce_contract_hash contract))
                || negb (String.eqb (ie_payload_hash durable) (wi_payload_hash intent)))
        WriteExecutionError "idempotency reservation binding mismatch";
  _ ← raise_if (negb (builder_precondition_matches pre intent contract))
        WriteExecutionError "business precondition binding mismatch";
  new_WriteCallRequest (MkWriteCallRequest (wi_tenant_id intent) (ctx_execution_id context)
    (wi_business_operation_id intent) invocation_id (wi_node_id intent) (wi_tool_ref intent)
    (wi_tool_id intent) (ce_contract_hash contract) (wi_canonical_arguments intent)
    (ie_idempotency_key durable) (wi_payload_hash intent) (wi_approval_id intent)
    approval_request_id (wi_write_intent_hash intent) pre trace_refs).

(** ** The durable request record *)

Record WriteAttemptRecord : Type := MkWriteAttemptRecord {
  wa_tenant_id : string;
  wa_execution_id : string;
  wa_business_operation_id : string;
  wa_invocation_id : string;
  wa_node_id : string;
  wa_tool_id : string;
  wa_contract_hash : string;
  wa_approval_request_id : string;
  wa_idempotency_key : string;
  wa_payload_hash : string;
  wa_write_intent_hash : string;
  wa_precondition_evidence_id : string;
  wa_requested_at : datetime
}.

Definition WriteAttemptRecord_post_init (r : WriteAttemptRecord) : result unit :=
  _ ← required_texts WriteExecutionError
        [("WriteAttemptRecord.tenant_id", wa_tenant_id r);
         ("WriteAttemptRecord.execution_id", wa_execution_id r);
         ("WriteAttemptRecord.business_operation_id", wa_business_operation_id r);
         ("WriteAttemptRecord.invocation_id", wa_invocation_id r);
         ("WriteAttemptRecord.node_id", wa_node_id r);
         ("WriteAttemptRecord.tool_id", wa_tool_id r);
         ("WriteAttemptRecord.approval_request_id", wa_approval_request_id r);
         ("WriteAttemptRecord.precondition_evidence_id", wa_precondition_evidence_id r)];
  _ ← write_sha256 (wa_contract_hash r) "WriteAttemptRecord.contract_hash";
  _ ← write_sha256 (wa_payload_hash r) "WriteAttemptRecord.payload_hash";
  _ ← write_sha256 (wa_write_intent_hash r) "WriteAttemptRecord.write_intent_hash";
  key ← write_text (wa_idempotency_key r) "WriteAttemptRecord.idempotency_key";
  _ ← raise_if (negb (is_idempotency_key key)) WriteExecutionError
        "WriteAttemptRecord.idempotency_key must be an idem SHA-256 value";
  _ ← write_utc (wa_requested_at r) "WriteAttemptRecord.requested_at";
  Ok tt.

Definition attempt_of (request : WriteCallRequest) (requested_at : datetime)
  : WriteAttemptRecord :=
  MkWriteAttemptRecord (wc_tenant_id request) (wc_execution_id request)
    (wc_business_operation_id request) (wc_invocation_id request) (wc_node_id request)
    (wc_tool_id request) (wc_contract_hash request) (wc_approval_request_id request)
    (wc_idempotency_key request) (wc_payload_hash request) (wc_write_intent_hash request)
    (bp_evidence_id (wc_business_preconditions request)) requested_at.

(** [WriteAttemptRecord.from_request] *)
Definition attempt_from_request (request : WriteCallRequest) (requested_at : datetime)
  : result WriteAttemptRecord :=
  let r := attempt_of request requested_at in
  _ ← WriteAttemptRecord_post_init r; Ok r.

Definition attempt_payload (r : WriteAttemptRecord) : json :=
  JObj [("tenant_id", JStr (wa_tenant_id r)); ("execution_id", JStr (wa_execution_id r));
        ("business_operation_id", JStr (wa_business_operation_id r));
        ("invocation_id", JStr (wa_invocation_id r)); ("node_id", JStr (wa_node_id r));
        ("tool_id", JStr (wa_tool_id r)); ("contract_hash", JStr (wa_contract_hash r));
        ("approval_request_id", JStr (wa_approval_request_id r));
        ("idempotency_key", JStr (wa_idempotency_key r));
        ("payload_hash", JStr (wa_payload_hash r));
        ("write_intent_hash", JStr (wa_write_intent_hash r));
        ("precondition_evidence_id", JStr (wa_precondition_evidence_id r));
        ("requested_at", JStr (datetime_isoformat (wa_requested_at r)))].

Definition attempt_record_hash (r : WriteAttemptRecord) : string :=
  sha256_ref (_WRITE_REQUESTED_DOMAIN ++ canonical_json (attempt_payload r)).

Record WriteRequestedReceipt : Type := MkWriteRequestedReceipt {
  rr_record_hash : string;
  rr_durable_ref : string;
  rr_persisted_at : datetime;
  rr_durable : bool
}.

Definition WriteRequestedReceipt_post_init (r : WriteRequestedReceipt) : result unit :=
  _ ← write_sha256 (rr_record_hash r) "WriteRequestedReceipt.record_hash";
  _ ← write_text (rr_durable_ref r) "WriteRequestedReceipt.durable_ref";
  _ ← write_utc (rr_persisted_at r) "WriteRequestedReceipt.persisted_at";
  Ok tt.

(** ** Ports and the history of their calls *)

Inductive event : Type :=
  | RecordRequested (record : WriteAttemptRecord)
  | ProviderCall (request : WriteCallRequest)
  | RecordOutcome (record : WriteOutcomeRecord).

Record WritePorts : Type := MkWritePorts {
  record_requested : list event -> WriteAttemptRecord -> result (reply WriteRequestedReceipt);
  provider_execute : list event -> WriteCallRequest -> result (reply WriteExecutionOutcome);
  record_outcome : list event -> WriteOutcomeRecord -> result (reply WriteOutcomeReceipt)
}.

Definition Writing := M (ExecutionContext * list event).

(** A port call: it is logged, and answered from the history before it. *)
Definition port_call {A} (answer : list event -> result A) (e : event) : Writing A :=
  fun '(c, h) => (answer h, (c, h ++ [e])).

Definition context : Writing ExecutionContext := fun s => (Ok s.1, s).

Definition update_context (f : ExecutionContext -> ExecutionContext) : Writing unit :=
  modify (fun '(c, h) => (f c, h)).

Definition expect_reply {A} (r : reply A) (cls : exn_class) (code message : string)
  : Writing A :=
  match r with Reply a => mret a | Malformed => lift (Err (Exn cls code message)) end.

Definition evidence_error (b : bool) (message : string) : Writing unit :=
  if b then lift (Err (Exn WriteEvidenceError "WRITE_REQUEST_EVIDENCE_INVALID" message))
  else mret tt.

Definition outcome_error (b : bool) (message : string) : Writing unit :=
  if b then lift (Err (Exn WriteOutcomeError "WRITE_OUTCOME_EVIDENCE_INVALID" message))
  else mret tt.

Definition mark_durable (k : CheckpointState) : CheckpointState :=
  MkCheckpointState (ck_checkpoint_version k) (ck_last_completed_node_id k)
    (ck_suspended_at_node_id k) (ck_trace_sequence k) (ck_approval_request_published k) true
    (ck_approval_request_ids_by_write_node k) (ck_write_intent_hashes_by_write_node k)
    (ck_payload_hashes_by_write_node k).

(** ** Outcomes *)

(** [WriteOutcomeIdentity.from_request] *)
Definition identity_of (r : WriteCallRequest) : WriteOutcomeIdentity :=
  MkWriteOutcomeIdentity (wc_tenant_id r) (wc_business_operation_id r) (wc_invocation_id r)
    (wc_node_id r) (wc_tool_id r) (wc_idempotency_key r) (wc_payload_hash r)
    (wc_approval_request_id r) (wc_write_intent_hash r).

Definition identity_from_request (r : WriteCallRequest) : result WriteOutcomeIdentity :=
  let i := identity_of r in _ ← WriteOutcomeIdentity_post_init i; Ok i.

Record WriteCommitDecision : Type := MkWriteCommitDecision {
  wd_execution_status : ExecutionStatus;
  wd_outcome : WriteExecutionOutcome;
  wd_write_summary : WriteSummary;
  wd_automatic_retry_allowed : bool;
  wd_reconciliation_required : bool
}.

Definition status_of_commit (s : CommitState) : ExecutionStatus :=
  match s with
  | COMMITTED => COMPLETED
  | NOT_COMMITTED => FAILED
  | UNKNOWN_COMMIT_STATE => RECONCILIATION_REQUIRED
  end.

Definition commit_error (b : bool) (message : string) : result unit :=
  if b then Err (Exn WriteOutcomeError "WRITE_OUTCOME_EVIDENCE_INVALID" message) else Ok tt.

Definition WriteCommitDecision_post_init (d : WriteCommitDecision) : result unit :=
  let state := ws_commit_state (wd_write_summary d) in
  _ ← commit_error (wd_automatic_retry_allowed d) "automatic WRITE retry is forbidden";
  _ ← commit_error (negb (Bool.eqb (wd_reconciliation_required d)
                                   (bool_decide (state = UNKNOWN_COMMIT_STATE))))
        "reconciliation flag does not match commit state";
  _ ← commit_error (negb (bool_decide (outcome_commit_state (wd_outcome d) = state)))
        "outcome and summary commit states differ";
  commit_error (negb (bool_decide (wd_execution_status d = status_of_commit state)))
    "execution status does not match commit state".

Definition new_WriteCommitDecision (d : WriteCommitDecision) : result WriteCommitDecision :=
  _ ← WriteCommitDecision_post_init d; Ok d.

(** [WriteOutcomeCoordinator._record] *)
Definition _record (requested_record_hash : string) (outcome : WriteExecutionOutcome)
    (recorded_at : datetime) : result WriteOutcomeRecord :=
  let '(reason_code, provider_transaction_id, business_reference, evidence_refs) :=
    match outcome with
    | WriteCommitted r => (None, wr_provider_transaction_id r,
                           Some (wr_business_reference r), wr_evidence_refs r)
    | WriteNotCommitted f | WriteCommitUnknown f =>
        (Some (wf_reason_code f), wf_provider_transaction_id f, None, wf_evidence_refs f)
    end in
  let r := MkWriteOutcomeRecord requested_record_hash (outcome_identity outcome)
    (outcome_commit_state outcome) reason_code provider_transaction_id business_reference
    evidence_refs recorded_at in
  _ ← WriteOutcomeRecord_post_init r; Ok r.

(** [CommitAwareWriteExecutor._uncertain] *)
Definition _uncertain (request : WriteCallRequest) (reason_code : string)
  : result WriteExecutionOutcome :=
  identity ← identity_from_request request;
  let o := WriteCommitUnknown (MkWriteFailure identity reason_code
    "provider outcome is uncertain; reconciliation is required" None
    (wc_trace_refs request)) in
  _ ← WriteExecutionOutcome_post_init o; Ok o.

(** What the executor makes of an invocation: the provider's outcome, or an
    uncertain one when there is none to trust. *)
Definition observe (request : WriteCallRequest)
    (invocation : result (reply WriteExecutionOutcome)) : result WriteExecutionOutcome :=
  match invocation with
  | Ok (Reply outcome) => Ok outcome
  | Ok Malformed => _uncertain request "PROVIDER_ACKNOWLEDGEMENT_MALFORMED"
  | Err e =>
      if isinstance_exn (ex_class e) ProviderInvocationUncertainError
      then _uncertain request (ex_code e)
      else Err e
  end.

Section Coordinators.
Context (ports : WritePorts).

(** [WriteExecutionCoordinator.execute] *)
Definition execute (request : WriteCallRequest) (decision : WriteGuardDecision)
    (requested_at : datetime) : Writing (reply WriteExecutionOutcome) :=
  _ ← lift (require_allowed decision);
  c ← context;
  _ ← fail_if (negb (String.eqb (wc_execution_id request) (ctx_execution_id c)))
        WriteExecutionError "WRITE execution identity mismatch";
  _ ← fail_if (negb (String.eqb (wc_tenant_id request) (ctx_tenant_id c)))
        WriteExecutionError "WRITE execution tenant mismatch";
  _ ← fail_if (negb (bool_decide (Some (wc_business_operation_id request)
                                  = ctx_business_operation_id c)))
        WriteExecutionError "WRITE execution business operation mismatch";
  record ← lift (attempt_from_request request requested_at);
  answer ← port_call (fun h => record_requested ports h record) (RecordRequested record);
  receipt ← expect_reply answer WriteEvidenceError "WRITE_REQUEST_EVIDENCE_INVALID"
              "WRITE_REQUESTED persistence returned an invalid receipt";
  _ ← evidence_error (negb (String.eqb (rr_record_hash receipt) (attempt_record_hash record)))
        "WRITE_REQUESTED receipt binding mismatch";
  _ ← evidence_error (negb (rr_durable receipt)) "WRITE_REQUESTED evidence is not durable";
  _ ← evidence_error (instant (rr_persisted_at receipt) <? instant (wa_requested_at record))%Z
        "WRITE_REQUESTED receipt predates the request";
  _ ← update_context (update_checkpoint mark_durable);
  try_except
    (port_call (fun h => provider_execute ports h request) (ProviderCall request))
    (fun c => isinstance_exn c CancelledError || isinstance_exn c Exception_)
    (fun e => lift (Err (uncertain_error (ex_class e)))).

(** [WriteOutcomeCoordinator.finalize] *)
Definition finalize (request : WriteCallRequest) (requested_record_hash : string)
    (outcome : WriteExecutionOutcome) (recorded_at : datetime)
  : Writing WriteCommitDecision :=
  expected_identity ← lift (identity_from_request request);
  _ ← outcome_error (negb (bool_decide (outcome_identity outcome = expected_identity)))
        "provider outcome identity mismatch";
  c ← context;
  _ ← outcome_error (negb (String.eqb (wc_execution_id request) (ctx_execution_id c)))
        "WRITE outcome execution mismatch";
  _ ← outcome_error (negb (String.eqb (ctx_tenant_id c) (wc_tenant_id request)))
        "WRITE outcome tenant mismatch";
  _ ← outcome_error (negb (bool_decide (ctx_business_operation_id c
                                        = Some (wc_business_operation_id request))))
        "WRITE outcome business operation mismatch";
  _ ← outcome_error
        (negb (bool_decide (keys_by_write_node (ctx_idempotency c) !! wc_node_id request
                            = Some (wc_idempotency_key request)))
         || negb (bool_decide (payload_hashes_by_write_node (ctx_idempotency c)
                                 !! wc_node_id request = Some (wc_payload_hash request))))
        "WRITE outcome idempotency state mismatch";
  record ← lift (_record requested_record_hash outcome recorded_at);
  answer ← port_call (fun h => record_outcome ports h record) (RecordOutcome record);
  receipt ← expect_reply answer WriteOutcomeError "WRITE_OUTCOME_EVIDENCE_INVALID"
              "outcome persistence returned an invalid receipt";
  _ ← outcome_error (negb (String.eqb (oc_record_hash receipt) (outcome_record_hash record)))
        "outcome receipt binding mismatch";
  _ ← outcome_error (instant (oc_persisted_at receipt) <? instant (or_recorded_at record))%Z
        "outcome receipt predates the outcome";
  entry ← lift (new_WriteJournalEntry record (oc_durable_ref receipt));
  _ ← update_context (fun c => set_writes (ctx_writes c ++ [entry]) c);
  summary ← lift (new_WriteSummary (outcome_commit_state outcome) (wc_tool_id request)
    (wc_node_id request) (wc_idempotency_key request) (wc_payload_hash request)
    (or_provider_transaction_id record) (or_business_reference record));
  lift (new_WriteCommitDecision (MkWriteCommitDecision
    (status_of_commit (outcome_commit_state outcome)) outcome summary false
    (bool_decide (outcome_commit_state outcome = UNKNOWN_COMMIT_STATE)))).

(** [CommitAwareWriteExecutor.execute] *)
Definition commit_aware_execute (request : WriteCallRequest) (decision : WriteGuardDecision)
    (requested_at recorded_at : datetime) : Writing WriteCommitDecision :=
  record ← lift (attempt_from_request request requested_at);
  outcome ← (fun s =>
    let '(invocation, s') := execute request decision requested_at s in
    (observe request invocation, s'));
  finalize request (attempt_record_hash record) outcome recorded_at.
End Coordinators.

(** ** The coordinators as nested conditions *)

Section Steps.
Context {A B : Type}.

Lemma lift_step (r : result A) (f : A -> Writing B) s :
  (lift r ≫= f) s = match r with Ok a => f a s | Err e => (Err e, s) end.
Proof. reflexivity. Qed.

Lemma context_step (f : ExecutionContext -> Writing B) c h :
  (context ≫= f) (c, h) = f c (c, h).
Proof. reflexivity. Qed.

Lemma fail_if_step b cls msg (f : unit -> Writing B) s :
  (fail_if b cls msg ≫= f) s = if b then (Err (Exn cls "" msg), s) else f tt s.
Proof. by destruct b. Qed.

Lemma evidence_step b msg (f : unit -> Writing B) s :
  (evidence_error b msg ≫= f) s
  = if b then (Err (Exn WriteEvidenceError "WRITE_REQUEST_EVIDENCE_INVALID" msg), s)
    else f tt s.
Proof. by destruct b. Qed.

Lemma outcome_step b msg (f : unit -> Writing B) s :
  (outcome_error b msg ≫= f) s
  = if b then (Err (Exn WriteOutcomeError "WRITE_OUTCOME_EVIDENCE_INVALID" msg), s)
    else f tt s.
Proof. by destruct b. Qed.

Lemma port_step (answer : list event -> result A) e (f : A -> Writing B) c h :
  (port_call answer e ≫= f) (c, h)
  = match answer h with Ok a => f a (c, h ++ [e]) | Err x => (Err x, (c, h ++ [e])) end.
Proof. reflexivity. Qed.

Lemma reply_step (r : reply A) cls code msg (f : A -> Writing B) s :
  (expect_reply r cls code msg ≫= f) s
  = match r with Reply a => f a s | Malformed => (Err (Exn cls code msg), s) end.
Proof. by destruct r. Qed.

Lemma update_step g (f : unit -> Writing B) c h :
  (update_context g ≫= f) (c, h) = f tt (g c, h).
Proof. reflexivity. Qed.
End Steps.

Tactic Notation "step" uconstr(equation) := rewrite equation; cbv beta.

(** What the evidence port must have answered before the provider is called. *)
Record durable_receipt (ports : WritePorts) (h : list event) (record : WriteAttemptRecord)
    : Prop := {
  dr_receipt : exists receipt,
    record_requested ports h record = Ok (Reply receipt)
    /\ rr_record_hash receipt = attempt_record_hash record
    /\ rr_durable receipt = true
    /\ (instant (wa_requested_at record) <= instant (rr_persisted_at receipt))%Z
}.

(** The execution a request belongs to. *)
Definition bound_to (request : WriteCallRequest) (c : ExecutionContext) : Prop :=
  wc_execution_id request = ctx_execution_id c /\ wc_tenant_id request = ctx_tenant_id c
  /\ ctx_business_operation_id c = Some (wc_business_operation_id request).

(** The answer of the provider, as [execute] passes it on. *)
Definition provider_answer (r : result (reply WriteExecutionOutcome))
  : result (reply WriteExecutionOutcome) :=
  match r with
  | Err e => if isinstance_exn (ex_class e) CancelledError
                || isinstance_exn (ex_class e) Exception_
             then Err (uncertain_error (ex_class e)) else Err e
  | r => r
  end.

(** The three ways an invocation can go. *)
Inductive Invocation (ports : WritePorts) (request : WriteCallRequest)
    (decision : WriteGuardDecision) (requested_at : datetime)
    (c : ExecutionContext) (h : list event)
  : result (reply WriteExecutionOutcome) -> ExecutionContext -> list event -> Prop :=
  | NotRequested e :
      Invocation ports request decision requested_at c h (Err e) c h
  | NotDurable e record :
      attempt_from_request request requested_at = Ok record ->
      gd_eligibility decision = ALLOWED ->
      Invocation ports request decision requested_at c h (Err e) c
        (h ++ [RecordRequested record])
  | Invoked record :
      attempt_from_request request requested_at = Ok record ->
      gd_eligibility decision = ALLOWED ->
      bound_to request c ->
      durable_receipt ports h record ->
      Invocation ports request decision requested_at c h
        (provider_answer (provider_execute ports (h ++ [RecordRequested record]) request))
        (update_checkpoint mark_durable c)
        (h ++ [RecordRequested record; ProviderCall request]).

Lemma require_allowed_iff d u : require_allowed d = Ok u <-> gd_eligibility d = ALLOWED.
Proof. destruct u. unfold require_allowed. by case_bool_decide. Qed.

Lemma execute_invocation ports request decision requested_at c h :
  let '(r, (c', h')) := execute ports request decision requested_at (c, h) in
  Invocation ports request decision requested_at c h r c' h'.
Proof.
  unfold execute. step lift_step.
  destruct (require_allowed decision) as [u|e] eqn:Hd; [| constructor].
  apply require_allowed_iff in Hd. step context_step. step fail_if_step.
  destruct (String.eqb_spec (wc_execution_id request) (ctx_execution_id c)) as [He|];
    cbn [negb]; [| constructor].
  step fail_if_step.
  destruct (String.eqb_spec (wc_tenant_id request) (ctx_tenant_id c)) as [Ht|];
    cbn [negb]; [| constructor].
  step fail_if_step.
  destruct (bool_decide_reflect (Some (wc_business_operation_id request)
    = ctx_business_operation_id c)) as [Hb|]; cbn [negb]; [| constructor].
  step lift_step.
  destruct (attempt_from_request request requested_at) as [record|e] eqn:Hr; [| constructor].
  step port_step.
  destruct (record_requested ports h record) as [answer|e] eqn:Hq; [| by constructor].
  step reply_step. destruct answer as [receipt|]; [| by constructor].
  step evidence_step.
  destruct (String.eqb_spec (rr_record_hash receipt) (attempt_record_hash record)) as [Hh|];
    cbn [negb]; [| by constructor].
  step evidence_step. destruct (rr_durable receipt) eqn:Hdur; cbn [negb]; [| by constructor].
  step evidence_step.
  destruct (Z.ltb_spec (instant (rr_persisted_at receipt)) (instant (wa_requested_at record)));
    [by constructor |].
  step update_step. unfold try_except, port_call. rewrite <- app_assoc. cbn [app].
  assert (Invocation ports request decision requested_at c h
    (provider_answer (provider_execute ports (h ++ [RecordRequested record]) request))
    (update_checkpoint mark_durable c)
    (h ++ [RecordRequested record; ProviderCall request])) as Hi.
  { constructor; [done | done | by repeat split | constructor; eauto]. }
  unfold provider_answer in Hi. destruct (provider_execute _ _ _) as [a|e]; [exact Hi |].
  by destruct (isinstance_exn (ex_class e) CancelledError || isinstance_exn (ex_class e) Exception_).
Qed.

(** ** Finalization *)

(** The record, the receipt and the journal entry of a finalized outcome. *)
Record finalized (ports : WritePorts) (request : WriteCallRequest) (hash : string)
    (outcome : WriteExecutionOutcome) (recorded_at : datetime) (c : ExecutionContext)
    (h : list event) (d : WriteCommitDecision) (record : WriteOutcomeRecord)
    (receipt : WriteOutcomeReceipt) : Prop := {
  fz_record : _record hash outcome recorded_at = Ok record;
  fz_receipt : record_outcome ports h record = Ok (Reply receipt);
  fz_hash : oc_record_hash receipt = outcome_record_hash record;
  fz_time : (instant (or_recorded_at record) <= instant (oc_persisted_at receipt))%Z;
  fz_status : wd_execution_status d = status_of_commit (outcome_commit_state outcome);
  fz_outcome : wd_outcome d = outcome;
  fz_summary : ws_commit_state (wd_write_summary d) = outcome_commit_state outcome
               /\ ws_node_id (wd_write_summary d) = wc_node_id request
               /\ ws_idempotency_key (wd_write_summary d) = wc_idempotency_key request
               /\ ws_payload_hash (wd_write_summary d) = wc_payload_hash request;
  fz_retry : wd_automatic_retry_allowed d = false;
  fz_reconcile : wd_reconciliation_required d
                 = bool_decide (outcome_commit_state outcome = UNKNOWN_COMMIT_STATE)
}.

(** Outcome and context a finalization accepts. *)
Definition acceptable (request : WriteCallRequest) (outcome : WriteExecutionOutcome)
    (c : ExecutionContext) : Prop :=
  identity_from_request request = Ok (outcome_identity outcome)
  /\ bound_to request c
  /\ keys_by_write_node (ctx_idempotency c) !! wc_node_id request
     = Some (wc_idempotency_key request)
  /\ payload_hashes_by_write_node (ctx_idempotency c) !! wc_node_id request
     = Some (wc_payload_hash request).

Inductive Finalization (ports : WritePorts) (request : WriteCallRequest) (hash : string)
    (outcome : WriteExecutionOutcome) (recorded_at : datetime)
    (c : ExecutionContext) (h : list event)
  : result WriteCommitDecision -> ExecutionContext -> list event -> Prop :=
  | NotRecorded e :
      (~ acceptable request outcome c \/ exists e', _record hash outcome recorded_at = Err e') ->
      Finalization ports request hash outcome recorded_at c h (Err e) c h
  | NotAcknowledged e record :
      acceptable request outcome c -> _record hash outcome recorded_at = Ok record ->
      Finalization ports request hash outcome recorded_at c h (Err e) c
        (h ++ [RecordOutcome record])
  | Finalized d record receipt :
      acceptable request outcome c ->
      finalized ports request hash outcome recorded_at c h d record receipt ->
      Finalization ports request hash outcome recorded_at c h (Ok d)
        (set_writes (ctx_writes c ++ [MkWriteJournalEntry record (oc_durable_ref receipt)]) c)
        (h ++ [RecordOutcome record]).

Lemma identity_from_request_Ok request i : identity_from_request request = Ok i ->
  i = identity_of request
  /\ Forall text_ok [wc_tool_id request; wc_node_id request; wc_idempotency_key request;
                     wc_payload_hash request].
Proof.
  unfold identity_from_request, WriteOutcomeIdentity_post_init. intros H.
  apply bind_Ok in H as (u & H & Hi). apply Ok_inj in Hi as <-. split; [done |].
  apply bind_Ok in H as (u1 & Ht%required_texts_iff & H).
  apply bind_Ok in H as (k & [_ Hk]%required_text_iff & H).
  apply bind_Ok in H as (u2 & _ & H). apply bind_Ok in H as (p & (_ & Hp & _)%sha256_text_iff & H).
  cbn [map snd] in Ht. rewrite !Forall_cons in Ht. cbn [wo_tenant_id wo_node_id wo_tool_id
    wo_idempotency_key wo_payload_hash identity_of] in *.
  rewrite !Forall_cons. naive_solver.
Qed.

Lemma _record_texts hash outcome at_ record : _record hash outcome at_ = Ok record ->
  match or_provider_transaction_id record with Some s => text_ok s | None => True end
  /\ match or_business_reference record with Some s => text_ok s | None => True end.
Proof.
  unfold _record. destruct (match outcome with WriteCommitted _ => _ | _ => _ end)
    as [[[reason tx] ref] refs].
  intros H. apply bind_Ok in H as (u & H & Hr). apply Ok_inj in Hr as <-.
  unfold WriteOutcomeRecord_post_init in H.
  apply bind_Ok in H as (u1 & _ & H). apply bind_Ok in H as (u2 & _ & H).
  apply bind_Ok in H as (u3 & [_ H3]%optional_text_iff & H).
  apply bind_Ok in H as (u4 & [_ H4]%optional_text_iff & H). done.
Qed.

Lemma new_WriteSummary_Ok state request record :
  Forall text_ok [wc_tool_id request; wc_node_id request; wc_idempotency_key request;
                  wc_payload_hash request] ->
  match or_provider_transaction_id record with Some s => text_ok s | None => True end ->
  match or_business_reference record with Some s => text_ok s | None => True end ->
  new_WriteSummary state (wc_tool_id request) (wc_node_id request)
    (wc_idempotency_key request) (wc_payload_hash request)
    (or_provider_transaction_id record) (or_business_reference record)
  = Ok (MkWriteSummary state (wc_tool_id request) (wc_node_id request)
          (wc_idempotency_key request) (wc_payload_hash request)
          (or_provider_transaction_id record) (or_business_reference record)).
Proof.
  intros Ht Htx Href. apply (bind_intro tt); [| done]. unfold WriteSummary_post_init.
  apply (bind_intro tt); [by apply required_texts_iff |].
  eapply bind_intro; [by apply optional_text_iff |].
  eapply bind_intro; [by apply optional_text_iff | done].
Qed.

Lemma new_WriteCommitDecision_Ok outcome summary :
  ws_commit_state summary = outcome_commit_state outcome ->
  new_WriteCommitDecision (MkWriteCommitDecision
    (status_of_commit (outcome_commit_state outcome)) outcome summary false
    (bool_decide (outcome_commit_state outcome = UNKNOWN_COMMIT_STATE)))
  = Ok (MkWriteCommitDecision
    (status_of_commit (outcome_commit_state outcome)) outcome summary false
    (bool_decide (outcome_commit_state outcome = UNKNOWN_COMMIT_STATE))).
Proof.
  intros H. apply (bind_intro tt); [| done]. unfold WriteCommitDecision_post_init.
  cbn [wd_write_summary wd_automatic_retry_allowed wd_reconciliation_required wd_outcome
       wd_execution_status]. rewrite H.
  by destruct (outcome_commit_state outcome).
Qed.

Lemma finalize_finalization ports request hash outcome recorded_at c h :
  let '(r, (c', h')) := finalize ports request hash outcome recorded_at (c, h) in
  Finalization ports request hash outcome recorded_at c h r c' h'.
Proof.
  unfold finalize. step lift_step.
  destruct (identity_from_request request) as [i|x] eqn:Hi;
    [| constructor; left; intros (Ha & _); congruence].
  step outcome_step. destruct (bool_decide_reflect (outcome_identity outcome = i)) as [Ho|Ho];
    cbn [negb]; [subst i | constructor; left; intros (Ha & _); congruence].
  step context_step.
  step outcome_step. destruct (String.eqb_spec (wc_execution_id request) (ctx_execution_id c)) as [E1|E1];
    cbn [negb]; [| constructor; left; intros (_ & (? & _) & _); congruence].
  step outcome_step. destruct (String.eqb_spec (ctx_tenant_id c) (wc_tenant_id request)) as [E2|E2];
    cbn [negb]; [| constructor; left; intros (_ & (_ & ? & _) & _); congruence].
  step outcome_step. destruct (bool_decide_reflect (ctx_business_operation_id c
    = Some (wc_business_operation_id request)));
    cbn [negb]; [| constructor; left; intros (_ & (_ & _ & ?) & _); congruence].
  step outcome_step. destruct (bool_decide_reflect (keys_by_write_node (ctx_idempotency c)
    !! wc_node_id request = Some (wc_idempotency_key request)));
    cbn [negb orb]; [| constructor; left; intros (_ & _ & ? & _); congruence].
  destruct (bool_decide_reflect (payload_hashes_by_write_node (ctx_idempotency c)
    !! wc_node_id request = Some (wc_payload_hash request)));
    cbn [negb]; [| constructor; left; intros (_ & _ & _ & ?); congruence].
  assert (acceptable request outcome c) as Ha by (repeat split; congruence).
  step lift_step. destruct (_record hash outcome recorded_at) as [record|x] eqn:Hr;
    [| constructor; right; eauto].
  step port_step. destruct (record_outcome ports h record) as [answer|x] eqn:Hq;
    [| by constructor].
  step reply_step. destruct answer as [receipt|]; [| by constructor].
  step outcome_step.
  destruct (String.eqb_spec (oc_record_hash receipt) (outcome_record_hash record)) as [Hh|];
    cbn [negb]; [| by constructor].
  step outcome_step.
  destruct (Z.ltb_spec (instant (oc_persisted_at receipt)) (instant (or_recorded_at record)));
    [by constructor |].
  step lift_step. unfold new_WriteJournalEntry.
  destruct (WriteJournalEntry_post_init _) as [u|x]; cbn [mbind result_bind]; [| by constructor].
  step update_step. step lift_step.
  destruct (identity_from_request_Ok _ _ Hi) as [_ Ht].
  destruct (_record_texts _ _ _ _ Hr) as [Htx Href].
  rewrite new_WriteSummary_Ok by done. unfold lift. rewrite new_WriteCommitDecision_Ok by done.
  constructor; [done | by constructor].
Qed.

(** ** The commit-aware executor *)

Lemma commit_aware_cases ports request decision requested_at recorded_at c h :
  let '(r, (c', h')) :=
    commit_aware_execute ports request decision requested_at recorded_at (c, h) in
  (exists e, attempt_from_request request requested_at = Err e
     /\ r = Err e /\ c' = c /\ h' = h)
  \/ exists record invocation c1 h1,
       attempt_from_request request requested_at = Ok record
       /\ Invocation ports request decision requested_at c h invocation c1 h1
       /\ match observe request invocation with
          | Err e => r = Err e /\ c' = c1 /\ h' = h1
          | Ok o => Finalization ports request (attempt_record_hash record) o recorded_at
                      c1 h1 r c' h'
          end.
Proof.
  unfold commit_aware_execute. step lift_step.
  destruct (attempt_from_request request requested_at) as [record|e]; [| left; by exists e].
  cbv beta delta [mbind M_bind].
  pose proof (execute_invocation ports request decision requested_at c h) as Hi.
  destruct (execute ports request decision requested_at (c, h)) as [invocation [c1 h1]].
  destruct (observe request invocation) as [o|e] eqn:Ho.
  - pose proof (finalize_finalization ports request (attempt_record_hash record) o
      recorded_at c1 h1) as Hf.
    destruct (finalize _ _ _ _ _ _) as [r [c' h']]. right.
    exists record, invocation, c1, h1. by rewrite Ho.
  - right. exists record, invocation, c1, h1. by rewrite Ho.
Qed.

(** What a finalization appends to the history: nothing, or one outcome. *)
Lemma finalization_history ports request hash o at_ c h r c' h' :
  Finalization ports request hash o at_ c h r c' h' ->
  h' = h \/ exists record, h' = h ++ [RecordOutcome record].
Proof. destruct 1; eauto. Qed.

Lemma observed_history ports request hash at_ invocation c1 h1 r c' h' :
  match observe request invocation with
  | Err e => r = Err e /\ c' = c1 /\ h' = h1
  | Ok o => Finalization ports request hash o at_ c1 h1 r c' h'
  end ->
  exists rest, h' = h1 ++ rest /\ forall q, ProviderCall q ∉ rest.
Proof.
  assert (forall q, ProviderCall q ∉ []) as Hnil by (intros q; apply not_elem_of_nil).
  destruct (observe request invocation) as [o|e].
  - intros [-> |[record ->]]%finalization_history.
    + exists []. by rewrite app_nil_r.
    + exists [RecordOutcome record]. split; [done |]. intros q. by rewrite list_elem_of_singleton.
  - intros (_ & _ & ->). exists []. by rewrite app_nil_r.
Qed.

Lemma provider_calls ports request decision requested_at recorded_at c h r c' h' :
  commit_aware_execute ports request decision requested_at recorded_at (c, h)
  = (r, (c', h')) ->
  exists events, h' = h ++ events
  /\ ((forall q, ProviderCall q ∉ events)
      \/ exists record rest,
           events = RecordRequested record :: ProviderCall request :: rest
           /\ (forall q, ProviderCall q ∉ rest)
           /\ attempt_from_request request requested_at = Ok record
           /\ gd_eligibility decision = ALLOWED
           /\ bound_to request c
           /\ durable_receipt ports h record).
Proof.
  intros E. pose proof (commit_aware_cases ports request decision requested_at recorded_at c h)
    as H. rewrite E in H. clear E.
  assert (forall q, ProviderCall q ∉ []) as Hnil by (intros q; apply not_elem_of_nil).
  destruct H as [(e & _ & _ & _ & ->)|(record & inv & c1 & h1 & Hrec & Hinv & H)].
  - exists []. split; [by rewrite app_nil_r | by left].
  - apply observed_history in H as (rest & -> & Hrest).
    destruct Hinv as [e|e record' Hr Hd|record' Hr Hd Hb Hdur].
    + exists rest. split; [done | by left].
    + exists (RecordRequested record' :: rest). split; [by rewrite <- app_assoc |]. left.
      intros q. rewrite elem_of_cons. intros [?|?]; [done | by apply (Hrest q)].
    + exists (RecordRequested record' :: ProviderCall request :: rest).
      split; [by rewrite <- app_assoc |]. right. exists record', rest. done.
Qed.

(** C1. Nothing is written without authority and durable evidence: whenever
    an execution calls the provider, it is for the given request, under an
    [ALLOWED] decision, in the execution, tenant and business operation the
    request is bound to, and only after the request record was persisted with
    a matching, durable receipt that does not predate it; and one execution
    calls the provider at most once, whatever the ports do. *)
Theorem provider_call_authorized ports request decision requested_at recorded_at c h r c' h' :
  commit_aware_execute ports request decision requested_at recorded_at (c, h)
  = (r, (c', h')) ->
  exists events, h' = h ++ events
  /\ ((forall q, ProviderCall q ∉ events)
      \/ exists record rest,
           events = RecordRequested record :: ProviderCall request :: rest
           /\ (forall q, ProviderCall q ∉ rest)
           /\ attempt_from_request request requested_at = Ok record
           /\ gd_eligibility decision = ALLOWED
           /\ bound_to request c
           /\ durable_receipt ports h record).
Proof. apply provider_calls. Qed.

Lemma _uncertain_state request reason o : _uncertain request reason = Ok o ->
  outcome_commit_state o = UNKNOWN_COMMIT_STATE.
Proof.
  unfold _uncertain. intros H. apply bind_Ok in H as (i & _ & H).
  apply bind_Ok in H as (u & _ & H). by apply Ok_inj in H as <-.
Qed.

(** An outcome is the provider's own reply, or it is unknown. *)
Lemma observe_trusted request invocation o : observe request invocation = Ok o ->
  invocation = Ok (Reply o) \/ outcome_commit_state o = UNKNOWN_COMMIT_STATE.
Proof.
  destruct invocation as [[o'|]|e]; cbn [observe].
  - intros [= ->]. by left.
  - intros H. apply _uncertain_state in H. by right.
  - destruct (isinstance_exn _ _); [intros H; apply _uncertain_state in H; by right | discriminate].
Qed.

Lemma provider_answer_reply r o : provider_answer r = Ok (Reply o) -> r = Ok (Reply o).
Proof. destruct r as [a|e]; cbn; [done |]. by destruct (_ || _). Qed.

Lemma invocation_writes ports request decision at_ c h inv c1 h1 :
  Invocation ports request decision at_ c h inv c1 h1 ->
  ctx_writes c1 = ctx_writes c /\ ctx_idempotency c1 = ctx_idempotency c
  /\ (bound_to request c <-> bound_to request c1).
Proof. by destruct 1. Qed.

(** C7. The executor never invents a commit and never retries: a decision it
    returns carries the commit state of its outcome, its execution status
    ([COMPLETED], [FAILED] or [RECONCILIATION_REQUIRED]), forbids automatic
    retry and requires reconciliation exactly when the state is unknown; and a
    state other than unknown is the provider's own reply to this request, with
    the identity of this request. So an exception, a cancellation, a timeout or
    a malformed reply can only end in [RECONCILIATION_REQUIRED]. *)
Theorem commit_aware_never_invents_commit ports request decision requested_at recorded_at
    c h d c' h' :
  commit_aware_execute ports request decision requested_at recorded_at (c, h)
  = (Ok d, (c', h')) ->
  let state := outcome_commit_state (wd_outcome d) in
  wd_automatic_retry_allowed d = false
  /\ (wd_reconciliation_required d = true <-> state = UNKNOWN_COMMIT_STATE)
  /\ wd_execution_status d = status_of_commit state
  /\ ws_commit_state (wd_write_summary d) = state
  /\ outcome_identity (wd_outcome d) = identity_of request
  /\ (state <> UNKNOWN_COMMIT_STATE ->
      exists record, attempt_from_request request requested_at = Ok record
        /\ provider_execute ports (h ++ [RecordRequested record]) request
           = Ok (Reply (wd_outcome d))).
Proof.
  intros E. pose proof (commit_aware_cases ports request decision requested_at recorded_at c h)
    as H. rewrite E in H. clear E.
  destruct H as [(e & _ & H & _)|(record & inv & c1 & h1 & Hrec & Hinv & H)]; [discriminate |].
  destruct (observe request inv) as [o|e] eqn:Ho; [| by destruct H as [? _]].
  inversion H as [| |d' rec receipt Ha Hf]; subst. destruct Hf. subst o. cbv zeta.
  rewrite fz_retry0, fz_reconcile0, fz_status0, bool_decide_eq_true.
  destruct fz_summary0 as (-> & _). do 4 (split; [done |]). split.
  { destruct Ha as (Hi & _). by destruct (identity_from_request_Ok _ _ Hi) as [-> _]. }
  intros Hs. destruct (observe_trusted _ _ _ Ho) as [-> |]; [| done].
  inversion Hinv as [| |record' Hr Hd Hb Hdur Hp]; subst.
  exists record'. split; [done |]. rewrite Hp. exact (provider_answer_reply _ _ Hp).
Qed.

(** The journal tells the truth: an execution that returns a decision
    appends exactly one entry to the context's journal, the outcome record that
    the outcome port acknowledged by its hash, naming the durable request
    record and the commit state of the decision; an execution that fails
    appends nothing. *)
Theorem commit_aware_journal ports request decision requested_at recorded_at c h r c' h' :
  commit_aware_execute ports request decision requested_at recorded_at (c, h)
  = (r, (c', h')) ->
  match r with
  | Err _ => ctx_writes c' = ctx_writes c
  | Ok d => exists entry attempt before receipt,
      ctx_writes c' = ctx_writes c ++ [entry]
      /\ h' = before ++ [RecordOutcome (je_record entry)]
      /\ record_outcome ports before (je_record entry) = Ok (Reply receipt)
      /\ oc_record_hash receipt = outcome_record_hash (je_record entry)
      /\ je_durable_ref entry = oc_durable_ref receipt
      /\ attempt_from_request request requested_at = Ok attempt
      /\ or_requested_record_hash (je_record entry) = attempt_record_hash attempt
      /\ or_identity (je_record entry) = identity_of request
      /\ or_commit_state (je_record entry) = outcome_commit_state (wd_outcome d)
  end.
Proof.
  intros E. pose proof (commit_aware_cases ports request decision requested_at recorded_at c h)
    as H. rewrite E in H. clear E.
  destruct H as [(e & _ & -> & -> & _)|(record & inv & c1 & h1 & Hrec & Hinv & H)]; [done |].
  apply invocation_writes in Hinv as (Hw & _ & _).
  destruct (observe request inv) as [o|e] eqn:Ho; [| by destruct H as (-> & -> & _)].
  inversion H as [| |d rec receipt (Hi & _) Hf]; subst; [done | done |].
  destruct Hf. subst o. destruct (identity_from_request_Ok _ _ Hi) as [Hid _].
  exists (MkWriteJournalEntry rec (oc_durable_ref receipt)), record, h1, receipt.
  cbn [ctx_writes set_writes je_record je_durable_ref]. rewrite Hw.
  unfold _record in fz_record0.
  destruct (match wd_outcome d with WriteCommitted _ => _ | _ => _ end) as [[[reason tx] ref] refs].
  apply bind_Ok in fz_record0 as (u & _ & Hr). apply Ok_inj in Hr as <-. done.
Qed.

(** ** Every admissible execution ends in a recorded decision *)

(** The request passed its constructor's checks. *)
Definition request_ok (r : WriteCallRequest) : Prop :=
  Forall text_ok [wc_tenant_id r; wc_execution_id r; wc_business_operation_id r;
                  wc_invocation_id r; wc_node_id r; wc_tool_ref r; wc_tool_id r;
                  wc_approval_id r; wc_approval_request_id r]
  /\ Forall (fun h => text_ok h /\ is_sha256_ref h = true)
       [wc_contract_hash r; wc_payload_hash r; wc_write_intent_hash r]
  /\ text_ok (wc_idempotency_key r) /\ is_idempotency_key (wc_idempotency_key r) = true
  /\ compute_payload_hash (wc_arguments r) = Ok (wc_payload_hash r)
  /\ forallb non_blank (wc_trace_refs r) = true
  /\ Clean (VTuple (map VStr (wc_trace_refs r))).

Lemma new_WriteCallRequest_Ok r0 r : new_WriteCallRequest r0 = Ok r -> request_ok r.
Proof.
  unfold new_WriteCallRequest. intros H.
  apply bind_Ok in H as ([] & Ht%required_texts_iff & H).
  apply bind_Ok in H as (x1 & (_ & H1)%sha256_text_iff & H).
  apply bind_Ok in H as (x2 & (_ & H2)%sha256_text_iff & H).
  apply bind_Ok in H as (x3 & (_ & H3)%sha256_text_iff & H).
  apply bind_Ok in H as (k & (-> & Hk)%required_text_iff & H).
  apply bind_Ok in H as ([] & Hi%raise_if_Ok & H).
  apply bind_Ok in H as (args & Ha & H). apply bind_Ok in H as (hash & Hh & H).
  apply bind_Ok in H as ([] & Hp%raise_if_Ok & H).
  apply bind_Ok in H as ([] & Hr%raise_if_Ok & H).
  apply bind_Ok in H as ([] & Hc & H). apply Ok_inj in H as <-.
  split_bool. rewrite String.eqb_eq in Hp. subst hash.
  split; [exact Ht |]. split; [by rewrite !Forall_cons |]. split; [exact Hk |].
  split; [exact Hi |]. split; [exact Hh |]. split; [exact Hr |].
  by apply (find_credential_path_none _ "$"), (ensure_Ok _ "WriteCallRequest.trace_refs").
Qed.

Lemma request_ok_identity r : request_ok r -> identity_from_request r = Ok (identity_of r).
Proof.
  intros (Ht & Hh & Hk & Hi & _). apply (bind_intro tt); [| done].
  rewrite !Forall_cons in Hh. rewrite !Forall_cons in Ht. unfold WriteOutcomeIdentity_post_init.
  apply (bind_intro tt).
  { apply required_texts_iff. cbn [map snd]. rewrite !Forall_cons, Forall_nil. cbn. tauto. }
  apply (bind_intro (wc_idempotency_key r)); [by apply required_text_iff |].
  rewrite Hi. apply (bind_intro tt); [done |].
  apply (bind_intro (wc_payload_hash r)); [apply sha256_text_iff; cbn; tauto |].
  apply (bind_intro (wc_write_intent_hash r)); [apply sha256_text_iff; cbn; tauto | done].
Qed.

Lemma request_ok_attempt r at_ : request_ok r ->
  text_ok (bp_evidence_id (wc_business_preconditions r)) -> dt_utcoffset at_ = Some 0%Z ->
  attempt_from_request r at_ = Ok (attempt_of r at_).
Proof.
  intros (Ht & Hh & Hk & Hi & _) He Hu. apply (bind_intro tt); [| done].
  rewrite !Forall_cons in Hh. rewrite !Forall_cons in Ht. unfold WriteAttemptRecord_post_init.
  apply (bind_intro tt).
  { apply required_texts_iff. cbn [map snd]. rewrite !Forall_cons, Forall_nil. cbn. tauto. }
  apply (bind_intro (wc_contract_hash r)); [apply sha256_text_iff; cbn; tauto |].
  apply (bind_intro (wc_payload_hash r)); [apply sha256_text_iff; cbn; tauto |].
  apply (bind_intro (wc_write_intent_hash r)); [apply sha256_text_iff; cbn; tauto |].
  apply (bind_intro (wc_idempotency_key r)); [by apply required_text_iff |].
  rewrite Hi. apply (bind_intro tt); [done |].
  apply (bind_intro at_); [by apply utc_instant_iff | done].
Qed.

Definition text_okb (s : string) : bool :=
  non_blank s && bool_decide (find_credential_path (VStr s) "$" = None).

Lemma text_okb_true s : text_okb s = true -> text_ok s.
Proof.
  unfold text_okb. intros H. split_bool. split; [done |].
  by apply (find_credential_path_none _ "$").
Qed.

Lemma evidence_refs_ok refs owner : _validate_evidence_refs refs owner = Ok tt <->
  forallb non_blank refs = true /\ Clean (VTuple (map VStr refs)).
Proof.
  unfold _validate_evidence_refs. rewrite bind_Ok. split.
  - intros ([] & Hr%raise_if_Ok & H). split_bool. split; [done |].
    by apply (find_credential_path_none _ "$"), (ensure_Ok _ (owner +:+ ".evidence_refs")).
  - intros [Hr Hc]. exists tt. rewrite Hr. split; [done |].
    by apply ensure_Ok, find_credential_path_none.
Qed.

Lemma request_ok_uncertain r reason : request_ok r -> text_ok reason ->
  _uncertain r reason = Ok (WriteCommitUnknown (MkWriteFailure (identity_of r) reason
    "provider outcome is uncertain; reconciliation is required" None (wc_trace_refs r))).
Proof.
  intros Hr Hreason. unfold _uncertain. rewrite (request_ok_identity r Hr).
  apply (bind_intro (identity_of r)); [done |]. apply (bind_intro tt); [| done].
  unfold WriteExecutionOutcome_post_init, WriteFailure_post_init.
  apply (bind_intro reason); [by apply required_text_iff |].
  eapply bind_intro.
  { apply required_text_iff. split; [reflexivity |]. apply text_okb_true. vm_compute. reflexivity. }
  apply (bind_intro None); [done |]. destruct Hr as (_ & _ & _ & _ & _ & Hn & Hc).
  by apply evidence_refs_ok.
Qed.

Lemma uncertain_reason_ok cls : text_ok (uncertain_reason cls).
Proof.
  apply text_okb_true. unfold uncertain_reason.
  destruct (isinstance_exn cls CancelledError), (isinstance_exn cls TimeoutError),
    (isinstance_exn cls ConnectionError); vm_compute; reflexivity.
Qed.

Lemma execute_invoked ports request decision requested_at c h record :
  gd_eligibility decision = ALLOWED -> bound_to request c ->
  attempt_from_request request requested_at = Ok record -> durable_receipt ports h record ->
  execute ports request decision requested_at (c, h)
  = (provider_answer (provider_execute ports (h ++ [RecordRequested record]) request),
     (update_checkpoint mark_durable c, h ++ [RecordRequested record; ProviderCall request])).
Proof.
  intros Hd (He & Ht & Hb) Hr [(receipt & Hq & Hh & Hdur & Htime)]. unfold execute.
  step lift_step. rewrite (proj2 (require_allowed_iff decision tt) Hd).
  step context_step. step fail_if_step. rewrite He, String.eqb_refl. cbn [negb].
  step fail_if_step. rewrite Ht, String.eqb_refl. cbn [negb].
  step fail_if_step. rewrite Hb, bool_decide_eq_true_2 by done. cbn [negb].
  step lift_step. rewrite Hr. step port_step. rewrite Hq. step reply_step.
  step evidence_step. rewrite Hh, String.eqb_refl. cbn [negb].
  step evidence_step. rewrite Hdur. cbn [negb].
  step evidence_step. rewrite (proj2 (Z.ltb_ge _ _) Htime). step update_step.
  unfold try_except, port_call, provider_answer. rewrite <- app_assoc. cbn [app].
  destruct (provider_execute _ _ _) as [a|e]; [done |]. by destruct (_ || _).
Qed.

Lemma finalize_done ports request hash outcome recorded_at c h record receipt :
  acceptable request outcome c -> _record hash outcome recorded_at = Ok record ->
  record_outcome ports h record = Ok (Reply receipt) ->
  oc_record_hash receipt = outcome_record_hash record ->
  (instant (or_recorded_at record) <= instant (oc_persisted_at receipt))%Z ->
  text_ok (oc_durable_ref receipt) ->
  exists d c', finalize ports request hash outcome recorded_at (c, h)
               = (Ok d, (c', h ++ [RecordOutcome record])).
Proof.
  intros (Hi & (He & Ht & Hb) & Hk & Hp) Hr Hq Hh Htime Href. unfold finalize.
  step lift_step. rewrite Hi. step outcome_step. rewrite bool_decide_eq_true_2 by done.
  cbn [negb]. step context_step. step outcome_step. rewrite He, String.eqb_refl. cbn [negb].
  step outcome_step. rewrite Ht, String.eqb_refl. cbn [negb].
  step outcome_step. rewrite bool_decide_eq_true_2 by done. cbn [negb].
  step outcome_step. rewrite !bool_decide_eq_true_2 by done. cbn [negb orb].
  step lift_step. rewrite Hr. step port_step. rewrite Hq. step reply_step.
  step outcome_step. rewrite Hh, String.eqb_refl. cbn [negb].
  step outcome_step. rewrite (proj2 (Z.ltb_ge _ _) Htime). step lift_step.
  assert (new_WriteJournalEntry record (oc_durable_ref receipt)
          = Ok (MkWriteJournalEntry record (oc_durable_ref receipt))) as ->.
  { apply (bind_intro tt); [| done].
    apply (bind_intro (oc_durable_ref receipt)); [by apply required_text_iff | done]. }
  step update_step. step lift_step.
  destruct (identity_from_request_Ok _ _ Hi) as [_ Hts].
  destruct (_record_texts _ _ _ _ Hr) as [Htx Hbr].
  rewrite new_WriteSummary_Ok by done. unfold lift. rewrite new_WriteCommitDecision_Ok by done.
  eauto.
Qed.

Lemma _record_Ok hash outcome at_ :
  text_ok hash -> is_sha256_ref hash = true -> dt_utcoffset at_ = Some 0%Z ->
  WriteExecutionOutcome_post_init outcome = Ok tt ->
  exists record, _record hash outcome at_ = Ok record.
Proof.
  intros Hh Hs Hu Ho. unfold _record.
  assert (forall r, or_requested_record_hash r = hash -> or_recorded_at r = at_ ->
    match or_reason_code r with Some s => text_ok s | None => True end ->
    match or_provider_transaction_id r with Some s => text_ok s | None => True end ->
    match or_business_reference r with Some s => text_ok s | None => True end ->
    forallb non_blank (or_evidence_refs r) = true ->
    Clean (VTuple (map VStr (or_evidence_refs r))) ->
    WriteOutcomeRecord_post_init r = Ok tt) as Hmk.
  { intros r Eh Et H1 H2 H3 H4 H5. unfold WriteOutcomeRecord_post_init. rewrite Eh, Et.
    apply (bind_intro hash); [by apply sha256_text_iff |].
    eapply bind_intro; [by apply optional_text_iff |].
    eapply bind_intro; [by apply optional_text_iff |].
    eapply bind_intro; [by apply optional_text_iff |].
    apply (bind_intro tt); [by apply evidence_refs_ok |].
    apply (bind_intro at_); [by apply utc_instant_iff | done]. }
  destruct outcome as [r|f|f]; cbn [WriteExecutionOutcome_post_init] in Ho.
  - apply bind_Ok in Ho as (b & [-> Hb]%required_text_iff & Ho).
    apply bind_Ok in Ho as (t & [_ Ht]%optional_text_iff & Ho).
    apply bind_Ok in Ho as (u & _ & [Hn Hc]%evidence_refs_ok).
    eexists. apply (bind_intro tt); [by apply Hmk | reflexivity].
  - apply bind_Ok in Ho as (b & [-> Hb]%required_text_iff & Ho).
    apply bind_Ok in Ho as (m & _ & Ho).
    apply bind_Ok in Ho as (t & [_ Ht]%optional_text_iff & [Hn Hc]%evidence_refs_ok).
    eexists. apply (bind_intro tt); [by apply Hmk | reflexivity].
  - apply bind_Ok in Ho as (b & [-> Hb]%required_text_iff & Ho).
    apply bind_Ok in Ho as (m & _ & Ho).
    apply bind_Ok in Ho as (t & [_ Ht]%optional_text_iff & [Hn Hc]%evidence_refs_ok).
    eexists. apply (bind_intro tt); [by apply Hmk | reflexivity].
Qed.

(** Evidence ports that do their work; a provider that replies, fails with an
    ordinary exception or is cancelled, and whose replies are for the request. *)
Record dependable (ports : WritePorts) (request : WriteCallRequest) : Prop := {
  dp_evidence : forall h record, durable_receipt ports h record;
  dp_outcome : forall h record, exists receipt,
    record_outcome ports h record = Ok (Reply receipt)
    /\ oc_record_hash receipt = outcome_record_hash record
    /\ (instant (or_recorded_at record) <= instant (oc_persisted_at receipt))%Z
    /\ text_ok (oc_durable_ref receipt);
  dp_provider : forall h,
    match provider_execute ports h request with
    | Ok (Reply o) => outcome_identity o = identity_of request
                      /\ WriteExecutionOutcome_post_init o = Ok tt
    | Ok Malformed => True
    | Err e => isinstance_exn (ex_class e) CancelledError
               || isinstance_exn (ex_class e) Exception_ = true
    end
}.

(** The commit state a provider's answer stands for. *)
Definition answered_state (r : result (reply WriteExecutionOutcome)) : CommitState :=
  match r with Ok (Reply o) => outcome_commit_state o | _ => UNKNOWN_COMMIT_STATE end.

Lemma observe_total ports request h : request_ok request -> dependable ports request ->
  exists o, observe request (provider_answer (provider_execute ports h request)) = Ok o
    /\ outcome_identity o = identity_of request
    /\ WriteExecutionOutcome_post_init o = Ok tt
    /\ outcome_commit_state o = answered_state (provider_execute ports h request).
Proof.
  intros Hr Hp. pose proof (dp_provider _ _ Hp h) as H.
  assert (forall reason, text_ok reason -> exists o, _uncertain request reason = Ok o
    /\ outcome_identity o = identity_of request
    /\ WriteExecutionOutcome_post_init o = Ok tt
    /\ outcome_commit_state o = UNKNOWN_COMMIT_STATE) as Hu.
  { intros reason Hreason. pose proof (request_ok_uncertain request reason Hr Hreason) as E.
    eexists. split; [exact E |]. split; [done |]. split; [| done].
    unfold _uncertain in E. apply bind_Ok in E as (i & _ & E).
    apply bind_Ok in E as ([] & E' & E). apply Ok_inj in E. by rewrite <- E. }
  destruct (provider_execute ports h request) as [[o|]|e]; cbn [provider_answer observe answered_state].
  - destruct H as [? ?]. by exists o.
  - apply Hu. apply text_okb_true. vm_compute. reflexivity.
  - rewrite H. cbn [observe uncertain_error ex_class ex_code].
    apply Hu, uncertain_reason_ok.
Qed.

(** Every admissible execution ends in a recorded decision: for a
    well-formed request of this execution under an [ALLOWED] decision, with the
    node's idempotency reserved and dependable evidence ports, the executor
    returns a decision whatever the provider does (commit, refusal, timeout,
    lost connection, cancellation, garbage), and its commit state is the
    provider's, or unknown when the provider gave none. *)
Theorem commit_aware_total ports request decision requested_at recorded_at c h :
  request_ok request -> text_ok (bp_evidence_id (wc_business_preconditions request)) ->
  text_ok (attempt_record_hash (attempt_of request requested_at)) ->
  dt_utcoffset requested_at = Some 0%Z -> dt_utcoffset recorded_at = Some 0%Z ->
  gd_eligibility decision = ALLOWED -> bound_to request c ->
  keys_by_write_node (ctx_idempotency c) !! wc_node_id request
    = Some (wc_idempotency_key request) ->
  payload_hashes_by_write_node (ctx_idempotency c) !! wc_node_id request
    = Some (wc_payload_hash request) ->
  dependable ports request ->
  exists d s, commit_aware_execute ports request decision requested_at recorded_at (c, h)
    = (Ok d, s)
    /\ wd_execution_status d = status_of_commit (answered_state (provider_execute ports
         (h ++ [RecordRequested (attempt_of request requested_at)]) request)).
Proof.
  intros Hr Hev Hhash Hu1 Hu2 Hd Hb Hk Hp Hdep.
  set (h1 := h ++ [RecordRequested (attempt_of request requested_at)]).
  pose proof (request_ok_attempt request requested_at Hr Hev Hu1) as Ha.
  destruct (observe_total ports request h1 Hr Hdep) as (o & Ho & Hid & Hpi & Hs).
  destruct (_record_Ok _ o recorded_at Hhash (sha256_ref_is_ref _) Hu2 Hpi) as (rec & Hrec).
  set (h2 := h ++ [RecordRequested (attempt_of request requested_at); ProviderCall request]).
  destruct (dp_outcome _ _ Hdep h2 rec) as (receipt & Hq & Hh & Ht & Href).
  assert (acceptable request o (update_checkpoint mark_durable c)) as Hacc.
  { split; [rewrite Hid; by apply request_ok_identity |]. split; [exact Hb | by split]. }
  destruct (finalize_done ports request _ o recorded_at (update_checkpoint mark_durable c) h2
    rec receipt Hacc Hrec Hq Hh Ht Href) as (d & c' & Hf).
  exists d, (c', h2 ++ [RecordOutcome rec]).
  assert (commit_aware_execute ports request decision requested_at recorded_at (c, h)
          = (Ok d, (c', h2 ++ [RecordOutcome rec]))) as E.
  { unfold commit_aware_execute. step lift_step. rewrite Ha. cbv beta delta [mbind M_bind].
    rewrite (execute_invoked _ _ _ _ _ _ _ Hd Hb Ha (dp_evidence _ _ Hdep h _)).
    fold h1 h2. by rewrite Ho. }
  split; [exact E |]. rewrite <- Hs.
  pose proof (finalize_finalization ports request (attempt_record_hash
    (attempt_of request requested_at)) o recorded_at (update_checkpoint mark_durable c) h2) as Hfin.
  rewrite Hf in Hfin. inversion Hfin as [| |d' rec' receipt' _ Hz]; subst.
  exact (fz_status _ _ _ _ _ _ _ _ _ _ Hz).
Qed.

(** The executor checks the idempotency reservation only after the
    provider was called: for a durably requested WRITE whose node has no
    matching reservation in the context, the provider is called and the
    execution then fails without any outcome record, even when the provider
    committed. *)
Theorem unreserved_commit_unrecorded ports request decision requested_at recorded_at c h record :
  gd_eligibility decision = ALLOWED -> bound_to request c ->
  attempt_from_request request requested_at = Ok record -> durable_receipt ports h record ->
  keys_by_write_node (ctx_idempotency c) !! wc_node_id request
    <> Some (wc_idempotency_key request) ->
  exists e c', commit_aware_execute ports request decision requested_at recorded_at (c, h)
    = (Err e, (c', h ++ [RecordRequested record; ProviderCall request]))
    /\ ctx_writes c' = ctx_writes c.
Proof.
  intros Hd Hb Hr Hdur Hk. unfold commit_aware_execute. step lift_step. rewrite Hr.
  cbv beta delta [mbind M_bind]. rewrite (execute_invoked _ _ _ _ _ _ _ Hd Hb Hr Hdur).
  destruct (observe request _) as [o|e]; [| by exists e, (update_checkpoint mark_durable c)].
  set (h2 := h ++ [RecordRequested record; ProviderCall request]).
  pose proof (finalize_finalization ports request (attempt_record_hash record) o recorded_at
    (update_checkpoint mark_durable c) h2) as Hf.
  destruct (finalize _ _ _ _ _ _) as [r [c' h']].
  inversion Hf as [e Hn|e rec Ha|d rec receipt Ha]; subst;
    [by exists e, (update_checkpoint mark_durable c) | |];
    destruct Ha as (_ & _ & Ha & _); by apply Hk in Ha.
Qed.

(** ** A concrete execution: the provider times out *)

Definition example_contract_evidence : WriteContractEvidence := Eval vm_compute in
  MkWriteContractEvidence "erp.create_po" (contract_hash example_write_contract) WRITE R3 true.

Definition example_precondition : BusinessPreconditionEvidence := Eval vm_compute in
  MkBusinessPreconditionEvidence "pre-1" "tenant-1" "op-1" "n-write" "erp.create_po"
    (contract_hash example_write_contract) (wi_payload_hash example_intent)
    (wi_write_intent_hash example_intent) ETAG "etag-1" (utc 1000) (utc 9000) true.

Definition example_reserved_context : ExecutionContext :=
  record_reservation "n-write" example_record example_write_context.

Definition example_call_request : WriteCallRequest := Eval vm_compute in
  from_result (MkWriteCallRequest "" "" "" "" "" "" "" "" [] "" "" "" "" "" example_precondition [])
    (build_call_request example_intent example_reserved_context example_contract_evidence
       (MkIdempotencyReservation ID_CREATED example_record None) "apr-1" "inv-1"
       example_precondition ["trace-1"]).

Lemma example_call_request_ok : request_ok example_call_request.
Proof.
  assert (build_call_request example_intent example_reserved_context example_contract_evidence
       (MkIdempotencyReservation ID_CREATED example_record None) "apr-1" "inv-1"
       example_precondition ["trace-1"] = Ok example_call_request) as H
    by (vm_compute; reflexivity).
  unfold build_call_request in H. do 5 apply bind_Ok in H as (? & _ & H).
  exact (new_WriteCallRequest_Ok _ _ H).
Qed.

Definition allowed : WriteGuardDecision := MkWriteGuardDecision ALLOWED None.

(** Evidence ports that acknowledge every record, and a given provider. *)
Definition acknowledging (provider : result (reply WriteExecutionOutcome)) : WritePorts :=
  MkWritePorts
    (fun _ r => Ok (Reply (MkWriteRequestedReceipt (attempt_record_hash r) "ref-1"
                             (wa_requested_at r) true)))
    (fun _ _ => provider)
    (fun _ r => Ok (Reply (MkWriteOutcomeReceipt (outcome_record_hash r) "ref-2"
                             (or_recorded_at r)))).

Definition timeout_ports : WritePorts := acknowledging (raise TimeoutError "timed out").

Lemma acknowledging_durable provider h r : durable_receipt (acknowledging provider) h r.
Proof. constructor. eexists. split; [reflexivity |]. repeat split. cbn. lia. Qed.

Lemma timeout_dependable request : dependable timeout_ports request.
Proof.
  constructor.
  - intros h r. apply acknowledging_durable.
  - intros h r. eexists. split; [reflexivity |]. split; [reflexivity |].
    split; [cbn; lia |]. apply text_okb_true. vm_compute. reflexivity.
  - intros h. reflexivity.
Qed.

Lemma example_bound : bound_to example_call_request example_reserved_context.
Proof. repeat split. Qed.

Lemma commit_aware_total_witness :
  exists d s, commit_aware_execute timeout_ports example_call_request allowed (utc 3000)
      (utc 4000) (example_reserved_context, []) = (Ok d, s)
    /\ wd_execution_status d = RECONCILIATION_REQUIRED.
Proof.
  apply (commit_aware_total timeout_ports example_call_request allowed (utc 3000) (utc 4000)
    example_reserved_context []).
  - exact example_call_request_ok.
  - apply text_okb_true. vm_compute. reflexivity.
  - apply text_okb_true. vm_compute. reflexivity.
  - reflexivity.
  - reflexivity.
  - reflexivity.
  - exact example_bound.
  - reflexivity.
  - reflexivity.
  - apply timeout_dependable.
Defined.

Definition example_decision : result WriteCommitDecision := Eval vm_compute in
  fst (commit_aware_execute timeout_ports example_call_request allowed (utc 3000)
         (utc 4000) (example_reserved_context, [])).

Lemma example_run : exists d c' h',
  commit_aware_execute timeout_ports example_call_request allowed (utc 3000)
    (utc 4000) (example_reserved_context, []) = (Ok d, (c', h'))
  /\ Ok d = example_decision.
Proof.
  assert (fst (commit_aware_execute timeout_ports example_call_request allowed (utc 3000)
         (utc 4000) (example_reserved_context, [])) = example_decision) as H
    by (vm_compute; reflexivity).
  destruct (commit_aware_execute _ _ _ _ _ _) as [r [c' h']]. cbn [fst] in H. subst r.
  unfold example_decision. eauto 8.
Qed.

Lemma commit_aware_never_invents_commit_witness :
  exists d, Ok d = example_decision /\ wd_automatic_retry_allowed d = false.
Proof.
  destruct example_run as (d & c' & h' & E & Ed). exists d. split; [exact Ed |].
  exact (proj1 (commit_aware_never_invents_commit _ _ _ _ _ _ _ _ _ _ E)).
Defined.

Lemma provider_call_authorized_witness :
  exists d c' h' events, commit_aware_execute timeout_ports example_call_request allowed
      (utc 3000) (utc 4000) (example_reserved_context, []) = (Ok d, (c', h'))
    /\ h' = [] ++ events.
Proof.
  destruct example_run as (d & c' & h' & E & _). exists d, c', h'.
  destruct (provider_call_authorized _ _ _ _ _ _ _ _ _ _ E) as (events & H & _).
  exists events. split; [exact E | exact H].
Defined.

Lemma commit_aware_journal_witness :
  exists c' entry, ctx_writes c' = ctx_writes example_reserved_context ++ [entry].
Proof.
  destruct example_run as (d & c' & h' & E & _).
  destruct (commit_aware_journal _ _ _ _ _ _ _ _ _ _ E) as (entry & _ & _ & _ & H & _).
  exists c', entry. exact H.
Defined.

Lemma unreserved_commit_unrecorded_witness :
  exists e c', commit_aware_execute timeout_ports example_call_request allowed (utc 3000)
      (utc 4000) (example_write_context, [])
    = (Err e, (c', [] ++ [RecordRequested (attempt_of example_call_request (utc 3000));
                          ProviderCall example_call_request])).
Proof.
  destruct (unreserved_commit_unrecorded timeout_ports example_call_request allowed (utc 3000)
    (utc 4000) example_write_context [] (attempt_of example_call_request (utc 3000)))
    as (e & c' & H & _).
  - reflexivity.
  - repeat split.
  - vm_compute. reflexivity.
  - apply acknowledging_durable.
  - discriminate.
  - exists e, c'. exact H.
Defined.
