(* ===== verification/Verification.v ===== *)
(** * Post-WRITE verification ([src/nsl/verification.py])

    After a committed WRITE the kernel may read back the business record. The
    reading port is foreign: it answers from the requests made before. What it
    says, or fails to say, becomes a [VerificationResult]; the WRITE stays
    committed whatever happens. *)

From S2P Require Import Prelude Digest Json Core DataProtection Ir WriteRecords RuntimeModels.
From S2P Require Import Tools WriteIntent Idempotency WriteExecution Restoration.

Notation verification_text := (required_text VerificationError).
Notation verification_optional := (optional_text VerificationError).

(** ** Requests and observations *)

Record VerificationRequest : Type := MkVerificationRequest {
  vq_identity : WriteOutcomeIdentity;
  vq_verification_tool_id : string;
  vq_business_reference : string;
  vq_provider_transaction_id : option string;
  vq_reference_schema : option TypeRef;
  vq_consistency_hint : option string
}.

Definition VerificationRequest_post_init (q : VerificationRequest) : result unit :=
  _ ← verification_text (vq_verification_tool_id q) "verification_tool_id";
  _ ← verification_text (vq_business_reference q) "business_reference";
  _ ← verification_optional (vq_provider_transaction_id q) "provider_transaction_id";
  _ ← verification_optional (vq_consistency_hint q) "consistency_hint";
  Ok tt.

Definition verification_payload (q : VerificationRequest) : json :=
  let i := vq_identity q in
  JObj [("tenant_id", JStr (wo_tenant_id i));
        ("business_operation_id", JStr (wo_business_operation_id i));
        ("invocation_id", JStr (wo_invocation_id i)); ("node_id", JStr (wo_node_id i));
        ("write_tool_id", JStr (wo_tool_id i));
        ("idempotency_key", JStr (wo_idempotency_key i));
        ("payload_hash", JStr (wo_payload_hash i));
        ("approval_request_id", JStr (wo_approval_request_id i));
        ("write_intent_hash", JStr (wo_write_intent_hash i));
        ("verification_tool_id", JStr (vq_verification_tool_id q));
        ("business_reference", JStr (vq_business_reference q));
        ("provider_transaction_id", json_opt (vq_provider_transaction_id q));
        ("reference_schema",
           match vq_reference_schema q with None => JNull | Some t => type_to_data t end);
        ("consistency_hint", json_opt (vq_consistency_hint q))].

Definition _VERIFY_DOMAIN : list ascii := hash_domain "NSL-POST-WRITE-VERIFY-V1".

Definition verification_request_bytes (q : VerificationRequest) : list ascii :=
  _VERIFY_DOMAIN ++ canonical_json (verification_payload q).

(** [VerificationRequest.request_hash] *)
Definition verification_request_hash (q : VerificationRequest) : string :=
  sha256_ref (verification_request_bytes q).

Record VerificationObservation : Type := MkVerificationObservation {
  vo_request_hash : string;
  vo_business_reference : string;
  vo_matched : bool;
  vo_evidence_ref : string;
  vo_observed_at : datetime;
  vo_reason_code : option string
}.

Definition VerificationObservation_post_init (o : VerificationObservation) : result unit :=
  _ ← sha256_text VerificationError (vo_request_hash o) "request_hash";
  _ ← verification_text (vo_business_reference o) "business_reference";
  _ ← verification_text (vo_evidence_ref o) "evidence_ref";
  _ ← utc_instant VerificationError (vo_observed_at o) "observed_at";
  _ ← verification_optional (vo_reason_code o) "reason_code";
  _ ← raise_if (vo_matched o && negb (bool_decide (vo_reason_code o = None))) VerificationError
        "matched verification cannot contain a failure reason";
  raise_if (negb (vo_matched o) && bool_decide (vo_reason_code o = None)) VerificationError
    "failed verification must contain a reason_code".

(** ** Results *)

Record VerificationResult : Type := MkVerificationResult {
  vr_identity : WriteOutcomeIdentity;
  vr_commit_state : CommitState;
  vr_status : VerificationStatus;
  vr_business_reference : string;
  vr_verification_tool_id : option string;
  vr_reason_code : option string;
  vr_evidence_ref : option string;
  vr_observed_at : option datetime
}.

#[export] Instance VerificationResult_eq_dec : EqDecision VerificationResult.
Proof. solve_decision. Defined.

Definition is_none {A} (o : option A) : bool :=
  match o with None => true | Some _ => false end.

(** The clauses on the status, with the early [return]s of [__post_init__]. *)
Definition verification_evidence_rules (r : VerificationResult) : result unit :=
  match vr_status r with
  | V_NOT_REQUESTED =>
      raise_if (negb (is_none (vr_verification_tool_id r) && is_none (vr_reason_code r)
                      && is_none (vr_evidence_ref r) && is_none (vr_observed_at r)))
        VerificationError "NOT_REQUESTED verification cannot contain outcome evidence"
  | status =>
      _ ← raise_if (is_none (vr_verification_tool_id r)) VerificationError
            "requested verification requires verification_tool_id";
      match status with
      | VERIFIED =>
          raise_if (negb (is_none (vr_reason_code r)) || is_none (vr_evidence_ref r)
                    || is_none (vr_observed_at r)) VerificationError
            "VERIFIED requires evidence and no failure reason"
      | _ => raise_if (is_none (vr_reason_code r)) VerificationError
               "FAILED or UNKNOWN verification requires reason_code"
      end
  end.

Definition VerificationResult_post_init (r : VerificationResult) : result unit :=
  _ ← raise_if (negb (bool_decide (vr_commit_state r = COMMITTED))) VerificationError
        "post-WRITE verification cannot change COMMITTED state";
  _ ← verification_text (vr_business_reference r) "business_reference";
  _ ← verification_optional (vr_verification_tool_id r) "verification_tool_id";
  _ ← verification_optional (vr_reason_code r) "reason_code";
  _ ← verification_optional (vr_evidence_ref r) "evidence_ref";
  _ ← (match vr_observed_at r with
       | Some d => _ ← utc_instant VerificationError d "observed_at"; Ok tt
       | None => Ok tt
       end);
  verification_evidence_rules r.

Definition new_VerificationResult (r : VerificationResult) : result VerificationResult :=
  _ ← VerificationResult_post_init r; Ok r.

(** [VerificationResult.to_summary] *)
Definition verification_to_summary (r : VerificationResult) : result VerificationSummary :=
  let s := MkVerificationSummary (vr_status r) (vr_reason_code r) (vr_evidence_ref r) in
  _ ← VerificationSummary_post_init s; Ok s.

(** ** The verifier *)

Notation verification_port :=
  (list VerificationRequest -> VerificationRequest -> result (reply VerificationObservation)).

Definition Verifying := M (list VerificationRequest).

Definition read_port (port : verification_port) (q : VerificationRequest)
  : Verifying (reply VerificationObservation) :=
  fun h => (port h q, h ++ [q]).

(** [_validate_inputs] *)
Definition verify_validate_inputs (result_ : WriteResultEnvelope) (contract : ToolContract)
    (context : ExecutionContext) : result unit :=
  let i := wr_identity result_ in
  _ ← raise_if (negb (bool_decide (tc_capability contract = Capability WRITE))
                || is_none (tc_write_semantics contract)
                || negb (String.eqb (tc_tool_id contract) (wo_tool_id i)))
        VerificationError "verification requires the exact canonical WRITE contract";
  _ ← raise_if (negb (String.eqb (ctx_tenant_id context) (wo_tenant_id i))
                || negb (bool_decide (ctx_business_operation_id context
                                      = Some (wo_business_operation_id i))))
        VerificationError "verification context does not match committed WRITE identity";
  raise_if (negb (bool_decide (keys_by_write_node (ctx_idempotency context) !! wo_node_id i
                               = Some (wo_idempotency_key i)))
            || negb (bool_decide (payload_hashes_by_write_node (ctx_idempotency context)
                                    !! wo_node_id i = Some (wo_payload_hash i))))
    VerificationError "verification idempotency state does not match committed WRITE".

(** [_request] *)
Definition verification_request (result_ : WriteResultEnvelope) (tool_id : string)
    (verification : PostWriteVerification) : result VerificationRequest :=
  let q := MkVerificationRequest (wr_identity result_) tool_id (wr_business_reference result_)
             (wr_provider_transaction_id result_) (pv_reference_schema verification)
             (pv_consistency_hint verification) in
  _ ← VerificationRequest_post_init q; Ok q.

(** [_unknown] *)
Definition verification_unknown (result_ : WriteResultEnvelope) (q : VerificationRequest)
    (reason_code : string) : result VerificationResult :=
  new_VerificationResult (MkVerificationResult (wr_identity result_) COMMITTED V_UNKNOWN
    (wr_business_reference result_) (Some (vq_verification_tool_id q)) (Some reason_code)
    None None).

(** What becomes of the port's answer. *)
Definition judge_observation (result_ : WriteResultEnvelope) (q : VerificationRequest)
    (answer : reply VerificationObservation) : result VerificationResult :=
  match answer with
  | Malformed => verification_unknown result_ q "VERIFICATION_RESPONSE_MALFORMED"
  | Reply o =>
      if negb (String.eqb (vo_request_hash o) (verification_request_hash q))
         || negb (String.eqb (vo_business_reference o) (wr_business_reference result_))
      then verification_unknown result_ q "VERIFICATION_BINDING_MISMATCH"
      else
        let '(status, reason) := if vo_matched o then (VERIFIED, None)
                                 else (V_FAILED, vo_reason_code o) in
        new_VerificationResult (MkVerificationResult (wr_identity result_) COMMITTED status
          (wr_business_reference result_) (Some (vq_verification_tool_id q)) reason
          (Some (vo_evidence_ref o)) (Some (vo_observed_at o)))
  end.

(** [except TimeoutError] and [except Exception] around the reading. *)
Definition read_failure (c : exn_class) : option string :=
  if isinstance_exn c TimeoutError then Some "VERIFICATION_TIMEOUT"
  else if isinstance_exn c Exception_ then Some "VERIFICATION_DEPENDENCY_FAILURE"
  else None.

(** [PostWriteVerifier.verify]; [port] is [None] for an object without the
    reading method. *)
Definition verify (result_ : WriteResultEnvelope) (contract : ToolContract)
    (context : ExecutionContext) (port : option verification_port)
  : Verifying VerificationResult :=
  _ ← lift (verify_validate_inputs result_ contract context);
  match tc_write_semantics contract ≫= wsm_verification with
  | Some (MkPostWriteVerification (Some tool_id) schema hint) =>
      match port with
      | None => fail TypeError "port must provide the read-only PostWriteVerificationPort"
      | Some port =>
          q ← lift (verification_request result_ tool_id
                      (MkPostWriteVerification (Some tool_id) schema hint));
          try_except
            (answer ← read_port port q;
             mret (inl answer))
            (fun c => negb (is_none (read_failure c)))
            (fun e => mret (inr (default "" (read_failure (ex_class e)))))
          ≫= fun outcome =>
          lift match outcome with
               | inl answer => judge_observation result_ q answer
               | inr reason => verification_unknown result_ q reason
               end
      end
  | _ =>
      lift (new_VerificationResult (MkVerificationResult (wr_identity result_) COMMITTED
        V_NOT_REQUESTED (wr_business_reference result_) None None None None))
  end.

(** ** What a verification is *)

(** The verification a contract asks for: its tool and its description. *)
Definition verification_due (contract : ToolContract) : option (string * PostWriteVerification) :=
  pv ← tc_write_semantics contract ≫= wsm_verification;
  tool ← pv_tool_id pv; Some (tool, pv).

(** An observation of the very record that was asked for. *)
Definition observes (o : VerificationObservation) (q : VerificationRequest)
    (result_ : WriteResultEnvelope) : Prop :=
  vo_request_hash o = verification_request_hash q
  /\ vo_business_reference o = wr_business_reference result_.

Definition observed (o : VerificationObservation) (q : VerificationRequest)
    (result_ : WriteResultEnvelope) : bool :=
  String.eqb (vo_request_hash o) (verification_request_hash q)
  && String.eqb (vo_business_reference o) (wr_business_reference result_).

Lemma observed_iff o q result_ : observed o q result_ = true <-> observes o q result_.
Proof. unfold observed, observes. by rewrite andb_true_iff, !String.eqb_eq. Qed.

Lemma verify_not_due result_ contract context port h : verification_due contract = None ->
  verify result_ contract context port h
  = (_ ← verify_validate_inputs result_ contract context;
     new_VerificationResult (MkVerificationResult (wr_identity result_) COMMITTED
       V_NOT_REQUESTED (wr_business_reference result_) None None None None), h).
Proof.
  unfold verify, verification_due, mbind, M_bind, lift, result_bind, option_bind.
  destruct (verify_validate_inputs _ _ _) as [u|e]; [| done].
  destruct (tc_write_semantics contract) as [s|]; cbn; [| done].
  destruct (wsm_verification s) as [[[tool|] schema hint]|]; done.
Qed.

Lemma verify_due result_ contract context port h tool pv q :
  verify_validate_inputs result_ contract context = Ok tt ->
  verification_due contract = Some (tool, pv) ->
  verification_request result_ tool pv = Ok q ->
  verify result_ contract context (Some port) h
  = (match port h q with
     | Ok answer => judge_observation result_ q answer
     | Err e => match read_failure (ex_class e) with
                | Some reason => verification_unknown result_ q reason
                | None => Err e
                end
     end, h ++ [q]).
Proof.
  unfold verify, verification_due. intros Hv Hd Hq.
  unfold mbind, M_bind, lift. rewrite Hv. cbn [mbind option_bind] in Hd |- *.
  destruct (tc_write_semantics contract) as [s|]; cbn in *; [| done].
  destruct (wsm_verification s) as [[[t|] schema hint]|]; cbn in Hd; try done.
  injection Hd as <- <-. unfold try_except, read_port, mret, M_ret. rewrite Hq.
  destruct (port h q) as [a|e]; [done |].
  by destruct (read_failure (ex_class e)).
Qed.

(** ** The verdict *)

(** [VERIFIED] and [FAILED] are read off the observation, everything else is
    [UNKNOWN]; the WRITE stays committed. *)
Record verdict (result_ : WriteResultEnvelope) (q : VerificationRequest)
    (answer : result (reply VerificationObservation)) (r : VerificationResult) : Prop := {
  vd_committed : vr_commit_state r = COMMITTED /\ vr_identity r = wr_identity result_;
  vd_requested : vr_status r <> V_NOT_REQUESTED
                 /\ vr_verification_tool_id r = Some (vq_verification_tool_id q);
  vd_verified : vr_status r = VERIFIED <->
    exists o, answer = Ok (Reply o) /\ observes o q result_ /\ vo_matched o = true;
  vd_failed : vr_status r = V_FAILED <->
    exists o, answer = Ok (Reply o) /\ observes o q result_ /\ vo_matched o = false;
  vd_evidence : vr_evidence_ref r <> None <->
    exists o, answer = Ok (Reply o) /\ observes o q result_
              /\ vr_evidence_ref r = Some (vo_evidence_ref o);
  vd_summary : verification_to_summary r
    = Ok (MkVerificationSummary (vr_status r) (vr_reason_code r) (vr_evidence_ref r))
}.

Definition opt_text_ok (o : option string) : Prop :=
  match o with Some s => text_ok s | None => True end.

Lemma new_VerificationResult_Ok r : vr_commit_state r = COMMITTED ->
  text_ok (vr_business_reference r) -> opt_text_ok (vr_verification_tool_id r) ->
  opt_text_ok (vr_reason_code r) -> opt_text_ok (vr_evidence_ref r) ->
  match vr_observed_at r with Some d => dt_utcoffset d = Some 0%Z | None => True end ->
  verification_evidence_rules r = Ok tt -> new_VerificationResult r = Ok r.
Proof.
  intros Hc Hb Ht Hr He Ho Hrules. apply (bind_intro tt); [| done].
  unfold VerificationResult_post_init. rewrite Hc.
  apply (bind_intro tt); [done |].
  eapply bind_intro; [by apply required_text_iff |].
  do 3 (eapply bind_intro; [by apply optional_text_iff |]).
  apply (bind_intro tt); [| done].
  destruct (vr_observed_at r) as [d|]; [| done].
  eapply bind_intro; [by apply utc_instant_iff | done].
Qed.

Lemma to_summary_Ok r : opt_text_ok (vr_reason_code r) -> opt_text_ok (vr_evidence_ref r) ->
  verification_to_summary r
  = Ok (MkVerificationSummary (vr_status r) (vr_reason_code r) (vr_evidence_ref r)).
Proof.
  intros Hr He. apply (bind_intro tt); [| done].
  do 2 (eapply bind_intro; [by apply optional_text_iff |]). done.
Qed.

Lemma observation_fields o : VerificationObservation_post_init o = Ok tt ->
  text_ok (vo_evidence_ref o) /\ dt_utcoffset (vo_observed_at o) = Some 0%Z
  /\ opt_text_ok (vo_reason_code o)
  /\ (vo_matched o = true <-> vo_reason_code o = None).
Proof.
  unfold VerificationObservation_post_init. intros H.
  apply bind_Ok in H as (x1 & _ & H). apply bind_Ok in H as (x2 & _ & H).
  apply bind_Ok in H as (x3 & [_ He]%required_text_iff & H).
  apply bind_Ok in H as (x4 & [_ Ho]%utc_instant_iff & H).
  apply bind_Ok in H as (x5 & [_ Hr]%optional_text_iff & H).
  apply bind_Ok in H as ([] & H1%raise_if_Ok & H2%raise_if_Ok).
  do 3 (split; [done |]). destruct (vo_matched o), (vo_reason_code o); cbn in *; done.
Qed.

Lemma request_fields result_ tool pv q : verification_request result_ tool pv = Ok q ->
  q = MkVerificationRequest (wr_identity result_) tool (wr_business_reference result_)
        (wr_provider_transaction_id result_) (pv_reference_schema pv) (pv_consistency_hint pv)
  /\ text_ok tool /\ text_ok (wr_business_reference result_).
Proof.
  unfold verification_request, VerificationRequest_post_init. intros H.
  apply bind_Ok in H as ([] & H & E). apply Ok_inj in E as <-. cbn in H.
  apply bind_Ok in H as (x1 & [_ H1]%required_text_iff & H).
  by apply bind_Ok in H as (x2 & [_ H2]%required_text_iff & _).
Qed.

Section Verdicts.
Context (result_ : WriteResultEnvelope) (tool : string) (pv : PostWriteVerification).
Context (q : VerificationRequest) (Hq : verification_request result_ tool pv = Ok q).

Lemma unknown_verdict reason answer : text_ok reason ->
  (forall o, answer = Ok (Reply o) -> ~ observes o q result_) ->
  exists r, verification_unknown result_ q reason = Ok r /\ verdict result_ q answer r.
Proof.
  intros Hr Hno. destruct (request_fields _ _ _ _ Hq) as (-> & Ht & Hb).
  eexists. split; [by apply new_VerificationResult_Ok |].
  split; [done | done | | | | by apply to_summary_Ok]; cbn;
    (split; [done | intros (o & Ho & Hobs & _); by destruct (Hno o)]).
Qed.

Lemma bound_verdict o : VerificationObservation_post_init o = Ok tt -> observes o q result_ ->
  exists r, judge_observation result_ q (Reply o) = Ok r /\ verdict result_ q (Ok (Reply o)) r.
Proof.
  intros (He & Ho & Hr & Hm)%observation_fields Hobs.
  destruct (request_fields _ _ _ _ Hq) as (Eq & Ht & Hb).
  unfold judge_observation. pose proof Hobs as [H1 H2]. rewrite H1, H2, !String.eqb_refl.
  cbn [negb orb]. destruct (vo_matched o) eqn:Hmo.
  - eexists. split; [apply new_VerificationResult_Ok; by rewrite ?Eq |].
    rewrite Eq. split; [done | done | | | | by apply to_summary_Ok]; cbn.
    + split; [intros _; by exists o; rewrite <- Eq | done].
    + split; [done | intros (o' & [= <-] & _ & ?); congruence].
    + split; [intros _; by exists o; rewrite <- Eq | by intros (o' & _)].
  - destruct (vo_reason_code o) as [reason|] eqn:Hreason; [| discriminate (proj2 Hm eq_refl)].
    eexists. split; [apply new_VerificationResult_Ok; by rewrite ?Eq |].
    rewrite Eq. split; [done | done | | | | by apply to_summary_Ok]; cbn.
    + split; [done | intros (o' & [= <-] & _ & ?); congruence].
    + split; [intros _; by exists o; rewrite <- Eq | done].
    + split; [intros _; by exists o; rewrite <- Eq | by intros (o' & _)].
Qed.

Lemma judged_verdict answer :
  (forall o, answer = Reply o -> VerificationObservation_post_init o = Ok tt) ->
  exists r, judge_observation result_ q answer = Ok r /\ verdict result_ q (Ok answer) r.
Proof.
  intros Hok. destruct answer as [o|].
  - destruct (observed o q result_) eqn:Hobs.
    + apply observed_iff in Hobs. by apply bound_verdict; [apply Hok |].
    + unfold judge_observation. rewrite <- negb_andb. fold (observed o q result_).
      rewrite Hobs. apply unknown_verdict; [apply text_okb_true; vm_compute; reflexivity |].
      intros o' [= <-] H%observed_iff. congruence.
  - apply unknown_verdict; [apply text_okb_true; vm_compute; reflexivity | discriminate].
Qed.

Lemma read_failure_verdict c reason e : read_failure c = Some reason ->
  exists r, verification_unknown result_ q reason = Ok r /\ verdict result_ q (Err e) r.
Proof.
  unfold read_failure. intros H. apply unknown_verdict; [| discriminate].
  destruct (isinstance_exn c TimeoutError); [| destruct (isinstance_exn c Exception_)];
    injection H as <- || discriminate H; apply text_okb_true; vm_compute; reflexivity.
Qed.
End Verdicts.

(** C10. A committed WRITE is verified exactly on evidence: when the contract
    asks for verification and the inputs belong together, the port is read
    once, for the request of this WRITE, and whatever it does, short of an
    exception that is no [Exception], [verify] returns a result. The result
    says [VERIFIED] exactly when the port observed a match for this very
    request and business reference and [FAILED] exactly when it observed a
    mismatch for them; it carries the observation's evidence and none
    otherwise, keeps the identity and the [COMMITTED] state of the WRITE, and
    has a summary. *)
Theorem verify_verdict (result_ : WriteResultEnvelope) (contract : ToolContract)
    (context : ExecutionContext) (port : verification_port) (h : list VerificationRequest)
    (tool : string) (pv : PostWriteVerification) (q : VerificationRequest) :
  verify_validate_inputs result_ contract context = Ok tt ->
  verification_due contract = Some (tool, pv) ->
  verification_request result_ tool pv = Ok q ->
  (forall o, port h q = Ok (Reply o) -> VerificationObservation_post_init o = Ok tt) ->
  (forall e, port h q = Err e -> isinstance_exn (ex_class e) Exception_ = true) ->
  exists r, verify result_ contract context (Some port) h = (Ok r, h ++ [q])
            /\ verdict result_ q (port h q) r.
Proof.
  intros Hv Hd Hq Ho He. rewrite (verify_due _ _ _ _ _ _ _ _ Hv Hd Hq).
  destruct (port h q) as [answer|e] eqn:Hp.
  - destruct (judged_verdict _ _ _ _ Hq answer) as (r & -> & Hr); [naive_solver | by exists r].
  - assert (exists reason, read_failure (ex_class e) = Some reason) as [reason Hr].
    { unfold read_failure. rewrite (He e eq_refl). destruct (isinstance_exn _ _); by eexists. }
    rewrite Hr. destruct (read_failure_verdict _ _ _ _ Hq _ _ e Hr) as (r & -> & Hr').
    by exists r.
Qed.

(** ** What the hash of a request binds *)

Definition schema_wf (q : VerificationRequest) : Prop :=
  match vq_reference_schema q with Some t => type_wf t = true | None => True end.

Lemma json_opt_inj a b : json_opt a = json_opt b -> a = b.
Proof. destruct a, b; cbn; congruence. Qed.

Lemma sorted_json_opt o : sorted_keys (json_opt o) = json_opt o.
Proof. by destruct o. Qed.

Definition schema_json (o : option TypeRef) : json :=
  sorted_keys match o with None => JNull | Some t => type_to_data t end.

Lemma schema_json_inj a b :
  match a with Some t => type_wf t = true | None => True end ->
  match b with Some t => type_wf t = true | None => True end ->
  schema_json a = schema_json b -> a = b.
Proof.
  unfold schema_json. destruct a as [t|], b as [u|]; cbn [sorted_keys]; intros Ht Hu H; try done.
  - apply (f_equal type_from_data) in H. rewrite !read_type in H by done. congruence.
  - destruct t; discriminate H.
  - destruct u; discriminate H.
Qed.

Lemma verification_payload_sorted q : sorted_keys (verification_payload q) =
  let i := vq_identity q in
  JObj [("approval_request_id", JStr (wo_approval_request_id i));
        ("business_operation_id", JStr (wo_business_operation_id i));
        ("business_reference", JStr (vq_business_reference q));
        ("consistency_hint", json_opt (vq_consistency_hint q));
        ("idempotency_key", JStr (wo_idempotency_key i));
        ("invocation_id", JStr (wo_invocation_id i)); ("node_id", JStr (wo_node_id i));
        ("payload_hash", JStr (wo_payload_hash i));
        ("provider_transaction_id", json_opt (vq_provider_transaction_id q));
        ("reference_schema", schema_json (vq_reference_schema q));
        ("tenant_id", JStr (wo_tenant_id i));
        ("verification_tool_id", JStr (vq_verification_tool_id q));
        ("write_intent_hash", JStr (wo_write_intent_hash i));
        ("write_tool_id", JStr (wo_tool_id i))].
Proof.
  unfold verification_payload. cbn [sorted_keys map fst snd]. rewrite !sorted_json_opt.
  fold (schema_json (vq_reference_schema q)). reflexivity.
Qed.

(** An observation cannot be passed off for another WRITE: two
    verification requests with one hash, so in particular requests one
    observation answers, are the same request, down to tenant, operation,
    invocation, idempotency key, approval and reference schema, or their two
    documents are an explicit SHA-256 collision. *)
Theorem verification_request_binding (q q' : VerificationRequest) :
  schema_wf q -> schema_wf q' -> verification_request_hash q = verification_request_hash q' ->
  q = q' \/ collision (verification_request_bytes q) (verification_request_bytes q').
Proof.
  intros Hq Hq' E. destruct (sha256_ref_or_collision _ _ E) as [H|C]; [left | by right].
  apply app_inv_head, canonical_json_inj in H. rewrite !verification_payload_sorted in H.
  cbv zeta in H. injection H as E1 E2 E3 E4 E5 E6 E7 E8 E9 E10 E11 E12 E13 E14.
  apply json_opt_inj in E4, E9. apply schema_json_inj in E10; [| done | done].
  destruct q as [[] ? ? ? ? ?], q' as [[] ? ? ? ? ?]. cbn in *. congruence.
Qed.

(** ** Witnesses *)

Definition verified_contract : ToolContract :=
  MkToolContract "erp.create_po" "1.0.0" (Capability WRITE)
    [("vendor", STRING); ("lines", list_type INT)] STRING "po:write" INTERNAL 30000 "WRITE"
    true (Some CREATE) (Some R3)
    (Some (MkWriteSemantics true ATOMIC
       (MkIdempotencySemantics true "TOOL_AND_TENANT" "P30D" "RETURN_ORIGINAL_RESULT"
          "IDEMPOTENCY_CONFLICT") EXPLICIT true true
       (Some (MkPostWriteVerification (Some "erp.read_po") (Some STRING) (Some "eventual"))))).

Definition committed_result : WriteResultEnvelope :=
  MkWriteResultEnvelope (identity_of example_call_request)
    (MkValueEnvelope (VStr "PO-7") STRING PRESENT COMPLETE INTERNAL []) "PO-7" (Some "tx-1")
    (utc 4000) ["doc-1"].

Definition example_verification : VerificationRequest :=
  MkVerificationRequest (identity_of example_call_request) "erp.read_po" "PO-7" (Some "tx-1")
    (Some STRING) (Some "eventual").

Definition example_verification_hash : string := Eval vm_compute in
  verification_request_hash example_verification.

Lemma example_verification_hash_eq :
  verification_request_hash example_verification = example_verification_hash.
Proof. vm_compute. reflexivity. Qed.

Definition matching_observation : VerificationObservation :=
  MkVerificationObservation example_verification_hash "PO-7" true "read-1" (utc 5000) None.

Lemma verify_verdict_witness : exists r,
  verify committed_result verified_contract example_reserved_context
    (Some (fun _ _ => Ok (Reply matching_observation))) [] = (Ok r, [example_verification])
  /\ vr_status r = VERIFIED.
Proof.
  destruct (verify_verdict committed_result verified_contract example_reserved_context
    (fun _ _ => Ok (Reply matching_observation)) [] "erp.read_po"
    (MkPostWriteVerification (Some "erp.read_po") (Some STRING) (Some "eventual"))
    example_verification) as (r & H & [_ _ Hv _ _ _]).
  - vm_compute. reflexivity.
  - reflexivity.
  - vm_compute. reflexivity.
  - intros o [= <-]. vm_compute. reflexivity.
  - discriminate.
  - exists r. split; [exact H |]. apply Hv. exists matching_observation.
    split; [done |]. split; [| done]. split; [symmetry; apply example_verification_hash_eq | done].
Defined.

Lemma verification_request_binding_witness :
  schema_wf example_verification
  /\ (example_verification = example_verification
      \/ collision (verification_request_bytes example_verification)
           (verification_request_bytes example_verification)).
Proof.
  split; [reflexivity |]. by apply verification_request_binding.
Defined.
