(* ===== verification/Controlled.v ===== *)
(** * Controlled executions ([src/nsl/runtime.py], lines 344-509)

    The entry points around an approval: an execution, or the prefix of a
    controlled Skill, that ends with a sealed checkpoint; and the completion,
    which projects the outcome of the WRITE and its verification into the
    result and, when the outcome permits, runs the rest of the Skill. *)

From S2P Require Import Prelude Digest Json Decimal Core Values Builtins DataProtection Ir.
From S2P Require Import Security AuditTrail WriteRecords RuntimeModels Tools WriteIntent.
From S2P Require Import Validation Runtime Steps Costs Safety Checkpoints Restoration.
From S2P Require Import Execution Outcomes Scenarios WriteExecution Verification.

(** ** Executions that end with a checkpoint *)

Section Checkpointed.
Context (ports : EnginePorts) (engine : RuntimeEngine).

Definition new_CheckpointedExecution (e : CheckpointedExecution) : result CheckpointedExecution :=
  _ ← CheckpointedExecution_post_init e; Ok e.

(** What both entry points do with the execution; [coordinator] is the runtime
    version of the coordinator they are given. *)
Definition seal_execution (coordinator : option string)
    (outcome : ExecutionResult * option ExecutionContext) : result CheckpointedExecution :=
  let '(r, context) := outcome in
  if negb (bool_decide (xr_status r = COMPLETED))
  then new_CheckpointedExecution (MkCheckpointedExecution r None)
  else
    match context with
    | None => raise RuntimeContractError "completed execution context is unavailable"
    | Some c =>
        checkpoint ← (capture (default RUNTIME_VERSION coordinator) c).1;
        new_CheckpointedExecution (MkCheckpointedExecution r (Some checkpoint))
    end.

(** [execute_checkpointed] *)
Definition execute_checkpointed (skill : SkillObject) (request : ExecutionRequest)
    (clock : nat -> Z) (coordinator : option string)
  : M history CheckpointedExecution :=
  _ ← fail_if (is_none (rq_business_operation_id request)) RuntimeContractError
        "checkpointed execution requires a business operation identity";
  outcome ← (fun h => let '(r, (_, h)) := _execute_with_context ports engine skill request clock
                                            (sk_body skill) false h in (r, h));
  lift (seal_execution coordinator outcome).

(** [execute_controlled_prefix] *)
Definition execute_controlled_prefix (skill : SkillObject) (request : ExecutionRequest)
    (clock : nat -> Z) (coordinator : option string)
  : M history CheckpointedExecution :=
  _ ← fail_if (is_none (rq_business_operation_id request)) RuntimeContractError
        "controlled execution requires a business operation identity";
  plan ← lift (plan_from_skill skill);
  outcome ← (fun h => let '(r, (_, h)) := _execute_with_context ports engine skill request clock
                                            (cp_prefix plan) true h in (r, h));
  lift (seal_execution coordinator outcome).
End Checkpointed.

(** ** The completion of a controlled execution *)

Definition Completing := M (ExecutionContext * history).

(** A computation of the interpreter, with the audit recorder it is given. *)
Definition in_machine {A} (recorder : option AuditRecorder) (m : R A) : Completing A :=
  fun '(c, h) => let '(r, mc) := m (MkMachine c recorder h) in (r, (mc_ctx mc, mc_calls mc)).

Definition completing_context : Completing ExecutionContext := fun s => (Ok s.1, s).

(** [status in {NOT_REQUESTED, VERIFIED}] *)
Definition should_emit (s : VerificationStatus) : bool :=
  bool_decide (s ∈ [V_NOT_REQUESTED; VERIFIED]).

(** The recorder of the suffix. *)
Definition suffix_recorder (c : ExecutionContext) : AuditRecorder :=
  new_AuditRecorder (rq_data_policy (ctx_request c)) (ctx_execution_id c)
    (sk_skill_id (ctx_skill c)) (sk_skill_version (ctx_skill c)) (sk_semantic_hash (ctx_skill c))
    RUNTIME_VERSION (Some (rq_principal (ctx_request c))).

Section Completion.
Context (ports : EnginePorts) (engine : RuntimeEngine).

(** The value of the WRITE is bound and the suffix is run. *)
Definition run_suffix (plan : ControlledExecutionPlan) (v : ValueEnvelope) : Completing unit :=
  _ ← fail_if (negb (bool_decide (ve_type_info v = we_type_info (cp_write_expression plan))))
        RuntimeContractError "WRITE result type mismatch";
  _ ← in_machine None (on_ctx (bind (cp_write_target plan) v));
  c ← completing_context;
  in_machine (Some (suffix_recorder c))
    (_execute_block ports engine (delegate_execute ports) (cp_suffix plan)).

(** The branch on the outcome. *)
Definition project_outcome (plan : ControlledExecutionPlan) (commit : WriteCommitDecision)
    (verification : option VerificationResult) : Completing unit :=
  match wd_outcome commit with
  | WriteCommitted r =>
      match verification with
      | None => fail TypeError "committed WRITE requires VerificationResult"
      | Some v =>
          _ ← fail_if (negb (bool_decide (vr_identity v = outcome_identity (wd_outcome commit))))
                RuntimeContractError "verification identity binding mismatch";
          if should_emit (vr_status v) then run_suffix plan (wr_value r) else mret tt
      end
  | _ => fail_if (negb (is_none verification)) RuntimeContractError
           "non-committed WRITE cannot contain verification evidence"
  end.

Definition with_commit (base : ExecutionResult) (approval : ApprovalSummary)
    (write : WriteSummary) (verification : option VerificationSummary) : ExecutionResult :=
  MkExecutionResult (xr_execution_id base) (xr_skill_id base) (xr_skill_version base)
    (xr_semantic_hash base) (xr_status base) (xr_completeness base) (xr_checks base)
    (xr_outputs base) (xr_resources base) (xr_error base) (xr_validation base) (Some ALLOWED)
    (Some approval) (Some write) verification (xr_suspension base).

(** The checks before the outcome is looked at. *)
Definition admit_commit (c : ExecutionContext) (approval_request_id : string)
    (commit : WriteCommitDecision) : result ControlledExecutionPlan :=
  _ ← raise_if (negb (non_blank approval_request_id)) TypeError
        "approval_request_id must be a non-empty string";
  plan ← plan_from_skill (ctx_skill c);
  let identity := outcome_identity (wd_outcome commit) in
  _ ← raise_if (negb (bool_decide (ctx_approvals c !! as_approval_id (cp_approval plan)
                                   = Some APPROVED)))
        RuntimeContractError "controlled WRITE requires valid Approval";
  _ ← raise_if (negb (String.eqb (wo_approval_request_id identity) approval_request_id))
        RuntimeContractError "Approval and WRITE request binding mismatch";
  _ ← raise_if (negb (String.eqb (wo_node_id identity) (we_node_id (cp_write_expression plan))))
        RuntimeContractError "WRITE outcome node binding mismatch";
  Ok plan.

(** The result in the context the branch left. *)
Definition completion_result (c : ExecutionContext) (plan : ControlledExecutionPlan)
    (approval_request_id : string) (commit : WriteCommitDecision)
    (verification : option VerificationResult) : result ExecutionResult :=
  base ← _result c (wd_execution_status commit) None;
  let approval := MkApprovalSummary APPROVED (as_approval_id (cp_approval plan))
                    (Some approval_request_id) in
  _ ← ApprovalSummary_post_init approval;
  summary ← match verification with
            | None => Ok None
            | Some v => s ← verification_to_summary v; Ok (Some s)
            end;
  Ok (with_commit base approval (wd_write_summary commit) summary).

(** [complete_controlled_execution] *)
Definition complete_controlled_execution (approval_request_id : string)
    (commit : WriteCommitDecision) (verification : option VerificationResult)
  : Completing ExecutionResult :=
  c ← completing_context;
  plan ← lift (admit_commit c approval_request_id commit);
  _ ← project_outcome plan commit verification;
  c ← completing_context;
  lift (completion_result c plan approval_request_id commit verification).
End Completion.

(** ** What a completion does *)

(** The outcome lets the rest of the Skill run. *)
Definition released (commit : WriteCommitDecision) (verification : option VerificationResult)
  : Prop :=
  exists r v, wd_outcome commit = WriteCommitted r /\ verification = Some v
    /\ vr_identity v = wr_identity r /\ vr_status v ∈ [V_NOT_REQUESTED; VERIFIED].

(** What a run of the interpreter may do in the context [c]. *)
Definition lawful (engine : RuntimeEngine) (s s' : ExecutionContext * history) : Prop :=
  progress (ctx_skill s.1) s.1 s'.1
  /\ exists new, s'.2 = s.2 ++ new
       /\ Forall (call_allowed engine (ctx_skill s.1) (ctx_request s.1)) new.

Section CompletionSteps.
Context (ports : EnginePorts) (engine : RuntimeEngine).

Lemma lawful_refl s : lawful engine s s.
Proof.
  split; [reflexivity |]. exists []. rewrite app_nil_r. by split; [| constructor].
Qed.

Lemma lawful_trans a b c : rooted a.1 -> lawful engine a b -> lawful engine b c ->
  lawful engine a c.
Proof.
  intros Hr [P1 (n1 & E1 & F1)] [P2 (n2 & E2 & F2)].
  destruct (scene_progress (ctx_skill a.1) (ctx_request a.1) a.1 b.1 P1) as (_ & Hs & Hq); [done |].
  rewrite Hs, Hq in *. split; [by transitivity b.1 |].
  exists (n1 ++ n2). rewrite E2, E1, app_assoc. split; [done | by apply Forall_app].
Qed.

Lemma in_machine_lawful {A} recorder (m : R A) s : rooted s.1 ->
  steps (keeps engine (ctx_skill s.1) (ctx_request s.1)) m ->
  lawful engine s (in_machine recorder m s).2.
Proof.
  intros Hr Hm. destruct s as [c h]. specialize (Hm (MkMachine c recorder h)).
  unfold in_machine. destruct (m _) as [r mc]. cbn in *.
  destruct Hm as [P (new & E & F & _)]; [done |]. by split; [| exists new].
Qed.

Lemma run_suffix_lawful plan v s : rooted s.1 ->
  lawful engine s (run_suffix ports engine plan v s).2.
Proof.
  intros Hr. unfold run_suffix, mbind, M_bind.
  destruct (fail_if _ _ _ s) as [[u|e] s0] eqn:Hf;
    (assert (s0 = s) as -> by (unfold fail_if, lift in Hf; by injection Hf as _ <-));
    [| apply lawful_refl].
  pose proof (in_machine_lawful None (on_ctx (bind (cp_write_target plan) v)) s Hr
    (keeps_bind _ _ _ _ _)) as Hb.
  destruct (in_machine None _ s) as [[u1|e] s1]; [| exact Hb]. cbn [completing_context snd] in *.
  eapply lawful_trans; [done | exact Hb |]. apply in_machine_lawful.
  - destruct (scene_progress _ (ctx_request s.1) _ _ (proj1 Hb)) as (H & _); done.
  - apply keeps_execute_block. constructor.
Qed.

Lemma project_outcome_lawful plan commit verification s : rooted s.1 ->
  let s' := (project_outcome ports engine plan commit verification s).2 in
  lawful engine s s' /\ (released commit verification \/ s' = s).
Proof.
  intros Hr. cbv zeta. unfold project_outcome.
  destruct (wd_outcome commit) as [r|f|f] eqn:Ho;
    [| split; [apply lawful_refl | by right] ..].
  destruct verification as [v|]; [| split; [apply lawful_refl | by right]].
  unfold mbind, M_bind, fail_if, lift.
  destruct (bool_decide_reflect (vr_identity v = outcome_identity (WriteCommitted r)));
    cbn [negb raise_if]; [| split; [apply lawful_refl | by right]].
  unfold should_emit. case_bool_decide as Hs; [| split; [apply lawful_refl | by right]].
  split; [by apply run_suffix_lawful | left]. exists r, v. done.
Qed.

Lemma project_outcome_verified plan commit verification s s' :
  project_outcome ports engine plan commit verification s = (Ok tt, s') ->
  is_Some verification <-> outcome_commit_state (wd_outcome commit) = COMMITTED.
Proof.
  unfold project_outcome. destruct (wd_outcome commit), verification as [v|]; intros H; cbn;
    first [split; done | discriminate H | split; [done | intros _; by eexists] | split; [by intros [] | done]].
Qed.
End CompletionSteps.


Lemma completing_step {B} (f : ExecutionContext -> Completing B) c h :
  (completing_context ≫= f) (c, h) = f c (c, h).
Proof. reflexivity. Qed.

Lemma admit_commit_Ok c id commit plan : admit_commit c id commit = Ok plan ->
  plan_from_skill (ctx_skill c) = Ok plan
  /\ ctx_approvals c !! as_approval_id (cp_approval plan) = Some APPROVED
  /\ wo_approval_request_id (outcome_identity (wd_outcome commit)) = id
  /\ wo_node_id (outcome_identity (wd_outcome commit)) = we_node_id (cp_write_expression plan).
Proof.
  unfold admit_commit. intros H. apply bind_Ok in H as ([] & _ & H).
  apply bind_Ok in H as (p & Hp & H). cbv zeta in H.
  apply bind_Ok in H as ([] & H1%raise_if_Ok & H). apply bind_Ok in H as ([] & H2%raise_if_Ok & H).
  apply bind_Ok in H as ([] & H3%raise_if_Ok & H). apply Ok_inj in H as ->. split_bool.
  apply String.eqb_eq in H2, H3. done.
Qed.

(** A completed result: it reports the outcome it is given. *)
Record reports (c c' : ExecutionContext) (id : string) (commit : WriteCommitDecision)
    (verification : option VerificationResult) (x : ExecutionResult) : Prop := {
  rp_status : xr_status x = wd_execution_status commit /\ xr_error x = None;
  rp_write : xr_write x = Some (wd_write_summary commit);
  rp_plan : exists plan, plan_from_skill (ctx_skill c) = Ok plan
    /\ ctx_approvals c !! as_approval_id (cp_approval plan) = Some APPROVED
    /\ xr_approval x = Some (MkApprovalSummary APPROVED (as_approval_id (cp_approval plan)) (Some id))
    /\ wo_node_id (outcome_identity (wd_outcome commit)) = we_node_id (cp_write_expression plan);
  rp_request : wo_approval_request_id (outcome_identity (wd_outcome commit)) = id;
  rp_verification :
    (is_Some verification <-> outcome_commit_state (wd_outcome commit) = COMMITTED)
    /\ match verification with
       | Some v => exists s, verification_to_summary v = Ok s /\ xr_verification x = Some s
       | None => xr_verification x = None
       end;
  rp_records : xr_checks x = ctx_checks c' /\ xr_outputs x = ctx_outputs c'
}.

Lemma result_fields c status error x : _result c status error = Ok x ->
  xr_status x = status /\ xr_error x = error /\ xr_checks x = ctx_checks c
  /\ xr_outputs x = ctx_outputs c.
Proof. unfold _result. cbv zeta. intros (s & _ & H%Ok_inj)%bind_Ok. by subst x. Qed.

Lemma completion_reports ports engine id commit verification c c' plan s0 s1 x :
  admit_commit c id commit = Ok plan ->
  project_outcome ports engine plan commit verification s0 = (Ok tt, s1) ->
  completion_result c' plan id commit verification = Ok x ->
  reports c c' id commit verification x.
Proof.
  intros (Hp & Ha & Hid & Hn)%admit_commit_Ok Hproj%project_outcome_verified H.
  unfold completion_result in H. apply bind_Ok in H as (base & Hb%result_fields & H). cbv zeta in H.
  destruct Hb as (E1 & E2 & E3 & E4).
  apply bind_Ok in H as (u & _ & H). apply bind_Ok in H as (s & Hs & H%Ok_inj). subst x.
  split; cbn; [done | done | by exists plan | done | | done]. split; [done |].
  destruct verification as [v|]; [| by injection Hs as <-].
  apply bind_Ok in Hs as (s' & Hs & [= <-]%Ok_inj). by exists s'.
Qed.

(** C8. A completion never invents an outcome and never outruns one. Whatever
    the ports do and however it ends, it acts only within the Skill: bindings,
    checks and outputs are only added to, every tool call is one the Skill
    declares, and the approvals, the journal and the checkpoint state stay.
    Unless the WRITE committed and its verification, of that very WRITE, was
    not requested or succeeded, nothing of the rest of the Skill happens: the
    context is unchanged and nothing is called. And a result reports the
    decision: its status and WRITE summary, the approval that was in force for
    the node that wrote, and a verification exactly when the WRITE committed. *)
Theorem controlled_completion (ports : EnginePorts) (engine : RuntimeEngine) (id : string)
    (commit : WriteCommitDecision) (verification : option VerificationResult)
    (c c' : ExecutionContext) (h h' : history) (r : result ExecutionResult) :
  rooted c ->
  complete_controlled_execution ports engine id commit verification (c, h) = (r, (c', h')) ->
  lawful engine (c, h) (c', h')
  /\ (released commit verification \/ (c' = c /\ h' = h))
  /\ forall x, r = Ok x -> reports c c' id commit verification x.
Proof.
  intros Hr. unfold complete_controlled_execution. rewrite completing_step. unfold mbind, M_bind, lift.
  destruct (admit_commit c id commit) as [plan|e] eqn:Hadm.
  2: { intros [= <- <- <-]. split; [apply lawful_refl |]. split; [by right | done]. }
  destruct (project_outcome_lawful ports engine plan commit verification (c, h) Hr) as [Hl Hrel].
  destruct (project_outcome ports engine plan commit verification (c, h)) as [[[]|e] [c1 h1]]
    eqn:Hproj; cbn [completing_context fst snd] in *; intros [= <- <- <-];
    (split; [exact Hl |]; split; [destruct Hrel as [? | [= -> ->]]; [by left | by right] |]); [| done].
  intros x Hx. by eapply completion_reports.
Qed.

(** ** Sealed executions *)

(** The context with its bindings masked too: what no execution changes. *)
Definition settled (c : ExecutionContext) : ExecutionContext :=
  set_input_values ∅ (set_context_values ∅ (frozen c)).

Section Settled.
Context (ports : EnginePorts) (engine : RuntimeEngine).
Context (skill : SkillObject) (request : ExecutionRequest).

Definition unmoved_ctx (c c' : ExecutionContext) : Prop :=
  scene skill request c -> scene skill request c' /\ settled c' = settled c.

Definition unmoved (mc mc' : Machine) : Prop := unmoved_ctx (mc_ctx mc) (mc_ctx mc').

#[local] Instance unmoved_ctx_preorder : PreOrder unmoved_ctx.
Proof.
  split; [by intros c |]. intros a b c H1 H2 Ha.
  destruct (H1 Ha) as [Hb E1], (H2 Hb) as [Hc E2]. split; [done | congruence].
Qed.

#[local] Instance unmoved_preorder : PreOrder unmoved.
Proof. unfold unmoved. split; [intros mc; reflexivity | intros a b c H1 H2; by etransitivity]. Qed.

Lemma unmoved_keeps {A} (m : R A) : steps (keeps engine skill request) m -> steps unmoved m.
Proof.
  apply steps_weaken. intros mc mc' H Hs. destruct (H Hs) as [P _].
  split; [by eapply scene_progress |]. exact (f_equal settled (pg_frozen _ _ _ P)).
Qed.

Lemma unmoved_quiet {A} (m : R A) : steps quiet m -> steps unmoved m.
Proof. intros H. by apply unmoved_keeps, keeps_quiet. Qed.

Lemma unmoved_quiet_ctx {A} (m : X A) : steps quiet_ctx m -> steps unmoved_ctx m.
Proof.
  apply steps_weaken. intros c c' H Hs. pose proof (progress_quiet skill c c' H) as P.
  split; [by eapply scene_progress |]. exact (f_equal settled (pg_frozen _ _ _ P)).
Qed.

Lemma unmoved_bind_once assign k : (forall c, unmoved_ctx c (assign c)) ->
  steps unmoved_ctx (_bind_once assign k).
Proof.
  intros H. unfold _bind_once. apply steps_bind; [apply _ | apply steps_get; apply _ | intros c].
  apply steps_bind; [apply _ | apply steps_fail_if; apply _ | intros _]. exact H.
Qed.

Lemma unmoved_bind_inputs : steps unmoved (on_ctx _bind_inputs_and_contexts).
Proof.
  intros mc. unfold unmoved, on_ctx.
  enough (steps unmoved_ctx _bind_inputs_and_contexts) as H.
  { specialize (H (mc_ctx mc)). by destruct (_bind_inputs_and_contexts (mc_ctx mc)). }
  clear mc. unfold _bind_inputs_and_contexts.
  apply steps_bind; [apply _ | apply steps_get; apply _ | intros c].
  apply steps_bind; [apply _ | | intros bindings].
  - apply unmoved_quiet_ctx. unfold _validated_input_context_bindings.
    apply steps_bind; [apply _ | | intros inputs; apply steps_bind; [apply _ | | quiet_tac]];
      (apply steps_map; [apply _ |]; apply Forall_forall; intros spec _);
      unfold validated_input, validated_context, observe_list; quiet_tac.
  - apply steps_bind; [apply _ | | intros _]; (apply steps_each; [apply _ |]);
      apply Forall_forall; intros b _; apply unmoved_bind_once; by intros c' (? & ? & ?).
Qed.

Lemma unmoved_run_execution decision statements allow :
  steps unmoved (run_execution ports engine skill request decision statements allow).
Proof.
  unfold run_execution. apply steps_try; [apply _ | |].
  - unfold execute_body. cbv zeta.
    repeat (intros; first
      [ apply unmoved_quiet; solve [quiet_tac]
      | apply unmoved_bind_inputs
      | apply unmoved_keeps, keeps_execute_block; constructor
      | apply steps_bind; [apply _ | |] ]).
  - intros e. apply unmoved_quiet, quiet_failed_execution.
Qed.

(** A context an execution ends with: of its request, and nothing approved,
    written, reserved or checkpointed. *)
Record fresh (c : ExecutionContext) : Prop := {
  fr_scene : ctx_skill c = skill /\ ctx_request c = request;
  fr_coherent : coherent c;
  fr_operation : ctx_business_operation_id c = rq_business_operation_id request;
  fr_state : ctx_writes c = [] /\ ctx_approvals c = ∅
             /\ ctx_idempotency c = MkIdempotencyState ∅ ∅
             /\ ctx_checkpoint c = default_CheckpointState
}.

Lemma settled_fields c c' : settled c' = settled c ->
  ctx_identity c' = ctx_identity c /\ ctx_security_context c' = ctx_security_context c
  /\ ctx_writes c' = ctx_writes c /\ ctx_approvals c' = ctx_approvals c
  /\ ctx_idempotency c' = ctx_idempotency c /\ ctx_checkpoint c' = ctx_checkpoint c.
Proof. intros H. repeat split; match goal with |- ?f _ = _ => exact (f_equal f H) end. Qed.

Lemma executed_fresh clock statements allow h r c s :
  _execute_with_context ports engine skill request clock statements allow h = (Ok (r, Some c), s) ->
  fresh c.
Proof.
  unfold _execute_with_context. cbv zeta. intros H.
  destruct (authorize_skill ports engine skill request h) as [[d|e] h1].
  2: { destruct (isinstance_exn _ _); [| discriminate H].
       by apply M_bind_Ok in H as (r1 & s1 & _ & [= _ _ _]). }
  destruct (new_ExecutionContext _ _ _) as [c1|e] eqn:Hc; [| discriminate H].
  pose proof (new_context_scene _ _ _ _ Hc) as Hs1.
  pose proof (unmoved_run_execution d statements allow
    (MkMachine c1 (Some (execution_recorder skill request)) h1) Hs1) as [(_ & Hs & Hq) Hset].
  destruct (run_execution _ _ _ _ _ _ _ _) as [r1 mc]. injection H as H _.
  apply bind_Ok in H as (r2 & _ & [= _ Hmc]%Ok_inj). cbn [snd] in *.
  rewrite Hmc in *. apply settled_fields in Hset as (E1 & E2 & E3 & E4 & E5 & E6).
  unfold new_ExecutionContext in Hc. apply bind_Ok in Hc as (i & Hi & [= <-]%Ok_inj). cbn in *.
  split; [done | | | done].
  - split; [by rewrite E1, Hq | by rewrite E2, Hq].
  - unfold ctx_business_operation_id. rewrite E1. cbn. by apply request_identity_Ok in Hi as ->.
Qed.
End Settled.

(** The two entry points, and the statements each runs. *)
Definition sealed_entry (controlled : bool) :=
  if controlled then execute_controlled_prefix else execute_checkpointed.

Definition entry_statements (controlled : bool) (skill : SkillObject) (l : list Statement) : Prop :=
  if controlled then exists plan, plan_from_skill skill = Ok plan /\ l = cp_prefix plan
  else l = sk_body skill.

Lemma sealed_entry_Ok ports engine controlled skill request clock coordinator h e h' :
  sealed_entry controlled ports engine skill request clock coordinator h = (Ok e, h') ->
  exists statements outcome recorder,
    is_Some (rq_business_operation_id request) /\ entry_statements controlled skill statements
    /\ _execute_with_context ports engine skill request clock statements controlled h
       = (Ok outcome, (recorder, h'))
    /\ seal_execution coordinator outcome = Ok e.
Proof.
  unfold sealed_entry. destruct controlled;
    unfold execute_controlled_prefix, execute_checkpointed, mbind, M_bind, fail_if, lift;
    (destruct (rq_business_operation_id request) as [b|]; [cbn [is_none raise_if] | discriminate]).
  - destruct (plan_from_skill skill) as [plan|x] eqn:Hp; [| discriminate].
    destruct (_execute_with_context _ _ _ _ _ _ _ _) as [[o|x] [rec h1]] eqn:He; [| discriminate].
    intros [= Hs <-]. exists (cp_prefix plan), o, rec.
    split; [by eexists |]. split; [by exists plan | done].
  - destruct (_execute_with_context _ _ _ _ _ _ _ _) as [[o|x] [rec h1]] eqn:He; [| discriminate].
    intros [= Hs <-]. exists (sk_body skill), o, rec. split; [by eexists | done].
Qed.

(** The sealed state of a completed execution. *)
Record sealed (skill : SkillObject) (request : ExecutionRequest) (version : string)
    (e : CheckpointedExecution) (c : ExecutionContext) (b : string) : Prop := {
  sl_fresh : fresh skill request c;
  sl_operation : rq_business_operation_id request = Some b;
  sl_checkpoint : ce_checkpoint e = Some (captured version c b);
  sl_result : xr_checks (ce_result e) = ctx_checks c /\ xr_outputs (ce_result e) = ctx_outputs c;
  sl_restores : state_ok c = true -> forall clock,
    restore version (captured version c b) skill request clock = Ok (restored clock c)
}.

(** A completed execution is sealed, and nothing else is: when a
    checkpointed execution, or the prefix of a controlled Skill, returns, it
    carries a checkpoint exactly when it completed. The checkpoint is the
    capture of the context the execution ended with, of this request and
    business operation, with the checks and outputs of the result and with
    nothing yet approved, reserved or written; and restoring it for the same
    Skill and request gives that context back, whatever the new clock. *)
Theorem checkpointed_execution_sealed (controlled : bool) (ports : EnginePorts)
    (engine : RuntimeEngine) (skill : SkillObject) (request : ExecutionRequest)
    (clock : nat -> Z) (coordinator : option string) (h h' : history)
    (e : CheckpointedExecution) :
  sealed_entry controlled ports engine skill request clock coordinator h = (Ok e, h') ->
  (xr_status (ce_result e) = COMPLETED /\
   exists c b, sealed skill request (default RUNTIME_VERSION coordinator) e c b)
  \/ (xr_status (ce_result e) ∈ [FAILED; TOOL_ERROR; LIMIT_EXCEEDED] /\ ce_checkpoint e = None).
Proof.
  intros (statements & [r context] & rec & _ & _ & He & Hs)%sealed_entry_Ok.
  pose proof (execution_audited _ _ _ _ _ _ _ _ _ _ _ He) as Hr. unfold seal_execution in Hs.
  set (version := default RUNTIME_VERSION coordinator) in *.
  destruct (bool_decide_reflect (xr_status r = COMPLETED)) as [Hc|Hc]; cbn [negb] in Hs.
  2: { right. apply bind_Ok in Hs as (u & _ & <-%Ok_inj). cbn.
       destruct context as [c|]; [destruct Hr as [(_ & Hr & _) | (_ & Hr & _)] | destruct Hr as (_ & Hr & _)];
         done. }
  left. destruct context as [c|]; [| discriminate Hs].
  destruct Hr as [(_ & _ & _ & H1 & H2 & _) | (_ & Hr & _)];
    [| exfalso; rewrite Hc in Hr; revert Hr; by apply (bool_decide_eq_false_1 (COMPLETED ∈ _))].
  apply executed_fresh in He. pose proof (capture_cases version c) as Hcap.
  apply bind_Ok in Hs as (checkpoint & Hcp & Hs). apply bind_Ok in Hs as (u & _ & <-%Ok_inj).
  destruct (capture version c) as [[cp|x] c'] eqn:E; [| discriminate Hcp].
  cbn in Hcp. injection Hcp as ->. destruct Hcap as (b & Hb & _ & -> & Hok & _).
  split; [done |]. exists c, b. destruct He as [[Hsk Hrq] Hco Hop Hst].
  split; [by split | congruence | done | done |].
  intros Hstate clock'. rewrite <- Hsk, <- Hrq. by apply restore_captured.
Qed.

(** ** Witnesses *)

Definition order_plan_write : WriteExpression :=
  MkWriteExpression "n-write" "po" [] "approve-po" STRING.

Definition order_skill : SkillObject :=
  MkSkillObject "1.1" "0.2" "purchase" "1.0.0" "R3" "NSL-0.2-STRICT" "sha256:none" ∅ [] []
    example_limits [] [] []
    [ApprovalStmt (MkApprovalStatement "n-approve" "approve-po" "Order?" (MkApprovalPolicy true None));
     LetStatement "n-let" "s-order" (write_expr order_plan_write);
     LetStatement "n-note" "s-note" (LiteralExpr "n-lit" (VStr "ordered") STRING)]
    (MkStaticAnalysis 0 0 0 true) (MkBuildMetadata "sha256:none" "main.nsl" []).

Definition order_context : ExecutionContext :=
  MkExecutionContext order_skill example_request (fun n => Z.of_nat n) 1 0
    (MkExecutionIdentity "exec-1" (Some "op-1"))
    (request_security_context example_request) ∅ ∅ [∅] [∅] [] [] zero_meter COMPLETE 0 0 None
    {["approve-po" := APPROVED]} [] (MkIdempotencyState ∅ ∅) default_CheckpointState.

Definition order_commit : WriteCommitDecision :=
  MkWriteCommitDecision COMPLETED (WriteCommitted committed_result)
    (MkWriteSummary COMMITTED "erp.create_po" "n-write" (wc_idempotency_key example_call_request)
       (wc_payload_hash example_call_request) (Some "tx-1") (Some "PO-7")) false false.

Definition order_verification : VerificationResult :=
  MkVerificationResult (wr_identity committed_result) COMMITTED V_NOT_REQUESTED "PO-7" None None
    None None.

Lemma controlled_completion_witness : exists x c' h',
  complete_controlled_execution stock_ports stock_engine "apr-1" order_commit
    (Some order_verification) (order_context, []) = (Ok x, (c', h'))
  /\ reports order_context c' "apr-1" order_commit (Some order_verification) x
  /\ resolve c' "s-note" = Ok (MkValueEnvelope (VStr "ordered") STRING PRESENT COMPLETE PUBLIC []).
Proof.
  destruct (complete_controlled_execution stock_ports stock_engine "apr-1" order_commit
    (Some order_verification) (order_context, [])) as [r [c' h']] eqn:E.
  assert (match (complete_controlled_execution stock_ports stock_engine "apr-1" order_commit
    (Some order_verification) (order_context, [])) with
    | (Ok _, (c', _)) => resolve c' "s-note"
    | (Err e, _) => Err e end
    = Ok (MkValueEnvelope (VStr "ordered") STRING PRESENT COMPLETE PUBLIC [])) as Hr
    by (vm_compute; reflexivity).
  rewrite E in Hr. destruct r as [x|e]; [| discriminate Hr].
  destruct (controlled_completion stock_ports stock_engine "apr-1" order_commit
    (Some order_verification) order_context c' [] h' (Ok x)) as (_ & _ & H);
    [by split | exact E |].
  exists x, c', h'. split; [done |]. split; [by apply H | exact Hr].
Defined.

Definition idle_checkpoint : ExecutionCheckpoint := captured RUNTIME_VERSION idle_context "op-1".

Lemma idle_sealed : sealed_entry false stock_ports stock_engine idle_skill stock_request clock_ns
    None [] = (Ok (MkCheckpointedExecution idle_result (Some idle_checkpoint)), idle_outcome.2.2).
Proof.
  unfold sealed_entry, execute_checkpointed, mbind, M_bind, fail_if, lift.
  cbn [rq_business_operation_id stock_request is_none raise_if].
  change (sk_body idle_skill) with (@nil Statement).
  change (_execute_with_context _ _ _ _ _ _ _ _) with idle_run. rewrite idle_run_eq.
  transitivity (seal_execution None (idle_result, Some idle_context), idle_outcome.2.2);
    [reflexivity |]. apply f_equal2; [| done].
  unfold seal_execution. cbn [default].
  rewrite (capture_Ok RUNTIME_VERSION idle_context "op-1"); [reflexivity | reflexivity | reflexivity |].
  unfold checkpoint_ok. apply andb_true_iff. split; [reflexivity | apply sha256_ref_ok].
Qed.

Lemma checkpointed_execution_sealed_witness :
  exists c b, sealed idle_skill stock_request RUNTIME_VERSION
                (MkCheckpointedExecution idle_result (Some idle_checkpoint)) c b.
Proof.
  destruct (checkpointed_execution_sealed false stock_ports stock_engine idle_skill stock_request
    clock_ns None [] idle_outcome.2.2 _ idle_sealed) as [[_ H] | [_ H]]; [exact H | discriminate H].
Defined.
