(* ===== verification/Source.v ===== *)
(** * Source files and diagnostics ([src/nsl/source.py], [src/nsl/diagnostics.py])

    What the front end works on, positions and spans of a source file, and what
    it reports: diagnostics with a code, a phase, a place and a redacted text,
    and the [CompileError] that carries one. *)

From S2P Require Import Prelude Digest Json JsonBoundary Values DataProtection.

(** ** Positions and spans *)

Record SourcePosition : Type := MkSourcePosition {
  sp_offset : nat;
  sp_line : nat;
  sp_column : nat
}.

#[export] Instance SourcePosition_eq_dec : EqDecision SourcePosition.
Proof. solve_decision. Defined.

(** An offset is a [nat], so only lines and columns are tested. *)
Definition SourcePosition_post_init (p : SourcePosition) : result unit :=
  raise_if ((sp_line p <? 1) || (sp_column p <? 1)) ValueError
    "source line and column must be positive".

Record SourceSpan : Type := MkSourceSpan {
  span_source_id : string;
  span_start : SourcePosition;
  span_end : SourcePosition
}.

#[export] Instance SourceSpan_eq_dec : EqDecision SourceSpan.
Proof. solve_decision. Defined.

Definition SourceSpan_post_init (s : SourceSpan) : result unit :=
  _ ← raise_if (String.eqb (span_source_id s) "") ValueError "source_id is required";
  raise_if (sp_offset (span_end s) <? sp_offset (span_start s)) ValueError
    "source span end must not precede start".

(** ** Source files *)

Record SourceFile : Type := MkSourceFile {
  source_id : string;
  logical_path : string;
  source_text : string;
  encoding : string
}.

(** [s.endswith(p)] and [s.lower().replace("_", "-")] on ASCII. *)
Definition endswith (s p : string) : bool :=
  let n := String.length s - String.length p in
  (String.length p <=? String.length s) && String.eqb (String.substring n (String.length p) s) p.

Definition encoding_name (s : string) : string :=
  text_of (map (fun c => if Ascii.eqb c "_" then "-"%char else Regex.lower c) (chars s)).

Definition SourceFile_post_init (f : SourceFile) : result unit :=
  _ ← raise_if (String.eqb (source_id f) "") ValueError "source_id is required";
  _ ← raise_if (negb (endswith (logical_path f) ".ns")) ValueError
        "NSL source logical_path must end with .ns";
  raise_if (negb (String.eqb (encoding_name (encoding f)) "utf-8")) ValueError
    "NSL source encoding must be UTF-8".

Definition new_SourceFile (id path text encoding : string) : result SourceFile :=
  let f := MkSourceFile id path text encoding in
  _ ← SourceFile_post_init f; Ok f.

Definition NUL : ascii := "000"%char.

Definition from_text (path text : string) (id : option string) : result SourceFile :=
  let resolved_id :=
    match id with
    | Some (String _ _ as i) => i
    | _ => ("source:" +:+ sha256_hex (utf8_encode (chars path ++ NUL :: chars text)))%string
    end in
  new_SourceFile resolved_id path text "utf-8".

(** [content.decode("utf-8-sig")] drops one byte order mark. *)
Definition drop_bom (b : bytes) : bytes :=
  match b with
  | "239"%char :: "187"%char :: "191"%char :: b' => b'
  | _ => b
  end.

Definition from_bytes (path : string) (content : bytes) (id : option string) : result SourceFile :=
  match utf8_decode (drop_bom content) with
  | None => raise ValueError "NSL source bytes must be valid UTF-8"
  | Some codes =>
      match narrow codes with
      | None => raise OutOfModel "code point above 255"
      | Some t => from_text path (text_of t) id
      end
  end.

(** [coerce_source(source)]: a source file, or a text that becomes one. *)
Definition coerce_source (source : string + SourceFile) : result SourceFile :=
  match source with
  | inr f => Ok f
  | inl text => new_SourceFile "memory:root" "memory/root.ns" text "utf-8"
  end.

(** ** [str.splitlines] *)
Definition LF : ascii := "010"%char.
Definition CR : ascii := "013"%char.

Definition is_line_break (c : ascii) : bool :=
  code_between 10 13 c || code_between 28 30 c || (char_code c =? 133).

Fixpoint splitlines (l : text) : list text :=
  match l with
  | [] => []
  | c :: l' =>
      if is_line_break c then
        [] :: match l' with
              | d :: l'' => if Ascii.eqb c CR && Ascii.eqb d LF then splitlines l''
                            else splitlines l'
              | [] => []
              end
      else match splitlines l' with
           | [] => [[c]]
           | w :: ws => (c :: w) :: ws
           end
  end.

(** [source_lines[line - 1]] *)
Definition source_line (t : text) (line : nat) : result string :=
  match splitlines t !! (line - 1) with
  | Some l => Ok (text_of l)
  | None => raise IndexError "list index out of range"
  end.

(** [lines[line - 1] if line <= len(lines) else None], and with a default *)
Definition snippet_at (t : text) (line : nat) : option string :=
  text_of <$> (splitlines t !! (line - 1)).

Definition source_line_or (d : string) (t : text) (line : nat) : string :=
  default d (snippet_at t line).

(** ** Diagnostics *)

Inductive DiagnosticPhase : Type := PHASE_LEXER | PHASE_PARSER | PHASE_INCLUDE | PHASE_SEMANTIC.

#[export] Instance DiagnosticPhase_eq_dec : EqDecision DiagnosticPhase.
Proof. solve_decision. Defined.

Inductive DiagnosticCode : Type :=
  | LEX_UNTERMINATED_ESCAPE | LEX_UNTERMINATED_STRING | LEX_UNEXPECTED_CHARACTER
  | LEX_LANGUAGE_HEADER_REQUIRED | LEX_MALFORMED_LANGUAGE_HEADER
  | LEX_UNSUPPORTED_LANGUAGE_VERSION | LEX_NON_LEADING_LANGUAGE_HEADER
  | LEX_DUPLICATE_LANGUAGE_HEADER | LEX_LANGUAGE_HEADER_LIMIT
  | PAR_EXPECTED_TOKEN | PAR_EXPECTED_TOKEN_KIND | PAR_UNKNOWN_TYPE
  | PAR_UNKNOWN_CLASSIFICATION | PAR_REQUIRED_METADATA | PAR_INVALID_LIMIT_FIELDS
  | PAR_NON_POSITIVE_LIMIT | PAR_NON_POSITIVE_FOREACH_LIMIT | PAR_UNEXPECTED_STATEMENT
  | PAR_EXPECTED_EXPRESSION | PAR_UNEXPECTED_FRAGMENT_DECLARATION
  | SEM_UNKNOWN_IDENTIFIER | SEM_DUPLICATE_SYMBOL | SEM_UNSUPPORTED_LANGUAGE_VERSION
  | SEM_UNSUPPORTED_RISK | SEM_UNKNOWN_FIELD | SEM_UNSUPPORTED_BUILTIN
  | SEM_UNDECLARED_TOOL | SEM_DUPLICATE_TOOL | SEM_INCLUDE_REQUIRES_COMPOSITION
  | INC_CYCLE | INC_PATH_OUTSIDE_ROOT | INC_DEPTH_LIMIT | INC_FILE_LIMIT
  | INC_BUNDLE_SIZE_LIMIT | INC_TOOL_VERSION_CONFLICT | INC_DUPLICATE_CONTEXT
  | INC_DUPLICATE_LIMIT | INC_RESOLUTION_FAILED | INC_REQUIRED_LIMITS_MISSING
  | SEM_BINARY_TYPE | SEM_FOREACH_COLLECTION_TYPE | SEM_CHECK_CONDITION_TYPE
  | SEM_SUM_ARGUMENT_TYPE | SEM_TOOL_ARGUMENT_TYPE
  | SEM_UNKNOWN_TOOL_CONTRACT | SEM_INCOMPATIBLE_TOOL_VERSION | TOOL_EXECUTION_FAILURE
  | SEM_TOOL_ARGUMENTS
  | SEM_WRITE_TOOL_FORBIDDEN | SEM_UNKNOWN_APPROVAL | SEM_APPROVAL_ORDER
  | SEM_APPROVAL_WRITE_NOT_ONE_TO_ONE | SEM_UNUSED_APPROVAL | SEM_APPROVAL_SCOPE
  | AUTHORIZATION_DENIED | REPLAY_ACCESS_DENIED
  | SEM_WRITE_CAPABILITY_REQUIRED | SEM_WRITE_ATOMICITY_REQUIRED
  | SEM_WRITE_IDEMPOTENCY_REQUIRED | SEM_UNSUPPORTED_WRITE_OPERATION
  | SEM_WRITE_RISK_METADATA_REQUIRED
  | RESOURCE_LIMIT_EXCEEDED | SEM_TOOL_CALL_BOUND | SEM_LOOP_BOUND | SEM_EMIT_BOUND
  | SEM_UNBOUNDED_STRUCTURE
  | SEM_EMIT_SCHEMA | SEM_OUTPUT_TYPE | SEM_OUTPUT_CLASSIFICATION
  | RUNTIME_EVALUATION | RUNTIME_UNEXPECTED.

#[export] Instance DiagnosticCode_eq_dec : EqDecision DiagnosticCode.
Proof. solve_decision. Defined.

(** Two members of an [Enum] with one value are one member under two names. *)
Definition SEM_WRITE_IN_FOREACH : DiagnosticCode := AUTHORIZATION_DENIED.
Definition SEM_TOO_MANY_WRITES : DiagnosticCode := REPLAY_ACCESS_DENIED.

Definition code_value (c : DiagnosticCode) : string :=
  match c with
  | LEX_UNTERMINATED_ESCAPE => "NSL-E1001"
  | LEX_UNTERMINATED_STRING => "NSL-E1002"
  | LEX_UNEXPECTED_CHARACTER => "NSL-E1003"
  | LEX_LANGUAGE_HEADER_REQUIRED => "NSL-E1004"
  | LEX_MALFORMED_LANGUAGE_HEADER => "NSL-E1005"
  | LEX_UNSUPPORTED_LANGUAGE_VERSION => "NSL-E1006"
  | LEX_NON_LEADING_LANGUAGE_HEADER => "NSL-E1007"
  | LEX_DUPLICATE_LANGUAGE_HEADER => "NSL-E1008"
  | LEX_LANGUAGE_HEADER_LIMIT => "NSL-E1009"
  | PAR_EXPECTED_TOKEN => "NSL-E1101"
  | PAR_EXPECTED_TOKEN_KIND => "NSL-E1102"
  | PAR_UNKNOWN_TYPE => "NSL-E1103"
  | PAR_UNKNOWN_CLASSIFICATION => "NSL-E1104"
  | PAR_REQUIRED_METADATA => "NSL-E1105"
  | PAR_INVALID_LIMIT_FIELDS => "NSL-E1106"
  | PAR_NON_POSITIVE_LIMIT => "NSL-E1107"
  | PAR_NON_POSITIVE_FOREACH_LIMIT => "NSL-E1108"
  | PAR_UNEXPECTED_STATEMENT => "NSL-E1109"
  | PAR_EXPECTED_EXPRESSION => "NSL-E1110"
  | PAR_UNEXPECTED_FRAGMENT_DECLARATION => "NSL-E1111"
  | SEM_UNKNOWN_IDENTIFIER => "NSL-E2001"
  | SEM_DUPLICATE_SYMBOL => "NSL-E2002"
  | SEM_UNSUPPORTED_LANGUAGE_VERSION => "NSL-E2003"
  | SEM_UNSUPPORTED_RISK => "NSL-E2004"
  | SEM_UNKNOWN_FIELD => "NSL-E2005"
  | SEM_UNSUPPORTED_BUILTIN => "NSL-E2006"
  | SEM_UNDECLARED_TOOL => "NSL-E2201"
  | SEM_DUPLICATE_TOOL => "NSL-E2202"
  | SEM_INCLUDE_REQUIRES_COMPOSITION => "NSL-E2300"
  | INC_CYCLE => "NSL-E2301"
  | INC_PATH_OUTSIDE_ROOT => "NSL-E2302"
  | INC_DEPTH_LIMIT => "NSL-E2303"
  | INC_FILE_LIMIT => "NSL-E2304"
  | INC_BUNDLE_SIZE_LIMIT => "NSL-E2305"
  | INC_TOOL_VERSION_CONFLICT => "NSL-E2306"
  | INC_DUPLICATE_CONTEXT => "NSL-E2307"
  | INC_DUPLICATE_LIMIT => "NSL-E2308"
  | INC_RESOLUTION_FAILED => "NSL-E2309"
  | INC_REQUIRED_LIMITS_MISSING => "NSL-E2310"
  | SEM_BINARY_TYPE => "NSL-E3001"
  | SEM_FOREACH_COLLECTION_TYPE => "NSL-E3002"
  | SEM_CHECK_CONDITION_TYPE => "NSL-E3003"
  | SEM_SUM_ARGUMENT_TYPE => "NSL-E3004"
  | SEM_TOOL_ARGUMENT_TYPE => "NSL-E3005"
  | SEM_UNKNOWN_TOOL_CONTRACT => "NSL-E4001"
  | SEM_INCOMPATIBLE_TOOL_VERSION => "NSL-E4002"
  | TOOL_EXECUTION_FAILURE => "NSL-E4101"
  | SEM_TOOL_ARGUMENTS => "NSL-E4201"
  | SEM_WRITE_TOOL_FORBIDDEN => "NSL-E5001"
  | SEM_UNKNOWN_APPROVAL => "NSL-E5301"
  | SEM_APPROVAL_ORDER => "NSL-E5302"
  | SEM_APPROVAL_WRITE_NOT_ONE_TO_ONE => "NSL-E5303"
  | SEM_UNUSED_APPROVAL => "NSL-E5304"
  | SEM_APPROVAL_SCOPE => "NSL-E5305"
  | AUTHORIZATION_DENIED => "NSL-E5201"
  | REPLAY_ACCESS_DENIED => "NSL-E5202"
  | SEM_WRITE_CAPABILITY_REQUIRED => "NSL-E5401"
  | SEM_WRITE_ATOMICITY_REQUIRED => "NSL-E5402"
  | SEM_WRITE_IDEMPOTENCY_REQUIRED => "NSL-E5403"
  | SEM_UNSUPPORTED_WRITE_OPERATION => "NSL-E5404"
  | SEM_WRITE_RISK_METADATA_REQUIRED => "NSL-E5405"
  | RESOURCE_LIMIT_EXCEEDED => "NSL-E6001"
  | SEM_TOOL_CALL_BOUND => "NSL-E6101"
  | SEM_LOOP_BOUND => "NSL-E6102"
  | SEM_EMIT_BOUND => "NSL-E6103"
  | SEM_UNBOUNDED_STRUCTURE => "NSL-E6104"
  | SEM_EMIT_SCHEMA => "NSL-E7001"
  | SEM_OUTPUT_TYPE => "NSL-E7002"
  | SEM_OUTPUT_CLASSIFICATION => "NSL-E7003"
  | RUNTIME_EVALUATION => "NSL-E8001"
  | RUNTIME_UNEXPECTED => "NSL-E8002"
  end.

Record SourceLocation : Type := MkSourceLocation { loc_line : nat; loc_column : nat }.

#[export] Instance SourceLocation_eq_dec : EqDecision SourceLocation.
Proof. solve_decision. Defined.

Definition SourceLocation_post_init (l : SourceLocation) : result unit :=
  raise_if ((loc_line l <? 1) || (loc_column l <? 1)) ValueError
    "source line and column must be positive".

Record Diagnostic : Type := MkDiagnostic {
  diag_code : DiagnosticCode;
  diag_phase : DiagnosticPhase;
  diag_message : string;
  diag_location : option SourceLocation;
  diag_snippet : option string;
  diag_logical_path : option string
}.

#[export] Instance Diagnostic_eq_dec : EqDecision Diagnostic.
Proof. solve_decision. Defined.

(** The constructor redacts every text it is given. *)
Definition new_Diagnostic code phase message location (snippet path : option string) : Diagnostic :=
  MkDiagnostic code phase (redact_text message []) location
    ((fun s => redact_text s []) <$> snippet) ((fun s => redact_text s []) <$> path).

(** [CompileError.__str__] *)
Definition rendered (d : Diagnostic) : string :=
  ("[" +:+ code_value (diag_code d) +:+ "] " +:+ diag_message d
   +:+ match diag_location d with
       | Some l => " at " +:+ str_of_nat (loc_line l) +:+ ":" +:+ str_of_nat (loc_column l)
       | None => ""
       end
   +:+ match diag_logical_path d with Some p => " in " +:+ p | None => "" end
   +:+ match diag_snippet d with Some s => String LF s | None => "" end)%string.

(** [CompileError(diagnostic)], an exception with the code of the diagnostic. *)
Definition error_from_diagnostic (d : Diagnostic) : exn :=
  Exn CompileError (code_value (diag_code d)) (rendered d).

Definition compile_error code phase message location snippet path : exn :=
  error_from_diagnostic (new_Diagnostic code phase message location snippet path).

(** ** Lines *)

(** The lines of a text hold its characters but for the line breaks. *)
Lemma splitlines_chars l : concat (splitlines l) = List.filter (fun c => negb (is_line_break c)) l.
Proof.
  assert (forall n l, length l <= n ->
    concat (splitlines l) = List.filter (fun c => negb (is_line_break c)) l) as H.
  { clear l. induction n as [|n IH]; intros [|c l] Hn; cbn [length] in Hn; try (done || lia).
    cbn [splitlines List.filter]. destruct (is_line_break c) eqn:Hc; cbn [negb].
    - destruct l as [|d l]; [done |]. cbn [length concat app] in *.
      destruct (Ascii.eqb c CR && Ascii.eqb d LF) eqn:E; [| by rewrite IH by (cbn; lia)].
      apply andb_true_iff in E as [_ ->%Ascii.eqb_eq]. cbn [List.filter].
      change (negb (is_line_break LF)) with false. cbn iota. apply IH. lia.
    - rewrite <- IH by lia. by destruct (splitlines l). }
  by eapply H.
Qed.

Example splitlines_ex :
  splitlines (chars "a" ++ [CR; LF] ++ chars "bc" ++ [LF; LF] ++ chars "d")
  = [chars "a"; chars "bc"; []; chars "d"].
Proof. reflexivity. Qed.
Example rendered_ex :
  ex_msg (compile_error PAR_EXPECTED_TOKEN PHASE_PARSER "expected ';', got 'x'"
            (Some (MkSourceLocation 3 7)) (Some "let a = 1 x") (Some "memory/root.ns"))
  = ("[NSL-E1101] expected ';', got 'x' at 3:7 in memory/root.ns"
     +:+ String LF "let a = 1 x")%string.
Proof. vm_compute. reflexivity. Qed.
