(* ===== verification/Lexer.v ===== *)
(** * Tokens and the lexer ([src/nsl/syntax.py])

    The language header scanner and the lexer. A scan works on a position and
    on the text from that position on; [scan_one] is the body of the loop of
    [Lexer.scan]. *)

From S2P Require Import Prelude Digest Json JsonBoundary Values DataProtection Source.

(** ** Tokens *)

Inductive TokenCategory : Type :=
  | CATEGORY_KEYWORD | CATEGORY_IDENTIFIER | CATEGORY_LITERAL | CATEGORY_OPERATOR
  | CATEGORY_DELIMITER | CATEGORY_END.

Inductive ParseMode : Type := ROOT_SKILL | INCLUDE_FRAGMENT.

Inductive SourceLanguageVersion : Type := V0_1 | V0_2.

#[export] Instance SourceLanguageVersion_eq_dec : EqDecision SourceLanguageVersion.
Proof. solve_decision. Defined.

Definition version_value (v : SourceLanguageVersion) : string :=
  match v with V0_1 => "0.1" | V0_2 => "0.2" end.

(** [SourceLanguageVersion(value)] *)
Definition SourceLanguageVersion_of (value : string) : option SourceLanguageVersion :=
  if String.eqb value "0.1" then Some V0_1
  else if String.eqb value "0.2" then Some V0_2 else None.

Record LanguageHeader : Type := MkLanguageHeader {
  header_version : SourceLanguageVersion;
  header_span : SourceSpan;
  version_span : SourceSpan
}.

Inductive TokenKind : Type :=
  | T_KEYWORD | T_IDENTIFIER | T_STRING | T_INTEGER | T_DECIMAL | T_BOOLEAN | T_DURATION
  | T_LBRACE | T_RBRACE | T_LPAREN | T_RPAREN | T_COLON | T_SEMICOLON | T_COMMA | T_DOT
  | T_ASSIGN
  | T_PLUS | T_MINUS | T_STAR | T_SLASH | T_EQ | T_NE | T_LT | T_LE | T_GT | T_GE
  | T_EOF.

#[export] Instance TokenKind_eq_dec : EqDecision TokenKind.
Proof. solve_decision. Defined.

Definition kind_value (k : TokenKind) : string :=
  match k with
  | T_KEYWORD => "KEYWORD" | T_IDENTIFIER => "IDENTIFIER" | T_STRING => "STRING"
  | T_INTEGER => "INTEGER" | T_DECIMAL => "DECIMAL" | T_BOOLEAN => "BOOLEAN"
  | T_DURATION => "DURATION" | T_LBRACE => "LBRACE" | T_RBRACE => "RBRACE"
  | T_LPAREN => "LPAREN" | T_RPAREN => "RPAREN" | T_COLON => "COLON"
  | T_SEMICOLON => "SEMICOLON" | T_COMMA => "COMMA" | T_DOT => "DOT"
  | T_ASSIGN => "ASSIGN" | T_PLUS => "PLUS" | T_MINUS => "MINUS" | T_STAR => "STAR"
  | T_SLASH => "SLASH" | T_EQ => "EQ" | T_NE => "NE" | T_LT => "LT" | T_LE => "LE"
  | T_GT => "GT" | T_GE => "GE" | T_EOF => "EOF"
  end.

(** The [Any] of a token: a [str], the milliseconds of a duration, a [bool]. *)
Inductive TokenValue : Type := TText (s : string) | TInt (z : Z) | TBool (b : bool).

#[export] Instance TokenValue_eq_dec : EqDecision TokenValue.
Proof. solve_decision. Defined.

Record Token : Type := MkToken {
  tok_kind : TokenKind;
  tok_value : TokenValue;
  tok_lexeme : string;
  tok_span : SourceSpan
}.

#[export] Instance Token_eq_dec : EqDecision Token.
Proof. solve_decision. Defined.

Definition tok_line (t : Token) : nat := sp_line (span_start (tok_span t)).
Definition tok_column (t : Token) : nat := sp_column (span_start (tok_span t)).

Definition category (t : Token) : TokenCategory :=
  match tok_kind t with
  | T_KEYWORD => CATEGORY_KEYWORD
  | T_IDENTIFIER => CATEGORY_IDENTIFIER
  | T_STRING | T_INTEGER | T_DECIMAL | T_BOOLEAN | T_DURATION => CATEGORY_LITERAL
  | T_PLUS | T_MINUS | T_STAR | T_SLASH | T_EQ | T_NE | T_LT | T_LE | T_GT | T_GE =>
      CATEGORY_OPERATOR
  | T_EOF => CATEGORY_END
  | _ => CATEGORY_DELIMITER
  end.

Record LexResult : Type := MkLexResult {
  lex_tokens : list Token;
  lex_diagnostics : list Diagnostic
}.

(** ** Characters *)

(** [c.isdigit()] on code points below 256: the digits and superscripts. *)
Definition py_isdigit (c : ascii) : bool :=
  is_digit c || bool_decide (char_code c ∈ [178; 179; 185]).

Definition is_letter (c : ascii) : bool := is_upper c || is_lower c.

(** [c == "_" or (c.isascii() and c.isalnum())] *)
Definition is_identifier_char (c : ascii) : bool :=
  Ascii.eqb c "_" || is_letter c || is_digit c.

Definition is_identifier_start (c : ascii) : bool := is_letter c || Ascii.eqb c "_".

(** [c in " \t\r"] and [c in " \t\r\n"] *)
Definition is_blank (c : ascii) : bool := bool_decide (char_code c ∈ [32; 9; 13]).
Definition is_trivia (c : ascii) : bool := is_blank c || Ascii.eqb c LF.

Fixpoint take_while (p : ascii -> bool) (l : text) : text * text :=
  match l with
  | c :: l' => if p c then let q := take_while p l' in (c :: q.1, q.2) else ([], l)
  | [] => ([], [])
  end.

(** The end of a word: [text] does not go on with an identifier character. *)
Definition at_word_end (l : text) : bool :=
  match l with c :: _ => negb (is_identifier_char c) | [] => true end.

(** [int(text)] on a text of [isdigit] characters; the interpreter refuses more
    than 4300 of them. *)
Definition py_int (s : string) : result Z :=
  match chars s with
  | [] => raise ValueError "invalid literal for int() with base 10: ''"
  | l => if forallb is_digit l then
           _ ← raise_if (default_max_str_digits <? length l) ValueError
                 ("Exceeds the limit (4300 digits) for integer string conversion: value has "
                  +:+ str_of_nat (length l)
                  +:+ " digits; use sys.set_int_max_str_digits() to increase the limit");
           Ok (Z.of_N (parse_digits l 0).1)
         else if forallb py_isdigit l then
           raise ValueError ("invalid literal for int() with base 10: " +:+ py_repr s)
         else raise OutOfModel "a numeral with other characters"
  end.

(** ** Positions: [index += n; column += n] and [index += 1; line += 1] *)
Definition columns (n : nat) (p : SourcePosition) : SourcePosition :=
  MkSourcePosition (sp_offset p + n) (sp_line p) (sp_column p + n).
Definition new_line (p : SourcePosition) : SourcePosition :=
  MkSourcePosition (S (sp_offset p)) (S (sp_line p)) 1.
Definition over (p : SourcePosition) (c : ascii) : SourcePosition :=
  if Ascii.eqb c LF then new_line p else columns 1 p.
Definition origin : SourcePosition := MkSourcePosition 0 1 1.

(** ** The language header scanner *)
Module LanguageHeaderScanner.
Definition MAX_HEADER_BYTES : nat := 4096.

Record state : Type := State {
  at_position : SourcePosition;
  previous : option ascii;
  rest : text;
  scanned_bytes : nat
}.

Section Scanner.
Variable source_file : SourceFile.
Let all_text : text := chars (source_text source_file).

Definition header_error (code : DiagnosticCode) (message : string) (p : SourcePosition) : exn :=
  compile_error code PHASE_LEXER message (Some (MkSourceLocation (sp_line p) (sp_column p)))
    (Some (source_line_or "" all_text (sp_line p))) (Some (logical_path source_file)).

Definition position : M state SourcePosition := s ← get; mret (at_position s).

(** [raise fail(code, message)] *)
Definition fail_here {A} (code : DiagnosticCode) (message : string) : M state A :=
  p ← position; lift (Err (header_error code message p)).

Definition advance (enforce_limit : bool) : M state unit :=
  s ← get;
  match rest s with
  | [] => fail IndexError "string index out of range"
  | c :: l =>
      _ ← modify (fun s => State (over (at_position s) c) (Some c) l
                             (scanned_bytes s + length (utf8_char c)));
      s ← get;
      if enforce_limit && (MAX_HEADER_BYTES <? scanned_bytes s) then
        fail_here LEX_LANGUAGE_HEADER_LIMIT
          "language declaration exceeds the bounded header scan limit"
      else mret tt
  end.

Definition at_limit (enforce_limit : bool) (s : state) : bool :=
  negb enforce_limit && (MAX_HEADER_BYTES <=? scanned_bytes s).

(** The inner loop over a comment; it says whether the scan stops there. *)
Fixpoint skip_comment (fuel : nat) (enforce_limit : bool) : M state bool :=
  s ← get;
  match fuel, rest s with
  | S n, c :: _ =>
      if Ascii.eqb c LF then mret false
      else if at_limit enforce_limit s then mret true
      else _ ← advance enforce_limit; skip_comment n enforce_limit
  | _, _ => mret false
  end.

Fixpoint skip_loop (fuel : nat) (enforce_limit : bool) : M state unit :=
  s ← get;
  match fuel, rest s with
  | S n, c :: _ =>
      if is_trivia c then
        if at_limit enforce_limit s then mret tt
        else _ ← advance enforce_limit; skip_loop n enforce_limit
      else match strip (chars "//") (rest s) with
           | Some _ =>
               stop ← skip_comment (length (rest s)) enforce_limit;
               if stop : bool then mret tt else skip_loop n enforce_limit
           | None => mret tt
           end
  | _, _ => mret tt
  end.

(** A round of the loop consumes a character. *)
Definition skip_trivia (enforce_limit : bool) : M state unit :=
  s ← get; skip_loop (S (length (rest s))) enforce_limit.

Definition matches (value : string) (l : text) : bool :=
  match strip (chars value) l with Some l' => at_word_end l' | None => false end.

Definition matches_word (value : string) : M state bool :=
  s ← get; mret (matches value (rest s)).

Definition is_boundary (c : option ascii) : bool :=
  match c with Some c => negb (is_identifier_char c) | None => true end.

Fixpoint contains_word (value : string) (before : option ascii) (bytes : nat) (l : text) : bool :=
  match l with
  | [] => false
  | c :: l' =>
      let char_bytes := length (utf8_char c) in
      if MAX_HEADER_BYTES <? bytes + char_bytes then false
      else if is_boundary before && matches value l then true
      else contains_word value (Some c) (bytes + char_bytes) l'
  end.

Definition contains_word_within_limit (value : string) : M state bool :=
  s ← get; mret (contains_word value (previous s) (scanned_bytes s) (rest s)).

Definition malformed (expected : string) : string :=
  "malformed language declaration: expected " +:+ py_repr expected.

Fixpoint advance_over (l : text) : M state unit :=
  match l with
  | [] => mret tt
  | _ :: l => _ ← advance true; advance_over l
  end.

Definition expect_word (value : string) : M state unit :=
  b ← matches_word value;
  if b : bool then advance_over (chars value)
  else fail_here LEX_MALFORMED_LANGUAGE_HEADER (malformed value).

Definition expect_char (c : ascii) : M state unit :=
  s ← get;
  match rest s with
  | d :: _ => if Ascii.eqb d c then advance true
              else fail_here LEX_MALFORMED_LANGUAGE_HEADER (malformed (text_of [c]))
  | [] => fail_here LEX_MALFORMED_LANGUAGE_HEADER (malformed (text_of [c]))
  end.

(** The characters of the version string up to its closing quote. *)
Fixpoint version_string (fuel : nat) : M state text :=
  s ← get;
  match fuel, rest s with
  | S n, c :: _ =>
      if Ascii.eqb c quote then mret []
      else if bool_decide (c ∈ [CR; LF; backslash]) then
        fail_here LEX_MALFORMED_LANGUAGE_HEADER
          "malformed language declaration version string"
      else _ ← advance true; l ← version_string n; mret (c :: l)
  | _, _ => mret []
  end.

Definition header_required : M state unit :=
  b ← contains_word_within_limit "language";
  if b : bool then
    fail_here LEX_NON_LEADING_LANGUAGE_HEADER
      "language declaration must be the first non-comment declaration"
  else fail_here LEX_LANGUAGE_HEADER_REQUIRED "language declaration is required".

Definition scan_header : M state LanguageHeader :=
  _ ← skip_trivia true;
  header_start ← position;
  b ← matches_word "language";
  _ ← (if b : bool then mret tt else header_required);
  _ ← expect_word "language";
  _ ← skip_trivia true;
  _ ← expect_word "NSL";
  _ ← skip_trivia true;
  version_start ← position;
  _ ← expect_char quote;
  s ← get;
  version_chars ← version_string (S (length (rest s)));
  s ← get;
  _ ← match rest s with
      | [] => fail_here LEX_MALFORMED_LANGUAGE_HEADER
                "malformed language declaration: unterminated version string"
      | _ => mret tt
      end;
  _ ← expect_char quote;
  version_end ← position;
  _ ← skip_trivia true;
  _ ← expect_char ";";
  header_end ← position;
  version ← match SourceLanguageVersion_of (text_of version_chars) with
            | Some v => mret v
            | None => lift (Err (header_error LEX_UNSUPPORTED_LANGUAGE_VERSION
                        ("unsupported NSL version: " +:+ text_of version_chars) version_start))
            end;
  _ ← skip_trivia false;
  duplicate ← matches_word "language";
  if duplicate : bool then
    fail_here LEX_DUPLICATE_LANGUAGE_HEADER "duplicate language declaration"
  else mret (MkLanguageHeader version
               (MkSourceSpan (source_id source_file) header_start header_end)
               (MkSourceSpan (source_id source_file) version_start version_end)).

Definition scan : result LanguageHeader :=
  (scan_header (State origin None all_text 0)).1.
End Scanner.
End LanguageHeaderScanner.

(** ** The lexer *)
Module Lexer.

Definition _V0_1_KEYWORDS : list string :=
  ["language"; "skill"; "version"; "description"; "risk"; "include"; "requires"; "limits";
   "input"; "context"; "output"; "tool"; "let"; "read"; "foreach"; "in"; "max"; "check";
   "assert"; "severity"; "on_fail"; "message"; "emit"].

Definition _KEYWORDS_BY_VERSION (v : SourceLanguageVersion) : list string :=
  match v with
  | V0_1 => _V0_1_KEYWORDS
  | V0_2 => _V0_1_KEYWORDS ++ ["write"; "approve"; "approved_by"]
  end.

Definition _TWO_CHAR : list (string * TokenKind) :=
  [("<=", T_LE); (">=", T_GE); ("==", T_EQ); ("!=", T_NE)].

Definition _SINGLE : list (string * TokenKind) :=
  [("{", T_LBRACE); ("}", T_RBRACE); ("(", T_LPAREN); (")", T_RPAREN); (":", T_COLON);
   (";", T_SEMICOLON); (",", T_COMMA); (".", T_DOT); ("=", T_ASSIGN); ("+", T_PLUS);
   ("-", T_MINUS); ("*", T_STAR); ("/", T_SLASH); ("<", T_LT); (">", T_GT)].

(** [escapes.get(c, c)] *)
Definition unescaped (c : ascii) : ascii :=
  if Ascii.eqb c "n" then LF
  else if Ascii.eqb c "r" then CR
  else if Ascii.eqb c "t" then "009"%char
  else c.

(** How the body of a string ends: at its closing quote, with the text from
    there on, or at the end of the input, after a backslash or not. *)
Inductive string_end : Type := Closed (l : text) | UnterminatedEscape | Unterminated.

Fixpoint string_body (p : SourcePosition) (l : text) : text * SourcePosition * string_end :=
  match l with
  | [] => ([], p, Unterminated)
  | c :: l' =>
      if Ascii.eqb c quote then ([], p, Closed l')
      else if Ascii.eqb c backslash then
        match l' with
        | [] => ([], columns 1 p, UnterminatedEscape)
        | d :: l'' =>
            let '(value, q, e) := string_body (over (columns 1 p) d) l'' in
            (unescaped d :: value, q, e)
        end
      else let '(value, q, e) := string_body (over p c) l' in (c :: value, q, e)
  end.

(** The unit of a duration, with its multiplier and the text after it. *)
Definition duration_unit (l : text) : option (string * Z * text) :=
  let unit_at u m :=
    match strip (chars u) l with
    | Some r => if at_word_end r then Some (u, m, r) else None
    | None => None
    end in
  match unit_at "ms" 1%Z with
  | Some x => Some x
  | None => match unit_at "s" 1000%Z with
            | Some x => Some x
            | None => unit_at "m" 60000%Z
            end
  end.

(** What a round of the loop of [scan] does: skip, produce a token, report a
    diagnostic and go on, or report one and stop. *)
Inductive scanned : Type :=
  | Skipped | Scanned (t : Token) | Reported (d : Diagnostic) | Stopped (d : Diagnostic).

Section Scan.
Variable source_file : SourceFile.
Variable keywords : list string.
Let all_text : text := chars (source_text source_file).

Definition token (kind : TokenKind) (value : TokenValue) (lexeme : text)
    (p q : SourcePosition) : Token :=
  MkToken kind value (text_of lexeme) (MkSourceSpan (source_id source_file) p q).

Definition lexer_diagnostic (code : DiagnosticCode) (message : string) (p : SourcePosition)
  : result Diagnostic :=
  line ← source_line all_text (sp_line p);
  Ok (new_Diagnostic code PHASE_LEXER message
        (Some (MkSourceLocation (sp_line p) (sp_column p))) (Some line)
        (Some (logical_path source_file))).

Definition scan_string (p : SourcePosition) (l : text)
  : result (scanned * SourcePosition * text) :=
  let '(value, q, e) := string_body (columns 1 p) l in
  match e with
  | Closed r =>
      let q := columns 1 q in
      Ok (Scanned (token T_STRING (TText (text_of value))
                     (take (sp_offset q - sp_offset p) (quote :: l)) p q), q, r)
  | UnterminatedEscape =>
      d ← lexer_diagnostic LEX_UNTERMINATED_ESCAPE "unterminated string escape" q;
      Ok (Stopped d, q, [])
  | Unterminated =>
      d ← lexer_diagnostic LEX_UNTERMINATED_STRING "unterminated string" p;
      Ok (Stopped d, q, [])
  end.

Definition numeral (p : SourcePosition) (kind : TokenKind) (value : TokenValue)
    (lexeme r : text) : scanned * SourcePosition * text :=
  let q := columns (length lexeme) p in (Scanned (token kind value lexeme p q), q, r).

Definition scan_number (p : SourcePosition) (l : text)
  : result (scanned * SourcePosition * text) :=
  let '(digits, r) := take_while py_isdigit l in
  let integer :=
    match duration_unit r with
    | Some (unit_, multiplier, r) =>
        value ← py_int (text_of digits);
        Ok (numeral p T_DURATION (TInt (value * multiplier)) (digits ++ chars unit_) r)
    | None => Ok (numeral p T_INTEGER (TText (text_of digits)) digits r)
    end in
  match r with
  | c :: (d :: _) as tail =>
      if Ascii.eqb c "." && py_isdigit d then
        let '(fraction, r) := take_while py_isdigit tail in
        let lexeme := digits ++ c :: fraction in
        Ok (numeral p T_DECIMAL (TText (text_of lexeme)) lexeme r)
      else integer
  | _ => integer
  end.

Definition scan_word (p : SourcePosition) (l : text) : scanned * SourcePosition * text :=
  let '(w, r) := take_while is_identifier_char l in
  let lexeme := text_of w in
  let q := columns (length w) p in
  let '(kind, value) :=
    if bool_decide (lexeme ∈ ["true"; "false"])
    then (T_BOOLEAN, TBool (String.eqb lexeme "true"))
    else if bool_decide (lexeme ∈ keywords) then (T_KEYWORD, TText lexeme)
    else (T_IDENTIFIER, TText lexeme) in
  (Scanned (token kind value w p q), q, r).

(** [text[index : index + n] in table] *)
Definition symbol (n : nat) (table : list (string * TokenKind)) (l : text)
  : option (TokenKind * text * text) :=
  match assoc (text_of (take n l)) table with
  | Some k => Some (k, take n l, drop n l)
  | None => None
  end.

Definition scan_symbol (p : SourcePosition) (k : TokenKind) (w r : text)
  : scanned * SourcePosition * text :=
  let q := columns (length w) p in
  (Scanned (token k (TText (text_of w)) w p q), q, r).

Definition scan_one (p : SourcePosition) (c : ascii) (l : text)
  : result (scanned * SourcePosition * text) :=
  if is_blank c then Ok (Skipped, columns 1 p, l)
  else if Ascii.eqb c LF then Ok (Skipped, new_line p, l)
  else if bool_decide (take 2 (c :: l) = chars "//") then
    let '(w, r) := take_while (fun d => negb (Ascii.eqb d LF)) (c :: l) in
    Ok (Skipped, columns (length w) p, r)
  else if Ascii.eqb c quote then scan_string p l
  else if py_isdigit c then scan_number p (c :: l)
  else if is_identifier_start c then Ok (scan_word p (c :: l))
  else match symbol 2 _TWO_CHAR (c :: l) with
       | Some (k, w, r) => Ok (scan_symbol p k w r)
       | None =>
           match symbol 1 _SINGLE (c :: l) with
           | Some (k, w, r) => Ok (scan_symbol p k w r)
           | None =>
               d ← lexer_diagnostic LEX_UNEXPECTED_CHARACTER
                     ("unexpected character " +:+ py_repr (text_of [c])) p;
               Ok (Reported d, columns 1 p, l)
           end
       end.

Definition eof_token (p : SourcePosition) : Token := token T_EOF (TText "<eof>") [] p p.

Definition out_of_fuel {A} : result A := Err (Exn OutOfModel "FUEL" "").

(** The loop of [scan]; every round consumes a character. *)
Fixpoint scan_loop (fuel : nat) (p : SourcePosition) (l : text) : result LexResult :=
  match l with
  | [] => Ok (MkLexResult [eof_token p] [])
  | c :: l' =>
      match fuel with
      | O => out_of_fuel
      | S n =>
          x ← scan_one p c l';
          let '(o, q, r) := x in
          match o with
          | Stopped d => Ok (MkLexResult [eof_token q] [d])
          | Skipped => scan_loop n q r
          | Scanned t =>
              y ← scan_loop n q r; Ok (MkLexResult (t :: lex_tokens y) (lex_diagnostics y))
          | Reported d =>
              y ← scan_loop n q r; Ok (MkLexResult (lex_tokens y) (d :: lex_diagnostics y))
          end
      end
  end.
End Scan.

Definition scan_file (f : SourceFile) (v : SourceLanguageVersion) : result LexResult :=
  let t := chars (source_text f) in
  scan_loop f (_KEYWORDS_BY_VERSION v) (length t) origin t.

Definition scan (source : string + SourceFile) (language_version : string) : result LexResult :=
  f ← coerce_source source;
  match SourceLanguageVersion_of language_version with
  | None => raise ValueError ("unsupported lexer language version: " +:+ language_version)
  | Some v => scan_file f v
  end.

Definition tokenize (source : string + SourceFile) (language_version : string)
  : result (list Token) :=
  r ← scan source language_version;
  match lex_diagnostics r with
  | d :: _ => Err (error_from_diagnostic d)
  | [] => Ok (lex_tokens r)
  end.

Definition tokenize_root (source : string + SourceFile) : result (list Token) :=
  f ← coerce_source source;
  h ← LanguageHeaderScanner.scan f;
  tokenize (inr f) (version_value (header_version h)).

End Lexer.

(** Examples *)
Definition short (t : Token) : TokenKind * TokenValue * (nat * nat) :=
  (tok_kind t, tok_value t, (tok_line t, tok_column t)).

Definition quoted_text (s : string) : string :=
  text_of (map (fun c => if Ascii.eqb c "'" then quote else c) (chars s)).

Example tokens_ex :
  (map short <$> Lexer.tokenize_root (inl (quoted_text "language NSL '0.2'; let x<=1.50 5m // c")))
  = Ok [(T_KEYWORD, TText "language", (1, 1)); (T_IDENTIFIER, TText "NSL", (1, 10));
        (T_STRING, TText "0.2", (1, 14)); (T_SEMICOLON, TText ";", (1, 19));
        (T_KEYWORD, TText "let", (1, 21)); (T_IDENTIFIER, TText "x", (1, 25));
        (T_LE, TText "<=", (1, 26)); (T_DECIMAL, TText "1.50", (1, 28));
        (T_DURATION, TInt 300000, (1, 33)); (T_EOF, TText "<eof>", (1, 40))].
Proof. vm_compute. reflexivity. Qed.
