(* ===== verification/LexerFacts.v ===== *)
(** * What the lexer does ([src/nsl/syntax.py])

    Every round of [Lexer.scan] consumes a part of the text, moves the position
    over it and says truly what it was; the tokens of a text tile it. *)

From S2P Require Import Prelude Digest Json JsonBoundary Values DataProtection Source Lexer.

(** ** Texts and positions *)

Definition pos_after (p : SourcePosition) (w : text) : SourcePosition := fold_left over w p.

Lemma pos_after_app p v w : pos_after p (v ++ w) = pos_after (pos_after p v) w.
Proof. apply fold_left_app. Qed.

Definition no_line_feed (w : text) : bool := forallb (fun c => negb (Ascii.eqb c LF)) w.

Lemma columns_columns m n p : columns n (columns m p) = columns (m + n) p.
Proof. unfold columns; cbn. by rewrite !Nat.add_assoc. Qed.

Lemma pos_after_columns p w : no_line_feed w = true -> pos_after p w = columns (length w) p.
Proof.
  revert p; induction w as [|c w IH]; intros p H.
  - destruct p; unfold columns; cbn. by rewrite !Nat.add_0_r.
  - cbn in H. apply andb_true_iff in H as [Hc H]. cbn [pos_after fold_left].
    change (fold_left over w ?q) with (pos_after q w). rewrite IH by done.
    unfold over. apply negb_true_iff in Hc as ->. by rewrite columns_columns.
Qed.

Lemma pos_after_offset p w : sp_offset (pos_after p w) = sp_offset p + length w.
Proof.
  revert p; induction w as [|c w IH]; intros p; cbn; [lia |].
  change (fold_left over w ?q) with (pos_after q w). rewrite IH.
  unfold over. destruct (Ascii.eqb c LF); cbn; lia.
Qed.

Lemma pos_after_valid p w :
  SourcePosition_post_init p = Ok tt -> SourcePosition_post_init (pos_after p w) = Ok tt.
Proof.
  revert p; induction w as [|c w IH]; intros p Hp; [done |]. apply IH.
  unfold SourcePosition_post_init in *. apply raise_if_Ok in Hp.
  apply raise_if_Ok. apply orb_false_iff in Hp as [H1%Nat.ltb_ge H2%Nat.ltb_ge].
  apply orb_false_iff. unfold over. destruct (Ascii.eqb c LF);
    split; apply Nat.ltb_ge; cbn [new_line columns sp_line sp_column]; lia.
Qed.

Definition line_feeds (w : text) : nat := length (List.filter (fun c => Ascii.eqb c LF) w).

Lemma line_feeds_app v w : line_feeds (v ++ w) = line_feeds v + line_feeds w.
Proof. unfold line_feeds. by rewrite List.filter_app, length_app. Qed.

Lemma pos_after_line p w : sp_line (pos_after p w) = sp_line p + line_feeds w.
Proof.
  revert p; induction w as [|c w IH]; intros p; cbn; [lia |].
  change (fold_left over w ?q) with (pos_after q w). rewrite IH. unfold line_feeds. cbn.
  unfold over. destruct (Ascii.eqb c LF); cbn; lia.
Qed.

Lemma take_while_spec p l w r :
  take_while p l = (w, r) ->
  l = w ++ r /\ forallb p w = true /\ match r with c :: _ => p c = false | [] => True end.
Proof.
  revert w r; induction l as [|c l IH]; intros w r; cbn; [by intros [= <- <-] |].
  destruct (p c) eqn:Hc; [| by intros [= <- <-]].
  destruct (take_while p l) as [w' r'] eqn:E. intros [= <- <-].
  destruct (IH w' r' eq_refl) as (-> & H1 & H2). cbn. by rewrite Hc.
Qed.

Lemma strip_app w l r : strip w l = Some r -> l = w ++ r.
Proof.
  revert l; induction w as [|c w IH]; intros l; [by intros [= ->] |].
  destruct l as [|d l]; [discriminate |]. cbn. destruct (Ascii.eqb_spec c d) as [->|]; [| discriminate].
  intros H%IH. by rewrite H.
Qed.

(** A line of a character that is no line feed is one of [splitlines]. *)
Lemma splitlines_line pre c r :
  c <> LF -> line_feeds pre < length (splitlines (pre ++ c :: r)).
Proof.
  intros Hc. assert (forall n pre, length pre <= n ->
    line_feeds pre < length (splitlines (pre ++ c :: r))) as H; [| by eapply H].
  assert (0 < length (splitlines (c :: r))) as H0.
  { cbn [splitlines]. destruct (is_line_break c); cbn; [lia |]. destruct (splitlines r); cbn; lia. }
  clear pre. induction n as [|n IH]; intros [|d pre] Hn; cbn [length] in Hn; try (exact H0 || lia).
  cbn [app splitlines]. unfold line_feeds.
  destruct (is_line_break d) eqn:Hd.
  - destruct pre as [|d' pre]; cbn [app].
    + destruct (Ascii.eqb d CR && Ascii.eqb c LF) eqn:E.
      { by apply andb_true_iff in E as [_ ->%Ascii.eqb_eq]. }
      cbn [List.filter]. destruct (Ascii.eqb d LF); cbn [length]; cbn [length] in H0; lia.
    + destruct (Ascii.eqb d CR && Ascii.eqb d' LF) eqn:E.
      * apply andb_true_iff in E as [->%Ascii.eqb_eq ->%Ascii.eqb_eq].
        specialize (IH pre). cbn [length List.filter] in *. unfold line_feeds in IH.
        change (Ascii.eqb CR LF) with false. change (Ascii.eqb LF LF) with true.
        cbn iota. cbn [length]. lia.
      * specialize (IH (d' :: pre)). unfold line_feeds in IH.
        change (List.filter _ (d :: d' :: pre))
          with (if Ascii.eqb d LF then d :: List.filter (fun c => Ascii.eqb c LF) (d' :: pre)
                else List.filter (fun c => Ascii.eqb c LF) (d' :: pre)).
        cbn [app] in IH. destruct (Ascii.eqb d LF); cbn [length] in *; lia.
  - cbn [List.filter]. destruct (Ascii.eqb_spec d LF) as [->|_]; [discriminate |].
    specialize (IH pre). unfold line_feeds in IH.
    destruct (splitlines (pre ++ c :: r)) as [|? ?]; cbn [length] in *; lia.
Qed.

(** ** What a token reads *)

(** The value of the body of a string: every escape replaced. *)
Fixpoint unescape (l : text) : option text :=
  match l with
  | [] => Some []
  | c :: l' =>
      if Ascii.eqb c quote then None
      else if Ascii.eqb c backslash then
        match l' with [] => None | d :: l'' => (fun v => Lexer.unescaped d :: v) <$> unescape l'' end
      else (fun v => c :: v) <$> unescape l'
  end.

Lemma string_body_spec p l v q e : Lexer.string_body p l = (v, q, e) ->
  match e with
  | Lexer.Closed r => exists body, l = body ++ quote :: r /\ unescape body = Some v
                             /\ q = pos_after p body
  | Lexer.UnterminatedEscape => exists body, l = body ++ [backslash] /\ q = pos_after p l
  | Lexer.Unterminated => q = pos_after p l
  end.
Proof.
  assert (forall n p l v q e, length l <= n -> Lexer.string_body p l = (v, q, e) ->
    match e with
    | Lexer.Closed r => exists body, l = body ++ quote :: r /\ unescape body = Some v
                               /\ q = pos_after p body
    | Lexer.UnterminatedEscape => exists body, l = body ++ [backslash] /\ q = pos_after p l
    | Lexer.Unterminated => q = pos_after p l
    end) as H; [| by apply (H (length l))].
  clear. induction n as [|n IH]; intros p [|c l] v q e Hn H; cbn [length] in Hn; try lia;
    try (injection H as <- <- <-; done).
  cbn [Lexer.string_body] in H.
  destruct (Ascii.eqb_spec c quote) as [->|Hq]; [by injection H as <- <- <-; exists [] |].
  destruct (Ascii.eqb_spec c backslash) as [->|Hb].
  - destruct l as [|d l]; [injection H as <- <- <-; by exists [] |]. cbn [length] in Hn.
    destruct (Lexer.string_body (over (columns 1 p) d) l) as [[v' q'] e'] eqn:E.
    injection H as <- <- <-. apply IH in E; [| lia]. destruct e' as [r| |].
    + destruct E as (body & -> & Hv & ->). exists (backslash :: d :: body).
      split; [done |]. split; [| done]. cbn. by rewrite Hv.
    + destruct E as (body & -> & ->). by exists (backslash :: d :: body).
    + by rewrite E.
  - destruct (Lexer.string_body (over p c) l) as [[v' q'] e'] eqn:E.
    injection H as <- <- <-. apply IH in E; [| lia]. destruct e' as [r| |].
    + destruct E as (body & -> & Hv & ->). exists (c :: body).
      split; [done |]. split; [| done]. cbn [unescape].
      rewrite (proj2 (Ascii.eqb_neq c quote)), (proj2 (Ascii.eqb_neq c backslash)) by done.
      by rewrite Hv.
    + destruct E as (body & -> & ->). by exists (c :: body).
    + by rewrite E.
Qed.

(** [reads keywords k v w]: the lexeme [w] is a token of kind [k], value [v]. *)
Inductive reads (keywords : list string) : TokenKind -> TokenValue -> text -> Prop :=
  | reads_string body value : unescape body = Some value ->
      reads keywords T_STRING (TText (text_of value)) (quote :: body ++ [quote])
  | reads_integer ds : ds <> [] -> forallb py_isdigit ds = true ->
      reads keywords T_INTEGER (TText (text_of ds)) ds
  | reads_decimal ds fs : ds <> [] -> forallb py_isdigit ds = true ->
      fs <> [] -> forallb py_isdigit fs = true ->
      reads keywords T_DECIMAL (TText (text_of (ds ++ "."%char :: fs))) (ds ++ "."%char :: fs)
  | reads_duration ds u m n : ds <> [] -> py_int (text_of ds) = Ok n ->
      (u, m) ∈ [("ms", 1); ("s", 1000); ("m", 60000)]%Z ->
      reads keywords T_DURATION (TInt (n * m)) (ds ++ chars u)
  | reads_boolean (b : bool) :
      reads keywords T_BOOLEAN (TBool b) (chars (if b then "true" else "false"))
  | reads_keyword w : w <> [] -> forallb is_identifier_char w = true -> text_of w ∈ keywords ->
      reads keywords T_KEYWORD (TText (text_of w)) w
  | reads_identifier c w : is_identifier_start c = true ->
      forallb is_identifier_char w = true -> text_of (c :: w) ∉ "true" :: "false" :: keywords ->
      reads keywords T_IDENTIFIER (TText (text_of (c :: w))) (c :: w)
  | reads_symbol k w : (text_of w, k) ∈ Lexer._TWO_CHAR ++ Lexer._SINGLE ->
      reads keywords k (TText (text_of w)) w.

(** What may stand between two tokens: a white character, or a comment that
    goes on to the end of its line. *)
Definition skippable (w r : text) : Prop :=
  (exists c, w = [c] /\ is_trivia c = true)
  \/ (exists body, w = chars "//" ++ body /\ no_line_feed body = true
                   /\ match r with c :: _ => c = LF | [] => True end).

Section Round.
Variable f : SourceFile.
Variable keywords : list string.

Definition reads_token (t : Token) (p : SourcePosition) (w : text) : Prop :=
  reads keywords (tok_kind t) (tok_value t) w /\ tok_lexeme t = text_of w
  /\ tok_span t = MkSourceSpan (source_id f) p (pos_after p w).

(** A round consumes [w] and leaves [r]. *)
Definition round_reads (p : SourcePosition) (o : Lexer.scanned) (w r : text) : Prop :=
  w <> [] /\
  match o with
  | Lexer.Skipped => skippable w r
  | Lexer.Scanned t => reads_token t p w
  | Lexer.Reported _ => length w = 1
  | Lexer.Stopped _ => r = []
  end.

Definition round_ok (p : SourcePosition) (l : text)
    (x : result (Lexer.scanned * SourcePosition * text)) : Prop :=
  forall o q r, x = Ok (o, q, r) ->
    exists w, l = w ++ r /\ q = pos_after p w /\ round_reads p o w r.

Lemma text_of_chars s : text_of (chars s) = s.
Proof. apply String.string_of_list_ascii_of_string. Qed.

Lemma chars_text_of l : chars (text_of l) = l.
Proof. apply String.list_ascii_of_string_of_list_ascii. Qed.

Lemma no_line_feed_app v w : no_line_feed (v ++ w) = no_line_feed v && no_line_feed w.
Proof. apply forallb_app. Qed.

Lemma no_line_feed_all q w :
  (forall c, q c = true -> c <> LF) -> forallb q w = true -> no_line_feed w = true.
Proof.
  intros Hq. unfold no_line_feed. rewrite !forallb_forall. intros H c Hc.
  apply negb_true_iff, Ascii.eqb_neq, Hq, H, Hc.
Qed.

Lemma digits_one_line w : forallb py_isdigit w = true -> no_line_feed w = true.
Proof. apply no_line_feed_all. by intros c Hc ->. Qed.

Lemma word_one_line w : forallb is_identifier_char w = true -> no_line_feed w = true.
Proof. apply no_line_feed_all. by intros c Hc ->. Qed.

(** A token without a line feed ends [length w] columns further. *)
Lemma token_round k v p w r l :
  l = w ++ r -> w <> [] -> no_line_feed w = true -> reads keywords k v w ->
  round_ok p l (Ok (Lexer.Scanned (Lexer.token f k v w p (columns (length w) p)),
                    columns (length w) p, r)).
Proof.
  intros -> Hw Hn Hr o q r' [= <- <- <-]. exists w. rewrite <- pos_after_columns by done. done.
Qed.

Lemma string_round p l : round_ok p (quote :: l) (Lexer.scan_string f p l).
Proof.
  intros o q r. unfold Lexer.scan_string.
  destruct (Lexer.string_body (columns 1 p) l) as [[v q'] e] eqn:E. apply string_body_spec in E.
  change (columns 1 p) with (pos_after p [quote]) in E. destruct e as [r'| |].
  - destruct E as (body & -> & Hv & ->). set (w := quote :: body ++ [quote]).
    assert (quote :: body ++ quote :: r' = w ++ r') as Hw by (unfold w; cbn; by rewrite <- app_assoc).
    assert (columns 1 (pos_after (pos_after p [quote]) body) = pos_after p w) as ->.
    { change w with ([quote] ++ body ++ [quote]). by rewrite !pos_after_app. }
    rewrite pos_after_offset, Hw.
    replace (sp_offset p + length w - sp_offset p) with (length w) by lia.
    rewrite take_app_length. intros [= <- <- <-].
    exists w. split; [done |]. split; [done |]. split; [done |]. split; [by apply reads_string | done].
  - destruct E as (body & -> & ->). intros H. apply bind_Ok in H as (d & _ & H). injection H as <- <- <-.
    exists (quote :: body ++ [backslash]). rewrite app_nil_r. split; [done |].
    split; [exact (eq_sym (pos_after_app p [quote] _)) | done].
  - subst q'. intros H. apply bind_Ok in H as (d & _ & H). injection H as <- <- <-.
    exists (quote :: l). rewrite app_nil_r. done.
Qed.

Lemma duration_unit_spec r u m r' : Lexer.duration_unit r = Some (u, m, r') ->
  r = chars u ++ r' /\ (u, m) ∈ [("ms", 1); ("s", 1000); ("m", 60000)]%Z.
Proof.
  unfold Lexer.duration_unit.
  destruct (strip (chars "ms") r) as [r1|] eqn:E1; [destruct (at_word_end r1)|].
  1: intros [= <- <- <-]; split; [by apply strip_app | repeat constructor].
  all: destruct (strip (chars "s") r) as [r2|] eqn:E2; [destruct (at_word_end r2)|].
  1, 4: intros [= <- <- <-]; split; [by apply strip_app | repeat constructor].
  all: destruct (strip (chars "m") r) as [r3|] eqn:E3; [destruct (at_word_end r3)|].
  all: try discriminate.
  all: intros [= <- <- <-]; split; [by apply strip_app | repeat constructor].
Qed.

Lemma numeral_round k v p w r l x :
  x = Ok (Lexer.numeral f p k v w r) ->
  l = w ++ r -> w <> [] -> no_line_feed w = true -> reads keywords k v w -> round_ok p l x.
Proof. intros ->. apply token_round. Qed.

Lemma unit_one_line u m : (u, m) ∈ [("ms", 1); ("s", 1000); ("m", 60000)]%Z ->
  no_line_feed (chars u) = true.
Proof. intros H. repeat (apply elem_of_cons in H as [[= -> ->]|H]; [done |]). by apply elem_of_nil in H. Qed.

Lemma number_round p c l :
  py_isdigit c = true -> round_ok p (c :: l) (Lexer.scan_number f p (c :: l)).
Proof.
  intros Hc. unfold Lexer.scan_number.
  destruct (take_while py_isdigit (c :: l)) as [ds r] eqn:E.
  assert (ds <> []) as Hne.
  { cbn in E. rewrite Hc in E. destruct (take_while py_isdigit l). by injection E as <- _. }
  apply take_while_spec in E as (El & Hds & _). rewrite El. clear El Hc.
  assert (round_ok p (ds ++ r) match Lexer.duration_unit r with
    | Some (unit_, multiplier, r) =>
        value ← py_int (text_of ds);
        Ok (Lexer.numeral f p T_DURATION (TInt (value * multiplier)) (ds ++ chars unit_) r)
    | None => Ok (Lexer.numeral f p T_INTEGER (TText (text_of ds)) ds r)
    end) as Hint.
  { destruct (Lexer.duration_unit r) as [[[u m] r']|] eqn:E.
    - apply duration_unit_spec in E as [-> Hu]. destruct (py_int (text_of ds)) as [n|e] eqn:En; [| done].
      eapply numeral_round; [reflexivity | by rewrite app_assoc | by destruct ds | |].
      + rewrite no_line_feed_app, digits_one_line by done. by eapply unit_one_line.
      + by apply reads_duration.
    - eapply numeral_round; [reflexivity | done | done | by apply digits_one_line | by apply reads_integer]. }
  destruct r as [|d [|e r]]; try exact Hint.
  destruct (Ascii.eqb d "." && py_isdigit e) eqn:Ed; [| exact Hint]. clear Hint.
  apply andb_true_iff in Ed as [->%Ascii.eqb_eq He].
  destruct (take_while py_isdigit (e :: r)) as [fs r'] eqn:E.
  assert (fs <> []) as Hfs.
  { cbn in E. rewrite He in E. destruct (take_while py_isdigit r). by injection E as <- _. }
  apply take_while_spec in E as (El & Hfd & _). rewrite El.
  eapply numeral_round; [reflexivity | by rewrite <- app_assoc | by destruct ds | | by apply reads_decimal].
  rewrite no_line_feed_app, digits_one_line by done. cbn. by apply digits_one_line.
Qed.

Lemma word_round p c l :
  is_identifier_start c = true -> round_ok p (c :: l) (Ok (Lexer.scan_word f keywords p (c :: l))).
Proof.
  intros Hc. unfold Lexer.scan_word.
  destruct (take_while is_identifier_char (c :: l)) as [w r] eqn:E.
  assert (is_identifier_char c = true) as Hi.
  { revert Hc. unfold is_identifier_start, is_identifier_char.
    destruct (is_letter c), (Ascii.eqb c "_"); done. }
  assert (exists w', w = c :: w' /\ forallb is_identifier_char w' = true) as (w' & -> & Hw').
  { cbn in E. rewrite Hi in E. destruct (take_while is_identifier_char l) as [w' r'] eqn:E'.
    injection E as <- _. apply take_while_spec in E' as (_ & H & _). by exists w'. }
  apply take_while_spec in E as (El & Hw & _). rewrite El.
  destruct (bool_decide (text_of (c :: w') ∈ ["true"; "false"])) eqn:Eb.
  - apply bool_decide_eq_true in Eb. apply token_round; [done | done | by apply word_one_line |].
    assert (c :: w' = chars (if String.eqb (text_of (c :: w')) "true" then "true" else "false")) as Hb.
    { rewrite <- (chars_text_of (c :: w')) at 1.
      repeat (apply elem_of_cons in Eb as [Eb|Eb]; [by rewrite Eb |]). by apply elem_of_nil in Eb. }
    rewrite Hb at 2. apply reads_boolean.
  - apply bool_decide_eq_false in Eb.
    destruct (bool_decide (text_of (c :: w') ∈ keywords)) eqn:Ek.
    + apply bool_decide_eq_true in Ek.
      apply token_round; [done | done | by apply word_one_line | by apply reads_keyword].
    + apply bool_decide_eq_false in Ek.
      apply token_round; [done | done | by apply word_one_line | apply reads_identifier; try done].
      intros H. apply elem_of_cons in H as [H|H]; [apply Eb; rewrite H; by left |].
      apply elem_of_cons in H as [H|H]; [apply Eb; rewrite H; by right; left | done].
Qed.

Lemma assoc_elem_of {A} k (v : A) (d : list (string * A)) : assoc k d = Some v -> (k, v) ∈ d.
Proof. apply assoc_elem. Qed.

Lemma symbols_one_line w k : (text_of w, k) ∈ Lexer._TWO_CHAR ++ Lexer._SINGLE ->
  w <> [] /\ no_line_feed w = true.
Proof.
  intros H. rewrite <- (chars_text_of w). unfold Lexer._TWO_CHAR, Lexer._SINGLE in H.
  repeat (apply elem_of_cons in H as [[= -> _]|H]; [done |]). by apply elem_of_nil in H.
Qed.

Lemma symbol_round n table p l k w r :
  table ⊆ Lexer._TWO_CHAR ++ Lexer._SINGLE ->
  Lexer.symbol n table l = Some (k, w, r) -> round_ok p l (Ok (Lexer.scan_symbol f p k w r)).
Proof.
  intros Ht. unfold Lexer.symbol. destruct (assoc (text_of (take n l)) table) as [k'|] eqn:E; [| done].
  intros [= -> <- <-]. apply assoc_elem_of, Ht in E. destruct (symbols_one_line _ _ E) as [H1 H2].
  apply token_round; [by rewrite take_drop | done | done | by apply reads_symbol].
Qed.

Lemma scan_one_round p c l : round_ok p (c :: l) (Lexer.scan_one f keywords p c l).
Proof.
  unfold Lexer.scan_one.
  destruct (is_blank c) eqn:Hb.
  { intros o q r [= <- <- <-]. exists [c]. split; [done |]. split.
    - rewrite pos_after_columns; [done |]. cbn. destruct (Ascii.eqb_spec c LF) as [->|]; done.
    - split; [done |]. left. exists c. split; [done |]. unfold is_trivia. by rewrite Hb. }
  destruct (Ascii.eqb_spec c LF) as [->|Hlf].
  { intros o q r [= <- <- <-]. exists [LF]. split; [done |]. split; [done |].
    split; [done |]. left. by exists LF. }
  destruct (bool_decide (take 2 (c :: l) = chars "//")) eqn:Hc.
  { apply bool_decide_eq_true in Hc.
    destruct (take_while (fun d => negb (Ascii.eqb d LF)) (c :: l)) as [w r'] eqn:E.
    apply take_while_spec in E as (El & Hw & Hr). intros o q r [= <- <- <-].
    exists w. split; [done |]. split; [by rewrite pos_after_columns |].
    rewrite El in Hc. destruct w as [|a [|b body]].
    - destruct r' as [|d r']; [discriminate |]. injection El as -> ->.
      apply negb_false_iff, Ascii.eqb_eq in Hr. done.
    - destruct r' as [|d r']; [discriminate |]. injection Hc as -> ->.
      discriminate Hr.
    - injection Hc as -> ->. split; [done |]. right. exists body. split; [done |].
      cbn in Hw. split; [done |]. destruct r' as [|d r']; [done |].
      by apply negb_false_iff, Ascii.eqb_eq in Hr. }
  destruct (Ascii.eqb_spec c quote) as [->|_]; [apply string_round |].
  destruct (py_isdigit c) eqn:Hd; [by apply number_round |].
  destruct (is_identifier_start c) eqn:Hi; [by apply word_round |].
  destruct (Lexer.symbol 2 Lexer._TWO_CHAR (c :: l)) as [[[k w] r]|] eqn:E2.
  { eapply symbol_round; [| exact E2]. apply list_subseteq_app_l; done. }
  destruct (Lexer.symbol 1 Lexer._SINGLE (c :: l)) as [[[k w] r]|] eqn:E1.
  { eapply symbol_round; [| exact E1]. apply list_subseteq_app_r; done. }
  intros o q r H. apply bind_Ok in H as (d & _ & H). injection H as <- <- <-.
  exists [c]. split; [done |]. split; [| done]. rewrite pos_after_columns; [done |].
  cbn. by rewrite (proj2 (Ascii.eqb_neq c LF)).
Qed.
End Round.

(** ** Tokens tile the text *)

(** [gap w r]: the text [w] before [r] is white space and comments. *)
Inductive gap : text -> text -> Prop :=
  | gap_nil r : gap [] r
  | gap_more v w r : skippable v (w ++ r) -> gap w r -> gap (v ++ w) r.

(** What [int] refuses: a superscript digit, more digits than the interpreter
    converts. *)
Definition superscript (c : ascii) : Prop := py_isdigit c = true /\ is_digit c = false.

Definition long_number (l : text) : Prop := exists u ds r,
  l = u ++ ds ++ r /\ forallb is_digit ds = true /\ default_max_str_digits < length ds.

Definition refused (l : text) : Prop := Exists superscript l \/ long_number l.

Lemma refused_app w l : refused l -> refused (w ++ l).
Proof.
  intros [H | (u & ds & r & -> & H)]; [left; apply Exists_app; by right |].
  right. exists (w ++ u), ds, r. by rewrite app_assoc.
Qed.

(** [tiles p l ts]: from position [p] on, [l] is the lexemes of [ts] in order
    with gaps around them, every token reads its lexeme and spans exactly its
    place, and the last token is the end of the file. *)
Inductive tiles (f : SourceFile) (keywords : list string)
  : SourcePosition -> text -> list Token -> Prop :=
  | tiles_end p w : gap w [] -> tiles f keywords p w [Lexer.eof_token f (pos_after p w)]
  | tiles_token p w t lexeme r ts :
      gap w (lexeme ++ r) -> lexeme <> [] ->
      reads_token f keywords t (pos_after p w) lexeme ->
      tiles f keywords (pos_after p (w ++ lexeme)) r ts ->
      tiles f keywords p (w ++ lexeme ++ r) (t :: ts).

Section Loop.
Variable f : SourceFile.
Variable keywords : list string.

Lemma tiles_skip p v l ts :
  skippable v l -> tiles f keywords (pos_after p v) l ts -> tiles f keywords p (v ++ l) ts.
Proof.
  intros Hv H. inversion H as [q w Hw | q w t x r ts' Hw Hx Ht H']; subst.
  - rewrite <- pos_after_app. apply tiles_end. apply gap_more; [by rewrite app_nil_r | done].
  - rewrite app_assoc. apply tiles_token; try done.
    + apply gap_more; [| done]. done.
    + by rewrite pos_after_app.
    + by rewrite <- app_assoc, pos_after_app.
Qed.

Lemma scan_loop_tiles n p l ts :
  Lexer.scan_loop f keywords n p l = Ok (MkLexResult ts []) -> tiles f keywords p l ts.
Proof.
  revert p l ts; induction n as [|n IH]; intros p [|c l] ts H; try discriminate;
    try (injection H as <-; apply (tiles_end f keywords p []), gap_nil).
  cbn [Lexer.scan_loop] in H. apply bind_Ok in H as ([[o q] r] & H1 & H).
  destruct (scan_one_round f keywords p c l o q r H1) as (w & Hl & -> & Hw & Ho). rewrite Hl.
  destruct o as [|t|d|d]; [| |apply bind_Ok in H as (y & _ & H)|]; try discriminate.
  - apply tiles_skip; [done |]. by apply IH.
  - apply bind_Ok in H as ([ts' ds] & H2 & [= <- ->]).
    apply (tiles_token f keywords p []); [apply gap_nil | done | done |]. by apply IH.
Qed.

Lemma scan_one_total pre p c l :
  chars (source_text f) = pre ++ c :: l -> p = pos_after origin pre ->
  match Lexer.scan_one f keywords p c l with
  | Ok _ => True
  | Err e => ex_class e = ValueError
             /\ refused (c :: l)
  end.
Proof.
  intros Ht ->.
  assert (forall code message p' d r pre', chars (source_text f) = pre' ++ d :: r -> d <> LF ->
    sp_line p' = S (line_feeds pre') ->
    exists x, Lexer.lexer_diagnostic f code message p' = Ok x) as Hdiag.
  { intros code message p' d r pre' Ht' Hd Hp. unfold Lexer.lexer_diagnostic, source_line.
    rewrite Hp. cbn [Nat.sub]. rewrite Nat.sub_0_r.
    destruct (lookup_lt_is_Some_2 (splitlines (chars (source_text f))) (line_feeds pre')) as [x Hx].
    { rewrite Ht'. by apply splitlines_line. }
    rewrite Hx. cbn. eauto. }
  assert (sp_line (pos_after origin pre) = S (line_feeds pre)) as Hpre by by rewrite pos_after_line.
  unfold Lexer.scan_one.
  destruct (is_blank c); [done |]. destruct (Ascii.eqb_spec c LF) as [->|Hlf]; [done |].
  destruct (bool_decide _); [by destruct (take_while _ _) |].
  destruct (Ascii.eqb_spec c quote) as [->|_].
  { unfold Lexer.scan_string.
    destruct (Lexer.string_body _ l) as [[v q] e] eqn:E. apply string_body_spec in E.
    destruct e as [r| |]; [done | |].
    - destruct E as (body & -> & ->).
      edestruct (fun p => Hdiag LEX_UNTERMINATED_ESCAPE "unterminated string escape" p backslash []
                   (pre ++ quote :: body)) as [x ->].
      + rewrite Ht. by rewrite <- app_assoc.
      + done.
      + change (columns 1 ?p) with (pos_after p [quote]). rewrite <- !pos_after_app, pos_after_line.
        change (quote :: body) with ([quote] ++ body). rewrite !line_feeds_app.
        change (line_feeds [quote]) with 0. change (line_feeds [backslash]) with 0.
        cbn [sp_line origin]. lia.
      + done.
    - by destruct (Hdiag LEX_UNTERMINATED_STRING "unterminated string" _ _ _ _ Ht Hlf Hpre) as [x ->]. }
  destruct (py_isdigit c) eqn:Hd.
  { unfold Lexer.scan_number. destruct (take_while py_isdigit (c :: l)) as [ds r] eqn:E.
    assert (ds <> []) as Hne.
    { cbn in E. rewrite Hd in E. destruct (take_while py_isdigit l). by injection E as <- _. }
    apply take_while_spec in E as (El & Hds & _). rewrite El.
    assert (match (match Lexer.duration_unit r with
      | Some (unit_, multiplier, r) =>
          value ← py_int (text_of ds);
          Ok (Lexer.numeral f (pos_after origin pre) T_DURATION (TInt (value * multiplier))
                (ds ++ chars unit_) r)
      | None => Ok (Lexer.numeral f (pos_after origin pre) T_INTEGER (TText (text_of ds)) ds r)
      end) with Ok _ => True | Err e => ex_class e = ValueError
        /\ refused (ds ++ r) end) as Hint.
    { destruct (Lexer.duration_unit r) as [[[u m] r']|]; [| done]. unfold py_int.
      rewrite chars_text_of. destruct ds as [|d ds]; [done |].
      destruct (forallb is_digit (d :: ds)) eqn:Hall.
      { destruct (default_max_str_digits <? _) eqn:Hlong; [| done]. split; [done |]. right.
        exists [], (d :: ds), r. split; [done |]. split; [done |]. by apply Nat.ltb_lt. }
      rewrite Hds. split; [done |]. left. apply Exists_app. left.
      clear -Hall Hds. induction (d :: ds) as [|x xs IH]; [done |]. cbn in *.
      apply andb_true_iff in Hds as [Hx Hxs]. destruct (is_digit x) eqn:Hdx.
      - right. by apply IH.
      - by left. }
    destruct r as [|d [|e r]]; try exact Hint.
    destruct (Ascii.eqb d "." && py_isdigit e); [| exact Hint]. by destruct (take_while _ _). }
  destruct (is_identifier_start c); [done |].
  destruct (Lexer.symbol 2 _ _) as [[[k w] r]|]; [done |].
  destruct (Lexer.symbol 1 _ _) as [[[k w] r]|]; [done |].
  by destruct (Hdiag LEX_UNEXPECTED_CHARACTER
                 ("unexpected character " +:+ py_repr (text_of [c])) _ _ _ _ Ht Hlf Hpre) as [x ->].
Qed.

Lemma scan_loop_total n pre l :
  chars (source_text f) = pre ++ l -> length l <= n ->
  match Lexer.scan_loop f keywords n (pos_after origin pre) l with
  | Ok r => exists ts p, lex_tokens r = ts ++ [Lexer.eof_token f p]
  | Err e => ex_class e = ValueError /\ refused l
  end.
Proof.
  revert pre l; induction n as [|n IH]; intros pre [|c l] Ht Hn; cbn [length] in Hn; try lia;
    try (exists [], (pos_after origin pre); reflexivity).
  cbn [Lexer.scan_loop]. pose proof (scan_one_total pre _ c l Ht eq_refl) as H.
  destruct (Lexer.scan_one f keywords (pos_after origin pre) c l) as [[[o q] r]|e] eqn:E; [| exact H].
  clear H. cbn [mbind result_bind].
  destruct (scan_one_round f keywords _ c l o q r E) as (w & Hl & -> & Hw & Ho).
  assert (length r <= n) as Hr.
  { apply (f_equal length) in Hl. rewrite length_app in Hl. cbn in Hl. destruct w; [done |].
    cbn in Hl. lia. }
  rewrite <- pos_after_app. assert (chars (source_text f) = (pre ++ w) ++ r) as Ht'.
  { by rewrite Ht, Hl, app_assoc. }
  specialize (IH (pre ++ w) r Ht' Hr). rewrite Hl.
  destruct o as [|t|d|d]; [| | |by exists [], (pos_after origin (pre ++ w))];
    destruct (Lexer.scan_loop f keywords n (pos_after origin (pre ++ w)) r) as [y|e]; cbn.
  all: try (destruct IH as (ts & p & ->)).
  all: try (destruct IH as [H1 H2]; split; [done | by apply refused_app]).
  - eauto.
  - by exists (t :: ts), p.
  - eauto.
Qed.
End Loop.

(** C17. What [Lexer.tokenize] returns tiles the source: the text is the lexemes
    of the tokens in order, with nothing but white space and comments between
    them; every token has the kind and the value its lexeme reads as, and a
    span from the position before its lexeme to the position after it. *)
Theorem tokens_tile_source (f : SourceFile) (v : string) (ts : list Token) :
  Lexer.tokenize (inr f) v = Ok ts ->
  exists version, SourceLanguageVersion_of v = Some version
    /\ tiles f (Lexer._KEYWORDS_BY_VERSION version) origin (chars (source_text f)) ts.
Proof.
  intros H. apply bind_Ok in H as ([ts' ds] & H & H').
  destruct ds as [|d ds]; [injection H' as <- | discriminate].
  change (Lexer.scan (inr f) v) with (match SourceLanguageVersion_of v with
    | None => raise ValueError ("unsupported lexer language version: " +:+ v)
    | Some w => Lexer.scan_file f w end) in H.
  destruct (SourceLanguageVersion_of v) as [w|]; [| discriminate].
  exists w. split; [done |]. by eapply scan_loop_tiles.
Qed.

Lemma tokens_tile_source_witness :
  exists ts, Lexer.tokenize (inr (MkSourceFile "id" "a.ns" "x 1" "utf-8")) "0.1" = Ok ts
    /\ length ts = 3
    /\ exists version, SourceLanguageVersion_of "0.1" = Some version
         /\ tiles (MkSourceFile "id" "a.ns" "x 1" "utf-8") (Lexer._KEYWORDS_BY_VERSION version)
              origin (chars "x 1") ts.
Proof.
  eexists. split; [vm_compute; reflexivity |]. split; [reflexivity |].
  apply (tokens_tile_source (MkSourceFile "id" "a.ns" "x 1" "utf-8")). vm_compute. reflexivity.
Defined.

(** Lexing ends on every source, with all diagnostics found and the end of
    the file as the last token. The exception is a source with a superscript
    digit, which [str.isdigit] takes for a digit and [int] refuses, or with a
    number of more than 4300 digits: a [ValueError] that is no [CompileError]. *)
Theorem lexing_ends (f : SourceFile) (v : SourceLanguageVersion) :
  match Lexer.scan_file f v with
  | Ok r => exists ts p, lex_tokens r = ts ++ [Lexer.eof_token f p]
  | Err e => ex_class e = ValueError /\ refused (chars (source_text f))
  end.
Proof. by apply (scan_loop_total f (Lexer._KEYWORDS_BY_VERSION v) _ []). Qed.
