(* ===== verification/Parser.v ===== *)
(** * Syntax trees and the parser ([src/nsl/syntax.py])

    A recursive-descent parser with precedence climbing. [self.index] divides
    the tokens into those read, of which the parser looks at the last, and
    those ahead. The recursion and the loops run on fuel, one unit per token
    ahead and one more. A type in a type, an expression in an expression and a
    statement in a statement are one call deeper on the stack of the
    interpreter, which may end ([RecursionError]); [parse] has no such limit. *)

From S2P Require Import Prelude Digest Json JsonBoundary Decimal Core Decoding Values.
From S2P Require Import DataProtection Source Lexer.

(** ** Syntax trees

    A [span] and the spans of identifiers in a node do not take part in its
    comparison. *)

Inductive AstExpression : Type :=
  | AstLiteral (v : value) (type_info : TypeRef) (span : option SourceSpan)
  | AstPath (parts : list string) (span : option SourceSpan)
  | AstCall (name : string) (arguments : list AstExpression) (span : option SourceSpan)
  | AstRead (tool_id : string) (arguments : list (string * AstExpression))
      (span : option SourceSpan)
  | AstWrite (tool_id : string) (arguments : list (string * AstExpression))
      (approval_id : string) (span approval_span : option SourceSpan)
  | AstBinary (operator : string) (left right : AstExpression) (span : option SourceSpan).

Definition expression_span (e : AstExpression) : option SourceSpan :=
  match e with
  | AstLiteral _ _ s | AstPath _ s | AstCall _ _ s | AstRead _ _ s | AstWrite _ _ _ s _
  | AstBinary _ _ _ s => s
  end.

(** [replace(expression, span=span)] *)
Definition replace_span (e : AstExpression) (s : option SourceSpan) : AstExpression :=
  match e with
  | AstLiteral v t _ => AstLiteral v t s
  | AstPath p _ => AstPath p s
  | AstCall n a _ => AstCall n a s
  | AstRead i a _ => AstRead i a s
  | AstWrite i a p _ ps => AstWrite i a p s ps
  | AstBinary o l r _ => AstBinary o l r s
  end.

Inductive AstStatement : Type :=
  | AstLet (name : string) (e : AstExpression) (span : option SourceSpan)
  | AstForeach (iterator : string) (collection : AstExpression) (max_iterations : Z)
      (body : list AstStatement) (span : option SourceSpan)
  | AstCheck (check_id : string) (condition : AstExpression) (severity on_fail message : string)
      (span : option SourceSpan)
  | AstEmit (fields : list (string * AstExpression)) (span : option SourceSpan)
  | AstApprove (approval_id message : string) (span approval_id_span : option SourceSpan).

Definition statement_span (s : AstStatement) : option SourceSpan :=
  match s with
  | AstLet _ _ s | AstForeach _ _ _ _ s | AstCheck _ _ _ _ _ s | AstEmit _ s
  | AstApprove _ _ s _ => s
  end.

Record AstFieldSpec : Type := MkAstFieldSpec {
  af_name : string;
  af_type_info : TypeRef;
  af_classification : DataClassification;
  af_path : list string;
  af_span : option SourceSpan
}.

Record AstLimits : Type := MkAstLimits {
  al_tool_calls : Z;
  al_loop_iterations : Z;
  al_emitted_rows : Z;
  al_collection_size : Z;
  al_duration_ms : Z;
  al_span : option SourceSpan
}.

Record AstIncludeDeclaration : Type := MkAstIncludeDeclaration {
  ai_path : string;
  ai_span : option SourceSpan
}.

Record AstRequiredTool : Type := MkAstRequiredTool {
  ar_tool_id : string;
  ar_version : string;
  ar_span : option SourceSpan
}.

Record AstIncludeFragment : Type := MkAstIncludeFragment {
  ag_includes : list AstIncludeDeclaration;
  ag_requires : list AstRequiredTool;
  ag_contexts : list AstFieldSpec;
  ag_limits : list AstLimits;
  ag_span : option SourceSpan
}.

Record AstSkill : Type := MkAstSkill {
  as_language_version : string;
  as_skill_id : string;
  as_skill_version : string;
  as_risk : string;
  as_includes : list AstIncludeDeclaration;
  as_requires : list AstRequiredTool;
  as_limits : option AstLimits;
  as_inputs : list AstFieldSpec;
  as_contexts : list AstFieldSpec;
  as_outputs : list AstFieldSpec;
  as_body : list AstStatement;
  as_span : option SourceSpan;
  as_language_version_span : option SourceSpan;
  as_risk_span : option SourceSpan
}.

(** ** The parser *)
Module Parser.

Definition _TYPE_NAMES : list (string * TypeRef) :=
  [("String", STRING); ("Int", INT); ("Bool", BOOL); ("Date", DATE); ("DateTime", DATETIME);
   ("Decimal", DECIMAL); ("Year", YEAR); ("TeamId", domain "TeamId");
   ("EmployeeId", domain "EmployeeId"); ("AccountCode", domain "AccountCode");
   ("ProjectCode", domain "ProjectCode"); ("AccountingPeriod", domain "AccountingPeriod");
   ("OrganizationId", domain "OrganizationId"); ("CheckStatus", CHECK_STATUS)].

Definition _PRECEDENCE : list (string * nat) :=
  [("==", 10); ("!=", 10); ("<", 20); ("<=", 20); (">", 20); (">=", 20);
   ("+", 30); ("-", 30); ("*", 40); ("/", 40)].

(** [DataClassification(value)] *)
Definition DataClassification_of (s : string) : option DataClassification :=
  assoc s [("PUBLIC", PUBLIC); ("INTERNAL", INTERNAL); ("CONFIDENTIAL", CONFIDENTIAL);
           ("RESTRICTED", RESTRICTED)].

Record parser : Type := MkParser {
  ps_previous : option Token;
  ps_rest : list Token;
  ps_language_version : option string
}.

Notation PM := (M parser).

(** [Parser._span] on the spans of its two arguments. *)
Definition span_between (start end_ : option SourceSpan) : result SourceSpan :=
  match start, end_ with
  | Some a, Some b =>
      _ ← raise_if (negb (String.eqb (span_source_id a) (span_source_id b))) ValueError
            "AST span boundaries must share a source";
      let s := MkSourceSpan (span_source_id a) (span_start a) (span_end b) in
      _ ← SourceSpan_post_init s; Ok s
  | _, _ => raise ValueError "parsed AST nodes must have source spans"
  end.

Definition span_from (start : Token) (end_ : Token) : PM (option SourceSpan) :=
  s ← lift (span_between (Some (tok_span start)) (Some (tok_span end_))); mret (Some s).

Definition value_repr (v : TokenValue) : string :=
  match v with
  | TText s => py_repr s
  | TInt z => str_of_Z z
  | TBool b => if b then "True" else "False"
  end.

(** [token.value == text] *)
Definition value_is (v : string) (t : Token) : bool :=
  match tok_value t with TText s => String.eqb s v | _ => false end.

(** [token.value] where the code goes on with a [str], or with a number. *)
Definition text_value (t : Token) : result string :=
  match tok_value t with
  | TText s => Ok s
  | _ => raise OutOfModel "a token value that is no text"
  end.

Definition int_value (t : Token) : result Z :=
  match tok_value t with
  | TText s => py_int s
  | TInt z => Ok z
  | TBool b => Ok (Z.b2z b)
  end.

Section Parser.
Variable source : option SourceFile.

Definition parser_error (code : DiagnosticCode) (message : string) (t : Token) : exn :=
  compile_error code PHASE_PARSER message (Some (MkSourceLocation (tok_line t) (tok_column t)))
    (f ← source; snippet_at (chars (source_text f)) (tok_line t))
    (logical_path <$> source).

Definition error {A} (code : DiagnosticCode) (message : string) (t : Token) : PM A :=
  lift (Err (parser_error code message t)).

Definition starved {A} : PM A := lift (Err (Exn OutOfModel "FUEL" "")).

Definition no_token {A} : PM A := fail IndexError "tuple index out of range".

Definition current : PM Token :=
  s ← get; match ps_rest s with t :: _ => mret t | [] => no_token end.

Definition advance : PM Token :=
  s ← get;
  match ps_rest s with
  | t :: r => _ ← modify (fun s => MkParser (Some t) r (ps_language_version s)); mret t
  | [] => no_token
  end.

(** [self.tokens[-1]] and [self.tokens[self.index - 1]] *)
Definition last_token : PM Token :=
  s ← get;
  match last (ps_rest s), ps_previous s with
  | Some t, _ | None, Some t => mret t
  | None, None => no_token
  end.

Definition previous_token : PM Token :=
  s ← get; match ps_previous s with Some t => mret t | None => last_token end.

Definition current_is (v : string) : PM bool := t ← current; mret (value_is v t).

Definition accept (v : string) : PM bool :=
  b ← current_is v; if b : bool then _ ← advance; mret true else mret false.

Definition got (t : Token) : string := value_repr (tok_value t).

Definition expect (v : string) : PM Token :=
  t ← current;
  if value_is v t then advance
  else error PAR_EXPECTED_TOKEN ("expected " +:+ py_repr v +:+ ", got " +:+ got t)%string t.

Definition expect_kind (k : TokenKind) : PM Token :=
  t ← current;
  if bool_decide (tok_kind t = k) then advance
  else error PAR_EXPECTED_TOKEN_KIND
         ("expected " +:+ kind_value k +:+ ", got " +:+ got t)%string t.

(** [self._expect_kind(kind).value] *)
Definition expect_text (k : TokenKind) : PM string := t ← expect_kind k; lift (text_value t).

(** [while not stop(): xs.append(item())] *)
Fixpoint until {A} (fuel : nat) (stop : PM bool) (item : PM A) : PM (list A) :=
  match fuel with
  | O => starved
  | S n => b ← stop;
           if b : bool then mret [] else x ← item; xs ← until n stop item; mret (x :: xs)
  end.

Definition qualified_parts (fuel : nat) : PM (list string) :=
  until fuel (b ← accept "."; mret (negb b)) (expect_text T_IDENTIFIER).

Definition qualified_name (fuel : nat) : PM string :=
  first ← expect_text T_IDENTIFIER; parts ← qualified_parts fuel;
  mret (join "." (first :: parts)).

Fixpoint type_ref (i : Interpreter) (fuel : nat) : PM TypeRef :=
  match fuel with
  | O => starved
  | S n =>
      i ← lift (enter i);
      t ← expect_kind T_IDENTIFIER;
      name ← lift (text_value t);
      if String.eqb name "Money" then
        _ ← expect "<";
        c ← expect_kind T_IDENTIFIER;
        _ ← expect ">";
        currency ← lift (text_value c);
        try_except (lift (money_type currency)) (fun c => isinstance_exn c ValueError)
          (fun _ => error PAR_UNKNOWN_TYPE ("invalid Money currency: " +:+ currency) c)
      else if String.eqb name "List" then
        _ ← expect "<"; item ← type_ref i n; _ ← expect ">"; mret (list_type item)
      else match assoc name _TYPE_NAMES with
           | Some u => mret u
           | None => error PAR_UNKNOWN_TYPE ("unknown type: " +:+ name) t
           end
  end.

Definition classification : PM DataClassification :=
  b ← accept "classification";
  if b : bool then
    t ← expect_kind T_IDENTIFIER;
    v ← lift (text_value t);
    match DataClassification_of v with
    | Some c => mret c
    | None => error PAR_UNKNOWN_CLASSIFICATION ("unknown data classification: " +:+ v) t
    end
  else mret INTERNAL.

(** ** Expressions *)

(** The items up to a closing parenthesis, separated by commas. *)
Fixpoint items_from {A} (fuel : nat) (item : PM A) : PM (list A) :=
  match fuel with
  | O => starved
  | S n =>
      x ← item;
      b ← accept ")";
      if b : bool then mret [x]
      else _ ← expect ","; xs ← items_from n item; mret (x :: xs)
  end.

Definition parenthesized {A} (fuel : nat) (item : PM A) : PM (list A) :=
  b ← accept ")"; if b : bool then mret [] else items_from fuel item.

Definition named (separator : string) (expr : PM AstExpression) : PM (string * AstExpression) :=
  name ← expect_text T_IDENTIFIER; _ ← expect separator; e ← expr; mret (name, e).

Definition literal (t : Token) : result AstExpression :=
  let span := Some (tok_span t) in
  match tok_kind t, tok_value t with
  | T_BOOLEAN, TBool b => Ok (AstLiteral (VBool b) BOOL span)
  | T_STRING, TText s => Ok (AstLiteral (VStr s) STRING span)
  | (T_INTEGER | T_DECIMAL), TText s =>
      if existsb (Ascii.eqb ".") (chars s)
      then d ← dec_of_string s; Ok (AstLiteral (VDecimal d) (primitive "Decimal") span)
      else z ← py_int s; Ok (AstLiteral (VInt z) INT span)
  | _, _ => raise OutOfModel "a literal token of another value"
  end.

Definition is_literal (t : Token) : bool :=
  bool_decide (tok_kind t ∈ [T_INTEGER; T_DECIMAL; T_STRING; T_BOOLEAN]).

(** The token is the keyword of a statement of NSL 0.2 that starts with [v]. *)
Definition v0_2_keyword (v : string) (t : Token) : PM bool :=
  s ← get;
  mret (value_is v t && bool_decide (tok_kind t = T_KEYWORD)
        && bool_decide (ps_language_version s = Some (version_value V0_2))).

Definition read_call (fuel : nat) (expr : PM AstExpression) (t : Token) : PM AstExpression :=
  _ ← advance;
  tool_id ← qualified_name fuel;
  _ ← expect "(";
  arguments ← parenthesized fuel (named ":" expr);
  p ← previous_token;
  s ← span_from t p;
  mret (AstRead tool_id arguments s).

Definition write_call (fuel : nat) (expr : PM AstExpression) (t : Token) : PM AstExpression :=
  _ ← advance;
  tool_id ← qualified_name fuel;
  _ ← expect "(";
  arguments ← parenthesized fuel (named "=" expr);
  _ ← expect "approved_by";
  a ← expect_kind T_IDENTIFIER;
  approval_id ← lift (text_value a);
  s ← span_from t a;
  mret (AstWrite tool_id arguments approval_id s (Some (tok_span a))).

Definition call_or_path (fuel : nat) (expr : PM AstExpression) (t : Token) : PM AstExpression :=
  _ ← advance;
  name ← lift (text_value t);
  b ← accept "(";
  if b : bool then
    arguments ← parenthesized fuel expr;
    p ← previous_token;
    s ← span_from t p;
    mret (AstCall name arguments s)
  else
    parts ← qualified_parts fuel;
    p ← previous_token;
    s ← span_from t p;
    mret (AstPath (name :: parts) s).

Definition primary (fuel : nat) (expr : PM AstExpression) : PM AstExpression :=
  t ← current;
  if is_literal t then _ ← advance; lift (literal t)
  else if value_is "read" t then read_call fuel expr t
  else
    write ← v0_2_keyword "write" t;
    if write : bool then write_call fuel expr t
    else if bool_decide (tok_kind t = T_IDENTIFIER) then call_or_path fuel expr t
    else
      b ← accept "(";
      if b : bool then
        e ← expr;
        end_ ← expect ")";
        s ← span_from t end_;
        mret (replace_span e s)
      else error PAR_EXPECTED_EXPRESSION ("expected expression, got " +:+ got t) t.

(** [self._PRECEDENCE.get(token.value)], with the operator *)
Definition precedence (t : Token) : option (string * nat) :=
  match tok_value t with
  | TText s => (fun p => (s, p)) <$> assoc s _PRECEDENCE
  | _ => None
  end.

(** The loop of [_expression], with [expr] for its recursive calls. *)
Fixpoint climb (fuel : nat) (expr : nat -> PM AstExpression) (minimum_precedence : nat)
    (left : AstExpression) : PM AstExpression :=
  match fuel with
  | O => starved
  | S n =>
      t ← current;
      match precedence t with
      | Some (operator, p) =>
          if p <? minimum_precedence then mret left
          else
            _ ← advance;
            right ← expr (p + 1);
            s ← lift (span_between (expression_span left) (expression_span right));
            climb n expr minimum_precedence (AstBinary operator left right (Some s))
      | None => mret left
      end
  end.

Fixpoint expression (i : Interpreter) (fuel : nat) (minimum_precedence : nat)
  : PM AstExpression :=
  match fuel with
  | O => starved
  | S n =>
      i ← lift (enter i);
      left ← primary n (expression i n 0);
      climb fuel (expression i n) minimum_precedence left
  end.

(** ** Statements *)

Definition approve_statement (t : Token) : PM AstStatement :=
  id ← expect_kind T_IDENTIFIER;
  _ ← expect "{";
  _ ← expect "message";
  message ← expect_text T_STRING;
  _ ← expect ";";
  end_ ← expect "}";
  approval_id ← lift (text_value id);
  s ← span_from t end_;
  mret (AstApprove approval_id message s (Some (tok_span id))).

Definition let_statement (i : Interpreter) (fuel : nat) (t : Token)
  : PM AstStatement :=
  name ← expect_text T_IDENTIFIER;
  _ ← expect "=";
  e ← expression i fuel 0;
  end_ ← expect ";";
  s ← span_from t end_;
  mret (AstLet name e s).

Definition foreach_statement (i : Interpreter) (fuel : nat) (statement : PM AstStatement)
    (t : Token) : PM AstStatement :=
  iterator ← expect_text T_IDENTIFIER;
  _ ← expect "in";
  collection ← expression i fuel 0;
  _ ← expect "max";
  m ← expect_kind T_INTEGER;
  max_iterations ← lift (int_value m);
  if (max_iterations <=? 0)%Z then
    error PAR_NON_POSITIVE_FOREACH_LIMIT "foreach max must be positive" m
  else
    _ ← expect "{";
    body ← until fuel (current_is "}") statement;
    end_ ← expect "}";
    s ← span_from t end_;
    mret (AstForeach iterator collection max_iterations body s).

Definition check_statement (i : Interpreter) (fuel : nat) (t : Token)
  : PM AstStatement :=
  check_id ← expect_text T_IDENTIFIER;
  _ ← expect "{";
  _ ← expect "assert";
  condition ← expression i fuel 0;
  _ ← expect ";";
  _ ← expect "severity";
  severity ← expect_text T_IDENTIFIER;
  _ ← expect ";";
  _ ← expect "on_fail";
  on_fail ← expect_text T_IDENTIFIER;
  _ ← expect ";";
  _ ← expect "message";
  message ← expect_text T_STRING;
  _ ← expect ";";
  end_ ← expect "}";
  s ← span_from t end_;
  mret (AstCheck check_id condition severity on_fail message s).

Definition emit_statement (i : Interpreter) (fuel : nat) (t : Token)
  : PM AstStatement :=
  _ ← expect "{";
  fields ← until fuel (current_is "}")
             (f ← named ":" (expression i fuel 0); _ ← expect ";"; mret f);
  end_ ← expect "}";
  s ← span_from t end_;
  mret (AstEmit fields s).

Fixpoint statement (i : Interpreter) (fuel : nat) : PM AstStatement :=
  match fuel with
  | O => starved
  | S n =>
      i ← lift (enter i);
      t ← current;
      approve ← v0_2_keyword "approve" t;
      if approve : bool then _ ← advance; approve_statement t
      else if value_is "let" t then _ ← advance; let_statement i n t
      else if value_is "foreach" t then _ ← advance; foreach_statement i n (statement i n) t
      else if value_is "check" t then _ ← advance; check_statement i n t
      else if value_is "emit" t then _ ← advance; emit_statement i n t
      else error PAR_UNEXPECTED_STATEMENT ("unexpected statement " +:+ got t) t
  end.

(** ** Declarations *)

Definition include_declaration : PM AstIncludeDeclaration :=
  t ← expect "include";
  path ← expect_text T_STRING;
  end_ ← expect ";";
  s ← span_from t end_;
  mret (MkAstIncludeDeclaration path s).

Definition required_tool (fuel : nat) : PM AstRequiredTool :=
  t ← expect "tool";
  tool_id ← qualified_name fuel;
  _ ← expect "version";
  version ← expect_text T_STRING;
  end_ ← expect ";";
  s ← span_from t end_;
  mret (MkAstRequiredTool tool_id version s).

Definition requires (fuel : nat) : PM (list AstRequiredTool) :=
  _ ← expect "requires"; _ ← expect "{"; until fuel (accept "}") (required_tool fuel).

(** The dict [values] of [_limits], filled field by field. *)
Fixpoint limit_fields (fuel : nat) (values : list (string * Z)) : PM (list (string * Z)) :=
  match fuel with
  | O => starved
  | S n =>
      b ← current_is "}";
      if b : bool then mret values
      else
        t ← expect_kind T_IDENTIFIER;
        name ← lift (text_value t);
        match assoc name values with
        | Some _ => error PAR_INVALID_LIMIT_FIELDS ("duplicate limit field: " +:+ name) t
        | None =>
            v ← expect_kind (if String.eqb name "duration" then T_DURATION else T_INTEGER);
            z ← lift (int_value v);
            _ ← expect ";";
            limit_fields n (assoc_set name z values)
        end
  end.

Definition required_limits : list string :=
  ["tool_calls"; "loop_iterations"; "emitted_rows"; "collection_size"].

Definition limits (fuel : nat) : PM AstLimits :=
  t ← expect "limits";
  _ ← expect "{";
  values ← limit_fields fuel [];
  end_ ← expect "}";
  c ← current;
  let names := map fst values in
  if negb (bool_decide (required_limits ⊆ names))
     || negb (bool_decide (names ⊆ "duration" :: required_limits)) then
    error PAR_INVALID_LIMIT_FIELDS
      ("limits must define exactly: " +:+ join ", " (sort_strings required_limits)
       +:+ "; duration is optional")%string c
  else if existsb (fun kv => (kv.2 <=? 0)%Z) values then
    error PAR_NON_POSITIVE_LIMIT "all limits must be positive" c
  else
    s ← span_from t end_;
    let field k := default 0%Z (assoc k values) in
    mret (MkAstLimits (field "tool_calls") (field "loop_iterations") (field "emitted_rows")
            (field "collection_size") (default 60000%Z (assoc "duration" values)) s).

Definition field_spec (i : Interpreter) (fuel : nat) (with_path : bool) : PM AstFieldSpec :=
  t ← expect_kind T_IDENTIFIER;
  name ← lift (text_value t);
  _ ← expect ":";
  type_info ← type_ref i fuel;
  path ← (if with_path then
            _ ← expect "from"; p ← expect_text T_STRING; mret (split_on "." p)
          else mret []);
  c ← classification;
  end_ ← expect ";";
  s ← span_from t end_;
  mret (MkAstFieldSpec name type_info c path s).

Definition fields (i : Interpreter) (fuel : nat) (keyword : string) (with_path : bool)
  : PM (list AstFieldSpec) :=
  _ ← expect keyword; _ ← expect "{"; until fuel (accept "}") (field_spec i fuel with_path).

(** ** Skills and include fragments *)

(** The local variables of [_parse_skill]. *)
Record skill_parts : Type := SkillParts {
  sk_version : string;
  sk_risk : string;
  sk_risk_span : option SourceSpan;
  sk_includes : list AstIncludeDeclaration;
  sk_requires : list AstRequiredTool;
  sk_limits : option AstLimits;
  sk_inputs : list AstFieldSpec;
  sk_contexts : list AstFieldSpec;
  sk_outputs : list AstFieldSpec;
  sk_body : list AstStatement
}.

Definition no_parts : skill_parts := SkillParts "" "" None [] [] None [] [] [] [].

Definition skill_member (depth : Interpreter) (fuel : nat) (p : skill_parts) : PM skill_parts :=
  let '(SkillParts v r rs ins rq l i c o b) := p in
  t ← current;
  if value_is "version" t then
    _ ← advance; v ← expect_text T_STRING; _ ← expect ";";
    mret (SkillParts v r rs ins rq l i c o b)
  else if value_is "risk" t then
    _ ← advance; k ← expect_kind T_IDENTIFIER; r ← lift (text_value k); _ ← expect ";";
    mret (SkillParts v r (Some (tok_span k)) ins rq l i c o b)
  else if value_is "include" t then
    x ← include_declaration; mret (SkillParts v r rs (ins ++ [x]) rq l i c o b)
  else if value_is "requires" t then
    rq ← requires fuel; mret (SkillParts v r rs ins rq l i c o b)
  else if value_is "limits" t then
    l ← limits fuel; mret (SkillParts v r rs ins rq (Some l) i c o b)
  else if value_is "input" t then
    i ← fields depth fuel "input" false; mret (SkillParts v r rs ins rq l i c o b)
  else if value_is "context" t then
    c ← fields depth fuel "context" true; mret (SkillParts v r rs ins rq l i c o b)
  else if value_is "output" t then
    o ← fields depth fuel "output" false; mret (SkillParts v r rs ins rq l i c o b)
  else
    x ← statement depth fuel; mret (SkillParts v r rs ins rq l i c o (b ++ [x])).

Fixpoint skill_members (i : Interpreter) (fuel m : nat) (p : skill_parts) : PM skill_parts :=
  match fuel with
  | O => starved
  | S n => b ← current_is "}";
           if b : bool then mret p else q ← skill_member i m p; skill_members i n m q
  end.

Definition parse_skill (i : Interpreter) (fuel : nat) : PM AstSkill :=
  start ← expect "language";
  _ ← expect "NSL";
  v ← expect_kind T_STRING;
  language_version ← lift (text_value v);
  _ ← modify (fun s => MkParser (ps_previous s) (ps_rest s) (Some language_version));
  _ ← expect ";";
  _ ← expect "skill";
  skill_id ← qualified_name fuel;
  _ ← expect "{";
  p ← skill_members i fuel fuel no_parts;
  end_ ← expect "}";
  _ ← expect "<eof>";
  if String.eqb (sk_version p) "" || String.eqb (sk_risk p) ""
     || (bool_decide (sk_limits p = None) && bool_decide (sk_includes p = [])) then
    t ← last_token;
    error PAR_REQUIRED_METADATA "version, risk, and limits are required" t
  else
    s ← span_from start end_;
    mret (MkAstSkill language_version skill_id (sk_version p) (sk_risk p) (sk_includes p)
            (sk_requires p) (sk_limits p) (sk_inputs p) (sk_contexts p) (sk_outputs p)
            (sk_body p) s (Some (tok_span v)) (sk_risk_span p)).

Definition fragment_member (i : Interpreter) (fuel : nat) (g : AstIncludeFragment)
  : PM AstIncludeFragment :=
  let '(MkAstIncludeFragment ins rq cs ls _) := g in
  t ← current;
  if value_is "include" t then
    x ← include_declaration; mret (MkAstIncludeFragment (ins ++ [x]) rq cs ls None)
  else if value_is "requires" t then
    x ← requires fuel; mret (MkAstIncludeFragment ins (rq ++ x) cs ls None)
  else if value_is "context" t then
    x ← fields i fuel "context" true; mret (MkAstIncludeFragment ins rq (cs ++ x) ls None)
  else if value_is "limits" t then
    x ← limits fuel; mret (MkAstIncludeFragment ins rq cs (ls ++ [x]) None)
  else
    error PAR_UNEXPECTED_FRAGMENT_DECLARATION
      ("declaration " +:+ got t +:+ " is not allowed in include fragment")%string t.

Fixpoint fragment_members (i : Interpreter) (fuel m : nat) (g : AstIncludeFragment)
  : PM AstIncludeFragment :=
  match fuel with
  | O => starved
  | S n => t ← current;
           if bool_decide (tok_kind t = T_EOF) then mret g
           else h ← fragment_member i m g; fragment_members i n m h
  end.

Definition parse_include_fragment (i : Interpreter) (fuel : nat) : PM AstIncludeFragment :=
  start ← current;
  g ← fragment_members i fuel fuel (MkAstIncludeFragment [] [] [] [] None);
  st ← get;
  end_ ← match ps_previous st with Some t => mret t | None => current end;
  _ ← expect "<eof>";
  s ← span_from start end_;
  mret (MkAstIncludeFragment (ag_includes g) (ag_requires g) (ag_contexts g) (ag_limits g) s).
End Parser.

(** [Parser(tokens, source).parse(mode)] *)
Definition run_parser {A} (parse : option SourceFile -> nat -> PM A)
    (tokens : list Token) (source : option SourceFile) : result A :=
  _ ← raise_if (match source with
                | Some f => existsb (fun t => negb (String.eqb (span_source_id (tok_span t))
                                                      (source_id f))) tokens
                | None => false
                end) ValueError "parser tokens and source must share a source_id";
  (parse source (S (length tokens)) (MkParser None tokens None)).1.

Definition parse_within (i : Interpreter) (tokens : list Token) (source : option SourceFile)
    (mode : ParseMode) : result (AstSkill + AstIncludeFragment) :=
  match mode with
  | INCLUDE_FRAGMENT => inr <$> run_parser (fun f => parse_include_fragment f i) tokens source
  | ROOT_SKILL => inl <$> run_parser (fun f => parse_skill f i) tokens source
  end.

(** As far as the limits of the interpreter are not reached. *)
Definition parse : list Token -> option SourceFile -> ParseMode
  -> result (AstSkill + AstIncludeFragment) := parse_within unlimited.
End Parser.
