(* ===== verification/ParserFacts.v ===== *)
(** * What the parser does with the tokens of a source ([src/nsl/syntax.py])

    On the tokens of a source the parser ends, fails with a [CompileError] or,
    where the stack of the interpreter is bounded, with a [RecursionError], and gives every node the span of the tokens it was read from. *)

From S2P Require Import Prelude Digest Json JsonBoundary Decimal Core Decoding Values.
From S2P Require Import DataProtection Source Lexer LexerFacts Parser.
Import Parser.Parser.

(** ** Streams of tokens *)

(** The token has a value of its kind, and its numeral can be read. *)
Definition valued (t : Token) : Prop :=
  match tok_kind t with
  | T_EOF => False
  | T_DURATION => exists z, tok_value t = TInt z
  | T_INTEGER => (exists z, int_value t = Ok z) /\ exists e, literal t = Ok e
  | T_DECIMAL | T_BOOLEAN => exists e, literal t = Ok e
  | _ => exists s, tok_value t = TText s
  end.

Definition starts_at (t : Token) : nat := sp_offset (span_start (tok_span t)).
Definition ends_at (t : Token) : nat := sp_offset (span_end (tok_span t)).

(** Tokens of the source [id] in the order of their places, from the offset [n]
    on, with one end of the file. *)
Inductive stream (id : string) : nat -> list Token -> Prop :=
  | stream_eof n t : tok_kind t = T_EOF -> tok_value t = TText "<eof>" ->
      span_source_id (tok_span t) = id -> n <= starts_at t <= ends_at t -> stream id n [t]
  | stream_token n t ts : valued t -> span_source_id (tok_span t) = id ->
      n <= starts_at t <= ends_at t -> stream id (ends_at t) ts -> stream id n (t :: ts).

(** The span of a run of tokens. *)
Definition cover (ts : list Token) : option SourceSpan :=
  match ts, last ts with
  | t :: _, Some e => Some (MkSourceSpan (span_source_id (tok_span t))
                              (span_start (tok_span t)) (span_end (tok_span e)))
  | _, _ => None
  end.

Lemma stream_mono id n m ts : stream id n ts -> m <= n -> stream id m ts.
Proof. intros H Hm. inversion H; subst; [apply stream_eof | apply stream_token]; (done || lia). Qed.

Lemma stream_drop id n u r : stream id n (u ++ r) -> r <> [] -> exists m, n <= m /\ stream id m r.
Proof.
  revert n; induction u as [|t u IH]; intros n H Hr; [by exists n |].
  inversion H as [|? ? ? ? ? Ht Hs]; subst; [by destruct u |].
  destruct (IH _ Hs Hr) as (m & Hm & H'). exists m. split; [lia | done].
Qed.

Lemma stream_In id n u r t : stream id n (u ++ r) -> r <> [] -> t ∈ u ->
  valued t /\ span_source_id (tok_span t) = id /\ n <= starts_at t /\ starts_at t <= ends_at t.
Proof.
  revert n; induction u as [|x u IH]; intros n H Hr Ht; [by apply elem_of_nil in Ht |].
  inversion H as [|? ? ? Hv Hi Ho Hs]; subst; [by destruct u |].
  apply elem_of_cons in Ht as [->|Ht]; [split; [done | split; [done | lia]] |].
  destruct (IH _ Hs Hr Ht) as (? & ? & ? & ?). split; [done | split; [done | lia]].
Qed.

Lemma stream_not_eof id n t ts : stream id n (t :: ts) -> tok_kind t <> T_EOF -> ts <> [].
Proof. intros H Hk. inversion H as [| ? ? ? ? ? ? Hs]; subst; [done |]. by destruct Hs. Qed.

Lemma same_source id ts n : stream id n ts ->
  existsb (fun t => negb (String.eqb (span_source_id (tok_span t)) id)) ts = false.
Proof.
  induction 1 as [n t Hk Hv <- Ho | n t ts Hv Hi Ho Hs IH]; cbn.
  - by rewrite String.eqb_refl.
  - rewrite Hi, String.eqb_refl. exact IH.
Qed.

(** ** Judgements about parsers *)

(** The errors besides [CompileError] that may end a parser: those of the
    limits of the interpreter. *)
Class Reached : Type := reached : exn -> Prop.

Definition within {R : Reached} (i : Interpreter) : Prop :=
  forall e, ex_class e = RecursionError -> in_stack i <> None -> reached e.

Section Judgement.
Context {R : Reached}.
Variable id : string.

Definition ready (s : parser) : Prop := exists n, stream id n (ps_rest s).

(** From [s0] to [s] the parser has read [u]. *)
Definition eats (s0 : parser) (u : list Token) (s : parser) : Prop :=
  ready s0 /\ ready s /\ ps_rest s0 = u ++ ps_rest s
  /\ ps_previous s = match last u with Some t => Some t | None => ps_previous s0 end.

Definition left_over (s : parser) : nat := length (ps_rest s).

(** [m] fails with a [CompileError] or at a limit, or returns as [Q] says. *)
Definition ok {A} (m : PM A) (s : parser) (Q : A -> parser -> Prop) : Prop :=
  match m s with
  | (Ok a, s') => Q a s'
  | (Err e, _) => ex_class e = CompileError \/ reached e
  end.

(** With at most [n] tokens ahead, [m] reads some tokens that satisfy [Q]. *)
Definition takes {A} (n : nat) (m : PM A) (Q : A -> list Token -> Prop) : Prop :=
  forall s, ready s -> left_over s <= n -> ok m s (fun a s' => exists u, eats s u s' /\ Q a u).

Lemma eats_refl s : ready s -> eats s [] s.
Proof. intros H. done. Qed.

Lemma eats_trans s0 u s1 v s2 : eats s0 u s1 -> eats s1 v s2 -> eats s0 (u ++ v) s2.
Proof.
  intros (H0 & _ & Hr & Hp) (_ & H2 & Hr' & Hp'). split; [done |]. split; [done |].
  rewrite Hr, Hr', app_assoc. split; [done |]. rewrite Hp', last_app, Hp. by destruct (last v).
Qed.

Lemma eats_length s0 u s : eats s0 u s -> left_over s0 = length u + left_over s.
Proof. intros (_ & _ & H & _). unfold left_over. by rewrite H, length_app. Qed.

Lemma eats_ready s0 u s : eats s0 u s -> ready s.
Proof. by intros (_ & H & _). Qed.

Lemma ready_cons s : ready s -> exists t r, ps_rest s = t :: r /\ span_source_id (tok_span t) = id.
Proof. intros [n H]. inversion H; subst; eauto. Qed.

Lemma ready_positive s : ready s -> 1 <= left_over s.
Proof. intros (t & r & H & _)%ready_cons. unfold left_over. rewrite H. cbn. lia. Qed.

Lemma ok_mono {A} (m : PM A) s (P Q : A -> parser -> Prop) :
  (forall a s', P a s' -> Q a s') -> ok m s P -> ok m s Q.
Proof. unfold ok. intros H. destruct (m s) as [[a|e] s']; auto. Qed.

Lemma ok_bind {A B} (m : PM A) (f : A -> PM B) s Q :
  ok m s (fun a s' => ok (f a) s' Q) -> ok (m ≫= f) s Q.
Proof. unfold ok, mbind, M_bind. by destruct (m s) as [[a|e] s']. Qed.

Lemma ok_lift {A} (r : result A) a s (Q : A -> parser -> Prop) : r = Ok a -> Q a s -> ok (lift r) s Q.
Proof. by intros ->. Qed.

Lemma ok_error {A} source c msg t s (Q : A -> parser -> Prop) : ok (error source c msg t) s Q.
Proof. by left. Qed.

Lemma ok_enter {B} (f : Interpreter -> PM B) i s Q : within i ->
  (forall i', within i' -> ok (f i') s Q) -> ok (i' ← lift (enter i); f i') s Q.
Proof.
  intros Hi Hf. apply ok_bind. unfold ok at 1, lift. destruct (enter i) as [i'|e] eqn:E.
  - apply Hf. intros e He Hs. apply Hi; [done |]. by apply (enter_stack _ _ E).
  - right. by apply Hi; apply (enter_error _ _ E).
Qed.

(** The step of a proof: [m] reads [v] after [u]. *)
Lemma ok_step {A B} n (m : PM A) (f : A -> PM B) s0 u s P Q :
  takes n m P -> eats s0 u s -> left_over s <= n ->
  (forall a v s', eats s0 (u ++ v) s' -> P a v -> ok (f a) s' Q) -> ok (m ≫= f) s Q.
Proof.
  intros Hm He Hn Hf. apply ok_bind. eapply ok_mono; [| apply Hm; [by eapply eats_ready | done]].
  cbn. intros a s' (v & Hv & HP). eapply Hf; [by eapply eats_trans | done].
Qed.

Lemma ok_ret {A} (a : A) s0 u s (Q : A -> list Token -> Prop) :
  eats s0 u s -> Q a u -> ok (mret a) s (fun a s' => exists u, eats s0 u s' /\ Q a u).
Proof. intros H1 H2. by exists u. Qed.

Lemma takes_mono {A} n (m : PM A) (P Q : A -> list Token -> Prop) :
  (forall a u, P a u -> Q a u) -> takes n m P -> takes n m Q.
Proof. intros H Hm s Hs Hn. eapply ok_mono; [| by apply Hm]. cbn. intros a s' (u & ? & ?). eauto. Qed.

Lemma takes_less {A} n n' (m : PM A) Q : takes n m Q -> n' <= n -> takes n' m Q.
Proof. intros Hm Hn s Hs Hl. apply Hm; [done | lia]. Qed.

(** ** Reading a token *)

Lemma current_run s t r : ps_rest s = t :: r -> current s = (Ok t, s).
Proof. unfold current, mbind, M_bind, get. cbn. by intros ->. Qed.

Lemma ok_current {B} (f : Token -> PM B) s Q :
  ready s -> (forall t r, ps_rest s = t :: r -> ok (f t) s Q) -> ok (t ← current; f t) s Q.
Proof.
  intros Hs Hf. destruct (ready_cons s Hs) as (t & r & H & _). apply ok_bind. unfold ok at 1.
  rewrite (current_run _ _ _ H). by eapply Hf.
Qed.

Lemma eats_one s t r : ready s -> ps_rest s = t :: r -> tok_kind t <> T_EOF ->
  eats s [t] (MkParser (Some t) r (ps_language_version s)) /\ valued t.
Proof.
  intros [n Hs] Hr Hk. rewrite Hr in Hs. pose proof (stream_not_eof _ _ _ _ Hs Hk) as Hne.
  inversion Hs as [|? ? ? Hv Hi Ho Hs']; subst; [done |].
  split; [| done]. split; [exists n; by rewrite Hr |]. split; [by exists (ends_at t) | done].
Qed.

Lemma ok_advance {B} (f : Token -> PM B) s0 u s t r Q :
  eats s0 u s -> ps_rest s = t :: r -> tok_kind t <> T_EOF ->
  (forall s', eats s0 (u ++ [t]) s' -> valued t -> ok (f t) s' Q) -> ok (t ← advance; f t) s Q.
Proof.
  intros He Hr Hk Hf. destruct (eats_one s t r) as [H1 H2]; [by eapply eats_ready | done | done |].
  apply ok_bind. unfold ok at 1, advance, mbind, M_bind, get, modify. cbn. rewrite Hr. cbn.
  apply Hf; [by eapply eats_trans | done].
Qed.

(** The end of the file is the only token of a stream with its value. *)
Lemma ready_value s t r v : ready s -> ps_rest s = t :: r -> value_is v t = true -> v <> "<eof>" ->
  tok_kind t <> T_EOF.
Proof.
  intros [n Hs] Hr Hv Hne Hk. rewrite Hr in Hs.
  inversion Hs as [? ? Hk' Hv' | ? ? ? Hd]; subst.
  - unfold value_is in Hv. rewrite Hv' in Hv. apply String.eqb_eq in Hv. done.
  - unfold valued in Hd. by rewrite Hk in Hd.
Qed.

Lemma advance_takes s t r : ready s -> ps_rest s = t :: r -> tok_kind t <> T_EOF ->
  ok advance s (fun a s' => exists u, eats s u s' /\ a = t /\ u = [t] /\ valued t).
Proof.
  intros Hs Hr Hk. destruct (eats_one s t r Hs Hr Hk) as [H1 H2].
  unfold ok, advance, mbind, M_bind, get, modify. cbn. rewrite Hr. cbn. eauto.
Qed.

Section Source.
Variable source : option SourceFile.

Lemma takes_expect n v : v <> "<eof>" ->
  takes n (expect source v) (fun t u => u = [t] /\ value_is v t = true /\ valued t).
Proof.
  intros Hv s Hs _. apply ok_current; [done | intros t r Hr].
  destruct (value_is v t) eqn:E; [| apply ok_error].
  eapply ok_mono; [| eapply advance_takes; [done | done | by eapply ready_value]].
  cbn. intros a s' (u & He & -> & -> & Ht). eauto.
Qed.

Lemma takes_expect_kind n k : k <> T_EOF ->
  takes n (expect_kind source k) (fun t u => u = [t] /\ tok_kind t = k /\ valued t).
Proof.
  intros Hk s Hs _. apply ok_current; [done | intros t r Hr].
  destruct (bool_decide (tok_kind t = k)) eqn:E; [| apply ok_error]. apply bool_decide_eq_true in E.
  eapply ok_mono; [| eapply advance_takes; [done | done | by rewrite E]].
  cbn. intros a s' (u & He & -> & -> & Ht). eauto.
Qed.

Lemma takes_current_is n v :
  takes n (current_is v) (fun b u => u = []).
Proof. intros s Hs _. apply ok_current; [done | intros t r Hr]. exists []. split; [by apply eats_refl | done]. Qed.

Lemma takes_accept n v : v <> "<eof>" ->
  takes n (accept v) (fun b u => if b then exists t, u = [t] else u = []).
Proof.
  intros Hv s Hs _. unfold accept, current_is. apply ok_bind.
  apply ok_current; [done | intros t r Hr]. unfold ok at 1. cbn.
  destruct (value_is v t) eqn:E; [| exists []; split; [by apply eats_refl | done]].
  apply ok_bind. eapply ok_mono; [| eapply advance_takes; [done | done | by eapply ready_value]].
  cbn. intros a s' (u & He & -> & -> & Ht). unfold ok. cbn. eauto.
Qed.
End Source.
End Judgement.

(** ** Loops and declarations *)

#[local] Ltac lengths :=
  repeat match goal with H : eats _ _ _ _ |- _ => apply eats_length in H end;
  rewrite ?length_app in *; cbn [length app] in *; lia.

(** [step lem]: the next statement reads some tokens, as [lem] says;
    [token lem] where [lem] holds for any number of tokens ahead. *)
#[local] Ltac after_step E :=
  let E' := fresh "E" in
  let H := fresh "H" in
  intros ? ? ? E'; cbn beta; intros H; clear E; rename E' into E; cbn beta iota zeta;
  try match type of H with
      | _ /\ _ /\ _ => destruct H as (-> & ? & ?)
      | exists _, _ = [_] => destruct H as [? ->]
      end;
  cbn [app] in E; rewrite ?app_nil_r in E.
#[local] Ltac step lem :=
  match goal with
  | E : eats _ ?s0 ?u ?s |- ok (_ ≫= _) ?s _ =>
      eapply (ok_step _ _ _ _ s0 u s); [lem | exact E | lengths | after_step E]
  end.
#[local] Ltac token lem :=
  match goal with
  | E : eats _ ?s0 ?u ?s |- ok (_ ≫= _) ?s _ =>
      eapply (ok_step _ (left_over s) _ _ s0 u s); [lem | exact E | reflexivity | after_step E]
  end.
#[local] Ltac expecting := token ltac:(by apply takes_expect).
#[local] Ltac kind := token ltac:(by apply takes_expect_kind).
#[local] Ltac pure H := apply ok_bind; eapply ok_lift; [exact H | cbn beta iota zeta].
#[local] Ltac returns :=
  match goal with E : eats _ _ _ _ |- _ => eapply ok_ret; [exact E | try done] end.

Section Productions.
Context {R : Reached}.
Variable id : string.
Hypothesis Hid : id <> "".
Variable source : option SourceFile.

Definition textual (k : TokenKind) : bool := bool_decide (k = T_IDENTIFIER \/ k = T_STRING).

Lemma text_of_valued t k : tok_kind t = k -> textual k = true -> valued t ->
  exists s, text_value t = Ok s.
Proof.
  unfold valued, text_value. intros -> Hk.
  unfold textual in Hk. apply bool_decide_eq_true in Hk as [-> | ->]; intros [s ->]; eauto.
Qed.

Lemma takes_expect_text n k : textual k = true ->
  takes id n (expect_text source k) (fun _ u => exists t, u = [t]).
Proof.
  intros Hk s Hs Hn. pose proof (eats_refl id s Hs) as E. unfold expect_text.
  assert (k <> T_EOF) as Hne by by intros ->. kind.
  destruct (text_of_valued a k) as [x Hx]; [done | done | done |].
  eapply ok_lift; [exact Hx | eauto].
Qed.

(** A loop ends when every round reads a token. *)
Lemma takes_until {A} n m (stop : PM bool) (item : PM A) :
  takes id n stop (fun _ _ => True) -> takes id n item (fun _ u => u <> []) -> n <= m ->
  takes id n (until m stop item) (fun _ _ => True).
Proof.
  revert n; induction m as [|m IH]; intros n Hstop Hitem Hm s Hs Hn.
  { pose proof (ready_positive id s Hs). lia. }
  pose proof (eats_refl id s Hs) as E. cbn [until].
  step ltac:(exact Hstop). destruct a; [returns |].
  step ltac:(exact Hitem).
  assert (length v0 > 0) as Hpos by (destruct v0; [done | cbn; lia]).
  assert (takes id (n - 1) (until m stop item) (fun _ _ => True)) as Hrec.
  { apply IH; [eapply takes_less; [exact Hstop | lia] | eapply takes_less; [exact Hitem | lia] | lia]. }
  step ltac:(exact Hrec). returns.
Qed.

#[local] Ltac texting := token ltac:(by apply takes_expect_text).

Lemma takes_qualified_parts n m : n <= m ->
  takes id n (qualified_parts source m) (fun _ _ => True).
Proof.
  intros Hn. apply takes_until; [| | done].
  - intros s Hs _. pose proof (eats_refl id s Hs) as E. token ltac:(by apply takes_accept). returns.
  - eapply takes_mono; [| by apply takes_expect_text]. by intros a u [t ->].
Qed.

Lemma takes_qualified_name n m : n <= m ->
  takes id n (qualified_name source m) (fun _ u => u <> []).
Proof.
  intros Hn s Hs Hl. pose proof (eats_refl id s Hs) as E. unfold qualified_name. texting.
  step ltac:(by apply takes_qualified_parts). returns.
Qed.

Lemma money_type_error c e : money_type c = Err e -> isinstance_exn (ex_class e) ValueError = true.
Proof.
  unfold money_type, _require_currency_code, new_TypeRef, TypeRef_post_init.
  intros H. repeat match type of H with
  | _require_currency_code _ = Err _ => unfold _require_currency_code in H
  | (_ ≫= _) = Err _ => apply bind_Err in H as [H | (? & ? & H)]
  | raise_if _ _ _ = Err _ => apply raise_if_Err in H as [_ ->]
  | raise _ _ = Err _ => injection H as <-
  | (if ?b then _ else _) = Err _ => destruct b
  | match ?x with _ => _ end = Err _ => destruct x
  end; try discriminate; reflexivity.
Qed.

Lemma takes_type_ref i n : within i -> takes id n (type_ref source i n) (fun _ u => u <> []).
Proof.
  revert i; induction n as [|n IH]; intros i Hi s Hs Hn; [pose proof (ready_positive id s Hs); lia |].
  pose proof (eats_refl id s Hs) as E. cbn [type_ref].
  apply ok_enter; [done | clear i Hi; intros i Hi]. kind.
  destruct (text_of_valued a T_IDENTIFIER) as [name Hname]; [done..|]. pure Hname.
  destruct (String.eqb name "Money").
  - expecting. kind. expecting.
    destruct (text_of_valued a1 T_IDENTIFIER) as [c Hc]; [done..|]. pure Hc.
    unfold ok, try_except, lift. destruct (money_type c) as [u|e] eqn:Em; [by eauto |].
    rewrite (money_type_error c e Em). by left.
  - destruct (String.eqb name "List").
    + expecting. step ltac:(exact (IH i Hi)). expecting. returns.
    + destruct (assoc name _TYPE_NAMES); [returns | apply ok_error].
Qed.

Lemma takes_classification n : takes id n (classification source) (fun _ _ => True).
Proof.
  intros s Hs Hn. pose proof (eats_refl id s Hs) as E. unfold classification.
  token ltac:(by apply takes_accept). destruct a; [| returns]. kind.
  destruct (text_of_valued a T_IDENTIFIER) as [name Hname]; [done..|]. pure Hname.
  destruct (DataClassification_of name); [returns | apply ok_error].
Qed.

(** ** Spans *)

Lemma stream_order n t u p r : stream id n ((t :: u) ++ r) -> r <> [] -> last (t :: u) = Some p ->
  span_source_id (tok_span t) = id /\ span_source_id (tok_span p) = id /\ starts_at t <= ends_at p.
Proof.
  intros Hs Hr Hp. assert (p ∈ t :: u) as Hin by by apply last_Some_elem_of.
  destruct (stream_In id n (t :: u) r t Hs Hr) as (_ & H1 & _ & H3); [by left |].
  destruct (stream_In id n (t :: u) r p Hs Hr Hin) as (_ & H2 & _ & H4).
  split; [done |]. split; [done |]. inversion Hs as [|? ? ? ? ? ? Hs']; subst; [by destruct u |].
  apply elem_of_cons in Hin as [->|Hin]; [lia |].
  destruct (stream_In (span_source_id (tok_span t)) _ _ _ p Hs' Hr Hin) as (_ & _ & Hp5 & _). lia.
Qed.

Lemma rest_nonempty s0 u s : eats id s0 u s -> ps_rest s <> [].
Proof. intros (_ & (t & r & -> & _)%ready_cons & _). done. Qed.

Lemma span_between_cover s0 t u p s : eats id s0 (t :: u) s -> last (t :: u) = Some p ->
  exists sp, span_between (Some (tok_span t)) (Some (tok_span p)) = Ok sp /\ cover (t :: u) = Some sp.
Proof.
  intros E Hp. pose proof (rest_nonempty _ _ _ E) as Hne. destruct E as ([n Hs] & _ & Hr & _).
  rewrite Hr in Hs. destruct (stream_order n t u p _ Hs Hne Hp) as (H1 & H2 & H3).
  unfold cover. rewrite Hp. eexists. split; [| done].
  unfold span_between. rewrite H1, H2, String.eqb_refl. cbn [negb raise_if mbind result_bind].
  unfold SourceSpan_post_init. cbn [span_source_id span_start span_end].
  rewrite (proj2 (String.eqb_neq id "") Hid). cbn [raise_if mbind result_bind].
  apply Nat.ltb_ge in H3. unfold starts_at, ends_at in H3. by rewrite H3.
Qed.

Lemma ok_span {B} (f : option SourceSpan -> PM B) s0 t u p s Q :
  eats id s0 (t :: u) s -> last (t :: u) = Some p ->
  ok (f (cover (t :: u))) s Q -> ok (sp ← span_from t p; f sp) s Q.
Proof.
  intros E Hp Hf. destruct (span_between_cover _ _ _ _ _ E Hp) as (sp & H1 & H2).
  apply ok_bind. unfold ok at 1, span_from, lift, mbind, M_bind. rewrite H1. cbn. by rewrite <- H2.
Qed.

Lemma previous_run s0 u p s : eats id s0 u s -> last u = Some p -> previous_token s = (Ok p, s).
Proof. intros (_ & _ & _ & H) Hp. unfold previous_token, mbind, M_bind, get. cbn. by rewrite H, Hp. Qed.

Lemma ok_span_read {B} (f : option SourceSpan -> PM B) s0 t u s Q :
  eats id s0 (t :: u) s -> ok (f (cover (t :: u))) s Q ->
  ok (p ← previous_token; sp ← span_from t p; f sp) s Q.
Proof.
  intros E Hf. destruct (last (t :: u)) as [p|] eqn:Hp; [| by apply last_None in Hp].
  apply ok_bind. unfold ok at 1. rewrite (previous_run _ _ _ _ E Hp). by eapply ok_span.
Qed.

(** The span from the start of one run of tokens to the end of another. *)
Lemma span_between_runs s0 u w v s : eats id s0 (u ++ w ++ v) s -> u <> [] -> v <> [] ->
  exists sp, span_between (cover u) (cover v) = Ok sp /\ cover (u ++ w ++ v) = Some sp.
Proof.
  intros E Hu Hv. destruct u as [|t u]; [done |]. destruct (last (t :: u)) as [p|] eqn:Hp;
    [| by apply last_None in Hp].
  destruct v as [|t' v]; [done |]. destruct (last (t' :: v)) as [p'|] eqn:Hp';
    [| by apply last_None in Hp'].
  assert (last ((t :: u) ++ w ++ t' :: v) = Some p') as Hl by by rewrite app_assoc, last_app, Hp'.
  destruct (span_between_cover s0 t (u ++ w ++ t' :: v) p' s E Hl) as (sp & H1 & H2).
  exists sp. split; [| done]. rewrite <- H1. unfold cover. rewrite Hp, Hp'.
  pose proof (rest_nonempty _ _ _ E) as Hne. destruct E as ([n Hs] & _ & Hr & _). rewrite Hr in Hs.
  assert (t' ∈ (t :: u) ++ w ++ t' :: v) as Hin.
  { apply elem_of_app; right; apply elem_of_app; right; by left. }
  assert (p' ∈ (t :: u) ++ w ++ t' :: v) as Hin'.
  { by apply last_Some_elem_of. }
  destruct (stream_In id n _ _ t' Hs Hne Hin) as (_ & I1 & _).
  destruct (stream_In id n _ _ p' Hs Hne Hin') as (_ & I2 & _).
  unfold span_between. cbn [span_source_id span_start span_end]. by rewrite I1, I2.
Qed.

Definition covers (e : AstExpression) (u : list Token) : Prop :=
  u <> [] /\ expression_span e = cover u.

Lemma cover_one t : cover [t] = Some (tok_span t).
Proof. unfold cover. cbn. by destruct t as [? ? ? []]. Qed.

Lemma ok_literal t : is_literal t = true -> valued t ->
  exists e, literal t = Ok e /\ covers e [t].
Proof.
  unfold is_literal. intros H Hv. apply bool_decide_eq_true in H.
  assert (exists e, literal t = Ok e) as [e He].
  { unfold valued in Hv. revert H Hv. unfold literal. destruct (tok_kind t); intros H Hv;
      try (exfalso; repeat (apply elem_of_cons in H as [H|H]; [discriminate |]);
           by apply elem_of_nil in H); try done.
    - destruct Hv as [s ->]. eauto.
    - by destruct Hv. }
  exists e. split; [done |]. split; [done |]. rewrite cover_one. unfold literal in He.
  destruct (tok_kind t), (tok_value t); try discriminate; try (injection He as <-; done).
  all: destruct (existsb _ _); apply bind_Ok in He as (x & _ & He); by injection He as <-.
Qed.

#[local] Ltac spanning :=
  eapply ok_span; [eassumption | rewrite ?app_comm_cons; first [reflexivity | apply last_snoc] |];
  returns.

(** ** Expressions *)

Lemma takes_items_from {A} n m (item : PM A) :
  takes id n item (fun _ u => u <> []) -> n <= m ->
  takes id n (items_from source m item) (fun _ u => u <> []).
Proof.
  revert n; induction m as [|m IH]; intros n Hitem Hm s Hs Hn.
  { pose proof (ready_positive id s Hs). lia. }
  pose proof (eats_refl id s Hs) as E. cbn [items_from]. step ltac:(exact Hitem).
  assert (length v > 0) as Hpos by (destruct v; [done | cbn; lia]).
  assert (v <> []) as Hv by done.
  token ltac:(by apply takes_accept). destruct a0; [destruct H0 as [t ->]; returns; by destruct v |].
  subst v0. expecting.
  assert (takes id (n - 1) (items_from source m item) (fun _ u => u <> [])) as Hrec.
  { apply IH; [eapply takes_less; [exact Hitem | lia] | lia]. }
  step ltac:(exact Hrec). returns. by destruct v.
Qed.

Lemma takes_parenthesized {A} n m (item : PM A) :
  takes id n item (fun _ u => u <> []) -> n <= m ->
  takes id n (parenthesized source m item) (fun _ _ => True).
Proof.
  intros Hitem Hm s Hs Hn. pose proof (eats_refl id s Hs) as E. unfold parenthesized.
  token ltac:(by apply takes_accept). destruct a; [returns |]. subst v.
  eapply ok_mono; [| apply (takes_items_from n m item Hitem Hm); [by eapply eats_ready | lengths]].
  cbn. intros xs s2 (w & Ew & _). exists w. split; [| done]. by apply (eats_trans id s [] s' w).
Qed.

Lemma takes_named n separator expr : separator <> "<eof>" -> takes id n expr covers ->
  takes id n (named source separator expr) (fun _ u => u <> []).
Proof.
  intros Hsep Hexpr s Hs Hn. pose proof (eats_refl id s Hs) as E. unfold named. texting.
  expecting. step ltac:(exact Hexpr). returns.
Qed.

(** The arguments of a call, [(name separator expression, ...)]. *)
Lemma takes_arguments n m separator expr : separator <> "<eof>" -> takes id n expr covers -> n <= m ->
  takes id n (parenthesized source m (named source separator expr)) (fun _ _ => True).
Proof. intros H1 H2 Hm. apply takes_parenthesized; [by apply takes_named | done]. Qed.

Definition keyword_test (v : string) (t : Token) (s : parser) : bool :=
  value_is v t && bool_decide (tok_kind t = T_KEYWORD)
  && bool_decide (ps_language_version s = Some (version_value V0_2)).

Lemma ok_keyword {B} v t (f : bool -> PM B) s Q :
  ready id s -> ok (f (keyword_test v t s)) s Q -> ok (b ← v0_2_keyword v t; f b) s Q.
Proof. done. Qed.

Section Calls.
Variable n : nat.
Variable expr : PM AstExpression.
Hypothesis Hexpr : takes id n expr covers.

(** [self._advance()] past the current token. *)
#[local] Ltac advancing :=
  match goal with
  | Hs : ready _ ?s, Hr : ps_rest ?s = _ :: _ |- ok (_ ≫= _) ?s _ =>
      let E := fresh "E" in
      eapply (ok_advance id _ s []); [by apply eats_refl | exact Hr | done |];
      intros ? E; intros ?; cbn [app] in E; cbn beta iota zeta
  end.

Lemma ok_read_call s t r : ready id s -> left_over s <= S n -> ps_rest s = t :: r ->
  tok_kind t <> T_EOF ->
  ok (read_call source n expr t) s (fun e s' => exists u, eats id s u s' /\ covers e u).
Proof.
  intros Hs Hn Hr Hk. unfold read_call. advancing.
  step ltac:(by apply (takes_qualified_name n)). expecting.
  step ltac:(by apply (takes_arguments n)).
  eapply ok_span_read; [exact E |]. returns.
Qed.

Lemma ok_write_call s t r : ready id s -> left_over s <= S n -> ps_rest s = t :: r ->
  tok_kind t <> T_EOF ->
  ok (write_call source n expr t) s (fun e s' => exists u, eats id s u s' /\ covers e u).
Proof.
  intros Hs Hn Hr Hk. unfold write_call. advancing.
  step ltac:(by apply (takes_qualified_name n)). expecting.
  step ltac:(by apply (takes_arguments n)). expecting. kind.
  destruct (text_of_valued a3 T_IDENTIFIER) as [x Hx]; [done..|]. pure Hx. spanning.
Qed.

Lemma ok_call_or_path s t r : ready id s -> left_over s <= S n -> ps_rest s = t :: r ->
  tok_kind t = T_IDENTIFIER ->
  ok (call_or_path source n expr t) s (fun e s' => exists u, eats id s u s' /\ covers e u).
Proof.
  intros Hs Hn Hr Hk. unfold call_or_path. assert (tok_kind t <> T_EOF) as Hk' by by rewrite Hk.
  advancing. destruct (text_of_valued t T_IDENTIFIER) as [x Hx]; [done..|]. pure Hx.
  token ltac:(by apply takes_accept). destruct a.
  - destruct H0 as [t1 ->]. assert (takes id n expr (fun _ u => u <> [])) as Hexpr'.
    { eapply takes_mono; [| exact Hexpr]. by intros e u [Hu _]. }
    step ltac:(by apply (takes_parenthesized n)).
    eapply ok_span_read; [exact E |]. returns.
  - subst v. step ltac:(by apply (takes_qualified_parts n)).
    eapply ok_span_read; [exact E |]. returns.
Qed.

Lemma covers_replace e u : u <> [] -> covers (replace_span e (cover u)) u.
Proof. intros H. split; [done |]. by destruct e. Qed.

Lemma takes_primary : takes id (S n) (primary source n expr) covers.
Proof.
  intros s Hs Hn. unfold primary. apply (ok_current id); [done | intros t r Hr].
  destruct (is_literal t) eqn:Hl.
  { assert (tok_kind t <> T_EOF) as Hk.
    { intros H. unfold is_literal in Hl. by rewrite H in Hl. }
    advancing. destruct (ok_literal t Hl H) as (e & He & Hc).
    eapply ok_lift; [exact He | eauto]. }
  destruct (value_is "read" t) eqn:Hread.
  { eapply ok_read_call; [done | done | done | by eapply ready_value]. }
  eapply ok_keyword; [exact Hs |]. destruct (keyword_test "write" t s) eqn:Hw.
  { unfold keyword_test in Hw. split_bool. eapply ok_write_call; [done | done | done | by eapply ready_value]. }
  destruct (bool_decide (tok_kind t = T_IDENTIFIER)) eqn:Hi.
  { apply bool_decide_eq_true in Hi. by eapply ok_call_or_path. }
  pose proof (eats_refl id s Hs) as E. token ltac:(by apply takes_accept).
  destruct a; [| apply ok_error]. destruct H as [t' ->].
  step ltac:(exact Hexpr). expecting.
  assert (t' = t) as ->.
  { destruct E as (_ & _ & Hr' & _). rewrite Hr in Hr'. by injection Hr' as ->. }
  eapply ok_span; [exact E | rewrite app_comm_cons; apply last_snoc |].
  returns. by apply covers_replace.
Qed.
End Calls.

Lemma precedence_known t operator p : precedence t = Some (operator, p) ->
  value_is operator t = true /\ operator <> "<eof>".
Proof.
  unfold precedence, value_is. destruct (tok_value t) as [s| |]; [| done | done].
  destruct (assoc s _PRECEDENCE) as [q|] eqn:E; [| done]. intros [= <- <-].
  split; [apply String.eqb_refl |]. by intros ->.
Qed.

(** The loop extends an expression that covers what has been read. *)
Lemma ok_climb n m expr minimum left s0 u s :
  (forall p, takes id n (expr p) covers) -> n <= m ->
  eats id s0 u s -> covers left u -> left_over s <= n ->
  ok (climb m expr minimum left) s (fun e s' => exists v, eats id s0 v s' /\ covers e v).
Proof.
  intros Hexpr. revert n Hexpr left u s. induction m as [|m IH]; intros n Hexpr left u s Hm E Hl Hn.
  { pose proof (ready_positive id s (eats_ready id _ _ _ E)). lia. }
  cbn [climb]. apply (ok_current id); [by eapply eats_ready | intros t r Hr].
  destruct (precedence t) as [[operator p]|] eqn:Hp; [| returns].
  destruct (p <? minimum); [returns |].
  destruct (precedence_known _ _ _ Hp) as [Hv Hne].
  eapply ok_advance; [exact E | exact Hr | |].
  { eapply ready_value; [by eapply eats_ready | done | done | done]. }
  apply eats_length in E. intros s1 E' Ht. cbn beta. rename E into L, E' into E. step ltac:(apply Hexpr). destruct H as [Hv0 Ha].
  rewrite <- app_assoc in E.
  destruct Hl as [Hu Hl].
  destruct (span_between_runs _ _ _ _ _ E Hu Hv0) as (sp & H1 & H2).
  apply ok_bind. eapply ok_lift; [rewrite Hl, Ha; exact H1 |].
  apply (IH (n - 1) ltac:(intros q; eapply takes_less; [apply Hexpr | lia]) _ (u ++ [t] ++ v));
    [lia | done | by split; [by destruct u | by rewrite H2] |].
  destruct v; [done |]. lengths.
Qed.

Lemma takes_expression i n minimum : within i ->
  takes id n (expression source i n minimum) covers.
Proof.
  revert i minimum; induction n as [|n IH]; intros i minimum Hi s Hs Hn.
  { pose proof (ready_positive id s Hs). lia. }
  pose proof (eats_refl id s Hs) as E. cbn [expression].
  apply ok_enter; [done | clear i Hi; intros i Hi].
  step ltac:(exact (takes_primary n _ (IH i 0 Hi))). destruct H as [Hv Ha].
  eapply (ok_climb n); [by intros; apply IH | lia | exact E | done |]. destruct v; [done |]. lengths.
Qed.

(** ** Statements *)

Definition statement_covers (x : AstStatement) (u : list Token) : Prop :=
  u <> [] /\ statement_span x = cover u.

(** [finishes t m]: [m] is the rest of a production whose first token is [t]. *)
Definition finishes {A} (n : nat) (t : Token) (m : PM A) (Q : A -> list Token -> Prop) : Prop :=
  forall s0 s, eats id s0 [t] s -> left_over s <= n ->
  ok m s (fun x s' => exists u, eats id s0 u s' /\ Q x u).

Lemma finishes_approve n t : finishes n t (approve_statement source t) statement_covers.
Proof.
  intros s0 s E Hn. unfold approve_statement. kind. expecting. expecting. texting. expecting.
  expecting. destruct (text_of_valued a T_IDENTIFIER) as [y Hy]; [done..|]. pure Hy. spanning.
Qed.

Lemma finishes_let i n t : within i ->
  finishes n t (let_statement source i n t) statement_covers.
Proof.
  intros Hi s0 s E Hn. unfold let_statement. pose proof (eats_length _ _ _ _ E) as L.
  texting. expecting. step ltac:(by apply takes_expression). expecting. spanning.
Qed.

Lemma finishes_check i n t : within i ->
  finishes n t (check_statement source i n t) statement_covers.
Proof.
  intros Hi s0 s E Hn. unfold check_statement. pose proof (eats_length _ _ _ _ E) as L.
  texting. expecting. expecting. step ltac:(by apply takes_expression). expecting. expecting.
  texting. expecting. expecting. texting. expecting. expecting. texting. expecting. expecting.
  spanning.
Qed.

Lemma takes_stop n v : takes id n (current_is v) (fun _ _ => True).
Proof. eapply takes_mono; [| apply takes_current_is]. done. Qed.

Lemma takes_closing n : takes id n (accept "}") (fun _ _ => True).
Proof. eapply takes_mono; [| by apply takes_accept]. done. Qed.

Lemma finishes_emit i n t : within i ->
  finishes n t (emit_statement source i n t) statement_covers.
Proof.
  intros Hi s0 s E Hn. unfold emit_statement. pose proof (eats_length _ _ _ _ E) as L. expecting.
  assert (takes id n (until n (current_is "}")
            (f ← named source ":" (expression source i n 0); _ ← expect source ";"; mret f))
            (fun _ _ => True)) as Hfields.
  { apply takes_until; [apply takes_stop | | done]. clear s0 s E L Hn. intros s Hs Hn.
    pose proof (eats_refl id s Hs) as E.
    step ltac:(apply (takes_named n); [done | by apply takes_expression]). expecting. returns.
    by destruct v. }
  step ltac:(exact Hfields). expecting. spanning.
Qed.

Lemma finishes_foreach i n t m : within i ->
  takes id n m (fun _ u => u <> []) ->
  finishes n t (foreach_statement source i n m t) statement_covers.
Proof.
  intros Hi Hm s0 s E Hn. unfold foreach_statement. pose proof (eats_length _ _ _ _ E) as L.
  texting. expecting. step ltac:(by apply takes_expression). expecting. kind.
  match goal with Hk : tok_kind ?a = T_INTEGER, Hv : valued ?a |- _ =>
    unfold valued in Hv; rewrite Hk in Hv; destruct Hv as [[z Hz] _] end.
  pure Hz. destruct (z <=? 0)%Z; [apply ok_error |]. expecting.
  assert (takes id n (until n (current_is "}") m) (fun _ _ => True)) as Hbody.
  { apply takes_until; [apply takes_stop | exact Hm | done]. }
  step ltac:(exact Hbody). expecting. spanning.
Qed.

Lemma statement_keyword n s t r v m :
  ready id s -> left_over s <= S n -> ps_rest s = t :: r -> value_is v t = true -> v <> "<eof>" ->
  finishes n t m statement_covers ->
  ok (_ ← advance; m) s (fun x s' => exists u, eats id s u s' /\ statement_covers x u).
Proof.
  intros Hs Hn Hr Hv Hne Hm.
  eapply (ok_advance id _ s []); [by apply eats_refl | exact Hr | by eapply ready_value |].
  intros s1 E _. cbn [app] in E. apply Hm; [exact E | lengths].
Qed.

Lemma takes_statement i n : within i -> takes id n (statement source i n) statement_covers.
Proof.
  revert i; induction n as [|n IH]; intros i Hi s Hs Hn; [pose proof (ready_positive id s Hs); lia |].
  cbn [statement]. apply ok_enter; [done | clear i Hi; intros i Hi]. apply (ok_current id); [done | intros t r Hr].
  eapply ok_keyword; [exact Hs |]. destruct (keyword_test "approve" t s) eqn:Ha.
  { unfold keyword_test in Ha. split_bool.
    eapply statement_keyword; [done | done | done | done | done | apply finishes_approve]. }
  destruct (value_is "let" t) eqn:Hl.
  { eapply statement_keyword; [done | done | done | done | done | by apply finishes_let]. }
  destruct (value_is "foreach" t) eqn:Hf.
  { eapply statement_keyword; [done | done | done | done | done | apply finishes_foreach; [done |]].
    eapply takes_mono; [| exact (IH i Hi)]. by intros x u [Hu _]. }
  destruct (value_is "check" t) eqn:Hc.
  { eapply statement_keyword; [done | done | done | done | done | by apply finishes_check]. }
  destruct (value_is "emit" t) eqn:He; [| apply ok_error].
  eapply statement_keyword; [done | done | done | done | done | by apply finishes_emit].
Qed.

(** ** Declarations *)

Lemma takes_include n : takes id n (include_declaration source)
  (fun x u => u <> [] /\ ai_span x = cover u).
Proof.
  intros s Hs Hn. pose proof (eats_refl id s Hs) as E. unfold include_declaration.
  expecting. texting. expecting. spanning.
Qed.

Lemma takes_required_tool n m : n <= m ->
  takes id n (required_tool source m) (fun x u => u <> [] /\ ar_span x = cover u).
Proof.
  intros Hm s Hs Hn. pose proof (eats_refl id s Hs) as E. unfold required_tool.
  expecting. step ltac:(by apply (takes_qualified_name n)). expecting. texting. expecting. spanning.
Qed.

Lemma takes_requires n m : n <= m -> takes id n (requires source m) (fun _ u => u <> []).
Proof.
  intros Hm s Hs Hn. pose proof (eats_refl id s Hs) as E. unfold requires. expecting. expecting.
  assert (takes id n (until m (accept "}") (required_tool source m)) (fun _ _ => True)) as H'.
  { apply takes_until; [apply takes_closing | | done].
    eapply takes_mono; [| by apply takes_required_tool]. by intros x u [Hu _]. }
  eapply ok_mono; [| apply H'; [by eapply eats_ready | lengths]].
  cbn. intros y s9 (u & Eu & _). eexists. split; [by eapply eats_trans | done].
Qed.

Lemma takes_limit_fields n m values : n <= m ->
  takes id n (limit_fields source m values) (fun _ _ => True).
Proof.
  revert n values; induction m as [|m IH]; intros n values Hm s Hs Hn.
  { pose proof (ready_positive id s Hs). lia. }
  pose proof (eats_refl id s Hs) as E. cbn [limit_fields]. token ltac:(apply takes_stop).
  destruct a; [returns |]. kind.
  destruct (text_of_valued a T_IDENTIFIER) as [name Hname]; [done..|]. pure Hname.
  destruct (assoc name values); [apply ok_error |].
  token ltac:(apply takes_expect_kind; by destruct (String.eqb name "duration")).
  assert (exists z, int_value a0 = Ok z) as [z Hz].
  { match goal with Hk : tok_kind a0 = _, Hv : valued a0 |- _ => unfold valued in Hv; rewrite Hk in Hv;
      unfold int_value; destruct (String.eqb name "duration") end; cbn in *.
    - match goal with Hv : exists _, _ |- _ => destruct Hv as [z ->] end. eauto.
    - tauto. }
  pure Hz. expecting.
  assert (takes id (n - 1) (limit_fields source m (assoc_set name z values)) (fun _ _ => True)) as Hrec.
  { apply IH. lia. }
  eapply ok_mono; [| apply Hrec; [by eapply eats_ready | lengths]].
  cbn. intros y s9 (u & Eu & _). eexists. split; [by eapply eats_trans | done].
Qed.

Lemma takes_limits n m : n <= m ->
  takes id n (limits source m) (fun x u => u <> [] /\ al_span x = cover u).
Proof.
  intros Hm s Hs Hn. pose proof (eats_refl id s Hs) as E. unfold limits. expecting. expecting.
  step ltac:(by apply (takes_limit_fields n)). expecting.
  apply (ok_current id); [by eapply eats_ready | intros t r Hr]. cbn zeta.
  destruct (_ || _); [apply ok_error |]. destruct (existsb _ _); [apply ok_error |]. spanning.
Qed.

Lemma takes_field_spec i n m with_path : within i -> n <= m ->
  takes id n (field_spec source i m with_path) (fun x u => u <> [] /\ af_span x = cover u).
Proof.
  intros Hi Hm s Hs Hn. pose proof (eats_refl id s Hs) as E. unfold field_spec. kind.
  destruct (text_of_valued a T_IDENTIFIER) as [name Hname]; [done..|]. pure Hname. expecting.
  assert (takes id n (type_ref source i m) (fun _ u => u <> [])) as Htype.
  { eapply takes_less; [by apply takes_type_ref | done]. }
  step ltac:(exact Htype).
  assert (forall k, takes id k (if with_path then
            _ ← expect source "from"; p ← expect_text source T_STRING; mret (split_on "." p)
          else mret []) (fun _ _ => True)) as Hpath.
  { clear s Hs Hn E. intros k s Hs Hn. pose proof (eats_refl id s Hs) as E.
    destruct with_path; [| returns]. expecting. texting. returns. }
  token ltac:(apply Hpath). token ltac:(apply takes_classification). expecting. spanning.
Qed.

Lemma takes_fields i n m keyword with_path : within i -> keyword <> "<eof>" -> n <= m ->
  takes id n (fields source i m keyword with_path) (fun _ u => u <> []).
Proof.
  intros Hi Hk Hm s Hs Hn. pose proof (eats_refl id s Hs) as E. unfold fields. expecting. expecting.
  assert (takes id n (until m (accept "}") (field_spec source i m with_path)) (fun _ _ => True)) as H'.
  { apply takes_until; [apply takes_closing | | done].
    eapply takes_mono; [| by apply takes_field_spec]. by intros x u [Hu _]. }
  eapply ok_mono; [| apply H'; [by eapply eats_ready | lengths]].
  cbn. intros y s9 (u & Eu & _). eexists. split; [by eapply eats_trans | done].
Qed.

(** ** Skills and fragments *)

#[local] Ltac onward Hv :=
  match goal with
  | Hs : ready _ ?s, Hr : ps_rest ?s = _ :: _ |- ok (_ ≫= _) ?s _ =>
      let E := fresh "E" in
      eapply (ok_advance id _ s []);
        [by apply eats_refl | exact Hr | by eapply ready_value; [exact Hs | exact Hr | exact Hv |] |];
      intros ? E; intros ?; cbn [app] in E; cbn beta iota zeta
  end.

Lemma takes_skill_member i n m p : within i -> n <= m ->
  takes id n (skill_member source i m p) (fun _ u => u <> []).
Proof.
  intros Hi Hm s Hs Hn. destruct p as [v r rs ins rq l incs c o b]. unfold skill_member.
  apply (ok_current id); [done | intros t rest Hr].
  destruct (value_is "version" t) eqn:H1; [onward H1; texting; expecting; returns |].
  destruct (value_is "risk" t) eqn:H2.
  { onward H2. kind. destruct (text_of_valued a T_IDENTIFIER) as [y Hy]; [done..|]. pure Hy.
    expecting. returns. }
  pose proof (eats_refl id s Hs) as E.
  destruct (value_is "include" t).
  { step ltac:(apply (takes_include n)). destruct H. returns. }
  destruct (value_is "requires" t); [step ltac:(by apply (takes_requires n)); returns |].
  destruct (value_is "limits" t).
  { step ltac:(by apply (takes_limits n)). destruct H. returns. }
  destruct (value_is "input" t); [step ltac:(by apply (takes_fields i n)); returns |].
  destruct (value_is "context" t); [step ltac:(by apply (takes_fields i n)); returns |].
  destruct (value_is "output" t); [step ltac:(by apply (takes_fields i n)); returns |].
  assert (takes id n (statement source i m) statement_covers) as Hst.
  { eapply takes_less; [by apply takes_statement | done]. }
  step ltac:(exact Hst). destruct H. returns.
Qed.

Lemma takes_skill_members i n m k p : within i -> n <= m -> n <= k ->
  takes id n (skill_members source i k m p) (fun _ _ => True).
Proof.
  intros Hi Hm. revert n Hm p; induction k as [|k IH]; intros n Hm p Hk s Hs Hn.
  { pose proof (ready_positive id s Hs). lia. }
  pose proof (eats_refl id s Hs) as E. cbn [skill_members]. token ltac:(apply takes_stop).
  destruct a; [returns |]. step ltac:(by apply (takes_skill_member i n)).
  assert (length v0 > 0) by (destruct v0; [done | cbn; lia]).
  eapply ok_mono; [| apply (IH (n - 1)); [lia | lia | by eapply eats_ready | lengths]].
  cbn. intros y s9 (u & Eu & _). eexists. split; [by eapply eats_trans | done].
Qed.

Lemma takes_fragment_member i n m g : within i -> n <= m ->
  takes id n (fragment_member source i m g) (fun _ u => u <> []).
Proof.
  intros Hi Hm s Hs Hn. destruct g as [ins rq cs ls sp]. unfold fragment_member.
  apply (ok_current id); [done | intros t rest Hr]. pose proof (eats_refl id s Hs) as E.
  destruct (value_is "include" t).
  { step ltac:(apply (takes_include n)). destruct H. returns. }
  destruct (value_is "requires" t); [step ltac:(by apply (takes_requires n)); returns |].
  destruct (value_is "context" t); [step ltac:(by apply (takes_fields i n)); returns |].
  destruct (value_is "limits" t); [| apply ok_error].
  step ltac:(by apply (takes_limits n)). destruct H. returns.
Qed.

Lemma takes_fragment_members i n m k g : within i -> n <= m -> n <= k ->
  takes id n (fragment_members source i k m g) (fun _ _ => True).
Proof.
  intros Hi Hm. revert n Hm g; induction k as [|k IH]; intros n Hm g Hk s Hs Hn.
  { pose proof (ready_positive id s Hs). lia. }
  pose proof (eats_refl id s Hs) as E. cbn [fragment_members].
  apply (ok_current id); [done | intros t rest Hr].
  destruct (bool_decide (tok_kind t = T_EOF)); [returns |].
  step ltac:(by apply (takes_fragment_member i n)).
  assert (length v > 0) by (destruct v; [done | cbn; lia]).
  eapply ok_mono; [| apply (IH (n - 1)); [lia | lia | by eapply eats_ready | lengths]].
  cbn. intros y s9 (u & Eu & _). eexists. split; [by eapply eats_trans | done].
Qed.

Lemma ok_expect_end s : ready id s ->
  ok (expect source "<eof>") s (fun _ s' => exists t, ps_previous s' = Some t).
Proof.
  intros Hs. apply (ok_current id); [done | intros t r Hr].
  destruct (value_is "<eof>" t); [| apply ok_error].
  unfold ok, advance, mbind, M_bind, get, modify. cbn. rewrite Hr. cbn. eauto.
Qed.

(** The span of a run that ends before the rest of the input. *)
Definition spans_prefix (sp : option SourceSpan) (ts : list Token) : Prop :=
  exists u r, ts = u ++ r /\ u <> [] /\ sp = cover u.

Lemma ok_parse_skill i n s : within i -> ready id s -> left_over s <= n ->
  ok (parse_skill source i n) s (fun x _ => spans_prefix (as_span x) (ps_rest s)).
Proof.
  intros Hi Hs Hn. pose proof (eats_refl id s Hs) as E. unfold parse_skill. expecting. expecting. kind.
  destruct (text_of_valued a1 T_STRING) as [y Hy]; [done..|]. pure Hy.
  apply ok_bind. unfold ok at 1, modify.
  match type of E with eats _ _ _ ?s1 =>
    assert (eats id s [a; a0; a1] (MkParser (ps_previous s1) (ps_rest s1) (Some y))) as E' by exact E end.
  clear E. rename E' into E. expecting. expecting.
  step ltac:(by apply (takes_qualified_name n)). expecting.
  step ltac:(by apply (takes_skill_members i n)). expecting.
  apply ok_bind. eapply ok_mono; [| apply ok_expect_end; by eapply eats_ready].
  cbn beta. intros e s9 [pt Hp].
  destruct (_ || _).
  { apply ok_bind. unfold ok at 1, last_token, mbind, M_bind, get. cbn. rewrite Hp.
    destruct (last (ps_rest s9)); by left. }
  match type of E with eats _ _ (_ :: ?w) ?s1 =>
    assert (last (a :: w) = Some a7) as Hlast by (rewrite ?app_comm_cons; apply last_snoc);
    destruct (span_between_cover s a w a7 s1 E Hlast) as (sp & Hsp1 & Hsp2) end.
  apply ok_bind. unfold ok at 1, span_from, lift, mbind, M_bind. rewrite Hsp1. cbn.
  destruct E as (_ & _ & Hr & _). rewrite Hr. eexists _, _. split; [reflexivity |]. by rewrite <- Hsp2.
Qed.

Lemma ok_parse_fragment i n s : within i -> ready id s -> left_over s <= n ->
  ps_previous s = None ->
  ok (parse_include_fragment source i n) s (fun x _ => spans_prefix (ag_span x) (ps_rest s)).
Proof.
  intros Hi Hs Hn Hp. unfold parse_include_fragment.
  apply (ok_current id); [done | intros t r Hr]. pose proof (eats_refl id s Hs) as E.
  step ltac:(by apply (takes_fragment_members i n)). clear H.
  apply ok_bind. unfold ok at 1, get. cbn iota.
  assert (exists end_ u w, ps_rest s = u ++ w /\ u <> [] /\ 
    (match ps_previous s' with Some t => mret t | None => current end) s' = (Ok end_, s')
    /\ exists sp, span_between (Some (tok_span t)) (Some (tok_span end_)) = Ok sp /\ cover u = Some sp)
    as (end_ & u & w & Hu & Hne & Hrun & sp & Hsp1 & Hsp2).
  { destruct v as [|t' v].
    - pose proof E as (_ & Hs' & Hr' & Hprev). cbn in Hprev, Hr'. rewrite Hprev, Hp.
      assert (ps_rest s' = t :: r) as Hcur by by rewrite <- Hr'.
      exists t, [t], r. split; [done |]. split; [done |]. split; [by apply (current_run _ _ r) |].
      rewrite cover_one. exists (tok_span t). split; [| done].
      destruct Hs as [k Hk]. rewrite Hr in Hk. unfold span_between. rewrite String.eqb_refl.
      cbn [negb raise_if mbind result_bind]. unfold SourceSpan_post_init.
      assert (span_source_id (tok_span t) = id /\ starts_at t <= ends_at t) as [Ht1 Ht2].
      { inversion Hk; subst; done || (split; [done | lia]). }
      cbn [span_source_id span_start span_end]. rewrite Ht1.
      rewrite (proj2 (String.eqb_neq id "") Hid). cbn [raise_if mbind result_bind].
      apply Nat.ltb_ge in Ht2. unfold starts_at, ends_at in Ht2. rewrite Ht2. cbn.
      rewrite <- Ht1. by destruct (tok_span t).
    - assert (t' = t) as ->.
      { destruct E as (_ & _ & Hr' & _). rewrite Hr in Hr'. by injection Hr' as ->. }
      destruct (last (t :: v)) as [p|] eqn:Hl; [| by apply last_None in Hl].
      pose proof E as (_ & _ & Hr' & Hprev). rewrite Hl in Hprev. rewrite Hprev.
      exists p, (t :: v), (ps_rest s'). split; [done |]. split; [done |]. split; [done |].
      by apply (span_between_cover s t v p s'). }
  apply ok_bind. unfold ok at 1. rewrite Hrun.
  apply ok_bind. eapply ok_mono; [| apply ok_expect_end; by eapply eats_ready].
  cbn beta. intros e s9 _. apply ok_bind. unfold ok at 1, span_from, lift, mbind, M_bind.
  rewrite Hsp1. cbn. rewrite Hu. exists u, w. by rewrite <- Hsp2.
Qed.
End Productions.

(** ** The tokens of a source *)

(** A source without superscript digits and without numbers of more digits
    than [int] converts, shorter than the decimals Python can hold. *)
Definition plain_text (w : text) : Prop :=
  ~ refused w /\ (Z.of_nat (length w) <= 999999999999999999)%Z.

Lemma plain_text_app v w : plain_text (v ++ w) -> plain_text v /\ plain_text w.
Proof.
  unfold plain_text. rewrite length_app. intros [H Hl]. repeat split; try lia.
  - intros [H' | (u & ds & r & -> & H')]; apply H; [left; apply Exists_app; by left |].
    right. exists u, ds, (r ++ w). by rewrite <- !app_assoc.
  - intros H'. by apply H, refused_app.
Qed.

Lemma plain_digits w : plain_text w -> forallb py_isdigit w = true -> forallb is_digit w = true.
Proof.
  intros [H _] Hd. apply forallb_forall. intros c Hc. destruct (is_digit c) eqn:E; [done |].
  destruct H. left. apply Exists_exists. exists c. split; [by apply list_elem_of_In |].
  split; [| done]. by apply (proj1 (forallb_forall _ _) Hd).
Qed.

Lemma digits_value_bound l : forallb is_digit l = true ->
  (Z.of_N (digits_value l) < 10 ^ Z.of_nat (length l))%Z.
Proof.
  unfold digits_value. intros H.
  assert (forall n, (parse_digits l n).1 < (n + 1) * 10 ^ N.of_nat (length l))%N as Hb.
  { induction l as [|c l IH]; intros n; [cbn; lia |]. cbn in H. split_bool. cbn [parse_digits].
    rewrite H. eapply N.lt_le_trans; [by apply IH |]. cbn [length].
    rewrite Nat2N.inj_succ, N.pow_succ_r', N.mul_assoc. apply N.mul_le_mono_r.
    assert (N_of_ascii c <= 57)%N.
    { unfold is_digit, code_between in H. split_bool. apply Nat.leb_le in H1.
      unfold char_code, nat_of_ascii in H1. lia. }
    lia. }
  specialize (Hb 0%N). apply N2Z.inj_lt in Hb. rewrite N2Z.inj_mul, N2Z.inj_pow, nat_N_Z in Hb. lia.
Qed.

Lemma dec_of_numeral ds fs : ds <> [] -> forallb is_digit (ds ++ fs) = true ->
  (Z.of_nat (length (ds ++ fs)) <= 999999999999999999)%Z ->
  dec_of_string (text_of (ds ++ "."%char :: fs))
  = Ok (Fin false (digits_value (ds ++ fs)) (- Z.of_nat (length fs))).
Proof.
  intros Hne Hd Hl. unfold dec_of_string.
  assert (forallb plain_char (ds ++ "."%char :: fs) = true) as Hp.
  { rewrite forallb_app in Hd |- *. split_bool. cbn. by rewrite !Decoding.digits_plain. }
  rewrite numeric_text_id by by rewrite chars_text_of. rewrite chars_text_of.
  destruct ds as [|c ds]; [done |]. cbn [app].
  change (take_sign (c :: ?l)) with (take_sign (signed_text false (c :: l))).
  rewrite take_sign_text by by cbn in Hd; split_bool.
  rewrite app_comm_cons, finite_of_point by done.
  assert (exact_range (Fin false (digits_value ((c :: ds) ++ fs)) (- Z.of_nat (length fs))) = true)
    as ->; [| done].
  rewrite length_app in Hl. cbn [exact_range]. apply andb_true_iff. split; apply Z.leb_le; [lia |].
  destruct (digits_value ((c :: ds) ++ fs) =? 0)%N; [lia |].
  assert (ndigits (digits_value ((c :: ds) ++ fs)) <= Z.of_nat (length ((c :: ds) ++ fs)))%Z as Hn.
  { apply ndigits_le; [rewrite length_app; cbn; lia | by apply digits_value_bound]. }
  rewrite length_app in Hn. lia.
Qed.

Lemma py_int_digits ds : ds <> [] -> plain_text ds -> forallb is_digit ds = true ->
  py_int (text_of ds) = Ok (Z.of_N (digits_value ds)).
Proof.
  intros Hne [Hp _] Hd. unfold py_int. rewrite chars_text_of. destruct ds; [done |]. rewrite Hd.
  destruct (default_max_str_digits <? _) eqn:E; [| done]. apply Nat.ltb_lt in E.
  destruct Hp. right. exists [], (a :: ds), []. by rewrite app_nil_r.
Qed.

Lemma digits_no_point ds : forallb is_digit ds = true -> existsb (Ascii.eqb ".") ds = false.
Proof.
  intros H. induction ds as [|c ds IH]; [done |]. cbn in *. split_bool. rewrite IH by done.
  by destruct c as [[] [] [] [] [] [] [] []].
Qed.

(** A token that reads a plain lexeme has a value of its kind. *)
Lemma reads_valued keywords k v w lexeme span :
  reads keywords k v w -> plain_text w -> valued (MkToken k v lexeme span).
Proof.
  intros H Hp. destruct H as [body value Hb | ds Hne Hd | ds fs Hne Hd Hfne Hfd | ds u m n Hne Hn Hu
    | b | w Hne Hw Hk | c w Hc Hw Hk | k w Hk]; unfold valued; cbn [tok_kind].
  - by eexists.
  - apply plain_digits in Hd; [| done]. unfold int_value, literal. cbn [tok_kind tok_value tok_span].
    rewrite py_int_digits by done. rewrite chars_text_of, digits_no_point by done. eauto.
  - assert (Z.of_nat (length (ds ++ fs)) <= 999999999999999999)%Z as Hl.
    { destruct Hp as [_ Hp]. rewrite length_app in *. cbn [length] in Hp. lia. }
    apply plain_text_app in Hp as [Hp1 Hp2]. assert (plain_text fs) as Hp3.
    { by apply (plain_text_app ["."%char] fs) in Hp2 as [_ ?]. }
    unfold literal. cbn [tok_kind tok_value tok_span]. rewrite chars_text_of.
    rewrite existsb_app. cbn [existsb]. rewrite Ascii.eqb_refl, orb_true_l, orb_true_r.
    rewrite dec_of_numeral; [| done | by rewrite forallb_app, !plain_digits | done]. eauto.
  - eauto.
  - unfold literal. cbn. eauto.
  - eauto.
  - eauto.
  - unfold Lexer._TWO_CHAR, Lexer._SINGLE in Hk.
    repeat (apply elem_of_cons in Hk as [[= _ ->]|Hk]; [by eexists |]). by apply elem_of_nil in Hk.
Qed.

Lemma tiles_stream f keywords p l ts :
  tiles f keywords p l ts -> plain_text l -> stream (source_id f) (sp_offset p) ts.
Proof.
  induction 1 as [p w Hw | p w t x r ts Hw Hx (Hr & Hlex & Hs) Ht IH]; intros Hp.
  - apply stream_eof; cbn; try done. unfold starts_at, ends_at. cbn. rewrite pos_after_offset. lia.
  - apply plain_text_app in Hp as [_ Hp]. apply plain_text_app in Hp as [Hpx Hpr].
    assert (ends_at t = sp_offset (pos_after p (w ++ x))) as He.
    { unfold ends_at. rewrite Hs. cbn. by rewrite <- pos_after_app. }
    apply stream_token.
    + destruct t as [k v lx sp]. by eapply reads_valued.
    + by rewrite Hs.
    + rewrite He, pos_after_offset, length_app. unfold starts_at. rewrite Hs. cbn.
      rewrite pos_after_offset. lia.
    + rewrite He. by apply IH.
Qed.

Lemma tokenize_stream f version ts :
  Lexer.tokenize (inr f) (version_value version) = Ok ts -> plain_text (chars (source_text f)) ->
  stream (source_id f) 0 ts.
Proof.
  intros H Hp. apply bind_Ok in H as ([ts' ds] & H & H').
  destruct ds as [|d ds]; [injection H' as <- | discriminate].
  assert (Lexer.scan_file f version = Ok (MkLexResult ts' [])) as Hs by by destruct version.
  apply scan_loop_tiles in Hs. by apply (tiles_stream _ _ _ _ _ Hs).
Qed.

Lemma tokenize_error f version e :
  Lexer.tokenize (inr f) (version_value version) = Err e -> plain_text (chars (source_text f)) ->
  ex_class e = CompileError.
Proof.
  intros H [Hp _].
  change (Lexer.tokenize (inr f) (version_value version)) with
    (r ← Lexer.scan (inr f) (version_value version);
     match lex_diagnostics r with d :: _ => Err (error_from_diagnostic d) | [] => Ok (lex_tokens r) end)
    in H.
  assert (Lexer.scan (inr f) (version_value version) = Lexer.scan_file f version) as Hs
    by by destruct version.
  rewrite Hs in H. pose proof (scan_loop_total f (Lexer._KEYWORDS_BY_VERSION version) _ []
    (chars (source_text f)) eq_refl (le_n _)) as Ht.
  change (Lexer.scan_loop f _ _ (pos_after origin []) _) with (Lexer.scan_file f version) in Ht.
  destruct (Lexer.scan_file f version) as [r|e'].
  - cbn in H. destruct (lex_diagnostics r); [discriminate | by injection H as <-].
  - by destruct Ht as [_ Ht].
Qed.

(** The tokens of a source, and what the parser makes of them. *)
Definition parse_source (i : Interpreter) (f : SourceFile) (version : SourceLanguageVersion)
    (mode : ParseMode) : result (AstSkill + AstIncludeFragment) :=
  ts ← Lexer.tokenize (inr f) (version_value version); parse_within i ts (Some f) mode.

Definition ast_span (x : AstSkill + AstIncludeFragment) : option SourceSpan :=
  match x with inl s => as_span s | inr g => ag_span g end.

(** What an interpreter with a bounded stack may add. *)
Definition stack_error (i : Interpreter) : Reached :=
  fun e => ex_class e = RecursionError /\ in_stack i <> None.

Lemma parse_tokens i f n ts mode : source_id f <> "" -> stream (source_id f) n ts ->
  match parse_within i ts (Some f) mode with
  | Ok x => spans_prefix (ast_span x) ts
  | Err e => ex_class e = CompileError \/ stack_error i e
  end.
Proof.
  intros Hid Hs. assert (ready (source_id f) (MkParser None ts None)) as Hr by by exists n.
  assert (left_over (MkParser None ts None) <= S (length ts)) as Hl by (cbn; lia).
  assert (within (R := stack_error i) i) as Hi by (intros e He Hi; by split).
  unfold parse_within, run_parser. rewrite (same_source (source_id f) ts n Hs).
  cbn [raise_if mbind result_bind]. destruct mode.
  - pose proof (ok_parse_skill (source_id f) Hid (Some f) _ _ _ Hi Hr Hl) as H. unfold ok in H.
    by destruct (parse_skill _ _ _ _) as [[x|e] s'].
  - pose proof (ok_parse_fragment (source_id f) Hid (Some f) _ _ _ Hi Hr Hl eq_refl) as H.
    unfold ok in H. by destruct (parse_include_fragment _ _ _ _) as [[x|e] s'].
Qed.


Lemma plain_text_check w :
  forallb (fun c => is_digit c || negb (py_isdigit c)) w = true ->
  length w <= default_max_str_digits -> plain_text w.
Proof.
  intros H Hl. split; [intros [Hs | (u & ds & r & -> & _ & Hd)] |].
  - apply Exists_exists in Hs as (c & Hc & H1 & H2).
    apply (proj1 (forallb_forall _ _)) with (x := c) in H; [| by apply list_elem_of_In].
    by rewrite H1, H2 in H.
  - rewrite !length_app in Hl. lia.
  - unfold default_max_str_digits in Hl. lia.
Qed.

Definition small_source : SourceFile :=
  MkSourceFile "id" "a.ns" (quoted_text
    "language NSL '0.1'; skill a { version '1'; risk R1; limits { tool_calls 1; loop_iterations 1; emitted_rows 1; collection_size 1; } let x = 1 + 2 * 3; }")
    "utf-8".

(** The limits are met: a type nested deeper than the stack, a number with too
    many digits. *)
Definition with_statement (l : string) : SourceFile :=
  MkSourceFile "id" "a.ns"
    (quoted_text "language NSL '0.1'; skill a { version '1'; risk R1; limits { tool_calls 1; loop_iterations 1; emitted_rows 1; collection_size 1; } let x = "
     +:+ quoted_text l +:+ "; }")%string "utf-8".

Definition outcome {A} (r : result A) : option exn_class :=
  match r with Err e => Some (ex_class e) | Ok _ => None end.

Example nested_too_deep :
  let deep l i := outcome (parse_source i (with_statement l) V0_1 ROOT_SKILL) in
  deep "((1))" (MkInterpreter (Some 4) None) = None
  /\ deep "((1))" (MkInterpreter (Some 3) None) = Some RecursionError.
Proof. vm_compute. by split. Qed.

Example number_too_long :
  outcome (parse_source unlimited (with_statement (zeros 4300)) V0_1 ROOT_SKILL) = None
  /\ outcome (parse_source unlimited (with_statement (zeros 4301)) V0_1 ROOT_SKILL)
     = Some ValueError.
Proof. vm_compute. by split. Qed.


(** Three defects of the front end. The parser compares the value of a token
    without its kind, so that a string literal can stand for punctuation: the
    literal [")"] as the first argument of a call closes the call and the
    source is refused, while a literal ["+"] between two numbers adds them.
    The builtin [max] is a keyword to the lexer, so that a call of it is refused
    where one of [count] is accepted. And a superscript digit is a digit to the
    lexer but not to [int] and [Decimal], whose exceptions leave the front end:
    a [ValueError] for a duration, an [InvalidOperation] for a decimal. *)
Example tokens_confused :
  let statement l := parse_source unlimited (with_statement l) V0_1 ROOT_SKILL in
  outcome (statement "f(')')") = Some CompileError
  /\ outcome (statement "f('(')") = None
  /\ match statement "1 '+' 2" with
     | Ok (inl s) => match as_body s with
                     | [AstLet _ (AstBinary o _ _ _) _] => o = "+"
                     | _ => False
                     end
     | _ => False
     end
  /\ outcome (statement "count(x)") = None /\ outcome (statement "max(x)") = Some CompileError
  /\ outcome (statement (String "178" "ms")) = Some ValueError
  /\ outcome (statement ("1." +:+ String "178" "")) = Some InvalidOperation.
Proof. vm_compute. repeat split. Qed.
