(* ===== verification/Symbols.v ===== *)
(** * Symbols and static types ([src/nsl/semantic_diagnostics.py], [src/nsl/symbols.py],
    [src/nsl/type_system.py])

    The errors of the semantic phase, the symbol table with its scopes, and the
    static type checker. Scopes are kept with the innermost first. *)

From S2P Require Import Prelude Digest Json JsonBoundary Core DataProtection Builtins Source.

(** ** [SourceDiagnosticContext.error] *)

(** [self._sources.get(source_id)]; the last of two sources with one id. *)
Definition source_of (sources : list SourceFile) (id : string) : option SourceFile :=
  find (fun f => String.eqb (source_id f) id) (rev sources).

Definition phase_error (phase : DiagnosticPhase) (sources : list SourceFile)
    (code : DiagnosticCode) (message : string) (span : option SourceSpan) : exn :=
  let bare := compile_error code phase message None None None in
  match span with
  | None => bare
  | Some s =>
      match source_of sources (span_source_id s) with
      | None => bare
      | Some f =>
          let p := span_start s in
          compile_error code phase message (Some (MkSourceLocation (sp_line p) (sp_column p)))
            (snippet_at (chars (source_text f)) (sp_line p))
            (Some (logical_path f))
      end
  end.

Definition semantic_error : list SourceFile -> DiagnosticCode -> string -> option SourceSpan -> exn :=
  phase_error PHASE_SEMANTIC.

(** ** The symbol table *)

Inductive SymbolNamespace : Type := NAMESPACE_VALUE | NAMESPACE_CHECK | NAMESPACE_APPROVAL.
Inductive ScopeKind : Type := SCOPE_SKILL | SCOPE_FOREACH.

#[export] Instance SymbolNamespace_eq_dec : EqDecision SymbolNamespace.
Proof. solve_decision. Defined.

(** [namespace.value.lower()] *)
Definition namespace_word (n : SymbolNamespace) : string :=
  match n with
  | NAMESPACE_VALUE => "value" | NAMESPACE_CHECK => "check" | NAMESPACE_APPROVAL => "approval"
  end.

Record SymbolBinding : Type := MkSymbolBinding {
  sb_symbol_id : string;
  sb_name : string;
  sb_namespace : SymbolNamespace;
  sb_category : string;
  sb_type_info : TypeRef;
  sb_classification : DataClassification;
  sb_scope_id : string;
  sb_declaration_span : option SourceSpan
}.

Record ScopeFrame : Type := MkScopeFrame {
  sf_scope_id : string;
  sf_kind : ScopeKind;
  sf_bindings : list (string * SymbolBinding)
}.

Record SymbolTable : Type := MkSymbolTable {
  st_scope_counter : nat;
  st_symbol_counter : nat;
  st_frames : list ScopeFrame;
  st_bindings : list SymbolBinding
}.

(** [f"{prefix}{n:04d}"] *)
Definition numbered (prefix : string) (n : nat) : string := prefix +:+ zero_pad 4 (str_of_nat n).

Definition new_SymbolTable : SymbolTable :=
  MkSymbolTable 1 0 [MkScopeFrame "scope0001" SCOPE_SKILL []] [].

Definition current_scope_id (t : SymbolTable) : string :=
  match st_frames t with f :: _ => sf_scope_id f | [] => "" end.

Definition enter_scope (kind : ScopeKind) : M SymbolTable string :=
  t ← get;
  let n := S (st_scope_counter t) in
  let scope_id := numbered "scope" n in
  _ ← modify (fun t => MkSymbolTable n (st_symbol_counter t)
                         (MkScopeFrame scope_id kind [] :: st_frames t) (st_bindings t));
  mret scope_id.

Definition leave_scope (scope_id : string) : M SymbolTable unit :=
  t ← get;
  _ ← fail_if (length (st_frames t) =? 1) ValueError "cannot leave the root symbol scope";
  _ ← fail_if (negb (String.eqb (current_scope_id t) scope_id)) ValueError
        "symbol scopes must be left in stack order";
  modify (fun t => MkSymbolTable (st_scope_counter t) (st_symbol_counter t)
                     (tail (st_frames t)) (st_bindings t)).

Definition find_in (name : string) (f : ScopeFrame) : option SymbolBinding :=
  assoc name (sf_bindings f).

Definition declared (name : string) (frames : list ScopeFrame) : bool :=
  existsb (fun f => match find_in name f with Some _ => true | None => false end) frames.

(** [self._frames[-1].bindings[name] = binding] *)
Definition bind_innermost (name : string) (b : SymbolBinding) (frames : list ScopeFrame)
  : list ScopeFrame :=
  match frames with
  | f :: fs => MkScopeFrame (sf_scope_id f) (sf_kind f) (assoc_set name b (sf_bindings f)) :: fs
  | [] => []
  end.

Section Table.
Variable sources : list SourceFile.

Definition declare (name : string) (namespace : SymbolNamespace) (category : string)
    (type_info : TypeRef) (classification : DataClassification) (span : option SourceSpan)
  : M SymbolTable SymbolBinding :=
  t ← get;
  if declared name (st_frames t) then
    lift (Err (semantic_error sources SEM_DUPLICATE_SYMBOL
                 ("duplicate symbol or shadowing is forbidden: " +:+ name) span))
  else
    let n := S (st_symbol_counter t) in
    let b := MkSymbolBinding (numbered "s" n) name namespace category type_info classification
               (current_scope_id t) span in
    _ ← modify (fun t => MkSymbolTable (st_scope_counter t) n
                           (bind_innermost name b (st_frames t)) (st_bindings t ++ [b]));
    mret b.

(** [_resolve]: the innermost binding of the name, in the namespace if one is
    asked for. *)
Fixpoint find_binding (name : string) (namespace : option SymbolNamespace)
    (frames : list ScopeFrame) : option SymbolBinding :=
  match frames with
  | [] => None
  | f :: fs =>
      match find_in name f with
      | Some b => if match namespace with
                     | None => true
                     | Some n => bool_decide (sb_namespace b = n)
                     end
                  then Some b else find_binding name namespace fs
      | None => find_binding name namespace fs
      end
  end.

Definition _resolve (name : string) (span : option SourceSpan)
    (namespace : option SymbolNamespace) (code : DiagnosticCode) (message : string)
    (t : SymbolTable) : result SymbolBinding :=
  match find_binding name namespace (st_frames t) with
  | Some b => Ok b
  | None => Err (semantic_error sources code message span)
  end.

Definition resolve_symbol (name : string) (span : option SourceSpan) (t : SymbolTable)
  : result SymbolBinding :=
  _resolve name span None SEM_UNKNOWN_IDENTIFIER ("unknown identifier: " +:+ name) t.

Definition resolve_in_namespace (name : string) (namespace : SymbolNamespace)
    (span : option SourceSpan) (code : DiagnosticCode) (message : option string)
    (t : SymbolTable) : result SymbolBinding :=
  _resolve name span (Some namespace) code
    (match message with
     | Some (String _ _ as m) => m
     | _ => ("unknown " +:+ namespace_word namespace +:+ " symbol: " +:+ name)%string
     end) t.

(** ** The static type checker *)

Definition type_failure {A} (code : DiagnosticCode) (message : string) (span : option SourceSpan)
  : result A := Err (semantic_error sources code message span).

Definition require_exact (actual expected : TypeRef) (code : DiagnosticCode) (message : string)
    (span : option SourceSpan) : result unit :=
  if bool_decide (actual = expected) then Ok tt else type_failure code message span.

Definition require_bool (actual : TypeRef) (span : option SourceSpan) : result unit :=
  require_exact actual BOOL SEM_CHECK_CONDITION_TYPE "CHECK assert must have Bool type" span.

Definition require_list (actual : TypeRef) (code : DiagnosticCode) (message : string)
    (span : option SourceSpan) : result TypeRef :=
  match ty_item actual with
  | Some item => if String.eqb (ty_kind actual) "list" then Ok item
                 else type_failure code message span
  | None => type_failure code message span
  end.

(** The type of a field, and whether it is projected from a list. *)
Definition field_result (source_type : TypeRef) (field : string) (span : option SourceSpan)
  : result (TypeRef * bool) :=
  let unknown := type_failure SEM_UNKNOWN_FIELD
    ("type " +:+ ty_kind source_type +:+ " has no field " +:+ field)%string span in
  match String.eqb (ty_kind source_type) "list", ty_item source_type with
  | true, Some item =>
      match ty_field item field with
      | Ok t => Ok (list_type t, true)
      | Err e => if isinstance_exn (ex_class e) KeyError then unknown else Err e
      end
  | _, _ =>
      if String.eqb (ty_kind source_type) "record" then
        match ty_field source_type field with
        | Ok t => Ok (t, false)
        | Err e => if isinstance_exn (ex_class e) KeyError then unknown else Err e
        end
      else unknown
  end.

Definition builtin_result (name : string) (argument_types : list TypeRef)
    (span : option SourceSpan) : result BuiltinSignature :=
  match builtin_resolve name argument_types with
  | Ok s => Ok s
  | Err e =>
      if isinstance_exn (ex_class e) UnknownBuiltinError then
        type_failure SEM_UNSUPPORTED_BUILTIN (ex_msg e) span
      else if isinstance_exn (ex_class e) BuiltinSignatureError then
        type_failure (if String.eqb name "sum" then SEM_SUM_ARGUMENT_TYPE
                      else SEM_UNSUPPORTED_BUILTIN) (ex_msg e) span
      else Err e
  end.

Definition sum_result (argument_type : TypeRef) (span : option SourceSpan) : result TypeRef :=
  s ← builtin_result "sum" [argument_type] span; Ok (bs_result_type s).

(** [type.name or type.kind] *)
Definition type_label (t : TypeRef) : string :=
  match ty_name t with Some (String _ _ as n) => n | _ => ty_kind t end.

Definition binary_result (operator : string) (left right : TypeRef) (span : option SourceSpan)
  : result TypeRef :=
  _ ← require_exact left right SEM_BINARY_TYPE ("binary type mismatch for " +:+ operator) span;
  let undefined := type_failure SEM_BINARY_TYPE
    ("operator " +:+ operator +:+ " is not defined for " +:+ type_label left)%string span in
  let is_money := String.eqb (ty_kind left) "money" in
  if bool_decide (operator ∈ ["=="; "!="]) then Ok BOOL
  else if bool_decide (operator ∈ ["<"; "<="; ">"; ">="]) then
    if bool_decide (left ∈ [INT; DECIMAL]) || is_money then Ok BOOL else undefined
  else if bool_decide (operator ∈ ["+"; "-"; "*"; "/"]) then
    if bool_decide (left = INT) then Ok (if String.eqb operator "/" then DECIMAL else INT)
    else if bool_decide (left = DECIMAL) then Ok DECIMAL
    else if is_money && bool_decide (operator ∈ ["+"; "-"]) then Ok left
    else undefined
  else undefined.
End Table.
