(* ===== verification/Includes.v ===== *)
(** * Include resolution and composition ([src/nsl/includes.py])

    Canonical include paths, the bundle builder, which follows the include
    declarations of a source depth first, and the composition of a bundle into
    one skill. The resolver is a port: it answers from the calls made before.
    Paths are those of [pathlib] on POSIX. *)

From S2P Require Import Prelude Digest Json JsonBoundary Core DataProtection Ir NsoSchema NsoCodec.
From S2P Require Import Source Lexer Parser Symbols.

Record IncludeOptions : Type := MkIncludeOptions {
  include_root : string;
  max_include_depth : Z;
  max_include_files : Z;
  max_total_source_bytes : Z
}.

Definition IncludeOptions_post_init (o : IncludeOptions) : result unit :=
  _ ← raise_if (max_include_depth o <? 0)%Z ValueError "max_include_depth must be non-negative";
  _ ← raise_if (max_include_files o <? 0)%Z ValueError "max_include_files must be non-negative";
  raise_if (max_total_source_bytes o <? 0)%Z ValueError
    "max_total_source_bytes must be non-negative".

Definition default_IncludeOptions : IncludeOptions :=
  MkIncludeOptions "." 16 100 (10 * 1024 * 1024).

(** ** Paths *)

Definition slash : ascii := "/"%char.

(** [PurePosixPath(path).parts]: the root, if any, and the components but
    empty ones and [.]; two leading slashes are a root of their own. *)
Definition path_root (path : string) : option string :=
  match chars path with
  | a :: b :: c :: _ =>
      if Ascii.eqb a slash then
        if Ascii.eqb b slash && negb (Ascii.eqb c slash) then Some "//" else Some "/"
      else None
  | [a; b] => if Ascii.eqb a slash then if Ascii.eqb b slash then Some "//" else Some "/" else None
  | [a] => if Ascii.eqb a slash then Some "/" else None
  | [] => None
  end.

Definition path_components (path : string) : list string :=
  List.filter (fun p => negb (bool_decide (p ∈ [""; "."]))) (split_on slash path).

Definition path_parts (path : string) : list string :=
  match path_root path with Some r => [r] | None => [] end ++ path_components path.

(** [PurePosixPath(PurePosixPath(path).parent.as_posix()).parts]: the parent
    of a bare root or of the empty path is the path itself. *)
Definition parent_parts (path : string) : list string :=
  match path_root path with Some r => [r] | None => [] end ++ removelast (path_components path).

(** [PureWindowsPath(path).drive] of a path without a backslash that does not
    start with a slash; a path with a drive or a root is the other case in
    which [PureWindowsPath(path).is_absolute()] could hold. *)
Definition has_drive (path : string) : bool :=
  match path with String _ (String c _) => Ascii.eqb c ":" | _ => false end.

Definition has_char (c : ascii) (s : string) : bool := existsb (Ascii.eqb c) (chars s).

Definition unsafe_include_path (include_path : string) : bool :=
  String.eqb include_path "" || has_char NUL include_path || has_char backslash include_path
  || bool_decide (path_root include_path <> None) || has_drive include_path
  || negb (endswith include_path ".ns").

(** [normalized_parts], and the walk along [include_path]: a part [..] leaves
    the last directory, unless only [floor] of them are left. The directories
    are kept with the innermost first. *)
Fixpoint walk_parts (floor : nat) (dirs parts : list string) : result (list string) :=
  match parts with
  | [] => Ok dirs
  | p :: ps =>
      if bool_decide (p ∈ [""; "."]) then walk_parts floor dirs ps
      else if String.eqb p ".." then
        _ ← raise_if (length dirs <=? floor) ValueError "path escapes include root";
        walk_parts floor (tail dirs) ps
      else walk_parts floor (p :: dirs) ps
  end.

Definition normalized_parts (parts : list string) : result (list string) :=
  dirs ← walk_parts 0 [] parts; Ok (rev dirs).

Definition canonical_include_path (including_logical_path include_path include_root : string)
  : result string :=
  _ ← raise_if (unsafe_include_path include_path) ValueError "unsafe include path";
  root_parts ← normalized_parts (path_parts include_root);
  base_parts ← normalized_parts (parent_parts including_logical_path);
  _ ← raise_if (negb (bool_decide (take (length root_parts) base_parts = root_parts))) ValueError
        "including source is outside include root";
  dirs ← walk_parts (length root_parts) (rev base_parts) (path_parts include_path);
  Ok (join "/" (rev dirs)).

(** ** Bundles *)

Record ParsedSourceUnit (A : Type) : Type := MkParsedSourceUnit { pu_source : SourceFile; pu_ast : A }.
Arguments MkParsedSourceUnit {A} _ _.
Arguments pu_source {A} _.
Arguments pu_ast {A} _.

Record IncludeEdge : Type := MkIncludeEdge {
  ie_from_source : string;
  ie_to_source : string;
  ie_include_span : SourceSpan
}.

Record SourceManifestEntry : Type := MkSourceManifestEntry {
  me_source_id : string;
  me_logical_path : string;
  me_content_hash : string;
  me_size_bytes : Z;
  me_is_root : bool
}.

Definition source_bytes (f : SourceFile) : bytes := utf8_encode (chars (source_text f)).
Definition source_size (f : SourceFile) : Z := Z.of_nat (length (source_bytes f)).

Definition manifest_entry (f : SourceFile) (is_root : bool) : SourceManifestEntry :=
  MkSourceManifestEntry (source_id f) (logical_path f) (sha256_ref (source_bytes f))
    (source_size f) is_root.

Definition include_error (code : DiagnosticCode) (message : string) (f : SourceFile)
    (declaration : option AstIncludeDeclaration) : exn :=
  let place := d ← declaration; span_start <$> ai_span d in
  compile_error code PHASE_INCLUDE message
    ((fun p => MkSourceLocation (sp_line p) (sp_column p)) <$> place)
    (p ← place; snippet_at (chars (source_text f)) (sp_line p))
    (Some (logical_path f)).

Record SourceBundle : Type := MkSourceBundle {
  sbu_root : ParsedSourceUnit AstSkill;
  sbu_fragments : list (ParsedSourceUnit AstIncludeFragment);
  sbu_edges : list IncludeEdge;
  sbu_manifest : list SourceManifestEntry
}.

Definition bundle_sources (b : SourceBundle) : list SourceFile :=
  pu_source (sbu_root b) :: map pu_source (sbu_fragments b).

(** The fields of an entry that [source_manifest_sha256] reads. *)
Definition build_source (e : SourceManifestEntry) : BuildSource :=
  MkBuildSource (me_logical_path e) (me_content_hash e) (me_size_bytes e) (me_is_root e).

Definition bundle_hash (b : SourceBundle) : string :=
  source_manifest_sha256 (map build_source (sbu_manifest b)).

(** ** Resolvers *)

(** A call of [resolve]: the including source and the path. *)
Definition resolve_call : Type := SourceFile * string.

Definition IncludeResolver : Type := list resolve_call -> SourceFile -> string -> result SourceFile.

(** [MemoryIncludeResolver(sources)] *)
Definition new_MemoryIncludeResolver (sources : list SourceFile) : result IncludeResolver :=
  _ ← raise_if (negb (no_duplicates (map logical_path sources))) ValueError
        "include source logical paths must be unique";
  Ok (fun _ including path =>
        target ← canonical_include_path (logical_path including) path ".";
        match find (fun f => String.eqb (logical_path f) target) sources with
        | Some f => Ok f
        | None => raise FileNotFoundError target
        end).

(** ** The bundle builder *)

(** The local variables of [build], with the calls made to the resolver. *)
Record build_state : Type := BuildState {
  bd_total_source_bytes : Z;
  bd_fragments : list (ParsedSourceUnit AstIncludeFragment);
  bd_edges : list IncludeEdge;
  bd_visited : gset string;
  bd_active : gset string;
  bd_calls : list resolve_call
}.

Notation BM := (M build_state).

Section Builder.
Variable resolver : IncludeResolver.
Variable options : IncludeOptions.
Variable language_version : string.

Definition reject {A} (code : DiagnosticCode) (message : string) (f : SourceFile)
    (d : AstIncludeDeclaration) : BM A := lift (Err (include_error code message f (Some d))).

Definition reject_if (b : bool) (code : DiagnosticCode) (message : string) (f : SourceFile)
    (d : AstIncludeDeclaration) : BM unit := if b then reject code message f d else mret tt.

(** The source of a declaration, from the resolver, at the expected path. *)
Definition resolve_declaration (including : SourceFile) (d : AstIncludeDeclaration)
  : BM SourceFile :=
  expected_path ← match canonical_include_path (logical_path including) (ai_path d)
                          (include_root options) with
                  | Ok p => mret p
                  | Err e =>
                      if isinstance_exn (ex_class e) ValueError then
                        reject INC_PATH_OUTSIDE_ROOT ("unsafe include path: " +:+ ai_path d)
                          including d
                      else lift (Err e)
                  end;
  s ← get;
  _ ← modify (fun s => BuildState (bd_total_source_bytes s) (bd_fragments s) (bd_edges s)
                         (bd_visited s) (bd_active s) (bd_calls s ++ [(including, ai_path d)]));
  f ← match resolver (bd_calls s) including (ai_path d) with
      | Ok f => mret f
      | Err e =>
          if isinstance_exn (ex_class e) FileNotFoundError
             || isinstance_exn (ex_class e) KeyError then
            reject INC_RESOLUTION_FAILED
              ("include source could not be resolved: " +:+ ai_path d) including d
          else lift (Err e)
      end;
  _ ← reject_if (negb (String.eqb (logical_path f) expected_path)) INC_PATH_OUTSIDE_ROOT
        "include resolver returned a source outside the expected path" including d;
  mret f.

Definition record_edge (including f : SourceFile) (d : AstIncludeDeclaration) : BM unit :=
  match ai_span d with
  | None => fail ValueError "include declarations must have source spans"
  | Some span =>
      modify (fun s => BuildState (bd_total_source_bytes s) (bd_fragments s)
                         (bd_edges s ++ [MkIncludeEdge (source_id including) (source_id f) span])
                         (bd_visited s) (bd_active s) (bd_calls s))
  end.

(** The source is counted, marked as visited and active, and parsed. *)
Definition admit_source (including f : SourceFile) (d : AstIncludeDeclaration)
  : BM AstIncludeFragment :=
  s ← get;
  _ ← reject_if (max_include_files options <=? Z.of_nat (length (bd_fragments s)))%Z
        INC_FILE_LIMIT "maximum include file count exceeded" including d;
  _ ← reject_if (max_total_source_bytes options <? bd_total_source_bytes s + source_size f)%Z
        INC_BUNDLE_SIZE_LIMIT "maximum source bundle size exceeded" including d;
  _ ← modify (fun s => BuildState (bd_total_source_bytes s + source_size f) (bd_fragments s)
                         (bd_edges s) ({[ source_id f ]} ∪ bd_visited s)
                         ({[ source_id f ]} ∪ bd_active s) (bd_calls s));
  tokens ← lift (Lexer.tokenize (inr f) language_version);
  ast ← lift (Parser.parse tokens (Some f) INCLUDE_FRAGMENT);
  match ast with
  | inl _ => fail TypeError "include fragment mode must produce AstIncludeFragment"
  | inr g =>
      _ ← modify (fun s => BuildState (bd_total_source_bytes s)
                             (bd_fragments s ++ [MkParsedSourceUnit f g]) (bd_edges s)
                             (bd_visited s) (bd_active s) (bd_calls s));
      mret g
  end.

Definition deactivate (f : SourceFile) : BM unit :=
  modify (fun s => BuildState (bd_total_source_bytes s) (bd_fragments s) (bd_edges s)
                     (bd_visited s) (bd_active s ∖ {[ source_id f ]}) (bd_calls s)).

(** One round of the loop of [visit]; [descend] visits the includes of the
    fragment, one level deeper. *)
Definition visit_declaration
    (descend : SourceFile -> list AstIncludeDeclaration -> Z -> BM unit)
    (including : SourceFile) (depth : Z) (d : AstIncludeDeclaration) : BM unit :=
  let child_depth := (depth + 1)%Z in
  _ ← reject_if (max_include_depth options <? child_depth)%Z INC_DEPTH_LIMIT
        "maximum include depth exceeded" including d;
  f ← resolve_declaration including d;
  _ ← record_edge including f d;
  s ← get;
  _ ← reject_if (bool_decide (source_id f ∈ bd_active s)) INC_CYCLE
        ("circular include dependency detected: " +:+ ai_path d) including d;
  if bool_decide (source_id f ∈ bd_visited s) then mret tt
  else
    g ← admit_source including f d;
    _ ← descend f (ag_includes g) child_depth;
    deactivate f.

Definition out_of_fuel : BM unit := lift (Err (Exn OutOfModel "FUEL" "")).

(** [visit]; a level of fuel per level of inclusion. *)
Fixpoint visit (fuel : nat) (including : SourceFile) (declarations : list AstIncludeDeclaration)
    (depth : Z) : BM unit :=
  each_M (visit_declaration (match fuel with
                             | S n => visit n
                             | O => fun _ _ _ => out_of_fuel
                             end) including depth) declarations.
End Builder.

Definition initial_build (root : SourceFile) : build_state :=
  BuildState (source_size root) [] [] {[ source_id root ]} {[ source_id root ]} [].

Definition visit_fuel (o : IncludeOptions) : nat := Z.to_nat (max_include_depth o).

(** [SourceBundleBuilder.build], with the calls made to the resolver. *)
Definition build_bundle (resolver : IncludeResolver) (options : IncludeOptions)
    (root : SourceFile) : result SourceBundle * list resolve_call :=
  let prepared :=
    _ ← (if (max_total_source_bytes options <? source_size root)%Z
         then Err (include_error INC_BUNDLE_SIZE_LIMIT "maximum source bundle size exceeded"
                     root None) else Ok tt);
    tokens ← Lexer.tokenize_root (inr root);
    ast ← Parser.parse tokens (Some root) ROOT_SKILL;
    match ast with
    | inr _ => raise TypeError "root parse mode must produce AstSkill"
    | inl ast => Ok ast
    end in
  match prepared with
  | Err e => (Err e, [])
  | Ok root_ast =>
      let '(r, s) := visit resolver options (as_language_version root_ast) (visit_fuel options)
                       root (as_includes root_ast) 0 (initial_build root) in
      (_ ← r;
       Ok (MkSourceBundle (MkParsedSourceUnit root root_ast) (bd_fragments s) (bd_edges s)
             (manifest_entry root true
              :: map (fun u => manifest_entry (pu_source u) false) (bd_fragments s))),
       bd_calls s)
  end.

(** ** Composition *)

(** [{key(x): x for x in xs}] *)
Definition dict_by {A} (key : A -> string) (xs : list A) : list (string * A) :=
  fold_left (fun d x => assoc_set (key x) x d) xs [].

Section Composer.
Variable bundle : SourceBundle.

(** [sources_by_id[span.source_id]] raises [KeyError] for a foreign span. *)
Definition composition_error {A} (code : DiagnosticCode) (message : string)
    (span : option SourceSpan) : result A :=
  match span with
  | Some s =>
      match source_of (bundle_sources bundle) (span_source_id s) with
      | None => raise KeyError (span_source_id s)
      | Some _ => Err (phase_error PHASE_INCLUDE (bundle_sources bundle) code message span)
      end
  | None => Err (phase_error PHASE_INCLUDE (bundle_sources bundle) code message None)
  end.

Definition add_requirement (d : list (string * AstRequiredTool)) (x : AstRequiredTool)
  : result (list (string * AstRequiredTool)) :=
  match assoc (ar_tool_id x) d with
  | Some existing =>
      if String.eqb (ar_version existing) (ar_version x) then Ok d
      else composition_error INC_TOOL_VERSION_CONFLICT
             ("conflicting include tool versions: " +:+ ar_tool_id x) (ar_span x)
  | None => Ok (assoc_set (ar_tool_id x) x d)
  end.

Definition add_context (d : list (string * AstFieldSpec)) (x : AstFieldSpec)
  : result (list (string * AstFieldSpec)) :=
  match assoc (af_name x) d with
  | Some _ => composition_error INC_DUPLICATE_CONTEXT
                ("duplicate include context is forbidden: " +:+ af_name x) (af_span x)
  | None => Ok (assoc_set (af_name x) x d)
  end.

(** [for x in xs: d = f(d, x)] *)
Fixpoint fold_result {A B} (f : B -> A -> result B) (b : B) (xs : list A) : result B :=
  match xs with
  | [] => Ok b
  | x :: xs => b ← f b x; fold_result f b xs
  end.

Record composed : Type := Composed {
  cm_requires : list (string * AstRequiredTool);
  cm_contexts : list (string * AstFieldSpec);
  cm_limits : option AstLimits
}.

Definition add_fragment (c : composed) (u : ParsedSourceUnit AstIncludeFragment)
  : result composed :=
  let g := pu_ast u in
  requires ← fold_result add_requirement (cm_requires c) (ag_requires g);
  contexts ← fold_result add_context (cm_contexts c) (ag_contexts g);
  match ag_limits g with
  | [] => Ok (Composed requires contexts (cm_limits c))
  | l :: more =>
      if negb (bool_decide (cm_limits c = None)) || negb (bool_decide (more = [])) then
        composition_error INC_DUPLICATE_LIMIT "duplicate include limit fields are forbidden"
          (ag_span g)
      else Ok (Composed requires contexts (Some l))
  end.

(** [SourceComposer.compose] *)
Definition compose : result AstSkill :=
  let root := pu_ast (sbu_root bundle) in
  c ← fold_result add_fragment
        (Composed (dict_by ar_tool_id (as_requires root)) (dict_by af_name (as_contexts root))
           (as_limits root)) (sbu_fragments bundle);
  match cm_limits c with
  | None => composition_error INC_REQUIRED_LIMITS_MISSING
              "composed skill must define exactly one limits block" (as_span root)
  | Some l =>
      Ok (MkAstSkill (as_language_version root) (as_skill_id root) (as_skill_version root)
            (as_risk root) [] (map snd (cm_requires c)) (Some l) (as_inputs root)
            (map snd (cm_contexts c)) (as_outputs root) (as_body root) (as_span root)
            (as_language_version_span root) (as_risk_span root))
  end.
End Composer.
