(* ===== verification/Compiler.v ===== *)
(** * The compiler ([src/nsl/compiler.py])

    From a source to a Skill object and its bytes: the binding of approvals to
    WRITEs, the safety rules of WRITEs, and the lowering of the syntax tree
    with its symbols, types, node numbers and static bounds. *)

From S2P Require Import Prelude Digest Json JsonBoundary Core DataProtection Builtins Ir NsoSchema NsoCodec.
From S2P Require Import Bounds Security Tools Source Lexer Parser Symbols Includes.

(** [a or b] on optional spans: a span is true. *)
Definition span_or (a b : option SourceSpan) : option SourceSpan :=
  match a with Some _ => a | None => b end.

(** ** Approvals and WRITEs *)

(** What the analyzers read of an [AstWrite]. *)
Record WriteNode : Type := MkWriteNode {
  wn_tool_id : string;
  wn_approval_id : string;
  wn_span : option SourceSpan;
  wn_approval_place : option SourceSpan
}.

Inductive binding_event : Type :=
  | ApproveEvent (approval_id : string) (place : option SourceSpan)
  | WriteEvent (w : WriteNode).

Record ApprovalSymbol : Type := MkApprovalSymbol {
  ap_approval_id : string;
  ap_symbol_id : string;
  ap_declaration_span : option SourceSpan;
  ap_declaration_order : nat
}.

Record ApprovalWriteBinding : Type := MkApprovalWriteBinding {
  ab_approval : ApprovalSymbol;
  ab_write : WriteNode;
  ab_write_order : nat;
  ab_inside_foreach : bool
}.

Record ApprovalBindingAnalysis : Type := MkApprovalBindingAnalysis {
  aa_approvals : list ApprovalSymbol;
  aa_bindings : list ApprovalWriteBinding
}.

(** [ApprovalBindingAnalyzer._walk] on expressions: a WRITE comes before the
    WRITEs of its arguments. *)
Fixpoint walk_expression (e : AstExpression) : list WriteNode :=
  match e with
  | AstLiteral _ _ _ | AstPath _ _ => []
  | AstCall _ args _ => flat_map walk_expression args
  | AstRead _ args _ => flat_map (fun a => walk_expression a.2) args
  | AstWrite tool_id args approval_id span approval_span =>
      MkWriteNode tool_id approval_id span (span_or approval_span span)
      :: flat_map (fun a => walk_expression a.2) args
  | AstBinary _ l r _ => walk_expression l ++ walk_expression r
  end.

Definition write_events (inside_foreach : bool) (e : AstExpression) : list (binding_event * bool) :=
  map (fun w => (WriteEvent w, inside_foreach)) (walk_expression e).

Fixpoint walk_statement (inside_foreach : bool) (s : AstStatement) : list (binding_event * bool) :=
  match s with
  | AstLet _ e _ => write_events inside_foreach e
  | AstForeach _ collection _ body _ =>
      write_events inside_foreach collection ++ flat_map (walk_statement true) body
  | AstCheck _ condition _ _ _ _ => write_events inside_foreach condition
  | AstEmit fields _ => flat_map (fun f => write_events inside_foreach f.2) fields
  | AstApprove approval_id _ span id_span =>
      [(ApproveEvent approval_id (span_or id_span span), inside_foreach)]
  end.

Definition _walk (body : list AstStatement) : list (binding_event * bool) :=
  flat_map (walk_statement false) body.

Definition _APPROVAL_TYPE : TypeRef := domain "Approval".

Section Analyzers.
Variable sources : list SourceFile.

Definition refuse {S A} (code : DiagnosticCode) (message : string) (span : option SourceSpan)
  : M S A := lift (Err (semantic_error sources code message span)).

Definition refuse_if {S} (b : bool) code message span : M S unit :=
  if b then refuse code message span else mret tt.

(** The dict of approvals and the list of WRITEs, filled event by event. *)
Record binding_state : Type := BindingState {
  bi_approvals : list (string * ApprovalSymbol);
  bi_writes : list (nat * WriteNode * bool)
}.

Definition collect_event (b : binding_state) (order : nat) (event : binding_event * bool)
  : M SymbolTable binding_state :=
  match event with
  | (ApproveEvent approval_id place, inside_foreach) =>
      _ ← refuse_if inside_foreach SEM_APPROVAL_SCOPE
            "approval declarations must be in skill scope" place;
      _ ← refuse_if (match assoc approval_id (bi_approvals b) with Some _ => true | None => false end)
            SEM_DUPLICATE_SYMBOL ("duplicate approval ID: " +:+ approval_id) place;
      binding ← declare sources approval_id NAMESPACE_APPROVAL "APPROVAL" _APPROVAL_TYPE INTERNAL
                  place;
      mret (BindingState
              (assoc_set approval_id
                 (MkApprovalSymbol approval_id (sb_symbol_id binding) place order)
                 (bi_approvals b)) (bi_writes b))
  | (WriteEvent w, inside_foreach) =>
      mret (BindingState (bi_approvals b) (bi_writes b ++ [(order, w, inside_foreach)]))
  end.

Fixpoint collect_events (b : binding_state) (order : nat) (events : list (binding_event * bool))
  : M SymbolTable binding_state :=
  match events with
  | [] => mret b
  | e :: events => b ← collect_event b order e; collect_events b (S order) events
  end.

Definition link_write (approvals : list (string * ApprovalSymbol)) (linked_ids : list string)
    (x : nat * WriteNode * bool) : M SymbolTable ApprovalWriteBinding :=
  let '(order, w, inside_foreach) := x in
  t ← get;
  _ ← lift (resolve_in_namespace sources (wn_approval_id w) NAMESPACE_APPROVAL
              (wn_approval_place w) SEM_UNKNOWN_APPROVAL
              (Some ("unknown approval ID: " +:+ wn_approval_id w)) t);
  match assoc (wn_approval_id w) approvals with
  | None => fail KeyError (wn_approval_id w)
  | Some approval =>
      _ ← refuse_if (order <=? ap_declaration_order approval) SEM_APPROVAL_ORDER
            ("approval must be declared before WRITE: " +:+ wn_approval_id w) (wn_approval_place w);
      _ ← refuse_if (bool_decide (wn_approval_id w ∈ linked_ids)) SEM_APPROVAL_WRITE_NOT_ONE_TO_ONE
            ("approval must be linked to exactly one WRITE: " +:+ wn_approval_id w)
            (wn_approval_place w);
      mret (MkApprovalWriteBinding approval w order inside_foreach)
  end.

Fixpoint link_writes (approvals : list (string * ApprovalSymbol)) (linked_ids : list string)
    (writes : list (nat * WriteNode * bool)) : M SymbolTable (list ApprovalWriteBinding) :=
  match writes with
  | [] => mret []
  | x :: writes =>
      b ← link_write approvals linked_ids x;
      bs ← link_writes approvals (wn_approval_id (ab_write b) :: linked_ids) writes;
      mret (b :: bs)
  end.

Definition check_linked (bindings : list ApprovalWriteBinding) (a : string * ApprovalSymbol)
  : M SymbolTable unit :=
  refuse_if (negb (bool_decide (a.1 ∈ map (fun b => wn_approval_id (ab_write b)) bindings)))
    SEM_UNUSED_APPROVAL ("approval is not linked to a WRITE: " +:+ a.1)
    (ap_declaration_span a.2).

Definition analyze_events (events : list (binding_event * bool))
  : M SymbolTable ApprovalBindingAnalysis :=
  b ← collect_events (BindingState [] []) 1 events;
  bindings ← link_writes (bi_approvals b) [] (bi_writes b);
  _ ← each_M (check_linked bindings) (bi_approvals b);
  mret (MkApprovalBindingAnalysis (map snd (bi_approvals b)) bindings).

(** [ApprovalBindingAnalyzer.analyze] *)
Definition analyze_approvals (ast : AstSkill) : result ApprovalBindingAnalysis :=
  if negb (String.eqb (as_language_version ast) "0.2") then Ok (MkApprovalBindingAnalysis [] [])
  else (analyze_events (_walk (as_body ast)) new_SymbolTable).1.

(** ** WRITE safety *)

Record WriteSafetyAnalysis : Type := MkWriteSafetyAnalysis {
  ws_write_node_count : nat;
  ws_approval_node_count : nat;
  ws_approval_write_mapping_count : nat;
  ws_unused_approval_count : nat;
  ws_max_write_calls : nat;
  ws_writes_inside_loop : bool;
  ws_all_writes_approved_exactly_once : bool;
  ws_all_write_operations_supported : bool;
  ws_all_write_tools_atomic : bool;
  ws_all_write_tools_idempotent : bool;
  ws_all_write_risk_metadata_present : bool;
  ws_requires_verified_package_for_write : bool
}.

Definition refusal {A} (code : DiagnosticCode) (message : string) (span : option SourceSpan)
  : result A := Err (semantic_error sources code message span).

Definition refusal_if (b : bool) code message span : result unit :=
  if b then refusal code message span else Ok tt.

(** Every WRITE is of a declared, atomic and idempotent WRITE tool. *)
Definition check_write_contract (contracts_by_id : list (string * ToolContract))
    (b : ApprovalWriteBinding) : result unit :=
  let w := ab_write b in
  let tool := wn_tool_id w in
  match assoc tool contracts_by_id with
  | None => refusal SEM_UNDECLARED_TOOL ("tool not declared in requires: " +:+ tool) (wn_span w)
  | Some contract =>
      _ ← refusal_if (negb (bool_decide (tc_capability contract = Capability WRITE)))
            SEM_WRITE_CAPABILITY_REQUIRED ("WRITE requires a WRITE tool contract: " +:+ tool)
            (wn_span w);
      _ ← refusal_if (bool_decide (tc_operation_kind contract = None))
            SEM_UNSUPPORTED_WRITE_OPERATION ("unsupported WRITE operation: " +:+ tool) (wn_span w);
      _ ← match tc_write_semantics contract with
          | None => refusal SEM_WRITE_ATOMICITY_REQUIRED ("WRITE tool must be ATOMIC: " +:+ tool)
                      (wn_span w)
          | Some semantics =>
              refusal_if (negb (is_required (wsm_idempotency semantics)))
                SEM_WRITE_IDEMPOTENCY_REQUIRED ("WRITE tool must require idempotency: " +:+ tool)
                (wn_span w)
          end;
      refusal_if (bool_decide (tc_risk_level contract = None)) SEM_WRITE_RISK_METADATA_REQUIRED
        ("WRITE tool risk metadata is invalid: " +:+ tool) (wn_span w)
  end.

(** [WriteSafetyAnalyzer.analyze] *)
Definition analyze_write_safety (approvals : ApprovalBindingAnalysis)
    (contracts_by_id : list (string * ToolContract)) : result WriteSafetyAnalysis :=
  let bindings := aa_bindings approvals in
  let write_count := length bindings in
  _ ← match bindings with
      | _ :: second :: _ =>
          refusal SEM_TOO_MANY_WRITES "only one WRITE is allowed per skill in NSL-0.2-STRICT"
            (wn_span (ab_write second))
      | _ => Ok tt
      end;
  _ ← match find ab_inside_foreach bindings with
      | Some nested =>
          refusal SEM_WRITE_IN_FOREACH "WRITE is not allowed inside FOREACH in NSL-0.2-STRICT"
            (wn_span (ab_write nested))
      | None => Ok tt
      end;
  _ ← each (check_write_contract contracts_by_id) bindings;
  Ok (MkWriteSafetyAnalysis write_count (length (aa_approvals approvals)) (length bindings) 0
        write_count false true true true true true (0 <? write_count)).
End Analyzers.

(** ** Language profiles *)

Record _LanguageLoweringProfile : Type := MkLanguageLoweringProfile {
  lp_source_language_version : string;
  lp_ir_version : string;
  lp_semantics_profile : string;
  lp_allowed_risks : list string;
  lp_features : gset string
}.

Definition _BASE_FEATURES : gset string :=
  list_to_set ["READ"; "FOREACH"; "LET"; "CHECK"; "EMIT"; "LIMITS"].

Definition _LANGUAGE_LOWERING_PROFILES : list (string * _LanguageLoweringProfile) :=
  [("0.1", MkLanguageLoweringProfile "0.1" "1.0" "NSL-0.1-STRICT" ["READ_ONLY"; "READ_VALIDATE"]
             _BASE_FEATURES);
   ("0.2", MkLanguageLoweringProfile "0.2" "1.1" "NSL-0.2-STRICT"
             ["READ_ONLY"; "READ_VALIDATE"; "WRITE"]
             (_BASE_FEATURES ∪ list_to_set ["APPROVAL"; "WRITE"]))].

(** ** Lowering *)

(** The counters of a [_Lowerer] and its symbol table. *)
Record lowerer : Type := Lowerer {
  lo_node_counters : list (string * nat);
  lo_symbol_table : SymbolTable
}.

Notation LM := (M lowerer).

Section Lowering.
Variable sources : list SourceFile.
(** [self.tools_by_id] *)
Variable tools_by_id : list (string * (RequiredTool * ToolContract)).

Definition _node_id (kind : string) : LM string :=
  s ← get;
  let n := S (default 0 (assoc kind (lo_node_counters s))) in
  _ ← modify (fun s => Lowerer (assoc_set kind n (lo_node_counters s)) (lo_symbol_table s));
  mret (numbered kind n).

(** An operation of the symbol table. *)
Definition on_table {A} (m : M SymbolTable A) : LM A := fun s =>
  let '(r, t) := m (lo_symbol_table s) in (r, Lowerer (lo_node_counters s) t).

Definition _add_binding (name category : string) (type_info : TypeRef)
    (classification : DataClassification) (span : option SourceSpan)
    (namespace : SymbolNamespace) : LM SymbolBinding :=
  on_table (declare sources name namespace category type_info classification span).

Definition operator_map : list (string * string) :=
  [("+", "ADD"); ("-", "SUB"); ("*", "MUL"); ("/", "DIV"); ("<", "LT"); ("<=", "LE");
   (">", "GT"); (">=", "GE"); ("==", "EQ"); ("!=", "NE")].

(** [max((a, b), key=rank)]: the first of two equal ones. *)
Definition max_classification (a b : DataClassification) : DataClassification :=
  if _CLASSIFICATION_RANK a <? _CLASSIFICATION_RANK b then b else a.

(** The fields of a path, from its second part on. *)
Fixpoint lower_fields (span : option SourceSpan) (e : Expression) (current_type : TypeRef)
    (parts : list string) : LM Expression :=
  match parts with
  | [] => mret e
  | field :: parts =>
      r ← lift (field_result sources current_type field span);
      id ← _node_id "expr";
      let e := if (r.2 : bool) then ProjectionExpr id e field r.1 else FieldExpr id e field r.1 in
      lower_fields span e r.1 parts
  end.

Definition lower_path (parts : list string) (span : option SourceSpan)
  : LM (Expression * DataClassification) :=
  match parts with
  | [] => fail IndexError "tuple index out of range"
  | name :: parts =>
      b ← on_table (t ← get; lift (resolve_symbol sources name span t));
      id ← _node_id "expr";
      e ← lower_fields span (SymbolRefExpr id (sb_symbol_id b) (sb_type_info b)) (sb_type_info b)
            parts;
      mret (e, sb_classification b)
  end.

(** [provided != expected or len(provided_names) != len(provided)] *)
Definition arguments_differ (provided_names expected : list string) : bool :=
  negb (same_elements provided_names expected) || negb (no_duplicates provided_names).

(** [_lower_tool_arguments], with [lower] for [_lower_expr]. *)
Definition lower_argument (lower : AstExpression -> LM (Expression * DataClassification))
    (tool_id : string) (contract : ToolContract) (a : string * AstExpression)
  : LM (string * Expression) :=
  v ← lower a.2;
  expected ← lift (input_type contract a.1);
  _ ← lift (require_exact sources (expr_type_info v.1) expected SEM_TOOL_ARGUMENT_TYPE
              ("tool argument type mismatch: " +:+ tool_id +:+ "." +:+ a.1)
              (expression_span a.2));
  mret (a.1, v.1).

Definition check_arguments (tool_id : string) (arguments : list (string * AstExpression))
    (contract : ToolContract) (span : option SourceSpan) : LM unit :=
  let expected := map fst (tc_input_types contract) in
  refuse_if sources (arguments_differ (map fst arguments) expected) SEM_TOOL_ARGUMENTS
    ("tool arguments for " +:+ tool_id +:+ " must be "
     +:+ repr_list (sort_strings (dict_keys expected))) span.

Definition _lower_tool_arguments (lower : AstExpression -> LM (Expression * DataClassification))
    (tool_id : string) (arguments : list (string * AstExpression)) (contract : ToolContract)
    (span : option SourceSpan) : LM (list (string * Expression)) :=
  _ ← check_arguments tool_id arguments contract span;
  map_M (lower_argument lower tool_id contract) arguments.

Definition read_tool (tool_id : string) (span : option SourceSpan)
  : LM (RequiredTool * ToolContract) :=
  match assoc tool_id tools_by_id with
  | None => refuse sources SEM_UNDECLARED_TOOL ("tool not declared in requires: " +:+ tool_id) span
  | Some (requirement, contract) =>
      _ ← refuse_if sources (negb (bool_decide (tc_capability contract = Capability READ)))
            SEM_WRITE_TOOL_FORBIDDEN
            ("READ expression requires a READ tool contract: " +:+ tool_id) span;
      mret (requirement, contract)
  end.

(** [_lower_expr] *)
Fixpoint _lower_expr (ast : AstExpression) : LM (Expression * DataClassification) :=
  match ast with
  | AstLiteral v t _ => id ← _node_id "expr"; mret (LiteralExpr id v t, PUBLIC)
  | AstPath parts span => lower_path parts span
  | AstCall name arguments span =>
      args ← map_M _lower_expr arguments;
      signature ← lift (builtin_result sources name (map (fun a => expr_type_info a.1) args) span);
      match args with
      | [] => fail IndexError "list index out of range"
      | (_, classification) :: _ =>
          id ← _node_id "expr";
          mret (CallExpr id (bs_name signature) (map fst args) (bs_result_type signature),
                classification)
      end
  | AstBinary operator a b span =>
      l ← _lower_expr a;
      r ← _lower_expr b;
      t ← lift (binary_result sources operator (expr_type_info l.1) (expr_type_info r.1) span);
      id ← _node_id "expr";
      match assoc operator operator_map with
      | None => fail KeyError operator
      | Some o => mret (BinaryExpr id o l.1 r.1 t, max_classification l.2 r.2)
      end
  | AstRead tool_id arguments span =>
      rc ← read_tool tool_id span;
      let '(requirement, contract) := rc in
      args ← _lower_tool_arguments _lower_expr tool_id arguments contract span;
      id ← _node_id "read";
      mret (ReadExpr id (rt_tool_ref requirement) args (tc_output_type contract)
              (MkResultPolicy true false (tc_empty_is_valid contract)),
            tc_output_classification contract)
  | AstWrite tool_id arguments approval_id span _ =>
      match assoc tool_id tools_by_id with
      | None => fail KeyError tool_id
      | Some (requirement, contract) =>
          args ← _lower_tool_arguments _lower_expr tool_id arguments contract span;
          id ← _node_id "write";
          w ← lift (new_WriteExpression id (rt_tool_ref requirement) args approval_id
                      (tc_output_type contract));
          mret (write_expr w, tc_output_classification contract)
      end
  end.

(** [set(a) != set(b)], or repeated names *)
Definition fields_differ (field_names declared_names : list string) : bool :=
  negb (length field_names =? length declared_names) || negb (no_duplicates field_names)
  || negb (same_elements field_names declared_names).

Definition lower_emit_field (outputs : list (string * OutputField)) (f : string * AstExpression)
  : LM (string * Expression) :=
  v ← _lower_expr f.2;
  match assoc f.1 outputs with
  | None => fail KeyError f.1
  | Some output =>
      _ ← lift (require_exact sources (expr_type_info v.1) (out_type_info output) SEM_OUTPUT_TYPE
                  ("output type mismatch for " +:+ f.1) (expression_span f.2));
      _ ← refuse_if sources (negb (classification_allows v.2 (out_classification output)))
            SEM_OUTPUT_CLASSIFICATION
            ("output classification for " +:+ f.1 +:+ " is too weak") (expression_span f.2);
      mret (f.1, v.1)
  end.

(** [_lower_block], one statement at a time *)
Fixpoint lower_statement (outputs : list OutputField) (s : AstStatement) : LM Statement :=
  match s with
  | AstLet name e span =>
      v ← _lower_expr e;
      b ← _add_binding name "VARIABLE" (expr_type_info v.1) v.2 span NAMESPACE_VALUE;
      id ← _node_id "stmt";
      mret (LetStatement id (sb_symbol_id b) v.1)
  | AstForeach iterator collection max_iterations body span =>
      c ← _lower_expr collection;
      item_type ← lift (require_list sources (expr_type_info c.1) SEM_FOREACH_COLLECTION_TYPE
                          "foreach collection must be List<T>" (expression_span collection));
      scope_id ← on_table (enter_scope SCOPE_FOREACH);
      r ← try_finally
            (b ← _add_binding iterator "ITERATOR" item_type c.2 span NAMESPACE_VALUE;
             body ← map_M (lower_statement outputs) body;
             mret (b, body))
            (on_table (leave_scope scope_id));
      id ← _node_id "stmt";
      mret (ForeachStatement id (sb_symbol_id r.1) c.1 max_iterations r.2)
  | AstCheck check_id condition severity on_fail message span =>
      c ← _lower_expr condition;
      _ ← lift (require_bool sources (expr_type_info c.1) (expression_span condition));
      b ← _add_binding check_id "CHECK" CHECK_RESULT INTERNAL span NAMESPACE_CHECK;
      id ← _node_id "check";
      mret (CheckStmt (MkCheckStatement id check_id c.1 severity on_fail message (sb_symbol_id b)))
  | AstEmit fields span =>
      let declared_outputs := dict_by out_name outputs in
      _ ← refuse_if sources (fields_differ (map fst fields) (map fst declared_outputs))
            SEM_EMIT_SCHEMA "EMIT fields must exactly match output schema" span;
      fs ← map_M (lower_emit_field declared_outputs) fields;
      id ← _node_id "emit";
      mret (EmitStatement id fs)
  | AstApprove approval_id message _ _ =>
      id ← _node_id "approval";
      policy ← lift (new_ApprovalPolicy true None);
      a ← lift (new_ApprovalStatement (MkApprovalStatement id approval_id message policy));
      mret (ApprovalStmt a)
  end.

Definition _lower_block (statements : list AstStatement) (outputs : list OutputField)
  : LM (list Statement) := map_M (lower_statement outputs) statements.

Definition lower_input (item : AstFieldSpec) : LM InputSpec :=
  b ← _add_binding (af_name item) "INPUT" (af_type_info item) (af_classification item)
        (af_span item) NAMESPACE_VALUE;
  mret (MkInputSpec (sb_symbol_id b) (af_name item) (af_type_info item) true
          (af_classification item)).

Definition lower_context (item : AstFieldSpec) : LM ContextSpec :=
  b ← _add_binding (af_name item) "CONTEXT" (af_type_info item) (af_classification item)
        (af_span item) NAMESPACE_VALUE;
  mret (MkContextSpec (sb_symbol_id b) (af_name item) (af_type_info item) (af_path item)
          (af_classification item)).
End Lowering.

Section Lower.
Variable catalog : ToolContractCatalog.
Variable sources : list SourceFile.
Variable ast : AstSkill.
Variable approvals : ApprovalBindingAnalysis.

Definition refused {A} : DiagnosticCode -> string -> option SourceSpan -> result A := refusal sources.
Definition refused_if : bool -> DiagnosticCode -> string -> option SourceSpan -> result unit :=
  refusal_if sources.

Definition lowering_profile : result _LanguageLoweringProfile :=
  _ ← match as_includes ast with
      | i :: _ => refused SEM_INCLUDE_REQUIRES_COMPOSITION
                    "include declarations require Source composition before lowering" (ai_span i)
      | [] => Ok tt
      end;
  _ ← match as_limits ast with
      | None => Err (phase_error PHASE_INCLUDE sources INC_REQUIRED_LIMITS_MISSING
                       "composed skill must define exactly one limits block" (as_span ast))
      | Some _ => Ok tt
      end;
  match assoc (as_language_version ast) _LANGUAGE_LOWERING_PROFILES with
  | None => refused SEM_UNSUPPORTED_LANGUAGE_VERSION
              ("unsupported NSL version: " +:+ as_language_version ast)
              (as_language_version_span ast)
  | Some p =>
      _ ← refused_if (negb (bool_decide (as_risk ast ∈ lp_allowed_risks p))) SEM_UNSUPPORTED_RISK
            ("unsupported risk profile: " +:+ as_risk ast) (as_risk_span ast);
      Ok p
  end.

(** The text of a capability. *)
Definition capability_str (c : capability_text) : string :=
  match c with Capability c => capability_value c | OtherCapability s => s end.

Definition declared_contract (profile : _LanguageLoweringProfile)
    (contracts_by_id : list (string * ToolContract)) (d : AstRequiredTool)
  : result (list (string * ToolContract)) :=
  let tool_id := ar_tool_id d in
  let version := ar_version d in
  _ ← refused_if (match assoc tool_id contracts_by_id with Some _ => true | None => false end)
        SEM_DUPLICATE_TOOL ("duplicate required tool: " +:+ tool_id) (ar_span d);
  contract ← match catalog_resolve catalog tool_id version with
             | Ok c => Ok c
             | Err e =>
                 if isinstance_exn (ex_class e) UnknownToolContractError then
                   refused SEM_UNKNOWN_TOOL_CONTRACT
                     ("unknown tool contract: " +:+ tool_id +:+ "@" +:+ version) (ar_span d)
                 else if isinstance_exn (ex_class e) IncompatibleToolVersionError then
                   refused SEM_INCOMPATIBLE_TOOL_VERSION
                     ("incompatible tool version: " +:+ tool_id +:+ "@" +:+ version) (ar_span d)
                 else Err e
             end;
  _ ← refused_if (String.eqb (lp_source_language_version profile) "0.1"
                  && negb (bool_decide (tc_capability contract = Capability READ)))
        SEM_WRITE_TOOL_FORBIDDEN
        (capability_str (tc_capability contract) +:+ " tool capability is forbidden in v0.1: "
         +:+ tool_id) (ar_span d);
  Ok (assoc_set tool_id contract contracts_by_id).

(** [required_tools] with the contracts, in the order of declaration *)
Fixpoint requirements (profile : _LanguageLoweringProfile)
    (contracts_by_id : list (string * ToolContract)) (index : nat) (l : list AstRequiredTool)
  : result (list (RequiredTool * ToolContract)) :=
  match l with
  | [] => Ok []
  | d :: l =>
      match assoc (ar_tool_id d) contracts_by_id with
      | None => raise KeyError (ar_tool_id d)
      | Some contract =>
          requirement ← new_RequiredTool (numbered "tool" index) (ar_tool_id d) (ar_version d)
            (capability_str (tc_capability contract)) (contract_hash contract)
            (tc_required_scope contract) (tc_output_classification contract)
            (if String.eqb (lp_ir_version profile) "1.1"
             then Some (default R1 (tc_risk_level contract)) else None);
          rest ← requirements profile contracts_by_id (S index) l;
          Ok ((requirement, contract) :: rest)
      end
  end.

Definition tools_of (rs : list (RequiredTool * ToolContract))
  : list (string * (RequiredTool * ToolContract)) :=
  dict_by (fun r => rt_tool_id r.1) rs.

(** The first output whose name is repeated. *)
Definition duplicate_output (outputs : list AstFieldSpec) : option AstFieldSpec :=
  find (fun o => 1 <? length (List.filter (fun x => String.eqb (af_name x) (af_name o)) outputs))
    outputs.

Definition check_outputs : result unit :=
  match duplicate_output (as_outputs ast) with
  | Some o => refused SEM_EMIT_SCHEMA ("duplicate output field: " +:+ af_name o) (af_span o)
  | None => Ok tt
  end.

Definition output_fields : list OutputField :=
  map (fun o => MkOutputField (af_name o) (af_type_info o) (af_classification o)) (as_outputs ast).

Definition resource_limits (l : AstLimits) : ResourceLimits :=
  MkResourceLimits (al_tool_calls l) (al_loop_iterations l) (al_emitted_rows l)
    (al_collection_size l) (al_duration_ms l).

Definition bound_text (what : string) (bound limit : Z) : string :=
  "static " +:+ what +:+ " bound " +:+ str_of_Z bound +:+ " exceeds declared limit "
  +:+ str_of_Z limit.

Definition check_bounds (analysis : StaticAnalysis) (l : AstLimits) : result unit :=
  _ ← refused_if (al_tool_calls l <? max_tool_calls analysis)%Z SEM_TOOL_CALL_BOUND
        (bound_text "tool call" (max_tool_calls analysis) (al_tool_calls l)) (al_span l);
  _ ← refused_if (al_loop_iterations l <? max_loop_iterations analysis)%Z SEM_LOOP_BOUND
        (bound_text "loop" (max_loop_iterations analysis) (al_loop_iterations l)) (al_span l);
  refused_if (al_emitted_rows l <? max_emit_records analysis)%Z SEM_EMIT_BOUND
    (bound_text "emit" (max_emit_records analysis) (al_emitted_rows l)) (al_span l).

Definition static_analysis (body : list Statement) : result StaticAnalysis :=
  match Bounds.analyze body with
  | Ok a => Ok a
  | Err e => if isinstance_exn (ex_class e) UnboundedStructureError then
               refused SEM_UNBOUNDED_STRUCTURE
                 ("static execution bound cannot be proven: " +:+ ex_msg e) (as_span ast)
             else Err e
  end.

Definition symbol_spec (b : SymbolBinding) : SymbolSpec :=
  MkSymbolSpec (sb_symbol_id b) (sb_name b) (sb_category b) (sb_type_info b)
    (sb_classification b).

(** [_Lowerer.lower], with the safety analysis it stores. *)
Definition lower (build : BuildMetadata) : result (SkillObject * WriteSafetyAnalysis) :=
  profile ← lowering_profile;
  contracts_by_id ← fold_result (declared_contract profile) [] (as_requires ast);
  write_safety ← analyze_write_safety sources approvals contracts_by_id;
  rs ← requirements profile contracts_by_id 1 (as_requires ast);
  match as_limits ast with
  | None => raise AttributeError "'NoneType' object has no attribute 'tool_calls'"
  | Some l =>
      let lowered : LM (list InputSpec * list ContextSpec * list Statement) :=
        inputs ← map_M (lower_input sources) (as_inputs ast);
        contexts ← map_M (lower_context sources) (as_contexts ast);
        _ ← lift check_outputs;
        body ← _lower_block sources (tools_of rs) (as_body ast) output_fields;
        mret (inputs, contexts, body) in
      let '(r, s) := lowered (Lowerer [] new_SymbolTable) in
      x ← r;
      let '(inputs, contexts, body) := x in
      analysis ← static_analysis body;
      _ ← check_bounds analysis l;
      Ok (MkSkillObject (lp_ir_version profile) (as_language_version ast) (as_skill_id ast)
            (as_skill_version ast) (as_risk ast) (lp_semantics_profile profile) ""
            (lp_features profile) (map symbol_spec (st_bindings (lo_symbol_table s)))
            (map fst rs) (resource_limits l) inputs contexts output_fields body analysis build,
          write_safety)
  end.
End Lower.

(** ** The compiler *)

Record CompilationResult : Type := MkCompilationResult {
  cr_skill : SkillObject;
  cr_nso_bytes : bytes;
  cr_semantic_hash : string;
  cr_source_bundle_hash : string;
  cr_source_manifest : list SourceManifestEntry;
  cr_include_edges : list IncludeEdge;
  cr_write_safety : WriteSafetyAnalysis
}.

Record NslCompiler : Type := MkNslCompiler {
  co_tool_catalog : ToolContractCatalog;
  co_include_resolver : option IncludeResolver;
  co_include_options : IncludeOptions
}.

(** The tree, manifest, edges and sources that are compiled: those of the
    bundle when the root includes others and there is a resolver. *)
Definition compilation_unit (c : NslCompiler) (f : SourceFile) (ast : AstSkill)
  : result (AstSkill * list SourceManifestEntry * list IncludeEdge * list SourceFile) :=
  match as_includes ast, co_include_resolver c with
  | _ :: _, Some resolver =>
      bundle ← (build_bundle resolver (co_include_options c) f).1;
      composed ← compose bundle;
      Ok (composed, sbu_manifest bundle, sbu_edges bundle, bundle_sources bundle)
  | _, _ => Ok (ast, [manifest_entry f true], [], [f])
  end.

Definition build_metadata (manifest : list SourceManifestEntry) : BuildMetadata :=
  MkBuildMetadata (source_manifest_sha256 (map build_source manifest))
    match manifest with m :: _ => me_logical_path m | [] => "" end
    (map build_source manifest).

(** [NslCompiler.compile] *)
Definition compile (c : NslCompiler) (source : string + SourceFile) : result CompilationResult :=
  f ← coerce_source source;
  tokens ← Lexer.tokenize_root (inr f);
  parsed ← Parser.parse tokens (Some f) ROOT_SKILL;
  match parsed with
  | inr _ => raise TypeError "root parse mode must produce AstSkill"
  | inl ast =>
      u ← compilation_unit c f ast;
      let '(ast, manifest, edges, sources) := u in
      approval_analysis ← analyze_approvals sources ast;
      let build := build_metadata manifest in
      r ← lower (co_tool_catalog c) sources ast approval_analysis build;
      let skill := with_computed_hash r.1 in
      nso_bytes ← nso_encode skill;
      Ok (MkCompilationResult skill nso_bytes (sk_semantic_hash skill)
            (source_manifest_sha256 (map build_source manifest)) manifest edges r.2)
  end.
