(* ===== verification/IncludeFacts.v ===== *)
(** * What inclusion admits ([src/nsl/includes.py])

    Canonical include paths stay below the include root; a bundle is bounded,
    free of cycles and made of sources at their canonical paths. *)

From S2P Require Import Prelude Digest Json JsonBoundary Core DataProtection Ir NsoSchema NsoCodec.
From S2P Require Import Source Lexer Parser Symbols Includes.

(** ** Paths *)

(** A component of a path: no separator, not empty and no dots. *)
Definition plain_part (p : string) : bool :=
  negb (bool_decide (p ∈ [""; "."; ".."])) && negb (has_char slash p).

Lemma split_on_no_sep sep s : Forall (fun p => has_char sep p = false) (split_on sep s).
Proof.
  induction s as [|c s IH]; cbn; [by repeat constructor |].
  destruct (Ascii.eqb_spec c sep) as [->|Hc]; [by constructor |].
  destruct (split_on sep s) as [|w ws]; constructor; try (by inversion IH);
    unfold has_char; cbn; rewrite (Ascii.eqb_sym sep c), (proj2 (Ascii.eqb_neq c sep)) by done;
    inversion IH; done.
Qed.

Lemma path_components_part path :
  Forall (fun p => plain_part p = true \/ p = "..") (path_components path).
Proof.
  unfold path_components. pose proof (split_on_no_sep slash path) as H.
  induction H as [|p l Hp _ IH]; cbn [List.filter]; [constructor |].
  destruct (negb (bool_decide (p ∈ [""; "."]))) eqn:E; [| done]. constructor; [| done].
  apply negb_true_iff, bool_decide_eq_false in E.
  destruct (String.eqb_spec p "..") as [->|Hd]; [by right | left].
  unfold plain_part. rewrite Hp, andb_true_r. apply negb_true_iff, bool_decide_eq_false.
  intros H. apply E. apply elem_of_cons in H as [->|H]; [by left |].
  apply elem_of_cons in H as [->|H]; [by right; left |].
  apply elem_of_cons in H as [->|H]; [done | by apply elem_of_nil in H].
Qed.

(** The walk keeps the directories of the floor. *)
Lemma walk_parts_floor parts : Forall (fun p => plain_part p = true \/ p = "..") parts ->
  forall base dirs out, Forall (fun p => plain_part p = true) dirs ->
  walk_parts (length base) (dirs ++ base) parts = Ok out ->
  exists dirs', out = dirs' ++ base /\ Forall (fun p => plain_part p = true) dirs'.
Proof.
  induction 1 as [|p parts Hp _ IH]; intros base dirs out Hd H; cbn [walk_parts] in H.
  - injection H as <-. by exists dirs.
  - destruct (bool_decide (p ∈ [""; "."])); [by eapply IH |].
    destruct (String.eqb_spec p "..") as [->|Hne].
    + apply bind_Ok in H as ([] & Hl%raise_if_Ok & H). apply Nat.leb_gt in Hl.
      destruct dirs as [|d dirs]; [cbn in Hl; lia |]. cbn [app tail] in H.
      eapply IH; [| exact H]. by inversion Hd.
    + destruct Hp as [Hp|Hp]; [| done]. apply (IH base (p :: dirs) out); [by constructor | done].
Qed.

Lemma normalized_parts_plain parts out : Forall (fun p => plain_part p = true \/ p = "..") parts ->
  normalized_parts parts = Ok out -> Forall (fun p => plain_part p = true) out.
Proof.
  intros Hp H. apply bind_Ok in H as (dirs & H & <-%Ok_inj).
  destruct (walk_parts_floor parts Hp [] [] dirs) as (dirs' & -> & Hd); [constructor | exact H |].
  rewrite app_nil_r. by apply Forall_rev.
Qed.

Lemma removelast_forall {A} (P : A -> Prop) l : Forall P l -> Forall P (removelast l).
Proof. induction 1 as [|x l Hx Hl IH]; cbn; [constructor |]. destruct l; [constructor | by constructor]. Qed.

Lemma split_on_part sep p : has_char sep p = false -> split_on sep p = [p].
Proof.
  induction p as [|c p IH]; [done |]. unfold has_char. cbn. intros H%orb_false_iff.
  destruct H as [Hc Hp]. rewrite Ascii.eqb_sym, Hc, IH by done. done.
Qed.

Lemma split_on_cons sep p s : has_char sep p = false ->
  split_on sep (p +:+ String sep s) = p :: split_on sep s.
Proof.
  induction p as [|c p IH].
  - intros _. change ("" +:+ String sep s)%string with (String sep s). cbn [split_on].
    by rewrite Ascii.eqb_refl.
  - unfold has_char. cbn. intros H%orb_false_iff. destruct H as [Hc Hp].
    change (String c p +:+ String sep s)%string with (String c (p +:+ String sep s)).
    cbn [split_on]. by rewrite Ascii.eqb_sym, Hc, IH.
Qed.

Lemma plain_no_slash p : plain_part p = true -> has_char slash p = false.
Proof. unfold plain_part. intros H. by split_bool. Qed.

Lemma plain_kept p : plain_part p = true -> negb (bool_decide (p ∈ [""; "."])) = true.
Proof.
  unfold plain_part. intros H. split_bool. apply negb_true_iff, bool_decide_eq_false.
  intros Hin. apply H. apply elem_of_cons in Hin as [->|Hin]; [by left |].
  apply elem_of_cons in Hin as [->|Hin]; [by right; left | by apply elem_of_nil in Hin].
Qed.

(** A joined path is split into its parts again. *)
Lemma path_parts_join l : Forall (fun p => plain_part p = true) l -> path_parts (join "/" l) = l.
Proof.
  intros H. destruct H as [|p l Hp Hl]; [reflexivity |].
  assert (path_components (join "/" (p :: l)) = p :: l) as Hc.
  { revert p Hp. induction Hl as [|q l Hq Hl IH]; intros p Hp; unfold path_components.
    - cbn [join]. rewrite split_on_part by by apply plain_no_slash. cbn [List.filter]. by rewrite plain_kept.
    - change (join "/" (p :: q :: l)) with (p +:+ String slash (join "/" (q :: l))).
      rewrite split_on_cons by by apply plain_no_slash. cbn [List.filter]. rewrite plain_kept by done.
      f_equal. by apply IH. }
  unfold path_parts. rewrite Hc.
  assert (path_root (join "/" (p :: l)) = None) as ->; [| done].
  pose proof (plain_no_slash p Hp) as Hs. pose proof (plain_kept p Hp) as Hk.
  destruct p as [|a p]; [discriminate Hk |]. unfold has_char in Hs. cbn in Hs.
  apply orb_false_iff in Hs as [Ha _]. unfold path_root.
  assert (exists r, chars (join "/" (String a p :: l)) = a :: r) as [r ->].
  { destruct l; cbn; eauto. }
  rewrite Ascii.eqb_sym in Ha. destruct r as [|b [|c r]]; by rewrite Ha.
Qed.

(** C18. Inclusion cannot leave the include root. For relative logical paths, an
    accepted include path denotes a path whose components are those of the
    normalized root followed by plain names: no empty component, no dots, no
    separator, whatever dots the include path and the logical path held. *)
Theorem include_path_confined (including_logical_path include_path include_root p : string) :
  path_root including_logical_path = None -> path_root include_root = None ->
  canonical_include_path including_logical_path include_path include_root = Ok p ->
  exists root_parts inside,
    normalized_parts (path_parts include_root) = Ok root_parts
    /\ path_parts p = root_parts ++ inside
    /\ Forall (fun q => plain_part q = true) (root_parts ++ inside).
Proof.
  intros Hl Hr H. unfold canonical_include_path in H.
  apply bind_Ok in H as ([] & Hs%raise_if_Ok & H). apply bind_Ok in H as (root_parts & Hroot & H).
  apply bind_Ok in H as (base & Hbase & H). apply bind_Ok in H as ([] & Ht%raise_if_Ok & H).
  apply bind_Ok in H as (dirs & Hw & H). injection H as <-.
  apply negb_false_iff, bool_decide_eq_true in Ht.
  unfold unsafe_include_path in Hs. apply orb_false_iff in Hs as [Hs _].
  apply orb_false_iff in Hs as [Hs _]. apply orb_false_iff in Hs as [_ Hs].
  apply bool_decide_eq_false in Hs.
  assert (path_root include_path = None) as Hi.
  { destruct (path_root include_path); [exfalso; by apply Hs | done]. }
  unfold path_parts in Hroot, Hw. unfold parent_parts in Hbase.
  rewrite Hr in Hroot. rewrite Hi in Hw. rewrite Hl in Hbase.
  apply normalized_parts_plain in Hroot as Hrp; [| apply path_components_part].
  apply normalized_parts_plain in Hbase as Hbp;
    [| apply removelast_forall, path_components_part].
  rewrite <- (take_drop (length root_parts) base), Ht, rev_app_distr in Hw.
  rewrite <- (length_rev root_parts) in Hw.
  apply walk_parts_floor in Hw as (extra & -> & He);
    [| apply path_components_part | apply Forall_rev; by apply Forall_drop].
  rewrite rev_app_distr, rev_involutive.
  exists root_parts, (rev extra). assert (Forall (fun q => plain_part q = true) (root_parts ++ rev extra)) as Hall.
  { apply Forall_app. split; [done | by apply Forall_rev]. }
  split; [unfold path_parts; by rewrite Hr |]. split; [by apply path_parts_join | done].
Qed.

Lemma include_path_confined_witness :
  canonical_include_path "skills/po/main.ns" "../lib/./common.ns" "skills" = Ok "skills/lib/common.ns"
  /\ exists root_parts inside,
       normalized_parts (path_parts "skills") = Ok root_parts
       /\ path_parts "skills/lib/common.ns" = root_parts ++ inside
       /\ Forall (fun q => plain_part q = true) (root_parts ++ inside).
Proof.
  split; [reflexivity |].
  apply (include_path_confined "skills/po/main.ns" "../lib/./common.ns" "skills"); reflexivity.
Defined.

(** ** Bundles *)

Definition fragment_ids (s : build_state) : list string :=
  map (fun u => source_id (pu_source u)) (bd_fragments s).

Definition sizes (us : list (ParsedSourceUnit AstIncludeFragment)) : Z :=
  sum_by (fun u => source_size (pu_source u)) us.

(** [before a b l]: [a] stands before [b] in [l]. *)
Definition before (a b : string) (l : list string) : Prop :=
  exists l1 l2, l = l1 ++ b :: l2 /\ a ∈ l1.

Lemma before_app a b l r : before a b l -> before a b (l ++ r).
Proof. intros (l1 & l2 & -> & H). exists l1, (l2 ++ r). by rewrite <- app_assoc. Qed.

Lemma sum_by_app {A} (f : A -> Z) l r : sum_by f (l ++ r) = (sum_by f l + sum_by f r)%Z.
Proof. induction l as [|x l IH]; cbn; [done |]. unfold sum_by in *. cbn. rewrite IH. lia. Qed.

Lemma sizes_sources l : sum_by source_size (map pu_source l) = sizes l.
Proof. unfold sizes, sum_by. induction l as [|u l IH]; cbn; [done | by rewrite IH]. Qed.

Section Build.
Variable resolver : IncludeResolver.
Variable options : IncludeOptions.
Variable language_version : string.
Variable root : SourceFile.

(** The source came from an include declaration of another source of the
    build, and is where that declaration says. *)
Definition placed (s : build_state) (f : SourceFile) : Prop :=
  exists including path,
    (including = root \/ including ∈ map pu_source (bd_fragments s))
    /\ canonical_include_path (logical_path including) path (include_root options)
       = Ok (logical_path f).

(** The state of a build in which the sources [done] are finished, in the
    order in which they were. *)
Record building (s : build_state) (finished : list string) : Prop := {
  bg_files : (Z.of_nat (length (bd_fragments s)) <= max_include_files options)%Z;
  bg_total : bd_total_source_bytes s = (source_size root + sizes (bd_fragments s))%Z;
  bg_bytes : (bd_total_source_bytes s <= max_total_source_bytes options)%Z;
  bg_visited : forall x, x ∈ bd_visited s <-> x ∈ source_id root :: fragment_ids s;
  bg_distinct : NoDup (source_id root :: fragment_ids s);
  bg_placed : Forall (fun u => placed s (pu_source u)) (bd_fragments s);
  bg_active : bd_active s ⊆ bd_visited s;
  bg_finished : forall x, x ∈ finished <-> x ∈ bd_visited s /\ x ∉ bd_active s;
  bg_edges : Forall (fun e => ie_from_source e ∈ bd_visited s) (bd_edges s);
  bg_order : Forall (fun e => ie_from_source e ∈ finished ->
                     before (ie_to_source e) (ie_from_source e) finished) (bd_edges s);
  bg_once : NoDup finished
}.

Definition known_source (s : build_state) (f : SourceFile) : Prop :=
  f = root \/ f ∈ map pu_source (bd_fragments s).

(** What the include declarations of [including] add to a build. *)
Record extended (including : string) (s : build_state) (finished : list string)
    (s' : build_state) (more : list string) : Prop := {
  ex_building : building s' (finished ++ more);
  ex_active : bd_active s' = bd_active s;
  ex_known : forall f, known_source s f -> known_source s' f;
  ex_edges : exists es, bd_edges s' = bd_edges s ++ es
    /\ Forall (fun e => (ie_from_source e = including /\ ie_to_source e ∈ finished ++ more)
                        \/ ie_from_source e ∈ more) es
}.

(** [m] fails, or returns in a state that satisfies [Q]. *)
Definition built {A} (m : BM A) (s : build_state) (Q : A -> build_state -> Prop) : Prop :=
  match m s with (Ok a, s') => Q a s' | (Err _, _) => True end.

Lemma built_bind {A B} (m : BM A) (f : A -> BM B) s Q :
  built m s (fun a s' => built (f a) s' Q) -> built (m ≫= f) s Q.
Proof. unfold built, mbind, M_bind. by destruct (m s) as [[a|e] s']. Qed.

Lemma built_mono {A} (m : BM A) s (P Q : A -> build_state -> Prop) :
  (forall a s', P a s' -> Q a s') -> built m s P -> built m s Q.
Proof. unfold built. intros H. destruct (m s) as [[a|e] s']; auto. Qed.

Lemma built_reject_if b code message f d s (Q : unit -> build_state -> Prop) :
  (b = false -> Q tt s) -> built (reject_if b code message f d) s Q.
Proof. destruct b; [done | intros H; by apply H]. Qed.

Lemma built_lift {A} (r : result A) s (Q : A -> build_state -> Prop) :
  (forall a, r = Ok a -> Q a s) -> built (lift r) s Q.
Proof. unfold built, lift. destruct r; auto. Qed.

Definition called (s : build_state) (c : resolve_call) : build_state :=
  BuildState (bd_total_source_bytes s) (bd_fragments s) (bd_edges s) (bd_visited s)
    (bd_active s) (bd_calls s ++ [c]).

Lemma built_resolve including d s :
  built (resolve_declaration resolver options including d) s (fun f s' =>
    s' = called s (including, ai_path d)
    /\ canonical_include_path (logical_path including) (ai_path d) (include_root options)
       = Ok (logical_path f)).
Proof.
  unfold resolve_declaration.
  destruct (canonical_include_path _ _ _) as [p|e] eqn:E.
  - apply built_bind, built_bind. unfold built at 1 2. cbn. apply built_bind. unfold built at 1. cbn.
    apply built_bind.
    destruct (resolver (bd_calls s) including (ai_path d)) as [f|e]; unfold built at 1; cbn.
    + apply built_bind, built_reject_if. intros Hp. unfold built. cbn. split; [done |].
      apply negb_false_iff, String.eqb_eq in Hp. by rewrite Hp.
    + by destruct (_ || _).
  - apply built_bind. unfold built. by destruct (isinstance_exn (ex_class e) ValueError).
Qed.

Lemma building_called s fin c : building s fin -> building (called s c) fin.
Proof. intros []. by split. Qed.

Definition with_edge (s : build_state) (e : IncludeEdge) : build_state :=
  BuildState (bd_total_source_bytes s) (bd_fragments s) (bd_edges s ++ [e]) (bd_visited s)
    (bd_active s) (bd_calls s).

(** An edge from a source under way. *)
Lemma building_edge s fin e : building s fin -> ie_from_source e ∈ bd_active s ->
  building (with_edge s e) fin.
Proof.
  intros [H1 H2 H3 H4 H5 H6 H7 H8 H9 H10 H11] He. split; try done; cbn.
  - apply Forall_app. split; [done |]. constructor; [by apply H7 | done].
  - apply Forall_app. split; [done |]. constructor; [| done]. intros Hf.
    apply H8 in Hf as [_ Hf]. done.
Qed.

Definition admitted (s : build_state) (f : SourceFile) (g : AstIncludeFragment) : build_state :=
  BuildState (bd_total_source_bytes s + source_size f) (bd_fragments s ++ [MkParsedSourceUnit f g])
    (bd_edges s) ({[ source_id f ]} ∪ bd_visited s) ({[ source_id f ]} ∪ bd_active s) (bd_calls s).

Lemma built_admit including f d s :
  built (admit_source options language_version including f d) s (fun g s' =>
    s' = admitted s f g
    /\ (Z.of_nat (length (bd_fragments s)) < max_include_files options)%Z
    /\ (bd_total_source_bytes s + source_size f <= max_total_source_bytes options)%Z).
Proof.
  unfold admit_source. apply built_bind. unfold built at 1. cbn.
  apply built_bind, built_reject_if. intros H1%Z.leb_gt.
  apply built_bind, built_reject_if. intros H2%Z.ltb_ge.
  apply built_bind. unfold built at 1. cbn.
  apply built_bind, built_lift. intros ts _. apply built_bind, built_lift. intros [a|g] _; [done |].
  by apply built_bind.
Qed.

Lemma placed_mono s s' f : (forall x, known_source s x -> known_source s' x) -> placed s f -> placed s' f.
Proof. intros H (i & p & Hi & Hp). exists i, p. split; [by apply H | done]. Qed.

Lemma known_admitted s f g x : known_source s x -> known_source (admitted s f g) x.
Proof.
  intros [->|H]; [by left | right]. cbn. rewrite map_app. apply elem_of_app. by left.
Qed.

Lemma building_admitted s fin including f g path :
  building s fin -> known_source s including ->
  canonical_include_path (logical_path including) path (include_root options) = Ok (logical_path f) ->
  source_id f ∉ bd_visited s ->
  (Z.of_nat (length (bd_fragments s)) < max_include_files options)%Z ->
  (bd_total_source_bytes s + source_size f <= max_total_source_bytes options)%Z ->
  building (admitted s f g) fin.
Proof.
  intros [H1 H2 H3 H4 H5 H6 H7 H8 H9 H10 H11] Hk Hp Hv Hf Hb.
  assert (fragment_ids (admitted s f g) = fragment_ids s ++ [source_id f]) as Hids.
  { unfold fragment_ids. cbn. by rewrite map_app. }
  split; cbn [admitted bd_total_source_bytes bd_fragments bd_visited bd_active bd_edges].
  - rewrite length_app. cbn. lia.
  - unfold sizes in *. rewrite sum_by_app, H2. cbn. lia.
  - done.
  - intros x. rewrite Hids, elem_of_union, elem_of_singleton, H4.
    change (?a :: ?l ++ ?r) with ((a :: l) ++ r). rewrite elem_of_app, list_elem_of_singleton. tauto.
  - rewrite Hids. change (?a :: ?l ++ ?r) with ((a :: l) ++ r). apply NoDup_app. split; [done |].
    split; [| apply NoDup_singleton]. intros x Hx Hx'. apply list_elem_of_singleton in Hx' as ->.
    by apply Hv, H4.
  - apply Forall_app. split.
    + eapply Forall_impl; [exact H6 |]. intros u. apply placed_mono. apply known_admitted.
    + constructor; [| done]. exists including, path. split; [| done].
      by apply known_admitted.
  - set_solver.
  - intros x. rewrite H8. set_solver.
  - eapply Forall_impl; [exact H9 |]. intros e. cbn. set_solver.
  - done.
  - done.
Qed.

(** A source under way is finished when its edges lead to finished ones. *)
Lemma building_finish s fin f :
  building s fin -> source_id f ∈ bd_active s ->
  (forall e, e ∈ bd_edges s -> ie_from_source e = source_id f -> ie_to_source e ∈ fin) ->
  building (BuildState (bd_total_source_bytes s) (bd_fragments s) (bd_edges s) (bd_visited s)
              (bd_active s ∖ {[ source_id f ]}) (bd_calls s)) (fin ++ [source_id f]).
Proof.
  intros [H1 H2 H3 H4 H5 H6 H7 H8 H9 H10 H11] Ha He. split; try done; cbn.
  - set_solver.
  - intros x. rewrite elem_of_app, list_elem_of_singleton, H8, elem_of_difference, elem_of_singleton.
    destruct (decide (x = source_id f)) as [->|]; [| tauto].
    split; [intros _; split; [by apply H7 | tauto] | by right].
  - apply Forall_forall. intros e Hin Hf. rewrite Forall_forall in H10.
    apply elem_of_app in Hf as [Hf|Hf]; [by apply before_app, H10 |].
    apply list_elem_of_singleton in Hf. exists fin, []. rewrite Hf. split; [done |]. by apply He.
  - apply NoDup_app. split; [done |]. split; [| apply NoDup_singleton].
    intros x Hx Hx'. apply list_elem_of_singleton in Hx' as ->. by apply H8 in Hx as [_ Hx].
Qed.

Lemma extended_trans u s fin s1 m1 s2 m2 :
  extended u s fin s1 m1 -> extended u s1 (fin ++ m1) s2 m2 -> extended u s fin s2 (m1 ++ m2).
Proof.
  intros [A1 A2 A3 (es1 & A4 & A5)] [B1 B2 B3 (es2 & B4 & B5)]. split.
  - by rewrite app_assoc.
  - congruence.
  - auto.
  - exists (es1 ++ es2). split; [by rewrite B4, A4, app_assoc |]. apply Forall_app. split.
    + eapply Forall_impl; [exact A5 |]. intros e. cbn. rewrite !elem_of_app. tauto.
    + eapply Forall_impl; [exact B5 |]. intros e. cbn. rewrite !elem_of_app. tauto.
Qed.

(** What a visit needs of the including source. *)
Record may_visit (including : SourceFile) (s : build_state) (fin : list string) : Prop := {
  mv_building : building s fin;
  mv_active : source_id including ∈ bd_active s;
  mv_known : known_source s including;
  mv_edges : forall e, e ∈ bd_edges s -> ie_from_source e = source_id including ->
             ie_to_source e ∈ fin
}.

Lemma may_visit_after including s fin s' more :
  may_visit including s fin -> extended (source_id including) s fin s' more ->
  may_visit including s' (fin ++ more).
Proof.
  intros [H1 H2 H3 H4] [E1 E2 E3 (es & E4 & E5)]. split; [done | by rewrite E2 | by apply E3 |].
  rewrite E4. intros e He Hf. apply elem_of_app in He as [He|He].
  - apply elem_of_app. left. by apply H4.
  - rewrite Forall_forall in E5. destruct (E5 e He) as [[_ H]|H]; [done |].
    exfalso. rewrite Hf in H. assert (source_id including ∈ fin ++ more) as Hin.
    { apply elem_of_app. by right. }
    apply (bg_finished _ _ E1) in Hin as [_ Hin]. by rewrite E2 in Hin.
Qed.

Lemma extended_refl u s fin : building s fin -> extended u s fin s [].
Proof.
  intros H. split; [by rewrite app_nil_r | done | done |]. exists []. by rewrite app_nil_r.
Qed.

Definition visits (m : SourceFile -> list AstIncludeDeclaration -> Z -> BM unit) : Prop :=
  forall including declarations depth s fin, may_visit including s fin ->
  built (m including declarations depth) s
    (fun _ s' => exists more, extended (source_id including) s fin s' more).

Lemma declaration_extends descend including depth d s fin :
  visits descend -> may_visit including s fin ->
  built (visit_declaration resolver options language_version descend including depth d) s
    (fun _ s' => exists more, extended (source_id including) s fin s' more).
Proof.
  intros Hdescend Hv. pose proof Hv as [H1 H2 H3 H4]. unfold visit_declaration.
  apply built_bind, built_reject_if. intros _.
  apply built_bind. eapply built_mono; [| apply built_resolve]. cbn beta. intros f s1 [-> Hp].
  apply built_bind. unfold record_edge. destruct (ai_span d) as [span|]; [| done].
  unfold built at 1. cbn.
  set (e := MkIncludeEdge (source_id including) (source_id f) span).
  set (s1 := with_edge (called s (including, ai_path d)) e).
  change (BuildState _ _ (bd_edges s ++ [e]) _ _ _) with s1.
  assert (building s1 fin) as Hb1 by (apply building_edge; [by apply building_called | done]).
  apply built_bind. unfold built at 1. cbn. apply built_bind, built_reject_if.
  intros Hna%bool_decide_eq_false.
  destruct (bool_decide (source_id f ∈ bd_visited s)) eqn:Ev.
  { apply bool_decide_eq_true in Ev. unfold built. cbn. exists []. split.
    - by rewrite app_nil_r.
    - done.
    - done.
    - exists [e]. split; [done |]. constructor; [| done]. left. split; [done |].
      rewrite app_nil_r. by apply (bg_finished _ _ H1). }
  apply bool_decide_eq_false in Ev. apply built_bind.
  eapply built_mono; [| apply built_admit]. cbn beta. intros g s2 (-> & Hn & Hb).
  assert (building (admitted s1 f g) fin) as Hb2 by (by eapply building_admitted).
  assert (may_visit f (admitted s1 f g) fin) as Hvf.
  { split; [done | set_solver | right; cbn; rewrite map_app; apply elem_of_app; right; by left |].
    cbn. intros x Hx Hf. exfalso. apply elem_of_app in Hx as [Hx|Hx].
    - pose proof (bg_edges _ _ H1) as Hedges. rewrite Forall_forall in Hedges.
      apply Hedges in Hx. by rewrite Hf in Hx.
    - apply list_elem_of_singleton in Hx as ->. cbn in Hf. rewrite <- Hf in Ev.
      by apply Ev, (bg_active _ _ H1). }
  apply built_bind. eapply built_mono; [| by apply Hdescend]. cbn beta. intros [] s3 [m3 Hx].
  pose proof (may_visit_after _ _ _ _ _ Hvf Hx) as [F1 F2 F3 F4].
  unfold deactivate, modify, built. exists (m3 ++ [source_id f]).
  destruct Hx as [X1 X2 X3 (es & X4 & X5)]. split; cbn [bd_active bd_edges].
  - rewrite app_assoc. by apply building_finish.
  - rewrite X2. cbn. set_solver.
  - intros x Hx. apply X3. by apply known_admitted.
  - rewrite X4. exists (e :: es). split; [cbn; by rewrite <- app_assoc |].
    constructor.
    + left. split; [done |]. cbn. rewrite !elem_of_app. right. right. by left.
    + eapply Forall_impl; [exact X5 |]. intros x. cbn. rewrite !elem_of_app.
      intros [[-> _]|Hx]; right; [right; by left | by left].
Qed.

Lemma loop_extends descend including depth l s fin :
  visits descend -> may_visit including s fin ->
  built (each_M (visit_declaration resolver options language_version descend including depth) l) s
    (fun _ s' => exists more, extended (source_id including) s fin s' more).
Proof.
  intros Hd. revert s fin; induction l as [|d l IH]; intros s fin Hv.
  { exists []. by apply extended_refl, Hv. }
  apply built_bind. eapply built_mono; [| by apply declaration_extends]. cbn beta.
  intros [] s1 [m1 H1].
  eapply built_mono; [| eapply IH, may_visit_after; [exact Hv | exact H1]]. cbn beta.
  intros [] s2 [m2 H2]. exists (m1 ++ m2). by eapply extended_trans.
Qed.

Lemma visit_extends fuel : visits (visit resolver options language_version fuel).
Proof.
  induction fuel as [|fuel IH]; intros including declarations depth s fin Hv; cbn [visit];
    apply loop_extends; done.
Qed.
End Build.

(** C16. A bundle that [SourceBundleBuilder.build] returns keeps to its limits and
    has no cycle: at most [max_include_files] fragments and
    [max_total_source_bytes] bytes, sources with distinct ids, every fragment
    at the canonical path that a source of the bundle includes, and all the
    sources in an order in which every edge leads to an earlier one, whatever
    the resolver answers. *)
Theorem bundle_bounded_acyclic (resolver : IncludeResolver) (options : IncludeOptions)
    (root : SourceFile) (b : SourceBundle) (calls : list resolve_call) :
  IncludeOptions_post_init options = Ok tt ->
  build_bundle resolver options root = (Ok b, calls) ->
  (Z.of_nat (length (sbu_fragments b)) <= max_include_files options)%Z
  /\ (sum_by source_size (bundle_sources b) <= max_total_source_bytes options)%Z
  /\ NoDup (map source_id (bundle_sources b))
  /\ Forall (fun u => exists including path, including ∈ bundle_sources b
        /\ canonical_include_path (logical_path including) path (include_root options)
           = Ok (logical_path (pu_source u))) (sbu_fragments b)
  /\ exists order, Permutation order (map source_id (bundle_sources b))
      /\ Forall (fun e => before (ie_to_source e) (ie_from_source e) order) (sbu_edges b).
Proof.
  intros Ho H. unfold build_bundle in H.
  match type of H with (match ?p with _ => _ end) = _ => destruct p as [ast|e] eqn:Hprep end;
    [| discriminate].
  apply bind_Ok in Hprep as (u1 & Hsize & _).
  destruct (Z.ltb_spec (max_total_source_bytes options) (source_size root)) as [|Hroot];
    [discriminate |].
  unfold IncludeOptions_post_init in Ho. apply bind_Ok in Ho as ([] & Hd%raise_if_Ok & Ho).
  apply bind_Ok in Ho as ([] & Hf%raise_if_Ok%Z.ltb_ge & _).
  assert (building options root (initial_build root) []) as Hb.
  { split; cbn; try done; try lia; try set_solver; constructor; (set_solver || constructor). }
  pose proof (visit_extends resolver options (as_language_version ast) root (visit_fuel options)
    root (as_includes ast) 0%Z (initial_build root) []) as Hv.
  unfold built in Hv.
  destruct (visit _ _ _ _ _ _ _ _) as [[[]|e] s]; [| discriminate]. injection H as <- _.
  destruct Hv as [more Hx]; [split; [done | cbn; set_solver | by left | cbn; by intros e He%elem_of_nil] |].
  destruct Hx as [[I1 I2 I3 I4 I5 I6 I7 I8 I9 I10 I11] X2 _ (es & X4 & X5)]. cbn in X2, X4.
  unfold bundle_sources. cbn [sbu_root sbu_fragments sbu_edges pu_source].
  assert (map source_id (root :: map pu_source (bd_fragments s)) = source_id root :: fragment_ids s)
    as Hids by (cbn; by rewrite map_map).
  split; [done |]. split.
  { rewrite I2, <- sizes_sources in I3. exact I3. }
  split; [by rewrite Hids |]. split.
  { eapply Forall_impl; [exact I6 |]. intros u (i & p & Hi & Hp). exists i, p. split; [| done].
    destruct Hi as [->|Hi]; [by left | by right]. }
  cbn [app] in *. exists (more ++ [source_id root]). split.
  - rewrite Hids. apply NoDup_Permutation; [| done |].
    + apply NoDup_app. split; [| split; [| apply NoDup_singleton]].
      * exact I11.
      * intros x Hx Hx'. apply list_elem_of_singleton in Hx' as ->.
        apply (I8 (source_id root)) in Hx as [_ Hx]. rewrite X2 in Hx. set_solver.
    + intros x. rewrite elem_of_app, list_elem_of_singleton, <- I4, I8, X2.
      destruct (decide (x = source_id root)) as [->|]; [| set_solver].
      split; [intros _; apply I4; by left | by right].
  - apply Forall_forall. intros e He. rewrite X4 in He. rewrite Forall_forall in X5, I10.
    destruct (X5 e He) as [[Hfrom Hto]|Hfrom].
    + exists more, []. rewrite Hfrom. done.
    + apply before_app, (I10 e); [by rewrite X4 | done].
Qed.

(** ** Termination *)

Section Fuel.
Variable resolver : IncludeResolver.
Variable options : IncludeOptions.
Variable language_version : string.

Lemma run_ext {S A B} (m : M S A) (f g : A -> M S B) s :
  (forall a s', f a s' = g a s') -> (m ≫= f) s = (m ≫= g) s.
Proof. intros H. unfold mbind, M_bind. by destruct (m s) as [[a|e] s']. Qed.

Lemma declaration_ext d1 d2 including depth d s :
  ((depth < max_include_depth options)%Z ->
   forall i ds s, d1 i ds (depth + 1)%Z s = d2 i ds (depth + 1)%Z s) ->
  visit_declaration resolver options language_version d1 including depth d s
  = visit_declaration resolver options language_version d2 including depth d s.
Proof.
  intros H. unfold visit_declaration. destruct (Z.ltb_spec (max_include_depth options) (depth + 1)).
  { done. }
  repeat (apply run_ext; intros ? ?). destruct (bool_decide _); [done |].
  apply run_ext; intros g s1. unfold mbind, M_bind. rewrite H by lia. done.
Qed.

Lemma each_ext {S A} (f g : A -> M S unit) l s :
  (forall x s', f x s' = g x s') -> each_M f l s = each_M g l s.
Proof.
  intros H. revert s; induction l as [|x l IH]; intros s; [done |].
  cbn [each_M]. unfold mbind, M_bind. rewrite H. by destruct (g x s) as [[[]|e] s'].
Qed.

Lemma visit_more n k including declarations depth s :
  (max_include_depth options - depth <= Z.of_nat n)%Z ->
  visit resolver options language_version (n + k) including declarations depth s
  = visit resolver options language_version n including declarations depth s.
Proof.
  revert including declarations depth s; induction n as [|n IH];
    intros including declarations depth s Hn.
  - cbn [Nat.add]. destruct k as [|k]; [done |]. cbn [visit]. apply each_ext. intros d s'.
    apply declaration_ext. lia.
  - cbn [Nat.add visit]. apply each_ext. intros d s'. apply declaration_ext. intros Hd i ds s1.
    apply IH. lia.
Qed.
End Fuel.

(** ** Composition *)

Section Compose.
Variable bundle : SourceBundle.

Definition same_tool (d : list (string * AstRequiredTool)) (x : AstRequiredTool) : Prop :=
  exists y, assoc (ar_tool_id x) d = Some y /\ ar_version y = ar_version x.

Lemma add_requirement_keeps d x d' : add_requirement bundle d x = Ok d' ->
  same_tool d' x /\ (forall y, same_tool d y -> same_tool d' y).
Proof.
  unfold add_requirement, composition_error. destruct (assoc (ar_tool_id x) d) as [y|] eqn:E.
  - destruct (String.eqb_spec (ar_version y) (ar_version x)) as [Hv|].
    + intros [= <-]. split; [by exists y | done].
    + destruct (ar_span x); [destruct (source_of _ _) |]; discriminate.
  - intros [= <-]. split; [exists x; by rewrite assoc_set_eq |].
    intros z (y & Hy & Hz). exists y. split; [| done].
    rewrite assoc_set_ne; [done |]. intros He. by rewrite He, Hy in E.
Qed.

Lemma fold_requirements d xs d' : fold_result (add_requirement bundle) d xs = Ok d' ->
  Forall (same_tool d') xs /\ (forall y, same_tool d y -> same_tool d' y).
Proof.
  revert d; induction xs as [|x xs IH]; intros d H; cbn in H; [by injection H as <- |].
  apply bind_Ok in H as (d1 & H1 & H2). apply add_requirement_keeps in H1 as [K1 K2].
  apply IH in H2 as [K3 K4]. split; [constructor |]; auto.
Qed.

Definition has_name (d : list (string * AstFieldSpec)) (x : AstFieldSpec) : Prop :=
  assoc (af_name x) d = Some x.

Lemma add_context_keeps d x d' : add_context bundle d x = Ok d' ->
  has_name d' x /\ (forall y, has_name d y -> has_name d' y).
Proof.
  unfold add_context, composition_error. destruct (assoc (af_name x) d) as [y|] eqn:E.
  - destruct (af_span x); [destruct (source_of _ _) |]; discriminate.
  - intros [= <-]. unfold has_name. rewrite assoc_set_eq. split; [done |].
    intros z Hz. rewrite assoc_set_ne; [done |]. intros He. by rewrite He, Hz in E.
Qed.

Lemma fold_contexts d xs d' : fold_result (add_context bundle) d xs = Ok d' ->
  Forall (has_name d') xs /\ (forall y, has_name d y -> has_name d' y).
Proof.
  revert d; induction xs as [|x xs IH]; intros d H; cbn in H; [by injection H as <- |].
  apply bind_Ok in H as (d1 & H1 & H2). apply add_context_keeps in H1 as [K1 K2].
  apply IH in H2 as [K4 K5]. split; [constructor |]; auto.
Qed.

(** A dict whose keys are those of its values, each once. *)
Definition keyed {A} (key : A -> string) (d : list (string * A)) : Prop :=
  Forall (fun kx => kx.1 = key kx.2) d /\ NoDup (map fst d).

Lemma assoc_set_keys {A} k (v : A) d x : x ∈ map fst (assoc_set k v d) <-> x = k \/ x ∈ map fst d.
Proof.
  induction d as [|[j w] d IH]; cbn.
  - rewrite list_elem_of_singleton. set_solver.
  - destruct (String.eqb_spec k j) as [->|]; cbn; rewrite !elem_of_cons; [tauto |]. rewrite IH. tauto.
Qed.

Lemma keyed_set {A} key (x : A) d : keyed key d -> keyed key (assoc_set (key x) x d).
Proof.
  intros [H1 H2]. split.
  - clear H2. induction H1 as [|[j w] d Hj Hd IH]; cbn; [by repeat constructor |].
    destruct (String.eqb_spec (key x) j); constructor; done.
  - clear H1. induction d as [|[j w] d IH]; cbn; [apply NoDup_singleton |].
    inversion H2 as [|? ? Hn H3]; subst. destruct (String.eqb_spec (key x) j) as [->|Hj]; [done |].
    constructor; [| by apply IH]. intros H. apply assoc_set_keys in H as [H|H]; [by apply Hj | done].
Qed.

Lemma keyed_fold {A} key (xs : list A) d : keyed key d ->
  keyed key (fold_left (fun d x => assoc_set (key x) x d) xs d).
Proof. revert d; induction xs as [|x xs IH]; intros d H; [done |]. by apply IH, keyed_set. Qed.

Lemma dict_by_keyed {A} key (xs : list A) : keyed key (dict_by key xs).
Proof. apply keyed_fold. split; [done | constructor]. Qed.

Lemma keyed_values {A} key (d : list (string * A)) : keyed key d -> NoDup (map key (map snd d)).
Proof.
  intros [H1 H2]. assert (map key (map snd d) = map fst d) as ->; [| done].
  rewrite map_map. apply map_ext_Forall. eapply Forall_impl; [exact H1 |]. by intros [k x].
Qed.

(** [d[key(x)] = x] where the key is new: what the composer does with a
    declaration of a fragment that it accepts. *)
Definition insert_new {A} (key : A -> string) (d : list (string * A)) (x : A) : list (string * A) :=
  match assoc (key x) d with Some _ => d | None => assoc_set (key x) x d end.

Lemma add_requirement_inserts d x d' : add_requirement bundle d x = Ok d' -> d' = insert_new ar_tool_id d x.
Proof.
  unfold add_requirement, insert_new, composition_error. destruct (assoc _ d).
  - destruct (String.eqb _ _); [by intros [= <-] |].
    destruct (ar_span x); [destruct (source_of _ _) |]; discriminate.
  - by intros [= <-].
Qed.

Lemma add_context_inserts d x d' : add_context bundle d x = Ok d' -> d' = insert_new af_name d x.
Proof.
  unfold add_context, insert_new, composition_error. destruct (assoc _ d).
  - destruct (af_span x); [destruct (source_of _ _) |]; discriminate.
  - by intros [= <-].
Qed.

Lemma fold_inserts {A} (key : A -> string) (f : list (string * A) -> A -> result (list (string * A))) xs :
  (forall d x d', f d x = Ok d' -> d' = insert_new key d x) ->
  forall d d', fold_result f d xs = Ok d' -> d' = fold_left (insert_new key) xs d.
Proof.
  intros Hf. induction xs as [|x xs IH]; intros d d' H; cbn in *; [by injection H |].
  apply bind_Ok in H as (d1 & ->%Hf & H2). by apply IH.
Qed.

(** The declaration that counts for a key: the last one of the root, or else
    the first one of the fragments. *)
Definition first_declared {A} (key : A -> string) (root more : list A) (k : string) : option A :=
  match find (fun x => String.eqb k (key x)) (rev root) with
  | Some x => Some x
  | None => find (fun x => String.eqb k (key x)) more
  end.

Lemma find_snoc {A} (p : A -> bool) l x :
  find p (l ++ [x]) = match find p l with Some y => Some y | None => if p x then Some x else None end.
Proof. induction l as [|y l IH]; cbn; [done |]. by destruct (p y). Qed.

Lemma assoc_dict_by {A} (key : A -> string) xs k :
  assoc k (dict_by key xs) = find (fun x => String.eqb k (key x)) (rev xs).
Proof.
  unfold dict_by. induction xs as [|x xs IH] using rev_ind; [done |].
  rewrite fold_left_app, rev_app_distr. cbn [fold_left rev app find].
  destruct (String.eqb_spec k (key x)) as [->|Hne]; [by rewrite assoc_set_eq |].
  rewrite assoc_set_ne by congruence. exact IH.
Qed.

Lemma assoc_inserted {A} (key : A -> string) root more k :
  assoc k (fold_left (insert_new key) more (dict_by key root)) = first_declared key root more k.
Proof.
  unfold first_declared. rewrite <- assoc_dict_by. induction more as [|x more IH] using rev_ind; cbn.
  { by destruct (assoc k _). }
  rewrite fold_left_app, find_snoc. cbn [fold_left]. unfold insert_new at 1.
  destruct (String.eqb_spec k (key x)) as [->|Hne].
  - rewrite IH. destruct (assoc (key x) (dict_by key root)); cbn; [exact IH |].
    destruct (find _ more); [exact IH | by rewrite assoc_set_eq].
  - destruct (assoc (key x) _); [| rewrite assoc_set_ne by congruence]; rewrite IH;
      destruct (assoc k (dict_by key root)); try done; by destruct (find _ more).
Qed.

Lemma assoc_set_list {A} k (v : A) d :
  map fst (assoc_set k v d) = if bool_decide (k ∈ map fst d) then map fst d else map fst d ++ [k].
Proof.
  induction d as [|[j w] d IH]; cbn; [by rewrite bool_decide_eq_false_2 by apply not_elem_of_nil |].
  destruct (String.eqb_spec k j) as [->|Hne]; cbn.
  - rewrite bool_decide_eq_true_2; [done | by left].
  - rewrite IH. repeat case_bool_decide; try done; exfalso; set_solver.
Qed.

Lemma insert_new_list {A} (key : A -> string) d (x : A) :
  map fst (insert_new key d x) = if bool_decide (key x ∈ map fst d) then map fst d else map fst d ++ [key x].
Proof.
  unfold insert_new. destruct (assoc (key x) d) as [y|] eqn:E; [| apply assoc_set_list].
  apply assoc_elem in E. rewrite bool_decide_eq_true_2; [done |]. by apply (list_elem_of_fmap_2 fst _ (key x, y)).
Qed.

Lemma inserted_keys {A} (key : A -> string) root more :
  map fst (fold_left (insert_new key) more (dict_by key root)) = dict_keys (map key (root ++ more)).
Proof.
  unfold dict_keys, dict_by. rewrite map_app, fold_left_app.
  assert (forall d, map fst (fold_left (fun d x => assoc_set (key x) x d) root d)
    = fold_left (fun seen k => if bool_decide (k ∈ seen) then seen else seen ++ [k]) (map key root) (map fst d))
    as Hroot by (induction root as [|x root IH]; intros d; cbn; [done |]; by rewrite IH, assoc_set_list).
  assert (forall d, map fst (fold_left (insert_new key) more d)
    = fold_left (fun seen k => if bool_decide (k ∈ seen) then seen else seen ++ [k]) (map key more) (map fst d))
    as Hmore by (induction more as [|x more IH]; intros d; cbn; [done |]; by rewrite IH, insert_new_list).
  by rewrite Hmore, Hroot.
Qed.

Lemma keyed_requirement d x d' : add_requirement bundle d x = Ok d' ->
  keyed ar_tool_id d -> keyed ar_tool_id d'.
Proof.
  unfold add_requirement, composition_error. destruct (assoc _ d).
  - destruct (String.eqb _ _); [by intros [= <-] |].
    destruct (ar_span x); [destruct (source_of _ _) |]; discriminate.
  - intros [= <-]. apply keyed_set.
Qed.

Lemma keyed_context d x d' : add_context bundle d x = Ok d' -> keyed af_name d -> keyed af_name d'.
Proof.
  unfold add_context, composition_error. destruct (assoc _ d).
  - destruct (af_span x); [destruct (source_of _ _) |]; discriminate.
  - intros [= <-]. apply keyed_set.
Qed.

Lemma fold_result_keeps {A B} (f : B -> A -> result B) (P : B -> Prop) xs b b' :
  (forall b x b', f b x = Ok b' -> P b -> P b') -> fold_result f b xs = Ok b' -> P b -> P b'.
Proof.
  intros Hf. revert b; induction xs as [|x xs IH]; intros b H Hb; cbn in H; [by injection H as <- |].
  apply bind_Ok in H as (b1 & H1 & H2). eapply IH; [exact H2 | by eapply Hf].
Qed.

Definition fragment_tools (us : list (ParsedSourceUnit AstIncludeFragment)) : list AstRequiredTool :=
  flat_map (fun u => ag_requires (pu_ast u)) us.
Definition fragment_contexts (us : list (ParsedSourceUnit AstIncludeFragment)) : list AstFieldSpec :=
  flat_map (fun u => ag_contexts (pu_ast u)) us.

(** What a composition has taken from the fragments [us]. *)
Record takes_from (root : AstSkill) (us : list (ParsedSourceUnit AstIncludeFragment))
    (c : composed) : Prop := {
  tf_requires : Forall (fun u => Forall (same_tool (cm_requires c)) (ag_requires (pu_ast u))) us;
  tf_contexts : Forall (fun u => Forall (has_name (cm_contexts c)) (ag_contexts (pu_ast u))) us;
  tf_tools_once : keyed ar_tool_id (cm_requires c);
  tf_names_once : keyed af_name (cm_contexts c);
  tf_tools : cm_requires c
             = fold_left (insert_new ar_tool_id) (fragment_tools us) (dict_by ar_tool_id (as_requires root));
  tf_names : cm_contexts c
             = fold_left (insert_new af_name) (fragment_contexts us) (dict_by af_name (as_contexts root));
  tf_limits : option_list (cm_limits c)
              = option_list (as_limits root) ++ flat_map (fun u => ag_limits (pu_ast u)) us
}.

Lemma add_fragment_takes root us c u c' : takes_from root us c -> add_fragment bundle c u = Ok c' ->
  takes_from root (us ++ [u]) c'.
Proof.
  intros [H1 H2 H3 H4 H6 H7 H5] H. unfold add_fragment in H.
  apply bind_Ok in H as (rs & Hr & H). apply bind_Ok in H as (cs & Hc & H).
  assert (cm_requires c' = rs /\ cm_contexts c' = cs
    /\ option_list (cm_limits c') = option_list (cm_limits c) ++ ag_limits (pu_ast u)) as (Er & Ec & Hl).
  { destruct (ag_limits (pu_ast u)) as [|l more]; [injection H as <-; cbn; by rewrite app_nil_r |].
    destruct (cm_limits c) as [l'|] eqn:El; cbn in H; [| destruct more as [|l2 more]; cbn in H].
    1, 3: unfold composition_error in H; destruct (ag_span (pu_ast u)); [destruct (source_of _ _) |];
      discriminate.
    by injection H as <-. }
  pose proof (fold_requirements _ _ _ Hr) as [R1 R2]. pose proof (fold_contexts _ _ _ Hc) as [C1 C2].
  split; rewrite ?Er, ?Ec.
  - apply Forall_app. split; [| by constructor]. eapply Forall_impl; [exact H1 |]. cbn. intros v Hv.
    eapply Forall_impl; [exact Hv | auto].
  - apply Forall_app. split; [| by constructor]. eapply Forall_impl; [exact H2 |]. cbn. intros v Hv.
    eapply Forall_impl; [exact Hv | auto].
  - eapply fold_result_keeps; [| exact Hr | done]. intros ? ? ?. apply keyed_requirement.
  - eapply fold_result_keeps; [| exact Hc | done]. intros ? ? ?. apply keyed_context.
  - unfold fragment_tools. rewrite flat_map_app, fold_left_app. unfold fragment_tools in H6. rewrite <- H6.
    cbn. rewrite app_nil_r. by apply (fold_inserts _ _ _ add_requirement_inserts).
  - unfold fragment_contexts. rewrite flat_map_app, fold_left_app. unfold fragment_contexts in H7. rewrite <- H7.
    cbn. rewrite app_nil_r. by apply (fold_inserts _ _ _ add_context_inserts).
  - rewrite Hl, H5, flat_map_app. cbn. by rewrite app_nil_r, app_assoc.
Qed.

Lemma fragments_take root us more c c' : takes_from root us c ->
  fold_result (add_fragment bundle) c more = Ok c' -> takes_from root (us ++ more) c'.
Proof.
  revert us c; induction more as [|u more IH]; intros us c H Hf; cbn in Hf.
  - injection Hf as <-. by rewrite app_nil_r.
  - apply bind_Ok in Hf as (c1 & H1 & H2). rewrite (cons_middle u us more), (app_assoc us [u] more).
    eapply IH; [by eapply add_fragment_takes | done].
Qed.
End Compose.

(** The values of a dict are what its keys say. *)
Lemma keyed_assoc {A} (key : A -> string) (d : list (string * A)) :
  keyed key d -> Forall (fun x => assoc (key x) d = Some x) (map snd d).
Proof.
  intros [H1 H2]. apply Forall_map, Forall_forall. intros [k x] Hkx. rewrite Forall_forall in H1.
  pose proof (H1 _ Hkx) as Hk. cbn in *. subst k. clear H1.
  induction d as [|[j y] d IH]; [by apply not_elem_of_nil in Hkx |]. cbn in *.
  apply NoDup_cons in H2 as [Hj H2]. apply elem_of_cons in Hkx as [[= <- <-] | Hkx]; [by rewrite String.eqb_refl |].
  destruct (String.eqb_spec (key x) j) as [<-|]; [| by apply IH].
  destruct Hj. by apply (list_elem_of_fmap_2 fst _ (key x, x)).
Qed.

Lemma keyed_keys {A} (key : A -> string) (d : list (string * A)) : keyed key d -> map key (map snd d) = map fst d.
Proof.
  intros [H _]. rewrite map_map. apply map_ext_Forall. eapply Forall_impl; [exact H |]. by intros [k x].
Qed.

(** C19. A composed skill is its root with the declarations of its fragments. Its
    tools and its contexts are exactly those that the root and the fragments
    declare, each id or name once, in the order of the first declaration, and
    each as the root declares it (where a root repeats itself, its last
    declaration) or else as the first fragment does; every tool of a fragment
    is required in that very version, every context of a fragment is there
    itself. The limits are the only ones of the root and all fragments, no
    include is left, and everything else (id, version, risk, language, inputs,
    outputs, body, spans) is the root's. *)
Theorem composition_faithful (bundle : SourceBundle) (s : AstSkill) :
  let root := pu_ast (sbu_root bundle) in
  let tools := fragment_tools (sbu_fragments bundle) in
  let contexts := fragment_contexts (sbu_fragments bundle) in
  compose bundle = Ok s ->
  map ar_tool_id (as_requires s) = dict_keys (map ar_tool_id (as_requires root ++ tools))
  /\ Forall (fun y => first_declared ar_tool_id (as_requires root) tools (ar_tool_id y) = Some y) (as_requires s)
  /\ map af_name (as_contexts s) = dict_keys (map af_name (as_contexts root ++ contexts))
  /\ Forall (fun y => first_declared af_name (as_contexts root) contexts (af_name y) = Some y) (as_contexts s)
  /\ Forall (fun u =>
       Forall (fun x => exists y, y ∈ as_requires s /\ ar_tool_id y = ar_tool_id x
                                  /\ ar_version y = ar_version x) (ag_requires (pu_ast u))
       /\ Forall (fun x => x ∈ as_contexts s) (ag_contexts (pu_ast u))) (sbu_fragments bundle)
  /\ NoDup (map ar_tool_id (as_requires s)) /\ NoDup (map af_name (as_contexts s))
  /\ (exists l, as_limits s = Some l
       /\ option_list (as_limits root)
          ++ flat_map (fun u => ag_limits (pu_ast u)) (sbu_fragments bundle) = [l])
  /\ as_includes s = [] /\ as_body s = as_body root /\ as_inputs s = as_inputs root
  /\ as_outputs s = as_outputs root /\ as_risk s = as_risk root
  /\ as_language_version s = as_language_version root
  /\ as_skill_id s = as_skill_id root /\ as_skill_version s = as_skill_version root
  /\ as_span s = as_span root /\ as_risk_span s = as_risk_span root
  /\ as_language_version_span s = as_language_version_span root.
Proof.
  cbv zeta. intros H. unfold compose in H. apply bind_Ok in H as (c & Hc & H).
  assert (takes_from (pu_ast (sbu_root bundle)) ([] ++ sbu_fragments bundle) c) as [T1 T2 T3 T4 T6 T7 T5].
  { eapply fragments_take; [| exact Hc]. split; cbn; try constructor; try apply dict_by_keyed.
    by rewrite app_nil_r. }
  cbn [app] in *. destruct (cm_limits c) as [l|] eqn:El; [injection H as <- |].
  2: { unfold composition_error in H. destruct (as_span _); [destruct (source_of _ _) |]; discriminate. }
  cbn [as_requires as_contexts]. split; [by rewrite (keyed_keys _ _ T3), T6, inserted_keys |].
  split; [eapply Forall_impl; [exact (keyed_assoc _ _ T3) |]; cbn; intros y <-; by rewrite T6, assoc_inserted |].
  split; [by rewrite (keyed_keys _ _ T4), T7, inserted_keys |].
  split; [eapply Forall_impl; [exact (keyed_assoc _ _ T4) |]; cbn; intros y <-; by rewrite T7, assoc_inserted |].
  split; [| split; [by apply keyed_values | split; [by apply keyed_values | split; [by exists l | done]]]].
  apply Forall_forall. intros u Hu. rewrite Forall_forall in T1. rewrite Forall_forall in T2.
  specialize (T1 u Hu). specialize (T2 u Hu). split.
  - eapply Forall_impl; [exact T1 |]. cbn. intros x (y & Hy & Hv). exists y.
    apply assoc_elem in Hy as Hin. destruct T3 as [T3 _]. rewrite Forall_forall in T3.
    pose proof (T3 _ Hin) as K. cbn in K. split; [| by split].
    by apply (list_elem_of_fmap_2 snd _ (ar_tool_id x, y)).
  - eapply Forall_impl; [exact T2 |]. cbn. intros x Hx. apply assoc_elem in Hx.
    by apply (list_elem_of_fmap_2 snd _ (af_name x, x)).
Qed.

(** A root, the fragment it includes, and a resolver that knows the fragment. *)
Definition root_source : SourceFile :=
  MkSourceFile "root" "main.ns" (quoted_text
    "language NSL '0.1'; skill a { version '1'; risk R1; include 'lib/x.ns'; }")
    "utf-8".

Definition fragment_source : SourceFile :=
  MkSourceFile "x" "lib/x.ns" (quoted_text
    "requires { tool t.u version '1'; } limits { tool_calls 1; loop_iterations 1; emitted_rows 1; collection_size 1; }")
    "utf-8".

Definition small_resolver : IncludeResolver :=
  match new_MemoryIncludeResolver [fragment_source] with Ok r => r | Err e => fun _ _ _ => Err e end.

Definition small_bundle := (build_bundle small_resolver default_IncludeOptions root_source).1.

Lemma bundle_bounded_acyclic_witness : exists b calls,
  build_bundle small_resolver default_IncludeOptions root_source = (Ok b, calls)
  /\ length (sbu_fragments b) = 1
  /\ (Z.of_nat (length (sbu_fragments b)) <= 100)%Z
  /\ exists order, Permutation order (map source_id (bundle_sources b))
      /\ Forall (fun e => before (ie_to_source e) (ie_from_source e) order) (sbu_edges b).
Proof.
  destruct (build_bundle small_resolver default_IncludeOptions root_source) as [[b|e] calls] eqn:E.
  2: { exfalso. assert (is_Ok (build_bundle small_resolver default_IncludeOptions root_source).1 = true)
         as H by (vm_compute; reflexivity). by rewrite E in H. }
  exists b, calls. split; [reflexivity |]. split.
  { assert (match (build_bundle small_resolver default_IncludeOptions root_source).1 with
            | Ok b => length (sbu_fragments b) | Err _ => 0 end = 1) as H by (vm_compute; reflexivity).
    by rewrite E in H. }
  destruct (bundle_bounded_acyclic small_resolver default_IncludeOptions root_source b calls
    eq_refl E) as (H1 & _ & _ & _ & H2).
  split; [exact H1 | exact H2].
Defined.

Lemma composition_faithful_witness : exists b s,
  small_bundle = Ok b /\ compose b = Ok s
  /\ map ar_tool_id (as_requires s) = ["t.u"] /\ is_Some (as_limits s)
  /\ as_includes s = [] /\ as_body s = as_body (pu_ast (sbu_root b)).
Proof.
  destruct small_bundle as [b|e] eqn:E.
  2: { exfalso. assert (is_Ok small_bundle = true) as H by (vm_compute; reflexivity). by rewrite E in H. }
  assert (match small_bundle with
          | Ok b => match compose b with Ok s => map ar_tool_id (as_requires s) | Err _ => [] end
          | Err _ => [] end = ["t.u"]) as H by (vm_compute; reflexivity).
  rewrite E in H. destruct (compose b) as [s|] eqn:Es; [| discriminate].
  exists b, s. split; [done |]. split; [done |]. split; [exact H |].
  destruct (composition_faithful b s Es) as (_ & _ & _ & _ & _ & _ & _ & (l & Hl & _) & H1 & H2 & _).
  split; [by exists l | split; [exact H1 | exact H2]].
Defined.
