(* ===== verification/Typing.v ===== *)
(** * A type system for Skills, and its soundness for the compiler

    The typing rules of a lowered Skill over symbol ids, with the data
    classification of every expression, and the proof that what the lowering of
    [src/nsl/compiler.py] returns follows them. *)

From S2P Require Import Prelude Digest Json JsonBoundary Decimal Core Decoding Values.
From S2P Require Import DataProtection Builtins Ir NsoSchema NsoCodec Bounds Security Tools.
From S2P Require Import Artifacts Source Lexer Parser Symbols Includes IncludeFacts Compiler.

(** ** The rules *)

(** The symbols in scope, with their types and classifications. *)
Definition scope : Type := list (string * (TypeRef * DataClassification)).

(** The literals of the language and their types. *)
Definition literal_typed (v : value) (t : TypeRef) : bool :=
  literal_ok v
  && match v with
     | VBool _ => bool_decide (t = BOOL)
     | VInt _ => bool_decide (t = INT)
     | VStr _ => bool_decide (t = STRING)
     | VDecimal _ => bool_decide (t = DECIMAL)
     | _ => false
     end.

(** The type of an operation on two operands of one type. *)
Inductive operation : string -> TypeRef -> TypeRef -> Prop :=
  | op_equality o t : o ∈ ["EQ"; "NE"] -> operation o t BOOL
  | op_order o t : o ∈ ["LT"; "LE"; "GT"; "GE"] -> t ∈ [INT; DECIMAL] \/ ty_kind t = "money" ->
      operation o t BOOL
  | op_int o : o ∈ ["ADD"; "SUB"; "MUL"] -> operation o INT INT
  | op_division : operation "DIV" INT DECIMAL
  | op_decimal o : o ∈ ["ADD"; "SUB"; "MUL"; "DIV"] -> operation o DECIMAL DECIMAL
  | op_money o t : o ∈ ["ADD"; "SUB"] -> ty_kind t = "money" -> operation o t t.

Section Rules.
Variable tools : list (RequiredTool * ToolContract).
Variable symbols : list SymbolSpec.
Variable outputs : list OutputField.

(** The arguments are those of the contract, each once, with its types. *)
Definition arguments_fit (args : list (string * Expression)) (c : ToolContract) : Prop :=
  NoDup (map fst args) /\ (forall name, name ∈ map fst args <-> name ∈ map fst (tc_input_types c))
  /\ Forall (fun a => assoc a.1 (tc_input_types c) = Some (expr_type_info a.2)) args.

(** [has_type g e c]: in the scope [g] the expression has the type it carries,
    and its value is of classification [c]. That a WRITE is on a WRITE tool is
    part of the WRITE discipline ([Discipline.v]). *)
Inductive has_type (g : scope) : Expression -> DataClassification -> Prop :=
  | type_literal n v t : literal_typed v t = true -> has_type g (LiteralExpr n v t) PUBLIC
  | type_symbol n s t c : (s, (t, c)) ∈ g -> has_type g (SymbolRefExpr n s t) c
  | type_field n e f t c : has_type g e c -> ty_kind (expr_type_info e) = "record" ->
      ty_field (expr_type_info e) f = Ok t -> has_type g (FieldExpr n e f t) c
  | type_projection n e f item t c : has_type g e c -> ty_kind (expr_type_info e) = "list" ->
      ty_item (expr_type_info e) = Some item -> ty_field item f = Ok t ->
      has_type g (ProjectionExpr n e f (list_type t)) c
  | type_call n f e c s : has_type g e c -> builtin_resolve f [expr_type_info e] = Ok s ->
      has_type g (CallExpr n f [e] (bs_result_type s)) c
  | type_binary n o a b t ca cb : has_type g a ca -> has_type g b cb ->
      expr_type_info a = expr_type_info b -> operation o (expr_type_info a) t ->
      has_type g (BinaryExpr n o a b t) (max_classification ca cb)
  | type_read n args r c p : (r, c) ∈ tools -> tc_capability c = Capability READ ->
      arguments_fit args c -> Forall (fun a => exists ca, has_type g a.2 ca) args ->
      has_type g (ReadExpr n (rt_tool_ref r) args (tc_output_type c) p) (tc_output_classification c)
  | type_write n args r c approval_ref : (r, c) ∈ tools ->
      arguments_fit args c -> Forall (fun a => exists ca, has_type g a.2 ca) args ->
      has_type g (WriteExpr n (rt_tool_ref r) args approval_ref (tc_output_type c))
        (tc_output_classification c).

(** The symbol is one of the Skill, of the category, type and classification. *)
Definition declares (s category : string) (t : TypeRef) (c : DataClassification) : Prop :=
  exists name, MkSymbolSpec s name category t c ∈ symbols.

(** The field is an output of that type, and may hold data of that
    classification. *)
Definition emits (g : scope) (f : string * Expression) : Prop :=
  exists o c, o ∈ outputs /\ out_name o = f.1 /\ expr_type_info f.2 = out_type_info o
    /\ has_type g f.2 c /\ classification_allows c (out_classification o) = true.

(** [typed g l g']: the statements are well typed in [g] and leave [g']. *)
Inductive typed : scope -> list Statement -> scope -> Prop :=
  | typed_nil g : typed g [] g
  | typed_let g n s e c l g' : has_type g e c -> declares s "VARIABLE" (expr_type_info e) c ->
      typed ((s, (expr_type_info e, c)) :: g) l g' -> typed g (LetStatement n s e :: l) g'
  | typed_foreach g n s e c item m body inner l g' : has_type g e c ->
      ty_kind (expr_type_info e) = "list" -> ty_item (expr_type_info e) = Some item ->
      declares s "ITERATOR" item c ->
      typed ((s, (item, c)) :: g) body inner -> typed g l g' ->
      typed g (ForeachStatement n s e m body :: l) g'
  | typed_check g k c l g' : has_type g (cs_condition k) c ->
      expr_type_info (cs_condition k) = BOOL ->
      declares (cs_result_symbol_id k) "CHECK" CHECK_RESULT INTERNAL ->
      typed ((cs_result_symbol_id k, (CHECK_RESULT, INTERNAL)) :: g) l g' ->
      typed g (CheckStmt k :: l) g'
  | typed_emit g n fields l g' : Forall (emits g) fields -> NoDup (map fst fields) ->
      (forall o, o ∈ outputs -> out_name o ∈ map fst fields) ->
      typed g l g' -> typed g (EmitStatement n fields :: l) g'
  | typed_approve g a l g' : typed g l g' -> typed g (ApprovalStmt a :: l) g'.
End Rules.

(** What a Skill starts from: its inputs and contexts. *)
Definition input_entry (i : InputSpec) : string * (TypeRef * DataClassification) :=
  (in_symbol_id i, (in_type_info i, in_classification i)).

Definition context_entry (c : ContextSpec) : string * (TypeRef * DataClassification) :=
  (cx_symbol_id c, (cx_type_info c, cx_classification c)).

Definition skill_scope (s : SkillObject) : scope :=
  map input_entry (sk_inputs s) ++ map context_entry (sk_contexts s).

(** A Skill that is well typed with the contracts of its tools. *)
Record well_typed (tools : list (RequiredTool * ToolContract)) (s : SkillObject) : Prop := {
  wt_symbols : NoDup (map sym_symbol_id (sk_symbols s));
  wt_inputs : Forall (fun x => declares (sk_symbols s) x.1 "INPUT" x.2.1 x.2.2)
                (map input_entry (sk_inputs s));
  wt_contexts : Forall (fun x => declares (sk_symbols s) x.1 "CONTEXT" x.2.1 x.2.2)
                  (map context_entry (sk_contexts s));
  wt_body : exists g, typed tools (sk_symbols s) (sk_outputs s) (skill_scope s) (sk_body s) g
}.

(** ** Syntax trees of the parser *)

Section AstInduction.
Variable P : AstExpression -> Prop.
Hypothesis Hliteral : forall v t s, P (AstLiteral v t s).
Hypothesis Hpath : forall p s, P (AstPath p s).
Hypothesis Hcall : forall n args s, Forall P args -> P (AstCall n args s).
Hypothesis Hread : forall i args s, Forall (fun a => P a.2) args -> P (AstRead i args s).
Hypothesis Hwrite : forall i args a s sa, Forall (fun a => P a.2) args -> P (AstWrite i args a s sa).
Hypothesis Hbinary : forall o l r s, P l -> P r -> P (AstBinary o l r s).

Definition AstExpression_rect' : forall e, P e :=
  fix go e :=
    let named := fix named (l : list (string * AstExpression)) : Forall (fun a => P a.2) l :=
      match l with
      | [] => Forall_nil_2 _
      | a :: l => Forall_cons_2 _ a l (go a.2) (named l)
      end in
    match e with
    | AstLiteral v t s => Hliteral v t s
    | AstPath p s => Hpath p s
    | AstCall n args s => Hcall n args s ((fix all (l : list AstExpression) : Forall P l :=
        match l with
        | [] => Forall_nil_2 _
        | x :: l => Forall_cons_2 _ x l (go x) (all l)
        end) args)
    | AstRead i args s => Hread i args s (named args)
    | AstWrite i args a s sa => Hwrite i args a s sa (named args)
    | AstBinary o l r s => Hbinary o l r s (go l) (go r)
    end.
End AstInduction.

Section StatementInduction.
Variable P : AstStatement -> Prop.
Hypothesis Hlet : forall n e s, P (AstLet n e s).
Hypothesis Hforeach : forall i c m body s, Forall P body -> P (AstForeach i c m body s).
Hypothesis Hcheck : forall k c a b m s, P (AstCheck k c a b m s).
Hypothesis Hemit : forall f s, P (AstEmit f s).
Hypothesis Happrove : forall a m s t, P (AstApprove a m s t).

Definition AstStatement_rect' : forall st, P st :=
  fix go st :=
    match st with
    | AstLet n e s => Hlet n e s
    | AstForeach i c m body s => Hforeach i c m body s
        ((fix all (l : list AstStatement) : Forall P l :=
           match l with
           | [] => Forall_nil_2 _
           | x :: l => Forall_cons_2 _ x l (go x) (all l)
           end) body)
    | AstCheck k c a b m s => Hcheck k c a b m s
    | AstEmit f s => Hemit f s
    | AstApprove a m s t => Happrove a m s t
    end.
End StatementInduction.

(** Every literal of the tree has its type. *)
Fixpoint expression_fine (e : AstExpression) : bool :=
  match e with
  | AstLiteral v t _ => literal_typed v t
  | AstPath _ _ => true
  | AstCall _ args _ => forallb expression_fine args
  | AstRead _ args _ | AstWrite _ args _ _ _ => forallb (fun a => expression_fine a.2) args
  | AstBinary _ l r _ => expression_fine l && expression_fine r
  end.

Fixpoint statement_fine (s : AstStatement) : bool :=
  match s with
  | AstLet _ e _ | AstCheck _ e _ _ _ _ => expression_fine e
  | AstForeach _ c _ body _ => expression_fine c && forallb statement_fine body
  | AstEmit fields _ => forallb (fun f => expression_fine f.2) fields
  | AstApprove _ _ _ _ => true
  end.

Definition spec_fine (f : AstFieldSpec) : bool := type_wf (af_type_info f).

Definition skill_fine (s : AstSkill) : bool :=
  forallb spec_fine (as_inputs s) && forallb spec_fine (as_contexts s)
  && forallb spec_fine (as_outputs s) && forallb statement_fine (as_body s).

(** The types of a contract are built by the constructor of [TypeRef]. *)
Definition contract_fine (c : ToolContract) : bool :=
  type_wf (tc_output_type c) && forallb (fun i => type_wf i.2) (tc_input_types c).

(** ** A judgement about stateful computations *)

(** From a state with [I], a result of [m] satisfies [Q] and the state [I]. *)
Definition yields {S A} (I : S -> Prop) (m : M S A) (Q : A -> Prop) : Prop :=
  forall s a s', I s -> m s = (Ok a, s') -> I s' /\ Q a.

Section Yields.
Context {S : Type} (I : S -> Prop).

Lemma yields_ret {A} (a : A) (Q : A -> Prop) : Q a -> yields I (mret a) Q.
Proof. intros H s b s' Hs [= <- <-]. done. Qed.

Lemma yields_bind {A B} (m : M S A) (f : A -> M S B) P Q :
  yields I m P -> (forall a, P a -> yields I (f a) Q) -> yields I (m ≫= f) Q.
Proof.
  intros Hm Hf s b s' Hs H. apply M_bind_Ok in H as (a & s1 & H1 & H2).
  destruct (Hm _ _ _ Hs H1) as [Hs1 HP]. by eapply Hf.
Qed.

Lemma yields_lift {A} (r : result A) (Q : A -> Prop) :
  (forall a, r = Ok a -> Q a) -> yields I (lift r) Q.
Proof. intros H s a s' Hs [= -> <-]. auto. Qed.

Lemma yields_fail {A} c msg (Q : A -> Prop) : yields I (fail c msg) Q.
Proof. intros s a s' Hs H. discriminate. Qed.

Lemma yields_mono {A} (m : M S A) (P Q : A -> Prop) :
  (forall a, P a -> Q a) -> yields I m P -> yields I m Q.
Proof. intros HPQ Hm s a s' Hs H. destruct (Hm _ _ _ Hs H). auto. Qed.

Lemma yields_map {A B} (f : A -> M S B) (Q : A -> B -> Prop) l :
  Forall (fun x => yields I (f x) (Q x)) l -> yields I (map_M f l) (Forall2 Q l).
Proof.
  induction 1 as [|x l Hx _ IH]; [by apply yields_ret |].
  change (map_M f (x :: l)) with (y ← f x; ys ← map_M f l; mret (y :: ys)).
  eapply yields_bind; [exact Hx | intros y Hy].
  eapply yields_bind; [exact IH | intros ys Hys]. apply yields_ret. by constructor.
Qed.
End Yields.

(** ** Lowered expressions *)

Definition entry (b : SymbolBinding) : string * (TypeRef * DataClassification) :=
  (sb_symbol_id b, (sb_type_info b, sb_classification b)).

Definition frame_scope (f : ScopeFrame) : scope := map (fun nb => entry nb.2) (sf_bindings f).

(** The symbols that a table has in scope. *)
Definition scope_of (t : SymbolTable) : scope := flat_map frame_scope (st_frames t).

Definition scope_wf (g : scope) : Prop := Forall (fun x => type_wf x.2.1 = true) g.

Lemma find_binding_entry name ns frames b : find_binding name ns frames = Some b ->
  entry b ∈ flat_map frame_scope frames.
Proof.
  induction frames as [|f frames IH]; cbn [find_binding flat_map]; [done |]. intros H.
  destruct (find_in name f) as [b'|] eqn:E.
  - assert (entry b' ∈ frame_scope f) as Hb.
    { apply assoc_elem in E. unfold frame_scope. change (@map) with (@fmap list _).
      by apply (list_elem_of_fmap_2 (fun nb : string * SymbolBinding => entry nb.2) _ (name, b')). }
    rewrite elem_of_app. destruct (match ns with None => true | Some n => _ end); [| by right; apply IH].
    injection H as <-. by left.
  - rewrite elem_of_app. right. by apply IH.
Qed.

Lemma field_wf t f u : type_wf t = true -> ty_field t f = Ok u -> type_wf u = true.
Proof.
  destruct t as [k n c i fs e]. unfold ty_field. cbn [ty_fields type_wf]. intros Hw H. split_bool.
  destruct (assoc f fs) as [w|] eqn:E; [injection H as <- | discriminate].
  apply assoc_elem in E. by apply (forallb_elem (fun f => type_wf f.2) _ _ H1 E).
Qed.

Lemma item_wf t u : type_wf t = true -> ty_item t = Some u -> type_wf u = true.
Proof. destruct t as [k n c i fs e]. cbn. intros Hw ->. by split_bool. Qed.

Lemma list_wf t : type_wf t = true -> type_wf (list_type t) = true.
Proof. intros H. cbn. by rewrite H. Qed.

Lemma literal_wf v t : literal_typed v t = true -> type_wf t = true.
Proof.
  unfold literal_typed. intros [_ H]%andb_prop.
  destruct v; try done; apply bool_decide_eq_true in H as ->; reflexivity.
Qed.

Lemma operation_wf o t u : operation o t u -> type_wf t = true -> type_wf u = true.
Proof. by destruct 1. Qed.

Lemma has_type_literal_ok v t : literal_typed v t = true -> literal_ok v = true.
Proof. unfold literal_typed. by intros [H _]%andb_prop. Qed.

(** The table of operators agrees with the static type checker. *)
Lemma binary_operation sources op l r span t o :
  binary_result sources op l r span = Ok t -> assoc op operator_map = Some o ->
  l = r /\ operation o l t.
Proof.
  unfold binary_result, type_failure, require_exact. intros H Ho.
  apply bind_Ok in H as ([] & He & H).
  destruct (bool_decide_reflect (l = r)) as [<-|]; [clear He | discriminate]. split; [done |].
  destruct (bool_decide_reflect (op ∈ ["=="; "!="])) as [Hin|_].
  { injection H as <-. apply op_equality. unfold operator_map in Ho.
    repeat (apply elem_of_cons in Hin as [->|Hin]; [cbn in Ho; injection Ho as <-; set_solver |]).
    by apply elem_of_nil in Hin. }
  destruct (bool_decide_reflect (op ∈ ["<"; "<="; ">"; ">="])) as [Hin|_].
  { destruct (bool_decide (l ∈ [INT; DECIMAL]) || String.eqb (ty_kind l) "money") eqn:Hl; [| discriminate].
    injection H as <-. apply op_order.
    - unfold operator_map in Ho.
      repeat (apply elem_of_cons in Hin as [->|Hin]; [cbn in Ho; injection Ho as <-; set_solver |]).
      by apply elem_of_nil in Hin.
    - apply orb_prop in Hl as [Hl|Hl]; [left; by apply bool_decide_eq_true in Hl
                                        | right; by apply String.eqb_eq in Hl]. }
  destruct (bool_decide_reflect (op ∈ ["+"; "-"; "*"; "/"])) as [Hin|_]; [| discriminate].
  destruct (bool_decide_reflect (l = INT)) as [->|_].
  { repeat (apply elem_of_cons in Hin as [->|Hin];
      [cbn in Ho; injection Ho as <-; cbn in H; injection H as <-;
       (apply op_division || (apply op_int; set_solver)) |]).
    by apply elem_of_nil in Hin. }
  destruct (bool_decide_reflect (l = DECIMAL)) as [->|_].
  { injection H as <-. apply op_decimal.
    repeat (apply elem_of_cons in Hin as [->|Hin]; [cbn in Ho; injection Ho as <-; set_solver |]).
    by apply elem_of_nil in Hin. }
  destruct (String.eqb_spec (ty_kind l) "money") as [Hm|]; [| discriminate]. cbn [andb] in H.
  destruct (bool_decide_reflect (op ∈ ["+"; "-"])) as [Hop|]; [| discriminate].
  injection H as <-. apply op_money; [| done].
  repeat (apply elem_of_cons in Hop as [->|Hop]; [cbn in Ho; injection Ho as <-; set_solver |]).
  by apply elem_of_nil in Hop.
Qed.

Lemma field_result_cases sources t f span u projected :
  field_result sources t f span = Ok (u, projected) ->
  if projected then exists item w, ty_kind t = "list" /\ ty_item t = Some item
                      /\ ty_field item f = Ok w /\ u = list_type w
  else ty_kind t = "record" /\ ty_field t f = Ok u.
Proof.
  unfold field_result, type_failure. intros H.
  assert (forall b, (if String.eqb (ty_kind t) "record" then
      match ty_field t f with
      | Ok t => Ok (t, false)
      | Err e => if isinstance_exn (ex_class e) KeyError
                 then Err (semantic_error sources SEM_UNKNOWN_FIELD
                        ("type " +:+ ty_kind t +:+ " has no field " +:+ f)%string span) else Err e
      end else Err (semantic_error sources SEM_UNKNOWN_FIELD
                        ("type " +:+ ty_kind t +:+ " has no field " +:+ f)%string span)) = Ok (u, b) ->
    b = false /\ ty_kind t = "record" /\ ty_field t f = Ok u) as Hr.
  { intros b Hb. destruct (String.eqb_spec (ty_kind t) "record") as [Hk|]; [| discriminate].
    destruct (ty_field t f) as [w|e]; [by injection Hb as <- <- |].
    by destruct (isinstance_exn (ex_class e) KeyError). }
  destruct (String.eqb_spec (ty_kind t) "list") as [Hk|Hk].
  - destruct (ty_item t) as [item|] eqn:Ei; [| apply Hr in H as (-> & H & _); congruence].
    destruct (ty_field item f) as [w|e] eqn:Ef.
    + injection H as <- <-. by exists item, w.
    + by destruct (isinstance_exn (ex_class e) KeyError).
  - apply Hr in H as (-> & H). exact H.
Qed.

Lemma builtin_result_ok sources name ts span s : builtin_result sources name ts span = Ok s ->
  builtin_resolve name ts = Ok s.
Proof.
  unfold builtin_result, type_failure. destruct (builtin_resolve name ts) as [s'|e]; [by intros [= <-] |].
  destruct (isinstance_exn (ex_class e) UnknownBuiltinError); [done |].
  by destruct (isinstance_exn (ex_class e) BuiltinSignatureError).
Qed.

(** A builtin takes one argument. *)
Lemma builtin_single name ts s : builtin_resolve name ts = Ok s ->
  bs_name s = name /\ exists t, ts = [t] /\ (type_wf t = true -> type_wf (bs_result_type s) = true).
Proof.
  unfold builtin_resolve. intros H. apply bind_Ok in H as (u & _ & H).
  destruct ts as [|t [|? ?]]; [discriminate | | discriminate].
  destruct (String.eqb (ty_kind t) "list"); [| discriminate].
  destruct (ty_item t) as [item|] eqn:Ei; [| discriminate].
  apply bind_Ok in H as (v & _ & H). injection H as <-. cbn. split; [done |]. exists t. split; [done |].
  intros Hw. destruct (String.eqb name "count"); [done |]. by eapply item_wf.
Qed.

Section Expressions.
Variable sources : list SourceFile.
Variable tools : list (RequiredTool * ToolContract).
Variable tools_by_id : list (string * (RequiredTool * ToolContract)).
Hypothesis Htools : forall id rc, assoc id tools_by_id = Some rc ->
  rc ∈ tools /\ contract_fine rc.2 = true.
Variable t : SymbolTable.
Variable g : scope.
Hypothesis Hscope : scope_of t ⊆ g.
Hypothesis Hwf : scope_wf (scope_of t).

(** The lowerer has the table [t]. *)
Definition at_table (s : lowerer) : Prop := lo_symbol_table s = t.

Definition lowered (r : Expression * DataClassification) : Prop :=
  has_type tools g r.1 r.2 /\ expr_ok r.1 = true.

Lemma lowered_wf r : lowered r -> type_wf (expr_type_info r.1) = true.
Proof. intros [_ H]. destruct r as [[] c]; cbn in H; by apply andb_prop in H as [H _]. Qed.

Lemma yields_node_id kind : yields at_table (_node_id kind) (fun _ => True).
Proof. intros s a s' Hs H. injection H as <- <-. by split. Qed.

Lemma yields_refuse {A} code msg span (Q : A -> Prop) : yields at_table (refuse sources code msg span) Q.
Proof. apply yields_lift. intros a H. discriminate. Qed.

Lemma yields_refuse_if b code msg span :
  yields at_table (refuse_if sources b code msg span) (fun _ => b = false).
Proof. destruct b; [apply yields_refuse | by apply yields_ret]. Qed.

Lemma yields_resolve name span :
  yields at_table (on_table (t ← get; lift (resolve_symbol sources name span t)))
    (fun b => entry b ∈ scope_of t).
Proof.
  intros s b s' Hs H. unfold on_table in H. rewrite Hs in H.
  unfold mbind, M_bind, get, lift, resolve_symbol, _resolve in H. cbn in H.
  destruct (find_binding name None (st_frames t)) as [b'|] eqn:E; [| discriminate].
  injection H as <- <-. split; [done | by eapply find_binding_entry].
Qed.

Lemma yields_fields span parts : forall e c, has_type tools g e c -> expr_ok e = true ->
  yields at_table (lower_fields sources span e (expr_type_info e) parts)
    (fun e' => has_type tools g e' c /\ expr_ok e' = true).
Proof.
  induction parts as [|f parts IH]; intros e c He Hok; cbn [lower_fields]; [by apply yields_ret |].
  eapply yields_bind; [apply yields_lift; intros a Ha; exact Ha |]. intros [u projected] Hu. cbn beta in Hu.
  apply field_result_cases in Hu. cbn [fst snd].
  eapply yields_bind; [apply yields_node_id | intros id _].
  assert (type_wf (expr_type_info e) = true) as Hwe by by apply (lowered_wf (e, c)).
  destruct projected.
  - destruct Hu as (item & w & Hk & Hi & Hw & ->).
    apply (IH (ProjectionExpr id e f (list_type w))); [by eapply type_projection |].
    cbn [expr_ok expr_type_info]. rewrite Hok, list_wf; [done |]. eapply field_wf; [| exact Hw].
    by eapply item_wf.
  - destruct Hu as [Hk Hw]. apply (IH (FieldExpr id e f u)); [by eapply type_field |].
    cbn [expr_ok expr_type_info]. rewrite Hok. by rewrite (field_wf _ _ _ Hwe Hw).
Qed.

Lemma yields_path parts span : yields at_table (lower_path sources parts span) lowered.
Proof.
  destruct parts as [|name parts]; [apply yields_fail |]. cbn [lower_path].
  eapply yields_bind; [apply yields_resolve | intros b Hb].
  eapply yields_bind; [apply yields_node_id | intros id _].
  eapply yields_bind; [apply (yields_fields span parts (SymbolRefExpr id (sb_symbol_id b) (sb_type_info b))) |].
  - apply type_symbol, Hscope. exact Hb.
  - cbn. rewrite andb_true_r. unfold scope_wf in Hwf. rewrite Forall_forall in Hwf. by apply (Hwf (entry b)).
  - intros e He. by apply yields_ret.
Qed.

Lemma yields_argument lower tool_id contract a :
  yields at_table (lower a.2) lowered ->
  yields at_table (lower_argument sources lower tool_id contract a)
    (fun b => b.1 = a.1 /\ assoc a.1 (tc_input_types contract) = Some (expr_type_info b.2)
              /\ expr_ok b.2 = true /\ exists c, has_type tools g b.2 c).
Proof.
  intros Hl. unfold lower_argument. eapply yields_bind; [exact Hl | intros [e c] [He Hok]].
  eapply yields_bind; [apply yields_lift; intros u Hu; exact Hu | intros u Hu; cbn beta in Hu].
  eapply yields_bind; [apply yields_lift; intros v Hv; exact Hv | intros v Hv; cbn beta in Hv].
  apply yields_ret. cbn [fst snd] in *. split; [done |]. split; [| split; [done | by exists c]].
  unfold require_exact, type_failure in Hv.
  destruct (bool_decide_reflect (expr_type_info e = u)) as [->|]; [| discriminate].
  unfold input_type in Hu. destruct (assoc a.1 (tc_input_types contract)); [by injection Hu as -> | discriminate].
Qed.

Lemma yields_arguments lower tool_id args contract span :
  Forall (fun a => yields at_table (lower a.2) lowered) args ->
  yields at_table (_lower_tool_arguments sources lower tool_id args contract span)
    (fun es => arguments_fit es contract /\ Forall (fun a => exists c, has_type tools g a.2 c) es
               /\ forallb (fun a => expr_ok a.2) es = true).
Proof.
  intros Hl. unfold _lower_tool_arguments, check_arguments.
  eapply yields_bind; [apply yields_refuse_if | intros u Hd; cbn beta in Hd].
  unfold arguments_differ in Hd. apply orb_false_iff in Hd as [Hs Hn].
  apply negb_false_iff in Hs, Hn. apply no_duplicates_true in Hn.
  eapply yields_mono; [| apply yields_map; eapply Forall_impl; [exact Hl |];
    intros a Ha; by apply yields_argument].
  intros es Hes. cbn beta in Hes.
  assert (map fst es = map fst args) as Hnames.
  { clear -Hes. induction Hes as [|a b args es [H _] _ IH]; [done |]. cbn. by rewrite IH, H. }
  split; [split; [by rewrite Hnames | split] |].
  - intros name. rewrite Hnames. by apply (proj1 (same_elements_true _ _) Hs).
  - clear -Hes. induction Hes as [|a b args es (H1 & H2 & _) _ IH]; constructor; [| done].
    by rewrite H1.
  - clear -Hes. induction Hes as [|a b args es (_ & _ & H1 & H2) _ IH]; [done |].
    destruct IH as [IH1 IH2]. split; [by constructor |]. cbn. by rewrite H1.
Qed.

(** [_lower_expr] of a tree from the parser. *)
Lemma yields_expr e : expression_fine e = true ->
  yields at_table (_lower_expr sources tools_by_id e) lowered.
Proof.
  induction e as [v ty s|p s|n args s IH|i args s IH|i args a s sa IH|o l r s IHl IHr]
    using AstExpression_rect'; cbn [expression_fine]; intros Hf.
  - eapply yields_bind; [apply yields_node_id | intros id _]. apply yields_ret. split.
    + by apply type_literal.
    + cbn. rewrite (literal_wf _ _ Hf). by eapply has_type_literal_ok.
  - apply yields_path.
  - cbn [_lower_expr]. eapply yields_bind.
    { apply (yields_map at_table _ (fun _ => lowered)). rewrite Forall_forall in *. intros x Hx.
      apply IH; [done | by eapply forallb_elem]. }
    intros es Hes. eapply yields_bind; [apply yields_lift; intros a Ha; exact Ha | intros sig Hsig].
    cbn beta in Hsig. apply builtin_result_ok in Hsig. pose proof (builtin_single _ _ _ Hsig) as (Hn & u & Hu & Hw).
    destruct es as [|[e c] [|? ?]]; try discriminate Hu. cbn in Hu. injection Hu as <-.
    eapply yields_bind; [apply yields_node_id | intros id _]. apply yields_ret.
    assert (lowered (e, c)) as [He Hok] by (clear -Hes; by inversion Hes as [|? ? ? ? H Hn]; inversion Hn; subst).
    split; cbn [fst snd map].
    + rewrite Hn. by apply type_call.
    + cbn in Hok |- *. rewrite Hok, Hw; [done |]. by apply (lowered_wf (e, c)).
  - cbn [_lower_expr]. unfold read_tool.
    destruct (assoc i tools_by_id) as [[r c]|] eqn:E; cycle 1.
    { eapply yields_bind; [apply (yields_refuse _ _ _ (fun _ => False)) | done]. }
    destruct (Htools _ _ E) as [Hin Hc].
    eapply yields_bind.
    { eapply (yields_bind _ _ _ _ (fun rc => rc = (r, c) /\ tc_capability c = Capability READ));
        [apply yields_refuse_if | intros u Hu; cbn beta in Hu].
      apply negb_false_iff, bool_decide_eq_true in Hu. by apply yields_ret. }
    intros rc [-> Hr]. cbn beta iota zeta.
    eapply yields_bind; [apply (yields_arguments _ i args c s) |].
    { rewrite Forall_forall in *. intros x Hx. apply IH; [done |].
      by apply (forallb_elem (fun a => expression_fine a.2) args). }
    intros es (H1 & H2 & H3). eapply yields_bind; [apply yields_node_id | intros id _]. apply yields_ret.
    unfold contract_fine in Hc. cbn [snd] in Hc. split_bool. split; cbn [fst snd].
    + by apply type_read.
    + cbn [expr_ok expr_type_info]. by rewrite H, H3.
  - cbn [_lower_expr]. destruct (assoc i tools_by_id) as [[r c]|] eqn:E; [| apply yields_fail].
    destruct (Htools _ _ E) as [Hin Hc].
    eapply yields_bind; [apply (yields_arguments _ i args c s) |].
    { rewrite Forall_forall in *. intros x Hx. apply IH; [done |].
      by apply (forallb_elem (fun a => expression_fine a.2) args). }
    intros es (H1 & H2 & H3). eapply yields_bind; [apply yields_node_id | intros id _].
    eapply yields_bind; [apply yields_lift; intros w Hw; exact Hw | intros w Hw; cbn beta in Hw].
    unfold new_WriteExpression in Hw. apply bind_Ok in Hw as (u & Hw & Hw'). injection Hw' as <-.
    apply yields_ret. unfold contract_fine in Hc. cbn [snd] in Hc. split_bool. split; cbn [fst snd write_expr].
    + by apply type_write.
    + cbn [expr_ok expr_type_info write_expr we_node_id we_tool_ref we_arguments we_approval_ref we_type_info].
      by rewrite H, H3, Hw.
  - apply andb_prop in Hf as [Hl Hr]. cbn [_lower_expr].
    eapply yields_bind; [by apply IHl | intros [e1 c1] [H1 K1]].
    eapply yields_bind; [by apply IHr | intros [e2 c2] [H2 K2]].
    eapply yields_bind; [apply yields_lift; intros a Ha; exact Ha | intros ty Hty; cbn beta in Hty].
    eapply yields_bind; [apply yields_node_id | intros id _].
    destruct (assoc o operator_map) as [o'|] eqn:Eo; [| apply yields_fail].
    destruct (binary_operation _ _ _ _ _ _ _ Hty Eo) as [He Ho]. cbn [fst snd] in *.
    apply yields_ret. split; cbn [fst snd].
    + by apply type_binary.
    + cbn [expr_ok expr_type_info]. rewrite K1, K2, (operation_wf _ _ _ Ho); [done |].
      by apply (lowered_wf (e1, c1)).
Qed.
End Expressions.

(** ** Lowered statements *)

Lemma typed_app tools symbols outputs g l1 g1 l2 g2 :
  typed tools symbols outputs g l1 g1 -> typed tools symbols outputs g1 l2 g2 ->
  typed tools symbols outputs g (l1 ++ l2) g2.
Proof. induction 1; cbn [app]; intros; [done | econstructor; eauto ..]. Qed.

Lemma assoc_set_elem {A} k (v : A) d x : x ∈ assoc_set k v d -> x = (k, v) \/ x ∈ d.
Proof.
  induction d as [|[j w] d IH]; cbn [assoc_set]; rewrite ?elem_of_cons.
  - intros [H|H]; [by left | by apply elem_of_nil in H].
  - destruct (String.eqb k j); rewrite !elem_of_cons; tauto.
Qed.

(** A declaration adds its symbol to the innermost scope and to the symbols. *)
Lemma add_binding_run sources name category ty cl span ns s b s' :
  _add_binding sources name category ty cl span ns s = (Ok b, s') ->
  let t := lo_symbol_table s in let t' := lo_symbol_table s' in
  b = MkSymbolBinding (sb_symbol_id b) name ns category ty cl (sb_scope_id b) (sb_declaration_span b)
  /\ sb_symbol_id b = numbered "s" (S (st_symbol_counter t)) /\ st_symbol_counter t' = S (st_symbol_counter t)
  /\ st_bindings t' = st_bindings t ++ [b] /\ tail (st_frames t') = tail (st_frames t)
  /\ scope_of t' ⊆ entry b :: scope_of t.
Proof.
  unfold _add_binding, on_table, declare. cbv zeta. unfold mbind, M_bind, get. cbn beta iota.
  destruct (declared name (st_frames (lo_symbol_table s))); [discriminate |].
  unfold modify. cbn beta iota zeta. intros H. injection H as <- <-. cbn.
  split; [done |]. split; [done |]. split; [done |]. split; [done |].
  unfold scope_of. cbn [st_frames].
  destruct (st_frames (lo_symbol_table s)) as [|f fs]; [split; [done |]; set_solver |].
  split; [done |]. cbn [bind_innermost flat_map]. intros x. rewrite elem_of_cons, !elem_of_app.
  intros [H|H]; [| tauto]. unfold frame_scope in H |- *. cbn [sf_bindings] in H.
  change (@map) with (@fmap list _) in H |- *. apply list_elem_of_fmap in H as (nb & -> & Hin).
  apply assoc_set_elem in Hin as [->|Hin]; [by left | right; left].
  by apply (list_elem_of_fmap_2 (fun nb : string * SymbolBinding => entry nb.2) _ nb).
Qed.

Lemma dict_by_elem {A} (key : A -> string) xs k x : (k, x) ∈ dict_by key xs -> x ∈ xs /\ key x = k.
Proof.
  unfold dict_by. assert (forall d, (k, x) ∈ fold_left (fun d x => assoc_set (key x) x d) xs d ->
    (x ∈ xs /\ key x = k) \/ (k, x) ∈ d) as H.
  { induction xs as [|y xs IH]; cbn [fold_left]; intros d Hd; [by right |].
    apply IH in Hd as [[H1 H2]|Hd]; [left; split; [by right | done] |].
    apply assoc_set_elem in Hd as [[= -> ->]|Hd]; [left; split; [by left | done] | by right]. }
  intros Hx. apply H in Hx as [Hx|Hx]; [done | by apply elem_of_nil in Hx].
Qed.

Lemma dict_by_keys {A} (key : A -> string) xs x : x ∈ xs -> key x ∈ map fst (dict_by key xs).
Proof.
  unfold dict_by. assert (forall d, x ∈ xs \/ key x ∈ map fst d ->
    key x ∈ map fst (fold_left (fun d x => assoc_set (key x) x d) xs d)) as H.
  { induction xs as [|y xs IH]; cbn [fold_left]; intros d [Hd|Hd]; try done.
    - by apply elem_of_nil in Hd.
    - apply IH. rewrite assoc_set_keys. apply elem_of_cons in Hd as [->|Hd]; auto.
    - apply IH. rewrite assoc_set_keys. auto. }
  intros Hx. apply H. by left.
Qed.

Section Blocks.
Variable sources : list SourceFile.
Variable tools : list (RequiredTool * ToolContract).
Variable tools_by_id : list (string * (RequiredTool * ToolContract)).
Hypothesis Htools : forall id rc, assoc id tools_by_id = Some rc ->
  rc ∈ tools /\ contract_fine rc.2 = true.
Variable symbols : list SymbolSpec.
Variable outputs : list OutputField.

(** The ids of the symbols are the first numbers, in order. *)
Definition ids_counted (t : SymbolTable) : Prop :=
  map sb_symbol_id (st_bindings t) = map (numbered "s") (seq 1 (st_symbol_counter t))
  /\ forallb (fun b => type_wf (sb_type_info b)) (st_bindings t) = true.

Lemma ids_counted_add t t' b : st_bindings t' = st_bindings t ++ [b] ->
  sb_symbol_id b = numbered "s" (S (st_symbol_counter t)) ->
  st_symbol_counter t' = S (st_symbol_counter t) -> type_wf (sb_type_info b) = true ->
  ids_counted t -> ids_counted t'.
Proof.
  unfold ids_counted. intros Hb Hi Hc Ht [H1 H2]. rewrite Hb, map_app, forallb_app, H1, H2, Hc, seq_S, map_app.
  cbn [map forallb]. by rewrite Hi, Ht.
Qed.

(** What the lowering of statements to [l] has done to the table. *)
Record lowers (t t' : SymbolTable) (l : list Statement) : Prop := {
  lw_tail : tail (st_frames t') = tail (st_frames t);
  lw_bindings : exists more, st_bindings t' = st_bindings t ++ more;
  lw_ids : ids_counted t -> ids_counted t';
  lw_wf : scope_wf (scope_of t');
  lw_ok : forallb statement_ok l = true;
  lw_typed : map symbol_spec (st_bindings t') ⊆ symbols -> forall g, scope_of t ⊆ g ->
    exists g', typed tools symbols outputs g l g' /\ scope_of t' ⊆ g'
}.

Lemma lowers_nil t : scope_wf (scope_of t) -> lowers t t [].
Proof.
  intros Hw. split; [done | exists []; by rewrite app_nil_r | done | done | done |].
  intros _ g Hg. exists g. split; [constructor | done].
Qed.

Lemma lowers_app t t1 t2 l1 l2 : lowers t t1 l1 -> lowers t1 t2 l2 -> lowers t t2 (l1 ++ l2).
Proof.
  intros [F1 (m1 & B1) I1 W1 S1 H1] [F2 (m2 & B2) I2 W2 S2 H2]. split.
  - congruence.
  - exists (m1 ++ m2). by rewrite B2, B1, app_assoc.
  - auto.
  - done.
  - by rewrite forallb_app, S1, S2.
  - intros Hs g Hg.
    destruct (fun K => H1 K g Hg) as (g1 & T1 & Hg1).
    { intros x Hx. apply Hs. rewrite B2, map_app. apply elem_of_app. by left. }
    destruct (H2 Hs g1 Hg1) as (g2 & T2 & Hg2). exists g2. split; [by eapply typed_app | done].
Qed.

(** The symbol [b] is bound and stays bound. *)
Lemma bound_symbol t' (bs : list SymbolBinding) b more :
  map symbol_spec (st_bindings t') ⊆ symbols -> st_bindings t' = bs ++ b :: more ->
  symbol_spec b ∈ symbols.
Proof. intros H Hb. apply H. rewrite Hb, map_app. apply elem_of_app. right. by left. Qed.

Lemma lower_expr_run e s r s' : expression_fine e = true ->
  scope_wf (scope_of (lo_symbol_table s)) ->
  _lower_expr sources tools_by_id e s = (Ok r, s') ->
  lo_symbol_table s' = lo_symbol_table s /\ expr_ok r.1 = true
  /\ forall g, scope_of (lo_symbol_table s) ⊆ g -> has_type tools g r.1 r.2.
Proof.
  intros Hf Hw H.
  assert (forall g, scope_of (lo_symbol_table s) ⊆ g ->
    lo_symbol_table s' = lo_symbol_table s /\ lowered tools g r) as K.
  { intros g Hg. exact (yields_expr sources tools tools_by_id Htools _ g Hg Hw e Hf s r s' eq_refl H). }
  destruct (K _ (reflexivity _)) as [K1 [_ K2]]. split; [done |]. split; [done |].
  intros g Hg. apply (K g Hg).
Qed.

Lemma node_id_run kind s id s' : _node_id kind s = (Ok id, s') ->
  lo_symbol_table s' = lo_symbol_table s.
Proof. intros H. by injection H as <- <-. Qed.

Lemma try_finally_Ok {S A} (m : M S A) cleanup (s s' : S) a :
  try_finally m cleanup s = (Ok a, s') ->
  exists s1 u, m s = (Ok a, s1) /\ cleanup s1 = (Ok u, s').
Proof.
  unfold try_finally. destruct (m s) as [r s1]. destruct (cleanup s1) as [[u|e] s2] eqn:E; [| discriminate].
  intros [= -> <-]. by exists s1, u.
Qed.

(** The statement binds [b] and goes on in a scope with it. *)
Lemma lowers_binding t t' b st :
  sb_symbol_id b = numbered "s" (S (st_symbol_counter t)) ->
  st_symbol_counter t' = S (st_symbol_counter t) ->
  st_bindings t' = st_bindings t ++ [b] -> tail (st_frames t') = tail (st_frames t) ->
  scope_of t' ⊆ entry b :: scope_of t -> scope_wf (scope_of t) -> type_wf (sb_type_info b) = true ->
  statement_ok st = true ->
  (symbol_spec b ∈ symbols -> forall g, scope_of t ⊆ g -> forall l g',
     typed tools symbols outputs (entry b :: g) l g' -> typed tools symbols outputs g (st :: l) g') ->
  lowers t t' [st].
Proof.
  intros Hi Hc Hb Hf Hs Hw Ht Hok Hst.
  split; [done | by exists [b] | by apply (ids_counted_add _ _ b) | | cbn; by rewrite Hok |].
  - unfold scope_wf in *. rewrite Forall_forall in *. intros x Hx%Hs.
    apply elem_of_cons in Hx as [->|Hx]; [done | by apply Hw].
  - intros Hsym g Hg. exists (entry b :: g). split.
    + apply Hst; [| done | constructor].
      apply (bound_symbol t' (st_bindings t) b []); [done | by rewrite Hb].
    + etransitivity; [exact Hs |]. intros x. rewrite !elem_of_cons. intros [->|Hx]; [by left | right; by apply Hg].
Qed.

(** The statement leaves the table as it was. *)
Lemma lowers_plain t st : scope_wf (scope_of t) -> statement_ok st = true ->
  (forall g, scope_of t ⊆ g -> forall l g',
     typed tools symbols outputs g l g' -> typed tools symbols outputs g (st :: l) g') ->
  lowers t t [st].
Proof.
  intros Hw Hok Hst.
  split; [done | exists []; by rewrite app_nil_r | done | done | cbn; by rewrite Hok |].
  intros _ g Hg. exists g. split; [apply Hst; [done | constructor] | done].
Qed.

Lemma yields_emit t g f : scope_of t ⊆ g -> scope_wf (scope_of t) -> expression_fine f.2 = true ->
  yields (at_table t) (lower_emit_field sources tools_by_id (dict_by out_name outputs) f)
    (fun f' => f'.1 = f.1 /\ expr_ok f'.2 = true /\ emits tools outputs g f').
Proof.
  intros Hg Hw Hf. unfold lower_emit_field.
  eapply yields_bind; [by apply (yields_expr sources tools tools_by_id Htools t g Hg Hw) |].
  intros [e c] [He Hok]. cbn [fst snd] in *.
  destruct (assoc f.1 (dict_by out_name outputs)) as [o|] eqn:Eo; [| apply yields_fail].
  apply assoc_elem, dict_by_elem in Eo as [Ho Hn].
  eapply yields_bind; [apply yields_lift; intros u Hu; exact Hu | intros u Hu; cbn beta in Hu].
  unfold require_exact, type_failure in Hu.
  destruct (bool_decide_reflect (expr_type_info e = out_type_info o)) as [Ht|]; [| discriminate].
  eapply yields_bind; [apply yields_refuse_if | intros v Hv; cbn beta in Hv]. apply negb_false_iff in Hv.
  apply yields_ret. split; [done |]. split; [done |]. by exists o, c.
Qed.

Lemma lower_emit fields span s st s' : scope_wf (scope_of (lo_symbol_table s)) ->
  forallb (fun f => expression_fine f.2) fields = true ->
  lower_statement sources tools_by_id outputs (AstEmit fields span) s = (Ok st, s') ->
  lowers (lo_symbol_table s) (lo_symbol_table s') [st].
Proof.
  intros Hw Hf H. cbn [lower_statement] in H.
  apply M_bind_Ok in H as (u & s1 & H1 & H). unfold refuse_if in H1.
  destruct (fields_differ _ _) eqn:Ed; [discriminate | injection H1 as <- <-].
  apply M_bind_Ok in H as (fs & s2 & H2 & H). apply M_bind_Ok in H as (id & s3 & H3 & H).
  injection H as <- <-. apply node_id_run in H3.
  assert (forall g, scope_of (lo_symbol_table s) ⊆ g -> lo_symbol_table s2 = lo_symbol_table s
    /\ Forall2 (fun f f' => f'.1 = f.1 /\ expr_ok f'.2 = true /\ emits tools outputs g f') fields fs) as K.
  { intros g Hg. eapply (yields_map (at_table (lo_symbol_table s)) _
      (fun f f' => f'.1 = f.1 /\ expr_ok f'.2 = true /\ emits tools outputs g f')); [| done | exact H2].
    apply Forall_forall. intros f Hx. apply yields_emit; [done | done |].
    by apply (forallb_elem (fun f => expression_fine f.2) fields). }
  destruct (K _ (reflexivity _)) as [E K2]. rewrite H3, E. apply lowers_plain; [done | |].
  - clear -K2. cbn [statement_ok]. induction K2 as [|f f' fs fs' (_ & Hok & _) _ IH]; [done |]. cbn.
    by rewrite Hok.
  - intros g Hg l g' Hl. destruct (K g Hg) as [_ K3].
    assert (map fst fs = map fst fields) as En.
    { clear -K3. induction K3 as [|f f' fs fs' (Hn & _) _ IH]; [done |]. cbn. by rewrite IH, Hn. }
    unfold fields_differ in Ed. apply orb_false_iff in Ed as [Ed Es]. apply orb_false_iff in Ed as [_ Ed].
    apply negb_false_iff in Es, Ed. apply no_duplicates_true in Ed.
    apply typed_emit; [| by rewrite En | | done].
    + clear -K3. induction K3 as [|f f' fs fs' (_ & _ & He) _ IH]; by constructor.
    + intros o Ho. rewrite En. apply (proj1 (same_elements_true _ _) Es). by apply dict_by_keys.
Qed.

Lemma map_block (ls : list AstStatement) :
  Forall (fun a => forall s st s', scope_wf (scope_of (lo_symbol_table s)) ->
    lower_statement sources tools_by_id outputs a s = (Ok st, s') ->
    lowers (lo_symbol_table s) (lo_symbol_table s') [st]) ls ->
  forall s sts s', scope_wf (scope_of (lo_symbol_table s)) ->
    map_M (lower_statement sources tools_by_id outputs) ls s = (Ok sts, s') ->
    lowers (lo_symbol_table s) (lo_symbol_table s') sts.
Proof.
  induction 1 as [|a ls Ha _ IH]; intros s sts s' Hw H.
  - injection H as <- <-. by apply lowers_nil.
  - change (map_M ?f (a :: ls)) with (y ← f a; ys ← map_M f ls; mret (y :: ys)) in H.
    apply M_bind_Ok in H as (st & s1 & H1 & H). apply M_bind_Ok in H as (sts' & s2 & H2 & H).
    injection H as <- <-. pose proof (Ha _ _ _ Hw H1) as K.
    eapply (lowers_app _ (lo_symbol_table s1) _ [st]); [done |].
    by apply IH; [apply (lw_wf _ _ _ K) |].
Qed.

Lemma on_table_run {A} (m : M SymbolTable A) s a s' : on_table m s = (Ok a, s') ->
  m (lo_symbol_table s) = (Ok a, lo_symbol_table s').
Proof. unfold on_table. destruct (m _) as [r t]. by intros [= -> <-]. Qed.

Lemma enter_scope_run kind t id t' : enter_scope kind t = (Ok id, t') ->
  st_frames t' = MkScopeFrame id kind [] :: st_frames t /\ st_bindings t' = st_bindings t
  /\ st_symbol_counter t' = st_symbol_counter t.
Proof. intros H. by injection H as <- <-. Qed.

Lemma leave_scope_run id t u t' : leave_scope id t = (Ok u, t') ->
  st_frames t' = tail (st_frames t) /\ st_bindings t' = st_bindings t
  /\ st_symbol_counter t' = st_symbol_counter t.
Proof.
  unfold leave_scope. intros H. apply M_bind_Ok in H as (t0 & t1 & [= <- <-] & H).
  apply M_bind_Ok in H as ([] & t2 & H1 & H). apply M_bind_Ok in H as ([] & t3 & H2 & H).
  unfold fail_if in H1, H2. destruct (_ =? 1); [discriminate | injection H1 as <-].
  destruct (negb _); [discriminate | injection H2 as <-]. by injection H as <- <-.
Qed.

Lemma scope_of_frames t t' : st_frames t' = st_frames t -> scope_of t' = scope_of t.
Proof. unfold scope_of. by intros ->. Qed.

Lemma lower_foreach iterator coll m body span s st s' :
  (forall s sts s', scope_wf (scope_of (lo_symbol_table s)) ->
    map_M (lower_statement sources tools_by_id outputs) body s = (Ok sts, s') ->
    lowers (lo_symbol_table s) (lo_symbol_table s') sts) ->
  scope_wf (scope_of (lo_symbol_table s)) -> expression_fine coll = true ->
  lower_statement sources tools_by_id outputs (AstForeach iterator coll m body span) s = (Ok st, s') ->
  lowers (lo_symbol_table s) (lo_symbol_table s') [st].
Proof.
  intros IH Hw Hf H. cbn [lower_statement] in H.
  apply M_bind_Ok in H as ([e c] & s1 & H1 & H).
  destruct (lower_expr_run _ _ _ _ Hf Hw H1) as (E1 & Hok & He). cbn [fst snd] in *.
  apply M_bind_Ok in H as (item & s2 & H2 & H). apply M_bind_Ok in H as (scope_id & s3 & H3 & H).
  apply M_bind_Ok in H as ([b sts] & s4 & H4 & H). apply M_bind_Ok in H as (id & s5 & H5 & H).
  injection H as <- <-. apply node_id_run in H5. injection H2 as H2 <-.
  assert (ty_kind (expr_type_info e) = "list" /\ ty_item (expr_type_info e) = Some item) as [Hk Hi].
  { unfold require_list, type_failure in H2. destruct (ty_item (expr_type_info e)) as [i|]; [| discriminate].
    destruct (String.eqb_spec (ty_kind (expr_type_info e)) "list"); [by injection H2 as -> | discriminate]. }
  apply on_table_run in H3. apply try_finally_Ok in H4 as (s6 & u & H4 & H6).
  apply on_table_run, leave_scope_run in H6 as (F6 & B6 & C6).
  apply M_bind_Ok in H4 as (b' & s7 & H7 & H4). apply M_bind_Ok in H4 as (sts' & s8 & H8 & H4).
  injection H4 as -> -> ->. pose proof (add_binding_run _ _ _ _ _ _ _ _ _ _ H7) as (Eb & Ei & C7 & B7 & F7 & S7).
  apply enter_scope_run in H3 as (F3 & B3 & C3). rewrite E1 in F3, B3, C3.
  set (t := lo_symbol_table s) in *.
  assert (scope_of (lo_symbol_table s3) = scope_of t) as Es3 by by (unfold scope_of; rewrite F3).
  rewrite H5.
  assert (type_wf item = true) as Hitem.
  { eapply item_wf; [| exact Hi]. by apply (lowered_wf tools (scope_of t) (e, c)); split; [apply He |]. }
  assert (entry b = (sb_symbol_id b, (item, c))) as Een by by rewrite Eb.
  assert (scope_wf (scope_of (lo_symbol_table s7))) as Hw7.
  { unfold scope_wf in *. rewrite Forall_forall in *. intros x Hx%S7. rewrite Es3 in Hx.
    apply elem_of_cons in Hx as [->|Hx]; [by rewrite Een | by apply Hw]. }
  destruct (IH _ _ _ Hw7 H8) as [T8 (more & B8) I8 W8 O8 G8].
  assert (st_frames (lo_symbol_table s4) = st_frames t) as F4.
  { by rewrite F6, T8, F7, F3. }
  assert (st_bindings (lo_symbol_table s4) = st_bindings t ++ b :: more) as B4.
  { by rewrite B6, B8, B7, B3, <- app_assoc. }
  split.
  - by rewrite F4.
  - by exists (b :: more).
  - intros Ht. assert (ids_counted (lo_symbol_table s6)) as K.
    { apply I8, (ids_counted_add (lo_symbol_table s3) _ b); [done | done | done | by rewrite Eb |].
      unfold ids_counted in *. by rewrite B3, C3. }
    unfold ids_counted in *. by rewrite B6, C6.
  - by rewrite (scope_of_frames t).
  - cbn [forallb statement_ok]. by rewrite Hok, O8.
  - intros Hs g Hg. exists g. split; [| by rewrite (scope_of_frames t)].
    assert (scope_of (lo_symbol_table s7) ⊆ (sb_symbol_id b, (item, c)) :: g) as Hg7.
    { rewrite <- Een. etransitivity; [exact S7 |]. rewrite Es3. intros x. rewrite !elem_of_cons.
      intros [->|Hx]; [by left | right; by apply Hg]. }
    destruct (fun K => G8 K _ Hg7) as (inner & Tb & _); [by rewrite <- B6 |].
    eapply typed_foreach; [by apply He | exact Hk | exact Hi | | exact Tb | constructor].
    exists iterator. replace (MkSymbolSpec _ _ _ _ _) with (symbol_spec b) by by rewrite Eb.
    by eapply bound_symbol.
Qed.

(** [_lower_block] of statements from the parser. *)
Lemma lower_statement_run a : statement_fine a = true ->
  forall s st s', scope_wf (scope_of (lo_symbol_table s)) ->
  lower_statement sources tools_by_id outputs a s = (Ok st, s') ->
  lowers (lo_symbol_table s) (lo_symbol_table s') [st].
Proof.
  induction a as [n e sp|i coll m body sp IH|k cond sv of_ msg sp|fields sp|ap msg sp idsp]
    using AstStatement_rect'; cbn [statement_fine]; intros Hf s st s' Hw H.
  - cbn [lower_statement] in H. apply M_bind_Ok in H as ([v c] & s1 & H1 & H).
    destruct (lower_expr_run _ _ _ _ Hf Hw H1) as (E1 & Hok & He). cbn [fst snd] in *.
    apply M_bind_Ok in H as (b & s2 & H2 & H). apply M_bind_Ok in H as (id & s3 & H3 & H).
    injection H as <- <-. apply node_id_run in H3. rewrite H3.
    pose proof (add_binding_run _ _ _ _ _ _ _ _ _ _ H2) as (Eb & Ei & C & B & F & S2). rewrite E1 in *.
    eapply lowers_binding; [exact Ei | exact C | exact B | exact F | exact S2 | exact Hw | | exact Hok |].
    + rewrite Eb. cbn. exact (lowered_wf tools _ (v, c) (conj (He _ (reflexivity _)) Hok)).
    + intros Hs g Hg l g' Hl. eapply typed_let; [by apply He | exists n | by rewrite Eb in Hl].
      by rewrite Eb in Hs.
  - apply andb_prop in Hf as [Hc Hb]. eapply lower_foreach; [| exact Hw | exact Hc | exact H].
    apply map_block. rewrite Forall_forall in *. intros x Hx. apply IH; [done |].
    by eapply forallb_elem.
  - cbn [lower_statement] in H. apply M_bind_Ok in H as ([v c] & s1 & H1 & H).
    destruct (lower_expr_run _ _ _ _ Hf Hw H1) as (E1 & Hok & He). cbn [fst snd] in *.
    apply M_bind_Ok in H as (u & s2 & H2 & H). injection H2 as H2 <-.
    apply M_bind_Ok in H as (b & s3 & H3 & H). apply M_bind_Ok in H as (id & s4 & H4 & H).
    injection H as <- <-. apply node_id_run in H4. rewrite H4.
    unfold require_bool, require_exact, type_failure in H2.
    destruct (bool_decide_reflect (expr_type_info v = BOOL)) as [Hb|]; [clear H2 | discriminate].
    pose proof (add_binding_run _ _ _ _ _ _ _ _ _ _ H3) as (Eb & Ei & C & B & F & S2). rewrite E1 in *.
    eapply lowers_binding; [exact Ei | exact C | exact B | exact F | exact S2 | exact Hw | by rewrite Eb | exact Hok |].
    intros Hs g Hg l g' Hl. eapply typed_check; [by apply He | exact Hb | exists k |].
    + by rewrite Eb in Hs.
    + by rewrite Eb in Hl.
  - by eapply lower_emit.
  - cbn [lower_statement] in H. apply M_bind_Ok in H as (id & s1 & H1 & H).
    apply M_bind_Ok in H as (p & s2 & H2 & H). injection H2 as H2 <-.
    apply M_bind_Ok in H as (a & s3 & H3 & H). injection H3 as H3 <-. injection H as <- <-.
    apply node_id_run in H1. rewrite H1. apply lowers_plain; [done | | by intros; apply typed_approve].
    unfold new_ApprovalStatement in H3. apply bind_Ok in H3 as (w & H3 & <-%Ok_inj). cbn [statement_ok as_policy].
    by rewrite H3, <- H2.
Qed.
End Blocks.
