(* ===== verification/Trees.v ===== *)
(** * The syntax trees that the parser builds ([src/nsl/syntax.py])

    On tokens of the lexer every literal of a tree has the type it carries and
    every declared type is well formed, in a skill, in a fragment and in a
    composed bundle. *)

From S2P Require Import Prelude Digest Json JsonBoundary Decimal Core Decoding Values.
From S2P Require Import DataProtection Builtins Ir Artifacts.
From S2P Require Import Source Lexer LexerFacts Parser ParserFacts Symbols Includes IncludeFacts.
From S2P Require Import Compiler Typing.
Import Parser.Parser.

(** ** Tokens *)

(** The literal of the token, if it is one, has its type. *)
Definition token_fine (t : Token) : Prop := forall e, literal t = Ok e -> expression_fine e = true.

(** A numeral without an exponent is read as a decimal in plain notation. *)
Definition no_exponent (c : ascii) : bool := negb (Ascii.eqb (Decoding.lower c) "e").

Lemma forallb_incl {A} (f : A -> bool) l r : r ⊆ l -> forallb f l = true -> forallb f r = true.
Proof.
  intros Hr H. apply forallb_forall. intros x Hx. apply (forallb_elem f l); [done |].
  by apply Hr, list_elem_of_In.
Qed.

Lemma span_digits_incl l : (span_digits l).2 ⊆ l.
Proof.
  induction l as [|c l IH]; [done |]. cbn [span_digits]. destruct (is_digit c); [| done].
  cbn [snd]. set_solver.
Qed.

Lemma drop_blank_incl l : drop_blank l ⊆ l.
Proof. induction l as [|c l IH]; [done |]. cbn [drop_blank]. destruct (is_space c); [| done]. set_solver. Qed.

Lemma numeric_text_incl s : numeric_text s ⊆ chars s.
Proof.
  unfold numeric_text. intros c Hc. apply list_elem_of_In, filter_In in Hc as [Hc _].
  apply in_rev, list_elem_of_In, drop_blank_incl, list_elem_of_In, in_rev, list_elem_of_In in Hc.
  by apply drop_blank_incl.
Qed.

Lemma take_sign_incl l : (take_sign l).2 ⊆ l.
Proof.
  destruct l as [|c l]; [done |]. cbn [take_sign].
  destruct (Ascii.eqb c "-"); [cbn; set_solver |]. destruct (Ascii.eqb c "+"); cbn; set_solver.
Qed.

Lemma finite_of_plain negative l d : finite_of negative l = Some d ->
  forallb no_exponent l = true -> exists c e, d = Fin negative c e /\ (e <= 0)%Z.
Proof.
  unfold finite_of. intros H Hl.
  pose proof (forallb_incl _ _ _ (span_digits_incl l) Hl) as Hr.
  destruct (span_digits l) as [whole r]. cbn [snd] in Hr.
  assert (forall fraction q : text, forallb no_exponent q = true ->
    match whole ++ fraction, exponent_of q with
    | (_ :: _) as digits, Some e =>
        Some (Fin negative (digits_value digits) (e - Z.of_nat (length fraction)))
    | _, _ => None
    end = Some d -> exists c e, d = Fin negative c e /\ (e <= 0)%Z) as K.
  { intros fraction q Hq K. destruct (whole ++ fraction) as [|x w]; [discriminate |].
    destruct (exponent_of q) as [e|] eqn:Ee; [| discriminate]. injection K as <-.
    exists (digits_value (x :: w)), (e - Z.of_nat (length fraction))%Z. split; [done |].
    destruct q as [|c q]; cbn in Ee; [injection Ee as <-; lia |].
    cbn in Hq. unfold no_exponent in Hq. destruct (Ascii.eqb (Decoding.lower c) "e"); [done | discriminate]. }
  destruct r as [|c r]; [by eapply K |]. destruct (Ascii.eqb c "."); [| by eapply K].
  cbn [forallb] in Hr. apply andb_prop in Hr as [_ Hr].
  pose proof (forallb_incl _ _ _ (span_digits_incl r) Hr) as Hq.
  destruct (span_digits r) as [fraction q]. by eapply K.
Qed.

Lemma special_of_plain negative l d : special_of negative l = Some d -> literal_ok (VDecimal d) = true.
Proof.
  assert (forall g l, nan_of negative g l = Some d -> literal_ok (VDecimal d) = true) as Hnan.
  { intros g w H. unfold nan_of in H. destruct (span_digits w) as [ds [|? ?]]; [| discriminate].
    injection H as <-. cbn [literal_ok value_stable plain_decimal]. rewrite bool_decide_eq_true_2 by done.
    rewrite andb_true_r. unfold decimal_stable. cbn [plain_decimal exact_range andb]. unfold payload_ok.
    destruct (digits_value ds =? 0)%N eqn:E; [done |].
    rewrite digits_value_str_of_N, E. rewrite (bool_decide_eq_true_2 (str_of_N _ = str_of_N _)) by done.
    by rewrite orb_true_r. }
  unfold special_of. destruct (bool_decide _); [by intros [= <-]; destruct negative |].
  destruct (bool_decide _); [apply Hnan |]. destruct (bool_decide _); [apply Hnan | done].
Qed.

Lemma numeral_plain s d : dec_of_string s = Ok d -> forallb no_exponent (chars s) = true ->
  literal_ok (VDecimal d) = true.
Proof.
  unfold dec_of_string. intros H Hs.
  pose proof (forallb_incl _ _ _ (numeric_text_incl s) Hs) as Hn.
  pose proof (forallb_incl _ _ _ (take_sign_incl (numeric_text s)) Hn) as Hl.
  destruct (take_sign (numeric_text s)) as [negative l]. cbn [snd] in Hl.
  destruct (finite_of negative l) as [x|] eqn:Ef.
  - destruct (exact_range x) eqn:Er; [injection H as <- | discriminate].
    apply finite_of_plain in Ef as (c & e & -> & He); [| done].
    assert (plain_decimal (Fin negative c e) = Fin negative c e) as E.
    { unfold plain_decimal. by destruct (Z.ltb_spec 0 e); [lia |]. }
    cbn [literal_ok value_stable]. unfold decimal_stable. rewrite E, Er. by rewrite bool_decide_eq_true_2.
  - destruct (special_of negative l) as [x|] eqn:Ex; [injection H as <- | discriminate].
    by eapply special_of_plain.
Qed.

Lemma digit_no_exponent c : py_isdigit c = true -> no_exponent c = true.
Proof. destruct c as [[] [] [] [] [] [] [] []]; (reflexivity || discriminate). Qed.

Lemma digits_no_exponent w : forallb py_isdigit w = true -> forallb no_exponent w = true.
Proof.
  intros H. apply forallb_forall. intros c Hc. by apply digit_no_exponent, (proj1 (forallb_forall _ _) H).
Qed.

Lemma literal_token_fine t s :
  tok_value t = TText s -> tok_kind t = T_DECIMAL \/ tok_kind t = T_INTEGER ->
  forallb no_exponent (chars s) = true -> token_fine t.
Proof.
  intros Hv Hk Hs e H. unfold literal in H. rewrite Hv in H.
  assert ((if existsb (Ascii.eqb ".") (chars s)
      then d ← dec_of_string s; Ok (AstLiteral (VDecimal d) (primitive "Decimal") (Some (tok_span t)))
      else z ← py_int s; Ok (AstLiteral (VInt z) INT (Some (tok_span t)))) = Ok e) as K.
  { destruct Hk as [E|E]; rewrite E in H; exact H. }
  clear H Hk. destruct (existsb _ _); apply bind_Ok in K as (d & Hd & K); injection K as <-; [| done].
  cbn [expression_fine]. unfold literal_typed. by rewrite (numeral_plain _ _ Hd Hs).
Qed.

(** What the lexer reads from any lexeme. *)
Lemma reads_fine keywords k v w lexeme span : reads keywords k v w -> token_fine (MkToken k v lexeme span).
Proof.
  intros H. destruct H as [body value Hb | ds Hne Hd | ds fs Hne Hd Hfne Hfd | ds u m n Hne Hn Hu
    | b | w Hne Hw Hk | c w Hc Hw Hk | k w Hk].
  - by intros e [= <-].
  - eapply literal_token_fine; [done | by right |]. rewrite chars_text_of. by apply digits_no_exponent.
  - eapply literal_token_fine; [done | by left |]. rewrite chars_text_of, forallb_app. cbn.
    by rewrite !digits_no_exponent.
  - by intros e He.
  - by intros e [= <-].
  - by intros e He.
  - by intros e He.
  - unfold Lexer._TWO_CHAR, Lexer._SINGLE in Hk. intros e He.
    repeat (apply elem_of_cons in Hk as [[= _ ->]|Hk]; [discriminate He |]). by apply elem_of_nil in Hk.
Qed.

Lemma tiles_fine f keywords p l ts : tiles f keywords p l ts -> Forall token_fine ts.
Proof.
  induction 1 as [p w Hw | p w t x r ts Hw Hx (Hr & Hlex & Hs) Ht IH].
  - constructor; [| constructor]. by intros e He.
  - constructor; [| done]. destruct t as [k v lx sp]. by eapply reads_fine.
Qed.

Lemma tokenize_fine f v ts : Lexer.tokenize (inr f) v = Ok ts -> Forall token_fine ts.
Proof.
  intros H. apply bind_Ok in H as ([ts' ds] & H & H').
  destruct ds as [|d ds]; [injection H' as <- | discriminate].
  change (Lexer.scan (inr f) v) with (match SourceLanguageVersion_of v with
    | None => raise ValueError ("unsupported lexer language version: " +:+ v)
    | Some w => Lexer.scan_file f w end) in H.
  destruct (SourceLanguageVersion_of v) as [w|]; [| discriminate].
  eapply tiles_fine, scan_loop_tiles, H.
Qed.

(** ** Productions *)

(** The tokens that the parser has ahead. *)
Definition ahead_fine (s : parser) : Prop := Forall token_fine (ps_rest s).

Definition builds {A} (m : PM A) (Q : A -> Prop) : Prop := yields ahead_fine m Q.

(** Any result will do. *)
Definition reads_on {A} (m : PM A) : Prop := builds m (fun _ => True).

Lemma builds_bind {A B} (m : PM A) (f : A -> PM B) P Q :
  builds m P -> (forall a, P a -> builds (f a) Q) -> builds (m ≫= f) Q.
Proof. apply yields_bind. Qed.

Lemma builds_after {A B} (m : PM A) (f : A -> PM B) Q :
  reads_on m -> (forall a, builds (f a) Q) -> builds (m ≫= f) Q.
Proof. intros Hm Hf. eapply yields_bind; [exact Hm |]. intros a _. apply Hf. Qed.

Lemma reads_on_bind {A B} (m : PM A) (f : A -> PM B) :
  reads_on m -> (forall a, reads_on (f a)) -> reads_on (m ≫= f).
Proof. apply builds_after. Qed.

Lemma builds_ret {A} (a : A) (Q : A -> Prop) : Q a -> builds (mret a) Q.
Proof. apply yields_ret. Qed.

Lemma builds_lift {A} (r : result A) (Q : A -> Prop) : (forall a, r = Ok a -> Q a) -> builds (lift r) Q.
Proof. apply yields_lift. Qed.

Lemma builds_error {A} source c msg t (Q : A -> Prop) : builds (error source c msg t) Q.
Proof. by apply builds_lift. Qed.

Lemma builds_starved {A} (Q : A -> Prop) : builds starved Q.
Proof. by apply builds_lift. Qed.

Lemma builds_mono {A} (m : PM A) (P Q : A -> Prop) : (forall a, P a -> Q a) -> builds m P -> builds m Q.
Proof. apply yields_mono. Qed.

Lemma reads_on_lift {A} (r : result A) : reads_on (lift r).
Proof. by apply builds_lift. Qed.

Lemma reads_on_ret {A} (a : A) : reads_on (mret a).
Proof. by apply builds_ret. Qed.

Lemma reads_on_get : reads_on get.
Proof. by intros s a s' Hs [= <- <-]. Qed.

Lemma builds_get {A} (f : parser -> PM A) Q : (forall s, builds (f s) Q) -> builds (s ← get; f s) Q.
Proof. apply builds_after, reads_on_get. Qed.

Lemma builds_current : builds current token_fine.
Proof.
  intros s t s' Hs H. unfold current, mbind, M_bind, get in H. cbn in H.
  destruct (ps_rest s) as [|x r] eqn:E; [discriminate |]. injection H as <- <-.
  split; [done |]. unfold ahead_fine in Hs. rewrite E in Hs. by apply Forall_cons in Hs as [? _].
Qed.

Lemma reads_on_advance : reads_on advance.
Proof.
  intros s t s' Hs H. unfold advance, mbind, M_bind, get in H. cbn in H. unfold ahead_fine in *.
  destruct (ps_rest s) as [|x r] eqn:E; [discriminate |]. injection H as <- <-. cbn.
  by apply Forall_cons in Hs as [_ Hs].
Qed.

Lemma reads_on_weaken {A} (m : PM A) (Q : A -> Prop) : builds m Q -> reads_on m.
Proof. by apply builds_mono. Qed.

Lemma reads_on_current : reads_on current.
Proof. eapply reads_on_weaken, builds_current. Qed.

(** [reading]: the statements of a production that build no tree. *)
Create HintDb reading.
#[local] Hint Resolve reads_on_ret reads_on_lift reads_on_get reads_on_advance reads_on_current : reading.
#[local] Hint Extern 1 (reads_on starved) => apply builds_starved : reading.
#[local] Hint Extern 1 (reads_on (error _ _ _ _)) => apply builds_error : reading.
#[local] Hint Extern 1 (builds (error _ _ _ _) _) => apply builds_error : reading.
#[local] Hint Extern 1 (builds starved _) => apply builds_starved : reading.

#[local] Ltac reading_step :=
  match goal with
  | |- reads_on (_ ≫= _) => apply reads_on_bind; [| intros ?]
  | |- builds (_ ≫= _) _ => apply builds_after; [solve [auto with reading] | intros ?]
  | |- reads_on (if ?b then _ else _) => destruct b
  | |- builds (if ?b then _ else _) _ => destruct b
  | |- reads_on (match ?x with _ => _ end) => destruct x
  | |- builds (match ?x with _ => _ end) _ => destruct x
  | |- _ => solve [auto with reading]
  end.
#[local] Ltac reading := repeat reading_step.

Lemma reads_on_current_is v : reads_on (current_is v).
Proof. unfold current_is. reading. Qed.
#[local] Hint Resolve reads_on_current_is : reading.

Lemma reads_on_accept v : reads_on (accept v).
Proof. unfold accept. reading. Qed.
#[local] Hint Resolve reads_on_accept : reading.

Lemma reads_on_previous : reads_on previous_token.
Proof. unfold previous_token, last_token, no_token, fail. reading. Qed.
#[local] Hint Resolve reads_on_previous : reading.

Lemma reads_on_span a b : reads_on (span_from a b).
Proof. unfold span_from. reading. Qed.
#[local] Hint Resolve reads_on_span : reading.

Section Source.
Variable source : option SourceFile.

Lemma reads_on_expect v : reads_on (expect source v).
Proof. unfold expect. reading. Qed.

Lemma reads_on_expect_kind k : reads_on (expect_kind source k).
Proof. unfold expect_kind. reading. Qed.
#[local] Hint Resolve reads_on_expect reads_on_expect_kind : reading.

Lemma reads_on_expect_text k : reads_on (expect_text source k).
Proof. unfold expect_text. reading. Qed.
#[local] Hint Resolve reads_on_expect_text : reading.

Lemma builds_until {A} fuel (stop : PM bool) (item : PM A) (Q : A -> Prop) :
  reads_on stop -> builds item Q -> builds (until fuel stop item) (Forall Q).
Proof.
  intros Hs Hi. induction fuel as [|n IH]; cbn [until]; [apply builds_starved |].
  apply builds_after; [exact Hs | intros []]; [apply builds_ret; constructor |].
  eapply builds_bind; [exact Hi | intros x Hx]. eapply builds_bind; [exact IH | intros xs Hxs].
  apply builds_ret. by constructor.
Qed.

Lemma reads_on_until {A} fuel (stop : PM bool) (item : PM A) :
  reads_on stop -> reads_on item -> reads_on (until fuel stop item).
Proof. intros Hs Hi. eapply reads_on_weaken, builds_until; [done | exact Hi]. Qed.

Lemma reads_on_qualified_parts fuel : reads_on (qualified_parts source fuel).
Proof. unfold qualified_parts. apply reads_on_until; reading. Qed.
#[local] Hint Resolve reads_on_qualified_parts : reading.

Lemma reads_on_qualified_name fuel : reads_on (qualified_name source fuel).
Proof. unfold qualified_name. reading. Qed.
#[local] Hint Resolve reads_on_qualified_name : reading.

Lemma reads_on_classification : reads_on (classification source).
Proof. unfold classification. reading. Qed.
#[local] Hint Resolve reads_on_classification : reading.

Lemma money_type_wf c t : money_type c = Ok t -> type_wf t = true.
Proof.
  unfold money_type. intros H. apply bind_Ok in H as (u & Hc & H).
  unfold new_TypeRef in H. apply bind_Ok in H as (v & Hi & H). injection H as <-. cbn [type_wf].
  by rewrite Hi.
Qed.

Lemma builds_type_ref i fuel : builds (type_ref source i fuel) (fun t => type_wf t = true).
Proof.
  revert i; induction fuel as [|n IH]; intros i; cbn [type_ref]; [apply builds_starved |].
  do 3 reading_step. destruct (String.eqb _ "Money").
  { do 4 reading_step. intros s t s' Hs H. unfold try_except in H.
    destruct (lift (money_type a5) s) as [[u|e] s1] eqn:E; [injection H as -> ->; injection E as E <- |].
    - split; [done | by eapply money_type_wf].
    - destruct (isinstance_exn (ex_class e) ValueError); discriminate. }
  destruct (String.eqb _ "List").
  { reading_step. eapply builds_bind; [apply IH | intros item Hi]. reading_step.
    apply builds_ret. by apply list_wf. }
  destruct (assoc _ _TYPE_NAMES) as [u|] eqn:E; [| apply builds_error]. apply builds_ret.
  apply assoc_elem in E. unfold _TYPE_NAMES in E.
  repeat (apply elem_of_cons in E as [[= _ ->]|E]; [reflexivity |]). by apply elem_of_nil in E.
Qed.

(** ** Expressions *)

Definition fine (e : AstExpression) : Prop := expression_fine e = true.

Lemma builds_items_from {A} fuel (item : PM A) (Q : A -> Prop) :
  builds item Q -> builds (items_from source fuel item) (Forall Q).
Proof.
  intros Hi. induction fuel as [|n IH]; cbn [items_from]; [apply builds_starved |].
  eapply builds_bind; [exact Hi | intros x Hx]. reading_step. destruct (_ : bool).
  - apply builds_ret. by repeat constructor.
  - reading_step. eapply builds_bind; [exact IH | intros xs Hxs]. apply builds_ret. by constructor.
Qed.

Lemma builds_parenthesized {A} fuel (item : PM A) (Q : A -> Prop) :
  builds item Q -> builds (parenthesized source fuel item) (Forall Q).
Proof.
  intros Hi. unfold parenthesized. reading_step. destruct (_ : bool).
  - apply builds_ret. constructor.
  - by apply builds_items_from.
Qed.

Lemma builds_named sep expr : builds expr fine -> builds (named source sep expr) (fun a => fine a.2).
Proof.
  intros He. unfold named. do 2 reading_step. eapply builds_bind; [exact He | intros e H]. by apply builds_ret.
Qed.

Lemma Forall_forallb {A} (f : A -> bool) l : Forall (fun x => f x = true) l -> forallb f l = true.
Proof. induction 1 as [|x l Hx _ IH]; [done |]. cbn. by rewrite Hx. Qed.

Section Expressions.
Variable fuel : nat.
Variable expr : PM AstExpression.
Hypothesis Hexpr : builds expr fine.

Lemma builds_read_call t : builds (read_call source fuel expr t) fine.
Proof.
  unfold read_call. do 3 reading_step.
  eapply builds_bind; [apply builds_parenthesized, builds_named, Hexpr | intros args Ha].
  do 2 reading_step. apply builds_ret. by apply (Forall_forallb (fun a => expression_fine a.2)).
Qed.

Lemma builds_write_call t : builds (write_call source fuel expr t) fine.
Proof.
  unfold write_call. do 3 reading_step.
  eapply builds_bind; [apply builds_parenthesized, builds_named, Hexpr | intros args Ha].
  do 4 reading_step. apply builds_ret. by apply (Forall_forallb (fun a => expression_fine a.2)).
Qed.

Lemma builds_call_or_path t : builds (call_or_path source fuel expr t) fine.
Proof.
  unfold call_or_path. do 3 reading_step. destruct (_ : bool).
  - eapply builds_bind; [apply builds_parenthesized, Hexpr | intros args Ha].
    do 2 reading_step. apply builds_ret. by apply Forall_forallb.
  - do 3 reading_step. by apply builds_ret.
Qed.

Lemma fine_replace e s : fine e -> fine (replace_span e s).
Proof. by destruct e. Qed.

Lemma builds_primary : builds (primary source fuel expr) fine.
Proof.
  unfold primary. eapply builds_bind; [apply builds_current | intros t Ht].
  destruct (is_literal t). { reading_step. apply builds_lift. exact Ht. }
  destruct (value_is "read" t); [apply builds_read_call |].
  apply builds_after; [unfold v0_2_keyword; reading | intros []; [apply builds_write_call |]].
  destruct (bool_decide _); [apply builds_call_or_path |].
  reading_step. destruct (_ : bool); [| apply builds_error].
  eapply builds_bind; [exact Hexpr | intros e He]. do 2 reading_step. by apply builds_ret, fine_replace.
Qed.
End Expressions.

Lemma builds_climb fuel (expr : nat -> PM AstExpression) (Hexpr : forall p, builds (expr p) fine) p :
  forall left, fine left -> builds (climb fuel expr p left) fine.
Proof.
  induction fuel as [|n IH]; intros left Hl; cbn [climb]; [apply builds_starved |].
  reading_step. destruct (precedence _) as [[operator q]|]; [| by apply builds_ret].
  destruct (q <? p); [by apply builds_ret |]. reading_step.
  eapply builds_bind; [apply Hexpr | intros right Hr]. reading_step. apply IH. unfold fine in *. cbn.
  by rewrite Hl, Hr.
Qed.

Lemma builds_expression fuel : forall i p, builds (expression source i fuel p) fine.
Proof.
  induction fuel as [|n IH]; intros i p; cbn [expression]; [apply builds_starved |].
  reading_step. eapply builds_bind; [apply builds_primary, IH | intros left Hl]. by apply builds_climb.
Qed.

(** ** Statements and declarations *)

Definition stmt_fine (s : AstStatement) : Prop := statement_fine s = true.

Lemma builds_foreach i fuel item t : builds item stmt_fine ->
  builds (foreach_statement source i fuel item t) stmt_fine.
Proof.
  intros Hi. unfold foreach_statement. do 2 reading_step.
  eapply builds_bind; [apply builds_expression | intros c Hc]. do 3 reading_step.
  destruct (_ <=? 0)%Z; [apply builds_error |]. reading_step.
  eapply builds_bind; [apply builds_until; [reading | exact Hi] | intros body Hb].
  do 2 reading_step. apply builds_ret. unfold stmt_fine. cbn. rewrite Hc. by apply Forall_forallb.
Qed.

Lemma builds_emit i fuel t : builds (emit_statement source i fuel t) stmt_fine.
Proof.
  unfold emit_statement. reading_step.
  eapply builds_bind; [apply builds_until; [reading |] | intros fs Hf].
  { eapply builds_bind; [apply builds_named, builds_expression | intros f Hf]. reading_step.
    apply builds_ret. exact Hf. }
  do 2 reading_step. apply builds_ret. by apply (Forall_forallb (fun f => expression_fine f.2)).
Qed.

Lemma builds_statement i fuel : builds (statement source i fuel) stmt_fine.
Proof.
  revert i; induction fuel as [|n IH]; intros i; cbn [statement]; [apply builds_starved |].
  do 2 reading_step. apply builds_after; [unfold v0_2_keyword; reading | intros []].
  { reading_step. unfold approve_statement. do 8 reading_step. by apply builds_ret. }
  destruct (value_is "let" _).
  { reading_step. unfold let_statement. do 2 reading_step.
    eapply builds_bind; [apply builds_expression | intros e He]. do 2 reading_step. by apply builds_ret. }
  destruct (value_is "foreach" _); [reading_step; by apply builds_foreach |].
  destruct (value_is "check" _).
  { reading_step. unfold check_statement. do 3 reading_step.
    eapply builds_bind; [apply builds_expression | intros e He]. do 12 reading_step. by apply builds_ret. }
  destruct (value_is "emit" _); [reading_step; apply builds_emit | apply builds_error].
Qed.

Lemma reads_on_include : reads_on (include_declaration source).
Proof. unfold include_declaration. reading. Qed.

Lemma reads_on_requires fuel : reads_on (requires source fuel).
Proof.
  unfold requires. reading. apply reads_on_until; [reading |]. unfold required_tool. reading.
Qed.

Lemma reads_on_limits fuel : reads_on (limits source fuel).
Proof.
  assert (forall n values, reads_on (limit_fields source n values)) as Hl.
  { intros n. induction n as [|n IH]; intros values; cbn [limit_fields]; reading; apply IH. }
  unfold limits. reading; apply Hl.
Qed.
#[local] Hint Resolve reads_on_include reads_on_requires reads_on_limits : reading.

Lemma builds_field_spec i fuel with_path :
  builds (field_spec source i fuel with_path) (fun f => spec_fine f = true).
Proof.
  unfold field_spec. do 3 reading_step. eapply builds_bind; [apply builds_type_ref | intros u Hu].
  apply builds_after; [destruct with_path; reading | intros path]. do 3 reading_step. by apply builds_ret.
Qed.

Lemma builds_fields i fuel keyword with_path :
  builds (fields source i fuel keyword with_path) (fun fs => forallb spec_fine fs = true).
Proof.
  unfold fields. do 2 reading_step. eapply builds_mono; [apply Forall_forallb |].
  apply builds_until; [reading | apply builds_field_spec].
Qed.
End Source.

(** ** Skills and fragments *)

Section Units.
Variable source : option SourceFile.
#[local] Hint Resolve reads_on_expect reads_on_expect_kind reads_on_expect_text reads_on_include
  reads_on_requires reads_on_limits reads_on_qualified_name reads_on_span : reading.

Definition parts_fine (p : skill_parts) : Prop :=
  forallb spec_fine (sk_inputs p) && forallb spec_fine (sk_contexts p)
  && forallb spec_fine (sk_outputs p) && forallb statement_fine (sk_body p) = true.

Lemma builds_skill_member d fuel p : parts_fine p ->
  builds (skill_member source d fuel p) parts_fine.
Proof.
  destruct p as [v r rs ins rq l i c o b]. unfold parts_fine. cbn. intros Hp. unfold skill_member.
  reading_step. destruct (value_is "version" _); [do 3 reading_step; by apply builds_ret |].
  destruct (value_is "risk" _); [do 4 reading_step; by apply builds_ret |].
  destruct (value_is "include" _); [reading_step; by apply builds_ret |].
  destruct (value_is "requires" _); [reading_step; by apply builds_ret |].
  destruct (value_is "limits" _); [reading_step; by apply builds_ret |].
  apply andb_prop in Hp as [Hp Hb]. apply andb_prop in Hp as [Hp Ho]. apply andb_prop in Hp as [Hi Hc].
  destruct (value_is "input" _).
  { eapply builds_bind; [apply builds_fields | intros x Hx]. apply builds_ret. cbn. by rewrite Hx, Hc, Ho, Hb. }
  destruct (value_is "context" _).
  { eapply builds_bind; [apply builds_fields | intros x Hx]. apply builds_ret. cbn. by rewrite Hx, Hi, Ho, Hb. }
  destruct (value_is "output" _).
  { eapply builds_bind; [apply builds_fields | intros x Hx]. apply builds_ret. cbn. by rewrite Hx, Hi, Hc, Hb. }
  eapply builds_bind; [apply builds_statement | intros x Hx]. apply builds_ret. cbn.
  rewrite forallb_app, Hi, Hc, Ho, Hb. cbn. by rewrite Hx.
Qed.

Lemma builds_skill_members d fuel m p : parts_fine p ->
  builds (skill_members source d fuel m p) parts_fine.
Proof.
  revert p; induction fuel as [|n IH]; intros p Hp; cbn [skill_members]; [apply builds_starved |].
  reading_step. destruct (_ : bool); [by apply builds_ret |].
  eapply builds_bind; [by apply builds_skill_member | intros q Hq]. by apply IH.
Qed.

Lemma builds_skill i fuel : builds (parse_skill source i fuel) (fun s => skill_fine s = true).
Proof.
  unfold parse_skill. do 4 reading_step.
  apply builds_after; [by intros s x s' Hs [= <- <-] | intros _]. do 4 reading_step.
  eapply builds_bind; [by apply builds_skill_members | intros p Hp]. do 2 reading_step.
  destruct (_ || _).
  - apply builds_after; [unfold last_token, no_token, fail; reading | intros t; apply builds_error].
  - reading_step. apply builds_ret. exact Hp.
Qed.

Definition fragment_fine (g : AstIncludeFragment) : Prop := forallb spec_fine (ag_contexts g) = true.

Lemma builds_fragment_member i fuel g : fragment_fine g ->
  builds (fragment_member source i fuel g) fragment_fine.
Proof.
  destruct g as [ins rq cs ls sp]. unfold fragment_fine. cbn. intros Hg. unfold fragment_member.
  reading_step. destruct (value_is "include" _); [reading_step; by apply builds_ret |].
  destruct (value_is "requires" _); [reading_step; by apply builds_ret |].
  destruct (value_is "context" _).
  { eapply builds_bind; [apply builds_fields | intros x Hx]. apply builds_ret. cbn.
    by rewrite forallb_app, Hg, Hx. }
  destruct (value_is "limits" _); [reading_step; by apply builds_ret | apply builds_error].
Qed.

Lemma builds_fragment_members i fuel m g : fragment_fine g ->
  builds (fragment_members source i fuel m g) fragment_fine.
Proof.
  revert g; induction fuel as [|n IH]; intros g Hg; cbn [fragment_members]; [apply builds_starved |].
  reading_step. destruct (bool_decide _); [by apply builds_ret |].
  eapply builds_bind; [by apply builds_fragment_member | intros h Hh]. by apply IH.
Qed.

Lemma builds_fragment i fuel : builds (parse_include_fragment source i fuel) fragment_fine.
Proof.
  unfold parse_include_fragment. reading_step.
  eapply builds_bind; [by apply builds_fragment_members | intros g Hg].
  apply builds_get. intros s. apply builds_after; [reading | intros e]. do 2 reading_step.
  apply builds_ret. exact Hg.
Qed.
End Units.

Definition ast_fine (x : AstSkill + AstIncludeFragment) : Prop :=
  match x with inl s => skill_fine s = true | inr g => fragment_fine g end.

Lemma run_parser_fine {A} (p : option SourceFile -> nat -> PM A) (Q : A -> Prop) ts source x :
  (forall fuel, builds (p source fuel) Q) -> Forall token_fine ts ->
  run_parser p ts source = Ok x -> Q x.
Proof.
  intros Hp Ht H. unfold run_parser in H. apply bind_Ok in H as (u & _ & H).
  destruct (p source (S (length ts)) (MkParser None ts None)) as [r s] eqn:E. cbn in H. subst r.
  by eapply (Hp _ (MkParser None ts None)).
Qed.

Lemma parse_fine ts source mode x : Forall token_fine ts -> parse ts source mode = Ok x -> ast_fine x.
Proof.
  intros Ht H. unfold parse, parse_within in H. destruct mode.
  - set (p := fun f => parse_skill f unlimited) in H.
    destruct (run_parser p ts source) as [s|e] eqn:E; [injection H as <- | discriminate].
    exact (run_parser_fine p _ ts source s (builds_skill source unlimited) Ht E).
  - set (p := fun f => parse_include_fragment f unlimited) in H.
    destruct (run_parser p ts source) as [g|e] eqn:E; [injection H as <- | discriminate].
    exact (run_parser_fine p _ ts source g (builds_fragment source unlimited) Ht E).
Qed.

(** ** Bundles *)

Lemma tokenize_root_fine f ts : Lexer.tokenize_root (inr f) = Ok ts -> Forall token_fine ts.
Proof.
  unfold Lexer.tokenize_root. intros H. apply bind_Ok in H as (g & Hg & H). injection Hg as <-.
  apply bind_Ok in H as (h & _ & H). by eapply tokenize_fine.
Qed.

(** The fragments that the builder has parsed. *)
Definition fragments_fine (s : build_state) : Prop :=
  Forall (fun u => fragment_fine (pu_ast u)) (bd_fragments s).

Section Bundle.
Variable resolver : IncludeResolver.
Variable options : IncludeOptions.
Variable version : string.

Lemma keeps_lift {A} (r : result A) : yields fragments_fine (lift r) (fun _ => True).
Proof. by apply yields_lift. Qed.

Lemma keeps_reject_if b code msg f d : yields fragments_fine (reject_if b code msg f d) (fun _ => True).
Proof. unfold reject_if, reject. destruct b; [apply keeps_lift | by apply yields_ret]. Qed.

Lemma keeps_get : yields fragments_fine get (fun _ => True).
Proof. by intros s a s' Hs [= <- <-]. Qed.

Lemma keeps_after {A B} (m : M build_state A) (f : A -> M build_state B) Q :
  yields fragments_fine m (fun _ => True) -> (forall a, yields fragments_fine (f a) Q) ->
  yields fragments_fine (m ≫= f) Q.
Proof. intros Hm Hf. eapply yields_bind; [exact Hm |]. intros a _. apply Hf. Qed.

Lemma keeps_resolve including d : yields fragments_fine (resolve_declaration resolver options including d) (fun _ => True).
Proof.
  unfold resolve_declaration, reject.
  apply keeps_after; [destruct (canonical_include_path _ _ _); [by apply yields_ret | destruct (isinstance_exn _ _); apply keeps_lift] | intros p].
  apply keeps_after; [apply keeps_get | intros s].
  apply keeps_after; [by intros s1 a s2 Hs [= <- <-] | intros _].
  apply keeps_after; [| intros f; apply keeps_after; [apply keeps_reject_if | intros _; by apply yields_ret]].
  destruct (resolver _ _ _); [by apply yields_ret | destruct (_ || _); apply keeps_lift].
Qed.

Lemma keeps_admit including f d : yields fragments_fine (admit_source options version including f d) (fun _ => True).
Proof.
  unfold admit_source. apply keeps_after; [apply keeps_get | intros s].
  apply keeps_after; [apply keeps_reject_if | intros _].
  apply keeps_after; [apply keeps_reject_if | intros _].
  apply keeps_after; [by intros s1 a s2 Hs [= <- <-] | intros _].
  eapply yields_bind; [apply yields_lift; intros ts Hts; exact Hts | intros ts Hts; cbn beta in Hts].
  apply tokenize_fine in Hts.
  eapply yields_bind; [apply yields_lift; intros x Hx; exact Hx | intros x Hx; cbn beta in Hx].
  apply parse_fine in Hx; [| done]. destruct x as [x|g]; [apply yields_fail |].
  apply keeps_after; [| intros _; by apply yields_ret].
  intros s1 a s2 Hs [= <- <-]. split; [| done]. unfold fragments_fine in *. cbn.
  apply Forall_app. split; [done | by constructor].
Qed.

Lemma keeps_visit fuel : forall including ds depth,
  yields fragments_fine (visit resolver options version fuel including ds depth) (fun _ => True).
Proof.
  induction fuel as [|n IH]; intros including ds depth; cbn [visit];
    (induction ds as [|d ds IHd]; [by apply yields_ret |]; cbn [each_M];
     apply keeps_after; [| intros _; exact IHd]; unfold visit_declaration;
     apply keeps_after; [apply keeps_reject_if | intros _];
     apply keeps_after; [apply keeps_resolve | intros f];
     apply keeps_after; [unfold record_edge; destruct (ai_span d); [by intros s1 a s2 Hs [= <- <-] | apply yields_fail] | intros _];
     apply keeps_after; [apply keeps_get | intros s];
     apply keeps_after; [apply keeps_reject_if | intros _];
     destruct (bool_decide _); [by apply yields_ret |];
     apply keeps_after; [apply keeps_admit | intros g];
     apply keeps_after; [| intros _; by intros s1 a s2 Hs [= <- <-]]).
  - apply keeps_lift.
  - apply IH.
Qed.
End Bundle.

Lemma bundle_fine resolver options f b calls : build_bundle resolver options f = (Ok b, calls) ->
  skill_fine (pu_ast (sbu_root b)) = true
  /\ Forall (fun u => fragment_fine (pu_ast u)) (sbu_fragments b).
Proof.
  intros H. unfold build_bundle in H.
  match type of H with (match ?p with _ => _ end) = _ => destruct p as [ast|e] eqn:Hp end; [| discriminate].
  destruct (visit _ _ _ _ _ _ _ _) as [[[]|e] s] eqn:E; [| discriminate]. injection H as <- _. cbn.
  apply bind_Ok in Hp as (u & _ & Hp). apply bind_Ok in Hp as (ts & Hts%tokenize_root_fine & Hp).
  apply bind_Ok in Hp as (x & Hx%parse_fine & Hp); [| done]. destruct x as [x|g]; [| discriminate].
  injection Hp as <-. split; [exact Hx |].
  by apply (keeps_visit _ _ _ _ _ _ _ (initial_build f) _ _ (Forall_nil_2 _) E).
Qed.

(** The contexts of a composition come from the root and the fragments. *)
Lemma add_context_fine bundle d x d' : add_context bundle d x = Ok d' -> spec_fine x = true ->
  Forall (fun kx => spec_fine kx.2 = true) d -> Forall (fun kx => spec_fine kx.2 = true) d'.
Proof.
  unfold add_context, composition_error. destruct (assoc (af_name x) d).
  - destruct (af_span x); [destruct (source_of _ _) |]; discriminate.
  - intros [= <-] Hx Hd. apply Forall_forall. intros kx Hk. apply assoc_set_elem in Hk as [->|Hk]; [done |].
    rewrite Forall_forall in Hd. by apply Hd.
Qed.

Lemma compose_fine bundle s : compose bundle = Ok s -> skill_fine (pu_ast (sbu_root bundle)) = true ->
  Forall (fun u => fragment_fine (pu_ast u)) (sbu_fragments bundle) -> skill_fine s = true.
Proof.
  intros H Hr Hf. unfold compose in H. apply bind_Ok in H as (c & Hc & H).
  assert (Forall (fun kx => spec_fine kx.2 = true) (cm_contexts c)) as Hk.
  { unfold skill_fine in Hr. apply andb_prop in Hr as [Hr _]. apply andb_prop in Hr as [Hr _].
    apply andb_prop in Hr as [_ Hr].
    match type of Hc with fold_result _ ?c0 _ = _ =>
      assert (Forall (fun kx => spec_fine kx.2 = true) (cm_contexts c0)) as H0 end.
    { apply Forall_forall. intros [k x] Hx. cbn in *. apply dict_by_elem in Hx as [Hx _].
      by eapply forallb_elem. }
    revert Hc H0. generalize (Composed (dict_by ar_tool_id (as_requires (pu_ast (sbu_root bundle))))
      (dict_by af_name (as_contexts (pu_ast (sbu_root bundle)))) (as_limits (pu_ast (sbu_root bundle)))).
    induction Hf as [|u us Hu _ IH]; intros c0 Hc H0; cbn in Hc; [by injection Hc as <- |].
    apply bind_Ok in Hc as (c1 & Hc1 & Hc). apply (IH _ Hc). unfold add_fragment in Hc1.
    apply bind_Ok in Hc1 as (rs & _ & Hc1). apply bind_Ok in Hc1 as (cs & Hcs & Hc1).
    assert (cm_contexts c1 = cs) as ->.
    { destruct (ag_limits (pu_ast u)) as [|l more]; [by injection Hc1 as <- |].
      destruct (_ || _); [| by injection Hc1 as <-].
      unfold composition_error in Hc1. destruct (ag_span (pu_ast u)); [destruct (source_of _ _) |]; discriminate. }
    revert Hcs H0. unfold fragment_fine in Hu. generalize (cm_contexts c0). clear -Hu.
    induction (ag_contexts (pu_ast u)) as [|x xs IHx]; intros d Hd H0; cbn in Hd, Hu; [by injection Hd as <- |].
    apply andb_prop in Hu as [Hx Hxs]. apply bind_Ok in Hd as (d1 & Hd1 & Hd).
    apply (IHx Hxs _ Hd). by eapply add_context_fine. }
  destruct (cm_limits c); [injection H as <- |].
  2: { unfold composition_error in H. destruct (as_span _); [destruct (source_of _ _) |]; discriminate. }
  unfold skill_fine in *. split_bool. cbn. rewrite H, H1, H0, !andb_true_r. cbn [andb].
  apply forallb_forall. intros x Hx. apply in_map_iff in Hx as (kx & <- & Hkx).
  rewrite Forall_forall in Hk. by apply Hk, list_elem_of_In.
Qed.
