(* ===== verification/CompilerFacts.v ===== *)
(** * What the compiler guarantees ([src/nsl/compiler.py])

    The Skill that a compilation returns is well typed, within its limits, and
    what its bytes decode to. *)

From S2P Require Import Prelude Digest Json JsonBoundary Decimal Core Decoding Values.
From S2P Require Import DataProtection Builtins Ir NsoSchema NsoCodec Bounds Security Tools.
From S2P Require Import RuntimeModels Runtime Costs Scenarios SchemaFacts Artifacts Discipline.
From S2P Require Import Source Lexer LexerFacts Parser ParserFacts Symbols Includes IncludeFacts.
From S2P Require Import Compiler Typing Trees.

(** ** Symbol ids *)

Lemma zero_padded_value w n : digits_value (chars (zero_pad w (str_of_nat n))) = N.of_nat n.
Proof.
  unfold digits_value, str_of_nat. rewrite chars_zero_pad, parse_digits_zeros.
  apply digits_value_str_of_N.
Qed.

Lemma chars_append_inj p a b : (p +:+ a)%string = (p +:+ b)%string -> a = b.
Proof. induction p as [|c p IH]; [done |]. intros H. injection H as H. by apply IH. Qed.

Lemma numbered_inj p n m : numbered p n = numbered p m -> n = m.
Proof.
  intros H%chars_append_inj. apply (f_equal (fun s => digits_value (chars s))) in H.
  rewrite !zero_padded_value in H. lia.
Qed.

Lemma ids_distinct t : ids_counted t -> NoDup (map sb_symbol_id (st_bindings t)).
Proof.
  unfold ids_counted. intros [-> _]. change (@map) with (@fmap list _). apply NoDup_fmap_2_strong.
  - intros x y _ _. apply numbered_inj.
  - apply NoDup_ListNoDup, seq_NoDup.
Qed.

(** ** Required tools *)

(** A catalog whose types are built by the constructor of [TypeRef]. *)
Definition catalog_fine (catalog : ToolContractCatalog) : Prop :=
  forall key c, catalog !! key = Some c -> contract_fine c = true.

Lemma catalog_resolve_Ok catalog id version c : catalog_resolve catalog id version = Ok c ->
  catalog !! (id, version) = Some c.
Proof.
  unfold catalog_resolve. destruct (List.filter _ _); [discriminate |].
  by destruct (catalog !! (id, version)) as [c'|]; [intros [= ->] |].
Qed.

Lemma capability_value_of s cap : ToolCapability_of s = Some cap -> capability_value cap = s.
Proof.
  unfold ToolCapability_of. intros H. apply find_some in H as [_ H]. by apply String.eqb_eq in H.
Qed.

Section Tools.
Variable catalog : ToolContractCatalog.
Variable sources : list SourceFile.
Variable ast : AstSkill.
Variable profile : _LanguageLoweringProfile.

(** The contract that a declaration names. *)
Definition contract_of (d : AstRequiredTool) (c : ToolContract) : Prop :=
  catalog !! (ar_tool_id d, ar_version d) = Some c
  /\ (lp_source_language_version profile = "0.1" -> tc_capability c = Capability READ).

Lemma declared_contract_run acc d acc' : declared_contract catalog sources profile acc d = Ok acc' ->
  assoc (ar_tool_id d) acc = None /\ exists c, acc' = assoc_set (ar_tool_id d) c acc /\ contract_of d c.
Proof.
  unfold declared_contract. intros H. apply bind_Ok in H as ([] & H1 & H).
  apply bind_Ok in H as (c & H2 & H). apply bind_Ok in H as ([] & H3 & H). injection H as <-.
  unfold refused_if, refusal_if in H1, H3. split.
  { by destruct (assoc (ar_tool_id d) acc). }
  exists c. split; [done |]. split.
  - destruct (catalog_resolve catalog (ar_tool_id d) (ar_version d)) as [c'|e] eqn:E.
    + injection H2 as ->. by apply catalog_resolve_Ok.
    + unfold refused, refusal in H2. destruct (isinstance_exn (ex_class e) UnknownToolContractError); [discriminate |].
      by destruct (isinstance_exn (ex_class e) IncompatibleToolVersionError).
  - intros Hv. rewrite Hv, String.eqb_refl in H3.
    destruct (bool_decide_reflect (tc_capability c = Capability READ)); [done | discriminate].
Qed.

Lemma contracts_run ds acc acc' :
  fold_result (declared_contract catalog sources profile) acc ds = Ok acc' ->
  Forall (fun d => exists c, assoc (ar_tool_id d) acc' = Some c /\ contract_of d c) ds
  /\ forall k c, assoc k acc = Some c -> assoc k acc' = Some c.
Proof.
  revert acc; induction ds as [|d ds IH]; intros acc H; cbn in H; [by injection H as <- |].
  apply bind_Ok in H as (acc1 & H1 & H2). apply declared_contract_run in H1 as (Hn & c & -> & Hc).
  apply IH in H2 as [H2 H3]. split.
  - constructor; [| done]. exists c. split; [| done]. apply H3, assoc_set_eq.
  - intros k c' Hk. apply H3. rewrite assoc_set_ne; [done |]. intros He. by rewrite He, Hk in Hn.
Qed.

(** The required tool of a Skill and the contract it was built from. *)
Definition requirement_of (d : AstRequiredTool) (rc : RequiredTool * ToolContract) : Prop :=
  let '(r, c) := rc in
  contract_of d c /\ rt_tool_id r = ar_tool_id d /\ rt_version r = ar_version d
  /\ rt_contract_hash r = contract_hash c /\ rt_required_scope r = tc_required_scope c
  /\ rt_output_classification r = tc_output_classification c
  /\ capability_str (rt_capability r) = capability_str (tc_capability c)
  /\ match rt_capability r with
     | Capability _ => tool_ok (lp_ir_version profile) r = true
     | OtherCapability s => ToolCapability_of s = None
     end.

Lemma requirements_run contracts ds i rs :
  (lp_ir_version profile = "1.1" \/ lp_source_language_version profile = "0.1") ->
  Forall (fun d => exists c, assoc (ar_tool_id d) contracts = Some c /\ contract_of d c) ds ->
  requirements profile contracts i ds = Ok rs -> Forall2 requirement_of ds rs.
Proof.
  intros Hp. revert i rs; induction ds as [|d ds IH]; intros i rs Hd H; cbn [requirements] in H.
  { injection H as <-. constructor. }
  apply Forall_cons in Hd as [(c & Hc & Hof) Hd]. rewrite Hc in H.
  apply bind_Ok in H as (r & H1 & H). apply bind_Ok in H as (rest & H2 & H). injection H as <-.
  constructor; [| by eapply IH]. unfold new_RequiredTool in H1.
  apply bind_Ok in H1 as ([] & Hw & H1). apply raise_if_Ok in Hw. injection H1 as <-.
  split; [done |]. cbn [rt_tool_id rt_version rt_contract_hash rt_required_scope
    rt_output_classification rt_capability]. do 5 (split; [done |]).
  destruct (ToolCapability_of (capability_str (tc_capability c))) as [cap|] eqn:E; [| done].
  split; [by apply capability_value_of |]. unfold tool_ok. cbn [rt_capability rt_risk_level].
  destruct Hp as [Hp|Hp]; [rewrite Hp, String.eqb_refl; by destruct cap |].
  destruct Hof as [_ Hread]. apply Hread in Hp. rewrite Hp in E. injection E as <-.
  by destruct (String.eqb (lp_ir_version profile) "1.1").
Qed.
End Tools.

(** ** Inputs, contexts and the body *)

Section Specs.
Context {Spec : Type}.
Variable sources : list SourceFile.
Variable category : string.
Variable make : AstFieldSpec -> SymbolBinding -> Spec.
Variable spec_entry : Spec -> string * (TypeRef * DataClassification).
Hypothesis Hmake : forall d b,
  spec_entry (make d b) = (sb_symbol_id b, (af_type_info d, af_classification d)).

Definition lower_spec (d : AstFieldSpec) : M lowerer Spec :=
  b ← _add_binding sources (af_name d) category (af_type_info d) (af_classification d) (af_span d)
        NAMESPACE_VALUE;
  mret (make d b).

Lemma specs_run ds s specs s' : map_M lower_spec ds s = (Ok specs, s') ->
  let t := lo_symbol_table s in let t' := lo_symbol_table s' in
  forallb spec_fine ds = true -> scope_wf (scope_of t) ->
  scope_wf (scope_of t') /\ (ids_counted t -> ids_counted t')
  /\ scope_of t' ⊆ map spec_entry specs ++ scope_of t
  /\ forallb (fun x => type_wf x.2.1) (map spec_entry specs) = true
  /\ exists bs, st_bindings t' = st_bindings t ++ bs
       /\ forall symbols, map symbol_spec bs ⊆ symbols ->
          Forall (fun x => declares symbols x.1 category x.2.1 x.2.2) (map spec_entry specs).
Proof.
  cbv zeta. revert s specs; induction ds as [|d ds IH]; intros s specs H Hf Hw.
  { injection H as <- <-. do 2 (split; [done |]). split; [done |]. split; [done |].
    exists []. split; [by rewrite app_nil_r | constructor]. }
  change (map_M lower_spec (d :: ds)) with (y ← lower_spec d; ys ← map_M lower_spec ds; mret (y :: ys)) in H.
  apply M_bind_Ok in H as (y & s1 & H1 & H). apply M_bind_Ok in H as (ys & s2 & H2 & H).
  injection H as <- <-. apply M_bind_Ok in H1 as (b & s3 & H3 & H1). injection H1 as <- <-.
  apply add_binding_run in H3 as (Eb & Ei & Ec & B & F & S). cbn [forallb] in Hf.
  apply andb_prop in Hf as [Hd Hf]. unfold spec_fine in Hd.
  assert (entry b = spec_entry (make d b)) as Een by by rewrite Hmake, Eb.
  assert (scope_wf (scope_of (lo_symbol_table s3))) as Hw3.
  { unfold scope_wf in *. rewrite Forall_forall in *. intros x Hx%S.
    apply elem_of_cons in Hx as [->|Hx]; [by rewrite Een, Hmake | by apply Hw]. }
  destruct (IH _ _ H2 Hf Hw3) as (W & I & S2 & T & bs & B2 & D). split; [done |].
  split; [intros Ht; apply I, (ids_counted_add (lo_symbol_table s) _ b); [done .. | by rewrite Eb | done] |].
  cbn [map forallb]. split.
  { intros x Hx%S2. cbn [app]. rewrite elem_of_cons, elem_of_app in *.
    destruct Hx as [Hx|Hx]; [tauto |]. apply S in Hx. rewrite Een, elem_of_cons in Hx. tauto. }
  split; [rewrite T, Hmake; cbn [fst snd]; by rewrite Hd |].
  exists (b :: bs). split; [by rewrite B2, B, <- app_assoc |]. intros symbols Hs. constructor.
  - rewrite Hmake. exists (af_name d). cbn [fst snd].
    replace (MkSymbolSpec _ _ _ _ _) with (symbol_spec b) by by rewrite Eb. apply Hs. by left.
  - apply D. intros x Hx. apply Hs. by right.
Qed.
End Specs.

(** ** [_Lowerer.lower] *)

Lemma profile_known sources ast profile : lowering_profile sources ast = Ok profile ->
  as_includes ast = [] /\ (profile, as_language_version ast) ∈
    map (fun kp => (kp.2, kp.1)) _LANGUAGE_LOWERING_PROFILES.
Proof.
  unfold lowering_profile, refused, refused_if, refusal, refusal_if. intros H.
  apply bind_Ok in H as ([] & H1 & H). apply bind_Ok in H as ([] & _ & H).
  destruct (as_includes ast); [split; [done |] | discriminate].
  destruct (assoc (as_language_version ast) _LANGUAGE_LOWERING_PROFILES) as [p|] eqn:E; [| discriminate].
  apply bind_Ok in H as (u & _ & H). injection H as <-. apply assoc_elem in E.
  change (@map) with (@fmap list _).
  by apply (list_elem_of_fmap_2 (fun kp : string * _LanguageLoweringProfile => (kp.2, kp.1)) _
    (as_language_version ast, p)).
Qed.

(** The Skill [s] that is lowered from [ast], before its hash is set. *)
Record lowering (catalog : ToolContractCatalog) (ast : AstSkill) (build : BuildMetadata)
    (s : SkillObject) : Prop := {
  lo_tools : exists profile tools, Forall2 (requirement_of catalog profile) (as_requires ast) tools
    /\ (as_language_version ast, profile) ∈ _LANGUAGE_LOWERING_PROFILES
    /\ sk_ir_version s = lp_ir_version profile
    /\ map fst tools = sk_required_tools s /\ well_typed tools s;
  lo_types : forallb (fun i => type_wf (sym_type_info i)) (sk_symbols s)
    && forallb (fun i => type_wf (in_type_info i)) (sk_inputs s)
    && forallb (fun i => type_wf (cx_type_info i)) (sk_contexts s)
    && forallb (fun i => type_wf (out_type_info i)) (sk_outputs s)
    && forallb statement_ok (sk_body s) = true;
  lo_bounds : exists l, as_limits ast = Some l /\ sk_limits s = resource_limits l
    /\ Bounds.analyze (sk_body s) = Ok (sk_analysis s)
    /\ (max_tool_calls (sk_analysis s) <= al_tool_calls l)%Z
    /\ (max_loop_iterations (sk_analysis s) <= al_loop_iterations l)%Z
    /\ (max_emit_records (sk_analysis s) <= al_emitted_rows l)%Z;
  lo_build : sk_build s = build
}.

Lemma refused_if_Ok sources b code msg span u : refused_if sources b code msg span = Ok u -> b = false.
Proof. unfold refused_if, refusal_if. by destruct b. Qed.

Lemma check_bounds_Ok sources a l u : check_bounds sources a l = Ok u ->
  (max_tool_calls a <= al_tool_calls l)%Z /\ (max_loop_iterations a <= al_loop_iterations l)%Z
  /\ (max_emit_records a <= al_emitted_rows l)%Z.
Proof.
  unfold check_bounds. intros H. apply bind_Ok in H as ([] & H1%refused_if_Ok & H).
  apply bind_Ok in H as ([] & H2%refused_if_Ok & H%refused_if_Ok). lia.
Qed.

Lemma static_analysis_Ok sources ast body a : static_analysis sources ast body = Ok a ->
  Bounds.analyze body = Ok a.
Proof.
  unfold static_analysis, refused, refusal. destruct (Bounds.analyze body) as [x|e]; [done |].
  by destruct (isinstance_exn (ex_class e) UnboundedStructureError).
Qed.

Lemma forallb_map {A B} (f : B -> bool) (g : A -> B) l : forallb f (map g l) = forallb (fun x => f (g x)) l.
Proof. induction l as [|x l IH]; [done |]. cbn. by rewrite IH. Qed.

Definition input_of (d : AstFieldSpec) (b : SymbolBinding) : InputSpec :=
  MkInputSpec (sb_symbol_id b) (af_name d) (af_type_info d) true (af_classification d).

Definition context_of (d : AstFieldSpec) (b : SymbolBinding) : ContextSpec :=
  MkContextSpec (sb_symbol_id b) (af_name d) (af_type_info d) (af_path d) (af_classification d).

(** The tables before and after the declarations and the body. *)
Lemma lower_parts (sources : list SourceFile) (ast : AstSkill)
    (tools : list (RequiredTool * ToolContract)) inputs contexts body (u : result unit) s :
  skill_fine ast = true -> Forall (fun rc => contract_fine rc.2 = true) tools ->
  ((inputs ← map_M (lower_input sources) (as_inputs ast);
   contexts ← map_M (lower_context sources) (as_contexts ast);
   _ ← lift u;
   body ← _lower_block sources (tools_of tools) (as_body ast) (output_fields ast);
   mret (inputs, contexts, body)) : M lowerer (list InputSpec * list ContextSpec * list Statement)) (Lowerer [] new_SymbolTable) = (Ok (inputs, contexts, body), s) ->
  let g := map input_entry inputs ++ map context_entry contexts in
  let symbols := map symbol_spec (st_bindings (lo_symbol_table s)) in
  NoDup (map sym_symbol_id symbols) /\ forallb (fun i => type_wf (sym_type_info i)) symbols = true
  /\ forallb (fun x => type_wf x.2.1) g = true
  /\ Forall (fun x => declares symbols x.1 "INPUT" x.2.1 x.2.2) (map input_entry inputs)
  /\ Forall (fun x => declares symbols x.1 "CONTEXT" x.2.1 x.2.2) (map context_entry contexts)
  /\ forallb statement_ok body = true
  /\ exists g', typed tools symbols (output_fields ast) g body g'.
Proof.
  intros Hf Ht H. cbv zeta. unfold skill_fine in Hf. split_bool.
  apply M_bind_Ok in H as (ins & s1 & H1' & H). apply M_bind_Ok in H as (cs & s2 & H2' & H).
  apply M_bind_Ok in H as (v & s3 & H3' & H). injection H3' as _ <-.
  apply M_bind_Ok in H as (b & s4 & H4' & H). injection H as -> -> -> ->.
  pose proof (specs_run sources "INPUT" input_of input_entry (fun _ _ => eq_refl) _ _ _ _ H1') as K1.
  pose proof (specs_run sources "CONTEXT" context_of context_entry (fun _ _ => eq_refl) _ _ _ _ H2') as K2.
  cbv zeta in K1, K2.
  destruct K1 as (W1 & I1 & S1 & T1 & bs1 & B1 & D1); [done | constructor |].
  destruct K2 as (W2 & I2 & S2 & T2 & bs2 & B2 & D2); [done | done |].
  assert (lowers tools (map symbol_spec (st_bindings (lo_symbol_table s))) (output_fields ast)
    (lo_symbol_table s2) (lo_symbol_table s) body) as [F3 (bs3 & B3) I3 W3 O3 G3].
  { eapply (map_block sources tools (tools_of tools)); [| exact W2 | exact H4'].
    apply Forall_forall. intros a Ha. eapply lower_statement_run; [| by eapply forallb_elem].
    intros id rc E. apply assoc_elem, dict_by_elem in E as [E _]. split; [done |].
    rewrite Forall_forall in Ht. by apply Ht. }
  assert (ids_counted (lo_symbol_table s)) as [Hids Htypes] by (apply I3, I2, I1; done).
  change (st_bindings (lo_symbol_table {| lo_node_counters := []; lo_symbol_table := new_SymbolTable |}))
    with (@nil SymbolBinding) in B1. cbn [app] in B1.
  split; [| split; [by rewrite forallb_map |]].
  { rewrite map_map. by apply ids_distinct. }
  split; [by rewrite forallb_app, T1, T2 |].
  split; [apply D1; rewrite B3, B2, B1, !map_app; intros x; rewrite !elem_of_app; tauto |].
  split; [apply D2; rewrite B3, B2, !map_app; intros x; rewrite !elem_of_app; tauto |].
  split; [done |].
  destruct (G3 (reflexivity _) (map input_entry inputs ++ map context_entry contexts)) as (g' & Hg & _).
  { intros x Hx%S2. rewrite elem_of_app in *. destruct Hx as [Hx|Hx]; [by right |].
    apply S1 in Hx. rewrite elem_of_app in Hx. destruct Hx as [Hx|Hx]; [by left | by apply elem_of_nil in Hx]. }
  by exists g'.
Qed.

Lemma lower_run catalog sources ast approvals build s safety :
  catalog_fine catalog -> skill_fine ast = true ->
  lower catalog sources ast approvals build = Ok (s, safety) -> lowering catalog ast build s.
Proof.
  intros Hcat Hf H. unfold lower in H. apply bind_Ok in H as (profile & Hp & H).
  apply bind_Ok in H as (contracts & Hc & H). apply bind_Ok in H as (ws & _ & H).
  apply bind_Ok in H as (tools & Ht & H). destruct (as_limits ast) as [l|] eqn:El; [| discriminate].
  match type of H with context [(?m (Lowerer [] new_SymbolTable))] =>
    destruct (m (Lowerer [] new_SymbolTable)) as [[[[inputs contexts] body]|e] st] eqn:Em end;
    [| discriminate].
  cbn [mbind result_bind] in H. apply bind_Ok in H as (analysis & Ha%static_analysis_Ok & H).
  apply bind_Ok in H as (u & Hb%check_bounds_Ok & H). injection H as <- <-.
  apply profile_known in Hp as [_ Hp].
  apply contracts_run in Hc as [Hc _].
  assert ((as_language_version ast, profile) ∈ _LANGUAGE_LOWERING_PROFILES) as Hprof.
  { change (@map) with (@fmap list _) in Hp. apply list_elem_of_fmap in Hp as ([v q] & [= -> ->] & Hp). exact Hp. }
  assert (lp_ir_version profile = "1.1" \/ lp_source_language_version profile = "0.1") as Hv.
  { clear -Hprof. unfold _LANGUAGE_LOWERING_PROFILES in Hprof.
    apply elem_of_cons in Hprof as [[= _ ->]|Hprof]; [by right |].
    apply list_elem_of_singleton in Hprof as [= _ ->]. by left. }
  pose proof (requirements_run _ _ _ _ _ _ Hv Hc Ht) as Hreq.
  assert (Forall (fun rc => contract_fine rc.2 = true) tools) as Hfine.
  { clear -Hreq Hcat. induction Hreq as [|d [r c] ds rs H _ IH]; constructor; [| done].
    destruct H as ((H & _) & _). by eapply Hcat. }
  destruct (lower_parts sources ast tools inputs contexts body _ st Hf Hfine Em)
    as (L1 & L2 & L3 & L4 & L5 & L6 & L7).
  rewrite forallb_app, !forallb_map in L3. apply andb_prop in L3 as [L3 L3'].
  split.
  - exists profile, tools. split; [done |]. split; [done |]. split; [done |]. split; [done |].
    by split.
  - cbn. cbn in L3, L3'. rewrite L2, L3, L3', L6. unfold output_fields. rewrite forallb_map.
    unfold skill_fine in Hf.
    apply andb_prop in Hf as [Hf _]. apply andb_prop in Hf as [_ Ho]. unfold spec_fine in Ho.
    cbn. by rewrite Ho.
  - by exists l.
  - done.
Qed.

(** ** What a Skill holds does not depend on its hash *)

Lemma lowering_hash catalog ast build s : lowering catalog ast build s ->
  lowering catalog ast build (with_computed_hash s).
Proof.
  intros [(p & tools & H1 & H2 & H3 & H4 & [W1 W2 W3 W4]) T B D]. destruct s. split; [| done ..].
  exists p, tools. do 4 (split; [done |]). by split.
Qed.

(** ** [NslCompiler.compile] *)

Lemma rehash s : with_computed_hash (with_computed_hash s) = with_computed_hash s.
Proof. by destruct s. Qed.

Lemma compilation_unit_fine c f ast u : compilation_unit c f ast = Ok u ->
  skill_fine ast = true -> skill_fine u.1.1.1 = true.
Proof.
  unfold compilation_unit. intros H Hf.
  destruct (as_includes ast); [by injection H as <- |].
  destruct (co_include_resolver c) as [resolver|]; [| by injection H as <-].
  apply bind_Ok in H as (b & Hb & H). apply bind_Ok in H as (s & Hs & H). injection H as <-. cbn.
  destruct (build_bundle resolver (co_include_options c) f) as [rb calls] eqn:E. cbn in Hb. subst rb.
  apply bundle_fine in E as [E1 E2]. by eapply compose_fine.
Qed.

Lemma compile_run c source r : catalog_fine (co_tool_catalog c) -> compile c source = Ok r ->
  exists ast, lowering (co_tool_catalog c) ast (build_metadata (cr_source_manifest r)) (cr_skill r)
    /\ nso_encode (cr_skill r) = Ok (cr_nso_bytes r) /\ with_computed_hash (cr_skill r) = cr_skill r
    /\ cr_semantic_hash r = sk_semantic_hash (cr_skill r)
    /\ cr_source_bundle_hash r = bm_source_bundle_sha256 (sk_build (cr_skill r)).
Proof.
  intros Hcat H. unfold compile in H. apply bind_Ok in H as (f & _ & H).
  apply bind_Ok in H as (ts & Hts%tokenize_root_fine & H).
  apply bind_Ok in H as (x & Hx%parse_fine & H); [| done]. destruct x as [ast|g]; [| discriminate].
  apply bind_Ok in H as (u & Hu & H). apply compilation_unit_fine in Hu; [| exact Hx].
  destruct u as [[[ast' manifest] edges] sources]. cbn in Hu.
  apply bind_Ok in H as (approvals & _ & H). apply bind_Ok in H as ([s safety] & Hl & H).
  apply bind_Ok in H as (bytes & He & H). injection H as <-. cbn [fst] in *.
  apply lower_run, lowering_hash in Hl; [| done | done]. exists ast'. cbn [cr_skill cr_nso_bytes
    cr_source_manifest cr_semantic_hash cr_source_bundle_hash].
  split; [done |]. split; [done |]. split; [apply rehash |]. split; [done |].
  by rewrite (lo_build _ _ _ _ Hl).
Qed.

(** The schema admits no capability but the known ones. *)
Lemma encoded_capabilities s data r : nso_encode s = Ok data -> r ∈ sk_required_tools s ->
  is_Some (ToolCapability_of (capability_str (rt_capability r))).
Proof.
  intros H Hr. unfold nso_encode in H. apply bind_Ok in H as (u & _ & H).
  apply bind_Ok in H as ([] & Hv & _). unfold validate_nso_document in Hv.
  apply bind_Ok in Hv as (d & Ed%object_is & Hv).
  apply bind_Ok in Hv as (u1 & _ & Hv). apply bind_Ok in Hv as (ir & _ & Hv).
  do 8 apply bind_Ok in Hv as (? & _ & Hv). apply bind_Ok in Hv as (u2 & Ht & _).
  apply each_item_Ok in Ht as (l & El & Ht).
  assert (l = map (required_tool_to_data (sk_ir_version s)) (sk_required_tools s)) as ->.
  { cut (JArr (map (required_tool_to_data (sk_ir_version s)) (sk_required_tools s)) = JArr l); [congruence |].
    rewrite <- El, <- (f_equal object_of Ed : object_of (skill_to_data s true true) = d). reflexivity. }
  apply list_elem_of_lookup in Hr as [j Hj].
  specialize (Ht j (required_tool_to_data (sk_ir_version s) r)). rewrite list_lookup_fmap, Hj in Ht.
  specialize (Ht eq_refl). apply bind_Ok in Ht as (d' & Ed'%object_is & Ht).
  apply bind_Ok in Ht as (u3 & _ & Ht). apply bind_Ok in Ht as (cap & Hc & _).
  apply bind_Ok in Hc as (i & Hi & Hc).
  apply bind_Ok in Hc as (u4 & Hin%schema_if_Ok & _). 
  rewrite <- (f_equal object_of Ed' : object_of (required_tool_to_data (sk_ir_version s) r) = d') in Hi.
  change (_string (capability_to_data (rt_capability r)) (at_index ("$" +:+ "." +:+ "requires") j +:+ ".capability") = Ok i) in Hi.
  split_bool. assert (capability_str (rt_capability r) = i) as ->.
  { destruct (rt_capability r); cbn [capability_to_data] in Hi; apply bind_Ok in Hi as (? & _ & [= <-]); done. }
  unfold TOOL_CAPABILITIES in Hin. rewrite !elem_of_cons in Hin.
  destruct Hin as [-> | [-> | [-> | Hin%elem_of_nil]]]; [by eexists .. | done].
Qed.

(** The Skill of a lowering that the schema admits can be read back. *)
Lemma lowering_ok catalog ast build s data : lowering catalog ast build s ->
  nso_encode s = Ok data -> skill_ok s = true.
Proof.
  intros [(profile & tools & Hr & _ & Hv & Ht & _) Hl _ _] He. unfold skill_ok.
  apply andb_prop in Hl as [Hl H5]. apply andb_prop in Hl as [Hl H4].
  apply andb_prop in Hl as [Hl H3]. apply andb_prop in Hl as [H1 H2].
  rewrite H1, H2, H3, H4, H5, !andb_true_r. cbn [andb]. apply forallb_forall.
  intros r Hin%list_elem_of_In. pose proof (encoded_capabilities _ _ _ He Hin) as Hc.
  rewrite <- Ht in Hin. change (@map) with (@fmap list _) in Hin.
  apply list_elem_of_fmap in Hin as ([r' c] & -> & Hin). cbn [fst] in *.
  apply list_elem_of_lookup in Hin as [j Hj].
  destruct (Forall2_lookup_r _ _ _ _ _ Hr Hj) as (d & _ & Hd).
  destruct Hd as (_ & _ & _ & _ & _ & _ & _ & Hd). rewrite Hv.
  destruct (rt_capability r') as [|o]; [done |]. exfalso. apply (is_Some_None (A := ToolCapability)).
  rewrite <- Hd. exact Hc.
Qed.

Lemma compiled_ok c source r : catalog_fine (co_tool_catalog c) -> compile c source = Ok r ->
  skill_ok (cr_skill r) = true /\ hashes_ok (cr_skill r).
Proof.
  intros Hc H. apply compile_run in H as (ast & Hl & He & Hh & _); [| done].
  split; [by eapply lowering_ok |]. split; [done |]. by rewrite (lo_build _ _ _ _ Hl).
Qed.

(** The required tool [r] is the one of the contract [k] in the catalog. *)
Definition pinned (catalog : ToolContractCatalog) (rc : RequiredTool * ToolContract) : Prop :=
  catalog !! (rt_tool_id rc.1, rt_version rc.1) = Some rc.2
  /\ rt_contract_hash rc.1 = contract_hash rc.2
  /\ rt_required_scope rc.1 = tc_required_scope rc.2
  /\ rt_output_classification rc.1 = tc_output_classification rc.2
  /\ capability_str (rt_capability rc.1) = capability_str (tc_capability rc.2).

Lemma requirement_pinned catalog profile d rc : requirement_of catalog profile d rc -> pinned catalog rc.
Proof.
  destruct rc as [r c]. intros ((Hc & _) & Hi & Hv & H1 & H2 & H3 & H4 & _). unfold pinned. cbn.
  by rewrite Hi, Hv.
Qed.

Lemma pinned_all catalog profile ds rcs :
  Forall2 (requirement_of catalog profile) ds rcs -> Forall (pinned catalog) rcs.
Proof. induction 1; constructor; [by eapply requirement_pinned | done]. Qed.

(** C12. What a compiler returns can be loaded. The bytes that [NslCompiler.compile]
    writes decode to the very Skill object it returns next to them: the schema,
    the WRITE links, the semantic hash and the bundle hash that the decoder
    checks all accept the result of a compilation, whatever the source, the
    includes and the catalog (if its types were built by the constructor of
    [TypeRef]). The hashes of the result are those of the Skill, and the Skill
    is within the WRITE discipline: every approval is used by one WRITE that
    comes after it, outside all loops, and calls a WRITE tool. *)
Theorem compiled_artifact_loads (c : NslCompiler) (source : string + SourceFile)
    (r : CompilationResult) :
  catalog_fine (co_tool_catalog c) -> compile c source = Ok r ->
  nso_decode (cr_nso_bytes r) = Ok (cr_skill r)
  /\ with_computed_hash (cr_skill r) = cr_skill r
  /\ cr_semantic_hash r = sk_semantic_hash (cr_skill r)
  /\ cr_source_bundle_hash r = bm_source_bundle_sha256 (sk_build (cr_skill r))
  /\ write_discipline (cr_skill r)
  /\ (sk_ir_version (cr_skill r) = "1.0" -> skill_sites (cr_skill r) = []).
Proof.
  intros Hc H. destruct (compiled_ok _ _ _ Hc H) as [Hok Hh].
  destruct (compile_run _ _ _ Hc H) as (ast & _ & He & Hs & E1 & E2).
  assert (nso_decode (cr_nso_bytes r) = Ok (cr_skill r)) as Hd by by apply decode_encoded_skill.
  destruct (decoded_disciplined _ _ Hd) as (Hw & _ & Hv). split; [done |].
  do 4 (split; [done |]). done.
Qed.

(** C11. A compiled Skill is well typed. Its required tools are, one for one,
    contracts of the catalog: id, version, hash, scope, classification and
    capability. Its symbols have distinct ids; inputs and contexts are
    declared symbols; and its body is typed by the rules of [Typing]: a
    reference has the type and classification of the symbol in scope, a call
    passes exactly the arguments its contract asks for and gives a value of the
    contract's type, operators and builtins are applied at operand types they
    are defined at, conditions are Booleans, loops run over lists, and an emitted
    record has exactly the fields of the output, each at its type and of no
    higher classification than declared. *)
Theorem compiled_well_typed (c : NslCompiler) (source : string + SourceFile)
    (r : CompilationResult) :
  catalog_fine (co_tool_catalog c) -> compile c source = Ok r ->
  exists tools, map fst tools = sk_required_tools (cr_skill r)
    /\ Forall (pinned (co_tool_catalog c)) tools
    /\ well_typed tools (cr_skill r).
Proof.
  intros Hc H. destruct (compile_run _ _ _ Hc H) as (ast & [(p & tools & Hr & _ & _ & Ht & Hw) _ _ _] & _).
  exists tools. split; [done |]. split; [by eapply pinned_all | done].
Qed.

(** C13. A compiled Skill stays within its limits. The limits of the Skill bound the
    counts of its static analysis, which the Skill carries; hence running its
    body, whatever the tools and the ports answer and whether it ends or
    raises, makes no more tool calls, loop iterations and emitted records than
    the source declares. *)
Theorem compiled_within_limits (c : NslCompiler) (source : string + SourceFile)
    (r : CompilationResult) (ports : EnginePorts) (engine : RuntimeEngine) (tools : ToolRunner)
    (mc : Machine) :
  catalog_fine (co_tool_catalog c) -> compile c source = Ok r -> runner ports tools ->
  let s := cr_skill r in
  let mc' := (_execute_block ports engine tools (sk_body s) mc).2 in
  let before := ctx_resources (mc_ctx mc) in
  let after := ctx_resources (mc_ctx mc') in
  Bounds.analyze (sk_body s) = Ok (sk_analysis s)
  /\ (tool_calls after <= tool_calls before + lim_tool_calls (sk_limits s))%Z
  /\ (tool_call_count (mc_calls mc') <= tool_call_count (mc_calls mc) + lim_tool_calls (sk_limits s))%Z
  /\ (loop_iterations after <= loop_iterations before + lim_loop_iterations (sk_limits s))%Z
  /\ (emitted_rows after <= emitted_rows before + lim_emitted_rows (sk_limits s))%Z.
Proof.
  intros Hc H Hr. cbv zeta.
  destruct (compile_run _ _ _ Hc H) as (ast & [_ _ (l & _ & El & Ha & H1 & H2 & H3) _] & _).
  pose proof (analyzed_costs ports engine tools (sk_body (cr_skill r)) (sk_analysis (cr_skill r)) mc Hr Ha)
    as Hcost. cbv zeta in Hcost. split; [done |]. rewrite El. unfold resource_limits.
  cbn [lim_tool_calls lim_loop_iterations lim_emitted_rows]. lia.
Qed.

(** ** A compilation *)

Definition stock_catalog : ToolContractCatalog :=
  {[contract_key example_read_contract := example_read_contract]}.

Definition stock_compiler : NslCompiler := MkNslCompiler stock_catalog None default_IncludeOptions.

Definition stock_source : SourceFile := MkSourceFile "id" "a.ns" (quoted_text
  "language NSL '0.1'; skill a { version '1'; risk READ_VALIDATE; requires { tool erp.get_stock version '1.0.0'; } limits { tool_calls 1; loop_iterations 2; emitted_rows 2; collection_size 9; } output { n: Int classification INTERNAL; } let n = read erp.get_stock(item: 'bolt'); emit { n: n + 1; } }") "utf-8".

Lemma stock_compiles : is_Ok (compile stock_compiler (inr stock_source)) = true.
Proof. vm_cast_no_check (eq_refl true). Qed.

Lemma stock_catalog_fine : catalog_fine stock_catalog.
Proof. intros key c H. unfold stock_catalog in H. by apply lookup_singleton_Some in H as [<- <-]. Qed.

Lemma stock_compiled : exists r, compile stock_compiler (inr stock_source) = Ok r.
Proof.
  pose proof stock_compiles as H. destruct (compile stock_compiler (inr stock_source)) as [r|e]; [| done].
  by exists r.
Qed.

Lemma compiled_artifact_loads_witness :
  exists r, compile stock_compiler (inr stock_source) = Ok r
    /\ nso_decode (cr_nso_bytes r) = Ok (cr_skill r).
Proof.
  destruct stock_compiled as [r H]. exists r. split; [exact H |].
  exact (proj1 (compiled_artifact_loads stock_compiler (inr stock_source) r stock_catalog_fine H)).
Defined.

Lemma compiled_well_typed_witness :
  exists r tools, compile stock_compiler (inr stock_source) = Ok r
    /\ well_typed tools (cr_skill r).
Proof.
  destruct stock_compiled as [r H]. exists r.
  destruct (compiled_well_typed stock_compiler (inr stock_source) r stock_catalog_fine H)
    as (tools & _ & _ & Hw).
  exists tools. split; [exact H | exact Hw].
Defined.

Lemma compiled_within_limits_witness :
  exists r, compile stock_compiler (inr stock_source) = Ok r
    /\ Bounds.analyze (sk_body (cr_skill r)) = Ok (sk_analysis (cr_skill r)).
Proof.
  destruct stock_compiled as [r H]. exists r. split; [exact H |].
  exact (proj1 (compiled_within_limits stock_compiler (inr stock_source) r stock_ports stock_engine
    (measuring_execute stock_ports) (stock_machine stock_skill) stock_catalog_fine H
    (MeasuringRunner stock_ports))).
Defined.
