(* ===== verification/Trust.v ===== *)
(** * Package trust and the preflight of WRITE executions
    ([src/nsl/trust.py], [src/nsl/preflight.py])

    The evidence that a package was verified, the profile an environment
    executes under, and the validator that admits a Skill artifact under a
    profile; what it admits is exactly the declarative [admissible]. *)

From S2P Require Import Prelude Digest Json Decimal Core Values DataProtection Ir NsoSchema NsoCodec.
From S2P Require Import Security AuditTrail Artifacts Discipline Runtime HashTexts.

(** ** Evidence ([trust.py]) *)

Inductive TrustStatus : Type := TRUST_VERIFIED | TRUST_UNVERIFIED | TRUST_REVOKED.

#[export] Instance trust_status_eq_dec : EqDecision TrustStatus.
Proof. solve_decision. Defined.

Notation trust_text := (required_text PackageTrustError).
Notation trust_sha256 := (sha256_text PackageTrustError).

Definition package_id_for (package_hash : string) : result string :=
  digest ← trust_sha256 package_hash "package_hash"; Ok ("nsp:" +:+ digest)%string.

Record PackageTrustEvidence : Type := MkPackageTrustEvidence {
  te_package_id : string;
  te_package_hash : string;
  te_publisher_id : string;
  te_signing_key_id : string;
  te_verified_at : datetime;
  te_trust_status : TrustStatus;
  te_trust_policy_id : string
}.

(** The instant is aware and in UTC. *)
Definition in_utc (d : datetime) : bool := bool_decide (dt_utcoffset d = Some 0%Z).

(** [PackageTrustEvidence.__post_init__] *)
Definition PackageTrustEvidence_post_init (t : PackageTrustEvidence) : result unit :=
  package_hash ← trust_sha256 (te_package_hash t) "package_hash";
  package_id ← package_id_for package_hash;
  _ ← raise_if (negb (String.eqb (te_package_id t) package_id)) PackageTrustError
        "package_id does not match package_hash";
  _ ← trust_text (te_publisher_id t) "publisher_id";
  _ ← trust_text (te_signing_key_id t) "signing_key_id";
  _ ← trust_text (te_trust_policy_id t) "trust_policy_id";
  raise_if (negb (in_utc (te_verified_at t))) PackageTrustError
    "verified_at must use timezone-aware UTC".

(** [PackageTrustEvidence.verified] *)
Definition trust_verified (package_hash publisher_id signing_key_id : string)
    (verified_at : datetime) (trust_policy_id : string) : result PackageTrustEvidence :=
  package_id ← package_id_for package_hash;
  let t := MkPackageTrustEvidence package_id package_hash publisher_id signing_key_id verified_at
             TRUST_VERIFIED trust_policy_id in
  _ ← PackageTrustEvidence_post_init t;
  Ok t.

Record VerifiedSkillArtifact : Type := MkVerifiedSkillArtifact {
  va_skill : SkillObject;
  va_artifact_hash : string;
  va_trust : option PackageTrustEvidence
}.

(** [try: r / except ValueError: raise error] *)
Definition except_value_error {A} (r : result A) (error : exn) : result A :=
  match r with
  | Ok x => Ok x
  | Err e => if isinstance_exn (ex_class e) ValueError then Err error else Err e
  end.

(** [VerifiedSkillArtifact.__post_init__] *)
Definition VerifiedSkillArtifact_post_init (a : VerifiedSkillArtifact) : result unit :=
  artifact_hash ← trust_sha256 (va_artifact_hash a) "artifact_hash";
  canonical_artifact ← except_value_error (nso_encode (va_skill a))
    (Exn PackageTrustError "" "skill is not a valid canonical Skill artifact");
  raise_if (negb (String.eqb artifact_hash (sha256_ref canonical_artifact))) PackageTrustError
    "artifact_hash does not match the canonical Skill artifact".

(** ** Profiles ([preflight.py]) *)

Definition MAX_TRUST_AGE_SECONDS : Z := 31536000.

Notation preflight_text := (required_text ValueError).
Notation preflight_sha256 := (sha256_text ValueError).

(** [_utc_instant] *)
Definition _utc_instant (d : datetime) (name : string) : result datetime :=
  _ ← raise_if (negb (in_utc d)) ValueError (name +:+ " must use timezone-aware UTC"); Ok d.

(** [_identity_set]: the credential check visits texts, dicts, lists and
    tuples, and finds nothing in a frozenset. *)
Definition _identity_set (ids : gset string) (name : string) : result (gset string) :=
  _ ← raise_if (negb (forallb non_blank (elements ids))) TypeError
        (name +:+ " must be a frozenset of non-empty strings");
  Ok ids.

Record ExecutionTrustProfile : Type := MkExecutionTrustProfile {
  tp_tenant_id : string;
  tp_environment : RuntimeEnvironment;
  tp_trust_policy_id : option string;
  tp_expected_package_id : option string;
  tp_expected_artifact_hash : option string;
  tp_expected_semantic_hash : option string;
  tp_trusted_publisher_ids : gset string;
  tp_trusted_signing_key_ids : gset string;
  tp_max_trust_age_seconds : option Z;
  tp_allow_unsigned_development : bool
}.

(** A text that must not be [None]. *)
Definition present_text (v : option string) (name : string) : result string :=
  match v with
  | Some s => preflight_text s name
  | None => raise ValueError (name +:+ " must be a non-empty string")
  end.

Definition present_sha256 (v : option string) (name : string) : result string :=
  match v with
  | Some s => preflight_sha256 s name
  | None => raise ValueError (name +:+ " must be a non-empty string")
  end.

Definition optional_sha256 (v : option string) (name : string) : result (option string) :=
  match v with Some s => s ← preflight_sha256 s name; Ok (Some s) | None => Ok None end.

Definition trust_age_ok (age : option Z) : bool :=
  match age with Some n => (1 <=? n)%Z && (n <=? MAX_TRUST_AGE_SECONDS)%Z | None => true end.

(** [ExecutionTrustProfile.__post_init__] *)
Definition ExecutionTrustProfile_post_init (p : ExecutionTrustProfile) : result unit :=
  _ ← preflight_text (tp_tenant_id p) "tenant_id";
  publishers ← _identity_set (tp_trusted_publisher_ids p) "trusted_publisher_ids";
  signing_keys ← _identity_set (tp_trusted_signing_key_ids p) "trusted_signing_key_ids";
  _ ← raise_if (negb (trust_age_ok (tp_max_trust_age_seconds p))) ValueError
        ("max_trust_age_seconds must be between 1 and " +:+ str_of_Z MAX_TRUST_AGE_SECONDS);
  if bool_decide (tp_environment p = PRODUCTION) then
    _ ← present_text (tp_trust_policy_id p) "trust_policy_id";
    _ ← present_text (tp_expected_package_id p) "expected_package_id";
    _ ← present_sha256 (tp_expected_artifact_hash p) "expected_artifact_hash";
    _ ← present_sha256 (tp_expected_semantic_hash p) "expected_semantic_hash";
    _ ← raise_if (bool_decide (publishers = ∅)) ValueError
          "Production trusted_publisher_ids cannot be empty";
    _ ← raise_if (bool_decide (signing_keys = ∅)) ValueError
          "Production trusted_signing_key_ids cannot be empty";
    _ ← raise_if (bool_decide (tp_max_trust_age_seconds p = None)) ValueError
          "Production max_trust_age_seconds must be explicit";
    raise_if (tp_allow_unsigned_development p) ValueError
      "Production cannot allow unsigned development artifacts"
  else
    _ ← optional_text ValueError (tp_trust_policy_id p) "trust_policy_id";
    _ ← optional_text ValueError (tp_expected_package_id p) "expected_package_id";
    _ ← optional_sha256 (tp_expected_artifact_hash p) "expected_artifact_hash";
    _ ← optional_sha256 (tp_expected_semantic_hash p) "expected_semantic_hash";
    Ok tt.

Definition new_profile (p : ExecutionTrustProfile) : result ExecutionTrustProfile :=
  _ ← ExecutionTrustProfile_post_init p; Ok p.

(** [ExecutionTrustProfile.production] *)
Definition production_profile (tenant_id trust_policy_id expected_package_id expected_artifact_hash
    expected_semantic_hash : string) (trusted_publisher_ids trusted_signing_key_ids : gset string)
    (max_trust_age_seconds : Z) : result ExecutionTrustProfile :=
  new_profile (MkExecutionTrustProfile tenant_id PRODUCTION (Some trust_policy_id)
    (Some expected_package_id) (Some expected_artifact_hash) (Some expected_semantic_hash)
    trusted_publisher_ids trusted_signing_key_ids (Some max_trust_age_seconds) false).

(** [ExecutionTrustProfile.development] *)
Definition development_profile (tenant_id : string) (allow_unsigned : bool)
  : result ExecutionTrustProfile :=
  new_profile (MkExecutionTrustProfile tenant_id DEVELOPMENT None None None None ∅ ∅ None
    allow_unsigned).

(** ** The validator *)

Inductive TrustPreflightStatus : Type := PREFLIGHT_VERIFIED | PREFLIGHT_NOT_REQUIRED.

Record TrustPreflightEvidence : Type := MkTrustPreflightEvidence {
  tv_tenant_id : string;
  tv_environment : RuntimeEnvironment;
  tv_status : TrustPreflightStatus;
  tv_checked_at : datetime;
  tv_artifact_hash : string;
  tv_skill_semantic_hash : string;
  tv_package_id : option string;
  tv_trust_policy_id : option string
}.

(** [TrustPreflightEvidence.__post_init__] *)
Definition new_TrustPreflightEvidence (e : TrustPreflightEvidence) : result TrustPreflightEvidence :=
  _ ← preflight_text (tv_tenant_id e) "tenant_id";
  _ ← _utc_instant (tv_checked_at e) "checked_at";
  _ ← preflight_sha256 (tv_artifact_hash e) "artifact_hash";
  _ ← preflight_sha256 (tv_skill_semantic_hash e) "skill_semantic_hash";
  _ ← optional_text ValueError (tv_package_id e) "package_id";
  _ ← optional_text ValueError (tv_trust_policy_id e) "trust_policy_id";
  Ok e.

(** [_blocked] *)
Definition blocked_if (b : bool) (reason_code message : string) : result unit :=
  if b then Err (Exn TrustPreflightError reason_code message) else Ok tt.

(** [_contains_write]: the order in which the statements are visited does not
    matter. *)
Fixpoint statement_writes (s : Statement) : bool :=
  match s with
  | LetStatement _ _ (WriteExpr _ _ _ _ _) => true
  | ForeachStatement _ _ _ _ body => existsb statement_writes body
  | _ => false
  end.

Definition _contains_write (skill : SkillObject) : bool :=
  existsb (fun r => bool_decide (rt_capability r = Capability WRITE)) (sk_required_tools skill)
  || existsb statement_writes (sk_body skill).

(** [_validate_artifact_identity] *)
Definition _validate_artifact_identity (a : VerifiedSkillArtifact) : result unit :=
  canonical ← except_value_error (nso_encode (va_skill a))
    (Exn TrustPreflightError "ARTIFACT_INVALID" "Skill artifact is not canonical");
  let semantic_hash := sk_semantic_hash (with_computed_hash (va_skill a)) in
  _ ← blocked_if (negb (String.eqb (va_artifact_hash a) (sha256_ref canonical)))
        "ARTIFACT_HASH_MISMATCH" "Skill artifact hash does not match canonical content";
  blocked_if (negb (String.eqb (sk_semantic_hash (va_skill a)) semantic_hash))
    "SEMANTIC_HASH_MISMATCH" "Skill semantic hash does not match canonical semantics".

(** The profile expects nothing or this. *)
Definition expects (expected : option string) (actual : string) : bool :=
  match expected with Some e => String.eqb actual e | None => true end.

(** The profile trusts anyone or this one. *)
Definition trusts (ids : gset string) (id : string) : bool :=
  bool_decide (ids = ∅) || bool_decide (id ∈ ids).

(** [t + timedelta(seconds=n)]; the last representable day is 9999-12-31. *)
Definition add_seconds (t : datetime) (n : Z) : result datetime :=
  let wall := (dt_wall t + n * 1000000)%Z in
  if (wall <? 3652059 * us_per_day)%Z then Ok (MkDatetime wall (dt_utcoffset t))
  else raise ArithmeticError "date value out of range".

(** [_validate_trust_identity] *)
Definition _validate_trust_identity (a : VerifiedSkillArtifact) (t : PackageTrustEvidence)
    (p : ExecutionTrustProfile) (checked_at : datetime) : result unit :=
  _ ← blocked_if (negb (bool_decide (te_trust_status t = TRUST_VERIFIED))) "TRUST_NOT_VERIFIED"
        "package trust evidence is not verified";
  package_id ← package_id_for (te_package_hash t);
  _ ← blocked_if (negb (String.eqb (te_package_id t) package_id)) "PACKAGE_ID_MISMATCH"
        "package trust identity is inconsistent";
  _ ← blocked_if (negb (expects (tp_expected_package_id p) (te_package_id t)))
        "PACKAGE_BINDING_MISMATCH" "package trust evidence does not match the execution profile";
  _ ← blocked_if (negb (expects (tp_expected_artifact_hash p) (va_artifact_hash a)))
        "ARTIFACT_BINDING_MISMATCH" "artifact does not match the execution profile";
  _ ← blocked_if (negb (expects (tp_expected_semantic_hash p) (sk_semantic_hash (va_skill a))))
        "SEMANTIC_BINDING_MISMATCH" "semantic identity does not match the execution profile";
  _ ← blocked_if (negb (expects (tp_trust_policy_id p) (te_trust_policy_id t)))
        "TRUST_POLICY_MISMATCH" "trust policy does not match the execution profile";
  _ ← blocked_if (negb (trusts (tp_trusted_publisher_ids p) (te_publisher_id t)))
        "PUBLISHER_NOT_TRUSTED" "publisher is not trusted by the execution profile";
  _ ← blocked_if (negb (trusts (tp_trusted_signing_key_ids p) (te_signing_key_id t)))
        "SIGNING_KEY_NOT_TRUSTED" "signing key is not trusted by the execution profile";
  _ ← blocked_if (instant checked_at <? instant (te_verified_at t))%Z
        "TRUST_EVIDENCE_FROM_FUTURE" "trust evidence verification time is in the future";
  match tp_max_trust_age_seconds p with
  | None => Ok tt
  | Some age =>
      until ← add_seconds (te_verified_at t) age;
      blocked_if (instant until <=? instant checked_at)%Z "TRUST_EVIDENCE_STALE"
        "trust evidence is no longer current"
  end.

(** [RuntimePreflightValidator.validate] *)
Definition preflight_validate (a : VerifiedSkillArtifact) (p : ExecutionTrustProfile) (now : datetime)
  : result TrustPreflightEvidence :=
  checked_at ← _utc_instant now "now";
  _ ← _validate_artifact_identity a;
  let requires_trust := _contains_write (va_skill a) in
  match va_trust a with
  | None =>
      _ ← blocked_if (bool_decide (tp_environment p = PRODUCTION) && requires_trust)
            "TRUST_EVIDENCE_MISSING" "Production WRITE requires verified package trust evidence";
      _ ← blocked_if (bool_decide (tp_environment p = DEVELOPMENT) && requires_trust
                      && negb (tp_allow_unsigned_development p))
            "UNSIGNED_DEVELOPMENT_NOT_ALLOWED"
            "unsigned development WRITE is not allowed by the profile";
      new_TrustPreflightEvidence (MkTrustPreflightEvidence (tp_tenant_id p) (tp_environment p)
        PREFLIGHT_NOT_REQUIRED checked_at (va_artifact_hash a) (sk_semantic_hash (va_skill a))
        None None)
  | Some t =>
      _ ← _validate_trust_identity a t p checked_at;
      new_TrustPreflightEvidence (MkTrustPreflightEvidence (tp_tenant_id p) (tp_environment p)
        PREFLIGHT_VERIFIED checked_at (va_artifact_hash a) (sk_semantic_hash (va_skill a))
        (Some (te_package_id t)) (Some (te_trust_policy_id t)))
  end.

(** ** What the validator admits *)

(** The evidence [t] covers the artifact under the profile at the instant. *)
Definition trust_covers (a : VerifiedSkillArtifact) (t : PackageTrustEvidence)
    (p : ExecutionTrustProfile) (now : datetime) : Prop :=
  te_trust_status t = TRUST_VERIFIED
  /\ (forall id, tp_expected_package_id p = Some id -> te_package_id t = id)
  /\ (forall h, tp_expected_artifact_hash p = Some h -> va_artifact_hash a = h)
  /\ (forall h, tp_expected_semantic_hash p = Some h -> sk_semantic_hash (va_skill a) = h)
  /\ (forall id, tp_trust_policy_id p = Some id -> te_trust_policy_id t = id)
  /\ (tp_trusted_publisher_ids p <> ∅ -> te_publisher_id t ∈ tp_trusted_publisher_ids p)
  /\ (tp_trusted_signing_key_ids p <> ∅ -> te_signing_key_id t ∈ tp_trusted_signing_key_ids p)
  /\ (instant (te_verified_at t) <= instant now)%Z
  /\ forall age, tp_max_trust_age_seconds p = Some age ->
       exists until, add_seconds (te_verified_at t) age = Ok until
         /\ (instant now < instant until)%Z.

(** The artifact may be executed under the profile at the instant: its hashes
    are those of its content, and it is covered by evidence or, without any,
    writes nothing or is unsigned where development allows it. *)
Definition admissible (a : VerifiedSkillArtifact) (p : ExecutionTrustProfile) (now : datetime) : Prop :=
  dt_utcoffset now = Some 0%Z
  /\ (exists data, nso_encode (va_skill a) = Ok data /\ va_artifact_hash a = sha256_ref data)
  /\ with_computed_hash (va_skill a) = va_skill a
  /\ match va_trust a with
     | Some t => trust_covers a t p now
     | None => _contains_write (va_skill a) = false
               \/ tp_environment p = DEVELOPMENT /\ tp_allow_unsigned_development p = true
     end.

Lemma in_utc_true d : in_utc d = true <-> dt_utcoffset d = Some 0%Z.
Proof. apply bool_decide_eq_true. Qed.

Lemma blocked_if_Ok b code msg u : blocked_if b code msg = Ok u <-> b = false.
Proof. destruct b, u; cbn; split; done. Qed.

Lemma except_value_error_Ok {A} (r : result A) error x : except_value_error r error = Ok x <-> r = Ok x.
Proof.
  destruct r as [y|e]; [done |]. unfold except_value_error.
  destruct (isinstance_exn (ex_class e) ValueError); split; discriminate.
Qed.

Lemma expects_true o s : expects o s = true <-> forall e, o = Some e -> s = e.
Proof.
  destruct o as [e|]; cbn; [| split; done]. rewrite String.eqb_eq. split; [by intros -> e' [= <-] | auto].
Qed.

Lemma trusts_true ids id : trusts ids id = true <-> (ids <> ∅ -> id ∈ ids).
Proof.
  unfold trusts. rewrite orb_true_iff, !bool_decide_eq_true. split; [tauto |].
  intros H. destruct (decide (ids = ∅)); [by left | right; auto].
Qed.

Lemma blocked_step {A} (b : bool) code msg (m : result A) u :
  (_ ← blocked_if b code msg; m) = Ok u <-> b = false /\ m = Ok u.
Proof. destruct b; cbn; [| tauto]. split; [done | by intros []]. Qed.

Lemma set_same_hash s h : sk_semantic_hash s = h -> set_semantic_hash s h = s.
Proof. destruct s. by intros <-. Qed.

Lemma rehashed s : String.eqb (sk_semantic_hash s) (sk_semantic_hash (with_computed_hash s)) = true
  <-> with_computed_hash s = s.
Proof.
  rewrite String.eqb_eq. split; [| by intros ->]. apply set_same_hash.
Qed.

Lemma artifact_identity_Ok a u : _validate_artifact_identity a = Ok u <->
  (exists data, nso_encode (va_skill a) = Ok data /\ va_artifact_hash a = sha256_ref data)
  /\ with_computed_hash (va_skill a) = va_skill a.
Proof.
  unfold _validate_artifact_identity. rewrite bind_Ok. split.
  - intros (data & Hd%except_value_error_Ok & H). cbv zeta in H.
    apply blocked_step in H as [H1 H2%blocked_if_Ok]. apply negb_false_iff in H1, H2.
    apply String.eqb_eq in H1. apply rehashed in H2. eauto.
  - intros [(data & Hd & Hh) Hs]. exists data. split; [by apply except_value_error_Ok |]. cbv zeta.
    apply blocked_step. rewrite Hh, String.eqb_refl. split; [done |]. apply blocked_if_Ok.
    by rewrite (proj2 (rehashed _) Hs).
Qed.

Lemma trust_identity_Ok a t p now u : PackageTrustEvidence_post_init t = Ok tt ->
  _validate_trust_identity a t p now = Ok u <-> trust_covers a t p now.
Proof.
  intros Ht. unfold _validate_trust_identity, trust_covers.
  unfold PackageTrustEvidence_post_init in Ht.
  apply bind_Ok in Ht as (h & [-> _]%sha256_text_iff & Ht). apply bind_Ok in Ht as (id & Hid & Ht).
  apply bind_Ok in Ht as ([] & Heq%raise_if_Ok & _). rewrite blocked_step, negb_false_iff, bool_decide_eq_true.
  rewrite Hid. cbn [mbind result_bind]. rewrite Heq. cbn [blocked_if mbind result_bind].
  rewrite !blocked_step, !negb_false_iff, !expects_true, !trusts_true, Z.ltb_ge.
  destruct u, (tp_max_trust_age_seconds p) as [age|].
  - rewrite bind_Ok. split.
    + intros (H1 & H2 & H3 & H4 & H5 & H6 & H7 & H8 & until & H9 & H10%blocked_if_Ok).
      repeat (split; [done |]). intros age' [= <-]. exists until. split; [done |]. lia.
    + intros (H1 & H2 & H3 & H4 & H5 & H6 & H7 & H8 & H9). repeat (split; [done |]).
      destruct (H9 age eq_refl) as (until & H10 & H11). exists until. split; [done |].
      apply blocked_if_Ok. lia.
  - split; intros H; repeat split; try apply H; done.
Qed.


Definition preflight_evidence (a : VerifiedSkillArtifact) (p : ExecutionTrustProfile) (now : datetime)
  : TrustPreflightEvidence :=
  MkTrustPreflightEvidence (tp_tenant_id p) (tp_environment p)
    match va_trust a with Some _ => PREFLIGHT_VERIFIED | None => PREFLIGHT_NOT_REQUIRED end now
    (va_artifact_hash a) (sk_semantic_hash (va_skill a)) (te_package_id <$> va_trust a)
    (te_trust_policy_id <$> va_trust a).

(** The artifact and the profile were built by their constructors. *)
Definition constructed (a : VerifiedSkillArtifact) (p : ExecutionTrustProfile) : Prop :=
  VerifiedSkillArtifact_post_init a = Ok tt
  /\ (forall t, va_trust a = Some t -> PackageTrustEvidence_post_init t = Ok tt)
  /\ ExecutionTrustProfile_post_init p = Ok tt.

Lemma evidence_texts t : PackageTrustEvidence_post_init t = Ok tt ->
  text_ok (te_package_id t) /\ text_ok (te_trust_policy_id t).
Proof.
  unfold PackageTrustEvidence_post_init. intros H.
  apply bind_Ok in H as (h & [-> [_ Hh]]%sha256_text_iff & H). apply bind_Ok in H as (id & Hid & H).
  apply bind_Ok in H as ([] & He%raise_if_Ok & H). apply negb_false_iff, String.eqb_eq in He as ->.
  do 2 apply bind_Ok in H as (? & _ & H). apply bind_Ok in H as (? & [_ Hp]%required_text_iff & _).
  split; [| done]. apply bind_Ok in Hid as (d & [-> _]%sha256_text_iff & [= <-]).
  by apply (sha256_text_ok "nsp:").
Qed.

Lemma sha256_ok h name : is_sha256_ref h = true -> preflight_sha256 h name = Ok h.
Proof. intros H. apply sha256_text_iff. split; [done |]. split; [by apply (sha256_text_ok "") | done]. Qed.

Lemma optional_ok o name : (forall s, o = Some s -> text_ok s) -> optional_text ValueError o name = Ok o.
Proof. intros H. apply optional_text_iff. split; [done |]. destruct o; [by apply H | done]. Qed.

Lemma new_evidence_Ok e e' : text_ok (tv_tenant_id e) -> is_sha256_ref (tv_artifact_hash e) = true ->
  is_sha256_ref (tv_skill_semantic_hash e) = true -> dt_utcoffset (tv_checked_at e) = Some 0%Z ->
  (forall s, tv_package_id e = Some s -> text_ok s) ->
  (forall s, tv_trust_policy_id e = Some s -> text_ok s) ->
  new_TrustPreflightEvidence e = Ok e' <-> e' = e.
Proof.
  intros H1 H2 H3 H4 H5 H6. unfold new_TrustPreflightEvidence, _utc_instant.
  rewrite (proj2 (required_text_iff _ _ _ _) (conj eq_refl H1)). cbn [mbind result_bind].
  rewrite (proj2 (in_utc_true _) H4). cbn [negb raise_if mbind result_bind].
  rewrite (sha256_ok _ _ H2), (sha256_ok _ _ H3). cbn [mbind result_bind].
  rewrite (optional_ok _ "package_id" H5). cbn [mbind result_bind].
  rewrite (optional_ok _ "trust_policy_id" H6). cbn [mbind result_bind]. split; [by intros [= <-] | by intros ->].
Qed.

Lemma unsigned_allowed env writes allow :
  (bool_decide (env = PRODUCTION) && writes = false
   /\ bool_decide (env = DEVELOPMENT) && writes && negb allow = false)
  <-> (writes = false \/ env = DEVELOPMENT /\ allow = true).
Proof. destruct env, writes, allow; cbn; split; intros H; intuition discriminate. Qed.

Lemma preflight_admits (a : VerifiedSkillArtifact) (p : ExecutionTrustProfile)
    (now : datetime) (e : TrustPreflightEvidence) :
  constructed a p ->
  preflight_validate a p now = Ok e <-> admissible a p now /\ e = preflight_evidence a p now.
Proof.
  intros (Ha & Ht & Hp). apply bind_Ok in Hp as (? & [_ Hp]%required_text_iff & _).
  apply bind_Ok in Ha as (? & [_ [_ Ha]]%sha256_text_iff & _).
  unfold preflight_validate, admissible, _utc_instant. destruct (in_utc now) eqn:Hu.
  2: { cbn. split; [done |]. intros [[H _] _]. apply in_utc_true in H. by rewrite Hu in H. }
  apply in_utc_true in Hu. cbn [negb raise_if mbind result_bind].
  destruct (_validate_artifact_identity a) as [[]|er] eqn:Hi.
  2: { cbn. split; [done |]. intros [(_ & H1 & H2 & _) _].
       by rewrite (proj2 (artifact_identity_Ok a tt) (conj H1 H2)) in Hi. }
  apply artifact_identity_Ok in Hi as [Hi1 Hi2]. cbn [mbind result_bind]. cbv zeta.
  assert (is_sha256_ref (sk_semantic_hash (va_skill a)) = true) as Hs.
  { rewrite <- Hi2. apply sha256_ref_is_ref. }
  destruct (va_trust a) as [t|] eqn:Et.
  - destruct (evidence_texts t (Ht t eq_refl)) as [T1 T2].
    rewrite bind_Ok. unfold preflight_evidence. rewrite Et. cbn [fmap option_fmap option_map]. split.
    + intros (u & H%trust_identity_Ok & He); [| by apply Ht].
      apply new_evidence_Ok in He as ->; [| done .. | by intros s [= <-] | by intros s [= <-]].
      split; [| done]. by do 3 (split; [done |]).
    + intros [(_ & _ & _ & H) ->]. exists tt. split; [apply trust_identity_Ok; [by apply Ht | done] |].
      apply new_evidence_Ok; [done .. | by intros s [= <-] | by intros s [= <-] | done].
  - rewrite !blocked_step, new_evidence_Ok by done. unfold preflight_evidence. rewrite Et.
    cbn [fmap option_fmap option_map].
    pose proof (unsigned_allowed (tp_environment p) (_contains_write (va_skill a))
      (tp_allow_unsigned_development p)) as Hu'. split.
    + intros (H1 & H2 & ->). split; [| done]. do 3 (split; [done |]). by apply Hu'.
    + intros [(_ & _ & _ & [H1 H2]%Hu') ->]. done.
Qed.

(** C25. The validator admits exactly the admissible. For an artifact and a profile
    that their constructors accept, [RuntimePreflightValidator.validate]
    returns evidence if and only if the instant is in UTC, the hashes of the
    artifact are those of its Skill, and it is covered by verified package
    trust, current and bound to everything the profile expects, or, without
    trust, holds no WRITE or is allowed unsigned in development; and the
    evidence it returns says so. *)
Theorem trust_preflight_exact (a : VerifiedSkillArtifact) (p : ExecutionTrustProfile)
    (now : datetime) (e : TrustPreflightEvidence) :
  constructed a p ->
  preflight_validate a p now = Ok e <-> admissible a p now /\ e = preflight_evidence a p now.
Proof. apply preflight_admits. Qed.

(** Any WRITE of a decoded Skill, at any depth, needs a WRITE tool. *)
Lemma decoded_write data s : nso_decode data = Ok s -> existsb is_write (skill_sites s) = true ->
  _contains_write s = true.
Proof.
  intros Hd%decoded_disciplined H. destruct Hd as ([_ Hw _ _] & _ & _).
  apply existsb_exists in H as (x & Hin & Hx). destruct x as [|ap tool inside]; [done |].
  apply in_split in Hin as (pre & post & E). destruct (Hw _ _ _ _ _ E) as (_ & _ & r & Hr & _ & Hc).
  unfold _contains_write. apply orb_true_iff. left. apply existsb_exists. exists r.
  split; [by apply list_elem_of_In | by apply bool_decide_eq_true].
Qed.

Lemma production_complete p : ExecutionTrustProfile_post_init p = Ok tt -> tp_environment p = PRODUCTION ->
  is_Some (tp_trust_policy_id p) /\ is_Some (tp_expected_package_id p)
  /\ is_Some (tp_expected_artifact_hash p) /\ is_Some (tp_expected_semantic_hash p)
  /\ tp_trusted_publisher_ids p <> ∅ /\ tp_trusted_signing_key_ids p <> ∅
  /\ is_Some (tp_max_trust_age_seconds p).
Proof.
  unfold ExecutionTrustProfile_post_init. intros H Hp. rewrite Hp in H. cbn [bool_decide] in H.
  apply bind_Ok in H as (? & _ & H). apply bind_Ok in H as (ps & H1 & H). apply bind_Ok in H as (ks & H2 & H).
  unfold _identity_set in H1, H2. apply bind_Ok in H1 as (? & _ & [= <-]).
  apply bind_Ok in H2 as (? & _ & [= <-]). apply bind_Ok in H as (? & _ & H). 
  rewrite bool_decide_eq_true_2 in H by done.
  unfold present_text, present_sha256 in H.
  apply bind_Ok in H as (? & H3 & H). apply bind_Ok in H as (? & H4 & H).
  apply bind_Ok in H as (? & H5 & H). apply bind_Ok in H as (? & H6 & H).
  apply bind_Ok in H as ([] & H7%raise_if_Ok & H). apply bind_Ok in H as ([] & H8%raise_if_Ok & H).
  apply bind_Ok in H as ([] & H9%raise_if_Ok & H). split_bool.
  destruct (tp_trust_policy_id p), (tp_expected_package_id p), (tp_expected_artifact_hash p),
    (tp_expected_semantic_hash p), (tp_max_trust_age_seconds p); done.
Qed.

Lemma add_seconds_instant t n until : add_seconds t n = Ok until -> instant until = (instant t + n * 1000000)%Z.
Proof.
  unfold add_seconds. destruct (_ <? _)%Z; [| done]. intros [= <-]. unfold instant. cbn. lia.
Qed.

Lemma production_covered (a : VerifiedSkillArtifact) (p : ExecutionTrustProfile)
    (now : datetime) (e : TrustPreflightEvidence) (data : list ascii) :
  constructed a p -> tp_environment p = PRODUCTION ->
  nso_decode data = Ok (va_skill a) -> existsb is_write (skill_sites (va_skill a)) = true ->
  preflight_validate a p now = Ok e ->
  exists t age bytes, va_trust a = Some t /\ tv_status e = PREFLIGHT_VERIFIED
    /\ te_trust_status t = TRUST_VERIFIED
    /\ te_package_id t = ("nsp:" +:+ te_package_hash t)%string
    /\ tp_expected_package_id p = Some (te_package_id t)
    /\ tp_trust_policy_id p = Some (te_trust_policy_id t)
    /\ nso_encode (va_skill a) = Ok bytes
    /\ tp_expected_artifact_hash p = Some (sha256_ref bytes)
    /\ tp_expected_semantic_hash p = Some (sk_semantic_hash (with_computed_hash (va_skill a)))
    /\ te_publisher_id t ∈ tp_trusted_publisher_ids p
    /\ te_signing_key_id t ∈ tp_trusted_signing_key_ids p
    /\ tp_max_trust_age_seconds p = Some age
    /\ (instant (te_verified_at t) <= instant now < instant (te_verified_at t) + age * 1000000)%Z.
Proof.
  intros Hc Hp Hd Hw H. pose proof Hc as (_ & Ht & Hprof).
  apply preflight_admits in H as [(_ & (bytes & Hb & Hh) & Hs & H) ->]; [| done].
  rewrite (decoded_write data _ Hd Hw) in H. unfold preflight_evidence.
  destruct (va_trust a) as [t|]; [| destruct H as [H|[H _]]; [done | by rewrite Hp in H]].
  destruct (production_complete p Hprof Hp) as ([po Hpo] & [id Hid] & [h Hah] & [sh Hsh] & Hpub & Hkey & [age Hage]).
  destruct H as (H1 & H2 & H3 & H4 & H5 & H6 & H7 & H8 & H9).
  destruct (H9 age Hage) as (until & Hu%add_seconds_instant & Hlt). exists t, age, bytes.
  rewrite Hs, (H2 _ Hid), (H4 _ Hsh), (H5 _ Hpo), <- Hh, (H3 _ Hah).
  do 3 (split; [done |]). split; [| repeat (split; [auto |]); lia].
  specialize (Ht t eq_refl). unfold PackageTrustEvidence_post_init in Ht.
  apply bind_Ok in Ht as (h' & [-> _]%sha256_text_iff & Ht). apply bind_Ok in Ht as (id' & Hid' & Ht).
  apply bind_Ok in Ht as ([] & He%raise_if_Ok & _). apply negb_false_iff, String.eqb_eq in He.
  apply bind_Ok in Hid' as (d & [-> _]%sha256_text_iff & [= <-]). by rewrite <- (H2 _ Hid).
Qed.

(** No production WRITE without trust. A Skill that [NsoCodec.decode] returned
    and that has a WRITE anywhere, in whatever expression, passes the preflight
    of a production profile only with package evidence that is verified, for
    the package, policy, artifact bytes and semantic hash that the profile
    names, by a publisher and a key it lists, no older than it allows. *)
Theorem production_write_trusted (a : VerifiedSkillArtifact) (p : ExecutionTrustProfile)
    (now : datetime) (e : TrustPreflightEvidence) (data : list ascii) :
  constructed a p -> tp_environment p = PRODUCTION ->
  nso_decode data = Ok (va_skill a) -> existsb is_write (skill_sites (va_skill a)) = true ->
  preflight_validate a p now = Ok e ->
  exists t age bytes, va_trust a = Some t /\ tv_status e = PREFLIGHT_VERIFIED
    /\ te_trust_status t = TRUST_VERIFIED
    /\ te_package_id t = ("nsp:" +:+ te_package_hash t)%string
    /\ tp_expected_package_id p = Some (te_package_id t)
    /\ tp_trust_policy_id p = Some (te_trust_policy_id t)
    /\ nso_encode (va_skill a) = Ok bytes
    /\ tp_expected_artifact_hash p = Some (sha256_ref bytes)
    /\ tp_expected_semantic_hash p = Some (sk_semantic_hash (with_computed_hash (va_skill a)))
    /\ te_publisher_id t ∈ tp_trusted_publisher_ids p
    /\ te_signing_key_id t ∈ tp_trusted_signing_key_ids p
    /\ tp_max_trust_age_seconds p = Some age
    /\ (instant (te_verified_at t) <= instant now < instant (te_verified_at t) + age * 1000000)%Z.
Proof. apply production_covered. Qed.

(** The credential check of the identity sets is empty: a text that it refuses
    anywhere else is a trusted publisher. *)
Lemma trusted_ids_unchecked :
  let secret := "password=hunter2" in
  is_Ok (preflight_text secret "publisher_id") = false
  /\ is_Ok (production_profile "tenant-1" "policy-1" "nsp:1" po_semantic_hash po_semantic_hash
              {[secret]} {["key-1"]} 60) = true.
Proof. vm_compute. split; reflexivity. Qed.

(** ** A signed purchase order *)

Definition po_artifact_hash : string := Eval vm_compute in
  match nso_encode po_skill with Ok bytes => sha256_ref bytes | Err _ => "" end.

Definition po_trust : PackageTrustEvidence :=
  MkPackageTrustEvidence ("nsp:" +:+ po_manifest_hash) po_manifest_hash "acme" "key-1"
    (MkDatetime 63000000000000000 (Some 0%Z)) TRUST_VERIFIED "policy-1".

Definition po_artifact : VerifiedSkillArtifact :=
  MkVerifiedSkillArtifact po_skill po_artifact_hash (Some po_trust).

Definition po_profile : ExecutionTrustProfile :=
  MkExecutionTrustProfile "tenant-1" PRODUCTION (Some "policy-1") (Some ("nsp:" +:+ po_manifest_hash))
    (Some po_artifact_hash) (Some po_semantic_hash) {["acme"]} {["key-1"]} (Some 3600%Z) false.

Definition po_now : datetime := MkDatetime 63000000001000000 (Some 0%Z).

Lemma po_constructed : constructed po_artifact po_profile.
Proof.
  split; [vm_compute; reflexivity |]. split; [intros t [= <-]; vm_compute; reflexivity |].
  vm_compute. reflexivity.
Qed.

Lemma po_admitted : is_Ok (preflight_validate po_artifact po_profile po_now) = true.
Proof. vm_compute. reflexivity. Qed.

Lemma po_preflight : exists e, preflight_validate po_artifact po_profile po_now = Ok e.
Proof.
  pose proof po_admitted as H. destruct (preflight_validate po_artifact po_profile po_now) as [e|]; [| done].
  by exists e.
Qed.

Lemma trust_preflight_exact_witness :
  admissible po_artifact po_profile po_now
  /\ preflight_validate po_artifact po_profile po_now
     = Ok (preflight_evidence po_artifact po_profile po_now).
Proof.
  destruct po_preflight as [e H].
  destruct (proj1 (trust_preflight_exact po_artifact po_profile po_now e po_constructed) H) as [Ha He].
  split; [exact Ha | rewrite <- He; exact H].
Defined.

Lemma production_write_trusted_witness :
  exists t age, va_trust po_artifact = Some t /\ te_trust_status t = TRUST_VERIFIED
    /\ tp_max_trust_age_seconds po_profile = Some age.
Proof.
  destruct po_preflight as [e H]. pose proof po_encodes as He.
  destruct (nso_encode po_skill) as [data|] eqn:E; [| discriminate He].
  destruct (production_write_trusted po_artifact po_profile po_now e data po_constructed eq_refl
    (decode_encoded_skill po_skill data po_skill_ok po_hashes E) eq_refl H)
    as (t & age & bytes & H1 & _ & H2 & _ & _ & _ & _ & _ & _ & _ & _ & H3 & _).
  exists t, age. split; [exact H1 |]. split; [exact H2 | exact H3].
Defined.
