(* ===== verification/ProtectedSnapshots.v ===== *)
(** * Protected snapshots ([src/nsl/protected_snapshots.py])

    The snapshot store that keeps values of high classification sealed. The
    store holds values of any kind [V] with the hash [hash_of] of
    [audit.value_hash]; the protector that seals and unseals is foreign: a
    record of ports that answer from the number of calls before. *)

From S2P Require Import Prelude Digest Json Decimal Core Values DataProtection Ir Security AuditTrail.

Definition PROTECTED_CLASSIFICATIONS : list DataClassification := [CONFIDENTIAL; RESTRICTED].

Definition is_protected (c : DataClassification) : bool := bool_decide (c ∈ PROTECTED_CLASSIFICATIONS).

Record ProtectedSnapshotBlob : Type := MkProtectedSnapshotBlob {
  pb_ciphertext : bytes;
  pb_algorithm : string;
  pb_key_id : string
}.

(** [s.upper() == NONE]: no letter but the ASCII ones has these capitals. *)
Definition is_none_upper (s : string) : bool :=
  String.eqb (String.string_of_list_ascii (map DataProtection.Regex.lower (chars s))) "none".

(** [ProtectedSnapshotBlob.__post_init__] *)
Definition ProtectedSnapshotBlob_post_init (b : ProtectedSnapshotBlob) : result unit :=
  _ ← raise_if (bool_decide (pb_ciphertext b = [])) ValueError
        "protected snapshot ciphertext must be non-empty bytes";
  _ ← raise_if (negb (non_blank (pb_algorithm b))
                || is_none_upper (pb_algorithm b)) ValueError
        "protected snapshot algorithm must identify encryption";
  raise_if (negb (non_blank (pb_key_id b))) ValueError "protected snapshot key_id must be non-empty".

Section ProtectedSnapshots.
Context {V : Type}.
Variable hash_of : V -> string.

(** [SnapshotProtectionPort]: the calls so far, the value or blob, the tenant
    and the classification; [seal] may return something that is no blob. *)
Record SnapshotProtectionPort : Type := MkSnapshotProtectionPort {
  pp_seal : nat -> V -> string -> DataClassification -> result (option ProtectedSnapshotBlob);
  pp_unseal : nat -> ProtectedSnapshotBlob -> string -> DataClassification -> result V
}.

Record _ProtectedStoredSnapshot : Type := MkProtectedStoredSnapshot {
  ps_tenant_id : string;
  ps_classification : DataClassification;
  ps_reference_hash : string;
  ps_integrity_hash : string;
  ps_retention_days : Z;
  ps_expires_at : datetime;
  ps_plaintext : option V;
  ps_protected_blob : option ProtectedSnapshotBlob
}.

(** [pt_now] gives the n-th reading of the clock, which may be naive;
    [pt_reads] and [pt_calls] count the readings and the protector's calls. *)
Record ProtectedSnapshotStore : Type := MkProtectedSnapshotStore {
  pt_protector : SnapshotProtectionPort;
  pt_items : gmap string _ProtectedStoredSnapshot;
  pt_counter : Z;
  pt_now : nat -> datetime;
  pt_reads : nat;
  pt_calls : nat
}.

Definition new_ProtectedSnapshotStore (protector : SnapshotProtectionPort) (now : nat -> datetime)
  : ProtectedSnapshotStore := MkProtectedSnapshotStore protector ∅ 0 now 0 0.

Definition PStore := M ProtectedSnapshotStore.

Definition with_items (items : gmap string _ProtectedStoredSnapshot) (s : ProtectedSnapshotStore)
  : ProtectedSnapshotStore :=
  MkProtectedSnapshotStore (pt_protector s) items (pt_counter s) (pt_now s) (pt_reads s) (pt_calls s).

Definition count_call : PStore nat :=
  s ← get;
  _ ← modify (fun s => MkProtectedSnapshotStore (pt_protector s) (pt_items s) (pt_counter s)
                         (pt_now s) (pt_reads s) (S (pt_calls s)));
  mret (pt_calls s).

(** [_now] *)
Definition protected_now : PStore datetime :=
  s ← get;
  _ ← modify (fun s => MkProtectedSnapshotStore (pt_protector s) (pt_items s) (pt_counter s)
                         (pt_now s) (S (pt_reads s)) (pt_calls s));
  let now := pt_now s (pt_reads s) in
  match dt_utcoffset now with
  | Some _ => mret now
  | None => fail ValueError "snapshot clock must return a timezone-aware datetime"
  end.

(** [try: call / except Exception: raise SnapshotProtectionError(message)] *)
Definition protection {A} (call : result A) (message : string) : result A :=
  match call with
  | Ok a => Ok a
  | Err e => if isinstance_exn (ex_class e) Exception_ then raise SnapshotProtectionError message
             else Err e
  end.

Definition seal_value (tenant_id : string) (v : V) (c : DataClassification)
  : PStore ProtectedSnapshotBlob :=
  n ← count_call;
  s ← get;
  sealed ← lift (protection (pp_seal (pt_protector s) n v tenant_id c) "failed to protect snapshot");
  match sealed with
  | Some blob => mret blob
  | None => fail SnapshotProtectionError "snapshot protector returned an invalid protected blob"
  end.

(** [ProtectedSnapshotStore.put]; [hash_material] is given by its hash. *)
Definition protected_put (tenant_id : string) (v : V) (classification : DataClassification)
    (retention_days : Z) (hash_material : option string) : PStore SnapshotRef :=
  _ ← fail_if (negb (non_blank tenant_id)) ValueError "snapshot tenant_id must be non-empty";
  _ ← fail_if (retention_days <=? 0)%Z ValueError "snapshot retention_days must be positive";
  stored ← (if is_protected classification
            then blob ← seal_value tenant_id v classification; mret (None, Some blob)
            else mret (Some v, None));
  _ ← modify (fun s => MkProtectedSnapshotStore (pt_protector s) (pt_items s) (pt_counter s + 1)
                         (pt_now s) (pt_reads s) (pt_calls s));
  s ← get;
  let snapshot_id := ("protected-snapshot-" +:+ pad_Z 6 (pt_counter s))%string in
  now ← protected_now;
  expires_at ← lift (add_days now retention_days);
  let reference_hash := default (hash_of v) hash_material in
  _ ← modify (fun s => with_items (<[snapshot_id := MkProtectedStoredSnapshot tenant_id
                 classification reference_hash (hash_of v) retention_days expires_at stored.1
                 stored.2]> (pt_items s)) s);
  mret (MkSnapshotRef snapshot_id tenant_id classification reference_hash
          (Some (datetime_isoformat expires_at))).

(** [_validate_reference] *)
Definition protected_reference (reference : SnapshotRef) (item : _ProtectedStoredSnapshot)
  : result unit :=
  raise_if (negb (bool_decide (sr_classification reference = ps_classification item))
            || negb (String.eqb (sr_value_hash reference) (ps_reference_hash item))
            || negb (bool_decide (sr_expires_at reference
                                  = Some (datetime_isoformat (ps_expires_at item)))))
    SnapshotProtectionError "snapshot reference metadata mismatch".

(** The checks [get] and [delete] share: the item the principal may use. *)
Definition protected_accessible (scope : string) (reference : SnapshotRef)
    (principal : ExecutionPrincipal) (s : ProtectedSnapshotStore) : result _ProtectedStoredSnapshot :=
  _ ← principal_validate principal true;
  _ ← raise_if (negb (bool_decide (scope ∈ pr_scopes principal))) PermissionError
        (scope +:+ " scope is required");
  match pt_items s !! sr_snapshot_id reference with
  | None => raise KeyError ("snapshot not found: " +:+ sr_snapshot_id reference)
  | Some item =>
      _ ← raise_if (negb (String.eqb (ps_tenant_id item) (pr_tenant_id principal))
                    || negb (String.eqb (sr_tenant_id reference) (pr_tenant_id principal)))
            PermissionError "cross-tenant snapshot access is forbidden";
      _ ← protected_reference reference item;
      Ok item
  end.

Definition drop_protected (reference : SnapshotRef) : PStore unit :=
  modify (fun s => with_items (base.delete (sr_snapshot_id reference) (pt_items s)) s).

(** The value of an item: unsealed or as it was stored. *)
Definition open_item (item : _ProtectedStoredSnapshot) : PStore V :=
  if is_protected (ps_classification item) then
    match ps_protected_blob item, ps_plaintext item with
    | Some blob, None =>
        n ← count_call;
        s ← get;
        lift (protection (pp_unseal (pt_protector s) n blob (ps_tenant_id item)
                            (ps_classification item)) "failed to unprotect snapshot")
    | _, _ => fail SnapshotProtectionError "protected snapshot storage invariant failed"
    end
  else
    match ps_protected_blob item, ps_plaintext item with
    | None, Some v => mret v
    | Some _, _ => fail SnapshotProtectionError "plaintext snapshot storage invariant failed"
    | None, None => fail OutOfModel "a plaintext snapshot holds a value"
    end.

(** [ProtectedSnapshotStore.get] *)
Definition protected_get (reference : SnapshotRef) (principal : ExecutionPrincipal) : PStore V :=
  s ← get;
  item ← lift (protected_accessible "nsl:replay:read" reference principal s);
  now ← protected_now;
  if (instant (ps_expires_at item) <=? instant now)%Z then
    _ ← drop_protected reference;
    fail KeyError ("snapshot expired: " +:+ sr_snapshot_id reference)
  else
    v ← open_item item;
    _ ← fail_if (negb (String.eqb (hash_of v) (ps_integrity_hash item))) SnapshotProtectionError
          "snapshot plaintext integrity mismatch";
    mret v.

(** [ProtectedSnapshotStore.delete] *)
Definition protected_delete (reference : SnapshotRef) (principal : ExecutionPrincipal) : PStore unit :=
  s ← get;
  _ ← lift (protected_accessible "nsl:snapshot:delete" reference principal s);
  drop_protected reference.

Definition protected_expired (now : datetime) (kv : string * _ProtectedStoredSnapshot) : Prop :=
  (instant (ps_expires_at kv.2) <= instant now)%Z.

#[export] Instance protected_expired_dec now kv : Decision (protected_expired now kv).
Proof. unfold protected_expired. apply _. Defined.

(** [ProtectedSnapshotStore.purge_expired] *)
Definition protected_purge : PStore Z :=
  now ← protected_now;
  s ← get;
  let gone := filter (protected_expired now) (pt_items s) in
  _ ← modify (with_items (filter (fun kv => ~ protected_expired now kv) (pt_items s)));
  mret (Z.of_nat (size gone)).
End ProtectedSnapshots.

(** ** What the store keeps *)

Section ProtectedFacts.
Context {V : Type}.
Variable hash_of : V -> string.
Implicit Types (s : ProtectedSnapshotStore (V := V)) (item : _ProtectedStoredSnapshot (V := V)).

Definition protected_name (n : Z) : string := ("protected-snapshot-" +:+ pad_Z 6 n)%string.

Lemma protected_name_inj y z : (0 <= y)%Z -> (0 <= z)%Z -> protected_name y = protected_name z -> y = z.
Proof.
  intros Hy Hz E. apply (pad_inj 6 y z Hy Hz).
  apply (f_equal (drop_prefix "protected-snapshot-")) in E. unfold protected_name in E.
  rewrite !drop_prefix_app in E. by injection E.
Qed.

(** The value of an item is sealed exactly when its classification asks for it. *)
Definition sealed item : Prop :=
  if is_protected (ps_classification item)
  then ps_plaintext item = None /\ is_Some (ps_protected_blob item)
  else is_Some (ps_plaintext item) /\ ps_protected_blob item = None.

(** [s'] has the items of [s], or fewer. *)
Definition shrinks s s' : Prop :=
  pt_items s' ⊆ pt_items s /\ (pt_counter s <= pt_counter s')%Z.

#[local] Instance shrinks_preorder : PreOrder shrinks.
Proof. split; [intros s; split; [done | lia] | intros a b c [H1 H2] [H3 H4]; split; [by trans (pt_items b) | lia]]. Qed.

Lemma shrinks_modify f : (forall s, shrinks s (f s)) -> steps shrinks (modify f).
Proof. intros H s. apply H. Qed.

Lemma shrinks_drop ref : steps shrinks (drop_protected (V := V) ref).
Proof. apply shrinks_modify. intros s. split; [apply delete_subseteq | cbn; lia]. Qed.

Ltac shrink_tac :=
  repeat first
    [ apply shrinks_drop | apply (steps_ret shrinks) | apply (steps_get shrinks) | apply (steps_lift shrinks)
    | apply (steps_fail shrinks) | apply (steps_fail_if shrinks) | refine (steps_bind shrinks _ _ _ _); [| intros; cbv zeta]
    | match goal with |- steps _ (match ?x with _ => _ end) => destruct x end
    | apply shrinks_modify; intros; split; cbn; [reflexivity | lia] ].

Lemma shrinks_now : steps shrinks (protected_now (V := V)).
Proof. unfold protected_now. shrink_tac. Qed.

Lemma shrinks_open item : steps shrinks (open_item item).
Proof. unfold open_item, count_call. shrink_tac. Qed.

Lemma shrinks_get ref p : steps shrinks (protected_get hash_of ref p).
Proof.
  unfold protected_get. pose proof shrinks_now. pose proof shrinks_open.
  repeat first [apply shrinks_now | apply shrinks_open | progress shrink_tac].
Qed.

Lemma shrinks_delete ref p : steps shrinks (protected_delete (V := V) ref p).
Proof. unfold protected_delete. shrink_tac. Qed.

Lemma shrinks_purge : steps shrinks (protected_purge (V := V)).
Proof.
  unfold protected_purge. refine (steps_bind shrinks _ _ shrinks_now _). intros now s.
  split; [apply map_filter_subseteq | apply Z.le_refl].
Qed.

(** A successful [put]: what it stores and the reference it gives. *)
Definition stored_item (s : ProtectedSnapshotStore (V := V)) tenant v c days material
    (blob : option ProtectedSnapshotBlob) : _ProtectedStoredSnapshot :=
  let now := pt_now s (pt_reads s) in
  MkProtectedStoredSnapshot tenant c (default (hash_of v) material) (hash_of v) days
    (MkDatetime (dt_wall now + days * us_per_day) (dt_utcoffset now))
    (if is_protected c then None else Some v) blob.

Lemma put_inv tenant v c days material s s' ref :
  protected_put hash_of tenant v c days material s = (Ok ref, s') ->
  exists blob, (if is_protected c
                then exists b, blob = Some b
                     /\ pp_seal (pt_protector s) (pt_calls s) v tenant c = Ok (Some b)
                else blob = None)
    /\ let item := stored_item s tenant v c days material blob in
       let id := protected_name (pt_counter s + 1) in
       non_blank tenant = true /\ is_Some (dt_utcoffset (pt_now s (pt_reads s)))
       /\ ref = MkSnapshotRef id tenant c (ps_reference_hash item)
                  (Some (datetime_isoformat (ps_expires_at item)))
       /\ s' = MkProtectedSnapshotStore (pt_protector s) (<[id := item]> (pt_items s))
                 (pt_counter s + 1) (pt_now s) (S (pt_reads s))
                 (if is_protected c then S (pt_calls s) else pt_calls s).
Proof.
  unfold protected_put. intros H. apply M_bind_Ok in H as ([] & s1 & H1 & H).
  injection H1 as Hb <-. apply raise_if_Ok, negb_false_iff in Hb.
  apply M_bind_Ok in H as ([] & s1 & H1 & H). injection H1 as Hd <-.
  apply M_bind_Ok in H as ([plain blob] & s1 & H1 & H). exists blob.
  assert ((if is_protected c
           then exists b, blob = Some b
                /\ pp_seal (pt_protector s) (pt_calls s) v tenant c = Ok (Some b)
           else blob = None) /\ plain = (if is_protected c then None else Some v)
    /\ s1 = MkProtectedSnapshotStore (pt_protector s) (pt_items s) (pt_counter s) (pt_now s)
              (pt_reads s) (if is_protected c then S (pt_calls s) else pt_calls s))
    as (Hblob & -> & ->).
  { destruct (is_protected c); [| injection H1 as <- <- <-; by destruct s].
    apply M_bind_Ok in H1 as (b & s2 & H1 & H2). injection H2 as <- <- <-.
    apply M_bind_Ok in H1 as (n & s3 & H1 & H2). injection H1 as <- <-.
    apply M_bind_Ok in H2 as (s4 & s5 & H1 & H2). injection H1 as <- <-.
    apply M_bind_Ok in H2 as (o & s6 & H1 & H2). injection H1 as H1 <-. cbn in H1.
    destruct o as [b'|]; [| discriminate]. injection H2 as -> <-. split; [| done]. exists b.
    split; [done |]. unfold protection in H1.
    destruct (pp_seal _ _ _ _ _) as [x|e]; [by injection H1 as -> |].
    by destruct (isinstance_exn (ex_class e) Exception_). }
  split; [exact Hblob |]. cbv zeta. clear Hblob H1.
  apply M_bind_Ok in H as ([] & s2 & H1 & H). injection H1 as <-.
  apply M_bind_Ok in H as (s3 & s4 & H1 & H). injection H1 as <- <-. cbv zeta in H.
  apply M_bind_Ok in H as (now & s5 & Hn & H). cbn [pt_counter pt_protector pt_items pt_now pt_reads pt_calls] in *.
  apply M_bind_Ok in Hn as (s6 & s7 & H1 & Hn). injection H1 as <- <-.
  apply M_bind_Ok in Hn as ([] & s8 & H1 & Hn). injection H1 as <-. cbv zeta in Hn.
  cbn [pt_now pt_reads pt_counter pt_items pt_protector pt_calls] in Hn.
  destruct (dt_utcoffset (pt_now s (pt_reads s))) as [o|] eqn:Eo; [| discriminate].
  injection Hn as <- <-. apply M_bind_Ok in H as (e & s9 & H1 & H). injection H1 as H1 <-.
  unfold add_days in H1. destruct (_ <? _)%Z; [| discriminate]. injection H1 as <-.
  apply M_bind_Ok in H as ([] & s10 & H1 & H). injection H1 as <-. injection H as <- <-.
  split; [done |]. split; [done |]. unfold stored_item. rewrite Eo. done.
Qed.

(** A computation that leaves no more items when it raises. *)
Definition raising_shrinks {A} (m : PStore (V := V) A) : Prop :=
  forall s e s', m s = (Err e, s') -> shrinks s s'.

Lemma raising_bind {A B} (m : PStore A) (f : A -> PStore B) :
  steps shrinks m -> (forall a, raising_shrinks (f a)) -> raising_shrinks (m ≫= f).
Proof.
  intros Hm Hf s e s'. unfold mbind, M_bind. specialize (Hm s). destruct (m s) as [[a|e'] s1]; cbn in Hm.
  - intros H%Hf. by trans s1.
  - by intros [= _ <-].
Qed.

Lemma put_error tenant v c days material : raising_shrinks (protected_put hash_of tenant v c days material).
Proof.
  unfold protected_put, seal_value, count_call.
  repeat first
    [ by intros s0 e0 s0' H0
    | apply raising_bind; [repeat first [apply shrinks_now | progress shrink_tac] | intros; cbv zeta] ].
Qed.

(** ** Histories *)

Record deposit : Type := MkDeposit {
  dp_id : string; dp_tenant : string; dp_classification : DataClassification; dp_value : V
}.

(** [reached log s]: from an empty store to [s] by any calls, of which those
    that stored something are [log], the last first. *)
Inductive reached : list deposit -> ProtectedSnapshotStore (V := V) -> Prop :=
  | reached_new protector now : reached [] (new_ProtectedSnapshotStore protector now)
  | reached_put log s tenant v c days material ref s' : reached log s ->
      protected_put hash_of tenant v c days material s = (Ok ref, s') ->
      reached (MkDeposit (sr_snapshot_id ref) tenant c v :: log) s'
  | reached_failed log s tenant v c days material e s' : reached log s ->
      protected_put hash_of tenant v c days material s = (Err e, s') -> reached log s'
  | reached_get log s ref p : reached log s -> reached log (protected_get hash_of ref p s).2
  | reached_delete log s ref p : reached log s -> reached log (protected_delete ref p s).2
  | reached_purge log s : reached log s -> reached log (protected_purge s).2.

(** The item is what the deposit left. *)
Definition kept (d : deposit) item : Prop :=
  ps_tenant_id item = dp_tenant d /\ ps_classification item = dp_classification d
  /\ ps_integrity_hash item = hash_of (dp_value d) /\ sealed item
  /\ (forall v, ps_plaintext item = Some v -> v = dp_value d).

Record consistent (log : list deposit) s : Prop := {
  cs_counter : (0 <= pt_counter s)%Z;
  cs_names : forall d, d ∈ log -> exists n, (1 <= n <= pt_counter s)%Z /\ dp_id d = protected_name n;
  cs_distinct : NoDup (map dp_id log);
  cs_items : forall id item, pt_items s !! id = Some item ->
    exists d, d ∈ log /\ dp_id d = id /\ kept d item
}.

Lemma consistent_shrinks log s s' : shrinks s s' -> consistent log s -> consistent log s'.
Proof.
  intros [H1 H2] [C N D I]. split; [lia | | done |].
  - intros d (n & Hn & E)%N. exists n. split; [lia | done].
  - intros id item Hi. apply I. by eapply lookup_weaken.
Qed.

Lemma reached_consistent log s : reached log s -> consistent log s.
Proof.
  induction 1 as [protector now|log s tenant v c days material ref s' _ IH H
    |log s tenant v c days material e s' _ IH H|log s ref p _ IH|log s ref p _ IH|log s _ IH].
  - split; [cbn; lia | by intros d Hd%elem_of_nil | constructor |].
    intros id item Hi. cbn in Hi. by rewrite lookup_empty in Hi.
  - apply put_inv in H as (blob & Hb & H). cbv zeta in H. destruct H as (_ & _ & -> & ->).
    destruct IH as [C N D I]. cbn [sr_snapshot_id]. split; cbn [pt_counter pt_items].
    + lia.
    + intros d [->|Hd]%elem_of_cons; [exists (pt_counter s + 1)%Z; split; [lia | done] |].
      destruct (N d Hd) as (n & Hn & E). exists n. split; [lia | done].
    + cbn [map]. constructor; [| done]. change (@map) with (@fmap list _). cbn [dp_id].
      intros (d & E & Hd)%list_elem_of_fmap. destruct (N d Hd) as (n & Hn & E').
      rewrite E' in E. apply protected_name_inj in E; lia.
    + intros id item Hi. apply lookup_insert_Some in Hi as [[<- <-]|[_ Hi]].
      * eexists. split; [left | split; [reflexivity |]]. unfold kept, sealed. cbn.
        destruct (is_protected c); [destruct Hb as (b & -> & _) | subst blob]; cbn;
          repeat split; try done; try (by eexists); by intros ? [= <-].
      * destruct (I id item Hi) as (d & Hd & E). exists d. split; [by right | done].
  - eapply consistent_shrinks; [by eapply put_error | done].
  - eapply consistent_shrinks; [apply shrinks_get | done].
  - eapply consistent_shrinks; [apply shrinks_delete | done].
  - eapply consistent_shrinks; [apply shrinks_purge | done].
Qed.

Lemma protected_accessible_Ok scope ref p s item :
  protected_accessible scope ref p s = Ok item ->
  principal_validate p true = Ok tt /\ scope ∈ pr_scopes p
  /\ pt_items s !! sr_snapshot_id ref = Some item
  /\ ps_tenant_id item = pr_tenant_id p /\ sr_tenant_id ref = pr_tenant_id p
  /\ sr_classification ref = ps_classification item /\ sr_value_hash ref = ps_reference_hash item
  /\ sr_expires_at ref = Some (datetime_isoformat (ps_expires_at item)).
Proof.
  unfold protected_accessible. intros H. apply bind_Ok in H as ([] & H1 & H).
  apply bind_Ok in H as ([] & H2%raise_if_Ok & H).
  destruct (pt_items s !! sr_snapshot_id ref) as [it|]; [| discriminate].
  apply bind_Ok in H as ([] & H3%raise_if_Ok & H). apply bind_Ok in H as ([] & H4 & H). injection H as <-.
  unfold protected_reference in H4. apply raise_if_Ok in H4. split_bool.
  repeat match goal with H : String.eqb _ _ = true |- _ => apply String.eqb_eq in H end. done.
Qed.

Lemma open_item_Ok item s v s' : open_item item s = (Ok v, s') ->
  is_protected (ps_classification item) = false -> ps_plaintext item = Some v.
Proof.
  unfold open_item. intros H E. rewrite E in H.
  destruct (ps_protected_blob item), (ps_plaintext item); try discriminate. by injection H as -> <-.
Qed.

Lemma distinct_by {A B} (f : A -> B) (l : list A) (x y : A) :
  NoDup (map f l) -> x ∈ l -> y ∈ l -> f x = f y -> x = y.
Proof.
  change (@map) with (@fmap list _). induction l as [|z l IH]; intros Hd Hx Hy E.
  - by apply elem_of_nil in Hx.
  - apply NoDup_cons in Hd as [Hz Hd].
    apply elem_of_cons in Hx as [->|Hx], Hy as [->|Hy]; auto; exfalso; apply Hz.
    + rewrite E. by apply list_elem_of_fmap_2.
    + rewrite <- E. by apply list_elem_of_fmap_2.
Qed.

Lemma get_inv ref p s v s' : protected_get hash_of ref p s = (Ok v, s') ->
  exists item s1, protected_accessible "nsl:replay:read" ref p s = Ok item
    /\ open_item item s1 = (Ok v, s') /\ hash_of v = ps_integrity_hash item
    /\ (instant (pt_now s (pt_reads s)) < instant (ps_expires_at item))%Z.
Proof.
  unfold protected_get. intros H. apply M_bind_Ok in H as (s0 & s1 & H1 & H). injection H1 as <- <-.
  apply M_bind_Ok in H as (item & s2 & H1 & H). injection H1 as Ha <-.
  apply M_bind_Ok in H as (now & s3 & Hn & H). exists item, s3.
  assert (now = pt_now s (pt_reads s)) as ->.
  { apply M_bind_Ok in Hn as (s4 & s5 & H1 & Hn). injection H1 as <- <-.
    apply M_bind_Ok in Hn as ([] & s8 & H1 & Hn). injection H1 as <-. cbv zeta in Hn.
    destruct (dt_utcoffset _); [by injection Hn as <- <- | discriminate]. }
  destruct (Z.leb_spec (instant (ps_expires_at item)) (instant (pt_now s (pt_reads s)))).
  { apply M_bind_Ok in H as (? & ? & _ & H). discriminate H. }
  apply M_bind_Ok in H as (v' & s4 & Ho & H). apply M_bind_Ok in H as ([] & s5 & H1 & H).
  injection H1 as H1 <-. injection H as <- <-. apply raise_if_Ok, negb_false_iff, String.eqb_eq in H1. done.
Qed.

(** C34. Confidential and restricted values are never kept in the clear, and what
    leaves the store is what was put. In every state that any calls reach from
    an empty store, whatever the protector and the clock answer and whether the
    calls return or raise: an item of protected classification holds a blob
    and no plaintext; and a value that [get] returns has the hash of the one
    value that was put under that id, by the tenant that the principal and the
    reference are of, with the classification of the reference, and is that
    value if it needed no protection; the principal is verified and has the
    scope for reading. *)
Theorem protected_snapshots_sealed (log : list deposit) (s : ProtectedSnapshotStore (V := V)) :
  reached log s ->
  (forall id item, pt_items s !! id = Some item -> sealed item)
  /\ forall ref p v s', protected_get hash_of ref p s = (Ok v, s') ->
       principal_validate p true = Ok tt /\ "nsl:replay:read" ∈ pr_scopes p
       /\ exists d, d ∈ log /\ dp_id d = sr_snapshot_id ref
            /\ (forall d', d' ∈ log -> dp_id d' = dp_id d -> d' = d)
            /\ dp_tenant d = pr_tenant_id p /\ sr_tenant_id ref = pr_tenant_id p
            /\ dp_classification d = sr_classification ref
            /\ hash_of v = hash_of (dp_value d)
            /\ (is_protected (dp_classification d) = false -> v = dp_value d).
Proof.
  intros [_ _ D I]%reached_consistent. split.
  { intros id item Hi. destruct (I id item Hi) as (d & _ & _ & _ & _ & _ & Hs & _). exact Hs. }
  intros ref p v s' H. apply get_inv in H as (item & s1 & Ha & Ho & Hh & _).
  apply protected_accessible_Ok in Ha as (H1 & H2 & Hi & H3 & H4 & H5 & _).
  split; [done |]. split; [done |]. destruct (I _ item Hi) as (d & Hd & E & K1 & K2 & K3 & _ & K5).
  exists d. split; [done |]. split; [done |]. split.
  { intros d' Hd' E'. by apply (distinct_by dp_id log). }
  split; [by rewrite <- K1 |]. split; [done |]. split; [by rewrite <- K2 |].
  split; [by rewrite Hh |]. intros Hp. apply K5. eapply open_item_Ok; [exact Ho | by rewrite K2].
Qed.

(** ** Getting what was put *)

(** A protector that unseals what it sealed, at any later time. *)
Definition faithful (pr : SnapshotProtectionPort (V := V)) : Prop :=
  forall n m v tenant c b, pp_seal pr n v tenant c = Ok (Some b) -> pp_unseal pr m b tenant c = Ok v.

(** Every item has a name up to the counter. *)
Definition named s : Prop :=
  (0 <= pt_counter s)%Z /\ forall id item, pt_items s !! id = Some item ->
    exists n, (1 <= n <= pt_counter s)%Z /\ id = protected_name n.

(** The value is there for the tenant under the reference, unexpired. *)
Definition available s (ref : SnapshotRef) (tenant : string) (v : V) : Prop :=
  exists item, pt_items s !! sr_snapshot_id ref = Some item
    /\ ps_tenant_id item = tenant /\ sr_tenant_id ref = tenant
    /\ sr_classification ref = ps_classification item /\ sr_value_hash ref = ps_reference_hash item
    /\ sr_expires_at ref = Some (datetime_isoformat (ps_expires_at item))
    /\ ps_integrity_hash item = hash_of v
    /\ (forall n, (instant (pt_now s n) < instant (ps_expires_at item))%Z)
    /\ if is_protected (ps_classification item)
       then ps_plaintext item = None /\ exists b, ps_protected_blob item = Some b
            /\ forall n, pp_unseal (pt_protector s) n b tenant (ps_classification item) = Ok v
       else ps_plaintext item = Some v /\ ps_protected_blob item = None.

(** [s'] is [s] with other counts of calls and readings. *)
Definition same_items s s' : Prop :=
  pt_items s' = pt_items s /\ pt_protector s' = pt_protector s /\ pt_now s' = pt_now s
  /\ pt_counter s' = pt_counter s.

Lemma available_same s s' ref tenant v : same_items s s' -> available s ref tenant v ->
  available s' ref tenant v.
Proof. intros (E1 & E2 & E3 & _). unfold available. by rewrite E1, E2, E3. Qed.

Lemma get_available s ref p v : available s ref (pr_tenant_id p) v ->
  (forall n, is_Some (dt_utcoffset (pt_now s n))) ->
  principal_validate p true = Ok tt -> "nsl:replay:read" ∈ pr_scopes p ->
  exists s', protected_get hash_of ref p s = (Ok v, s') /\ same_items s s'.
Proof.
  intros (item & Hi & H1 & H2 & H3 & H4 & H5 & H6 & H7 & H8) Hc Hp Hs.
  assert (protected_accessible "nsl:replay:read" ref p s = Ok item) as Ha.
  { unfold protected_accessible. rewrite Hp. cbn [mbind result_bind raise_if].
    rewrite bool_decide_eq_true_2 by exact Hs. cbn [negb raise_if mbind result_bind].
    rewrite Hi, H1, H2, String.eqb_refl. cbn [negb orb raise_if mbind result_bind].
    unfold protected_reference. rewrite H3, H4, H5, String.eqb_refl, !bool_decide_eq_true_2 by done.
    reflexivity. }
  assert (forall s1, same_items s s1 -> exists s2, open_item item s1 = (Ok v, s2) /\ same_items s1 s2) as Ho.
  { intros s1 (E1 & E2 & E3 & E4). unfold open_item. destruct (is_protected (ps_classification item)).
    - destruct H8 as (-> & b & -> & Hu). eexists. split.
      + eapply M_bind_intro.
        { unfold count_call. eapply M_bind_intro; [reflexivity |]. eapply M_bind_intro; reflexivity. }
        eapply M_bind_intro; [reflexivity |]. unfold lift. cbn [pt_protector pt_calls].
        rewrite E2, H1, Hu. reflexivity.
      + done.
    - destruct H8 as [-> ->]. by exists s1. }
  edestruct (Ho (MkProtectedSnapshotStore (pt_protector s) (pt_items s) (pt_counter s) (pt_now s)
    (S (pt_reads s)) (pt_calls s))) as (s2 & Hs2 & Hsame); [done |].
  exists s2. split; [| done]. unfold protected_get. eapply M_bind_intro; [reflexivity |].
  eapply M_bind_intro; [unfold lift; rewrite Ha; reflexivity |]. eapply M_bind_intro.
  { unfold protected_now. eapply M_bind_intro; [reflexivity |]. eapply M_bind_intro; [reflexivity |].
    cbv zeta. destruct (Hc (pt_reads s)) as [o ->]. reflexivity. }
  rewrite (proj2 (Z.leb_gt _ _) (H7 _)). eapply M_bind_intro; [exact Hs2 |].
  unfold fail_if, lift. rewrite H6, String.eqb_refl. reflexivity.
Qed.

Lemma put_available s tenant v c days material ref s' :
  protected_put hash_of tenant v c days material s = (Ok ref, s') ->
  faithful (pt_protector s) ->
  (forall n, (instant (pt_now s n) < instant (pt_now s (pt_reads s)) + days * us_per_day)%Z) ->
  available s' ref tenant v.
Proof.
  intros H Hf Hn. apply put_inv in H as (blob & Hb & H). cbv zeta in H. destruct H as (_ & _ & -> & ->).
  eexists. cbn [sr_snapshot_id pt_items pt_now pt_protector]. rewrite lookup_insert_eq.
  split; [reflexivity |]. do 6 (split; [reflexivity |]). split.
  { intros n. specialize (Hn n). unfold stored_item, instant in *. cbn. lia. }
  cbn [stored_item ps_classification ps_plaintext ps_protected_blob].
  destruct (is_protected c); [| done]. destruct Hb as (b & -> & Hb). split; [done |].
  exists b. split; [done |]. intros n. by eapply Hf.
Qed.

Lemma put_keeps s tenant v c days material ref s' r t w :
  named s -> protected_put hash_of tenant v c days material s = (Ok ref, s') ->
  named s' /\ pt_protector s' = pt_protector s /\ pt_now s' = pt_now s
  /\ (available s r t w -> available s' r t w).
Proof.
  intros [Hc Hn] H. apply put_inv in H as (blob & Hb & H). cbv zeta in H. destruct H as (_ & _ & _ & ->).
  split; [| split; [done | split; [done |]]].
  { split; cbn [pt_counter pt_items]; [lia |]. intros id item [[<- _]|[_ Hi]]%lookup_insert_Some.
    - exists (pt_counter s + 1)%Z. split; [lia | done].
    - destruct (Hn id item Hi) as (n & Hr & ->). exists n. split; [lia | done]. }
  intros (item & Hi & H). exists item. cbn [pt_items pt_now pt_protector]. split; [| exact H].
  rewrite lookup_insert_ne; [done |]. intros E. destruct (Hn _ _ Hi) as (n & Hr & E').
  rewrite <- E in E'. apply protected_name_inj in E'; lia.
Qed.
End ProtectedFacts.

(** ** A store with a toy protector *)

Definition toy_protector : SnapshotProtectionPort (V := list ascii) :=
  MkSnapshotProtectionPort
    (fun _ v _ _ => Ok (Some (MkProtectedSnapshotBlob ("k"%char :: v) "toy" "key-1")))
    (fun _ b _ _ => Ok (List.tl (pb_ciphertext b))).

Definition toy_store : ProtectedSnapshotStore := new_ProtectedSnapshotStore toy_protector (fun _ => noon).

Definition toy_put := protected_put sha256_ref "tenant-1" (chars "secret") CONFIDENTIAL 30 None toy_store.

Lemma protected_snapshots_sealed_witness :
  exists log, reached sha256_ref log toy_put.2
    /\ forall id item, pt_items toy_put.2 !! id = Some item -> sealed item.
Proof.
  assert (is_Ok toy_put.1 = true) as Hok by (vm_compute; reflexivity).
  destruct toy_put as [[ref|e] s'] eqn:E; [| discriminate Hok]. cbn [snd].
  eexists. assert (reached sha256_ref [MkDeposit (sr_snapshot_id ref) "tenant-1" CONFIDENTIAL (chars "secret")] s')
    as H by (eapply reached_put; [apply reached_new | exact E]).
  split; [exact H |]. exact (proj1 (protected_snapshots_sealed sha256_ref _ s' H)).
Defined.
