(* ===== verification/WriteReplay.v ===== *)
(** * Replay of WRITE executions ([src/nsl/write_replay.py],
    [src/nsl/write_replay_execution.py])

    The evidence of a WRITE execution is kept as protected snapshots under a
    hash-bound manifest, loaded again for a principal of its tenant, and
    replayed by an executor that has no provider: it answers a recorded call
    with its recorded outcome and fails closed on any other. *)

From S2P Require Import Prelude Digest Json Decimal Core Values DataProtection HashTexts Ir Security.
From S2P Require Import AuditTrail WriteRecords RuntimeModels WriteIntent Idempotency Validation.
From S2P Require Import Approval WriteExecution Verification ProtectedSnapshots.

Definition WRITE_REPLAY_SCHEMA_VERSION : string := "1.0".
Definition MAX_WRITE_REPLAY_RECORDS : nat := 4.
Definition MAX_REPLAY_WRITE_CALLS : nat := 64.

Definition replay_error {A} (message : string) : result A := raise WriteReplayError message.
Definition replay_error_if (b : bool) (message : string) : result unit :=
  raise_if b WriteReplayError message.

Notation replay_text := (required_text WriteReplayError).
Notation replay_sha256 := (sha256_text WriteReplayError).

(** [WriteReplayEvidenceKind], in the order of the enumeration. *)
Inductive WriteReplayEvidenceKind : Type :=
  | APPROVAL | WRITE_REQUEST | COMMIT_OUTCOME | VERIFICATION_OUTCOME.

#[export] Instance kind_eq_dec : EqDecision WriteReplayEvidenceKind.
Proof. solve_decision. Defined.

Definition kind_value (k : WriteReplayEvidenceKind) : string :=
  match k with
  | APPROVAL => "APPROVAL"
  | WRITE_REQUEST => "WRITE_REQUEST"
  | COMMIT_OUTCOME => "COMMIT_OUTCOME"
  | VERIFICATION_OUTCOME => "VERIFICATION_OUTCOME"
  end.

Definition all_kinds : list WriteReplayEvidenceKind :=
  [APPROVAL; WRITE_REQUEST; COMMIT_OUTCOME; VERIFICATION_OUTCOME].

Definition _KIND_ORDER (k : WriteReplayEvidenceKind) : nat :=
  match k with APPROVAL => 1 | WRITE_REQUEST => 2 | COMMIT_OUTCOME => 3 | VERIFICATION_OUTCOME => 4 end.

Definition _ALLOWED_KIND_SEQUENCES : list (list WriteReplayEvidenceKind) :=
  [[APPROVAL]; [APPROVAL; WRITE_REQUEST; COMMIT_OUTCOME]; all_kinds].

(** ** Identities and records *)

Record WriteReplayIdentity : Type := MkWriteReplayIdentity {
  ri_tenant_id : string;
  ri_execution_id : string;
  ri_business_operation_id : string;
  ri_skill_semantic_hash : string;
  ri_node_id : string;
  ri_approval_request_id : string;
  ri_payload_hash : string;
  ri_write_intent_hash : string;
  ri_idempotency_key : option string
}.

#[export] Instance WriteReplayIdentity_eq_dec : EqDecision WriteReplayIdentity.
Proof. solve_decision. Defined.

(** [WriteReplayIdentity.__post_init__] *)
Definition WriteReplayIdentity_post_init (i : WriteReplayIdentity) : result unit :=
  _ ← required_texts WriteReplayError
        [("WriteReplayIdentity.tenant_id", ri_tenant_id i);
         ("WriteReplayIdentity.execution_id", ri_execution_id i);
         ("WriteReplayIdentity.business_operation_id", ri_business_operation_id i);
         ("WriteReplayIdentity.node_id", ri_node_id i);
         ("WriteReplayIdentity.approval_request_id", ri_approval_request_id i)];
  _ ← replay_sha256 (ri_skill_semantic_hash i) "WriteReplayIdentity.skill_semantic_hash";
  _ ← replay_sha256 (ri_payload_hash i) "WriteReplayIdentity.payload_hash";
  _ ← replay_sha256 (ri_write_intent_hash i) "WriteReplayIdentity.write_intent_hash";
  match ri_idempotency_key i with
  | None => Ok tt
  | Some key =>
      key ← replay_text key "WriteReplayIdentity.idempotency_key";
      replay_error_if (negb (is_idempotency_key key))
        "WriteReplayIdentity.idempotency_key must be an idem SHA-256 value"
  end.

Definition replay_identity_to_data (i : WriteReplayIdentity) : json :=
  JObj [("tenant_id", JStr (ri_tenant_id i)); ("execution_id", JStr (ri_execution_id i));
        ("business_operation_id", JStr (ri_business_operation_id i));
        ("skill_semantic_hash", JStr (ri_skill_semantic_hash i));
        ("node_id", JStr (ri_node_id i));
        ("approval_request_id", JStr (ri_approval_request_id i));
        ("payload_hash", JStr (ri_payload_hash i));
        ("write_intent_hash", JStr (ri_write_intent_hash i));
        ("idempotency_key", nullable (ri_idempotency_key i))].

(** [_snapshot_ref_data] *)
Definition _snapshot_ref_data (r : SnapshotRef) : json :=
  JObj [("snapshot_id", JStr (sr_snapshot_id r)); ("tenant_id", JStr (sr_tenant_id r));
        ("classification", JStr (classification_value (sr_classification r)));
        ("value_hash", JStr (sr_value_hash r)); ("expires_at", nullable (sr_expires_at r))].

Record WriteReplaySnapshotRecord : Type := MkWriteReplaySnapshotRecord {
  rc_sequence : Z;
  rc_kind : WriteReplayEvidenceKind;
  rc_identity : WriteReplayIdentity;
  rc_snapshot_ref : SnapshotRef;
  rc_record_hash : string
}.

(** [_record_material] *)
Definition _record_material (sequence : Z) (kind : WriteReplayEvidenceKind)
    (identity : WriteReplayIdentity) (ref : SnapshotRef) : list (string * json) :=
  [("sequence", JInt sequence); ("kind", JStr (kind_value kind));
   ("identity", replay_identity_to_data identity); ("snapshot_ref", _snapshot_ref_data ref)].

Definition _RECORD_DOMAIN : list ascii := hash_domain "NSL-WRITE-REPLAY-RECORD-V1".
Definition _BUNDLE_DOMAIN : list ascii := hash_domain "NSL-WRITE-REPLAY-BUNDLE-V1".

(** [WriteReplaySnapshotRecord.compute_hash] *)
Definition compute_record_hash (sequence : Z) (kind : WriteReplayEvidenceKind)
    (identity : WriteReplayIdentity) (ref : SnapshotRef) : string :=
  sha256_ref (_RECORD_DOMAIN ++ canonical_json (JObj (_record_material sequence kind identity ref))).

(** [_validate_record_components] *)
Definition _validate_record_components (sequence : Z) : result unit :=
  replay_error_if (sequence <=? 0)%Z "record sequence must be a positive integer".

(** [WriteReplaySnapshotRecord.__post_init__] *)
Definition WriteReplaySnapshotRecord_post_init (r : WriteReplaySnapshotRecord) : result unit :=
  _ ← _validate_record_components (rc_sequence r);
  _ ← replay_error_if (negb (String.eqb (sr_tenant_id (rc_snapshot_ref r)) (ri_tenant_id (rc_identity r))))
        "record contains a cross-tenant snapshot reference";
  _ ← replay_error_if (negb (is_protected (sr_classification (rc_snapshot_ref r))))
        "Replay evidence must use a protected snapshot";
  _ ← replay_sha256 (sr_value_hash (rc_snapshot_ref r)) "snapshot_ref.value_hash";
  replay_error_if (negb (String.eqb (rc_record_hash r)
      (compute_record_hash (rc_sequence r) (rc_kind r) (rc_identity r) (rc_snapshot_ref r))))
    "Replay evidence record hash mismatch".

(** [WriteReplaySnapshotRecord.create] *)
Definition create_record (sequence : Z) (kind : WriteReplayEvidenceKind)
    (identity : WriteReplayIdentity) (ref : SnapshotRef) : result WriteReplaySnapshotRecord :=
  _ ← _validate_record_components sequence;
  let r := MkWriteReplaySnapshotRecord sequence kind identity ref
             (compute_record_hash sequence kind identity ref) in
  _ ← WriteReplaySnapshotRecord_post_init r;
  Ok r.

Definition replay_record_to_data (r : WriteReplaySnapshotRecord) : json :=
  JObj (_record_material (rc_sequence r) (rc_kind r) (rc_identity r) (rc_snapshot_ref r)
        ++ [("record_hash", JStr (rc_record_hash r))]).

(** ** Bundles *)

Record ProtectedWriteReplayBundle : Type := MkProtectedWriteReplayBundle {
  rb_schema_version : string;
  rb_source_identity : WriteReplayIdentity;
  rb_records : list WriteReplaySnapshotRecord;
  rb_manifest_hash : string
}.

(** [_bundle_material] *)
Definition _bundle_material (schema_version : string) (identity : WriteReplayIdentity)
    (records : list WriteReplaySnapshotRecord) : list (string * json) :=
  [("schema_version", JStr schema_version); ("source_identity", replay_identity_to_data identity);
   ("records", JArr (map replay_record_to_data records))].

(** [ProtectedWriteReplayBundle.compute_manifest_hash] *)
Definition compute_manifest_hash (schema_version : string) (identity : WriteReplayIdentity)
    (records : list WriteReplaySnapshotRecord) : string :=
  sha256_ref (_BUNDLE_DOMAIN
              ++ canonical_json (JObj (_bundle_material schema_version identity records))).

(** [sorted(kinds, key=_KIND_ORDER)] *)
Fixpoint insert_kind (k : WriteReplayEvidenceKind) (l : list WriteReplayEvidenceKind)
  : list WriteReplayEvidenceKind :=
  match l with
  | [] => [k]
  | x :: l' => if _KIND_ORDER k <=? _KIND_ORDER x then k :: l else x :: insert_kind k l'
  end.

Definition sort_kinds (l : list WriteReplayEvidenceKind) : list WriteReplayEvidenceKind :=
  fold_right insert_kind [] l.

(** [ProtectedWriteReplayBundle.__post_init__] *)
Definition ProtectedWriteReplayBundle_post_init (b : ProtectedWriteReplayBundle) : result unit :=
  _ ← replay_error_if (negb (String.eqb (rb_schema_version b) WRITE_REPLAY_SCHEMA_VERSION))
        "unsupported WRITE Replay schema version";
  let records := rb_records b in
  _ ← replay_error_if (bool_decide (length records = 0)) "WRITE Replay bundle requires evidence records";
  _ ← replay_error_if (MAX_WRITE_REPLAY_RECORDS <? length records)
        "WRITE Replay bundle cannot exceed 4 records";
  _ ← replay_error_if (negb (bool_decide (map rc_sequence records
                                          = map Z.of_nat (seq 1 (length records)))))
        "Replay evidence sequence is not contiguous";
  let kinds := map rc_kind records in
  _ ← replay_error_if (negb (bool_decide (NoDup kinds))) "Replay evidence kinds must be unique";
  _ ← replay_error_if (negb (bool_decide (sort_kinds kinds = kinds)))
        "Replay evidence ordering is invalid";
  _ ← replay_error_if (negb (bool_decide (kinds ∈ _ALLOWED_KIND_SEQUENCES)))
        "Replay evidence set is incomplete";
  _ ← replay_error_if (negb (forallb (fun r => bool_decide (rc_identity r = rb_source_identity b)) records))
        "Replay record identity does not match bundle";
  replay_error_if (negb (String.eqb (rb_manifest_hash b)
      (compute_manifest_hash (rb_schema_version b) (rb_source_identity b) records)))
    "WRITE Replay manifest hash mismatch".

(** [ProtectedWriteReplayBundle.create] *)
Definition create_replay_bundle (identity : WriteReplayIdentity)
    (records : list WriteReplaySnapshotRecord) : result ProtectedWriteReplayBundle :=
  let b := MkProtectedWriteReplayBundle WRITE_REPLAY_SCHEMA_VERSION identity records
             (compute_manifest_hash WRITE_REPLAY_SCHEMA_VERSION identity records) in
  _ ← ProtectedWriteReplayBundle_post_init b;
  Ok b.

Definition replay_bundle_to_data (b : ProtectedWriteReplayBundle) : json :=
  JObj (_bundle_material (rb_schema_version b) (rb_source_identity b) (rb_records b)
        ++ [("manifest_hash", JStr (rb_manifest_hash b))]).

(** ** The values that are kept

    [SnapOther] is a value of any other kind. *)
Inductive ReplayValue : Type :=
  | SnapApproval (e : ApprovalEvidence)
  | SnapRequest (r : WriteAttemptRecord)
  | SnapOutcome (r : WriteOutcomeRecord)
  | SnapVerification (r : VerificationResult)
  | SnapOther (v : value).

Definition text_field (o : option string) : value :=
  match o with Some s => VStr s | None => VNone end.
Definition time_field (o : option datetime) : value :=
  match o with Some d => VDateTime d | None => VNone end.

Definition verification_status_text (s : VerificationStatus) : string :=
  match s with
  | V_NOT_REQUESTED => "NOT_REQUESTED" | VERIFIED => "VERIFIED"
  | V_FAILED => "FAILED" | V_UNKNOWN => "UNKNOWN"
  end.

(** [dataclasses.asdict] of the records; [encode_value] writes an enumeration
    member as its value. *)
Definition approval_fields (e : ApprovalEvidence) : list (string * value) :=
  [("tenant_id", VStr (av_tenant_id e)); ("execution_id", VStr (av_execution_id e));
   ("business_operation_id", VStr (av_business_operation_id e));
   ("approval_id", VStr (av_approval_id e));
   ("approval_request_id", VStr (av_approval_request_id e));
   ("skill_semantic_hash", VStr (av_skill_semantic_hash e));
   ("decision", VStr (decision_value (av_decision e)));
   ("approver_id", VStr (av_approver_id e)); ("decided_at", VDateTime (av_decided_at e));
   ("expires_at", time_field (av_expires_at e)); ("payload_hash", VStr (av_payload_hash e));
   ("write_intent_hash", VStr (av_write_intent_hash e));
   ("evidence_integrity", VStr (av_evidence_integrity e))].

Definition attempt_fields (r : WriteAttemptRecord) : list (string * value) :=
  [("tenant_id", VStr (wa_tenant_id r)); ("execution_id", VStr (wa_execution_id r));
   ("business_operation_id", VStr (wa_business_operation_id r));
   ("invocation_id", VStr (wa_invocation_id r)); ("node_id", VStr (wa_node_id r));
   ("tool_id", VStr (wa_tool_id r)); ("contract_hash", VStr (wa_contract_hash r));
   ("approval_request_id", VStr (wa_approval_request_id r));
   ("idempotency_key", VStr (wa_idempotency_key r)); ("payload_hash", VStr (wa_payload_hash r));
   ("write_intent_hash", VStr (wa_write_intent_hash r));
   ("precondition_evidence_id", VStr (wa_precondition_evidence_id r));
   ("requested_at", VDateTime (wa_requested_at r))].

Definition outcome_identity_fields (i : WriteOutcomeIdentity) : list (string * value) :=
  [("tenant_id", VStr (wo_tenant_id i));
   ("business_operation_id", VStr (wo_business_operation_id i));
   ("invocation_id", VStr (wo_invocation_id i)); ("node_id", VStr (wo_node_id i));
   ("tool_id", VStr (wo_tool_id i)); ("idempotency_key", VStr (wo_idempotency_key i));
   ("payload_hash", VStr (wo_payload_hash i));
   ("approval_request_id", VStr (wo_approval_request_id i));
   ("write_intent_hash", VStr (wo_write_intent_hash i))].

Definition outcome_fields (r : WriteOutcomeRecord) : list (string * value) :=
  [("requested_record_hash", VStr (or_requested_record_hash r));
   ("identity", VDict (outcome_identity_fields (or_identity r)));
   ("commit_state", VStr (commit_state_value (or_commit_state r)));
   ("reason_code", text_field (or_reason_code r));
   ("provider_transaction_id", text_field (or_provider_transaction_id r));
   ("business_reference", text_field (or_business_reference r));
   ("evidence_refs", VTuple (map VStr (or_evidence_refs r)));
   ("recorded_at", VDateTime (or_recorded_at r))].

Definition verification_fields (r : VerificationResult) : list (string * value) :=
  [("identity", VDict (outcome_identity_fields (vr_identity r)));
   ("commit_state", VStr (commit_state_value (vr_commit_state r)));
   ("status", VStr (verification_status_text (vr_status r)));
   ("business_reference", VStr (vr_business_reference r));
   ("verification_tool_id", text_field (vr_verification_tool_id r));
   ("reason_code", text_field (vr_reason_code r)); ("evidence_ref", text_field (vr_evidence_ref r));
   ("observed_at", time_field (vr_observed_at r))].

(** [value_hash] *)
Definition replay_value_hash (v : ReplayValue) : string :=
  match v with
  | SnapApproval e => value_hash (VDict (approval_fields e))
  | SnapRequest r => value_hash (VDict (attempt_fields r))
  | SnapOutcome r => value_hash (VDict (outcome_fields r))
  | SnapVerification r => value_hash (VDict (verification_fields r))
  | SnapOther v => value_hash v
  end.

(** ** Bindings of a value to the identity *)

(** [_outcome_bindings] *)
Definition _outcome_bindings (v : WriteOutcomeIdentity) (i : WriteReplayIdentity) : bool :=
  String.eqb (wo_tenant_id v) (ri_tenant_id i)
  && String.eqb (wo_business_operation_id v) (ri_business_operation_id i)
  && String.eqb (wo_node_id v) (ri_node_id i)
  && String.eqb (wo_approval_request_id v) (ri_approval_request_id i)
  && bool_decide (Some (wo_idempotency_key v) = ri_idempotency_key i)
  && String.eqb (wo_payload_hash v) (ri_payload_hash i)
  && String.eqb (wo_write_intent_hash v) (ri_write_intent_hash i).

Definition approval_bindings (v : ApprovalEvidence) (i : WriteReplayIdentity) : bool :=
  String.eqb (av_tenant_id v) (ri_tenant_id i)
  && String.eqb (av_execution_id v) (ri_execution_id i)
  && String.eqb (av_business_operation_id v) (ri_business_operation_id i)
  && String.eqb (av_skill_semantic_hash v) (ri_skill_semantic_hash i)
  && String.eqb (av_approval_request_id v) (ri_approval_request_id i)
  && String.eqb (av_payload_hash v) (ri_payload_hash i)
  && String.eqb (av_write_intent_hash v) (ri_write_intent_hash i).

Definition request_bindings (v : WriteAttemptRecord) (i : WriteReplayIdentity) : bool :=
  String.eqb (wa_tenant_id v) (ri_tenant_id i)
  && String.eqb (wa_execution_id v) (ri_execution_id i)
  && String.eqb (wa_business_operation_id v) (ri_business_operation_id i)
  && String.eqb (wa_node_id v) (ri_node_id i)
  && String.eqb (wa_approval_request_id v) (ri_approval_request_id i)
  && bool_decide (Some (wa_idempotency_key v) = ri_idempotency_key i)
  && String.eqb (wa_payload_hash v) (ri_payload_hash i)
  && String.eqb (wa_write_intent_hash v) (ri_write_intent_hash i).

(** [_validate_domain_value] *)
Definition _validate_domain_value (kind : WriteReplayEvidenceKind) (v : ReplayValue)
    (i : WriteReplayIdentity) : result unit :=
  bindings ← match kind, v with
             | APPROVAL, SnapApproval e => Ok (approval_bindings e i)
             | APPROVAL, _ => raise TypeError "approval snapshot must contain ApprovalEvidence"
             | WRITE_REQUEST, SnapRequest r => Ok (request_bindings r i)
             | WRITE_REQUEST, _ =>
                 raise TypeError "WRITE request snapshot must contain WriteAttemptRecord"
             | COMMIT_OUTCOME, SnapOutcome r => Ok (_outcome_bindings (or_identity r) i)
             | COMMIT_OUTCOME, _ => raise TypeError "commit snapshot must contain WriteOutcomeRecord"
             | VERIFICATION_OUTCOME, SnapVerification r => Ok (_outcome_bindings (vr_identity r) i)
             | VERIFICATION_OUTCOME, _ =>
                 raise TypeError "verification snapshot must contain VerificationResult"
             end;
  replay_error_if (negb bindings) (kind_value kind +:+ " snapshot identity mismatch").

(** ** Composing *)

Record RehydratedWriteReplayEvidence : Type := MkRehydratedWriteReplayEvidence {
  re_approval : ApprovalEvidence;
  re_write_request : option WriteAttemptRecord;
  re_commit_outcome : option WriteOutcomeRecord;
  re_verification_outcome : option VerificationResult
}.

Definition is_some {A} (o : option A) : bool := match o with Some _ => true | None => false end.

(** [WriteReplayEvidenceComposer._validate_lifecycle] *)
Definition _validate_lifecycle (i : WriteReplayIdentity) (e : RehydratedWriteReplayEvidence)
  : result (list (WriteReplayEvidenceKind * ReplayValue)) :=
  _ ← _validate_domain_value APPROVAL (SnapApproval (re_approval e)) i;
  if bool_decide (av_decision (re_approval e) = DECISION_REJECTED) then
    _ ← replay_error_if (is_some (re_write_request e) || is_some (re_commit_outcome e)
                         || is_some (re_verification_outcome e))
          "rejected approval cannot contain WRITE outcomes";
    Ok [(APPROVAL, SnapApproval (re_approval e))]
  else
    match re_write_request e, re_commit_outcome e with
    | Some request, Some outcome =>
        _ ← replay_error_if (bool_decide (ri_idempotency_key i = None))
              "WRITE Replay identity requires idempotency_key";
        _ ← _validate_domain_value WRITE_REQUEST (SnapRequest request) i;
        _ ← _validate_domain_value COMMIT_OUTCOME (SnapOutcome outcome) i;
        _ ← replay_error_if (negb (String.eqb (or_requested_record_hash outcome)
                                              (attempt_record_hash request)))
              "commit outcome does not bind the recorded WRITE request";
        let values := [(APPROVAL, SnapApproval (re_approval e)); (WRITE_REQUEST, SnapRequest request);
                       (COMMIT_OUTCOME, SnapOutcome outcome)] in
        if bool_decide (or_commit_state outcome = COMMITTED) then
          match re_verification_outcome e with
          | None => replay_error "committed Replay requires a verification outcome"
          | Some v =>
              _ ← _validate_domain_value VERIFICATION_OUTCOME (SnapVerification v) i;
              Ok (values ++ [(VERIFICATION_OUTCOME, SnapVerification v)])
          end
        else
          _ ← replay_error_if (is_some (re_verification_outcome e))
                "non-committed Replay cannot contain verification outcome";
          Ok values
    | _, _ => replay_error "approved Replay requires WRITE request and commit outcome"
    end.

Notation ReplayStore := (ProtectedSnapshotStore (V := ReplayValue)).
Notation RStore := (M ReplayStore).

Record WriteReplayEvidenceComposer : Type := MkWriteReplayEvidenceComposer {
  rw_retention_days : Z;
  rw_classification : DataClassification
}.

(** [WriteReplayEvidenceComposer.__init__] *)
Definition new_composer (retention_days : Z) (classification : DataClassification)
  : result WriteReplayEvidenceComposer :=
  _ ← replay_error_if (retention_days <=? 0)%Z "retention_days must be positive";
  _ ← replay_error_if (negb (is_protected classification))
        "WRITE Replay evidence classification must be protected";
  Ok (MkWriteReplayEvidenceComposer retention_days classification).

(** The records of the values, numbered from [sequence]. *)
Fixpoint compose_records (c : WriteReplayEvidenceComposer) (i : WriteReplayIdentity) (sequence : Z)
    (values : list (WriteReplayEvidenceKind * ReplayValue)) : RStore (list WriteReplaySnapshotRecord) :=
  match values with
  | [] => mret []
  | (kind, v) :: values =>
      reference ← protected_put replay_value_hash (ri_tenant_id i) v (rw_classification c)
                    (rw_retention_days c) None;
      r ← lift (create_record sequence kind i reference);
      rest ← compose_records c i (sequence + 1)%Z values;
      mret (r :: rest)
  end.

(** [WriteReplayEvidenceComposer.compose] *)
Definition compose_replay (c : WriteReplayEvidenceComposer) (i : WriteReplayIdentity)
    (e : RehydratedWriteReplayEvidence) : RStore ProtectedWriteReplayBundle :=
  values ← lift (_validate_lifecycle i e);
  records ← compose_records c i 1 values;
  lift (create_replay_bundle i records).

(** ** Loading *)

Definition loaded_values : Type := list (WriteReplayEvidenceKind * ReplayValue).

Definition loaded (kind : WriteReplayEvidenceKind) (l : loaded_values) : option ReplayValue :=
  snd <$> find (fun kv => bool_decide (kv.1 = kind)) l.

Fixpoint load_records (p : ExecutionPrincipal) (i : WriteReplayIdentity)
    (records : list WriteReplaySnapshotRecord) : RStore loaded_values :=
  match records with
  | [] => mret []
  | r :: records =>
      v ← protected_get replay_value_hash (rc_snapshot_ref r) p;
      _ ← lift (_validate_domain_value (rc_kind r) v i);
      rest ← load_records p i records;
      mret ((rc_kind r, v) :: rest)
  end.

(** The values of the kinds: [_validate_domain_value] admitted them. *)
Definition rehydrate (l : loaded_values) : result RehydratedWriteReplayEvidence :=
  approval ← match loaded APPROVAL l with
             | Some (SnapApproval e) => Ok e
             | _ => raise KeyError "APPROVAL"
             end;
  Ok (MkRehydratedWriteReplayEvidence approval
        match loaded WRITE_REQUEST l with Some (SnapRequest r) => Some r | _ => None end
        match loaded COMMIT_OUTCOME l with Some (SnapOutcome r) => Some r | _ => None end
        match loaded VERIFICATION_OUTCOME l with Some (SnapVerification r) => Some r | _ => None end).

(** [WriteReplayEvidenceLoader.load] *)
Definition load_replay (b : ProtectedWriteReplayBundle) (p : ExecutionPrincipal)
  : RStore RehydratedWriteReplayEvidence :=
  _ ← lift (principal_validate p true);
  _ ← fail_if (negb (String.eqb (pr_tenant_id p) (ri_tenant_id (rb_source_identity b))))
        PermissionError "cross-tenant WRITE Replay is forbidden";
  values ← load_records p (rb_source_identity b) (rb_records b);
  e ← lift (rehydrate values);
  _ ← lift (_validate_lifecycle (rb_source_identity b) e);
  mret e.

(** ** Replaying ([write_replay_execution.py]) *)

Definition side_effect_if (b : bool) (message : string) : result unit :=
  raise_if b ReplaySideEffectError message.

Inductive ReplayWriteSource : Type := RECORDED | MOCK.

(** [_outcome_matches_request] *)
Definition _outcome_matches_request (o : WriteOutcomeIdentity) (r : WriteAttemptRecord) : bool :=
  String.eqb (wo_tenant_id o) (wa_tenant_id r)
  && String.eqb (wo_business_operation_id o) (wa_business_operation_id r)
  && String.eqb (wo_invocation_id o) (wa_invocation_id r)
  && String.eqb (wo_node_id o) (wa_node_id r)
  && String.eqb (wo_tool_id o) (wa_tool_id r)
  && String.eqb (wo_idempotency_key o) (wa_idempotency_key r)
  && String.eqb (wo_payload_hash o) (wa_payload_hash r)
  && String.eqb (wo_approval_request_id o) (wa_approval_request_id r)
  && String.eqb (wo_write_intent_hash o) (wa_write_intent_hash r).

Record RecordedWriteExchange : Type := MkRecordedWriteExchange {
  rx_request : WriteAttemptRecord;
  rx_outcome : WriteOutcomeRecord
}.

(** [RecordedWriteExchange.__post_init__] *)
Definition new_exchange (request : WriteAttemptRecord) (outcome : WriteOutcomeRecord)
  : result RecordedWriteExchange :=
  _ ← side_effect_if (negb (String.eqb (or_requested_record_hash outcome) (attempt_record_hash request)))
        "recorded outcome does not bind the WRITE request";
  _ ← side_effect_if (negb (_outcome_matches_request (or_identity outcome) request))
        "recorded WRITE request and outcome identities differ";
  Ok (MkRecordedWriteExchange request outcome).

#[export] Instance WriteAttemptRecord_eq_dec : EqDecision WriteAttemptRecord.
Proof. solve_decision. Defined.

(** [RecordedWriteExchange.matches] *)
Definition exchange_matches (x : RecordedWriteExchange) (request : WriteCallRequest) : result bool :=
  candidate ← attempt_from_request request (wa_requested_at (rx_request x));
  Ok (bool_decide (candidate = rx_request x)).

(** [ReplayWriteDecision]: no retry is allowed and no side effect performed. *)
Record ReplayWriteDecision : Type := MkReplayWriteDecision {
  rd_outcome : WriteOutcomeRecord;
  rd_source : ReplayWriteSource;
  rd_automatic_retry_allowed : bool;
  rd_side_effect_performed : bool
}.

(** [ReplayWriteDecision.__post_init__] *)
Definition ReplayWriteDecision_post_init (d : ReplayWriteDecision) : result unit :=
  _ ← side_effect_if (rd_automatic_retry_allowed d) "Replay cannot allow automatic WRITE retry";
  side_effect_if (rd_side_effect_performed d) "Replay cannot report a WRITE side effect".

Definition reconciliation_required (d : ReplayWriteDecision) : bool :=
  bool_decide (or_commit_state (rd_outcome d) = UNKNOWN_COMMIT_STATE).

Record StrictExecutor : Type := MkStrictExecutor {
  sx_exchanges : list RecordedWriteExchange;
  sx_source : ReplayWriteSource;
  sx_index : nat;
  sx_failed : bool
}.

Definition exchange_identity (x : RecordedWriteExchange) : string * string * string * string :=
  let r := rx_request x in
  (wa_execution_id r, wa_business_operation_id r, wa_invocation_id r, wa_node_id r).

(** [_StrictRecordedWriteExecutor.__init__] *)
Definition new_executor (exchanges : list RecordedWriteExchange) (source : ReplayWriteSource)
  : result StrictExecutor :=
  _ ← side_effect_if (MAX_REPLAY_WRITE_CALLS <? length exchanges) "Replay cannot exceed 64 WRITE calls";
  _ ← side_effect_if (negb (bool_decide (NoDup (map exchange_identity exchanges))))
        "Replay WRITE invocation identities must be unique";
  Ok (MkStrictExecutor exchanges source 0 false).

Definition fail_closed : M StrictExecutor unit :=
  modify (fun x => MkStrictExecutor (sx_exchanges x) (sx_source x) (sx_index x) true).

(** [_StrictRecordedWriteExecutor.execute] *)
Definition replay_execute (request : WriteCallRequest) : M StrictExecutor ReplayWriteDecision :=
  x ← get;
  _ ← fail_if (sx_failed x) ReplaySideEffectError "Replay WRITE executor is failed closed";
  match sx_exchanges x !! sx_index x with
  | None =>
      _ ← fail_closed;
      fail ReplaySideEffectError "Replay requested more WRITE calls than recorded"
  | Some expected =>
      matches_ ← lift (exchange_matches expected request);
      if negb matches_ then
        _ ← fail_closed;
        fail ReplaySideEffectError "Replay WRITE call does not match recorded invocation order"
      else
        _ ← modify (fun x => MkStrictExecutor (sx_exchanges x) (sx_source x) (S (sx_index x)) (sx_failed x));
        let d := MkReplayWriteDecision (rx_outcome expected) (sx_source x) false false in
        _ ← lift (ReplayWriteDecision_post_init d);
        mret d
  end.

(** [_StrictRecordedWriteExecutor.assert_consumed] *)
Definition assert_consumed (x : StrictExecutor) : result unit :=
  _ ← side_effect_if (sx_failed x) "Replay WRITE executor is failed closed";
  side_effect_if (negb (sx_index x =? length (sx_exchanges x)))
    "Replay did not consume every recorded WRITE call".

(** [RecordedWriteReplayExecutor.__init__] *)
Definition recorded_executor (e : RehydratedWriteReplayEvidence) : result StrictExecutor :=
  exchanges ← match re_write_request e, re_commit_outcome e with
              | None, None => Ok []
              | Some r, Some o => x ← new_exchange r o; Ok [x]
              | _, _ => raise ReplaySideEffectError "Replay evidence has a partial WRITE exchange"
              end;
  new_executor exchanges RECORDED.

(** [MockWriteExecutor.__init__] *)
Definition mock_executor (exchanges : list RecordedWriteExchange) : result StrictExecutor :=
  new_executor exchanges MOCK.

(** [ReplayWriteSession]: the recorded controls and the executor. *)
Record ReplayWriteSession : Type := MkReplayWriteSession {
  rs_approval : ApprovalEvidence;
  rs_verification : option VerificationResult;
  rs_writes : StrictExecutor
}.

Definition new_session (e : RehydratedWriteReplayEvidence) : result ReplayWriteSession :=
  writes ← recorded_executor e;
  Ok (MkReplayWriteSession (re_approval e) (re_verification_outcome e) writes).

(** [ReplayWriteSession.open] *)
Definition open_session (b : ProtectedWriteReplayBundle) (p : ExecutionPrincipal)
  : RStore ReplayWriteSession :=
  e ← load_replay b p; lift (new_session e).

(** ** Composing and loading *)

Lemma replay_error_if_Ok b message u : replay_error_if b message = Ok u <-> b = false.
Proof. apply raise_if_Ok. Qed.

(** The values of a lifecycle are bound to the identity and are those of the
    evidence. *)
Lemma lifecycle_values i e values : _validate_lifecycle i e = Ok values ->
  Forall (fun kv => _validate_domain_value kv.1 kv.2 i = Ok tt) values
  /\ rehydrate values = Ok e.
Proof.
  destruct e as [a rq oc ve]. unfold _validate_lifecycle.
  cbn [re_approval re_write_request re_commit_outcome re_verification_outcome]. intros H.
  apply bind_Ok in H as ([] & Ha & H). destruct (bool_decide _).
  { apply bind_Ok in H as ([] & Hn%replay_error_if_Ok & [= <-]). split_bool.
    split; [by repeat constructor |].
    destruct rq, oc, ve; done. }
  destruct rq as [rq|], oc as [oc|]; try discriminate.
  apply bind_Ok in H as ([] & _ & H). apply bind_Ok in H as ([] & Hr & H).
  apply bind_Ok in H as ([] & Ho & H). apply bind_Ok in H as ([] & _ & H). cbv zeta in H.
  destruct (bool_decide _).
  - destruct ve as [ve|]; [| discriminate]. apply bind_Ok in H as ([] & Hv & [= <-]).
    split; [| done]. by repeat constructor.
  - apply bind_Ok in H as ([] & Hn%replay_error_if_Ok & [= <-]). destruct ve; [discriminate |].
    split; [| done]. by repeat constructor.
Qed.

Lemma create_record_Ok sequence kind i ref r : create_record sequence kind i ref = Ok r ->
  rc_kind r = kind /\ rc_identity r = i /\ rc_snapshot_ref r = ref.
Proof.
  unfold create_record. intros H. apply bind_Ok in H as (u & _ & H).
  by apply bind_Ok in H as (u' & _ & [= <-]).
Qed.

(** A clock that stays within the retention of the composer. *)
Definition within_retention (c : WriteReplayEvidenceComposer) (s : ReplayStore) : Prop :=
  forall n m, (instant (pt_now s n) < instant (pt_now s m) + rw_retention_days c * us_per_day)%Z.

(** The record [r] leads to the value. *)
Definition leads_to (s : ReplayStore) (i : WriteReplayIdentity)
    (kv : WriteReplayEvidenceKind * ReplayValue) (r : WriteReplaySnapshotRecord) : Prop :=
  rc_kind r = kv.1 /\ rc_identity r = i
  /\ available replay_value_hash s (rc_snapshot_ref r) (ri_tenant_id i) kv.2.

Lemma compose_records_run c i values : forall sequence s records s',
  compose_records c i sequence values s = (Ok records, s') ->
  named s -> faithful (pt_protector s) -> within_retention c s ->
  named s' /\ pt_protector s' = pt_protector s /\ pt_now s' = pt_now s
  /\ (forall ref t w, available replay_value_hash s ref t w -> available replay_value_hash s' ref t w)
  /\ Forall2 (leads_to s' i) values records.
Proof.
  induction values as [|[kind v] values IH]; intros sequence s records s' H Hn Hf Hc.
  { injection H as <- <-. by repeat split; try apply Hn. }
  apply M_bind_Ok in H as (ref & s1 & Hp & H). apply M_bind_Ok in H as (r & s2 & Hr & H).
  injection Hr as Hr <-. apply M_bind_Ok in H as (rest & s3 & Hrest & H). injection H as <- <-.
  pose proof (put_available _ _ _ _ _ _ _ _ _ Hp Hf (fun n => Hc n _)) as Ha.
  pose proof (fun r0 t w => put_keeps _ _ _ _ _ _ _ _ _ r0 t w Hn Hp) as Hk.
  destruct (Hk ref "" v) as (Hn1 & E1 & E2 & _).
  destruct (IH _ _ _ _ Hrest) as (Hn2 & E3 & E4 & Hav & Hall); [done | by rewrite E1 | |].
  { intros n m. rewrite E2. apply Hc. }
  split; [done |]. split; [congruence |]. split; [congruence |]. split.
  { intros r0 t w Hw. by apply Hav, (Hk r0 t w). }
  constructor; [| done]. apply create_record_Ok in Hr as (K1 & K2 & K3).
  split; [done |]. split; [done |]. rewrite K3. by apply Hav.
Qed.

Lemma load_records_run p i values records : forall s,
  Forall2 (leads_to s i) values records ->
  Forall (fun kv => _validate_domain_value kv.1 kv.2 i = Ok tt) values ->
  ri_tenant_id i = pr_tenant_id p -> (forall n, is_Some (dt_utcoffset (pt_now s n))) ->
  principal_validate p true = Ok tt -> "nsl:replay:read" ∈ pr_scopes p ->
  exists s', load_records p i records s = (Ok values, s').
Proof.
  revert records; induction values as [|[kind v] values IH]; intros records s Hall Hv Ht Hc Hp Hs.
  { apply Forall2_nil_inv_l in Hall as ->. by exists s. }
  apply Forall2_cons_inv_l in Hall as (r & rest & (K1 & K2 & Ha) & Hall & ->).
  apply Forall_cons in Hv as [Hv Hvs]. rewrite Ht in Ha. cbn [fst snd] in *.
  destruct (get_available _ _ _ _ _ Ha Hc Hp Hs) as (s1 & Hg & Hsame).
  destruct (IH rest s1) as (s2 & Hl); try done.
  { eapply Forall2_impl; [exact Hall |]. intros kv r' (E1 & E2 & E3). split; [done |].
    split; [done |]. by eapply available_same. }
  { destruct Hsame as (_ & _ & -> & _). done. }
  exists s2. cbn [load_records]. eapply M_bind_intro; [exact Hg |].
  eapply M_bind_intro; [unfold lift; rewrite K1, Hv; reflexivity |].
  eapply M_bind_intro; [exact Hl |]. by rewrite K1.
Qed.

(** C35. What was recorded of a WRITE is what a replay works on. If the protector
    unseals what it sealed, the clock is aware of its zone and stays within the
    retention, then whenever [compose] returns a bundle, for a rejected
    approval, a WRITE that was not committed or one whose commit is unknown or
    verified, [load] returns the very evidence for every verified principal of
    the tenant that may read replays; and the evidence passes the checks on
    its lifecycle again. *)
Theorem write_replay_roundtrip (c : WriteReplayEvidenceComposer) (i : WriteReplayIdentity)
    (e : RehydratedWriteReplayEvidence) (s s1 : ReplayStore) (b : ProtectedWriteReplayBundle)
    (p : ExecutionPrincipal) :
  named s -> faithful (pt_protector s) -> within_retention c s ->
  (forall n, is_Some (dt_utcoffset (pt_now s n))) ->
  compose_replay c i e s = (Ok b, s1) ->
  principal_validate p true = Ok tt -> "nsl:replay:read" ∈ pr_scopes p ->
  pr_tenant_id p = ri_tenant_id i ->
  exists s2, load_replay b p s1 = (Ok e, s2).
Proof.
  intros Hn Hf Hc Hclock H Hp Hs Ht. unfold compose_replay in H.
  apply M_bind_Ok in H as (values & s2 & H1 & H). injection H1 as Hl <-.
  apply M_bind_Ok in H as (records & s3 & Hr & H). injection H as Hb <-.
  unfold create_replay_bundle in Hb. apply bind_Ok in Hb as (u & _ & [= <-]).
  destruct (lifecycle_values _ _ _ Hl) as [Hv He].
  destruct (compose_records_run _ _ _ _ _ _ _ Hr Hn Hf Hc) as (_ & _ & Hnow & _ & Hall).
  destruct (load_records_run p i values records s3 Hall Hv) as (s4 & Hload); try done.
  { by rewrite Hnow. }
  exists s4. unfold load_replay. eapply M_bind_intro; [unfold lift; rewrite Hp; reflexivity |].
  eapply M_bind_intro.
  { unfold fail_if, lift. cbn [rb_source_identity]. rewrite Ht, String.eqb_refl. reflexivity. }
  eapply M_bind_intro; [exact Hload |].
  eapply M_bind_intro; [unfold lift; rewrite He; reflexivity |].
  eapply M_bind_intro; [unfold lift; cbn [rb_source_identity]; rewrite Hl; reflexivity | reflexivity].
Qed.

(** ** The executor is a queue of recorded exchanges *)

(** The specification: what is left to replay, or [None] once it is closed. *)
Definition queue_execute (request : WriteCallRequest) (queue : option (list RecordedWriteExchange))
  : result WriteOutcomeRecord * option (list RecordedWriteExchange) :=
  match queue with
  | None => (raise ReplaySideEffectError "Replay WRITE executor is failed closed", None)
  | Some [] => (raise ReplaySideEffectError "Replay requested more WRITE calls than recorded", None)
  | Some (x :: rest) =>
      match exchange_matches x request with
      | Err e => (Err e, queue)
      | Ok true => (Ok (rx_outcome x), Some rest)
      | Ok false =>
          (raise ReplaySideEffectError "Replay WRITE call does not match recorded invocation order", None)
      end
  end.

(** The queue that an executor stands for. *)
Definition queue_of (x : StrictExecutor) : option (list RecordedWriteExchange) :=
  if sx_failed x then None else Some (drop (sx_index x) (sx_exchanges x)).

(** The calls of a replay, each with its outcome. *)
Fixpoint replay_calls (requests : list WriteCallRequest) (x : StrictExecutor)
  : list (result ReplayWriteDecision) * StrictExecutor :=
  match requests with
  | [] => ([], x)
  | request :: requests =>
      let '(r, x) := replay_execute request x in
      let '(rs, x) := replay_calls requests x in (r :: rs, x)
  end.

Fixpoint queue_calls (requests : list WriteCallRequest) (queue : option (list RecordedWriteExchange))
  : list (result WriteOutcomeRecord) * option (list RecordedWriteExchange) :=
  match requests with
  | [] => ([], queue)
  | request :: requests =>
      let '(r, queue) := queue_execute request queue in
      let '(rs, queue) := queue_calls requests queue in (r :: rs, queue)
  end.

(** A decision that only repeats a recorded outcome. *)
Definition repeats (x : StrictExecutor) (d : ReplayWriteDecision) : Prop :=
  rd_source d = sx_source x /\ rd_automatic_retry_allowed d = false
  /\ rd_side_effect_performed d = false.

Lemma replay_execute_eq request xs source index failed :
  replay_execute request (MkStrictExecutor xs source index failed) =
  let stay := MkStrictExecutor xs source index failed in
  if failed then (raise ReplaySideEffectError "Replay WRITE executor is failed closed", stay) else
  match xs !! index with
  | None => (raise ReplaySideEffectError "Replay requested more WRITE calls than recorded",
             MkStrictExecutor xs source index true)
  | Some expected =>
      match exchange_matches expected request with
      | Err e => (Err e, stay)
      | Ok false =>
          (raise ReplaySideEffectError "Replay WRITE call does not match recorded invocation order",
           MkStrictExecutor xs source index true)
      | Ok true => (Ok (MkReplayWriteDecision (rx_outcome expected) source false false),
                    MkStrictExecutor xs source (S index) failed)
      end
  end.
Proof.
  cbv [replay_execute mbind M_bind get fail_if lift raise_if fail fail_closed modify mret M_ret
    ReplayWriteDecision_post_init side_effect_if result_bind raise rd_automatic_retry_allowed
    rd_side_effect_performed sx_failed sx_exchanges sx_index sx_source].
  destruct failed; [done |]. destruct (xs !! index) as [expected|]; [| done].
  by destruct (exchange_matches expected request) as [[]|er].
Qed.

Lemma replay_execute_spec request x : sx_index x <= length (sx_exchanges x) ->
  let r := replay_execute request x in
  queue_execute request (queue_of x) = (rd_outcome <$> r.1, queue_of r.2)
  /\ sx_exchanges r.2 = sx_exchanges x /\ sx_source r.2 = sx_source x
  /\ sx_index r.2 <= length (sx_exchanges x)
  /\ (forall d, r.1 = Ok d -> repeats x d).
Proof.
  destruct x as [xs source index failed]. cbn [sx_index sx_exchanges]. intros Hi. cbv zeta.
  rewrite replay_execute_eq. cbv zeta. unfold queue_of. cbn [sx_failed sx_exchanges sx_index].
  destruct failed; [by repeat split |].
  destruct (xs !! index) as [expected|] eqn:E.
  - rewrite (drop_S _ _ _ E). cbn [queue_execute].
    destruct (exchange_matches expected request) as [[]|er];
      cbn [fst snd sx_failed sx_exchanges sx_index sx_source].
    + apply lookup_lt_Some in E. do 4 (split; [first [done | lia] |]). by intros d [= <-].
    + by repeat split.
    + rewrite (drop_S _ _ _ E). by repeat split.
  - apply lookup_ge_None in E. rewrite drop_ge by done. by repeat split.
Qed.

(** How often and in what order a replay answers is a matter of the recording
    alone. *)
Lemma replay_calls_spec requests : forall x, sx_index x <= length (sx_exchanges x) ->
  let r := replay_calls requests x in
  queue_calls requests (queue_of x) = (map (fmap rd_outcome) r.1, queue_of r.2)
  /\ sx_exchanges r.2 = sx_exchanges x /\ sx_source r.2 = sx_source x
  /\ sx_index r.2 <= length (sx_exchanges x)
  /\ Forall (fun o => forall d, o = Ok d -> repeats x d) r.1.
Proof.
  induction requests as [|request requests IH]; intros x Hi; cbv zeta; cbn [replay_calls queue_calls].
  { by repeat split. }
  pose proof (replay_execute_spec request x Hi) as H. cbv zeta in H.
  destruct (replay_execute request x) as [r x1]. cbn [fst snd] in H.
  destruct H as (H1 & H2 & H3 & H4 & H5). rewrite H1.
  specialize (IH x1). cbv zeta in IH. rewrite H2 in IH. specialize (IH H4).
  destruct (replay_calls requests x1) as [rs x2]. cbn [fst snd] in *.
  destruct IH as (K1 & K2 & K3 & K4 & K5). rewrite K1. cbn [fst snd map].
  split; [done |]. split; [done |]. split; [congruence |]. split; [done |].
  constructor; [done |]. eapply Forall_impl; [exact K5 |]. unfold repeats. rewrite H3. auto.
Qed.

Fixpoint answered {A} (rs : list (result A)) : list A :=
  match rs with [] => [] | Ok a :: rs => a :: answered rs | Err _ :: rs => answered rs end.

Lemma queue_closed requests : queue_calls requests None
  = (map (fun _ => raise ReplaySideEffectError "Replay WRITE executor is failed closed") requests, None).
Proof.
  induction requests as [|request requests IH]; [done |]. cbn [queue_calls queue_execute]. by rewrite IH.
Qed.

Lemma answered_closed {A B} (rs : list B) c m : answered (map (fun _ => raise (A := A) c m) rs) = [].
Proof. induction rs as [|r rs IH]; [done | exact IH]. Qed.

Lemma queue_closed_nothing requests :
  answered (queue_calls requests None).1 = []
  /\ forall n o, (queue_calls requests None).1 !! n <> Some (Ok o).
Proof.
  rewrite queue_closed. cbn [fst]. split; [apply answered_closed |]. intros n o H.
  change (@map) with (@fmap list _) in H. apply list_lookup_fmap_Some in H as (x & H & _). discriminate H.
Qed.

Lemma exchange_matches_true x request : exchange_matches x request = Ok true ->
  attempt_of request (wa_requested_at (rx_request x)) = rx_request x.
Proof.
  unfold exchange_matches, attempt_from_request. intros H. apply bind_Ok in H as (c & H1 & [= H2]).
  apply bind_Ok in H1 as (u & _ & [= <-]). by apply bool_decide_eq_true in H2.
Qed.

(** A queue answers a prefix of the recording, each entry to its own request. *)
Lemma queue_calls_prefix requests : forall xs,
  let q := queue_calls requests (Some xs) in
  (exists k, k <= length xs /\ answered q.1 = map rx_outcome (take k xs)
     /\ (q.2 = None \/ q.2 = Some (drop k xs)))
  /\ forall n request o, requests !! n = Some request -> q.1 !! n = Some (Ok o) ->
       exists x, x ∈ xs /\ rx_outcome x = o
         /\ attempt_of request (wa_requested_at (rx_request x)) = rx_request x.
Proof.
  induction requests as [|request requests IH]; intros xs; cbv zeta.
  { split; [exists 0; split; [lia |]; split; [done | by right] | done]. }
  cbn [queue_calls queue_execute].
  assert (forall e, let q := (Err e :: (queue_calls requests None).1, (queue_calls requests None).2) in
    (exists k, k <= length xs /\ answered q.1 = map rx_outcome (take k xs)
       /\ (q.2 = None \/ q.2 = Some (drop k xs)))
    /\ forall n request' o, (request :: requests) !! n = Some request' -> q.1 !! n = Some (Ok o) ->
         exists x, x ∈ xs /\ rx_outcome x = o
           /\ attempt_of request' (wa_requested_at (rx_request x)) = rx_request x) as Hclosed.
  { intros e. cbv zeta. cbn [fst snd]. destruct (queue_closed_nothing requests) as [H1 H2]. split.
    - exists 0. split; [lia |]. split; [exact H1 |]. left. by rewrite queue_closed.
    - intros [|n] r o _ H; [discriminate |]. by apply H2 in H. }
  destruct xs as [|x rest].
  { specialize (Hclosed (Exn ReplaySideEffectError "" "Replay requested more WRITE calls than recorded")).
    destruct (queue_calls requests None) as [rs q]. exact Hclosed. }
  destruct (exchange_matches x request) as [[]|e] eqn:Em.
  - destruct (IH rest) as [(k & H1 & H2 & H3) H4].
    destruct (queue_calls requests (Some rest)) as [rs q]. cbn [fst snd] in *. split.
    + exists (S k). cbn [length take drop answered map]. split; [lia |]. split; [by rewrite H2 | done].
    + intros [|n] r o Hr Ho.
      * injection Hr as <-. injection Ho as <-. exists x. split; [left |]. split; [done |].
        by apply exchange_matches_true.
      * destruct (H4 n r o Hr Ho) as (y & Hy & E1 & E2). exists y. split; [by right | done].
  - specialize (Hclosed (Exn ReplaySideEffectError "" "Replay WRITE call does not match recorded invocation order")).
    destruct (queue_calls requests None) as [rs q]. exact Hclosed.
  - destruct (IH (x :: rest)) as [(k & H1 & H2 & H3) H4].
    destruct (queue_calls requests (Some (x :: rest))) as [rs q]. cbn [fst snd] in *. split.
    + exists k. split; [done |]. by split.
    + intros [|n] r o Hr Ho; [discriminate |]. by eapply H4.
Qed.

(** C36. The replay executor implements a queue of recorded exchanges, and nothing
    else. Whatever calls are made of it, the outcomes it gives and what is left
    of it are those of the queue that holds the recording: a call is answered
    only by the exchange at its head, only if the request is the recorded one in
    every field, and with the recorded outcome; any other call closes the queue
    for good. So the answers are a prefix of the recorded outcomes in order,
    none allows a retry or reports a side effect, and [assert_consumed] accepts
    exactly when the whole recording was answered. *)
Theorem replay_refines_queue (xs : list RecordedWriteExchange) (source : ReplayWriteSource)
    (x : StrictExecutor) (requests : list WriteCallRequest) :
  new_executor xs source = Ok x ->
  let r := replay_calls requests x in
  let q := queue_calls requests (Some xs) in
  map (fmap rd_outcome) r.1 = q.1 /\ queue_of r.2 = q.2
  /\ (exists k, k <= length xs /\ answered q.1 = map rx_outcome (take k xs))
  /\ (forall n request o, requests !! n = Some request -> q.1 !! n = Some (Ok o) ->
       exists y, y ∈ xs /\ rx_outcome y = o
         /\ attempt_of request (wa_requested_at (rx_request y)) = rx_request y)
  /\ (forall d, Ok d ∈ r.1 -> rd_source d = source /\ rd_automatic_retry_allowed d = false
        /\ rd_side_effect_performed d = false)
  /\ (assert_consumed r.2 = Ok tt <-> q.2 = Some []).
Proof.
  intros H. unfold new_executor in H. apply bind_Ok in H as (u & _ & H). apply bind_Ok in H as (u' & _ & [= <-]).
  cbv zeta. pose proof (replay_calls_spec requests (MkStrictExecutor xs source 0 false)) as H.
  cbv zeta in H. cbn [sx_index sx_exchanges sx_source] in H. destruct H as (H1 & H2 & H3 & H4 & H5); [lia |].
  change (queue_of (MkStrictExecutor xs source 0 false)) with (Some xs) in H1.
  destruct (queue_calls_prefix requests xs) as [(k & K1 & K2 & _) K3]. rewrite H1 in K2, K3 |- *. cbn [fst snd] in *.
  split; [done |]. split; [done |]. split; [by exists k |]. split; [exact K3 |]. split.
  { intros d Hd. rewrite Forall_forall in H5. destruct (H5 _ Hd d eq_refl) as (E1 & E2 & E3).
    cbn [sx_source] in E1. done. }
  unfold assert_consumed, side_effect_if, queue_of. destruct (replay_calls _ _) as [rs x2]. cbn [fst snd] in *.
  rewrite H2. destruct (sx_failed x2); [done |]. cbn [raise_if mbind result_bind].
  destruct (Nat.eqb_spec (sx_index x2) (length xs)) as [E|E]; cbn [negb raise_if].
  - split; [| done]. intros _. by rewrite drop_ge by lia.
  - split; [done |]. intros [= Hd]. apply (f_equal length) in Hd. rewrite length_drop in Hd. cbn in Hd. lia.
Qed.

(** ** Composing succeeds *)

(** The protector seals the value, and the clock leaves room for the
    retention. *)
Definition seals (c : WriteReplayEvidenceComposer) (i : WriteReplayIdentity) (s : ReplayStore)
    (kv : WriteReplayEvidenceKind * ReplayValue) : Prop :=
  forall n, exists b, pp_seal (pt_protector s) n kv.2 (ri_tenant_id i) (rw_classification c) = Ok (Some b).

Definition clock_leaves_room (c : WriteReplayEvidenceComposer) (s : ReplayStore) : Prop :=
  forall n, is_Some (dt_utcoffset (pt_now s n))
            /\ exists e, add_days (pt_now s n) (rw_retention_days c) = Ok e.

Lemma put_total tenant v c days (s : ReplayStore) :
  non_blank tenant = true -> (0 < days)%Z -> is_protected c = true ->
  (forall n, exists b, pp_seal (pt_protector s) n v tenant c = Ok (Some b)) ->
  (forall n, is_Some (dt_utcoffset (pt_now s n)) /\ exists e, add_days (pt_now s n) days = Ok e) ->
  exists ref s', protected_put replay_value_hash tenant v c days None s = (Ok ref, s').
Proof.
  intros Ht Hd Hc Hseal Hclock. destruct (Hseal (pt_calls s)) as [b Hb].
  destruct (Hclock (pt_reads s)) as [[o Ho] [e He]]. unfold protected_put, fail_if, raise_if.
  rewrite Ht, Hc, (proj2 (Z.leb_gt _ _)) by lia. cbn [negb]. eexists. eexists.
  eapply M_bind_intro; [reflexivity |]. eapply M_bind_intro; [reflexivity |].
  eapply M_bind_intro.
  { eapply M_bind_intro; [| reflexivity]. unfold seal_value.
    eapply M_bind_intro; [reflexivity |]. eapply M_bind_intro; [reflexivity |].
    eapply M_bind_intro; [unfold lift; cbn [pt_protector pt_calls]; rewrite Hb; reflexivity | reflexivity]. }
  eapply M_bind_intro; [reflexivity |]. eapply M_bind_intro; [reflexivity |]. cbv zeta.
  eapply M_bind_intro.
  { unfold protected_now. eapply M_bind_intro; [reflexivity |]. eapply M_bind_intro; [reflexivity |].
    cbv zeta. cbn [pt_now pt_reads]. rewrite Ho. reflexivity. }
  cbn [pt_now pt_reads].
  eapply M_bind_intro; [unfold lift; rewrite He; reflexivity |].
  eapply M_bind_intro; [reflexivity | reflexivity].
Qed.

Lemma value_hash_is_ref v : is_sha256_ref (replay_value_hash v) = true.
Proof. destruct v; apply sha256_ref_is_ref. Qed.

Lemma replay_sha256_ref h name : is_sha256_ref h = true -> replay_sha256 h name = Ok h.
Proof. intros H. apply sha256_text_iff. split; [done |]. split; [| done]. by apply (sha256_text_ok ""). Qed.

Lemma create_record_total sequence kind i ref :
  (0 < sequence)%Z -> sr_tenant_id ref = ri_tenant_id i -> is_protected (sr_classification ref) = true ->
  is_sha256_ref (sr_value_hash ref) = true ->
  create_record sequence kind i ref
  = Ok (MkWriteReplaySnapshotRecord sequence kind i ref (compute_record_hash sequence kind i ref)).
Proof.
  intros Hs Ht Hc Hh. unfold create_record, WriteReplaySnapshotRecord_post_init, _validate_record_components.
  assert ((sequence <=? 0)%Z = false) as -> by lia. cbv zeta.
  assert ((sequence <=? 0)%Z = false) as Hz by lia.
  cbn [rc_snapshot_ref rc_identity rc_record_hash rc_sequence rc_kind].
  rewrite ?Hz, Ht, Hc, (replay_sha256_ref _ _ Hh), !String.eqb_refl. reflexivity.
Qed.

(** The values make records, in their order and numbered from [sequence]. *)
Lemma compose_records_total c i values : forall sequence (s : ReplayStore),
  non_blank (ri_tenant_id i) = true -> (0 < rw_retention_days c)%Z -> is_protected (rw_classification c) = true ->
  (0 < sequence)%Z -> Forall (seals c i s) values -> clock_leaves_room c s ->
  exists records s', compose_records c i sequence values s = (Ok records, s')
    /\ map rc_kind records = map fst values /\ Forall (fun r => rc_identity r = i) records
    /\ map rc_sequence records = map (fun n => sequence + Z.of_nat n)%Z (seq 0 (length values)).
Proof.
  induction values as [|[kind v] values IH]; intros sequence s Ht Hd Hc Hs Hseal Hclock.
  { exists [], s. by repeat split. }
  apply Forall_cons in Hseal as [Hv Hseal].
  destruct (put_total (ri_tenant_id i) v (rw_classification c) (rw_retention_days c) s Ht Hd Hc Hv Hclock)
    as (ref & s1 & Hp).
  destruct (put_inv _ _ _ _ _ _ _ _ _ Hp) as (blob & _ & _ & _ & Eref & Es).
  destruct (IH (sequence + 1)%Z s1) as (rest & s2 & Hrest & K1 & K2 & K3); try done; [lia | | |].
  { subst s1. exact Hseal. }
  { subst s1. exact Hclock. }
  eexists. exists s2. split; [| split; [| split]].
  - cbn [compose_records]. eapply M_bind_intro; [exact Hp |].
    eapply M_bind_intro; [unfold lift; rewrite create_record_total; [reflexivity | done | | |] |].
    { by rewrite Eref. } { by rewrite Eref. } { rewrite Eref. apply value_hash_is_ref. }
    eapply M_bind_intro; [exact Hrest | reflexivity].
  - cbn [map rc_kind fst]. by rewrite K1.
  - by constructor.
  - cbn [map rc_sequence length seq]. f_equal; [lia |]. rewrite K3, <- seq_shift, map_map.
    apply map_ext. intros n. lia.
Qed.

(** The kinds of a lifecycle are an admitted sequence. *)
Lemma lifecycle_kinds i e values : _validate_lifecycle i e = Ok values ->
  map fst values ∈ _ALLOWED_KIND_SEQUENCES.
Proof.
  unfold _validate_lifecycle. intros H. apply bind_Ok in H as (u & _ & H). destruct (bool_decide _).
  { apply bind_Ok in H as (u' & _ & <-%Ok_inj). apply (bool_decide_eq_true _). reflexivity. }
  destruct (re_write_request e), (re_commit_outcome e); try discriminate.
  do 4 apply bind_Ok in H as (? & _ & H). cbv zeta in H. destruct (bool_decide _).
  - destruct (re_verification_outcome e); [| discriminate]. apply bind_Ok in H as (u' & _ & <-%Ok_inj).
    apply (bool_decide_eq_true _). reflexivity.
  - apply bind_Ok in H as (u' & _ & <-%Ok_inj). apply (bool_decide_eq_true _). reflexivity.
Qed.

Lemma allowed_kinds kinds : kinds ∈ _ALLOWED_KIND_SEQUENCES ->
  NoDup kinds /\ sort_kinds kinds = kinds /\ 0 < length kinds <= MAX_WRITE_REPLAY_RECORDS.
Proof.
  assert (forallb (fun kinds => bool_decide (NoDup kinds) && bool_decide (sort_kinds kinds = kinds)
    && (0 <? length kinds) && (length kinds <=? MAX_WRITE_REPLAY_RECORDS)) _ALLOWED_KIND_SEQUENCES = true)
    as H by reflexivity.
  rewrite forallb_forall in H. intros Hk%list_elem_of_In%H.
  rewrite !andb_true_iff, !bool_decide_eq_true, Nat.ltb_lt, Nat.leb_le in Hk. tauto.
Qed.

(** Evidence with a valid lifecycle is composed, if the protector seals its
    values. *)
Lemma compose_replay_total c i e values (s : ReplayStore) :
  _validate_lifecycle i e = Ok values ->
  non_blank (ri_tenant_id i) = true -> (0 < rw_retention_days c)%Z -> is_protected (rw_classification c) = true ->
  Forall (seals c i s) values -> clock_leaves_room c s ->
  exists b s', compose_replay c i e s = (Ok b, s').
Proof.
  intros Hl Ht Hd Hc Hs Hclock.
  destruct (compose_records_total c i values 1 s) as (records & s' & Hr & K1 & K2 & K3); try done.
  destruct (allowed_kinds _ (lifecycle_kinds _ _ _ Hl)) as (A1 & A2 & A3). rewrite <- K1, length_map in A3.
  unfold compose_replay. eexists. exists s'. eapply M_bind_intro; [unfold lift; rewrite Hl; reflexivity |].
  eapply M_bind_intro; [exact Hr |]. unfold lift, create_replay_bundle. cbv zeta.
  match goal with |- context [ProtectedWriteReplayBundle_post_init ?b] =>
    assert (ProtectedWriteReplayBundle_post_init b = Ok tt) as -> end; [| reflexivity].
  unfold ProtectedWriteReplayBundle_post_init, replay_error_if.
  cbn [rb_schema_version rb_records rb_source_identity rb_manifest_hash].
  rewrite K1, K3, A2, (bool_decide_true (NoDup _)) by done.
  rewrite (bool_decide_true (map fst values ∈ _)) by by eapply lifecycle_kinds.
  rewrite (bool_decide_false (length records = 0)) by lia.
  rewrite (proj2 (Nat.ltb_ge _ _)) by lia.
  rewrite (bool_decide_true (map fst values = _)) by done.
  rewrite (bool_decide_true (map _ _ = _)).
  2: { rewrite <- (length_map fst values), <- K1, length_map, <- seq_shift, map_map. apply map_ext. intros n. lia. }
  rewrite (proj2 (forallb_forall _ _)).
  2: { intros r Hr'%list_elem_of_In. rewrite Forall_forall in K2. by rewrite bool_decide_true by by apply K2. }
  rewrite !String.eqb_refl. reflexivity.
Qed.

(** ** A WRITE whose commit is unknown

    The evidence of an attempt [r] that timed out. *)

#[export] Instance ApprovalEvidence_eq_dec : EqDecision ApprovalEvidence.
Proof. solve_decision. Defined.

Section Recorded.
Variable r : WriteAttemptRecord.

Definition recorded_identity : WriteReplayIdentity :=
  MkWriteReplayIdentity (wa_tenant_id r) (wa_execution_id r) (wa_business_operation_id r)
    (wa_contract_hash r) (wa_node_id r) (wa_approval_request_id r) (wa_payload_hash r)
    (wa_write_intent_hash r) (Some (wa_idempotency_key r)).

Definition recorded_approval : ApprovalEvidence :=
  MkApprovalEvidence (wa_tenant_id r) (wa_execution_id r) (wa_business_operation_id r) "approval-1"
    (wa_approval_request_id r) (wa_contract_hash r) DECISION_APPROVED "approver-1" (utc 1000)
    (Some (utc 5000)) (wa_payload_hash r) (wa_write_intent_hash r) "signed".

Definition recorded_outcome : WriteOutcomeRecord :=
  MkWriteOutcomeRecord (attempt_record_hash r)
    (MkWriteOutcomeIdentity (wa_tenant_id r) (wa_business_operation_id r) (wa_invocation_id r)
       (wa_node_id r) (wa_tool_id r) (wa_idempotency_key r) (wa_payload_hash r)
       (wa_approval_request_id r) (wa_write_intent_hash r))
    UNKNOWN_COMMIT_STATE (Some "TIMEOUT") None None ["ref-1"] (utc 4000).

Definition recorded_evidence : RehydratedWriteReplayEvidence :=
  MkRehydratedWriteReplayEvidence recorded_approval (Some r) (Some recorded_outcome) None.

Definition recorded_values : list (WriteReplayEvidenceKind * ReplayValue) :=
  [(APPROVAL, SnapApproval recorded_approval); (WRITE_REQUEST, SnapRequest r);
   (COMMIT_OUTCOME, SnapOutcome recorded_outcome)].

Lemma recorded_lifecycle : _validate_lifecycle recorded_identity recorded_evidence = Ok recorded_values.
Proof.
  unfold _validate_lifecycle, _validate_domain_value, approval_bindings, request_bindings, _outcome_bindings.
  cbn. rewrite !String.eqb_refl. rewrite (bool_decide_true (Some _ = Some _)) by done. reflexivity.
Qed.

Definition recorded_exchange : RecordedWriteExchange := MkRecordedWriteExchange r recorded_outcome.

Lemma recorded_exchange_valid : new_exchange r recorded_outcome = Ok recorded_exchange.
Proof. unfold new_exchange, _outcome_matches_request. cbn. rewrite !String.eqb_refl. reflexivity. Qed.

Lemma recorded_executor_valid :
  recorded_executor recorded_evidence = Ok (MkStrictExecutor [recorded_exchange] RECORDED 0 false).
Proof.
  unfold recorded_executor. cbn [re_write_request re_commit_outcome recorded_evidence].
  rewrite recorded_exchange_valid. cbn [mbind result_bind]. unfold new_executor.
  rewrite bool_decide_true by apply NoDup_singleton. reflexivity.
Qed.

(** A protector with a book of the values: it seals a value as its place in
    the book. *)
Definition book_seal (v : ReplayValue) : option ProtectedSnapshotBlob :=
  let blob n := Some (MkProtectedSnapshotBlob [n] "book" "key-1") in
  match v with
  | SnapApproval e => if bool_decide (e = recorded_approval) then blob "1"%char else None
  | SnapRequest r' => if bool_decide (r' = r) then blob "2"%char else None
  | SnapOutcome o => if bool_decide (o = recorded_outcome) then blob "3"%char else None
  | _ => None
  end.

Definition book_unseal (b : ProtectedSnapshotBlob) : result ReplayValue :=
  if bool_decide (pb_ciphertext b = ["1"%char]) then Ok (SnapApproval recorded_approval)
  else if bool_decide (pb_ciphertext b = ["2"%char]) then Ok (SnapRequest r)
  else Ok (SnapOutcome recorded_outcome).

Definition book_protector : SnapshotProtectionPort :=
  MkSnapshotProtectionPort (fun _ v _ _ => Ok (book_seal v)) (fun _ b _ _ => book_unseal b).

Lemma book_faithful : faithful book_protector.
Proof.
  intros n m v tenant c b H. cbn in *. injection H as H. unfold book_seal in H.
  destruct v; try discriminate; case_bool_decide as E; try discriminate; injection H as <-; subst;
    reflexivity.
Qed.

Definition book_store : ReplayStore := new_ProtectedSnapshotStore book_protector (fun _ => noon).

Lemma book_seals c : Forall (seals c recorded_identity book_store) recorded_values.
Proof.
  repeat constructor; intros n; cbn; rewrite bool_decide_true by done; by eexists.
Qed.

End Recorded.

Definition replayed_request : WriteAttemptRecord := attempt_of example_call_request (utc 3000).

Definition example_composer : WriteReplayEvidenceComposer := MkWriteReplayEvidenceComposer 30 CONFIDENTIAL.

Lemma write_replay_roundtrip_witness : exists b s1 s2,
  compose_replay example_composer (recorded_identity replayed_request) (recorded_evidence replayed_request)
    (book_store replayed_request) = (Ok b, s1)
  /\ load_replay b reading_principal s1 = (Ok (recorded_evidence replayed_request), s2).
Proof.
  destruct (compose_replay_total example_composer (recorded_identity replayed_request)
    (recorded_evidence replayed_request) (recorded_values replayed_request) (book_store replayed_request))
    as (b & s1 & E).
  - exact (recorded_lifecycle replayed_request).
  - reflexivity.
  - reflexivity.
  - reflexivity.
  - exact (book_seals replayed_request example_composer).
  - intros n. split; [by exists 0%Z | by eexists].
  - destruct (write_replay_roundtrip example_composer (recorded_identity replayed_request)
      (recorded_evidence replayed_request) (book_store replayed_request) s1 b reading_principal) as (s2 & H).
    + split; [reflexivity |]. intros id item H. unfold book_store, new_ProtectedSnapshotStore in H.
      cbn [pt_items] in H. by rewrite lookup_empty in H.
    + exact (book_faithful replayed_request).
    + intros n m. reflexivity.
    + intros n. by exists 0%Z.
    + exact E.
    + exact reading_principal_valid.
    + apply (bool_decide_eq_true _). vm_compute. reflexivity.
    + reflexivity.
    + exists b, s1, s2. split; [exact E | exact H].
Defined.

Lemma replay_refines_queue_witness :
  new_executor [recorded_exchange replayed_request] RECORDED
    = Ok (MkStrictExecutor [recorded_exchange replayed_request] RECORDED 0 false)
  /\ let r := replay_calls [example_call_request; example_call_request]
                (MkStrictExecutor [recorded_exchange replayed_request] RECORDED 0 false) in
     queue_of r.2
     = (queue_calls [example_call_request; example_call_request] (Some [recorded_exchange replayed_request])).2.
Proof.
  assert (new_executor [recorded_exchange replayed_request] RECORDED
    = Ok (MkStrictExecutor [recorded_exchange replayed_request] RECORDED 0 false)) as E.
  { unfold new_executor. rewrite bool_decide_true by apply NoDup_singleton. reflexivity. }
  split; [exact E |].
  exact (proj1 (proj2 (replay_refines_queue [recorded_exchange replayed_request] RECORDED
    (MkStrictExecutor [recorded_exchange replayed_request] RECORDED 0 false)
    [example_call_request; example_call_request] E))).
Defined.
