(* ===== verification/Packages.v ===== *)
(** * Packages ([src/nsl/nsp.py], [src/nsl/nsp_signatures.py],
    [src/nsl/nsp_verification.py])

    Skill artifacts are packed with a manifest of their hashes and a detached
    signature of its hash, and unpacked only when limits, paths, manifest,
    hashes and signature agree. The archive format is that of [zipfile], the
    signer and the verifier of signatures are ports. *)

From S2P Require Import Prelude Digest Json JsonBoundary Core Decoding Values DataProtection Ir.
From S2P Require Import NsoSchema NsoCodec AuditTrail Artifacts Discipline Runtime.
From S2P Require Import Security Trust Checkpoints Source Includes.

(** ** Archives

    [ZipInfo] as [infolist] gives it; [orig_filename] is the name before
    [zipfile] normalizes it. *)

Record ZipInfo : Type := MkZipInfo {
  zi_filename : string;
  zi_orig_filename : string;
  zi_flag_bits : Z;
  zi_compress_type : Z;
  zi_file_size : Z;
  zi_create_system : Z;
  zi_external_attr : Z
}.

Definition ZIP_STORED : Z := 0.

Definition is_dir (i : ZipInfo) : bool := endswith (zi_filename i) "/".

(** [ZipFile]: the bytes of an archive with the members written in order, its
    members, and the contents of a member; opening and reading may raise. *)
Record ZipFormat : Type := MkZipFormat {
  zip_archive : list (ZipInfo * list ascii) -> list ascii;
  zip_infolist : list ascii -> result (list ZipInfo);
  zip_read : list ascii -> string -> result (list ascii)
}.

(** ** The manifest ([nsp.py]) *)

Definition NSP_FORMAT : string := "NSP".
Definition NSP_FORMAT_VERSION : string := "1.0".
Definition _REGULAR_FILE_MODE : Z := Z.shiftl 33188 16.
Definition _PACKAGE_HASH_DOMAIN : list ascii := chars "NSP-CONTENT-V1" ++ ["000"%char].

Record NspSkillManifest : Type := MkNspSkillManifest {
  ns_path : string;
  ns_skill_id : string;
  ns_skill_version : string;
  ns_semantic_sha256 : string;
  ns_artifact_sha256 : string;
  ns_size_bytes : Z
}.

#[export] Instance NspSkillManifest_eq_dec : EqDecision NspSkillManifest.
Proof. solve_decision. Defined.

(** [NspSkillManifest.to_data] *)
Definition nsp_skill_to_data (s : NspSkillManifest) : json :=
  JObj [("path", JStr (ns_path s)); ("skill_id", JStr (ns_skill_id s));
        ("skill_version", JStr (ns_skill_version s));
        ("semantic_sha256", JStr (ns_semantic_sha256 s));
        ("artifact_sha256", JStr (ns_artifact_sha256 s)); ("size_bytes", JInt (ns_size_bytes s))].

Record NspManifest : Type := MkNspManifest {
  nm_format : string;
  nm_schema_version : string;
  nm_skills : list NspSkillManifest;
  nm_package_sha256 : string
}.

(** [NspManifest.content_data], [to_data] *)
Definition manifest_content_data (m : NspManifest) : list (string * json) :=
  [("format", JStr (nm_format m)); ("schema_version", JStr (nm_schema_version m));
   ("skills", JArr (map nsp_skill_to_data (nm_skills m)))].

Definition manifest_to_data (m : NspManifest) : json :=
  JObj (manifest_content_data m ++ [("package_sha256", JStr (nm_package_sha256 m))]).

(** [NspManifest.computed_package_hash] *)
Definition computed_package_hash (m : NspManifest) : string :=
  sha256_ref (_PACKAGE_HASH_DOMAIN ++ canonical_json (JObj (manifest_content_data m))).

(** [NspManifest.create] *)
Definition create_manifest (skills : list NspSkillManifest) : NspManifest :=
  let m := MkNspManifest NSP_FORMAT NSP_FORMAT_VERSION skills "" in
  MkNspManifest (nm_format m) (nm_schema_version m) (nm_skills m) (computed_package_hash m).

(** ** Signatures ([nsp_signatures.py]) *)

Definition NSP_SIGNATURE_FORMAT : string := "NSP-SIGNATURE".
Definition NSP_SIGNATURE_SCHEMA_VERSION : string := "1.0".
Definition NSP_SIGNATURE_ALGORITHM : string := "Ed25519".
Definition _SIGNATURE_DOMAIN : list ascii := chars "NSP-SIGNATURE-V1" ++ ["000"%char].

Definition alphanumeric (c : ascii) : bool :=
  let n := nat_of_ascii c in
  ((97 <=? n) && (n <=? 122)) || ((65 <=? n) && (n <=? 90)) || ((48 <=? n) && (n <=? 57)).

(** [_KEY_ID_CHARACTERS], [_BASE64URL_CHARACTERS] *)
Definition key_id_character (c : ascii) : bool :=
  alphanumeric c || existsb (Ascii.eqb c) (chars "._:/-").

Definition base64url_character (c : ascii) : bool :=
  alphanumeric c || existsb (Ascii.eqb c) (chars "-_").

(** [_error] *)
Definition signature_exn (path reason : string) : exn :=
  Exn NspSignatureError "" ("invalid NSP signature metadata at " +:+ path +:+ ": " +:+ reason).
Definition signature_if (b : bool) (path reason : string) : result unit :=
  if b then Err (signature_exn path reason) else Ok tt.

(** [_string] *)
Definition signature_string (v : json) (path : string) : result string :=
  match v with
  | JStr s => _ ← signature_if (String.eqb s "") path "must not be empty"; Ok s
  | _ => Err (signature_exn path "expected string")
  end.

(** [_algorithm], [_key_id], [_sha256], [_signature_b64] *)
Definition _algorithm (v : json) (path : string) : result string :=
  algorithm ← signature_string v path;
  _ ← signature_if (negb (String.eqb algorithm NSP_SIGNATURE_ALGORITHM)) path
        ("expected " +:+ py_repr NSP_SIGNATURE_ALGORITHM);
  Ok algorithm.

Definition _key_id (v : json) (path : string) : result string :=
  key_id ← signature_string v path;
  _ ← signature_if ((128 <? String.length key_id) || negb (string_forallb key_id_character key_id))
        path "expected a safe ASCII key identifier";
  Ok key_id.

Definition signature_sha256 (v : json) (path : string) : result string :=
  digest ← signature_string v path;
  _ ← signature_if (negb (is_sha256_ref digest)) path "expected lowercase sha256 digest";
  Ok digest.

Definition _signature_b64 (v : json) (path : string) : result string :=
  encoded ← signature_string v path;
  _ ← signature_if (negb (String.length encoded =? 86)
                    || negb (string_forallb base64url_character encoded))
        path "expected unpadded Ed25519 base64url signature";
  Ok encoded.

(** [NspSigner]: its signature of a message, or something that is no bytes. *)
Record NspSigner : Type := MkNspSigner {
  sg_algorithm : string;
  sg_key_id : string;
  sg_sign : list ascii -> result (option (list ascii))
}.

(** [NspSignatureVerifier]: algorithm, key, message, signature; [true] stands
    for the answer [True]. *)
Definition NspSignatureVerifier : Type :=
  string -> string -> list ascii -> list ascii -> result bool.

Record NspSignatureMetadata : Type := MkNspSignatureMetadata {
  sm_format : string;
  sm_schema_version : string;
  sm_algorithm : string;
  sm_key_id : string;
  sm_package_sha256 : string;
  sm_signature_b64 : string
}.

#[export] Instance NspSignatureMetadata_eq_dec : EqDecision NspSignatureMetadata.
Proof. solve_decision. Defined.

(** [signature_message] *)
Definition signature_message (package_sha256 algorithm key_id : string) : result (list ascii) :=
  package_hash ← signature_sha256 (JStr package_sha256) "$.package_sha256";
  algorithm ← _algorithm (JStr algorithm) "$.algorithm";
  key_id ← _key_id (JStr key_id) "$.key_id";
  Ok (_SIGNATURE_DOMAIN ++ canonical_json (JObj [("algorithm", JStr algorithm);
        ("key_id", JStr key_id); ("package_sha256", JStr package_hash)])).

(** The alphabet of [urlsafe_b64encode], and back ([altchars]). *)
Definition to_url (c : ascii) : ascii :=
  if Ascii.eqb c "+" then "-"%char else if Ascii.eqb c "/" then "_"%char else c.
Definition from_url (c : ascii) : ascii :=
  if Ascii.eqb c "-" then "+"%char else if Ascii.eqb c "_" then "/"%char else c.

(** [text.rstrip("=")] *)
Fixpoint rstrip_pad (l : list ascii) : list ascii :=
  match l with
  | [] => []
  | c :: l => match rstrip_pad l with
              | [] => if Ascii.eqb c "=" then [] else [c]
              | l' => c :: l'
              end
  end.

(** [urlsafe_b64encode(signature).decode("ascii").rstrip("=")] *)
Definition urlsafe_unpadded (signature : list ascii) : string :=
  String.string_of_list_ascii (rstrip_pad (map to_url (b64encode signature))).

(** [NspSignatureMetadata.create] *)
Definition create_signature (package_sha256 : string) (signer : NspSigner)
  : result NspSignatureMetadata :=
  package_hash ← signature_sha256 (JStr package_sha256) "$.package_sha256";
  algorithm ← _algorithm (JStr (sg_algorithm signer)) "$.algorithm";
  key_id ← _key_id (JStr (sg_key_id signer)) "$.key_id";
  let signed := (message ← signature_message package_hash algorithm key_id; sg_sign signer message) in
  signature ← match signed with
              | Ok s => Ok s
              | Err e => if isinstance_exn (ex_class e) Exception_
                         then raise NspSignatureError "NSP signer failed" else Err e
              end;
  match signature with
  | Some s =>
      _ ← raise_if (negb (length s =? 64)) NspSignatureError "NSP Ed25519 signature must be 64 bytes";
      Ok (MkNspSignatureMetadata NSP_SIGNATURE_FORMAT NSP_SIGNATURE_SCHEMA_VERSION algorithm key_id
            package_hash (urlsafe_unpadded s))
  | None => raise NspSignatureError "NSP Ed25519 signature must be 64 bytes"
  end.

(** [NspSignatureMetadata.signature_bytes] *)
Definition signature_bytes (m : NspSignatureMetadata) : result (list ascii) :=
  match b64decode (map from_url (chars (sm_signature_b64 m) ++ ["="%char; "="%char])) with
  | None => Err (signature_exn "$.signature" "invalid base64url encoding")
  | Some s =>
      _ ← signature_if (negb (length s =? 64)) "$.signature" "Ed25519 signature must be 64 bytes";
      Ok s
  end.

(** [NspSignatureMetadata.to_data] *)
Definition signature_to_data (m : NspSignatureMetadata) : json :=
  JObj [("format", JStr (sm_format m)); ("schema_version", JStr (sm_schema_version m));
        ("algorithm", JStr (sm_algorithm m)); ("key_id", JStr (sm_key_id m));
        ("package_sha256", JStr (sm_package_sha256 m)); ("signature", JStr (sm_signature_b64 m))].

(** An object with exactly these fields, and a constant text, as both readers
    check them. *)
Definition exact_object (error : string -> string -> exn) (v : json) (path : string)
    (fields : list string) : result (list (string * json)) :=
  match v with
  | JObj d =>
      let missing := sorted_difference fields (map fst d) in
      _ ← (if bool_decide (missing = []) then Ok tt
           else Err (error path ("missing fields: " +:+ repr_list missing)));
      let unexpected := sorted_difference (map fst d) fields in
      _ ← (if bool_decide (unexpected = []) then Ok tt
           else Err (error path ("unexpected fields: " +:+ repr_list unexpected)));
      Ok d
  | _ => Err (error path "expected object")
  end.

Definition constant_text (error : string -> string -> exn) (v : json) (expected path : string)
  : result unit :=
  match v with
  | JStr s => if String.eqb s expected then Ok tt
              else Err (error path ("expected " +:+ py_repr expected))
  | _ => Err (error path ("expected " +:+ py_repr expected))
  end.

(** [NspSignatureMetadata.from_data] *)
Definition signature_from_data (v : json) : result NspSignatureMetadata :=
  d ← exact_object signature_exn v "$"
        ["format"; "schema_version"; "algorithm"; "key_id"; "package_sha256"; "signature"];
  _ ← constant_text signature_exn (field_of "format" d) NSP_SIGNATURE_FORMAT "$.format";
  _ ← constant_text signature_exn (field_of "schema_version" d) NSP_SIGNATURE_SCHEMA_VERSION
        "$.schema_version";
  algorithm ← _algorithm (field_of "algorithm" d) "$.algorithm";
  key_id ← _key_id (field_of "key_id" d) "$.key_id";
  package_sha256 ← signature_sha256 (field_of "package_sha256" d) "$.package_sha256";
  signature_b64 ← _signature_b64 (field_of "signature" d) "$.signature";
  let metadata := MkNspSignatureMetadata NSP_SIGNATURE_FORMAT NSP_SIGNATURE_SCHEMA_VERSION algorithm
                    key_id package_sha256 signature_b64 in
  _ ← signature_bytes metadata;
  Ok metadata.

(** [encode_signature_metadata], [decode_signature_metadata] *)
Definition encode_signature_metadata (m : NspSignatureMetadata) : list ascii :=
  canonical_json (signature_to_data m).

Definition decode_signature_metadata_within (i : Interpreter) (data : list ascii)
  : result NspSignatureMetadata :=
  raw ← load_strict_json_within signature_exn i "NSP signature metadata" data;
  metadata ← signature_from_data raw;
  _ ← signature_if (negb (bool_decide (data = encode_signature_metadata metadata))) "$"
        "signature metadata must use canonical JSON";
  Ok metadata.

Definition decode_signature_metadata : list ascii -> result NspSignatureMetadata :=
  decode_signature_metadata_within unlimited.

(** ** Building ([NspBuilder]) *)

Record NspPackage : Type := MkNspPackage {
  np_data : list ascii;
  np_artifact_count : nat;
  np_manifest : NspManifest;
  np_signature : option NspSignatureMetadata
}.

Record _PreparedArtifact : Type := MkPreparedArtifact {
  pa_skill_id : string;
  pa_skill_version : string;
  pa_semantic_hash : string;
  pa_data : list ascii
}.

(** The sort key [(skill_id, skill_version)]. *)
Definition key_leb (a b : _PreparedArtifact) : bool :=
  if String.eqb (pa_skill_id a) (pa_skill_id b)
  then str_leb (pa_skill_version a) (pa_skill_version b)
  else str_leb (pa_skill_id a) (pa_skill_id b).

(** [sorted]: stable insertion. *)
Fixpoint insert_artifact (a : _PreparedArtifact) (l : list _PreparedArtifact)
  : list _PreparedArtifact :=
  match l with
  | [] => [a]
  | b :: l' => if key_leb a b then a :: l else b :: insert_artifact a l'
  end.

Definition sort_artifacts (l : list _PreparedArtifact) : list _PreparedArtifact :=
  fold_right insert_artifact [] l.

Definition artifact_key (a : _PreparedArtifact) : string * string :=
  (pa_skill_id a, pa_skill_version a).

(** The canonical form of one artifact. *)
Definition prepare_artifact (index : nat) (artifact : list ascii) : result _PreparedArtifact :=
  except_value_error
    (skill ← nso_decode artifact;
     canonical_artifact ← nso_encode skill;
     Ok (MkPreparedArtifact (sk_skill_id skill) (sk_skill_version skill) (sk_semantic_hash skill)
           canonical_artifact))
    (Exn NspBuildError "" ("invalid NSO artifact at index " +:+ str_of_nat index)).

Fixpoint prepare_each (index : nat) (artifacts : list (list ascii)) : result (list _PreparedArtifact) :=
  match artifacts with
  | [] => Ok []
  | artifact :: artifacts =>
      a ← prepare_artifact index artifact; rest ← prepare_each (S index) artifacts; Ok (a :: rest)
  end.

(** [NspBuilder._prepare_artifacts] *)
Definition _prepare_artifacts (artifacts : list (list ascii)) : result (list _PreparedArtifact) :=
  _ ← raise_if (bool_decide (artifacts = [])) NspBuildError
        "NSP package requires at least one NSO artifact";
  prepared ← prepare_each 0 artifacts;
  let ordered := sort_artifacts prepared in
  _ ← raise_if (negb (bool_decide (NoDup (map artifact_key ordered)))) NspBuildError
        "NSP package contains a duplicate Skill ID/Version";
  Ok ordered.

(** [f"skills/{index:04d}.nso"] *)
Definition member_path (index : nat) : string :=
  ("skills/" +:+ pad_Z 4 (Z.of_nat index) +:+ ".nso")%string.

(** The manifest entry of an artifact at a path. *)
Definition skill_entry (index : nat) (a : _PreparedArtifact) : NspSkillManifest :=
  MkNspSkillManifest (member_path index) (pa_skill_id a) (pa_skill_version a) (pa_semantic_hash a)
    (sha256_ref (pa_data a)) (Z.of_nat (length (pa_data a))).

(** [NspBuilder._write_member] *)
Definition _write_member (path : string) (data : list ascii) : ZipInfo * list ascii :=
  (MkZipInfo path path 0 ZIP_STORED (Z.of_nat (length data)) 3 _REGULAR_FILE_MODE, data).

Section Builder.
Context (zip : ZipFormat).

(** The members that [build] writes, in order. *)
Definition package_members (manifest : NspManifest) (ordered : list _PreparedArtifact)
    (signature : option NspSignatureMetadata) : list (ZipInfo * list ascii) :=
  _write_member "manifest.json" (canonical_json (manifest_to_data manifest))
  :: imap (fun i a => _write_member (member_path (S i)) (pa_data a)) ordered
  ++ match signature with
     | Some m => [_write_member "signature.json" (encode_signature_metadata m)]
     | None => []
     end.

(** [NspBuilder.build] *)
Definition build_package (artifacts : list (list ascii)) (signer : option NspSigner)
  : result NspPackage :=
  prepared ← _prepare_artifacts artifacts;
  let manifest := create_manifest (imap (fun i => skill_entry (S i)) prepared) in
  signature ← match signer with
              | None => Ok None
              | Some signer =>
                  match create_signature (nm_package_sha256 manifest) signer with
                  | Ok m => Ok (Some m)
                  | Err e => if isinstance_exn (ex_class e) NspSignatureError
                             then raise NspBuildError "invalid NSP signer or signature" else Err e
                  end
              end;
  Ok (MkNspPackage (zip_archive zip (package_members manifest prepared signature)) (length prepared)
        manifest signature).
End Builder.

(** ** Verification ([nsp_verification.py]) *)

Inductive NspVerificationCode : Type :=
  | INVALID_ARCHIVE | PACKAGE_LIMIT_EXCEEDED | UNSAFE_MEMBER_PATH | INVALID_MANIFEST
  | CONTENT_MISMATCH | INVALID_SIGNATURE_METADATA | SIGNATURE_REQUIRED
  | SIGNATURE_VERIFIER_REQUIRED | INVALID_SIGNATURE.

Definition nsp_code_value (c : NspVerificationCode) : string :=
  match c with
  | INVALID_ARCHIVE => "NSP_INVALID_ARCHIVE"
  | PACKAGE_LIMIT_EXCEEDED => "NSP_PACKAGE_LIMIT_EXCEEDED"
  | UNSAFE_MEMBER_PATH => "NSP_UNSAFE_MEMBER_PATH"
  | INVALID_MANIFEST => "NSP_INVALID_MANIFEST"
  | CONTENT_MISMATCH => "NSP_CONTENT_MISMATCH"
  | INVALID_SIGNATURE_METADATA => "NSP_INVALID_SIGNATURE_METADATA"
  | SIGNATURE_REQUIRED => "NSP_SIGNATURE_REQUIRED"
  | SIGNATURE_VERIFIER_REQUIRED => "NSP_SIGNATURE_VERIFIER_REQUIRED"
  | INVALID_SIGNATURE => "NSP_INVALID_SIGNATURE"
  end.

(** [NspVerificationError(code, message)] *)
Definition nsp_exn (c : NspVerificationCode) (message : string) : exn :=
  Exn NspVerificationError (nsp_code_value c) message.
Definition nsp_error {A} (c : NspVerificationCode) (message : string) : result A :=
  Err (nsp_exn c message).
Definition nsp_if (b : bool) (c : NspVerificationCode) (message : string) : result unit :=
  if b then nsp_error c message else Ok tt.

Record NspVerificationLimits : Type := MkNspVerificationLimits {
  max_package_bytes : Z;
  max_members : Z;
  max_member_bytes : Z;
  max_total_uncompressed_bytes : Z
}.

Definition default_limits : NspVerificationLimits :=
  MkNspVerificationLimits (64 * 1024 * 1024) 1024 (16 * 1024 * 1024) (64 * 1024 * 1024).

(** [NspVerificationLimits.__post_init__] *)
Definition NspVerificationLimits_post_init (l : NspVerificationLimits) : result unit :=
  raise_if (existsb (fun n => (n <=? 0)%Z)
              [max_package_bytes l; max_members l; max_member_bytes l; max_total_uncompressed_bytes l])
    ValueError "NSP verification limits must be positive integers".

Record NspVerificationPolicy : Type := MkNspVerificationPolicy {
  vp_environment : RuntimeEnvironment;
  vp_allow_unsigned_development : bool
}.

(** [NspVerificationPolicy.__post_init__] *)
Definition NspVerificationPolicy_post_init (p : NspVerificationPolicy) : result unit :=
  raise_if (negb (bool_decide (vp_environment p = DEVELOPMENT)) && vp_allow_unsigned_development p)
    ValueError "unsigned packages can only be allowed in DEVELOPMENT".

(** [allows_unsigned] *)
Definition allows_unsigned (p : NspVerificationPolicy) : bool :=
  bool_decide (vp_environment p = DEVELOPMENT) && vp_allow_unsigned_development p.

Record VerifiedNspSkill : Type := MkVerifiedNspSkill {
  vs_manifest : NspSkillManifest;
  vs_skill : SkillObject;
  vs_artifact : list ascii
}.

Record VerifiedNspPackage : Type := MkVerifiedNspPackage {
  vk_manifest : NspManifest;
  vk_skills : list VerifiedNspSkill;
  vk_signature : option NspSignatureMetadata
}.

(** [VerifiedNspPackage.package_hash], [trust_evidence] *)
Definition package_hash (k : VerifiedNspPackage) : string := nm_package_sha256 (vk_manifest k).

Definition trust_evidence (k : VerifiedNspPackage) (publisher_id trust_policy_id : string)
    (verified_at : datetime) : result PackageTrustEvidence :=
  match vk_signature k with
  | None => raise PackageTrustError "unsigned NSP package cannot issue verified trust evidence"
  | Some m =>
      _ ← raise_if (negb (String.eqb (sm_package_sha256 m) (package_hash k))) PackageTrustError
            "signature package hash does not match the verified package";
      trust_verified (package_hash k) publisher_id (sm_key_id m) verified_at trust_policy_id
  end.

(** [trusted_artifacts] *)
Definition trusted_artifacts (k : VerifiedNspPackage) (publisher_id trust_policy_id : string)
    (verified_at : datetime) : result (list VerifiedSkillArtifact) :=
  trust ← trust_evidence k publisher_id trust_policy_id verified_at;
  map_result (fun v =>
    let a := MkVerifiedSkillArtifact (vs_skill v) (ns_artifact_sha256 (vs_manifest v)) (Some trust) in
    _ ← VerifiedSkillArtifact_post_init a; Ok a) (vk_skills k).

(** [_manifest_error] and the readers of manifest fields *)
Definition _manifest_error (path reason : string) : exn :=
  nsp_exn INVALID_MANIFEST ("invalid NSP manifest at " +:+ path +:+ ": " +:+ reason).
Definition manifest_if (b : bool) (path reason : string) : result unit :=
  if b then Err (_manifest_error path reason) else Ok tt.

Definition manifest_array (v : json) (path : string) : result (list json) :=
  match v with JArr l => Ok l | _ => Err (_manifest_error path "expected array") end.

Definition manifest_string (v : json) (path : string) : result string :=
  match v with
  | JStr s => _ ← manifest_if (String.eqb s "") path "must not be empty"; Ok s
  | _ => Err (_manifest_error path "expected string")
  end.

Definition manifest_integer (v : json) (path : string) (minimum : Z) : result Z :=
  match v with
  | JInt z => _ ← manifest_if (z <? minimum)%Z path ("must be at least " +:+ str_of_Z minimum); Ok z
  | _ => Err (_manifest_error path "expected integer")
  end.

Definition manifest_sha256 (v : json) (path : string) : result string :=
  digest ← manifest_string v path;
  _ ← manifest_if (negb (is_sha256_ref digest)) path "expected lowercase sha256 digest";
  Ok digest.

(** [_validate_member_path] *)
Definition _validate_member_path (path : string) : result unit :=
  _ ← nsp_if (String.eqb path "" || negb (string_forallb (fun c => nat_of_ascii c <? 128) path)
              || has_char backslash path || has_char NUL path || has_char ":" path)
        UNSAFE_MEMBER_PATH "NSP archive contains an unsafe member path";
  nsp_if (existsb (fun part => bool_decide (part ∈ [""; "."; ".."])) (split_on slash path))
    UNSAFE_MEMBER_PATH "NSP archive contains an unsafe member path".

(** [_is_non_regular_unix_member] *)
Definition _is_non_regular_unix_member (i : ZipInfo) : bool :=
  if (zi_create_system i =? 3)%Z then
    let file_type := Z.land (Z.shiftr (zi_external_attr i) 16) 61440 in
    negb (bool_decide (file_type ∈ [0; 32768]%Z))
  else false.

(** The manifest entry at a position, counted from 1. *)
Definition _parse_skill_entry (v : json) (index : nat) : result NspSkillManifest :=
  let path := "$.skills[" +:+ str_of_nat (index - 1) +:+ "]" in
  d ← exact_object _manifest_error v path
        ["path"; "skill_id"; "skill_version"; "semantic_sha256"; "artifact_sha256"; "size_bytes"];
  found ← manifest_string (field_of "path" d) (path +:+ ".path");
  _ ← _validate_member_path found;
  let expected_path := member_path index in
  _ ← manifest_if (negb (String.eqb found expected_path)) (path +:+ ".path")
        ("expected canonical path " +:+ expected_path);
  skill_id ← manifest_string (field_of "skill_id" d) (path +:+ ".skill_id");
  skill_version ← manifest_string (field_of "skill_version" d) (path +:+ ".skill_version");
  semantic_sha256 ← manifest_sha256 (field_of "semantic_sha256" d) (path +:+ ".semantic_sha256");
  artifact_sha256 ← manifest_sha256 (field_of "artifact_sha256" d) (path +:+ ".artifact_sha256");
  size_bytes ← manifest_integer (field_of "size_bytes" d) (path +:+ ".size_bytes") 1;
  Ok (MkNspSkillManifest found skill_id skill_version semantic_sha256 artifact_sha256 size_bytes).

Fixpoint parse_entries (index : nat) (l : list json) : result (list NspSkillManifest) :=
  match l with
  | [] => Ok []
  | v :: l => s ← _parse_skill_entry v index; rest ← parse_entries (S index) l; Ok (s :: rest)
  end.

Definition skill_identity (s : NspSkillManifest) : string * string :=
  (ns_skill_id s, ns_skill_version s).

(** [_verify_skill] *)
Definition _verify_skill_within (i : Interpreter) (entry : NspSkillManifest) (artifact : list ascii)
  : result VerifiedNspSkill :=
  _ ← nsp_if (negb (Z.of_nat (length artifact) =? ns_size_bytes entry)%Z) CONTENT_MISMATCH
        "NSP skill artifact size mismatch";
  _ ← nsp_if (negb (String.eqb (sha256_ref artifact) (ns_artifact_sha256 entry))) CONTENT_MISMATCH
        "NSP skill artifact hash mismatch";
  skill ← except_value_error (nso_decode_within i artifact)
            (nsp_exn CONTENT_MISMATCH "NSP contains an invalid NSO artifact");
  canonical ← nso_encode skill;
  _ ← nsp_if (negb (bool_decide (canonical = artifact))) CONTENT_MISMATCH
        "NSP skill artifact must use canonical NSO encoding";
  _ ← nsp_if (negb (String.eqb (sk_skill_id skill) (ns_skill_id entry))
              || negb (String.eqb (sk_skill_version skill) (ns_skill_version entry))
              || negb (String.eqb (sk_semantic_hash skill) (ns_semantic_sha256 entry)))
        CONTENT_MISMATCH "NSP skill identity differs from the manifest";
  Ok (MkVerifiedNspSkill entry skill artifact).

Definition _verify_skill : NspSkillManifest -> list ascii -> result VerifiedNspSkill :=
  _verify_skill_within unlimited.

Record NspVerifier : Type := MkNspVerifier {
  nv_policy : NspVerificationPolicy;
  nv_limits : NspVerificationLimits;
  nv_signature_verifier : option NspSignatureVerifier
}.

Section Verifier.
Context (zip : ZipFormat) (self : NspVerifier).

(** One member; the total so far. *)
Definition validate_member (total : Z) (i : ZipInfo) : result Z :=
  let limits := nv_limits self in
  _ ← nsp_if (negb (String.eqb (zi_orig_filename i) (zi_filename i))) UNSAFE_MEMBER_PATH
        "NSP archive member path was normalized by ZIP decoding";
  _ ← _validate_member_path (zi_orig_filename i);
  _ ← _validate_member_path (zi_filename i);
  _ ← nsp_if (is_dir i || _is_non_regular_unix_member i) UNSAFE_MEMBER_PATH
        "NSP archive member must be a regular file";
  _ ← nsp_if (negb (Z.land (zi_flag_bits i) 1 =? 0)%Z) INVALID_ARCHIVE
        "encrypted NSP members are forbidden";
  _ ← nsp_if (negb (zi_compress_type i =? ZIP_STORED)%Z) INVALID_ARCHIVE
        "compressed NSP members are forbidden in schema 1.0";
  _ ← nsp_if (max_member_bytes limits <? zi_file_size i)%Z PACKAGE_LIMIT_EXCEEDED
        "NSP member byte limit exceeded";
  let total := (total + zi_file_size i)%Z in
  _ ← nsp_if (max_total_uncompressed_bytes limits <? total)%Z PACKAGE_LIMIT_EXCEEDED
        "NSP total uncompressed byte limit exceeded";
  Ok total.

Fixpoint validate_members (total : Z) (infos : list ZipInfo) : result unit :=
  match infos with
  | [] => Ok tt
  | i :: infos => total ← validate_member total i; validate_members total infos
  end.

(** [_validate_archive_members] *)
Definition _validate_archive_members (infos : list ZipInfo) : result unit :=
  _ ← nsp_if (max_members (nv_limits self) <? Z.of_nat (length infos))%Z PACKAGE_LIMIT_EXCEEDED
        "NSP member count limit exceeded";
  _ ← nsp_if (negb (bool_decide (NoDup (map zi_filename infos)))) INVALID_ARCHIVE
        "NSP archive contains duplicate member names";
  validate_members 0 infos.

(** [_read_member] *)
Definition _read_member (data : list ascii) (path : string) : result (list ascii) :=
  match zip_read zip data path with
  | Ok bytes => Ok bytes
  | Err e => if isinstance_exn (ex_class e) BadZipFile || isinstance_exn (ex_class e) KeyError
                || isinstance_exn (ex_class e) RuntimeError
             then nsp_error INVALID_ARCHIVE "NSP archive member cannot be read" else Err e
  end.

(** [_parse_manifest] *)
Definition _parse_manifest_within (i : Interpreter) (data : list ascii) : result NspManifest :=
  raw ← load_strict_json_within _manifest_error i "NSP manifest" data;
  root ← exact_object _manifest_error raw "$" ["format"; "schema_version"; "skills"; "package_sha256"];
  _ ← constant_text _manifest_error (field_of "format" root) NSP_FORMAT "$.format";
  _ ← constant_text _manifest_error (field_of "schema_version" root) NSP_FORMAT_VERSION
        "$.schema_version";
  skills_raw ← manifest_array (field_of "skills" root) "$.skills";
  _ ← manifest_if (bool_decide (skills_raw = [])) "$.skills" "must not be empty";
  _ ← nsp_if (max_members (nv_limits self) - 1 <? Z.of_nat (length skills_raw))%Z
        PACKAGE_LIMIT_EXCEEDED "NSP manifest skill count limit exceeded";
  skills ← parse_entries 1 skills_raw;
  _ ← manifest_if (negb (bool_decide (NoDup (map skill_identity skills)))) "$.skills"
        "duplicate Skill ID/Version";
  package_sha256 ← manifest_sha256 (field_of "package_sha256" root) "$.package_sha256";
  let manifest := MkNspManifest NSP_FORMAT NSP_FORMAT_VERSION skills package_sha256 in
  _ ← nsp_if (negb (String.eqb (nm_package_sha256 manifest) (computed_package_hash manifest)))
        CONTENT_MISMATCH "NSP package hash mismatch";
  _ ← manifest_if (negb (bool_decide (data = canonical_json raw))) "$"
        "manifest must use canonical JSON";
  Ok manifest.

Definition _parse_manifest : list ascii -> result NspManifest := _parse_manifest_within unlimited.

(** [_verify_signature] *)
Definition _verify_signature (signature : option NspSignatureMetadata) : result unit :=
  match signature with
  | None => Ok tt
  | Some m =>
      match nv_signature_verifier self with
      | None => nsp_error SIGNATURE_VERIFIER_REQUIRED
                  "NSP signature verifier is required for signed packages"
      | Some verifier =>
          let answer := (message ← signature_message (sm_package_sha256 m) (sm_algorithm m) (sm_key_id m);
                         bytes ← signature_bytes m;
                         verifier (sm_algorithm m) (sm_key_id m) message bytes) in
          match answer with
          | Ok verified => nsp_if (negb verified) INVALID_SIGNATURE
                             "NSP package signature is invalid or untrusted"
          | Err e => if isinstance_exn (ex_class e) Exception_
                     then nsp_error INVALID_SIGNATURE "NSP package signature verification failed"
                     else Err e
          end
      end
  end.

(** The signature member, when there is one. *)
Definition read_signature_within (i : Interpreter) (data : list ascii) (manifest : NspManifest)
    (actual_names : gset string)
  : result (option NspSignatureMetadata) :=
  if bool_decide ("signature.json" ∈ actual_names) then
    let decoded := (bytes ← _read_member data "signature.json";
                    decode_signature_metadata_within i bytes) in
    signature ← match decoded with
                | Ok m => Ok m
                | Err e => if isinstance_exn (ex_class e) NspSignatureError
                           then nsp_error INVALID_SIGNATURE_METADATA "invalid NSP signature metadata"
                           else Err e
                end;
    _ ← nsp_if (negb (String.eqb (sm_package_sha256 signature) (nm_package_sha256 manifest)))
          CONTENT_MISMATCH "NSP signature metadata package hash mismatch";
    Ok (Some signature)
  else Ok None.

Definition read_signature : list ascii -> NspManifest -> gset string -> result (option NspSignatureMetadata) :=
  read_signature_within unlimited.

(** The member names that the manifest and the signature account for. *)
Definition expected_names (manifest : NspManifest) (signature : option NspSignatureMetadata)
  : gset string :=
  {["manifest.json"]} ∪ list_to_set (map ns_path (nm_skills manifest))
  ∪ match signature with Some _ => {["signature.json"]} | None => ∅ end.

(** The body of the [with] statement of [verify]. *)
Definition verify_archive_within (i : Interpreter) (data : list ascii) : result VerifiedNspPackage :=
  infos ← zip_infolist zip data;
  _ ← _validate_archive_members infos;
  manifest_bytes ← _read_member data "manifest.json";
  manifest ← _parse_manifest_within i manifest_bytes;
  let actual_names : gset string := list_to_set (map zi_filename infos) in
  signature ← read_signature_within i data manifest actual_names;
  _ ← nsp_if (bool_decide (signature = None) && negb (allows_unsigned (nv_policy self)))
        SIGNATURE_REQUIRED "NSP package signature is required by policy";
  _ ← nsp_if (negb (bool_decide (actual_names = expected_names manifest signature)))
        CONTENT_MISMATCH "NSP archive members differ from the manifest";
  skills ← map_result (fun entry => artifact ← _read_member data (ns_path entry);
                                    _verify_skill_within i entry artifact) (nm_skills manifest);
  _ ← _verify_signature signature;
  Ok (MkVerifiedNspPackage manifest skills signature).

Definition verify_archive : list ascii -> result VerifiedNspPackage := verify_archive_within unlimited.

(** The exceptions that [verify] reports as an invalid archive. *)
Definition archive_failure (c : exn_class) : bool :=
  existsb (isinstance_exn c) [BadZipFile; LargeZipFile; RuntimeError; ValueError].

(** [NspVerifier.verify] *)
Definition verify_package_within (i : Interpreter) (data : list ascii) : result VerifiedNspPackage :=
  _ ← nsp_if (max_package_bytes (nv_limits self) <? Z.of_nat (length data))%Z PACKAGE_LIMIT_EXCEEDED
        "NSP package byte limit exceeded";
  match verify_archive_within i data with
  | Ok k => Ok k
  | Err e => if isinstance_exn (ex_class e) NspVerificationError then Err e
             else if archive_failure (ex_class e)
             then nsp_error INVALID_ARCHIVE "invalid NSP ZIP archive" else Err e
  end.

(** As far as the limits of the interpreter are not reached. *)
Definition verify_package : list ascii -> result VerifiedNspPackage := verify_package_within unlimited.
End Verifier.
