(* ===== verification/PackageFacts.v ===== *)
(** * What packages promise

    A verified package is bounded, accounts for every member, binds its
    contents by its hash and was signed unless development allows otherwise;
    what the builder writes verifies; the verifier fails with its own error;
    and the artifacts of a signed package pass the preflight of a profile that
    trusts it. *)

From S2P Require Import Prelude Digest Json JsonBoundary Core Decoding Values DataProtection Ir.
From S2P Require Import NsoSchema NsoCodec AuditTrail Artifacts Discipline Runtime HashTexts.
From S2P Require Import Security Trust Checkpoints Restoration Source Includes IncludeFacts SchemaErrors Packages.

Lemma nsp_if_Ok b c m u : nsp_if b c m = Ok u <-> b = false.
Proof. destruct b, u; cbn; split; done. Qed.

Lemma manifest_if_Ok b p m u : manifest_if b p m = Ok u <-> b = false.
Proof. destruct b, u; cbn; split; done. Qed.

Lemma signature_if_Ok b p m u : signature_if b p m = Ok u <-> b = false.
Proof. destruct b, u; cbn; split; done. Qed.

(** ** Members *)

(** The name of a member: relative, portable, without parent steps. *)
Definition safe_path (path : string) : Prop := _validate_member_path path = Ok tt.

Record member_ok (l : NspVerificationLimits) (i : ZipInfo) : Prop := {
  mo_name : zi_orig_filename i = zi_filename i;
  mo_safe : safe_path (zi_filename i);
  mo_regular : is_dir i = false /\ _is_non_regular_unix_member i = false;
  mo_plain : Z.land (zi_flag_bits i) 1 = 0%Z /\ zi_compress_type i = ZIP_STORED;
  mo_size : (zi_file_size i <= max_member_bytes l)%Z
}.

Definition total_size (infos : list ZipInfo) : Z := foldr Z.add 0%Z (map zi_file_size infos).

Section Facts.
Context (zip : ZipFormat) (self : NspVerifier).
Notation limits := (nv_limits self).

Lemma validate_member_iff total i total' :
  validate_member self total i = Ok total' <->
  member_ok limits i /\ total' = (total + zi_file_size i)%Z
  /\ (total' <= max_total_uncompressed_bytes limits)%Z.
Proof.
  unfold validate_member, safe_path. split.
  - intros H. apply bind_Ok in H as ([] & H1%nsp_if_Ok & H). apply bind_Ok in H as ([] & H2 & H).
    apply bind_Ok in H as ([] & H3 & H). apply bind_Ok in H as ([] & H4%nsp_if_Ok & H).
    apply bind_Ok in H as ([] & H5%nsp_if_Ok & H). apply bind_Ok in H as ([] & H6%nsp_if_Ok & H).
    apply bind_Ok in H as ([] & H7%nsp_if_Ok & H). cbv zeta in H.
    apply bind_Ok in H as ([] & H8%nsp_if_Ok & [= <-]).
    apply negb_false_iff, String.eqb_eq in H1. apply negb_false_iff, Z.eqb_eq in H5, H6.
    apply orb_false_iff in H4. split; [by constructor; try lia | split; [done | lia]].
  - intros ([H1 H2 [H3 H4] [H5 H6] H7] & -> & H8). rewrite H1, String.eqb_refl, H2, H3, H4, H5, H6.
    cbn [negb nsp_if mbind result_bind orb]. rewrite Z.eqb_refl.
    rewrite (proj2 (Z.ltb_ge _ _) H7), (proj2 (Z.ltb_ge _ _) H8). reflexivity.
Qed.

Lemma validate_members_iff infos : forall total u,
  Forall (fun i => 0 <= zi_file_size i)%Z infos -> (total <= max_total_uncompressed_bytes limits)%Z ->
  validate_members self total infos = Ok u <->
  Forall (member_ok limits) infos
  /\ (total + total_size infos <= max_total_uncompressed_bytes limits)%Z.
Proof.
  induction infos as [|i infos IH]; intros total [] Hp Ht; cbn [validate_members].
  { cbn. split; [intros _; split; [constructor | lia] | done]. }
  apply Forall_cons in Hp as [Hi Hp]. change (total_size (i :: infos)) with (zi_file_size i + total_size infos)%Z.
  rewrite bind_Ok. split.
  - intros (t & (H1 & -> & H2)%validate_member_iff & H). apply IH in H as [H3 H4]; [| done | done].
    split; [by constructor | lia].
  - intros [[H1 H2]%Forall_cons H3]. exists (total + zi_file_size i)%Z.
    assert (0 <= total_size infos)%Z as H0.
    { clear -Hp. induction Hp as [|i infos H Hp IH]; [done |].
      change (total_size (i :: infos)) with (zi_file_size i + total_size infos)%Z. lia. }
    split; [apply validate_member_iff; split; [done |]; split; [done | lia] |].
    apply IH; [done | lia |]. split; [done | lia].
Qed.

(** Without the assumption that sizes are not negative, one direction. *)
Lemma validate_members_ok infos : forall total,
  validate_members self total infos = Ok tt -> Forall (member_ok limits) infos
  /\ (infos = [] \/ total + total_size infos <= max_total_uncompressed_bytes limits)%Z.
Proof.
  induction infos as [|i infos IH]; intros total; cbn [validate_members].
  { split; [constructor | by left]. }
  change (total_size (i :: infos)) with (zi_file_size i + total_size infos)%Z.
  rewrite bind_Ok. intros (t & (H1 & -> & H2)%validate_member_iff & H).
  destruct (IH _ H) as [H3 [-> | H4]]; (split; [by constructor |]); right; cbn; lia.
Qed.

Lemma archive_members_ok infos : _validate_archive_members self infos = Ok tt ->
  (Z.of_nat (length infos) <= max_members limits)%Z /\ NoDup (map zi_filename infos)
  /\ Forall (member_ok limits) infos
  /\ (infos = [] \/ total_size infos <= max_total_uncompressed_bytes limits)%Z.
Proof.
  unfold _validate_archive_members. intros H. apply bind_Ok in H as ([] & H1%nsp_if_Ok & H).
  apply bind_Ok in H as ([] & H2%nsp_if_Ok & H). apply negb_false_iff, bool_decide_eq_true in H2.
  apply validate_members_ok in H as [H3 H4]. split; [lia |]. done.
Qed.

Lemma read_member_Ok data path bytes :
  _read_member zip data path = Ok bytes <-> zip_read zip data path = Ok bytes.
Proof.
  unfold _read_member. destruct (zip_read zip data path) as [b|e]; [done |].
  destruct (_ || _); split; discriminate.
Qed.

(** ** Contents *)

(** The verified skill of a manifest entry. *)
Record skill_verified (data : list ascii) (entry : NspSkillManifest) (v : VerifiedNspSkill) : Prop := {
  sv_entry : vs_manifest v = entry;
  sv_member : zip_read zip data (ns_path entry) = Ok (vs_artifact v);
  sv_size : ns_size_bytes entry = Z.of_nat (length (vs_artifact v));
  sv_hash : ns_artifact_sha256 entry = sha256_ref (vs_artifact v);
  sv_decoded : nso_decode (vs_artifact v) = Ok (vs_skill v);
  sv_encoded : nso_encode (vs_skill v) = Ok (vs_artifact v);
  sv_identity : ns_skill_id entry = sk_skill_id (vs_skill v)
    /\ ns_skill_version entry = sk_skill_version (vs_skill v)
    /\ ns_semantic_sha256 entry = sk_semantic_hash (vs_skill v)
}.

Lemma verify_skill_iff entry artifact v :
  _verify_skill entry artifact = Ok v <->
  v = MkVerifiedNspSkill entry (vs_skill v) artifact
  /\ ns_size_bytes entry = Z.of_nat (length artifact) /\ ns_artifact_sha256 entry = sha256_ref artifact
  /\ nso_decode artifact = Ok (vs_skill v) /\ nso_encode (vs_skill v) = Ok artifact
  /\ ns_skill_id entry = sk_skill_id (vs_skill v)
  /\ ns_skill_version entry = sk_skill_version (vs_skill v)
  /\ ns_semantic_sha256 entry = sk_semantic_hash (vs_skill v).
Proof.
  unfold _verify_skill, _verify_skill_within. fold nso_decode. split.
  - intros H. apply bind_Ok in H as ([] & H1%nsp_if_Ok & H). apply bind_Ok in H as ([] & H2%nsp_if_Ok & H).
    apply bind_Ok in H as (skill & H3%except_value_error_Ok & H). apply bind_Ok in H as (c & H4 & H).
    apply bind_Ok in H as ([] & H5%nsp_if_Ok & H). apply bind_Ok in H as ([] & H6%nsp_if_Ok & [= <-]).
    apply negb_false_iff, Z.eqb_eq in H1. apply negb_false_iff, String.eqb_eq in H2.
    apply negb_false_iff, bool_decide_eq_true in H5 as ->.
    apply orb_false_iff in H6 as [[H6 H7]%orb_false_iff H8].
    apply negb_false_iff, String.eqb_eq in H6, H7, H8. cbn [vs_skill].
    split; [reflexivity |]. do 6 (split; [first [assumption | symmetry; assumption] |]).
    symmetry; assumption.
  - intros (Hv & H1 & H2 & H3 & H4 & H5 & H6 & H7).
    rewrite H1, Z.eqb_refl, H2, String.eqb_refl. cbn [negb nsp_if mbind result_bind].
    rewrite (proj2 (except_value_error_Ok _ _ _) H3). cbn [mbind result_bind]. rewrite H4.
    cbn [mbind result_bind]. rewrite bool_decide_true, H5, H6, H7, !String.eqb_refl by done.
    cbn [negb nsp_if mbind result_bind orb]. by rewrite Hv.
Qed.

Lemma verify_skills_iff data entries : forall skills,
  map_result (fun entry => artifact ← _read_member zip data (ns_path entry); _verify_skill entry artifact)
    entries = Ok skills <-> Forall2 (skill_verified data) entries skills.
Proof.
  induction entries as [|entry entries IH]; intros skills; cbn [map_result].
  { split; [intros [= <-]; constructor | by intros ->%Forall2_nil_inv_l]. }
  rewrite bind_Ok. split.
  - intros (v & Hv & H). apply bind_Ok in H as (rest & H & [= <-]). apply IH in H.
    constructor; [| done]. apply bind_Ok in Hv as (artifact & Ha%read_member_Ok & Hv).
    apply verify_skill_iff in Hv as (-> & H1 & H2 & H3 & H4 & H5). by constructor.
  - intros (v & rest & Hv & H & ->)%Forall2_cons_inv_l. exists v. split.
    + rewrite bind_Ok. destruct Hv as [E H1 H2 H3 H4 H5 [H6 [H7 H8]]]. exists (vs_artifact v).
      split; [by apply read_member_Ok |]. apply verify_skill_iff. split; [rewrite <- E; by destruct v |].
      do 6 (split; [assumption |]). assumption.
    + apply IH in H. rewrite H. reflexivity.
Qed.

(** The manifest of a verified package. *)
Record manifest_ok (m : NspManifest) : Prop := {
  mk_format : nm_format m = NSP_FORMAT /\ nm_schema_version m = NSP_FORMAT_VERSION;
  mk_skills : nm_skills m <> [];
  mk_paths : map ns_path (nm_skills m) = imap (fun i _ => member_path (S i)) (nm_skills m);
  mk_identities : NoDup (map skill_identity (nm_skills m));
  mk_hash : nm_package_sha256 m = computed_package_hash m
}.

Lemma parse_entry_path v index s : _parse_skill_entry v index = Ok s -> ns_path s = member_path index.
Proof.
  unfold _parse_skill_entry. cbv zeta. intros H. apply bind_Ok in H as (d & _ & H).
  apply bind_Ok in H as (found & _ & H). apply bind_Ok in H as (? & _ & H).
  apply bind_Ok in H as ([] & Hp%manifest_if_Ok & H). apply negb_false_iff, String.eqb_eq in Hp.
  do 5 apply bind_Ok in H as (? & _ & H). by injection H as <-.
Qed.

Lemma parse_entries_paths l : forall index skills, parse_entries index l = Ok skills ->
  length skills = length l /\ map ns_path skills = imap (fun i _ => member_path (index + i)) skills.
Proof.
  induction l as [|v l IH]; intros index skills; cbn [parse_entries].
  { by intros [= <-]. }
  intros H. apply bind_Ok in H as (s & Hs & H). apply bind_Ok in H as (rest & Hr & [= <-]).
  apply parse_entry_path in Hs. destruct (IH _ _ Hr) as [H1 H2]. split; [cbn; by rewrite H1 |].
  cbn [map]. rewrite imap_cons, Hs, Nat.add_0_r, H2. f_equal. apply imap_ext. intros i x _. cbn.
  f_equal. lia.
Qed.

Lemma parse_manifest_ok data m : _parse_manifest self data = Ok m ->
  manifest_ok m /\ (Z.of_nat (length (nm_skills m)) <= max_members limits - 1)%Z.
Proof.
  unfold _parse_manifest, _parse_manifest_within. intros H. apply bind_Ok in H as (raw & _ & H). apply bind_Ok in H as (root & _ & H).
  apply bind_Ok in H as (? & _ & H). apply bind_Ok in H as (? & _ & H). apply bind_Ok in H as (l & _ & H).
  apply bind_Ok in H as ([] & H1%manifest_if_Ok & H). apply bool_decide_eq_false in H1.
  apply bind_Ok in H as ([] & H2%nsp_if_Ok & H). apply bind_Ok in H as (skills & H3 & H).
  apply bind_Ok in H as ([] & H4%manifest_if_Ok & H). apply negb_false_iff, bool_decide_eq_true in H4.
  apply bind_Ok in H as (h & _ & H). cbv zeta in H. apply bind_Ok in H as ([] & H5%nsp_if_Ok & H).
  apply negb_false_iff, String.eqb_eq in H5. apply bind_Ok in H as (? & _ & [= <-]).
  apply parse_entries_paths in H3 as [H6 H7]. split; [| cbn [nm_skills]; lia].
  constructor; [done | | exact H7 | done | done]. cbn [nm_skills]. intros ->. by destruct l.
Qed.

(** The signature was accepted by the verifier, for the message that names the
    algorithm, the key and the hash of the package. *)
Definition signature_accepted (m : NspSignatureMetadata) : Prop :=
  exists verifier message bytes, nv_signature_verifier self = Some verifier
    /\ signature_message (sm_package_sha256 m) (sm_algorithm m) (sm_key_id m) = Ok message
    /\ signature_bytes m = Ok bytes
    /\ verifier (sm_algorithm m) (sm_key_id m) message bytes = Ok true.

Lemma verify_signature_iff signature : _verify_signature self signature = Ok tt <->
  forall m, signature = Some m -> signature_accepted m.
Proof.
  unfold _verify_signature, signature_accepted. destruct signature as [m|]; [| split; done].
  destruct (nv_signature_verifier self) as [verifier|].
  2: { split; [done |]. intros H. by destruct (H m eq_refl) as (? & ? & ? & ? & _). }
  destruct (signature_message _ _ _) as [message|e] eqn:Em.
  2: { cbn [mbind result_bind]. cbv zeta. split; [by destruct (isinstance_exn (ex_class e) Exception_) |].
       intros H. destruct (H m eq_refl) as (? & ? & ? & _ & ? & _). congruence. }
  cbn [mbind result_bind]. destruct (signature_bytes m) as [bytes|e] eqn:Eb.
  2: { cbn [mbind result_bind]. cbv zeta. split; [by destruct (isinstance_exn (ex_class e) Exception_) |].
       intros H. destruct (H m eq_refl) as (? & ? & ? & _ & _ & ? & _). congruence. }
  cbn [mbind result_bind]. destruct (verifier _ _ _ _) as [b|e] eqn:E; cbv zeta.
  - rewrite nsp_if_Ok, negb_false_iff. split.
    + intros -> m' [= <-]. by exists verifier, message, bytes.
    + intros H. destruct (H m eq_refl) as (v & message' & bytes' & H1 & H2 & H3 & H4). congruence.
  - split; [by destruct (isinstance_exn (ex_class e) Exception_) |]. intros H.
    destruct (H m eq_refl) as (v & message' & bytes' & H1 & H2 & H3 & H4). congruence.
Qed.

Lemma read_signature_ok data manifest names signature :
  read_signature zip data manifest names = Ok signature ->
  forall m, signature = Some m -> sm_package_sha256 m = nm_package_sha256 manifest
    /\ exists bytes, zip_read zip data "signature.json" = Ok bytes
         /\ decode_signature_metadata bytes = Ok m.
Proof.
  unfold read_signature, read_signature_within. destruct (bool_decide _); [| by intros [= <-]]. cbv zeta. intros H m ->.
  apply bind_Ok in H as (m' & Hm & H). apply bind_Ok in H as ([] & Hp%nsp_if_Ok & [= ->]).
  apply negb_false_iff, String.eqb_eq in Hp. split; [done |].
  destruct (bytes ← _ ; _) as [m'|e] eqn:E; [| by destruct (isinstance_exn (ex_class e) NspSignatureError)].
  injection Hm as ->. apply bind_Ok in E as (bytes & Hb%read_member_Ok & Hm). by exists bytes.
Qed.

(** What a verified package is. *)
Record package_verified (data : list ascii) (k : VerifiedNspPackage) : Prop := {
  pv_bounded : (Z.of_nat (length data) <= max_package_bytes limits)%Z;
  pv_members : exists infos, zip_infolist zip data = Ok infos
    /\ (Z.of_nat (length infos) <= max_members limits)%Z /\ NoDup (map zi_filename infos)
    /\ Forall (member_ok limits) infos
    /\ (total_size infos <= max_total_uncompressed_bytes limits)%Z
    /\ (list_to_set (map zi_filename infos) : gset string)
       = expected_names (vk_manifest k) (vk_signature k);
  pv_manifest : manifest_ok (vk_manifest k);
  pv_skills : Forall2 (skill_verified data) (nm_skills (vk_manifest k)) (vk_skills k);
  pv_signed : match vk_signature k with
    | Some m => sm_package_sha256 m = package_hash k /\ signature_accepted m
    | None => vp_environment (nv_policy self) = DEVELOPMENT
              /\ vp_allow_unsigned_development (nv_policy self) = true
    end
}.

Lemma verify_package_ok data k : verify_package zip self data = Ok k -> package_verified data k.
Proof.
  unfold verify_package, verify_package_within. intros H. apply bind_Ok in H as ([] & H0%nsp_if_Ok & H).
  destruct (verify_archive_within zip self unlimited data) as [k'|e] eqn:E.
  2: { destruct (isinstance_exn (ex_class e) NspVerificationError); [done |].
     by destruct (archive_failure (ex_class e)). }
  injection H as ->. unfold verify_archive_within in E. apply bind_Ok in E as (infos & Hi & E).
  apply bind_Ok in E as ([] & Hm & E). apply bind_Ok in E as (bytes & _ & E).
  apply bind_Ok in E as (manifest & Hp & E). cbv zeta in E. apply bind_Ok in E as (signature & Hs & E).
  apply bind_Ok in E as ([] & Hu%nsp_if_Ok & E). apply bind_Ok in E as ([] & Hn%nsp_if_Ok & E).
  apply negb_false_iff, bool_decide_eq_true in Hn. apply bind_Ok in E as (skills & Hk & E).
  apply bind_Ok in E as ([] & Hv & [= <-]).
  apply archive_members_ok in Hm as (M1 & M2 & M3 & M4). apply parse_manifest_ok in Hp as [Hp _].
  pose proof (read_signature_ok _ _ _ _ Hs) as Hsig. rewrite verify_signature_iff in Hv.
  constructor; cbn [vk_manifest vk_skills vk_signature package_hash].
  - lia.
  - exists infos. do 4 (split; [done |]). split; [| done]. destruct M4 as [-> | M4]; [| done].
    exfalso. assert ("manifest.json" ∈ (∅ : gset string)) as Hin; [| set_solver].
    change (list_to_set (map zi_filename [])) with (∅ : gset string) in Hn. rewrite Hn.
    unfold expected_names. set_solver.
  - done.
  - by apply verify_skills_iff.
  - destruct signature as [m|]; [split; [by apply Hsig | by apply Hv] |].
    rewrite bool_decide_true in Hu by done. cbn [andb] in Hu. apply negb_false_iff in Hu.
    apply andb_true_iff in Hu as [Hu1 Hu2]. by apply bool_decide_eq_true in Hu1.
Qed.
End Facts.

(** The artifact of an entry passes the constructor of verified artifacts. *)
Lemma artifact_constructed skill artifact hash trust :
  nso_encode skill = Ok artifact -> hash = sha256_ref artifact ->
  VerifiedSkillArtifact_post_init (MkVerifiedSkillArtifact skill hash trust) = Ok tt.
Proof.
  intros He ->. unfold VerifiedSkillArtifact_post_init. cbn [va_artifact_hash va_skill].
  apply (bind_intro (sha256_ref artifact)).
  { apply sha256_text_iff. split; [done |]. split; [| apply sha256_ref_is_ref].
    apply (sha256_text_ok ""); [done | apply sha256_ref_is_ref]. }
  apply (bind_intro artifact); [by apply except_value_error_Ok |]. by rewrite String.eqb_refl.
Qed.

(** C30. A verified package can be trusted for what it says. Whatever archive format
    and verifier of signatures, if [NspVerifier.verify] returns a package then
    it keeps to all four limits; its members have distinct, relative names
    without parent steps, are plain, uncompressed, unencrypted files, and are
    exactly those that the manifest and the signature account for; the hash of
    the package is that of the manifest; every entry has the size, the hash and
    the identity of its artifact, which is the canonical form of the Skill
    decoded from it, within the WRITE discipline and with the semantic hash of
    its content; and the verifier accepted its signature for the message of
    that very package hash, or it is unsigned in an environment of development
    that allows this. *)
Theorem verified_package_sound (zip : ZipFormat) (self : NspVerifier) (data : list ascii)
    (k : VerifiedNspPackage) :
  verify_package zip self data = Ok k ->
  package_verified zip self data k
  /\ forall v, v ∈ vk_skills k -> write_discipline (vs_skill v) /\ hashes_ok (vs_skill v)
       /\ VerifiedSkillArtifact_post_init
            (MkVerifiedSkillArtifact (vs_skill v) (ns_artifact_sha256 (vs_manifest v)) None) = Ok tt.
Proof.
  intros H. pose proof (verify_package_ok _ _ _ _ H) as Hk. split; [exact Hk |]. intros v Hv.
  destruct (proj1 (list_elem_of_lookup _ _) Hv) as [n Hn].
  destruct (Forall2_lookup_r _ _ _ _ _ (pv_skills _ _ _ _ Hk) Hn) as (entry & _ & [E _ _ Hh Hd He _]).
  destruct (decoded_disciplined _ _ Hd) as (H1 & H2 & _). split; [exact H1 |]. split; [exact H2 |].
  rewrite E. by eapply artifact_constructed.
Qed.

(** ** The hash of a package *)

Lemma nsp_skill_sorted s : sorted_keys (nsp_skill_to_data s) =
  JObj [("artifact_sha256", JStr (ns_artifact_sha256 s)); ("path", JStr (ns_path s));
        ("semantic_sha256", JStr (ns_semantic_sha256 s)); ("size_bytes", JInt (ns_size_bytes s));
        ("skill_id", JStr (ns_skill_id s)); ("skill_version", JStr (ns_skill_version s))].
Proof. reflexivity. Qed.

Lemma manifest_content_sorted m : sorted_keys (JObj (manifest_content_data m)) =
  JObj [("format", JStr (nm_format m)); ("schema_version", JStr (nm_schema_version m));
        ("skills", JArr (map sorted_keys (map nsp_skill_to_data (nm_skills m))))].
Proof. reflexivity. Qed.

Lemma nsp_skills_inj l : forall l', map sorted_keys (map nsp_skill_to_data l)
  = map sorted_keys (map nsp_skill_to_data l') -> l = l'.
Proof.
  induction l as [|s l IH]; intros [|s' l']; try done. cbn [map]. rewrite !nsp_skill_sorted.
  intros [= E1 E2 E3 E4 E5 E6 E]. f_equal; [| by apply IH]. destruct s, s'. cbn in *. congruence.
Qed.

(** The material of the package hash. *)
Definition package_material (m : NspManifest) : list ascii :=
  _PACKAGE_HASH_DOMAIN ++ canonical_json (JObj (manifest_content_data m)).

Lemma package_material_inj m m' : package_material m = package_material m' ->
  nm_skills m = nm_skills m'.
Proof.
  unfold package_material. intros H%app_inv_head%canonical_json_inj.
  rewrite !manifest_content_sorted in H. injection H as _ _ H. by apply nsp_skills_inj.
Qed.

Lemma same_entries zip zip' data data' entries : forall l l',
  Forall2 (skill_verified zip data) entries l -> Forall2 (skill_verified zip' data') entries l' ->
  l = l' \/ exists v v', v ∈ l /\ v' ∈ l' /\ collision (vs_artifact v) (vs_artifact v').
Proof.
  induction entries as [|entry entries IH]; intros l l'.
  { intros ->%Forall2_nil_inv_l ->%Forall2_nil_inv_l. by left. }
  intros (v & rest & Hv & H & ->)%Forall2_cons_inv_l (v' & rest' & Hv' & H' & ->)%Forall2_cons_inv_l.
  destruct Hv as [E1 _ _ Hh Hd _ _], Hv' as [E1' _ _ Hh' Hd' _ _].
  destruct (sha256_ref_or_collision (vs_artifact v) (vs_artifact v')) as [E|C].
  { congruence. }
  - rewrite E in Hd. destruct (IH _ _ H H') as [-> | (w & w' & K1 & K2 & K3)].
    + left. f_equal. destruct v, v'. cbn in *. congruence.
    + right. exists w, w'. split; [by right |]. split; [by right | done].
  - right. exists v, v'. split; [by left |]. split; [by left | done].
Qed.

(** C33. One hash, one content. Two packages that verify, under any policies, limits
    and archive formats, and that have the same package hash (which is all that
    a signature covers) have the same manifest and the same Skills with the
    same artifacts, or exhibit a SHA-256 collision of their manifests or of two
    of their artifacts. *)
Theorem package_hash_binds (zip zip' : ZipFormat) (self self' : NspVerifier) (data data' : list ascii)
    (k k' : VerifiedNspPackage) :
  verify_package zip self data = Ok k -> verify_package zip' self' data' = Ok k' ->
  package_hash k = package_hash k' ->
  (vk_manifest k = vk_manifest k' /\ vk_skills k = vk_skills k')
  \/ collision (package_material (vk_manifest k)) (package_material (vk_manifest k'))
  \/ exists v v', v ∈ vk_skills k /\ v' ∈ vk_skills k' /\ collision (vs_artifact v) (vs_artifact v').
Proof.
  intros H%verify_package_ok H'%verify_package_ok Eh.
  destruct (pv_manifest _ _ _ _ H) as [[F1 F2] _ _ _ M]. destruct (pv_manifest _ _ _ _ H') as [[F1' F2'] _ _ _ M'].
  unfold package_hash in Eh.
  destruct (sha256_ref_or_collision (package_material (vk_manifest k)) (package_material (vk_manifest k')))
    as [E|C].
  { transitivity (nm_package_sha256 (vk_manifest k)); [by symmetry |]. rewrite Eh. exact M'. }
  - apply package_material_inj in E. pose proof (pv_skills _ _ _ _ H) as S1.
    pose proof (pv_skills _ _ _ _ H') as S2. rewrite <- E in S2.
    destruct (same_entries _ _ _ _ _ _ _ S1 S2) as [Es | C]; [left | by right; right].
    split; [| done]. destruct (vk_manifest k), (vk_manifest k'). cbn in *. congruence.
  - by right; left.
Qed.

(** ** How packages are refused *)

(** Exceptions of the ports that are let through. *)
Class Escaping : Type := escaping : exn -> Prop.

(** The exceptions that [verify] turns into its own, and those it lets through. *)
Definition handled {X : Escaping} {A} (r : result A) : Prop :=
  forall e, r = Err e ->
    archive_failure (ex_class e) = true \/ ex_class e = OutOfModel \/ escaping e.

Lemma handled_Ok {X : Escaping} {A} (a : A) : handled (Ok a).
Proof. discriminate. Qed.

Lemma handled_value {X : Escaping} {A} (r : result A) :
  (forall e, r = Err e -> isinstance_exn (ex_class e) ValueError = true \/ ex_class e = OutOfModel) ->
  handled r.
Proof.
  intros H e He. destruct (H e He) as [Hv | ?]; [left | right; by left].
  unfold archive_failure. cbn [existsb]. by rewrite Hv, !orb_true_r.
Qed.

Lemma handled_refuses {X : Escaping} {A} (r : result A) : refuses r -> handled r.
Proof. intros H. apply handled_value. intros e He. left. by apply H. Qed.

Lemma handled_bind {X : Escaping} {A B} (m : result A) (f : A -> result B) :
  handled m -> (forall a, handled (f a)) -> handled (m ≫= f).
Proof. intros Hm Hf e [H | (a & _ & H)]%bind_Err; [by apply Hm | by eapply Hf]. Qed.

Lemma handled_nsp_if {X : Escaping} b c m : handled (nsp_if b c m).
Proof. destruct b; [| apply handled_Ok]. intros e [= <-]. by left. Qed.

Lemma handled_manifest_if {X : Escaping} b p m : handled (manifest_if b p m).
Proof. destruct b; [| apply handled_Ok]. intros e [= <-]. by left. Qed.

Lemma handled_signature_if {X : Escaping} b p m : handled (signature_if b p m).
Proof. destruct b; [| apply handled_Ok]. intros e [= <-]. by left. Qed.

Lemma handled_manifest_error {X : Escaping} {A} p m : handled (Err (A := A) (_manifest_error p m)).
Proof. intros e [= <-]. by left. Qed.

Lemma handled_signature_error {X : Escaping} {A} p m : handled (Err (A := A) (signature_exn p m)).
Proof. intros e [= <-]. by left. Qed.

(** A number of too many digits is a [ValueError], the end of the stack a
    [RuntimeError]. *)
Lemma handled_load {X : Escaping} error i name data :
  (forall p m, isinstance_exn (ex_class (error p m)) ValueError = true) ->
  handled (load_strict_json_within error i name data).
Proof.
  intros H e He. pose proof (load_within_outcome error i name data) as Hl. rewrite He in Hl.
  destruct Hl as [[m ->] | [[Hl _] | [[Hl _] | [Hl _]]]]; [| by right; left | |].
  - apply (handled_value (A := unit) (Err (error "$" m))); [| done]. intros e' [= <-]. left. apply H.
  - left. by rewrite Hl.
  - left. by rewrite Hl.
Qed.

Lemma handled_encode {X : Escaping} skill : handled (nso_encode skill).
Proof.
  apply handled_refuses. unfold nso_encode. cbv zeta. apply refuses_bind.
  { unfold ensure_no_credential_material.
    destruct (find_credential_path _ _); [by apply refuses_raise | apply refuses_Ok]. }
  intros [] _. apply refuses_bind; [apply schema_refuses, document_only | intros; apply refuses_Ok].
Qed.

#[export] Hint Resolve handled_Ok handled_nsp_if handled_manifest_if handled_signature_if
  handled_manifest_error handled_signature_error handled_encode : handled.

(** Steps through binds, matches and conditions. *)
Ltac handled_tac :=
  repeat first
    [ progress (cbv zeta)
    | solve [auto with handled]
    | apply handled_bind; [| intros ?]
    | match goal with
      | |- handled (match ?x with _ => _ end) => destruct x
      | |- handled (if ?b then _ else _) => destruct b
      end ].

Lemma handled_exact {X : Escaping} error v path fields :
  (forall p m, isinstance_exn (ex_class (error p m)) ValueError = true) ->
  handled (exact_object error v path fields).
Proof.
  intros H. assert (forall A p m, handled (Err (A := A) (error p m))) as He.
  { intros A p m. apply handled_refuses. by intros e [= <-]. }
  unfold exact_object. handled_tac; apply He.
Qed.

Lemma handled_constant {X : Escaping} error v expected path :
  (forall p m, isinstance_exn (ex_class (error p m)) ValueError = true) ->
  handled (constant_text error v expected path).
Proof.
  intros H. assert (forall A p m, handled (Err (A := A) (error p m))) as He.
  { intros A p m. apply handled_refuses. by intros e [= <-]. }
  unfold constant_text. handled_tac; apply He.
Qed.

Lemma handled_manifest {X : Escaping} self i data : handled (_parse_manifest_within self i data).
Proof.
  assert (forall v p, handled (manifest_string v p)) as Hs by (intros; unfold manifest_string; handled_tac).
  assert (forall v p, handled (manifest_sha256 v p)) as Hh.
  { intros. unfold manifest_sha256. handled_tac; apply Hs. }
  assert (forall l i, handled (parse_entries i l)) as He.
  { induction l as [|v l IH]; intros n; cbn [parse_entries]; [auto with handled |].
    apply handled_bind; [| intros; apply handled_bind; [apply IH | auto with handled]].
    unfold _parse_skill_entry, manifest_integer, _validate_member_path. handled_tac; try apply Hs; try apply Hh.
    by apply handled_exact. }
  unfold _parse_manifest_within, manifest_array. handled_tac; try apply Hh; try apply He.
  - by apply handled_load.
  - by apply handled_exact.
  - by apply handled_constant.
  - by apply handled_constant.
Qed.

Lemma handled_signature {X : Escaping} i data : handled (decode_signature_metadata_within i data).
Proof.
  unfold decode_signature_metadata_within, signature_from_data, _algorithm, _key_id, signature_sha256,
    _signature_b64, signature_string, signature_bytes.
  handled_tac; solve [by apply handled_load | by apply handled_exact | by apply handled_constant].
Qed.

Lemma handled_skill {X : Escaping} i entry artifact : handled (_verify_skill_within i entry artifact).
Proof.
  unfold _verify_skill_within. handled_tac. intros e. unfold except_value_error.
  destruct (nso_decode_within i artifact) as [s|e'] eqn:E; [done |].
  destruct (isinstance_exn (ex_class e') ValueError) eqn:Ei; [by intros [= <-]; left |].
  intros [= <-]. destruct (decode_within_refused _ _ _ E) as [H | [H | [H _]]];
    [congruence | by right; left | left; by rewrite H].
Qed.

(** [e] is none of the classes [cs]. *)
Definition uncaught (cs : list exn_class) (e : exn) : Prop :=
  forall c, c ∈ cs -> isinstance_exn (ex_class e) c = false.

Lemma existsb_uncaught cs e : existsb (isinstance_exn (ex_class e)) cs = false -> uncaught cs e.
Proof.
  intros H c Hc%list_elem_of_In. destruct (isinstance_exn (ex_class e) c) eqn:E; [| done].
  rewrite <- H. symmetry. apply existsb_exists. by exists c.
Qed.

Lemma handled_read {X : Escaping} zip data path :
  (forall e, zip_read zip data path = Err e ->
     uncaught [BadZipFile; LargeZipFile; KeyError; RuntimeError; ValueError] e -> escaping e) ->
  handled (_read_member zip data path).
Proof.
  intros Hr. unfold _read_member. destruct (zip_read zip data path) as [b|e]; [auto with handled |].
  specialize (Hr _ eq_refl).
  destruct (isinstance_exn (ex_class e) BadZipFile) eqn:E1; [by intros e' [= <-]; left |].
  destruct (isinstance_exn (ex_class e) KeyError) eqn:E2; [by intros e' [= <-]; left |].
  destruct (isinstance_exn (ex_class e) RuntimeError) eqn:E3; [by intros e' [= <-]; left |].
  cbn [orb]. intros e' [= <-]. unfold archive_failure. cbn [existsb]. rewrite E1, E3.
  destruct (isinstance_exn (ex_class e) LargeZipFile) eqn:E4; [by left |].
  destruct (isinstance_exn (ex_class e) ValueError) eqn:E5; [by left |]. right; right.
  apply Hr, existsb_uncaught. cbn [existsb]. by rewrite E1, E2, E3, E4, E5.
Qed.

Lemma handled_map {X : Escaping} {A B} (f : A -> result B) l : (forall x, handled (f x)) -> handled (map_result f l).
Proof.
  intros H. induction l as [|x l IH]; cbn [map_result]; [apply handled_Ok |].
  apply handled_bind; [apply H | intros y; apply handled_bind; [apply IH | intros; apply handled_Ok]].
Qed.

Lemma handled_members {X : Escaping} self infos : forall total, handled (validate_members self total infos).
Proof.
  induction infos as [|i infos IH]; intros total; cbn [validate_members]; [apply handled_Ok |].
  apply handled_bind; [unfold validate_member, _validate_member_path; handled_tac | intros; apply IH].
Qed.

Lemma handled_exceptions {A} (r : result A) e : r = Err e -> handled (X := fun _ => False) r ->
  isinstance_exn (ex_class e) Exception_ = true.
Proof.
  intros He H. destruct (H e He) as [H1 | [-> | []]]; [| done].
  unfold archive_failure in H1. destruct (ex_class e); vm_compute in H1 |- *; done.
Qed.

Lemma handled_verify_signature {X : Escaping} self signature :
  (forall v algorithm key message bytes e, nv_signature_verifier self = Some v ->
     v algorithm key message bytes = Err e ->
     isinstance_exn (ex_class e) Exception_ = false -> escaping e) ->
  handled (_verify_signature self signature).
Proof.
  intros Hv. unfold _verify_signature. destruct signature as [m|]; [| apply handled_Ok].
  destruct (nv_signature_verifier self) as [verifier|]; [| by intros e [= <-]; left].
  cbv zeta. destruct (message ← _; _) as [b|e] eqn:E; [apply handled_nsp_if |].
  destruct (isinstance_exn (ex_class e) Exception_) eqn:Ex; [by intros e' [= <-]; left |].
  intros e' [= <-]. right; right.
  apply bind_Err in E as [E | (message & _ & E)].
  { rewrite (handled_exceptions _ e E) in Ex; [done |].
    unfold signature_message, signature_sha256, _algorithm, _key_id, signature_string. handled_tac. }
  apply bind_Err in E as [E | (bytes & _ & E)]; [| by eapply Hv].
  rewrite (handled_exceptions _ e E) in Ex; [done |]. unfold signature_bytes. handled_tac.
Qed.

(** What the ports of the verifier may raise that no [except] of [verify]
    catches: the archive format when it opens the archive or reads a member,
    the verifier of signatures outside [Exception]. *)
Inductive escapes (zip : ZipFormat) (self : NspVerifier) (data : list ascii) (e : exn) : Prop :=
  | escapes_open : zip_infolist zip data = Err e ->
      uncaught [BadZipFile; LargeZipFile; RuntimeError; ValueError] e -> escapes zip self data e
  | escapes_read path : zip_read zip data path = Err e ->
      uncaught [BadZipFile; LargeZipFile; KeyError; RuntimeError; ValueError] e ->
      escapes zip self data e
  | escapes_signature verifier algorithm key message bytes :
      nv_signature_verifier self = Some verifier ->
      verifier algorithm key message bytes = Err e ->
      isinstance_exn (ex_class e) Exception_ = false -> escapes zip self data e.

Lemma handled_archive zip self i data :
  handled (X := escapes zip self data) (verify_archive_within zip self i data).
Proof.
  set (X := escapes zip self data : Escaping).
  assert (forall path, handled (X := X) (_read_member zip data path)) as Hr
    by (intros path; apply handled_read; intros e He Hu; by eapply escapes_read).
  assert (handled (X := X) (zip_infolist zip data)) as Ho.
  { intros e He. destruct (archive_failure (ex_class e)) eqn:Ea; [by left | right; right].
    by apply escapes_open; [| apply existsb_uncaught]. }
  assert (forall m, handled (X := X) (_verify_signature self m)) as Hv
    by (intros m; apply handled_verify_signature; intros; by eapply escapes_signature).
  unfold verify_archive_within, _validate_archive_members, read_signature_within.
  repeat first
    [ progress (cbv zeta)
    | apply Ho | apply Hr | apply handled_members | apply handled_manifest | apply Hv
    | apply handled_map; intros ?; apply handled_bind; [apply Hr | intros; apply handled_skill]
    | solve [auto with handled]
    | apply handled_bind; [| intros ?]
    | match goal with |- handled (if ?b then _ else _) => destruct b end ].
  destruct (bytes ← _; _) as [m|e] eqn:E; [apply handled_Ok |].
  destruct (isinstance_exn (ex_class e) NspSignatureError) eqn:Ei; [by intros e' [= <-]; left |].
  intros e' [= <-]. apply bind_Err in E as [E | (bytes & _ & E)]; [by eapply Hr | by eapply handled_signature].
Qed.

