(* ===== verification/PackageChains.v ===== *)
(** * Packages from the builder to the preflight

    What [NspBuilder] writes, [NspVerifier] returns, and the artifacts of a
    signed package pass the trust preflight: from the canonical artifacts of
    Skills to an execution that may write. *)

From S2P Require Import Prelude Digest Json JsonBoundary Core Decoding Values DataProtection Ir.
From S2P Require Import NsoSchema NsoCodec AuditTrail Artifacts Discipline Runtime HashTexts SchemaFacts.
From S2P Require Import Security Trust Checkpoints Restoration Source Includes IncludeFacts.
From S2P Require Import WriteExecution.
From S2P Require Import Packages PackageFacts.

(** ** Paths of members *)

Definition path_character (c : ascii) : bool := is_digit c || existsb (Ascii.eqb c) (chars ".nso").

Lemma path_character_plain c : path_character c = true ->
  (nat_of_ascii c <? 128) = true /\ Ascii.eqb backslash c = false /\ Ascii.eqb NUL c = false
  /\ Ascii.eqb ":" c = false /\ Ascii.eqb slash c = false.
Proof.
  rewrite <- (ascii_nat_embedding c).
  assert (forallb (fun n => implb (path_character (ascii_of_nat n))
    ((nat_of_ascii (ascii_of_nat n) <? 128) && negb (Ascii.eqb backslash (ascii_of_nat n))
     && negb (Ascii.eqb NUL (ascii_of_nat n)) && negb (Ascii.eqb ":" (ascii_of_nat n))
     && negb (Ascii.eqb slash (ascii_of_nat n)))) (seq 0 256) = true) as H by (vm_compute; reflexivity).
  rewrite forallb_forall in H. specialize (H (nat_of_ascii c)).
  intros Hc. rewrite Hc in H. cbn [implb] in H. split_bool.
  assert (In (nat_of_ascii c) (seq 0 256)) as Hin.
  { apply in_seq. pose proof (nat_ascii_bounded c). lia. }
  specialize (H Hin). rewrite !andb_true_iff, !negb_true_iff in H. tauto.
Qed.

Definition member_name (i : nat) : string := (pad_Z 4 (Z.of_nat i) +:+ ".nso")%string.

Lemma member_name_characters i : forallb path_character (chars (member_name i)) = true.
Proof.
  unfold member_name, pad_Z. rewrite chars_app, chars_zero_pad, !forallb_app. apply andb_true_iff.
  split; [| reflexivity]. apply andb_true_iff. split.
  - generalize (4 - String.length (str_of_Z (Z.of_nat i))). intros n. by induction n.
  - unfold str_of_Z. rewrite (proj2 (Z.ltb_ge _ _)) by lia.
    pose proof (str_of_N_digits (Z.to_N (Z.of_nat i))) as H. rewrite forallb_forall in H |- *.
    intros c Hc. unfold path_character. by rewrite H.
Qed.

Lemma has_char_none c s : forallb path_character (chars s) = true ->
  (forall d, path_character d = true -> Ascii.eqb c d = false) -> has_char c s = false.
Proof.
  intros Hs Hc. unfold has_char. apply not_true_iff_false. intros (d & Hd & E)%existsb_exists.
  rewrite forallb_forall in Hs. by rewrite (Hc d (Hs d Hd)) in E.
Qed.

Lemma forallb_ascii s : forallb path_character (chars s) = true ->
  string_forallb (fun c => nat_of_ascii c <? 128) s = true.
Proof.
  induction s as [|c s IH]; [done |]. cbn [chars String.list_ascii_of_string forallb string_forallb].
  intros [Hc Hs]%andb_prop. apply andb_true_intro. split; [by apply path_character_plain | by apply IH].
Qed.

Lemma existsb_app_false {A} (p : A -> bool) l l' :
  existsb p l = false -> existsb p l' = false -> existsb p (l ++ l') = false.
Proof. intros H H'. by rewrite existsb_app, H, H'. Qed.

Lemma member_path_safe i : safe_path (member_path i).
Proof.
  pose proof (member_name_characters i) as Hn.
  assert (forall c, (forall d, path_character d = true -> Ascii.eqb c d = false) ->
    existsb (Ascii.eqb c) (chars "skills/") = false -> has_char c (member_path i) = false) as Hc.
  { intros c Hc Hs. unfold has_char, member_path. rewrite chars_app.
    apply existsb_app_false; [exact Hs | by apply has_char_none]. }
  unfold safe_path, _validate_member_path.
  assert (String.eqb (member_path i) "" = false) as -> by reflexivity.
  assert (string_forallb (fun c => nat_of_ascii c <? 128) (member_path i) = true) as ->.
  { change (member_path i) with ("skills/" +:+ member_name i)%string. rewrite string_forallb_app.
    by rewrite (forallb_ascii _ Hn). }
  rewrite !Hc; try reflexivity;
    try (intros d Hd; destruct (path_character_plain d Hd) as (? & ? & ? & ? & ?); assumption).
  cbn [negb orb nsp_if mbind result_bind].
  change (member_path i) with ("skills" +:+ String slash (member_name i))%string.
  rewrite split_on_cons by reflexivity.
  rewrite split_on_part; [| apply has_char_none; [done | intros d Hd; by apply path_character_plain]].
  cbn [existsb]. rewrite bool_decide_false by set_solver.
  rewrite bool_decide_false; [done |].
  assert (4 <= String.length (member_name i)) as Hl.
  { unfold member_name. rewrite <- chars_length, chars_app, length_app. cbn. lia. }
  intros Hin. repeat (apply elem_of_cons in Hin as [E | Hin]; [rewrite E in Hl; cbn in Hl; lia |]).
  by apply elem_of_nil in Hin.
Qed.

Lemma member_path_inj i j : member_path i = member_path j -> i = j.
Proof.
  intros E. apply (f_equal (fun s => drop_prefix "skills/" s)) in E. unfold member_path in E.
  rewrite !drop_prefix_app in E. injection E as E. apply (f_equal chars) in E.
  rewrite !chars_app in E. apply app_inv_tail, chars_inj, pad_inj in E; lia.
Qed.

Lemma member_path_other i s : startswith s "skills/" = false -> member_path i <> s.
Proof.
  intros H E. rewrite <- E in H. unfold member_path, startswith in H. by rewrite drop_prefix_app in H.
Qed.

(** ** Signatures *)

Lemma url_alphabet n : (n < 64)%N -> let c := to_url (b64_char n) in
  base64url_character c = true /\ from_url c = b64_char n /\ Ascii.eqb c "=" = false.
Proof.
  intros Hn. cbv zeta.
  assert (forallb (fun m => let c := to_url (b64_char (N.of_nat m)) in
    base64url_character c && Ascii.eqb (from_url c) (b64_char (N.of_nat m)) && negb (Ascii.eqb c "="))
    (seq 0 64) = true) as H by (vm_compute; reflexivity).
  rewrite forallb_forall in H. specialize (H (N.to_nat n)). rewrite N2Nat.id in H. cbv zeta in H.
  assert (In (N.to_nat n) (seq 0 64)) as Hin by (apply in_seq; lia). specialize (H Hin).
  rewrite !andb_true_iff, negb_true_iff, Ascii.eqb_eq in H. tauto.
Qed.

(** A character of an encoding, translated. *)
Definition url_character (c : ascii) : Prop :=
  base64url_character (to_url c) = true /\ from_url (to_url c) = c /\ Ascii.eqb (to_url c) "=" = false.

(** Bytes that leave one over a multiple of three end in two pads. *)
Lemma b64_tail s : (exists n, length s = S (3 * n)) -> exists body,
  b64encode s = body ++ ["="%char; "="%char] /\ Forall url_character body
  /\ 3 * length body = 4 * length s + 2.
Proof.
  intros [n Hn]. revert s Hn. induction n as [|n IH]; intros s Hn.
  - destruct s as [|x [|y s]]; try discriminate.
    pose proof (ascii_code_bound x) as Hx.
    destruct (b64_small (N_of_ascii x) 0 0) as (H1 & H2 & _); [done | lia.. |].
    change (0 / 16)%N with 0%N in H2. rewrite N.add_0_r in H2.
    exists [b64_char (N_of_ascii x / 4); b64_char (N_of_ascii x mod 4 * 16)].
    split; [reflexivity |]. split; [| reflexivity].
    repeat constructor; by apply url_alphabet.
  - destruct s as [|x [|y [|z s]]]; cbn [length] in Hn; try lia.
    destruct (IH s) as (body & E & Hb & Hl); [lia |].
    destruct (b64_small (N_of_ascii x) (N_of_ascii y) (N_of_ascii z)) as (H1 & H2 & H3 & H4);
      [apply ascii_code_bound.. |].
    eexists (_ :: _ :: _ :: _ :: body). split; [cbn [b64encode]; rewrite E; reflexivity |].
    split; [| cbn [length]; lia]. do 4 (constructor; [by apply url_alphabet |]). done.
Qed.

Lemma rstrip_none l : Forall (fun c => Ascii.eqb c "=" = false) l -> rstrip_pad l = l.
Proof. induction 1 as [|c l Hc _ IH]; [done |]. cbn [rstrip_pad]. rewrite IH, Hc. by destruct l. Qed.

Lemma rstrip_pads l : Forall (fun c => Ascii.eqb c "=" = false) l ->
  rstrip_pad (l ++ ["="%char; "="%char]) = l.
Proof.
  induction 1 as [|c l Hc _ IH]; [reflexivity |]. cbn [rstrip_pad app]. rewrite IH, Hc. by destruct l.
Qed.

Lemma url_text l : Forall url_character l ->
  Forall (fun c => Ascii.eqb c "=" = false) (map to_url l) /\ map from_url (map to_url l) = l
  /\ forallb base64url_character (map to_url l) = true.
Proof.
  induction 1 as [|c l (H1 & H2 & H3) _ (IH1 & IH2 & IH3)]; [done |]. cbn [map forallb].
  split; [by constructor |]. split; [by rewrite H2, IH2 | by rewrite H1, IH3].
Qed.

Lemma string_forallb_chars p l : string_forallb p (String.string_of_list_ascii l) = forallb p l.
Proof. induction l as [|c l IH]; [done |]. cbn. by rewrite IH. Qed.

Lemma string_length_chars l : String.length (String.string_of_list_ascii l) = length l.
Proof. induction l as [|c l IH]; [done |]. cbn. by rewrite IH. Qed.

(** The text of a signature of 64 bytes and what it decodes to. *)
Lemma urlsafe_text s : length s = 64 -> let t := urlsafe_unpadded s in
  String.length t = 86 /\ string_forallb base64url_character t = true
  /\ b64decode (map from_url (chars t ++ ["="%char; "="%char])) = Some s.
Proof.
  intros Hs. cbv zeta. destruct (b64_tail s) as (body & E & Hb & Hl); [exists 21; lia |].
  destruct (url_text body Hb) as (H1 & H2 & H3). unfold urlsafe_unpadded.
  rewrite E, map_app. change (map to_url ["="%char; "="%char]) with ["="%char; "="%char].
  rewrite rstrip_pads by done. rewrite string_length_chars, length_map, string_forallb_chars.
  split; [lia |]. split; [done |].
  unfold chars. rewrite String.list_ascii_of_string_of_list_ascii, map_app, H2.
  change (map from_url ["="%char; "="%char]) with ["="%char; "="%char]. by rewrite <- E, b64decode_encode.
Qed.

Lemma exact_object_intro error d path fields :
  sorted_difference fields (map fst d) = [] -> sorted_difference (map fst d) fields = [] ->
  exact_object error (JObj d) path fields = Ok d.
Proof. intros H1 H2. cbn [exact_object]. cbv zeta. by rewrite H1, H2. Qed.

(** Reads the fields of explicit documents. *)
Ltac read_fields :=
  repeat match goal with
    |- context [field_of ?k ?d] =>
      let v := eval cbv [field_of assoc String.eqb Ascii.eqb Bool.eqb default from_option id] in
        (field_of k d) in
      change (field_of k d) with v
    end.

Lemma signature_data_sorted m : sorted_keys (signature_to_data m) =
  JObj [("algorithm", JStr (sm_algorithm m)); ("format", JStr (sm_format m));
        ("key_id", JStr (sm_key_id m)); ("package_sha256", JStr (sm_package_sha256 m));
        ("schema_version", JStr (sm_schema_version m)); ("signature", JStr (sm_signature_b64 m))].
Proof. reflexivity. Qed.

Lemma signature_data_unique m : unique_keys (signature_to_data m) = true.
Proof. reflexivity. Qed.

(** The signature of a package. *)
Record signs (signer : NspSigner) (h : string) (m : NspSignatureMetadata) : Prop := {
  sn_format : sm_format m = NSP_SIGNATURE_FORMAT /\ sm_schema_version m = NSP_SIGNATURE_SCHEMA_VERSION;
  sn_hash : sm_package_sha256 m = h;
  sn_key : sm_algorithm m = sg_algorithm signer /\ sm_key_id m = sg_key_id signer;
  sn_fields : signature_sha256 (JStr h) "$.package_sha256" = Ok h
    /\ _algorithm (JStr (sg_algorithm signer)) "$.algorithm" = Ok (sg_algorithm signer)
    /\ _key_id (JStr (sg_key_id signer)) "$.key_id" = Ok (sg_key_id signer);
  sn_signed : exists message s, signature_message h (sm_algorithm m) (sm_key_id m) = Ok message
    /\ sg_sign signer message = Ok (Some s) /\ length s = 64
    /\ sm_signature_b64 m = urlsafe_unpadded s
}.

Lemma signature_fields f v path s : (f = signature_sha256 \/ f = _algorithm \/ f = _key_id) ->
  f (JStr v) path = Ok s -> s = v.
Proof.
  intros [-> | [-> | ->]] H; apply bind_Ok in H as (w & Hw & H); apply bind_Ok in H as ([] & _ & [= <-]);
    by apply bind_Ok in Hw as ([] & _ & [= <-]).
Qed.

Lemma create_signature_signs h signer m : create_signature h signer = Ok m -> signs signer h m.
Proof.
  unfold create_signature. intros H. apply bind_Ok in H as (h' & Hh & H).
  apply bind_Ok in H as (alg & Ha & H). apply bind_Ok in H as (key & Hk & H). cbv zeta in H.
  pose proof (signature_fields _ _ _ _ (or_introl eq_refl) Hh) as ->.
  pose proof (signature_fields _ _ _ _ (or_intror (or_introl eq_refl)) Ha) as ->.
  pose proof (signature_fields _ _ _ _ (or_intror (or_intror eq_refl)) Hk) as ->.
  apply bind_Ok in H as (signature & Hs & H).
  destruct (message ← _; _) as [r|e] eqn:E; [| by destruct (isinstance_exn (ex_class e) Exception_)].
  injection Hs as ->. apply bind_Ok in E as (message & Hm & E). destruct signature as [s|]; [| done].
  apply bind_Ok in H as ([] & Hl%raise_if_Ok & [= <-]). apply negb_false_iff, Nat.eqb_eq in Hl.
  constructor; try done. by exists message, s.
Qed.

Lemma signature_roundtrip signer h m : signs signer h m ->
  decode_signature_metadata (encode_signature_metadata m) = Ok m
  /\ exists s, signature_bytes m = Ok s
       /\ exists message, signature_message h (sm_algorithm m) (sm_key_id m) = Ok message
            /\ sg_sign signer message = Ok (Some s).
Proof.
  intros [[F1 F2] F3 [F4 F5] (G1 & G2 & G3) (message & s & Hm & Hs & Hl & Ht)].
  destruct (urlsafe_text s Hl) as (T1 & T2 & T3). rewrite <- Ht in T1, T2, T3.
  assert (signature_bytes m = Ok s) as Hb.
  { unfold signature_bytes. rewrite T3, Hl. reflexivity. }
  split; [| exists s; split; [done |]; by exists message].
  unfold decode_signature_metadata, decode_signature_metadata_within, encode_signature_metadata.
  change (load_strict_json_within signature_exn unlimited) with (load_strict_json signature_exn).
  rewrite load_canonical by apply signature_data_unique. cbn [mbind result_bind].
  apply (bind_intro m).
  2: { rewrite bool_decide_true by done. reflexivity. }
  rewrite signature_data_sorted. unfold signature_from_data.
  rewrite exact_object_intro by (vm_compute; reflexivity). cbn [mbind result_bind].
  read_fields.
  rewrite F1, F2. cbn [constant_text]. rewrite !String.eqb_refl. cbn [mbind result_bind].
  rewrite F4, F5, F3, G2, G3, G1. cbn [mbind result_bind].
  apply (bind_intro (sm_signature_b64 m)).
  { unfold _signature_b64. cbn [signature_string].
    assert (String.eqb (sm_signature_b64 m) "" = false) as ->.
    { apply String.eqb_neq. intros E. by rewrite E in T1. }
    cbn [signature_if mbind result_bind]. by rewrite T1, T2. }
  cbv zeta. assert (MkNspSignatureMetadata NSP_SIGNATURE_FORMAT NSP_SIGNATURE_SCHEMA_VERSION
    (sg_algorithm signer) (sg_key_id signer) h (sm_signature_b64 m) = m) as ->.
  { rewrite <- F1, <- F2, <- F3, <- F4, <- F5. by destruct m. }
  by rewrite Hb.
Qed.

(** ** Artifacts and manifests *)

(** The artifact is the canonical form of the Skill. *)
Definition artifact_of (s : SkillObject) (a : list ascii) : Prop :=
  skill_ok s = true /\ hashes_ok s /\ nso_encode s = Ok a.

Definition prepared (s : SkillObject) (a : list ascii) : _PreparedArtifact :=
  MkPreparedArtifact (sk_skill_id s) (sk_skill_version s) (sk_semantic_hash s) a.

(** A prepared artifact is that of its Skill. *)
Definition prepares (p : _PreparedArtifact) : Prop :=
  exists s, artifact_of s (pa_data p) /\ p = prepared s (pa_data p).

Lemma prepare_each_Ok artifacts : forall index ps,
  Forall (fun a => exists s, artifact_of s a) artifacts ->
  prepare_each index artifacts = Ok ps -> Forall prepares ps /\ map pa_data ps = artifacts.
Proof.
  induction artifacts as [|a artifacts IH]; intros index ps Ha H; cbn [prepare_each] in H.
  { by injection H as <-. }
  apply Forall_cons in Ha as [(s & Hs) Ha]. apply bind_Ok in H as (p & Hp & H).
  apply bind_Ok in H as (rest & Hr & [= <-]). destruct (IH _ _ Ha Hr) as [H1 H2].
  assert (p = prepared s a) as ->.
  { pose proof Hs as (K1 & K2 & K3). apply except_value_error_Ok in Hp.
    rewrite (decode_encoded_skill s a K1 K2 K3) in Hp. cbn [mbind result_bind] in Hp.
    rewrite K3 in Hp. by injection Hp as <-. }
  split; [constructor; [by exists s | done] | cbn [map]; by rewrite H2].
Qed.

Lemma insert_artifact_perm a l : insert_artifact a l ≡ₚ a :: l.
Proof.
  induction l as [|b l IH]; [done |]. cbn [insert_artifact]. destruct (key_leb a b); [done |].
  rewrite IH. apply Permutation_swap.
Qed.

Lemma sort_artifacts_perm l : sort_artifacts l ≡ₚ l.
Proof. induction l as [|a l IH]; [done |]. cbn. by rewrite insert_artifact_perm, IH. Qed.

Lemma prepared_ok artifacts ps : Forall (fun a => exists s, artifact_of s a) artifacts ->
  _prepare_artifacts artifacts = Ok ps ->
  Forall prepares ps /\ map pa_data ps ≡ₚ artifacts /\ ps <> [] /\ NoDup (map artifact_key ps).
Proof.
  unfold _prepare_artifacts. intros Ha H. apply bind_Ok in H as ([] & H0%raise_if_Ok & H).
  apply bool_decide_eq_false in H0. apply bind_Ok in H as (l & Hl & H). cbv zeta in H.
  apply bind_Ok in H as ([] & Hn%raise_if_Ok & [= <-]). apply negb_false_iff, bool_decide_eq_true in Hn.
  destruct (prepare_each_Ok _ _ _ Ha Hl) as [H1 H2]. split; [by rewrite sort_artifacts_perm |].
  split; [change (@map) with (@fmap list _); rewrite sort_artifacts_perm; by rewrite <- H2 |].
  split; [| done]. intros E. apply H0. rewrite <- H2.
  pose proof (sort_artifacts_perm l) as Hp. rewrite E in Hp. by apply Permutation_nil in Hp as ->.
Qed.

Lemma document_names v : validate_nso_document v = Ok tt ->
  exists root skill, v = JObj root /\ field_of "skill" root = JObj skill
    /\ (exists s, field_of "id" skill = JStr s /\ s <> "")
    /\ (exists s, field_of "version" skill = JStr s /\ s <> "").
Proof.
  unfold validate_nso_document. intros H. apply bind_Ok in H as (root & ->%object_is & H).
  do 2 apply bind_Ok in H as (? & _ & H). apply bind_Ok in H as (lang & _ & H).
  do 2 apply bind_Ok in H as (? & _ & H). apply bind_Ok in H as (skill & Hs%object_is & H).
  apply bind_Ok in H as (u & Hf & _). exists root, skill. split; [done |]. split; [done |].
  assert (forall k, k ∈ ["id"; "version"; "risk"] -> exists s, field_of k skill = JStr s /\ s <> "") as Hk.
  { intros k Hk. destruct (proj1 (each_field_Ok _ _ _ _ _) Hf k Hk) as (s & Hf').
    clear Hf. rename Hf' into Hf.
    unfold _string, string_at in Hf. destruct (field_of k skill) as [| | |t| |]; try done.
    exists t. split; [done |]. apply bind_Ok in Hf as ([] & He%schema_if_Ok & _).
    apply andb_false_iff in He as [He|He]; [| done]. by apply String.eqb_neq. }
  split; apply Hk; [by left | by right; left].
Qed.

Lemma encoded_names s a : nso_encode s = Ok a -> sk_skill_id s <> "" /\ sk_skill_version s <> "".
Proof.
  unfold nso_encode. cbv zeta. intros H. apply bind_Ok in H as ([] & _ & H).
  apply bind_Ok in H as ([] & Hv & _). apply document_names in Hv as (root & skill & E & Es & Hi & Hw).
  unfold skill_to_data in E. injection E as <-. cbn in Es. injection Es as <-.
  destruct Hi as (i & Ei & Hi), Hw as (w & Ew & Hw). cbn in Ei, Ew. injection Ei as <-. by injection Ew as <-.
Qed.

(** An entry that the reader of manifests accepts at its position. *)
Record entry_ok (i : nat) (s : NspSkillManifest) : Prop := {
  eo_path : ns_path s = member_path i;
  eo_names : ns_skill_id s <> "" /\ ns_skill_version s <> "";
  eo_hashes : is_sha256_ref (ns_semantic_sha256 s) = true /\ is_sha256_ref (ns_artifact_sha256 s) = true;
  eo_size : (1 <= ns_size_bytes s)%Z
}.

Lemma canonical_object_size d : 1 <= length (canonical_json (JObj d)).
Proof.
  unfold canonical_json, utf8_encode. rewrite sorted_obj. cbn [dumps flat_map app].
  rewrite length_app. change (length (utf8_char "{")) with 1. lia.
Qed.

Lemma skill_entry_ok i p : prepares p -> entry_ok i (skill_entry i p).
Proof.
  intros (s & (H1 & [H2 _] & H3) & ->). unfold skill_entry, prepared.
  cbn [pa_skill_id pa_skill_version pa_semantic_hash pa_data].
  constructor; cbn [ns_path ns_skill_id ns_skill_version ns_semantic_sha256 ns_artifact_sha256 ns_size_bytes].
  - done.
  - by eapply encoded_names.
  - split; [| apply sha256_ref_is_ref]. rewrite <- H2. apply sha256_ref_is_ref.
  - unfold nso_encode in H3. cbv zeta in H3. do 2 apply bind_Ok in H3 as (? & _ & H3).
    apply Ok_inj in H3. rewrite <- H3.
    assert (1 <= length (canonical_json (skill_to_data s true true))) by apply canonical_object_size. lia.
Qed.

Lemma manifest_string_Ok s path : s <> "" -> manifest_string (JStr s) path = Ok s.
Proof. intros H. cbn. apply String.eqb_neq in H. by rewrite H. Qed.

Lemma manifest_sha256_Ok s path : is_sha256_ref s = true -> manifest_sha256 (JStr s) path = Ok s.
Proof.
  intros H. unfold manifest_sha256. rewrite manifest_string_Ok; [cbn; by rewrite H |].
  by intros ->.
Qed.

Lemma parse_entry_Ok i s : entry_ok i s ->
  _parse_skill_entry (sorted_keys (nsp_skill_to_data s)) i = Ok s.
Proof.
  intros [H1 [H2 H3] [H4 H5] H6]. rewrite nsp_skill_sorted. unfold _parse_skill_entry. cbv zeta.
  rewrite exact_object_intro by (vm_compute; reflexivity). cbn [mbind result_bind]. read_fields.
  rewrite H1, (manifest_string_Ok (member_path i)) by (by apply member_path_other). cbn [mbind result_bind].
  rewrite (member_path_safe i). cbn [mbind result_bind]. rewrite String.eqb_refl.
  cbn [negb manifest_if mbind result_bind]. rewrite !manifest_string_Ok by done. cbn [mbind result_bind].
  rewrite !manifest_sha256_Ok by done. cbn [mbind result_bind manifest_integer].
  rewrite (proj2 (Z.ltb_ge _ _) H6). cbn. rewrite <- H1. by destruct s.
Qed.

Lemma parse_entries_Ok l : forall i, (forall n s, l !! n = Some s -> entry_ok (i + n) s) ->
  parse_entries i (map sorted_keys (map nsp_skill_to_data l)) = Ok l.
Proof.
  induction l as [|s l IH]; intros i H; [done |]. cbn [map parse_entries].
  rewrite parse_entry_Ok by (rewrite <- (Nat.add_0_r i); by apply H). cbn [mbind result_bind].
  rewrite IH; [done |]. intros n s' Hs. replace (S i + n) with (i + S n) by lia. by apply H.
Qed.

Lemma manifest_data_sorted m : sorted_keys (manifest_to_data m) =
  JObj [("format", JStr (nm_format m)); ("package_sha256", JStr (nm_package_sha256 m));
        ("schema_version", JStr (nm_schema_version m));
        ("skills", JArr (map sorted_keys (map nsp_skill_to_data (nm_skills m))))].
Proof. reflexivity. Qed.

Lemma manifest_data_unique m : unique_keys (manifest_to_data m) = true.
Proof.
  unfold manifest_to_data. apply unique_members_intro; [reflexivity |].
  cbn [manifest_content_data app forallb snd unique_keys andb]. rewrite !andb_true_r.
  induction (nm_skills m) as [|s l IH]; [done |]. cbn [map forallb]. by rewrite IH.
Qed.

Lemma skills_sorted_twice l : map sorted_keys (map sorted_keys (map nsp_skill_to_data l))
  = map sorted_keys (map nsp_skill_to_data l).
Proof. induction l as [|s l IH]; [done |]. cbn [map]. by rewrite IH. Qed.

Lemma package_hash_content m m' : nm_format m = nm_format m' ->
  nm_schema_version m = nm_schema_version m' -> nm_skills m = nm_skills m' ->
  computed_package_hash m = computed_package_hash m'.
Proof. unfold computed_package_hash, manifest_content_data. by intros -> -> ->. Qed.

Lemma manifest_roundtrip self m : let entries := nm_skills m in
  m = create_manifest entries -> entries <> [] ->
  (forall n s, entries !! n = Some s -> entry_ok (S n) s) -> NoDup (map skill_identity entries) ->
  (Z.of_nat (length entries) < max_members (nv_limits self))%Z ->
  _parse_manifest self (canonical_json (manifest_to_data m)) = Ok m.
Proof.
  cbv zeta. intros Hm Hne He Hn Hl. unfold _parse_manifest, _parse_manifest_within.
  change (load_strict_json_within _manifest_error unlimited) with (load_strict_json _manifest_error).
  rewrite load_canonical by apply manifest_data_unique. cbn [mbind result_bind].
  pose proof (manifest_data_sorted m) as Es. rewrite Es.
  rewrite exact_object_intro by (vm_compute; reflexivity). cbn [mbind result_bind]. read_fields.
  assert (nm_format m = NSP_FORMAT /\ nm_schema_version m = NSP_FORMAT_VERSION
    /\ nm_package_sha256 m = computed_package_hash (create_manifest (nm_skills m))) as (F1 & F2 & F3).
  { rewrite Hm. done. }
  rewrite F1, F2. cbn [constant_text]. rewrite !String.eqb_refl. cbn [mbind result_bind manifest_array].
  rewrite (bool_decide_false (map sorted_keys (map nsp_skill_to_data (nm_skills m)) = [])) by (intros E%map_eq_nil%map_eq_nil; by apply Hne). cbn [manifest_if mbind result_bind].
  rewrite !length_map, (proj2 (Z.ltb_ge _ _)) by lia. cbn [nsp_if mbind result_bind].
  rewrite parse_entries_Ok by exact He. cbn [mbind result_bind].
  rewrite (bool_decide_true (NoDup _)) by exact Hn. cbn [negb manifest_if mbind result_bind].
  rewrite manifest_sha256_Ok by (rewrite F3; apply sha256_ref_is_ref). cbn [mbind result_bind]. cbv zeta.
  assert (MkNspManifest NSP_FORMAT NSP_FORMAT_VERSION (nm_skills m) (nm_package_sha256 m) = m) as ->.
  { rewrite <- F1, <- F2. by destruct m. }
  rewrite (package_hash_content (create_manifest (nm_skills m)) m) in F3 by (by symmetry). rewrite F3.
  rewrite String.eqb_refl. cbn [negb nsp_if mbind result_bind].
  rewrite bool_decide_true; [done |]. apply canonical_json_inj. rewrite Es, F1, F2, F3.
  generalize (computed_package_hash m). intros h.
  rewrite <- (skills_sorted_twice (nm_skills m)) at 1. reflexivity.
Qed.

Lemma endswith_slash s : endswith s "/" = true -> exists p, s = (p +:+ "/")%string.
Proof.
  unfold endswith. change (String.length "/") with 1. induction s as [|c s IH]; [done |].
  destruct s as [|d s].
  - intros H. cbn in H. destruct (Ascii.eqb_spec c "/") as [->|E]; [by exists "" |].
    apply String.eqb_eq in H. congruence.
  - intros H. destruct IH as [p ->].
    + cbn [String.length] in *. rewrite Nat.sub_succ, Nat.sub_0_r in *. exact H.
    + by exists (String c p).
Qed.

Lemma last_part_empty s : endswith s "/" = true -> In "" (split_on slash s).
Proof.
  intros [p ->]%endswith_slash.
  enough (exists w ws, split_on slash (p +:+ "/") = w :: ws /\ In "" ws) as (w & ws & -> & H) by (by right).
  induction p as [|c p (w & ws & E & H)]; [by exists "", [""]; split; [| left] |].
  change (String c p +:+ "/")%string with (String c (p +:+ "/")). cbn [split_on]. rewrite E.
  destruct (Ascii.eqb c slash); [exists "", (w :: ws) | exists (String c w), ws]; split; try done.
  by right.
Qed.

(** ** The round trip *)

(** A member as the builder writes it. *)
Definition plain_member (m : ZipInfo * list ascii) : Prop :=
  exists name data, safe_path name /\ m = _write_member name data.

(** What [zipfile] documents of an archive that was written member by member
    with distinct names and stored contents. *)
Record zip_faithful (zip : ZipFormat) : Prop := {
  zf_infolist ms : Forall plain_member ms -> NoDup (map (fun m => zi_filename m.1) ms) ->
    zip_infolist zip (zip_archive zip ms) = Ok (map fst ms);
  zf_read ms i d : Forall plain_member ms -> NoDup (map (fun m => zi_filename m.1) ms) ->
    (i, d) ∈ ms -> zip_read zip (zip_archive zip ms) (zi_filename i) = Ok d
}.

(** The archive keeps to the limits. *)
Definition fits (l : NspVerificationLimits) (zip : ZipFormat) (data : list ascii) : Prop :=
  (Z.of_nat (length data) <= max_package_bytes l)%Z
  /\ forall infos, zip_infolist zip data = Ok infos ->
       (Z.of_nat (length infos) <= max_members l)%Z
       /\ Forall (fun i => zi_file_size i <= max_member_bytes l)%Z infos
       /\ (total_size infos <= max_total_uncompressed_bytes l)%Z.

(** The verifier accepts what the signer signs; without a signer, the policy
    allows unsigned packages. *)
Definition accepts (self : NspVerifier) (signer : option NspSigner) : Prop :=
  match signer with
  | None => allows_unsigned (nv_policy self) = true
  | Some signer => exists verifier, nv_signature_verifier self = Some verifier
      /\ forall message s, sg_sign signer message = Ok (Some s) ->
           verifier (sg_algorithm signer) (sg_key_id signer) message s = Ok true
  end.

Section Members.
Context (m : NspManifest) (ps : list _PreparedArtifact) (signature : option NspSignatureMetadata).
Context (Hm : nm_skills m = imap (fun i => skill_entry (S i)) ps).

Definition member_names : list string :=
  "manifest.json" :: imap (fun i _ => member_path (S i)) ps
  ++ match signature with Some _ => ["signature.json"] | None => [] end.

Lemma members_names : map (fun x => zi_filename x.1) (package_members m ps signature) = member_names.
Proof using.
  unfold package_members, member_names. cbn [map]. f_equal. rewrite map_app. f_equal.
  - change (@map) with (@fmap list _). rewrite fmap_imap. done.
  - by destruct signature.
Qed.

Lemma paths_lookup n path : imap (fun i _ => member_path (S i)) ps !! n = Some path ->
  path = member_path (S n).
Proof using. rewrite list_lookup_imap. by intros (p & _ & <-)%fmap_Some. Qed.

Lemma paths_distinct : NoDup (imap (fun i _ => member_path (S i)) ps).
Proof using.
  apply NoDup_alt. intros i j x Hi%paths_lookup Hj%paths_lookup. subst x.
  apply member_path_inj in Hj. lia.
Qed.

Lemma not_a_path s : startswith s "skills/" = false -> s ∉ imap (fun i _ => member_path (S i)) ps.
Proof using.
  intros Hs (n & Hn)%list_elem_of_lookup. apply paths_lookup in Hn. by eapply member_path_other.
Qed.

Lemma members_distinct : NoDup member_names.
Proof using.
  unfold member_names. constructor.
  - rewrite elem_of_app. intros [H|H]; [by apply not_a_path in H |]. destruct signature; [| by apply elem_of_nil in H].
    by apply list_elem_of_singleton in H.
  - apply NoDup_app. split; [apply paths_distinct |]. split; [| destruct signature; [apply NoDup_singleton | constructor]].
    intros x Hx Hs. destruct signature; [| by apply elem_of_nil in Hs].
    apply list_elem_of_singleton in Hs as ->. by apply not_a_path in Hx.
Qed.

Lemma members_plain : Forall plain_member (package_members m ps signature).
Proof using.
  unfold package_members. constructor; [by exists "manifest.json", (canonical_json (manifest_to_data m)) |].
  apply Forall_app. split.
  - apply Forall_forall. intros x (n & Hx)%list_elem_of_lookup. rewrite list_lookup_imap in Hx.
    apply fmap_Some in Hx as (p & _ & ->). exists (member_path (S n)), (pa_data p).
    split; [apply member_path_safe | done].
  - destruct signature as [s|]; [| constructor]. constructor; [| constructor].
    by exists "signature.json", (encode_signature_metadata s).
Qed.

Lemma members_expected : (list_to_set member_names : gset string) = expected_names m signature.
Proof using Hm.
  unfold member_names, expected_names. rewrite Hm. change (@map) with (@fmap list _). rewrite fmap_imap.
  change (imap (fun n => ns_path ∘ skill_entry (S n)) ps)
    with (imap (fun i (_ : _PreparedArtifact) => member_path (S i)) ps).
  cbn [list_to_set]. rewrite list_to_set_app_L.
  destruct signature; cbn [list_to_set]; set_solver.
Qed.
End Members.

Section Roundtrip.
Context (zip : ZipFormat) (Hzip : zip_faithful zip) (self : NspVerifier).

Lemma plain_member_ok l x : plain_member x -> (zi_file_size x.1 <= max_member_bytes l)%Z -> member_ok l x.1.
Proof using.
  intros (name & data & Hs & ->) Hl. constructor; try done. cbn. split; [| reflexivity].
  unfold is_dir. cbn [zi_filename]. apply not_true_iff_false. intros He.
  unfold safe_path, _validate_member_path in Hs.
  apply bind_Ok in Hs as ([] & _ & Hs%nsp_if_Ok). apply not_true_iff_false in Hs. apply Hs.
  apply existsb_exists. exists "". split; [by apply last_part_empty | by apply bool_decide_eq_true_2; left].
Qed.

Lemma members_validate ms : Forall plain_member ms -> NoDup (map (fun x => zi_filename x.1) ms) ->
  fits (nv_limits self) zip (zip_archive zip ms) ->
  _validate_archive_members self (map fst ms) = Ok tt.
Proof using Hzip.
  intros Hp Hn [_ Hf]. specialize (Hf _ (zf_infolist _ Hzip ms Hp Hn)) as (F1 & F2 & F3).
  unfold _validate_archive_members. rewrite (proj2 (Z.ltb_ge _ _) F1). cbn [nsp_if mbind result_bind].
  rewrite bool_decide_true by (by rewrite map_map). cbn [negb nsp_if mbind result_bind].
  apply validate_members_iff.
  - apply Forall_forall. intros i Hi. change (@map) with (@fmap list _) in Hi.
    apply list_elem_of_fmap in Hi as (x & -> & Hx). rewrite Forall_forall in Hp.
    destruct (Hp x Hx) as (name & data & _ & ->). cbn. lia.
  - assert (0 <= total_size (map fst ms))%Z; [| lia]. clear -Hp.
    induction Hp as [|x ms (name & data & _ & ->) _ IH]; [done |].
    change (total_size (map fst ((_write_member name data) :: ms)))
      with (Z.of_nat (length data) + total_size (map fst ms))%Z. lia.
  - split; [| lia]. apply Forall_forall. intros i Hi. pose proof Hi as Hi'.
    change (@map) with (@fmap list _) in Hi. apply list_elem_of_fmap in Hi as (x & -> & Hx).
    rewrite Forall_forall in Hp. rewrite Forall_forall in F2. apply plain_member_ok; [by apply Hp | by apply F2].
Qed.

Lemma entries_verify data ps : Forall prepares ps -> forall k,
  (forall n p, ps !! n = Some p -> zip_read zip data (member_path (k + n)) = Ok (pa_data p)) ->
  exists skills, Forall2 (skill_verified zip data) (imap (fun i => skill_entry (k + i)) ps) skills
    /\ map vs_artifact skills = map pa_data ps.
Proof using.
  induction 1 as [|p ps (s & (K1 & K2 & K3) & E) _ IH]; intros k Hr.
  { exists []. split; [constructor | done]. }
  destruct (IH (S k)) as (skills & H1 & H2).
  { intros n q Hq. replace (S k + n) with (k + S n) by lia. by apply Hr. }
  exists (MkVerifiedNspSkill (skill_entry (k + 0) p) s (pa_data p) :: skills). rewrite imap_cons.
  split; [| cbn [map]; by rewrite H2]. constructor.
  - pose proof (Hr 0 p eq_refl) as Hr0. constructor.
    + reflexivity.
    + exact Hr0.
    + reflexivity.
    + reflexivity.
    + exact (decode_encoded_skill s (pa_data p) K1 K2 K3).
    + exact K3.
    + rewrite E. split; [| split]; reflexivity.
  - erewrite imap_ext; [exact H1 |]. intros i q _. cbn. f_equal. lia.
Qed.

Lemma signed_or_allowed signer h signature :
  accepts self signer ->
  match signer with
  | None => signature = None
  | Some signer => exists m, signature = Some m /\ signs signer h m
  end ->
  (bool_decide (signature = None) && negb (allows_unsigned (nv_policy self)) = false)
  /\ (forall m, signature = Some m -> sm_package_sha256 m = h
        /\ decode_signature_metadata (encode_signature_metadata m) = Ok m)
  /\ _verify_signature self signature = Ok tt.
Proof using.
  intros Ha Hs. destruct signer as [signer|].
  - destruct Hs as (m & -> & Hm), Ha as (verifier & Ev & Ha).
    destruct (signature_roundtrip _ _ _ Hm) as (D & s & Hb & message & Hmsg & Hsig).
    split; [by rewrite bool_decide_false |]. split.
    { intros m' [= <-]. split; [apply Hm | exact D]. }
    apply verify_signature_iff. intros m' [= <-]. exists verifier, message, s.
    destruct Hm as [_ <- [F1 F2] _ _]. do 3 (split; [done |]). rewrite F1, F2. by apply Ha.
  - subst. cbn [accepts] in Ha. rewrite Ha. split; [by rewrite andb_false_r |]. split; [done |].
    apply verify_signature_iff. done.
Qed.

Lemma signature_expected m s : "signature.json" ∈ expected_names m (Some s).
Proof using. unfold expected_names. apply elem_of_union_r. by apply elem_of_singleton. Qed.

Lemma verify_built ps signature m : Forall prepares ps -> ps <> [] -> NoDup (map artifact_key ps) ->
  m = create_manifest (imap (fun i => skill_entry (S i)) ps) ->
  fits (nv_limits self) zip (zip_archive zip (package_members m ps signature)) ->
  (bool_decide (signature = None) && negb (allows_unsigned (nv_policy self)) = false) ->
  (forall s, signature = Some s -> sm_package_sha256 s = nm_package_sha256 m
     /\ decode_signature_metadata (encode_signature_metadata s) = Ok s) ->
  _verify_signature self signature = Ok tt ->
  exists skills, verify_package zip self (zip_archive zip (package_members m ps signature))
      = Ok (MkVerifiedNspPackage m skills signature)
    /\ map vs_artifact skills = map pa_data ps.
Proof using Hzip.
  intros Hp Hne Hn Hm Hf Hu Hs Hv. set (data := zip_archive zip (package_members m ps signature)) in *.
  assert (nm_skills m = imap (fun i => skill_entry (S i)) ps) as Hk by by rewrite Hm.
  pose proof (members_plain m ps signature) as Hplain.
  pose proof (members_distinct ps signature) as Hd. rewrite <- (members_names m) in Hd.
  pose proof (zf_infolist _ Hzip _ Hplain Hd) as Hi.
  pose proof (fun i d => zf_read _ Hzip _ i d Hplain Hd) as Hr. fold data in Hi, Hr.
  destruct (entries_verify data ps Hp 1) as (skills & Hsk & Hmap).
  { intros n p Hn'. apply (Hr (_write_member (member_path (S n)) (pa_data p)).1).
    unfold package_members. right. apply elem_of_app. left.
    apply list_elem_of_lookup. exists n. by rewrite list_lookup_imap, Hn'. }
  exists skills. split; [| exact Hmap]. unfold verify_package, verify_package_within.
  change (verify_archive_within zip self unlimited) with (verify_archive zip self).
  pose proof Hf as [F1 F2]. rewrite (proj2 (Z.ltb_ge _ _) F1). cbn [nsp_if mbind result_bind].
  enough (verify_archive zip self data = Ok (MkVerifiedNspPackage m skills signature)) as -> by done.
  unfold verify_archive, verify_archive_within.
  change (_parse_manifest_within self unlimited) with (_parse_manifest self). rewrite Hi. cbn [mbind result_bind].
  rewrite (members_validate _ Hplain Hd Hf). cbn [mbind result_bind].
  rewrite (proj2 (read_member_Ok zip data "manifest.json" (canonical_json (manifest_to_data m))))
    by (apply (Hr (_write_member "manifest.json" (canonical_json (manifest_to_data m))).1); left).
  cbn [mbind result_bind]. destruct (F2 _ Hi) as (L & _ & _).
  rewrite manifest_roundtrip; cbn [mbind result_bind]; cbv zeta.
  - assert ((list_to_set (map zi_filename (map fst (package_members m ps signature))) : gset string)
      = expected_names m signature) as En.
    { rewrite map_map, members_names. by apply members_expected. }
    rewrite En. apply (bind_intro signature).
    { unfold read_signature_within.
      change (decode_signature_metadata_within unlimited) with decode_signature_metadata. destruct signature as [s|].
      - destruct (Hs s eq_refl) as [E1 E2]. rewrite bool_decide_true by apply signature_expected.
        rewrite (proj2 (read_member_Ok zip data "signature.json" (encode_signature_metadata s))).
        + cbn [mbind result_bind]. rewrite E2. cbn [mbind result_bind]. by rewrite E1, String.eqb_refl.
        + apply (Hr (_write_member "signature.json" (encode_signature_metadata s)).1).
          unfold package_members. right. apply elem_of_app. right. left.
      - rewrite bool_decide_false; [done |]. rewrite <- En, map_map, members_names.
        rewrite elem_of_list_to_set. unfold member_names. rewrite app_nil_r.
        intros [E|E]%elem_of_cons; [done | by apply not_a_path in E]. }
    rewrite Hu. cbn [nsp_if mbind result_bind]. rewrite bool_decide_true by done.
    cbn [negb nsp_if mbind result_bind]. apply (bind_intro skills).
    { apply verify_skills_iff. rewrite Hk. exact Hsk. }
    rewrite Hv. reflexivity.
  - rewrite Hm at 1. by rewrite Hk.
  - rewrite Hk. by destruct ps.
  - intros n e He. rewrite Hk, list_lookup_imap in He. apply fmap_Some in He as (p & Hp' & ->).
    apply skill_entry_ok. rewrite Forall_forall in Hp. apply Hp. by apply list_elem_of_lookup_2 in Hp'.
  - rewrite Hk. change (@map) with (@fmap list _). rewrite fmap_imap.
    change (NoDup (imap (const artifact_key) ps)). rewrite imap_const. exact Hn.
  - rewrite Hk, length_imap. unfold package_members in L. cbn [map length] in L.
    rewrite map_app, length_app, length_map, length_imap in L. lia.
Qed.
End Roundtrip.

(** C32. What was packed is what is verified. Take canonical artifacts of Skills (such
    as the compiler returns), in whatever order, and any signer or none. If the
    builder makes a package of them, the archive format reads what it wrote,
    the package keeps to the limits, and the verifier of signatures trusts the
    signer (or the policy allows unsigned packages), then [NspVerifier.verify]
    accepts the bytes and returns the very manifest and signature of the
    builder, with exactly the artifacts that were packed. *)
Theorem built_package_verifies (zip : ZipFormat) (self : NspVerifier) (artifacts : list (list ascii))
    (signer : option NspSigner) (p : NspPackage) :
  zip_faithful zip -> Forall (fun a => exists s, artifact_of s a) artifacts ->
  build_package zip artifacts signer = Ok p ->
  fits (nv_limits self) zip (np_data p) -> accepts self signer ->
  exists skills, verify_package zip self (np_data p)
      = Ok (MkVerifiedNspPackage (np_manifest p) skills (np_signature p))
    /\ map vs_artifact skills ≡ₚ artifacts.
Proof.
  intros Hz Ha H Hf Hacc. unfold build_package in H. apply bind_Ok in H as (ps & Hps & H). cbv zeta in H.
  apply bind_Ok in H as (signature & Hs & [= <-]). cbn [np_data np_manifest np_signature] in *.
  destruct (prepared_ok _ _ Ha Hps) as (P1 & P2 & P3 & P4).
  destruct (signed_or_allowed self signer (nm_package_sha256
    (create_manifest (imap (fun i => skill_entry (S i)) ps))) signature Hacc) as (S1 & S2 & S3).
  { destruct signer as [signer|]; [| by injection Hs as <-].
    destruct (create_signature _ signer) as [m|e] eqn:E;
      [| by destruct (isinstance_exn (ex_class e) NspSignatureError)].
    injection Hs as <-. exists m. split; [done |]. by apply create_signature_signs. }
  destruct (verify_built zip Hz self ps signature _ P1 P3 P4 eq_refl Hf S1 S2 S3) as (skills & V1 & V2).
  exists skills. split; [exact V1 |]. by rewrite V2.
Qed.

(** ** Trusted artifacts *)

Lemma trust_evidence_inv k publisher policy verified_at t :
  trust_evidence k publisher policy verified_at = Ok t ->
  PackageTrustEvidence_post_init t = Ok tt
  /\ exists m, vk_signature k = Some m /\ t = MkPackageTrustEvidence ("nsp:" +:+ package_hash k)
       (package_hash k) publisher (sm_key_id m) verified_at TRUST_VERIFIED policy.
Proof.
  unfold trust_evidence, trust_verified. destruct (vk_signature k) as [m|]; [| done]. intros H.
  apply bind_Ok in H as ([] & _ & H). apply bind_Ok in H as (id & Hid & H). cbv zeta in H.
  apply bind_Ok in H as ([] & Ht & [= <-]). split; [exact Ht |]. exists m. split; [done |].
  unfold package_id_for in Hid. by apply bind_Ok in Hid as (d & [-> _]%sha256_text_iff & [= <-]).
Qed.

Lemma trusted_artifacts_inv k publisher policy verified_at arts :
  trusted_artifacts k publisher policy verified_at = Ok arts ->
  exists t, trust_evidence k publisher policy verified_at = Ok t
    /\ arts = map (fun v => MkVerifiedSkillArtifact (vs_skill v) (ns_artifact_sha256 (vs_manifest v)) (Some t))
         (vk_skills k).
Proof.
  unfold trusted_artifacts. intros H. apply bind_Ok in H as (t & Ht & H). exists t. split; [exact Ht |].
  revert arts H. induction (vk_skills k) as [|v l IH]; intros arts H; cbn [map_result] in H.
  { by injection H as <-. }
  apply bind_Ok in H as (a & Ha & H). apply bind_Ok in H as (rest & Hr & [= <-]).
  cbv zeta in Ha. apply bind_Ok in Ha as ([] & _ & [= <-]). cbn [map]. f_equal. by apply IH.
Qed.

Lemma profile_constructed tenant policy id h sh publishers keys age p :
  production_profile tenant policy id h sh publishers keys age = Ok p ->
  ExecutionTrustProfile_post_init p = Ok tt
  /\ p = MkExecutionTrustProfile tenant PRODUCTION (Some policy) (Some id) (Some h) (Some sh)
           publishers keys (Some age) false.
Proof. unfold production_profile, new_profile. intros H. by apply bind_Ok in H as ([] & Hp & [= <-]). Qed.

(** C31. From the signature to the execution. If [trusted_artifacts] makes evidence
    out of a verified package, then its signature was accepted, by the verifier
    it was verified with, for the hash of this package; there is an artifact
    for every Skill, in order, and each carries evidence of that package hash
    and signing key. Every one of them then passes the preflight of each
    production profile that names the package, its artifact, its Skill and the
    policy, and that trusts publisher and key, as long as the evidence is not
    older than the profile allows: whether it writes or not. *)
Theorem signed_package_admitted (zip : ZipFormat) (self : NspVerifier) (data : list ascii)
    (k : VerifiedNspPackage) (publisher policy : string) (verified_at : datetime)
    (arts : list VerifiedSkillArtifact) :
  verify_package zip self data = Ok k ->
  trusted_artifacts k publisher policy verified_at = Ok arts ->
  exists m t, vk_signature k = Some m /\ sm_package_sha256 m = package_hash k
    /\ signature_accepted self m
    /\ te_package_hash t = package_hash k /\ te_signing_key_id t = sm_key_id m
    /\ arts = map (fun v => MkVerifiedSkillArtifact (vs_skill v) (sha256_ref (vs_artifact v)) (Some t))
         (vk_skills k)
    /\ forall a tenant publishers keys age p now until, a ∈ arts ->
         production_profile tenant policy ("nsp:" +:+ package_hash k) (va_artifact_hash a)
           (sk_semantic_hash (va_skill a)) publishers keys age = Ok p ->
         publisher ∈ publishers -> sm_key_id m ∈ keys ->
         dt_utcoffset now = Some 0%Z -> add_seconds verified_at age = Ok until ->
         (instant verified_at <= instant now < instant until)%Z ->
         preflight_validate a p now = Ok (preflight_evidence a p now).
Proof.
  intros H%verify_package_ok (t & Ht & ->)%trusted_artifacts_inv.
  apply trust_evidence_inv in Ht as (Hpost & m & Em & Et). exists m, t. split; [exact Em |].
  pose proof (pv_signed _ _ _ _ H) as Hs. rewrite Em in Hs. destruct Hs as [Hs1 Hs2].
  do 2 (split; [done |]). split; [by rewrite Et |]. split; [by rewrite Et |].
  assert (map (fun v => MkVerifiedSkillArtifact (vs_skill v) (ns_artifact_sha256 (vs_manifest v)) (Some t))
      (vk_skills k)
    = map (fun v => MkVerifiedSkillArtifact (vs_skill v) (sha256_ref (vs_artifact v)) (Some t)) (vk_skills k))
    as ->.
  { pose proof (pv_skills _ _ _ _ H) as Hk. revert Hk. generalize (nm_skills (vk_manifest k)).
    induction (vk_skills k) as [|v l IH]; intros entries; [done |].
    intros (entry & rest & [E _ _ Eh _ _ _] & Hl & _)%Forall2_cons_inv_r. cbn [map]. f_equal; [| by eapply IH].
    by rewrite E, Eh. }
  split; [done |]. intros a tenant publishers keys age p now until Ha Hp Hpub Hkey Hnow Hu [Hn1 Hn2].
  apply profile_constructed in Hp as [Hp Ep]. change (@map) with (@fmap list _) in Ha.
  apply list_elem_of_fmap in Ha as (v & -> & Hv).
  destruct (proj1 (list_elem_of_lookup _ _) Hv) as [n Hv'].
  destruct (Forall2_lookup_r _ _ _ _ _ (pv_skills _ _ _ _ H) Hv') as (entry & _ & [_ _ _ _ Hd He _]).
  destruct (decoded_disciplined _ _ Hd) as (_ & [Hh _] & _).
  apply preflight_admits.
  { split; [by eapply artifact_constructed |]. split; [by intros t' [= <-] | exact Hp]. }
  split; [| done]. split; [done |]. split; [exists (vs_artifact v); split; [exact He | reflexivity] |].
  split; [exact Hh |].
  cbn [va_trust]. rewrite Ep, Et. cbn [va_artifact_hash va_skill].
  unfold trust_covers. cbn. split; [done |]. do 4 (split; [by intros ? [= <-] |]).
  split; [done |]. split; [done |]. split; [done |]. intros age' [= <-]. exists until.
  split; [exact Hu | exact Hn2].
Qed.

(** ** A package with one signed Skill *)

(** An archive of escaped texts: the name and the contents of each member. *)
Definition one : ascii := "001"%char.

Definition escape (l : list ascii) : list ascii := flat_map (fun c => [one; c]) l ++ [NUL].

Fixpoint unescape (l : list ascii) : option (list ascii * list ascii) :=
  match l with
  | c :: l' =>
      if Ascii.eqb c NUL then Some ([], l')
      else match l' with
           | d :: l'' => '(text, rest) ← unescape l''; Some (d :: text, rest)
           | [] => None
           end
  | [] => None
  end.

Fixpoint members_of (fuel : nat) (l : list ascii) : option (list (ZipInfo * list ascii)) :=
  match fuel, l with
  | _, [] => Some []
  | O, _ => None
  | S fuel, _ =>
      '(name, l) ← unescape l; '(data, l) ← unescape l;
      rest ← members_of fuel l; Some (_write_member (String.string_of_list_ascii name) data :: rest)
  end.

Definition toy_zip : ZipFormat :=
  MkZipFormat
    (fun ms => flat_map (fun m => escape (chars (zi_filename m.1)) ++ escape m.2) ms)
    (fun data => match members_of (length data) data with
                 | Some ms => Ok (map fst ms)
                 | None => raise BadZipFile "File is not a zip file"
                 end)
    (fun data path =>
       match members_of (length data) data with
       | Some ms => match find (fun m => String.eqb (zi_filename m.1) path) ms with
                    | Some m => Ok m.2
                    | None => raise KeyError "There is no item"
                    end
       | None => raise BadZipFile "File is not a zip file"
       end).

Lemma unescape_escape l r : unescape (escape l ++ r) = Some (l, r).
Proof.
  unfold escape. induction l as [|c l IH]; [reflexivity |].
  cbn [flat_map app unescape]. change (Ascii.eqb one NUL) with false. cbv iota. by rewrite IH.
Qed.

Lemma members_of_archive ms : Forall plain_member ms -> forall fuel,
  length ms <= fuel -> members_of fuel (zip_archive toy_zip ms) = Some ms.
Proof.
  induction 1 as [|x ms (name & data & _ & ->) _ IH]; intros fuel Hf; [by destruct fuel |].
  destruct fuel as [|fuel]; [cbn in Hf; lia |]. cbn [length] in Hf.
  cbn [zip_archive toy_zip flat_map]. cbn [zip_archive toy_zip] in IH. rewrite <- !app_assoc.
  assert (forall l r, members_of (S fuel) (escape l ++ r)
    = ('(name, l) ← unescape (escape l ++ r); '(data, l) ← unescape l;
       rest ← members_of fuel l; Some (_write_member (String.string_of_list_ascii name) data :: rest))) as ->.
  { intros l r. by destruct l. }
  rewrite unescape_escape. cbn [mbind option_bind]. rewrite unescape_escape. cbn [mbind option_bind].
  rewrite IH by lia. cbn [mbind option_bind _write_member fst snd zi_filename]. unfold chars.
  by rewrite String.string_of_list_ascii_of_string.
Qed.

Lemma archive_long ms : length ms <= length (zip_archive toy_zip ms).
Proof.
  induction ms as [|x ms IH]; [done |]. cbn [zip_archive toy_zip flat_map length].
  cbn [zip_archive toy_zip] in IH. rewrite !length_app. unfold escape at 1. rewrite length_app. cbn. lia.
Qed.

Lemma find_member ms i d : Forall plain_member ms -> NoDup (map (fun m => zi_filename m.1) ms) ->
  (i, d) ∈ ms -> find (fun m => String.eqb (zi_filename m.1) (zi_filename i)) ms = Some (i, d).
Proof.
  intros _. induction ms as [|x ms IH]; intros Hn Hi; [by apply elem_of_nil in Hi |].
  cbn [map find] in *. apply NoDup_cons in Hn as [Hx Hn]. apply elem_of_cons in Hi as [<- | Hi].
  { cbn [fst]. by rewrite String.eqb_refl. }
  destruct (String.eqb_spec (zi_filename x.1) (zi_filename i)) as [E|]; [| by apply IH].
  exfalso. apply Hx. rewrite E. apply (list_elem_of_fmap_2 (fun m => zi_filename m.1) ms (i, d) Hi).
Qed.

Lemma toy_zip_faithful : zip_faithful toy_zip.
Proof.
  constructor.
  - intros ms Hp _. cbn [zip_infolist toy_zip].
    change (flat_map _ ms) with (zip_archive toy_zip ms).
    by rewrite members_of_archive by (done || apply archive_long).
  - intros ms i d Hp Hn Hi. cbn [zip_read toy_zip].
    change (flat_map _ ms) with (zip_archive toy_zip ms).
    rewrite members_of_archive by (done || apply archive_long). by rewrite find_member with (d := d).
Qed.

Lemma bind_exists {A B} (m : result A) (f : A -> result B) :
  (exists a, m = Ok a) -> (forall a, m = Ok a -> exists b, f a = Ok b) -> exists b, (m ≫= f) = Ok b.
Proof. intros [a ->] H. by apply H. Qed.

(** A signature is the hash of the message. *)
Definition toy_signer : NspSigner :=
  MkNspSigner "Ed25519" "key-1" (fun message => Ok (Some (chars (sha256_hex message)))).

Definition toy_verifier : NspSignatureVerifier := fun _ key message s =>
  Ok (String.eqb key "key-1" && bool_decide (s = chars (sha256_hex message))).

Lemma toy_accepts message s : sg_sign toy_signer message = Ok (Some s) ->
  toy_verifier (sg_algorithm toy_signer) (sg_key_id toy_signer) message s = Ok true.
Proof.
  unfold toy_verifier, toy_signer. cbn [sg_sign sg_algorithm sg_key_id].
  generalize (chars (sha256_hex message)). intros l [= <-]. by rewrite bool_decide_true.
Qed.

(** Limits that an archive just keeps to. *)
Definition exact_limits (zip : ZipFormat) (data : list ascii) : NspVerificationLimits :=
  match zip_infolist zip data with
  | Ok infos => MkNspVerificationLimits (Z.of_nat (length data)) (Z.of_nat (length infos))
                  (foldr Z.max 0%Z (map zi_file_size infos)) (total_size infos)
  | Err _ => MkNspVerificationLimits (Z.of_nat (length data)) 1 1 1
  end.

Lemma max_bounds (infos : list ZipInfo) :
  Forall (fun i => zi_file_size i <= foldr Z.max 0 (map zi_file_size infos))%Z infos.
Proof.
  induction infos as [|i infos IH]; constructor; cbn [map foldr]; [lia |].
  eapply Forall_impl; [exact IH |]. cbn. intros j. lia.
Qed.

Lemma exact_limits_fit zip data : fits (exact_limits zip data) zip data.
Proof.
  unfold exact_limits. destruct (zip_infolist zip data) as [infos|e] eqn:E;
    (split; [cbn; lia |]); intros infos' E'; [| congruence].
  assert (infos' = infos) as -> by congruence. cbn [max_members max_member_bytes max_total_uncompressed_bytes].
  split; [lia |]. split; [apply max_bounds | lia].
Qed.

(** A verifier for production with these limits. *)
Definition strict_verifier (data : list ascii) : NspVerifier :=
  MkNspVerifier (MkNspVerificationPolicy PRODUCTION false) (exact_limits toy_zip data) (Some toy_verifier).

Lemma toy_signature h : is_sha256_ref h = true -> exists m, create_signature h toy_signer = Ok m
  /\ sm_key_id m = "key-1".
Proof.
  intros Hh. assert (forall path, signature_sha256 (JStr h) path = Ok h) as Hs.
  { intros path. unfold signature_sha256. cbn [signature_string].
    assert (String.eqb h "" = false) as -> by (apply String.eqb_neq; intros ->; discriminate Hh).
    cbn [signature_if mbind result_bind]. by rewrite Hh. }
  unfold create_signature. rewrite Hs. cbn [mbind result_bind].
  change (_algorithm (JStr (sg_algorithm toy_signer)) "$.algorithm") with (Ok "Ed25519").
  change (_key_id (JStr (sg_key_id toy_signer)) "$.key_id") with (Ok "key-1"). cbn [mbind result_bind]. cbv zeta.
  unfold signature_message. rewrite Hs. cbn [mbind result_bind].
  change (_algorithm (JStr "Ed25519") "$.algorithm") with (Ok "Ed25519").
  change (_key_id (JStr "key-1") "$.key_id") with (Ok "key-1"). cbn [mbind result_bind sg_sign toy_signer].
  rewrite chars_length, sha256_hex_length. cbn [Nat.eqb negb raise_if mbind result_bind].
  eexists. split; reflexivity.
Qed.

Lemma po_encoded : exists a, nso_encode po_skill = Ok a.
Proof. pose proof po_encodes as H. destruct (nso_encode po_skill) as [a|]; [by exists a | done]. Qed.

Lemma po_artifact_of a : nso_encode po_skill = Ok a -> artifact_of po_skill a.
Proof. intros H. split; [exact po_skill_ok |]. split; [exact po_hashes | exact H]. Qed.

Lemma prepare_one s a : artifact_of s a -> _prepare_artifacts [a] = Ok [prepared s a].
Proof.
  intros (Hs & Hh & Ha). unfold _prepare_artifacts. rewrite bool_decide_false by done.
  cbn [raise_if mbind result_bind prepare_each]. unfold prepare_artifact.
  rewrite (decode_encoded_skill s a Hs Hh Ha). cbn [mbind result_bind]. rewrite Ha.
  cbn [mbind result_bind except_value_error sort_artifacts fold_right insert_artifact map]. cbv zeta.
  rewrite bool_decide_true by apply NoDup_singleton. reflexivity.
Qed.

(** The artifact of the purchase order, packed and signed. *)
Lemma po_packed a : nso_encode po_skill = Ok a ->
  exists p, build_package toy_zip [a] (Some toy_signer) = Ok p.
Proof.
  intros Ha. unfold build_package. apply bind_exists.
  { exists [prepared po_skill a]. apply prepare_one, po_artifact_of, Ha. }
  intros ps _. cbv zeta.
  destruct (toy_signature (nm_package_sha256 (create_manifest (imap (fun i => skill_entry (S i)) ps))))
    as (m & -> & _); [apply sha256_ref_is_ref |].
  cbn [mbind result_bind]. eexists. reflexivity.
Qed.

(** Artifacts can be trusted when the texts of the evidence are admissible. *)
Lemma trusted_artifacts_total zip self data k m publisher policy verified_at :
  verify_package zip self data = Ok k -> vk_signature k = Some m ->
  text_ok publisher -> text_ok policy -> text_ok (sm_key_id m) -> dt_utcoffset verified_at = Some 0%Z ->
  exists arts, trusted_artifacts k publisher policy verified_at = Ok arts.
Proof.
  intros H%verify_package_ok Em Hpub Hpol Hkey Hv. unfold trusted_artifacts. apply bind_exists.
  - unfold trust_evidence. rewrite Em. pose proof (pv_signed _ _ _ _ H) as Hs. rewrite Em in Hs.
    destruct Hs as [-> _]. rewrite String.eqb_refl. cbn [negb raise_if mbind result_bind].
    assert (is_sha256_ref (package_hash k) = true) as Hh.
    { unfold package_hash. rewrite (mk_hash _ (pv_manifest _ _ _ _ H)). apply sha256_ref_is_ref. }
    assert (trust_sha256 (package_hash k) "package_hash" = Ok (package_hash k)) as Hs.
    { apply sha256_text_iff. split; [done |]. split; [| done]. by apply (sha256_text_ok ""). }
    unfold trust_verified, package_id_for. rewrite Hs. cbn [mbind result_bind]. cbv zeta.
    unfold PackageTrustEvidence_post_init, package_id_for. cbn. rewrite Hs. cbn [mbind result_bind].
    rewrite Hs. cbn [mbind result_bind]. rewrite String.eqb_refl. cbn [negb raise_if mbind result_bind].
    rewrite (proj2 (required_text_iff _ _ _ _) (conj eq_refl Hpub)). cbn [mbind result_bind].
    rewrite (proj2 (required_text_iff _ _ _ _) (conj eq_refl Hkey)). cbn [mbind result_bind].
    rewrite (proj2 (required_text_iff _ _ _ _) (conj eq_refl Hpol)). cbn [mbind result_bind].
    rewrite (proj2 (in_utc_true _) Hv). cbn. eauto.
  - intros t _. pose proof (pv_skills _ _ _ _ H) as Hk. revert Hk. generalize (nm_skills (vk_manifest k)).
    induction (vk_skills k) as [|v l IH]; intros entries; cbn [map_result]; [by exists [] |].
    intros (entry & rest & [E _ _ Eh _ He _] & Hl & _)%Forall2_cons_inv_r.
    destruct (IH rest Hl) as (arts & Harts). rewrite E.
    rewrite (artifact_constructed _ _ _ (Some t) He Eh). cbn [mbind result_bind]. rewrite Harts.
    cbn [mbind result_bind]. eauto.
Qed.

(** The package is verified with the signature of its builder. *)
Lemma po_verified : exists a p k m, nso_encode po_skill = Ok a
  /\ build_package toy_zip [a] (Some toy_signer) = Ok p
  /\ verify_package toy_zip (strict_verifier (np_data p)) (np_data p) = Ok k
  /\ vk_signature k = Some m /\ sm_key_id m = "key-1".
Proof.
  destruct po_encoded as [a Ha]. destruct (po_packed a Ha) as [p Hp].
  pose proof Hp as H. unfold build_package in H. apply bind_Ok in H as (ps & Hps & H). cbv zeta in H.
  set (m := create_manifest (imap (fun i => skill_entry (S i)) ps)) in *.
  destruct (toy_signature (nm_package_sha256 m)) as (s & Es & Ek); [apply sha256_ref_is_ref |].
  rewrite Es in H. cbn [mbind result_bind] in H. apply Ok_inj in H. exists a, p.
  destruct (prepared_ok [a] ps) as (P1 & _ & P3 & P4); [| exact Hps |].
  { constructor; [| constructor]. exists po_skill. by apply po_artifact_of. }
  destruct (signed_or_allowed (strict_verifier (np_data p)) (Some toy_signer) (nm_package_sha256 m) (Some s))
    as (S1 & S2 & S3).
  { exists toy_verifier. split; [reflexivity | exact toy_accepts]. }
  { exists s. split; [reflexivity |]. by apply create_signature_signs. }
  destruct (verify_built toy_zip toy_zip_faithful (strict_verifier (np_data p)) ps (Some s) m P1 P3 P4 eq_refl)
    as (skills & V & _); [| exact S1 | exact S2 | exact S3 |].
  { rewrite <- H. apply exact_limits_fit. }
  exists (MkVerifiedNspPackage m skills (Some s)), s. split; [exact Ha |]. split; [exact Hp |].
  split; [| split; [reflexivity | exact Ek]]. rewrite <- H at 2. cbn [np_data]. rewrite <- V. by rewrite <- H.
Qed.

Lemma built_package_verifies_witness : exists a p skills, nso_encode po_skill = Ok a
  /\ build_package toy_zip [a] (Some toy_signer) = Ok p
  /\ verify_package toy_zip (strict_verifier (np_data p)) (np_data p)
      = Ok (MkVerifiedNspPackage (np_manifest p) skills (np_signature p))
  /\ map vs_artifact skills ≡ₚ [a].
Proof.
  destruct po_encoded as [a Ha]. destruct (po_packed a Ha) as [p Hp]. exists a, p.
  destruct (built_package_verifies toy_zip (strict_verifier (np_data p)) [a] (Some toy_signer) p)
    as (skills & H1 & H2).
  - exact toy_zip_faithful.
  - constructor; [| constructor]. exists po_skill. exact (po_artifact_of a Ha).
  - exact Hp.
  - exact (exact_limits_fit toy_zip (np_data p)).
  - exists toy_verifier. split; [reflexivity | exact toy_accepts].
  - exists skills. split; [exact Ha |]. split; [exact Hp |]. split; [exact H1 | exact H2].
Defined.

Definition po_instant : datetime := utc 63000000000000000.

Lemma signed_package_admitted_witness : exists p k arts m,
  verify_package toy_zip (strict_verifier (np_data p)) (np_data p) = Ok k
  /\ trusted_artifacts k "acme" "policy-1" po_instant = Ok arts
  /\ vk_signature k = Some m /\ signature_accepted (strict_verifier (np_data p)) m.
Proof.
  destruct po_verified as (a & p & k & m & _ & _ & Hk & Hm & Hkey).
  destruct (trusted_artifacts_total _ _ _ k m "acme" "policy-1" po_instant Hk Hm) as (arts & Ha).
  - apply text_okb_true. vm_compute. reflexivity.
  - apply text_okb_true. vm_compute. reflexivity.
  - rewrite Hkey. apply text_okb_true. vm_compute. reflexivity.
  - reflexivity.
  - destruct (signed_package_admitted toy_zip (strict_verifier (np_data p)) (np_data p) k "acme" "policy-1"
      po_instant arts Hk Ha) as (m' & t & H1 & _ & H2 & _).
    exists p, k, arts, m'. split; [exact Hk |]. split; [exact Ha |]. split; [exact H1 | exact H2].
Defined.

Lemma verified_package_sound_witness : exists p k,
  verify_package toy_zip (strict_verifier (np_data p)) (np_data p) = Ok k
  /\ package_verified toy_zip (strict_verifier (np_data p)) (np_data p) k.
Proof.
  destruct po_verified as (a & p & k & m & _ & _ & Hk & _). exists p, k. split; [exact Hk |].
  exact (proj1 (verified_package_sound toy_zip (strict_verifier (np_data p)) (np_data p) k Hk)).
Defined.

Lemma package_hash_binds_witness : exists p k,
  verify_package toy_zip (strict_verifier (np_data p)) (np_data p) = Ok k
  /\ ((vk_manifest k = vk_manifest k /\ vk_skills k = vk_skills k)
      \/ collision (package_material (vk_manifest k)) (package_material (vk_manifest k))
      \/ exists v v', v ∈ vk_skills k /\ v' ∈ vk_skills k /\ collision (vs_artifact v) (vs_artifact v')).
Proof.
  destruct po_verified as (a & p & k & m & _ & _ & Hk & _). exists p, k. split; [exact Hk |].
  exact (package_hash_binds toy_zip toy_zip (strict_verifier (np_data p)) (strict_verifier (np_data p))
           (np_data p) (np_data p) k k Hk Hk eq_refl).
Defined.

(** An archive format whose reader meets an offset that no seek takes: a zip64
    header may name one, and [ZipFile.read] raises [OverflowError]. *)
Definition overflowing_zip : ZipFormat :=
  MkZipFormat (zip_archive toy_zip) (zip_infolist toy_zip)
    (fun _ _ => raise ArithmeticError "cannot fit 'int' into an offset-sized integer").

