(* ===== verification/AuditPersistence.v ===== *)
(** * Audit persistence ([src/nsl/audit_persistence.py])

    [JsonlAuditStore]: one JSON line per event, appended to a file that is
    read and verified when the store is opened. The file system is a port: a
    call is carried out or fails with an [OSError], and then a write may have
    left a part of its bytes. *)

From S2P Require Import Prelude Digest Json JsonBoundary Decimal Core Decoding Values DataProtection.
From S2P Require Import Ir Security AuditTrail.

Definition AUDIT_STORAGE_SCHEMA_VERSION : string := "1.0".

Record _StoredAuditRecord : Type := MkStoredAuditRecord {
  au_event : AuditEvent;
  au_stored_at : datetime;
  au_expires_at : datetime
}.

(** One call of the file system: done, or failed with the file unopened or
    with some of the bytes written. *)
Inductive io_answer : Type := IoDone | IoFailed (written : option nat).

Notation audit_key := (option string * string)%type.

Record JsonlAuditStore : Type := MkJsonlAuditStore {
  js_file : option bytes;
  js_tails : gmap audit_key AuditEvent;
  js_now : nat -> datetime;
  js_reads : nat;
  js_io : nat -> io_answer;
  js_calls : nat
}.

Definition AStore := M JsonlAuditStore.

Definition event_key (e : AuditEvent) : audit_key := (ae_tenant_id e, ae_execution_id e).

Definition with_tails (tails : gmap audit_key AuditEvent) (s : JsonlAuditStore) : JsonlAuditStore :=
  MkJsonlAuditStore (js_file s) tails (js_now s) (js_reads s) (js_io s) (js_calls s).

Definition with_file (file : option bytes) (s : JsonlAuditStore) : JsonlAuditStore :=
  MkJsonlAuditStore file (js_tails s) (js_now s) (js_reads s) (js_io s) (js_calls s).

Definition io_call : AStore io_answer :=
  s ← get;
  _ ← modify (fun s => MkJsonlAuditStore (js_file s) (js_tails s) (js_now s) (js_reads s) (js_io s)
                         (S (js_calls s)));
  mret (js_io s (js_calls s)).

(** ** Times *)

(** [_validate_time] *)
Definition _validate_time (d : datetime) (message : string) : result datetime :=
  match dt_utcoffset d with Some _ => Ok d | None => raise ValueError message end.

(** [_now] *)
Definition audit_now : AStore datetime :=
  s ← get;
  _ ← modify (fun s => MkJsonlAuditStore (js_file s) (js_tails s) (js_now s) (S (js_reads s)) (js_io s)
                         (js_calls s));
  lift (_validate_time (js_now s (js_reads s)) "audit storage clock must be timezone-aware").

(** [_parse_time] *)
Definition _parse_time (v : json) (field_name : string) : result datetime :=
  match v with
  | JStr s =>
      _ ← raise_if (String.eqb s "") ValueError ("stored audit " +:+ field_name +:+ " must be non-empty");
      parsed ← match datetime_fromisoformat s with
               | Ok (VDateTime d) => Ok d
               | Ok _ => raise OutOfModel "a datetime"
               | Err e => if isinstance_exn (ex_class e) ValueError
                          then raise ValueError ("stored audit " +:+ field_name +:+ " must be ISO-8601")
                          else Err e
               end;
      _validate_time parsed ("stored audit " +:+ field_name +:+ " must include a timezone")
  | _ => raise ValueError ("stored audit " +:+ field_name +:+ " must be non-empty")
  end.

(** ** Records *)

Definition record_fields : list string := ["storage_schema_version"; "stored_at"; "expires_at"; "event"].

(** [_record_to_data] *)
Definition _record_to_data (r : _StoredAuditRecord) : json :=
  JObj [("storage_schema_version", JStr AUDIT_STORAGE_SCHEMA_VERSION);
        ("stored_at", JStr (datetime_isoformat (au_stored_at r)));
        ("expires_at", JStr (datetime_isoformat (au_expires_at r)));
        ("event", event_to_data (au_event r))].

(** [_record_from_data] *)
Definition _record_from_data (v : json) : result _StoredAuditRecord :=
  d ← match v with
      | JObj d => if same_elements (map fst d) record_fields then Ok d
                  else raise ValueError "invalid stored audit record schema"
      | _ => raise ValueError "invalid stored audit record schema"
      end;
  _ ← match field_of "storage_schema_version" d with
      | JStr s => raise_if (negb (String.eqb s AUDIT_STORAGE_SCHEMA_VERSION)) ValueError
                    "unsupported stored audit record schema version"
      | _ => raise ValueError "unsupported stored audit record schema version"
      end;
  event ← event_from_data (field_of "event" d);
  stored_at ← _parse_time (field_of "stored_at" d) "stored_at";
  expires_at ← _parse_time (field_of "expires_at" d) "expires_at";
  until ← add_days stored_at (ae_retention_days event);
  _ ← raise_if (negb (instant expires_at =? instant until)%Z) ValueError
        "stored audit retention metadata mismatch";
  Ok (MkStoredAuditRecord event stored_at expires_at).

Definition LF : ascii := "010".
Definition CR : ascii := "013".

(** [canonical_json(self._record_to_data(record)) + b] newline *)
Definition record_line (r : _StoredAuditRecord) : bytes := canonical_json (_record_to_data r) ++ [LF].

(** [bytes.splitlines] *)
Fixpoint splitlines (b : bytes) : list bytes :=
  match b with
  | [] => []
  | c :: b' =>
      if Ascii.eqb c LF then [] :: splitlines b'
      else if Ascii.eqb c CR
      then [] :: match b' with
                 | d :: b'' => if Ascii.eqb d LF then splitlines b'' else splitlines b'
                 | [] => []
                 end
      else match splitlines b' with [] => [[c]] | line :: lines => (c :: line) :: lines end
  end.

Definition parse_line (line_number : nat) (line : bytes) : result _StoredAuditRecord :=
  _ ← raise_if (bool_decide (line = [])) AuditIntegrityError
        ("empty audit record at line " +:+ str_of_nat line_number);
  match (data ← json_loads line; _record_from_data data) with
  | Ok r => Ok r
  | Err e => if isinstance_exn (ex_class e) ValueError
             then raise AuditIntegrityError ("invalid audit record at line " +:+ str_of_nat line_number)
             else Err e
  end.

Fixpoint parse_lines (line_number : nat) (lines : list bytes) : result (list _StoredAuditRecord) :=
  match lines with
  | [] => Ok []
  | line :: lines =>
      r ← parse_line line_number line; rest ← parse_lines (S line_number) lines; Ok (r :: rest)
  end.

(** [_read_records] *)
Definition _read_records : AStore (list _StoredAuditRecord) :=
  s ← get;
  match js_file s with
  | None => mret []
  | Some content =>
      answer ← io_call;
      match answer with
      | IoDone => lift (parse_lines 1 (splitlines content))
      | IoFailed _ => fail AuditPersistenceError "failed to read audit events"
      end
  end.

(** [_read_events] *)
Definition _read_events : AStore (list AuditEvent) :=
  records ← _read_records; mret (map au_event records).

(** [_write_records] *)
Definition _write_records (records : list _StoredAuditRecord) : AStore unit :=
  let content := concat (map record_line records) in
  answer ← io_call;
  match answer with
  | IoDone => modify (with_file (Some content))
  | IoFailed written =>
      _ ← modify (fun s => with_file (match written with Some n => Some (take n content) | None => js_file s end) s);
      fail AuditPersistenceError "failed to rewrite audit events"
  end.

(** ** Chains *)

(** The event continues the chain of its execution. *)
Definition check_chain (tails : gmap audit_key AuditEvent) (event : AuditEvent) : result unit :=
  let previous := tails !! event_key event in
  let expected_sequence := match previous with None => 1%Z | Some p => (ae_sequence p + 1)%Z end in
  let expected_previous_hash := match previous with None => None | Some p => Some (ae_event_hash p) end in
  _ ← raise_if (negb (ae_sequence event =? expected_sequence)%Z) AuditIntegrityError
        ("audit sequence discontinuity for " +:+ ae_execution_id event);
  raise_if (negb (bool_decide (ae_previous_event_hash event = expected_previous_hash))) AuditIntegrityError
    ("audit hash chain discontinuity for " +:+ ae_execution_id event).

Fixpoint verify_events (events : list AuditEvent) : AStore unit :=
  match events with
  | [] => mret tt
  | event :: events =>
      s ← get;
      _ ← lift (check_chain (js_tails s) event);
      _ ← modify (fun s => with_tails (<[event_key event := event]> (js_tails s)) s);
      verify_events events
  end.

(** [_load_and_verify] *)
Definition _load_and_verify : AStore unit :=
  _ ← modify (with_tails ∅);
  events ← _read_events;
  verify_events events.

(** [__init__]: the store over what the file holds. *)
Definition open_store (file : option bytes) (now : nat -> datetime) (io : nat -> io_answer)
  : result JsonlAuditStore :=
  let '(r, s) := _load_and_verify (MkJsonlAuditStore file ∅ now 0 io 0) in
  _ ← r; Ok s.

(** ** Operations *)

(** [append] *)
Definition audit_append (event : AuditEvent) : AStore unit :=
  _ ← lift (event_verify event);
  s ← get;
  _ ← lift (check_chain (js_tails s) event);
  stored_at ← audit_now;
  expires_at ← lift (add_days stored_at (ae_retention_days event));
  let line := record_line (MkStoredAuditRecord event stored_at expires_at) in
  answer ← io_call;
  match answer with
  | IoDone =>
      _ ← modify (fun s => with_file (Some (default [] (js_file s) ++ line)) s);
      modify (fun s => with_tails (<[event_key event := event]> (js_tails s)) s)
  | IoFailed written =>
      _ ← modify (fun s => with_file (match written with
                                     | Some n => Some (default [] (js_file s) ++ take n line)
                                     | None => js_file s
                                     end) s);
      fail AuditPersistenceError "failed to append audit event"
  end.

#[export] Instance JsonlAuditSink : AuditSink JsonlAuditStore := audit_append.

Definition is_key (tenant_id execution_id : string) (e : AuditEvent) : bool :=
  bool_decide (event_key e = (Some tenant_id, execution_id)).

Definition check_identity (tenant_id execution_id : string) : result unit :=
  _ ← raise_if (String.eqb tenant_id "") ValueError "tenant_id must be non-empty";
  raise_if (String.eqb execution_id "") ValueError "execution_id must be non-empty".

(** [read_execution] *)
Definition read_execution (tenant_id execution_id : string) : AStore (list AuditEvent) :=
  _ ← lift (check_identity tenant_id execution_id);
  events ← _read_events;
  mret (List.filter (is_key tenant_id execution_id) events).

(** The records that stay, written back if any has to go. *)
Definition retain (records retained : list _StoredAuditRecord) : AStore Z :=
  let deleted_count := (Z.of_nat (length records) - Z.of_nat (length retained))%Z in
  _ ← (if (deleted_count =? 0)%Z then mret tt else _ ← _write_records retained; _load_and_verify);
  mret deleted_count.

(** [delete_execution] *)
Definition delete_execution (tenant_id execution_id : string) : AStore Z :=
  _ ← lift (check_identity tenant_id execution_id);
  records ← _read_records;
  retain records (List.filter (fun r => negb (is_key tenant_id execution_id (au_event r))) records).

(** All records of the execution of [r] have expired. *)
Definition key_expired (now : datetime) (records : list _StoredAuditRecord) (r : _StoredAuditRecord) : bool :=
  forallb (fun r' => implb (bool_decide (event_key (au_event r') = event_key (au_event r)))
                       (instant (au_expires_at r') <=? instant now)%Z) records.

(** [purge_expired] *)
Definition audit_purge_expired (now : option datetime) : AStore Z :=
  effective_now ← match now with None => audit_now | Some now => mret now end;
  _ ← lift (_validate_time effective_now "audit purge time must be timezone-aware");
  records ← _read_records;
  retain records (List.filter (fun r => negb (key_expired effective_now records r)) records).

(** ** Lines *)

Definition no_break (l : list ascii) : Prop := LF ∉ l /\ CR ∉ l.

Lemma no_break_app l l' : no_break (l ++ l') <-> no_break l /\ no_break l'.
Proof. unfold no_break. rewrite !not_elem_of_app. tauto. Qed.

Lemma no_break_cons c l : no_break (c :: l) <-> c <> LF /\ c <> CR /\ no_break l.
Proof. unfold no_break. rewrite !not_elem_of_cons. split; intuition congruence. Qed.

Lemma no_break_nil : no_break [].
Proof. split; apply not_elem_of_nil. Qed.

(** Every character is below 256: a property of all of them is checked. *)
Lemma ascii_forall (p : ascii -> bool) :
  forallb (fun n => p (ascii_of_nat n)) (seq 0 256) = true -> forall c, p c = true.
Proof.
  intros H c. rewrite <- (ascii_nat_embedding c). rewrite forallb_forall in H. apply (H (nat_of_ascii c)).
  apply in_seq. pose proof (nat_ascii_bounded c). lia.
Qed.

Definition no_breakb (l : list ascii) : bool :=
  forallb (fun c => negb (Ascii.eqb c LF) && negb (Ascii.eqb c CR)) l.

Lemma no_breakb_true l : no_breakb l = true <-> no_break l.
Proof.
  induction l as [|c l IH]; [by split; [intros _; apply no_break_nil |] |].
  rewrite no_break_cons, <- IH. cbn. rewrite !andb_true_iff, !negb_true_iff, !Ascii.eqb_neq. tauto.
Qed.

Lemma escape_no_break c : no_break (escape_char c).
Proof. apply no_breakb_true. revert c. apply ascii_forall. vm_compute. reflexivity. Qed.

Lemma utf8_no_break l : no_break l -> no_break (utf8_encode l).
Proof.
  induction l as [|c l IH]; [done |]. intros (H1 & H2 & H)%no_break_cons.
  change (utf8_encode (c :: l)) with (utf8_char c ++ utf8_encode l). apply no_break_app.
  split; [| by apply IH]. apply no_breakb_true.
  assert (forall c, (Ascii.eqb c LF || Ascii.eqb c CR || no_breakb (utf8_char c)) = true) as Hall.
  { apply ascii_forall. vm_compute. reflexivity. }
  specialize (Hall c). apply Ascii.eqb_neq in H1, H2. by rewrite H1, H2 in Hall.
Qed.

Lemma flat_escape_no_break l : no_break (flat_map escape_char l).
Proof.
  induction l as [|c l IH]; [apply no_break_nil |]. cbn [flat_map]. apply no_break_app.
  split; [apply escape_no_break | exact IH].
Qed.

Lemma dumps_string_no_break s : no_break (dumps_string s).
Proof.
  unfold dumps_string. apply no_break_cons. do 2 (split; [discriminate |]). apply no_break_app.
  split; [apply flat_escape_no_break |]. by apply no_breakb_true.
Qed.

Lemma comma_join_no_break parts : Forall no_break parts -> no_break (comma_join parts).
Proof.
  induction 1 as [|p ps Hp _ IH]; [apply no_break_nil |]. destruct ps as [|q ps]; [exact Hp |].
  change (comma_join (p :: q :: ps)) with (p ++ ","%char :: comma_join (q :: ps)).
  apply no_break_app. split; [exact Hp |]. by apply no_break_cons.
Qed.

Lemma digits_no_break l : forallb is_digit l = true -> no_break l.
Proof.
  intros H. apply no_breakb_true, forallb_forall. intros c Hc. rewrite forallb_forall in H.
  specialize (H c Hc). destruct (Ascii.eqb_spec c LF) as [->|]; [done |].
  by destruct (Ascii.eqb_spec c CR) as [->|].
Qed.

Lemma dumps_no_break v : no_break (dumps v).
Proof.
  induction v as [|b|z|s|l IH|d IH] using json_rect'; cbn [dumps].
  - by apply no_breakb_true.
  - destruct b; by apply no_breakb_true.
  - unfold str_of_Z. destruct (z <? 0)%Z; [apply no_break_cons; do 2 (split; [discriminate |]) |];
      apply digits_no_break, str_of_N_digits.
  - apply dumps_string_no_break.
  - apply no_break_cons. do 2 (split; [discriminate |]). apply no_break_app.
    split; [| by apply no_breakb_true]. apply comma_join_no_break. by apply Forall_map.
  - apply no_break_cons. do 2 (split; [discriminate |]). apply no_break_app.
    split; [| by apply no_breakb_true]. apply comma_join_no_break, Forall_map.
    eapply Forall_impl; [exact IH |]. intros [k w] Hw. cbn [fst snd] in *. apply no_break_app.
    split; [apply dumps_string_no_break |]. by apply no_break_cons.
Qed.

Lemma canonical_no_break v : no_break (canonical_json v).
Proof. apply utf8_no_break, dumps_no_break. Qed.

(** Lines are split where they were ended. *)
Lemma splitlines_lines lines : Forall no_break lines ->
  splitlines (concat (map (fun l => l ++ [LF]) lines)) = lines.
Proof.
  induction 1 as [|l lines Hl _ IH]; [done |]. cbn [map concat]. rewrite <- app_assoc. cbn [app].
  induction l as [|c l IHl]; cbn [app splitlines]; [by rewrite IH |].
  apply no_break_cons in Hl as (H1 & H2 & Hl). apply Ascii.eqb_neq in H1, H2. rewrite H1, H2.
  by rewrite (IHl Hl).
Qed.

Lemma splitlines_app l r : no_break l -> splitlines (l ++ LF :: r) = l :: splitlines r.
Proof.
  induction l as [|c l IH]; [done |]. intros (H1 & H2 & H)%no_break_cons. cbn [app splitlines].
  apply Ascii.eqb_neq in H1, H2. by rewrite H1, H2, (IH H).
Qed.

(** ** Sorting the keys twice *)

Lemma insert_keys_sorted {A} k (v : A) d : keys_sorted d = true -> keys_sorted (insert_field k v d) = true.
Proof.
  induction d as [|[k1 v1] d IH]; [done |]. cbn [insert_field]. intros H.
  destruct (str_leb k k1) eqn:E; [change (keys_sorted ((k, v) :: (k1, v1) :: d))
    with (str_leb k k1 && keys_sorted ((k1, v1) :: d)); by rewrite E, H |].
  assert (str_leb k1 k = true) as E' by (destruct (str_leb_total k k1); congruence).
  cbn [keys_sorted] in H |- *. apply andb_true_iff in H as [H1 H2]. rewrite (IH H2), andb_true_r.
  destruct d as [|[k2 v2] d]; [exact E' |]. cbn [insert_field].
  by destruct (str_leb k k2).
Qed.

Lemma sort_keys_sorted {A} (d : list (string * A)) : keys_sorted (sort_fields d) = true.
Proof.
  induction d as [|[k v] d IH]; [done |].
  change (sort_fields ((k, v) :: d)) with (insert_field k v (sort_fields d)). by apply insert_keys_sorted.
Qed.

Lemma forall_insert {A} (P : string * A -> Prop) k v d :
  P (k, v) -> Forall P d -> Forall P (insert_field k v d).
Proof.
  intros Hp. induction 1 as [|[k1 v1] d H1 Hd IH]; cbn [insert_field]; [by constructor |].
  destruct (str_leb k k1); by repeat constructor.
Qed.

Lemma forall_sort {A} (P : string * A -> Prop) d : Forall P d -> Forall P (sort_fields d).
Proof.
  induction 1 as [|[k v] d H1 Hd IH]; [constructor |].
  change (sort_fields ((k, v) :: d)) with (insert_field k v (sort_fields d)). by apply forall_insert.
Qed.

Lemma sorted_keys_twice v : sorted_keys (sorted_keys v) = sorted_keys v.
Proof.
  induction v as [| | | |l IH|d IH] using json_rect'; cbn [sorted_keys]; try done.
  - f_equal. rewrite map_map. induction IH as [|x l Hx _ IHl]; cbn; [done |]. by rewrite Hx, IHl.
  - f_equal. set (d' := map (fun kv => (kv.1, sorted_keys kv.2)) d).
    assert (Forall (fun kv => sorted_keys kv.2 = kv.2) d') as Hd.
    { unfold d'. apply Forall_map. eapply Forall_impl; [exact IH |]. by intros [k w]. }
    apply forall_sort in Hd.
    assert (map (fun kv => (kv.1, sorted_keys kv.2)) (sort_fields d') = sort_fields d') as ->.
    { induction Hd as [|[k w] m Hw _ IHm]; [done |]. cbn in *. by rewrite Hw, IHm. }
    apply sort_fields_sorted, sort_keys_sorted.
Qed.

(** ** A record is read back from its line

    What comes back has the keys of its payload sorted. *)

Definition stored_event (e : AuditEvent) : AuditEvent :=
  MkAuditEvent (ae_schema_version e) (ae_execution_id e) (ae_sequence e) (ae_event_type e)
    (ae_skill_id e) (ae_skill_version e) (ae_semantic_hash e) (ae_runtime_version e)
    (ae_tenant_id e) (ae_subject_id e) (ae_auth_context_ref e) (ae_retention_days e)
    (ae_classification e) (sort_fields (map (fun kv => (kv.1, sorted_keys kv.2)) (ae_payload e)))
    (ae_previous_event_hash e) (ae_event_hash e).

Definition stored_record (r : _StoredAuditRecord) : _StoredAuditRecord :=
  MkStoredAuditRecord (stored_event (au_event r)) (au_stored_at r) (au_expires_at r).

Lemma sorted_payload_twice p :
  sorted_keys (JObj (sort_fields (map (fun kv => (kv.1, sorted_keys kv.2)) p))) = sorted_keys (JObj p).
Proof. exact (sorted_keys_twice (JObj p)). Qed.

Lemma stored_event_same e : same_event e (stored_event e).
Proof.
  unfold same_event. rewrite !event_data_sorted. unfold stored_event. cbn -[sorted_keys sort_fields].
  by rewrite sorted_payload_twice.
Qed.

Lemma stored_event_twice e : stored_event (stored_event e) = stored_event e.
Proof.
  unfold stored_event. cbn -[sort_fields sorted_keys]. f_equal.
  pose proof (sorted_payload_twice (ae_payload e)) as H. cbn [sorted_keys] in H. by injection H.
Qed.

Lemma stored_hash e : event_hash_of (stored_event e) = event_hash_of e.
Proof.
  rewrite !event_hash_document. assert (event_document (stored_event e) = event_document e) as ->;
    [| reflexivity].
  unfold event_document, canonical_json. do 2 f_equal. rewrite !hash_data_sorted. unfold stored_event.
  cbn -[sorted_keys sort_fields]. by rewrite sorted_payload_twice.
Qed.

Lemma stored_verify e : event_verify (stored_event e) = event_verify e.
Proof. unfold event_verify. by rewrite stored_hash. Qed.

Lemma stored_well_formed e : well_formed_event e -> well_formed_event (stored_event e).
Proof. intros (H1 & H2 & H3 & H4). split; [exact H1 |]. split; [exact H2 |]. split; [exact H3 |]. by rewrite stored_verify. Qed.

(** The document of an event may have its fields in any order. *)
Lemma event_read e : well_formed_event e ->
  event_from_data (sorted_keys (event_to_data e)) = Ok (stored_event e).
Proof.
  intros He. pose proof (stored_well_formed e He) as (Ht & Ho & Hs & Hv).
  pose proof (event_verify_retention _ Hv) as Hschema. rewrite event_data_sorted.
  assert (sorted_keys (JObj (ae_payload e)) = JObj (ae_payload (stored_event e))) as -> by reflexivity.
  change (ae_execution_id e) with (ae_execution_id (stored_event e)).
  change (ae_auth_context_ref e) with (ae_auth_context_ref (stored_event e)).
  change (ae_classification e) with (ae_classification (stored_event e)).
  change (ae_event_hash e) with (ae_event_hash (stored_event e)).
  change (ae_event_type e) with (ae_event_type (stored_event e)).
  change (ae_previous_event_hash e) with (ae_previous_event_hash (stored_event e)).
  change (ae_retention_days e) with (ae_retention_days (stored_event e)).
  change (ae_runtime_version e) with (ae_runtime_version (stored_event e)).
  change (ae_schema_version e) with (ae_schema_version (stored_event e)).
  change (ae_semantic_hash e) with (ae_semantic_hash (stored_event e)).
  change (ae_sequence e) with (ae_sequence (stored_event e)).
  change (ae_skill_id e) with (ae_skill_id (stored_event e)).
  change (ae_skill_version e) with (ae_skill_version (stored_event e)).
  change (ae_subject_id e) with (ae_subject_id (stored_event e)).
  change (ae_tenant_id e) with (ae_tenant_id (stored_event e)).
  revert Ht Ho Hs Hv Hschema. generalize (stored_event e). clear e He.
  intros [schema ex seq ty sk sv sh rv te su au rd cl pl pr eh] Ht Ho Hs Hv Hschema.
  cbn [ae_schema_version] in Hschema. subst schema.
  repeat match goal with
         | H : Forall _ (_ :: _) |- _ => apply Forall_cons in H as [? H] end.
  cbn in *.
  assert (forall d k s, assoc k d = Some (JStr s) -> non_empty s -> event_text d k = Ok s)
    as Htext by (intros; by apply event_text_Ok).
  assert (forall d k o, assoc k d = Some (nullable o) -> o <> Some "" ->
          event_optional_text d k = Ok o) as Hopt by (intros; by apply event_optional_text_Ok).
  unfold event_from_data. eapply bind_intro; [reflexivity |].
  apply (bind_intro tt); [reflexivity |].
  do 7 (eapply bind_intro; [apply Htext; [reflexivity | eassumption] |]).
  do 4 (eapply bind_intro; [apply Hopt; [reflexivity | eassumption] |]).
  apply (bind_intro seq).
  { change (assoc "sequence" _) with (Some (JInt seq)).
    cbv beta iota. rewrite (proj2 (Z.leb_gt seq 0)) by lia. reflexivity. }
  apply (bind_intro pl); [reflexivity |].
  apply (bind_intro cl); [by destruct cl |].
  apply (bind_intro rd); [reflexivity |].
  apply (bind_intro tt); [exact Hv | reflexivity].
Qed.

(** A record that the store may write: its event is well formed, its payload
    is a dict of dicts without repeated keys, and it expires when it should. *)
Record valid_record (r : _StoredAuditRecord) : Prop := {
  vr_event : well_formed_event (au_event r);
  vr_payload : unique_keys (JObj (ae_payload (au_event r))) = true;
  vr_stored : datetime_stable (au_stored_at r) = true;
  vr_aware : is_Some (dt_utcoffset (au_stored_at r));
  vr_expires : add_days (au_stored_at r) (ae_retention_days (au_event r)) = Ok (au_expires_at r)
}.

Lemma stored_valid r : valid_record r -> valid_record (stored_record r).
Proof.
  intros [H1 H2 H3 H4 H5]. split; [by apply stored_well_formed | | exact H3 | exact H4 | exact H5].
  change (unique_keys (sorted_keys (JObj (ae_payload (au_event r)))) = true). by rewrite unique_keys_sorted.
Qed.

Lemma event_retention_positive e : event_verify e = Ok tt -> (0 < ae_retention_days e)%Z.
Proof.
  unfold event_verify. intros H. apply bind_Ok in H as ([] & _ & H).
  apply bind_Ok in H as ([] & H%raise_if_Ok & _). by apply Z.leb_gt in H.
Qed.

Lemma expires_stable r : valid_record r ->
  datetime_stable (au_expires_at r) = true /\ dt_utcoffset (au_expires_at r) = dt_utcoffset (au_stored_at r).
Proof.
  intros [(_ & _ & _ & Hv) _ Hs _ He]. pose proof (event_retention_positive _ Hv) as Hr.
  unfold add_days in He. destruct (Z.ltb_spec (dt_wall (au_stored_at r)
    + ae_retention_days (au_event r) * us_per_day)%Z (3652059 * us_per_day)) as [Hlt|]; [| discriminate].
  apply Ok_inj in He as <-. split; [| done]. unfold datetime_stable in *. cbn [dt_wall dt_utcoffset].
  rewrite !andb_true_iff, Z.leb_le, Z.ltb_lt in Hs |- *. destruct Hs as [[H1 H2] H3].
  split; [split; [| exact Hlt] | exact H3].
  assert (0 < ae_retention_days (au_event r) * us_per_day)%Z by (apply Z.mul_pos_pos; [done | reflexivity]). lia.
Qed.

Lemma iso_not_empty d : datetime_stable d = true -> String.eqb (datetime_isoformat d) "" = false.
Proof.
  intros H. apply String.eqb_neq. intros E. pose proof (datetime_of_isoformat d H) as Hd. rewrite E in Hd.
  vm_compute in Hd. discriminate Hd.
Qed.

Lemma parse_time_iso d name : datetime_stable d = true -> is_Some (dt_utcoffset d) ->
  _parse_time (JStr (datetime_isoformat d)) name = Ok d.
Proof.
  intros Hs [o Ho]. unfold _parse_time. rewrite (iso_not_empty d Hs), (datetime_of_isoformat d Hs).
  cbn [raise_if mbind result_bind]. unfold _validate_time. by rewrite Ho.
Qed.

Lemma record_data_sorted r : sorted_keys (_record_to_data r) =
  JObj [("event", sorted_keys (event_to_data (au_event r)));
        ("expires_at", JStr (datetime_isoformat (au_expires_at r)));
        ("storage_schema_version", JStr AUDIT_STORAGE_SCHEMA_VERSION);
        ("stored_at", JStr (datetime_isoformat (au_stored_at r)))].
Proof. reflexivity. Qed.

Lemma record_read r : valid_record r ->
  _record_from_data (sorted_keys (_record_to_data r)) = Ok (stored_record r).
Proof.
  intros Hr. pose proof (expires_stable r Hr) as [He Eo]. destruct Hr as [H1 _ H3 H4 H5].
  rewrite record_data_sorted. unfold _record_from_data. eapply bind_intro; [reflexivity |].
  apply (bind_intro tt); [reflexivity |].
  apply (bind_intro (stored_event (au_event r))); [exact (event_read _ H1) |].
  apply (bind_intro (au_stored_at r)); [by apply parse_time_iso |].
  apply (bind_intro (au_expires_at r)); [apply parse_time_iso; [done | by rewrite Eo] |].
  apply (bind_intro (au_expires_at r)); [exact H5 |].
  rewrite Z.eqb_refl. reflexivity.
Qed.

Lemma record_utf8 r : detects_utf8 (canonical_json (_record_to_data r)) = true.
Proof.
  assert (exists rest, canonical_json (_record_to_data r)
    = "{"%char :: quote :: "e"%char :: "v"%char :: rest) as [rest ->].
  { unfold canonical_json. rewrite record_data_sorted. eexists. reflexivity. }
  unfold detects_utf8. rewrite !bool_decide_false by (intros [k Hk]; discriminate Hk).
  rewrite (bool_decide_true (4 <= _)) by (cbn; lia). reflexivity.
Qed.

Lemma event_unique e : unique_keys (JObj (ae_payload e)) = true -> unique_keys (event_to_data e) = true.
Proof.
  intros H. destruct e as [a1 a2 a3 a4 a5 a6 a7 a8 [|] [|] [|] a12 a13 a14 [|] a16];
    cbn -[no_duplicates] in *; by rewrite H.
Qed.

Lemma parse_line_record n r : valid_record r ->
  parse_line n (canonical_json (_record_to_data r)) = Ok (stored_record r).
Proof.
  intros Hr. unfold parse_line. rewrite bool_decide_false.
  2: { intros E. pose proof (record_utf8 r) as H. pose proof (record_data_sorted r) as Hs.
       unfold canonical_json in E. rewrite Hs in E. discriminate E. }
  cbn [raise_if mbind result_bind]. rewrite json_loads_canonical.
  - cbn [mbind result_bind]. by rewrite record_read.
  - pose proof (event_unique _ (vr_payload r Hr)) as H.
    change (unique_keys (_record_to_data r)) with (true && (true && (true && (true && (unique_keys (event_to_data (au_event r)) && true))))).
    by rewrite H.
  - apply record_utf8.
Qed.

Lemma log_read log : Forall valid_record log -> forall n,
  parse_lines n (splitlines (concat (map record_line log))) = Ok (map stored_record log).
Proof.
  assert (splitlines (concat (map record_line log)) = map (fun r => canonical_json (_record_to_data r)) log)
    as ->.
  { rewrite <- (splitlines_lines (map (fun r => canonical_json (_record_to_data r)) log)); [by rewrite map_map |].
    apply Forall_map, Forall_forall. intros r _. apply canonical_no_break. }
  induction 1 as [|r log Hr _ IH]; intros n; cbn [map parse_lines]; [done |].
  by rewrite (parse_line_record _ _ Hr), IH.
Qed.

Lemma line_stored r : record_line (stored_record r) = record_line r.
Proof.
  unfold record_line, canonical_json. do 3 f_equal. rewrite !record_data_sorted. cbn [au_event stored_record].
  by rewrite <- (stored_event_same (au_event r)).
Qed.

(** ** The chains of the executions *)

Definition of_key (k : audit_key) (events : list AuditEvent) : list AuditEvent :=
  List.filter (fun e => bool_decide (event_key e = k)) events.

Definition chains (events : list AuditEvent) : Prop := forall k, chained 0 None (of_key k events).

(** What the next event of a chain is checked against. *)
Definition position (e : AuditEvent) : Z * string := (ae_sequence e, ae_event_hash e).

Definition tails_agree (tails : gmap audit_key AuditEvent) (events : list AuditEvent) : Prop :=
  forall k, position <$> tails !! k = position <$> last (of_key k events).

Lemma of_key_app k l l' : of_key k (l ++ l') = of_key k l ++ of_key k l'.
Proof. apply List.filter_app. Qed.

Lemma of_key_snoc k l e : of_key k (l ++ [e]) = of_key k l ++ (if bool_decide (event_key e = k) then [e] else []).
Proof. rewrite of_key_app. unfold of_key at 2. cbn. by destruct (bool_decide _). Qed.

Lemma chained_last l p : chained 0 None l -> last l = Some p -> ae_sequence p = Z.of_nat (length l).
Proof.
  destruct l as [|e l _] using rev_ind; [done |]. rewrite last_snoc, chained_snoc, length_app. cbn.
  intros (_ & H & _) [= <-]. lia.
Qed.

Lemma tails_extend tails events e : tails_agree tails events ->
  tails_agree (<[event_key e := e]> tails) (events ++ [e]).
Proof.
  intros H k. rewrite of_key_snoc. destruct (decide (event_key e = k)) as [<-|Hne].
  - by rewrite lookup_insert_eq, bool_decide_true, last_snoc.
  - rewrite lookup_insert_ne, bool_decide_false, app_nil_r by done. apply H.
Qed.

(** The event continues the chain of its execution among [events]. *)
Definition continues (events : list AuditEvent) (e : AuditEvent) : result unit :=
  let l := of_key (event_key e) events in
  _ ← raise_if (negb (ae_sequence e =? Z.of_nat (length l) + 1)%Z) AuditIntegrityError
        ("audit sequence discontinuity for " +:+ ae_execution_id e);
  raise_if (negb (bool_decide (ae_previous_event_hash e = chain_end None l))) AuditIntegrityError
    ("audit hash chain discontinuity for " +:+ ae_execution_id e).

Lemma check_chain_continues tails events e : chains events -> tails_agree tails events ->
  check_chain tails e = continues events e.
Proof.
  intros Hc Ht. specialize (Hc (event_key e)). specialize (Ht (event_key e)).
  unfold check_chain, continues, chain_end. cbv zeta.
  destruct (last (of_key (event_key e) events)) as [p|] eqn:El.
  - rewrite <- (chained_last _ _ Hc El). destruct (tails !! event_key e) as [q|]; [| discriminate].
    cbn in Ht. unfold position in Ht. by injection Ht as -> ->.
  - apply last_None in El. rewrite El. by destruct (tails !! event_key e).
Qed.

Lemma continues_chains events e : chains events -> event_verify e = Ok tt ->
  continues events e = Ok tt <-> chains (events ++ [e]).
Proof.
  intros Hc Hv. unfold continues. cbv zeta. split.
  - intros H. apply bind_Ok in H as ([] & H1%raise_if_Ok & H2%raise_if_Ok).
    apply negb_false_iff in H1, H2. apply Z.eqb_eq in H1. apply bool_decide_eq_true in H2. intros k.
    rewrite of_key_snoc. case_bool_decide as Hk; [subst k | by rewrite app_nil_r].
    apply chained_snoc. split; [apply Hc |]. split; [by rewrite Z.add_0_l | done].
  - intros H. specialize (H (event_key e)). rewrite of_key_snoc, bool_decide_true in H by done.
    apply chained_snoc in H as (_ & H1 & H2 & _). rewrite Z.add_0_l in H1.
    by rewrite H1, H2, Z.eqb_refl, bool_decide_true.
Qed.

Lemma chains_app events l : chains (events ++ l) -> chains events.
Proof. intros H k. specialize (H k). rewrite of_key_app in H. by apply chained_app in H as [H _]. Qed.

(** Loading accepts exactly the chains, and ends at their tails. *)
Lemma verify_events_run es : forall events s, chains events -> tails_agree (js_tails s) events ->
  Forall (fun e => event_verify e = Ok tt) es -> chains (events ++ es) ->
  exists tails, verify_events es s = (Ok tt, with_tails tails s) /\ tails_agree tails (events ++ es).
Proof.
  induction es as [|e es IH]; intros events s Hc Ht Hv Hall.
  { exists (js_tails s). rewrite app_nil_r. split; [by destruct s | done]. }
  apply Forall_cons in Hv as [Hv Hvs]. rewrite cons_middle, app_assoc in Hall |- *.
  pose proof (chains_app _ _ Hall) as He.
  destruct (IH (events ++ [e]) (with_tails (<[event_key e := e]> (js_tails s)) s)) as (tails & Hr & Ha); try done.
  { by apply tails_extend. }
  exists tails. split; [| exact Ha]. cbn [verify_events]. eapply M_bind_intro; [reflexivity |].
  eapply M_bind_intro.
  { unfold lift. rewrite (check_chain_continues _ _ _ Hc Ht), (proj2 (continues_chains _ _ Hc Hv) He).
    reflexivity. }
  eapply M_bind_intro; [reflexivity |]. exact Hr.
Qed.

Lemma verify_events_chains es : forall events s s', chains events ->
  (forall k, js_tails s !! k = last (of_key k events)) ->
  Forall (fun e => event_verify e = Ok tt) es -> verify_events es s = (Ok tt, s') ->
  chains (events ++ es) /\ forall k, js_tails s' !! k = last (of_key k (events ++ es)).
Proof.
  induction es as [|e es IH]; intros events s s' Hc Ht Hv H.
  { injection H as <-. by rewrite app_nil_r. }
  apply Forall_cons in Hv as [Hv Hvs]. cbn [verify_events] in H.
  apply M_bind_Ok in H as (s1 & s2 & H1 & H). injection H1 as <- <-.
  apply M_bind_Ok in H as ([] & s2 & H1 & H). injection H1 as H1 <-.
  apply M_bind_Ok in H as ([] & s3 & H2 & H). injection H2 as <-.
  assert (tails_agree (js_tails s) events) as Ha by (intros k; by rewrite Ht).
  rewrite (check_chain_continues _ _ _ Hc Ha), (continues_chains _ _ Hc Hv) in H1.
  rewrite cons_middle, app_assoc. eapply IH; [exact H1 | | exact Hvs | exact H].
  intros k. cbn [js_tails with_tails]. rewrite of_key_snoc. destruct (decide (event_key e = k)) as [<-|Hne].
  - by rewrite lookup_insert_eq, bool_decide_true, last_snoc.
  - by rewrite lookup_insert_ne, bool_decide_false, app_nil_r.
Qed.

(** ** The store as a log *)

Definition events_of (log : list _StoredAuditRecord) : list AuditEvent := map au_event log.

Definition settled (r : _StoredAuditRecord) : Prop := valid_record r /\ stored_record r = r.

Definition same_store (s s' : JsonlAuditStore) : Prop :=
  js_file s' = js_file s /\ js_tails s' = js_tails s /\ js_now s' = js_now s /\ js_reads s' = js_reads s
  /\ js_io s' = js_io s.

Lemma settled_stored log : Forall settled log -> map stored_record log = log.
Proof. induction 1 as [|r log [_ Hr] _ IH]; [done |]. cbn. by rewrite Hr, IH. Qed.

Lemma settled_verified log : Forall settled log -> Forall (fun e => event_verify e = Ok tt) (events_of log).
Proof.
  intros H. apply Forall_map. eapply Forall_impl; [exact H |].
  by intros r [[(_ & _ & _ & Hv) _ _ _ _] _].
Qed.

Lemma lines_nil log : concat (map record_line log) = [] -> log = [].
Proof. destruct log as [|r log]; [done |]. cbn. unfold record_line. by destruct (canonical_json (_record_to_data r)). Qed.

Lemma read_records_run s log : (forall n, js_io s n = IoDone) -> Forall settled log ->
  default [] (js_file s) = concat (map record_line log) ->
  exists s', _read_records s = (Ok log, s') /\ same_store s s'.
Proof.
  intros Hio Hlog Hf. unfold _read_records. destruct (js_file s) as [content|] eqn:E.
  - change (content = concat (map record_line log)) in Hf. eexists. split.
    + eapply M_bind_intro; [reflexivity |]. rewrite E. eapply M_bind_intro; [reflexivity |].
      rewrite Hio. unfold lift. rewrite Hf, log_read.
      * by rewrite (settled_stored _ Hlog).
      * eapply Forall_impl; [exact Hlog |]. by intros r [Hr _].
    + by repeat split.
  - change ([] = concat (map record_line log)) in Hf. symmetry in Hf. apply lines_nil in Hf as ->. exists s. split; [| by repeat split].
    eapply M_bind_intro; [reflexivity |]. rewrite E. reflexivity.
Qed.

Lemma read_events_run s log : (forall n, js_io s n = IoDone) -> Forall settled log ->
  default [] (js_file s) = concat (map record_line log) ->
  exists s', _read_events s = (Ok (events_of log), s') /\ same_store s s'.
Proof.
  intros Hio Hlog Hf. destruct (read_records_run s log Hio Hlog Hf) as (s' & H & Hs). exists s'.
  split; [| exact Hs]. eapply M_bind_intro; [exact H | reflexivity].
Qed.

Record represents (s : JsonlAuditStore) (log : list _StoredAuditRecord) : Prop := {
  rp_file : default [] (js_file s) = concat (map record_line log);
  rp_settled : Forall settled log;
  rp_chains : chains (events_of log);
  rp_tails : tails_agree (js_tails s) (events_of log)
}.

(** A disk that does what it is asked, and a clock that tells its zone. *)
Record reliable (s : JsonlAuditStore) : Prop := {
  rl_io n : js_io s n = IoDone;
  rl_now n : datetime_stable (js_now s n) = true;
  rl_aware n : is_Some (dt_utcoffset (js_now s n))
}.

Lemma same_reliable s s' : js_now s' = js_now s -> js_io s' = js_io s -> reliable s -> reliable s'.
Proof. intros E1 E2 [H1 H2 H3]. by split; rewrite ?E1, ?E2. Qed.

Lemma same_represents s s' log : js_file s' = js_file s -> js_tails s' = js_tails s ->
  represents s log -> represents s' log.
Proof. intros E1 E2 [H1 H2 H3 H4]. by split; rewrite ?E1, ?E2. Qed.

Lemma load_run s log : (forall n, js_io s n = IoDone) -> Forall settled log -> chains (events_of log) ->
  default [] (js_file s) = concat (map record_line log) ->
  exists s', _load_and_verify s = (Ok tt, s') /\ represents s' log /\ js_file s' = js_file s
    /\ js_now s' = js_now s /\ js_io s' = js_io s /\ js_reads s' = js_reads s.
Proof.
  intros Hio Hlog Hc Hf. destruct (read_events_run (with_tails ∅ s) log Hio Hlog Hf) as (s1 & H1 & Hs1).
  destruct Hs1 as (E1 & E2 & E3 & E4 & E5).
  destruct (verify_events_run (events_of log) [] s1) as (tails & H2 & Ht).
  - intros k. exact I.
  - intros k. by rewrite E2.
  - by apply settled_verified.
  - exact Hc.
  - exists (with_tails tails s1). split; [| split; [split; [by cbn; rewrite E1 | done | done | exact Ht] |]].
    + unfold _load_and_verify. eapply M_bind_intro; [reflexivity |]. eapply M_bind_intro; [exact H1 |]. exact H2.
    + by repeat split.
Qed.

(** ** Removing whole executions *)

Lemma of_key_filter (p : _StoredAuditRecord -> bool) (q : audit_key -> bool) k log :
  (forall r, p r = q (event_key (au_event r))) ->
  of_key k (events_of (List.filter p log)) = if q k then of_key k (events_of log) else [].
Proof.
  intros Hp. induction log as [|r log IH]; cbn [List.filter]; [by destruct (q k) |].
  unfold events_of, of_key in *. cbn [map List.filter]. rewrite Hp.
  destruct (q (event_key (au_event r))) eqn:Eq; cbn [map List.filter]; case_bool_decide as Hk;
    rewrite ?IH; try subst k; rewrite ?Eq; try done; by destruct (q k).
Qed.

Lemma chains_filter p q log : (forall r, p r = q (event_key (au_event r))) ->
  chains (events_of log) -> chains (events_of (List.filter p log)).
Proof. intros Hp Hc k. rewrite (of_key_filter p q k log Hp). destruct (q k); [apply Hc | exact I]. Qed.

Lemma filter_everything {A} (p : A -> bool) l : length (List.filter p l) = length l -> List.filter p l = l.
Proof.
  induction l as [|x l IH]; [done |]. cbn [List.filter].
  pose proof (List.filter_length_le p l). destruct (p x); cbn [length]; intros H'; [by rewrite IH by lia | lia].
Qed.

Lemma forall_filter {A} (P : A -> Prop) (p : A -> bool) l : Forall P l -> Forall P (List.filter p l).
Proof. induction 1 as [|x l Hx _ IH]; [constructor |]. cbn. destruct (p x); [by constructor | done]. Qed.

Lemma retain_run s log p q : reliable s -> represents s log -> (forall r, p r = q (event_key (au_event r))) ->
  exists s', retain log (List.filter p log) s
      = (Ok (Z.of_nat (length log) - Z.of_nat (length (List.filter p log)))%Z, s')
    /\ represents s' (List.filter p log) /\ reliable s'.
Proof.
  intros Hr [H1 H2 H3 H4] Hp. unfold retain. cbv zeta.
  destruct (Z.eqb_spec (Z.of_nat (length log) - Z.of_nat (length (List.filter p log)))%Z 0) as [E|E].
  - exists s. split; [reflexivity |]. rewrite (filter_everything p log) by lia. by split.
  - set (s1 := MkJsonlAuditStore (Some (concat (map record_line (List.filter p log)))) (js_tails s) (js_now s)
                 (js_reads s) (js_io s) (S (js_calls s))).
    destruct (load_run s1 (List.filter p log)) as (s2 & Hl & Hrep & _ & E3 & E4 & E5).
    + apply Hr.
    + by apply forall_filter.
    + by eapply chains_filter.
    + done.
    + exists s2. split; [| split; [exact Hrep | by apply (same_reliable s)]].
      eapply M_bind_intro; [| reflexivity]. eapply M_bind_intro; [| exact Hl].
      unfold _write_records. eapply M_bind_intro; [reflexivity |]. rewrite (rl_io s Hr). reflexivity.
Qed.

Lemma key_expired_key now log r r' : event_key (au_event r) = event_key (au_event r') ->
  key_expired now log r = key_expired now log r'.
Proof. intros E. unfold key_expired. by rewrite E. Qed.

(** ** What the store promises

    A log of records; the operations on it, with the reading of the clock. *)

Inductive audit_op : Type :=
  | OpAppend (e : AuditEvent) | OpRead (tenant_id execution_id : string)
  | OpDelete (tenant_id execution_id : string) | OpPurge (now : option datetime) | OpRestart.

Inductive audit_answer : Type := Done | Events (l : list AuditEvent) | Count (n : Z).

Definition run_op (op : audit_op) : AStore audit_answer :=
  match op with
  | OpAppend e => _ ← audit_append e; mret Done
  | OpRead t x => l ← read_execution t x; mret (Events l)
  | OpDelete t x => n ← delete_execution t x; mret (Count n)
  | OpPurge now => n ← audit_purge_expired now; mret (Count n)
  | OpRestart => fun s =>
      match open_store (js_file s) (fun n => js_now s (js_reads s + n)) (fun n => js_io s (js_calls s + n)) with
      | Ok s' => (Ok Done, s')
      | Err e => (Err e, s)
      end
  end.

Definition log_append (now : datetime) (e : AuditEvent) (log : list _StoredAuditRecord)
  : result (list _StoredAuditRecord) :=
  _ ← event_verify e;
  _ ← continues (events_of log) e;
  expires_at ← add_days now (ae_retention_days e);
  Ok (log ++ [stored_record (MkStoredAuditRecord e now expires_at)]).

Definition without (p : _StoredAuditRecord -> bool) (log : list _StoredAuditRecord)
  : result audit_answer * list _StoredAuditRecord :=
  let kept := List.filter (fun r => negb (p r)) log in
  (Ok (Count (Z.of_nat (length log) - Z.of_nat (length kept))%Z), kept).

Definition log_op (op : audit_op) (now : datetime) (log : list _StoredAuditRecord)
  : result audit_answer * list _StoredAuditRecord :=
  match op with
  | OpAppend e => match log_append now e log with Ok log' => (Ok Done, log') | Err e => (Err e, log) end
  | OpRead t x => (_ ← check_identity t x; Ok (Events (List.filter (is_key t x) (events_of log))), log)
  | OpDelete t x =>
      match check_identity t x with
      | Ok _ => without (fun r => is_key t x (au_event r)) log
      | Err e => (Err e, log)
      end
  | OpPurge at_ =>
      match _validate_time (default now at_) "audit purge time must be timezone-aware" with
      | Ok now => without (key_expired now log) log
      | Err e => (Err e, log)
      end
  | OpRestart => (Ok Done, log)
  end.

(** What identifies an event: the texts that [from_data] refuses when they are
    empty. [create], [verify] and [append] do not look at them
    ([unidentified_append_unreadable] says what becomes of the file). *)
Definition identified (e : AuditEvent) : Prop :=
  Forall non_empty [ae_execution_id e; ae_event_type e; ae_skill_id e; ae_skill_version e;
                    ae_semantic_hash e; ae_runtime_version e]
  /\ Forall (fun o => o <> Some "") [ae_tenant_id e; ae_subject_id e; ae_auth_context_ref e].

(** Events that are appended are identified, and their payloads are dicts: no
    key is repeated. *)
Definition op_ok (op : audit_op) : Prop :=
  match op with
  | OpAppend e => identified e /\ unique_keys (JObj (ae_payload e)) = true
  | _ => True
  end.

Lemma verified_hash e : event_verify e = Ok tt -> non_empty (ae_event_hash e).
Proof.
  unfold event_verify. intros H. apply bind_Ok in H as ([] & _ & H).
  apply bind_Ok in H as ([] & _ & H%raise_if_Ok). apply negb_false_iff, String.eqb_eq in H.
  rewrite H. intros E. discriminate E.
Qed.

Lemma chained_end l : chained 0 None l -> chain_end None l <> Some "".
Proof.
  destruct l as [|e l _] using rev_ind; [done |]. rewrite chained_snoc, chain_end_snoc.
  intros (_ & _ & _ & Hv%verified_hash) [= E]. by destruct Hv.
Qed.

(** An identified event that the store accepts is one that it can read. *)
Lemma accepted_well_formed events e : identified e -> chains events -> event_verify e = Ok tt ->
  continues events e = Ok tt -> well_formed_event e.
Proof.
  intros [Ht Ho] Hc Hv Hk. unfold continues in Hk. cbv zeta in Hk.
  apply bind_Ok in Hk as ([] & Hq%raise_if_Ok & Hp%raise_if_Ok).
  apply negb_false_iff in Hq, Hp. apply Z.eqb_eq in Hq. apply bool_decide_eq_true in Hp.
  pose proof (verified_hash e Hv) as Hh. pose proof (chained_end _ (Hc (event_key e))) as He.
  rewrite <- Hp in He. rewrite !Forall_cons in Ht. rewrite !Forall_cons in Ho.
  split; [rewrite !Forall_cons; tauto |]. split; [rewrite !Forall_cons; tauto |].
  split; [lia | exact Hv].
Qed.

Lemma lift_Err {S A B} (r : result A) (f : A -> M S B) (e : exn) s : r = Err e -> (lift r ≫= f) s = (Err e, s).
Proof. by intros ->. Qed.

Lemma represents_snoc s log e r : represents s log -> au_event r = e -> valid_record r ->
  continues (events_of log) e = Ok tt ->
  represents (with_tails (<[event_key e := e]> (js_tails s))
                (with_file (Some (default [] (js_file s) ++ record_line r)) s)) (log ++ [stored_record r]).
Proof.
  intros [H1 H2 H3 H4] He Hvr Hk. pose proof (vr_event r Hvr) as (_ & _ & _ & Hv). rewrite He in Hv.
  assert (events_of (log ++ [stored_record r]) = events_of log ++ [stored_event e]) as Ee.
  { unfold events_of. rewrite map_app. cbn. by rewrite He. }
  split; cbn [js_file js_tails with_tails with_file].
  - change (default [] (js_file s) ++ record_line r = concat (map record_line (log ++ [stored_record r]))).
    rewrite map_app, concat_app, H1. cbn [map concat]. by rewrite line_stored, app_nil_r.
  - apply Forall_app. split; [exact H2 |]. apply Forall_singleton. split; [by apply stored_valid |].
    unfold stored_record. cbn [au_event au_stored_at au_expires_at]. by rewrite stored_event_twice.
  - rewrite Ee. apply continues_chains; [exact H3 | by rewrite stored_verify | exact Hk].
  - rewrite Ee. intros k. rewrite of_key_snoc. change (event_key (stored_event e)) with (event_key e).
    destruct (decide (event_key e = k)) as [<-|Hne].
    + by rewrite lookup_insert_eq, bool_decide_true, last_snoc.
    + rewrite lookup_insert_ne, bool_decide_false, app_nil_r by done. apply H4.
Qed.

Lemma append_step s log e : represents s log -> reliable s -> op_ok (OpAppend e) ->
  exists s', run_op (OpAppend e) s = ((log_op (OpAppend e) (js_now s (js_reads s)) log).1, s')
    /\ represents s' (log_op (OpAppend e) (js_now s (js_reads s)) log).2 /\ reliable s'.
Proof.
  intros Hrep Hr (O1 & O2). pose proof Hrep as [H1 H2 H3 H4].
  cbn [run_op log_op]. unfold log_append, audit_append.
  destruct (event_verify e) as [[]|err] eqn:Hv; [| by exists s]. cbn [mbind result_bind].
  destruct (continues (events_of log) e) as [[]|err] eqn:Hk.
  2: { exists s. split; [| done]. unfold mbind, M_bind, lift, get. cbn.
       by rewrite (check_chain_continues _ _ _ H3 H4), Hk. }
  cbn [mbind result_bind].
  destruct (rl_aware s Hr (js_reads s)) as [o Ho].
  set (s1 := MkJsonlAuditStore (js_file s) (js_tails s) (js_now s) (S (js_reads s)) (js_io s) (js_calls s)).
  assert (audit_now s = (Ok (js_now s (js_reads s)), s1)) as Hnow.
  { eapply M_bind_intro; [reflexivity |]. eapply M_bind_intro; [reflexivity |].
    unfold lift, _validate_time. by rewrite Ho. }
  destruct (add_days (js_now s (js_reads s)) (ae_retention_days e)) as [expires|err] eqn:Ha; cbn [mbind result_bind fst snd].
  2: { exists s1. split; [| split; [by apply (same_represents s) | by apply (same_reliable s)]].
       unfold mbind, M_bind, lift, get. rewrite (check_chain_continues _ _ _ H3 H4), Hk, Hnow, Ha. reflexivity. }
  set (r := MkStoredAuditRecord e (js_now s (js_reads s)) expires).
  assert (valid_record r) as Hvr.
  { split; cbn [au_event au_stored_at au_expires_at r]; [| exact O2 | apply Hr | by exists o | exact Ha].
    by apply (accepted_well_formed (events_of log)). }
  eexists. split; [| split].
  - eapply M_bind_intro; [| reflexivity]. eapply M_bind_intro; [reflexivity |].
    eapply M_bind_intro; [reflexivity |].
    eapply M_bind_intro; [unfold lift; rewrite (check_chain_continues _ _ _ H3 H4), Hk; reflexivity |].
    eapply M_bind_intro; [exact Hnow |]. eapply M_bind_intro; [unfold lift; rewrite Ha; reflexivity |].
    cbv zeta. eapply M_bind_intro; [reflexivity |]. cbn [js_io js_calls s1]. rewrite (rl_io s Hr).
    eapply M_bind_intro; reflexivity.
  - by refine (same_represents _ _ _ _ _ (represents_snoc s log e r Hrep eq_refl Hvr Hk)).
  - by apply (same_reliable s).
Qed.

(** One operation of the store against the same operation of the log. *)
Lemma audit_op_step (op : audit_op) (s : JsonlAuditStore) (log : list _StoredAuditRecord) :
  represents s log -> reliable s -> op_ok op ->
  exists s', run_op op s = ((log_op op (js_now s (js_reads s)) log).1, s')
    /\ represents s' (log_op op (js_now s (js_reads s)) log).2 /\ reliable s'.
Proof.
  intros Hrep Hr Hop. destruct op as [e|t x|t x|at_|]; [by apply append_step | | | |];
    pose proof Hrep as [H1 H2 H3 H4]; cbn [run_op log_op].
  - unfold read_execution. destruct (check_identity t x) as [[]|err] eqn:Hi; [| by exists s].
    destruct (read_events_run s log (rl_io s Hr) H2 H1) as (s' & Hrd & E1 & E2 & E3 & _ & E5).
    exists s'. split; [| split; [by apply (same_represents s) | by apply (same_reliable s)]].
    eapply M_bind_intro; [| reflexivity]. eapply M_bind_intro; [reflexivity |].
    eapply M_bind_intro; [exact Hrd | reflexivity].
  - unfold delete_execution, without. cbv zeta.
    destruct (check_identity t x) as [[]|err] eqn:Hi; [| by exists s].
    destruct (read_records_run s log (rl_io s Hr) H2 H1) as (s1 & Hrd & E1 & E2 & E3 & _ & E5).
    destruct (retain_run s1 log (fun r => negb (is_key t x (au_event r)))
      (fun k => negb (bool_decide (k = (Some t, x))))) as (s' & Hrt & Hrep' & Hr').
    + by apply (same_reliable s).
    + by apply (same_represents s).
    + done.
    + exists s'. split; [| done]. eapply M_bind_intro; [| reflexivity].
      eapply M_bind_intro; [reflexivity |]. eapply M_bind_intro; [exact Hrd | exact Hrt].
  - assert (exists s0, (match at_ with None => audit_now | Some now => mret now end) s
      = (Ok (default (js_now s (js_reads s)) at_), s0) /\ represents s0 log /\ reliable s0)
      as (s0 & Hnow & Hrep0 & Hr0).
    { destruct at_ as [now|]; [by exists s |]. destruct (rl_aware s Hr (js_reads s)) as [o Ho].
      exists (MkJsonlAuditStore (js_file s) (js_tails s) (js_now s) (S (js_reads s)) (js_io s) (js_calls s)).
      split; [| split; [by apply (same_represents s) | by apply (same_reliable s)]].
      eapply M_bind_intro; [reflexivity |]. eapply M_bind_intro; [reflexivity |].
      unfold lift, _validate_time. cbn [default from_option]. by rewrite Ho. }
    unfold audit_purge_expired, without. cbv zeta.
    set (now := default (js_now s (js_reads s)) at_) in *.
    destruct (dt_utcoffset now) as [o|] eqn:Eo.
    + assert (forall m, _validate_time now m = Ok now) as Hval by (intros m; unfold _validate_time; by rewrite Eo).
      rewrite Hval. pose proof Hrep0 as [K1 K2 K3 K4].
      destruct (read_records_run s0 log (rl_io s0 Hr0) K2 K1) as (s1 & Hrd & E1 & E2 & E3 & _ & E5).
      destruct (retain_run s1 log (fun r => negb (key_expired now log r))
        (fun k => negb (forallb (fun r' => implb (bool_decide (event_key (au_event r') = k))
                                            (instant (au_expires_at r') <=? instant now)%Z) log)))
        as (s' & Hrt & Hrep' & Hr').
      * by apply (same_reliable s0).
      * by apply (same_represents s0).
      * done.
      * exists s'. split; [| done]. eapply M_bind_intro; [| reflexivity].
        eapply M_bind_intro; [exact Hnow |].
        eapply M_bind_intro; [unfold lift; rewrite Hval; reflexivity |].
        eapply M_bind_intro; [exact Hrd | exact Hrt].
    + assert (forall m, _validate_time now m = raise ValueError m) as Hval
        by (intros m; unfold _validate_time; by rewrite Eo).
      rewrite Hval. exists s0. split; [| done]. unfold mbind, M_bind at 1 2. rewrite Hnow.
      unfold lift, M_bind. by rewrite Hval.
  - unfold open_store.
    destruct (load_run (MkJsonlAuditStore (js_file s) ∅ (fun n => js_now s (js_reads s + n)) 0
      (fun n => js_io s (js_calls s + n)) 0) log) as (s' & Hl & Hrep' & _ & E1 & E2 & _); try done.
    { intros n. apply Hr. }
    exists s'. rewrite Hl. split; [reflexivity |]. split; [exact Hrep' |].
    split; intros n; rewrite ?E1, ?E2; apply Hr.
Qed.

(** C26. Every operation of the store is that on a log. A store that is
    opened without a file represents the empty log. Over a disk that does what it is asked
    and a clock that tells its zone, a store that represents a log answers
    every operation as the log does, errors included, and then represents the
    log after the operation, as long as the events that are appended are
    identified (none of the texts that name the execution, Skill, runtime and
    principal is empty) and no dict in their payload repeats a key: an
    identified event is appended exactly when its hash is
    that of its content, it continues the chain of its execution and the end
    of its retention is a date, reading
    returns the events of the execution in order, deleting and purging remove
    whole executions only, and a restart, which reads and verifies the whole
    file, loses nothing. The log is made of valid, separate hash chains, one
    for every execution, throughout. *)
Theorem audit_store_refines_log :
  (forall now io, (forall n, io n = IoDone) -> exists s, open_store None now io = Ok s /\ represents s [])
  /\ forall op s log, represents s log -> reliable s -> op_ok op ->
     exists s', run_op op s = ((log_op op (js_now s (js_reads s)) log).1, s')
       /\ represents s' (log_op op (js_now s (js_reads s)) log).2 /\ reliable s'.
Proof.
  split; [| apply audit_op_step]. intros now io Hio.
  destruct (load_run (MkJsonlAuditStore None ∅ now 0 io 0) [] Hio (List.Forall_nil _) (fun _ => I) eq_refl)
    as (s & Hl & Hrep & _).
  exists s. split; [| exact Hrep]. unfold open_store. by rewrite Hl.
Qed.

(** ** Tampering *)

Lemma read_event_verified v r : _record_from_data v = Ok r -> event_verify (au_event r) = Ok tt.
Proof.
  unfold _record_from_data. intros H. apply bind_Ok in H as (d & _ & H).
  apply bind_Ok in H as (u & _ & H). apply bind_Ok in H as (e & He & H).
  apply bind_Ok in H as (s & _ & H). apply bind_Ok in H as (x & _ & H). apply bind_Ok in H as (y & _ & H).
  apply bind_Ok in H as (u' & _ & H). apply Ok_inj in H as <-. cbn [au_event].
  by apply event_from_data_wf in He as (_ & _ & _ & Hv).
Qed.

Lemma parse_lines_verified lines : forall n records, parse_lines n lines = Ok records ->
  Forall (fun e => event_verify e = Ok tt) (events_of records).
Proof.
  induction lines as [|line lines IH]; intros n records H; cbn [parse_lines] in H.
  { apply Ok_inj in H as <-. constructor. }
  apply bind_Ok in H as (r & Hr & H). apply bind_Ok in H as (rest & Hrest & H). apply Ok_inj in H as <-.
  constructor; [| by eapply IH]. unfold parse_line in Hr. apply bind_Ok in Hr as (u & _ & Hr).
  destruct (data ← json_loads line; _record_from_data data) as [r'|e] eqn:E.
  - apply Ok_inj in Hr as ->. apply bind_Ok in E as (v & _ & E). by eapply read_event_verified.
  - by destruct (isinstance_exn (ex_class e) ValueError).
Qed.

(** A store that opens over whatever bytes has valid chains, and their ends. *)
Lemma open_store_chains content now io s : open_store (Some content) now io = Ok s ->
  exists records, parse_lines 1 (splitlines content) = Ok records /\ chains (events_of records)
    /\ forall k, js_tails s !! k = last (of_key k (events_of records)).
Proof.
  unfold open_store. destruct (_load_and_verify _) as [r s'] eqn:E. intros H.
  apply bind_Ok in H as ([] & -> & H). apply Ok_inj in H as <-. unfold _load_and_verify in E.
  apply M_bind_Ok in E as ([] & s1 & H1 & E). injection H1 as <-.
  apply M_bind_Ok in E as (events & s2 & H2 & E). unfold _read_events in H2.
  apply M_bind_Ok in H2 as (records & s3 & H2 & H3). injection H3 as <- <-.
  unfold _read_records in H2. apply M_bind_Ok in H2 as (s4 & s5 & H4 & H2). injection H4 as <- <-.
  cbn [js_file with_tails] in H2. apply M_bind_Ok in H2 as (answer & s6 & H4 & H2).
  apply M_bind_Ok in H4 as (s7 & s8 & H5 & H4). injection H5 as <- <-.
  apply M_bind_Ok in H4 as ([] & s9 & H5 & H4). injection H5 as <-. injection H4 as H4 <-.
  destruct answer as [|]; [| discriminate H2]. injection H2 as H2 <-. exists records.
  split; [exact H2 |]. pose proof (parse_lines_verified _ _ _ H2) as Hv.
  refine (verify_events_chains _ [] _ _ _ _ Hv E); intros k; [exact I | apply lookup_empty].
Qed.

(** C27. The file cannot be changed behind the back of who knows the last hash.
    Whatever bytes a file holds, a store that opens over it found it to be
    records whose events make valid chains, and it knows the last event of
    every execution. Two files that open and end an execution with the same
    hash hold the same events of that execution in the same order, or exhibit
    a SHA-256 collision of the documents of two of their events. *)
Theorem audit_file_tamper_evident (content content' : bytes) now io s now' io' s' k e e' :
  open_store (Some content) now io = Ok s -> open_store (Some content') now' io' = Ok s' ->
  js_tails s !! k = Some e -> js_tails s' !! k = Some e' -> ae_event_hash e = ae_event_hash e' ->
  exists records records',
    parse_lines 1 (splitlines content) = Ok records /\ parse_lines 1 (splitlines content') = Ok records'
    /\ chains (events_of records) /\ chains (events_of records')
    /\ (Forall2 same_event (of_key k (events_of records)) (of_key k (events_of records'))
        \/ exists x y, x ∈ events_of records /\ y ∈ events_of records'
             /\ collision (event_document x) (event_document y)).
Proof.
  intros (rs & P & C & T)%open_store_chains (rs' & P' & C' & T')%open_store_chains He He' Hh.
  exists rs, rs'. do 4 (split; [done |]).
  destruct (audit_history_binding (of_key k (events_of rs)) (of_key k (events_of rs')) (C k) (C' k))
    as [H | (x & y & Hx & Hy & H)].
  - unfold chain_end. rewrite <- T, <- T', He, He'. by rewrite Hh.
  - by left.
  - right. exists x, y. assert (forall z l, z ∈ of_key k l -> z ∈ l) as Hin.
    { intros z l Hz. apply list_elem_of_In in Hz. apply list_elem_of_In. by apply filter_In in Hz as [Hz _]. }
    split; [by apply Hin |]. split; [by apply Hin | exact H].
Qed.

(** ** A write that is torn *)

Lemma parse_lines_app good bad n : forall records,
  parse_lines n good = Ok records ->
  parse_lines n (good ++ bad) = (rest ← parse_lines (n + length good) bad; Ok (records ++ rest)).
Proof.
  revert n; induction good as [|line good IH]; intros n records H; cbn [parse_lines app length] in *.
  { apply Ok_inj in H as <-. rewrite Nat.add_0_r. cbn [app]. by destruct (parse_lines n bad). }
  apply bind_Ok in H as (r & Hr & H). apply bind_Ok in H as (rest & Hrest & H). apply Ok_inj in H as <-.
  rewrite Hr. cbn [mbind result_bind]. rewrite (IH (S n) rest Hrest), Nat.add_succ_comm.
  by destruct (parse_lines (n + S (length good)) bad).
Qed.

(** A brace before a document makes it unreadable. *)
Lemma torn_line n r : exists e, parse_line n ("{"%char :: canonical_json (_record_to_data r)) = Err e
  /\ ex_class e = AuditIntegrityError.
Proof.
  assert (exists rest, canonical_json (_record_to_data r) = utf8_encode ("{"%char :: quote :: rest)) as [rest ->].
  { unfold canonical_json. rewrite record_data_sorted. eexists. reflexivity. }
  assert (json_loads ("{"%char :: utf8_encode ("{"%char :: quote :: rest)) = raise JSONDecodeError "") as H.
  { change ("{"%char :: utf8_encode ("{"%char :: quote :: rest))
      with (utf8_encode ("{"%char :: "{"%char :: quote :: rest)).
    unfold json_loads.
    assert (detects_utf8 (utf8_encode ("{"%char :: "{"%char :: quote :: rest)) = true) as ->.
    { change (utf8_encode ("{"%char :: "{"%char :: quote :: rest))
        with ("{"%char :: "{"%char :: quote :: utf8_encode rest).
      unfold detects_utf8. rewrite !bool_decide_false by (intros [k Hk]; discriminate Hk). cbn [orb].
      rewrite !(bool_decide_false (_ = Some _)) by discriminate.
      rewrite (bool_decide_false (length _ = 2)) by (cbn; lia). by destruct (bool_decide _). }
    cbn [negb]. rewrite utf8_decode_encode, narrow_codes. reflexivity. }
  unfold parse_line. rewrite bool_decide_false by done. cbn [raise_if mbind result_bind]. rewrite H.
  eexists. split; reflexivity.
Qed.

Lemma splitlines_log log rest :
  splitlines (concat (map record_line log) ++ rest)
  = map (fun r => canonical_json (_record_to_data r)) log ++ splitlines rest.
Proof.
  induction log as [|r log IH]; [done |]. cbn [map concat app].
  change (record_line r) with (canonical_json (_record_to_data r) ++ [LF]).
  rewrite <- !app_assoc. cbn [app]. rewrite splitlines_app by apply canonical_no_break. by rewrite IH.
Qed.

(** *** A line that cannot be read *)

Lemma log_lines_read log : Forall settled log ->
  parse_lines 1 (map (fun r => canonical_json (_record_to_data r)) log) = Ok log.
Proof.
  intros H. rewrite <- (settled_stored log H) at 2.
  rewrite <- (log_read log) with (n := 1); [| eapply Forall_impl; [exact H |]; by intros r [Hr _]].
  f_equal. rewrite <- (app_nil_r (concat _)), splitlines_log. cbn. by rewrite app_nil_r.
Qed.

Definition unreadable_line (line : bytes) : Prop :=
  no_break line
  /\ forall n, exists err, parse_line n line = Err err /\ ex_class err = AuditIntegrityError.

(** Behind such a line nothing is read any more. *)
Lemma bad_line_read s log line : Forall settled log -> unreadable_line line ->
  js_file s = Some (concat (map record_line log) ++ line ++ [LF]) ->
  js_io s (js_calls s) = IoDone ->
  exists err s', _read_records s = (Err err, s') /\ ex_class err = AuditIntegrityError.
Proof.
  intros Hlog [Hb Hl] Hf Hio. destruct (Hl (1 + length log)) as (err & He & Hc).
  exists err. eexists. split; [| exact Hc].
  unfold _read_records, io_call, mbind, M_bind, lift, get, modify. rewrite Hf.
  cbn [js_file js_io js_calls]. rewrite Hio, splitlines_log, (splitlines_app _ _ Hb).
  rewrite (parse_lines_app _ _ _ log (log_lines_read log Hlog)), length_map.
  cbn [parse_lines]. rewrite He. reflexivity.
Qed.

Lemma bad_line_open log line now io : Forall settled log -> unreadable_line line -> io 0 = IoDone ->
  exists err, open_store (Some (concat (map record_line log) ++ line ++ [LF])) now io = Err err
    /\ ex_class err = AuditIntegrityError.
Proof.
  intros Hlog Hl Hio.
  set (s0 := MkJsonlAuditStore (Some (concat (map record_line log) ++ line ++ [LF])) ∅ now 0 io 0).
  destruct (bad_line_read (with_tails ∅ s0) log line Hlog Hl eq_refl Hio) as (err & s' & H & Hc).
  exists err. split; [| exact Hc]. unfold open_store, _load_and_verify, _read_events.
  unfold mbind, M_bind, modify. change (_read_records _) with (_read_records (with_tails ∅ s0)).
  by rewrite H.
Qed.

(** An append, up to the write. *)
Lemma append_writes s e : event_verify e = Ok tt -> check_chain (js_tails s) e = Ok tt ->
  is_Some (dt_utcoffset (js_now s (js_reads s))) ->
  (exists x, add_days (js_now s (js_reads s)) (ae_retention_days e) = Ok x) ->
  exists r, au_event r = e /\
    let s' := MkJsonlAuditStore (js_file s) (js_tails s) (js_now s) (S (js_reads s)) (js_io s) (S (js_calls s)) in
    audit_append e s = match js_io s (js_calls s) with
    | IoDone => (Ok tt, with_tails (<[event_key e := e]> (js_tails s))
                          (with_file (Some (default [] (js_file s) ++ record_line r)) s'))
    | IoFailed None => (raise AuditPersistenceError "failed to append audit event", s')
    | IoFailed (Some n) => (raise AuditPersistenceError "failed to append audit event",
                            with_file (Some (default [] (js_file s) ++ take n (record_line r))) s')
    end.
Proof.
  intros Hv Hk [o Ho] [x Hx]. exists (MkStoredAuditRecord e (js_now s (js_reads s)) x).
  split; [done |]. cbv zeta. unfold audit_append, audit_now, io_call, mbind, M_bind, lift, get, modify.
  rewrite Hv, Hk. cbn. unfold _validate_time. rewrite Ho. cbn. rewrite Hx. cbn. destruct (js_io s (js_calls s)) as [|[n|]]; reflexivity.
Qed.

Lemma torn_unreadable r : unreadable_line ("{"%char :: canonical_json (_record_to_data r)).
Proof.
  split; [| intros n; apply torn_line].
  apply no_break_cons. split; [discriminate |]. split; [discriminate | apply canonical_no_break].
Qed.

(** C28. An append is not atomic. If the disk fails after the first byte of a line,
    [append] raises and the store in memory is as before; the same event is
    then accepted when it is appended again, but behind what is left of the
    first attempt, and no store opens over the file any more. *)
Theorem torn_append_unreadable (s : JsonlAuditStore) (log : list _StoredAuditRecord) (e : AuditEvent) :
  represents s log -> event_verify e = Ok tt -> continues (events_of log) e = Ok tt ->
  js_io s (js_calls s) = IoFailed (Some 1) -> js_io s (S (js_calls s)) = IoDone ->
  (forall n, is_Some (dt_utcoffset (js_now s n))
             /\ exists x, add_days (js_now s n) (ae_retention_days e) = Ok x) ->
  exists err s1 s2,
    audit_append e s = (Err err, s1) /\ ex_class err = AuditPersistenceError /\ js_tails s1 = js_tails s
    /\ audit_append e s1 = (Ok tt, s2)
    /\ forall now io, io 0 = IoDone ->
       exists err', open_store (js_file s2) now io = Err err' /\ ex_class err' = AuditIntegrityError.
Proof.
  intros Hrep Hv Hk Hio1 Hio2 Hclock. pose proof Hrep as [H1 H2 H3 H4].
  rewrite <- (check_chain_continues _ _ _ H3 H4) in Hk.
  destruct (append_writes s e Hv Hk) as (r1 & _ & E1); [apply Hclock | apply Hclock |].
  cbv zeta in E1. rewrite Hio1 in E1. destruct (audit_append e s) as [a1 s1].
  injection E1 as -> Es1. eexists. exists s1.
  destruct (append_writes s1 e Hv) as (r2 & _ & E2); [by subst s1 | subst s1; apply Hclock | subst s1; apply Hclock |].
  cbv zeta in E2. assert (js_io s1 (js_calls s1) = IoDone) as Hio by by subst s1.
  rewrite Hio in E2. eexists. split; [reflexivity |]. split; [reflexivity |]. split; [by subst s1 |].
  split; [exact E2 |].
  assert (js_file s1 = Some (concat (map record_line log) ++ ["{"%char])) as Hf.
  { subst s1. cbn [js_file with_file]. rewrite H1. do 2 f_equal. }
  cbn [js_file with_tails with_file]. rewrite Hf.
  change (default [] (Some ?l)) with l. rewrite <- app_assoc. intros now io.
  exact (bad_line_open log ("{"%char :: canonical_json (_record_to_data r2)) now io H2 (torn_unreadable r2)).
Qed.

(** ** An event that nothing identifies *)

Lemma event_raises_value v : raises_only ValueError (event_from_data v).
Proof.
  unfold event_from_data, event_text, event_optional_text. cbv zeta. raises_only_tac.
Qed.

Lemma read_identified e e' :
  event_from_data (sorted_keys (event_to_data e)) = Ok e' -> identified e.
Proof.
  rewrite event_data_sorted. destruct e as [schema ex seq ty sk sv sh rv te su au rd cl pl pr eh].
  unfold event_from_data. intros H.
  apply bind_Ok in H as (fs & Hfs & H). 
  match type of Hfs with context [if ?b then _ else _] => destruct b; [| discriminate Hfs] end.
  apply Ok_inj in Hfs as <-. apply bind_Ok in H as ([] & _ & H).
  do 7 (apply bind_Ok in H as (? & Hx & H); apply event_text_Ok in Hx as [[=] ?]; subst).
  do 3 (apply bind_Ok in H as (? & Hx & H); apply event_optional_text_Ok in Hx as [Hx ?];
        injection Hx as Hx; apply nullable_inj in Hx; subst).
  split; repeat constructor; assumption.
Qed.

Lemma unidentified_unreadable r : unique_keys (JObj (ae_payload (au_event r))) = true ->
  ~ identified (au_event r) -> unreadable_line (canonical_json (_record_to_data r)).
Proof.
  intros Hu Hn. split; [apply canonical_no_break |]. intros n. unfold parse_line.
  rewrite bool_decide_false.
  2: { intros E. pose proof (record_data_sorted r) as Hs. unfold canonical_json in E.
       rewrite Hs in E. discriminate E. }
  cbn [raise_if mbind result_bind]. rewrite json_loads_canonical; [| | apply record_utf8].
  2: { pose proof (event_unique _ Hu) as H.
       change (unique_keys (_record_to_data r)) with (true && (true && (true && (true &&
         (unique_keys (event_to_data (au_event r)) && true))))). by rewrite H. }
  cbn [mbind result_bind].
  assert (exists e, _record_from_data (sorted_keys (_record_to_data r)) = Err e
                    /\ ex_class e = ValueError) as (e & -> & Hc).
  { pose proof (event_raises_value (sorted_keys (event_to_data (au_event r)))) as Hv.
    destruct (event_from_data (sorted_keys (event_to_data (au_event r)))) as [e'|e] eqn:E;
      [destruct (Hn (read_identified _ _ E)) |].
    exists e. split; [| by apply Hv]. rewrite record_data_sorted. unfold _record_from_data.
    eapply bind_Err. right. eexists. split; [reflexivity |].
    eapply bind_Err. right. exists tt. split; [reflexivity |].
    eapply bind_Err. left. exact E. }
  rewrite Hc. eexists. split; reflexivity.
Qed.

(** C29. The store accepts what it cannot read. An event without one of the
    texts that identify it (an empty Skill id, say) that is otherwise in order,
    with its own hash and at its place in the chain, is appended without an
    error, whatever the log holds; from then on no event of any execution can
    be read from the file, and no store opens over it. *)
Theorem unidentified_append_unreadable (s : JsonlAuditStore) (log : list _StoredAuditRecord)
    (e : AuditEvent) :
  represents s log -> reliable s ->
  event_verify e = Ok tt -> continues (events_of log) e = Ok tt ->
  unique_keys (JObj (ae_payload e)) = true ->
  (exists x, add_days (js_now s (js_reads s)) (ae_retention_days e) = Ok x) ->
  ~ identified e ->
  exists s', audit_append e s = (Ok tt, s')
    /\ (forall t x, t <> "" -> x <> "" -> exists err s'', read_execution t x s' = (Err err, s'')
          /\ ex_class err = AuditIntegrityError)
    /\ forall now io, io 0 = IoDone -> exists err, open_store (js_file s') now io = Err err
          /\ ex_class err = AuditIntegrityError.
Proof.
  intros [H1 H2 H3 H4] Hr Hv Hk Hu Hx Hn.
  rewrite <- (check_chain_continues _ _ _ H3 H4) in Hk.
  destruct (append_writes s e Hv Hk (rl_aware s Hr _) Hx) as (r & <- & E).
  cbv zeta in E. rewrite (rl_io s Hr), H1 in E. eexists. split; [exact E |].
  pose proof (unidentified_unreadable r Hu Hn) as Hl. split; [| intros now io; by apply bad_line_open].
  intros t x Ht Hx'. match type of E with _ = (_, ?s1) => set (s' := s1) end.
  destruct (bad_line_read s' log _ H2 Hl eq_refl (rl_io s Hr _)) as (err & s'' & Hrd & Hc).
  exists err, s''. split; [| exact Hc]. unfold read_execution, check_identity, lift, mbind, M_bind.
  apply String.eqb_neq in Ht, Hx'. rewrite Ht, Hx'. cbn [raise_if result_bind].
  unfold _read_events, mbind, M_bind. by rewrite Hrd.
Qed.

(** ** One execution's events *)

Definition audit_disk : nat -> io_answer := fun _ => IoDone.

Definition empty_store : JsonlAuditStore := MkJsonlAuditStore None ∅ (fun _ => noon) 0 audit_disk 0.

Lemma empty_represents now io : represents (MkJsonlAuditStore None ∅ now 0 io 0) [].
Proof. split; [done | apply List.Forall_nil | intros k; exact I | intros k; cbn [js_tails]; by rewrite lookup_empty]. Qed.

Lemma empty_reliable : reliable empty_store.
Proof. split; intros n; [done | vm_compute; reflexivity | by exists 0%Z]. Qed.

Lemma example_event_verified : event_verify example_event = Ok tt.
Proof. exact (proj1 (proj2 (proj2 example_events_chained))). Qed.

Lemma example_appended : op_ok (OpAppend example_event).
Proof. split; [split; repeat constructor; discriminate | reflexivity]. Qed.

Lemma audit_store_refines_log_witness : exists s', run_op (OpAppend example_event) empty_store = (Ok Done, s')
  /\ exists r, represents s' [stored_record r] /\ au_event r = example_event.
Proof.
  destruct (proj2 audit_store_refines_log (OpAppend example_event) empty_store []
    (empty_represents _ _) empty_reliable example_appended) as (s' & H1 & H2 & _).
  assert (log_op (OpAppend example_event) noon []
    = (Ok Done, [stored_record (MkStoredAuditRecord example_event noon
                   (MkDatetime (dt_wall noon + ae_retention_days example_event * us_per_day) (Some 0%Z)))])) as E.
  { cbn [log_op]. unfold log_append. rewrite example_event_verified. reflexivity. }
  change (js_now empty_store (js_reads empty_store)) with noon in H1, H2. rewrite E in H1, H2.
  exists s'. split; [exact H1 |]. eexists. split; [exact H2 | reflexivity].
Defined.

Lemma torn_append_unreadable_witness :
  exists s1 s2, js_tails s1 = ∅
    /\ audit_append example_event s1 = (Ok tt, s2)
    /\ exists err, open_store (js_file s2) (fun _ => noon) audit_disk = Err err.
Proof.
  destruct (torn_append_unreadable
    (MkJsonlAuditStore None ∅ (fun _ => noon) 0 (fun n => if n =? 0 then IoFailed (Some 1) else IoDone) 0)
    [] example_event) as (e & s1 & s2 & _ & _ & H1 & H2 & H3).
  - exact (empty_represents _ _).
  - exact example_event_verified.
  - reflexivity.
  - reflexivity.
  - reflexivity.
  - intros n. split; [by exists 0%Z | by eexists].
  - destruct (H3 (fun _ => noon) audit_disk eq_refl) as (err & H4 & _).
    exists s1, s2. split; [exact H1 |]. split; [exact H2 |]. exists err. exact H4.
Defined.

(** The example event without its Skill id, as [create] makes it. *)
Definition unidentified_draft : AuditEvent :=
  MkAuditEvent AUDIT_SCHEMA_VERSION (ae_execution_id example_event) 1
    (ae_event_type example_event) "" (ae_skill_version example_event)
    (ae_semantic_hash example_event) (ae_runtime_version example_event) None None None
    (ae_retention_days example_event) (ae_classification example_event) [] None "".

Definition unidentified_event : AuditEvent :=
  set_event_hash (event_hash_of unidentified_draft) unidentified_draft.

Lemma unidentified_created : create_event unidentified_draft = Ok unidentified_event.
Proof. reflexivity. Qed.

Lemma unidentified_append_unreadable_witness :
  exists s', audit_append unidentified_event empty_store = (Ok tt, s')
    /\ exists err, open_store (js_file s') (fun _ => noon) audit_disk = Err err.
Proof.
  destruct (unidentified_append_unreadable empty_store [] unidentified_event)
    as (s' & H1 & _ & H2).
  - exact (empty_represents _ _).
  - exact empty_reliable.
  - exact (proj2 (create_event_verify unidentified_draft _ eq_refl unidentified_created)).
  - reflexivity.
  - reflexivity.
  - by eexists.
  - intros [H _]. rewrite !Forall_cons in H. by destruct H as (_ & _ & [] & _).
  - exists s'. split; [exact H1 |]. destruct (H2 (fun _ => noon) audit_disk eq_refl) as (err & H & _).
    by exists err.
Defined.

(** A file that holds the example event alone. *)
Definition example_record : _StoredAuditRecord :=
  MkStoredAuditRecord example_event noon
    (MkDatetime (dt_wall noon + ae_retention_days example_event * us_per_day) (Some 0%Z)).

Lemma example_settled : settled (stored_record example_record).
Proof.
  split; [apply stored_valid | unfold stored_record; cbn [au_event au_stored_at au_expires_at]; by rewrite stored_event_twice].
  split; cbn [au_event au_stored_at au_expires_at]; [| reflexivity | vm_compute; reflexivity | by exists 0%Z | reflexivity].
  split; [repeat constructor; discriminate |]. split; [repeat constructor; discriminate |].
  split; [reflexivity | exact example_event_verified].
Qed.

Definition example_line : bytes := record_line example_record.

Lemma example_opens : exists s, open_store (Some example_line) (fun _ => noon) audit_disk = Ok s
  /\ is_Some (js_tails s !! event_key example_event).
Proof.
  assert (chains (events_of [stored_record example_record])) as Hc.
  { apply (continues_chains [] (au_event (stored_record example_record))); [intros k; exact I | | reflexivity].
    cbn [au_event stored_record]. rewrite stored_verify. exact example_event_verified. }
  destruct (load_run (MkJsonlAuditStore (Some example_line) ∅ (fun _ => noon) 0 audit_disk 0)
    [stored_record example_record])
    as (s & Hl & [_ _ _ Ht] & _); [done | by constructor; [exact example_settled | constructor] | exact Hc | |].
  { change (example_line = record_line (stored_record example_record) ++ []). by rewrite app_nil_r, line_stored. }
  exists s. split; [unfold open_store; by rewrite Hl |].
  specialize (Ht (event_key example_event)). unfold of_key, events_of in Ht. cbn [map List.filter] in Ht.
  rewrite bool_decide_true in Ht by reflexivity. cbn in Ht. by destruct (js_tails s !! _).
Qed.

Lemma audit_file_tamper_evident_witness : exists s e records,
  open_store (Some example_line) (fun _ => noon) audit_disk = Ok s
  /\ js_tails s !! event_key example_event = Some e
  /\ parse_lines 1 (splitlines example_line) = Ok records /\ chains (events_of records).
Proof.
  destruct example_opens as (s & Hs & [e He]).
  destruct (audit_file_tamper_evident example_line example_line _ _ s _ _ s _ e e Hs Hs He He eq_refl)
    as (rs & _ & H1 & _ & H2 & _).
  exists s, e, rs. split; [exact Hs |]. split; [exact He |]. split; [exact H1 | exact H2].
Defined.
