(* ===== verification/TrustedWrite.v ===== *)
(** * WRITE behind the trust preflight ([src/nsl/write_execution.py])

    [TrustedWriteExecutionCoordinator] and [TrustedCommitAwareWriteExecutor]:
    the executor of [WriteExecution] behind the preflight of [Trust]. *)

From S2P Require Import Prelude Digest Json Core Values DataProtection Ir NsoSchema NsoCodec.
From S2P Require Import SchemaFacts Discipline SchemaErrors Security RuntimeModels AuditTrail WriteRecords.
From S2P Require Import Artifacts Idempotency Validation Runtime HashTexts WriteExecution Trust.

Section Trusted.
Context (ports : WritePorts).

(** The checks before the delegate is called: the preflight, and the bindings
    of its evidence to the execution. *)
Definition trust_gate (artifact : VerifiedSkillArtifact) (profile : ExecutionTrustProfile)
    (trust_checked_at : datetime) (c : ExecutionContext) : result unit :=
  evidence ← preflight_validate artifact profile trust_checked_at;
  _ ← blocked_if (negb (String.eqb (tv_tenant_id evidence) (ctx_tenant_id c)))
        "TRUST_TENANT_BINDING_MISMATCH" "trust profile tenant does not match the execution context";
  blocked_if (negb (String.eqb (tv_skill_semantic_hash evidence) (sk_semantic_hash (ctx_skill c))))
    "TRUST_SKILL_BINDING_MISMATCH" "trusted Skill does not match the execution context".

(** [TrustedWriteExecutionCoordinator.execute] *)
Definition trusted_execute (artifact : VerifiedSkillArtifact) (profile : ExecutionTrustProfile)
    (trust_checked_at : datetime) (request : WriteCallRequest) (decision : WriteGuardDecision)
    (requested_at : datetime) : Writing (reply WriteExecutionOutcome) :=
  c ← context;
  _ ← lift (trust_gate artifact profile trust_checked_at c);
  execute ports request decision requested_at.

(** [TrustedCommitAwareWriteExecutor.execute] *)
Definition trusted_commit_aware_execute (artifact : VerifiedSkillArtifact)
    (profile : ExecutionTrustProfile) (trust_checked_at : datetime) (request : WriteCallRequest)
    (decision : WriteGuardDecision) (requested_at recorded_at : datetime) : Writing WriteCommitDecision :=
  record ← lift (attempt_from_request request requested_at);
  outcome ← (fun s =>
    let '(invocation, s') :=
      trusted_execute artifact profile trust_checked_at request decision requested_at s in
    (observe request invocation, s'));
  finalize ports request (attempt_record_hash record) outcome recorded_at.
End Trusted.

(** ** The gate *)

(** The errors of the preflight are not those of a provider. *)
Definition sober {A} (r : result A) : Prop :=
  forall e, r = Err e -> isinstance_exn (ex_class e) ProviderInvocationUncertainError = false.

Lemma sober_Ok {A} (a : A) : sober (Ok a).
Proof. discriminate. Qed.

Lemma sober_bind {A B} (m : result A) (f : A -> result B) :
  sober m -> (forall a, sober (f a)) -> sober (m ≫= f).
Proof. intros Hm Hf e [H | (a & _ & H)]%bind_Err; [by apply Hm | by eapply Hf]. Qed.

Lemma sober_raise_if b cls msg :
  isinstance_exn cls ProviderInvocationUncertainError = false -> sober (raise_if b cls msg).
Proof. intros H. destruct b; [by intros e [= <-] | apply sober_Ok]. Qed.

Lemma sober_blocked b code msg : sober (blocked_if b code msg).
Proof. destruct b; [by intros e [= <-] | apply sober_Ok]. Qed.

Lemma sober_text cls v name : isinstance_exn cls ProviderInvocationUncertainError = false ->
  sober (required_text cls v name).
Proof.
  intros H. unfold required_text. apply sober_bind; [by apply sober_raise_if | intros _].
  apply sober_bind; [| intros; apply sober_Ok]. unfold ensure_no_credential_material.
  destruct (find_credential_path _ _); [by intros e [= <-] | apply sober_Ok].
Qed.

Lemma sober_sha cls v name : isinstance_exn cls ProviderInvocationUncertainError = false ->
  sober (sha256_text cls v name).
Proof.
  intros H. unfold sha256_text. apply sober_bind; [by apply sober_text | intros t].
  apply sober_bind; [by apply sober_raise_if | intros; apply sober_Ok].
Qed.

Lemma sober_optional o name : sober (optional_text ValueError o name).
Proof.
  destruct o; [| apply sober_Ok]. apply sober_bind; [by apply sober_text | intros; apply sober_Ok].
Qed.

Lemma sober_refuses {A} (r : result A) : refuses r -> sober r.
Proof.
  intros H e He. specialize (H e He). destruct (ex_class e); vm_compute in H |- *; congruence.
Qed.

Lemma sober_encode skill : sober (nso_encode skill).
Proof.
  apply sober_refuses. unfold nso_encode. cbv zeta. apply refuses_bind.
  { unfold ensure_no_credential_material.
    destruct (find_credential_path _ _); [by apply refuses_raise | apply refuses_Ok]. }
  intros [] _. apply refuses_bind; [apply schema_refuses, document_only | intros; apply refuses_Ok].
Qed.

Lemma sober_instant d name : sober (Trust._utc_instant d name).
Proof. unfold Trust._utc_instant. by destruct (in_utc d); [apply sober_Ok | intros e [= <-]]. Qed.

Lemma sober_new_evidence e : sober (new_TrustPreflightEvidence e).
Proof.
  unfold new_TrustPreflightEvidence.
  repeat first [ apply sober_Ok | by apply sober_text | by apply sober_sha | apply sober_optional
               | apply sober_instant | apply sober_bind; [| intros ?] ].
Qed.

Lemma sober_preflight a p now : sober (preflight_validate a p now).
Proof.
  unfold preflight_validate. apply sober_bind; [apply sober_instant |].
  intros at_. apply sober_bind.
  { unfold _validate_artifact_identity, except_value_error. apply sober_bind.
    - destruct (nso_encode _) as [b|e] eqn:E; [apply sober_Ok |].
      destruct (isinstance_exn (ex_class e) ValueError); [by intros e' [= <-] |].
      intros e' [= <-]. by eapply sober_encode.
    - intros b. cbv zeta. apply sober_bind; [apply sober_blocked | intros; apply sober_blocked]. }
  intros u. cbv zeta. destruct (va_trust a) as [t|].
  - apply sober_bind; [| intros; apply sober_new_evidence].
    unfold _validate_trust_identity, package_id_for.
    repeat first [ apply sober_Ok | apply sober_blocked | by apply sober_sha
                 | apply sober_bind; [| intros ?] ].
    destruct (tp_max_trust_age_seconds p) as [age|]; [| apply sober_Ok].
    apply sober_bind; [| intros; apply sober_blocked]. unfold add_seconds.
    by destruct (_ <? _)%Z; [apply sober_Ok | intros e [= <-]].
  - repeat first [ apply sober_new_evidence | apply sober_blocked | apply sober_bind; [| intros ?] ].
Qed.

Lemma sober_gate a p now c : sober (trust_gate a p now c).
Proof.
  apply sober_bind; [apply sober_preflight | intros e].
  apply sober_bind; [apply sober_blocked | intros; apply sober_blocked].
Qed.

(** The trusted executor is a gate before the executor. *)
Lemma trusted_gates ports artifact profile checked_at request decision requested_at recorded_at c h :
  trusted_commit_aware_execute ports artifact profile checked_at request decision requested_at recorded_at (c, h)
  = match attempt_from_request request requested_at, trust_gate artifact profile checked_at c with
    | Err e, _ | Ok _, Err e => (Err e, (c, h))
    | Ok _, Ok _ => commit_aware_execute ports request decision requested_at recorded_at (c, h)
    end.
Proof.
  unfold trusted_commit_aware_execute, commit_aware_execute.
  destruct (attempt_from_request request requested_at) as [record|e]; [| reflexivity].
  destruct (trust_gate artifact profile checked_at c) as [[]|e] eqn:E.
  - assert (trusted_execute ports artifact profile checked_at request decision requested_at (c, h)
      = execute ports request decision requested_at (c, h)) as Hx.
    { unfold trusted_execute, context, mbind, M_bind, lift. cbn. by rewrite E. }
    unfold mbind, M_bind, lift. by rewrite Hx.
  - assert (trusted_execute ports artifact profile checked_at request decision requested_at (c, h) = (Err e, (c, h)))
      as Hx by (unfold trusted_execute, context, mbind, M_bind, lift; cbn; by rewrite E).
    unfold mbind, M_bind, lift. rewrite Hx. unfold observe. by rewrite (sober_gate _ _ _ _ _ E).
Qed.

(** What the gate asks for: an artifact that the preflight admits, for the
    tenant and the Skill of the execution. *)
Definition trusted_for (artifact : VerifiedSkillArtifact) (profile : ExecutionTrustProfile)
    (checked_at : datetime) (c : ExecutionContext) : Prop :=
  admissible artifact profile checked_at
  /\ tp_tenant_id profile = ctx_tenant_id c
  /\ sk_semantic_hash (va_skill artifact) = sk_semantic_hash (ctx_skill c).

Lemma trust_gate_Ok artifact profile checked_at c u :
  constructed artifact profile ->
  trust_gate artifact profile checked_at c = Ok u <-> trusted_for artifact profile checked_at c.
Proof.
  intros Hc. destruct u. unfold trust_gate. split.
  - intros (ev & Hev & E)%bind_Ok. apply bind_Ok in E as ([] & H1%blocked_if_Ok & H2%blocked_if_Ok).
    apply negb_false_iff, String.eqb_eq in H1, H2.
    apply (preflight_admits _ _ _ _ Hc) in Hev as [Had ->]. exact (conj Had (conj H1 H2)).
  - intros (Had & H1 & H2).
    apply (bind_intro (preflight_evidence artifact profile checked_at)).
    { apply (preflight_admits _ _ _ _ Hc). exact (conj Had eq_refl). }
    apply (bind_intro tt); apply blocked_if_Ok, negb_false_iff, String.eqb_eq; [exact H1 | exact H2].
Qed.

(** C24. Exactly the executor, behind exactly the gate. For an artifact and a
    profile that their constructors accept, [TrustedCommitAwareWriteExecutor]
    does what [CommitAwareWriteExecutor] does when the preflight admits the
    artifact for the tenant and the Skill of the execution; otherwise it
    raises, calls neither the evidence ports nor the provider, and leaves the
    context as it was: a refused preflight is never taken for an uncertain
    provider. *)
Theorem trusted_executor_exact ports artifact profile checked_at request decision requested_at recorded_at c h :
  constructed artifact profile ->
  let run := trusted_commit_aware_execute ports artifact profile checked_at request decision
               requested_at recorded_at (c, h) in
  (trusted_for artifact profile checked_at c ->
   run = commit_aware_execute ports request decision requested_at recorded_at (c, h))
  /\ (~ trusted_for artifact profile checked_at c -> exists e, run = (Err e, (c, h))).
Proof.
  intros Hc. cbv zeta. rewrite trusted_gates. pose proof (trust_gate_Ok _ _ checked_at c tt Hc) as Hg.
  split; intros H.
  - rewrite (proj2 Hg H). unfold commit_aware_execute, lift, mbind, M_bind.
    destruct (attempt_from_request request requested_at); reflexivity.
  - destruct (attempt_from_request request requested_at) as [record|e]; [| by exists e].
    destruct (trust_gate artifact profile checked_at c) as [[]|e]; [| by exists e].
    destruct (H (proj1 Hg eq_refl)).
Qed.

(** C2. No production WRITE reaches a provider untrusted. If the trusted executor,
    under a production profile and for an artifact whose Skill was decoded and
    writes, calls a provider, then it is for this request, under an [ALLOWED]
    decision, after a durable request record, in the tenant of the profile and
    for the Skill of the artifact; and the artifact is covered by verified
    evidence of the package, policy, bytes and semantics that the profile
    expects, from a publisher and a key it trusts, within its age. *)
Theorem trusted_provider_call ports artifact profile checked_at request decision requested_at recorded_at
    c h r c' h' data q :
  constructed artifact profile -> tp_environment profile = PRODUCTION ->
  nso_decode data = Ok (va_skill artifact) -> existsb is_write (skill_sites (va_skill artifact)) = true ->
  trusted_commit_aware_execute ports artifact profile checked_at request decision requested_at recorded_at (c, h)
    = (r, (c', h')) ->
  ProviderCall q ∈ drop (length h) h' ->
  q = request /\ gd_eligibility decision = ALLOWED /\ bound_to request c
  /\ (exists record, attempt_from_request request requested_at = Ok record /\ durable_receipt ports h record)
  /\ tp_tenant_id profile = wc_tenant_id request
  /\ sk_semantic_hash (va_skill artifact) = sk_semantic_hash (ctx_skill c)
  /\ exists t age bytes, va_trust artifact = Some t /\ te_trust_status t = TRUST_VERIFIED
       /\ tp_expected_package_id profile = Some (te_package_id t)
       /\ tp_trust_policy_id profile = Some (te_trust_policy_id t)
       /\ nso_encode (va_skill artifact) = Ok bytes
       /\ tp_expected_artifact_hash profile = Some (sha256_ref bytes)
       /\ te_publisher_id t ∈ tp_trusted_publisher_ids profile
       /\ te_signing_key_id t ∈ tp_trusted_signing_key_ids profile
       /\ tp_max_trust_age_seconds profile = Some age
       /\ (instant (te_verified_at t) <= instant checked_at < instant (te_verified_at t) + age * 1000000)%Z.
Proof.
  intros Hc Hp Hd Hw H Hq. rewrite trusted_gates in H.
  assert (ProviderCall q ∉ drop (length h) h) as Hno by (rewrite drop_all; apply not_elem_of_nil).
  destruct (attempt_from_request request requested_at) as [record|e] eqn:Ea; [| by injection H as _ _ <-].
  destruct (trust_gate artifact profile checked_at c) as [[]|e] eqn:E; [| by injection H as _ _ <-].
  destruct (provider_calls _ _ _ _ _ _ _ _ _ _ H) as (events & -> & Hev).
  rewrite drop_app_length in Hq. destruct Hev as [Hev | (rec & rest & -> & Hrest & Hr & Hg & Hb & Hdur)];
    [by destruct (Hev q) |].
  apply (trust_gate_Ok _ _ _ _ _ Hc) in E as (Had & H1 & H2).
  destruct (production_covered _ _ _ _ _ Hc Hp Hd Hw
    (proj2 (preflight_admits _ _ _ _ Hc) (conj Had eq_refl)))
    as (t & age & bytes & T1 & _ & T2 & _ & T3 & T4 & T5 & T6 & _ & T7 & T8 & T9 & T10).
  split; [| split; [exact Hg | split; [exact Hb |]]].
  { apply elem_of_cons in Hq as [Hq | Hq]; [discriminate Hq |].
    apply elem_of_cons in Hq as [Hq | Hq]; [by injection Hq | destruct (Hrest q Hq)]. }
  rewrite Ea in Hr. apply Ok_inj in Hr as <-.
  split; [exists record; split; [reflexivity | exact Hdur] |].
  split; [destruct Hb as (_ & -> & _); exact H1 |]. split; [exact H2 |].
  exists t, age, bytes. exact (conj T1 (conj T2 (conj T3 (conj T4 (conj T5 (conj T6 (conj T7 (conj T8 (conj T9 T10))))))))).
Qed.

(** ** A signed purchase order that is written *)

Definition po_context : ExecutionContext :=
  let c := example_reserved_context in
  MkExecutionContext po_skill (ctx_request c) (ctx_runtime_clock c) (ctx_clock_reads c)
    (ctx_started_ns c) (ctx_identity c) (ctx_security_context c) (ctx_input_values c)
    (ctx_context_values c) (ctx_frames c) (ctx_check_frames c) (ctx_checks c) (ctx_outputs c)
    (ctx_resources c) (ctx_data_completeness c) (ctx_invocation_counter c) (ctx_foreach_depth c)
    (ctx_current_node_id c) (ctx_approvals c) (ctx_writes c) (ctx_idempotency c) (ctx_checkpoint c).

Lemma po_trusted : trusted_for po_artifact po_profile po_now po_context.
Proof.
  destruct po_preflight as [e H]. apply (preflight_admits _ _ _ _ po_constructed) in H as [H _].
  split; [exact H |]. split; reflexivity.
Qed.

Lemma po_bound : bound_to example_call_request po_context.
Proof. repeat split. Qed.

(** An allowed, bound and durably requested WRITE reaches the provider. *)
Lemma commit_aware_calls ports request decision requested_at recorded_at c h record :
  gd_eligibility decision = ALLOWED -> bound_to request c ->
  attempt_from_request request requested_at = Ok record -> durable_receipt ports h record ->
  exists r c' h', commit_aware_execute ports request decision requested_at recorded_at (c, h) = (r, (c', h'))
    /\ ProviderCall request ∈ drop (length h) h'.
Proof.
  intros Hd Hb Hr Hdur.
  unfold commit_aware_execute, lift. unfold mbind, M_bind. rewrite Hr.
  rewrite (execute_invoked _ _ _ _ _ _ _ Hd Hb Hr Hdur).
  set (h2 := h ++ [RecordRequested record; ProviderCall request]).
  assert (forall rest, ProviderCall request ∈ drop (length h) (h2 ++ rest)) as Hin.
  { intros rest. unfold h2. rewrite <- app_assoc, drop_app_length. set_solver. }
  destruct (observe request _) as [o|e].
  2: { eexists _, _, _. split; [reflexivity |]. specialize (Hin []). by rewrite app_nil_r in Hin. }
  pose proof (finalize_finalization ports request (attempt_record_hash record) o recorded_at
    (update_checkpoint mark_durable c) h2) as Hf.
  destruct (finalize _ _ _ _ _ _) as [r [c' h']]. eexists _, _, _. split; [reflexivity |].
  destruct (finalization_history _ _ _ _ _ _ _ _ _ _ Hf) as [-> | [o' ->]]; [| apply Hin].
  specialize (Hin []). by rewrite app_nil_r in Hin.
Qed.

Lemma trusted_executor_exact_witness :
  trusted_commit_aware_execute timeout_ports po_artifact po_profile po_now example_call_request allowed
    (utc 3000) (utc 4000) (po_context, [])
  = commit_aware_execute timeout_ports example_call_request allowed (utc 3000) (utc 4000) (po_context, []).
Proof.
  exact (proj1 (trusted_executor_exact timeout_ports po_artifact po_profile po_now example_call_request
    allowed (utc 3000) (utc 4000) po_context [] po_constructed) po_trusted).
Defined.

Lemma trusted_provider_call_witness :
  exists r c' h', trusted_commit_aware_execute timeout_ports po_artifact po_profile po_now
      example_call_request allowed (utc 3000) (utc 4000) (po_context, []) = (r, (c', h'))
    /\ ProviderCall example_call_request ∈ h'
    /\ exists t, va_trust po_artifact = Some t /\ te_trust_status t = TRUST_VERIFIED.
Proof.
  destruct (commit_aware_calls timeout_ports example_call_request allowed (utc 3000) (utc 4000) po_context []
    (attempt_of example_call_request (utc 3000)) eq_refl po_bound eq_refl (acknowledging_durable _ _ _))
    as (r & c' & h' & E & Hq).
  assert (trusted_commit_aware_execute timeout_ports po_artifact po_profile po_now example_call_request
    allowed (utc 3000) (utc 4000) (po_context, []) = (r, (c', h'))) as Ht.
  { rewrite trusted_gates, (proj2 (trust_gate_Ok _ _ po_now po_context tt po_constructed) po_trusted).
    exact E. }
  exists r, c', h'. split; [exact Ht |]. split; [exact Hq |].
  pose proof po_encodes as He. destruct (nso_encode po_skill) as [data|] eqn:Ed; [| discriminate He].
  destruct (trusted_provider_call _ _ _ _ _ _ _ _ _ _ _ _ _ data example_call_request po_constructed eq_refl
    (decode_encoded_skill po_skill data po_skill_ok po_hashes Ed) eq_refl Ht Hq)
    as (_ & _ & _ & _ & _ & _ & t & age & bytes & H1 & H2 & _).
  exists t. split; [exact H1 | exact H2].
Defined.
